(* ===== verification/_CoqProject ===== *)
-Q . S2P
Prelude.v
Defs.v
Bytes.v
Wait.v
Ring.v
Pipe.v
Heap.v
Phys.v
Paging.v
Mmap.v
Interfaces.v
Slab.v
Dll.v
Cache.v
Blk.v
Vnode.v
Vfs.v
VfsOps.v
ListHead.v
Task.v
Sched.v
SchedInv.v
Kernel.v
Thread.v
Process.v
ProcessInv.v
ProcessTree.v
Context.v
Timer.v
Ext2.v
Ext2Alloc.v
Ext2File.v
Ext2Data.v
Ext2Spec.v
Strings.v
Format.v
Ext2Dir.v
Ext2DirSpec.v
Ext2Blk.v
Console.v
Tty.v
Hash.v
Elf.v
Ram.v
Fd.v
Exec.v
Config.v
Dev.v
Tar.v
