(* ===== verification/Prelude.v ===== *)
(** * A verification library for the Yggdrasil kernel (amd64)

    Yggdrasil is a small Unix-like kernel in C.  This library models its core as
    executable functions on explicit states and proves what makes it correct.

    ** How code is modelled

    A C function that reads or changes state is a command [cmd S A]: from a state it
    returns a value and a state ([Ret]), stops in [panic] or [_assert] ([Panic]),
    touches memory it must not touch ([Fault]), or runs out of the fuel given to a loop
    ([Diverged]).  Addresses and machine integers are [Z], wrapped to their width by
    [u8], [u32], [u64] and the signed versions wherever the C code can overflow.
    Objects live in stores indexed by address, so aliasing and dangling pointers are
    those of the C code.  A spin lock makes the code it guards one step; a function
    that sleeps or drops its lock is cut there, and the pieces are interleaved by a
    step relation.  Code that is not ours to read (drivers, file systems' on-disk
    formats, user programs) is a class or a parameter with its documented behaviour.

    ** Parts, files and theorems

    - [Prelude], [Defs], [Bytes]: the command monad, machine integers, list lemmas,
      automation, shared constants; byte buffers and little-endian fields.
    - [Wait], [Ring], [Pipe] ([sys/wait.c], [sys/char/ring.c], [sys/char/pipe.c]): one
      notifier, byte rings, and a pipe between a reader and a writer that may block, be
      interrupted and close at any point.  In every interleaving the bytes arrive in
      order, nobody sleeps without a reason, and every operation returns.
    - [Heap] ([arch/amd64/mm/heap.c]): the pointer code refines a first-fit allocator on
      a list of blocks; every reachable heap is well formed and coalesced.
    - [Phys] ([arch/amd64/mm/phys.c]): boot establishes, and allocation and release
      preserve, that counters and page array agree; allocation takes the lowest frame.
    - [Paging], [Mmap] ([arch/amd64/mm/map.c], [vmalloc.c], [sys/mem/shmem.c],
      [do_pfault]): the four-level tables stay a tree; mapping changes exactly one
      translation; the search for address ranges is first fit; copy on write.
    - [Interfaces]: [PageAlloc], what a client of the frame allocator may assume, with
      [Phys] as its instance; [BlkDev], what the block layer assumes of a driver.
    - [Slab] ([sys/mem/slab.c]): on [PageAlloc]; objects are fresh, zeroed, aligned and
      disjoint, and objects and frames are accounted for exactly.
    - [Dll], [Cache], [Blk] ([sys/block/*.c]): the block cache refines an LRU list and
      is transparent: reads and writes through it act on the medium.
    - [Vnode], [Vfs], [VfsOps] ([fs/*.c]): the vnode tree, permission checks, path
      lookup, links, mounts and the file operations, on a class of file systems
      ([FsOps]).  Lookup computes a specified walk and always returns in a tree held in
      memory; printing a path and looking it up are inverse; mounts nest properly.
    - [ListHead] ([include/sys/list.h]): the circular lists refine mathematical lists.
    - [Task], [Sched], [SchedInv] ([sys/sched.c], [sys/thread.c], [sys/wait.c]): threads
      and run queues of up to four processors.  No thread runs twice, queues stay
      well linked, round-robin order, blocking hands over; the mutual recursion of
      [sched_unqueue] and [thread_check_signal] ends.
    - [Kernel], [Thread], [Process], [ProcessInv], [ProcessTree] ([sys/thread.c],
      [sys/process.c], [sys/wait.c]): creation, fork, signals, exit and waitpid, on the
      class [Kernel] of what they use of memory and files, with an instance made of the
      components above.  First switches enter where they should, children get fresh
      identifiers, and burying a child keeps the family tree consistent.
    - [Context] ([arch/amd64/sched_s.S]): switching away and back, and delivering a
      signal and returning from its handler, are transparent to the thread.
    - [Timer] ([arch/amd64/hw/timer.c], [sys/time.c]): ticks wake exactly the sleepers
      that are due; calendar arithmetic.
    - [Ext2], [Ext2Alloc], [Ext2File], [Ext2Data], [Ext2Spec], [Ext2Dir], [Ext2DirSpec],
      [Ext2Blk] ([fs/ext2/*.c]): the on-disk format, the bitmaps, block maps of inodes,
      reading, writing and resizing files, directory blocks and the vnode operations, on
      the class [BlkIO] of a device of bytes.  A file is the concatenation of its blocks:
      writes splice it, reads return its range; directories are lists of entries that
      lookup searches, insertion extends and deletion removes from.  [Ext2Spec] gives
      [BlkIO] on a plain image and [Ext2Blk] on the cached device of [Blk].
    - [Strings], [Format] ([sys/string.c], [sys/ctype.c], [sys/snprintf.c]): overlapping
      moves, C strings, bounded formatting and number parsing as its inverse.
    - [Console], [Tty] ([sys/console.c], [sys/char/tty.c], [line.c], [input.c]): text on a
      console is a window on an endless sheet, escape sequences stay inside the buffer,
      and a typed line is read as it was edited.
    - [Hash] ([sys/hash.c]): on the links of [ListHead]; the table refines a finite map.
    - [Elf] ([arch/amd64/binfmt_elf.c]): on the memory of [Mmap] and the class [ElfFile]
      of an open file; the process sees the bytes of the segments and zeros.
    - [Ram] ([fs/ram.c]): files in memory on a store of pages and an allocator of the class
      [PageAlloc]; a file is a list of bytes, its index holds one frame per block and
      per table and truncation returns those it no longer needs.  The loops over blocks
      have the number of bytes left as fuel: every turn moves at least one byte.
    - [Fd] ([sys/sys_file.c], mounting of [sys/sys_sys.c], making pipes of
      [sys/char/pipe.c]): the descriptor tables of processes on the files of [VfsOps]; a
      system call is one step and a checked user pointer is the value it points to.
      An open file's count is the number of descriptors that name it, over open, dup,
      pipe, close, fork, exec and exit.
    - [Exec] ([sys/execve.c]): the argument and environment vectors on the memory of
      [Mmap]: what the new program finds there is what the caller passed.  The copy of a
      string has its length plus one as fuel.
    - [Tar] ([fs/ram_tar.c], mounting of [fs/ram.c]): the root file system made from a tar
      image, on the files of [Ram].  A file reads as the bytes of the image, and the path
      the first pass makes is the path the second one finds.  The passes take fuel, since
      there are images on which they never end ([tar_size_loops]).
    - [Config] ([sys/config.c]): the command line, cut into options in place; following
      the pointers it leaves gives what the line means.
    - [Dev] ([sys/dev.c], [sys/block/part_gpt.c], partitions of [sys/block/blk.c]): the
      directory of devices on the tree of [Vnode] and the scan for partitions, on the class
      [DiskIO] of a readable disk, with the cached device of [Blk] as an instance.

    Theorems about flaws of the code ([phys_boot_above_array_faults],
    [blk_read_unaligned_skips], [unqueue_race_loses_thread], [sleep_dropped_by_tick] and
    others) state what the code does on the inputs concerned.

    ** Bounds and fuel

    Loops over arrays are structural.  Loops over linked structures take the number of
    nodes in the store plus one as fuel, which no list without a cycle exceeds; the
    theorems show [Ret], so the fuel suffices.  [slab_calloc_int] goes around at most
    twice (fuel 2); [sched_unqueue] and [thread_check_signal] nest at most three deep
    ([unq_fuel]); [waitpid] has [wait_fuel] rounds per wake-up; process walks have one
    round per process ([proc_fuel]).  Path lookup takes the depth of the kernel stack
    as an argument, and the theorem says which depth is enough.  The physical
    allocator covers the first GiB, as the code does.  Directory walks take the length
    of the block plus one, the read and write loops of ext2 the bytes left plus one,
    and the digits of a number 65 rounds.  Reading a line takes one round per byte the
    ring can hold and three more ([line_fuel]).

    ** Not modelled

    ACPICA (third-party code in the tree), drivers (AHCI, PCI, USB, network cards) and
    interrupt controllers (device registers), the console's pixels, printing and
    logging, kernel modules and symbols, networking (off in the default configuration),
    sysfs (behind [FsOps]), and of the system calls
    the dispatch table, select, sockets and the parts of execve between opening the file
    and entering the program that [Elf] and [Exec] do not cover.  TLB flushes and the C
    compiler's use of the stack below a call are not visible in the model. *)

From Stdlib Require Export ZArith Lia.
From stdpp Require Export base gmap list strings option.

(** ** Outcomes of kernel code

    Kernel code either returns, stops in [panic]/[_assert], or touches memory
    it must not touch.  [Diverged] is the result of a fuelled loop whose fuel
    ran out; the termination theorems of the components rule it out. *)
Inductive outcome (A : Type) : Type :=
  | Ret (a : A)
  | Panic
  | Fault
  | Diverged.
Arguments Ret {A} a.
Arguments Panic {A}.
Arguments Fault {A}.
Arguments Diverged {A}.

(** A command threads the state [S] and yields an [A]. *)
Definition cmd (S A : Type) : Type := S -> outcome (A * S).

Definition cret {S A} (a : A) : cmd S A := fun s => Ret (a, s).
Definition cbind {S A B} (f : A -> cmd S B) (m : cmd S A) : cmd S B :=
  fun s => match m s with
           | Ret (a, s') => f a s'
           | Panic => Panic
           | Fault => Fault
           | Diverged => Diverged
           end.
Definition cpanic {S A} : cmd S A := fun _ => Panic.
Definition cfault {S A} : cmd S A := fun _ => Fault.
Definition cdiverged {S A} : cmd S A := fun _ => Diverged.
Definition cget {S} : cmd S S := fun s => Ret (s, s).
Definition cput {S} (s : S) : cmd S unit := fun _ => Ret (tt, s).
Definition cgets {S A} (f : S -> A) : cmd S A := fun s => Ret (f s, s).
Definition cmodify {S} (f : S -> S) : cmd S unit := fun s => Ret (tt, f s).
(** [_assert(c)] *)
Definition cassert {S} (b : bool) : cmd S unit := if b then cret tt else cpanic.
(** A memory access: [None] is a bad address. *)
Definition cload {S A} (f : S -> option A) : cmd S A :=
  fun s => match f s with Some a => Ret (a, s) | None => Fault end.
(** Run a command of a sub-state. *)
Definition czoom {S T A} (get : S -> T) (set : T -> S -> S) (m : cmd T A) : cmd S A :=
  fun s => match m (get s) with
           | Ret (a, t) => Ret (a, set t s)
           | Panic => Panic
           | Fault => Fault
           | Diverged => Diverged
           end.

#[export] Instance cmd_mret {S} : MRet (cmd S) := fun A a => cret a.
#[export] Instance cmd_mbind {S} : MBind (cmd S) := fun A B f m => cbind f m.

Global Open Scope Z_scope.

Section cmd_lemmas.
Context {S : Type}.

Lemma bind_Ret {A B} (m : cmd S A) (f : A -> cmd S B) s a s' :
  m s = Ret (a, s') -> (m ≫= f) s = f a s'.
Proof. intros H. cbv [mbind cmd_mbind cbind]. by rewrite H. Qed.

Lemma bind_Diverged {A B} (m : cmd S A) (f : A -> cmd S B) s :
  m s = Diverged -> (m ≫= f) s = Diverged.
Proof. intros H. cbv [mbind cmd_mbind cbind]. by rewrite H. Qed.

Lemma bind_Panic {A B} (m : cmd S A) (f : A -> cmd S B) s :
  m s = Panic -> (m ≫= f) s = Panic.
Proof. intros H. cbv [mbind cmd_mbind cbind]. by rewrite H. Qed.

Lemma bind_inv {A B} (m : cmd S A) (f : A -> cmd S B) s b s'' :
  (m ≫= f) s = Ret (b, s'') ->
  exists a s', m s = Ret (a, s') /\ f a s' = Ret (b, s'').
Proof. cbv [mbind cmd_mbind cbind]. destruct (m s) as [[a s']| | |]; naive_solver. Qed.

Lemma assert_inv b (s : S) u s' : cassert b s = Ret (u, s') -> b = true /\ s' = s.
Proof. destruct b; cbv; naive_solver. Qed.

Lemma load_Some {A} (f : S -> option A) s a : f s = Some a -> cload f s = Ret (a, s).
Proof. unfold cload. by intros ->. Qed.

Lemma load_inv {A} (f : S -> option A) s a s' :
  cload f s = Ret (a, s') -> f s = Some a /\ s' = s.
Proof. unfold cload. destruct (f s); naive_solver. Qed.

Lemma zoom_Ret {T A} (get : S -> T) set (m : cmd T A) s a t :
  m (get s) = Ret (a, t) -> czoom get set m s = Ret (a, set t s).
Proof. unfold czoom. by intros ->. Qed.
End cmd_lemmas.

(** [step_run H] advances a goal [(m ≫= f) s = _] with [H : m s = Ret _];
    [run_simpl] computes the administrative steps of the monad. *)
Ltac step_run H := rewrite (bind_Ret _ _ _ _ _ H); cbn beta iota.
Ltac run_simpl :=
  cbv [mret cmd_mret cret mbind cmd_mbind cbind cpanic cfault cget cput cgets
       cmodify cassert cload czoom]; cbn beta iota.

(** ** Machine integers

    A [w]-bit unsigned integer is a [Z] in [0, 2^w); [uwrap] is the reduction
    C performs on unsigned arithmetic and on conversions. *)
Definition uwrap (w x : Z) : Z := x mod 2 ^ w.
Abbreviation u8 := (uwrap 8).
Abbreviation u16 := (uwrap 16).
Abbreviation u32 := (uwrap 32).
Abbreviation u64 := (uwrap 64).
(** Conversion to a signed [w]-bit integer. *)
Definition swrap (w x : Z) : Z :=
  let y := x mod 2 ^ w in if y <? 2 ^ (w - 1) then y else y - 2 ^ w.
Abbreviation i8 := (swrap 8).
Abbreviation i32 := (swrap 32).
Abbreviation i64 := (swrap 64).

Section ints.
Lemma uwrap_range w x : 0 <= w -> 0 <= uwrap w x < 2 ^ w.
Proof. intros. apply Z.mod_pos_bound, Z.pow_pos_nonneg; lia. Qed.

Lemma uwrap_small w x : 0 <= x < 2 ^ w -> uwrap w x = x.
Proof. apply Z.mod_small. Qed.

Lemma uwrap_add_l w x y : uwrap w (uwrap w x + y) = uwrap w (x + y).
Proof. apply Zplus_mod_idemp_l. Qed.

Lemma swrap_small w x : 0 < w -> 0 <= x < 2 ^ (w - 1) -> swrap w x = x.
Proof.
  intros Hw Hx. unfold swrap.
  assert (2 ^ w = 2 * 2 ^ (w - 1)) as E
    by (rewrite <- Z.pow_succ_r by lia; f_equal; lia).
  rewrite Z.mod_small by lia.
  destruct (Z.ltb_spec x (2 ^ (w - 1))); lia.
Qed.

(** Clearing the low [k] bits with [& ~(2^k - 1)] rounds down. *)
Lemma land_lnot_ones x k : 0 <= k -> Z.land x (Z.lnot (Z.ones k)) = x - x mod 2 ^ k.
Proof.
  intros. rewrite <- Z.ldiff_land, Z.ldiff_ones_r, Z.shiftr_div_pow2,
    Z.shiftl_mul_pow2 by lia.
  pose proof (Z.div_mod x (2 ^ k)).
  assert (2 ^ k <> 0) by (apply Z.pow_nonzero; lia). lia.
Qed.

Lemma land_ones_mod x k : 0 <= k -> Z.land x (Z.ones k) = x mod 2 ^ k.
Proof. apply Z.land_ones. Qed.
End ints.

(** Drop one wrap-around whose argument is in range. *)
Ltac wrap_small :=
  match goal with
  | |- context [uwrap ?w ?x] => rewrite (uwrap_small w x) by lia
  | |- context [swrap ?w ?x] => rewrite (swrap_small w x) by lia
  end.

(** ** Lists read at an integer index *)
Definition nthZ (l : list Z) (i : Z) : Z := default 0 (l !! Z.to_nat i).

Section lists.
Lemma nthZ_insert_eq l i x : 0 <= i < Z.of_nat (length l) -> nthZ (<[Z.to_nat i:=x]> l) i = x.
Proof. intros. unfold nthZ. rewrite list_lookup_insert_eq by lia. done. Qed.

Lemma nthZ_insert_ne l i j x :
  0 <= i -> 0 <= j -> i <> j -> nthZ (<[Z.to_nat i:=x]> l) j = nthZ l j.
Proof. intros. unfold nthZ. rewrite list_lookup_insert_ne by lia. done. Qed.

Lemma lookup_nthZ (l : list Z) i :
  0 <= i < Z.of_nat (length l) -> l !! Z.to_nat i = Some (nthZ l i).
Proof.
  intros. unfold nthZ. destruct (lookup_lt_is_Some_2 l (Z.to_nat i)) as [x ->]; [lia|done].
Qed.

Lemma filter_all {A} (P : A -> Prop) `{!forall x, Decision (P x)} (l : list A) :
  (forall x, x ∈ l -> P x) -> filter P l = l.
Proof.
  induction l as [|x l IH]; intros Hl; [done|]. rewrite filter_cons_True by (apply Hl; by left).
  f_equal. apply IH. intros y Hy. apply Hl. by right.
Qed.

Lemma mod_add_once x c : 0 <= x < 2 * c -> x mod c = if x <? c then x else x - c.
Proof.
  intros. destruct (Z.ltb_spec x c); [apply Z.mod_small; lia|].
  symmetry. apply (Z.mod_unique x c 1); lia.
Qed.
End lists.

(** ** Total-correctness triples

    [triple P m Q]: from every state of [P] the command returns, with a result
    and a state of [Q].  In particular it neither panics, faults nor runs out of
    fuel. *)
Definition triple {S A} (P : S -> Prop) (m : cmd S A) (Q : A -> S -> Prop) : Prop :=
  forall s, P s -> exists a s', m s = Ret (a, s') /\ Q a s'.

Section triples.
Context {S : Type}.
Implicit Types P : S -> Prop.

Lemma triple_ret {A} P (a : A) (Q : A -> S -> Prop) :
  (forall s, P s -> Q a s) -> triple P (mret a) Q.
Proof. intros H s Hs. eexists _, _. split; [reflexivity|auto]. Qed.

Lemma triple_bind {A B} P (m : cmd S A) (f : A -> cmd S B) Q R :
  triple P m Q -> (forall a, triple (Q a) (f a) R) -> triple P (m ≫= f) R.
Proof.
  intros Hm Hf s Hs. destruct (Hm s Hs) as (a & s' & E & HQ).
  rewrite (bind_Ret _ _ _ _ _ E). by apply Hf.
Qed.

Lemma triple_conseq {A} P P' (m : cmd S A) (Q Q' : A -> S -> Prop) :
  triple P m Q -> (forall s, P' s -> P s) -> (forall a s, Q a s -> Q' a s) -> triple P' m Q'.
Proof. intros H HP HQ s Hs. destruct (H s (HP s Hs)) as (a & s' & ? & ?). eauto. Qed.

Lemma triple_weaken {A} P (m : cmd S A) (Q Q' : A -> S -> Prop) :
  triple P m Q -> (forall a s, Q a s -> Q' a s) -> triple P m Q'.
Proof. intros H HQ. eapply triple_conseq; eauto. Qed.

(** Read the state, then continue knowing it. *)
Lemma triple_gets {A B} P (f : S -> A) (k : A -> cmd S B) Q :
  (forall s, P s -> triple (fun s' => s' = s) (k (f s)) Q) -> triple P (cgets f ≫= k) Q.
Proof. intros H s Hs. exact (H s Hs s eq_refl). Qed.

Lemma triple_exists {A X} (P : X -> S -> Prop) (m : cmd S A) Q :
  (forall x, triple (P x) m Q) -> triple (fun s => exists x, P x s) m Q.
Proof. intros H s [x Hx]. by apply (H x). Qed.

Lemma triple_modify P f (Q : unit -> S -> Prop) :
  (forall s, P s -> Q tt (f s)) -> triple P (cmodify f) Q.
Proof. intros H s Hs. eexists _, _. split; [reflexivity|auto]. Qed.

Lemma triple_assert P b (Q : unit -> S -> Prop) :
  (forall s, P s -> b = true /\ Q tt s) -> triple P (cassert b) Q.
Proof. intros H s Hs. destruct (H s Hs) as [-> ?]. eexists _, _. by split. Qed.

Lemma triple_load {A} P (f : S -> option A) (Q : A -> S -> Prop) :
  (forall s, P s -> exists a, f s = Some a /\ Q a s) -> triple P (cload f) Q.
Proof.
  intros H s Hs. destruct (H s Hs) as (a & E & HQ). eexists _, _.
  split; [by apply load_Some|done].
Qed.

(** Start from one state whose run is known. *)
Lemma triple_run {A} P (m : cmd S A) (Q : A -> S -> Prop) :
  (forall s, P s -> exists a s', m s = Ret (a, s') /\ Q a s') -> triple P m Q.
Proof. done. Qed.
End triples.

(** ** Commands that keep a relation

    [maintains R m]: [m] never runs out of fuel, and where it returns it moves the state
    along the preorder [R]. *)
Definition maintains {S A} (R : S -> S -> Prop) (m : cmd S A) : Prop :=
  forall s, match m s with Ret (_, s') => R s s' | Diverged => False | _ => True end.

Section maintains.
Context {S : Type} (R : S -> S -> Prop) `{!PreOrder R}.

Lemma maintains_ret {A} (a : A) : maintains R (mret a).
Proof. intros s. change (R s s). reflexivity. Qed.
Lemma maintains_panic {A} : maintains R (@cpanic S A).
Proof. by intros s. Qed.
Lemma maintains_fault {A} : maintains R (@cfault S A).
Proof. by intros s. Qed.
Lemma maintains_assert b : maintains R (cassert b).
Proof. destruct b; [apply (maintains_ret tt)|apply maintains_panic]. Qed.
Lemma maintains_load {A} (f : S -> option A) : maintains R (cload f).
Proof. intros s. unfold cload. destruct (f s); [reflexivity|done]. Qed.
Lemma maintains_gets {A} (f : S -> A) : maintains R (cgets f).
Proof. intros s. change (R s s). reflexivity. Qed.
Lemma maintains_modify f : (forall s, R s (f s)) -> maintains R (cmodify f).
Proof. intros H s. apply H. Qed.

Lemma maintains_bind {A B} (m : cmd S A) (f : A -> cmd S B) :
  maintains R m -> (forall a, maintains R (f a)) -> maintains R (m ≫= f).
Proof.
  intros Hm Hf s. specialize (Hm s). cbv [mbind cmd_mbind cbind]. destruct (m s) as [[a s']| | |]; try done.
  specialize (Hf a s'). destruct (f a s') as [[b s'']| | |]; try done. by etrans.
Qed.

Lemma maintains_returns {A} (m : cmd S A) s : maintains R m -> m s <> Diverged.
Proof. intros H E. specialize (H s). by rewrite E in H. Qed.
Lemma maintains_inv {A} (m : cmd S A) s a s' : maintains R m -> m s = Ret (a, s') -> R s s'.
Proof. intros H E. specialize (H s). by rewrite E in H. Qed.
End maintains.

Lemma bind_diverges {S A B} (m : cmd S A) (f : A -> cmd S B) s : (m ≫= f) s = Diverged ->
  m s = Diverged \/ exists a s', m s = Ret (a, s') /\ f a s' = Diverged.
Proof. cbv [mbind cmd_mbind cbind]. destruct (m s) as [[a s']| | |]; naive_solver. Qed.

Lemma load_diverges {S A B} (g : S -> option A) (f : A -> cmd S B) s : (cload g ≫= f) s = Diverged ->
  exists a, g s = Some a /\ f a s = Diverged.
Proof. cbv [mbind cmd_mbind cbind cload]. destruct (g s); naive_solver. Qed.

(** ** Counting the entries of a finite map *)
Section count_map.
Context {A : Type}.
Implicit Types (f : Z -> A -> bool) (m : gmap Z A).

Definition countm f m : Z := Z.of_nat (size (filter (fun ix => f ix.1 ix.2 = true) m)).

Lemma countm_nonneg f m : 0 <= countm f m.
Proof. unfold countm. lia. Qed.

Lemma countm_size f m : countm f m <= Z.of_nat (size m).
Proof.
  unfold countm. rewrite <- !size_dom. apply inj_le, subseteq_size.
  apply dom_filter_subseteq.
Qed.

Lemma countm_insert_new f m i x :
  m !! i = None -> countm f (<[i:=x]> m) = countm f m + Z.b2z (f i x).
Proof.
  intros Hi. unfold countm. rewrite map_filter_insert. cbn [fst snd].
  destruct (f i x) eqn:E.
  - rewrite decide_True by done. rewrite map_size_insert_None; [cbn [Z.b2z]; lia|].
    apply map_lookup_filter_None. by left.
  - rewrite decide_False by done. rewrite delete_id by done. cbn [Z.b2z]. lia.
Qed.

Lemma countm_delete f m i y :
  m !! i = Some y -> countm f (delete i m) = countm f m - Z.b2z (f i y).
Proof.
  intros Hi. rewrite <- (insert_delete_id m i y Hi) at 2.
  rewrite countm_insert_new by apply lookup_delete_eq. lia.
Qed.

Lemma countm_insert f m i x y :
  m !! i = Some y -> countm f (<[i:=x]> m) = countm f m - Z.b2z (f i y) + Z.b2z (f i x).
Proof.
  intros Hi. rewrite <- (insert_delete_eq m i x).
  rewrite countm_insert_new by apply lookup_delete_eq. rewrite (countm_delete f m i y Hi). done.
Qed.

Lemma countm_pos f m i y : m !! i = Some y -> f i y = true -> 0 < countm f m.
Proof.
  intros Hi Hf. pose proof (countm_delete f m i y Hi) as H. rewrite Hf in H. cbn in H.
  pose proof (countm_nonneg f (delete i m)). lia.
Qed.

Lemma countm_zero f m : countm f m = 0 -> forall i y, m !! i = Some y -> f i y = false.
Proof.
  intros H i y Hi. destruct (f i y) eqn:E; [|done].
  pose proof (countm_pos f m i y Hi E). lia.
Qed.

Lemma countm_0 f m : (forall i y, m !! i = Some y -> f i y = false) -> countm f m = 0.
Proof.
  intros H. unfold countm. assert (filter (fun ix => f ix.1 ix.2 = true) m = ∅) as ->; [|done].
  apply map_empty. intros i. apply map_lookup_filter_None. right. intros y Hi. cbn.
  by rewrite (H i y Hi).
Qed.
End count_map.

(** ** First and last node of a list of pointers *)
Definition hd_or (d : Z) (l : list Z) : Z := default d (head l).
Definition last_or (d : Z) (l : list Z) : Z := default d (list.last l).

Section ends.
Lemma hd_or_app d l1 l2 : hd_or d (l1 ++ l2) = hd_or (hd_or d l2) l1.
Proof. by destruct l1. Qed.

Lemma last_or_app d l1 l2 : last_or d (l1 ++ l2) = last_or (last_or d l1) l2.
Proof.
  unfold last_or. destruct l2 as [|x l2 _] using rev_ind; [by rewrite app_nil_r|].
  by rewrite app_assoc, !last_snoc.
Qed.

Lemma last_or_snoc d l x : last_or d (l ++ [x]) = x.
Proof. unfold last_or. by rewrite last_snoc. Qed.

Lemma last_or_cons d x l : last_or d (x :: l) = last_or x l.
Proof. apply (last_or_app d [x] l). Qed.

Lemma hd_or_in d l : l <> [] -> hd_or d l ∈ l.
Proof. destruct l as [|x l]; [done|]. intros _. by left. Qed.

Lemma last_or_in d l : l <> [] -> last_or d l ∈ l.
Proof.
  destruct l as [|x l _] using rev_ind; [done|]. intros _. rewrite last_or_snoc.
  apply elem_of_app. right. by left.
Qed.

Lemma hd_or_dflt d d' l : l <> [] -> hd_or d l = hd_or d' l.
Proof. by destruct l. Qed.

Lemma last_or_dflt d d' l : l <> [] -> last_or d l = last_or d' l.
Proof. destruct l as [|x l]; [done|]. by rewrite !last_or_cons. Qed.
End ends.

(** ** Proof search

    [kernel] holds what the components use most: ranges of wrapped integers, ends of
    pointer lists, non-negative counts. *)
Create HintDb kernel.
Create Rewrite HintDb kernel.
#[export] Hint Resolve uwrap_range countm_nonneg hd_or_in last_or_in : kernel.
#[export] Hint Resolve maintains_ret maintains_panic maintains_fault maintains_assert maintains_load maintains_gets : kernel.
#[export] Hint Rewrite last_or_snoc last_or_cons hd_or_app @uwrap_add_l : kernel.
