(* ===== verification/Defs.v ===== *)
(** * Constants shared by the kernel components

    Error numbers ([include/user/errno.h]) and the address-space constants of
    [include/arch/amd64/mm/mm.h] and [include/sys/mm.h]. *)

From S2P Require Import Prelude.

(** ** include/user/errno.h *)
Definition EPERM : Z := 1.
Definition ENOENT : Z := 2.
Definition EINTR : Z := 4.
Definition EIO : Z := 5.
Definition EBADF : Z := 9.
Definition ECHILD : Z := 10.
Definition EAGAIN : Z := 11.
Definition ENOMEM : Z := 12.
Definition EACCES : Z := 13.
Definition EBUSY : Z := 16.
Definition EEXIST : Z := 17.
Definition ENODEV : Z := 19.
Definition ENOTDIR : Z := 20.
Definition EISDIR : Z := 21.
Definition EINVAL : Z := 22.
Definition ESPIPE : Z := 29.
Definition EROFS : Z := 30.
Definition EPIPE : Z := 32.
Definition ENOSYS : Z := 38.
Definition ELOOP : Z := 40.

(** ** include/sys/mm.h and include/arch/amd64/mm/mm.h *)
Definition MM_NADDR : Z := 2 ^ 64 - 1.
Definition MM_PAGE_SIZE : Z := 0x1000.
Definition KERNEL_VIRT_BASE : Z := 0xFFFFFF0000000000.
Definition MM_VIRTUALIZE (a : Z) : Z := u64 (a + KERNEL_VIRT_BASE).
Definition MM_PHYS (a : Z) : Z := u64 (a - KERNEL_VIRT_BASE).

Lemma MM_PHYS_VIRTUALIZE a : 0 <= a < 2 ^ 64 -> MM_PHYS (MM_VIRTUALIZE a) = a.
Proof.
  intros. unfold MM_PHYS, MM_VIRTUALIZE, uwrap.
  rewrite Zminus_mod_idemp_l. replace (a + KERNEL_VIRT_BASE - KERNEL_VIRT_BASE) with a by lia.
  by apply Z.mod_small.
Qed.
