(* ===== verification/Bytes.v ===== *)
(** * Byte buffers

    Buffers are lists of bytes.  [splice] is [memcpy] into a buffer, [slice] reads a
    range; [peek w] and [poke w] are loads and stores of [w]-byte little-endian
    integers, as the fields of packed structures are read and written. *)

From S2P Require Import Prelude.

(** [memcpy] of [b] over [l] at [off]. *)
Definition splice (off : Z) (b l : list Z) : list Z :=
  take (Z.to_nat off) l ++ b ++ drop (Z.to_nat off + length b) l.
Definition slice (off n : Z) (l : list Z) : list Z := take (Z.to_nat n) (drop (Z.to_nat off) l).

(** The integer with the little-endian bytes [l]. *)
Fixpoint le_get (l : list Z) : Z := match l with [] => 0 | b :: l => u8 b + 256 * le_get l end.
(** The [n] little-endian bytes of [x]. *)
Fixpoint le_put (n : nat) (x : Z) : list Z := match n with O => [] | S n => u8 x :: le_put n (x / 256) end.

(** [None] when the field is not inside the buffer. *)
Definition in_buffer (w : nat) (off : Z) (l : list Z) : bool := (0 <=? off) && (off + Z.of_nat w <=? Z.of_nat (length l)).
Definition peek (w : nat) (off : Z) (l : list Z) : option Z :=
  if in_buffer w off l then Some (le_get (slice off (Z.of_nat w) l)) else None.
Definition poke (w : nat) (off x : Z) (l : list Z) : option (list Z) :=
  if in_buffer w off l then Some (splice off (le_put w x) l) else None.

(** ** Splices *)
Section splices.
Implicit Types l b : list Z.

Lemma length_splice off b l : 0 <= off -> off + Z.of_nat (length b) <= Z.of_nat (length l) ->
  length (splice off b l) = length l.
Proof. intros. unfold splice. rewrite !length_app, length_take, length_drop. lia. Qed.

Lemma splice_all b l : length b = length l -> splice 0 b l = b.
Proof. intros E. unfold splice. change (Z.to_nat 0) with 0%nat. cbn [take app Nat.add].
  rewrite drop_ge by lia. apply app_nil_r. Qed.

Lemma lookup_splice off b l (k : nat) : 0 <= off -> off + Z.of_nat (length b) <= Z.of_nat (length l) ->
  splice off b l !! k =
    if decide (off <= Z.of_nat k < off + Z.of_nat (length b)) then b !! (k - Z.to_nat off)%nat else l !! k.
Proof.
  intros H1 H2. unfold splice. assert (length (take (Z.to_nat off) l) = Z.to_nat off) as Hlt by (rewrite length_take; lia).
  case_decide as Hd.
  - rewrite lookup_app_r, Hlt by lia. apply lookup_app_l. lia.
  - destruct (decide (Z.of_nat k < off)).
    + rewrite lookup_app_l by lia. apply lookup_take_lt. lia.
    + rewrite lookup_app_r, Hlt, lookup_app_r by lia. rewrite lookup_drop. f_equal. lia.
Qed.

Lemma lookup_slice off n l (k : nat) : 0 <= off -> Z.of_nat k < n ->
  slice off n l !! k = l !! (Z.to_nat off + k)%nat.
Proof. intros. unfold slice. rewrite lookup_take_lt by lia. apply lookup_drop. Qed.

Lemma length_slice off n l : 0 <= off -> 0 <= n -> off + n <= Z.of_nat (length l) ->
  length (slice off n l) = Z.to_nat n.
Proof. intros. unfold slice. rewrite length_take, length_drop. lia. Qed.
End splices.

Section fields.
Implicit Types l : list Z.

Lemma length_le_put n : forall x, length (le_put n x) = n.
Proof. induction n as [|n IH]; intros x; [done|]. cbn. by rewrite IH. Qed.

Lemma le_get_put n : forall x, le_get (le_put n x) = uwrap (8 * Z.of_nat n) x.
Proof.
  induction n as [|n IH]; intros x; [symmetry; apply Z.mod_1_r|]. cbn [le_get le_put]. rewrite IH.
  unfold uwrap. rewrite Z.mod_mod by done. replace (8 * Z.of_nat (S n)) with (8 + 8 * Z.of_nat n) by lia.
  rewrite Z.pow_add_r, Z.rem_mul_r by lia. done.
Qed.

Lemma le_get_range l : 0 <= le_get l < 2 ^ (8 * Z.of_nat (length l)).
Proof.
  induction l as [|b l IH]; [by split|]. cbn [le_get length]. pose proof (uwrap_range 8 b ltac:(done)) as Hb.
  replace (8 * Z.of_nat (S (length l))) with (8 + 8 * Z.of_nat (length l)) by lia. rewrite Z.pow_add_r by lia.
  change (2 ^ 8) with 256 in *. nia.
Qed.

Lemma in_buffer_true w off l : in_buffer w off l = true <-> 0 <= off /\ off + Z.of_nat w <= Z.of_nat (length l).
Proof. unfold in_buffer. rewrite andb_true_iff, Z.leb_le, Z.leb_le. done. Qed.

Lemma peek_in w off l : 0 <= off -> off + Z.of_nat w <= Z.of_nat (length l) ->
  peek w off l = Some (le_get (slice off (Z.of_nat w) l)).
Proof. intros H1 H2. unfold peek. by rewrite (proj2 (in_buffer_true w off l)). Qed.

Lemma poke_in w off x l : 0 <= off -> off + Z.of_nat w <= Z.of_nat (length l) ->
  poke w off x l = Some (splice off (le_put w x) l).
Proof. intros H1 H2. unfold poke. by rewrite (proj2 (in_buffer_true w off l)). Qed.

Lemma peek_inv w off l x : peek w off l = Some x ->
  0 <= off /\ off + Z.of_nat w <= Z.of_nat (length l) /\ 0 <= x < 2 ^ (8 * Z.of_nat w).
Proof.
  unfold peek. destruct (in_buffer w off l) eqn:E; [|done]. apply in_buffer_true in E as [H1 H2]. intros [= <-].
  split; [done|]. split; [done|]. pose proof (le_get_range (slice off (Z.of_nat w) l)) as Hr.
  rewrite length_slice in Hr by lia. by rewrite Z2Nat.id in Hr by lia.
Qed.

Lemma poke_length w off x l l' : poke w off x l = Some l' -> length l' = length l.
Proof.
  unfold poke. destruct (in_buffer w off l) eqn:E; [|done]. apply in_buffer_true in E as [H1 H2]. intros [= <-].
  apply length_splice; [done|]. by rewrite length_le_put.
Qed.

Lemma peek_poke_eq w off x l l' : poke w off x l = Some l' -> peek w off l' = Some (uwrap (8 * Z.of_nat w) x).
Proof.
  intros Hp. pose proof (poke_length _ _ _ _ _ Hp) as El. unfold poke in Hp. destruct (in_buffer w off l) eqn:E; [|done].
  apply in_buffer_true in E as [H1 H2]. injection Hp as <-. rewrite peek_in by lia. f_equal. rewrite <- le_get_put. f_equal.
  apply list_eq. intros k. destruct (decide (k < w)%nat) as [Hk|Hk].
  - rewrite lookup_slice, lookup_splice by (rewrite ?length_le_put; lia). rewrite decide_True by (rewrite length_le_put; lia). f_equal. lia.
  - rewrite !lookup_ge_None_2; [done|rewrite length_le_put; lia|]. rewrite length_slice; lia.
Qed.

(** A range a splice does not touch. *)
Lemma slice_splice_ne off n b o l : 0 <= o -> o + Z.of_nat (length b) <= Z.of_nat (length l) -> 0 <= off -> 0 <= n ->
  off + n <= o \/ o + Z.of_nat (length b) <= off -> slice off n (splice o b l) = slice off n l.
Proof.
  intros H1 H2 H3 H4 Hd. unfold slice. apply list_eq. intros k. destruct (decide (Z.of_nat k < n)).
  - rewrite !lookup_take_lt, !lookup_drop, lookup_splice by lia. by rewrite decide_False by lia.
  - by rewrite !lookup_take_ge by lia.
Qed.

Lemma slice_splice_eq o b l : 0 <= o -> o + Z.of_nat (length b) <= Z.of_nat (length l) ->
  slice o (Z.of_nat (length b)) (splice o b l) = b.
Proof.
  intros H1 H2. apply list_eq. intros k. destruct (decide (k < length b)%nat).
  - rewrite lookup_slice, lookup_splice by lia. rewrite decide_True by lia. f_equal. lia.
  - rewrite !lookup_ge_None_2; [done|lia|]. rewrite length_slice; rewrite ?length_splice; lia.
Qed.

Lemma peek_poke_ne w off x l l' v o : poke w off x l = Some l' -> o + Z.of_nat v <= off \/ off + Z.of_nat w <= o -> peek v o l' = peek v o l.
Proof.
  intros Hp Hd. pose proof (poke_length _ _ _ _ _ Hp) as El. unfold peek, in_buffer. rewrite El. case_match eqn:E; [|done]. f_equal. f_equal.
  apply (in_buffer_true v o l) in E as [H1 H2]. unfold poke in Hp. destruct (in_buffer w off l) eqn:E'; [|done].
  apply in_buffer_true in E' as [H3 H4]. injection Hp as <-. apply slice_splice_ne; rewrite ?length_le_put; lia.
Qed.

Lemma slice_all l n : n = Z.of_nat (length l) -> slice 0 n l = l.
Proof. intros ->. unfold slice. rewrite drop_0, Nat2Z.id. apply take_ge. done. Qed.

Lemma slice_slice o n a m l : 0 <= o -> 0 <= a -> 0 <= m -> a + m <= n -> slice a m (slice o n l) = slice (o + a) m l.
Proof.
  intros. unfold slice. apply list_eq. intros k. destruct (decide (Z.of_nat k < m)).
  - rewrite lookup_take_lt, lookup_drop, lookup_take_lt, lookup_drop, lookup_take_lt, lookup_drop by lia. f_equal. lia.
  - by rewrite !lookup_take_ge by lia.
Qed.

(** Two splices side by side. *)
Lemma splice_app o b1 b2 l : 0 <= o -> o + Z.of_nat (length b1) + Z.of_nat (length b2) <= Z.of_nat (length l) ->
  splice (o + Z.of_nat (length b1)) b2 (splice o b1 l) = splice o (b1 ++ b2) l.
Proof.
  intros Ho Hl. apply list_eq. intros k. rewrite lookup_splice by (rewrite ?length_splice; lia). rewrite lookup_splice by lia.
  rewrite lookup_splice by (rewrite ?length_app; lia). rewrite length_app. repeat case_decide; try lia; try done.
  - rewrite lookup_app_r by lia. f_equal. lia.
  - rewrite lookup_app_l by lia. done.
Qed.

Lemma slice_app o n m l : 0 <= o -> 0 <= n -> 0 <= m -> slice o n l ++ slice (o + n) m l = slice o (n + m) l.
Proof.
  intros. unfold slice. rewrite !Z2Nat.inj_add, <- drop_drop by lia. by rewrite take_take_drop.
Qed.
End fields.

(** ** Bitmaps of 64-bit words *)
Definition bm_test (j : Z) (l : list Z) : option bool :=
  w ← peek 8 (8 * (j / 64)) l; Some (negb (Z.land w (Z.shiftl 1 (j mod 64)) =? 0)).
Definition bm_set (j : Z) (l : list Z) : option (list Z) :=
  w ← peek 8 (8 * (j / 64)) l; poke 8 (8 * (j / 64)) (Z.lor w (Z.shiftl 1 (j mod 64))) l.
Definition bm_clear (j : Z) (l : list Z) : option (list Z) :=
  w ← peek 8 (8 * (j / 64)) l; poke 8 (8 * (j / 64)) (Z.land w (u64 (Z.lnot (Z.shiftl 1 (j mod 64))))) l.

Section bitmaps.
Implicit Types l : list Z.

Lemma land_bit w k : 0 <= k -> negb (Z.land w (Z.shiftl 1 k) =? 0) = Z.testbit w k.
Proof.
  intros Hk. rewrite Z.shiftl_1_l. destruct (Z.testbit w k) eqn:E.
  - apply negb_true_iff, Z.eqb_neq. intros Z0. assert (Z.testbit (Z.land w (2 ^ k)) k = false) as X by (rewrite Z0; apply Z.bits_0).
    rewrite Z.land_spec, E, Z.pow2_bits_true in X by done. done.
  - apply negb_false_iff, Z.eqb_eq, Z.bits_inj'. intros n Hn. rewrite Z.land_spec, Z.bits_0, Z.pow2_bits_eqb by done.
    destruct (Z.eqb_spec k n) as [->|]; [by rewrite E|]. apply andb_false_r.
Qed.

Lemma bm_test_in j l : 0 <= j -> (j / 64 + 1) * 8 <= Z.of_nat (length l) ->
  exists w, peek 8 (8 * (j / 64)) l = Some w /\ bm_test j l = Some (Z.testbit w (j mod 64)).
Proof.
  intros Hj Hl. assert (0 <= j / 64) by (apply Z.div_pos; lia). eexists. rewrite peek_in by lia. split; [done|].
  unfold bm_test. rewrite peek_in by lia. cbn [mbind option_bind]. rewrite land_bit by (apply Z.mod_pos_bound; lia). done.
Qed.

(** Changing a bitmap word changes one bit. *)
Lemma bm_word_update (b : bool) j l w w' : 0 <= j -> peek 8 (8 * (j / 64)) l = Some w -> 
  (forall k, 0 <= k < 64 -> Z.testbit w' k = if decide (k = j mod 64) then b else Z.testbit w k) ->
  exists l', poke 8 (8 * (j / 64)) w' l = Some l' /\ length l' = length l /\
    forall k, 0 <= k -> bm_test k l' = if decide (k = j) then Some b else bm_test k l.
Proof.
  intros Hj Hw Hb. destruct (peek_inv _ _ _ _ Hw) as (H1 & H2 & _). eexists. rewrite poke_in by lia. split; [done|].
  pose proof (poke_in 8 (8 * (j / 64)) w' l H1 H2) as Hp. pose proof (poke_length _ _ _ _ _ Hp) as El. split; [done|].
  set (l' := splice (8 * (j / 64)) (le_put 8 w') l) in *. intros k Hk. unfold bm_test. destruct (decide (k / 64 = j / 64)) as [E|E].
  - rewrite E, (peek_poke_eq _ _ _ _ _ Hp), Hw. cbn [mbind option_bind]. assert (0 <= k mod 64 < 64) as Hm by (apply Z.mod_pos_bound; lia).
    rewrite !land_bit by lia. change (8 * Z.of_nat 8) with 64. unfold uwrap. rewrite Z.mod_pow2_bits_low by lia. rewrite Hb by done.
    case_decide as E1; case_decide as E2; try done.
    + destruct E2. pose proof (Z.div_mod k 64 ltac:(done)). pose proof (Z.div_mod j 64 ltac:(done)). lia.
    + subst k. done.
  - rewrite decide_False by congruence. rewrite (peek_poke_ne _ _ _ _ _ 8 (8 * (k / 64)) Hp); [done|].
    assert (0 <= k / 64) by (apply Z.div_pos; lia). lia.
Qed.

Lemma bm_set_spec j l : 0 <= j -> (j / 64 + 1) * 8 <= Z.of_nat (length l) ->
  exists l', bm_set j l = Some l' /\ length l' = length l /\ forall k, 0 <= k -> bm_test k l' = if decide (k = j) then Some true else bm_test k l.
Proof.
  intros Hj Hl. destruct (bm_test_in j l Hj Hl) as (w & Hw & _). unfold bm_set. rewrite Hw. cbn [mbind option_bind].
  apply (bm_word_update true j l w); [done|done|]. intros k Hk. assert (0 <= j mod 64 < 64) by (apply Z.mod_pos_bound; lia).
  rewrite Z.lor_spec, Z.shiftl_1_l, Z.pow2_bits_eqb by lia. case_decide as E; [subst; by rewrite Z.eqb_refl, orb_true_r|].
  rewrite (proj2 (Z.eqb_neq _ _)) by congruence. apply orb_false_r.
Qed.

Lemma bm_clear_spec j l : 0 <= j -> (j / 64 + 1) * 8 <= Z.of_nat (length l) ->
  exists l', bm_clear j l = Some l' /\ length l' = length l /\ forall k, 0 <= k -> bm_test k l' = if decide (k = j) then Some false else bm_test k l.
Proof.
  intros Hj Hl. destruct (bm_test_in j l Hj Hl) as (w & Hw & _). unfold bm_clear. rewrite Hw. cbn [mbind option_bind].
  apply (bm_word_update false j l w); [done|done|]. intros k Hk. assert (0 <= j mod 64 < 64) by (apply Z.mod_pos_bound; lia).
  unfold uwrap. rewrite Z.land_spec, Z.mod_pow2_bits_low, Z.lnot_spec, Z.shiftl_1_l, Z.pow2_bits_eqb by lia. case_decide as E.
  - subst. rewrite Z.eqb_refl. apply andb_false_r.
  - rewrite (proj2 (Z.eqb_neq _ _)) by congruence. apply andb_true_r.
Qed.
End bitmaps.
