(* ===== verification/Wait.v ===== *)
(** * I/O notification objects: [sys/wait.c]

    A [struct io_notify] is a counter of pending events and the thread that
    sleeps on it.  [thread_wait_io] is split at its only blocking point, the
    call of [sched_unqueue]: [thread_wait_io_enter] is one pass of its loop up
    to that call, [thread_wait_io_resume] what runs when the thread is
    scheduled again (with [intr] telling whether [thread_check_signal] found a
    pending signal).  Both run under [n->lock], so each is one atomic step. *)

From S2P Require Import Prelude Defs.

(** A thread is named by the address of its [struct thread]. *)
Record io_notify := mk_notify { n_owner : option Z; n_value : Z }.

Definition thread_wait_io_init : io_notify := mk_notify None 0.

(** The result of a blocking call: finished, or asleep in [sched_unqueue]. *)
Inductive io (A : Type) : Type :=
  | Done (a : A)
  | Sleep.
Arguments Done {A} a.
Arguments Sleep {A}.

Definition thread_wait_io_enter (t : Z) : cmd io_notify (io Z) :=
  n ← cget;
  if bool_decide (n_value n ≠ 0) then
    cput (mk_notify (n_owner n) 0);; mret (Done 0)
  else
    cassert (bool_decide (n_owner n = None));;
    cput (mk_notify (Some t) (n_value n));; mret Sleep.

Definition thread_wait_io_resume (t : Z) (intr : bool) : cmd io_notify (io Z) :=
  n ← cget;
  cput (mk_notify None (n_value n));;
  if intr then mret (Done (- EINTR)) else thread_wait_io_enter t.

(** The thread [thread_notify_io] hands to [sched_queue], if any. *)
Definition thread_notify_io : cmd io_notify (option Z) :=
  n ← cget;
  cput (mk_notify None (u64 (n_value n + 1)));;
  mret (n_owner n).
