(* ===== verification/Ring.v ===== *)
(** * Ring buffers: [sys/char/ring.c]

    A ring is an array of [cap] bytes with a read and a write index; it holds at
    most [cap - 1] bytes.  The blocking calls are resumable commands: they
    return [Sleep] where the thread would sleep in [thread_wait_io], and their
    [_resume] versions continue from there.  [rs_woken] collects the threads
    [thread_notify_io] hands to [sched_queue]. *)

From S2P Require Import Prelude Defs Wait.

Definition RING_SIGNAL_BRK : Z := 1.
Definition RING_SIGNAL_EOF : Z := 2.
Definition RING_SIGNAL_RET : Z := 4.
Definition RING_RAW : Z := 8.

Record ring := mk_ring {
  rd : Z;
  wr : Z;
  cap : Z;
  base : list Z;
  flags : Z;
  wait : io_notify;
  writer_wait : io_notify;
}.

Definition set_rd x r := mk_ring x (wr r) (cap r) (base r) (flags r) (wait r) (writer_wait r).
Definition set_wr x r := mk_ring (rd r) x (cap r) (base r) (flags r) (wait r) (writer_wait r).
Definition set_base x r := mk_ring (rd r) (wr r) (cap r) x (flags r) (wait r) (writer_wait r).
Definition set_flags x r := mk_ring (rd r) (wr r) (cap r) (base r) x (wait r) (writer_wait r).
Definition set_wait x r := mk_ring (rd r) (wr r) (cap r) (base r) (flags r) x (writer_wait r).
Definition set_writer_wait x r := mk_ring (rd r) (wr r) (cap r) (base r) (flags r) (wait r) x.

(** A ring and the threads woken so far. *)
Record rstate := mk_rstate { rs_ring : ring; rs_woken : list Z }.

Definition ring_readable (r : ring) : Z :=
  if rd r <=? wr r then i32 (u64 (wr r - rd r))
  else i32 (u64 (wr r + u64 (cap r - rd r))).

Definition ring_writable (r : ring) : Z :=
  if (wr r =? u64 (cap r - 1)) && (rd r =? 0) then 0
  else if rd r <=? wr r then i32 (u64 (wr r + u64 (cap r - rd r)))
  else if rd r =? u64 (wr r + 1) then 0
  else i32 (u64 (rd r - wr r)).

Definition ring_advance_read (r : ring) : ring :=
  if rd r =? u64 (cap r - 1) then set_rd 0 r else set_rd (u64 (rd r + 1)) r.

Definition ring_advance_write (r : ring) : ring :=
  if wr r =? u64 (cap r - 1) then set_wr 0 r else set_wr (u64 (wr r + 1)) r.

Definition has (x m : Z) : bool := negb (Z.land x m =? 0).

(** Commands on the ring of an [rstate]. *)
Definition on_ring {A} (f : cmd ring A) : cmd rstate A :=
  czoom rs_ring (fun r s => mk_rstate r (rs_woken s)) f.
Definition upd_ring (f : ring -> ring) : cmd rstate unit := on_ring (cmodify f).
Definition get_ring : cmd rstate ring := cgets rs_ring.
Definition wake (t : option Z) : cmd rstate unit :=
  cmodify (fun s => mk_rstate (rs_ring s) (option_list t ++ rs_woken s)).
Definition on_wait {A} (f : cmd io_notify A) : cmd rstate A := on_ring (czoom wait set_wait f).
Definition on_writer_wait {A} (f : cmd io_notify A) : cmd rstate A :=
  on_ring (czoom writer_wait set_writer_wait f).
Definition notify_readers : cmd rstate unit := t ← on_wait thread_notify_io; wake t.
Definition notify_writers : cmd rstate unit := t ← on_writer_wait thread_notify_io; wake t.

(** What [ring_getc] yields: a character ([return 0]), or an error code. *)
Inductive getc_res := GetC (c : Z) | GetErr (e : Z).

(** [*c = ring->base[ring->rd]; ring_advance_read(ring); notify]. *)
Definition ring_take : cmd rstate getc_res :=
  c ← cload (fun s => base (rs_ring s) !! Z.to_nat (rd (rs_ring s)));
  upd_ring ring_advance_read;;
  notify_writers;;
  mret (GetC c).

(** The [do ... while (1)] loop of [ring_getc]. *)
Fixpoint ring_getc_loop (fuel : nat) (ctx : Z) : cmd rstate (io Z) :=
  match fuel with
  | O => cdiverged
  | S fuel =>
      r ← get_ring;
      if has (flags r) (Z.lor RING_SIGNAL_BRK RING_SIGNAL_EOF) && (ring_readable r =? 0) then
        upd_ring (set_flags (Z.land (flags r) (Z.lnot RING_SIGNAL_BRK)));;
        mret (Done (-1))
      else if ring_readable r =? 0 then
        w ← on_wait (thread_wait_io_enter ctx);
        match w with
        | Sleep => mret Sleep
        | Done res => if res =? 0 then ring_getc_loop fuel ctx
                      else cassert (res =? - EINTR);; mret (Done res)
        end
      else mret (Done 0)
  end.

Definition ring_getc_finish (w : io Z) : cmd rstate (io getc_res) :=
  match w with
  | Sleep => mret Sleep
  | Done res => if res =? 0 then g ← ring_take; mret (Done g)
                else mret (Done (GetErr res))
  end.

(** A pass of the loop consumes the pending events; the next one sleeps. *)
Definition ring_fuel : nat := 3.

Definition ring_getc (ctx : Z) (err : bool) : cmd rstate (io getc_res) :=
  if err then
    r ← get_ring;
    if ring_readable r =? 0 then mret (Done (GetErr (-1)))
    else g ← ring_take; mret (Done g)
  else
    w ← ring_getc_loop ring_fuel ctx; ring_getc_finish w.

(** The thread sleeping in [ring_getc] runs again. *)
Definition ring_getc_resume (ctx : Z) (intr : bool) : cmd rstate (io getc_res) :=
  w ← on_wait (thread_wait_io_resume ctx intr);
  match w with
  | Sleep => mret Sleep
  | Done res => if res =? 0 then w' ← ring_getc_loop ring_fuel ctx; ring_getc_finish w'
                else cassert (res =? - EINTR);; mret (Done (GetErr res))
  end.

(** The [while (!ring_writable(ring))] loop of [ring_putc]. *)
Fixpoint ring_putc_loop (fuel : nat) (ctx : Z) : cmd rstate (io Z) :=
  match fuel with
  | O => cdiverged
  | S fuel =>
      r ← get_ring;
      if ring_writable r =? 0 then
        if has (flags r) RING_SIGNAL_EOF then mret (Done (- EPIPE))
        else
          w ← on_writer_wait (thread_wait_io_enter ctx);
          match w with
          | Sleep => mret Sleep
          | Done res => if res =? 0 then ring_putc_loop fuel ctx
                        else cassert (res =? - EINTR);; mret (Done res)
          end
      else mret (Done 0)
  end.

(** What follows the loop: the EOF test, the store and the notification. *)
Definition ring_store (c : Z) : cmd rstate Z :=
  r ← get_ring;
  if has (flags r) RING_SIGNAL_EOF then mret (- EPIPE)
  else
    cload (fun s => base (rs_ring s) !! Z.to_nat (wr (rs_ring s)));;
    upd_ring (fun r => set_base (<[Z.to_nat (wr r):=c]> (base r)) r);;
    upd_ring ring_advance_write;;
    notify_readers;;
    mret 0.

Definition ring_putc_finish (c : Z) (w : io Z) : cmd rstate (io Z) :=
  match w with
  | Sleep => mret Sleep
  | Done res => if res =? 0 then e ← ring_store c; mret (Done e) else mret (Done res)
  end.

Definition ring_putc (ctx : Z) (c : Z) (wait : bool) : cmd rstate (io Z) :=
  if wait then w ← ring_putc_loop ring_fuel ctx; ring_putc_finish c w
  else e ← ring_store c; mret (Done e).

Definition ring_putc_resume (ctx : Z) (c : Z) (intr : bool) : cmd rstate (io Z) :=
  w ← on_writer_wait (thread_wait_io_resume ctx intr);
  match w with
  | Sleep => mret Sleep
  | Done res => if res =? 0 then w' ← ring_putc_loop ring_fuel ctx; ring_putc_finish c w'
                else cassert (res =? - EINTR);; mret (Done res)
  end.

(** [ring_write] finished with a code, or asleep with bytes left to store. *)
Inductive write_res := WDone (code : Z) | WSleep (rest : list Z).

Fixpoint ring_write_from (ctx : Z) (len : Z) (buf : list Z) (wait : bool) : cmd rstate write_res :=
  match buf with
  | [] => mret (WDone (i32 len))
  | c :: buf' =>
      w ← ring_putc ctx c wait;
      match w with
      | Sleep => mret (WSleep buf)
      | Done e => if e =? 0 then ring_write_from ctx len buf' wait else mret (WDone (-1))
      end
  end.

Definition ring_write (ctx : Z) (buf : list Z) (wait : bool) : cmd rstate write_res :=
  ring_write_from ctx (Z.of_nat (length buf)) buf wait.

Definition ring_write_resume (ctx len : Z) (rest : list Z) (intr : bool) : cmd rstate write_res :=
  match rest with
  | [] => mret (WDone (i32 len))
  | c :: rest' =>
      w ← ring_putc_resume ctx c intr;
      match w with
      | Sleep => mret (WSleep rest)
      | Done e => if e =? 0 then ring_write_from ctx len rest' true else mret (WDone (-1))
      end
  end.

Definition ring_signal (s : Z) : cmd rstate unit :=
  upd_ring (fun r => set_flags (Z.lor (flags r) s) r);;
  notify_readers;;
  notify_writers.

(** [kmalloc] gave [mem], a block of [cap] bytes, or failed. *)
Definition ring_init (capacity : Z) (mem : option (list Z)) : Z * ring :=
  let r := mk_ring 0 0 capacity [] 0 thread_wait_io_init thread_wait_io_init in
  match mem with
  | Some m => (0, set_base m r)
  | None => (-1, r)
  end.

(** ** Invariant and abstraction

    [contents r] is the sequence of bytes a reader will see, oldest first. *)
Definition ring_ok (r : ring) : Prop :=
  0 < cap r <= 2 ^ 30 /\ Z.of_nat (length (base r)) = cap r /\
  0 <= rd r < cap r /\ 0 <= wr r < cap r.

Definition ring_count (r : ring) : Z :=
  if rd r <=? wr r then wr r - rd r else wr r + cap r - rd r.

Definition contents (r : ring) : list Z :=
  (fun k => nthZ (base r) ((rd r + k) mod cap r)) <$> seqZ 0 (ring_count r).

(** The rings left by a successful read and by a successful store. *)
Definition notified (n : io_notify) : io_notify := mk_notify None (u64 (n_value n + 1)).
Definition taken (r : ring) : ring := set_writer_wait (notified (writer_wait r)) (ring_advance_read r).
Definition stored (c : Z) (r : ring) : ring :=
  set_wait (notified (wait r))
    (ring_advance_write (set_base (<[Z.to_nat (wr r):=c]> (base r)) r)).

Ltac ring_arith :=
  unfold ring_ok, ring_count, ring_readable, ring_writable, ring_advance_read,
    ring_advance_write in *; cbn [rd wr cap base flags wait writer_wait set_rd set_wr set_base
    set_flags set_wait set_writer_wait] in *;
  repeat first
    [ wrap_small
    | match goal with
      | |- context [Z.leb ?a ?b] => destruct (Z.leb_spec a b)
      | |- context [Z.eqb ?a ?b] => destruct (Z.eqb_spec a b)
      | |- context [Z.ltb ?a ?b] => destruct (Z.ltb_spec a b)
      end; cbn [andb]; cbn [rd wr cap base flags wait writer_wait set_rd set_wr set_base
    set_flags set_wait set_writer_wait] in * ].

Section ring_facts.
Implicit Types r : ring.

Lemma ring_count_range r : ring_ok r -> 0 <= ring_count r < cap r.
Proof. intros. ring_arith; lia. Qed.

Lemma length_contents r : ring_ok r -> Z.of_nat (length (contents r)) = ring_count r.
Proof.
  intros H%ring_count_range. unfold contents. rewrite length_fmap, length_seqZ. lia.
Qed.

Lemma ring_readable_count r : ring_ok r -> ring_readable r = ring_count r.
Proof. intros. ring_arith; lia. Qed.

Lemma ring_writable_full r : ring_ok r -> ring_writable r = 0 <-> ring_count r = cap r - 1.
Proof. intros. ring_arith; lia. Qed.

Lemma contents_nil_iff r : ring_ok r -> contents r = [] <-> ring_count r = 0.
Proof.
  intros H. pose proof (length_contents r H). split.
  - intros E. rewrite E in H0. simpl in *. lia.
  - intros E. rewrite E in H0. apply nil_length_inv. lia.
Qed.

Lemma taken_ok r : ring_ok r -> ring_ok (taken r).
Proof. unfold taken. intros. ring_arith; lia. Qed.

Lemma stored_ok c r : ring_ok r -> ring_ok (stored c r).
Proof. unfold stored. intros. ring_arith; rewrite length_insert; lia. Qed.

Lemma taken_contents r c l :
  ring_ok r -> contents r = c :: l ->
  base r !! Z.to_nat (rd r) = Some c /\ contents (taken r) = l.
Proof.
  intros Hok HC. pose proof (length_contents r Hok) as Hlen. rewrite HC in Hlen. simpl in Hlen.
  assert (ring_count (taken r) = ring_count r - 1) as Hcnt.
  { unfold taken. revert Hlen. ring_arith; lia. }
  assert (contents r = nthZ (base r) (rd r) :: contents (taken r)) as E.
  { unfold contents. rewrite Hcnt, seqZ_cons, fmap_cons by lia. f_equal.
    - f_equal. rewrite Z.add_0_r. apply Z.mod_small. unfold ring_ok in Hok. lia.
    - change (Z.succ 0) with (1 + 0). rewrite <- fmap_add_seqZ, <- list_fmap_compose.
      replace (Z.pred (ring_count r)) with (ring_count r - 1) by lia.
      apply list_fmap_ext. intros i k Hk. apply lookup_seqZ in Hk as [-> Hk]. cbn.
      assert (rd r + (1 + (0 + Z.of_nat i)) < 2 * cap r)
        by (pose proof (ring_count_range r Hok); unfold ring_ok in Hok; lia).
      unfold taken, ring_advance_read. destruct Hok as (Hc & Hb & Hr & Hw).
      repeat wrap_small. destruct (Z.eqb_spec (rd r) (cap r - 1)); cbn.
      + f_equal. rewrite !mod_add_once by lia. repeat case_match; lia.
      + f_equal. f_equal. lia. }
  rewrite HC in E. injection E as -> ->. split; [|done].
  apply lookup_nthZ. unfold ring_ok in Hok. lia.
Qed.

Lemma stored_contents c r :
  ring_ok r -> ring_count r < cap r - 1 -> contents (stored c r) = contents r ++ [c].
Proof.
  intros Hok Hroom. pose proof (ring_count_range r Hok) as Hrange.
  assert (ring_count (stored c r) = ring_count r + 1) as Hcnt.
  { unfold stored. revert Hroom. ring_arith; lia. }
  unfold contents. rewrite Hcnt, seqZ_app by lia. rewrite fmap_app. f_equal.
  - apply list_fmap_ext. intros i k Hk. apply lookup_seqZ in Hk as [-> Hk].
    revert Hroom. unfold stored. destruct Hok as (Hc & Hb & Hr & Hw).
    unfold ring_advance_write. intros. case_match; cbn; apply nthZ_insert_ne; try lia.
    all: try (apply Z.mod_pos_bound; lia).
    all: rewrite mod_add_once by lia; unfold ring_count in *; repeat case_match; lia.
  - rewrite Z.add_0_l, seqZ_cons by lia. cbn [fmap list_fmap]. rewrite seqZ_nil by lia. f_equal. unfold stored. destruct Hok as (Hc & Hb & Hr & Hw).
    assert ((rd r + ring_count r) mod cap r = wr r) as E.
    { rewrite mod_add_once by lia. unfold ring_count in *. repeat case_match; lia. }
    unfold ring_advance_write. case_match; cbn; rewrite E; apply nthZ_insert_eq; lia.
Qed.

(** A store into a full ring wraps the write index onto the read index. *)
Lemma stored_full c r :
  ring_ok r -> ring_count r = cap r - 1 -> contents (stored c r) = [].
Proof.
  intros Hok Hfull. apply contents_nil_iff; [by apply stored_ok|].
  unfold stored. revert Hfull. ring_arith; lia.
Qed.
End ring_facts.

(** ** Runs of the primitive steps *)
Ltac ring_run :=
  unfold upd_ring, notify_writers, notify_readers, wake, on_wait, on_writer_wait, on_ring,
    get_ring, thread_notify_io, thread_wait_io_enter; run_simpl; cbn.

Section ring_runs.
Implicit Types (r : ring) (ws : list Z).

Lemma ring_take_run r ws c l :
  ring_ok r -> contents r = c :: l ->
  ring_take (mk_rstate r ws) =
    Ret (GetC c, mk_rstate (taken r) (option_list (n_owner (writer_wait r)) ++ ws)).
Proof.
  intros Hok HC. destruct (taken_contents r c l Hok HC) as [Hb _].
  unfold ring_take. rewrite (bind_Ret _ _ _ c (mk_rstate r ws)) by by apply load_Some.
  ring_run. unfold taken, ring_advance_read.
  by destruct (rd r =? u64 (cap r - 1)).
Qed.

Lemma ring_store_run c r ws :
  ring_ok r -> has (flags r) RING_SIGNAL_EOF = false ->
  ring_store c (mk_rstate r ws) =
    Ret (0, mk_rstate (stored c r) (option_list (n_owner (wait r)) ++ ws)).
Proof.
  intros (Hc & Hb & Hr & Hw) HE. unfold ring_store.
  rewrite (bind_Ret _ _ _ r (mk_rstate r ws)) by done. rewrite HE.
  destruct (lookup_lt_is_Some_2 (base r) (Z.to_nat (wr r))) as [x Hx]; [lia|].
  rewrite (bind_Ret _ _ _ x (mk_rstate r ws)) by by apply load_Some.
  ring_run. unfold stored, ring_advance_write. cbn.
  by destruct (wr r =? u64 (cap r - 1)).
Qed.

Lemma ring_store_eof c r ws :
  has (flags r) RING_SIGNAL_EOF = true ->
  ring_store c (mk_rstate r ws) = Ret (- EPIPE, mk_rstate r ws).
Proof. intros HE. unfold ring_store. ring_run. by rewrite HE. Qed.

(** Nothing to read and no BRK or EOF: the loop sleeps within its fuel. *)
Lemma ring_getc_loop_sleep ctx r ws :
  ring_readable r = 0 ->
  has (flags r) (Z.lor RING_SIGNAL_BRK RING_SIGNAL_EOF) = false ->
  n_owner (wait r) = None ->
  ring_getc_loop ring_fuel ctx (mk_rstate r ws) =
    Ret (Sleep, mk_rstate (set_wait (mk_notify (Some ctx) 0) r) ws).
Proof.
  intros HR HF HO. destruct r as [a b c d f [o v] w]; cbn in *. subst o.
  unfold ring_fuel, ring_getc_loop. ring_run. rewrite HF, HR. cbn.
  destruct (decide (v = 0)) as [->|Hv]; cbn.
  - done.
  - rewrite bool_decide_true by done. cbn. unfold ring_readable in *; cbn in *.
    rewrite HF, HR. done.
Qed.

Lemma ring_getc_loop_data ctx r ws fuel :
  ring_readable r <> 0 ->
  ring_getc_loop (S fuel) ctx (mk_rstate r ws) = Ret (Done 0, mk_rstate r ws).
Proof.
  intros HR. cbn. ring_run.
  destruct (Z.eqb_spec (ring_readable r) 0); [done|]. by rewrite andb_false_r.
Qed.

Lemma ring_getc_loop_signal ctx r ws fuel :
  ring_readable r = 0 ->
  has (flags r) (Z.lor RING_SIGNAL_BRK RING_SIGNAL_EOF) = true ->
  ring_getc_loop (S fuel) ctx (mk_rstate r ws) =
    Ret (Done (-1), mk_rstate (set_flags (Z.land (flags r) (Z.lnot RING_SIGNAL_BRK)) r) ws).
Proof. intros HR HF. cbn. ring_run. by rewrite HF, HR. Qed.

Lemma ring_putc_loop_room ctx r ws fuel :
  ring_writable r <> 0 ->
  ring_putc_loop (S fuel) ctx (mk_rstate r ws) = Ret (Done 0, mk_rstate r ws).
Proof.
  intros HR. cbn. ring_run.
  destruct (Z.eqb_spec (ring_writable r) 0); done.
Qed.

Lemma ring_putc_loop_eof ctx r ws fuel :
  ring_writable r = 0 -> has (flags r) RING_SIGNAL_EOF = true ->
  ring_putc_loop (S fuel) ctx (mk_rstate r ws) = Ret (Done (- EPIPE), mk_rstate r ws).
Proof. intros HR HF. cbn. ring_run. by rewrite HR, HF. Qed.

Lemma ring_putc_loop_sleep ctx r ws :
  ring_writable r = 0 -> has (flags r) RING_SIGNAL_EOF = false ->
  n_owner (writer_wait r) = None ->
  ring_putc_loop ring_fuel ctx (mk_rstate r ws) =
    Ret (Sleep, mk_rstate (set_writer_wait (mk_notify (Some ctx) 0) r) ws).
Proof.
  intros HR HF HO. destruct r as [a b c d f w [o v]]; cbn in *. subst o.
  unfold ring_fuel, ring_putc_loop. ring_run. rewrite HR. cbn. rewrite HF.
  destruct (decide (v = 0)) as [->|Hv]; cbn.
  - done.
  - rewrite bool_decide_true by done. cbn. unfold ring_writable in *; cbn in *.
    rewrite HR. cbn. by rewrite HF.
Qed.
End ring_runs.

(** ** Correctness of the ring operations *)

(** A ring whose consumer and producer are not asleep on it. *)
Definition ring_unowned (r : ring) : Prop :=
  n_owner (wait r) = None /\ n_owner (writer_wait r) = None.

(** [ring_getc] is the dequeue of a FIFO.  On a non-empty ring it returns the
    oldest byte and leaves exactly the rest, whatever the flags and in both its
    modes; on an empty ring it fails with -1 in error mode, fails with -1 on a
    pending BRK or EOF (consuming only BRK), and otherwise puts the caller to
    sleep as the owner of the reader notifier, without losing anything. *)
Theorem ring_getc_dequeue ctx err r ws :
  ring_ok r -> ring_unowned r ->
  exists res r' ws',
    ring_getc ctx err (mk_rstate r ws) = Ret (res, mk_rstate r' ws') /\ ring_ok r' /\
    match contents r with
    | c :: l => res = Done (GetC c) /\ contents r' = l /\ flags r' = flags r
    | [] =>
        contents r' = [] /\
        if err then res = Done (GetErr (-1)) /\ r' = r
        else if has (flags r) (Z.lor RING_SIGNAL_BRK RING_SIGNAL_EOF)
        then res = Done (GetErr (-1)) /\
             flags r' = Z.land (flags r) (Z.lnot RING_SIGNAL_BRK)
        else res = Sleep /\ n_owner (wait r') = Some ctx /\ flags r' = flags r
    end.
Proof.
  intros Hok [HO _]. unfold ring_getc. destruct (contents r) as [|c l] eqn:HC.
  - assert (ring_readable r = 0) as HR.
    { rewrite ring_readable_count by done. by apply contents_nil_iff. }
    destruct err.
    + ring_run. rewrite HR. cbn. eauto 10.
    + destruct (has (flags r) _) eqn:HF.
      * step_run (ring_getc_loop_signal ctx r ws 2 HR HF). cbn. eauto 10.
      * step_run (ring_getc_loop_sleep ctx r ws HR HF HO). cbn. eauto 10.
  - assert (ring_readable r <> 0) as HR.
    { rewrite ring_readable_count, <- length_contents by done. rewrite HC. simpl. lia. }
    pose proof (ring_take_run r ws c l Hok HC) as Ht.
    destruct (taken_contents r c l Hok HC) as [_ Hc'].
    assert (flags (taken r) = flags r)
      by (unfold taken, ring_advance_read; by case_match).
    pose proof (taken_ok r Hok). destruct err.
    + ring_run. destruct (Z.eqb_spec (ring_readable r) 0); [done|].
      rewrite Ht. eauto 10.
    + step_run (ring_getc_loop_data ctx r ws 2 HR). cbn. step_run Ht. eauto 10.
Qed.

(** [ring_putc] in waiting mode is the enqueue of a bounded FIFO: with room
    and no EOF it appends the byte; after EOF it fails with -EPIPE and changes
    nothing; when the ring already holds [cap - 1] bytes the caller sleeps as
    the owner of the writer notifier and the contents are untouched. *)
Theorem ring_putc_enqueue ctx c r ws :
  ring_ok r -> ring_unowned r ->
  exists res r' ws',
    ring_putc ctx c true (mk_rstate r ws) = Ret (res, mk_rstate r' ws') /\ ring_ok r' /\
    flags r' = flags r /\
    if has (flags r) RING_SIGNAL_EOF then res = Done (- EPIPE) /\ r' = r
    else if Z.of_nat (length (contents r)) <? cap r - 1
    then res = Done 0 /\ contents r' = contents r ++ [c]
    else res = Sleep /\ contents r' = contents r /\ n_owner (writer_wait r') = Some ctx.
Proof.
  intros Hok [_ HO]. unfold ring_putc. rewrite length_contents by done.
  pose proof (ring_writable_full r Hok) as HW. pose proof (ring_count_range r Hok).
  assert (flags (stored c r) = flags r)
    by (unfold stored, ring_advance_write; by case_match).
  destruct (has (flags r) RING_SIGNAL_EOF) eqn:HE;
    (destruct (decide (ring_writable r = 0)) as [Hz|Hz]).
  - step_run (ring_putc_loop_eof ctx r ws 2 Hz HE). cbn. eauto 10.
  - step_run (ring_putc_loop_room ctx r ws 2 Hz). cbn.
    step_run (ring_store_eof c r ws HE). eauto 10.
  - step_run (ring_putc_loop_sleep ctx r ws Hz HE HO). cbn.
    rewrite (proj2 (Z.ltb_ge _ _)) by lia. eauto 10.
  - step_run (ring_putc_loop_room ctx r ws 2 Hz). cbn.
    step_run (ring_store_run c r ws Hok HE).
    rewrite (proj2 (Z.ltb_lt _ _)) by lia.
    eexists _, _, _. split; [reflexivity|]. split; [by apply stored_ok|].
    split; [done|]. split; [done|]. apply stored_contents; [done|lia].
Qed.

(** in non-waiting mode (device interrupts, [tty_data_write]) a store into a
    full ring is accepted and empties it: the write index catches up with the
    read index, so all [cap - 1] unread bytes and the new one are lost. *)
Theorem ring_putc_overflow_drops_all ctx c r ws :
  ring_ok r -> has (flags r) RING_SIGNAL_EOF = false ->
  Z.of_nat (length (contents r)) = cap r - 1 ->
  exists r' ws', ring_putc ctx c false (mk_rstate r ws) = Ret (Done 0, mk_rstate r' ws') /\
    ring_ok r' /\ contents r' = [].
Proof.
  intros Hok HE Hlen. rewrite length_contents in Hlen by done. unfold ring_putc.
  step_run (ring_store_run c r ws Hok HE). eexists _, _. split; [reflexivity|].
  split; [by apply stored_ok|by apply stored_full].
Qed.

(** Witnesses: a ring of four bytes holding 7 and 8 across the wrap. *)
Definition ring_ex : ring :=
  mk_ring 3 1 4 [8; 0; 0; 7] 0 thread_wait_io_init thread_wait_io_init.
Definition ring_full_ex : ring :=
  mk_ring 1 0 4 [6; 3; 4; 5] 0 thread_wait_io_init thread_wait_io_init.

Lemma ring_ex_ok : ring_ok ring_ex.
Proof. unfold ring_ok, ring_ex; simpl; lia. Qed.
Lemma ring_full_ex_ok : ring_ok ring_full_ex.
Proof. unfold ring_ok, ring_full_ex; simpl; lia. Qed.

Lemma ring_getc_dequeue_witness :
  exists r' ws', ring_getc 1 false (mk_rstate ring_ex []) = Ret (Done (GetC 7), mk_rstate r' ws') /\
    contents r' = [8].
Proof.
  destruct (ring_getc_dequeue 1 false ring_ex [] ring_ex_ok (conj eq_refl eq_refl))
    as (res & r' & ws' & E & _ & (-> & H & _)).
  exists r', ws'. split; [exact E|exact H].
Defined.

Lemma ring_putc_enqueue_witness :
  exists r' ws', ring_putc 1 9 true (mk_rstate ring_ex []) = Ret (Done 0, mk_rstate r' ws') /\
    contents r' = [7; 8; 9].
Proof.
  destruct (ring_putc_enqueue 1 9 ring_ex [] ring_ex_ok (conj eq_refl eq_refl))
    as (res & r' & ws' & E & _ & _ & (-> & H)).
  exists r', ws'. split; [exact E|exact H].
Defined.

Lemma ring_putc_overflow_drops_all_witness :
  contents ring_full_ex = [3; 4; 5] /\
  exists r' ws', ring_putc 1 9 false (mk_rstate ring_full_ex []) = Ret (Done 0, mk_rstate r' ws') /\
    contents r' = [].
Proof.
  split; [reflexivity|].
  destruct (ring_putc_overflow_drops_all 1 9 ring_full_ex [] ring_full_ex_ok eq_refl eq_refl)
    as (r' & ws' & E & _ & H).
  exists r', ws'. split; [exact E|exact H].
Defined.
