(* ===== verification/Pipe.v ===== *)
(** * Pipes: [sys/char/pipe.c]

    A pipe is a ring of [PIPE_RING_SIZE] bytes shared by a reading and a writing
    thread.  [pipe_vnode_read] and [pipe_vnode_write] are resumable like the
    ring operations they call.  [pstep] interleaves a reader [tr] and a writer
    [tw]: a thread runs from one blocking point to the next in one step, and a
    sleeping thread runs again only when it was handed to [sched_queue] or has a
    signal pending.  [pipe_create] hands out two [ofile]s, so the pipe is closed at
    most twice. *)

From S2P Require Import Prelude Defs Wait Ring.

Definition PIPE_RING_SIZE : Z := 1024.

(** [pipe_vnode_read]: finished with the bytes read, or asleep in [ring_getc]
    with [rem] bytes still wanted. *)
Inductive read_res := RDone (got : list Z) | RSleep (rem : nat) (acc : list Z).

(** The body of the [while (rem)] loop after [ring_getc] returned [w]; [k]
    is the next iteration. *)
Definition pipe_read_body (k : list Z -> cmd rstate read_res) (rem : nat) (acc : list Z)
    (w : io getc_res) : cmd rstate read_res :=
  match w with
  | Sleep => mret (RSleep rem acc)
  | Done (GetErr _) => mret (RDone acc)
  | Done (GetC c) =>
      r ← get_ring;
      if (ring_readable r =? 0) && has (flags r) RING_SIGNAL_RET then
        upd_ring (fun r => set_flags (Z.land (flags r) (Z.lnot RING_SIGNAL_RET)) r);;
        mret (RDone (acc ++ [c]))
      else k (acc ++ [c])
  end.

Fixpoint pipe_read_from (ctx : Z) (rem : nat) (acc : list Z) : cmd rstate read_res :=
  match rem with
  | O => mret (RDone acc)
  | S rem' =>
      w ← ring_getc ctx false;
      pipe_read_body (pipe_read_from ctx rem') rem acc w
  end.

Definition pipe_vnode_read (ctx : Z) (count : nat) : cmd rstate read_res :=
  pipe_read_from ctx count [].

Definition pipe_read_resume (ctx : Z) (intr : bool) (rem : nat) (acc : list Z) : cmd rstate read_res :=
  w ← ring_getc_resume ctx intr;
  pipe_read_body (pipe_read_from ctx (pred rem)) rem acc w.

(** The end of [pipe_vnode_write]: signal a finished write. *)
Definition pipe_write_finish (w : write_res) : cmd rstate write_res :=
  match w with
  | WSleep rest => mret (WSleep rest)
  | WDone res =>
      (if 0 <? res then ring_signal RING_SIGNAL_RET else mret tt);;
      mret (WDone res)
  end.

Definition pipe_vnode_write (ctx : Z) (buf : list Z) : cmd rstate write_res :=
  w ← ring_write ctx buf true; pipe_write_finish w.

Definition pipe_write_resume (ctx : Z) (intr : bool) (len : Z) (rest : list Z) : cmd rstate write_res :=
  w ← ring_write_resume ctx len rest intr; pipe_write_finish w.

Definition pipe_vnode_close : cmd rstate unit := ring_signal RING_SIGNAL_EOF.

(** [pipe_create]'s ring; [mem] is the block [kmalloc] returned. *)
Definition pipe_ring (mem : list Z) : ring := snd (ring_init PIPE_RING_SIZE (Some mem)).

(** ** A reader and a writer on one pipe *)
Inductive reader := RIdle | RBlocked (rem : nat) (acc : list Z).
Inductive writer := WIdle | WBlocked (len : Z) (rest : list Z).

Record psys := mk_psys {
  ps_st : rstate;
  ps_reader : reader;
  ps_writer : writer;
  ps_in : list Z;      (* bytes the ring accepted, in order *)
  ps_out : list Z;     (* bytes finished reads returned, in order *)
  ps_closed : Z;       (* how many of the two ends were closed *)
}.

Definition ps_contents (s : psys) : list Z := contents (rs_ring (ps_st s)).
Definition partial_read (r : reader) : list Z :=
  match r with RIdle => [] | RBlocked _ acc => acc end.

(** The thread leaves the run queue of woken threads when it runs. *)
Definition unwake (t : Z) (s : rstate) : rstate :=
  mk_rstate (rs_ring s) (filter (fun x => x ≠ t) (rs_woken s)).

Definition reader_after (w : read_res) : reader :=
  match w with RDone _ => RIdle | RSleep rem acc => RBlocked rem acc end.
Definition out_after (out : list Z) (w : read_res) : list Z :=
  match w with RDone got => out ++ got | RSleep _ _ => out end.
Definition writer_after (len : Z) (w : write_res) : writer :=
  match w with WDone _ => WIdle | WSleep rest => WBlocked len rest end.
(** The bytes of [buf] a write segment moved into the ring. *)
Definition accepted (buf : list Z) (st st' : rstate) : list Z :=
  take (length (contents (rs_ring st')) - length (contents (rs_ring st))) buf.

Section pipe_system.
Context (tr tw : Z).

Inductive pstep : psys -> psys -> Prop :=
| step_read s n w st' :
    ps_reader s = RIdle ->
    pipe_vnode_read tr n (ps_st s) = Ret (w, st') ->
    pstep s (mk_psys st' (reader_after w) (ps_writer s) (ps_in s) (out_after (ps_out s) w) (ps_closed s))
| step_read_resume s rem acc intr w st' :
    ps_reader s = RBlocked rem acc ->
    tr ∈ rs_woken (ps_st s) \/ intr = true ->
    pipe_read_resume tr intr rem acc (unwake tr (ps_st s)) = Ret (w, st') ->
    pstep s (mk_psys st' (reader_after w) (ps_writer s) (ps_in s) (out_after (ps_out s) w) (ps_closed s))
| step_write s buf w st' :
    ps_writer s = WIdle ->
    pipe_vnode_write tw buf (ps_st s) = Ret (w, st') ->
    pstep s (mk_psys st' (ps_reader s) (writer_after (Z.of_nat (length buf)) w)
               (ps_in s ++ accepted buf (ps_st s) st') (ps_out s) (ps_closed s))
| step_write_resume s len rest intr w st' :
    ps_writer s = WBlocked len rest ->
    tw ∈ rs_woken (ps_st s) \/ intr = true ->
    pipe_write_resume tw intr len rest (unwake tw (ps_st s)) = Ret (w, st') ->
    pstep s (mk_psys st' (ps_reader s) (writer_after len w)
               (ps_in s ++ accepted rest (ps_st s) st') (ps_out s) (ps_closed s))
| step_close s st' :
    ps_closed s < 2 ->
    pipe_vnode_close (ps_st s) = Ret (tt, st') ->
    pstep s (mk_psys st' (ps_reader s) (ps_writer s) (ps_in s) (ps_out s) (ps_closed s + 1)).

Definition pinit (mem : list Z) : psys :=
  mk_psys (mk_rstate (pipe_ring mem) []) RIdle WIdle [] [] 0.

Inductive preach (mem : list Z) : psys -> Prop :=
| preach_init : preach mem (pinit mem)
| preach_step s s' : preach mem s -> pstep s s' -> preach mem s'.
End pipe_system.

(** ** The invariant

    [side reg t n woken cond B]: how notifier [n] stands to the thread [t] that
    may sleep on it.  Not inside a wait ([reg = false]) it owns nothing.  Inside
    one it is asleep, and then [cond] explains why, or it was woken, and then
    the event count [n] carries is positive and at most [B], so that it cannot
    have wrapped to 0 and the thread will not go back to sleep. *)
Definition side (reg : bool) (t : Z) (n : io_notify) (woken : list Z) (cond : Prop) (B : Z) : Prop :=
  if reg then (n_owner n = Some t /\ t ∉ woken /\ n_value n = 0 /\ cond) \/
              (n_owner n = None /\ t ∈ woken /\ 1 <= n_value n <= B)
  else n_owner n = None /\ t ∉ woken.

Definition reader_cond (r : ring) : Prop :=
  contents r = [] /\ has (flags r) (Z.lor RING_SIGNAL_BRK RING_SIGNAL_EOF) = false.
Definition writer_cond (r : ring) : Prop :=
  Z.of_nat (length (contents r)) = cap r - 1 /\ has (flags r) RING_SIGNAL_EOF = false.

(** [Br] and [Bw] bound the pending events of a woken reader and writer. *)
Definition pinv (tr tw : Z) (rreg wreg : bool) (l : list Z) (Br Bw : Z) (s : rstate) : Prop :=
  ring_ok (rs_ring s) /\ cap (rs_ring s) = PIPE_RING_SIZE /\ contents (rs_ring s) = l /\
  side rreg tr (wait (rs_ring s)) (rs_woken s) (reader_cond (rs_ring s)) Br /\
  side wreg tw (writer_wait (rs_ring s)) (rs_woken s) (writer_cond (rs_ring s)) Bw /\
  0 <= Br < 2 ^ 32 /\ 0 <= Bw < 2 ^ 32.

Section pipe_invariant.
Context (tr tw : Z) (Hne : tr <> tw).
Implicit Types (l acc : list Z).

Lemma side_notified reg t n w cond cond' B :
  0 <= B < 2 ^ 32 -> side reg t n w cond B ->
  side reg t (notified n) (option_list (n_owner n) ++ w) cond' (B + 1).
Proof.
  intros HB. unfold side, notified. destruct reg; cbn.
  - intros [(-> & _ & -> & _)|(-> & Hin & Hv)]; right; cbn.
    + split; [done|]. split; [set_solver|]. wrap_small. lia.
    + split; [done|]. split; [set_solver|]. wrap_small. lia.
  - intros [-> Hn]. done.
Qed.

Lemma side_mono reg t n w w' (cond cond' : Prop) B B' :
  (cond -> cond') -> (t ∈ w <-> t ∈ w') -> B <= B' ->
  side reg t n w cond B -> side reg t n w' cond' B'.
Proof.
  unfold side. intros Hc Hw HB. destruct reg; [|by rewrite Hw].
  intros [(?&?&?&?)|(?&?&?)]; [left|right]; rewrite <- Hw; split_and!; auto; lia.
Qed.

(** Only its own thread owns a notifier. *)
Lemma side_other reg t n w cond B t' x :
  side reg t n w cond B -> t <> t' -> t' ∈ option_list (n_owner n) ++ x <-> t' ∈ x.
Proof. unfold side. destruct reg; [intros [(->&_)|(->&_)]|intros [-> _]]; cbn; set_solver. Qed.

Lemma has_land_false f k m : has f m = false -> has (Z.land f k) m = false.
Proof.
  unfold has. rewrite !negb_false_iff, !Z.eqb_eq. intros H.
  by rewrite <- Z.land_assoc, (Z.land_comm k), Z.land_assoc, H, Z.land_0_l.
Qed.

Lemma pinv_bound rreg wreg l Br Bw Br' Bw' s :
  Br <= Br' < 2 ^ 32 -> Bw <= Bw' < 2 ^ 32 ->
  pinv tr tw rreg wreg l Br Bw s -> pinv tr tw rreg wreg l Br' Bw' s.
Proof.
  intros HB1 HB2 (Hok & Hcap & HC & Hr & Hw & HBr & HBw). unfold pinv.
  split_and!; try done; try lia.
  - eapply side_mono; [intros H; exact H|done| |exact Hr]. lia.
  - eapply side_mono; [intros H; exact H|done| |exact Hw]. lia.
Qed.

(** Finish a goal that is an invariant hypothesis up to arithmetic on bounds. *)
Ltac pinv_done H :=
  let B := fresh in pose proof H as (_ & _ & _ & _ & _ & B);
  eapply pinv_bound; [| |exact H]; cbn [length] in *; lia.

Lemma pinv_take wreg c l Br Bw :
  Bw + 1 < 2 ^ 32 ->
  triple (pinv tr tw false wreg (c :: l) Br Bw) ring_take
    (fun g s => g = GetC c /\ pinv tr tw false wreg l Br (Bw + 1) s).
Proof.
  intros HB [r ws] (Hok & Hcap & HC & Hr & Hw & HBr & HBw). cbn in *.
  eexists _, _. split; [by eapply ring_take_run|]. split; [done|].
  destruct (taken_contents r c l Hok HC) as [_ HC'].
  pose proof (side_other _ _ _ _ _ _ tr ws Hw (not_eq_sym Hne)) as Hin.
  unfold pinv, taken in *; cbn in *.
  split; [by apply taken_ok|].
  assert (cap (ring_advance_read r) = cap r /\ wait (ring_advance_read r) = wait r /\
          writer_wait (ring_advance_read r) = writer_wait r) as (-> & -> & E)
    by (unfold ring_advance_read; by case_match).
  rewrite ?E in *. split; [done|]. split; [done|]. split; [by rewrite Hin|].
  split; [eapply side_notified; eauto|lia].
Qed.

Lemma pinv_store rreg c l Br Bw :
  Br + 1 < 2 ^ 32 -> Z.of_nat (length l) < PIPE_RING_SIZE - 1 ->
  triple (fun s => pinv tr tw rreg false l Br Bw s /\ has (flags (rs_ring s)) RING_SIGNAL_EOF = false)
    (ring_store c)
    (fun e s => e = 0 /\ pinv tr tw rreg false (l ++ [c]) (Br + 1) Bw s).
Proof.
  intros HB Hroom [r ws] [(Hok & Hcap & HC & Hr & Hw & HBr & HBw) HE]. cbn in *.
  eexists _, _. split; [by apply ring_store_run|]. split; [done|].
  assert (contents (stored c r) = l ++ [c]) as HC'.
  { rewrite <- HC. apply stored_contents; [done|]. rewrite <- length_contents, HC, Hcap by done. done. }
  pose proof (side_other _ _ _ _ _ _ tw ws Hr Hne) as Hin.
  set (r1 := set_base (<[Z.to_nat (wr r):=c]> (base r)) r).
  assert (cap (ring_advance_write r1) = cap r /\ wait (ring_advance_write r1) = wait r /\
          writer_wait (ring_advance_write r1) = writer_wait r) as (E1 & E3 & E4)
    by (unfold ring_advance_write; by case_match).
  unfold pinv, stored; fold r1; cbn.
  split; [by apply stored_ok|]. rewrite E1, E4. split; [done|]. split; [done|].
  split; [eapply side_notified; eauto|]. split; [by rewrite Hin|lia].
Qed.

Lemma pinv_signal rreg wreg l Br Bw x :
  Br + 1 < 2 ^ 32 -> Bw + 1 < 2 ^ 32 ->
  triple (pinv tr tw rreg wreg l Br Bw) (ring_signal x)
    (fun _ s => pinv tr tw rreg wreg l (Br + 1) (Bw + 1) s).
Proof.
  intros HB1 HB2 [r ws] (Hok & Hcap & HC & Hr & Hw & HBr & HBw). cbn in *.
  eexists _, _. split; [reflexivity|]. unfold pinv; cbn.
  split; [done|]. split; [done|]. split; [done|]. split; [|split; [|lia]].
  - eapply side_mono; [intros H; exact H| |reflexivity|eapply side_notified; eauto].
    by rewrite (side_other _ _ _ _ _ _ tr _ Hw (not_eq_sym Hne)).
  - eapply side_notified; [lia|]. eapply side_mono; [intros H; exact H| |reflexivity|exact Hw].
    by rewrite (side_other _ _ _ _ _ _ tw _ Hr Hne).
Qed.

Lemma pinv_clear_flags rreg wreg l Br Bw k :
  triple (pinv tr tw rreg wreg l Br Bw) (upd_ring (fun r => set_flags (Z.land (flags r) k) r))
    (fun _ => pinv tr tw rreg wreg l Br Bw).
Proof.
  intros [r ws] (Hok & Hcap & HC & Hr & Hw & HBr & HBw). cbn in *.
  eexists _, _. split; [reflexivity|]. unfold pinv; cbn. split_and!; try done; try lia.
  - eapply side_mono; [|done|reflexivity|exact Hr]. intros [H1 H2]. split; [done|].
    by apply has_land_false.
  - eapply side_mono; [|done|reflexivity|exact Hw]. intros [H1 H2]. split; [done|].
    by apply has_land_false.
Qed.

(** *** The reader's segments *)
Definition getc_post (wreg : bool) l Br Bw (w : io getc_res) (s : rstate) : Prop :=
  match w with
  | Sleep => l = [] /\ pinv tr tw true wreg [] 0 Bw s
  | Done (GetErr _) => pinv tr tw false wreg l Br Bw s
  | Done (GetC c) => exists l', l = c :: l' /\ pinv tr tw false wreg l' Br (Bw + 1) s
  end.

Lemma pinv_getc wreg l Br Bw :
  Bw + 1 < 2 ^ 32 ->
  triple (pinv tr tw false wreg l Br Bw)
    (w ← ring_getc_loop ring_fuel tr; ring_getc_finish w) (getc_post wreg l Br Bw).
Proof.
  intros HB [r ws] Hinv. pose proof Hinv as (Hok & Hcap & HC & Hr & Hw & HBr & HBw). cbn in *.
  pose proof (ring_readable_count r Hok) as Hcnt. pose proof (length_contents r Hok) as Hlen.
  rewrite HC in Hlen. destruct l as [|c l].
  - assert (ring_readable r = 0) as H0 by (simpl in Hlen; lia).
    destruct (has (flags r) (Z.lor RING_SIGNAL_BRK RING_SIGNAL_EOF)) eqn:HF.
    + step_run (ring_getc_loop_signal tr r ws 2 H0 HF).
      destruct (pinv_clear_flags false wreg [] Br Bw (Z.lnot RING_SIGNAL_BRK) _ Hinv)
        as (u & s' & E & Hs'). injection E as _ <-. eexists _, _. split; [reflexivity|exact Hs'].
    + step_run (ring_getc_loop_sleep tr r ws H0 HF (proj1 Hr)).
      eexists _, _. split; [reflexivity|]. split; [done|]. unfold pinv; cbn.
      split_and!; try done; try lia. left. cbn. split_and!; try done. apply Hr.
  - assert (ring_readable r <> 0) as H0 by (simpl in Hlen; lia).
    step_run (ring_getc_loop_data tr r ws 2 H0).
    destruct (pinv_take wreg c l Br Bw HB _ Hinv) as (g & s' & E & -> & Hs').
    cbn. step_run E. eexists _, _. split; [reflexivity|]. exists l. done.
Qed.

Lemma pinv_reader_runs wreg l Br Bw s v :
  pinv tr tw true wreg l Br Bw s ->
  pinv tr tw false wreg l Br Bw
    (mk_rstate (set_wait (mk_notify None v) (rs_ring s)) (rs_woken (unwake tr s))).
Proof.
  intros (Hok & Hcap & HC & Hr & Hw & HBr & HBw). unfold pinv; cbn.
  split_and!; try done; try lia.
  - rewrite list_elem_of_filter. tauto.
  - eapply side_mono; [intros H; exact H| |reflexivity|exact Hw].
    rewrite list_elem_of_filter. naive_solver.
Qed.

Lemma pinv_getc_resume wreg l Br Bw intr s :
  Bw + 1 < 2 ^ 32 -> pinv tr tw true wreg l Br Bw s ->
  tr ∈ rs_woken s \/ intr = true ->
  exists w s', ring_getc_resume tr intr (unwake tr s) = Ret (w, s') /\ getc_post wreg l Br Bw w s'.
Proof.
  intros HB Hinv Hwk. unfold ring_getc_resume. destruct intr.
  - eexists _, _. split; [reflexivity|]. cbn. by apply (pinv_reader_runs _ _ _ _ s).
  - destruct Hwk as [Hwk|]; [|done].
    assert (n_owner (wait (rs_ring s)) = None /\ n_value (wait (rs_ring s)) <> 0) as [HO HV].
    { destruct Hinv as (_ & _ & _ & Hr & _). destruct Hr as [(_ & Hn & _)|(? & _ & ?)];
        [done|]. split; [done|lia]. }
    assert (on_wait (thread_wait_io_resume tr false) (unwake tr s) =
            Ret (Done 0, mk_rstate (set_wait (mk_notify None 0) (rs_ring s))
                           (rs_woken (unwake tr s)))) as E.
    { unfold on_wait, on_ring, thread_wait_io_resume, thread_wait_io_enter. run_simpl. cbn.
      rewrite bool_decide_true by done. cbn. by destruct (rs_ring s). }
    step_run E. cbn [Z.eqb].
    exact (pinv_getc wreg l Br Bw HB _ (pinv_reader_runs _ _ _ _ _ 0 Hinv)).
Qed.

Definition read_post (wreg : bool) acc l Br Bw (w : read_res) (s : rstate) : Prop :=
  match w with
  | RDone got => exists l', acc ++ l = got ++ l' /\
      pinv tr tw false wreg l' Br (Bw + Z.of_nat (length l) - Z.of_nat (length l')) s
  | RSleep rem acc' => rem <> 0%nat /\ acc ++ l = acc' /\
      pinv tr tw true wreg [] 0 (Bw + Z.of_nat (length l)) s
  end.

Lemma pinv_read_body wreg acc l Br Bw k rem w :
  rem <> 0%nat ->
  (forall l' Bw', Bw' + Z.of_nat (length l') = Bw + Z.of_nat (length l) ->
     forall acc', triple (pinv tr tw false wreg l' Br Bw') (k acc') (read_post wreg acc' l' Br Bw')) ->
  triple (getc_post wreg l Br Bw w) (pipe_read_body k rem acc w) (read_post wreg acc l Br Bw).
Proof.
  intros Hrem Hk. destruct w as [[c|e]|]; cbn.
  - apply triple_exists. intros l'. intros s (-> & Hinv).
    destruct ((ring_readable (rs_ring s) =? 0) && has (flags (rs_ring s)) RING_SIGNAL_RET) eqn:Hb.
    + destruct (pinv_clear_flags _ _ _ _ _ (Z.lnot RING_SIGNAL_RET) _ Hinv) as (u & s' & E & Hs').
      exists (RDone (acc ++ [c])), s'.
      split; [|exists l'; rewrite <- app_assoc; split; [done|]].
      * step_run (eq_refl : get_ring s = Ret (rs_ring s, s)). rewrite Hb. by step_run E.
      * cbn [length]. replace (Bw + _ - _) with (Bw + 1) by lia. done.
    + destruct (Hk l' (Bw + 1) ltac:(cbn; lia) (acc ++ [c]) s Hinv) as (w & s' & E & Hp).
      exists w, s'. step_run (eq_refl : get_ring s = Ret (rs_ring s, s)). rewrite Hb.
      split; [done|]. destruct w as [got|rem' acc']; cbn in *.
      * destruct Hp as (l'' & E' & Hp). exists l''. rewrite <- app_assoc in E'. split; [done|].
        pinv_done Hp.
      * destruct Hp as (? & E' & Hp). rewrite <- app_assoc in E'. split_and!; [done..|].
        pinv_done Hp.
  - apply triple_ret. intros s Hinv. exists l. split; [done|].
    pinv_done Hinv.
  - apply triple_ret. intros s (-> & Hinv). split_and!; [done..|by rewrite app_nil_r|].
    pinv_done Hinv.
Qed.

Lemma pinv_read_from wreg Br rem : forall acc l Bw,
  Bw + Z.of_nat (length l) + 1 < 2 ^ 32 ->
  triple (pinv tr tw false wreg l Br Bw) (pipe_read_from tr rem acc) (read_post wreg acc l Br Bw).
Proof.
  induction rem as [|rem IH]; intros acc l Bw HB; cbn [pipe_read_from].
  - apply triple_ret. intros s Hinv. exists l. split; [done|].
    pinv_done Hinv.
  - eapply triple_bind; [apply pinv_getc; lia|]. intros w. apply pinv_read_body; [done|].
    intros l' Bw' HBw' acc'. apply IH. lia.
Qed.

(** *** The writer's segments *)
Definition putc_post (rreg : bool) l c Br Bw (w : io Z) (s : rstate) : Prop :=
  match w with
  | Sleep => pinv tr tw rreg true l Br 0 s
  | Done e => if e =? 0 then pinv tr tw rreg false (l ++ [c]) (Br + 1) Bw s
              else pinv tr tw rreg false l Br Bw s
  end.

Lemma pinv_putc rreg l c Br Bw :
  Br + 1 < 2 ^ 32 ->
  triple (pinv tr tw rreg false l Br Bw)
    (w ← ring_putc_loop ring_fuel tw; ring_putc_finish c w) (putc_post rreg l c Br Bw).
Proof.
  intros HB [r ws] Hinv. pose proof Hinv as (Hok & Hcap & HC & Hr & Hw & HBr & HBw). cbn in *.
  pose proof (ring_writable_full r Hok) as Hfull. pose proof (length_contents r Hok) as Hlen.
  pose proof (ring_count_range r Hok). rewrite HC in Hlen.
  destruct (has (flags r) RING_SIGNAL_EOF) eqn:HE;
    destruct (decide (ring_writable r = 0)) as [Hz|Hz].
  - step_run (ring_putc_loop_eof tw r ws 2 Hz HE). eexists _, _. by split.
  - step_run (ring_putc_loop_room tw r ws 2 Hz). cbn. step_run (ring_store_eof c r ws HE).
    eexists _, _. by split.
  - step_run (ring_putc_loop_sleep tw r ws Hz HE (proj1 Hw)). eexists _, _. split; [reflexivity|].
    cbn. unfold pinv; cbn. split_and!; try done; try lia. left; cbn.
    split_and!; try done; [apply Hw|]. unfold writer_cond; cbn.
    split; [|done]. rewrite HC at 1. apply Hfull in Hz. cbn. lia.
  - step_run (ring_putc_loop_room tw r ws 2 Hz). cbn.
    destruct (pinv_store rreg c l Br Bw HB ltac:(lia) _ (conj Hinv HE)) as (e & s' & E & -> & Hs').
    step_run E. eexists _, _. by split.
Qed.

Lemma pinv_writer_runs rreg l Br Bw s v :
  pinv tr tw rreg true l Br Bw s ->
  pinv tr tw rreg false l Br Bw
    (mk_rstate (set_writer_wait (mk_notify None v) (rs_ring s)) (rs_woken (unwake tw s))).
Proof.
  intros (Hok & Hcap & HC & Hr & Hw & HBr & HBw). unfold pinv; cbn.
  split_and!; try done; try lia.
  - eapply side_mono; [intros H; exact H| |reflexivity|exact Hr].
    rewrite list_elem_of_filter. naive_solver.
  - rewrite list_elem_of_filter. tauto.
Qed.

Lemma pinv_putc_resume rreg l c Br Bw intr s :
  Br + 1 < 2 ^ 32 -> pinv tr tw rreg true l Br Bw s ->
  tw ∈ rs_woken s \/ intr = true ->
  exists w s', ring_putc_resume tw c intr (unwake tw s) = Ret (w, s') /\ putc_post rreg l c Br Bw w s'.
Proof.
  intros HB Hinv Hwk. unfold ring_putc_resume. destruct intr.
  - eexists _, _. split; [reflexivity|]. cbn. by apply (pinv_writer_runs _ _ _ _ s).
  - destruct Hwk as [Hwk|]; [|done].
    assert (n_owner (writer_wait (rs_ring s)) = None /\ n_value (writer_wait (rs_ring s)) <> 0)
      as [HO HV].
    { destruct Hinv as (_ & _ & _ & _ & Hw & _). destruct Hw as [(_ & Hn & _)|(? & _ & ?)];
        [done|]. split; [done|lia]. }
    assert (on_writer_wait (thread_wait_io_resume tw false) (unwake tw s) =
            Ret (Done 0, mk_rstate (set_writer_wait (mk_notify None 0) (rs_ring s))
                           (rs_woken (unwake tw s)))) as E.
    { unfold on_writer_wait, on_ring, thread_wait_io_resume, thread_wait_io_enter. run_simpl. cbn.
      rewrite bool_decide_true by done. cbn. by destruct (rs_ring s). }
    step_run E. cbn [Z.eqb].
    exact (pinv_putc rreg l c Br Bw HB _ (pinv_writer_runs _ _ _ _ _ 0 Hinv)).
Qed.

Definition write_post (rreg : bool) len buf l Br (w : write_res) (s : rstate) : Prop :=
  exists sto Bw,
    match w with
    | WDone code => sto `prefix_of` buf /\ (code = -1 \/ code = i32 len /\ sto = buf) /\
        pinv tr tw rreg false (l ++ sto) (Br + Z.of_nat (length sto)) Bw s
    | WSleep rest => buf = sto ++ rest /\ rest <> [] /\ Bw = 0 /\
        pinv tr tw rreg true (l ++ sto) (Br + Z.of_nat (length sto)) Bw s
    end.

Lemma pinv_length rreg wreg l Br Bw s :
  pinv tr tw rreg wreg l Br Bw s -> Z.of_nat (length l) < PIPE_RING_SIZE.
Proof.
  intros (Hok & Hcap & HC & _). rewrite <- HC, length_contents, <- Hcap by done.
  by apply ring_count_range.
Qed.

(** One byte stored, then a segment that stores the rest. *)
Lemma write_post_cons rreg len c buf l Br w s :
  write_post rreg len buf (l ++ [c]) (Br + 1) w s -> write_post rreg len (c :: buf) l Br w s.
Proof.
  intros (sto & Bw & H). exists (c :: sto), Bw.
  replace (Br + Z.of_nat (length (c :: sto))) with (Br + 1 + Z.of_nat (length sto)) by (cbn; lia).
  rewrite (cons_middle c l sto), app_assoc. destruct w as [code|rest].
  - destruct H as (Hp & Hc & Hinv). split_and!; [by apply prefix_cons| |done]. naive_solver.
  - destruct H as (-> & ? & ? & ?). done.
Qed.

Lemma pinv_write_from rreg len buf : forall l Br Bw,
  Br - Z.of_nat (length l) <= 2 ^ 31 ->
  triple (pinv tr tw rreg false l Br Bw) (ring_write_from tw len buf true)
    (write_post rreg len buf l Br).
Proof.
  induction buf as [|c buf IH]; intros l Br Bw HB; cbn [ring_write_from].
  - apply triple_ret. intros s Hinv. exists [], Bw. rewrite app_nil_r.
    split_and!; [done|by right|pinv_done Hinv].
  - intros s Hinv. pose proof (pinv_length _ _ _ _ _ _ Hinv) as Hl. unfold PIPE_RING_SIZE in Hl.
    destruct (pinv_putc rreg l c Br Bw ltac:(lia) s Hinv) as (w & s' & E & Hp).
    unfold ring_putc. step_run E. destruct w as [e|]; cbn in Hp.
    + destruct (Z.eqb_spec e 0).
      * destruct (IH (l ++ [c]) (Br + 1) Bw ltac:(rewrite length_app; cbn; lia) s' Hp)
          as (w' & s'' & E' & Hp'). exists w', s''. split; [done|]. by apply write_post_cons.
      * eexists _, _. split; [reflexivity|]. exists [], Bw. rewrite app_nil_r.
        split_and!; [apply prefix_nil|by left|pinv_done Hp].
    + eexists _, _. split; [reflexivity|]. exists [], 0. rewrite app_nil_r.
      split_and!; [done..|pinv_done Hp].
Qed.

Lemma pinv_write_resume rreg len buf l Br Bw intr s :
  Br - Z.of_nat (length l) <= 2 ^ 31 -> buf <> [] ->
  pinv tr tw rreg true l Br Bw s -> tw ∈ rs_woken s \/ intr = true ->
  exists w s', ring_write_resume tw len buf intr (unwake tw s) = Ret (w, s') /\
               write_post rreg len buf l Br w s'.
Proof.
  intros HB Hne' Hinv Hwk. destruct buf as [|c buf]; [done|].
  pose proof (pinv_length _ _ _ _ _ _ Hinv) as Hl. unfold PIPE_RING_SIZE in Hl.
  destruct (pinv_putc_resume rreg l c Br Bw intr s ltac:(lia) Hinv Hwk) as (w & s' & E & Hp).
  cbn [ring_write_resume]. step_run E. destruct w as [e|]; cbn in Hp.
  - destruct (Z.eqb_spec e 0).
    + destruct (pinv_write_from rreg len buf (l ++ [c]) (Br + 1) Bw
                  ltac:(rewrite length_app; cbn; lia) s' Hp) as (w' & s'' & E' & Hp').
      exists w', s''. split; [done|]. by apply write_post_cons.
    + eexists _, _. split; [reflexivity|]. exists [], Bw. rewrite app_nil_r.
      split_and!; [apply prefix_nil|by left|pinv_done Hp].
  - eexists _, _. split; [reflexivity|]. exists [], 0. rewrite app_nil_r.
    split_and!; [done..|pinv_done Hp].
Qed.

(** A side that is not waiting imposes no bound. *)
Lemma pinv_free_r wreg l Br Br' Bw s :
  0 <= Br' < 2 ^ 32 -> pinv tr tw false wreg l Br Bw s -> pinv tr tw false wreg l Br' Bw s.
Proof.
  intros ? (?&?&?&?&?&?&?). unfold pinv. do 5 (split; [done|]). lia.
Qed.
Lemma pinv_free_w rreg l Br Bw Bw' s :
  0 <= Bw' < 2 ^ 32 -> pinv tr tw rreg false l Br Bw s -> pinv tr tw rreg false l Br Bw' s.
Proof.
  intros ? (?&?&?&?&?&?&?). unfold pinv. do 5 (split; [done|]). lia.
Qed.

(** [pipe_write_finish] after a segment that wrote the non-empty [buf]. *)
Lemma pinv_write_finish rreg len buf l Br w :
  Br - Z.of_nat (length l) <= 2 ^ 31 -> (0 < i32 len -> buf <> []) ->
  triple (write_post rreg len buf l Br w) (pipe_write_finish w)
    (fun w' s => w' = w /\ exists sto Bw Br', Br' <= Br + 2 * Z.of_nat (length sto) /\
       match w with
       | WDone code => sto `prefix_of` buf /\ pinv tr tw rreg false (l ++ sto) Br' Bw s
       | WSleep rest => buf = sto ++ rest /\ rest <> [] /\ Bw = 0 /\
                        pinv tr tw rreg true (l ++ sto) Br' Bw s
       end).
Proof.
  intros HB Hlen s (sto & Bw & H). destruct w as [code|rest]; cbn [pipe_write_finish].
  - destruct H as (Hpre & Hcode & Hinv).
    pose proof (pinv_length _ _ _ _ _ _ Hinv) as Hl. rewrite length_app in Hl.
    unfold PIPE_RING_SIZE in Hl. destruct (Z.ltb_spec 0 code) as [Hpos|Hneg].
    + assert (sto <> []) as Hs.
      { destruct Hcode as [->|[-> ->]]; [lia|auto]. }
      assert (1 <= Z.of_nat (length sto)) by (destruct sto; cbn; [done|lia]).
      assert (pinv tr tw rreg false (l ++ sto) (Br + Z.of_nat (length sto)) 0 s) as Hinv'.
      { eapply pinv_free_w; [lia|exact Hinv]. }
      destruct (pinv_signal rreg false (l ++ sto) (Br + Z.of_nat (length sto)) 0 RING_SIGNAL_RET
                  ltac:(lia) ltac:(lia) s Hinv')
        as (u & s' & E & Hs').
      exists (WDone code), s'. split; [by step_run E|]. split; [done|].
      exists sto, (0 + 1), (Br + Z.of_nat (length sto) + 1). split; [lia|]. done.
    + exists (WDone code), s. split; [done|]. split; [done|].
      exists sto, Bw, (Br + Z.of_nat (length sto)). split; [lia|]. done.
  - exists (WSleep rest), s. split; [done|]. split; [done|].
    exists sto, Bw, (Br + Z.of_nat (length sto)). split; [lia|]. done.
Qed.

Definition rblocked (r : reader) : bool := if r is RBlocked _ _ then true else false.
Definition wblocked (w : writer) : bool := if w is WBlocked _ _ then true else false.

(** The invariant of the two-thread system. *)
Definition sysinv (s : psys) : Prop :=
  0 <= ps_closed s <= 2 /\
  pinv tr tw (rblocked (ps_reader s)) (wblocked (ps_writer s)) (ps_contents s)
    (2 * Z.of_nat (length (ps_contents s)) + ps_closed s)
    (PIPE_RING_SIZE - 1 - Z.of_nat (length (ps_contents s)) + ps_closed s) (ps_st s) /\
  ps_in s = ps_out s ++ partial_read (ps_reader s) ++ ps_contents s /\
  match ps_reader s with RBlocked rem _ => rem <> 0%nat | RIdle => True end /\
  match ps_writer s with WBlocked _ rest => rest <> [] | WIdle => True end.

Lemma pinv_contents rreg wreg l Br Bw s :
  pinv tr tw rreg wreg l Br Bw s -> contents (rs_ring s) = l.
Proof. intros (_ & _ & HC & _). exact HC. Qed.

Lemma sysinv_init mem :
  Z.of_nat (length mem) = PIPE_RING_SIZE -> sysinv (pinit mem).
Proof.
  intros Hm. unfold sysinv, pinv, ps_contents, PIPE_RING_SIZE, ring_ok in *. cbn.
  split_and!; try done; try lia. all: set_solver.
Qed.

(** What a read segment leaves. *)
Lemma sysinv_after_read s w st' acc :
  0 <= ps_closed s <= 2 ->
  ps_in s = ps_out s ++ acc ++ ps_contents s ->
  match ps_writer s with WBlocked _ rest => rest <> [] | WIdle => True end ->
  read_post (wblocked (ps_writer s)) acc (ps_contents s)
    (2 * Z.of_nat (length (ps_contents s)) + ps_closed s)
    (PIPE_RING_SIZE - 1 - Z.of_nat (length (ps_contents s)) + ps_closed s) w st' ->
  sysinv (mk_psys st' (reader_after w) (ps_writer s) (ps_in s) (out_after (ps_out s) w) (ps_closed s)).
Proof.
  intros Hc HF HW Hp. unfold sysinv, ps_contents at 1 2 3 4; cbn. split; [done|].
  destruct w as [got|rem acc']; cbn in *.
  - destruct Hp as (l' & E & Hinv). pose proof (pinv_length _ _ _ _ _ _ Hinv) as Hl.
    unfold PIPE_RING_SIZE in *. rewrite (pinv_contents _ _ _ _ _ _ Hinv).
    split; [|split; [|done]].
    + apply (pinv_free_r _ _ (2 * Z.of_nat (length (ps_contents s)) + ps_closed s)); [lia|].
      pinv_done Hinv.
    + by rewrite HF, E, app_assoc.
  - destruct Hp as (Hr & E & Hinv). rewrite (pinv_contents _ _ _ _ _ _ Hinv).
    unfold PIPE_RING_SIZE in *. split; [pinv_done Hinv|]. split; [|done].
    by rewrite HF, E, app_nil_r.
Qed.

(** What a write segment leaves. *)
Lemma sysinv_after_write s w st' len buf sto Bw Br' :
  0 <= ps_closed s <= 2 ->
  ps_in s = ps_out s ++ partial_read (ps_reader s) ++ ps_contents s ->
  match ps_reader s with RBlocked rem _ => rem <> 0%nat | RIdle => True end ->
  Br' <= 2 * Z.of_nat (length (ps_contents s)) + ps_closed s + 2 * Z.of_nat (length sto) ->
  match w with
  | WDone code => sto `prefix_of` buf /\
      pinv tr tw (rblocked (ps_reader s)) false (ps_contents s ++ sto) Br' Bw st'
  | WSleep rest => buf = sto ++ rest /\ rest <> [] /\ Bw = 0 /\
      pinv tr tw (rblocked (ps_reader s)) true (ps_contents s ++ sto) Br' Bw st'
  end ->
  sysinv (mk_psys st' (ps_reader s) (writer_after len w)
            (ps_in s ++ accepted buf (ps_st s) st') (ps_out s) (ps_closed s)).
Proof.
  intros Hc HF HR HB Hw.
  assert (exists wreg, pinv tr tw (rblocked (ps_reader s)) wreg (ps_contents s ++ sto) Br' Bw st' /\
            wreg = wblocked (writer_after len w) /\ (wreg = true -> Bw = 0) /\
            sto `prefix_of` buf /\
            match writer_after len w with WBlocked _ rest => rest <> [] | WIdle => True end)
    as (wreg & Hinv & Ew & HBw & Hpre & HWr).
  { destruct w as [code|rest]; cbn.
    - exists false. naive_solver.
    - destruct Hw as (-> & ? & -> & ?). exists true. split_and!; try done. by apply prefix_app_r. }
  pose proof (pinv_contents _ _ _ _ _ _ Hinv) as HC.
  pose proof (pinv_length _ _ _ _ _ _ Hinv) as Hl.
  assert (accepted buf (ps_st s) st' = sto) as ->.
  { unfold accepted. rewrite HC. fold (ps_contents s). rewrite length_app.
    replace (_ + _ - _)%nat with (length sto) by lia.
    destruct Hpre as [k ->]. by rewrite take_app_length. }
  unfold sysinv, ps_contents at 1 2 3 4; cbn. rewrite HC, <- Ew. split; [done|].
  rewrite length_app in *. unfold PIPE_RING_SIZE in *. split_and!; [|by rewrite HF, !app_assoc|done..].
  destruct wreg.
  - rewrite HBw in Hinv by done. pinv_done Hinv.
  - apply (pinv_free_w _ _ _ Bw); [lia|]. pinv_done Hinv.
Qed.

(** The four operations, started in a state of the invariant. *)
Lemma sysinv_read s n :
  sysinv s -> ps_reader s = RIdle ->
  exists w st', pipe_vnode_read tr n (ps_st s) = Ret (w, st') /\
    sysinv (mk_psys st' (reader_after w) (ps_writer s) (ps_in s) (out_after (ps_out s) w) (ps_closed s)).
Proof.
  intros (Hc & Hinv & HF & _ & HW) HR. rewrite HR in *. cbn in *.
  pose proof (pinv_length _ _ _ _ _ _ Hinv) as Hl. unfold PIPE_RING_SIZE in Hl.
  set (Bw := PIPE_RING_SIZE - 1 - Z.of_nat (length (ps_contents s)) + ps_closed s) in *.
  assert (Bw + Z.of_nat (length (ps_contents s)) + 1 < 2 ^ 32) as HB
    by (unfold Bw, PIPE_RING_SIZE; lia).
  destruct (pinv_read_from _ _ n [] _ Bw HB _ Hinv) as (w & st' & E & Hp).
  exists w, st'. split; [exact E|]. by apply (sysinv_after_read s w st' []).
Qed.

Lemma sysinv_read_resume s rem acc intr :
  sysinv s -> ps_reader s = RBlocked rem acc -> tr ∈ rs_woken (ps_st s) \/ intr = true ->
  exists w st', pipe_read_resume tr intr rem acc (unwake tr (ps_st s)) = Ret (w, st') /\
    sysinv (mk_psys st' (reader_after w) (ps_writer s) (ps_in s) (out_after (ps_out s) w) (ps_closed s)).
Proof.
  intros (Hc & Hinv & HF & HRem & HW) HR Hwk. rewrite HR in *. cbn in *.
  pose proof (pinv_length _ _ _ _ _ _ Hinv) as Hl. unfold PIPE_RING_SIZE in Hl.
  set (Bw := PIPE_RING_SIZE - 1 - Z.of_nat (length (ps_contents s)) + ps_closed s) in *.
  destruct (pinv_getc_resume _ _ _ Bw intr _ ltac:(unfold Bw, PIPE_RING_SIZE; lia) Hinv Hwk)
    as (g & s1 & E1 & Hg).
  destruct (pinv_read_body (wblocked (ps_writer s)) acc (ps_contents s)
    (2 * Z.of_nat (length (ps_contents s)) + ps_closed s) Bw
    (pipe_read_from tr (pred rem)) rem g HRem) with (s := s1) as (w & st' & E & Hp); [|done|].
  { intros l' Bw' HB acc'. apply pinv_read_from. unfold Bw, PIPE_RING_SIZE in HB. lia. }
  exists w, st'. split; [unfold pipe_read_resume; by step_run E1|].
  by apply (sysinv_after_read s w st' acc).
Qed.

Lemma i32_pos_nonempty (buf : list Z) : 0 < i32 (Z.of_nat (length buf)) -> buf <> [].
Proof. by intros H ->. Qed.

Lemma sysinv_write s buf :
  sysinv s -> ps_writer s = WIdle ->
  exists w st', pipe_vnode_write tw buf (ps_st s) = Ret (w, st') /\
    sysinv (mk_psys st' (ps_reader s) (writer_after (Z.of_nat (length buf)) w)
              (ps_in s ++ accepted buf (ps_st s) st') (ps_out s) (ps_closed s)).
Proof.
  intros (Hc & Hinv & HF & HRem & _) HW. rewrite HW in *. cbn in *.
  pose proof (pinv_length _ _ _ _ _ _ Hinv) as Hl. unfold PIPE_RING_SIZE in Hl.
  set (Br := 2 * Z.of_nat (length (ps_contents s)) + ps_closed s) in *.
  assert (Br - Z.of_nat (length (ps_contents s)) <= 2 ^ 31) as HB by (unfold Br; lia).
  destruct (pinv_write_from _ (Z.of_nat (length buf)) buf _ _ _ HB _ Hinv) as (w & s1 & E1 & Hp1).
  destruct (pinv_write_finish _ _ _ _ _ w HB (i32_pos_nonempty buf) _ Hp1)
    as (w' & st' & E & -> & sto & Bw' & Br' & HBr' & Hp).
  exists w, st'. split; [unfold pipe_vnode_write, ring_write; by step_run E1|].
  by eapply (sysinv_after_write s w st' _ buf sto).
Qed.

Lemma sysinv_write_resume s len rest intr :
  sysinv s -> ps_writer s = WBlocked len rest -> tw ∈ rs_woken (ps_st s) \/ intr = true ->
  exists w st', pipe_write_resume tw intr len rest (unwake tw (ps_st s)) = Ret (w, st') /\
    sysinv (mk_psys st' (ps_reader s) (writer_after len w)
              (ps_in s ++ accepted rest (ps_st s) st') (ps_out s) (ps_closed s)).
Proof.
  intros (Hc & Hinv & HF & HRem & HWr) HW Hwk. rewrite HW in *. cbn in *.
  pose proof (pinv_length _ _ _ _ _ _ Hinv) as Hl. unfold PIPE_RING_SIZE in Hl.
  set (Br := 2 * Z.of_nat (length (ps_contents s)) + ps_closed s) in *.
  assert (Br - Z.of_nat (length (ps_contents s)) <= 2 ^ 31) as HB by (unfold Br; lia).
  destruct (pinv_write_resume _ len rest _ _ _ intr _ HB HWr Hinv Hwk) as (w & s1 & E1 & Hp1).
  destruct (pinv_write_finish _ _ _ _ _ w HB (fun _ => HWr) _ Hp1)
    as (w' & st' & E & -> & sto & Bw' & Br' & HBr' & Hp).
  exists w, st'. split; [unfold pipe_write_resume; by step_run E1|].
  by eapply (sysinv_after_write s w st' len rest sto).
Qed.

Lemma sysinv_close s :
  sysinv s -> ps_closed s < 2 ->
  exists st', pipe_vnode_close (ps_st s) = Ret (tt, st') /\
    sysinv (mk_psys st' (ps_reader s) (ps_writer s) (ps_in s) (ps_out s) (ps_closed s + 1)).
Proof.
  intros (Hc & Hinv & HF & HR & HW) Hlt.
  pose proof (pinv_length _ _ _ _ _ _ Hinv) as Hl. unfold PIPE_RING_SIZE in Hl.
  set (Br := 2 * Z.of_nat (length (ps_contents s)) + ps_closed s) in *.
  set (Bw := PIPE_RING_SIZE - 1 - Z.of_nat (length (ps_contents s)) + ps_closed s) in *.
  destruct (pinv_signal _ _ _ Br Bw RING_SIGNAL_EOF ltac:(unfold Br; lia)
              ltac:(unfold Bw, PIPE_RING_SIZE; lia) _ Hinv) as ([] & st' & E & Hp).
  exists st'. split; [exact E|]. unfold sysinv, ps_contents at 1 2 3 4; cbn.
  rewrite (pinv_contents _ _ _ _ _ _ Hp). split; [lia|].
  split; [unfold Br, Bw in Hp; pinv_done Hp|]. done.
Qed.

Lemma sysinv_step s s' : sysinv s -> pstep tr tw s s' -> sysinv s'.
Proof.
  intros Hs Hst. destruct Hst as [s n w st' HR E|s rem acc intr w st' HR Hwk E
    |s buf w st' HW E|s len rest intr w st' HW Hwk E|s st' Hlt E].
  - destruct (sysinv_read s n Hs HR) as (w' & st'' & E' & H). congruence.
  - destruct (sysinv_read_resume s rem acc intr Hs HR Hwk) as (w' & st'' & E' & H). congruence.
  - destruct (sysinv_write s buf Hs HW) as (w' & st'' & E' & H). congruence.
  - destruct (sysinv_write_resume s len rest intr Hs HW Hwk) as (w' & st'' & E' & H). congruence.
  - destruct (sysinv_close s Hs Hlt) as (st'' & E' & H). congruence.
Qed.

Lemma preach_sysinv mem s :
  Z.of_nat (length mem) = PIPE_RING_SIZE -> preach tr tw mem s -> sysinv s.
Proof. intros Hm. induction 1; eauto using sysinv_init, sysinv_step. Qed.
End pipe_invariant.

(** ** Theorems *)

(** C1: a pipe is a FIFO whatever the interleaving of its reader, its writer,
    signals and closes: the bytes the ring accepted are, in order, the bytes
    finished reads returned, those a blocked read already holds, and those
    still in the ring.  Nothing is lost, duplicated or reordered. *)
Theorem pipe_fifo tr tw mem s :
  tr <> tw -> Z.of_nat (length mem) = PIPE_RING_SIZE -> preach tr tw mem s ->
  ps_in s = ps_out s ++ partial_read (ps_reader s) ++ ps_contents s.
Proof. intros Hne Hm Hr. by apply (preach_sysinv tr tw Hne mem s Hm Hr). Qed.



(** Witnesses: three bytes are written and read back, and the reader then blocks. *)
Definition pipe_mem : list Z := replicate 1024 0.

Lemma pipe_mem_length : Z.of_nat (length pipe_mem) = PIPE_RING_SIZE.
Proof. unfold pipe_mem. by rewrite length_replicate. Qed.

Lemma pipe_run_example :
  exists s, preach 1 2 pipe_mem s /\ ps_in s = [5; 6; 7] /\ ps_out s = [5; 6] /\
    ps_contents s = [7] /\ ps_reader s = RIdle /\ ps_writer s = WIdle.
Proof.
  eexists. split.
  - eapply preach_step; [eapply preach_step; [apply preach_init|]|].
    + apply (step_write 1 2 _ [5; 6; 7]); [reflexivity|vm_compute; reflexivity].
    + apply (step_read 1 2 _ 2); [reflexivity|vm_compute; reflexivity].
  - vm_compute. done.
Qed.

Lemma pipe_sleep_example :
  exists s, preach 1 2 pipe_mem s /\ ps_reader s = RBlocked 4 [] /\ rs_woken (ps_st s) = [].
Proof.
  eexists. split.
  - eapply preach_step; [apply preach_init|].
    apply (step_read 1 2 _ 4); [reflexivity|vm_compute; reflexivity].
  - vm_compute. done.
Qed.

Lemma pipe_fifo_witness :
  exists s, preach 1 2 pipe_mem s /\ ps_out s = [5; 6] /\
    [5; 6; 7] = ps_out s ++ partial_read (ps_reader s) ++ ps_contents s.
Proof.
  destruct pipe_run_example as (s & Hr & Hin & Hout & _). exists s.
  split; [exact Hr|]. split; [exact Hout|]. rewrite <- Hin.
  exact (pipe_fifo 1 2 pipe_mem s ltac:(lia) pipe_mem_length Hr).
Defined.


