(* ===== verification/Heap.v ===== *)
(** * The kernel heap: [arch/amd64/mm/heap.c]

    The heap is a doubly linked list of block headers laid out in one
    contiguous region.  [blocks] is the store of headers by virtual address;
    all pointer updates of the source are updates of that store.  Headers
    merged away keep their (cleared) entry, as they stay in memory.  The heap
    lock makes each operation atomic. *)

From S2P Require Import Prelude Defs.

Definition HEAP_MAGIC : Z := 0x1BAD83A0.
(** [sizeof(heap_block_t)]: two 32-bit fields and two pointers. *)
Definition HDR : Z := 24.

Record heap_block := mk_block { b_magic : Z; b_size : Z; b_prev : Z; b_next : Z }.

Record heap := mk_heap { h_base : Z; h_limit : Z; blocks : gmap Z heap_block }.

Definition h_begin (h : heap) : Z := MM_VIRTUALIZE (h_base h).

Definition set_magic x b := mk_block x (b_size b) (b_prev b) (b_next b).
Definition set_size x b := mk_block (b_magic b) x (b_prev b) (b_next b).
Definition set_prev x b := mk_block (b_magic b) (b_size b) x (b_next b).
Definition set_next x b := mk_block (b_magic b) (b_size b) (b_prev b) x.

Definition load_block (a : Z) : cmd heap heap_block := cload (fun h => blocks h !! a).
Definition store_block (a : Z) (b : heap_block) : cmd heap unit :=
  cmodify (fun h => mk_heap (h_base h) (h_limit h) (<[a:=b]> (blocks h))).
(** Update a header in place. *)
Definition upd_block (a : Z) (f : heap_block -> heap_block) : cmd heap unit :=
  b ← load_block a; store_block a (f b).

Definition magic_ok (b : heap_block) : bool := Z.land (b_magic b) HEAP_MAGIC =? HEAP_MAGIC.
Definition in_use (b : heap_block) : bool := negb (Z.land (b_magic b) 1 =? 0).

(** A walk over the list visits at most every header once. *)
Definition heap_fuel (h : heap) : nat := S (size (blocks h)).

(** The magic check loop of [heap_alloc] and [heap_free]. *)
Fixpoint heap_check (fuel : nat) (a : Z) : cmd heap unit :=
  match fuel with
  | O => cdiverged
  | S fuel =>
      if a =? 0 then mret tt
      else
        b ← load_block a;
        if magic_ok b then heap_check fuel (b_next b) else cpanic
  end.

(** Split block [a]: it keeps [count] bytes, the rest becomes a free block. *)
Definition heap_split (a count : Z) (b : heap_block) : cmd heap unit :=
  let cur_next := b_next b in
  let new_block := u64 (u64 (a + HDR) + count) in
  (if cur_next =? 0 then mret tt else upd_block cur_next (set_prev new_block));;
  store_block new_block
    (mk_block HEAP_MAGIC (u32 (u64 (u64 (b_size b - HDR) - count))) a cur_next);;
  upd_block a (fun b =>
    mk_block (Z.lor (b_magic b) 1) (u32 count) (b_prev b) new_block).

(** The allocation loop of [heap_alloc]. *)
Fixpoint heap_find (fuel : nat) (count a : Z) : cmd heap Z :=
  match fuel with
  | O => cdiverged
  | S fuel =>
      if a =? 0 then mret 0
      else
        b ← load_block a;
        if in_use b then heap_find fuel count (b_next b)
        else if count =? b_size b then
          upd_block a (fun b => set_magic (Z.lor (b_magic b) 1) b);;
          mret (u64 (a + HDR))
        else if u64 (count + HDR) <=? b_size b then
          heap_split a count b;;
          mret (u64 (a + HDR))
        else heap_find fuel count (b_next b)
  end.

Definition round16 (count : Z) : Z := Z.land (u64 (count + 15)) (Z.lnot 15).

Definition heap_alloc (count : Z) : cmd heap Z :=
  h ← cget;
  let count := round16 count in
  heap_check (heap_fuel h) (h_begin h);;
  heap_find (heap_fuel h) count (h_begin h).

(** Merge the freed block [a] into its free predecessor [p]. *)
Definition heap_merge_prev (p a nx : Z) : cmd heap unit :=
  upd_block p (set_next nx);;
  (if nx =? 0 then mret tt else upd_block nx (set_prev p));;
  b ← load_block a;
  upd_block p (fun pb => set_size (u32 (b_size pb + (HDR + b_size b))) pb);;
  upd_block a (set_magic 0).

(** Merge the free successor [nx] into block [a]. *)
Definition heap_merge_next (a nx : Z) : cmd heap unit :=
  nb ← load_block nx;
  upd_block a (set_next (b_next nb));;
  (if b_next nb =? 0 then mret tt else upd_block (b_next nb) (set_prev a));;
  upd_block nx (set_magic 0);;
  upd_block a (fun b => set_size (u32 (b_size b + (HDR + b_size nb))) b).

Definition heap_free (ptr : Z) : cmd heap unit :=
  if ptr =? 0 then mret tt
  else
    h ← cget;
    if (ptr <? h_begin h) || (u64 (h_begin h + h_limit h) <? ptr) then cpanic
    else
      let a := u64 (ptr - HDR) in
      b ← load_block a;
      cassert (magic_ok b);;
      cassert (in_use b);;
      upd_block a (set_magic HEAP_MAGIC);;
      heap_check (heap_fuel h) (h_begin h);;
      b ← load_block a;
      let prev := b_prev b in
      let next := b_next b in
      cur ← (if prev =? 0 then mret a
             else
               pb ← load_block prev;
               if in_use pb then mret a
               else heap_merge_prev prev a next;; mret prev);
      if next =? 0 then mret tt
      else
        nb ← load_block next;
        if in_use nb then mret tt else heap_merge_next cur next.

(** [amd64_heap_init], after the region was filled with noise. *)
Definition amd64_heap_init (phys_base sz : Z) : heap :=
  mk_heap phys_base sz
    {[ MM_VIRTUALIZE phys_base := mk_block HEAP_MAGIC (u32 (u64 (sz - HDR))) 0 0 ]}.

Record heap_stat := mk_heap_stat { alloc_count : Z; alloc_size : Z; free_size : Z; total_size : Z }.

Fixpoint heap_stat_loop (fuel : nat) (a : Z) (st : heap_stat) : cmd heap heap_stat :=
  match fuel with
  | O => cdiverged
  | S fuel =>
      if a =? 0 then mret st
      else
        b ← load_block a;
        if magic_ok b then
          heap_stat_loop fuel (b_next b)
            (if in_use b
             then mk_heap_stat (u64 (alloc_count st + 1)) (u64 (alloc_size st + b_size b))
                    (free_size st) (total_size st)
             else mk_heap_stat (alloc_count st) (alloc_size st)
                    (u64 (free_size st + b_size b)) (total_size st))
        else cpanic
  end.

Definition get_heap_stat : cmd heap heap_stat :=
  h ← cget;
  heap_stat_loop (heap_fuel h) (h_begin h) (mk_heap_stat 0 0 0 (h_limit h)).

(** ** Abstract view

    The heap as the list of its blocks in address order: size and whether the
    block is in use.  [first_fit] and [release] are the allocator on that
    list. *)
Abbreviation blk := (Z * bool)%type.

(** The allocation of [count] bytes from the blocks [l] at address [a]: the
    address of the chosen block and the new list. *)
Fixpoint first_fit (count a : Z) (l : list blk) : option (Z * list blk) :=
  match l with
  | [] => None
  | (s, u) :: r =>
      if u || negb ((count =? s) || (count + HDR <=? s)) then
        '(x, r') ← first_fit count (a + HDR + s) r; Some (x, (s, u) :: r')
      else if count =? s then Some (a, (s, true) :: r)
      else Some (a, (count, true) :: (s - HDR - count, false) :: r)
  end.

(** Merge a free block of size [s] with a free right neighbour. *)
Definition join_right (s : Z) (l2 : list blk) : Z * list blk :=
  match l2 with
  | (s2, false) :: l2' => (s + HDR + s2, l2')
  | _ => (s, l2)
  end.

(** Free the block of size [s] between [l1] and [l2]. *)
Fixpoint release (l1 : list blk) (s : Z) (l2 : list blk) : list blk :=
  match l1 with
  | [] => let '(s', l2') := join_right s l2 in (s', false) :: l2'
  | [(s1, false)] => let '(s', l2') := join_right (s1 + HDR + s) l2 in (s', false) :: l2'
  | b :: l1' => b :: release l1' s l2
  end.

(** Bytes taken by a list of blocks, headers included. *)
Fixpoint extent (l : list blk) : Z :=
  match l with [] => 0 | (s, _) :: r => HDR + s + extent r end.

(** ** Representation

    [seg m E p a l q e]: in store [m], the blocks [l] occupy the addresses
    [a, e) one after the other, the first one's [prev] is [p], and [q] is the
    address of the last one ([p] when there is none).  [E] is the end of the
    heap, where [next] is NULL. *)
Definition mg (u : bool) : Z := if u then Z.lor HEAP_MAGIC 1 else HEAP_MAGIC.
Definition nxt (E x : Z) : Z := if x =? E then 0 else x.

Fixpoint seg (m : gmap Z heap_block) (E p a : Z) (l : list blk) (q e : Z) : Prop :=
  match l with
  | [] => q = p /\ e = a
  | (s, u) :: l' =>
      m !! a = Some (mk_block (mg u) s p (nxt E (a + HDR + s))) /\ 0 <= s < 2 ^ 32 /\
      seg m E a (a + HDR + s) l' q e
  end.

Definition heap_ok (h : heap) (l : list blk) : Prop :=
  l <> [] /\ 0 < h_begin h /\ 0 <= h_limit h < 2 ^ 32 /\ h_begin h + h_limit h < 2 ^ 64 /\
  exists q, seg (blocks h) (h_begin h + h_limit h) 0 (h_begin h) l q (h_begin h + h_limit h).

Section heap_seg.
Implicit Types (m : gmap Z heap_block) (l : list blk).

Lemma magic_ok_mg u s p n : magic_ok (mk_block (mg u) s p n) = true.
Proof. by destruct u. Qed.
Lemma in_use_mg u s p n : in_use (mk_block (mg u) s p n) = u.
Proof. by destruct u. Qed.

Lemma seg_extent m E l : forall p a q e, seg m E p a l q e -> e = a + extent l.
Proof.
  induction l as [|[s u] l IH]; cbn; intros p a q e H; [lia|].
  destruct H as (_ & _ & H%IH). lia.
Qed.

Lemma seg_nonneg m E l : forall p a q e, seg m E p a l q e -> 0 <= extent l.
Proof.
  unfold HDR. induction l as [|[s u] l IH]; cbn; intros p a q e H; [lia|].
  destruct H as (_ & ? & H%IH). unfold HDR. lia.
Qed.

Lemma seg_le m E p a l q e : seg m E p a l q e -> a <= e.
Proof. intros H. pose proof (seg_extent _ _ _ _ _ _ _ H). apply seg_nonneg in H. lia. Qed.

Lemma hseg_app m E l1 l2 : forall p a q e,
  seg m E p a (l1 ++ l2) q e <->
  exists q1 e1, seg m E p a l1 q1 e1 /\ seg m E q1 e1 l2 q e.
Proof.
  induction l1 as [|[s u] l1 IH]; cbn; intros p a q e.
  - split; [intros H; eauto|intros (q1 & e1 & (-> & ->) & H); done].
  - rewrite IH. naive_solver.
Qed.

Lemma seg_frame m m' E l : forall p a q e,
  (forall x, a <= x < e -> m' !! x = m !! x) -> seg m E p a l q e -> seg m' E p a l q e.
Proof.
  induction l as [|[s u] l IH]; cbn; intros p a q e Hm H; [done|].
  destruct H as (Ha & Hs & H). pose proof (seg_le _ _ _ _ _ _ _ H). unfold HDR in *.
  rewrite Hm by lia. split_and!; [done|lia..|]. apply IH; [|done]. intros x Hx. apply Hm. lia.
Qed.

(** Relinking the first block to another predecessor. *)
Lemma seg_reprev m E p p' a s u l q e :
  seg m E p a ((s, u) :: l) q e ->
  seg (<[a:=mk_block (mg u) s p' (nxt E (a + HDR + s))]> m) E p' a ((s, u) :: l) q e.
Proof.
  cbn. intros (Ha & Hs & H). rewrite lookup_insert_eq. split_and!; [done|lia..|].
  eapply seg_frame; [|done]. intros x Hx. unfold HDR in *. by rewrite lookup_insert_ne by lia.
Qed.

(** The list is no longer than the store: walks have fuel enough. *)
Lemma seg_length m E l : forall p a q e (X : gset Z),
  seg m E p a l q e -> (forall x, x ∈ X -> x < a) ->
  X ⊆ dom m -> (length l + size X <= size (dom m))%nat.
Proof.
  induction l as [|[s u] l IH]; cbn; intros p a q e X H HX Hsub.
  - by apply subseteq_size.
  - destruct H as (Ha & Hs & H). unfold HDR in *.
    assert (a ∉ X) by (intros ?%HX; lia).
    pose proof (IH _ _ _ _ ({[a]} ∪ X) H) as HI.
    rewrite size_union, size_singleton in HI by set_solver.
    enough (length l + (1 + size X) <= size (dom m))%nat by lia. apply HI.
    + intros x [->%elem_of_singleton|?%HX]%elem_of_union; lia.
    + assert (a ∈ dom m) by (apply elem_of_dom; eauto). set_solver.
Qed.

Lemma seg_fuel m E p a l q e : seg m E p a l q e -> (length l <= size m)%nat.
Proof.
  intros H. rewrite <- size_dom.
  pose proof (seg_length m E l p a q e ∅ H) as HL. rewrite size_empty in HL.
  rewrite Nat.add_0_r in HL. apply HL; set_solver.
Qed.
End heap_seg.

Section heap_walks.
Implicit Types (h : heap) (l : list blk).

Lemma load_block_run h a b : blocks h !! a = Some b -> load_block a h = Ret (b, h).
Proof. intros H. by apply (load_Some (fun h => blocks h !! a)). Qed.

Definition set_blocks h m := mk_heap (h_base h) (h_limit h) m.

Lemma upd_block_run h a b f :
  blocks h !! a = Some b -> upd_block a f h = Ret (tt, set_blocks h (<[a:=f b]> (blocks h))).
Proof. intros Ha. unfold upd_block. by step_run (load_block_run h a b Ha). Qed.

(** The pointer reached after a block, or NULL at the end of the heap. *)
Lemma nxt_end m E p a l q :
  seg m E p a l q E -> 0 < a -> nxt E a = if l is [] then 0 else a.
Proof.
  intros H Ha. unfold nxt. destruct l as [|[s u] l]; cbn in H.
  - destruct H as [_ <-]. by rewrite Z.eqb_refl.
  - destruct H as (_ & Hs & H%seg_le). unfold HDR in *.
    destruct (Z.eqb_spec a E); [lia|done].
Qed.

Lemma heap_check_ok h E l : forall fuel p a q,
  0 < a -> (length l < fuel)%nat -> seg (blocks h) E p a l q E ->
  heap_check fuel (if l is [] then 0 else a) h = Ret (tt, h).
Proof.
  induction l as [|[s u] l IH]; intros fuel p a q Ha Hf H; (destruct fuel as [|fuel]; [cbn in Hf; lia|]).
  - done.
  - cbn in H. destruct H as (Hb & Hs & H). unfold HDR in *. cbn [heap_check].
    destruct (Z.eqb_spec a 0); [lia|]. step_run (load_block_run h a _ Hb).
    rewrite magic_ok_mg. cbn. rewrite (nxt_end _ _ _ _ _ _ H) by lia.
    cbn in Hf. apply (IH _ a _ q); [lia..|done].
Qed.

(** [if (next) next->prev = p]: relinking the rest of the list to [p]. *)
Lemma relink_run h E p0 p n l q :
  0 < n -> seg (blocks h) E p0 n l q E ->
  exists m' q',
    (if nxt E n =? 0 then mret tt else upd_block (nxt E n) (set_prev p)) h =
      Ret (tt, set_blocks h m') /\
    seg m' E p n l q' E /\ (forall x, x < n \/ E <= x -> m' !! x = blocks h !! x).
Proof.
  intros Hn H. rewrite (nxt_end _ _ _ _ _ _ H) by lia. destruct l as [|[s u] l].
  - exists (blocks h), p. cbn in *. destruct H as [-> ->]. split; [by destruct h|done].
  - destruct (Z.eqb_spec n 0); [lia|]. pose proof (seg_reprev _ _ _ p _ _ _ _ _ _ H) as Hre.
    cbn in H. destruct H as (Hb & Hs & H). pose proof (seg_le _ _ _ _ _ _ _ H). unfold HDR in *.
    eexists _, q. split; [exact (upd_block_run h n _ (set_prev p) Hb)|]. split; [exact Hre|].
    intros x Hx. by rewrite lookup_insert_ne by lia.
Qed.

Lemma nxt_inner E x : x <> E -> nxt E x = x.
Proof. unfold nxt. by destruct (Z.eqb_spec x E). Qed.

(** Splitting block [a] of the list. *)
Lemma heap_split_run h E p a s l q count :
  0 < a -> E < 2 ^ 64 -> 0 <= count -> count + HDR <= s ->
  seg (blocks h) E p a ((s, false) :: l) q E ->
  exists m' q', heap_split a count (mk_block (mg false) s p (nxt E (a + HDR + s))) h =
      Ret (tt, set_blocks h m') /\
    seg m' E p a ((count, true) :: (s - HDR - count, false) :: l) q' E /\
    (forall x, x < a \/ E <= x -> m' !! x = blocks h !! x).
Proof.
  intros Ha HE Hc Hcs H. cbn in H. destruct H as (Hb & Hs & H).
  pose proof (seg_le _ _ _ _ _ _ _ H) as Hle. unfold HDR in *.
  set (n := a + 24 + count).
  assert (u64 (u64 (a + 24) + count) = n) as En by (unfold n; repeat wrap_small; lia).
  assert (u32 (u64 (u64 (s - 24) - count)) = s - 24 - count) as Es by (repeat wrap_small; lia).
  assert (n + 24 + (s - 24 - count) = a + 24 + s) as Een by (unfold n; lia).
  destruct (relink_run h E a n (a + 24 + s) l q ltac:(lia) H) as (m1 & q1 & E1 & H1 & F1).
  unfold heap_split. cbn [b_next b_size]. unfold HDR. rewrite En, Es. step_run E1.
  set (nb := mk_block HEAP_MAGIC (s - 24 - count) a (nxt E (a + 24 + s))).
  set (ab := mk_block (mg true) count p n).
  exists (<[a:=ab]> (<[n:=nb]> m1)), q1. split; [|split].
  - unfold store_block. rewrite (bind_Ret _ _ _ tt (set_blocks h (<[n:=nb]> m1))) by done.
    rewrite (upd_block_run _ a (mk_block (mg false) s p (nxt E (a + 24 + s))))
      by (cbn; rewrite lookup_insert_ne, F1 by (unfold n; lia); done).
    cbn. unfold ab. by rewrite uwrap_small by lia.
  - cbn [seg]. unfold HDR. fold n. rewrite Een, (nxt_inner E n) by (unfold n; lia).
    rewrite lookup_insert_eq, lookup_insert_ne, lookup_insert_eq by (unfold n; lia).
    do 2 (split; [done||lia|]). split; [done|]. split; [lia|].
    eapply seg_frame; [|exact H1]. intros x Hx. by rewrite !lookup_insert_ne by (unfold n; lia).
  - intros x Hx. rewrite !lookup_insert_ne by (unfold n; lia). apply F1. lia.
Qed.

(** Merging a free block into its free predecessor. *)
Lemma heap_merge_prev_run h E p0 p s1 s l q :
  0 < p -> E - p < 2 ^ 32 ->
  seg (blocks h) E p0 p ((s1, false) :: (s, false) :: l) q E ->
  exists m' q',
    heap_merge_prev p (p + HDR + s1) (nxt E (p + HDR + s1 + HDR + s)) h =
      Ret (tt, set_blocks h m') /\
    seg m' E p0 p ((s1 + HDR + s, false) :: l) q' E /\
    (forall x, x < p \/ E <= x -> m' !! x = blocks h !! x).
Proof.
  intros Hp HE H. cbn in H. destruct H as (Hb1 & Hs1 & Hb & Hs & H).
  pose proof (seg_le _ _ _ _ _ _ _ H) as Hle. unfold HDR in *.
  remember (p + 24 + s1) as a eqn:Ea. remember (a + 24 + s) as n eqn:En. unfold heap_merge_prev.
  step_run (upd_block_run h p _ (set_next (nxt E n)) Hb1).
  set (h1 := set_blocks h _).
  destruct (relink_run h1 E a p n l q ltac:(lia)) as (m2 & q2 & E2 & H2 & F2).
  { eapply seg_frame; [|exact H]. intros x Hx. cbn. by rewrite lookup_insert_ne by lia. }
  step_run E2. unfold h1 in F2; cbn in F2.
  assert (m2 !! a = Some (mk_block (mg false) s p (nxt E n))) as Ha2
    by (rewrite F2, lookup_insert_ne by lia; done).
  assert (m2 !! p = Some (mk_block (mg false) s1 p0 (nxt E n))) as Hp2
    by (rewrite F2, lookup_insert_eq by lia; done).
  step_run (load_block_run (set_blocks h1 m2) a _ Ha2).
  step_run (upd_block_run (set_blocks h1 m2) p _
    (fun pb => set_size (u32 (b_size pb + (HDR + s))) pb) Hp2).
  eexists _, q2. split; [|split].
  - erewrite upd_block_run by (cbn; rewrite lookup_insert_ne by lia; exact Ha2). reflexivity.
  - cbn. unfold HDR. replace (p + 24 + (s1 + 24 + s)) with n by lia.
    rewrite lookup_insert_ne, lookup_insert_eq, uwrap_small by lia.
    split; [unfold set_size; do 2 f_equal; cbn; lia|]. split; [lia|].
    eapply seg_frame; [|exact H2]. intros x Hx. by rewrite !lookup_insert_ne by lia.
  - intros x Hx. cbn. rewrite !lookup_insert_ne by lia. rewrite F2 by lia.
    by rewrite lookup_insert_ne by lia.
Qed.

(** Merging a free block's free successor into it. *)
Lemma heap_merge_next_run h E p0 a s s2 l q :
  0 < a -> E - a < 2 ^ 32 ->
  seg (blocks h) E p0 a ((s, false) :: (s2, false) :: l) q E ->
  exists m' q',
    heap_merge_next a (a + HDR + s) h = Ret (tt, set_blocks h m') /\
    seg m' E p0 a ((s + HDR + s2, false) :: l) q' E /\
    (forall x, x < a \/ E <= x -> m' !! x = blocks h !! x).
Proof.
  intros Hp HE H. cbn in H. destruct H as (Hb1 & Hs1 & Hb & Hs & H).
  pose proof (seg_le _ _ _ _ _ _ _ H) as Hle. unfold HDR in *.
  remember (a + 24 + s) as b eqn:Eb. remember (b + 24 + s2) as n eqn:En. unfold heap_merge_next.
  step_run (load_block_run h b _ Hb). cbn [b_next b_size].
  step_run (upd_block_run h a _ (set_next (nxt E n)) Hb1).
  set (h1 := set_blocks h _).
  destruct (relink_run h1 E b a n l q ltac:(lia)) as (m2 & q2 & E2 & H2 & F2).
  { eapply seg_frame; [|exact H]. intros x Hx. cbn. by rewrite lookup_insert_ne by lia. }
  step_run E2. unfold h1 in F2; cbn in F2.
  assert (m2 !! b = Some (mk_block (mg false) s2 a (nxt E n))) as Ha2
    by (rewrite F2, lookup_insert_ne by lia; done).
  assert (m2 !! a = Some (mk_block (mg false) s p0 (nxt E n))) as Hp2
    by (rewrite F2, lookup_insert_eq by lia; done).
  step_run (upd_block_run (set_blocks h1 m2) b _ (set_magic 0) Ha2).
  eexists _, q2. split; [|split].
  - erewrite upd_block_run by (cbn; rewrite lookup_insert_ne by lia; exact Hp2). reflexivity.
  - cbn. unfold HDR. replace (a + 24 + (s + 24 + s2)) with n by lia.
    rewrite lookup_insert_eq, uwrap_small by lia.
    split; [unfold set_size; do 2 f_equal; cbn; lia|]. split; [lia|].
    eapply seg_frame; [|exact H2]. intros x Hx. by rewrite !lookup_insert_ne by lia.
  - intros x Hx. cbn. rewrite !lookup_insert_ne by lia. rewrite F2 by lia.
    by rewrite lookup_insert_ne by lia.
Qed.

(** The allocation loop finds what [first_fit] finds. *)
Lemma heap_find_run h E count l : forall fuel p a q,
  0 < a -> E < 2 ^ 64 -> 0 <= count -> count + HDR < 2 ^ 64 -> (length l < fuel)%nat ->
  seg (blocks h) E p a l q E ->
  match first_fit count a l with
  | None => heap_find fuel count (if l is [] then 0 else a) h = Ret (0, h)
  | Some (x, l') => exists m' q',
      heap_find fuel count (if l is [] then 0 else a) h = Ret (x + HDR, set_blocks h m') /\
      seg m' E p a l' q' E /\ a <= x /\ x + HDR <= E /\
      (forall y, y < a \/ E <= y -> m' !! y = blocks h !! y)
  end.
Proof.
  induction l as [|[s u] l IH]; intros fuel p a q Ha HE Hc Hc2 Hf H;
    (destruct fuel as [|fuel]; [cbn in Hf; lia|]); [done|].
  pose proof H as Hall. cbn in H. destruct H as (Hb & Hs & H).
  pose proof (seg_le _ _ _ _ _ _ _ H) as Hle. cbn [heap_find first_fit].
  assert (u64 (count + HDR) = count + HDR) as E1 by (unfold HDR in *; apply uwrap_small; lia).
  assert (u64 (a + HDR) = a + HDR) as E2 by (unfold HDR in *; apply uwrap_small; lia).
  destruct (Z.eqb_spec a 0); [lia|]. step_run (load_block_run h a _ Hb).
  rewrite in_use_mg. cbn [b_size b_next]. rewrite E1, E2.
  destruct (u || negb ((count =? s) || (count + HDR <=? s))) eqn:Hskip.
  - (* the block does not serve: go on *)
    assert ((if u then heap_find fuel count (nxt E (a + HDR + s))
             else if count =? s then
               upd_block a (fun b => set_magic (Z.lor (b_magic b) 1) b);; mret (a + HDR)
             else if count + HDR <=? s then
               heap_split a count (mk_block (mg u) s p (nxt E (a + HDR + s)));; mret (a + HDR)
             else heap_find fuel count (nxt E (a + HDR + s))) =
            heap_find fuel count (nxt E (a + HDR + s))) as ->.
    { destruct u; [done|]. cbn in Hskip. apply negb_true_iff, orb_false_iff in Hskip as [-> ->].
      done. }
    rewrite (nxt_end _ _ _ _ _ _ H) by (unfold HDR in *; lia). cbn in Hf.
    specialize (IH fuel a (a + HDR + s) q ltac:(unfold HDR in *; lia) HE Hc Hc2 ltac:(lia) H).
    destruct (first_fit count (a + HDR + s) l) as [[x l']|]; cbn; [|done].
    destruct IH as (m' & q' & -> & Hseg & Hx1 & Hx2 & Hfr). unfold HDR in *. exists m', q'.
    split; [done|]. rewrite Hfr by lia. split_and!; try done; try lia. intros y Hy. apply Hfr. lia.
  - (* the block serves *)
    apply orb_false_iff in Hskip as [-> Hfit]. apply negb_false_iff in Hfit.
    destruct (Z.eqb_spec count s) as [->|Hcs].
    + step_run (upd_block_run h a _ (fun b => set_magic (Z.lor (b_magic b) 1) b) Hb).
      eexists _, q. split; [reflexivity|]. cbn. rewrite lookup_insert_eq. unfold HDR in *.
      split_and!; try done; try lia.
      * eapply seg_frame; [|done]. intros x Hx. by rewrite lookup_insert_ne by lia.
      * intros y Hy. by rewrite lookup_insert_ne by lia.
    + cbn in Hfit. rewrite Hfit. apply Z.leb_le in Hfit.
      destruct (heap_split_run h E p a s l q count Ha HE Hc Hfit Hall)
        as (m' & q' & Er & Hseg & Hfr).
      step_run Er. exists m', q'. split; [done|]. split; [exact Hseg|]. unfold HDR in *.
      split; [lia|]. split; [lia|]. exact Hfr.
Qed.

Lemma first_fit_nonempty count a l x l' : first_fit count a l = Some (x, l') -> l' <> [].
Proof.
  destruct l as [|[s u] l]; cbn; [done|].
  destruct (first_fit count (a + HDR + s) l) as [[y r]|]; cbn; repeat case_match; naive_solver.
Qed.

Lemma round16_spec count :
  0 <= count < 2 ^ 64 - 16 ->
  count <= round16 count < count + 16 /\ round16 count mod 16 = 0.
Proof.
  intros Hc. unfold round16. rewrite uwrap_small by lia.
  change (Z.lnot 15) with (Z.lnot (Z.ones 4)). rewrite land_lnot_ones by lia.
  change (2 ^ 4) with 16.
  pose proof (Z.mod_pos_bound (count + 15) 16 ltac:(lia)). split; [lia|].
  rewrite Zminus_mod_idemp_r, Z.sub_diag. done.
Qed.

(** The second half of [heap_free]: join with a free successor. *)
Definition free_tail (cur next : Z) : cmd heap unit :=
  if next =? 0 then mret tt
  else nb ← load_block next; if in_use nb then mret tt else heap_merge_next cur next.

Lemma free_tail_run h E p0 a s l q :
  0 < a -> E - a < 2 ^ 32 -> seg (blocks h) E p0 a ((s, false) :: l) q E ->
  exists m' q', free_tail a (nxt E (a + HDR + s)) h = Ret (tt, set_blocks h m') /\
    seg m' E p0 a ((fst (join_right s l), false) :: snd (join_right s l)) q' E /\
    (forall x, x < a \/ E <= x -> m' !! x = blocks h !! x).
Proof.
  intros Ha HE H. pose proof H as Hall. cbn in H. destruct H as (Hb & Hs & H).
  pose proof (seg_le _ _ _ _ _ _ _ H) as Hle. unfold free_tail.
  assert (0 < a + HDR + s) by (unfold HDR in *; lia).
  rewrite (nxt_end _ _ _ _ _ _ H) by done.
  assert (forall l', l = l' -> set_blocks h (blocks h) = h) as Eh by (by destruct h).
  destruct l as [|[s2 u2] l].
  - exists (blocks h), q. rewrite (Eh [] eq_refl). split; [done|]. split; [exact Hall|done].
  - destruct (Z.eqb_spec (a + HDR + s) 0); [lia|]. pose proof H as Hn. cbn in Hn.
    destruct Hn as (Hb2 & _). step_run (load_block_run h _ _ Hb2). rewrite in_use_mg.
    destruct u2.
    + exists (blocks h), q. rewrite (Eh _ eq_refl). split; [done|]. split; [exact Hall|done].
    + exact (heap_merge_next_run h E p0 a s s2 l q Ha HE Hall).
Qed.

Lemma release_snoc l1 s1 u1 s l2 :
  release (l1 ++ [(s1, u1)]) s l2 = l1 ++ release [(s1, u1)] s l2.
Proof.
  induction l1 as [|[x v] l1 IH]; [done|]. cbn [app]. rewrite <- IH.
  cbn [release]. destruct v; [done|]. by destruct l1 as [|[y w] l1].
Qed.

(** The last block before [a] when [l1] is not empty. *)
Lemma seg_snoc_inv m E p a l1 s1 u1 q e :
  seg m E p a (l1 ++ [(s1, u1)]) q e ->
  exists q0, seg m E p a l1 q0 q /\ e = q + HDR + s1 /\ 0 <= s1 < 2 ^ 32 /\
    m !! q = Some (mk_block (mg u1) s1 q0 (nxt E e)).
Proof.
  rewrite hseg_app. intros (q1 & e1 & H1 & H2). cbn in H2.
  destruct H2 as (Hb & Hs & -> & ->). exists q1. done.
Qed.

(** From the freed block on: merge left, then right. *)
Lemma heap_free_merge h E B l1 s l2 q :
  0 < B -> E - B < 2 ^ 32 ->
  seg (blocks h) E 0 B (l1 ++ (s, false) :: l2) q E ->
  let a := B + extent l1 in
  exists m' q',
    (b ← load_block a;
     let prev := b_prev b in
     let next := b_next b in
     cur ← (if prev =? 0 then mret a
            else
              pb ← load_block prev;
              if in_use pb then mret a
              else heap_merge_prev prev a next;; mret prev);
     free_tail cur next) h = Ret (tt, set_blocks h m') /\
    seg m' E 0 B (release l1 s l2) q' E.
Proof.
  intros HB HE H a. apply hseg_app in H as (q1 & e1 & H1 & H2).
  pose proof (seg_extent _ _ _ _ _ _ _ H1) as Ee1. fold a in Ee1. subst e1.
  pose proof (seg_le _ _ _ _ _ _ _ H1) as Hle1. pose proof (seg_le _ _ _ _ _ _ _ H2) as Hle2.
  pose proof H2 as H2'. cbn in H2'. destruct H2' as (Hb & Hs & Hrest).
  step_run (load_block_run h a _ Hb). cbn [b_prev b_next].
  destruct l1 as [|[s1 u1] l1 _] using rev_ind.
  - (* the first block of the heap *)
    cbn in H1. destruct H1 as [-> Ea]. rewrite (bind_Ret _ _ h a h) by done.
    destruct (free_tail_run h E 0 a s l2 q ltac:(lia) ltac:(lia) H2) as (m' & q' & Er & Hseg & _).
    exists m', q'. split; [exact Er|]. cbn [release]. destruct (join_right s l2).
    rewrite Ea in Hseg. exact Hseg.
  - apply seg_snoc_inv in H1 as (q0 & H1 & Ea & Hs1 & Hq).
    pose proof (seg_le _ _ _ _ _ _ _ H1). unfold HDR in *.
    destruct (Z.eqb_spec q1 0); [lia|]. rewrite release_snoc.
    destruct u1.
    + rewrite (bind_Ret _ _ h a h)
        by (step_run (load_block_run h q1 _ Hq); by rewrite in_use_mg).
      destruct (free_tail_run h E q1 a s l2 q ltac:(lia) ltac:(lia) H2)
        as (m' & q' & Er & Hseg & Hfr).
      exists m', q'. split; [exact Er|]. apply hseg_app. exists q0, q1. split.
      * eapply seg_frame; [|exact H1]. intros x Hx. apply Hfr. lia.
      * cbn [release]. destruct (join_right s l2). cbn [seg]. unfold HDR.
        rewrite Hfr by lia. rewrite <- Ea. split; [exact Hq|]. split; [lia|exact Hseg].
    + assert (seg (blocks h) E q0 q1 ((s1, false) :: (s, false) :: l2) q E) as Hpair.
      { cbn [seg]. unfold HDR. rewrite <- Ea. split; [exact Hq|]. split; [lia|]. exact H2. }
      destruct (heap_merge_prev_run h E q0 q1 s1 s l2 q ltac:(lia) ltac:(lia) Hpair)
        as (m1 & q2 & Er1 & Hseg1 & Hfr1). unfold HDR in Er1, Hseg1. rewrite <- Ea in Er1.
      rewrite (bind_Ret _ _ h q1 (set_blocks h m1))
        by (step_run (load_block_run h q1 _ Hq); rewrite in_use_mg; by step_run Er1).
      destruct (free_tail_run (set_blocks h m1) E q0 q1 (s1 + 24 + s) l2 q2
                  ltac:(lia) ltac:(lia) Hseg1) as (m' & q' & Er & Hseg & Hfr).
      unfold HDR in Er. replace (q1 + 24 + (s1 + 24 + s)) with (a + 24 + s) in Er by lia.
      exists m', q'. split; [exact Er|]. apply hseg_app. exists q0, q1. split.
      * eapply seg_frame; [|exact H1]. intros x Hx. rewrite Hfr by lia. apply Hfr1. lia.
      * cbn [release]. unfold HDR. destruct (join_right (s1 + 24 + s) l2). exact Hseg.
Qed.
End heap_walks.

(** ** Refinement of the list allocator *)

Lemma heap_alloc_refines h l count :
  heap_ok h l -> 0 <= count < 2 ^ 64 - 64 ->
  match first_fit (round16 count) (h_begin h) l with
  | Some (a, l') => exists h',
      heap_alloc count h = Ret (a + HDR, h') /\ heap_ok h' l' /\
      h_base h' = h_base h /\ h_limit h' = h_limit h
  | None => heap_alloc count h = Ret (0, h)
  end.
Proof.
  intros (Hl & Hb & Hlim & HE & q & H) Hc.
  pose proof (round16_spec count ltac:(lia)) as [Hr _].
  pose proof (seg_fuel _ _ _ _ _ _ _ H) as Hf. unfold heap_alloc.
  rewrite (bind_Ret _ _ h h h) by done.
  assert ((if l is [] then 0 else h_begin h) = h_begin h) as Ebeg by (by destruct l).
  pose proof (heap_check_ok h _ l (heap_fuel h) 0 (h_begin h) q Hb
                ltac:(unfold heap_fuel; lia) H) as Hck. rewrite Ebeg in Hck. step_run Hck.
  pose proof (heap_find_run h _ (round16 count) l (heap_fuel h) 0 (h_begin h) q Hb HE
                ltac:(lia) ltac:(unfold HDR; lia) ltac:(unfold heap_fuel; lia) H) as Hfind.
  rewrite Ebeg in Hfind.
  destruct (first_fit _ _ _) as [[a l']|] eqn:EF; [|done].
  destruct Hfind as (m' & q' & E & Hseg & _). eexists. split; [exact E|].
  split; [|done]. split; [by eapply first_fit_nonempty|].
  do 3 (split; [done|]). exists q'. exact Hseg.
Qed.

Lemma heap_free_refines h l1 s l2 :
  heap_ok h (l1 ++ (s, true) :: l2) ->
  (exists h', heap_free (h_begin h + extent l1 + HDR) h = Ret (tt, h') /\
     heap_ok h' (release l1 s l2) /\ h_base h' = h_base h /\ h_limit h' = h_limit h) /\
  heap_free 0 h = Ret (tt, h).
Proof.
  intros (Hl & Hb & Hlim & HE & q & H). split; [|done].
  set (E := h_begin h + h_limit h) in *. set (a := h_begin h + extent l1).
  pose proof H as Hs. apply hseg_app in Hs as (q1 & e1 & H1 & H2).
  pose proof (seg_extent _ _ _ _ _ _ _ H1) as Ee1. fold a in Ee1. subst e1.
  pose proof (seg_le _ _ _ _ _ _ _ H1). cbn [seg] in H2. destruct H2 as (Hba & Hs & H2).
  pose proof (seg_le _ _ _ _ _ _ _ H2). unfold HDR in *.
  unfold heap_free. destruct (Z.eqb_spec (a + 24) 0); [lia|].
  rewrite (bind_Ret _ _ h h h) by done.
  rewrite (uwrap_small 64 (h_begin h + h_limit h)) by lia. fold E.
  destruct (Z.ltb_spec (a + 24) (h_begin h)); [lia|].
  destruct (Z.ltb_spec E (a + 24)); [lia|]. cbn [orb]. unfold HDR.
  replace (u64 (a + 24 - 24)) with a by (rewrite uwrap_small; lia).
  step_run (load_block_run h a _ Hba). rewrite magic_ok_mg, in_use_mg.
  do 2 rewrite (bind_Ret _ _ h tt h) by done.
  step_run (upd_block_run h a _ (set_magic HEAP_MAGIC) Hba).
  set (h1 := set_blocks h _).
  assert (seg (blocks h1) E 0 (h_begin h) (l1 ++ (s, false) :: l2) q E) as Hseg1.
  { apply hseg_app. exists q1, a. split.
    - eapply seg_frame; [|exact H1]. intros x Hx. cbn. by rewrite lookup_insert_ne by lia.
    - cbn [seg]. unfold HDR. cbn [blocks h1 set_blocks]. rewrite lookup_insert_eq.
      split; [done|]. split; [lia|]. eapply seg_frame; [|exact H2].
      intros x Hx. by rewrite lookup_insert_ne by lia. }
  assert (heap_fuel h = heap_fuel h1) as Ef.
  { unfold heap_fuel, h1. cbn. by rewrite map_size_insert_Some by eauto. }
  pose proof (seg_fuel _ _ _ _ _ _ _ Hseg1).
  pose proof (heap_check_ok h1 E (l1 ++ (s, false) :: l2) (heap_fuel h) 0 (h_begin h) q Hb
    ltac:(rewrite Ef; unfold heap_fuel; lia) Hseg1) as Hck.
  replace (if l1 ++ (s, false) :: l2 is [] then 0 else h_begin h) with (h_begin h) in Hck
    by (by destruct l1). step_run Hck.
  destruct (heap_free_merge h1 E (h_begin h) l1 s l2 q Hb ltac:(lia) Hseg1) as (m' & q' & Er & Hseg).
  eexists. split; [exact Er|]. split; [|done]. split.
  - destruct l1 as [|[s1 [|]] [|]]; cbn; try destruct (join_right _ _); done.
  - do 3 (split; [done|]). exists q'. exact Hseg.
Qed.

(** ** Consequences on the abstract heap *)

(** The payloads in use: address and size. *)
Fixpoint used (a : Z) (l : list blk) : list (Z * Z) :=
  match l with
  | [] => []
  | (s, u) :: r => (if u then [(a + HDR, s)] else []) ++ used (a + HDR + s) r
  end.

(** No two neighbouring blocks are free. *)
Fixpoint coalesced (l : list blk) : bool :=
  match l with
  | (_, false) :: (((_, false) :: _) as r) => false
  | _ :: r => coalesced r
  | [] => true
  end.

Section heap_spec.
Implicit Types l : list blk.

Lemma extent_app l1 l2 : extent (l1 ++ l2) = extent l1 + extent l2.
Proof. induction l1 as [|[s u] l1 IH]; cbn; lia. Qed.

Lemma used_app a l1 l2 : used a (l1 ++ l2) = used a l1 ++ used (a + extent l1) l2.
Proof.
  revert a. induction l1 as [|[s u] l1 IH]; intros a; cbn.
  - by rewrite Z.add_0_r.
  - rewrite IH, <- app_assoc.
    by replace (a + (HDR + s + extent l1)) with (a + HDR + s + extent l1) by lia.
Qed.

(** Where [first_fit] places a block. *)
Lemma first_fit_split count l : forall a x l',
  first_fit count a l = Some (x, l') ->
  exists l1 s l2, l = l1 ++ (s, false) :: l2 /\ x = a + extent l1 /\
    ((s = count /\ l' = l1 ++ (count, true) :: l2) \/
     (count + HDR <= s /\ l' = l1 ++ (count, true) :: (s - HDR - count, false) :: l2)).
Proof.
  induction l as [|[s u] l IH]; cbn; [done|]. intros a x l' H.
  destruct (u || negb ((count =? s) || (count + HDR <=? s))) eqn:Hskip.
  - destruct (first_fit count (a + HDR + s) l) as [[y r]|] eqn:EF; cbn in H; [|done].
    injection H as <- <-. destruct (IH _ _ _ EF) as (l1 & s' & l2 & -> & -> & Hl').
    exists ((s, u) :: l1), s', l2. cbn. split_and!; [done|lia|]. naive_solver.
  - apply orb_false_iff in Hskip as [-> Hfit%negb_false_iff].
    exists [], s, l. split; [done|].
    destruct (Z.eqb_spec count s) as [<-|Hne]; injection H as <- <-; (split; [cbn; lia|]).
    + by left.
    + right. cbn in Hfit. by apply Z.leb_le in Hfit.
Qed.

(** Blocks of a well-formed heap have non-negative sizes and tile it. *)
Definition sizes_ok l : Prop := Forall (fun b => 0 <= b.1) l.

Lemma seg_sizes_ok m E l : forall p a q e, seg m E p a l q e -> sizes_ok l.
Proof.
  induction l as [|[s u] l IH]; intros p a q e H; [constructor|].
  cbn in H. destruct H as (_ & Hs & H). constructor; [cbn; lia|by eapply IH].
Qed.

Lemma sizes_ok_extent l : sizes_ok l -> 0 <= extent l.
Proof. induction 1 as [|[s u] l]; cbn in *; unfold HDR; lia. Qed.

(** A payload in use lies inside its part of the heap. *)
Lemma used_range a l p n : sizes_ok l -> (p, n) ∈ used a l -> a + HDR <= p /\ 0 <= n /\ p + n <= a + extent l.
Proof.
  intros H. revert a. induction H as [|[s u] l Hs H IH]; cbn in *; intros a; [set_solver|].
  pose proof (sizes_ok_extent _ H). unfold HDR in *.
  destruct u; cbn; rewrite ?elem_of_cons; intros [[= -> ->]|Hin] || intros Hin; try lia;
    apply IH in Hin; lia.
Qed.

Lemma release_middle l1 s l2 :
  coalesced (l1 ++ (s, false) :: l2) = true -> release l1 s l2 = l1 ++ (s, false) :: l2.
Proof.
  destruct l1 as [|[s1 u1] l1 _] using rev_ind; cbn [app].
  - destruct l2 as [|[s2 [|]] l2]; done.
  - rewrite release_snoc, <- app_assoc. intros H. f_equal. revert H.
    induction l1 as [|[x v] l1 IH]; cbn [app].
    + destruct u1; cbn; [|done]. by destruct l2 as [|[s2 [|]] l2].
    + intros H. apply IH. revert H. destruct v; [done|].
      destruct l1 as [|[y w] l1]; cbn; [by destruct u1|by destruct w].
Qed.

(** Freeing what was just cut out of a free block restores the list. *)
Lemma release_split l1 s c l2 :
  coalesced (l1 ++ (s, false) :: l2) = true ->
  release l1 c ((s - HDR - c, false) :: l2) = l1 ++ (s, false) :: l2.
Proof.
  intros H. rewrite <- (release_middle l1 s l2 H).
  induction l1 as [|[x v] l1 IH]; cbn in *.
  - destruct l2 as [|[s2 [|]] l2]; cbn; [do 2 f_equal; lia..|done].
  - destruct v, l1 as [|[y w] l1]; cbn in *; try done; try (f_equal; by apply IH).
    f_equal. apply IH. by destruct w.
Qed.

Definition head_free l : bool := if l is (_, false) :: _ then true else false.
Definition last_free l : bool := if list.last l is Some (_, false) then true else false.

Lemma coalesced_cons b l : coalesced (b :: l) = coalesced l && negb (negb b.2 && head_free l).
Proof.
  destruct b as [s [|]]; cbn; [by rewrite andb_true_r|].
  destruct l as [|[s2 [|]] l]; cbn; rewrite ?andb_true_r, ?andb_false_r; done.
Qed.

Lemma last_free_cons b b' l : last_free (b :: b' :: l) = last_free (b' :: l).
Proof. done. Qed.

Lemma coalesced_app l1 l2 :
  coalesced (l1 ++ l2) = coalesced l1 && coalesced l2 && negb (last_free l1 && head_free l2).
Proof.
  induction l1 as [|b l1 IH]; cbn [app]; [by rewrite andb_true_r|].
  rewrite !coalesced_cons, IH. destruct l1 as [|b' l1].
  - cbn. destruct b as [s [|]], (coalesced l2), (head_free l2); done.
  - rewrite last_free_cons. cbn [app head_free].
    destruct (coalesced (b' :: l1)), (coalesced l2), (last_free (b' :: l1)), (head_free l2),
      b as [s [|]], b' as [s' [|]]; done.
Qed.

Lemma coalesced_first_fit count a l x l' :
  coalesced l = true -> first_fit count a l = Some (x, l') -> coalesced l' = true.
Proof.
  intros Hco (l1 & s & l2 & -> & _ & Hl')%first_fit_split.
  rewrite coalesced_app, coalesced_cons in Hco. cbn [snd head_free negb andb] in Hco.
  destruct Hl' as [[-> ->]|[_ ->]]; rewrite coalesced_app, !coalesced_cons;
    cbn [snd head_free negb andb];
    destruct (coalesced l1), (coalesced l2), (head_free l2), (last_free l1); done.
Qed.

Lemma coalesced_join_right s l2 :
  coalesced l2 = true -> coalesced ((fst (join_right s l2), false) :: snd (join_right s l2)) = true.
Proof.
  destruct l2 as [|[s2 [|]] l2]; [done|done|]. cbn [join_right fst snd].
  by rewrite !coalesced_cons.
Qed.

Lemma coalesced_release l1 s l2 :
  coalesced (l1 ++ (s, true) :: l2) = true -> coalesced (release l1 s l2) = true.
Proof.
  intros H. rewrite coalesced_app, coalesced_cons in H. cbn [snd negb andb head_free] in H.
  apply andb_true_iff in H as [[H1 H2]%andb_true_iff _]. rewrite andb_true_r in H2.
  destruct l1 as [|[s1 u1] l1 _] using rev_ind.
  - cbn [release]. pose proof (coalesced_join_right s l2 H2). by destruct (join_right s l2).
  - rewrite release_snoc. rewrite coalesced_app in H1.
    apply andb_true_iff in H1 as [[H1 _]%andb_true_iff H3].
    rewrite coalesced_app, H1. cbn [release]. destruct u1.
    + pose proof (coalesced_join_right s l2 H2). destruct (join_right s l2) as [s' l2'].
      cbn [fst snd] in *. rewrite coalesced_cons, H. cbn. by destruct (last_free l1).
    + pose proof (coalesced_join_right (s1 + HDR + s) l2 H2).
      destruct (join_right _ l2) as [s' l2']. cbn [fst snd] in *. rewrite H. exact H3.
Qed.

(** The payload at [p] belongs to one block of the list. *)
Lemma used_split l : forall a p n, (p, n) ∈ used a l ->
  exists l1 l2, l = l1 ++ (n, true) :: l2 /\ p = a + extent l1 + HDR.
Proof.
  induction l as [|[s u] l IH]; cbn; intros a p n; [set_solver|].
  rewrite elem_of_app. intros [Hin|Hin].
  - destruct u; [|set_solver]. apply list_elem_of_singleton in Hin as [= -> ->].
    exists [], l. cbn. split; [done|lia].
  - destruct (IH _ _ _ Hin) as (l1 & l2 & -> & ->). exists ((s, u) :: l1), l2.
    cbn. split; [done|lia].
Qed.

Lemma used_join a s l2 :
  used a ((fst (join_right s l2), false) :: snd (join_right s l2)) = used (a + HDR + s) l2.
Proof.
  destruct l2 as [|[s2 [|]] l2]; try done. cbn.
  by replace (a + HDR + (s + HDR + s2)) with (a + HDR + s + HDR + s2) by lia.
Qed.

Lemma used_release a l1 s l2 :
  used a (release l1 s l2) = used a l1 ++ used (a + extent l1 + HDR + s) l2.
Proof.
  destruct l1 as [|[s1 u1] l1 _] using rev_ind.
  - cbn [release extent used]. rewrite Z.add_0_r. pose proof (used_join a s l2) as H.
    by destruct (join_right s l2).
  - rewrite release_snoc, !used_app, extent_app, <- app_assoc. f_equal.
    cbn [release]. destruct u1.
    + pose proof (used_join (a + extent l1 + HDR + s1) s l2) as H.
      destruct (join_right s l2) as [s' l2']. cbn [fst snd] in H.
      cbn [used extent]. cbn [used] in H. rewrite H.
      replace (a + (extent l1 + (HDR + s1 + 0)) + HDR + s) with
        (a + extent l1 + HDR + s1 + HDR + s) by lia. done.
    + pose proof (used_join (a + extent l1) (s1 + HDR + s) l2) as H.
      destruct (join_right _ l2) as [s' l2']. cbn [fst snd] in H. rewrite H. cbn [used extent app].
      replace (a + (extent l1 + (HDR + s1 + 0)) + HDR + s) with
        (a + extent l1 + HDR + (s1 + HDR + s)) by lia. done.
Qed.
End heap_spec.

(** ** Theorems *)

(** C7: [heap_alloc] refines the first-fit allocator on the list of blocks: on a
    well-formed heap and for a request that does not overflow when rounded up to
    16 bytes, it returns the block [first_fit] picks (past its header) and leaves
    a heap representing the new list, or returns NULL and changes nothing.  In
    particular it neither panics nor loops. *)
Theorem heap_alloc_first_fit h l count :
  heap_ok h l -> 0 <= count < 2 ^ 64 - 64 ->
  match first_fit (round16 count) (h_begin h) l with
  | Some (a, l') => exists h',
      heap_alloc count h = Ret (a + HDR, h') /\ heap_ok h' l' /\
      h_base h' = h_base h /\ h_limit h' = h_limit h
  | None => heap_alloc count h = Ret (0, h)
  end.
Proof. apply heap_alloc_refines. Qed.

(** C8: [heap_free] refines [release]: freeing the payload of an allocated block
    marks it free and merges it with whichever neighbours are free; the result
    represents exactly that list.  Freeing NULL is a no-op. *)
Theorem heap_free_release h l1 s l2 :
  heap_ok h (l1 ++ (s, true) :: l2) ->
  (exists h', heap_free (h_begin h + extent l1 + HDR) h = Ret (tt, h') /\
     heap_ok h' (release l1 s l2) /\ h_base h' = h_base h /\ h_limit h' = h_limit h) /\
  heap_free 0 h = Ret (tt, h).
Proof. apply heap_free_refines. Qed.

(** an allocation hands out memory nobody holds: the payload lies inside the
    heap, is at least as large as the request, is disjoint from every payload
    in use (even from its header), and those payloads are exactly kept. *)
Theorem heap_alloc_disjoint h l count p h' :
  heap_ok h l -> 0 <= count < 2 ^ 64 - 64 -> heap_alloc count h = Ret (p, h') -> p <> 0 ->
  exists l', heap_ok h' l' /\
    used (h_begin h) l' ≡ₚ (p, round16 count) :: used (h_begin h) l /\
    count <= round16 count /\
    h_begin h + HDR <= p /\ p + round16 count <= h_begin h + h_limit h /\
    forall q n, (q, n) ∈ used (h_begin h) l -> p + round16 count + HDR <= q \/ q + n + HDR <= p.
Proof.
  intros Hok Hc Hal Hp. pose proof (round16_spec count ltac:(lia)) as [Hr _].
  pose proof (heap_alloc_refines h l count Hok Hc) as H.
  destruct (first_fit _ _ _) as [[a l']|] eqn:EF; [|rewrite Hal in H; congruence].
  destruct H as (h1 & E & Hok' & Hb' & Hlim'). rewrite Hal in E. injection E as -> <-.
  exists l'. split; [done|].
  destruct Hok as (_ & Hb & _ & _ & q & Hseg). pose proof (seg_extent _ _ _ _ _ _ _ Hseg) as Hext.
  pose proof (seg_sizes_ok _ _ _ _ _ _ _ Hseg) as Hsz.
  apply first_fit_split in EF as (l1 & s & l2 & -> & -> & Hl').
  apply Forall_app in Hsz as [Hsz1 [Hs Hsz2]%Forall_cons_1]. cbn in Hs.
  pose proof (sizes_ok_extent _ Hsz1). pose proof (sizes_ok_extent _ Hsz2).
  rewrite extent_app in Hext. cbn in Hext. set (c := round16 count) in *.
  set (B := h_begin h) in *. unfold HDR in *.
  assert (c <= s) as Hcs by (destruct Hl' as [[-> _]|[? _]]; lia).
  split; [|split_and!; try lia].
  - destruct Hl' as [[-> ->]|[_ ->]]; rewrite !used_app; cbn; unfold HDR.
    + by rewrite Permutation_middle.
    + replace (B + extent l1 + 24 + c + 24 + (s - 24 - c)) with (B + extent l1 + 24 + s) by lia.
      by rewrite Permutation_middle.
  - intros q' n. rewrite used_app. cbn. rewrite elem_of_app.
    intros [Hin|Hin]; apply used_range in Hin; try done; unfold HDR in *; lia.
Qed.

(** [heap_free] undoes [heap_alloc]: on a heap with no two adjacent free
    blocks, allocating and freeing again restores the very list of blocks. *)
Theorem heap_alloc_free_roundtrip h l count p h' :
  heap_ok h l -> coalesced l = true -> 0 <= count < 2 ^ 64 - 64 ->
  heap_alloc count h = Ret (p, h') -> p <> 0 ->
  exists h'', heap_free p h' = Ret (tt, h'') /\ heap_ok h'' l.
Proof.
  intros Hok Hco Hc Hal Hp. pose proof (heap_alloc_refines h l count Hok Hc) as H.
  destruct (first_fit _ _ _) as [[a l']|] eqn:EF; [|rewrite Hal in H; congruence].
  destruct H as (h1 & E & Hok' & Hb' & Hlim'). rewrite Hal in E. injection E as -> <-.
  assert (h_begin h = h_begin h') as Eb by (unfold h_begin; congruence).
  apply first_fit_split in EF as (l1 & s & l2 & -> & -> & Hl'). rewrite Eb.
  destruct Hl' as [[-> ->]|[_ ->]].
  - destruct (heap_free_refines h' l1 _ l2 Hok') as [(h2 & E & Hok2 & _) _].
    exists h2. split; [done|]. by rewrite release_middle in Hok2.
  - destruct (heap_free_refines h' l1 _ _ Hok') as [(h2 & E & Hok2 & _) _].
    exists h2. split; [done|]. by rewrite release_split in Hok2.
Qed.

(** ** Heaps in use

    [heap_reach h live]: [h] was reached from a fresh heap by allocations and by
    frees of live pointers; [live] are the pointers handed out and not freed. *)
Inductive heap_reach (base sz : Z) : heap -> list Z -> Prop :=
| reach_init : heap_reach base sz (amd64_heap_init base sz) []
| reach_alloc h live count p h' :
    heap_reach base sz h live -> 0 <= count < 2 ^ 64 - 64 ->
    heap_alloc count h = Ret (p, h') ->
    heap_reach base sz h' (if p =? 0 then live else p :: live)
| reach_free h live p live' h' :
    heap_reach base sz h live -> live ≡ₚ p :: live' ->
    heap_free p h = Ret (tt, h') -> heap_reach base sz h' live'.

Definition heap_inv (h : heap) (live : list Z) : Prop :=
  exists l, heap_ok h l /\ coalesced l = true /\ (used (h_begin h) l).*1 ≡ₚ live.

Section heap_in_use.
Lemma heap_inv_init base sz :
  0 < MM_VIRTUALIZE base -> HDR <= sz < 2 ^ 32 -> MM_VIRTUALIZE base + sz < 2 ^ 64 ->
  heap_inv (amd64_heap_init base sz) [].
Proof.
  intros Hb Hs HE. exists [(sz - HDR, false)]. split; [|done]. split; [done|].
  unfold h_begin in *; cbn. split; [done|]. unfold HDR in *. split; [lia|]. split; [done|].
  exists (MM_VIRTUALIZE base). rewrite lookup_singleton_eq.
  split; [|split; [lia|split; [done|lia]]].
  rewrite !uwrap_small by (rewrite ?uwrap_small; lia). unfold nxt.
  destruct (Z.eqb_spec (MM_VIRTUALIZE base + 24 + (sz - 24)) (MM_VIRTUALIZE base + sz)); [done|lia].
Qed.

Lemma heap_inv_alloc h live count :
  heap_inv h live -> 0 <= count < 2 ^ 64 - 64 ->
  exists p h', heap_alloc count h = Ret (p, h') /\
    heap_inv h' (if p =? 0 then live else p :: live).
Proof.
  intros (l & Hok & Hco & Hlive) Hc. pose proof (heap_alloc_refines h l count Hok Hc) as H.
  destruct (first_fit _ _ _) as [[a l']|] eqn:EF; [|eexists _, _; split; [done|by exists l]].
  destruct H as (h' & E & Hok' & Hb' & Hlim'). exists (a + HDR), h'. split; [done|].
  assert (h_begin h' = h_begin h) as Eb by (unfold h_begin; congruence).
  assert (0 < a + HDR).
  { destruct Hok as (_ & Hb & _ & _ & q & Hs). apply seg_sizes_ok in Hs.
    apply first_fit_split in EF as (l1 & s & l2 & -> & -> & _).
    apply Forall_app in Hs as [Hs1 _]. apply sizes_ok_extent in Hs1. unfold HDR. lia. }
  destruct (Z.eqb_spec (a + HDR) 0); [lia|].
  exists l'. split; [done|]. split; [by eapply coalesced_first_fit|]. rewrite Eb, <- Hlive.
  apply first_fit_split in EF as (l1 & s & l2 & -> & -> & Hl').
  destruct Hl' as [[-> ->]|[_ ->]]; rewrite !used_app; cbn; rewrite !fmap_app; cbn.
  - by rewrite Permutation_middle.
  - replace (h_begin h + extent l1 + HDR + round16 count + HDR + (s - HDR - round16 count))
      with (h_begin h + extent l1 + HDR + s) by lia. by rewrite Permutation_middle.
Qed.

Lemma heap_inv_free h live p live' :
  heap_inv h live -> live ≡ₚ p :: live' ->
  exists h', heap_free p h = Ret (tt, h') /\ heap_inv h' live'.
Proof.
  intros (l & Hok & Hco & Hlive) Hp.
  assert (p ∈ (used (h_begin h) l).*1) as Hin by (rewrite Hlive, Hp; set_solver).
  apply list_elem_of_fmap in Hin as ([p' n] & -> & Hin).
  apply used_split in Hin as (l1 & l2 & -> & ->). cbn [fst] in *.
  destruct (heap_free_refines h l1 n l2 Hok) as [(h' & E & Hok' & Hb' & Hlim') _].
  exists h'. split; [done|]. exists (release l1 n l2). split; [done|].
  split; [by apply coalesced_release|].
  assert (h_begin h' = h_begin h) as Eb by (unfold h_begin; congruence).
  rewrite Eb, used_release. rewrite used_app in Hlive. cbn in Hlive. rewrite Hp in Hlive.
  rewrite fmap_app in *. cbn in Hlive. rewrite <- Permutation_middle in Hlive.
  by apply Permutation_cons_inv in Hlive.
Qed.

Lemma heap_reach_inv base sz h live :
  0 < MM_VIRTUALIZE base -> HDR <= sz < 2 ^ 32 -> MM_VIRTUALIZE base + sz < 2 ^ 64 ->
  heap_reach base sz h live -> heap_inv h live.
Proof.
  intros Hb Hs HE. induction 1 as [|h live count p h' _ IH Hc E|h live p live' h' _ IH Hp E].
  - by apply heap_inv_init.
  - destruct (heap_inv_alloc _ _ _ IH Hc) as (p2 & h2 & E2 & H).
    rewrite E in E2. by injection E2 as -> ->.
  - destruct (heap_inv_free _ _ _ _ IH Hp) as (h2 & E2 & H). congruence.
Qed.

(** [heap_stat] sums the list it walks. *)
Definition stat_add (st : heap_stat) (b : blk) : heap_stat :=
  if b.2 then mk_heap_stat (u64 (alloc_count st + 1)) (u64 (alloc_size st + b.1))
                (free_size st) (total_size st)
  else mk_heap_stat (alloc_count st) (alloc_size st) (u64 (free_size st + b.1)) (total_size st).

Lemma heap_stat_loop_run h E l : forall fuel p a q st,
  0 < a -> (length l < fuel)%nat -> seg (blocks h) E p a l q E ->
  heap_stat_loop fuel (if l is [] then 0 else a) st h = Ret (foldl stat_add st l, h).
Proof.
  induction l as [|[s u] l IH]; intros fuel p a q st Ha Hf H;
    (destruct fuel as [|fuel]; [cbn in Hf; lia|]); [done|].
  cbn [seg] in H. destruct H as (Hb & Hs & H). unfold HDR in *. cbn [heap_stat_loop].
  destruct (Z.eqb_spec a 0); [lia|]. step_run (load_block_run h a _ Hb).
  rewrite magic_ok_mg, in_use_mg. cbn [b_next b_size].
  rewrite (nxt_end _ _ _ _ _ _ H) by lia. cbn in Hf.
  rewrite (IH _ a _ q) by (done || lia). done.
Qed.

Lemma stat_sum l : forall st,
  sizes_ok l -> 0 <= alloc_count st -> 0 <= alloc_size st -> 0 <= free_size st ->
  alloc_count st + alloc_size st + free_size st + extent l < 2 ^ 64 ->
  let st' := foldl stat_add st l in
  alloc_count st' = alloc_count st + Z.of_nat (length (used 0 l)) /\
  alloc_size st' + free_size st' + HDR * Z.of_nat (length l) =
    alloc_size st + free_size st + extent l /\
  total_size st' = total_size st.
Proof.
  assert (forall l a b, length (used a l) = length (used b l)) as Hlen.
  { intros l'. induction l' as [|[s u] l' IH]; intros a b; [done|]. cbn.
    rewrite !length_app, (IH _ (b + HDR + s)). by destruct u. }
  unfold HDR in *. induction l as [|[s u] l IH]; intros st Hsz Hc Ha Hf Hb; cbn [extent] in Hb;
    [cbn; lia|]. cbn [foldl extent used length]. rewrite length_app.
  apply Forall_cons_1 in Hsz as [Hs Hsz]. cbn in Hs.
  pose proof (sizes_ok_extent _ Hsz). unfold HDR in *.
  rewrite (Hlen l _ 0). unfold stat_add at 2 4 6 8. cbn. destruct u; repeat wrap_small.
  - destruct (IH (mk_heap_stat (alloc_count st + 1) (alloc_size st + s) (free_size st)
      (total_size st)) Hsz) as (E1 & E2 & E3); cbn in *; lia.
  - destruct (IH (mk_heap_stat (alloc_count st) (alloc_size st) (free_size st + s)
      (total_size st)) Hsz) as (E1 & E2 & E3); cbn in *; lia.
Qed.

End heap_in_use.

(** C9: every heap reached from [amd64_heap_init] by allocations and by frees of
    live pointers is well-formed, has no two adjacent free blocks, has exactly
    the live pointers in use, and serves the next allocation or the next free of
    a live pointer without panicking. *)
Theorem heap_reachable_invariant base sz h live :
  0 < MM_VIRTUALIZE base -> HDR <= sz < 2 ^ 32 -> MM_VIRTUALIZE base + sz < 2 ^ 64 ->
  heap_reach base sz h live ->
  (exists l, heap_ok h l /\ coalesced l = true /\ (used (h_begin h) l).*1 ≡ₚ live) /\
  (forall count, 0 <= count < 2 ^ 64 - 64 -> exists r, heap_alloc count h = Ret r) /\
  (forall p, p ∈ live -> exists r, heap_free p h = Ret r).
Proof.
  intros Hb Hs HE Hr. pose proof (heap_reach_inv base sz h live Hb Hs HE Hr) as Hinv.
  split; [exact Hinv|]. split.
  - intros count Hc. destruct (heap_inv_alloc _ _ _ Hinv Hc) as (p & h' & -> & _). eauto.
  - intros p Hp. apply elem_of_Permutation in Hp as [live' Hp].
    destruct (heap_inv_free _ _ _ _ Hinv Hp) as (h' & -> & _). eauto.
Qed.

(** sizes near [SIZE_MAX] are not refused: on a fresh heap of 64 KiB a
    request of [2^64 - 1] bytes is rounded to 0 and gets an empty block, and a
    request of [2^64 - 16] bytes passes the size test because [count + 24]
    wraps; the header of the block split off after it is placed 8 bytes into
    its own header. *)
Theorem heap_alloc_huge_request_succeeds :
  let h := amd64_heap_init 0x200000 0x10000 in
  (exists h', heap_alloc (2 ^ 64 - 1) h = Ret (h_begin h + HDR, h') /\
     b_size <$> blocks h' !! h_begin h = Some 0) /\
  (exists h', heap_alloc (2 ^ 64 - 16) h = Ret (h_begin h + HDR, h') /\
     b_next <$> blocks h' !! h_begin h = Some (h_begin h + 8)).
Proof. split; eexists; (split; [vm_compute; reflexivity|vm_compute; reflexivity]). Qed.

(** [heap_stat] accounts for every byte: on a well-formed heap it returns the
    number of live blocks, and the bytes in use, the free bytes and one header
    per block add up to the size of the heap. *)
Theorem heap_stat_accounts h l :
  heap_ok h l ->
  exists st, get_heap_stat h = Ret (st, h) /\
    alloc_count st = Z.of_nat (length (used 0 l)) /\
    alloc_size st + free_size st + HDR * Z.of_nat (length l) = h_limit h /\
    total_size st = h_limit h.
Proof.
  intros (Hl & Hb & Hlim & HE & q & H). pose proof (seg_fuel _ _ _ _ _ _ _ H).
  pose proof (seg_extent _ _ _ _ _ _ _ H). pose proof (seg_sizes_ok _ _ _ _ _ _ _ H) as Hsz.
  eexists. split.
  - unfold get_heap_stat. rewrite (bind_Ret _ _ h h h) by done.
    pose proof (heap_stat_loop_run h _ l (heap_fuel h) 0 (h_begin h) q
      (mk_heap_stat 0 0 0 (h_limit h)) Hb ltac:(unfold heap_fuel; lia) H) as E.
    replace (if l is [] then 0 else h_begin h) with (h_begin h) in E by (by destruct l). exact E.
  - pose proof (stat_sum l (mk_heap_stat 0 0 0 (h_limit h)) Hsz) as Hst. cbn in Hst. lia.
Qed.

(** Witnesses: a 64 KiB heap at 2 MiB, fresh and after one allocation. *)
Definition heap_ex : heap := amd64_heap_init 0x200000 0x10000.
Definition heap_ex1 : heap :=
  match heap_alloc 100 heap_ex with Ret (_, h) => h | _ => heap_ex end.

Lemma heap_ex_ok : heap_ok heap_ex [(65512, false)].
Proof.
  split; [done|]. split; [done|]. split; [by vm_compute|]. split; [done|].
  exists (MM_VIRTUALIZE 0x200000). by vm_compute.
Qed.

Lemma heap_ex1_ok : heap_ok heap_ex1 [(112, true); (65376, false)].
Proof.
  split; [done|]. split; [done|]. split; [by vm_compute|]. split; [done|].
  exists (MM_VIRTUALIZE 0x200000 + 136). by vm_compute.
Qed.

Lemma heap_alloc_first_fit_witness :
  exists h', heap_alloc 100 heap_ex = Ret (h_begin heap_ex + 24, h') /\
    heap_ok h' [(112, true); (65376, false)].
Proof.
  pose proof (heap_alloc_first_fit heap_ex [(65512, false)] 100 heap_ex_ok ltac:(lia)) as H.
  destruct H as (h' & E & Hok & _). exists h'. split; [exact E|exact Hok].
Defined.

Lemma heap_free_release_witness :
  exists h', heap_free (h_begin heap_ex1 + 0 + 24) heap_ex1 = Ret (tt, h') /\
    heap_ok h' [(65512, false)].
Proof.
  destruct (heap_free_release heap_ex1 [] 112 [(65376, false)] heap_ex1_ok)
    as [(h' & E & Hok & _) _].
  exists h'. split; [exact E|exact Hok].
Defined.

Lemma heap_alloc_disjoint_witness :
  exists p h', heap_alloc 50 heap_ex1 = Ret (p, h') /\
    (h_begin heap_ex1 + 24, 112) ∈ used (h_begin heap_ex1) [(112, true); (65376, false)] /\
    exists l', heap_ok h' l' /\
      used (h_begin heap_ex1) l' ≡ₚ (p, 64) :: used (h_begin heap_ex1) [(112, true); (65376, false)].
Proof.
  assert (exists h', heap_alloc 50 heap_ex1 = Ret (h_begin heap_ex1 + 160, h')) as [h' E]
    by (eexists; vm_compute; reflexivity).
  exists (h_begin heap_ex1 + 160), h'. split; [exact E|]. split; [apply list_elem_of_here|].
  destruct (heap_alloc_disjoint heap_ex1 _ 50 _ h' heap_ex1_ok ltac:(lia) E ltac:(by vm_compute))
    as (l' & Hok & Hp & _).
  exists l'. split; [exact Hok|exact Hp].
Defined.

Lemma heap_alloc_free_roundtrip_witness :
  exists p h' h'', heap_alloc 50 heap_ex1 = Ret (p, h') /\ heap_free p h' = Ret (tt, h'') /\
    heap_ok h'' [(112, true); (65376, false)].
Proof.
  assert (exists h', heap_alloc 50 heap_ex1 = Ret (h_begin heap_ex1 + 160, h')) as [h' E]
    by (eexists; vm_compute; reflexivity).
  destruct (heap_alloc_free_roundtrip heap_ex1 _ 50 _ h' heap_ex1_ok eq_refl ltac:(lia) E
    ltac:(by vm_compute)) as (h'' & E2 & Hok).
  exists (h_begin heap_ex1 + 160), h', h''. split; [exact E|]. split; [exact E2|exact Hok].
Defined.

Lemma heap_reachable_invariant_witness :
  heap_reach 0x200000 0x10000 heap_ex1 [h_begin heap_ex + 24] /\
  exists r, heap_free (h_begin heap_ex + 24) heap_ex1 = Ret r.
Proof.
  assert (heap_reach 0x200000 0x10000 heap_ex1 [h_begin heap_ex + 24]) as Hr.
  { apply (reach_alloc 0x200000 0x10000 heap_ex [] 100 (h_begin heap_ex + 24) heap_ex1).
    - apply reach_init.
    - lia.
    - vm_compute. reflexivity. }
  split; [exact Hr|].
  destruct (heap_reachable_invariant 0x200000 0x10000 heap_ex1 _ ltac:(by vm_compute)
    ltac:(unfold HDR; lia) ltac:(by vm_compute) Hr) as (_ & _ & H).
  apply H. apply list_elem_of_here.
Defined.

Lemma heap_stat_accounts_witness :
  exists st, get_heap_stat heap_ex1 = Ret (st, heap_ex1) /\ alloc_count st = 1 /\
    total_size st = 0x10000.
Proof.
  destruct (heap_stat_accounts heap_ex1 _ heap_ex1_ok) as (st & E & Hc & _ & Ht).
  exists st. split; [exact E|]. split; [exact Hc|exact Ht].
Defined.
