(* ===== verification/Phys.v ===== *)
(** * Physical page allocator: [arch/amd64/mm/phys.c]

    One [struct page] per 4 KiB frame of the first GiB, in the array
    [mm_pages] (here a finite map on [0, PHYS_MAX_PAGES); an index outside it is
    a fault).  The allocation spinlock makes each operation atomic. *)

From S2P Require Import Prelude Defs.

Definition PHYS_MAX_PAGES : Z := 2 ^ 30 / 0x1000.
Definition LOW_BOUND : Z := 0x100000.
Definition PG_ALLOC : Z := 1.
Definition PG_MMAPED : Z := 2.

Inductive page_usage :=
  | PU_UNKNOWN | PU_PRIVATE | PU_SHARED | PU_DEVICE | PU_KERNEL | PU_PAGING | PU_CACHE.
#[export] Instance page_usage_eq_dec : EqDecision page_usage.
Proof. solve_decision. Defined.

Record page := mk_page { pg_flags : Z; pg_usage : page_usage; pg_refcount : Z }.

Record phys := mk_phys {
  mm_pages : gmap Z page;
  total_pages : Z;
  pages_free : Z;
  alloc_pages : page_usage -> Z;
  reserved_regions : list (Z * Z);
}.

Definition set_pages m s :=
  mk_phys m (total_pages s) (pages_free s) (alloc_pages s) (reserved_regions s).
Definition set_total x s :=
  mk_phys (mm_pages s) x (pages_free s) (alloc_pages s) (reserved_regions s).
Definition set_free x s :=
  mk_phys (mm_pages s) (total_pages s) x (alloc_pages s) (reserved_regions s).
Definition set_alloc (u : page_usage) (x : Z) s :=
  mk_phys (mm_pages s) (total_pages s) (pages_free s)
    (fun v => if decide (v = u) then x else alloc_pages s v) (reserved_regions s).
Definition set_reserved l s :=
  mk_phys (mm_pages s) (total_pages s) (pages_free s) (alloc_pages s) l.

(** [mm_pages[i]] *)
Definition page_at (i : Z) : cmd phys page := cload (fun s => mm_pages s !! i).
Definition put_page (i : Z) (p : page) : cmd phys unit :=
  cmodify (fun s => set_pages (<[i:=p]> (mm_pages s)) s).
(** [PHYS2PAGE(addr)] *)
Definition PHYS2PAGE (addr : Z) : Z := addr / MM_PAGE_SIZE.

Definition is_alloc (p : page) : bool := negb (Z.land (pg_flags p) PG_ALLOC =? 0).

(** [++_alloc_pages[pu]; _assert(_pages_free); --_pages_free]. *)
Definition count_alloc (pu : page_usage) : cmd phys unit :=
  cmodify (fun s => set_alloc pu (u64 (alloc_pages s pu + 1)) s);;
  f ← cgets pages_free;
  cassert (bool_decide (f ≠ 0));;
  cmodify (set_free (u64 (f - 1))).

(** The loop of [mm_phys_alloc_page] from index [i], [n] frames left. *)
Fixpoint alloc_scan (pu : page_usage) (n : nat) (i : Z) : cmd phys Z :=
  match n with
  | O => mret MM_NADDR
  | S n =>
      pg ← page_at i;
      if is_alloc pg then alloc_scan pu n (i + 1)
      else
        cassert (bool_decide (pg_usage pg = PU_UNKNOWN));;
        cassert (bool_decide (pg_refcount pg = 0));;
        put_page i (mk_page (Z.lor (pg_flags pg) PG_ALLOC) pu (pg_refcount pg));;
        count_alloc pu;;
        mret (i * MM_PAGE_SIZE)
  end.

Definition LOW_PAGE : Z := Z.shiftr LOW_BOUND 12.

Definition mm_phys_alloc_page (pu : page_usage) : cmd phys Z :=
  cassert (bool_decide (pu ≠ PU_UNKNOWN));;
  alloc_scan pu (Z.to_nat (PHYS_MAX_PAGES - LOW_PAGE)) LOW_PAGE.

Definition mm_phys_free_page (addr : Z) : cmd phys unit :=
  pg ← page_at (PHYS2PAGE addr);
  cassert (bool_decide (pg_refcount pg = 0));;
  cassert (is_alloc pg);;
  c ← cgets (fun s => alloc_pages s (pg_usage pg));
  cassert (bool_decide (c ≠ 0));;
  cmodify (set_alloc (pg_usage pg) (u64 (c - 1)));;
  cmodify (fun s => set_free (u64 (pages_free s + 1)) s);;
  put_page (PHYS2PAGE addr)
    (mk_page (Z.land (pg_flags pg) (Z.lnot PG_ALLOC)) PU_UNKNOWN (pg_refcount pg)).

(** The two inner loops of [mm_phys_alloc_contiguous]. *)
Fixpoint all_free (i : Z) (count : nat) : cmd phys bool :=
  match count with
  | O => mret true
  | S count =>
      pg ← page_at i;
      if is_alloc pg then mret false else all_free (i + 1) count
  end.

Fixpoint take_pages (pu : page_usage) (i : Z) (count : nat) : cmd phys unit :=
  match count with
  | O => mret tt
  | S count =>
      pg ← page_at i;
      cassert (bool_decide (pg_refcount pg = 0));;
      put_page i (mk_page (Z.lor (pg_flags pg) PG_ALLOC) pu (pg_refcount pg));;
      count_alloc pu;;
      take_pages pu (i + 1) count
  end.

Fixpoint contiguous_scan (pu : page_usage) (count : nat) (n : nat) (i : Z) : cmd phys Z :=
  match n with
  | O => mret MM_NADDR
  | S n =>
      ok ← all_free i count;
      if (ok : bool) then take_pages pu i count;; mret (i * MM_PAGE_SIZE)
      else contiguous_scan pu count n (i + 1)
  end.

(** The bound [PHYS_MAX_PAGES - count] is computed in [size_t]. *)
Definition mm_phys_alloc_contiguous (count : Z) (pu : page_usage) : cmd phys Z :=
  contiguous_scan pu (Z.to_nat count)
    (Z.to_nat (u64 (PHYS_MAX_PAGES - count) - LOW_PAGE)) LOW_PAGE.

Record mm_phys_stat := mk_phys_stat {
  st_total : Z; st_free : Z; st_kernel : Z; st_user : Z; st_shared : Z; st_paging : Z; st_cache : Z }.

Definition get_mm_phys_stat (s : phys) : mm_phys_stat :=
  mk_phys_stat (total_pages s) (pages_free s) (alloc_pages s PU_KERNEL) (alloc_pages s PU_PRIVATE)
    (alloc_pages s PU_SHARED) (alloc_pages s PU_PAGING) (alloc_pages s PU_CACHE).

(** ** The boot memory map *)
Inductive efi_mmap_type :=
  | efi_reserved_memory_type | efi_loader_code | efi_loader_data | efi_boot_services_code
  | efi_boot_services_data | efi_runtime_services_code | efi_runtime_services_data
  | efi_conventional_memory | efi_unusable_memory | efi_acpi_reclaim_memory
  | efi_acpi_memory_nvs | efi_memory_mapped_io | efi_memory_mapped_io_portspace
  | efi_pal_code | efi_persistent_memory | efi_max_memory_type.

Inductive mmap_kind := MMAP_KIND_RESERVED | MMAP_KIND_USABLE.

(** The entries behind [mm_phys_memory_map.address], in the two formats. *)
Inductive mmap_entry :=
  | EfiEntry (ty : efi_mmap_type) (physical_start number_of_pages : Z)
  | Mb2Entry (addr len : Z) (available : bool).

(** The memory map: where its table lies and what it holds. *)
Record mm_phys_memory_map := mk_mmap { map_address : Z; map_entry_size : Z; map_entries : list mmap_entry }.

Definition efi_kind (ty : efi_mmap_type) : option mmap_kind :=
  match ty with
  | efi_loader_code | efi_loader_data | efi_boot_services_code | efi_boot_services_data
  | efi_runtime_services_code | efi_runtime_services_data | efi_conventional_memory =>
      Some MMAP_KIND_USABLE
  | efi_pal_code | efi_persistent_memory | efi_reserved_memory_type | efi_unusable_memory
  | efi_acpi_reclaim_memory | efi_acpi_memory_nvs | efi_memory_mapped_io_portspace
  | efi_memory_mapped_io => Some MMAP_KIND_RESERVED
  | efi_max_memory_type => None
  end.

(** One call of [mmap_iter_next] on an entry: kind, base and size. *)
Definition mmap_decode {S} (e : mmap_entry) : cmd S (mmap_kind * Z * Z) :=
  match e with
  | EfiEntry ty start n =>
      match efi_kind ty with
      | Some k => mret (k, start, u64 (n * 0x1000))
      | None => cpanic
      end
  | Mb2Entry addr len available =>
      mret (if available then MMAP_KIND_USABLE else MMAP_KIND_RESERVED, addr, len)
  end.

Definition is_reserved (regions : list (Z * Z)) (addr : Z) : bool :=
  existsb (fun '(b, e) => (b <=? addr) && (addr <? e)) regions.

Definition mm_phys_reserve (r : Z * Z) : cmd phys unit :=
  cmodify (fun s => set_reserved (r :: reserved_regions s) s).

Definition page_begin (base : Z) : Z := Z.land (u64 (base + 0xFFF)) (Z.lnot 0xFFF).
Definition page_end (base sz : Z) : Z := Z.land (u64 (base + sz)) (Z.lnot 0xFFF).

(** The page loop of [place_mm_pages]: [n] pages from [addr]. *)
Fixpoint place_run (regions : list (Z * Z)) (req : Z) (n : nat) (addr collected base : Z) : option Z :=
  match n with
  | O => None
  | S n =>
      if is_reserved regions addr then place_run regions req n (addr + 0x1000) 0 MM_NADDR
      else
        let base := if base =? MM_NADDR then addr else base in
        if collected + 1 =? req then Some base
        else place_run regions req n (addr + 0x1000) (collected + 1) base
  end.

Definition pages_between (b e : Z) : nat := Z.to_nat ((e - b) / 0x1000).

Fixpoint place_mm_pages (entries : list mmap_entry) (req : Z) : cmd phys Z :=
  match entries with
  | [] => mret MM_NADDR
  | e :: rest =>
      '(kind, base, sz) ← mmap_decode e;
      regions ← cgets reserved_regions;
      let b := page_begin base in
      let e := page_end base sz in
      match kind with
      | MMAP_KIND_USABLE =>
          if b <? e then
            match place_run regions req (pages_between b e) b 0 MM_NADDR with
            | Some a => mret a
            | None => place_mm_pages rest req
            end
          else place_mm_pages rest req
      | MMAP_KIND_RESERVED => place_mm_pages rest req
      end
  end.

(** The loop that hands the usable pages of one region to the allocator. *)
Fixpoint free_region (kernel_end : Z) (n : nat) (addr : Z) : cmd phys unit :=
  match n with
  | O => mret tt
  | S n =>
      regions ← cgets reserved_regions;
      (if negb (is_reserved regions addr) && (MM_PHYS kernel_end + 0x1000 <=? addr) then
         pg ← page_at (PHYS2PAGE addr);
         put_page (PHYS2PAGE addr)
           (mk_page (Z.land (pg_flags pg) (Z.lnot PG_ALLOC)) PU_UNKNOWN 0);;
         cmodify (fun s => set_total (u64 (total_pages s + 1)) s)
       else mret tt);;
      free_region kernel_end n (addr + 0x1000)
  end.

Fixpoint free_regions (kernel_end : Z) (entries : list mmap_entry) : cmd phys unit :=
  match entries with
  | [] => mret tt
  | e :: rest =>
      '(kind, base, sz) ← mmap_decode e;
      let b := page_begin base in
      let e := page_end base sz in
      match kind with
      | MMAP_KIND_USABLE =>
          if u64 (b + 0x1000) <? e then free_region kernel_end (pages_between b e) b else mret tt
      | MMAP_KIND_RESERVED => mret tt
      end;;
      free_regions kernel_end rest
  end.

(** [sizeof(struct page)] *)
Definition SIZEOF_PAGE : Z := 24.
Definition mm_pages_req_count : Z := Z.shiftr (PHYS_MAX_PAGES * SIZEOF_PAGE + 0xFFF) 12.

(** The array as the initialisation loop leaves it; [garbage] is what the
    [usage] fields held before. *)
Definition boot_pages (garbage : Z -> page_usage) : gmap Z page :=
  list_to_map ((fun i => (i, mk_page PG_ALLOC (garbage i) (2 ^ 64 - 1))) <$> seqZ 0 PHYS_MAX_PAGES).

Definition amd64_phys_memory_map (kernel_end : Z) (garbage : Z -> page_usage)
    (mmap : mm_phys_memory_map) : cmd phys unit :=
  let b := MM_PHYS (map_address mmap) in
  mm_phys_reserve (b, u64 (b + Z.of_nat (length (map_entries mmap)) * map_entry_size mmap));;
  a ← place_mm_pages (map_entries mmap) mm_pages_req_count;
  cassert (bool_decide (a ≠ MM_NADDR));;
  mm_phys_reserve (a, u64 (a + mm_pages_req_count * MM_PAGE_SIZE));;
  cmodify (set_pages (boot_pages garbage));;
  cmodify (set_total 0);;
  free_regions kernel_end (map_entries mmap);;
  cmodify (fun s => set_free (total_pages s) s).

(** ** Page flags *)
Lemma is_alloc_set f u r : is_alloc (mk_page (Z.lor f PG_ALLOC) u r) = true.
Proof.
  unfold is_alloc, PG_ALLOC. cbn [pg_flags]. apply negb_true_iff, Z.eqb_neq. intros E.
  assert (Z.testbit (Z.land (Z.lor f 1) 1) 0 = false) as H by (rewrite E; done).
  rewrite Z.land_spec, Z.lor_spec in H. cbn in H. by rewrite orb_true_r in H.
Qed.

Lemma is_alloc_clear f u r : is_alloc (mk_page (Z.land f (Z.lnot PG_ALLOC)) u r) = false.
Proof.
  unfold is_alloc. cbn [pg_flags]. rewrite <- Z.land_assoc. cbn. by rewrite Z.land_0_r.
Qed.

Lemma alloc_bit_set_clear p :
  is_alloc p = false -> Z.land (Z.lor (pg_flags p) PG_ALLOC) (Z.lnot PG_ALLOC) = pg_flags p.
Proof.
  unfold is_alloc. intros H%negb_false_iff%Z.eqb_eq.
  rewrite Z.land_lor_distr_l. change (Z.land PG_ALLOC (Z.lnot PG_ALLOC)) with 0.
  rewrite Z.lor_0_r, <- Z.ldiff_land.
  pose proof (Z.lor_ldiff_and (pg_flags p) PG_ALLOC) as E. rewrite H, Z.lor_0_r in E. done.
Qed.

(** ** The allocator's invariant

    [owned] records the frames the allocator has handed out and for what. *)
Definition free_at (_ : Z) (p : page) : bool := negb (is_alloc p).
Definition used_for (u : page_usage) (_ : Z) (v : page_usage) : bool := bool_decide (v = u).

Definition is_free (s : phys) (i : Z) : Prop :=
  exists p, mm_pages s !! i = Some p /\ is_alloc p = false.

Record phys_ok (s : phys) (owned : gmap Z page_usage) : Prop := {
  ok_dom : forall i, is_Some (mm_pages s !! i) <-> 0 <= i < PHYS_MAX_PAGES;
  ok_free : forall i p, mm_pages s !! i = Some p -> is_alloc p = false ->
    LOW_PAGE <= i /\ pg_usage p = PU_UNKNOWN /\ pg_refcount p = 0;
  ok_owned : forall i u, owned !! i = Some u ->
    exists p, mm_pages s !! i = Some p /\ is_alloc p = true /\ pg_usage p = u;
  ok_count : pages_free s = countm free_at (mm_pages s);
  ok_usage : forall u, alloc_pages s u = countm (used_for u) owned;
  ok_total : total_pages s = pages_free s + Z.of_nat (size owned);
  ok_bound : total_pages s <= PHYS_MAX_PAGES;
}.

Lemma ok_bounds s o : phys_ok s o ->
  0 <= pages_free s <= PHYS_MAX_PAGES /\
  forall u, 0 <= alloc_pages s u <= PHYS_MAX_PAGES - pages_free s.
Proof.
  intros H. pose proof (ok_total _ _ H). pose proof (ok_bound _ _ H).
  pose proof (countm_nonneg free_at (mm_pages s)). rewrite <- (ok_count _ _ H) in *.
  split; [lia|]. intros u. rewrite (ok_usage _ _ H).
  pose proof (countm_nonneg (used_for u) o). pose proof (countm_size (used_for u) o). lia.
Qed.

Lemma free_not_owned s o i : phys_ok s o -> is_free s i -> o !! i = None.
Proof.
  intros H (p & Hp & Hf). destruct (o !! i) as [u|] eqn:E; [|done].
  destruct (ok_owned _ _ H _ _ E) as (q & Hq & ? & _). congruence.
Qed.

Lemma free_range s o i : phys_ok s o -> is_free s i -> LOW_PAGE <= i < PHYS_MAX_PAGES.
Proof.
  intros H (p & Hp & Hf). pose proof (ok_free _ _ H _ _ Hp Hf).
  assert (0 <= i < PHYS_MAX_PAGES) by (apply (ok_dom _ _ H); eauto). lia.
Qed.

Lemma free_pages_pos s o i : phys_ok s o -> is_free s i -> 0 < pages_free s.
Proof.
  intros H (p & Hp & Hf). rewrite (ok_count _ _ H). apply (countm_pos _ _ i p Hp).
  unfold free_at. by rewrite Hf.
Qed.

(** The state after page [i] is marked allocated for [pu]. *)
Definition claim (pu : page_usage) (i : Z) (p : page) (s : phys) : phys :=
  mk_phys (<[i:=mk_page (Z.lor (pg_flags p) PG_ALLOC) pu (pg_refcount p)]> (mm_pages s))
    (total_pages s) (pages_free s - 1)
    (fun v => if decide (v = pu) then alloc_pages s pu + 1 else alloc_pages s v)
    (reserved_regions s).

Lemma count_alloc_run s o pu i p :
  phys_ok s o -> mm_pages s !! i = Some p -> is_alloc p = false ->
  (put_page i (mk_page (Z.lor (pg_flags p) PG_ALLOC) pu (pg_refcount p));; count_alloc pu) s
  = Ret (tt, claim pu i p s).
Proof.
  intros H Hp Hf. pose proof (free_pages_pos s o i H ltac:(by exists p)).
  destruct (ok_bounds _ _ H) as [Hb Ha]. specialize (Ha pu).
  unfold put_page, count_alloc. run_simpl. cbn [alloc_pages pages_free set_pages set_alloc].
  rewrite bool_decide_eq_true_2 by lia. unfold claim, set_free, set_alloc, set_pages.
  cbn [mm_pages total_pages alloc_pages pages_free reserved_regions].
  assert (PHYS_MAX_PAGES < 2 ^ 64) by done.
  rewrite !uwrap_small by lia. done.
Qed.

Lemma claim_ok s o pu i p :
  phys_ok s o -> mm_pages s !! i = Some p -> is_alloc p = false ->
  phys_ok (claim pu i p s) (<[i:=pu]> o).
Proof.
  intros H Hp Hf. assert (o !! i = None) as Ho by (apply (free_not_owned s); [done|by exists p]).
  pose proof (free_pages_pos s o i H ltac:(by exists p)).
  split; cbn [claim mm_pages pages_free total_pages alloc_pages].
  - intros j. rewrite lookup_insert_is_Some, <- (ok_dom _ _ H).
    destruct (decide (i = j)) as [<-|]; [|naive_solver]. split; [intros _; by exists p|by left].
  - intros j q [[<- <-]|[? Hq]]%lookup_insert_Some; [by rewrite is_alloc_set|].
    by apply (ok_free _ _ H).
  - intros j u [[<- <-]|[Hne Hu]]%lookup_insert_Some.
    + rewrite lookup_insert_eq. eexists. split; [done|]. by rewrite is_alloc_set.
    + rewrite lookup_insert_ne by done. by apply (ok_owned _ _ H).
  - rewrite (countm_insert _ _ _ _ p Hp). unfold free_at. rewrite is_alloc_set, Hf. cbn [Z.b2z negb].
    rewrite (ok_count _ _ H). unfold free_at. lia.
  - intros u. rewrite countm_insert_new by done. unfold used_for at 2.
    rewrite !(ok_usage _ _ H). destruct (decide (u = pu)) as [->|].
    + by rewrite bool_decide_eq_true_2.
    + rewrite bool_decide_eq_false_2 by congruence. cbn. lia.
  - rewrite map_size_insert_None by done. rewrite (ok_total _ _ H). lia.
  - apply (ok_bound _ _ H).
Qed.

Lemma low_max : 0 <= LOW_PAGE <= PHYS_MAX_PAGES.
Proof. split; by apply Z.leb_le. Qed.

(** ** Single pages *)
Lemma alloc_scan_run s o pu n i :
  phys_ok s o -> pu <> PU_UNKNOWN -> 0 <= i -> i + Z.of_nat n = PHYS_MAX_PAGES ->
  (alloc_scan pu n i s = Ret (MM_NADDR, s) /\ forall j, i <= j -> ~ is_free s j) \/
  (exists k p, alloc_scan pu n i s = Ret (k * MM_PAGE_SIZE, claim pu k p s) /\
     i <= k /\ mm_pages s !! k = Some p /\ is_alloc p = false /\
     forall j, i <= j < k -> ~ is_free s j).
Proof.
  intros H Hpu. revert i. induction n as [|n IH]; intros i Hi Hn.
  - left. split; [done|]. intros j Hj Hf. pose proof (free_range _ _ _ H Hf). lia.
  - destruct (proj2 (ok_dom _ _ H i)) as [p Hp]; [lia|].
    cbn [alloc_scan]. unfold page_at. rewrite (bind_Ret _ _ s p s) by by apply load_Some.
    destruct (is_alloc p) eqn:E.
    + assert (~ is_free s i) by (intros (q & ? & ?); congruence).
      destruct (IH (i + 1)) as [[-> Hnf]|(k & q & -> & Hk & Hq & Eq & Hnf)]; [lia|lia| |].
      * left. split; [done|]. intros j Hj. destruct (decide (j = i)) as [->|]; [done|].
        apply Hnf. lia.
      * right. exists k, q. split; [done|]. split; [lia|]. split; [done|]. split; [done|].
        intros j Hj. destruct (decide (j = i)) as [->|]; [done|]. apply Hnf. lia.
    + right. exists i, p. destruct (ok_free _ _ H _ _ Hp E) as (_ & Hu & Hr).
      rewrite !bool_decide_eq_true_2 by done.
      change (cassert true) with (mret (M:=cmd phys) tt).
      rewrite (bind_Ret _ _ s tt s) by done. rewrite (bind_Ret _ _ s tt s) by done.
      pose proof (count_alloc_run s o pu i p H Hp E) as Hr2.
      revert Hr2. cbv [mbind cmd_mbind cbind].
      destruct (put_page _ _ s) as [[[] s1]| | |]; try done. intros ->.
      split; [done|]. split; [lia|]. split; [done|]. split; [done|]. intros j ?. lia.
Qed.

(** The state after page [i] is given back. *)
Definition unclaim (i : Z) (p : page) (s : phys) : phys :=
  mk_phys (<[i:=mk_page (Z.land (pg_flags p) (Z.lnot PG_ALLOC)) PU_UNKNOWN (pg_refcount p)]> (mm_pages s))
    (total_pages s) (pages_free s + 1)
    (fun v => if decide (v = pg_usage p) then alloc_pages s (pg_usage p) - 1 else alloc_pages s v)
    (reserved_regions s).

Lemma owned_count_pos s o i u : phys_ok s o -> o !! i = Some u ->
  0 < alloc_pages s u /\ pages_free s < PHYS_MAX_PAGES.
Proof.
  intros H Ho. assert (0 < alloc_pages s u).
  { rewrite (ok_usage _ _ H). apply (countm_pos _ _ i u Ho). by apply bool_decide_eq_true_2. }
  destruct (ok_bounds _ _ H) as [_ Ha]. specialize (Ha u). lia.
Qed.

Lemma free_page_run s o i u p addr :
  phys_ok s o -> o !! i = Some u -> PHYS2PAGE addr = i ->
  mm_pages s !! i = Some p -> pg_refcount p = 0 ->
  mm_phys_free_page addr s = Ret (tt, unclaim i p s).
Proof.
  intros H Ho Ha Hp Hr. destruct (ok_owned _ _ H _ _ Ho) as (q & Hq & Hal & Hu).
  assert (q = p) as -> by congruence. destruct (owned_count_pos _ _ _ _ H Ho) as [Hc Hf].
  destruct (ok_bounds _ _ H) as [Hb Hab]. specialize (Hab u).
  unfold mm_phys_free_page, page_at, put_page. rewrite Ha.
  rewrite (bind_Ret _ _ s p s) by by apply load_Some.
  rewrite bool_decide_eq_true_2, Hal by done. run_simpl. rewrite Hu.
  rewrite bool_decide_eq_true_2 by lia. unfold unclaim, set_alloc, set_free, set_pages. rewrite Hu.
  cbn [mm_pages total_pages alloc_pages pages_free reserved_regions].
  assert (PHYS_MAX_PAGES < 2 ^ 64) by done. rewrite !uwrap_small by lia. done.
Qed.

Lemma unclaim_ok s o i u p :
  phys_ok s o -> o !! i = Some u -> LOW_PAGE <= i ->
  mm_pages s !! i = Some p -> pg_refcount p = 0 ->
  phys_ok (unclaim i p s) (delete i o).
Proof.
  intros H Ho Hi Hp Hr. destruct (ok_owned _ _ H _ _ Ho) as (q & Hq & Hal & Hu).
  assert (q = p) as -> by congruence.
  split; cbn [unclaim mm_pages pages_free total_pages alloc_pages].
  - intros j. rewrite lookup_insert_is_Some, <- (ok_dom _ _ H).
    destruct (decide (i = j)) as [<-|]; [|naive_solver]. split; [intros _; by exists p|by left].
  - intros j q [[<- <-]|[? Hq']]%lookup_insert_Some; [done|]. by apply (ok_free _ _ H).
  - intros j v [Hne Hv]%lookup_delete_Some. rewrite lookup_insert_ne by done.
    by apply (ok_owned _ _ H).
  - rewrite (countm_insert _ _ _ _ p Hp). unfold free_at. rewrite is_alloc_clear, Hal. cbn [Z.b2z negb].
    rewrite (ok_count _ _ H). unfold free_at. lia.
  - intros v. rewrite (countm_delete _ _ _ u Ho). unfold used_for at 2.
    rewrite !(ok_usage _ _ H), Hu. destruct (decide (v = u)) as [->|].
    + by rewrite bool_decide_eq_true_2.
    + rewrite bool_decide_eq_false_2 by congruence. cbn. lia.
  - rewrite map_size_delete_Some by eauto. rewrite (ok_total _ _ H).
    assert (size o ≠ 0%nat). { intros E%map_size_empty_inv. subst o. done. } lia.
  - apply (ok_bound _ _ H).
Qed.

(** What one allocation promises: the lowest free frame, or none is free. *)
Lemma alloc_page_run s o pu :
  phys_ok s o -> pu <> PU_UNKNOWN ->
  (mm_phys_alloc_page pu s = Ret (MM_NADDR, s) /\ pages_free s = 0 /\ forall j, ~ is_free s j) \/
  (exists k p, mm_phys_alloc_page pu s = Ret (k * MM_PAGE_SIZE, claim pu k p s) /\
     mm_pages s !! k = Some p /\ is_alloc p = false /\ forall j, j < k -> ~ is_free s j).
Proof.
  intros H Hpu. unfold mm_phys_alloc_page. rewrite bool_decide_eq_true_2 by done.
  change (cassert true) with (mret (M:=cmd phys) tt). rewrite (bind_Ret _ _ s tt s) by done.
  destruct (alloc_scan_run s o pu (Z.to_nat (PHYS_MAX_PAGES - LOW_PAGE)) LOW_PAGE H Hpu)
    as [[E Hnf]|(k & p & E & Hk & Hp & Hf & Hnf)];
    [pose proof low_max; lia|pose proof low_max; lia| |].
  - left. split; [done|].
    assert (forall j, ~ is_free s j) as Hall.
    { intros j Hj. pose proof (free_range _ _ _ H Hj). apply (Hnf j); [lia|done]. }
    split; [|done]. rewrite (ok_count _ _ H). apply countm_0. intros j p Hj. unfold free_at.
    destruct (is_alloc p) eqn:E'; [done|]. destruct (Hall j). by exists p.
  - right. exists k, p. split; [done|]. split; [done|]. split; [done|].
    intros j Hj Hfj. pose proof (free_range _ _ _ H Hfj). apply (Hnf j); [lia|done].
Qed.

(** ** Runs of pages *)
Lemma all_free_run s o i count :
  phys_ok s o -> 0 <= i -> i + Z.of_nat count <= PHYS_MAX_PAGES ->
  exists b, all_free i count s = Ret (b, s) /\
    (b = true <-> forall j, i <= j < i + Z.of_nat count -> is_free s j).
Proof.
  intros H. revert i. induction count as [|c IH]; intros i Hi Hc.
  - exists true. split; [done|]. split; [intros _ j ?; lia|done].
  - destruct (proj2 (ok_dom _ _ H i)) as [p Hp]; [lia|].
    cbn [all_free]. unfold page_at. rewrite (bind_Ret _ _ s p s) by by apply load_Some.
    destruct (is_alloc p) eqn:E.
    + exists false. split; [done|]. split; [done|]. intros Hall.
      destruct (Hall i) as (q & ? & ?); [lia|congruence].
    + destruct (IH (i + 1)) as (b & -> & Hb); [lia|lia|]. exists b. split; [done|]. rewrite Hb. split.
      * intros Hall j Hj. destruct (decide (j = i)) as [->|]; [by exists p|]. apply Hall. lia.
      * intros Hall j Hj. apply Hall. lia.
Qed.

(** The frames [i, i + n) all used for [pu]. *)
Fixpoint own_run (pu : page_usage) (i : Z) (n : nat) (o : gmap Z page_usage) : gmap Z page_usage :=
  match n with O => o | S n => own_run pu (i + 1) n (<[i:=pu]> o) end.

Lemma own_run_lookup pu n i o j :
  own_run pu i n o !! j = if decide (i <= j < i + Z.of_nat n) then Some pu else o !! j.
Proof.
  revert i o. induction n as [|n IH]; intros i o; cbn [own_run].
  - rewrite decide_False by lia. done.
  - rewrite IH. destruct (decide (i = j)) as [<-|].
    + rewrite decide_False by lia. rewrite decide_True by lia. apply lookup_insert_eq.
    + rewrite lookup_insert_ne by done. repeat case_decide; try done; lia.
Qed.

Lemma claim_free_ne pu i p s j : j <> i -> is_free s j -> is_free (claim pu i p s) j.
Proof. intros Hj (q & Hq & Hf). exists q. cbn. rewrite lookup_insert_ne by done. done. Qed.

Lemma take_pages_run pu n : forall s o i,
  phys_ok s o -> (forall j, i <= j < i + Z.of_nat n -> is_free s j) ->
  exists s', take_pages pu i n s = Ret (tt, s') /\ phys_ok s' (own_run pu i n o) /\
    pages_free s' = pages_free s - Z.of_nat n /\ total_pages s' = total_pages s.
Proof.
  induction n as [|n IH]; intros s o i H Hall.
  - exists s. cbn. split; [done|]. split; [done|]. split; [lia|done].
  - destruct (Hall i) as (p & Hp & Hf); [lia|].
    destruct (ok_free _ _ H _ _ Hp Hf) as (_ & Hu & Hr).
    destruct (IH (claim pu i p s) (<[i:=pu]> o) (i + 1)) as (s' & E & Hok & Hn & Ht).
    { by apply claim_ok. }
    { intros j Hj. apply claim_free_ne; [lia|]. apply Hall. lia. }
    exists s'. split; [|split; [done|split; [rewrite Hn; cbn; lia|by rewrite Ht]]].
    cbn [take_pages]. unfold page_at. rewrite (bind_Ret _ _ s p s) by by apply load_Some.
    rewrite bool_decide_eq_true_2 by done.
    change (cassert true) with (mret (M:=cmd phys) tt). rewrite (bind_Ret _ _ s tt s) by done.
    pose proof (count_alloc_run s o pu i p H Hp Hf) as Hr2.
    revert Hr2. cbv [mbind cmd_mbind cbind].
    destruct (put_page _ _ s) as [[[] s1]| | |]; try done. intros ->. done.
Qed.

Definition run_free (s : phys) (i n : Z) : Prop := forall j, i <= j < i + n -> is_free s j.

Lemma contiguous_scan_run s o pu count n i :
  phys_ok s o -> 0 <= i -> i + Z.of_nat n + Z.of_nat count <= PHYS_MAX_PAGES ->
  (contiguous_scan pu count n i s = Ret (MM_NADDR, s) /\
     forall j, i <= j < i + Z.of_nat n -> ~ run_free s j (Z.of_nat count)) \/
  (exists k s', contiguous_scan pu count n i s = Ret (k * MM_PAGE_SIZE, s') /\
     i <= k < i + Z.of_nat n /\ run_free s k (Z.of_nat count) /\
     (forall j, i <= j < k -> ~ run_free s j (Z.of_nat count)) /\
     phys_ok s' (own_run pu k count o) /\ pages_free s' = pages_free s - Z.of_nat count).
Proof.
  intros H. revert i. induction n as [|n IH]; intros i Hi Hn.
  - left. split; [done|]. intros j ?. lia.
  - cbn [contiguous_scan]. destruct (all_free_run s o i count H) as (b & E & Hb); [lia|lia|].
    rewrite (bind_Ret _ _ _ _ _ E). destruct b.
    + right. assert (run_free s i (Z.of_nat count)) as Hr by exact (proj1 Hb eq_refl).
      destruct (take_pages_run pu count s o i H Hr) as (s' & E' & Hok & Hf & _).
      exists i, s'. rewrite (bind_Ret _ _ _ _ _ E'). split; [done|]. split; [lia|].
      split; [done|]. split; [intros; lia|done].
    + assert (~ run_free s i (Z.of_nat count)) as Hnr by (intros Hr; by discriminate (proj2 Hb Hr)).
      destruct (IH (i + 1)) as [[-> Hno]|(k & s' & -> & Hk & Hr & Hno & Hrest)]; [lia|lia| |].
      * left. split; [done|]. intros j Hj. destruct (decide (j = i)) as [->|]; [done|]. apply Hno. lia.
      * right. exists k, s'. split; [done|]. split; [lia|]. split; [done|]. split; [|done].
        intros j Hj. destruct (decide (j = i)) as [->|]; [done|]. apply Hno. lia.
Qed.

(** ** The boot memory map *)
Definition entry_decoded (e : mmap_entry) : option (mmap_kind * Z * Z) :=
  match e with
  | EfiEntry ty start n => k ← efi_kind ty; Some (k, start, u64 (n * 0x1000))
  | Mb2Entry addr len available =>
      Some (if available then MMAP_KIND_USABLE else MMAP_KIND_RESERVED, addr, len)
  end.

Lemma mmap_decode_run {S} e d (s : S) : entry_decoded e = Some d -> mmap_decode e s = Ret (d, s).
Proof.
  destruct e as [ty st n|addr len av]; cbn; [|by intros [= <-]].
  destruct (efi_kind ty); cbn; [by intros [= <-]|done].
Qed.

(** The page-aligned addresses the last loop of [amd64_phys_memory_map] visits
    for one entry, and those it turns into free frames. *)
Definition page_run (b : Z) (n : nat) : list Z := (fun k => b + 0x1000 * k) <$> seqZ 0 (Z.of_nat n).

Lemma page_run_S b n : page_run b (S n) = b :: page_run (b + 0x1000) n.
Proof.
  unfold page_run. rewrite seqZ_cons by lia. cbn [fmap list_fmap]. f_equal; [lia|].
  replace (Z.pred (Z.of_nat (S n))) with (Z.of_nat n) by lia.
  change (Z.succ 0) with (1 + 0). rewrite <- (fmap_add_seqZ 1 0), <- list_fmap_compose.
  apply list_fmap_ext. intros ? ? _. unfold compose. lia.
Qed.

Definition entry_pages (e : mmap_entry) : list Z :=
  match entry_decoded e with
  | Some (MMAP_KIND_USABLE, base, sz) =>
      let b := page_begin base in
      let e := page_end base sz in
      if u64 (b + 0x1000) <? e then page_run b (pages_between b e) else []
  | _ => []
  end.

Definition admitted (regions : list (Z * Z)) (kernel_end addr : Z) : bool :=
  negb (is_reserved regions addr) && (MM_PHYS kernel_end + 0x1000 <=? addr).

Definition admitted_frames regions kernel_end (l : list Z) : list Z :=
  PHYS2PAGE <$> filter (fun a => admitted regions kernel_end a = true) l.

(** The frames of the whole map that become free. *)
Definition boot_frames regions kernel_end (entries : list mmap_entry) : list Z :=
  mjoin ((fun e => admitted_frames regions kernel_end (entry_pages e)) <$> entries).

Lemma boot_pages_lookup g i :
  boot_pages g !! i =
    if decide (0 <= i < PHYS_MAX_PAGES) then Some (mk_page PG_ALLOC (g i) (2 ^ 64 - 1)) else None.
Proof.
  unfold boot_pages. case_decide as Hd.
  - apply elem_of_list_to_map_1.
    + rewrite <- list_fmap_compose. cbn. rewrite list_fmap_id. apply NoDup_seqZ.
    + apply list_elem_of_fmap. exists i. split; [done|]. apply elem_of_seqZ. lia.
  - apply not_elem_of_list_to_map_1. rewrite <- list_fmap_compose. cbn. rewrite list_fmap_id.
    rewrite elem_of_seqZ. lia.
Qed.

(** A quarter of a million entries: never unfold the array in a conversion. *)
Opaque boot_pages.

(** The array while the frames [l] have been released. *)
Record boot_inv (regions : list (Z * Z)) (l : list Z) (s : phys) : Prop := {
  bi_dom : forall i, is_Some (mm_pages s !! i) <-> 0 <= i < PHYS_MAX_PAGES;
  bi_free : forall i, is_free s i <-> i ∈ l;
  bi_wf : forall i p, mm_pages s !! i = Some p -> is_alloc p = false ->
    pg_usage p = PU_UNKNOWN /\ pg_refcount p = 0;
  bi_count : countm free_at (mm_pages s) = Z.of_nat (length l);
  bi_total : total_pages s = Z.of_nat (length l);
  bi_regions : reserved_regions s = regions;
}.

Lemma countm_free_bound m :
  (forall i, is_Some (m !! i) <-> 0 <= i < PHYS_MAX_PAGES) -> countm free_at m <= PHYS_MAX_PAGES.
Proof.
  intros Hd. pose proof (countm_size free_at m) as Hs. rewrite <- size_dom in Hs.
  assert (dom m = list_to_set (seqZ 0 PHYS_MAX_PAGES)) as E.
  { apply set_eq. intros i. rewrite elem_of_dom, elem_of_list_to_set, elem_of_seqZ, Hd. lia. }
  rewrite E, size_list_to_set, length_seqZ in Hs by apply NoDup_seqZ.
  rewrite Z2Nat.id in Hs by (pose proof low_max; lia). exact Hs.
Qed.

Definition released (i : Z) (s : phys) (p : page) : phys :=
  set_total (total_pages s + 1)
    (set_pages (<[i:=mk_page (Z.land (pg_flags p) (Z.lnot PG_ALLOC)) PU_UNKNOWN 0]> (mm_pages s)) s).

Lemma released_inv regions l s i p :
  boot_inv regions l s -> mm_pages s !! i = Some p -> i ∉ l -> boot_inv regions (i :: l) (released i s p).
Proof.
  intros H Hp Hi. assert (is_alloc p = true) as Ha.
  { destruct (is_alloc p) eqn:E; [done|]. destruct Hi. apply (bi_free _ _ _ H). by exists p. }
  split; cbn [released set_total set_pages mm_pages total_pages reserved_regions length].
  - intros j. rewrite lookup_insert_is_Some, <- (bi_dom _ _ _ H).
    destruct (decide (i = j)) as [<-|]; [|naive_solver]. split; [intros _; by exists p|by left].
  - intros j. rewrite elem_of_cons, <- (bi_free _ _ _ H). unfold is_free.
    cbn [released set_total set_pages mm_pages].
    destruct (decide (j = i)) as [->|Hne].
    + rewrite lookup_insert_eq. split; [by left|]. intros _. eexists. split; [done|apply is_alloc_clear].
    + rewrite lookup_insert_ne by done. split; [by right|]. by intros [?|?].
  - intros j q [[<- <-]|[? Hq]]%lookup_insert_Some; [done|]. by apply (bi_wf _ _ _ H j).
  - rewrite (countm_insert _ _ _ _ p Hp). unfold free_at. rewrite is_alloc_clear, Ha. cbn [Z.b2z negb].
    pose proof (bi_count _ _ _ H) as Hc. unfold free_at in Hc. lia.
  - rewrite (bi_total _ _ _ H). lia.
  - apply (bi_regions _ _ _ H).
Qed.

Lemma boot_total_bound regions l s : boot_inv regions l s -> Z.of_nat (length l) <= PHYS_MAX_PAGES.
Proof.
  intros H. rewrite <- (bi_count _ _ _ H). apply countm_free_bound, (bi_dom _ _ _ H).
Qed.

(** One region: every admitted frame is released, once. *)
Lemma free_region_run ke regions n : forall b l s,
  boot_inv regions l s ->
  NoDup (admitted_frames regions ke (page_run b n) ++ l) ->
  Forall (fun i => 0 <= i < PHYS_MAX_PAGES) (admitted_frames regions ke (page_run b n)) ->
  exists s', free_region ke n b s = Ret (tt, s') /\
    boot_inv regions (reverse (admitted_frames regions ke (page_run b n)) ++ l) s' /\
    alloc_pages s' = alloc_pages s.
Proof.
  unfold admitted_frames. induction n as [|n IH]; intros b l s H; [by exists s|].
  rewrite page_run_S, filter_cons. cbn [free_region].
  rewrite (bind_Ret _ _ s regions s) by by rewrite <- (bi_regions _ _ _ H).
  fold (admitted regions ke b). destruct (admitted regions ke b) eqn:E.
  - rewrite decide_True by done. cbn [fmap list_fmap app]. rewrite reverse_cons.
    intros [Hn1 Hn2]%list.NoDup_cons [Hr1 Hr2]%Forall_cons_1.
    destruct (proj2 (bi_dom _ _ _ H (PHYS2PAGE b)) Hr1) as [p Hp].
    assert (boot_inv regions (PHYS2PAGE b :: l) (released (PHYS2PAGE b) s p)) as H'.
    { apply released_inv; [done|done|]. intros Hin. apply Hn1, elem_of_app. by right. }
    destruct (IH (b + 0x1000) _ _ H') as (s' & E' & Hs' & Ha).
    { apply list.NoDup_app. apply list.NoDup_app in Hn2 as (? & Hx & ?). split; [done|]. split.
      - intros x Hx1 [->|Hx2]%elem_of_cons; [apply Hn1, elem_of_app; by left|]. by eapply Hx.
      - apply list.NoDup_cons. split; [|done]. intros Hin. apply Hn1, elem_of_app. by right. }
    { done. }
    exists s'. rewrite <- app_assoc. cbn [app]. split; [|split; [done|by rewrite Ha]].
    rewrite <- E'. pose proof (boot_total_bound _ _ _ H). assert (PHYS_MAX_PAGES < 2 ^ 64 - 1) by done.
    unfold page_at, put_page. run_simpl. rewrite Hp.
    cbn [total_pages set_pages]. rewrite (bi_total _ _ _ H), uwrap_small by lia.
    unfold released. rewrite (bi_total _ _ _ H). done.
  - rewrite decide_False by done. intros Hn Hr.
    rewrite (bind_Ret _ _ s tt s) by done. by apply IH.
Qed.

Lemma page_run_length b n : length (page_run b n) = n.
Proof. unfold page_run. by rewrite length_fmap, length_seqZ, Nat2Z.id. Qed.

Lemma boot_frames_cons regions ke e es :
  boot_frames regions ke (e :: es) =
    admitted_frames regions ke (entry_pages e) ++ boot_frames regions ke es.
Proof. done. Qed.

(** One entry, whatever its kind. *)
Lemma entry_run (s : phys) ke e es d :
  entry_decoded e = Some d ->
  free_regions ke (e :: es) s =
    (match entry_pages e with
     | [] => mret tt
     | a :: _ => free_region ke (length (entry_pages e)) a
     end;; free_regions ke es) s.
Proof.
  intros Hd. cbn [free_regions]. rewrite (bind_Ret _ _ s d s) by by apply mmap_decode_run.
  destruct d as [[kind base] sz]. unfold entry_pages. rewrite Hd. destruct kind; [done|].
  destruct (_ <? _); [|done]. destruct (pages_between _ _) as [|n]; [done|].
  rewrite page_run_length, page_run_S. done.
Qed.

Lemma entry_pages_run e : exists b, entry_pages e = page_run b (length (entry_pages e)).
Proof.
  unfold entry_pages. destruct (entry_decoded e) as [[[[] ?] ?]|]; [by exists 0| |by exists 0].
  case_match; [|by exists 0]. eexists. by rewrite page_run_length.
Qed.

Lemma free_regions_run ke regions es : forall l s,
  boot_inv regions l s ->
  Forall (fun e => is_Some (entry_decoded e)) es ->
  NoDup (boot_frames regions ke es ++ l) ->
  Forall (fun i => 0 <= i < PHYS_MAX_PAGES) (boot_frames regions ke es) ->
  exists s' l', free_regions ke es s = Ret (tt, s') /\ boot_inv regions l' s' /\
    (forall i, i ∈ l' <-> i ∈ boot_frames regions ke es \/ i ∈ l) /\ alloc_pages s' = alloc_pages s.
Proof.
  induction es as [|e es IH]; intros l s H Hd Hn Hr.
  { exists s, l. split; [done|]. split; [done|]. split; [|done]. intros i. cbn. set_solver. }
  apply Forall_cons_1 in Hd as [[d Hd] Hds]. rewrite boot_frames_cons in Hn, Hr.
  rewrite <- app_assoc in Hn. apply Forall_app in Hr as [Hr1 Hr2].
  assert (exists s1, (match entry_pages e with
     | [] => mret tt | a :: _ => free_region ke (length (entry_pages e)) a end) s = Ret (tt, s1) /\
     boot_inv regions (reverse (admitted_frames regions ke (entry_pages e)) ++ l) s1 /\
     alloc_pages s1 = alloc_pages s) as (s1 & E1 & H1 & Ha1).
  { destruct (entry_pages_run e) as [b Hb]. destruct (length (entry_pages e)) as [|n] eqn:El.
    - rewrite Hb. by exists s.
    - destruct (free_region_run ke regions (S n) b l s H) as (s1 & E1 & H1 & Ha1).
      + rewrite <- Hb. apply list.NoDup_app in Hn as (N1 & N2 & N3).
        apply list.NoDup_app in N3 as (? & ? & ?). apply list.NoDup_app.
        split; [done|]. split; [|done]. intros x Hx Hxl. apply (N2 x Hx), elem_of_app. by right.
      + by rewrite <- Hb.
      + exists s1. rewrite Hb. split; [|done]. rewrite page_run_S. done. }
  destruct (IH _ _ H1 Hds) as (s2 & l2 & E2 & H2 & Hl2 & Ha2); [|done|].
  { rewrite reverse_Permutation, app_assoc, (Permutation_app_comm (boot_frames _ _ _)), <- app_assoc.
    done. }
  exists s2, l2. rewrite (entry_run s ke e es d Hd).
  rewrite (bind_Ret _ _ _ _ _ E1). split; [done|]. split; [done|]. split; [|by rewrite Ha2].
  intros i. rewrite Hl2, boot_frames_cons, !elem_of_app, reverse_Permutation. tauto.
Qed.

(** An admitted page above the array faults. *)
Lemma free_region_faults ke regions n : forall b s,
  (forall i, is_Some (mm_pages s !! i) <-> 0 <= i < PHYS_MAX_PAGES) ->
  reserved_regions s = regions -> 0 <= b ->
  Exists (fun i => PHYS_MAX_PAGES <= i) (admitted_frames regions ke (page_run b n)) ->
  free_region ke n b s = Fault.
Proof.
  unfold admitted_frames. induction n as [|n IH]; intros b s Hd Hr Hb; [by intros ?%Exists_nil|].
  rewrite page_run_S, filter_cons. cbn [free_region].
  rewrite (bind_Ret _ _ s regions s) by by rewrite <- Hr.
  fold (admitted regions ke b). destruct (admitted regions ke b) eqn:E.
  - rewrite decide_True by done. cbn [fmap list_fmap].
    destruct (mm_pages s !! PHYS2PAGE b) as [p|] eqn:Hp.
    + intros [Hf|Hf]%Exists_cons.
      { assert (0 <= PHYS2PAGE b < PHYS_MAX_PAGES) by (apply Hd; eauto). lia. }
      unfold page_at, put_page. run_simpl. rewrite Hp. apply IH; [|done|lia|done].
      intros j. cbn. rewrite lookup_insert_is_Some, <- Hd.
      destruct (decide (PHYS2PAGE b = j)) as [<-|]; [|naive_solver].
      split; [intros _; by exists p|by left].
    + intros _. unfold page_at. run_simpl. by rewrite Hp.
  - rewrite decide_False by done. intros Hf.
    rewrite (bind_Ret _ _ s tt s) by done. apply IH; [done|done|lia|done].
Qed.

(** ** Placing the page array *)
Definition run_clear (regions : list (Z * Z)) (a n : Z) : Prop :=
  forall k, 0 <= k < n -> is_reserved regions (a + 0x1000 * k) = false.

(** The search keeps a clear run of [collected] pages that ends at [addr]. *)
Lemma place_run_spec regions req n : forall addr collected base a,
  addr mod 0x1000 = 0 ->
  0 <= collected < req ->
  (collected = 0 /\ base = MM_NADDR \/
   0 < collected /\ base mod 0x1000 = 0 /\ base + 0x1000 * collected = addr /\
   run_clear regions base collected) ->
  place_run regions req n addr collected base = Some a ->
  a mod 0x1000 = 0 /\ addr - 0x1000 * collected <= a /\
  a + 0x1000 * req <= addr + 0x1000 * Z.of_nat n /\ run_clear regions a req.
Proof.
  induction n as [|n IH]; intros addr c base a Hal Hc Hrun; [done|]. cbn [place_run].
  assert ((addr + 0x1000) mod 0x1000 = 0) as Hal' by (rewrite <- Zplus_mod_idemp_r, Z.add_0_r; done).
  destruct (is_reserved regions addr) eqn:Hres.
  - intros (? & ? & ? & ?)%(IH _ _ _ _ Hal'); [|lia|by left].
    split; [done|]. split; [lia|]. split; [lia|done].
  - set (base' := if base =? MM_NADDR then addr else base).
    assert (base' = addr - 0x1000 * c /\ base' mod 0x1000 = 0) as [Hb' Hm'].
    { subst base'. destruct Hrun as [[-> ->]|(? & Hm & ? & ?)].
      - rewrite Z.eqb_refl. split; [lia|done].
      - destruct (Z.eqb_spec base MM_NADDR) as [->|]; [done|]. split; [lia|done]. }
    assert (run_clear regions base' (c + 1)) as Hclear.
    { intros k Hk. destruct (decide (k = c)) as [->|].
      - by replace (base' + 0x1000 * c) with addr by lia.
      - destruct Hrun as [[? ?]|(? & ? & ? & Hr)]; [lia|].
        replace (base' + 0x1000 * k) with (base + 0x1000 * k) by lia. apply Hr. lia. }
    destruct (Z.eqb_spec (c + 1) req) as [Hr|Hr].
    + intros [= <-]. rewrite <- Hr. split; [done|]. split; [lia|]. split; [lia|done].
    + intros (? & ? & ? & ?)%(IH _ _ _ _ Hal').
      * split; [done|]. split; [lia|]. split; [lia|done].
      * lia.
      * right. split; [lia|]. split; [done|]. split; [lia|done].
Qed.

(** The page-aligned part of a usable entry. *)
Definition usable_range (e : mmap_entry) (b t : Z) : Prop :=
  exists base sz, entry_decoded e = Some (MMAP_KIND_USABLE, base, sz) /\
    b = page_begin base /\ t = page_end base sz /\ b < t.

Lemma align_low x : Z.land x (Z.lnot 0xFFF) mod 0x1000 = 0.
Proof.
  change 0xFFF with (Z.ones 12). rewrite land_lnot_ones by lia. change (2 ^ 12) with 0x1000.
  rewrite Zminus_mod_idemp_r, Z.sub_diag. done.
Qed.

Lemma pages_between_fit b t : b mod 0x1000 = 0 -> t mod 0x1000 = 0 -> b < t ->
  b + 0x1000 * Z.of_nat (pages_between b t) = t.
Proof.
  intros Hb Ht Hlt. unfold pages_between. rewrite Z2Nat.id by (apply Z.div_pos; lia).
  pose proof (Z.div_mod (t - b) 0x1000 ltac:(done)) as E.
  assert ((t - b) mod 0x1000 = 0) as Hz by (rewrite Zminus_mod, Hb, Ht; done). lia.
Qed.

Lemma place_mm_pages_spec req es a s s' :
  0 < req -> a <> MM_NADDR -> place_mm_pages es req s = Ret (a, s') ->
  s' = s /\ a mod 0x1000 = 0 /\ run_clear (reserved_regions s) a req /\
  exists e b t, e ∈ es /\ usable_range e b t /\ b <= a /\ a + 0x1000 * req <= t.
Proof.
  intros Hreq Ha. induction es as [|e es IH]; cbn [place_mm_pages].
  { unfold mret, cmd_mret, cret. naive_solver. }
  assert (place_mm_pages es req s = Ret (a, s') ->
    s' = s /\ a mod 0x1000 = 0 /\ run_clear (reserved_regions s) a req /\
    exists e0 b t, e0 ∈ e :: es /\ usable_range e0 b t /\ b <= a /\ a + 0x1000 * req <= t) as IH'.
  { intros (? & ? & ? & e0 & b & t & ? & ?)%IH. split; [done|]. split; [done|]. split; [done|].
    exists e0, b, t. split; [by right|done]. }
  intros (d & s1 & Ed & E)%bind_inv.
  assert (entry_decoded e = Some d /\ s1 = s) as [Hd ->].
  { revert Ed. destruct e as [ty st n|ad len av]; cbn; [|by intros [= <- <-]].
    destruct (efi_kind ty); cbn; [by intros [= <- <-]|done]. }
  destruct d as [[kind base] sz]. rewrite (bind_Ret _ _ s (reserved_regions s) s) in E by done.
  cbn beta iota zeta in E. destruct kind; [by apply IH'|].
  destruct (Z.ltb_spec (page_begin base) (page_end base sz)) as [Hlt|]; [|by apply IH'].
  assert (page_begin base mod 0x1000 = 0 /\ page_end base sz mod 0x1000 = 0) as [Hb Ht]
    by (split; apply align_low).
  destruct (place_run _ req _ _ _ _) as [a'|] eqn:Hp; [|by apply IH'].
  injection E as -> ->. apply place_run_spec in Hp as (? & ? & Hup & ?); [|done|lia|by left].
  rewrite pages_between_fit in Hup by done.
  split; [done|]. split; [done|]. split; [done|].
  exists e, (page_begin base), (page_end base sz). split; [by left|].
  split; [by exists base, sz|]. split; lia.
Qed.

(** ** The whole of [amd64_phys_memory_map] *)
Definition mmap_region (mmap : mm_phys_memory_map) : Z * Z :=
  (MM_PHYS (map_address mmap),
   u64 (MM_PHYS (map_address mmap) + Z.of_nat (length (map_entries mmap)) * map_entry_size mmap)).
Definition array_region (a : Z) : Z * Z := (a, u64 (a + mm_pages_req_count * MM_PAGE_SIZE)).

(** The regions reserved when the frames are handed over. *)
Definition boot_regions mmap a (s : phys) : list (Z * Z) :=
  array_region a :: mmap_region mmap :: reserved_regions s.

(** [place_mm_pages] as the boot code calls it. *)
Definition boot_place (mmap : mm_phys_memory_map) (s : phys) : outcome (Z * phys) :=
  place_mm_pages (map_entries mmap) mm_pages_req_count
    (set_reserved (mmap_region mmap :: reserved_regions s) s).

Definition boot_start mmap a g (s : phys) : phys :=
  set_total 0 (set_pages (boot_pages g) (set_reserved (boot_regions mmap a s) s)).

Lemma boot_prefix ke g mmap a s s0 :
  boot_place mmap s = Ret (a, s0) -> a <> MM_NADDR ->
  amd64_phys_memory_map ke g mmap s =
    (free_regions ke (map_entries mmap);; cmodify (fun s => set_free (total_pages s) s))
      (boot_start mmap a g s).
Proof.
  intros E Ha. unfold amd64_phys_memory_map, mm_phys_reserve.
  assert (0 < mm_pages_req_count) as Hq by done.
  pose proof (place_mm_pages_spec _ _ _ _ _ Hq Ha E) as [-> _].
  rewrite (bind_Ret _ _ s tt (set_reserved (mmap_region mmap :: reserved_regions s) s)) by done.
  unfold boot_place in E. rewrite (bind_Ret _ _ _ _ _ E).
  rewrite bool_decide_eq_true_2 by done. done.
Qed.

Lemma boot_start_inv mmap a g s : boot_inv (boot_regions mmap a s) [] (boot_start mmap a g s).
Proof.
  assert (forall i p, boot_pages g !! i = Some p -> is_alloc p = true) as Ha.
  { intros i p Hp. rewrite boot_pages_lookup in Hp. destruct (decide _) in Hp; [|discriminate Hp].
    apply (inj Some) in Hp. subst p. reflexivity. }
  split; cbn [boot_start set_total set_pages set_reserved mm_pages total_pages reserved_regions].
  - intros i. rewrite boot_pages_lookup. destruct (decide _) as [Hd|Hd].
    + split; intros _; [exact Hd|by eexists].
    + split; [|intros Hx; by destruct (Hd Hx)]. intros [p Hp]. discriminate Hp.
  - intros i. split; [|by intros ?%elem_of_nil]. intros (p & Hp & Hf). cbn in Hp.
    by rewrite (Ha i p Hp) in Hf.
  - intros i p Hp Hf. by rewrite (Ha i p Hp) in Hf.
  - apply countm_0. intros i p Hp. unfold free_at. by rewrite (Ha i p Hp).
  - done.
  - done.
Qed.

(** Frames the boot code frees are aligned, unreserved and above the kernel. *)
Lemma boot_frame_admitted regions ke es i : i ∈ boot_frames regions ke es ->
  admitted regions ke (i * MM_PAGE_SIZE) = true.
Proof.
  unfold boot_frames. intros (l & Hi & (e & -> & _)%list_elem_of_fmap)%list_elem_of_join.
  unfold admitted_frames in Hi.
  apply list_elem_of_fmap in Hi as (x & -> & [Hx Hp]%list_elem_of_filter).
  assert (x mod 0x1000 = 0) as Hm.
  { unfold entry_pages in Hp. destruct (entry_decoded e) as [[[[] base] sz]|]; try by apply elem_of_nil in Hp.
    cbv zeta in Hp. destruct (_ <? _); [|by apply elem_of_nil in Hp].
    unfold page_run in Hp. apply list_elem_of_fmap in Hp as (k & -> & _).
    rewrite Z.mul_comm, Z_mod_plus_full. apply align_low. }
  unfold PHYS2PAGE, MM_PAGE_SIZE. pose proof (Z.div_mod x 0x1000 ltac:(done)).
  by replace (x / 0x1000 * 0x1000) with x by lia.
Qed.

Lemma boot_inv_ok regions l s :
  boot_inv regions l s -> Forall (fun i => LOW_PAGE <= i) l -> (forall u, alloc_pages s u = 0) ->
  phys_ok (set_free (total_pages s) s) ∅.
Proof.
  intros H Hl Ha. split; cbn [set_free mm_pages pages_free alloc_pages total_pages].
  - apply (bi_dom _ _ _ H).
  - intros i p Hp Hf. destruct (bi_wf _ _ _ H i p Hp Hf) as [? ?]. split; [|done].
    rewrite list.Forall_forall in Hl. apply Hl, (bi_free _ _ _ H). by exists p.
  - done.
  - rewrite (bi_count _ _ _ H). apply (bi_total _ _ _ H).
  - intros u. rewrite Ha. symmetry. by apply countm_0.
  - rewrite map_size_empty. lia.
  - rewrite (bi_total _ _ _ H). by eapply boot_total_bound.
Qed.

Lemma boot_run ke g mmap a s s0 :
  boot_place mmap s = Ret (a, s0) -> a <> MM_NADDR ->
  Forall (fun e => is_Some (entry_decoded e)) (map_entries mmap) ->
  NoDup (boot_frames (boot_regions mmap a s) ke (map_entries mmap)) ->
  Forall (fun i => LOW_PAGE <= i < PHYS_MAX_PAGES)
    (boot_frames (boot_regions mmap a s) ke (map_entries mmap)) ->
  (forall u, alloc_pages s u = 0) ->
  exists s', amd64_phys_memory_map ke g mmap s = Ret (tt, s') /\ phys_ok s' ∅ /\
    forall i, is_free s' i <-> i ∈ boot_frames (boot_regions mmap a s) ke (map_entries mmap).
Proof.
  intros E Ha Hd Hn Hr Hz. rewrite (boot_prefix ke g mmap a s s0 E Ha).
  destruct (free_regions_run ke _ (map_entries mmap) [] _ (boot_start_inv mmap a g s) Hd)
    as (s1 & l & E1 & H1 & Hl & Hal).
  { by rewrite app_nil_r. }
  { eapply list.Forall_impl; [exact Hr|]. cbn. intros i Hi. pose proof low_max. lia. }
  rewrite (bind_Ret _ _ _ _ _ E1). eexists. split; [done|].
  assert (forall i, i ∈ l <-> i ∈ boot_frames (boot_regions mmap a s) ke (map_entries mmap)) as Hl'
    by set_solver.
  split.
  - eapply boot_inv_ok; [done| |intros u; rewrite Hal; apply Hz]. apply list.Forall_forall.
    intros i Hi%Hl'. rewrite list.Forall_forall in Hr. by apply Hr.
  - intros i. rewrite <- Hl'. apply (bi_free _ _ _ H1).
Qed.

(** ** Sample states

    A machine on which exactly the frames [l] are free. *)
Definition no_garbage (_ : Z) : page_usage := PU_UNKNOWN.
Definition phys_zero : phys := mk_phys ∅ 0 0 (fun _ => 0) [].
Definition free_page : page := mk_page 0 PU_UNKNOWN 0.
Definition phys_many (l : list Z) : phys :=
  mk_phys (foldr (fun k m => <[k:=free_page]> m) (boot_pages no_garbage) l)
    (Z.of_nat (length l)) (Z.of_nat (length l)) (fun _ => 0) [].
Definition phys_one (k : Z) : phys := phys_many [k].

Lemma boot_pages_alloc g i p : boot_pages g !! i = Some p -> p = mk_page PG_ALLOC (g i) (2 ^ 64 - 1).
Proof.
  intros Hp. rewrite boot_pages_lookup in Hp. destruct (decide _) in Hp; [|discriminate Hp].
  by apply (inj Some) in Hp.
Qed.

Lemma phys_many_lookup l i : i ∉ l -> mm_pages (phys_many l) !! i = boot_pages no_garbage !! i.
Proof.
  cbn [phys_many mm_pages]. induction l as [|k l IH]; [done|]. intros [Hk Hl]%not_elem_of_cons. cbn [foldr].
  rewrite lookup_insert_ne by done. by apply IH.
Qed.

Lemma boot_inv_same regions regions' l s s' :
  boot_inv regions l s -> mm_pages s' = mm_pages s -> total_pages s' = total_pages s ->
  reserved_regions s' = regions' -> boot_inv regions' l s'.
Proof.
  intros [H1 H2 H3 H4 H5 H6] Em Et Er. unfold is_free in H2.
  split; unfold is_free; rewrite ?Em, ?Et; assumption.
Qed.

Lemma phys_many_inv l : NoDup l -> Forall (fun k => LOW_PAGE <= k < PHYS_MAX_PAGES) l ->
  boot_inv [] l (phys_many l).
Proof.
  induction l as [|k l IH]; intros Hn Hl.
  - pose proof (boot_start_inv (mk_mmap 0 0 []) 0 no_garbage phys_zero) as H.
    by eapply boot_inv_same; [exact H|..].
  - apply list.NoDup_cons in Hn as [Hk Hn]. apply Forall_cons_1 in Hl as [Hr Hl].
    pose proof (boot_pages_lookup no_garbage k) as Hp.
    rewrite decide_True in Hp by (pose proof low_max; lia). rewrite <- (phys_many_lookup l k Hk) in Hp.
    pose proof (released_inv [] l _ k _ (IH Hn Hl) Hp Hk) as H.
    eapply boot_inv_same; [exact H|done| |done]. cbn [phys_many released set_total total_pages length]. lia.
Qed.

Lemma phys_many_ok l : NoDup l -> Forall (fun k => LOW_PAGE <= k < PHYS_MAX_PAGES) l ->
  phys_ok (phys_many l) ∅.
Proof.
  intros Hn Hl. eapply (boot_inv_ok [] l (phys_many l)); [by apply phys_many_inv| |done].
  eapply list.Forall_impl; [exact Hl|]. cbn. lia.
Qed.

Lemma phys_many_free l i : NoDup l -> Forall (fun k => LOW_PAGE <= k < PHYS_MAX_PAGES) l ->
  is_free (phys_many l) i <-> i ∈ l.
Proof. intros Hn Hl. apply (bi_free _ _ _ (phys_many_inv l Hn Hl)). Qed.

Lemma phys_one_ok k : LOW_PAGE <= k < PHYS_MAX_PAGES -> phys_ok (phys_one k) ∅.
Proof. intros Hk. apply phys_many_ok; [apply NoDup_singleton|]. by apply Forall_singleton. Qed.

Lemma phys_one_free k i : LOW_PAGE <= k < PHYS_MAX_PAGES -> is_free (phys_one k) i -> i = k.
Proof.
  intros Hk Hf. apply list_elem_of_singleton.
  apply (proj1 (phys_many_free [k] i (NoDup_singleton k) (proj2 (Forall_singleton _ k) Hk))), Hf.
Qed.

Lemma frame_300 : LOW_PAGE <= 300 < PHYS_MAX_PAGES.
Proof. by split. Qed.

(** ** Claims *)

(** [mm_phys_alloc_page] always returns; it returns [MM_NADDR] exactly when the
    free counter is zero, leaving the state alone, and otherwise the lowest free
    frame, which nobody owned, is now owned for the requested usage, with every
    counter of the allocator still agreeing with the page array. *)
Theorem phys_alloc_page_lowest s o pu :
  phys_ok s o -> pu <> PU_UNKNOWN ->
  exists addr s', mm_phys_alloc_page pu s = Ret (addr, s') /\
    (addr = MM_NADDR <-> pages_free s = 0) /\
    (pages_free s = 0 -> s' = s) /\
    (pages_free s <> 0 -> exists k, addr = k * MM_PAGE_SIZE /\ LOW_PAGE <= k < PHYS_MAX_PAGES /\
       is_free s k /\ (forall j, j < k -> ~ is_free s j) /\ o !! k = None /\
       phys_ok s' (<[k:=pu]> o)).
Proof.
  intros H Hpu. destruct (alloc_page_run s o pu H Hpu) as [(E & Hz & _)|(k & p & E & Hp & Hf & Hlow)].
  - exists MM_NADDR, s. by split.
  - assert (is_free s k) as Hk by by exists p.
    pose proof (free_pages_pos _ _ _ H Hk). pose proof (free_range _ _ _ H Hk).
    exists (k * MM_PAGE_SIZE), (claim pu k p s). split; [done|].
    assert (PHYS_MAX_PAGES * MM_PAGE_SIZE < MM_NADDR) by done.
    split; [unfold MM_PAGE_SIZE in *; lia|]. split; [lia|]. intros _. exists k.
    split; [done|]. split; [done|]. split; [done|]. split; [done|].
    split; [by apply (free_not_owned s)|by apply claim_ok].
Qed.

Lemma phys_alloc_page_lowest_witness :
  exists addr s', mm_phys_alloc_page PU_KERNEL (phys_one 300) = Ret (addr, s') /\ addr = 300 * MM_PAGE_SIZE.
Proof.
  destruct (phys_alloc_page_lowest (phys_one 300) ∅ PU_KERNEL) as (a & s' & E & _ & _ & Hk).
  - by apply phys_one_ok.
  - done.
  - destruct Hk as (k & -> & _ & Hf & _); [done|].
    pose proof (phys_one_free 300 k frame_300 Hf) as ->.
    exists (300 * MM_PAGE_SIZE), s'. split; [exact E|reflexivity].
Defined.

(** [mm_phys_free_page] on a frame that was handed out and is no longer mapped
    makes it free again and decrements the counter of its usage, keeping the
    invariant; a frame that is still referenced, or that is already free (a double
    free), stops in an assertion. *)
Theorem phys_free_page_checks s o i p :
  phys_ok s o -> mm_pages s !! i = Some p ->
  (pg_refcount p <> 0 -> mm_phys_free_page (i * MM_PAGE_SIZE) s = Panic) /\
  (is_alloc p = false -> mm_phys_free_page (i * MM_PAGE_SIZE) s = Panic) /\
  (forall u, o !! i = Some u -> LOW_PAGE <= i -> pg_refcount p = 0 ->
     exists s', mm_phys_free_page (i * MM_PAGE_SIZE) s = Ret (tt, s') /\
       phys_ok s' (delete i o) /\ is_free s' i /\
       pages_free s' = pages_free s + 1 /\ alloc_pages s' u = alloc_pages s u - 1).
Proof.
  intros H Hp. assert (PHYS2PAGE (i * MM_PAGE_SIZE) = i) as Hi by (by apply Z.div_mul).
  split; [|split].
  - intros Hr. unfold mm_phys_free_page, page_at. rewrite Hi.
    rewrite (bind_Ret _ _ s p s) by by apply load_Some. by rewrite bool_decide_eq_false_2.
  - intros Hf. unfold mm_phys_free_page, page_at. rewrite Hi.
    rewrite (bind_Ret _ _ s p s) by by apply load_Some.
    destruct (ok_free _ _ H _ _ Hp Hf) as (_ & _ & Hr).
    rewrite bool_decide_eq_true_2 by done. by rewrite Hf.
  - intros u Ho Hlow Hr. rewrite (free_page_run s o i u p _ H Ho Hi Hp Hr). eexists. split; [done|].
    destruct (ok_owned _ _ H _ _ Ho) as (q & Hq & _ & Hu). assert (q = p) as -> by congruence.
    split; [by eapply unclaim_ok|]. split; [|split; [done|]].
    + eexists. cbn [unclaim mm_pages]. rewrite lookup_insert_eq. split; [done|apply is_alloc_clear].
    + cbn [unclaim alloc_pages]. rewrite Hu. by rewrite decide_True.
Qed.

Lemma phys_free_page_checks_witness :
  mm_phys_free_page (300 * MM_PAGE_SIZE) (phys_one 300) = Panic.
Proof.
  pose proof (phys_free_page_checks (phys_one 300) ∅ 300 (mk_page 0 PU_UNKNOWN 0)
    (phys_one_ok 300 ltac:(by split)) (lookup_insert_eq _ _ _)) as (_ & H & _).
  apply H. reflexivity.
Defined.

(** Allocating a frame and freeing it gives back the page array and every
    counter as they were. *)
Theorem phys_alloc_free_roundtrip s o pu addr s1 :
  phys_ok s o -> pu <> PU_UNKNOWN ->
  mm_phys_alloc_page pu s = Ret (addr, s1) -> addr <> MM_NADDR ->
  exists s2, mm_phys_free_page addr s1 = Ret (tt, s2) /\ mm_pages s2 = mm_pages s /\
    pages_free s2 = pages_free s /\ total_pages s2 = total_pages s /\
    forall u, alloc_pages s2 u = alloc_pages s u.
Proof.
  intros H Hpu E Ha. destruct (alloc_page_run s o pu H Hpu) as [(E' & _)|(k & p & E' & Hp & Hf & _)].
  { congruence. }
  rewrite E in E'. injection E' as -> ->.
  destruct (ok_free _ _ H _ _ Hp Hf) as (Hlow & Hu & Hr).
  rewrite (free_page_run _ (<[k:=pu]> o) k pu (mk_page (Z.lor (pg_flags p) PG_ALLOC) pu (pg_refcount p))).
  - eexists. split; [done|]. cbn [unclaim claim mm_pages pages_free total_pages alloc_pages pg_flags pg_usage pg_refcount].
    split; [|split; [lia|split; [done|]]].
    + rewrite alloc_bit_set_clear by done. rewrite insert_insert_eq, <- Hu.
      apply insert_id. by destruct p.
    + intros u. destruct (decide (u = pu)) as [->|]; [|done]. rewrite decide_True by done. lia.
  - by apply claim_ok.
  - apply lookup_insert_eq.
  - by apply Z.div_mul.
  - apply lookup_insert_eq.
  - done.
Qed.

Lemma phys_alloc_free_roundtrip_witness :
  exists s1 s2, mm_phys_alloc_page PU_PRIVATE (phys_one 300) = Ret (300 * MM_PAGE_SIZE, s1) /\
    mm_phys_free_page (300 * MM_PAGE_SIZE) s1 = Ret (tt, s2) /\ pages_free s2 = 1.
Proof.
  assert (phys_ok (phys_one 300) ∅) as H by by apply phys_one_ok.
  destruct (alloc_page_run _ _ PU_PRIVATE H) as [(_ & ? & _)|(k & p & E & Hp & Hf & _)]; [done|done|].
  assert (is_free (phys_one 300) k) as Hk by (exists p; split; [exact Hp|exact Hf]).
  pose proof (phys_one_free 300 k frame_300 Hk) as ->.
  assert (PU_PRIVATE <> PU_UNKNOWN) as Hu by discriminate.
  assert (300 * MM_PAGE_SIZE <> MM_NADDR) as Hn by discriminate.
  destruct (phys_alloc_free_roundtrip _ _ _ _ _ H Hu E Hn) as (s2 & E2 & _ & Hfree & _).
  exists (claim PU_PRIVATE 300 p (phys_one 300)), s2.
  split; [exact E|]. split; [exact E2|exact Hfree].
Defined.

(** [mm_phys_alloc_contiguous] returns the lowest run of [count] free frames
    that starts below frame [PHYS_MAX_PAGES - count], marking all of it (and nothing
    else) as owned, or [MM_NADDR] with the state unchanged when no such run exists.
    (A run that ends at the last frame of the array starts at
    [PHYS_MAX_PAGES - count] and is never tried.) *)
Theorem phys_contiguous_first_fit s o pu count :
  phys_ok s o -> 0 <= count <= PHYS_MAX_PAGES - LOW_PAGE ->
  (mm_phys_alloc_contiguous count pu s = Ret (MM_NADDR, s) /\
     forall j, LOW_PAGE <= j < PHYS_MAX_PAGES - count -> ~ run_free s j count) \/
  (exists k s' o', mm_phys_alloc_contiguous count pu s = Ret (k * MM_PAGE_SIZE, s') /\
     LOW_PAGE <= k < PHYS_MAX_PAGES - count /\ run_free s k count /\
     (forall j, LOW_PAGE <= j < k -> ~ run_free s j count) /\
     (forall j, o' !! j = if decide (k <= j < k + count) then Some pu else o !! j) /\
     phys_ok s' o' /\ pages_free s' = pages_free s - count).
Proof.
  intros H Hc. pose proof low_max as Hlm. assert (PHYS_MAX_PAGES < 2 ^ 64) by done.
  unfold mm_phys_alloc_contiguous. rewrite uwrap_small by lia.
  destruct (contiguous_scan_run s o pu (Z.to_nat count) (Z.to_nat (PHYS_MAX_PAGES - count - LOW_PAGE))
    LOW_PAGE H) as [[-> Hno]|(k & s' & -> & Hk & Hr & Hno & Hok & Hf)]; [lia|lia| |].
  - left. split; [done|]. intros j Hj. specialize (Hno j). rewrite !Z2Nat.id in Hno by lia.
    apply Hno. lia.
  - right. exists k, s', (own_run pu k (Z.to_nat count) o).
    rewrite Z2Nat.id in Hr, Hf, Hno by lia. split; [done|]. split; [lia|]. split; [done|].
    split; [exact Hno|]. split; [|by split].
    intros j. rewrite own_run_lookup, Z2Nat.id by lia. done.
Qed.

Lemma phys_contiguous_first_fit_witness :
  mm_phys_alloc_contiguous 1 PU_KERNEL (phys_one (PHYS_MAX_PAGES - 1)) =
    Ret (MM_NADDR, phys_one (PHYS_MAX_PAGES - 1)).
Proof.
  assert (phys_ok (phys_one (PHYS_MAX_PAGES - 1)) ∅) as H by (apply phys_one_ok; by split).
  assert (0 <= 1 <= PHYS_MAX_PAGES - LOW_PAGE) as Hc by by split.
  destruct (phys_contiguous_first_fit _ _ PU_KERNEL 1 H Hc) as [[E _]|(k & s' & o' & _ & Hk & Hr & _)].
  - exact E.
  - exfalso. assert (is_free (phys_one (PHYS_MAX_PAGES - 1)) k) as Hf by (apply (Hr k); clear; lia).
    assert (LOW_PAGE <= PHYS_MAX_PAGES - 1 < PHYS_MAX_PAGES) as Hl by (by split).
    pose proof (phys_one_free (PHYS_MAX_PAGES - 1) k Hl Hf) as Ek. clear - Ek Hk. lia.
Defined.

(** C21: When the memory map decodes, its admitted frames are distinct, lie above the
    low megabyte and below 1 GiB, and there is room for the page array, then
    [amd64_phys_memory_map] returns and establishes the allocator's invariant with
    nothing handed out: the free frames are exactly the frames of the usable entries
    that are above the kernel image and outside every reserved region, the page array
    lies inside one usable entry, clear of the regions reserved before it, and
    neither it nor the memory map table is ever free. *)
Theorem phys_boot_establishes ke g mmap a s s0 :
  boot_place mmap s = Ret (a, s0) -> a <> MM_NADDR ->
  Forall (fun e => is_Some (entry_decoded e)) (map_entries mmap) ->
  NoDup (boot_frames (boot_regions mmap a s) ke (map_entries mmap)) ->
  Forall (fun i => LOW_PAGE <= i < PHYS_MAX_PAGES)
    (boot_frames (boot_regions mmap a s) ke (map_entries mmap)) ->
  (forall u, alloc_pages s u = 0) ->
  exists s', amd64_phys_memory_map ke g mmap s = Ret (tt, s') /\ phys_ok s' ∅ /\
    (forall i, is_free s' i <-> i ∈ boot_frames (boot_regions mmap a s) ke (map_entries mmap)) /\
    (forall i b e, is_free s' i -> (b, e) ∈ boot_regions mmap a s ->
       ~ b <= i * MM_PAGE_SIZE < e) /\
    (exists e b t, e ∈ map_entries mmap /\ usable_range e b t /\
       b <= a /\ a + 0x1000 * mm_pages_req_count <= t) /\
    run_clear (mmap_region mmap :: reserved_regions s) a mm_pages_req_count.
Proof.
  intros E Ha Hd Hn Hr Hz. destruct (boot_run ke g mmap a s s0 E Ha Hd Hn Hr Hz) as (s' & Es & Hok & Hf).
  exists s'. split; [done|]. split; [done|]. split; [done|].
  assert (0 < mm_pages_req_count) as Hq by done.
  pose proof (place_mm_pages_spec _ _ _ _ _ Hq Ha E) as (_ & _ & Hclear & Hfit).
  split; [|by split]. intros i b e Hi Hin Hbe.
  apply Hf, boot_frame_admitted in Hi. unfold admitted in Hi.
  apply andb_prop in Hi as [Hres%negb_true_iff _].
  assert (is_reserved (boot_regions mmap a s) (i * MM_PAGE_SIZE) = true) as Hx; [|congruence].
  apply existsb_exists. exists (b, e). split; [by apply list_elem_of_In|].
  apply andb_true_intro. split; [apply Z.leb_le|apply Z.ltb_lt]; lia.
Qed.

(** Sample memory map: one usable entry at 16 MiB, [n] pages longer than the page
    array; the kernel ends at 2 MiB and the table lies below it. *)
Definition sample_kernel_end : Z := KERNEL_VIRT_BASE + 0x200000.
Definition sample_mmap (len : Z) : mm_phys_memory_map :=
  mk_mmap (KERNEL_VIRT_BASE + 0x1F0000) 24 [Mb2Entry 0x1000000 len true].

Lemma phys_boot_establishes_witness :
  exists s', amd64_phys_memory_map sample_kernel_end no_garbage (sample_mmap 0x602000) phys_zero =
    Ret (tt, s') /\ is_free s' 0x1601 /\ ~ is_free s' 0x1000.
Proof.
  destruct (phys_boot_establishes sample_kernel_end no_garbage (sample_mmap 0x602000) 0x1000000 phys_zero
    (set_reserved [mmap_region (sample_mmap 0x602000)] phys_zero)) as (s' & E & _ & Hf & _).
  - vm_compute. reflexivity.
  - discriminate.
  - repeat constructor. eexists. reflexivity.
  - apply (bool_decide_unpack _). vm_compute. exact I.
  - apply (bool_decide_unpack _). vm_compute. exact I.
  - reflexivity.
  - exists s'. split; [exact E|]. split.
    + apply (proj2 (Hf 0x1601)), (bool_decide_unpack _). vm_compute. exact I.
    + intros Hx%(proj1 (Hf 0x1000)). revert Hx. apply (bool_decide_unpack _). vm_compute. exact I.
Defined.

(** A memory map with one usable page at or above 1 GiB (outside the reserved
    regions) makes the boot code write past the end of the page array: nothing
    checks the frame number against [PHYS_MAX_PAGES]. *)
Theorem phys_boot_above_array_faults ke g mmap base len a s s0 :
  map_entries mmap = [Mb2Entry base len true] ->
  boot_place mmap s = Ret (a, s0) -> a <> MM_NADDR ->
  Exists (fun i => PHYS_MAX_PAGES <= i) (boot_frames (boot_regions mmap a s) ke (map_entries mmap)) ->
  amd64_phys_memory_map ke g mmap s = Fault.
Proof.
  intros Hm E Ha. rewrite (boot_prefix ke g mmap a s s0 E Ha), Hm.
  rewrite boot_frames_cons, app_nil_r. intros Hex.
  pose proof (boot_start_inv mmap a g s) as H.
  cbv [mbind cmd_mbind cbind]. erewrite entry_run by reflexivity.
  unfold mbind, cmd_mbind, cbind.
  assert (0 <= page_begin base) as Hpb.
  { unfold page_begin. change 0xFFF with (Z.ones 12). rewrite land_lnot_ones by lia.
    pose proof (uwrap_range 64 (base + Z.ones 12)). set (x := uwrap _ _) in *.
    pose proof (Z.mod_le x (2 ^ 12)). lia. }
  assert (entry_pages (Mb2Entry base len true) =
    page_run (page_begin base) (length (entry_pages (Mb2Entry base len true)))) as Hp.
  { unfold entry_pages, entry_decoded. destruct (_ <? _); [|done]. by rewrite page_run_length. }
  destruct (length (entry_pages _)) as [|n]; rewrite Hp in Hex |- *; [by apply Exists_nil in Hex|].
  rewrite page_run_S.
  rewrite (free_region_faults ke (boot_regions mmap a s)); [done|apply (bi_dom _ _ _ H)|
    apply (bi_regions _ _ _ H)|done|done].
Qed.

Lemma phys_boot_above_array_faults_witness :
  amd64_phys_memory_map sample_kernel_end no_garbage
    (mk_mmap (KERNEL_VIRT_BASE + 0x1F0000) 24 [Mb2Entry 0x3FA00000 0x602000 true]) phys_zero = Fault.
Proof.
  apply (phys_boot_above_array_faults _ _ _ 0x3FA00000 0x602000 0x3FA00000 phys_zero
    (set_reserved [mmap_region (sample_mmap 0x602000)] phys_zero)).
  - reflexivity.
  - vm_compute. reflexivity.
  - discriminate.
  - apply (bool_decide_unpack _). vm_compute. exact I.
Defined.
