(* ===== verification/Paging.v ===== *)
(** * Page tables: [arch/amd64/mm/map.c], [arch/amd64/mm/vmalloc.c] and the table
      pool of [arch/amd64/mm/phys.c]

    The state is the physical page allocator and the paging structures in memory:
    [vm_tables] holds, by physical address, each 4 KiB frame the code uses as a table
    of 512 entries.  A table pointer is a virtual address in the direct map; reading
    through a pointer to a frame that holds no table is a fault. *)

From S2P Require Import Prelude Defs Phys.

(** ** Constants of [include/arch/amd64/mm/mm.h] *)
Definition MM_PTE_INDEX_MASK : Z := 0x1FF.
Definition MM_PTE_COUNT : Z := 512.
Definition MM_PTI_SHIFT : Z := 12.
Definition MM_PDI_SHIFT : Z := 21.
Definition MM_PDPTI_SHIFT : Z := 30.
Definition MM_PML4I_SHIFT : Z := 39.
Definition MM_PAGE_PRESENT : Z := 2 ^ 0.
Definition MM_PAGE_WRITE : Z := 2 ^ 1.
Definition MM_PAGE_USER : Z := 2 ^ 2.
Definition MM_PAGE_HUGE : Z := 2 ^ 7.
Definition MM_PAGE_NOEXEC : Z := 2 ^ 63.
Definition MM_PTE_FLAGS_MASK : Z := Z.lor 0xFFF MM_PAGE_NOEXEC.
(** [~MM_PTE_FLAGS_MASK] in 64 bits. *)
Definition MM_PTE_MASK : Z := 2 ^ 64 - 1 - MM_PTE_FLAGS_MASK.
Definition MM_PAGE_MASK : Z := 2 ^ 64 - 0x1000.
Definition MM_PAGE_OFFSET_MASK : Z := 0xFFF.
Definition MM_PAGE_L2_OFFSET_MASK : Z := 2 ^ MM_PDI_SHIFT - 1.
Definition MM_PAGE_L3_OFFSET_MASK : Z := 2 ^ MM_PDPTI_SHIFT - 1.
Definition AMD64_MM_STRIPSX (a : Z) : Z := Z.land a 0xFFFFFFFFFFFF.
Definition AMD64_PML4I_USER_END : Z := 255.
Definition MM_CLONE_FLG_KERNEL : Z := 1.
Definition MM_CLONE_FLG_USER : Z := 2.

(** ** State *)
Record vm := mk_vm { vm_phys : phys; vm_tables : gmap Z (list Z) }.
Definition set_phys p s := mk_vm p (vm_tables s).
Definition set_tables t s := mk_vm (vm_phys s) t.
Definition on_phys {A} (m : cmd phys A) : cmd vm A := czoom vm_phys set_phys m.

(** [t[i]] and [t[i] = e] for a table pointer [t]. *)
Definition pte_get (t i : Z) : cmd vm Z :=
  cload (fun s => vm_tables s !! MM_PHYS t ≫= fun l => l !! Z.to_nat i).
Definition pte_set (t i e : Z) : cmd vm unit :=
  l ← cload (fun s => vm_tables s !! MM_PHYS t);
  _ ← cload (fun _ => l !! Z.to_nat i);
  cmodify (fun s => set_tables (<[MM_PHYS t := <[Z.to_nat i := e]> l]> (vm_tables s)) s).

Definition has (flag e : Z) : bool := negb (Z.land e flag =? 0).

(** [memset(t, b, MM_PAGE_SIZE)] on the frame a table pointer names. *)
Definition table_fill (t e : Z) : cmd vm unit :=
  cmodify (fun s => set_tables (<[MM_PHYS t := replicate (Z.to_nat MM_PTE_COUNT) e]> (vm_tables s)) s).

(** ** The table pool *)
Definition amd64_mm_pool_alloc : cmd vm Z :=
  ptr ← on_phys (mm_phys_alloc_page PU_PAGING);
  cassert (bool_decide (ptr ≠ MM_NADDR));;
  let table := MM_VIRTUALIZE ptr in
  table_fill table 0;;
  mret table.

Definition amd64_mm_pool_free (p : Z) : cmd vm unit :=
  table_fill p (2 ^ 64 - 1);;
  on_phys (mm_phys_free_page (MM_PHYS p)).

(** ** Address decomposition *)
Definition index_at (shift v : Z) : Z := Z.land (Z.shiftr v shift) MM_PTE_INDEX_MASK.
Definition pml4_index := index_at MM_PML4I_SHIFT.
Definition pdpt_index := index_at MM_PDPTI_SHIFT.
Definition pd_index := index_at MM_PDI_SHIFT.
Definition pt_index := index_at MM_PTI_SHIFT.

(** ** Translation *)
Definition mm_map_get (pml4 vaddr : Z) : cmd vm (Z * option Z) :=
  let vaddr := AMD64_MM_STRIPSX vaddr in
  let pti := pt_index vaddr in
  e4 ← pte_get pml4 (pml4_index vaddr);
  if negb (has MM_PAGE_PRESENT e4) then mret (MM_NADDR, None)
  else if has MM_PAGE_HUGE e4 then cpanic
  else
  let pdpt := MM_VIRTUALIZE (Z.land e4 MM_PTE_MASK) in
  e3 ← pte_get pdpt (pdpt_index vaddr);
  if negb (has MM_PAGE_PRESENT e3) then mret (MM_NADDR, None)
  else if has MM_PAGE_HUGE e3 then
    mret (Z.lor (Z.land e3 MM_PTE_MASK) (Z.land vaddr MM_PAGE_L3_OFFSET_MASK), None)
  else
  let pd := MM_VIRTUALIZE (Z.land e3 MM_PTE_MASK) in
  e2 ← pte_get pd (pd_index vaddr);
  if negb (has MM_PAGE_PRESENT e2) then mret (MM_NADDR, None)
  else if has MM_PAGE_HUGE e2 then
    e2' ← pte_get pd pti;
    mret (Z.lor (Z.land e2' MM_PTE_MASK) (Z.land vaddr MM_PAGE_L2_OFFSET_MASK), None)
  else
  let pt := MM_VIRTUALIZE (Z.land e2 MM_PTE_MASK) in
  e1 ← pte_get pt pti;
  if negb (has MM_PAGE_PRESENT e1) then mret (MM_NADDR, None)
  else mret (Z.lor (Z.land e1 MM_PTE_MASK) (Z.land vaddr MM_PAGE_OFFSET_MASK),
             Some (Z.land e1 MM_PTE_FLAGS_MASK)).

(** [PHYS2PAGE(a)->refcount], read and changed by one. *)
Definition page_refcount_inc (a : Z) : cmd vm unit :=
  on_phys (pg ← page_at (PHYS2PAGE a);
           put_page (PHYS2PAGE a) (mk_page (pg_flags pg) (pg_usage pg) (u64 (pg_refcount pg + 1)))).
Definition page_refcount_dec (a : Z) : cmd vm unit :=
  on_phys (pg ← page_at (PHYS2PAGE a);
           cassert (bool_decide (pg_refcount pg ≠ 0));;
           put_page (PHYS2PAGE a) (mk_page (pg_flags pg) (pg_usage pg) (pg_refcount pg - 1))).

(** ** Unmapping one page *)
Definition mm_umap_single (pml4 vaddr : Z) : cmd vm Z :=
  let vaddr := AMD64_MM_STRIPSX vaddr in
  e4 ← pte_get pml4 (pml4_index vaddr);
  if negb (has MM_PAGE_PRESENT e4) then mret MM_NADDR
  else if has MM_PAGE_HUGE e4 then cpanic
  else
  let pdpt := MM_VIRTUALIZE (Z.land e4 MM_PTE_MASK) in
  e3 ← pte_get pdpt (pdpt_index vaddr);
  if negb (has MM_PAGE_PRESENT e3) then mret MM_NADDR
  else if has MM_PAGE_HUGE e3 then cpanic
  else
  let pd := MM_VIRTUALIZE (Z.land e3 MM_PTE_MASK) in
  e2 ← pte_get pd (pd_index vaddr);
  if negb (has MM_PAGE_PRESENT e2) then mret MM_NADDR
  else if has MM_PAGE_HUGE e2 then cpanic
  else
  let pt := MM_VIRTUALIZE (Z.land e2 MM_PTE_MASK) in
  e1 ← pte_get pt (pt_index vaddr);
  if negb (has MM_PAGE_PRESENT e1) then mret MM_NADDR
  else
    let old := Z.land e1 MM_PTE_MASK in
    pte_set pt (pt_index vaddr) 0;;
    page_refcount_dec old;;
    mret old.

(** ** Mapping one page *)

(** One level of [mm_map_single]: the next table, allocated when absent. *)
Definition next_table (t i : Z) : cmd vm Z :=
  e ← pte_get t i;
  if negb (has MM_PAGE_PRESENT e) then
    n ← amd64_mm_pool_alloc;
    cassert (bool_decide (n ≠ 0));;
    pte_set t i (Z.lor (Z.lor (Z.lor (MM_PHYS n) MM_PAGE_PRESENT) MM_PAGE_USER) MM_PAGE_WRITE);;
    mret n
  else mret (MM_VIRTUALIZE (Z.land e MM_PTE_MASK)).

Definition mm_map_single (pml4 virt_addr phys flags : Z) : cmd vm Z :=
  let virt_addr := AMD64_MM_STRIPSX virt_addr in
  pdpt ← next_table pml4 (pml4_index virt_addr);
  pd ← next_table pdpt (pdpt_index virt_addr);
  pt ← next_table pd (pd_index virt_addr);
  e1 ← pte_get pt (pt_index virt_addr);
  cassert (negb (has MM_PAGE_PRESENT e1));;
  page_refcount_inc phys;;
  pte_set pt (pt_index virt_addr)
    (Z.lor (Z.lor (Z.land phys MM_PAGE_MASK) (Z.land flags MM_PTE_FLAGS_MASK)) MM_PAGE_PRESENT);;
  mret 0.

(** ** Whole address spaces *)

(** [for (i = from; i < from + n; ++i) body(i)] *)
Fixpoint for_range {S} (body : Z -> cmd S unit) (n : nat) (i : Z) : cmd S unit :=
  match n with
  | O => mret tt
  | S n => body i;; for_range body n (i + 1)
  end.
Definition for_ptes (body : Z -> cmd vm unit) : cmd vm unit := for_range body (Z.to_nat MM_PTE_COUNT) 0.

Definition mm_space_clone (dst_pml4 src_pml4 flags : Z) : cmd vm Z :=
  if has MM_CLONE_FLG_USER flags then cpanic
  else
    (if has MM_CLONE_FLG_KERNEL flags then
       for_range (fun i => e ← pte_get src_pml4 i; pte_set dst_pml4 i e)
         (Z.to_nat (MM_PTE_COUNT - AMD64_PML4I_USER_END)) AMD64_PML4I_USER_END
     else mret tt);;
    mret 0.

(** The body of the innermost loop of [mm_space_fork]. *)
Definition fork_pte (src_pt dst_pt pti : Z) : cmd vm unit :=
  e ← pte_get src_pt pti;
  if negb (has MM_PAGE_PRESENT e) then mret tt
  else
    let src_page_phys := Z.land e MM_PTE_MASK in
    pg ← on_phys (page_at (PHYS2PAGE src_page_phys));
    cassert (bool_decide (pg_refcount pg ≠ 0));;
    if has MM_PAGE_WRITE e && bool_decide (pg_usage pg = PU_PRIVATE) then
      let access := Z.land e (Z.land MM_PTE_FLAGS_MASK (2 ^ 64 - 1 - MM_PAGE_WRITE)) in
      pte_set dst_pt pti (Z.lor src_page_phys access);;
      pte_set src_pt pti (Z.land e (2 ^ 64 - 1 - MM_PAGE_WRITE));;
      page_refcount_inc src_page_phys
    else
      pte_set dst_pt pti (Z.lor src_page_phys (Z.land e MM_PTE_FLAGS_MASK));;
      page_refcount_inc src_page_phys.

(** One entry of a directory level: copy the flags to a fresh table and go on with
    [sub] on the two tables below. *)
Definition fork_dir (sub : Z -> Z -> cmd vm unit) (src dst i : Z) : cmd vm unit :=
  e ← pte_get src i;
  if negb (has MM_PAGE_PRESENT e) then mret tt
  else if has MM_PAGE_HUGE e then cpanic
  else
    let src_sub := MM_VIRTUALIZE (Z.land e MM_PTE_MASK) in
    dst_sub ← amd64_mm_pool_alloc;
    cassert (bool_decide (dst_sub ≠ 0));;
    pte_set dst i (Z.lor (MM_PHYS dst_sub) (Z.land e MM_PTE_FLAGS_MASK));;
    sub src_sub dst_sub.

Definition fork_pt (src dst : Z) : cmd vm unit := for_ptes (fork_pte src dst).
Definition fork_pd (src dst : Z) : cmd vm unit := for_ptes (fork_dir fork_pt src dst).
Definition fork_pdpt (src dst : Z) : cmd vm unit := for_ptes (fork_dir fork_pd src dst).

(** The PML4 level also asserts that the child has nothing mapped there. *)
Definition fork_pml4e (src dst i : Z) : cmd vm unit :=
  e ← pte_get src i;
  if negb (has MM_PAGE_PRESENT e) then mret tt
  else if has MM_PAGE_HUGE e then cpanic
  else
    d ← pte_get dst i;
    cassert (negb (has MM_PAGE_PRESENT d));;
    fork_dir fork_pdpt src dst i.

Definition mm_space_fork (dst_pml4 src_pml4 flags : Z) : cmd vm Z :=
  (if has MM_CLONE_FLG_USER flags then
     for_range (fork_pml4e src_pml4 dst_pml4) (Z.to_nat AMD64_PML4I_USER_END) 0
   else mret tt);;
  mm_space_clone dst_pml4 src_pml4 (Z.land MM_CLONE_FLG_KERNEL flags).

(** The loops of [mm_space_release], innermost first. *)
Definition release_pte (pt pti : Z) : cmd vm unit :=
  e ← pte_get pt pti;
  if negb (has MM_PAGE_PRESENT e) then mret tt
  else
    let page_phys := Z.land e MM_PTE_MASK in
    page_refcount_dec page_phys;;
    pg ← on_phys (page_at (PHYS2PAGE page_phys));
    if bool_decide (pg_refcount pg = 0) then on_phys (mm_phys_free_page page_phys) else mret tt.

Definition release_dir (sub : Z -> cmd vm unit) (t i : Z) : cmd vm unit :=
  e ← pte_get t i;
  if negb (has MM_PAGE_PRESENT e) then mret tt
  else
    let n := MM_VIRTUALIZE (Z.land e MM_PTE_MASK) in
    sub n;;
    amd64_mm_pool_free n.

Definition release_pt (pt : Z) : cmd vm unit := for_ptes (release_pte pt).
Definition release_pd (pd : Z) : cmd vm unit := for_ptes (release_dir release_pt pd).
Definition release_pdpt (pdpt : Z) : cmd vm unit := for_ptes (release_dir release_pd pdpt).

Definition release_pml4e (pml4 i : Z) : cmd vm unit :=
  e ← pte_get pml4 i;
  if negb (has MM_PAGE_PRESENT e) then mret tt
  else release_dir release_pdpt pml4 i;; pte_set pml4 i 0.

Definition mm_space_release (mm_kernel pml4 : Z) : cmd vm unit :=
  if bool_decide (pml4 = mm_kernel) then cpanic
  else for_range (release_pml4e pml4) (Z.to_nat AMD64_PML4I_USER_END) 0.

Definition mm_space_free (mm_kernel pml4 : Z) : cmd vm unit :=
  mm_space_release mm_kernel pml4;;
  amd64_mm_pool_free pml4.

(** ** Virtual ranges *)
Fixpoint vm_unmapped (pml4 : Z) (page : Z) (n : nat) : cmd vm bool :=
  match n with
  | O => mret true
  | S n =>
      r ← mm_map_get pml4 (u64 (page * MM_PAGE_SIZE));
      if bool_decide (r.1 ≠ MM_NADDR) then mret false else vm_unmapped pml4 (u64 (page + 1)) n
  end.

(** The loop of [vmfind]; [fuel] bounds the candidates, see [vmfind]. *)
Fixpoint vmfind_from (pml4 lim npages : Z) (fuel : nat) (page_index : Z) : cmd vm Z :=
  match fuel with
  | O => cdiverged
  | S fuel =>
      if u64 (page_index + npages) <=? lim then
        ok ← vm_unmapped pml4 page_index (Z.to_nat npages);
        if (ok : bool) then mret (u64 (page_index * MM_PAGE_SIZE))
        else vmfind_from pml4 lim npages fuel (u64 (page_index + 1))
      else mret MM_NADDR
  end.

Definition vmfind (pml4 from to npages : Z) : cmd vm Z :=
  vmfind_from pml4 (to / MM_PAGE_SIZE) npages
    (S (Z.to_nat (to / MM_PAGE_SIZE - from / MM_PAGE_SIZE + 1))) (from / MM_PAGE_SIZE).

Definition vmfree_page (pml4 addr i : Z) : cmd vm unit :=
  phys ← mm_umap_single pml4 (u64 (addr + i * MM_PAGE_SIZE));
  if bool_decide (phys = MM_NADDR) then cpanic else on_phys (mm_phys_free_page phys).

Definition vmfree (pml4 addr npages : Z) : cmd vm unit :=
  for_range (vmfree_page pml4 addr) (Z.to_nat npages) 0.

(** [userptr_check] on the space the CPU runs in. *)
Definition userptr_check (space ptr : Z) : cmd vm unit :=
  cassert (bool_decide (ptr ≠ 0));;
  cassert (ptr <? KERNEL_VIRT_BASE);;
  r ← mm_map_get space ptr;
  cassert (bool_decide (r.1 ≠ MM_NADDR)).

(** ** Bits of page table entries *)
Lemma has_testbit n e : 0 <= n -> has (2 ^ n) e = Z.testbit e n.
Proof.
  intros Hn. unfold has.
  assert (Z.land e (2 ^ n) = if Z.testbit e n then 2 ^ n else 0) as ->.
  { apply Z.bits_inj'. intros m Hm. rewrite Z.land_spec, Z.pow2_bits_eqb by lia.
    destruct (Z.eqb_spec n m) as [<-|Hne].
    - rewrite andb_true_r. destruct (Z.testbit e n); [by rewrite Z.pow2_bits_true|by rewrite Z.bits_0].
    - rewrite andb_false_r. destruct (Z.testbit e n); [|by rewrite Z.bits_0].
      by rewrite Z.pow2_bits_false. }
  destruct (Z.testbit e n); [|done].
  destruct (Z.eqb_spec (2 ^ n) 0) as [E|]; [|done]. by apply Z.pow_nonzero in E.
Qed.

Lemma PTE_MASK_spec n : 0 <= n -> Z.testbit MM_PTE_MASK n = (12 <=? n) && (n <? 63).
Proof.
  intros Hn. change MM_PTE_MASK with (Z.ldiff (Z.ones 63) (Z.ones 12)).
  rewrite Z.ldiff_spec, !Z.testbit_ones_nonneg by lia.
  destruct (Z.ltb_spec n 63), (Z.ltb_spec n 12), (Z.leb_spec 12 n); cbn; lia || done.
Qed.

Lemma PAGE_MASK_spec n : 0 <= n -> Z.testbit MM_PAGE_MASK n = (12 <=? n) && (n <? 64).
Proof.
  intros Hn. change MM_PAGE_MASK with (Z.ldiff (Z.ones 64) (Z.ones 12)).
  rewrite Z.ldiff_spec, !Z.testbit_ones_nonneg by lia.
  destruct (Z.ltb_spec n 64), (Z.ltb_spec n 12), (Z.leb_spec 12 n); cbn; lia || done.
Qed.

Lemma FLAGS_MASK_spec n : 0 <= n -> Z.testbit MM_PTE_FLAGS_MASK n = (n <? 12) || (n =? 63).
Proof.
  intros Hn. unfold MM_PTE_FLAGS_MASK, MM_PAGE_NOEXEC. change 0xFFF with (Z.ones 12).
  rewrite Z.lor_spec, Z.testbit_ones_nonneg, Z.pow2_bits_eqb by lia. f_equal. apply Z.eqb_sym.
Qed.

Lemma testbit_high x w n : 0 <= x < 2 ^ w -> 0 <= w <= n -> Z.testbit x n = false.
Proof.
  intros Hx Hw. rewrite <- (Z.mod_small x (2 ^ w)) by done. by apply Z.mod_pow2_bits_high.
Qed.

(** The address and the flags of an entry. *)
Definition child (e : Z) : Z := Z.land e MM_PTE_MASK.

(** A directory entry made by [next_table] or [fork_dir]: an aligned frame and flags
    below bit 12 (or bit 63). *)
Lemma child_entry a f :
  0 <= a < 2 ^ 63 -> a mod 0x1000 = 0 ->
  child (Z.lor a (Z.land f MM_PTE_FLAGS_MASK)) = a.
Proof.
  intros Ha Hm. unfold child. apply Z.bits_inj'. intros n Hn.
  rewrite Z.land_spec, Z.lor_spec, Z.land_spec, PTE_MASK_spec, FLAGS_MASK_spec by lia.
  destruct (Z.ltb_spec n 12) as [Hl|Hl].
  - replace (12 <=? n) with false by (symmetry; apply Z.leb_gt; lia). rewrite andb_false_r.
    apply Z.mod_divide in Hm as [k ->]; [|done]. change 0x1000 with (2 ^ 12).
    by rewrite Z.mul_pow2_bits_low.
  - replace (12 <=? n) with true by (symmetry; apply Z.leb_le; lia).
    destruct (Z.ltb_spec n 63) as [Hh|Hh].
    + replace (n =? 63) with false by (symmetry; apply Z.eqb_neq; lia).
      by rewrite andb_false_r, orb_false_r, andb_true_r.
    + rewrite andb_false_r. symmetry. apply (testbit_high a 63); lia.
Qed.

Lemma entry_flag a f n :
  0 <= n < 12 -> a mod 0x1000 = 0 -> Z.testbit (Z.lor a f) n = Z.testbit f n.
Proof.
  intros Hn Hm. rewrite Z.lor_spec. apply Z.mod_divide in Hm as [k ->]; [|done].
  change 0x1000 with (2 ^ 12). by rewrite Z.mul_pow2_bits_low by lia.
Qed.

Lemma child_range e : 0 <= child e < 2 ^ 63.
Proof.
  assert (child e = Z.land (Z.land e MM_PTE_MASK) (Z.ones 63)) as ->.
  { unfold child. by rewrite <- Z.land_assoc. }
  rewrite Z.land_ones by lia. apply Z.mod_pos_bound. lia.
Qed.

Lemma child_aligned e : child e mod 0x1000 = 0.
Proof.
  change 0x1000 with (2 ^ 12). rewrite <- Z.land_ones by lia. unfold child.
  rewrite <- Z.land_assoc. change (Z.land MM_PTE_MASK (Z.ones 12)) with 0. apply Z.land_0_r.
Qed.

Lemma index_range shift v : 0 <= index_at shift v < MM_PTE_COUNT.
Proof.
  unfold index_at. change MM_PTE_INDEX_MASK with (Z.ones 9).
  rewrite Z.land_ones by lia. apply Z.mod_pos_bound. done.
Qed.

(** ** The tree of tables

    [walk s t p] follows the entries with indices [p] from the table at physical
    address [t]. *)
Definition ent (s : vm) (t i : Z) : option Z :=
  vm_tables s !! t ≫= fun l => l !! Z.to_nat i.
(** The entry, when it is present. *)
Definition pte (s : vm) (t i : Z) : option Z :=
  e ← ent s t i; if has MM_PAGE_PRESENT e then Some e else None.
Definition step (s : vm) (t i : Z) : option Z := child <$> pte s t i.
Definition walk (s : vm) (t : Z) (p : list Z) : option Z :=
  foldl (fun o i => t ← o; step s t i) (Some t) p.

Lemma walk_snoc s t p i : walk s t (p ++ [i]) = t' ← walk s t p; step s t' i.
Proof. unfold walk. by rewrite foldl_snoc. Qed.

(** Paths in the user half: the first index is below [AMD64_PML4I_USER_END]. *)
Definition upath (p : list Z) : Prop :=
  Forall (fun i => 0 <= i < MM_PTE_COUNT) p /\ (forall i, head p = Some i -> i < AMD64_PML4I_USER_END).

Lemma upath_nil : upath [].
Proof. by split. Qed.

Lemma upath_app p q : upath (p ++ q) -> upath p.
Proof.
  intros [H1 H2]. apply Forall_app in H1 as [? _]. split; [done|]. destruct p; [done|]. apply H2.
Qed.

Lemma upath_last p i : upath (p ++ [i]) -> 0 <= i < MM_PTE_COUNT.
Proof. intros [[_ H]%Forall_app _]. by apply Forall_cons_1 in H as [? _]. Qed.

(** Walks agree when the entries on the way do. *)
Lemma walk_agree s s' t q :
  (forall p u j, p ++ [j] `prefix_of` q -> walk s t p = Some u -> ent s' u j = ent s u j) ->
  walk s' t q = walk s t q.
Proof.
  induction q as [|j q IH] using rev_ind; intros H; [done|]. rewrite !walk_snoc.
  rewrite IH.
  - destruct (walk s t q) as [u|] eqn:E; [|done]. cbn. unfold step, pte.
    by rewrite (H q u j); [|done|done].
  - intros p u k Hp. apply H. etrans; [exact Hp|]. by apply prefix_app_r.
Qed.

Definition is_table (s : vm) (t : Z) : Prop :=
  exists l, vm_tables s !! t = Some l /\ length l = Z.to_nat MM_PTE_COUNT.

(** The invariant of a user address space with root table [root] (a physical
    address): the paging structures its user half reaches form a tree of distinct
    frames, each allocated for paging, and no directory entry is a huge page. *)
Record space_ok (s : vm) (o : gmap Z page_usage) (root : Z) : Prop := {
  sp_phys : phys_ok (vm_phys s) o;
  sp_low : forall i u, o !! i = Some u -> LOW_PAGE <= i < PHYS_MAX_PAGES;
  sp_table : forall p t, upath p -> (length p <= 3)%nat -> walk s root p = Some t ->
    is_table s t /\ t mod 0x1000 = 0 /\ 0 <= t /\ o !! (t / 0x1000) = Some PU_PAGING;
  sp_inj : forall p q t, upath p -> upath q -> (length p <= 3)%nat -> (length q <= 3)%nat ->
    walk s root p = Some t -> walk s root q = Some t -> p = q;
  sp_huge : forall p i t e, upath (p ++ [i]) -> (length p <= 2)%nat ->
    walk s root p = Some t -> ent s t i = Some e -> has MM_PAGE_PRESENT e = true ->
    has MM_PAGE_HUGE e = false;
}.

Lemma sp_ent s o root p t i : space_ok s o root -> upath (p ++ [i]) -> (length p <= 3)%nat ->
  walk s root p = Some t -> exists e, ent s t i = Some e.
Proof.
  intros H Hp Hl Hw. destruct (sp_table _ _ _ H p t (upath_app _ _ Hp) Hl Hw) as ((l & Hl' & Hlen) & _).
  pose proof (upath_last _ _ Hp). unfold ent. rewrite Hl'. cbn.
  apply lookup_lt_is_Some. rewrite Hlen. lia.
Qed.

Lemma table_addr_range s o root p t : space_ok s o root -> upath p -> (length p <= 3)%nat ->
  walk s root p = Some t -> 0 <= t < 2 ^ 30.
Proof.
  intros H Hp Hl Hw. destruct (sp_table _ _ _ H p t Hp Hl Hw) as (_ & Hm & Ht & Ho).
  apply (sp_low _ _ _ H) in Ho. change PHYS_MAX_PAGES with 262144 in Ho.
  pose proof (Z.div_mod t 0x1000). lia.
Qed.

Lemma pte_get_run s t i e : 0 <= t < 2 ^ 64 -> ent s t i = Some e ->
  pte_get (MM_VIRTUALIZE t) i s = Ret (e, s).
Proof. intros Ht He. unfold pte_get. apply load_Some. rewrite MM_PHYS_VIRTUALIZE by done. exact He. Qed.

Definition set_entry (t i e : Z) (s : vm) : vm :=
  set_tables (alter (fun l => <[Z.to_nat i := e]> l) t (vm_tables s)) s.

Lemma pte_set_run s t i e e0 : 0 <= t < 2 ^ 64 -> ent s t i = Some e0 ->
  pte_set (MM_VIRTUALIZE t) i e s = Ret (tt, set_entry t i e s).
Proof.
  intros Ht He. unfold pte_set. rewrite MM_PHYS_VIRTUALIZE by done. unfold ent in He.
  destruct (vm_tables s !! t) as [l|] eqn:El; [|done]. cbn in He.
  rewrite (bind_Ret _ _ s l s) by by apply load_Some.
  rewrite (bind_Ret _ _ s e0 s) by by apply load_Some. run_simpl.
  unfold set_entry, alter, map_alter. do 3 f_equal.
  apply map_eq. intros k. destruct (decide (k = t)) as [->|Hne].
  - rewrite lookup_insert_eq, lookup_partial_alter, El. by rewrite decide_True.
  - rewrite lookup_insert_ne by done. by rewrite lookup_partial_alter_ne.
Qed.

Lemma ent_set_entry s t i e u j :
  0 <= i -> 0 <= j -> (u = t -> i <> j) -> ent (set_entry t i e s) u j = ent s u j.
Proof.
  intros Hi Hj Hne. unfold ent, set_entry. cbn. destruct (decide (t = u)) as [->|Hn].
  - rewrite lookup_alter_eq. destruct (vm_tables s !! u) as [l|]; [|done]. cbn.
    apply list_lookup_insert_ne. specialize (Hne eq_refl). lia.
  - by rewrite lookup_alter_ne.
Qed.

Lemma ent_set_entry_eq s t i e e0 : ent s t i = Some e0 -> ent (set_entry t i e s) t i = Some e.
Proof.
  unfold ent, set_entry. cbn. rewrite lookup_alter_eq.
  destruct (vm_tables s !! t) as [l|]; [|done]. cbn. intros Hl%lookup_lt_Some.
  by apply list_lookup_insert_eq.
Qed.

Lemma is_table_set_entry s t i e u : is_table s u -> is_table (set_entry t i e s) u.
Proof.
  intros (l & Hl & Hlen). unfold is_table, set_entry. cbn. destruct (decide (t = u)) as [->|].
  - rewrite lookup_alter_eq, Hl. eexists. split; [done|]. by rewrite length_insert.
  - rewrite lookup_alter_ne by done. eauto.
Qed.

Section space_ops.
Context (s : vm) (o : gmap Z page_usage) (root : Z) (Hok : space_ok s o root).

(** Writing entry [i] of the table at path [p] leaves every path that does not go
    through it alone. *)
Lemma walk_set_entry p t i e q :
  upath (p ++ [i]) -> (length p <= 3)%nat -> walk s root p = Some t ->
  upath q -> (length q <= 4)%nat -> ~ p ++ [i] `prefix_of` q ->
  walk (set_entry t i e s) root q = walk s root q.
Proof.
  intros Hp Hl Hw Hq Hlq Hn. apply walk_agree. intros r u j Hpre Hr.
  pose proof (prefix_length _ _ Hpre) as Hlr. rewrite length_app in Hlr. cbn in Hlr.
  assert (upath (r ++ [j])) as Hrj by (destruct Hpre as [? ->]; by eapply upath_app).
  pose proof (upath_last _ _ Hp). pose proof (upath_last _ _ Hrj).
  apply ent_set_entry; [lia|lia|]. intros -> <-. apply Hn.
  assert (length r <= 3)%nat by lia.
  by rewrite <- (sp_inj _ _ _ Hok r p t (upath_app _ _ Hrj) (upath_app _ _ Hp)).
Qed.

Lemma not_prefix_short (p q : list Z) i : (length q <= length p)%nat -> ~ p ++ [i] `prefix_of` q.
Proof. intros Hl Hp%prefix_length. rewrite length_app in Hp. cbn in Hp. lia. Qed.

(** A leaf entry may be changed freely. *)
Lemma set_leaf_ok p t i e : upath (p ++ [i]) -> length p = 3%nat -> walk s root p = Some t ->
  space_ok (set_entry t i e s) o root.
Proof.
  intros Hp Hl Hw.
  assert (forall q, upath q -> (length q <= 3)%nat ->
    walk (set_entry t i e s) root q = walk s root q) as Hwalk.
  { intros q Hq Hlq. eapply walk_set_entry; [done|lia|done|done|lia|]. apply not_prefix_short. lia. }
  split; [apply Hok|apply Hok| | |].
  - intros q u Hq Hlq. rewrite Hwalk by done. intros Hu.
    destruct (sp_table _ _ _ Hok q u Hq Hlq Hu) as (? & ?). split; [|done]. by apply is_table_set_entry.
  - intros q r u Hq Hr Hlq Hlr. rewrite !Hwalk by done. by apply (sp_inj _ _ _ Hok).
  - intros q j u e' Hq Hlq. rewrite Hwalk by (done || lia || by eapply upath_app). intros Hu.
    pose proof (upath_last _ _ Hp). pose proof (upath_last _ _ Hq).
    rewrite ent_set_entry; [by apply (sp_huge _ _ _ Hok q)|lia|lia|].
    intros -> _. assert (q = p) as ->; [|lia].
    apply (sp_inj _ _ _ Hok q p t); try done; try lia; by eapply upath_app.
Qed.

(** Adding a fresh zeroed table, not yet linked. *)
Definition fresh_table (pg : page) (k : Z) : vm :=
  mk_vm (claim PU_PAGING k pg (vm_phys s))
    (<[k * MM_PAGE_SIZE := replicate (Z.to_nat MM_PTE_COUNT) 0]> (vm_tables s)).

Lemma pool_alloc_run :
  (amd64_mm_pool_alloc s = Panic /\ pages_free (vm_phys s) = 0) \/
  (exists k pg, amd64_mm_pool_alloc s = Ret (MM_VIRTUALIZE (k * MM_PAGE_SIZE), fresh_table pg k) /\
     mm_pages (vm_phys s) !! k = Some pg /\ is_alloc pg = false /\ LOW_PAGE <= k < PHYS_MAX_PAGES).
Proof.
  unfold amd64_mm_pool_alloc, on_phys.
  destruct (alloc_page_run _ _ PU_PAGING (sp_phys _ _ _ Hok)) as [(E & Hz & _)|(k & pg & E & Hk & Hf & _)];
    [done| |].
  - left. split; [|done]. rewrite (bind_Ret _ _ _ _ _ (zoom_Ret _ _ _ _ _ _ E)).
    rewrite bool_decide_eq_false_2; [done|]. intros Hne. by apply Hne.
  - right. exists k, pg.
    assert (LOW_PAGE <= k < PHYS_MAX_PAGES) as Hr by (apply (free_range _ _ _ (sp_phys _ _ _ Hok)); by exists pg).
    split; [|done]. rewrite (bind_Ret _ _ _ _ _ (zoom_Ret _ _ _ _ _ _ E)).
    change PHYS_MAX_PAGES with 262144 in Hr. pose proof low_max.
    rewrite bool_decide_eq_true_2 by (unfold MM_PAGE_SIZE, MM_NADDR; lia).
    unfold table_fill. run_simpl. unfold fresh_table, set_tables, set_phys. cbn [vm_phys vm_tables].
    rewrite MM_PHYS_VIRTUALIZE by (unfold MM_PAGE_SIZE; lia). done.
Qed.

Lemma frame_of k : k * MM_PAGE_SIZE / 0x1000 = k.
Proof. by apply Z.div_mul. Qed.

Section fresh.
Context (k : Z) (pg : page).
Context (Hpg : mm_pages (vm_phys s) !! k = Some pg) (Hfree : is_alloc pg = false).
Context (Hrange : LOW_PAGE <= k < PHYS_MAX_PAGES).

Lemma fresh_not_reached p t : upath p -> (length p <= 3)%nat -> walk s root p = Some t ->
  t <> k * MM_PAGE_SIZE.
Proof using All.
  intros Hp Hl Hw ->. destruct (sp_table _ _ _ Hok _ _ Hp Hl Hw) as (_ & _ & _ & Ho).
  rewrite frame_of in Ho.
  rewrite (free_not_owned _ _ k (sp_phys _ _ _ Hok)) in Ho; [done|by exists pg].
Qed.

Lemma fresh_ent u j : u <> k * MM_PAGE_SIZE -> ent (fresh_table pg k) u j = ent s u j.
Proof using All. intros Hu. unfold ent, fresh_table. cbn. by rewrite lookup_insert_ne. Qed.

Lemma fresh_ent_new j : 0 <= j < MM_PTE_COUNT -> ent (fresh_table pg k) (k * MM_PAGE_SIZE) j = Some 0.
Proof using All.
  intros Hj. unfold ent, fresh_table. cbn [vm_tables]. rewrite lookup_insert_eq. cbn [mbind option_bind].
  apply lookup_replicate_2. lia.
Qed.

Lemma fresh_walk q : upath q -> (length q <= 4)%nat -> walk (fresh_table pg k) root q = walk s root q.
Proof using All.
  intros Hq Hl. apply walk_agree. intros r u j Hpre Hr.
  pose proof (prefix_length _ _ Hpre) as Hlen. rewrite length_app in Hlen. cbn in Hlen.
  assert (upath r) by (destruct Hpre as [? ->]; eapply upath_app, upath_app; done).
  apply fresh_ent. eapply fresh_not_reached; [done|lia|done].
Qed.

Lemma fresh_ok : space_ok (fresh_table pg k) (<[k:=PU_PAGING]> o) root.
Proof using All.
  split.
  - apply claim_ok; [apply Hok|done|done].
  - intros i u [[<- _]|[_ Hu]]%lookup_insert_Some; [done|]. by apply (sp_low _ _ _ Hok) in Hu.
  - intros p t Hp Hl. rewrite fresh_walk by (done || lia). intros Hw.
    pose proof (fresh_not_reached p t Hp Hl Hw) as Hne.
    destruct (sp_table _ _ _ Hok p t Hp Hl Hw) as ((l & Hl' & Hlen) & Hm & Ht & Ho).
    split; [|split; [done|split; [done|]]].
    + exists l. split; [|done]. unfold fresh_table. cbn. by rewrite lookup_insert_ne.
    + rewrite lookup_insert_ne; [done|]. intros ->. apply Hne. unfold MM_PAGE_SIZE.
      pose proof (Z.div_mod t 0x1000). lia.
  - intros p q t Hp Hq Hlp Hlq. rewrite !fresh_walk by (done || lia). by apply (sp_inj _ _ _ Hok).
  - intros p i t e Hp Hl. rewrite fresh_walk by (lia || by eapply upath_app). intros Hw.
    rewrite fresh_ent by (eapply fresh_not_reached; [by eapply upath_app|lia|done]).
    by apply (sp_huge _ _ _ Hok p).
Qed.
End fresh.

(** Linking a zeroed table [c] under entry [i] of the table at path [p]. *)
Section link.
Context (p : list Z) (t i e e0 c : Z).
Context (Hp : upath (p ++ [i])) (Hlp : (length p <= 2)%nat) (Hw : walk s root p = Some t).
Context (He0 : ent s t i = Some e0) (Habs : has MM_PAGE_PRESENT e0 = false).
Context (Hc : child e = c) (Hpres : has MM_PAGE_PRESENT e = true) (Hnh : has MM_PAGE_HUGE e = false).
Context (Hnew : forall q u, upath q -> (length q <= 3)%nat -> walk s root q = Some u -> u <> c).
Context (Hzero : forall j, 0 <= j < MM_PTE_COUNT -> ent s c j = Some 0).
Context (Htab : is_table s c) (Hown : o !! (c / 0x1000) = Some PU_PAGING) (Hcr : 0 <= c).

Lemma link_zero j : 0 <= j < MM_PTE_COUNT -> ent (set_entry t i e s) c j = Some 0.
Proof using All.
  intros Hj. pose proof (upath_last _ _ Hp). rewrite ent_set_entry; [by apply Hzero|lia|lia|].
  intros ->. exfalso. eapply (Hnew p t); [by eapply upath_app|lia|done|done].
Qed.

Lemma link_walk_other q : upath q -> (length q <= 4)%nat -> ~ p ++ [i] `prefix_of` q ->
  walk (set_entry t i e s) root q = walk s root q.
Proof using All. intros. eapply walk_set_entry; [done|lia|done|done|lia|done]. Qed.

Lemma link_walk_new : walk (set_entry t i e s) root (p ++ [i]) = Some c.
Proof using All.
  rewrite walk_snoc, link_walk_other, Hw; [| by eapply upath_app|lia|by apply prefix_snoc_not].
  cbn. unfold step, pte. rewrite (ent_set_entry_eq _ _ _ _ e0) by done. cbn. by rewrite Hpres, <- Hc.
Qed.

Lemma link_walk_below q j : upath (p ++ [i] ++ q ++ [j]) -> walk (set_entry t i e s) root (p ++ [i] ++ q ++ [j]) = None.
Proof using All.
  assert (forall q j, p ++ [i] ++ q ++ [j] = (p ++ [i] ++ q) ++ [j]) as Hassoc
    by (intros; by rewrite <- !app_assoc).
  revert j. induction q as [|k q IH] using rev_ind; intros j Hq; rewrite Hassoc in Hq |- *; rewrite walk_snoc.
  - rewrite app_nil_r, link_walk_new. cbn. unfold step, pte.
    rewrite link_zero; [done|]. by apply upath_last in Hq.
  - rewrite IH; [done|]. by apply upath_app in Hq.
Qed.

(** Every walk after the link. *)
Lemma link_walk q u : upath q -> (length q <= 3)%nat ->
  walk (set_entry t i e s) root q = Some u ->
  (q = p ++ [i] /\ u = c) \/ (~ p ++ [i] `prefix_of` q /\ walk s root q = Some u).
Proof using All.
  intros Hq Hl Hu. destruct (decide (p ++ [i] `prefix_of` q)) as [[r ->]|Hn].
  - left. destruct r as [|j r _] using rev_ind.
    + rewrite app_nil_r in *. rewrite link_walk_new in Hu. by injection Hu as <-.
    + rewrite <- app_assoc in Hu, Hq. rewrite link_walk_below in Hu by done. done.
  - right. split; [done|]. by rewrite link_walk_other in Hu by (done || lia).
Qed.

Lemma link_ok : space_ok (set_entry t i e s) o root.
Proof using All.
  split; [apply Hok|apply Hok| | |].
  - intros q u Hq Hl Hu. destruct (link_walk q u Hq Hl Hu) as [[-> ->]|[_ Hs]].
    + split; [by apply is_table_set_entry|]. split; [|done]. rewrite <- Hc. apply child_aligned.
    + destruct (sp_table _ _ _ Hok q u Hq Hl Hs) as (? & ?). split; [|done]. by apply is_table_set_entry.
  - intros q r u Hq Hr Hlq Hlr Hu1 Hu2.
    destruct (link_walk q u Hq Hlq Hu1) as [[-> ->]|[_ H1]], (link_walk r _ Hr Hlr Hu2) as [[-> ?]|[_ H2]];
      try done.
    + exfalso. by eapply (Hnew r c).
    + exfalso. subst u. by eapply (Hnew q c).
    + by apply (sp_inj _ _ _ Hok q r u).
  - intros q j u e' Hqj Hl Hu He' Hpr. pose proof (upath_last _ _ Hqj). pose proof (upath_last _ _ Hp).
    assert (upath q) as Hq by by eapply upath_app.
    destruct (link_walk q u Hq ltac:(lia) Hu) as [[-> ->]|[Hn Hs]].
    { rewrite link_zero in He' by done. by injection He' as <-. }
    destruct (decide (u = t /\ i = j)) as [[-> <-]|Hne].
    + rewrite (ent_set_entry_eq _ _ _ _ e0) in He' by done. by injection He' as <-.
    + rewrite ent_set_entry in He'; [|lia|lia|naive_solver]. by apply (sp_huge _ _ _ Hok q j u).
Qed.

(** No leaf appears or disappears. *)
Lemma link_leaf q j : upath (q ++ [j]) -> length q = 3%nat ->
  (u ← walk (set_entry t i e s) root q; pte (set_entry t i e s) u j) = (u ← walk s root q; pte s u j).
Proof using All.
  intros Hqj Hl. assert (upath q) as Hq by by eapply upath_app.
  pose proof (upath_last _ _ Hqj). pose proof (upath_last _ _ Hp).
  destruct (decide (p ++ [i] `prefix_of` q)) as [[r ->]|Hn].
  - assert (walk s root ((p ++ [i]) ++ r) = None) as ->.
    { unfold walk. rewrite foldl_app. fold (walk s root (p ++ [i])).
      rewrite walk_snoc, Hw. cbn. unfold step, pte. rewrite He0. cbn. rewrite Habs.
      clear. induction r; done. }
    rewrite <- app_assoc. destruct r as [|k r _] using rev_ind.
    + rewrite app_nil_r, link_walk_new. cbn. unfold pte. by rewrite link_zero.
    + rewrite link_walk_below; [done|]. by rewrite <- app_assoc in Hq.
  - rewrite link_walk_other by (done || lia). destruct (walk s root q) as [u|] eqn:Hu; [|done]. cbn.
    unfold pte. rewrite ent_set_entry; [done|lia|lia|]. intros -> _.
    assert (q = p) as ->; [|lia]. apply (sp_inj _ _ _ Hok q p t); try done; try lia. by eapply upath_app.
Qed.
End link.
End space_ops.

(** ** The path of a virtual address *)
Definition vpath (v : Z) : list Z :=
  let v := AMD64_MM_STRIPSX v in [pml4_index v; pdpt_index v; pd_index v].
Definition vpti (v : Z) : Z := pt_index (AMD64_MM_STRIPSX v).
Definition user_addr (v : Z) : Prop := pml4_index (AMD64_MM_STRIPSX v) < AMD64_PML4I_USER_END.

(** What an address space maps: the present leaf entry of an address. *)
Definition leaf (s : vm) (root v : Z) : option Z := t ← walk s root (vpath v); pte s t (vpti v).

Lemma vpath_upath v : user_addr v -> upath (vpath v ++ [vpti v]).
Proof.
  intros Hu. split; [|by intros i [= <-]]. unfold vpath, vpti. cbn.
  repeat (apply List.Forall_cons; [apply index_range|]). apply List.Forall_nil.
Qed.

(** Same page, same path. *)
Lemma vpath_page v v' : vpath v = vpath v' -> vpti v = vpti v' ->
  AMD64_MM_STRIPSX v / MM_PAGE_SIZE = AMD64_MM_STRIPSX v' / MM_PAGE_SIZE.
Proof.
  unfold vpath, vpti, pml4_index, pdpt_index, pd_index, pt_index, index_at, AMD64_MM_STRIPSX.
  change MM_PTE_INDEX_MASK with (Z.ones 9). change 0xFFFFFFFFFFFF with (Z.ones 48).
  rewrite !Z.land_ones, !Z.shiftr_div_pow2 by (lia || done).
  assert (0 <= v mod 2 ^ 48 < 2 ^ 48 /\ 0 <= v' mod 2 ^ 48 < 2 ^ 48) as [Hv Hv']
    by (split; apply Z.mod_pos_bound; done).
  revert Hv Hv'. generalize (v mod 2 ^ 48), (v' mod 2 ^ 48). intros x y Hx Hy [= H4 H3 H2] H1.
  unfold MM_PML4I_SHIFT, MM_PDPTI_SHIFT, MM_PDI_SHIFT, MM_PTI_SHIFT, MM_PAGE_SIZE in *.
  change (2 ^ 48) with 281474976710656 in *. change (2 ^ 39) with 549755813888 in *.
  change (2 ^ 30) with 1073741824 in *. change (2 ^ 21) with 2097152 in *.
  change (2 ^ 12) with 4096 in *. change (2 ^ 9) with 512 in *. change 0x1000 with 4096.
  Z.to_euclidean_division_equations. lia.
Qed.

Lemma leaf_page s root v v' :
  AMD64_MM_STRIPSX v / MM_PAGE_SIZE = AMD64_MM_STRIPSX v' / MM_PAGE_SIZE -> leaf s root v = leaf s root v'.
Proof.
  intros E. assert (forall k, 0 <= k ->
    index_at (12 + k) (AMD64_MM_STRIPSX v) = index_at (12 + k) (AMD64_MM_STRIPSX v')) as Hi.
  { intros k Hk. unfold index_at. f_equal. rewrite !Z.shiftr_div_pow2, Z.pow_add_r, <- !Z.div_div by lia.
    change (2 ^ 12) with MM_PAGE_SIZE. by rewrite E. }
  unfold leaf, vpath, vpti, pml4_index, pdpt_index, pd_index, pt_index. cbn zeta.
  change MM_PML4I_SHIFT with (12 + 27). change MM_PDPTI_SHIFT with (12 + 18).
  change MM_PDI_SHIFT with (12 + 9). change MM_PTI_SHIFT with (12 + 0).
  by rewrite !Hi by lia.
Qed.

(** ** Translation computes [leaf] *)
Section get.
Context (s : vm) (o : gmap Z page_usage) (root : Z) (Hok : space_ok s o root).

Lemma walk_cons_get (t i e : Z) p :
  ent s t i = Some e -> walk s t (i :: p) = if has MM_PAGE_PRESENT e then walk s (child e) p else None.
Proof.
  intros He. unfold walk. cbn. unfold step, pte. rewrite He. cbn.
  destruct (has _ _); [done|]. clear. induction p; done.
Qed.

(** The result [mm_map_get] gives for a leaf. *)
Definition translation (v : Z) (l : option Z) : Z * option Z :=
  match l with
  | Some e => (Z.lor (child e) (Z.land (AMD64_MM_STRIPSX v) MM_PAGE_OFFSET_MASK),
               Some (Z.land e MM_PTE_FLAGS_MASK))
  | None => (MM_NADDR, None)
  end.

(** Read the entry at path [p ++ [i]] of the user half. *)
Lemma get_level p i t :
  upath (p ++ [i]) -> (length p <= 3)%nat -> walk s root p = Some t ->
  exists e, ent s t i = Some e /\ pte_get (MM_VIRTUALIZE t) i s = Ret (e, s) /\
    (has MM_PAGE_PRESENT e = true -> walk s root (p ++ [i]) = Some (child e)) /\
    (has MM_PAGE_PRESENT e = true -> (length p <= 2)%nat -> has MM_PAGE_HUGE e = false).
Proof using Hok.
  intros Hp Hl Hw. destruct (sp_ent _ _ _ p t i Hok Hp Hl Hw) as [e He]. exists e. split; [done|].
  pose proof (table_addr_range _ _ _ p t Hok (upath_app _ _ Hp) Hl Hw).
  split; [apply pte_get_run; [lia|done]|]. split.
  - intros Hpr. rewrite walk_snoc, Hw. cbn. unfold step, pte. rewrite He. cbn. by rewrite Hpr.
  - intros Hpr Hl2. by apply (sp_huge _ _ _ Hok p i t e).
Qed.

Lemma map_get_run v : user_addr v ->
  mm_map_get (MM_VIRTUALIZE root) v s = Ret (translation v (leaf s root v), s).
Proof using Hok.
  intros Hu. pose proof (vpath_upath v Hu) as Hp. unfold leaf, vpti, vpath in *. cbn zeta in *.
  unfold mm_map_get. set (w := AMD64_MM_STRIPSX v) in *. cbn zeta.
  destruct (get_level [] (pml4_index w) root) as (e4 & He4 & Hg4 & Hw4 & Hh4);
    [by eapply (upath_app [_]) in Hp|cbn; lia|done|].
  rewrite (bind_Ret _ _ _ _ _ Hg4), (walk_cons_get _ _ e4) by done.
  destruct (has MM_PAGE_PRESENT e4) eqn:E4; [|done]. cbn [negb app] in *. rewrite Hh4 by (done || cbn; lia).
  destruct (get_level [pml4_index w] (pdpt_index w) (child e4)) as (e3 & He3 & Hg3 & Hw3 & Hh3);
    [by eapply (upath_app [_; _]) in Hp|cbn; lia|by apply Hw4|].
  rewrite (bind_Ret _ _ _ _ _ Hg3), (walk_cons_get _ _ e3) by done.
  destruct (has MM_PAGE_PRESENT e3) eqn:E3; [|done]. cbn [negb app] in *. rewrite Hh3 by (done || cbn; lia).
  destruct (get_level [pml4_index w; pdpt_index w] (pd_index w) (child e3)) as (e2 & He2 & Hg2 & Hw2 & Hh2);
    [by eapply (upath_app [_; _; _]) in Hp|cbn; lia|by apply Hw3|].
  rewrite (bind_Ret _ _ _ _ _ Hg2), (walk_cons_get _ _ e2) by done.
  destruct (has MM_PAGE_PRESENT e2) eqn:E2; [|done]. cbn [negb app] in *. rewrite Hh2 by (done || cbn; lia).
  destruct (get_level [pml4_index w; pdpt_index w; pd_index w] (pt_index w) (child e2))
    as (e1 & He1 & Hg1 & _ & _); [done|cbn; lia|by apply Hw2|].
  rewrite (bind_Ret _ _ _ _ _ Hg1). cbn. unfold pte. rewrite He1. cbn.
  by destruct (has MM_PAGE_PRESENT e1).
Qed.
End get.

(** ** Reference counts *)
Definition with_refcount (k r : Z) (pg : page) (s : vm) : vm :=
  set_phys (set_pages (<[k := mk_page (pg_flags pg) (pg_usage pg) r]> (mm_pages (vm_phys s))) (vm_phys s)) s.

(** An allocated frame's descriptor may change as long as it stays allocated for the
    same usage. *)
Lemma page_update_ok s o k pg pg' :
  phys_ok s o -> mm_pages s !! k = Some pg -> is_alloc pg = true ->
  is_alloc pg' = true -> pg_usage pg' = pg_usage pg ->
  phys_ok (set_pages (<[k := pg']> (mm_pages s)) s) o.
Proof.
  intros H Hk Ha Ha' Hus.
  split; cbn [set_pages mm_pages pages_free total_pages alloc_pages];
    try apply (ok_usage _ _ H); try apply (ok_total _ _ H); try apply (ok_bound _ _ H).
  - intros j. rewrite lookup_insert_is_Some, <- (ok_dom _ _ H).
    destruct (decide (k = j)) as [<-|]; [|naive_solver]. split; [intros _; by exists pg|by left].
  - intros j q [[<- <-]|[? Hq]]%lookup_insert_Some; [by rewrite Ha'|]. by apply (ok_free _ _ H j).
  - intros j u Hu. destruct (ok_owned _ _ H j u Hu) as (q & Hq & Hqa & Hqu).
    destruct (decide (k = j)) as [<-|].
    + rewrite lookup_insert_eq. exists pg'. split; [done|]. split; [done|]. congruence.
    + rewrite lookup_insert_ne by done. by exists q.
  - rewrite (countm_insert free_at _ k pg' pg Hk). unfold free_at. rewrite Ha, Ha'. cbn [negb Z.b2z].
    pose proof (ok_count _ _ H) as Hc. unfold free_at in Hc. lia.
Qed.

Lemma page_update_space s o root k pg pg' :
  space_ok s o root -> mm_pages (vm_phys s) !! k = Some pg -> is_alloc pg = true ->
  is_alloc pg' = true -> pg_usage pg' = pg_usage pg ->
  space_ok (set_phys (set_pages (<[k := pg']> (mm_pages (vm_phys s))) (vm_phys s)) s) o root.
Proof.
  intros H Hk Ha Ha' Hu. split; [by eapply page_update_ok; [apply H|..]|apply H..].
Qed.

Lemma with_refcount_space s o root k r pg :
  space_ok s o root -> mm_pages (vm_phys s) !! k = Some pg -> is_alloc pg = true ->
  space_ok (with_refcount k r pg s) o root.
Proof. intros H Hk Ha. by eapply page_update_space. Qed.

Lemma refcount_inc_run s a pg : mm_pages (vm_phys s) !! PHYS2PAGE a = Some pg ->
  page_refcount_inc a s = Ret (tt, with_refcount (PHYS2PAGE a) (u64 (pg_refcount pg + 1)) pg s).
Proof.
  intros Hp. unfold page_refcount_inc, on_phys, czoom, page_at.
  rewrite (bind_Ret _ _ _ pg (vm_phys s)) by by apply load_Some. done.
Qed.

Lemma refcount_dec_run s a pg : mm_pages (vm_phys s) !! PHYS2PAGE a = Some pg -> pg_refcount pg <> 0 ->
  page_refcount_dec a s = Ret (tt, with_refcount (PHYS2PAGE a) (pg_refcount pg - 1) pg s).
Proof.
  intros Hp Hr. unfold page_refcount_dec, on_phys, czoom, page_at.
  rewrite (bind_Ret _ _ _ pg (vm_phys s)) by by apply load_Some.
  rewrite bool_decide_eq_true_2 by done. done.
Qed.

(** ** One level of [mm_map_single] *)

(** Everything a step of the table walk keeps: leaves, owned frames, allocated page
    descriptors; it takes at most [n] frames. *)
Record keeps (n root : Z) (s : vm) (o : gmap Z page_usage) (s' : vm) (o' : gmap Z page_usage) : Prop := {
  kp_leaf : forall q j, upath (q ++ [j]) -> length q = 3%nat ->
    (u ← walk s' root q; pte s' u j) = (u ← walk s root q; pte s u j);
  kp_owned : o ⊆ o';
  kp_pages : forall k pg, mm_pages (vm_phys s) !! k = Some pg -> is_alloc pg = true ->
    mm_pages (vm_phys s') !! k = Some pg;
  kp_free : pages_free (vm_phys s) - n <= pages_free (vm_phys s');
}.

Definition DIR_FLAGS : Z := 7.

Lemma dir_entry a : Z.lor (Z.lor (Z.lor a MM_PAGE_PRESENT) MM_PAGE_USER) MM_PAGE_WRITE = Z.lor a (Z.land DIR_FLAGS MM_PTE_FLAGS_MASK).
Proof. rewrite <- !Z.lor_assoc. done. Qed.

Lemma next_table_run s o root p i t :
  space_ok s o root -> upath (p ++ [i]) -> (length p <= 2)%nat -> walk s root p = Some t ->
  0 < pages_free (vm_phys s) ->
  exists t' s' o', next_table (MM_VIRTUALIZE t) i s = Ret (MM_VIRTUALIZE t', s') /\
    space_ok s' o' root /\ walk s' root (p ++ [i]) = Some t' /\ keeps 1 root s o s' o'.
Proof.
  intros H Hp Hl Hw Hfree. unfold next_table.
  destruct (get_level s o root H p i t Hp ltac:(lia) Hw) as (e & He & Hg & Hnext & _).
  rewrite (bind_Ret _ _ _ _ _ Hg). destruct (has MM_PAGE_PRESENT e) eqn:Epr; cbn [negb].
  { exists (child e), s, o. split; [done|]. split; [done|]. split; [by apply Hnext|].
    split; [done|done|done|lia]. }
  destruct (pool_alloc_run s o root H) as [[_ Hz]|(k & pg & Ea & Hk & Hf & Hr)]; [lia|].
  rewrite (bind_Ret _ _ _ _ _ Ea).
  assert (0 <= k * MM_PAGE_SIZE < 2 ^ 30) as Hkr.
  { change PHYS_MAX_PAGES with 262144 in Hr. pose proof low_max. unfold MM_PAGE_SIZE. lia. }
  assert (MM_VIRTUALIZE (k * MM_PAGE_SIZE) <> 0) as Hnz.
  { intros E. apply (f_equal MM_PHYS) in E. rewrite MM_PHYS_VIRTUALIZE in E by lia.
    change (MM_PHYS 0) with 1099511627776 in E. lia. }
  rewrite bool_decide_eq_true_2 by done. rewrite (bind_Ret _ _ _ tt (fresh_table s pg k)) by done.
  rewrite MM_PHYS_VIRTUALIZE, dir_entry by lia.
  set (d := Z.lor _ _). set (s1 := fresh_table s pg k).
  pose proof (fresh_ok s o root H k pg Hk Hf Hr) as H1. fold s1 in H1.
  assert (k * MM_PAGE_SIZE mod 0x1000 = 0) as Hal by by apply Z_mod_mult.
  assert (child d = k * MM_PAGE_SIZE) as Hcd by (apply child_entry; [lia|done]).
  assert (has MM_PAGE_PRESENT d = true) as Hpd.
  { unfold MM_PAGE_PRESENT. rewrite has_testbit by lia. subst d. rewrite entry_flag by (done || lia). done. }
  assert (has MM_PAGE_HUGE d = false) as Hhd.
  { unfold MM_PAGE_HUGE. rewrite has_testbit by lia. subst d. rewrite entry_flag by (done || lia). done. }
  assert (upath p) as Hup by by eapply upath_app.
  pose proof (fresh_not_reached s o root H k pg Hk Hf Hr) as Hnr.
  assert (walk s1 root p = Some t) as Hw1.
  { subst s1. rewrite (fresh_walk s o root H) by (done || lia). done. }
  assert (ent s1 t i = Some e) as He1.
  { subst s1. rewrite (fresh_ent s o root H); [done..|]. by apply (Hnr p t Hup ltac:(lia)). }
  assert (forall q u, upath q -> (length q <= 3)%nat -> walk s1 root q = Some u -> u <> k * MM_PAGE_SIZE) as Hnew.
  { intros q u Hq Hlq Hu. subst s1. rewrite (fresh_walk s o root H) in Hu by (done || lia). by eapply Hnr. }
  assert (is_table s1 (k * MM_PAGE_SIZE)) as Htab.
  { subst s1. eexists. cbn [fresh_table vm_tables]. rewrite lookup_insert_eq. split; [done|].
    by rewrite length_replicate. }
  assert (forall j, 0 <= j < MM_PTE_COUNT -> ent s1 (k * MM_PAGE_SIZE) j = Some 0) as Hzero.
  { intros j Hj. subst s1. by apply (fresh_ent_new s o root H). }
  assert ((<[k:=PU_PAGING]> o) !! (k * MM_PAGE_SIZE / 0x1000) = Some PU_PAGING) as Hown.
  { rewrite frame_of. apply lookup_insert_eq. }
  pose proof (table_addr_range _ _ _ p t H Hup ltac:(lia) Hw) as Htr.
  rewrite (bind_Ret _ _ _ tt (set_entry t i d s1)) by (by eapply pte_set_run; [lia|]).
  exists (k * MM_PAGE_SIZE), (set_entry t i d s1), (<[k:=PU_PAGING]> o). split; [done|].
  split; [eapply link_ok; try done; lia|]. split; [eapply link_walk_new; try done; lia|]. split.
  - intros q j Hq Hlq. rewrite (link_leaf s1 _ root H1 p t i d e (k * MM_PAGE_SIZE)); try done; try lia.
    subst s1. rewrite (fresh_walk s o root H); [|done|done|done|by eapply upath_app|lia].
    destruct (walk s root q) as [u|] eqn:Hu; [|done]. cbn. unfold pte.
    rewrite (fresh_ent s o root H); [done..|]. eapply Hnr; [by eapply upath_app|lia|done].
  - apply insert_subseteq. apply (free_not_owned _ _ k (sp_phys _ _ _ H)). by exists pg.
  - intros j q Hj Hja. subst s1. cbn [set_entry set_tables vm_phys fresh_table claim mm_pages].
    rewrite lookup_insert_ne; [done|]. intros ->. congruence.
  - subst s1. cbn. lia.
Qed.

(** ** Writing a leaf *)
Definition leaf_entry (phys flags : Z) : Z :=
  Z.lor (Z.lor (Z.land phys MM_PAGE_MASK) (Z.land flags MM_PTE_FLAGS_MASK)) MM_PAGE_PRESENT.

Lemma page_mask_aligned a : Z.land a MM_PAGE_MASK mod 0x1000 = 0.
Proof.
  change 0x1000 with (2 ^ 12). rewrite <- Z.land_ones by lia. rewrite <- Z.land_assoc.
  change (Z.land MM_PAGE_MASK (Z.ones 12)) with 0. apply Z.land_0_r.
Qed.

Lemma page_mask_range a : 0 <= a < 2 ^ 63 -> Z.land a MM_PAGE_MASK = a - a mod 0x1000.
Proof.
  intros Ha. change 0x1000 with (2 ^ 12). rewrite <- land_lnot_ones by lia.
  apply Z.bits_inj'. intros n Hn. rewrite !Z.land_spec, PAGE_MASK_spec, Z.lnot_spec by lia.
  rewrite Z.testbit_ones_nonneg by lia.
  destruct (Z.ltb_spec n 12), (Z.leb_spec 12 n), (Z.ltb_spec n 64); cbn; try lia; try done.
  rewrite (testbit_high a 63 n) by lia. done.
Qed.

Lemma leaf_entry_alt phys flags :
  leaf_entry phys flags =
    Z.lor (Z.land phys MM_PAGE_MASK) (Z.land (Z.lor flags MM_PAGE_PRESENT) MM_PTE_FLAGS_MASK).
Proof. unfold leaf_entry. rewrite <- Z.lor_assoc. f_equal. by rewrite Z.land_lor_distr_l. Qed.

Lemma leaf_entry_child phys flags : 0 <= phys < 2 ^ 63 ->
  child (leaf_entry phys flags) = phys - phys mod 0x1000.
Proof.
  intros Hp. rewrite leaf_entry_alt. pose proof (page_mask_range phys Hp) as E.
  pose proof (Z.mod_pos_bound phys 0x1000). pose proof (Z.mod_le phys 0x1000).
  rewrite child_entry; [done|lia|apply page_mask_aligned].
Qed.

Lemma leaf_entry_present phys flags : has MM_PAGE_PRESENT (leaf_entry phys flags) = true.
Proof.
  unfold MM_PAGE_PRESENT. rewrite has_testbit by lia. unfold leaf_entry.
  rewrite Z.lor_spec. apply orb_true_r.
Qed.

Section set_leaf.
Context (s : vm) (o : gmap Z page_usage) (root : Z) (Hok : space_ok s o root).
Context (v t : Z) (Hu : user_addr v) (Ht : walk s root (vpath v) = Some t).

(** The state with the leaf entry of [v] set to [e]. *)
Abbreviation s' e := (set_entry t (vpti v) e s).

Lemma set_leaf_walk e v' : user_addr v' -> walk (s' e) root (vpath v') = walk s root (vpath v').
Proof using All.
  intros Hu'. eapply walk_set_entry; [done|by apply vpath_upath|cbn; lia|done| |cbn; lia|].
  - eapply upath_app, vpath_upath, Hu'.
  - by apply not_prefix_short.
Qed.

Lemma set_leaf_same e : leaf (s' e) root v = if has MM_PAGE_PRESENT e then Some e else None.
Proof using All.
  unfold leaf. rewrite set_leaf_walk, Ht by done. cbn. unfold pte.
  destruct (sp_ent _ _ _ (vpath v) t (vpti v) Hok (vpath_upath v Hu) ltac:(cbn; lia) Ht) as [e0 He0].
  by rewrite (ent_set_entry_eq _ _ _ _ e0).
Qed.

Lemma set_leaf_other e v' : user_addr v' ->
  AMD64_MM_STRIPSX v' / MM_PAGE_SIZE <> AMD64_MM_STRIPSX v / MM_PAGE_SIZE ->
  leaf (s' e) root v' = leaf s root v'.
Proof using All.
  intros Hu' Hne. unfold leaf. rewrite set_leaf_walk by done.
  destruct (walk s root (vpath v')) as [t'|] eqn:Ht'; [|done]. cbn. unfold pte.
  rewrite ent_set_entry; [done|apply index_range..|]. intros -> Heq. apply Hne.
  symmetry. apply vpath_page; [|done].
  eapply (sp_inj _ _ _ Hok); [eapply upath_app, vpath_upath, Hu|eapply upath_app, vpath_upath, Hu'| | |done|done];
    cbn; lia.
Qed.
End set_leaf.

Lemma space_ok_root s o root : space_ok s o root -> 0 <= root < 2 ^ 30.
Proof. intros H. by apply (table_addr_range s o root [] root H upath_nil ltac:(cbn; lia)). Qed.

(** The three directory levels of [mm_map_single]. *)
Definition map_tables (pml4 v : Z) : cmd vm Z :=
  pdpt ← next_table pml4 (pml4_index v);
  pd ← next_table pdpt (pdpt_index v);
  next_table pd (pd_index v).

Lemma keeps_trans n m root s1 o1 s2 o2 s3 o3 :
  keeps n root s1 o1 s2 o2 -> keeps m root s2 o2 s3 o3 -> keeps (n + m) root s1 o1 s3 o3.
Proof.
  intros [K1 K2 K3 K4] [L1 L2 L3 L4]. split; [|by etrans| |lia].
  - intros q j Hq Hl. rewrite L1 by done. by apply K1.
  - intros k pg Hk Ha. apply L3; [by apply K3|done].
Qed.

Lemma keeps_leaf n root s o s' o' v : keeps n root s o s' o' -> user_addr v ->
  leaf s' root v = leaf s root v.
Proof. intros K Hu. apply (kp_leaf _ _ _ _ _ _ K); [by apply vpath_upath|done]. Qed.

Lemma map_tables_run s o root v :
  space_ok s o root -> user_addr v -> 3 <= pages_free (vm_phys s) ->
  exists t s' o', map_tables (MM_VIRTUALIZE root) (AMD64_MM_STRIPSX v) s = Ret (MM_VIRTUALIZE t, s') /\
    space_ok s' o' root /\ walk s' root (vpath v) = Some t /\ keeps 3 root s o s' o'.
Proof.
  intros H Hu Hf. pose proof (vpath_upath v Hu) as Hp. unfold map_tables, vpath in *. cbn zeta in *.
  set (w := AMD64_MM_STRIPSX v) in *.
  destruct (next_table_run s o root [] (pml4_index w) root H) as (t1 & s1 & o1 & E1 & H1 & W1 & K1);
    [by eapply (upath_app [_]) in Hp|cbn; lia|done|lia|].
  rewrite (bind_Ret _ _ _ _ _ E1). pose proof (kp_free _ _ _ _ _ _ K1) as F1.
  destruct (next_table_run s1 o1 root [pml4_index w] (pdpt_index w) t1 H1) as (t2 & s2 & o2 & E2 & H2 & W2 & K2);
    [by eapply (upath_app [_; _]) in Hp|cbn; lia|done|lia|].
  rewrite (bind_Ret _ _ _ _ _ E2). pose proof (kp_free _ _ _ _ _ _ K2) as F2.
  destruct (next_table_run s2 o2 root [pml4_index w; pdpt_index w] (pd_index w) t2 H2)
    as (t3 & s3 & o3 & E3 & H3 & W3 & K3); [by eapply (upath_app [_; _; _]) in Hp|cbn; lia|done|lia|].
  exists t3, s3, o3. split; [done|]. split; [done|]. split; [done|].
  change 3 with (1 + (1 + 1)). eapply keeps_trans; [done|]. by eapply keeps_trans.
Qed.

Lemma map_single_split pml4 v phys flags s :
  mm_map_single pml4 v phys flags s =
    (pt ← map_tables pml4 (AMD64_MM_STRIPSX v);
     e1 ← pte_get pt (vpti v);
     cassert (negb (has MM_PAGE_PRESENT e1));;
     page_refcount_inc phys;;
     pte_set pt (vpti v) (leaf_entry phys flags);;
     mret 0) s.
Proof.
  unfold mm_map_single, map_tables, leaf_entry, vpti. cbv [mbind cmd_mbind cbind].
  destruct (next_table pml4 _ s) as [[? s1]| | |]; [|done..].
  by destruct (next_table _ _ s1) as [[? s2]| | |].
Qed.

(** [mm_map_single] on a page that is already mapped, and on one that is not. *)
Lemma map_single_run s o root v phys flags pg :
  space_ok s o root -> user_addr v -> 3 <= pages_free (vm_phys s) ->
  0 <= phys < 2 ^ 63 ->
  mm_pages (vm_phys s) !! PHYS2PAGE phys = Some pg -> is_alloc pg = true ->
  match leaf s root v with
  | Some _ => mm_map_single (MM_VIRTUALIZE root) v phys flags s = Panic
  | None => exists s' o', mm_map_single (MM_VIRTUALIZE root) v phys flags s = Ret (0, s') /\
      space_ok s' o' root /\ o ⊆ o' /\ leaf s' root v = Some (leaf_entry phys flags) /\
      (forall v', user_addr v' ->
         AMD64_MM_STRIPSX v' / MM_PAGE_SIZE <> AMD64_MM_STRIPSX v / MM_PAGE_SIZE ->
         leaf s' root v' = leaf s root v') /\
      mm_pages (vm_phys s') !! PHYS2PAGE phys =
        Some (mk_page (pg_flags pg) (pg_usage pg) (u64 (pg_refcount pg + 1))) /\
      (forall k q, k <> PHYS2PAGE phys -> mm_pages (vm_phys s) !! k = Some q -> is_alloc q = true ->
         mm_pages (vm_phys s') !! k = Some q) /\
      pages_free (vm_phys s) - 3 <= pages_free (vm_phys s')
  end.
Proof.
  intros H Hu Hf Hph Hpg Ha. rewrite !map_single_split.
  destruct (map_tables_run s o root v H Hu Hf) as (t & s1 & o1 & E & H1 & Hw & K).
  pose proof (vpath_upath v Hu) as Hp. pose proof (keeps_leaf _ _ _ _ _ _ v K Hu) as Hlv.
  destruct (get_level s1 o1 root H1 (vpath v) (vpti v) t Hp ltac:(cbn; lia) Hw) as (e & He & Hg & _).
  assert (leaf s1 root v = if has MM_PAGE_PRESENT e then Some e else None) as Hle.
  { unfold leaf, pte. rewrite Hw. cbn. by rewrite He. }
  rewrite <- Hlv, Hle. destruct (has MM_PAGE_PRESENT e) eqn:Epr.
  { rewrite (bind_Ret _ _ _ _ _ E), (bind_Ret _ _ _ _ _ Hg), Epr. done. }
  pose proof (kp_pages _ _ _ _ _ _ K _ _ Hpg Ha) as Hpg1.
  set (s2 := with_refcount (PHYS2PAGE phys) (u64 (pg_refcount pg + 1)) pg s1).
  assert (space_ok s2 o1 root) as H2 by by apply with_refcount_space.
  pose proof (table_addr_range _ _ _ (vpath v) t H1 (upath_app _ _ Hp) ltac:(cbn; lia) Hw).
  exists (set_entry t (vpti v) (leaf_entry phys flags) s2), o1. split.
  { rewrite (bind_Ret _ _ _ _ _ E), (bind_Ret _ _ _ _ _ Hg), Epr. cbn [negb].
    rewrite (bind_Ret _ _ s1 tt s1) by done. rewrite (bind_Ret _ _ _ _ _ (refcount_inc_run _ _ _ Hpg1)).
    rewrite (bind_Ret _ _ _ tt (set_entry t (vpti v) (leaf_entry phys flags) s2));
      [done|eapply pte_set_run; [lia|exact He]]. }
  assert (walk s2 root (vpath v) = Some t) as Hw2 by exact Hw.
  split; [by eapply (set_leaf_ok s2 o1 root H2)|]. split; [apply K|].
  split; [by rewrite (set_leaf_same s2 o1 root H2) , leaf_entry_present by done|]. split.
  - intros v' Hv' Hne. rewrite (set_leaf_other s2 o1 root H2) by done.
    change (leaf s2 root v') with (leaf s1 root v'). by eapply keeps_leaf.
  - split; [apply lookup_insert_eq|]. split; [|apply (kp_free _ _ _ _ _ _ K)].
    intros k q Hk Hq Hqa. cbn. rewrite lookup_insert_ne by done. by apply (kp_pages _ _ _ _ _ _ K).
Qed.

(** ** Unmapping *)
Lemma umap_single_run s o root v :
  space_ok s o root -> user_addr v ->
  match leaf s root v with
  | None => mm_umap_single (MM_VIRTUALIZE root) v s = Ret (MM_NADDR, s)
  | Some e => forall pg, mm_pages (vm_phys s) !! PHYS2PAGE (child e) = Some pg ->
      is_alloc pg = true -> pg_refcount pg <> 0 ->
      exists t, walk s root (vpath v) = Some t /\
        mm_umap_single (MM_VIRTUALIZE root) v s =
          Ret (child e, with_refcount (PHYS2PAGE (child e)) (pg_refcount pg - 1) pg (set_entry t (vpti v) 0 s))
  end.
Proof.
  intros Hok Hu. pose proof (vpath_upath v Hu) as Hp. unfold leaf, vpti, vpath in *. cbn zeta in *.
  unfold mm_umap_single. set (w := AMD64_MM_STRIPSX v) in *. cbn zeta.
  destruct (get_level s o root Hok [] (pml4_index w) root) as (e4 & He4 & Hg4 & Hw4 & Hh4);
    [by eapply (upath_app [_]) in Hp|cbn; lia|done|].
  rewrite (bind_Ret _ _ _ _ _ Hg4), (walk_cons_get _ _ _ e4) by done.
  destruct (has MM_PAGE_PRESENT e4) eqn:E4; [|done]. cbn [negb app] in *. rewrite Hh4 by (done || cbn; lia).
  destruct (get_level s o root Hok [pml4_index w] (pdpt_index w) (child e4)) as (e3 & He3 & Hg3 & Hw3 & Hh3);
    [by eapply (upath_app [_; _]) in Hp|cbn; lia|by apply Hw4|].
  rewrite (bind_Ret _ _ _ _ _ Hg3), (walk_cons_get _ _ _ e3) by done.
  destruct (has MM_PAGE_PRESENT e3) eqn:E3; [|done]. cbn [negb app] in *. rewrite Hh3 by (done || cbn; lia).
  destruct (get_level s o root Hok [pml4_index w; pdpt_index w] (pd_index w) (child e3))
    as (e2 & He2 & Hg2 & Hw2 & Hh2); [by eapply (upath_app [_; _; _]) in Hp|cbn; lia|by apply Hw3|].
  rewrite (bind_Ret _ _ _ _ _ Hg2), (walk_cons_get _ _ _ e2) by done.
  destruct (has MM_PAGE_PRESENT e2) eqn:E2; [|done]. cbn [negb app] in *. rewrite Hh2 by (done || cbn; lia).
  destruct (get_level s o root Hok [pml4_index w; pdpt_index w; pd_index w] (pt_index w) (child e2))
    as (e1 & He1 & Hg1 & _ & _); [done|cbn; lia|by apply Hw2|].
  rewrite (bind_Ret _ _ _ _ _ Hg1). cbn [walk foldl mbind option_bind]. unfold pte. rewrite He1.
  cbn [mbind option_bind]. destruct (has MM_PAGE_PRESENT e1); [|done]. intros pg Hpg Ha Hr.
  exists (child e2). split; [done|]. cbn [negb].
  pose proof (table_addr_range _ _ _ [pml4_index w; pdpt_index w; pd_index w] (child e2) Hok
    (upath_app [_; _; _] [_] Hp) ltac:(cbn; lia) (Hw2 eq_refl)) as Hrng.
  rewrite (bind_Ret _ _ _ tt (set_entry (child e2) (pt_index w) 0 s))
    by (eapply pte_set_run; [unfold child in *; lia|exact He1]).
  by rewrite (bind_Ret _ _ _ _ _ (refcount_dec_run (set_entry (child e2) (pt_index w) 0 s) (child e1) pg Hpg Hr)).
Qed.

(** ** Searching for free virtual pages *)

(** The pages below the end of the user half. *)
Definition USER_PAGES : Z := AMD64_PML4I_USER_END * 2 ^ 27.

Lemma user_page_addr k : 0 <= k < USER_PAGES ->
  u64 (k * MM_PAGE_SIZE) = k * MM_PAGE_SIZE /\ user_addr (k * MM_PAGE_SIZE).
Proof.
  unfold USER_PAGES, AMD64_PML4I_USER_END, MM_PAGE_SIZE. intros Hk. split.
  { apply uwrap_small. lia. }
  unfold user_addr, pml4_index, index_at, AMD64_MM_STRIPSX, AMD64_PML4I_USER_END, MM_PML4I_SHIFT.
  change MM_PTE_INDEX_MASK with (Z.ones 9). change 0xFFFFFFFFFFFF with (Z.ones 48).
  rewrite !Z.land_ones, Z.shiftr_div_pow2 by lia.
  rewrite (Z.mod_small (k * 0x1000) (2 ^ 48)) by lia. rewrite Z.mod_small.
  - apply Z.div_lt_upper_bound; lia.
  - split; [apply Z.div_pos; lia|]. apply Z.div_lt_upper_bound; lia.
Qed.

Definition page_unmapped (s : vm) (root k : Z) : Prop := leaf s root (k * MM_PAGE_SIZE) = None.
Definition run_unmapped (s : vm) (root k n : Z) : Prop :=
  forall j, k <= j < k + n -> page_unmapped s root j.

(** A translated address is never [MM_NADDR]. *)
Lemma translation_mapped v l : (translation v l).1 = MM_NADDR <-> l = None.
Proof.
  split; [|by intros ->]. destruct l as [e|]; [|done]. cbn. intros E. exfalso.
  assert (Z.testbit (Z.lor (child e) (Z.land (AMD64_MM_STRIPSX v) MM_PAGE_OFFSET_MASK)) 63 = true) as Hb
    by by rewrite E.
  rewrite Z.lor_spec, Z.land_spec in Hb. change MM_PAGE_OFFSET_MASK with (Z.ones 12) in Hb.
  rewrite Z.testbit_ones_nonneg, andb_false_r, orb_false_r in Hb by lia.
  pose proof (child_range e). rewrite (testbit_high (child e) 63) in Hb by lia. done.
Qed.

Section vmfind_run.
Context (s : vm) (o : gmap Z page_usage) (root : Z) (Hok : space_ok s o root).

Lemma vm_unmapped_run n : forall k, 0 <= k -> k + Z.of_nat n <= USER_PAGES ->
  exists b, vm_unmapped (MM_VIRTUALIZE root) k n s = Ret (b, s) /\
    (b = true <-> run_unmapped s root k (Z.of_nat n)).
Proof using Hok.
  induction n as [|n IH]; intros k Hk Hn.
  { exists true. split; [done|]. split; [intros _ j ?; lia|done]. }
  destruct (user_page_addr k) as [E Hu]; [lia|]. cbn [vm_unmapped]. rewrite E.
  rewrite (bind_Ret _ _ _ _ _ (map_get_run s o root Hok _ Hu)).
  destruct (leaf s root (k * MM_PAGE_SIZE)) as [e|] eqn:El.
  - rewrite bool_decide_eq_true_2.
    + exists false. split; [done|]. split; [done|]. intros Hr.
      specialize (Hr k ltac:(lia)). unfold page_unmapped in Hr. congruence.
    + intros X. by apply translation_mapped in X.
  - rewrite bool_decide_eq_false_2 by (intros X; by apply X).
    assert (k + 1 < 2 ^ 64) by (unfold USER_PAGES, AMD64_PML4I_USER_END in *; lia).
    rewrite uwrap_small by lia. destruct (IH (k + 1)) as (b & -> & Hb); [lia|lia|].
    exists b. split; [done|]. rewrite Hb. split; intros Hr j Hj.
    + destruct (decide (j = k)) as [->|]; [done|]. apply Hr. lia.
    + apply Hr. lia.
Qed.

(** The search from page [k] with enough fuel. *)
Lemma vmfind_from_run lim npages fuel : forall k,
  0 <= npages -> 0 <= k -> lim <= USER_PAGES -> npages <= USER_PAGES -> lim - k < Z.of_nat fuel ->
  k <= USER_PAGES -> (0 < fuel)%nat ->
  (exists b, vmfind_from (MM_VIRTUALIZE root) lim npages fuel k s = Ret (b * MM_PAGE_SIZE, s) /\
     k <= b /\ b + npages <= lim /\ run_unmapped s root b npages /\
     forall j, k <= j < b -> ~ run_unmapped s root j npages) \/
  (vmfind_from (MM_VIRTUALIZE root) lim npages fuel k s = Ret (MM_NADDR, s) /\
     forall j, k <= j -> j + npages <= lim -> ~ run_unmapped s root j npages).
Proof using Hok.
  induction fuel as [|fuel IH]; intros k Hnp Hk Hlim Hnl Hfuel Hku Hpos; [lia|]. cbn [vmfind_from].
  assert (2 * USER_PAGES < 2 ^ 52) as Hsmall by done.
  rewrite (uwrap_small 64 (k + npages)) by lia.
  destruct (Z.leb_spec (k + npages) lim) as [Hle|Hgt].
  - destruct (vm_unmapped_run (Z.to_nat npages) k) as (b & E & Hb); [lia|lia|].
    rewrite Z2Nat.id in Hb by lia. rewrite (bind_Ret _ _ _ _ _ E). destruct b.
    + left. exists k. rewrite uwrap_small by (unfold MM_PAGE_SIZE; lia).
      split; [done|]. split; [lia|]. split; [done|]. split; [by apply Hb|]. intros; lia.
    + assert (~ run_unmapped s root k npages) as Hno by (intros Hr; by apply Hb in Hr).
      destruct (decide (npages = 0)) as [->|]; [destruct Hno; intros j ?; lia|].
      rewrite (uwrap_small 64 (k + 1)) by lia.
      destruct (IH (k + 1)) as [(b & -> & ? & ? & ? & Hl)|[-> Hl]]; [lia..| |].
      * left. exists b. split; [done|]. split; [lia|]. split; [done|]. split; [done|].
        intros j Hj. destruct (decide (j = k)) as [->|]; [done|]. apply Hl. lia.
      * right. split; [done|]. intros j Hj Hj'. destruct (decide (j = k)) as [->|]; [done|]. apply Hl; lia.
  - right. split; [done|]. intros j ? ?. lia.
Qed.
End vmfind_run.

(** ** A new address space *)

(** A zeroed table in a frame allocated for paging is an address space that maps
    nothing. *)
Lemma empty_space_ok s o k :
  phys_ok (vm_phys s) o -> (forall i u, o !! i = Some u -> LOW_PAGE <= i < PHYS_MAX_PAGES) ->
  o !! k = Some PU_PAGING ->
  vm_tables s !! (k * MM_PAGE_SIZE) = Some (replicate (Z.to_nat MM_PTE_COUNT) 0) ->
  space_ok s o (k * MM_PAGE_SIZE) /\ forall v, user_addr v -> leaf s (k * MM_PAGE_SIZE) v = None.
Proof.
  intros Hph Hlow Ho Ht. pose proof (Hlow _ _ Ho) as Hk.
  assert (forall i, 0 <= i < MM_PTE_COUNT -> ent s (k * MM_PAGE_SIZE) i = Some 0) as Hz.
  { intros i Hi. unfold ent. rewrite Ht. cbn [mbind option_bind]. apply lookup_replicate_2. lia. }
  assert (forall p i, upath (p ++ [i]) -> walk s (k * MM_PAGE_SIZE) (p ++ [i]) = None) as Hnone.
  { induction p as [|j p IH] using rev_ind; intros i Hp; rewrite walk_snoc.
    - cbn. unfold step, pte. by rewrite Hz by by apply upath_last in Hp.
    - rewrite IH; [done|]. by apply upath_app in Hp. }
  assert (forall p t, upath p -> walk s (k * MM_PAGE_SIZE) p = Some t -> p = [] /\ t = k * MM_PAGE_SIZE) as Hroot.
  { intros p t Hp Hw. destruct p as [|i p _] using rev_ind; [by injection Hw as <-|].
    by rewrite Hnone in Hw. }
  split.
  - split; [done|done| | |].
    + intros p t Hp _ [-> ->]%Hroot; [|done]. split; [by eexists|]. split; [by apply Z_mod_mult|].
      rewrite frame_of. split; [|done]. pose proof low_max. unfold MM_PAGE_SIZE. lia.
    + intros p q t Hp Hq _ _ [-> ->]%Hroot [-> _]%Hroot; done.
    + intros p i t e Hp _ [-> ->]%Hroot; [|by eapply upath_app]. rewrite Hz by by apply (upath_last [] i).
      by intros [= <-].
  - intros v Hu. unfold leaf. destruct (walk s _ (vpath v)) as [t|] eqn:E; [|done].
    apply Hroot in E as [? _]; [done|]. eapply upath_app, vpath_upath, Hu.
Qed.

(** ** Sample address space: root table in frame [0x1000], one private page in frame
       [0x1001], eight more frames free. *)
Definition sample_free : list Z :=
  [0x1000; 0x1001; 0x1002; 0x1003; 0x1004; 0x1005; 0x1006; 0x1007; 0x1008; 0x1009].
Definition sample_vm : vm :=
  mk_vm (claim PU_PRIVATE 0x1001 free_page (claim PU_PAGING 0x1000 free_page (phys_many sample_free)))
    {[ 0x1000 * MM_PAGE_SIZE := replicate (Z.to_nat MM_PTE_COUNT) 0 ]}.
Definition sample_owned : gmap Z page_usage := <[0x1001 := PU_PRIVATE]> (<[0x1000 := PU_PAGING]> ∅).
Definition sample_root : Z := 0x1000 * MM_PAGE_SIZE.
Definition sample_page : Z := 0x1001 * MM_PAGE_SIZE.

Lemma sample_phys_ok : phys_ok (vm_phys sample_vm) sample_owned.
Proof.
  assert (NoDup sample_free) as Hn by (apply (bool_decide_unpack _); exact I).
  assert (Forall (fun k => LOW_PAGE <= k < PHYS_MAX_PAGES) sample_free) as Hr
    by (apply (bool_decide_unpack _); exact I).
  pose proof (phys_many_ok sample_free Hn Hr) as H0.
  pose proof (claim_ok _ _ PU_PAGING 0x1000 free_page H0 (lookup_insert_eq _ _ _) eq_refl) as H1.
  refine (claim_ok _ _ PU_PRIVATE 0x1001 free_page H1 _ eq_refl).
  cbn [claim mm_pages]. rewrite lookup_insert_ne by done.
  cbn [phys_many mm_pages sample_free foldr]. rewrite lookup_insert_ne by done. apply lookup_insert_eq.
Qed.

Lemma sample_space : space_ok sample_vm sample_owned sample_root /\
  forall v, user_addr v -> leaf sample_vm sample_root v = None.
Proof.
  apply empty_space_ok; [exact sample_phys_ok| |reflexivity|apply lookup_insert_eq].
  unfold sample_owned. intros i u [[<- _]|[_ [[<- _]|[_ Hx]]%lookup_insert_Some]]%lookup_insert_Some; [by split|by split|].
  by rewrite lookup_empty in Hx.
Qed.

Lemma sample_page_at : mm_pages (vm_phys sample_vm) !! PHYS2PAGE sample_page =
  Some (mk_page PG_ALLOC PU_PRIVATE 0).
Proof. apply lookup_insert_eq. Qed.

(** Free frames of the sample carry no flags. *)
Lemma sample_free_flags k p :
  mm_pages (vm_phys sample_vm) !! k = Some p -> is_alloc p = false -> pg_flags p = 0.
Proof.
  cbn [sample_vm vm_phys claim mm_pages]. intros [[_ <-]|[_ Hp]]%lookup_insert_Some Hf; [done|].
  apply lookup_insert_Some in Hp as [[_ <-]|[_ Hp]]; [done|]. revert Hp. cbn [phys_many mm_pages].
  generalize sample_free. intros l. induction l as [|x l IH]; cbn [foldr].
  - intros ->%boot_pages_alloc. done.
  - intros [[_ <-]|[_ Hp]]%lookup_insert_Some; [done|by apply IH].
Qed.

(** ** Claims *)

Lemma leaf_entry_flags phys flags : 0 <= phys < 2 ^ 63 ->
  Z.land (leaf_entry phys flags) MM_PTE_FLAGS_MASK =
    Z.land (Z.lor flags MM_PAGE_PRESENT) MM_PTE_FLAGS_MASK.
Proof.
  intros Hp. rewrite leaf_entry_alt. apply Z.bits_inj'. intros n Hn.
  rewrite !Z.land_spec, Z.lor_spec, !Z.land_spec, PAGE_MASK_spec, FLAGS_MASK_spec by done.
  destruct (Z.eqb_spec n 63) as [->|Hne].
  - rewrite (testbit_high phys 63) by lia. cbn. by rewrite !andb_true_r.
  - rewrite orb_false_r. destruct (Z.ltb_spec n 12).
    + replace (12 <=? n) with false by (symmetry; apply Z.leb_gt; lia). cbn.
      by rewrite andb_false_r, !andb_true_r.
    + by rewrite !andb_false_r.
Qed.

(** C22: Mapping an unmapped user page to an allocated frame succeeds when three
    frames are left for tables; afterwards [mm_map_get] translates the page to that
    frame with the requested flags plus "present", the translation of every other
    user page is unchanged, the frame's reference count is one higher and the tables
    again form a well-formed tree. *)
Theorem paging_map_then_get s o root v phys flags pg :
  space_ok s o root -> user_addr v -> 3 <= pages_free (vm_phys s) -> 0 <= phys < 2 ^ 63 ->
  mm_pages (vm_phys s) !! PHYS2PAGE phys = Some pg -> is_alloc pg = true ->
  mm_map_get (MM_VIRTUALIZE root) v s = Ret ((MM_NADDR, None), s) ->
  exists s' o', mm_map_single (MM_VIRTUALIZE root) v phys flags s = Ret (0, s') /\
    space_ok s' o' root /\
    mm_map_get (MM_VIRTUALIZE root) v s' =
      Ret ((Z.lor (phys - phys mod 0x1000) (Z.land (AMD64_MM_STRIPSX v) MM_PAGE_OFFSET_MASK),
            Some (Z.land (Z.lor flags MM_PAGE_PRESENT) MM_PTE_FLAGS_MASK)), s') /\
    (forall v', user_addr v' ->
       AMD64_MM_STRIPSX v' / MM_PAGE_SIZE <> AMD64_MM_STRIPSX v / MM_PAGE_SIZE ->
       exists r, mm_map_get (MM_VIRTUALIZE root) v' s = Ret (r, s) /\
         mm_map_get (MM_VIRTUALIZE root) v' s' = Ret (r, s')) /\
    mm_pages (vm_phys s') !! PHYS2PAGE phys =
      Some (mk_page (pg_flags pg) (pg_usage pg) (u64 (pg_refcount pg + 1))).
Proof.
  intros H Hu Hf Hp Hpg Ha Hget. rewrite (map_get_run s o root H v Hu) in Hget.
  assert (leaf s root v = None) as Hl.
  { apply (translation_mapped v). injection Hget as E. by rewrite E. }
  pose proof (map_single_run s o root v phys flags pg H Hu Hf Hp Hpg Ha) as Hrun.
  rewrite Hl in Hrun. destruct Hrun as (s' & o' & E & H' & _ & Hlv & Hother & Hrc & _).
  exists s', o'. split; [done|]. split; [done|]. split; [|split; [|done]].
  - rewrite (map_get_run s' o' root H' v Hu), Hlv. cbn [translation].
    by rewrite leaf_entry_child, leaf_entry_flags.
  - intros v' Hu' Hne. exists (translation v' (leaf s root v')).
    rewrite (map_get_run s o root H v' Hu'), (map_get_run s' o' root H' v' Hu'), Hother by done. done.
Qed.

Lemma paging_map_then_get_witness :
  exists s', mm_map_single (MM_VIRTUALIZE sample_root) 0x400000 sample_page MM_PAGE_USER sample_vm = Ret (0, s') /\
    mm_map_get (MM_VIRTUALIZE sample_root) 0x400123 s' = Ret ((0x1001123, Some 5), s').
Proof.
  destruct sample_space as [H Hl].
  destruct (paging_map_then_get sample_vm sample_owned sample_root 0x400123 sample_page MM_PAGE_USER
    (mk_page PG_ALLOC PU_PRIVATE 0) H) as (s' & o' & E & _ & G & _).
  - reflexivity.
  - discriminate.
  - done.
  - exact sample_page_at.
  - reflexivity.
  - rewrite (map_get_run _ _ _ H) by reflexivity. by rewrite Hl.
  - exists s'. split; [exact E|exact G].
Defined.

(** Mapping a page and unmapping it again returns the frame's address and
    restores the translation of every user page and the reference count of the
    frame; mapping over a present page stops in an assertion, and unmapping an absent
    page changes nothing and returns [MM_NADDR]. *)
Theorem paging_map_umap_roundtrip s o root v phys flags pg s1 :
  space_ok s o root -> user_addr v -> 3 <= pages_free (vm_phys s) -> 0 <= phys < 2 ^ 63 ->
  mm_pages (vm_phys s) !! PHYS2PAGE phys = Some pg -> is_alloc pg = true ->
  0 <= pg_refcount pg < 2 ^ 64 - 1 ->
  mm_map_single (MM_VIRTUALIZE root) v phys flags s = Ret (0, s1) ->
  (forall phys' flags' pg', 0 <= phys' < 2 ^ 63 -> 3 <= pages_free (vm_phys s1) ->
     mm_pages (vm_phys s1) !! PHYS2PAGE phys' = Some pg' -> is_alloc pg' = true ->
     mm_map_single (MM_VIRTUALIZE root) v phys' flags' s1 = Panic) /\
  mm_umap_single (MM_VIRTUALIZE root) v s = Ret (MM_NADDR, s) /\
  exists s2 o2, mm_umap_single (MM_VIRTUALIZE root) v s1 = Ret (phys - phys mod 0x1000, s2) /\
    space_ok s2 o2 root /\ (forall v', user_addr v' -> leaf s2 root v' = leaf s root v') /\
    mm_pages (vm_phys s2) !! PHYS2PAGE phys = Some pg.
Proof.
  intros H Hu Hf Hp Hpg Ha Hrc E.
  pose proof (map_single_run s o root v phys flags pg H Hu Hf Hp Hpg Ha) as Hrun.
  pose proof (umap_single_run s o root v H Hu) as Hun.
  destruct (leaf s root v) as [e|] eqn:Hl; [congruence|].
  destruct Hrun as (s' & o' & E' & H1 & _ & Hlv & Hother & Hpg1 & _).
  rewrite E in E'. injection E' as <-. split; [|split; [done|]].
  { intros phys' flags' pg' Hp' Hf' Hpg' Ha'.
    pose proof (map_single_run s1 o' root v phys' flags' pg' H1 Hu Hf' Hp' Hpg' Ha') as Hrun.
    by rewrite Hlv in Hrun. }
  pose proof (umap_single_run s1 o' root v H1 Hu) as Hun1. rewrite Hlv in Hun1.
  rewrite leaf_entry_child in Hun1 by done.
  assert (PHYS2PAGE (phys - phys mod 0x1000) = PHYS2PAGE phys) as Hpp.
  { unfold PHYS2PAGE. change MM_PAGE_SIZE with 0x1000. pose proof (Z.div_mod phys 0x1000).
    replace (phys - phys mod 0x1000) with (phys / 0x1000 * 0x1000) by lia. by apply Z.div_mul. }
  rewrite Hpp in Hun1. rewrite uwrap_small in Hpg1 by lia.
  destruct (Hun1 _ Hpg1) as (t & Hw & Eu); [done|cbn; lia|].
  cbn [pg_flags pg_usage pg_refcount] in Eu.
  eexists _, o'. split; [exact Eu|]. split; [|split].
  - apply with_refcount_space; [|done|done]. by eapply set_leaf_ok; [done|apply vpath_upath| |].
  - intros v' Hu'. set (s2 := with_refcount _ _ _ _).
    change (leaf s2 root v') with (leaf (set_entry t (vpti v) 0 s1) root v').
    destruct (decide (AMD64_MM_STRIPSX v' / MM_PAGE_SIZE = AMD64_MM_STRIPSX v / MM_PAGE_SIZE)) as [Heq|Hne].
    + rewrite (leaf_page _ _ v' v Heq), (leaf_page s root v' v Heq), Hl.
      by rewrite (set_leaf_same s1 o' root H1).
    + rewrite (set_leaf_other s1 o' root H1) by done. by apply Hother.
  - cbn [with_refcount set_phys set_pages vm_phys mm_pages]. rewrite lookup_insert_eq.
    cbn. f_equal. destruct pg as [fl us rc]. cbn. f_equal. lia.
Qed.

Lemma paging_map_umap_roundtrip_witness :
  exists s1 s2, mm_map_single (MM_VIRTUALIZE sample_root) 0x400000 sample_page MM_PAGE_USER sample_vm = Ret (0, s1) /\
    mm_umap_single (MM_VIRTUALIZE sample_root) 0x400000 s1 = Ret (sample_page, s2).
Proof.
  assert (user_addr 0x400000) as Hu by reflexivity.
  assert (3 <= pages_free (vm_phys sample_vm)) as Hf by discriminate.
  assert (0 <= sample_page < 2 ^ 63) as Hp by done.
  assert (0 <= pg_refcount (mk_page PG_ALLOC PU_PRIVATE 0) < 2 ^ 64 - 1) as Hrc by done.
  destruct sample_space as [H Hl].
  pose proof (map_single_run sample_vm sample_owned sample_root 0x400000 sample_page MM_PAGE_USER
    (mk_page PG_ALLOC PU_PRIVATE 0) H Hu Hf Hp sample_page_at eq_refl) as Hrun.
  rewrite (Hl 0x400000 Hu) in Hrun. destruct Hrun as (s1 & o1 & E & _).
  pose proof (paging_map_umap_roundtrip _ _ _ _ _ _ _ s1 H Hu Hf Hp sample_page_at eq_refl Hrc E)
    as (_ & _ & s2 & o2 & E2 & _).
  exists s1, s2. split; [exact E|exact E2].
Defined.

(** The search as [vmfind] starts it. *)
Lemma vmfind_run s o root from to npages :
  space_ok s o root -> 0 <= from -> to / MM_PAGE_SIZE <= USER_PAGES ->
  from / MM_PAGE_SIZE <= USER_PAGES -> 0 <= npages <= USER_PAGES ->
  (exists b, vmfind (MM_VIRTUALIZE root) from to npages s = Ret (b * MM_PAGE_SIZE, s) /\
     from / MM_PAGE_SIZE <= b /\ b + npages <= to / MM_PAGE_SIZE /\ run_unmapped s root b npages /\
     forall j, from / MM_PAGE_SIZE <= j < b -> ~ run_unmapped s root j npages) \/
  (vmfind (MM_VIRTUALIZE root) from to npages s = Ret (MM_NADDR, s) /\
     forall j, from / MM_PAGE_SIZE <= j -> j + npages <= to / MM_PAGE_SIZE -> ~ run_unmapped s root j npages).
Proof.
  intros H Hfrom Ht Hf Hn. unfold vmfind.
  assert (0 <= from / MM_PAGE_SIZE) by (apply Z.div_pos; [lia|done]).
  apply (vmfind_from_run s o root H); lia.
Qed.

(** [vmfind] on a user range always returns: either the lowest page-aligned
    address of the range from which [npages] consecutive pages are unmapped and lie
    in the range, or [MM_NADDR] when there is none; it changes nothing. *)
Theorem vmfind_first_fit s o root from to npages :
  space_ok s o root -> 0 <= from -> to / MM_PAGE_SIZE <= USER_PAGES ->
  from / MM_PAGE_SIZE <= USER_PAGES -> 0 <= npages <= USER_PAGES ->
  (exists b, vmfind (MM_VIRTUALIZE root) from to npages s = Ret (b * MM_PAGE_SIZE, s) /\
     from / MM_PAGE_SIZE <= b /\ b + npages <= to / MM_PAGE_SIZE /\ run_unmapped s root b npages /\
     forall j, from / MM_PAGE_SIZE <= j < b -> ~ run_unmapped s root j npages) \/
  (vmfind (MM_VIRTUALIZE root) from to npages s = Ret (MM_NADDR, s) /\
     forall j, from / MM_PAGE_SIZE <= j -> j + npages <= to / MM_PAGE_SIZE -> ~ run_unmapped s root j npages).
Proof.
  intros. by apply (vmfind_run s o root).
Qed.

Lemma vmfind_first_fit_witness :
  exists b, vmfind (MM_VIRTUALIZE sample_root) 0x100000000 0x400000000 4 sample_vm =
    Ret (b * MM_PAGE_SIZE, sample_vm) /\ 0x100000 <= b.
Proof.
  destruct sample_space as [H Hl].
  destruct (vmfind_first_fit sample_vm sample_owned sample_root 0x100000000 0x400000000 4 H)
    as [(b & E & Hb & _)|[_ Hno]]; [done|done|done|done| |].
  - exists b. split; [exact E|exact Hb].
  - exfalso. apply (Hno 0x100000); [done|done|]. intros j Hj. apply Hl. apply user_page_addr.
    split; [lia|]. assert (0x100004 < USER_PAGES) as Hx by done. lia.
Defined.

(** A page directory whose entries 1 and 3 are 2 MiB pages. *)
Definition huge_vm : vm :=
  mk_vm phys_zero
    (<[0x3000 := <[3%nat := 0x7FE00000 + 0x83]> (<[1%nat := 0x40000000 + 0x83]> (replicate 512 0))]>
     (<[0x2000 := <[0%nat := 0x3003]> (replicate 512 0)]>
      {[ 0x1000 := <[0%nat := 0x2003]> (replicate 512 0) ]})).

(** A present 2 MiB mapping is translated through the wrong directory entry: with
    entry 1 of a page directory mapping the 2 MiB page at [0x40000000], address
    [0x203000] lies in it, but [mm_map_get] indexes the directory with the page table
    index 3 and answers with what entry 3 holds. *)
Theorem paging_huge_page_misread :
  ent huge_vm 0x3000 (pd_index 0x203000) = Some 0x40000083 /\
  mm_map_get (MM_VIRTUALIZE 0x1000) 0x203000 huge_vm = Ret ((0x7FE03000, None), huge_vm).
Proof. split; vm_compute; reflexivity. Qed.
