(* ===== verification/Mmap.v ===== *)
(** * Memory mappings and the page-fault handler: [sys/mem/shmem.c] and [do_pfault]
      of [arch/amd64/hw/exc.c]

    The state adds to the paging state the contents of frames and the list of shared
    memory chunks.  The heap is reached through [kmalloc]; whether a request succeeds
    is an argument.  The [mmap] operation of a block device is a parameter. *)

From S2P Require Import Prelude Defs Phys Paging.

(** ** Constants: [include/user/mman.h], [include/sys/thread.h], [exc.c] *)
Definition MAP_ANONYMOUS : Z := 1.
Definition MAP_SHARED : Z := 2.
Definition MAP_FIXED : Z := 8.
Definition PROT_WRITE : Z := 2.
Definition THREAD_MAX_FDS : Z := 16.
Definition X86_PF_WRITE : Z := 2.

Record shm_chunk := mk_shm { shm_id : Z; shm_pages : list Z }.

Record mem := mk_mem {
  m_vm : vm;
  m_data : gmap Z (list Z);         (* contents of frames, by physical address *)
  g_shm_chunks : list shm_chunk;
  shmid : Z;
}.
Definition set_vm v m := mk_mem v (m_data m) (g_shm_chunks m) (shmid m).
Definition set_data d m := mk_mem (m_vm m) d (g_shm_chunks m) (shmid m).
Definition on_vm {A} (c : cmd vm A) : cmd mem A := czoom m_vm set_vm c.
Definition on_mphys {A} (c : cmd phys A) : cmd mem A := on_vm (on_phys c).

(** ** [sys_mmap_anon] *)
Definition mmap_anon_page (space base map_usage_flags i : Z) (map_usage : page_usage) : cmd mem unit :=
  phys ← on_mphys (mm_phys_alloc_page map_usage);
  cassert (bool_decide (phys ≠ MM_NADDR));;
  on_mphys (pg ← page_at (PHYS2PAGE phys);
            put_page (PHYS2PAGE phys)
              (mk_page (Z.lor (pg_flags pg) PG_MMAPED) (pg_usage pg) (pg_refcount pg)));;
  r ← on_vm (mm_map_single space (u64 (base + i * MM_PAGE_SIZE)) phys map_usage_flags);
  cassert (bool_decide (r = 0)).

Definition mmap_flags (prot : Z) : Z :=
  if has PROT_WRITE prot then Z.lor MM_PAGE_USER MM_PAGE_WRITE else MM_PAGE_USER.
Definition mmap_usage (flags : Z) : page_usage :=
  if has MAP_SHARED flags then PU_SHARED else PU_PRIVATE.

Definition sys_mmap_anon (space base page_count prot flags : Z) : cmd mem Z :=
  for_range (fun i => mmap_anon_page space base (mmap_flags prot) i (mmap_usage flags))
    (Z.to_nat page_count) 0;;
  mret 0.

(** ** [mmap_findmem] *)
Fixpoint fixed_free (space base : Z) (n : nat) (i : Z) : cmd vm bool :=
  match n with
  | O => mret true
  | S n =>
      r ← mm_map_get space (u64 (base + i * MM_PAGE_SIZE));
      if bool_decide (r.1 ≠ MM_NADDR) then mret false else fixed_free space base n (i + 1)
  end.

Definition mmap_findmem (space hint page_count flags : Z) : cmd mem Z :=
  if has MAP_FIXED flags then
    if bool_decide (hint = 0) || has MM_PAGE_OFFSET_MASK hint then mret MM_NADDR
    else
      ok ← on_vm (fixed_free space hint (Z.to_nat page_count) 0);
      mret (if (ok : bool) then hint else MM_NADDR)
  else
    virt_base ← on_vm (vmfind space 0x100000000 0x400000000 page_count);
    cassert (bool_decide (virt_base ≠ MM_NADDR));;
    mret virt_base.

(** ** [sys_mmap] *)
Section sys_mmap.

(** The [mmap] operation of a block device driver; it may be absent. *)
Definition blk_mmap_op : Type := option (Z -> Z -> Z -> Z -> cmd mem Z).

Definition blk_mmap (op : blk_mmap_op) (base page_count prot flags : Z) : cmd mem Z :=
  match op with
  | Some mmap => mmap base page_count prot flags
  | None => mret (- EINVAL)
  end.

(** What the descriptor table holds at a slot. *)
Inductive mmap_file :=
  | FileSocket
  | FileBlk (op : blk_mmap_op)
  | FileOther.

Context (fds : Z -> option mmap_file).

Definition sys_mmap (space hint length prot flags fd : Z) : cmd mem Z :=
  if has MM_PAGE_OFFSET_MASK length then mret (- EINVAL)
  else
    let page_count := length / MM_PAGE_SIZE in
    base ← mmap_findmem space hint page_count flags;
    if bool_decide (base = MM_NADDR) then mret (- ENOMEM)
    else if has MAP_ANONYMOUS flags then
      res ← sys_mmap_anon space base page_count prot flags;
      mret (if bool_decide (res ≠ 0) then res else base)
    else if (fd <? 0) || (THREAD_MAX_FDS <=? fd) then mret (- EBADF)
    else
      match fds fd with
      | None => mret (- EBADF)
      | Some FileSocket => mret (- EINVAL)
      | Some (FileBlk op) =>
          res ← blk_mmap op base page_count prot flags;
          mret (if bool_decide (res ≠ 0) then res else base)
      | Some FileOther => mret (- EINVAL)
      end.
End sys_mmap.

(** ** [sys_munmap] *)
Definition munmap_page (space addr i : Z) : cmd mem unit :=
  let v := u64 (addr + i * MM_PAGE_SIZE) in
  r ← on_vm (mm_map_get space v);
  let phys := r.1 in
  if bool_decide (phys = MM_NADDR) then mret tt
  else
    page ← on_mphys (page_at (PHYS2PAGE phys));
    if bool_decide (pg_usage page = PU_DEVICE) then
      cassert (bool_decide (pg_refcount page ≠ 0));;
      u ← on_vm (mm_umap_single space v);
      cassert (bool_decide (u = phys))
    else if negb (has PG_MMAPED (pg_flags page)) then cpanic
    else
      cassert (bool_decide (pg_refcount page ≠ 0));;
      u ← on_vm (mm_umap_single space v);
      cassert (bool_decide (u = phys));;
      page ← on_mphys (page_at (PHYS2PAGE phys));
      match pg_usage page with
      | PU_SHARED | PU_PRIVATE =>
          if bool_decide (pg_refcount page = 0) then on_mphys (mm_phys_free_page phys) else mret tt
      | _ => cpanic
      end.

Definition sys_munmap (space addr len : Z) : cmd mem Z :=
  if has MM_PAGE_OFFSET_MASK addr then mret (- EINVAL)
  else if KERNEL_VIRT_BASE <=? addr then mret (- EACCES)
  else if has MM_PAGE_OFFSET_MASK len then mret (- EINVAL)
  else
    for_range (munmap_page space addr) (Z.to_nat (len / MM_PAGE_SIZE)) 0;;
    mret 0.

(** ** Shared memory *)
Fixpoint shm_alloc_pages (n : nat) : cmd mem (list Z) :=
  match n with
  | O => mret []
  | S n =>
      p ← on_mphys (mm_phys_alloc_page PU_SHARED);
      cassert (bool_decide (p ≠ MM_NADDR));;
      rest ← shm_alloc_pages n;
      mret (p :: rest)
  end.

Definition sys_shmget (kmalloc_ok : bool) (size : Z) : cmd mem Z :=
  let n := u64 (size + MM_PAGE_SIZE - 1) / MM_PAGE_SIZE in
  cassert kmalloc_ok;;
  cmodify (fun m => mk_mem (m_vm m) (m_data m) (g_shm_chunks m) (i32 (shmid m + 1)));;
  id ← cgets shmid;
  pages ← shm_alloc_pages (Z.to_nat n);
  cmodify (fun m => mk_mem (m_vm m) (m_data m) (mk_shm id pages :: g_shm_chunks m) (shmid m));;
  mret id.

Fixpoint shm_map_pages (space base : Z) (pages : list Z) (i : Z) : cmd mem unit :=
  match pages with
  | [] => mret tt
  | p :: pages =>
      pg ← on_mphys (page_at (PHYS2PAGE p));
      cassert (bool_decide (pg_usage pg = PU_SHARED));;
      _ ← on_vm (mm_map_single space (u64 (base + i * MM_PAGE_SIZE)) p (Z.lor MM_PAGE_WRITE MM_PAGE_USER));
      shm_map_pages space base pages (i + 1)
  end.

Definition sys_shmat (space id : Z) : cmd mem Z :=
  chunks ← cgets g_shm_chunks;
  match list_find (fun c => shm_id c = id) chunks with
  | None => mret (- ENOENT)
  | Some (_, chunk) =>
      virt_base ← on_vm (vmfind space 0x100000000 0x400000000 (Z.of_nat (length (shm_pages chunk))));
      cassert (bool_decide (virt_base ≠ MM_NADDR));;
      shm_map_pages space virt_base (shm_pages chunk) 0;;
      mret virt_base
  end.

(** ** The page-fault handler *)

(** [memcpy(MM_VIRTUALIZE(dst), MM_VIRTUALIZE(src), MM_PAGE_SIZE)] between frames. *)
Definition frame_copy (dst src : Z) : cmd mem unit :=
  cmodify (fun m => set_data (match m_data m !! src with
                              | Some d => <[dst := d]> (m_data m)
                              | None => delete dst (m_data m)
                              end) m).

Definition do_pfault (exc_no cr2 cr3 : Z) : cmd mem Z :=
  let space := MM_VIRTUALIZE cr3 in
  if bool_decide (cr2 = 0) then mret (-1)
  else if cr2 <? KERNEL_VIRT_BASE then
    let page_addr := Z.land cr2 MM_PAGE_MASK in
    r ← on_vm (mm_map_get space page_addr);
    match r with
    | (phys, Some flags) =>
        if has X86_PF_WRITE exc_no && has MM_PAGE_USER flags && negb (has MM_PAGE_WRITE flags) then
          page ← on_mphys (page_at (PHYS2PAGE phys));
          cassert (bool_decide (pg_refcount page ≠ 0));;
          (if bool_decide (pg_usage page ≠ PU_PRIVATE) then cpanic else mret tt);;
          (if 2 <=? pg_refcount page then
             new_phys ← on_mphys (mm_phys_alloc_page PU_PRIVATE);
             cassert (bool_decide (new_phys ≠ MM_NADDR));;
             frame_copy new_phys phys;;
             u ← on_vm (mm_umap_single space page_addr);
             cassert (bool_decide (u = phys));;
             m ← on_vm (mm_map_single space page_addr new_phys (Z.lor MM_PAGE_USER MM_PAGE_WRITE));
             cassert (bool_decide (m = 0))
           else if bool_decide (pg_refcount page = 1) then
             u ← on_vm (mm_umap_single space page_addr);
             cassert (bool_decide (u = phys));;
             m ← on_vm (mm_map_single space page_addr phys (Z.lor MM_PAGE_USER MM_PAGE_WRITE));
             cassert (bool_decide (m = 0))
           else cpanic);;
          mret 0
        else mret (-1)
    | (phys, None) =>
        (* [flags] is left uninitialised for a huge page *)
        if bool_decide (phys = MM_NADDR) then mret (-1) else cfault
    end
  else mret (-1).

(** ** Lemmas *)
Lemma on_vm_run {A} (c : cmd vm A) m a s : c (m_vm m) = Ret (a, s) -> on_vm c m = Ret (a, set_vm s m).
Proof. apply zoom_Ret. Qed.

Lemma on_mphys_run {A} (c : cmd phys A) m a p :
  c (vm_phys (m_vm m)) = Ret (a, p) -> on_mphys c m = Ret (a, set_vm (set_phys p (m_vm m)) m).
Proof. intros E. apply on_vm_run. by apply zoom_Ret. Qed.

Lemma set_vm_id m : set_vm (m_vm m) m = m.
Proof. by destruct m. Qed.

Lemma page_at_run m k pg : mm_pages (vm_phys (m_vm m)) !! k = Some pg ->
  on_mphys (page_at k) m = Ret (pg, m).
Proof.
  intros Hk. rewrite (on_mphys_run (page_at k) m pg (vm_phys (m_vm m))) by by apply load_Some.
  by destruct m as [[] ? ? ?].
Qed.

(** A page handed out for data leaves every address space intact. *)
Lemma claim_space s o root u k pg :
  space_ok s o root -> mm_pages (vm_phys s) !! k = Some pg -> is_alloc pg = false ->
  space_ok (set_phys (claim u k pg (vm_phys s)) s) (<[k:=u]> o) root.
Proof.
  intros H Hk Hf. assert (is_free (vm_phys s) k) as Hfree by by exists pg.
  pose proof (free_not_owned _ _ _ (sp_phys _ _ _ H) Hfree) as Ho.
  split; [apply claim_ok; [apply H|done|done]| | |apply H|apply H].
  - intros i v [[<- _]|[_ Hv]]%lookup_insert_Some; [by apply (free_range _ _ _ (sp_phys _ _ _ H))|].
    by apply (sp_low _ _ _ H) in Hv.
  - intros p t Hp Hl Hw. destruct (sp_table _ _ _ H p t Hp Hl Hw) as (? & ? & ? & Ht).
    split; [done|]. split; [done|]. split; [done|]. rewrite lookup_insert_ne; [done|]. congruence.
Qed.

Lemma page_mask_offset a : Z.land (AMD64_MM_STRIPSX (Z.land a MM_PAGE_MASK)) MM_PAGE_OFFSET_MASK = 0.
Proof.
  unfold AMD64_MM_STRIPSX. rewrite <- !Z.land_assoc.
  change (Z.land MM_PAGE_MASK (Z.land 0xFFFFFFFFFFFF MM_PAGE_OFFSET_MASK)) with 0. apply Z.land_0_r.
Qed.

(** Remap page [v] from the entry [e] it has to frame [phys]: the two calls at the end
    of the handler. *)
Lemma remap_run s o root v e pg phys flags pg' :
  space_ok s o root -> user_addr v -> leaf s root v = Some e -> 3 <= pages_free (vm_phys s) ->
  mm_pages (vm_phys s) !! PHYS2PAGE (child e) = Some pg -> is_alloc pg = true ->
  pg_refcount pg <> 0 -> 0 <= phys < 2 ^ 63 ->
  (<[PHYS2PAGE (child e) := mk_page (pg_flags pg) (pg_usage pg) (pg_refcount pg - 1)]>
     (mm_pages (vm_phys s))) !! PHYS2PAGE phys = Some pg' -> is_alloc pg' = true ->
  exists s1 s2 o2, mm_umap_single (MM_VIRTUALIZE root) v s = Ret (child e, s1) /\
    mm_map_single (MM_VIRTUALIZE root) v phys flags s1 = Ret (0, s2) /\
    space_ok s2 o2 root /\ leaf s2 root v = Some (leaf_entry phys flags) /\
    mm_pages (vm_phys s1) = <[PHYS2PAGE (child e) := mk_page (pg_flags pg) (pg_usage pg) (pg_refcount pg - 1)]>
      (mm_pages (vm_phys s)) /\
    mm_pages (vm_phys s2) !! PHYS2PAGE phys =
      Some (mk_page (pg_flags pg') (pg_usage pg') (u64 (pg_refcount pg' + 1))) /\
    (forall v', user_addr v' -> AMD64_MM_STRIPSX v' / MM_PAGE_SIZE <> AMD64_MM_STRIPSX v / MM_PAGE_SIZE ->
       leaf s2 root v' = leaf s root v') /\
    (forall k q, k <> PHYS2PAGE phys -> mm_pages (vm_phys s1) !! k = Some q -> is_alloc q = true ->
       mm_pages (vm_phys s2) !! k = Some q).
Proof.
  intros H Hu Hl Hf Hpg Ha Hr Hp Hpg' Ha'.
  pose proof (umap_single_run s o root v H Hu) as Hun. rewrite Hl in Hun.
  destruct (Hun pg Hpg Ha Hr) as (t & Hw & Eu). clear Hun.
  set (s0 := set_entry t (vpti v) 0 s) in *.
  assert (space_ok s0 o root) as H0 by (eapply set_leaf_ok; [exact H|by apply vpath_upath|done|done]).
  set (s1 := with_refcount _ _ _ s0) in Eu.
  assert (space_ok s1 o root) as H1 by (apply with_refcount_space; done).
  assert (leaf s1 root v = None) as Hl1.
  { change (leaf s1 root v) with (leaf s0 root v). subst s0. by rewrite (set_leaf_same s o root H). }
  pose proof (map_single_run s1 o root v phys flags pg' H1 Hu Hf Hp Hpg' Ha') as Hm. rewrite Hl1 in Hm.
  destruct Hm as (s2 & o2 & Em & H2 & _ & Hl2 & Hother & Hrc & Hkeep & _).
  exists s1, s2, o2. split; [done|]. split; [done|]. split; [done|]. split; [done|]. split; [done|].
  split; [done|]. split; [|done]. intros v' Hu' Hne. rewrite Hother by done.
  change (leaf s1 root v') with (leaf s0 root v'). subst s0. by apply (set_leaf_other s o root H).
Qed.

(** ** Copy on write *)
Section pfault.
Context (m : mem) (o : gmap Z page_usage) (root cr2 e : Z) (pg : page).
Let v := Z.land cr2 MM_PAGE_MASK.
Context (Hok : space_ok (m_vm m) o root) (Hcr2 : cr2 <> 0) (Hlow : cr2 < KERNEL_VIRT_BASE) (Hu : user_addr v).
Context (Hleaf : leaf (m_vm m) root v = Some e).
Context (Huser : has MM_PAGE_USER e = true) (Hro : has MM_PAGE_WRITE e = false).
Context (Hpg : mm_pages (vm_phys (m_vm m)) !! PHYS2PAGE (child e) = Some pg).
Context (Hal : is_alloc pg = true) (Hpriv : pg_usage pg = PU_PRIVATE).

Lemma flag_of_entry f : Z.land f MM_PTE_FLAGS_MASK = f -> has f (Z.land e MM_PTE_FLAGS_MASK) = has f e.
Proof. intros Hf. unfold has. by rewrite <- Z.land_assoc, (Z.land_comm MM_PTE_FLAGS_MASK), Hf. Qed.

(** The handler up to its case split on the reference count. *)
Lemma pfault_prefix exc_no : has X86_PF_WRITE exc_no = true -> pg_refcount pg <> 0 ->
  do_pfault exc_no cr2 root m =
    ((if 2 <=? pg_refcount pg then
        new_phys ← on_mphys (mm_phys_alloc_page PU_PRIVATE);
        cassert (bool_decide (new_phys ≠ MM_NADDR));;
        frame_copy new_phys (child e);;
        u ← on_vm (mm_umap_single (MM_VIRTUALIZE root) v);
        cassert (bool_decide (u = child e));;
        m ← on_vm (mm_map_single (MM_VIRTUALIZE root) v new_phys (Z.lor MM_PAGE_USER MM_PAGE_WRITE));
        cassert (bool_decide (m = 0))
      else if bool_decide (pg_refcount pg = 1) then
        u ← on_vm (mm_umap_single (MM_VIRTUALIZE root) v);
        cassert (bool_decide (u = child e));;
        m ← on_vm (mm_map_single (MM_VIRTUALIZE root) v (child e) (Z.lor MM_PAGE_USER MM_PAGE_WRITE));
        cassert (bool_decide (m = 0))
      else cpanic);;
     mret 0) m.
Proof using All.
  intros Hw Hr. unfold do_pfault. rewrite bool_decide_eq_false_2 by done.
  apply Z.ltb_lt in Hlow as Hlow'. rewrite Hlow'. cbv zeta. fold v.
  pose proof (map_get_run _ _ _ Hok v Hu) as Hg. rewrite Hleaf in Hg. cbn [translation] in Hg.
  pose proof (page_mask_offset cr2) as Hoff. fold v in Hoff. rewrite Hoff, Z.lor_0_r in Hg.
  rewrite (bind_Ret _ _ _ _ _ (on_vm_run _ _ _ _ Hg)), set_vm_id.
  rewrite Hw, !flag_of_entry, Huser, Hro by done. cbn [andb negb].
  rewrite (bind_Ret _ _ _ _ _ (page_at_run _ _ _ Hpg)).
  rewrite (bool_decide_eq_true_2 (pg_refcount pg ≠ 0)) by done. rewrite (bind_Ret _ _ m tt m) by done.
  rewrite (bool_decide_eq_false_2 (pg_usage pg ≠ PU_PRIVATE)) by (intros X; by apply X).
  by rewrite (bind_Ret _ _ m tt m).
Qed.

Definition cow_flags : Z := Z.lor MM_PAGE_USER MM_PAGE_WRITE.

(** Everything the handler promises about the page it resolved, now in frame [k]. *)
Definition cow_done (m' : mem) (k : Z) : Prop :=
  exists o', space_ok (m_vm m') o' root /\
    leaf (m_vm m') root v = Some (leaf_entry (k * MM_PAGE_SIZE) cow_flags) /\
    (exists q, mm_pages (vm_phys (m_vm m')) !! k = Some q /\ pg_refcount q = 1 /\ pg_usage q = PU_PRIVATE) /\
    m_data m' !! (k * MM_PAGE_SIZE) = m_data m !! child e /\
    forall v', user_addr v' -> AMD64_MM_STRIPSX v' / MM_PAGE_SIZE <> AMD64_MM_STRIPSX v / MM_PAGE_SIZE ->
      leaf (m_vm m') root v' = leaf (m_vm m) root v'.

Lemma child_frame : child e = PHYS2PAGE (child e) * MM_PAGE_SIZE.
Proof.
  unfold PHYS2PAGE, MM_PAGE_SIZE. pose proof (child_aligned e). pose proof (Z.div_mod (child e) 0x1000). lia.
Qed.

Lemma pfault_last exc_no : has X86_PF_WRITE exc_no = true -> pg_refcount pg = 1 ->
  3 <= pages_free (vm_phys (m_vm m)) ->
  exists m', do_pfault exc_no cr2 root m = Ret (0, m') /\ cow_done m' (PHYS2PAGE (child e)).
Proof using All.
  intros Hw Hr Hf. rewrite (pfault_prefix exc_no Hw) by lia. rewrite Hr. change (2 <=? 1) with false. cbv iota.
  rewrite bool_decide_eq_true_2 by done.
  destruct (remap_run (m_vm m) o root v e pg (child e) cow_flags
    (mk_page (pg_flags pg) (pg_usage pg) (pg_refcount pg - 1)))
    as (s1 & s2 & o2 & Eu & Em & H2 & Hl2 & _ & Hrc & Hother & _);
    [done|done|done|done|done|done|lia|apply child_range|apply lookup_insert_eq|done|].
  exists (set_vm s2 m). split.
  - rewrite (bind_Ret _ _ m tt (set_vm s2 m)); [done|].
    rewrite (bind_Ret _ _ _ _ _ (on_vm_run _ _ _ _ Eu)).
    rewrite bool_decide_eq_true_2 by done. rewrite (bind_Ret _ _ (set_vm s1 m) tt (set_vm s1 m)) by done.
    rewrite (bind_Ret _ _ _ _ _ (on_vm_run _ (set_vm s1 m) _ _ Em)). by rewrite bool_decide_eq_true_2.
  - exists o2. cbn [m_vm set_vm m_data]. rewrite <- child_frame. split; [done|]. split; [done|].
    split; [|done]. eexists. split; [exact Hrc|]. cbn [pg_refcount pg_usage]. rewrite Hr. done.
Qed.

Lemma pfault_shared exc_no : has X86_PF_WRITE exc_no = true -> 2 <= pg_refcount pg ->
  4 <= pages_free (vm_phys (m_vm m)) ->
  exists m' k, do_pfault exc_no cr2 root m = Ret (0, m') /\ is_free (vm_phys (m_vm m)) k /\
    cow_done m' k /\
    mm_pages (vm_phys (m_vm m')) !! PHYS2PAGE (child e) =
      Some (mk_page (pg_flags pg) (pg_usage pg) (pg_refcount pg - 1)).
Proof using All.
  intros Hw Hr Hf. rewrite (pfault_prefix exc_no Hw) by lia. apply Z.leb_le in Hr as Hr'. rewrite Hr'. cbv iota.
  destruct (alloc_page_run _ _ PU_PRIVATE (sp_phys _ _ _ Hok)) as [(_ & ? & _)|(k & q & Ea & Hq & Hqf & _)];
    [done|lia|].
  assert (is_free (vm_phys (m_vm m)) k) as Hk by by exists q.
  pose proof (free_range _ _ _ (sp_phys _ _ _ Hok) Hk) as Hkr.
  assert (0 <= k * MM_PAGE_SIZE < 2 ^ 30) as Hka.
  { change PHYS_MAX_PAGES with 262144 in Hkr. pose proof low_max. unfold MM_PAGE_SIZE. lia. }
  assert (PHYS2PAGE (k * MM_PAGE_SIZE) = k) as Hkk by by apply Z.div_mul.
  assert (k <> PHYS2PAGE (child e)) as Hne by (intros ->; congruence).
  set (s0 := set_phys (claim PU_PRIVATE k q (vm_phys (m_vm m))) (m_vm m)).
  pose proof (claim_space _ _ _ PU_PRIVATE k q Hok Hq Hqf) as H0. fold s0 in H0.
  set (nq := mk_page (Z.lor (pg_flags q) PG_ALLOC) PU_PRIVATE (pg_refcount q)).
  assert (mm_pages (vm_phys s0) = <[k:=nq]> (mm_pages (vm_phys (m_vm m)))) as Hs0 by done.
  destruct (remap_run s0 _ root v e pg (k * MM_PAGE_SIZE) cow_flags nq H0)
    as (s1 & s2 & o2 & Eu & Em & H2 & Hl2 & Hp1 & Hrc & Hother & Hkeep).
  { done. } { done. } { cbn. lia. } { rewrite Hs0. by rewrite lookup_insert_ne. } { done. } { lia. } { lia. }
  { rewrite Hkk, lookup_insert_ne, Hs0 by done. apply lookup_insert_eq. } { apply is_alloc_set. }
  assert (k * MM_PAGE_SIZE <> MM_NADDR) as Hnn by (unfold MM_NADDR; lia).
  set (d := match m_data m !! child e with Some x => <[k * MM_PAGE_SIZE := x]> (m_data m)
            | None => delete (k * MM_PAGE_SIZE) (m_data m) end).
  exists (set_vm s2 (set_data d m)), k. split; [|split; [done|split]].
  - rewrite (bind_Ret _ _ m tt (set_vm s2 (set_data d m))); [done|].
    rewrite (bind_Ret _ _ _ _ _ (on_mphys_run _ _ _ _ Ea)). fold s0.
    rewrite bool_decide_eq_true_2 by done. rewrite (bind_Ret _ _ (set_vm s0 m) tt (set_vm s0 m)) by done.
    rewrite (bind_Ret _ _ (set_vm s0 m) tt (set_vm s0 (set_data d m))) by done.
    rewrite (bind_Ret _ _ _ _ _ (on_vm_run _ (set_vm s0 (set_data d m)) _ _ Eu)).
    rewrite bool_decide_eq_true_2 by done.
    rewrite (bind_Ret _ _ _ tt (set_vm s1 (set_data d m))) by done.
    rewrite (bind_Ret _ _ _ _ _ (on_vm_run _ (set_vm s1 (set_data d m)) _ _ Em)).
    by rewrite bool_decide_eq_true_2.
  - exists o2. cbn [m_vm set_vm set_data m_data]. split; [done|]. split; [done|].
    rewrite Hkk in Hrc. split; [|split; [|exact Hother]].
    + eexists. split; [exact Hrc|]. cbn [pg_refcount pg_usage nq].
      by rewrite (proj2 (proj2 (ok_free _ _ (sp_phys _ _ _ Hok) _ _ Hq Hqf))).
    + subst d. destruct (m_data m !! child e); [apply lookup_insert_eq|apply lookup_delete_eq].
  - cbn [m_vm set_vm]. apply Hkeep; [by rewrite Hkk|rewrite Hp1; apply lookup_insert_eq|done].
Qed.
End pfault.

(** ** Anonymous mappings *)
Section anon.
Context (root b fl : Z) (u : page_usage) (Hune : u <> PU_UNKNOWN) (Hb : 0 <= b).

Abbreviation anon_body := (fun i => mmap_anon_page (MM_VIRTUALIZE root) (b * MM_PAGE_SIZE) fl i u).

Lemma mmaped_alloc pg : is_alloc pg = true ->
  is_alloc (mk_page (Z.lor (pg_flags pg) PG_MMAPED) (pg_usage pg) (pg_refcount pg)) = true.
Proof.
  unfold is_alloc. cbn [pg_flags]. rewrite Z.land_lor_distr_l. change (Z.land PG_MMAPED PG_ALLOC) with 0.
  by rewrite Z.lor_0_r.
Qed.

(** The descriptors of allocated frames survive. *)
Definition keeps_pages (m m' : mem) : Prop :=
  forall k q, mm_pages (vm_phys (m_vm m)) !! k = Some q -> is_alloc q = true ->
    mm_pages (vm_phys (m_vm m')) !! k = Some q.

(** Page [i] is backed by frame [k], mapped once. *)
Definition backed (m : mem) (i k : Z) : Prop :=
  leaf (m_vm m) root ((b + i) * MM_PAGE_SIZE) = Some (leaf_entry (k * MM_PAGE_SIZE) fl) /\
  exists q, mm_pages (vm_phys (m_vm m)) !! k = Some q /\ is_alloc q = true /\ pg_usage q = u /\
    pg_refcount q = 1 /\ has PG_MMAPED (pg_flags q) = true.

(** Only page [b + i] of the user half changes. *)
Definition leaves_except (m m' : mem) (P : Z -> Prop) : Prop :=
  forall v, user_addr v -> ~ P (AMD64_MM_STRIPSX v / MM_PAGE_SIZE) ->
    leaf (m_vm m') root v = leaf (m_vm m) root v.

Lemma strip_page k : 0 <= k < USER_PAGES -> AMD64_MM_STRIPSX (k * MM_PAGE_SIZE) / MM_PAGE_SIZE = k.
Proof.
  intros Hk. unfold AMD64_MM_STRIPSX. change 0xFFFFFFFFFFFF with (Z.ones 48).
  rewrite Z.land_ones by lia. unfold USER_PAGES, AMD64_PML4I_USER_END, MM_PAGE_SIZE in *.
  rewrite Z.mod_small by lia. by apply Z.div_mul.
Qed.

Lemma anon_page_run m o i :
  space_ok (m_vm m) o root -> 0 <= i -> b + i < USER_PAGES -> 4 <= pages_free (vm_phys (m_vm m)) ->
  leaf (m_vm m) root ((b + i) * MM_PAGE_SIZE) = None ->
  exists m' o' k, anon_body i m = Ret (tt, m') /\ space_ok (m_vm m') o' root /\
    is_free (vm_phys (m_vm m)) k /\ backed m' i k /\ keeps_pages m m' /\
    leaves_except m m' (fun p => p = b + i) /\
    pages_free (vm_phys (m_vm m)) - 4 <= pages_free (vm_phys (m_vm m')).
Proof using Hune Hb.
  intros H Hi Hbi Hf Hl. unfold mmap_anon_page.
  destruct (alloc_page_run _ _ u (sp_phys _ _ _ H) Hune) as [(_ & ? & _)|(k & q & Ea & Hq & Hqf & _)]; [lia|].
  assert (is_free (vm_phys (m_vm m)) k) as Hk by by exists q.
  pose proof (free_range _ _ _ (sp_phys _ _ _ H) Hk) as Hkr.
  pose proof (ok_free _ _ (sp_phys _ _ _ H) _ _ Hq Hqf) as (_ & _ & Hq0).
  assert (0 <= k * MM_PAGE_SIZE < 2 ^ 30) as Hka.
  { change PHYS_MAX_PAGES with 262144 in Hkr. pose proof low_max. unfold MM_PAGE_SIZE. lia. }
  assert (PHYS2PAGE (k * MM_PAGE_SIZE) = k) as Hkk by by apply Z.div_mul.
  set (s0 := set_phys (claim u k q (vm_phys (m_vm m))) (m_vm m)).
  pose proof (claim_space _ _ _ u k q H Hq Hqf) as H0. fold s0 in H0.
  set (q1 := mk_page (Z.lor (pg_flags q) PG_ALLOC) u (pg_refcount q)).
  set (q2 := mk_page (Z.lor (pg_flags q1) PG_MMAPED) u (pg_refcount q1)).
  assert (mm_pages (vm_phys s0) !! k = Some q1) as Hq1 by apply lookup_insert_eq.
  assert (is_alloc q1 = true) as Ha1 by apply is_alloc_set.
  assert (is_alloc q2 = true) as Ha2 by by apply (mmaped_alloc q1).
  set (s1 := set_phys (set_pages (<[k := q2]> (mm_pages (vm_phys s0))) (vm_phys s0)) s0).
  assert (space_ok s1 (<[k:=u]> o) root) as H1 by (by apply (page_update_space s0 _ _ k q1)).
  destruct (user_page_addr (b + i)) as [Ev Hu]; [lia|].
  pose proof (map_single_run s1 _ root ((b + i) * MM_PAGE_SIZE) (k * MM_PAGE_SIZE) fl q2 H1 Hu) as Hm.
  change (leaf s1 root ((b + i) * MM_PAGE_SIZE)) with (leaf (m_vm m) root ((b + i) * MM_PAGE_SIZE)) in Hm.
  rewrite Hl, Hkk in Hm. destruct Hm as (s2 & o2 & Em & H2 & _ & Hl2 & Hother & Hrc & Hkeep & Hfr).
  { cbn. lia. } { lia. } { apply lookup_insert_eq. } { done. }
  exists (set_vm s2 m), o2, k. split; [|split; [done|split; [done|split; [|split; [|split]]]]].
  - rewrite (bind_Ret _ _ _ _ _ (on_mphys_run _ _ _ _ Ea)). fold s0.
    rewrite bool_decide_eq_true_2 by (unfold MM_NADDR; lia).
    rewrite (bind_Ret _ _ (set_vm s0 m) tt (set_vm s0 m)) by done. rewrite Hkk.
    rewrite (bind_Ret _ _ _ tt (set_vm s1 m)).
    + replace (b * MM_PAGE_SIZE + i * MM_PAGE_SIZE) with ((b + i) * MM_PAGE_SIZE) by lia. rewrite Ev.
      rewrite (bind_Ret _ _ _ _ _ (on_vm_run _ (set_vm s1 m) _ _ Em)). by rewrite bool_decide_eq_true_2.
    + apply (on_mphys_run _ (set_vm s0 m) tt (vm_phys s1)). unfold page_at.
      rewrite (bind_Ret _ _ _ q1 (vm_phys s0)) by by apply load_Some. done.
  - split; [exact Hl2|]. eexists. split; [exact Hrc|]. split; [exact Ha2|]. split; [done|].
    cbn [pg_refcount pg_flags q2 q1]. rewrite Hq0. split; [done|].
    unfold has. rewrite Z.land_lor_distr_l. change (Z.land PG_MMAPED PG_MMAPED) with 2.
    apply negb_true_iff, Z.eqb_neq. intros E. apply Z.lor_eq_0_iff in E as [_ E]. done.
  - intros j p Hj Hja. assert (j <> k) by (intros ->; congruence).
    apply Hkeep; [done| |done]. cbn [s1 vm_phys set_phys set_pages mm_pages]. rewrite lookup_insert_ne by done.
    cbn [s0 vm_phys set_phys claim mm_pages]. by rewrite lookup_insert_ne.
  - intros v Hv Hne. cbn [m_vm set_vm].
    rewrite Hother; [done|done|]. intros E. apply Hne. rewrite E. apply strip_page. lia.
  - cbn [m_vm set_vm]. cbn in Hfr. lia.
Qed.

(** The loop: [n] pages from index [i], backed by distinct frames that were free. *)
Lemma anon_loop n : forall m o i,
  space_ok (m_vm m) o root -> 0 <= i -> b + i + Z.of_nat n <= USER_PAGES ->
  4 * Z.of_nat n <= pages_free (vm_phys (m_vm m)) ->
  (forall j, i <= j < i + Z.of_nat n -> leaf (m_vm m) root ((b + j) * MM_PAGE_SIZE) = None) ->
  exists m' o' ks, for_range anon_body n i m = Ret (tt, m') /\ space_ok (m_vm m') o' root /\
    length ks = n /\ NoDup ks /\ Forall (is_free (vm_phys (m_vm m))) ks /\
    (forall j k, ks !! j = Some k -> backed m' (i + Z.of_nat j) k) /\ keeps_pages m m' /\
    leaves_except m m' (fun p => b + i <= p < b + i + Z.of_nat n).
Proof using Hune Hb.
  induction n as [|n IH]; intros m o i H Hi Hn Hf Hl.
  { exists m, o, []. split; [done|]. split; [done|]. split; [done|]. split; [apply NoDup_nil_2|].
    split; [done|]. split; [done|]. split; [by intros ? ?|]. by intros ? ?. }
  destruct (anon_page_run m o i H Hi ltac:(lia) ltac:(lia) (Hl i ltac:(lia)))
    as (m1 & o1 & k & E1 & H1 & Hk & [Hlk (q & Hq & Hqa & Hq3)] & Hkp & Hex & Hf1).
  destruct (IH m1 o1 (i + 1) H1) as (m2 & o2 & ks & E2 & H2 & Hlen & Hnd & Hfree & Hback & Hkp2 & Hex2);
    [lia|lia|lia| |].
  { intros j Hj. destruct (user_page_addr (b + j)) as [_ Hu]; [lia|].
    rewrite Hex; [apply Hl; lia|done|]. rewrite strip_page by lia. lia. }
  assert (forall j, is_free (vm_phys (m_vm m1)) j -> is_free (vm_phys (m_vm m)) j /\ j <> k) as Hsub.
  { intros j (p & Hp & Hpf). split; [|intros ->; congruence].
    destruct (proj2 (ok_dom _ _ (sp_phys _ _ _ H) j)) as [p0 Hp0].
    { apply (ok_dom _ _ (sp_phys _ _ _ H1)). eauto. }
    exists p0. split; [done|]. destruct (is_alloc p0) eqn:Ep; [|done].
    rewrite (Hkp _ _ Hp0 Ep) in Hp. congruence. }
  exists m2, o2, (k :: ks). split; [|split; [done|split; [cbn; lia|split; [|split; [|split; [|split]]]]]].
  - cbn [for_range]. by rewrite (bind_Ret _ _ _ _ _ E1).
  - apply list.NoDup_cons. split; [|done]. intros Hin. rewrite list.Forall_forall in Hfree.
    by destruct (Hsub k (Hfree k Hin)).
  - constructor; [done|]. eapply list.Forall_impl; [exact Hfree|]. intros j Hj. by apply Hsub.
  - intros [|j] x Hx; cbn in Hx.
    + injection Hx as <-. rewrite Z.add_0_r. destruct (user_page_addr (b + i)) as [_ Hu]; [lia|].
      split; [rewrite Hex2; [done|done|rewrite strip_page by lia; lia]|].
      exists q. split; [by apply Hkp2|done].
    + replace (i + Z.of_nat (S j)) with (i + 1 + Z.of_nat j) by lia. by apply Hback.
  - intros j p Hp Hpa. apply Hkp2; [by apply Hkp|done].
  - intros v Hv Hne. rewrite Hex2; [apply Hex|done|]; [done|lia|lia].
Qed.
End anon.

(** ** Claims *)

Lemma vmfind_mmap_range : 0x400000000 / MM_PAGE_SIZE <= USER_PAGES /\ 0x100000000 / MM_PAGE_SIZE <= USER_PAGES.
Proof. by split. Qed.

(** C23: Anonymous [sys_mmap] at an address of the kernel's choosing, with four free
    frames per page: it returns the lowest address of the mmap area with enough
    unmapped pages; every page of it is now mapped, with the requested access, to its
    own frame that was free before, used for the right purpose, marked as mmapped and
    referenced once; no other user page changes. *)
Theorem mmap_anonymous_maps_fresh fds m o root hint len prot flags fd b0 :
  space_ok (m_vm m) o root ->
  0 <= len < 2 ^ 40 -> has MM_PAGE_OFFSET_MASK len = false ->
  has MAP_FIXED flags = false -> has MAP_ANONYMOUS flags = true ->
  4 * (len / MM_PAGE_SIZE) <= pages_free (vm_phys (m_vm m)) ->
  0x100000 <= b0 -> b0 + len / MM_PAGE_SIZE <= 0x400000 ->
  run_unmapped (m_vm m) root b0 (len / MM_PAGE_SIZE) ->
  exists m' o' b ks,
    sys_mmap fds (MM_VIRTUALIZE root) hint len prot flags fd m = Ret (b * MM_PAGE_SIZE, m') /\
    space_ok (m_vm m') o' root /\ 0x100000 <= b <= b0 /\
    run_unmapped (m_vm m) root b (len / MM_PAGE_SIZE) /\
    Z.of_nat (length ks) = len / MM_PAGE_SIZE /\ NoDup ks /\ Forall (is_free (vm_phys (m_vm m))) ks /\
    (forall j k, ks !! j = Some k -> backed root b (mmap_flags prot) (mmap_usage flags) m' (Z.of_nat j) k) /\
    leaves_except root m m' (fun p => b <= p < b + len / MM_PAGE_SIZE).
Proof.
  intros H Hlen Hal Hfix Hanon Hfree Hb0 Hb1 Hrun. destruct vmfind_mmap_range as [Hr1 Hr2].
  assert (0 <= len / MM_PAGE_SIZE <= 2 ^ 28) as Hn.
  { split; [apply Z.div_pos; [lia|done]|]. apply Z.div_le_upper_bound; [done|]. unfold MM_PAGE_SIZE. lia. }
  assert (2 ^ 28 <= USER_PAGES /\ 0x400000 <= USER_PAGES) as [Hup Hup2] by done.
  set (n := len / MM_PAGE_SIZE) in *.
  destruct (vmfind_run _ _ _ 0x100000000 0x400000000 n H) as [(b & E & Hb & Hbt & Hbr & Hlow)|[_ Hno]];
    [lia|done|done|lia| |by destruct (Hno b0)].
  change (0x100000000 / MM_PAGE_SIZE) with 0x100000 in *. change (0x400000000 / MM_PAGE_SIZE) with 0x400000 in *.
  assert (b <= b0) as Hbb.
  { destruct (decide (b <= b0)); [done|]. exfalso. apply (Hlow b0); [lia|done]. }
  assert (mmap_usage flags <> PU_UNKNOWN) as Hune by (unfold mmap_usage; destruct (has MAP_SHARED flags); discriminate).
  destruct (anon_loop root b (mmap_flags prot) (mmap_usage flags) Hune ltac:(lia) (Z.to_nat n) m o 0 H)
    as (m' & o' & ks & El & H' & Hlk & Hnd & Hfr & Hback & _ & Hex); [lia|lia|lia| |].
  { intros j Hj. apply Hbr. lia. }
  exists m', o', b, ks. split; [|split; [done|split; [lia|split; [done|split; [lia|split; [done|split; [done|split]]]]]]].
  - unfold sys_mmap. rewrite Hal. fold n. unfold mmap_findmem. rewrite Hfix.
    rewrite (bind_Ret _ _ m (b * MM_PAGE_SIZE) m).
    + rewrite bool_decide_eq_false_2 by (unfold MM_PAGE_SIZE, MM_NADDR; lia). rewrite Hanon.
      rewrite (bind_Ret _ _ m 0 m'); [by rewrite bool_decide_eq_false_2 by (intros X; by apply X)|].
      unfold sys_mmap_anon. by rewrite (bind_Ret _ _ _ _ _ El).
    + rewrite (bind_Ret _ _ _ _ _ (on_vm_run _ _ _ _ E)), set_vm_id.
      by rewrite bool_decide_eq_true_2 by (unfold MM_PAGE_SIZE, MM_NADDR; lia).
  - intros j k Hj. specialize (Hback j k Hj). by rewrite Z.add_0_l in Hback.
  - intros v Hv Hne. apply Hex; [done|]. rewrite Z.add_0_r, Z2Nat.id by lia. done.
Qed.

Definition sample_mem : mem := mk_mem sample_vm ∅ [] 0.

Lemma mmap_anonymous_maps_fresh_witness :
  exists m' b ks, sys_mmap (fun _ => None) (MM_VIRTUALIZE sample_root)
      0 0x1000 PROT_WRITE MAP_ANONYMOUS (-1) sample_mem = Ret (b * MM_PAGE_SIZE, m') /\
    length ks = 1%nat /\ forall j k, ks !! j = Some k -> backed sample_root b 6 PU_PRIVATE m' (Z.of_nat j) k.
Proof.
  assert (0 <= 0x1000 < 2 ^ 40) as Hlen by done.
  assert (4 * (0x1000 / MM_PAGE_SIZE) <= pages_free (vm_phys (m_vm sample_mem))) as Hf by discriminate.
  assert (run_unmapped (m_vm sample_mem) sample_root 0x100000 (0x1000 / MM_PAGE_SIZE)) as Hr.
  { intros j Hj. apply sample_space. apply user_page_addr.
    change (0x1000 / MM_PAGE_SIZE) with 1 in Hj. assert (0x100001 < USER_PAGES) as Hx by done. lia. }
  assert (0x100000 + 0x1000 / MM_PAGE_SIZE <= 0x400000) as Hb by discriminate.
  destruct (mmap_anonymous_maps_fresh (fun _ => None) sample_mem sample_owned
    sample_root 0 0x1000 PROT_WRITE MAP_ANONYMOUS (-1) 0x100000 (proj1 sample_space) Hlen eq_refl eq_refl
    eq_refl Hf (Z.le_refl _) Hb Hr)
    as (m' & o' & b & ks & E & _ & _ & _ & Hk & _ & _ & Hback & _).
  exists m', b, ks. split; [exact E|]. split; [|exact Hback].
  change (0x1000 / MM_PAGE_SIZE) with 1 in Hk. clear - Hk. lia.
Defined.

(** C24: Copy on write.  On a fault at a present, user, read-only private page the
    handler returns 0 with the page mapped writable for the user, the bytes unchanged,
    every other user page untouched: in the same frame when it was referenced once,
    and otherwise in a frame that was free, whose count is one, while the shared
    frame loses one reference.  Nothing in the fault's error code is examined: the
    test for a write reads the exception number, 14, whose bit 1 is always set. *)
Theorem pfault_copy_on_write m o root cr2 e pg :
  space_ok (m_vm m) o root -> cr2 <> 0 -> cr2 < KERNEL_VIRT_BASE ->
  user_addr (Z.land cr2 MM_PAGE_MASK) -> leaf (m_vm m) root (Z.land cr2 MM_PAGE_MASK) = Some e ->
  has MM_PAGE_USER e = true -> has MM_PAGE_WRITE e = false ->
  mm_pages (vm_phys (m_vm m)) !! PHYS2PAGE (child e) = Some pg -> is_alloc pg = true ->
  pg_usage pg = PU_PRIVATE -> 0 < pg_refcount pg -> 4 <= pages_free (vm_phys (m_vm m)) ->
  exists m' k, do_pfault 14 cr2 root m = Ret (0, m') /\ cow_done m root cr2 e m' k /\
    (pg_refcount pg = 1 -> k = PHYS2PAGE (child e)) /\
    (2 <= pg_refcount pg -> is_free (vm_phys (m_vm m)) k /\
       mm_pages (vm_phys (m_vm m')) !! PHYS2PAGE (child e) =
         Some (mk_page (pg_flags pg) (pg_usage pg) (pg_refcount pg - 1))).
Proof.
  intros H Hc Hk Hu Hl Huser Hro Hpg Ha Hp Hr Hf. destruct (decide (pg_refcount pg = 1)) as [H1|H1].
  - destruct (pfault_last m o root cr2 e pg H Hc Hk Hu Hl Huser Hro Hpg Ha Hp 14 eq_refl H1 ltac:(lia))
      as (m' & E & Hd). exists m', (PHYS2PAGE (child e)). split; [done|]. split; [done|]. split; [done|lia].
  - destruct (pfault_shared m o root cr2 e pg H Hc Hk Hu Hl Huser Hro Hpg Ha Hp 14 eq_refl ltac:(lia) Hf)
      as (m' & k & E & Hfree & Hd & Hold). exists m', k. split; [done|]. split; [done|]. split; [lia|done].
Qed.

Lemma pfault_copy_on_write_witness :
  exists m m' k, do_pfault 14 0x400123 sample_root m = Ret (0, m') /\
    leaf (m_vm m') sample_root 0x400000 = Some (leaf_entry (k * MM_PAGE_SIZE) cow_flags).
Proof.
  assert (user_addr 0x400000) as Hu by reflexivity.
  assert (3 <= pages_free (vm_phys sample_vm)) as Hf by discriminate.
  assert (0 <= sample_page < 2 ^ 63) as Hp by done.
  assert (0x400123 < KERNEL_VIRT_BASE) as Hk by reflexivity.
  assert (8 <= pages_free (vm_phys sample_vm)) as Hf8 by discriminate.
  assert (child (leaf_entry sample_page MM_PAGE_USER) = sample_page) as Hc by reflexivity.
  pose proof sample_page_at as Hpg. destruct sample_space as [H Hl].
  pose proof (map_single_run sample_vm sample_owned sample_root 0x400000 sample_page MM_PAGE_USER _
    H Hu Hf Hp Hpg eq_refl) as Hrun.
  rewrite (Hl 0x400000 Hu) in Hrun. destruct Hrun as (s1 & o1 & _ & H1 & _ & Hlv & _ & Hrc & _ & Hfr).
  rewrite <- Hc in Hrc at 1. assert (4 <= pages_free (vm_phys s1)) as Hf4 by lia. clear Hf8 Hfr.
  pose proof (pfault_copy_on_write (mk_mem s1 ∅ [] 0) o1 sample_root 0x400123 _ _ H1 ltac:(discriminate) Hk
    Hu Hlv eq_refl eq_refl Hrc eq_refl eq_refl eq_refl Hf4) as (m' & k & E & (o' & _ & Hl' & _) & _).
  exists (mk_mem s1 ∅ [] 0), m', k. split; [exact E|exact Hl'].
Defined.

(** ** Detaching shared memory *)

(** [sys_munmap] of one mapped page whose frame is not marked as mmapped. *)
Lemma munmap_unmarked_panics m o root b e pg :
  space_ok (m_vm m) o root -> 0 <= b < USER_PAGES ->
  leaf (m_vm m) root (b * MM_PAGE_SIZE) = Some e ->
  mm_pages (vm_phys (m_vm m)) !! PHYS2PAGE (child e) = Some pg ->
  pg_usage pg <> PU_DEVICE -> has PG_MMAPED (pg_flags pg) = false ->
  sys_munmap (MM_VIRTUALIZE root) (b * MM_PAGE_SIZE) MM_PAGE_SIZE m = Panic.
Proof.
  intros H Hb Hl Hpg Hu Hm. destruct (user_page_addr b Hb) as [Ev Hv].
  assert (forall k, has MM_PAGE_OFFSET_MASK (k * MM_PAGE_SIZE) = false) as Hal.
  { intros k. unfold has. change MM_PAGE_OFFSET_MASK with (Z.ones 12).
    rewrite Z.land_ones by lia. change (2 ^ 12) with MM_PAGE_SIZE. by rewrite Z_mod_mult. }
  assert (Z.land (AMD64_MM_STRIPSX (b * MM_PAGE_SIZE)) MM_PAGE_OFFSET_MASK = 0) as Hoff.
  { specialize (Hal b). unfold has in Hal. apply negb_false_iff, Z.eqb_eq in Hal.
    unfold AMD64_MM_STRIPSX. rewrite <- Z.land_assoc, (Z.land_comm 0xFFFFFFFFFFFF), Z.land_assoc, Hal.
    apply Z.land_0_l. }
  unfold sys_munmap. rewrite Hal. destruct (Z.leb_spec KERNEL_VIRT_BASE (b * MM_PAGE_SIZE)) as [Hx|_].
  { exfalso. unfold USER_PAGES, AMD64_PML4I_USER_END, KERNEL_VIRT_BASE, MM_PAGE_SIZE in *. lia. }
  change (has MM_PAGE_OFFSET_MASK MM_PAGE_SIZE) with false. change (Z.to_nat (MM_PAGE_SIZE / MM_PAGE_SIZE)) with 1%nat.
  cbn [for_range]. cbv [mbind cmd_mbind cbind]. assert (munmap_page (MM_VIRTUALIZE root) (b * MM_PAGE_SIZE) 0 m = Panic) as ->; [|done].
  unfold munmap_page. rewrite Z.mul_0_l, Z.add_0_r, Ev. cbv zeta.
  pose proof (map_get_run _ _ _ H _ Hv) as Hg. rewrite Hl in Hg. cbn [translation] in Hg.
  rewrite Hoff, Z.lor_0_r in Hg.
  rewrite (bind_Ret _ _ _ _ _ (on_vm_run _ _ _ _ Hg)), set_vm_id. cbn [fst].
  pose proof (child_range e). rewrite bool_decide_eq_false_2 by (unfold MM_NADDR; lia).
  rewrite (bind_Ret _ _ _ _ _ (page_at_run _ _ _ Hpg)).
  rewrite bool_decide_eq_false_2 by done. by rewrite Hm.
Qed.

(** [sys_shmget] of one page. *)
Lemma shmget_page_run m o root :
  space_ok (m_vm m) o root -> 0 < pages_free (vm_phys (m_vm m)) ->
  exists k q, sys_shmget true MM_PAGE_SIZE m =
    Ret (i32 (shmid m + 1),
         mk_mem (set_phys (claim PU_SHARED k q (vm_phys (m_vm m))) (m_vm m)) (m_data m)
           (mk_shm (i32 (shmid m + 1)) [k * MM_PAGE_SIZE] :: g_shm_chunks m) (i32 (shmid m + 1))) /\
    mm_pages (vm_phys (m_vm m)) !! k = Some q /\ is_alloc q = false /\
    (forall j, j < k -> ~ is_free (vm_phys (m_vm m)) j).
Proof.
  intros H Hf.
  destruct (alloc_page_run _ _ PU_SHARED (sp_phys _ _ _ H)) as [(_ & ? & _)|(k & q & Ea & Hq & Hqf & Hlow)];
    [done|lia|].
  exists k, q. split; [|done]. unfold sys_shmget.
  change (Z.to_nat (u64 (MM_PAGE_SIZE + MM_PAGE_SIZE - 1) / MM_PAGE_SIZE)) with 1%nat. cbn [shm_alloc_pages].
  assert (LOW_PAGE <= k < PHYS_MAX_PAGES) as Hkr by (apply (free_range _ _ _ (sp_phys _ _ _ H)); by exists q).
  assert (k * MM_PAGE_SIZE <> MM_NADDR).
  { change PHYS_MAX_PAGES with 262144 in Hkr. unfold MM_PAGE_SIZE, MM_NADDR. lia. }
  run_simpl. unfold on_mphys, on_vm, on_phys, czoom. cbn [m_vm shmid]. rewrite Ea.
  rewrite bool_decide_eq_true_2 by done. done.
Qed.

(** A process that gets a one-page shared memory chunk, attaches it and then
    unmaps it panics the kernel: [sys_shmget] never sets the [PG_MMAPED] mark that
    [sys_munmap] insists on (the frame it gets was never mmapped before). *)
Theorem shm_detach_panics m o root :
  space_ok (m_vm m) o root -> 4 <= pages_free (vm_phys (m_vm m)) ->
  run_unmapped (m_vm m) root 0x100000 1 ->
  (forall k q, is_free (vm_phys (m_vm m)) k -> mm_pages (vm_phys (m_vm m)) !! k = Some q -> pg_flags q = 0) ->
  exists id b m1 m2, sys_shmget true MM_PAGE_SIZE m = Ret (id, m1) /\
    sys_shmat (MM_VIRTUALIZE root) id m1 = Ret (b * MM_PAGE_SIZE, m2) /\
    sys_munmap (MM_VIRTUALIZE root) (b * MM_PAGE_SIZE) MM_PAGE_SIZE m2 = Panic.
Proof.
  intros H Hf Hrun Hflags. destruct (shmget_page_run m o root H ltac:(lia)) as (k & q & Eg & Hq & Hqf & _).
  assert (is_free (vm_phys (m_vm m)) k) as Hk by by exists q.
  pose proof (free_range _ _ _ (sp_phys _ _ _ H) Hk) as Hkr.
  pose proof (ok_free _ _ (sp_phys _ _ _ H) _ _ Hq Hqf) as (_ & _ & Hq0).
  assert (0 <= k * MM_PAGE_SIZE < 2 ^ 30) as Hka.
  { change PHYS_MAX_PAGES with 262144 in Hkr. pose proof low_max. unfold MM_PAGE_SIZE. lia. }
  assert (PHYS2PAGE (k * MM_PAGE_SIZE) = k) as Hkk by by apply Z.div_mul.
  set (s1 := set_phys (claim PU_SHARED k q (vm_phys (m_vm m))) (m_vm m)) in *.
  pose proof (claim_space _ _ _ PU_SHARED k q H Hq Hqf) as H1. fold s1 in H1.
  set (q1 := mk_page (Z.lor (pg_flags q) PG_ALLOC) PU_SHARED (pg_refcount q)).
  assert (mm_pages (vm_phys s1) !! k = Some q1) as Hq1 by apply lookup_insert_eq.
  destruct vmfind_mmap_range as [Hr1 Hr2].
  destruct (vmfind_run s1 _ root 0x100000000 0x400000000 1 H1) as [(b & Ef & Hb & Hbt & Hbr & _)|[_ Hno]];
    [lia|done|done|done| |by destruct (Hno 0x100000)].
  change (0x100000000 / MM_PAGE_SIZE) with 0x100000 in Hb. change (0x400000000 / MM_PAGE_SIZE) with 0x400000 in Hbt.
  assert (0x400000 < USER_PAGES) as Hup by done. destruct (user_page_addr b) as [Ev Hv]; [lia|].
  pose proof (map_single_run s1 _ root (b * MM_PAGE_SIZE) (k * MM_PAGE_SIZE) (Z.lor MM_PAGE_WRITE MM_PAGE_USER) q1
    H1 Hv) as Hm. rewrite Hkk, (Hbr b ltac:(lia)) in Hm.
  destruct Hm as (s2 & o2 & Em & H2 & _ & Hl2 & _ & Hrc & _); [cbn; lia|lia|done|apply is_alloc_set|].
  set (m1 := mk_mem s1 (m_data m) _ _) in Eg.
  exists (i32 (shmid m + 1)), b, m1, (set_vm s2 m1). split; [exact Eg|]. split.
  - unfold sys_shmat. rewrite (bind_Ret _ _ m1 (g_shm_chunks m1) m1) by done.
    cbn [m1 g_shm_chunks list_find]. rewrite decide_True by done. cbn [shm_pages length].
    change (Z.of_nat 1) with 1. rewrite (bind_Ret _ _ m1 (b * MM_PAGE_SIZE) m1) by by apply (on_vm_run _ m1).
    rewrite bool_decide_eq_true_2 by (unfold MM_PAGE_SIZE, MM_NADDR; lia).
    rewrite (bind_Ret _ _ m1 tt m1) by done. rewrite (bind_Ret _ _ m1 tt (set_vm s2 m1)); [done|].
    cbn [shm_map_pages]. rewrite Hkk, (bind_Ret _ _ _ _ _ (page_at_run m1 k q1 Hq1)).
    rewrite bool_decide_eq_true_2 by done. rewrite (bind_Ret _ _ m1 tt m1) by done.
    rewrite Z.mul_0_l, Z.add_0_r, Ev. by rewrite (bind_Ret _ _ _ _ _ (on_vm_run _ m1 _ _ Em)).
  - assert (child (leaf_entry (k * MM_PAGE_SIZE) (Z.lor MM_PAGE_WRITE MM_PAGE_USER)) = k * MM_PAGE_SIZE) as Hc.
    { rewrite leaf_entry_child by lia. change 0x1000 with MM_PAGE_SIZE. rewrite Z_mod_mult. lia. }
    eapply (munmap_unmarked_panics (set_vm s2 m1)); [exact H2|lia|exact Hl2|rewrite Hc, Hkk; exact Hrc|done|].
    cbn [pg_flags q1]. by rewrite (Hflags k q Hk Hq).
Qed.

Lemma shm_detach_panics_witness :
  exists id b m1 m2, sys_shmget true MM_PAGE_SIZE sample_mem = Ret (id, m1) /\
    sys_shmat (MM_VIRTUALIZE sample_root) id m1 = Ret (b * MM_PAGE_SIZE, m2) /\
    sys_munmap (MM_VIRTUALIZE sample_root) (b * MM_PAGE_SIZE) MM_PAGE_SIZE m2 = Panic.
Proof.
  assert (4 <= pages_free (vm_phys (m_vm sample_mem))) as Hf by discriminate.
  assert (run_unmapped (m_vm sample_mem) sample_root 0x100000 1) as Hr.
  { intros j Hj. apply sample_space. apply user_page_addr. assert (0x100001 < USER_PAGES) as Hx by done. lia. }
  apply (shm_detach_panics sample_mem sample_owned sample_root (proj1 sample_space) Hf Hr).
  intros k q (p & Hp & Hpf) Hq. rewrite Hq in Hp. injection Hp as ->. cbn [sample_mem m_vm] in Hq.
  exact (sample_free_flags k p Hq Hpf).
Defined.
