(* ===== verification/Interfaces.v ===== *)
(** * Interfaces between components

    What the physical page allocator promises the parts of the kernel that only take
    and return whole frames, with the instance that [Phys] discharges, and what the
    block layer may assume of a block device driver. *)

From S2P Require Import Prelude Defs Phys.

(** ** Frame allocation *)

(** [pa_ok s A n]: the frames at the addresses [A] are handed out, [n] are left. *)
Class PageAlloc (S : Type) := {
  pa_alloc : page_usage -> cmd S Z;
  pa_free : Z -> cmd S unit;
  pa_ok : S -> gset Z -> Z -> Prop;
  pa_alloc_spec : forall s A n pu, pa_ok s A n -> pu <> PU_UNKNOWN -> 0 < n ->
    exists a s', pa_alloc pu s = Ret (a, s') /\ 0 <= a < 2 ^ 39 /\ a mod MM_PAGE_SIZE = 0 /\
      a ∉ A /\ pa_ok s' ({[a]} ∪ A) (n - 1);
  pa_alloc_none : forall s A pu, pa_ok s A 0 -> pu <> PU_UNKNOWN ->
    pa_alloc pu s = Ret (MM_NADDR, s);
  pa_free_spec : forall s A n a, pa_ok s A n -> a ∈ A ->
    exists s', pa_free a s = Ret (tt, s') /\ pa_ok s' (A ∖ {[a]}) (n + 1);
}.

(** The kernel's allocator is one: the frames of [A] are owned and not mapped. *)
Definition phys_pa_ok (s : phys) (A : gset Z) (n : Z) : Prop :=
  pages_free s = n /\
  exists o, phys_ok s o /\
    forall a, a ∈ A -> exists k u p, a = k * MM_PAGE_SIZE /\ LOW_PAGE <= k < PHYS_MAX_PAGES /\
      o !! k = Some u /\ mm_pages s !! k = Some p /\ pg_refcount p = 0.

Lemma frame_addr_range k : LOW_PAGE <= k < PHYS_MAX_PAGES -> 0 <= k * MM_PAGE_SIZE < 2 ^ 39.
Proof. change PHYS_MAX_PAGES with 262144. pose proof low_max. unfold MM_PAGE_SIZE. lia. Qed.

Lemma frame_addr_inj k k' : k * MM_PAGE_SIZE = k' * MM_PAGE_SIZE -> k = k'.
Proof. unfold MM_PAGE_SIZE. lia. Qed.

Lemma phys_pa_alloc s A n pu : phys_pa_ok s A n -> pu <> PU_UNKNOWN -> 0 < n ->
  exists a s', mm_phys_alloc_page pu s = Ret (a, s') /\ 0 <= a < 2 ^ 39 /\ a mod MM_PAGE_SIZE = 0 /\
    a ∉ A /\ phys_pa_ok s' ({[a]} ∪ A) (n - 1).
Proof.
  intros (Hn & o & H & HA) Hpu Hpos.
  destruct (alloc_page_run s o pu H Hpu) as [(_ & ? & _)|(k & p & E & Hp & Hf & _)]; [lia|].
  assert (is_free s k) as Hk by by exists p. pose proof (free_range _ _ _ H Hk) as Hr.
  pose proof (free_not_owned _ _ _ H Hk) as Ho.
  exists (k * MM_PAGE_SIZE), (claim pu k p s). split; [done|]. split; [by apply frame_addr_range|].
  split; [by apply Z_mod_mult|]. split.
  - intros (k' & u & q & E' & _ & Hu & _)%HA. apply frame_addr_inj in E' as <-. congruence.
  - split; [cbn; lia|]. exists (<[k:=pu]> o). split; [by apply claim_ok|].
    intros a [->%elem_of_singleton|Ha]%elem_of_union.
    + eexists k, pu, _. split; [done|]. split; [done|]. rewrite lookup_insert_eq. split; [done|].
      cbn [claim mm_pages]. rewrite lookup_insert_eq. split; [done|]. cbn [pg_refcount].
      by apply (ok_free _ _ H k).
    + destruct (HA a Ha) as (k' & u & q & -> & Hr' & Hu & Hq & Hq0).
      assert (k' <> k) by congruence. exists k', u, q. cbn [claim mm_pages].
      by rewrite !lookup_insert_ne.
Qed.

Lemma phys_pa_free s A n a : phys_pa_ok s A n -> a ∈ A ->
  exists s', mm_phys_free_page a s = Ret (tt, s') /\ phys_pa_ok s' (A ∖ {[a]}) (n + 1).
Proof.
  intros (Hn & o & H & HA) Ha. destruct (HA a Ha) as (k & u & p & -> & Hr & Hu & Hp & Hp0).
  assert (PHYS2PAGE (k * MM_PAGE_SIZE) = k) as Hk by by apply Z.div_mul.
  rewrite (free_page_run s o k u p _ H Hu Hk Hp Hp0). eexists. split; [done|].
  split; [cbn; lia|]. exists (delete k o). split; [by apply (unclaim_ok s o k u); [| |lia| |]|].
  intros b [Hb Hne]%elem_of_difference. destruct (HA b Hb) as (k' & u' & q & -> & Hr' & Hu' & Hq & Hq0).
  assert (k' <> k) by (intros ->; apply Hne; by apply elem_of_singleton).
  exists k', u', q. cbn [unclaim mm_pages]. by rewrite lookup_insert_ne, lookup_delete_ne.
Qed.

Lemma phys_pa_none s A pu : phys_pa_ok s A 0 -> pu <> PU_UNKNOWN ->
  mm_phys_alloc_page pu s = Ret (MM_NADDR, s).
Proof.
  intros (Hn & o & H & _) Hpu.
  destruct (alloc_page_run s o pu H Hpu) as [(E & _)|(k & p & _ & Hp & Hf & _)]; [done|].
  pose proof (free_pages_pos _ _ k H ltac:(by exists p)). lia.
Qed.

#[export] Instance phys_page_alloc : PageAlloc phys := {
  pa_alloc := mm_phys_alloc_page;
  pa_free := mm_phys_free_page;
  pa_ok := phys_pa_ok;
  pa_alloc_spec := phys_pa_alloc;
  pa_alloc_none := phys_pa_none;
  pa_free_spec := phys_pa_free;
}.

(** ** Block devices

    [bd_read off n] and [bd_write off l] are [blk_read_really] and [blk_write_really],
    the driver's [read] and [write] operations ([ssize_t] results); [bd_page d a] is the 4 KiB page number [a] of the
    medium, for [a] below [bd_pages d]. *)
Class BlkDev (D : Type) := {
  bd_read : Z -> Z -> cmd D (Z * list Z);
  bd_write : Z -> list Z -> cmd D Z;
  bd_pages : D -> Z;
  bd_page : D -> Z -> list Z;
  bd_page_length : forall d a, 0 <= a < bd_pages d -> length (bd_page d a) = Z.to_nat MM_PAGE_SIZE;
  bd_read_page : forall d a, 0 <= a < bd_pages d ->
    bd_read (a * MM_PAGE_SIZE) MM_PAGE_SIZE d = Ret ((MM_PAGE_SIZE, bd_page d a), d);
  bd_write_page : forall d a l, 0 <= a < bd_pages d -> length l = Z.to_nat MM_PAGE_SIZE ->
    exists d', bd_write (a * MM_PAGE_SIZE) l d = Ret (MM_PAGE_SIZE, d') /\ bd_pages d' = bd_pages d /\
      forall b, 0 <= b < bd_pages d -> bd_page d' b = if decide (b = a) then l else bd_page d b;
}.

(** A disk in memory that transfers whole pages is such a device. *)
Record mdisk := mk_mdisk { md_pages : list (list Z) }.
Definition md_page (d : mdisk) (a : Z) : list Z :=
  resize (Z.to_nat MM_PAGE_SIZE) 0 (default [] (md_pages d !! Z.to_nat a)).
Definition md_size (d : mdisk) : Z := Z.of_nat (length (md_pages d)).
Definition md_in (d : mdisk) (off n : Z) : bool :=
  (off mod MM_PAGE_SIZE =? 0) && (0 <=? off) && (off / MM_PAGE_SIZE <? md_size d) && (n =? MM_PAGE_SIZE).
Definition md_read (off n : Z) : cmd mdisk (Z * list Z) :=
  fun d => if md_in d off n then Ret ((MM_PAGE_SIZE, md_page d (off / MM_PAGE_SIZE)), d) else Ret ((-1, []), d).
Definition md_write (off : Z) (l : list Z) : cmd mdisk Z :=
  fun d => if md_in d off (Z.of_nat (length l))
           then Ret (MM_PAGE_SIZE, mk_mdisk (<[Z.to_nat (off / MM_PAGE_SIZE) := l]> (md_pages d)))
           else Ret (-1, d).

Lemma md_page_length d a : length (md_page d a) = Z.to_nat MM_PAGE_SIZE.
Proof. apply length_resize. Qed.

Lemma md_in_page d a : 0 <= a < md_size d -> md_in d (a * MM_PAGE_SIZE) MM_PAGE_SIZE = true.
Proof.
  intros Ha. unfold md_in. rewrite Z_mod_mult, Z.div_mul by done. change (MM_PAGE_SIZE =? MM_PAGE_SIZE) with true.
  repeat (apply andb_true_intro; split); try done; [apply Z.leb_le; unfold MM_PAGE_SIZE|apply Z.ltb_lt]; lia.
Qed.

Lemma md_read_page d a : 0 <= a < md_size d ->
  md_read (a * MM_PAGE_SIZE) MM_PAGE_SIZE d = Ret ((MM_PAGE_SIZE, md_page d a), d).
Proof. intros Ha. unfold md_read. rewrite md_in_page by done. by rewrite Z.div_mul. Qed.

Lemma md_write_page d a l : 0 <= a < md_size d -> length l = Z.to_nat MM_PAGE_SIZE ->
  exists d', md_write (a * MM_PAGE_SIZE) l d = Ret (MM_PAGE_SIZE, d') /\ md_size d' = md_size d /\
    forall b, 0 <= b < md_size d -> md_page d' b = if decide (b = a) then l else md_page d b.
Proof.
  intros Ha Hl. unfold md_write. rewrite Hl. change (Z.of_nat (Z.to_nat MM_PAGE_SIZE)) with MM_PAGE_SIZE.
  rewrite md_in_page, Z.div_mul by done. eexists. split; [done|]. unfold md_size in *. cbn [md_pages].
  split; [by rewrite length_insert|]. intros b Hb. unfold md_page. cbn [md_pages]. case_decide as E.
  - subst b. rewrite list_lookup_insert_eq by lia. cbn [default id]. by rewrite resize_all_alt.
  - rewrite list_lookup_insert_ne by lia. done.
Qed.

#[export] Instance mdisk_blk : BlkDev mdisk := {
  bd_read := md_read;
  bd_write := md_write;
  bd_pages := md_size;
  bd_page := md_page;
  bd_page_length := fun d a _ => md_page_length d a;
  bd_read_page := md_read_page;
  bd_write_page := md_write_page;
}.
