(* ===== verification/Slab.v ===== *)
(** * The slab allocator: [sys/mem/slab.c]

    Six caches of objects of 16 to 512 bytes.  A slab is one page: the descriptor
    [slab], the free list [bufctl] and the objects.  Caches are named by their index
    in [predefined_caches], slabs and objects by their addresses.  Frames come from a
    page allocator ([PageAlloc]); the contents of objects are bytes of memory. *)

From S2P Require Import Prelude Defs Phys Interfaces.

Definition BUFCTL_END : Z := 2 ^ 32 - 1.
Definition PREALLOC_COUNT : nat := 6.
(** [sizeof(struct slab)] and [sizeof(bufctl_t)]. *)
Definition SIZEOF_SLAB : Z := 40.
Definition SIZEOF_BUFCTL : Z := 4.

(** The lists of slabs, by the addresses of their descriptors. *)
Record slab_cache := mk_slab_cache {
  slabs_empty : list Z; slabs_partial : list Z; slabs_full : list Z; object_size : Z; objects_per_slab : Z }.
Record slab := mk_slab { s_inuse : Z; s_base : Z; s_free : Z; s_bufctl : list Z }.

Record slab_mem {S : Type} := mk_slab_mem {
  predefined_caches : list slab_cache;
  slab_at : gmap Z slab;
  bytes : gmap Z Z;
  frames : S;
}.
Arguments slab_mem : clear implicits.

Definition slab_init_cache (size : Z) : slab_cache :=
  let n := (MM_PAGE_SIZE - SIZEOF_SLAB) / size in
  let bufctl_array_size := n * SIZEOF_BUFCTL in
  mk_slab_cache [] [] [] size (n - (bufctl_array_size + size - 1) / size).

Definition slab_init_caches : list slab_cache :=
  (fun i => slab_init_cache (Z.shiftl 1 (Z.of_nat i + 4))) <$> seq 0 PREALLOC_COUNT.

(** The cache for a size, by the table [predefined_cache_sizes]. *)
Fixpoint cache_size_from (n i : nat) (size : Z) : option nat :=
  match n with
  | O => None
  | S n => if Z.shiftl 1 (Z.of_nat i + 4) <? size then cache_size_from n (S i) size else Some i
  end.

(** [list_del] unlinks a slab from whichever list it is in. *)
Definition without (a : Z) (l : list Z) : list Z := filter (fun x => x <> a) l.
Definition unlink_slab (a : Z) (c : slab_cache) : slab_cache :=
  mk_slab_cache (without a (slabs_empty c)) (without a (slabs_partial c)) (without a (slabs_full c)) (object_size c) (objects_per_slab c).
Definition add_empty (a : Z) (c : slab_cache) : slab_cache :=
  mk_slab_cache (a :: slabs_empty c) (slabs_partial c) (slabs_full c) (object_size c) (objects_per_slab c).
Definition add_partial (a : Z) (c : slab_cache) : slab_cache :=
  mk_slab_cache (slabs_empty c) (a :: slabs_partial c) (slabs_full c) (object_size c) (objects_per_slab c).
Definition add_full (a : Z) (c : slab_cache) : slab_cache :=
  mk_slab_cache (slabs_empty c) (slabs_partial c) (a :: slabs_full c) (object_size c) (objects_per_slab c).

(** The free list of a new slab: each entry names the next one. *)
Fixpoint bufctl_chain (i : Z) (n : nat) : list Z :=
  match n with
  | O => []
  | S O => [BUFCTL_END]
  | S n => (i + 1) :: bufctl_chain (i + 1) n
  end.

(** Where the objects of the slab at [a] start. *)
Definition slab_base (a n : Z) : Z := Z.land (u64 (u64 (a + SIZEOF_SLAB + SIZEOF_BUFCTL * n) + 7)) (Z.lnot 7).

Fixpoint memset (a : Z) (n : nat) (m : gmap Z Z) : gmap Z Z :=
  match n with
  | O => m
  | S n => memset (a + 1) n (<[a := 0]> m)
  end.

Section slab_ops.
Context {S : Type} `{PageAlloc S}.
Abbreviation M := (cmd (slab_mem S)).
Implicit Types st : slab_mem S.

Definition set_caches l st : slab_mem S := mk_slab_mem _ l (slab_at st) (bytes st) (frames st).
Definition set_slabs m st : slab_mem S := mk_slab_mem _ (predefined_caches st) m (bytes st) (frames st).
Definition set_bytes m st : slab_mem S := mk_slab_mem _ (predefined_caches st) (slab_at st) m (frames st).
Definition set_frames f st : slab_mem S := mk_slab_mem _ (predefined_caches st) (slab_at st) (bytes st) f.
Definition on_frames {A} (c : cmd S A) : M A := czoom frames set_frames c.

Definition get_cache (i : nat) : M slab_cache := cload (fun st => predefined_caches st !! i).
Definition upd_cache (i : nat) (f : slab_cache -> slab_cache) : M unit :=
  c ← get_cache i; cmodify (fun st => set_caches (<[i := f c]> (predefined_caches st)) st).
Definition get_slab (a : Z) : M slab := cload (fun st => slab_at st !! a).
Definition put_slab (a : Z) (s : slab) : M unit := cmodify (fun st => set_slabs (<[a := s]> (slab_at st)) st).

Definition slab_cache_get (size : Z) : M nat :=
  match cache_size_from PREALLOC_COUNT 0 size with Some i => mret i | None => cpanic end.

(** The address of the new slab, or 0. *)
Definition slab_create (i : nat) : M Z :=
  page_phys ← on_frames (pa_alloc PU_KERNEL);
  if page_phys =? MM_NADDR then mret 0 else
  c ← get_cache i;
  let a := MM_VIRTUALIZE page_phys in
  put_slab a (mk_slab 0 (slab_base a (objects_per_slab c)) 0 (bufctl_chain 0 (Z.to_nat (objects_per_slab c))));;
  upd_cache i (add_empty a);;
  mret a.

Definition slab_destroy (a : Z) : M unit :=
  cassert (Z.land a 0xFFF =? 0);;
  cmodify (fun st => set_slabs (delete a (slab_at st)) st);;
  on_frames (pa_free (MM_PHYS a)).

Definition slab_alloc_from (i : nat) (a : Z) : M Z :=
  c ← get_cache i;
  s ← get_slab a;
  let objp := u64 (s_base s + s_free s * object_size c) in
  next ← cload (fun _ => if 0 <=? s_free s then s_bufctl s !! Z.to_nat (s_free s) else None);
  put_slab a (mk_slab (s_inuse s + 1) (s_base s) next (s_bufctl s));;
  (if next =? BUFCTL_END then upd_cache i (unlink_slab a);; upd_cache i (add_full a) else mret tt);;
  cmodify (fun st => set_bytes (memset objp (Z.to_nat (object_size c)) (bytes st)) st);;
  mret objp.

(** [goto try_again] is taken at most once. *)
Fixpoint calloc_from (fuel : nat) (i : nat) : M Z :=
  match fuel with
  | O => cdiverged
  | Datatypes.S fuel =>
      c ← get_cache i;
      match slabs_partial c with
      | entry :: _ => slab_alloc_from i entry
      | [] =>
          match slabs_empty c with
          | entry :: _ =>
              upd_cache i (unlink_slab entry);;
              upd_cache i (add_partial entry);;
              slab_alloc_from i entry
          | [] =>
              a ← slab_create i;
              if a =? 0 then mret 0 else calloc_from fuel i
          end
      end
  end.
Definition slab_calloc_int (i : nat) : M Z := calloc_from 2 i.

Definition slab_free_int (i : nat) (objp : Z) : M unit :=
  cassert (negb (Z.land objp 0xFFF =? 0));;
  let a := objp / MM_PAGE_SIZE * MM_PAGE_SIZE in
  c ← get_cache i;
  s ← get_slab a;
  let obj_number := u32 ((objp - s_base s) / object_size c) in
  cload (fun _ => s_bufctl s !! Z.to_nat obj_number);;
  let inuse := s_inuse s in
  put_slab a (mk_slab (inuse - 1) (s_base s) obj_number (<[Z.to_nat obj_number := s_free s]> (s_bufctl s)));;
  if inuse - 1 =? 0 then upd_cache i (unlink_slab a);; slab_destroy a
  else if inuse =? objects_per_slab c then upd_cache i (unlink_slab a);; upd_cache i (add_partial a)
  else mret tt.

(** ** Statistics *)
Record slab_stat := mk_slab_stat { alloc_bytes : Z; alloc_pages : Z; alloc_objects : Z }.
Definition stat_add (c : slab_cache) (s : slab) (r : slab_stat) : slab_stat :=
  mk_slab_stat (alloc_bytes r + s_inuse s * object_size c) (alloc_pages r + 1) (alloc_objects r + s_inuse s).

Fixpoint stat_list (ok : slab -> bool) (c : slab_cache) (l : list Z) (r : slab_stat) : M slab_stat :=
  match l with
  | [] => mret r
  | a :: l => s ← get_slab a; cassert (ok s);; stat_list ok c l (stat_add c s r)
  end.
Definition stat_cache (c : slab_cache) (r : slab_stat) : M slab_stat :=
  r ← stat_list (fun s => s_inuse s =? objects_per_slab c) c (slabs_full c) r;
  r ← stat_list (fun s => negb (s_inuse s =? 0) && negb (s_inuse s =? objects_per_slab c)) c (slabs_partial c) r;
  cassert (bool_decide (slabs_empty c = []));; mret r.
Fixpoint stat_caches (l : list slab_cache) (r : slab_stat) : M slab_stat :=
  match l with
  | [] => mret r
  | c :: l => r ← stat_cache c r; stat_caches l r
  end.
Definition slab_stats : M slab_stat := l ← cgets predefined_caches; stat_caches l (mk_slab_stat 0 0 0).
End slab_ops.

(** ** Layout of a slab *)
Definition obj_size (i : nat) : Z := 2 ^ (Z.of_nat i + 4).
Definition per_slab (i : nat) : Z := nth i [189; 110; 59; 30; 14; 6] 0.
(** The offset of the first object. *)
Definition slab_offset (i : nat) : Z := (SIZEOF_SLAB + SIZEOF_BUFCTL * per_slab i + 7) / 8 * 8.
Arguments per_slab : simpl never.
Arguments obj_size : simpl never.
Arguments slab_offset : simpl never.

Section layout.
(** The size of every object is a multiple of 8, and descriptor, free list and objects fit the page. *)
Lemma layout_fits i : (i < PREALLOC_COUNT)%nat ->
  0 < per_slab i < 2 ^ 31 /\ 16 <= obj_size i /\ obj_size i mod 8 = 0 /\
  SIZEOF_SLAB + SIZEOF_BUFCTL * per_slab i <= slab_offset i /\ slab_offset i mod 8 = 0 /\
  slab_offset i + per_slab i * obj_size i <= MM_PAGE_SIZE.
Proof. intros Hi. do 6 (destruct i as [|i]; [repeat split; by vm_compute|]). unfold PREALLOC_COUNT in Hi. lia. Qed.

Lemma init_caches_layout i : (i < PREALLOC_COUNT)%nat ->
  slab_init_caches !! i = Some (mk_slab_cache [] [] [] (obj_size i) (per_slab i)).
Proof. intros Hi. do 6 (destruct i as [|i]; [reflexivity|]). unfold PREALLOC_COUNT in Hi. lia. Qed.

(** A page of the kernel's window on physical memory. *)
Definition kernel_page (a : Z) : Prop := exists p, a = MM_VIRTUALIZE p /\ 0 <= p < 2 ^ 39 /\ p mod MM_PAGE_SIZE = 0.

Lemma kernel_page_range a : kernel_page a -> KERNEL_VIRT_BASE <= a < 2 ^ 64 - MM_PAGE_SIZE /\ a mod MM_PAGE_SIZE = 0.
Proof.
  intros (p & -> & Hp & Hm). unfold MM_VIRTUALIZE, KERNEL_VIRT_BASE, MM_PAGE_SIZE in *. rewrite uwrap_small by lia.
  split; [lia|]. rewrite Zplus_mod, Hm. done.
Qed.

Lemma slab_base_at a i : (i < PREALLOC_COUNT)%nat -> kernel_page a -> slab_base a (per_slab i) = a + slab_offset i.
Proof.
  intros Hi Ha. destruct (layout_fits i Hi) as (Hn & Hs & _ & _ & _ & Hf). destruct (kernel_page_range a Ha) as [Hr Hm].
  assert (per_slab i <= 189) as Hb by (do 6 (destruct i as [|i]; [by vm_compute|]); unfold PREALLOC_COUNT in Hi; lia).
  unfold slab_base, slab_offset, SIZEOF_SLAB, SIZEOF_BUFCTL, MM_PAGE_SIZE, KERNEL_VIRT_BASE in *.
  rewrite (uwrap_small 64 (a + 40 + 4 * per_slab i)) by lia. rewrite uwrap_small by lia. change 7 with (Z.ones 3) at 2. rewrite land_lnot_ones by done.
  assert (a mod 8 = 0) as H8.
  { rewrite (Z.div_mod a 4096), Hm by done. replace (4096 * (a / 4096) + 0) with (512 * (a / 4096) * 8) by lia. by apply Z_mod_mult. }
  change (2 ^ 3) with 8. Z.div_mod_to_equations. lia.
Qed.
End layout.

(** ** The invariant *)

(** [fl] is the free list of a slab that starts at entry [f]. *)
Fixpoint free_chain (b : list Z) (f : Z) (fl : list Z) : Prop :=
  match fl with
  | [] => f = BUFCTL_END
  | k :: fl => f = k /\ 0 <= k < Z.of_nat (length b) /\ exists nx, b !! Z.to_nat k = Some nx /\ free_chain b nx fl
  end.

Record slab_wf (i : nat) (a : Z) (s : slab) (fl : list Z) : Prop := {
  sw_chain : free_chain (s_bufctl s) (s_free s) fl;
  sw_nodup : NoDup fl;
  sw_len : Z.of_nat (length (s_bufctl s)) = per_slab i;
  sw_base : s_base s = slab_base a (per_slab i);
  sw_inuse : s_inuse s = per_slab i - Z.of_nat (length fl);
}.

(** [own] gives the cache and the free list of every slab. *)
Abbreviation owners := (gmap Z (nat * list Z)).

Record cache_ok (i : nat) (c : slab_cache) (own : owners) : Prop := {
  ca_size : object_size c = obj_size i;
  ca_per : objects_per_slab c = per_slab i;
  ca_empty : slabs_empty c = [];
  ca_nodup : NoDup (slabs_partial c) /\ NoDup (slabs_full c);
  ca_partial : forall a, a ∈ slabs_partial c <-> exists fl, own !! a = Some (i, fl) /\ fl <> [];
  ca_full : forall a, a ∈ slabs_full c <-> own !! a = Some (i, []);
}.

Record slabs_ok {S} `{PageAlloc S} (st : slab_mem S) (own : owners) (n : Z) : Prop := {
  so_length : length (predefined_caches st) = PREALLOC_COUNT;
  so_cache : forall i c, predefined_caches st !! i = Some c -> cache_ok i c own;
  so_slab : forall a i fl, own !! a = Some (i, fl) -> (i < PREALLOC_COUNT)%nat /\ kernel_page a /\
    exists s, slab_at st !! a = Some s /\ slab_wf i a s fl;
  so_dom : dom (slab_at st) = dom own;
  so_frames : pa_ok (frames st) (set_map MM_PHYS (dom own)) n;
  so_left : 0 <= n;
}.

(** Between operations no slab is empty. *)
Definition in_use (own : owners) : Prop := forall a i fl, own !! a = Some (i, fl) -> Z.of_nat (length fl) < per_slab i.

(** [o] is an object of cache [i] that was handed out. *)
Definition live (own : owners) (i : nat) (o : Z) : Prop := exists a fl k, own !! a = Some (i, fl) /\
  0 <= k < per_slab i /\ k ∉ fl /\ o = slab_base a (per_slab i) + k * obj_size i.

Section invariant.
Context {S : Type} `{PageAlloc S}.
Implicit Types st : slab_mem S.

Lemma chain_elem b f fl : free_chain b f fl -> forall k, k ∈ fl -> 0 <= k < Z.of_nat (length b).
Proof.
  revert f. induction fl as [|j fl IH]; intros f; [by intros _ k ?%not_elem_of_nil|].
  intros (_ & Hj & nx & _ & Hc) k [->|Hk]%elem_of_cons; [done|by eapply IH].
Qed.

Lemma chain_upd b f fl k v : free_chain b f fl -> 0 <= k -> k ∉ fl -> free_chain (<[Z.to_nat k := v]> b) f fl.
Proof.
  revert f. induction fl as [|j fl IH]; intros f; [done|]. intros (-> & Hj & nx & Hn & Hc) Hk [Hne Hni]%not_elem_of_cons.
  split; [done|]. rewrite length_insert. split; [done|]. exists nx. split; [|by apply IH].
  rewrite list_lookup_insert_ne; [done|lia].
Qed.

Fixpoint indices (i : Z) (n : nat) : list Z := match n with O => [] | Datatypes.S n => i :: indices (i + 1) n end.

Lemma elem_indices n : forall i k, k ∈ indices i n <-> i <= k < i + Z.of_nat n.
Proof.
  induction n as [|n IH]; intros i k; cbn [indices]; [rewrite elem_of_nil; lia|]. rewrite elem_of_cons, IH. lia.
Qed.
Lemma length_indices n : forall i, length (indices i n) = n.
Proof. induction n as [|n IH]; intros i; [done|]. cbn. by rewrite IH. Qed.
Lemma nodup_indices n : forall i, NoDup (indices i n).
Proof. induction n as [|n IH]; intros i; [constructor|]. apply list.NoDup_cons. split; [rewrite elem_indices; lia|done]. Qed.

Lemma length_chain n : forall i, length (bufctl_chain i n) = n.
Proof. induction n as [|[|n] IH]; intros i; [done..|]. change (Datatypes.S (length (bufctl_chain (i + 1) (Datatypes.S n))) = Datatypes.S (Datatypes.S n)). by rewrite IH. Qed.

Lemma chain_new n : forall i b, (forall k, (k < Datatypes.S n)%nat -> b !! (Z.to_nat i + k)%nat = bufctl_chain i (Datatypes.S n) !! k) -> 0 <= i ->
  Z.of_nat (length b) = i + Z.of_nat (Datatypes.S n) -> free_chain b i (indices i (Datatypes.S n)).
Proof.
  induction n as [|n IH]; intros i b Hb Hi Hl.
  - split; [done|]. split; [lia|]. exists BUFCTL_END. split; [|done]. specialize (Hb 0%nat ltac:(lia)). by rewrite Nat.add_0_r in Hb.
  - split; [done|]. split; [lia|]. exists (i + 1). split; [specialize (Hb 0%nat ltac:(lia)); by rewrite Nat.add_0_r in Hb|].
    apply IH; [|lia|lia]. intros k Hk. replace (Z.to_nat (i + 1) + k)%nat with (Z.to_nat i + Datatypes.S k)%nat by lia.
    by rewrite Hb by lia.
Qed.

(** A new slab: every object is free. *)
Lemma new_slab_wf i a : (i < PREALLOC_COUNT)%nat ->
  slab_wf i a (mk_slab 0 (slab_base a (per_slab i)) 0 (bufctl_chain 0 (Z.to_nat (per_slab i)))) (indices 0 (Z.to_nat (per_slab i))).
Proof.
  intros Hi. destruct (layout_fits i Hi) as (Hn & _). split; cbn [s_bufctl s_free s_base s_inuse].
  - destruct (Z.to_nat (per_slab i)) as [|m] eqn:E; [lia|]. apply chain_new; [done|done|]. rewrite length_chain. lia.
  - apply nodup_indices.
  - rewrite length_chain. lia.
  - done.
  - rewrite length_indices. lia.
Qed.

(** ** Objects do not overlap *)
Lemma object_place own st n i o : slabs_ok st own n -> live own i o -> exists a k, is_Some (own !! a) /\ (i < PREALLOC_COUNT)%nat /\ kernel_page a /\
  0 <= k < per_slab i /\ o = a + slab_offset i + k * obj_size i /\ a + SIZEOF_SLAB <= o /\ o + obj_size i <= a + MM_PAGE_SIZE /\ o mod 8 = 0.
Proof.
  intros H0 (a & fl & k & Ha & Hk & _ & ->). destruct (so_slab _ _ _ H0 _ _ _ Ha) as (Hi & Hp & _). rewrite (slab_base_at a i Hi Hp).
  destruct (layout_fits i Hi) as (Hn & Hs & Hs8 & Ho & Ho8 & Hf). exists a, k. split; [by eexists|].
  destruct (kernel_page_range a Hp) as [_ Hm]. split; [done|]. split; [done|]. split; [done|]. split; [done|]. unfold SIZEOF_BUFCTL in *. split; [nia|]. split; [nia|].
  rewrite Zplus_mod, (Zplus_mod a), Ho8, Z.mul_mod, Hs8, Z.mul_0_r by done. change (0 mod 8) with 0. rewrite Z.add_0_r.
  unfold MM_PAGE_SIZE in Hm. Z.div_mod_to_equations. lia.
Qed.

(** The page of an object is that of its slab. *)
Lemma object_page a o : a mod MM_PAGE_SIZE = 0 -> a <= o < a + MM_PAGE_SIZE -> o / MM_PAGE_SIZE * MM_PAGE_SIZE = a.
Proof. unfold MM_PAGE_SIZE. intros Hm Ho. Z.div_mod_to_equations. lia. Qed.

Lemma live_disjoint own st n i o j o' : slabs_ok st own n -> live own i o -> live own j o' -> o <> o' ->
  o + obj_size i <= o' \/ o' + obj_size j <= o.
Proof.
  intros H0 L1 L2 Hne. pose proof L1 as (a1 & f1 & k1 & Ha1 & Hk1 & Hn1 & E1). pose proof L2 as (a2 & f2 & k2 & Ha2 & Hk2 & Hn2 & E2).
  destruct (so_slab _ _ _ H0 _ _ _ Ha1) as (Hi & Hp1 & _). destruct (so_slab _ _ _ H0 _ _ _ Ha2) as (Hj & Hp2 & _).
  rewrite (slab_base_at _ _ Hi Hp1) in E1. rewrite (slab_base_at _ _ Hj Hp2) in E2.
  destruct (layout_fits i Hi) as (_ & Hs & _ & Ho & _ & Hf). destruct (layout_fits j Hj) as (_ & Hs' & _ & Ho' & _ & Hf').
  unfold SIZEOF_SLAB, SIZEOF_BUFCTL in *. destruct (decide (a1 = a2)) as [->|Hna].
  - rewrite Ha1 in Ha2. injection Ha2 as <- <-. assert (k1 <> k2) by (intros ->; congruence). nia.
  - destruct (kernel_page_range _ Hp1) as [_ M1], (kernel_page_range _ Hp2) as [_ M2]. unfold MM_PAGE_SIZE in *.
    assert (a1 + 4096 <= a2 \/ a2 + 4096 <= a1) as [?|?] by (Z.div_mod_to_equations; lia); nia.
Qed.

(** ** Moving a slab between the lists *)
Lemma elem_without a b l : b ∈ without a l <-> b <> a /\ b ∈ l.
Proof. unfold without. by rewrite list_elem_of_filter. Qed.
Lemma nodup_without a l : NoDup l -> NoDup (without a l).
Proof. apply list.NoDup_filter. Qed.
Lemma without_id a l : a ∉ l -> without a l = l.
Proof. intros Ha. apply filter_all. intros x Hx ->. done. Qed.

Lemma cache_unlinked i c own a : cache_ok i c own -> cache_ok i (unlink_slab a c) (delete a own).
Proof.
  intros [H1 H2 H3 [H4 H5] H6 H7]. split; cbn; [done|done|by rewrite H3|split; by apply nodup_without|..]; intros b; rewrite elem_without.
  - rewrite (H6 b). destruct (decide (b = a)) as [->|]; [rewrite lookup_delete_eq; naive_solver|rewrite lookup_delete_ne by done; naive_solver].
  - rewrite (H7 b). destruct (decide (b = a)) as [->|]; [rewrite lookup_delete_eq; naive_solver|rewrite lookup_delete_ne by done; naive_solver].
Qed.

Lemma cache_not_in i c own a : cache_ok i c own -> own !! a = None -> a ∉ slabs_partial c /\ a ∉ slabs_full c.
Proof. intros Hc Ha. rewrite (ca_partial _ _ _ Hc), (ca_full _ _ _ Hc), Ha. naive_solver. Qed.

Lemma cache_add_partial i c own a fl : cache_ok i c own -> own !! a = None -> fl <> [] -> cache_ok i (add_partial a c) (<[a := (i, fl)]> own).
Proof.
  intros Hc Ha Hf. destruct (cache_not_in _ _ _ _ Hc Ha) as [N1 N2]. destruct Hc as [H1 H2 H3 [H4 H5] H6 H7].
  split; cbn; [done|done|done|split; [by apply list.NoDup_cons|done]|..]; intros b; destruct (decide (b = a)) as [->|Hb].
  - rewrite lookup_insert_eq, elem_of_cons. split; [|by left]. intros _. by exists fl.
  - rewrite lookup_insert_ne, elem_of_cons, (H6 b) by done. naive_solver.
  - rewrite lookup_insert_eq. split; [done|]. by intros [= ->].
  - rewrite lookup_insert_ne by done. apply H7.
Qed.

Lemma cache_add_full i c own a : cache_ok i c own -> own !! a = None -> cache_ok i (add_full a c) (<[a := (i, [])]> own).
Proof.
  intros Hc Ha. destruct (cache_not_in _ _ _ _ Hc Ha) as [N1 N2]. destruct Hc as [H1 H2 H3 [H4 H5] H6 H7].
  split; cbn; [done|done|done|split; [done|by apply list.NoDup_cons]|..]; intros b; destruct (decide (b = a)) as [->|Hb].
  - rewrite lookup_insert_eq. split; [done|naive_solver].
  - rewrite lookup_insert_ne by done. apply H6.
  - rewrite lookup_insert_eq, elem_of_cons. split; [done|by left].
  - rewrite lookup_insert_ne, elem_of_cons, (H7 b) by done. naive_solver.
Qed.

(** A slab that stays on the list of partial slabs. *)
Lemma cache_stays i c own a f1 f2 : cache_ok i c own -> own !! a = Some (i, f1) -> f1 <> [] -> f2 <> [] ->
  cache_ok i c (<[a := (i, f2)]> own).
Proof.
  intros [H1 H2 H3 H4 H6 H7] Ha N1 N2. split; [done..| |]; intros b; destruct (decide (b = a)) as [->|Hb].
  - rewrite lookup_insert_eq, (H6 a). split; [by exists f2|by exists f1].
  - by rewrite lookup_insert_ne by done.
  - rewrite lookup_insert_eq, (H7 a). naive_solver.
  - by rewrite lookup_insert_ne by done.
Qed.

(** The caches a slab does not belong to. *)
Lemma cache_other i j c own a v : cache_ok j c own -> i <> j -> (forall fl, own !! a <> Some (j, fl)) ->
  (v = None \/ exists fl, v = Some (i, fl)) -> cache_ok j c (partial_alter (fun _ => v) a own).
Proof.
  intros [H1 H2 H3 H4 H6 H7] Hij Ha Hv. split; [done..| |]; intros b; destruct (decide (b = a)) as [->|Hb].
  - rewrite lookup_partial_alter_eq, (H6 a). naive_solver.
  - by rewrite lookup_partial_alter_ne by done.
  - rewrite lookup_partial_alter_eq, (H7 a). naive_solver.
  - by rewrite lookup_partial_alter_ne by done.
Qed.

Lemma cache_fresh i c own a : cache_ok i c own -> own !! a = None -> unlink_slab a (add_empty a c) = c.
Proof.
  intros Hc Ha. destruct (cache_not_in _ _ _ _ Hc Ha) as [N1 N2]. unfold unlink_slab, add_empty. cbn [slabs_empty slabs_partial slabs_full object_size objects_per_slab].
  rewrite (without_id _ _ N1), (without_id _ _ N2), (ca_empty _ _ _ Hc). unfold without. rewrite filter_cons_False by (intros X; by apply X).
  destruct Hc. by destruct c; cbn in *; subst.
Qed.

(** The invariant after one slab of cache [i] and its entry in [own] have changed. *)
Lemma slabs_changed st own n i c a v l sl f n' : slabs_ok st own n -> predefined_caches st !! i = Some c ->
  (forall j fl, own !! a = Some (j, fl) -> j = i) -> (v = None \/ exists fl, v = Some (i, fl)) ->
  cache_ok i l (partial_alter (fun _ => v) a own) ->
  (forall fl, v = Some (i, fl) -> kernel_page a /\ exists s, sl !! a = Some s /\ slab_wf i a s fl) ->
  (forall b, b <> a -> sl !! b = slab_at st !! b) -> (v = None -> sl !! a = None) ->
  pa_ok f (set_map MM_PHYS (dom (partial_alter (fun _ => v) a own))) n' -> 0 <= n' -> forall m,
  slabs_ok (mk_slab_mem _ (<[i := l]> (predefined_caches st)) sl m f) (partial_alter (fun _ => v) a own) n'.
Proof.
  intros H0 Hc Hown Hv Hl Hsl Hother Hnone Hf Hn m. pose proof (lookup_lt_Some _ _ _ Hc) as Hlt.
  split; cbn [predefined_caches slab_at frames].
  - by rewrite length_insert, (so_length _ _ _ H0).
  - intros j d. destruct (decide (j = i)) as [->|Hj]; [rewrite list_lookup_insert_eq by done; by intros [= <-]|].
    rewrite list_lookup_insert_ne by done. intros Hd. apply (cache_other i j); [by eapply so_cache|congruence| |done].
    intros fl Ha. by destruct Hj; eapply Hown.
  - intros b j fl. destruct (decide (b = a)) as [->|Hb].
    + rewrite lookup_partial_alter_eq. intros Ev. destruct Hv as [Hv|[fl' Hv]]; [congruence|]. rewrite Hv in Ev. injection Ev as <- <-.
      split; [rewrite <- (so_length _ _ _ H0); by eapply lookup_lt_Some|]. by apply Hsl.
    + rewrite lookup_partial_alter_ne by done. intros Hb'. rewrite Hother by done. by apply (so_slab _ _ _ H0).
  - apply set_eq. intros b. destruct (decide (b = a)) as [->|Hb].
    + rewrite !elem_of_dom, lookup_partial_alter_eq. destruct Hv as [->|[fl ->]]; [by rewrite Hnone|].
      destruct (Hsl fl eq_refl) as (_ & s & -> & _). split; by eexists.
    + rewrite !elem_of_dom, lookup_partial_alter_ne, Hother by done. rewrite <- !elem_of_dom. by rewrite (so_dom _ _ _ H0).
  - done.
  - done.
Qed.

Lemma get_cache_run st i c : predefined_caches st !! i = Some c -> get_cache i st = Ret (c, st).
Proof. exact (load_Some (fun st => predefined_caches st !! i) st c). Qed.
Lemma get_slab_run st a s : slab_at st !! a = Some s -> get_slab a st = Ret (s, st).
Proof. exact (load_Some (fun st => slab_at st !! a) st s). Qed.
Lemma upd_cache_run st i c f : predefined_caches st !! i = Some c ->
  upd_cache i f st = Ret (tt, set_caches (<[i := f c]> (predefined_caches st)) st).
Proof. intros Hc. unfold upd_cache. by step_run (get_cache_run _ _ _ Hc). Qed.

Lemma object_range i a k : (i < PREALLOC_COUNT)%nat -> kernel_page a -> 0 <= k < per_slab i ->
  a < slab_base a (per_slab i) + k * obj_size i < a + MM_PAGE_SIZE /\ a + MM_PAGE_SIZE < 2 ^ 64.
Proof.
  intros Hi Ha Hk. rewrite (slab_base_at a i Hi Ha). destruct (layout_fits i Hi) as (Hn & Hs & _ & Ho & _ & Hf).
  destruct (kernel_page_range a Ha) as [Hr _]. unfold SIZEOF_SLAB, SIZEOF_BUFCTL in *. nia.
Qed.

Lemma same_set st own n : slabs_ok st own n -> forall a i f1 f2, own !! a = Some (i, f1) -> dom (<[a := (i, f2)]> own) = dom own.
Proof. intros _ a i f1 f2 Ha. rewrite dom_insert_L. apply elem_of_dom_2 in Ha. set_solver. Qed.

Lemma alloc_from_run st own n i c a k fl : slabs_ok st own n -> predefined_caches st !! i = Some c -> own !! a = Some (i, k :: fl) ->
  exists st', slab_alloc_from i a st = Ret (slab_base a (per_slab i) + k * obj_size i, st') /\ slabs_ok st' (<[a := (i, fl)]> own) n /\
    bytes st' = memset (slab_base a (per_slab i) + k * obj_size i) (Z.to_nat (obj_size i)) (bytes st).
Proof.
  intros H0 Hc Ha. destruct (so_slab _ _ _ H0 _ _ _ Ha) as (Hi & Hp & s & Hs & [Wc Wn Wl Wb Wi]).
  pose proof (so_cache _ _ _ H0 _ _ Hc) as Hok. destruct (layout_fits i Hi) as (Hn & _).
  cbn [free_chain] in Wc. destruct Wc as (Ef & Hk & nx & Hnx & Wc). rewrite Wl in Hk. apply list.NoDup_cons in Wn as [Wk Wn].
  destruct (object_range i a k Hi Hp Hk) as [Ho1 Ho2]. pose proof (kernel_page_range a Hp) as [Hr _].
  unfold slab_alloc_from. step_run (get_cache_run _ _ _ Hc). step_run (get_slab_run _ _ _ Hs).
  rewrite Wb, Ef, (ca_size _ _ _ Hok), uwrap_small by (unfold KERNEL_VIRT_BASE in *; lia).
  erewrite (bind_Ret _ _ st nx st) by (apply load_Some; by rewrite (proj2 (Z.leb_le _ _)) by lia). erewrite bind_Ret by reflexivity.
  set (s' := mk_slab _ _ _ _). assert (slab_wf i a s' fl) as W'.
  { split; cbn [s' s_bufctl s_free s_base s_inuse]; [done|done|done|done|]. rewrite Wi. cbn [length]. lia. }
  assert (forall l m, cache_ok i l (<[a := (i, fl)]> own) -> slabs_ok (mk_slab_mem _ (<[i := l]> (predefined_caches st)) (<[a := s']> (slab_at st)) m (frames st))
    (<[a := (i, fl)]> own) n) as Hfin.
  { intros l m Hl. eapply (slabs_changed st own n i c a (Some (i, fl))); try done.
    - intros j f Hj. congruence.
    - right. by exists fl.
    - intros f [= <-]. split; [done|]. exists s'. by rewrite lookup_insert_eq.
    - intros b Hb. by rewrite lookup_insert_ne.
    - change (partial_alter (fun _ => Some (i, fl)) a own) with (<[a := (i, fl)]> own). rewrite (same_set _ _ _ H0 _ _ _ _ Ha). apply H0.
    - apply H0. }
  destruct fl as [|k' fl].
  - rewrite (Wc : nx = BUFCTL_END), Z.eqb_refl.
    erewrite bind_Ret by (erewrite bind_Ret by (apply upd_cache_run; exact Hc);
      apply upd_cache_run; cbn [set_slabs set_caches predefined_caches]; rewrite list_lookup_insert_eq by (by eapply lookup_lt_Some); reflexivity).
    cbn beta iota. erewrite bind_Ret by reflexivity. eexists. split; [reflexivity|].
    cbn [set_slabs set_caches set_bytes predefined_caches slab_at bytes frames]. split; [|done]. rewrite list_insert_insert_eq. apply Hfin.
    rewrite <- insert_delete_eq. apply cache_add_full; [by apply cache_unlinked|apply lookup_delete_eq].
  - assert (nx <> BUFCTL_END) as Hne.
    { cbn [free_chain] in Wc. destruct Wc as (-> & Hk' & _). unfold BUFCTL_END. rewrite Wl in Hk'. lia. }
    rewrite (proj2 (Z.eqb_neq _ _) Hne). erewrite bind_Ret by reflexivity. erewrite bind_Ret by reflexivity. eexists. split; [reflexivity|].
    cbn [set_slabs set_bytes predefined_caches slab_at bytes frames]. split; [|done].
    unfold set_bytes, set_slabs. cbn [predefined_caches slab_at bytes frames].
    rewrite <- (list_insert_id (predefined_caches st) i c Hc). apply Hfin. by eapply cache_stays.
Qed.

(** ** Which objects are live *)
Definition object (i : nat) (a k : Z) : Z := slab_base a (per_slab i) + k * obj_size i.

Lemma object_inj st own n i a f k j a' f' k' : slabs_ok st own n -> own !! a = Some (i, f) -> own !! a' = Some (j, f') ->
  0 <= k < per_slab i -> 0 <= k' < per_slab j -> object i a k = object j a' k' -> a = a' /\ i = j /\ k = k'.
Proof.
  intros H0 Ha Ha' Hk Hk' E. destruct (so_slab _ _ _ H0 _ _ _ Ha) as (Hi & Hp & _). destruct (so_slab _ _ _ H0 _ _ _ Ha') as (Hj & Hp' & _).
  destruct (object_range i a k Hi Hp Hk) as [R1 _]. destruct (object_range j a' k' Hj Hp' Hk') as [R2 _]. fold (object i a k) in R1. fold (object j a' k') in R2.
  assert (a = a') as <-.
  { rewrite <- (object_page a (object i a k)) by (lia || apply (kernel_page_range a Hp)).
    rewrite <- (object_page a' (object j a' k')) by (lia || apply (kernel_page_range a' Hp')). by rewrite E. }
  rewrite Ha in Ha'. injection Ha' as <- <-. split; [done|]. split; [done|]. unfold object in E. destruct (layout_fits i Hi) as (_ & Hs & _). nia.
Qed.

Lemma live_fresh st own n i a k fl j : slabs_ok st own n -> own !! a = Some (i, fl) -> k ∈ fl -> 0 <= k < per_slab i ->
  ~ live own j (object i a k).
Proof.
  intros H0 Ha Hin Hk (a' & f' & k' & Ha' & Hk' & Hni & E). destruct (object_inj _ _ _ _ _ _ _ _ _ _ _ H0 Ha Ha' Hk Hk' E) as (<- & <- & <-).
  rewrite Ha in Ha'. injection Ha' as <-. done.
Qed.

Lemma live_take st own n i a k fl j o : slabs_ok st own n -> own !! a = Some (i, k :: fl) -> NoDup (k :: fl) -> 0 <= k < per_slab i ->
  live (<[a := (i, fl)]> own) j o <-> (j = i /\ o = object i a k) \/ live own j o.
Proof.
  intros H0 Ha Hnd Hk. apply list.NoDup_cons in Hnd as [Hk' _]. split.
  - intros (b & f & m & Hb & Hm & Hni & ->). destruct (decide (b = a)) as [->|Hb'].
    + rewrite lookup_insert_eq in Hb. injection Hb as <- <-. destruct (decide (m = k)) as [->|Hmk]; [by left|right].
      exists a, (k :: fl), m. split; [done|]. split; [done|]. split; [|done]. rewrite elem_of_cons. by intros [->|?].
    + rewrite lookup_insert_ne in Hb by done. right. by exists b, f, m.
  - intros [[-> ->]|(b & f & m & Hb & Hm & Hni & ->)].
    + exists a, fl, k. by rewrite lookup_insert_eq.
    + destruct (decide (b = a)) as [->|Hb'].
      * rewrite Ha in Hb. injection Hb as <- <-. exists a, fl, m. rewrite lookup_insert_eq. apply not_elem_of_cons in Hni as [_ ?]. done.
      * exists b, f, m. by rewrite lookup_insert_ne.
Qed.

Lemma live_new own i a n j o : own !! a = None -> Z.of_nat n = per_slab i ->
  live (<[a := (i, indices 0 n)]> own) j o <-> live own j o.
Proof.
  intros Ha Hn. split; intros (b & f & m & Hb & Hm & Hni & ->).
  - destruct (decide (b = a)) as [->|Hb']; [|rewrite lookup_insert_ne in Hb by done; by exists b, f, m].
    rewrite lookup_insert_eq in Hb. injection Hb as <- <-. destruct Hni. apply elem_indices. lia.
  - assert (b <> a) by congruence. exists b, f, m. by rewrite lookup_insert_ne.
Qed.

(** ** Allocation *)
(** A new slab, ready to be allocated from. *)
Lemma create_run st own n i c : slabs_ok st own n -> predefined_caches st !! i = Some c -> 0 < n ->
  exists a st1 st2, own !! a = None /\ slab_create i st = Ret (a, st1) /\ a <> 0 /\ predefined_caches st1 !! i = Some (add_empty a c) /\
    (upd_cache i (unlink_slab a);; upd_cache i (add_partial a)) st1 = Ret (tt, st2) /\ bytes st2 = bytes st /\
    slabs_ok st2 (<[a := (i, indices 0 (Z.to_nat (per_slab i)))]> own) (n - 1).
Proof.
  intros H0 Hc Hn. pose proof (so_cache _ _ _ H0 _ _ Hc) as Hok. assert (i < PREALLOC_COUNT)%nat as Hi by (rewrite <- (so_length _ _ _ H0); by eapply lookup_lt_Some).
  destruct (pa_alloc_spec _ _ _ PU_KERNEL (so_frames _ _ _ H0) ltac:(done) Hn) as (p & f' & Ep & Hp & Hm & Hni & Hf).
  set (a := MM_VIRTUALIZE p). assert (kernel_page a) as Ka by (by exists p). destruct (kernel_page_range a Ka) as [Ra _].
  assert (MM_PHYS a = p) as Epa by (apply MM_PHYS_VIRTUALIZE; lia).
  assert (own !! a = None) as Ha.
  { destruct (own !! a) eqn:E; [|done]. destruct Hni. apply elem_of_map. exists a. split; [done|]. apply elem_of_dom. by eexists. }
  destruct (layout_fits i Hi) as (Hpos & _).
  exists a. eexists _, _. split; [done|]. split.
  { unfold slab_create. erewrite bind_Ret by (apply zoom_Ret; exact Ep). rewrite (proj2 (Z.eqb_neq p MM_NADDR)) by (unfold MM_NADDR; lia).
    erewrite bind_Ret by (apply get_cache_run; exact Hc). fold a. erewrite bind_Ret by reflexivity.
    erewrite bind_Ret by (apply upd_cache_run; exact Hc). reflexivity. }
  split; [unfold KERNEL_VIRT_BASE in Ra; lia|]. unfold set_caches, set_slabs, set_frames. cbn [predefined_caches slab_at bytes frames].
  pose proof (lookup_lt_Some _ _ _ Hc) as Hlt. split; [by rewrite list_lookup_insert_eq|]. split.
  { erewrite bind_Ret by (apply upd_cache_run; cbn [predefined_caches]; by rewrite list_lookup_insert_eq).
    apply upd_cache_run. unfold set_caches. cbn [predefined_caches]. rewrite list_lookup_insert_eq by (by rewrite length_insert). reflexivity. }
  unfold set_caches. cbn [predefined_caches slab_at bytes frames]. split; [done|]. rewrite !list_insert_insert_eq, (cache_fresh _ _ _ _ Hok Ha).
  rewrite (ca_per _ _ _ Hok). eapply (slabs_changed st own n i c a (Some (i, indices 0 (Z.to_nat (per_slab i))))); try done.
  - intros j fl. by rewrite Ha.
  - right. by eexists.
  - apply cache_add_partial; [done|done|]. destruct (Z.to_nat (per_slab i)) eqn:E; [lia|done].
  - intros fl [= <-]. split; [done|]. eexists. split; [apply lookup_insert_eq|by apply new_slab_wf].
  - intros b Hb. by rewrite lookup_insert_ne.
  - change (partial_alter (fun _ => Some (i, indices 0 (Z.to_nat (per_slab i)))) a own) with (<[a := (i, indices 0 (Z.to_nat (per_slab i)))]> own).
    rewrite dom_insert_L, set_map_union_L, set_map_singleton_L, Epa. done.
  - lia.
Qed.

(** What a successful allocation of [o] in cache [i] has done. *)
Definition allocated st st' (own own' : owners) (i : nat) (o : Z) : Prop :=
  o <> 0 /\ (forall j, ~ live own j o) /\ (forall j o', live own' j o' <-> (j = i /\ o' = o) \/ live own j o') /\
  bytes st' = memset o (Z.to_nat (obj_size i)) (bytes st).

(** Allocating the first free object of a slab; [own0] are the owners before the slab was created. *)
Lemma take_object st own0 own n i c a k fl : slabs_ok st own n -> predefined_caches st !! i = Some c -> own !! a = Some (i, k :: fl) ->
  (forall j o, live own j o <-> live own0 j o) -> (forall b j f, b <> a -> own !! b = Some (j, f) -> Z.of_nat (length f) < per_slab j) ->
  exists st', slab_alloc_from i a st = Ret (object i a k, st') /\ slabs_ok st' (<[a := (i, fl)]> own) n /\ in_use (<[a := (i, fl)]> own) /\
    allocated st st' own0 (<[a := (i, fl)]> own) i (object i a k).
Proof.
  intros H0 Hc Ha Hl Hu. destruct (alloc_from_run _ _ _ _ _ _ _ _ H0 Hc Ha) as (st' & E & Hok & Hb). exists st'. split; [done|]. split; [done|].
  destruct (so_slab _ _ _ H0 _ _ _ Ha) as (Hi & Hp & s & Hs & [Wc Wn Wl Wb Wi]).
  pose proof (chain_elem _ _ _ Wc k ltac:(by left)) as Hk. rewrite Wl in Hk.
  assert (Z.of_nat (length (k :: fl)) <= per_slab i) as Hlen.
  { destruct (Z.le_gt_cases (Z.of_nat (length (k :: fl))) (per_slab i)) as [?|Hgt]; [done|]. exfalso.
    assert (k :: fl ⊆+ indices 0 (Z.to_nat (per_slab i))) as Hsub.
    { apply NoDup_submseteq; [done|]. intros x Hx. apply elem_indices. pose proof (chain_elem _ _ _ Wc x Hx). lia. }
    apply submseteq_length in Hsub. rewrite length_indices in Hsub. lia. }
  split.
  - intros b j f. destruct (decide (b = a)) as [->|Hb']; [rewrite lookup_insert_eq; intros [= <- <-]; cbn [length] in Hlen; lia|].
    rewrite lookup_insert_ne by done. by apply Hu.
  - destruct (object_range i a k Hi Hp Hk) as [Ho _]. pose proof (kernel_page_range a Hp) as [Hr _]. unfold KERNEL_VIRT_BASE in Hr.
    split; [unfold object; lia|]. split; [|split; [|done]].
    + intros j Hj%Hl. revert Hj. eapply live_fresh; [exact H0|exact Ha|by left|done].
    + intros j o'. rewrite (live_take _ _ _ _ _ _ _ _ _ H0 Ha Wn Hk). by rewrite Hl.
Qed.

Lemma calloc_run st own n i : slabs_ok st own n -> in_use own -> (i < PREALLOC_COUNT)%nat ->
  (n = 0 /\ (forall a fl, own !! a = Some (i, fl) -> fl = []) /\ slab_calloc_int i st = Ret (0, st)) \/
  exists o st' own' n', slab_calloc_int i st = Ret (o, st') /\ slabs_ok st' own' n' /\ in_use own' /\ allocated st st' own own' i o.
Proof.
  intros H0 Hu Hi. destruct (lookup_lt_is_Some_2 (predefined_caches st) i) as [c Hc]; [by rewrite (so_length _ _ _ H0)|].
  pose proof (so_cache _ _ _ H0 _ _ Hc) as Hok. unfold slab_calloc_int. cbn [calloc_from]. rewrite (bind_Ret _ _ _ _ _ (get_cache_run _ _ _ Hc)).
  destruct (slabs_partial c) as [|a l] eqn:Ep.
  - rewrite (ca_empty _ _ _ Hok). assert (forall a fl, own !! a = Some (i, fl) -> fl = []) as Hno.
    { intros a fl Ha. destruct fl as [|k fl]; [done|]. assert (a ∈ slabs_partial c) as Hin by (apply (ca_partial _ _ _ Hok); by eexists).
      rewrite Ep in Hin. by apply not_elem_of_nil in Hin. }
    destruct (decide (n = 0)) as [->|Hn].
    + left. split; [done|]. split; [done|]. assert (slab_create i st = Ret (0, st)) as E.
      { unfold slab_create. erewrite bind_Ret by (apply zoom_Ret, (pa_alloc_none _ _ _ (so_frames _ _ _ H0)); done).
        rewrite Z.eqb_refl. by destruct st. }
      by step_run E.
    + right. pose proof (so_left _ _ _ H0). destruct (create_run _ _ _ _ _ H0 Hc ltac:(lia)) as (a & st1 & st2 & Ha & E1 & Ha0 & Hc1 & E2 & Hb & H2).
      step_run E1. rewrite (proj2 (Z.eqb_neq _ _) Ha0). rewrite (bind_Ret _ _ _ _ _ (get_cache_run _ _ _ Hc1)).
      cbn [add_empty slabs_partial slabs_empty]. rewrite Ep. destruct (layout_fits i Hi) as (Hpos & _).
      destruct (Z.to_nat (per_slab i)) as [|m] eqn:Em; [lia|]. cbn [indices] in H2. set (fl := indices (0 + 1) m) in H2.
      destruct (lookup_lt_is_Some_2 (predefined_caches st2) i) as [c2 Hc2]; [by rewrite (so_length _ _ _ H2)|].
      destruct (take_object st2 own _ (n - 1) i c2 a 0 fl H2 Hc2 (lookup_insert_eq _ _ _)) as (st' & E & H3 & H4 & H5).
      * intros j o. apply (live_new own i a (Datatypes.S m)); [done|lia].
      * intros b j f Hb'. rewrite lookup_insert_ne by done. apply Hu.
      * exists (object i a 0), st', (<[a := (i, fl)]> (<[a := (i, 0 :: fl)]> own)), (n - 1). split; [|split; [done|split; [done|]]].
        -- apply bind_inv in E2 as (u & st3 & E3 & E4). rewrite (bind_Ret _ _ _ _ _ E3). destruct u. by step_run E4.
        -- destruct H5 as (? & ? & ? & Hb5). split; [done|]. split; [done|]. split; [done|]. by rewrite <- Hb.
  - right. assert (a ∈ slabs_partial c) as Hin by (rewrite Ep; by left). apply (ca_partial _ _ _ Hok) in Hin as (fl & Ha & Hne).
    destruct fl as [|k fl]; [done|]. destruct (take_object st own own n i c a k fl H0 Hc Ha) as (st' & E & H1 & H2 & H3); [done| |].
    + intros b j f _. apply Hu.
    + exists (object i a k), st', (<[a := (i, fl)]> own), n. done.
Qed.

(** ** Release *)
Lemma live_put st own n i a k fl j o : slabs_ok st own n -> own !! a = Some (i, fl) -> 0 <= k < per_slab i -> k ∉ fl ->
  live (<[a := (i, k :: fl)]> own) j o <-> live own j o /\ o <> object i a k.
Proof.
  intros H0 Ha Hk Hni. split.
  - intros (b & f & m & Hb & Hm & Hn & ->). destruct (decide (b = a)) as [->|Hb'].
    + rewrite lookup_insert_eq in Hb. injection Hb as <- <-. apply not_elem_of_cons in Hn as [Hmk Hn]. split; [by exists a, fl, m|].
      intros E. destruct (object_inj _ _ _ i a fl m i a fl k H0 Ha Ha Hm Hk E) as (_ & _ & ->). done.
    + rewrite lookup_insert_ne in Hb by done. split; [by exists b, f, m|].
      intros E. destruct (object_inj _ _ _ j b f m i a fl k H0 Hb Ha Hm Hk E) as (-> & _ & _). done.
  - intros [(b & f & m & Hb & Hm & Hn & ->) Hne]. destruct (decide (b = a)) as [->|Hb'].
    + rewrite Ha in Hb. injection Hb as <- <-. exists a, (k :: fl), m. rewrite lookup_insert_eq. split; [done|]. split; [done|]. split; [|done].
      apply not_elem_of_cons. split; [|done]. intros ->. done.
    + exists b, f, m. by rewrite lookup_insert_ne.
Qed.

(** When the last object of a slab is released, every other one is free. *)
Lemma free_list_full i (b : list Z) f fl k : free_chain b f fl -> NoDup fl -> Z.of_nat (length b) = per_slab i -> 0 <= k < per_slab i -> k ∉ fl ->
  Z.of_nat (length fl) <= per_slab i - 1 /\
  (Z.of_nat (length fl) = per_slab i - 1 -> forall m, 0 <= m < per_slab i -> m <> k -> m ∈ fl).
Proof.
  intros Hc Hnd Hl Hk Hni.
  assert (k :: fl ⊆+ indices 0 (Z.to_nat (per_slab i))) as Hsub.
  { apply NoDup_submseteq; [by apply list.NoDup_cons|]. intros x [->|Hx]%elem_of_cons; apply elem_indices; [lia|].
    pose proof (chain_elem _ _ _ Hc x Hx). lia. }
  pose proof (submseteq_length _ _ Hsub) as Hlen. rewrite length_indices in Hlen. cbn [length] in Hlen. split; [lia|].
  intros E m Hm Hne. pose proof (submseteq_length_Permutation _ _ Hsub ltac:(rewrite length_indices; cbn [length]; lia)) as P.
  assert (m ∈ k :: fl) as [->|?]%elem_of_cons by (rewrite P; apply elem_indices; lia); done.
Qed.

Lemma live_last st own n i a k fl j o : slabs_ok st own n -> own !! a = Some (i, fl) -> 0 <= k < per_slab i ->
  (forall m, 0 <= m < per_slab i -> m <> k -> m ∈ fl) ->
  live (delete a own) j o <-> live own j o /\ o <> object i a k.
Proof.
  intros H0 Ha Hk Hall. split.
  - intros (b & f & m & Hb & Hm & Hn & ->). destruct (decide (b = a)) as [->|Hb']; [by rewrite lookup_delete_eq in Hb|].
    rewrite lookup_delete_ne in Hb by done. split; [by exists b, f, m|].
    intros E. destruct (object_inj _ _ _ j b f m i a fl k H0 Hb Ha Hm Hk E) as (-> & _ & _). done.
  - intros [(b & f & m & Hb & Hm & Hn & ->) Hne]. destruct (decide (b = a)) as [->|Hb'].
    + rewrite Ha in Hb. injection Hb as <- <-. destruct (decide (m = k)) as [->|Hmk]; [done|]. by destruct Hn; apply Hall.
    + exists b, f, m. by rewrite lookup_delete_ne.
Qed.

Lemma frames_delete st own n a v : slabs_ok st own n -> own !! a = Some v ->
  set_map MM_PHYS (dom (delete a own)) = (set_map MM_PHYS (dom own) ∖ {[MM_PHYS a]} : gset Z) /\ MM_PHYS a ∈ (set_map MM_PHYS (dom own) : gset Z).
Proof.
  intros H0 Ha. assert (forall b w, own !! b = Some w -> exists p, b = MM_VIRTUALIZE p /\ MM_PHYS b = p) as Hinv.
  { intros b [j f] Hb. destruct (so_slab _ _ _ H0 _ _ _ Hb) as (_ & (p & -> & Hp & _) & _). exists p. split; [done|]. apply MM_PHYS_VIRTUALIZE. lia. }
  split; [|apply elem_of_map; exists a; split; [done|by eapply elem_of_dom_2]].
  apply set_eq. intros x. rewrite elem_of_difference, elem_of_singleton, !elem_of_map. split.
  - intros (b & -> & [w Hb]%elem_of_dom). destruct (decide (b = a)) as [->|Hne]; [by rewrite lookup_delete_eq in Hb|].
    rewrite lookup_delete_ne in Hb by done. split; [exists b; split; [done|by eapply elem_of_dom_2]|]. intros E.
    destruct (Hinv _ _ Hb) as (p & Eb & Ep), (Hinv _ _ Ha) as (p' & Ea & Ep'). congruence.
  - intros [(b & -> & [w Hb]%elem_of_dom) Hne]. exists b. split; [done|]. apply elem_of_dom. exists w. rewrite lookup_delete_ne; [done|]. by intros ->.
Qed.

(** Reading the address of an object back: its slab and its number. *)
Lemma object_decode i a k : (i < PREALLOC_COUNT)%nat -> kernel_page a -> 0 <= k < per_slab i ->
  Z.land (object i a k) 0xFFF <> 0 /\ object i a k / MM_PAGE_SIZE * MM_PAGE_SIZE = a /\
  u32 ((object i a k - slab_base a (per_slab i)) / obj_size i) = k.
Proof.
  intros Hi Ha Hk. destruct (object_range i a k Hi Ha Hk) as [Ho _]. fold (object i a k) in Ho. destruct (kernel_page_range a Ha) as [_ Hm].
  destruct (layout_fits i Hi) as (Hn & Hs & _). split; [|split; [apply object_page; [done|lia]|]].
  - change 0xFFF with (Z.ones 12). rewrite Z.land_ones by done. change (2 ^ 12) with 4096. unfold MM_PAGE_SIZE in *. Z.div_mod_to_equations. lia.
  - unfold object. replace (slab_base a (per_slab i) + k * obj_size i - slab_base a (per_slab i)) with (k * obj_size i) by lia.
    rewrite Z.div_mul by lia. apply uwrap_small. lia.
Qed.

(** The entry of a slab after object [k] was released. *)
Definition after_free (i : nat) (k : Z) (fl : list Z) : option (nat * list Z) :=
  if decide (Z.of_nat (length fl) = per_slab i - 1) then None else Some (i, k :: fl).

(** The slab with entry [k] put at the head of the free list. *)
Lemma put_back_wf i a s fl k : slab_wf i a s fl -> 0 <= k < per_slab i -> k ∉ fl ->
  slab_wf i a (mk_slab (s_inuse s - 1) (s_base s) k (<[Z.to_nat k := s_free s]> (s_bufctl s))) (k :: fl).
Proof.
  intros [Wc Wn Wl Wb Wi] Hk Hni. split; cbn [s_bufctl s_free s_base s_inuse].
  - split; [done|]. rewrite length_insert. split; [lia|]. exists (s_free s). rewrite list_lookup_insert_eq by lia. split; [done|].
    apply chain_upd; [done|lia|done].
  - by apply list.NoDup_cons.
  - by rewrite length_insert.
  - done.
  - rewrite Wi. cbn [length]. lia.
Qed.

Lemma free_run st own n i a fl k : slabs_ok st own n -> in_use own -> own !! a = Some (i, fl) -> 0 <= k < per_slab i -> k ∉ fl ->
  exists st' n', slab_free_int i (object i a k) st = Ret (tt, st') /\ bytes st' = bytes st /\
    slabs_ok st' (partial_alter (fun _ => after_free i k fl) a own) n' /\
    n' = (if decide (Z.of_nat (length fl) = per_slab i - 1) then n + 1 else n).
Proof.
  intros H0 Hu Ha Hk Hni. destruct (so_slab _ _ _ H0 _ _ _ Ha) as (Hi & Hp & s & Hs & Wf). pose proof Wf as [Wc Wn Wl Wb Wi].
  destruct (lookup_lt_is_Some_2 (predefined_caches st) i) as [c Hc]; [by rewrite (so_length _ _ _ H0)|].
  pose proof (so_cache _ _ _ H0 _ _ Hc) as Hok. destruct (object_decode i a k Hi Hp Hk) as (D1 & D2 & D3).
  destruct (free_list_full i _ _ _ k Wc Wn Wl Hk Hni) as [Hlen _]. pose proof (lookup_lt_Some _ _ _ Hc) as Hlt.
  unfold slab_free_int. rewrite (proj2 (Z.eqb_neq _ _) D1), D2. erewrite bind_Ret by reflexivity. step_run (get_cache_run _ _ _ Hc).
  step_run (get_slab_run _ _ _ Hs). rewrite Wb, (ca_size _ _ _ Hok), D3.
  destruct (lookup_lt_is_Some_2 (s_bufctl s) (Z.to_nat k)) as [old Hold]; [lia|].
  erewrite (bind_Ret _ _ st old st) by (by apply load_Some). erewrite bind_Ret by reflexivity.
  pose proof (put_back_wf i a s fl k Wf Hk Hni) as W'. rewrite Wb in W'. set (s' := mk_slab _ _ _ _) in W' |- *.
  assert (forall v l sl f n', v = after_free i k fl -> cache_ok i l (partial_alter (fun _ => v) a own) ->
    (forall fl', v = Some (i, fl') -> sl !! a = Some s' /\ fl' = k :: fl) -> (forall b, b <> a -> sl !! b = slab_at st !! b) -> (v = None -> sl !! a = None) ->
    pa_ok f (set_map MM_PHYS (dom (partial_alter (fun _ => v) a own))) n' -> 0 <= n' ->
    slabs_ok (mk_slab_mem _ (<[i := l]> (predefined_caches st)) sl (bytes st) f) (partial_alter (fun _ => v) a own) n') as Hfin.
  { intros v l sl f n' Ev Hl Hsl Hoth Hnone Hf Hn'. eapply slabs_changed; try done.
    - intros j f' Hj. congruence.
    - rewrite Ev. unfold after_free. case_decide; [by left|right; by eexists].
    - intros fl' E. destruct (Hsl fl' E) as [Hsa ->]. split; [done|]. by exists s'. }
  pose proof (so_left _ _ _ H0) as Hn0. unfold after_free in *. destruct (decide (Z.of_nat (length fl) = per_slab i - 1)) as [El|El].
  - assert (s_inuse s - 1 =? 0 = true) as -> by (apply Z.eqb_eq; lia).
    erewrite bind_Ret by (apply upd_cache_run; exact Hc). unfold slab_destroy.
    destruct (kernel_page_range a Hp) as [_ Hm]. change 0xFFF with (Z.ones 12). rewrite Z.land_ones by done. change (2 ^ 12) with MM_PAGE_SIZE.
    rewrite Hm. erewrite bind_Ret by reflexivity. erewrite bind_Ret by reflexivity.
    destruct (frames_delete _ _ _ _ _ H0 Ha) as [Ed Hin].
    destruct (pa_free_spec _ _ _ _ (so_frames _ _ _ H0) Hin) as (f' & Ef & Hf').
    eexists _, (n + 1). split; [apply zoom_Ret; exact Ef|]. unfold set_frames, set_slabs, set_caches. cbn [predefined_caches slab_at bytes frames].
    split; [done|]. split; [|done]. apply Hfin; [done| |done| |by rewrite lookup_delete_eq| |lia].
    + change (partial_alter (fun _ => None) a own) with (delete a own). by apply cache_unlinked.
    + intros b Hb. rewrite lookup_delete_ne, lookup_insert_ne by done. done.
    + change (partial_alter (fun _ => None) a own) with (delete a own). by rewrite Ed.
  - assert (s_inuse s - 1 =? 0 = false) as -> by (apply Z.eqb_neq; lia).
    assert (forall l, cache_ok i l (<[a := (i, k :: fl)]> own) -> slabs_ok (mk_slab_mem _ (<[i := l]> (predefined_caches st)) (<[a := s']> (slab_at st)) (bytes st) (frames st))
      (<[a := (i, k :: fl)]> own) n) as Hfin'.
    { intros l Hl. apply (Hfin (Some (i, k :: fl))); [done|done| | |done| |done].
      - intros f' [= <-]. by rewrite lookup_insert_eq.
      - intros b Hb. by rewrite lookup_insert_ne.
      - change (partial_alter (fun _ => Some (i, k :: fl)) a own) with (<[a := (i, k :: fl)]> own). rewrite (same_set _ _ _ H0 _ _ _ _ Ha). apply H0. }
    rewrite (ca_per _ _ _ Hok), Wi. destruct fl as [|k' fl].
    + rewrite (proj2 (Z.eqb_eq _ _)) by (cbn [length]; lia). eexists _, n. split.
      { erewrite bind_Ret by (apply upd_cache_run; exact Hc). apply upd_cache_run. unfold set_caches. cbn [predefined_caches set_slabs].
        by rewrite list_lookup_insert_eq. }
      unfold set_caches, set_slabs. cbn [predefined_caches slab_at bytes frames]. split; [done|]. split; [|done]. rewrite list_insert_insert_eq.
      apply Hfin'. rewrite <- insert_delete_eq. apply cache_add_partial; [by apply cache_unlinked|apply lookup_delete_eq|done].
    + rewrite (proj2 (Z.eqb_neq _ _)) by (cbn [length]; lia). eexists _, n. split; [reflexivity|]. unfold set_slabs. split; [done|]. split; [|done].
      rewrite <- (list_insert_id (predefined_caches st) i c Hc). apply Hfin'. by eapply cache_stays.
Qed.
End invariant.

(** ** Counting *)
Definition total {A} (f : A -> Z) (l : list A) : Z := foldr (fun x t => f x + t) 0 l.

Section counting.
Context {S : Type} `{PageAlloc S}.
Implicit Types st : slab_mem S.

Lemma total_app {A} (f : A -> Z) l1 l2 : total f (l1 ++ l2) = total f l1 + total f l2.
Proof. induction l1 as [|x l1 IH]; [done|]. cbn. fold (total f). unfold total in *. lia. Qed.
Lemma total_perm {A} (f : A -> Z) l1 l2 : l1 ≡ₚ l2 -> total f l1 = total f l2.
Proof. unfold total. induction 1; cbn; lia. Qed.
Lemma total_ext {A} (f g : A -> Z) l : (forall x, x ∈ l -> f x = g x) -> total f l = total g l.
Proof.
  intros Hl. induction l as [|x l IH]; [done|]. cbn. rewrite (Hl x) by (by left). f_equal. apply IH. intros y Hy. apply Hl. by right.
Qed.
Lemma length_bind_total {A B} (f : A -> list B) l : Z.of_nat (length (l ≫= f)) = total (fun x => Z.of_nat (length (f x))) l.
Proof. induction l as [|x l IH]; [done|]. cbn. rewrite length_app. unfold total in IH. lia. Qed.

(** The objects of one slab that are in use. *)
Definition used_objects (e : Z * (nat * list Z)) : list Z :=
  let '(a, (i, fl)) := e in object i a <$> filter (fun k => k ∉ fl) (indices 0 (Z.to_nat (per_slab i))).

Lemma length_used i a fl s : slab_wf i a s fl -> Z.of_nat (length (used_objects (a, (i, fl)))) = s_inuse s.
Proof.
  intros [Wc Wn Wl Wb Wi]. unfold used_objects. rewrite length_fmap, Wi. set (l := indices 0 (Z.to_nat (per_slab i))).
  assert (filter (fun k => k ∉ fl) l ++ fl ≡ₚ l) as P.
  { apply NoDup_Permutation; [|apply nodup_indices|].
    - apply list.NoDup_app. split; [apply list.NoDup_filter, nodup_indices|]. split; [|done]. intros x [? _]%list_elem_of_filter. done.
    - intros x. rewrite elem_of_app, list_elem_of_filter. split; [intros [[_ ?]|Hx]; [done|]|].
      + apply elem_indices. pose proof (chain_elem _ _ _ Wc x Hx). lia.
      + intros Hx. destruct (decide (x ∈ fl)); [by right|by left]. }
  apply Permutation_length in P. rewrite length_app in P. unfold l in P at 2. rewrite length_indices in P.
  pose proof (Nat2Z.is_nonneg (length (s_bufctl s))). lia.
Qed.

Lemma elem_used own o : o ∈ (map_to_list own ≫= used_objects) <-> exists j, live own j o.
Proof.
  rewrite list_elem_of_bind. split.
  - intros ([a [i fl]] & Ho & Ha%elem_of_map_to_list). cbn in Ho. apply list_elem_of_fmap in Ho as (k & -> & [Hni Hk]%list_elem_of_filter).
    apply elem_indices in Hk. exists i, a, fl, k. split; [done|]. split; [lia|done].
  - intros (i & a & fl & k & Ha & Hk & Hni & ->). exists (a, (i, fl)). split; [|by apply elem_of_map_to_list]. cbn.
    apply list_elem_of_fmap. exists k. split; [done|]. apply list_elem_of_filter. split; [done|]. apply elem_indices. lia.
Qed.

Lemma nodup_used st own n : slabs_ok st own n -> NoDup (map_to_list own ≫= used_objects).
Proof.
  intros H0. apply NoDup_bind; [|..|apply NoDup_map_to_list].
  - intros [a [i f]] [a' [j f']] o Ha%elem_of_map_to_list Ha'%elem_of_map_to_list Ho Ho'. cbn in Ho, Ho'.
    apply list_elem_of_fmap in Ho as (k & -> & [_ Hk]%list_elem_of_filter). apply list_elem_of_fmap in Ho' as (k' & E & [_ Hk']%list_elem_of_filter).
    apply elem_indices in Hk, Hk'. destruct (object_inj st own n i a f k j a' f' k' H0 Ha Ha' ltac:(lia) ltac:(lia) E) as (-> & _). congruence.
  - intros [a [i f]] Ha%elem_of_map_to_list. cbn. apply NoDup_fmap_2_strong; [|apply list.NoDup_filter, nodup_indices].
    intros k k' [_ Hk]%list_elem_of_filter [_ Hk']%list_elem_of_filter E. apply elem_indices in Hk, Hk'.
    by destruct (object_inj st own n i a f k i a f k' H0 Ha Ha ltac:(lia) ltac:(lia) E) as (_ & _ & ->).
Qed.

(** ** The statistics *)
Definition inuse_at st (a : Z) : Z := default 0 (s_inuse <$> slab_at st !! a).
Definition cache_slabs (c : slab_cache) : list Z := slabs_full c ++ slabs_partial c.

Lemma stat_list_run st ok c l : (forall a, a ∈ l -> exists s, slab_at st !! a = Some s /\ ok s = true) -> forall r,
  stat_list ok c l r st = Ret (mk_slab_stat (alloc_bytes r + object_size c * total (inuse_at st) l)
    (alloc_pages r + Z.of_nat (length l)) (alloc_objects r + total (inuse_at st) l), st).
Proof.
  induction l as [|a l IH]; intros Hl r.
  - unfold total. cbn. rewrite Z.mul_0_r, !Z.add_0_r. by destruct r.
  - destruct (Hl a ltac:(by left)) as (s & Hs & Hok). cbn [stat_list]. step_run (get_slab_run _ _ _ Hs). rewrite Hok. erewrite bind_Ret by reflexivity.
    rewrite IH by (intros b Hb; apply Hl; by right). unfold stat_add, total. cbn [alloc_bytes alloc_pages alloc_objects foldr length].
    change (inuse_at st a) with (default 0 (s_inuse <$> slab_at st !! a)). rewrite Hs. cbn [default fmap option_fmap option_map from_option id].
    f_equal. f_equal. f_equal; lia.
Qed.

Lemma stat_cache_run st own n i c r : slabs_ok st own n -> in_use own -> predefined_caches st !! i = Some c ->
  exists b, stat_cache c r st = Ret (mk_slab_stat b (alloc_pages r + Z.of_nat (length (cache_slabs c)))
    (alloc_objects r + total (inuse_at st) (cache_slabs c)), st).
Proof.
  intros H0 Hu Hc. pose proof (so_cache _ _ _ H0 _ _ Hc) as Hok. unfold stat_cache.
  erewrite bind_Ret; [|apply stat_list_run].
  1: erewrite bind_Ret; [|apply stat_list_run].
  - rewrite (bool_decide_eq_true_2 (slabs_empty c = [])) by apply Hok. erewrite bind_Ret by reflexivity. eexists.
    unfold mret, cmd_mret, cret, cache_slabs. cbn [alloc_pages alloc_objects]. rewrite length_app, total_app, !Z.add_assoc, Nat2Z.inj_add, Z.add_assoc. reflexivity.
  - intros a Ha%(ca_partial _ _ _ Hok). destruct Ha as (fl & Ha & Hne). destruct (so_slab _ _ _ H0 _ _ _ Ha) as (Hi & _ & s & Hs & [_ _ _ _ Wi]).
    exists s. split; [done|]. specialize (Hu _ _ _ Ha). rewrite (ca_per _ _ _ Hok), Wi. destruct fl as [|k fl]; [done|]. cbn [length] in *.
    apply andb_true_iff; split; apply negb_true_iff, Z.eqb_neq; lia.
  - intros a Ha%(ca_full _ _ _ Hok). destruct (so_slab _ _ _ H0 _ _ _ Ha) as (Hi & _ & s & Hs & [_ _ _ _ Wi]). exists s. split; [done|].
    apply Z.eqb_eq. rewrite Wi, (ca_per _ _ _ Hok). cbn. lia.
Qed.

Lemma stat_caches_run st own n : slabs_ok st own n -> in_use own -> forall l, (forall c, c ∈ l -> exists i, predefined_caches st !! i = Some c) -> forall r,
  exists b, stat_caches l r st = Ret (mk_slab_stat b (alloc_pages r + Z.of_nat (length (l ≫= cache_slabs)))
    (alloc_objects r + total (inuse_at st) (l ≫= cache_slabs)), st).
Proof.
  intros H0 Hu. induction l as [|c l IH]; intros Hl r.
  - exists (alloc_bytes r). unfold total. cbn. rewrite !Z.add_0_r. by destruct r.
  - destruct (Hl c ltac:(by left)) as [i Hi]. destruct (stat_cache_run _ _ _ _ _ r H0 Hu Hi) as [b E]. cbn [stat_caches]. step_run E.
    destruct (IH ltac:(intros d Hd; apply Hl; by right) (mk_slab_stat b (alloc_pages r + Z.of_nat (length (cache_slabs c))) (alloc_objects r + total (inuse_at st) (cache_slabs c))))
      as [b' E']. exists b'. rewrite E'. cbn [alloc_pages alloc_objects mbind list_bind]. fold (mbind (M:=list) cache_slabs). rewrite length_app, total_app. f_equal. f_equal. f_equal; lia.
Qed.

(** The lists of the caches hold every slab exactly once. *)
Lemma all_slabs_perm st own n : slabs_ok st own n -> predefined_caches st ≫= cache_slabs ≡ₚ (map_to_list own).*1.
Proof.
  intros H0. apply NoDup_Permutation.
  - apply NoDup_bind.
    + intros c1 c2 a [i Hi]%list_elem_of_lookup [j Hj]%list_elem_of_lookup H1 H2.
      pose proof (so_cache _ _ _ H0 _ _ Hi) as K1. pose proof (so_cache _ _ _ H0 _ _ Hj) as K2. unfold cache_slabs in H1, H2.
      assert (exists f, own !! a = Some (i, f)) as [f Ef] by (apply elem_of_app in H1 as [H1%(ca_full _ _ _ K1)|H1%(ca_partial _ _ _ K1)]; naive_solver).
      assert (exists f, own !! a = Some (j, f)) as [f' Ef'] by (apply elem_of_app in H2 as [H2%(ca_full _ _ _ K2)|H2%(ca_partial _ _ _ K2)]; naive_solver).
      rewrite Ef in Ef'. injection Ef' as <- _. congruence.
    + intros c [i Hi]%list_elem_of_lookup. pose proof (so_cache _ _ _ H0 _ _ Hi) as K. destruct (ca_nodup _ _ _ K) as [N1 N2].
      apply list.NoDup_app. split; [done|]. split; [|done]. intros a H1%(ca_full _ _ _ K) (f & H2 & Hf)%(ca_partial _ _ _ K). congruence.
    + apply NoDup_alt. intros i j c Hi Hj. pose proof (ca_size _ _ _ (so_cache _ _ _ H0 _ _ Hi)) as E1. pose proof (ca_size _ _ _ (so_cache _ _ _ H0 _ _ Hj)) as E2.
      rewrite E1 in E2. unfold obj_size in E2. apply Z.pow_inj_r in E2; lia.
  - apply NoDup_fst_map_to_list.
  - intros a. rewrite list_elem_of_bind, list_elem_of_fmap. split.
    + intros (c & Hin & [i Hi]%list_elem_of_lookup). pose proof (so_cache _ _ _ H0 _ _ Hi) as K.
      assert (exists f, own !! a = Some (i, f)) as [f Ef] by (apply elem_of_app in Hin as [Hin%(ca_full _ _ _ K)|Hin%(ca_partial _ _ _ K)]; naive_solver).
      exists (a, (i, f)). split; [done|]. by apply elem_of_map_to_list.
    + intros ([b [i f]] & -> & Hb%elem_of_map_to_list). destruct (so_slab _ _ _ H0 _ _ _ Hb) as (Hi & _).
      destruct (lookup_lt_is_Some_2 (predefined_caches st) i) as [c Hc]; [by rewrite (so_length _ _ _ H0)|].
      exists c. split; [|by eapply list_elem_of_lookup_2]. pose proof (so_cache _ _ _ H0 _ _ Hc) as K. unfold cache_slabs. cbn. rewrite elem_of_app, (ca_full _ _ _ K), (ca_partial _ _ _ K).
      destruct f as [|k f]; [by left|right; by eexists].
Qed.

Lemma stats_run st own n (L : gmap Z nat) : slabs_ok st own n -> in_use own -> (forall j o, live own j o <-> L !! o = Some j) ->
  exists b, slab_stats st = Ret (mk_slab_stat b (Z.of_nat (size (dom own))) (Z.of_nat (size L)), st).
Proof.
  intros H0 Hu HL. unfold slab_stats. erewrite bind_Ret by reflexivity.
  destruct (stat_caches_run _ _ _ H0 Hu (predefined_caches st) ltac:(intros c; apply list_elem_of_lookup_1) (mk_slab_stat 0 0 0)) as [b E].
  exists b. rewrite E. cbn [alloc_pages alloc_objects]. rewrite !Z.add_0_l. rewrite (all_slabs_perm _ _ _ H0) at 1. rewrite (total_perm _ _ _ (all_slabs_perm _ _ _ H0)).
  do 3 f_equal.
  - rewrite size_dom. rewrite length_fmap. by rewrite length_map_to_list.
  - assert (map_to_list own ≫= used_objects ≡ₚ (map_to_list L).*1) as P.
    { apply NoDup_Permutation; [by eapply nodup_used|apply NoDup_fst_map_to_list|]. intros o. rewrite elem_used, list_elem_of_fmap. split.
      - intros [j Hj%HL]. exists (o, j). split; [done|]. by apply elem_of_map_to_list.
      - intros ([o' j] & -> & Ho%elem_of_map_to_list). exists j. by apply HL. }
    apply Permutation_length in P. rewrite length_fmap, length_map_to_list in P. rewrite <- P, length_bind_total.
    transitivity (total (fun e : Z * (nat * list Z) => inuse_at st e.1) (map_to_list own)).
    { unfold total. generalize (map_to_list own). induction l as [|e l IHl]; [done|]. cbn. f_equal. apply IHl. }
    apply total_ext. intros [a [i f]] Ha%elem_of_map_to_list. destruct (so_slab _ _ _ H0 _ _ _ Ha) as (_ & _ & s & Hs & Wf).
    rewrite (length_used _ _ _ _ Wf). unfold inuse_at. cbn [fst]. by rewrite Hs.
Qed.
End counting.

(** ** The allocator in use *)
(** The states the allocator can be in: the caches as [slab_init_caches] leaves them,
    then allocations, releases of objects that are in use, and writes to such objects.
    [L] gives the objects in use and the cache of each. *)
Inductive slab_reach {S} `{PageAlloc S} : slab_mem S -> gmap Z nat -> Prop :=
| reach_init s m n : pa_ok s ∅ n -> 0 <= n -> slab_reach (mk_slab_mem S slab_init_caches ∅ m s) ∅
| reach_calloc st L i o st' : slab_reach st L -> (i < PREALLOC_COUNT)%nat -> slab_calloc_int i st = Ret (o, st') ->
    slab_reach st' (if o =? 0 then L else <[o := i]> L)
| reach_free st L i o st' : slab_reach st L -> L !! o = Some i -> slab_free_int i o st = Ret (tt, st') -> slab_reach st' (delete o L)
| reach_store st L i o x v : slab_reach st L -> L !! o = Some i -> o <= x < o + obj_size i ->
    slab_reach (set_bytes (<[x := v]> (bytes st)) st) L.

Section usage.
Context {S : Type} `{PageAlloc S}.
Implicit Types st : slab_mem S.

Record reached st (L : gmap Z nat) (own : owners) (n : Z) : Prop := {
  re_ok : slabs_ok st own n;
  re_use : in_use own;
  re_live : forall j o, live own j o <-> L !! o = Some j;
}.

Lemma init_reached s m n : pa_ok s ∅ n -> 0 <= n -> reached (mk_slab_mem S slab_init_caches ∅ m s) ∅ ∅ n.
Proof.
  intros Hs Hn. split; [split; cbn [predefined_caches slab_at frames]| |].
  - done.
  - intros i c Hc. pose proof (lookup_lt_Some _ _ _ Hc) as Hi. change (length slab_init_caches) with PREALLOC_COUNT in Hi.
    rewrite (init_caches_layout i Hi) in Hc. injection Hc as <-.
    split; cbn; [done|done|done|split; constructor|..]; intros a; rewrite elem_of_nil, lookup_empty; naive_solver.
  - intros a i fl. by rewrite lookup_empty.
  - by rewrite !dom_empty_L.
  - by rewrite dom_empty_L, set_map_empty.
  - done.
  - intros a i fl. by rewrite lookup_empty.
  - intros j o. rewrite lookup_empty. split; [|done]. intros (a & fl & k & Ha & _). by rewrite lookup_empty in Ha.
Qed.

Lemma calloc_reached st L own n i o st' : reached st L own n -> (i < PREALLOC_COUNT)%nat -> slab_calloc_int i st = Ret (o, st') ->
  exists own' n', reached st' (if o =? 0 then L else <[o := i]> L) own' n'.
Proof.
  intros [H0 Hu HL] Hi E. destruct (calloc_run _ _ _ _ H0 Hu Hi) as [(-> & _ & E')|(o' & st2 & own' & n' & E' & H1 & Hu' & Hne & Hf & Hl & _)];
    rewrite E' in E; injection E as <- <-; [by exists own, 0|].
  exists own', n'. split; [done|done|]. intros j x. rewrite (proj2 (Z.eqb_neq _ _) Hne), Hl, HL. destruct (decide (x = o')) as [->|Hx].
  - rewrite lookup_insert_eq. split; [|intros [= <-]; by left]. intros [[-> _]|Hj%HL]; [done|]. by destruct (Hf j).
  - rewrite lookup_insert_ne by done. naive_solver.
Qed.

Lemma free_reached st L own n i o : reached st L own n -> L !! o = Some i ->
  exists st' own' n', slab_free_int i o st = Ret (tt, st') /\ bytes st' = bytes st /\ reached st' (delete o L) own' n'.
Proof.
  intros [H0 Hu HL] Ho. apply HL in Ho as (a & fl & k & Ha & Hk & Hni & ->). fold (object i a k).
  destruct (so_slab _ _ _ H0 _ _ _ Ha) as (_ & _ & s & _ & [Wc Wn Wl _ _]). destruct (free_list_full i _ _ _ k Wc Wn Wl Hk Hni) as [Hlen Hall].
  destruct (free_run _ _ _ _ _ _ _ H0 Hu Ha Hk Hni) as (st' & n' & E & Eb & H1 & _). eexists st', _, n'. split; [done|]. split; [done|].
  unfold after_free in H1. split; [exact H1| |].
  - intros b j f. destruct (decide (b = a)) as [->|Hb]; [|rewrite lookup_partial_alter_ne by done; apply Hu].
    rewrite lookup_partial_alter_eq. case_decide; [done|]. intros [= <- <-]. cbn [length]. lia.
  - intros j x. transitivity (live own j x /\ x <> object i a k).
    + case_decide as E1; [by apply (live_last _ _ _ _ _ _ _ _ _ H0 Ha Hk), Hall|by eapply live_put].
    + rewrite lookup_delete_Some, <- HL. split; intros [? ?]; by split.
Qed.

Lemma slab_reach_inv st L : slab_reach st L -> exists own n, reached st L own n.
Proof.
  induction 1 as [s m n Hs Hn|st L i o st' _ (own & n & Hr) Hi E|st L i o st' _ (own & n & Hr) Ho E|st L i o x v _ (own & n & Hr) Ho Hx].
  - exists ∅, n. by apply init_reached.
  - by eapply calloc_reached.
  - destruct (free_reached _ _ _ _ _ _ Hr Ho) as (st2 & own' & n' & E' & _ & Hr'). rewrite E in E'. injection E' as ->. by exists own', n'.
  - exists own, n. destruct Hr as [Hok ? ?]. split; [|done|done]. destruct Hok. by split.
Qed.

Lemma memset_lookup k : forall o m x, memset o k m !! x = if decide (o <= x < o + Z.of_nat k) then Some 0 else m !! x.
Proof.
  induction k as [|k IH]; intros o m x; cbn [memset].
  - case_decide; [lia|done].
  - rewrite IH. destruct (decide (x = o)) as [->|Hx].
    + rewrite lookup_insert_eq. case_decide; case_decide; (done || lia).
    + rewrite lookup_insert_ne by done. case_decide; case_decide; (done || lia).
Qed.

(** A slab holds at least one object that is in use. *)
Lemma slab_has_object st L own n a v : reached st L own n -> own !! a = Some v -> exists o j, L !! o = Some j.
Proof.
  intros [H0 Hu HL] Ha. destruct v as [i fl]. destruct (so_slab _ _ _ H0 _ _ _ Ha) as (_ & _ & s & _ & Wf).
  pose proof (length_used _ _ _ _ Wf) as El. pose proof (Hu _ _ _ Ha). rewrite (sw_inuse _ _ _ _ Wf) in El.
  destruct (used_objects (a, (i, fl))) as [|o l] eqn:E; [cbn in El; lia|]. 
  assert (o ∈ map_to_list own ≫= used_objects) as [j Hj]%elem_used.
  { apply list_elem_of_bind. exists (a, (i, fl)). rewrite E. split; [by left|by apply elem_of_map_to_list]. }
  exists o, j. by apply HL.
Qed.

(** C13: An allocation returns: a null pointer, with nothing changed, only when the
    page allocator has no frame left; otherwise an 8-aligned object no user holds,
    that overlaps no object in use, has all its bytes zero and leaves every other
    byte of memory as it was. *)
Theorem slab_calloc_fresh st L i : slab_reach st L -> (i < PREALLOC_COUNT)%nat ->
  (slab_calloc_int i st = Ret (0, st) /\ exists held, pa_ok (frames st) held 0) \/
  exists o st', slab_calloc_int i st = Ret (o, st') /\ o <> 0 /\ o mod 8 = 0 /\ L !! o = None /\
    (forall o' j, L !! o' = Some j -> o + obj_size i <= o' \/ o' + obj_size j <= o) /\
    (forall x, o <= x < o + obj_size i -> bytes st' !! x = Some 0) /\
    (forall x, ~ (o <= x < o + obj_size i) -> bytes st' !! x = bytes st !! x).
Proof.
  intros (own & n & [H0 Hu HL])%slab_reach_inv Hi. destruct (calloc_run _ _ _ _ H0 Hu Hi) as [(-> & _ & E)|(o & st' & own' & n' & E & H1 & _ & Hne & Hf & Hl & Hb)].
  - left. split; [done|]. eexists. apply H0.
  - right. exists o, st'. assert (live own' i o) as Ho by (apply Hl; by left).
    destruct (object_place _ _ _ _ _ H1 Ho) as (a & k & _ & _ & _ & _ & _ & _ & _ & H8). destruct (layout_fits i Hi) as (_ & Hs & _).
    split; [done|]. split; [done|]. split; [done|]. split.
    { destruct (L !! o) as [j|] eqn:Ej; [|done]. apply HL in Ej. by destruct (Hf j). }
    split; [|rewrite Hb; split; intros x Hx; rewrite memset_lookup; case_decide; (done || lia)].
    intros o' j Hj. apply HL in Hj. apply (live_disjoint _ _ _ _ _ _ _ H1 Ho); [apply Hl; by right|]. intros <-. by destruct (Hf j).
Qed.

(** C14: The allocator loses nothing: every object in use can be released, which
    changes no byte of memory; [slab_stat] passes its assertions and counts exactly
    the objects in use and the frames taken from the page allocator; and when no object
    is in use every frame has been given back. *)
Theorem slab_live_exact st L : slab_reach st L ->
  (forall o i, L !! o = Some i -> exists st', slab_free_int i o st = Ret (tt, st') /\ bytes st' = bytes st) /\
  exists b held n, pa_ok (frames st) (set_map MM_PHYS (held : gset Z)) n /\ (L = ∅ -> held = ∅) /\
    slab_stats st = Ret (mk_slab_stat b (Z.of_nat (size held)) (Z.of_nat (size L)), st).
Proof.
  intros (own & n & Hr)%slab_reach_inv. split.
  - intros o i Ho. destruct (free_reached _ _ _ _ _ _ Hr Ho) as (st' & _ & _ & E & Eb & _). by exists st'.
  - pose proof Hr as [H0 Hu HL]. destruct (stats_run _ _ _ _ H0 Hu HL) as [b E]. exists b, (dom own), n. split; [apply H0|]. split; [|done].
    intros ->. apply dom_empty_iff_L, map_eq. intros a. rewrite lookup_empty. destruct (own !! a) eqn:Ea; [|done].
    destruct (slab_has_object _ _ _ _ _ _ Hr Ea) as (o & j & Ho). by rewrite lookup_empty in Ho.
Qed.
End usage.

(** Sample: the caches as they are at boot, on a machine with two free frames. *)
Definition sample_slabs : slab_mem phys := mk_slab_mem phys slab_init_caches ∅ ∅ (phys_many [300; 301]).

Lemma sample_slabs_frames : pa_ok (frames sample_slabs) ∅ 2.
Proof.
  assert (NoDup [300; 301]) as Hn by (apply (bool_decide_unpack _); exact I).
  assert (Forall (fun k => LOW_PAGE <= k < PHYS_MAX_PAGES) [300; 301]) as Hr by (apply (bool_decide_unpack _); exact I).
  split; [reflexivity|]. exists ∅. split; [exact (phys_many_ok _ Hn Hr)|]. intros a Ha. by apply elem_of_empty in Ha.
Qed.

Lemma sample_slabs_reach : slab_reach sample_slabs ∅.
Proof. by apply (reach_init _ _ 2); [apply sample_slabs_frames|]. Qed.

Lemma sample_slabs_alloc : exists o st, slab_calloc_int 1 sample_slabs = Ret (o, st) /\ slab_reach st {[o := 1%nat]}.
Proof.
  destruct (init_reached _ (∅ : gmap Z Z) _ sample_slabs_frames ltac:(done)) as [H0 Hu _].
  destruct (calloc_run _ _ _ 1 H0 Hu ltac:(unfold PREALLOC_COUNT; lia)) as [(? & _)|(o & st & _ & _ & E & _ & _ & Hne & _)]; [done|].
  exists o, st. split; [exact E|]. pose proof (reach_calloc _ _ 1 o st sample_slabs_reach ltac:(unfold PREALLOC_COUNT; lia) E) as Hr.
  by rewrite (proj2 (Z.eqb_neq _ _) Hne) in Hr.
Qed.

(** Allocating from a fresh system gives an object whose first byte is zero. *)
Lemma slab_calloc_fresh_witness :
  exists o st', slab_calloc_int 1 sample_slabs = Ret (o, st') /\ o mod 8 = 0 /\ bytes st' !! o = Some 0.
Proof.
  destruct (slab_calloc_fresh sample_slabs ∅ 1 sample_slabs_reach ltac:(unfold PREALLOC_COUNT; lia)) as [[_ (held & Hn & _)]|(o & st & E & _ & H8 & _ & _ & Hz & _)].
  - discriminate Hn.
  - exists o, st. split; [exact E|]. split; [exact H8|]. apply Hz. split; [lia|]. change (obj_size 1) with 32. lia.
Defined.

(** After one allocation the statistics count one object and one frame, and the object can be released. *)
Lemma slab_live_exact_witness : exists o st st', slab_calloc_int 1 sample_slabs = Ret (o, st) /\ slab_free_int 1 o st = Ret (tt, st') /\
  exists b p, slab_stats st = Ret (mk_slab_stat b p 1, st).
Proof.
  destruct sample_slabs_alloc as (o & st & E & Hr). destruct (slab_live_exact st _ Hr) as [Hf (b & held & n & _ & _ & Es)].
  destruct (Hf o 1%nat (lookup_singleton_eq _ _)) as (st' & Ef & _). exists o, st, st'. split; [exact E|]. split; [exact Ef|].
  exists b, (Z.of_nat (size held)). rewrite map_size_singleton in Es. exact Es.
Defined.
