(* ===== verification/Dll.v ===== *)
(** * Doubly linked lists in a node store

    The nodes of [sys/block/cache.c] ([struct lru_node]) live in a store indexed by
    pointer; the null pointer 0 is never in it.  [seg m pv l nx] says that the nodes
    [l] are chained in [m] from a node whose [prev] is [pv] to one whose [next] is
    [nx]; [dll m l h t] is a whole list with head and tail pointers. *)

From S2P Require Import Prelude.

(** [block_address], the [page]/[index] union, [prev], [next]. *)
Record lru_node := mk_node { block_address : Z; nval : Z; nprev : Z; nnext : Z }.

Abbreviation store := (gmap Z lru_node).

Definition with_next (x : Z) (n : lru_node) := mk_node (block_address n) (nval n) (nprev n) x.
Definition with_prev (x : Z) (n : lru_node) := mk_node (block_address n) (nval n) x (nnext n).
Definition with_val (x : Z) (n : lru_node) := mk_node (block_address n) x (nprev n) (nnext n).

Fixpoint seg (m : store) (pv : Z) (l : list Z) (nx : Z) : Prop :=
  match l with
  | [] => True
  | p :: l => p <> 0 /\ (exists n, m !! p = Some n /\ nprev n = pv /\ nnext n = hd_or nx l) /\ seg m p l nx
  end.

Record dll (m : store) (l : list Z) (h t : Z) : Prop := {
  dll_seg : seg m 0 l 0;
  dll_head : h = hd_or 0 l;
  dll_tail : t = last_or 0 l;
  dll_nodup : NoDup l;
}.

(** What list surgery keeps: the payload of every node, and every node outside [l]. *)
Definition payload (m : store) (p : Z) : option (Z * Z) := (fun n => (block_address n, nval n)) <$> m !! p.
Record same_but (l : list Z) (m m' : store) : Prop := {
  sb_out : forall p, p ∉ l -> m' !! p = m !! p;
  sb_payload : forall p, payload m' p = payload m p;
}.

Section dll_lemmas.
Implicit Types (m : store) (l : list Z).

Lemma seg_app m pv l1 l2 nx :
  seg m pv (l1 ++ l2) nx <-> seg m pv l1 (hd_or nx l2) /\ seg m (last_or pv l1) l2 nx.
Proof.
  revert pv. induction l1 as [|p l1 IH]; intros pv; cbn [app seg]; [by split; [|intros [_ ?]]|].
  rewrite IH, last_or_cons, hd_or_app. tauto.
Qed.

Lemma seg_nonzero m pv l nx p : seg m pv l nx -> p ∈ l -> p <> 0.
Proof.
  revert pv. induction l as [|q l IH]; intros pv; [by intros _ ?%elem_of_nil|].
  intros (? & _ & Hs) [->|Hp]%elem_of_cons; [done|by eapply IH].
Qed.

Lemma seg_lookup m pv l nx p : seg m pv l nx -> p ∈ l -> is_Some (m !! p).
Proof.
  revert pv. induction l as [|q l IH]; intros pv; [by intros _ ?%elem_of_nil|].
  intros (_ & (n & Hn & _) & Hs) [->|Hp]%elem_of_cons; [by exists n|by eapply IH].
Qed.

(** Only the nodes of the segment matter. *)
Lemma seg_ext m m' pv l nx : (forall p, p ∈ l -> m' !! p = m !! p) -> seg m pv l nx -> seg m' pv l nx.
Proof.
  revert pv. induction l as [|q l IH]; intros pv He; [done|]. intros (? & (n & Hn & ?) & Hs).
  split; [done|]. split.
  - exists n. rewrite He by by left. done.
  - apply IH; [|done]. intros p Hp. apply He. by right.
Qed.

Lemma dll_ext m m' l h t : (forall p, p ∈ l -> m' !! p = m !! p) -> dll m l h t -> dll m' l h t.
Proof. intros He [? ? ? ?]. split; [by eapply seg_ext|done..]. Qed.

Lemma same_but_trans l1 l2 m1 m2 m3 :
  same_but l1 m1 m2 -> same_but l2 m2 m3 -> same_but (l1 ++ l2) m1 m3.
Proof.
  intros [O1 P1] [O2 P2]. split.
  - intros p [? ?]%not_elem_of_app. rewrite O2, O1; done.
  - intros p. by rewrite P2.
Qed.

Lemma same_but_mono l1 l2 m m' : same_but l1 m m' -> l1 ⊆ l2 -> same_but l2 m m'.
Proof. intros [O P] Hl. split; [|done]. intros p Hp. apply O. intros Hin. by apply Hp, Hl. Qed.

Lemma same_but_refl l m : same_but l m m.
Proof. by split. Qed.

Lemma alter_same_but m p f : (forall n, block_address (f n) = block_address n /\ nval (f n) = nval n) ->
  same_but [p] m (alter f p m).
Proof.
  intros Hf. split.
  - intros q Hq%not_elem_of_cons. by rewrite lookup_alter_ne by (intros ->; tauto).
  - intros q. unfold payload. destruct (decide (p = q)) as [->|].
    + rewrite lookup_alter_eq. destruct (m !! q) as [n|]; [|done]. cbn. by destruct (Hf n) as [-> ->].
    + by rewrite lookup_alter_ne.
Qed.

Lemma same_but_next m p x : same_but [p] m (alter (with_next x) p m).
Proof. by apply alter_same_but. Qed.
Lemma same_but_prev m p x : same_but [p] m (alter (with_prev x) p m).
Proof. by apply alter_same_but. Qed.

(** Changing the [next] of the last node, the [prev] of the first. *)
Lemma seg_set_next m pv l p nx x : seg m pv (l ++ [p]) nx -> NoDup (l ++ [p]) ->
  seg (alter (with_next x) p m) pv (l ++ [p]) x.
Proof.
  intros [Hs1 (Hp & (n & Hn & Hpv & _) & _)]%seg_app (_ & Hd & _)%list.NoDup_app.
  apply seg_app. split.
  - eapply seg_ext; [|exact Hs1]. intros q Hq. apply lookup_alter_ne. intros <-.
    apply (Hd _ Hq). by left.
  - split; [done|]. split; [|done]. exists (with_next x n). by rewrite lookup_alter_eq, Hn.
Qed.

Lemma seg_set_prev m pv p l nx x : seg m pv (p :: l) nx -> NoDup (p :: l) ->
  seg (alter (with_prev x) p m) x (p :: l) nx.
Proof.
  intros (Hp & (n & Hn & _ & Hnx) & Hs) [Hd _]%list.NoDup_cons. split; [done|]. split.
  - exists (with_prev x n). by rewrite lookup_alter_eq, Hn.
  - eapply seg_ext; [|exact Hs]. intros q Hq. apply lookup_alter_ne. by intros <-.
Qed.
End dll_lemmas.

(** ** List surgery, as the C code does it *)

(** Take a node out, given its neighbours. *)
Definition unlink (m : store) (prev next : Z) : store :=
  let m := if bool_decide (prev = 0) then m else alter (with_next next) prev m in
  if bool_decide (next = 0) then m else alter (with_prev prev) next m.

Definition link_head (m : store) (h p : Z) : store :=
  let m := alter (with_next h) p m in
  let m := if bool_decide (h = 0) then m else alter (with_prev p) h m in
  alter (with_prev 0) p m.

Definition link_tail (m : store) (t p : Z) : store :=
  let m := alter (with_prev t) p m in
  let m := if bool_decide (t = 0) then m else alter (with_next p) t m in
  alter (with_next 0) p m.

Definition drop_tail (m : store) (prev : Z) : store :=
  if bool_decide (prev = 0) then m else alter (with_next 0) prev m.

Section surgery.
Implicit Types (m : store) (l : list Z).

Lemma seg_retarget_next m l nx x : seg m 0 l nx -> NoDup l ->
  seg (if bool_decide (last_or 0 l = 0) then m else alter (with_next x) (last_or 0 l) m) 0 l x.
Proof.
  destruct l as [|p l _] using rev_ind; intros Hs Hn; [done|]. rewrite last_or_snoc.
  assert (p <> 0) by (eapply seg_nonzero; [exact Hs|apply elem_of_app; right; by left]).
  rewrite bool_decide_eq_false_2 by done. by eapply seg_set_next.
Qed.

Lemma seg_retarget_prev m pv l nx x : seg m pv l nx -> NoDup l ->
  seg (if bool_decide (hd_or 0 l = 0) then m else alter (with_prev x) (hd_or 0 l) m) x l nx.
Proof.
  destruct l as [|p l]; intros Hs Hn; [done|]. change (hd_or 0 (p :: l)) with p.
  assert (p <> 0) by (eapply seg_nonzero; [exact Hs|by left]).
  rewrite bool_decide_eq_false_2 by done. by eapply seg_set_prev.
Qed.

(** A conditional write at the last (first) node of a list. *)
Lemma same_but_last m l f : (forall p, same_but [p] m (alter f p m)) ->
  same_but l m (if bool_decide (last_or 0 l = 0) then m else alter f (last_or 0 l) m).
Proof.
  intros Hf. case_bool_decide as E; [apply same_but_refl|]. eapply same_but_mono; [apply Hf|].
  intros x ->%list_elem_of_singleton. destruct l as [|p l _] using rev_ind; [done|].
  rewrite last_or_snoc. apply elem_of_app. right. by left.
Qed.

Lemma same_but_head m l f : (forall p, same_but [p] m (alter f p m)) ->
  same_but l m (if bool_decide (hd_or 0 l = 0) then m else alter f (hd_or 0 l) m).
Proof.
  intros Hf. case_bool_decide as E; [apply same_but_refl|]. eapply same_but_mono; [apply Hf|].
  intros x ->%list_elem_of_singleton. destruct l as [|p l]; [done|]. by left.
Qed.

Lemma dll_split m l1 p l2 h t : dll m (l1 ++ p :: l2) h t ->
  exists n, m !! p = Some n /\ nprev n = last_or 0 l1 /\ nnext n = hd_or 0 l2 /\ p <> 0 /\
    seg m 0 l1 p /\ seg m p l2 0 /\ p ∉ l1 /\ p ∉ l2 /\ NoDup l1 /\ NoDup l2 /\ (forall x, x ∈ l1 -> x ∉ l2).
Proof.
  intros [[Hs1 (Hp & (n & Hn & Hpv & Hnx) & Hs2)]%seg_app _ _ (N1 & N2 & [N3 N4]%list.NoDup_cons)%list.NoDup_app].
  exists n. split; [done|]. split; [done|]. split; [done|]. split; [done|]. split; [done|]. split; [done|].
  split; [intros Hx; apply (N2 p Hx); by left|]. split; [done|]. split; [done|]. split; [done|].
  intros x Hx Hx2. apply (N2 x Hx). by right.
Qed.

Lemma unlink_spec m l1 p l2 h t n : dll m (l1 ++ p :: l2) h t -> m !! p = Some n ->
  dll (unlink m (nprev n) (nnext n)) (l1 ++ l2)
    (if bool_decide (nprev n = 0) then nnext n else h) (if bool_decide (nnext n = 0) then nprev n else t) /\
  same_but (l1 ++ l2) m (unlink m (nprev n) (nnext n)).
Proof.
  intros H Hn. pose proof (dll_split _ _ _ _ _ _ H) as (n' & Hn' & Ep & En & Hp & S1 & S2 & P1 & P2 & N1 & N2 & Hd).
  assert (n' = n) as -> by congruence. rewrite Ep, En. unfold unlink.
  set (m1 := if bool_decide (last_or 0 l1 = 0) then m else _).
  set (m2 := if bool_decide (hd_or 0 l2 = 0) then m1 else _).
  assert (same_but l1 m m1) as B1 by (apply same_but_last; intros; apply same_but_next).
  assert (same_but l2 m1 m2) as B2 by (apply same_but_head; intros; apply same_but_prev).
  split; [|by eapply same_but_trans]. split.
  - apply seg_app. split.
    + eapply seg_ext; [|by eapply (seg_retarget_next m l1 p)]. intros x Hx. apply (sb_out _ _ _ B2). by apply Hd.
    + eapply (seg_retarget_prev m1 p). 2: done. eapply seg_ext; [|exact S2]. intros x Hx. apply (sb_out _ _ _ B1).
      intros Hx1. by eapply Hd.
  - rewrite (dll_head _ _ _ _ H), !hd_or_app. destruct l1 as [|q l1]; [done|].
    rewrite bool_decide_eq_false_2; [done|]. eapply seg_nonzero; [exact S1|].
    destruct (q :: l1) as [|y l _] eqn:El using rev_ind; [done|]. rewrite last_or_snoc.
    apply elem_of_app. right. by left.
  - rewrite (dll_tail _ _ _ _ H), !last_or_app. destruct l2 as [|q l2]; [done|].
    change (hd_or 0 (q :: l2)) with q. rewrite bool_decide_eq_false_2, !last_or_cons; [done|].
    eapply seg_nonzero; [exact S2|by left].
  - apply list.NoDup_app. done.
Qed.

Lemma link_head_spec m l h t p : dll m l h t -> p ∉ l -> p <> 0 -> is_Some (m !! p) ->
  dll (link_head m h p) (p :: l) p (if bool_decide (h = 0) then p else t) /\
  same_but (p :: l) m (link_head m h p).
Proof.
  intros [S Eh Et N] Hp Hp0 [n Hn]. unfold link_head. rewrite Eh.
  set (m1 := alter (with_next _) p m). set (m2 := if bool_decide (hd_or 0 l = 0) then m1 else _).
  assert (same_but [p] m m1) as B1 by apply same_but_next.
  assert (same_but l m1 m2) as B2 by (apply same_but_head; intros; apply same_but_prev).
  assert (same_but [p] m2 (alter (with_prev 0) p m2)) as B3 by apply same_but_prev.
  assert (seg m2 p l 0) as S2.
  { apply (seg_retarget_prev m1 0); [|done]. eapply seg_ext; [|exact S]. intros x Hx.
    apply (sb_out _ _ _ B1). intros ->%list_elem_of_singleton. done. }
  split; [|eapply same_but_mono; [by eapply same_but_trans; [|eapply same_but_trans]|set_solver]]. split.
  - split; [done|]. split.
    + exists (with_prev 0 (with_next (hd_or 0 l) n)). rewrite lookup_alter_eq.
      rewrite (sb_out _ _ _ B2 p Hp). subst m1. by rewrite lookup_alter_eq, Hn.
    + eapply seg_ext; [|exact S2]. intros x Hx. apply (sb_out _ _ _ B3).
      intros ->%list_elem_of_singleton. done.
  - done.
  - rewrite Et, last_or_cons. destruct l as [|q l]; [done|]. change (hd_or 0 (q :: l)) with q.
    rewrite bool_decide_eq_false_2, !last_or_cons; [done|]. eapply seg_nonzero; [exact S|by left].
  - by apply list.NoDup_cons.
Qed.

Lemma link_tail_spec m l h t p : dll m l h t -> p ∉ l -> p <> 0 -> is_Some (m !! p) ->
  dll (link_tail m t p) (l ++ [p]) (if bool_decide (t = 0) then p else h) p /\
  same_but (l ++ [p]) m (link_tail m t p).
Proof.
  intros [S Eh Et N] Hp Hp0 [n Hn]. unfold link_tail. rewrite Et.
  set (m1 := alter (with_prev _) p m). set (m2 := if bool_decide (last_or 0 l = 0) then m1 else _).
  assert (same_but [p] m m1) as B1 by apply same_but_prev.
  assert (same_but l m1 m2) as B2 by (apply same_but_last; intros; apply same_but_next).
  assert (same_but [p] m2 (alter (with_next 0) p m2)) as B3 by apply same_but_next.
  assert (seg m2 0 l p) as S2.
  { apply (seg_retarget_next m1 l 0); [|done]. eapply seg_ext; [|exact S]. intros x Hx.
    apply (sb_out _ _ _ B1). intros ->%list_elem_of_singleton. done. }
  split; [|eapply same_but_mono; [by eapply same_but_trans; [|eapply same_but_trans]|set_solver]]. split.
  - apply seg_app. split.
    + eapply seg_ext; [|exact S2]. intros x Hx. apply (sb_out _ _ _ B3).
      intros ->%list_elem_of_singleton. done.
    + split; [done|]. split; [|done]. exists (with_next 0 (with_prev (last_or 0 l) n)).
      rewrite lookup_alter_eq, (sb_out _ _ _ B2 p Hp). subst m1. by rewrite lookup_alter_eq, Hn.
  - rewrite Eh, hd_or_app. destruct l as [|q l _] using rev_ind; [done|].
    rewrite last_or_snoc, bool_decide_eq_false_2; [|eapply seg_nonzero; [exact S|apply elem_of_app; right; by left]].
    by destruct l.
  - by rewrite last_or_snoc.
  - apply list.NoDup_app. split; [done|]. split; [|apply NoDup_singleton].
    intros x Hx ->%list_elem_of_singleton. done.
Qed.

Lemma drop_tail_spec m l p h t n : dll m (l ++ [p]) h t -> m !! p = Some n ->
  dll (drop_tail m (nprev n)) l (if bool_decide (nprev n = 0) then 0 else h) (nprev n) /\
  same_but l m (drop_tail m (nprev n)) /\ (nprev n = 0 <-> l = []).
Proof.
  intros H Hn. pose proof (dll_split _ _ _ [] _ _ H) as (n' & Hn' & Ep & _ & Hp & S1 & _ & P1 & _ & N1 & _).
  assert (n' = n) as -> by congruence. rewrite Ep. unfold drop_tail.
  assert (last_or 0 l = 0 <-> l = []) as Hl.
  { destruct l as [|q l _] using rev_ind; [done|]. rewrite last_or_snoc.
    split; [|intros E; by apply app_eq_nil in E as [_ ?]]. intros ->. exfalso.
    eapply (seg_nonzero _ _ _ _ 0); [exact S1| |done]. apply elem_of_app. right. by left. }
  split; [|split; [|done]].
  - split; [by eapply seg_retarget_next| |done|done].
    rewrite (dll_head _ _ _ _ H), hd_or_app. case_bool_decide as E; [by apply Hl in E as ->|].
    destruct l; [|done]. by destruct E.
  - apply same_but_last. intros. apply same_but_next.
Qed.
End surgery.
