(* ===== verification/Cache.v ===== *)
(** * Block cache: [sys/block/cache.c]

    A cache keeps its blocks in a doubly linked LRU queue and an index hash of
    doubly linked buckets; both kinds of nodes live in one store.  The cache is
    parametric in the frame allocator ([PageAlloc]), the block device ([BlkDev]) and
    the heap that nodes come from ([NodeAlloc]).  The theorems show that the pointer
    code implements an LRU list of (block, page) pairs. *)

From S2P Require Import Prelude Defs Phys Interfaces Dll.

(** ** The heap, for nodes

    [na_alloc m] is what [kmalloc(sizeof(struct lru_node))] gives when the live nodes
    are [m]: null, or a pointer to no live node. *)
Class NodeAlloc := {
  na_alloc : store -> Z;
  na_alloc_fresh : forall m, na_alloc m <> 0 -> m !! na_alloc m = None;
}.

Definition LRU_PAGE_DIRTY : Z := 1.
(** [~LRU_PAGE_DIRTY] at 64 bits. *)
Definition LRU_PAGE_MASK : Z := 2 ^ 64 - 2.

(** [struct block_cache] with its [struct lru_hash] and the live nodes. *)
Record block_cache := mk_cache {
  page_size : Z;
  capacity : Z;
  csize : Z;
  queue_head : Z;
  queue_tail : Z;
  bucket_heads : list Z;
  bucket_tails : list Z;
  nodes : store;
}.

Definition set_queue h t c :=
  mk_cache (page_size c) (capacity c) (csize c) h t (bucket_heads c) (bucket_tails c) (nodes c).
Definition set_csize n c :=
  mk_cache (page_size c) (capacity c) n (queue_head c) (queue_tail c) (bucket_heads c) (bucket_tails c) (nodes c).
Definition set_buckets hs ts c :=
  mk_cache (page_size c) (capacity c) (csize c) (queue_head c) (queue_tail c) hs ts (nodes c).
Definition set_nodes m c :=
  mk_cache (page_size c) (capacity c) (csize c) (queue_head c) (queue_tail c) (bucket_heads c) (bucket_tails c) m.

(** ** Node accesses *)
Definition node_at (p : Z) : cmd block_cache lru_node := cload (fun c => nodes c !! p).
Definition node_alter (f : lru_node -> lru_node) (p : Z) : cmd block_cache unit :=
  _ ← node_at p; cmodify (fun c => set_nodes (alter f p (nodes c)) c).
Definition node_free (p : Z) : cmd block_cache unit :=
  _ ← node_at p; cmodify (fun c => set_nodes (delete p (nodes c)) c).

(** ** The index hash *)
Definition lru_hash_reference (address : Z) : Z := address.
Definition bucket_of (c : block_cache) (address : Z) : nat :=
  Z.to_nat (lru_hash_reference address mod Z.of_nat (length (bucket_heads c))).

(** Walk a bucket; the fuel is the number of live nodes plus one. *)
Fixpoint lookup_from (address : Z) (fuel : nat) (node : Z) : cmd block_cache Z :=
  match fuel with
  | O => cdiverged
  | S fuel =>
      if bool_decide (node = 0) then mret 0
      else
        n ← node_at node;
        if bool_decide (block_address n = address) then mret node
        else lookup_from address fuel (nnext n)
  end.

Definition lru_hash_lookup (address : Z) : cmd block_cache Z :=
  c ← cget;
  h ← cload (fun c => bucket_heads c !! bucket_of c address);
  lookup_from address (S (size (nodes c))) h.

Definition set_bucket_head (b : nat) (p : Z) : cmd block_cache unit :=
  cmodify (fun c => set_buckets (<[b := p]> (bucket_heads c)) (bucket_tails c) c).
Definition set_bucket_tail (b : nat) (p : Z) : cmd block_cache unit :=
  cmodify (fun c => set_buckets (bucket_heads c) (<[b := p]> (bucket_tails c)) c).

Section hash_ops.
Context `{NodeAlloc}.

(** [kmalloc] of a node whose [block_address] and [page]/[index] are set right away. *)
Definition node_new (address val : Z) : cmd block_cache Z :=
  c ← cget;
  let p := na_alloc (nodes c) in
  (if bool_decide (p = 0) then mret tt
   else cmodify (fun c => set_nodes (<[p := mk_node address val 0 0]> (nodes c)) c));;
  mret p.

Definition lru_hash_insert (address index : Z) : cmd block_cache Z :=
  c ← cget;
  let b := bucket_of c address in
  node ← node_new address index;
  cassert (bool_decide (node ≠ 0));;
  tail ← cload (fun c => bucket_tails c !! b);
  node_alter (with_prev tail) node;;
  (if bool_decide (tail ≠ 0) then node_alter (with_next node) tail else set_bucket_head b node);;
  set_bucket_tail b node;;
  node_alter (with_next 0) node;;
  mret 0.
End hash_ops.

Definition lru_hash_remove (address : Z) : cmd block_cache Z :=
  c ← cget;
  let b := bucket_of c address in
  node ← lru_hash_lookup address;
  if bool_decide (node = 0) then mret (-1)
  else
    n ← node_at node;
    let prev := nprev n in
    let next := nnext n in
    (if bool_decide (prev ≠ 0) then node_alter (with_next next) prev else set_bucket_head b next);;
    (if bool_decide (next ≠ 0) then node_alter (with_prev prev) next else set_bucket_tail b prev);;
    node_free node;;
    mret 0.

Definition BUCKETS : nat := 32.
(** [block_cache_init] with [lru_hash_init(.., 32)]; the heap requests succeed. *)
Definition block_cache_init (psize cap : Z) : block_cache :=
  mk_cache psize cap 0 0 0 (replicate BUCKETS 0) (replicate BUCKETS 0) ∅.

(** ** The queue *)
Definition block_cache_queue_push_node (node : Z) : cmd block_cache unit :=
  h ← cgets queue_head;
  node_alter (with_next h) node;;
  (if bool_decide (h ≠ 0) then node_alter (with_prev node) h
   else cmodify (fun c => set_queue (queue_head c) node c));;
  cmodify (fun c => set_queue node (queue_tail c) c);;
  node_alter (with_prev 0) node;;
  cmodify (fun c => set_csize (u64 (csize c + 1)) c).

(** The popped node is not given back to the heap. *)
Definition block_cache_queue_pop_tail : cmd block_cache unit :=
  last ← cgets queue_tail;
  cassert (bool_decide (last ≠ 0));;
  n ← node_at last;
  r ← lru_hash_remove (block_address n);
  cassert (bool_decide (r = 0));;
  n ← node_at last;
  cmodify (fun c => set_queue (queue_head c) (nprev n) c);;
  (if bool_decide (nprev n ≠ 0) then node_alter (with_next 0) (nprev n)
   else s ← cgets csize; cassert (bool_decide (s = 1));; cmodify (fun c => set_queue 0 (queue_tail c) c));;
  cmodify (fun c => set_csize (u64 (csize c - 1)) c).

Definition block_cache_queue_push_head `{NodeAlloc} (address page : Z) : cmd block_cache Z :=
  node ← node_new address page;
  (if bool_decide (node = 0) then cfault else mret tt);;
  block_cache_queue_push_node node;;
  mret node.

Definition block_cache_queue_erase (node : Z) : cmd block_cache unit :=
  n ← node_at node;
  let prev := nprev n in
  let next := nnext n in
  (if bool_decide (prev ≠ 0) then node_alter (with_next next) prev
   else cmodify (fun c => set_queue next (queue_tail c) c));;
  (if bool_decide (next ≠ 0) then node_alter (with_prev prev) next
   else cmodify (fun c => set_queue (queue_head c) prev c));;
  cmodify (fun c => set_csize (u64 (csize c - 1)) c).

Definition block_cache_mark_dirty (address : Z) : cmd block_cache unit :=
  ps ← cgets page_size;
  cassert (bool_decide (address mod ps = 0));;
  let address := address / ps in
  index ← lru_hash_lookup address;
  cassert (bool_decide (index ≠ 0));;
  i ← node_at index;
  let node := nval i in
  cassert (bool_decide (node ≠ 0));;
  n ← node_at node;
  node_alter (with_val (Z.lor (nval n) LRU_PAGE_DIRTY)) node.

(** ** The cache with its frames and device *)
Record bstate (P D : Type) := mk_bstate {
  bs_cache : block_cache;
  bs_phys : P;
  bs_data : gmap Z (list Z);        (* contents of frames, by physical address *)
  bs_dev : D;
}.
Arguments mk_bstate {P D}.
Arguments bs_cache {P D}.
Arguments bs_phys {P D}.
Arguments bs_data {P D}.
Arguments bs_dev {P D}.

Section cache_ops.
Context {P D : Type} `{PageAlloc P} `{BlkDev D} `{NodeAlloc}.
Abbreviation bst := (bstate P D).

Definition set_cache (c : block_cache) (s : bst) := mk_bstate c (bs_phys s) (bs_data s) (bs_dev s).
Definition set_bphys (p : P) (s : bst) := mk_bstate (bs_cache s) p (bs_data s) (bs_dev s).
Definition set_bdata (d : gmap Z (list Z)) (s : bst) := mk_bstate (bs_cache s) (bs_phys s) d (bs_dev s).
Definition set_dev (d : D) (s : bst) := mk_bstate (bs_cache s) (bs_phys s) (bs_data s) d.
Definition on_cache {A} (m : cmd block_cache A) : cmd bst A := czoom bs_cache set_cache m.
Definition on_bphys {A} (m : cmd P A) : cmd bst A := czoom bs_phys set_bphys m.
Definition on_dev {A} (m : cmd D A) : cmd bst A := czoom bs_dev set_dev m.

(** [blk_page_sync] of [sys/block/blk.c] *)
Definition blk_page_sync (block_address page : Z) : cmd bst Z :=
  bytes ← cload (fun s => bs_data s !! page);
  ps ← cgets (fun s => page_size (bs_cache s));
  res ← on_dev (bd_write block_address bytes);
  mret (if res <? 0 then res else if bool_decide (u64 res = ps) then 0 else - EIO).

Definition block_cache_page_release (address page : Z) : cmd bst unit :=
  (if bool_decide (Z.land page LRU_PAGE_DIRTY ≠ 0) then
     ps ← cgets (fun s => page_size (bs_cache s));
     r ← blk_page_sync (u64 (address * ps)) (Z.land page LRU_PAGE_MASK);
     cassert (bool_decide (r = 0))
   else mret tt);;
  on_bphys (pa_free (Z.land page LRU_PAGE_MASK)).

Definition block_cache_page_alloc : cmd bst Z :=
  ps ← cgets (fun s => page_size (bs_cache s));
  cassert (bool_decide (ps = MM_PAGE_SIZE));;
  on_bphys (pa_alloc PU_CACHE).

(** Evict the least recently used block when the cache is full. *)
Definition cache_make_room : cmd bst unit :=
  c ← cgets bs_cache;
  if bool_decide (capacity c = csize c) then
    cassert (bool_decide (queue_tail c ≠ 0));;
    n ← on_cache (node_at (queue_tail c));
    block_cache_page_release (block_address n) (nval n);;
    on_cache block_cache_queue_pop_tail
  else mret tt.

Definition block_cache_get (address : Z) : cmd bst (Z * Z) :=
  ps ← cgets (fun s => page_size (bs_cache s));
  cassert (bool_decide (address mod ps = 0));;
  let address := address / ps in
  index ← on_cache (lru_hash_lookup address);
  if bool_decide (index = 0) then
    cache_make_room;;
    result ← block_cache_page_alloc;
    cassert (bool_decide (result ≠ MM_NADDR));;
    node ← on_cache (block_cache_queue_push_head address result);
    cassert (bool_decide (node ≠ 0));;
    _ ← on_cache (lru_hash_insert address node);
    mret (-1, result)
  else
    i ← on_cache (node_at index);
    let node := nval i in
    cassert (bool_decide (node ≠ 0));;
    n ← on_cache (node_at node);
    cassert (bool_decide (block_address n = block_address i));;
    on_cache (block_cache_queue_erase node);;
    on_cache (block_cache_queue_push_node node);;
    mret (0, Z.land (nval n) LRU_PAGE_MASK).

(** One pass of the loop per queued block. *)
Fixpoint flush_loop (fuel : nat) : cmd bst unit :=
  match fuel with
  | O => cdiverged
  | S fuel =>
      node ← cgets (fun s => queue_tail (bs_cache s));
      if bool_decide (node = 0) then mret tt
      else
        n ← on_cache (node_at node);
        block_cache_page_release (block_address n) (nval n);;
        on_cache block_cache_queue_pop_tail;;
        flush_loop fuel
  end.

Definition block_cache_flush : cmd bst unit :=
  s ← cget;
  flush_loop (S (size (nodes (bs_cache s)))).
End cache_ops.

(** [block_cache_release]: the whole structure is cleared. *)
Definition block_cache_release : cmd block_cache unit :=
  h ← cgets queue_head;
  cassert (bool_decide (h = 0));;
  t ← cgets queue_tail;
  cassert (bool_decide (t = 0));;
  cmodify (fun c => mk_cache 0 0 0 0 0 [] [] (nodes c)).

(** ** The pointer structures

    [q] are the nodes of the queue from most to least recently used, [bs] those of
    each bucket. *)
Record lists_ok (c : block_cache) (q : list Z) (bs : list (list Z)) : Prop := {
  lo_queue : dll (nodes c) q (queue_head c) (queue_tail c);
  lo_lens : length (bucket_heads c) = BUCKETS /\ length (bucket_tails c) = BUCKETS /\ length bs = BUCKETS;
  lo_bucket : forall b l, bs !! b = Some l -> exists h t, bucket_heads c !! b = Some h /\
    bucket_tails c !! b = Some t /\ dll (nodes c) l h t;
  lo_disj : forall b l p, bs !! b = Some l -> p ∈ l -> p ∉ q;
  lo_disj2 : forall b b' l l' p, bs !! b = Some l -> bs !! b' = Some l' -> p ∈ l -> p ∈ l' -> b = b';
  lo_size : csize c = Z.of_nat (length q);
  lo_small : csize c < 2 ^ 63;
}.

Lemma dll_length m l h t : dll m l h t -> (length l <= size m)%nat.
Proof.
  intros [S _ _ N]. rewrite <- size_dom, <- (size_list_to_set (C:=gset Z) l N).
  apply subseteq_size. intros p Hp%elem_of_list_to_set. apply elem_of_dom. by eapply seg_lookup.
Qed.

(** The node of a list that holds an address: the first one. *)
Definition find_addr (m : store) (a : Z) (l : list Z) : Z :=
  default 0 (snd <$> list_find (fun p => fst <$> payload m p = Some a) l).

Lemma find_addr_cons m a p l n : m !! p = Some n ->
  find_addr m a (p :: l) = if decide (block_address n = a) then p else find_addr m a l.
Proof.
  intros Hn. unfold find_addr. cbn [list_find]. unfold payload. rewrite Hn. cbn.
  destruct (decide (Some (block_address n) = Some a)) as [E|E], (decide (block_address n = a)); try congruence; [done|].
  by destruct (list_find _ l) as [[? ?]|].
Qed.

Lemma lookup_from_run c a l : forall pv nx fuel, seg (nodes c) pv l nx -> nx = 0 -> (length l < fuel)%nat ->
  lookup_from a fuel (hd_or 0 l) c = Ret (find_addr (nodes c) a l, c).
Proof.
  induction l as [|p l IH]; intros pv nx [|fuel] Hs -> Hf; cbn [length] in Hf; try lia; cbn [lookup_from].
  { by rewrite bool_decide_eq_true_2. }
  destruct Hs as (Hp & (n & Hn & _ & Hnx) & Hs). change (hd_or 0 (p :: l)) with p.
  rewrite bool_decide_eq_false_2 by done. unfold node_at.
  rewrite (bind_Ret _ _ c n c) by by apply load_Some. rewrite (find_addr_cons _ _ _ _ n Hn).
  case_bool_decide; case_decide; try done. rewrite Hnx. eapply IH; [done|done|lia].
Qed.

Section lists.
Context (c : block_cache) (q : list Z) (bs : list (list Z)) (Hok : lists_ok c q bs).

Lemma bucket_lookup a : 0 <= a -> exists l h t, bs !! bucket_of c a = Some l /\
  bucket_heads c !! bucket_of c a = Some h /\ bucket_tails c !! bucket_of c a = Some t /\ dll (nodes c) l h t.
Proof using Hok.
  intros Ha. destruct (lo_lens _ _ _ Hok) as (L1 & L2 & L3).
  assert (bucket_of c a < length bs)%nat as Hlt.
  { unfold bucket_of. rewrite L1, L3. unfold lru_hash_reference.
    pose proof (Z.mod_pos_bound a (Z.of_nat BUCKETS)). unfold BUCKETS in *. lia. }
  destruct (lookup_lt_is_Some_2 bs _ Hlt) as [l Hl]. exists l.
  destruct (lo_bucket _ _ _ Hok _ _ Hl) as (h & t & ? & ? & ?). by exists h, t.
Qed.

Lemma hash_lookup_run a l : bs !! bucket_of c a = Some l ->
  lru_hash_lookup a c = Ret (find_addr (nodes c) a l, c).
Proof using Hok.
  intros Hl. destruct (lo_bucket _ _ _ Hok _ _ Hl) as (h & t & Hh & _ & Hd).
  unfold lru_hash_lookup. rewrite (bind_Ret _ _ c c c) by done.
  rewrite (bind_Ret _ _ c h c) by by apply load_Some. rewrite (dll_head _ _ _ _ Hd).
  eapply lookup_from_run; [apply Hd|done|]. pose proof (dll_length _ _ _ _ Hd). lia.
Qed.

(** The structures after list surgery that touches only one list. *)
Lemma queue_surgery q' h t n m :
  dll m q' h t -> (forall p, p ∉ q ++ q' -> m !! p = nodes c !! p) ->
  (forall b l p, bs !! b = Some l -> p ∈ l -> p ∉ q') -> n = Z.of_nat (length q') -> n < 2 ^ 63 ->
  lists_ok (set_csize n (set_queue h t (set_nodes m c))) q' bs.
Proof using Hok.
  intros Hd Hm Hdisj -> Hn. split; cbn; [done|apply Hok| |done|apply (lo_disj2 _ _ _ Hok)|done|done].
  intros b l Hl. destruct (lo_bucket _ _ _ Hok b l Hl) as (h' & t' & ? & ? & Hd').
  exists h', t'. split; [done|]. split; [done|]. eapply dll_ext; [|exact Hd'].
  intros p Hp. apply Hm. intros [Hq|Hq]%elem_of_app; [by eapply (lo_disj _ _ _ Hok)|by eapply Hdisj].
Qed.

Lemma bucket_surgery b l l' h t m :
  bs !! b = Some l -> dll m l' h t -> (forall p, p ∉ l ++ l' -> m !! p = nodes c !! p) ->
  (forall p, p ∈ l' -> p ∉ q /\ forall b' k, b' <> b -> bs !! b' = Some k -> p ∉ k) ->
  lists_ok (set_buckets (<[b := h]> (bucket_heads c)) (<[b := t]> (bucket_tails c)) (set_nodes m c)) q (<[b := l']> bs).
Proof using Hok.
  intros Hl Hd Hm Hdisj. destruct (lo_lens _ _ _ Hok) as (L1 & L2 & L3).
  pose proof (lookup_lt_Some _ _ _ Hl) as Hlt.
  split; cbn [set_buckets set_nodes nodes queue_head queue_tail bucket_heads bucket_tails csize].
  - eapply dll_ext; [|apply (lo_queue _ _ _ Hok)]. intros p Hp. apply Hm.
    intros [Hx|Hx]%elem_of_app; [by eapply (lo_disj _ _ _ Hok)|]. by apply (Hdisj p Hx).
  - by rewrite !length_insert.
  - intros b' k Hk. destruct (decide (b = b')) as [<-|Hne].
    + rewrite list_lookup_insert_eq in Hk by done. injection Hk as <-. exists h, t.
      rewrite !list_lookup_insert_eq by lia. done.
    + rewrite list_lookup_insert_ne in Hk by done.
      destruct (lo_bucket _ _ _ Hok b' k Hk) as (h' & t' & ? & ? & Hd').
      exists h', t'. rewrite !list_lookup_insert_ne by done. split; [done|]. split; [done|].
      eapply dll_ext; [|exact Hd']. intros p Hp. apply Hm. intros [Hx|Hx]%elem_of_app.
      * apply Hne. by eapply (lo_disj2 _ _ _ Hok).
      * by destruct (proj2 (Hdisj p Hx) b' k).
  - intros b' k p Hk Hp. destruct (decide (b = b')) as [<-|Hne].
    + rewrite list_lookup_insert_eq in Hk by done. injection Hk as <-. by apply Hdisj.
    + rewrite list_lookup_insert_ne in Hk by done. by eapply (lo_disj _ _ _ Hok).
  - intros b1 b2 k1 k2 p H1 H2 P1 P2. destruct (decide (b = b1)) as [<-|N1], (decide (b = b2)) as [<-|N2]; [done|..];
      rewrite ?(list_lookup_insert_ne _ _ b1), ?(list_lookup_insert_ne _ _ b2) in * by done;
      rewrite ?list_lookup_insert_eq in * by done.
    + injection H1 as <-. by destruct (proj2 (Hdisj p P1) b2 k2).
    + injection H2 as <-. by destruct (proj2 (Hdisj p P2) b1 k1).
    + by eapply (lo_disj2 _ _ _ Hok).
  - apply (lo_size _ _ _ Hok).
  - apply (lo_small _ _ _ Hok).
Qed.
End lists.

(** ** What each operation does to the structures *)
Lemma node_alter_run f p c : is_Some (nodes c !! p) ->
  node_alter f p c = Ret (tt, set_nodes (alter f p (nodes c)) c).
Proof.
  intros [n Hn]. unfold node_alter, node_at. by rewrite (bind_Ret _ _ c n c) by by apply load_Some.
Qed.

Lemma alter_is_Some (m : store) f p x : is_Some (m !! x) -> is_Some (alter f p m !! x).
Proof.
  intros [n Hn]. destruct (decide (p = x)) as [->|]; [rewrite lookup_alter_eq, Hn; by eexists|].
  rewrite lookup_alter_ne by done. by exists n.
Qed.

(** Split on a null test. *)
Ltac null_case x :=
  destruct (decide (x = 0));
  [rewrite ?(bool_decide_eq_true_2 (x = 0)), ?(bool_decide_eq_false_2 (x ≠ 0)) by tauto
  |rewrite ?(bool_decide_eq_false_2 (x = 0)), ?(bool_decide_eq_true_2 (x ≠ 0)) by tauto].

(** A store whose payloads agree. *)
Definition same_payload (m m' : store) : Prop := forall p, payload m' p = payload m p.

Lemma payload_is_Some m m' p : same_payload m m' -> is_Some (m !! p) -> is_Some (m' !! p).
Proof.
  intros Hs Hp. specialize (Hs p). unfold payload in Hs.
  destruct Hp as [n Hn]. rewrite Hn in Hs. destruct (m' !! p); [by eexists|done].
Qed.

Section run.
Context (c : block_cache) (q : list Z) (bs : list (list Z)) (Hok : lists_ok c q bs).

Definition not_linked (p : Z) : Prop := p ∉ q /\ forall b l, bs !! b = Some l -> p ∉ l.

Lemma queue_node p : p ∈ q -> p <> 0 /\ is_Some (nodes c !! p).
Proof using Hok.
  intros Hp. split; [eapply seg_nonzero|eapply seg_lookup]; try exact Hp; apply (lo_queue _ _ _ Hok).
Qed.

Lemma push_node_run p : not_linked p -> p <> 0 -> is_Some (nodes c !! p) -> csize c < 2 ^ 63 - 1 ->
  exists c', block_cache_queue_push_node p c = Ret (tt, c') /\ lists_ok c' (p :: q) bs /\
    same_payload (nodes c) (nodes c') /\ capacity c' = capacity c /\ page_size c' = page_size c.
Proof using Hok.
  intros [Hq Hb] Hp0 Hp Hsz. destruct (link_head_spec _ _ _ _ p (lo_queue _ _ _ Hok) Hq Hp0 Hp) as [Hd Hsb].
  pose proof (lo_size _ _ _ Hok) as Hcs.
  set (t' := if bool_decide (queue_head c = 0) then p else queue_tail c) in *.
  exists (set_csize (csize c + 1) (set_queue p t' (set_nodes (link_head (nodes c) (queue_head c) p) c))).
  split; [|split; [|split; [exact (sb_payload _ _ _ Hsb)|done]]].
  - unfold block_cache_queue_push_node, link_head. rewrite (bind_Ret _ _ c (queue_head c) c) by done.
    rewrite (bind_Ret _ _ _ _ _ (node_alter_run _ _ _ Hp)).
    set (m1 := alter (with_next (queue_head c)) p (nodes c)).
    set (m2 := if bool_decide (queue_head c = 0) then m1 else alter (with_prev p) (queue_head c) m1).
    rewrite (bind_Ret _ _ _ tt (set_queue (queue_head c) t' (set_nodes m2 c))).
    + run_simpl. rewrite node_alter_run.
      * cbn. rewrite uwrap_small by lia. done.
      * cbn. subst m2. case_bool_decide; repeat apply alter_is_Some; done.
    + subst m2 t'. null_case (queue_head c); [done|].
      rewrite node_alter_run; [by destruct c|]. cbn. apply alter_is_Some. apply queue_node.
      pose proof (dll_head _ _ _ _ (lo_queue _ _ _ Hok)) as Eh. destruct q; [done|]. rewrite Eh. by left.
  - eapply queue_surgery; [done|done| | |cbn [length]; lia|lia].
    + intros x [? ?]%not_elem_of_app. by apply (sb_out _ _ _ Hsb).
    + intros b l x Hl Hx [->|Hxq]%elem_of_cons; [by eapply Hb|by eapply (lo_disj _ _ _ Hok)].
Qed.

Lemma queue_erase_run l1 p l2 : q = l1 ++ p :: l2 ->
  exists c', block_cache_queue_erase p c = Ret (tt, c') /\ lists_ok c' (l1 ++ l2) bs /\
    same_payload (nodes c) (nodes c') /\ capacity c' = capacity c /\ page_size c' = page_size c.
Proof using Hok.
  intros Eq. pose proof (lo_queue _ _ _ Hok) as Hd. rewrite Eq in Hd.
  pose proof (dll_split _ _ _ _ _ _ Hd) as (n & Hn & Ep & En & Hp0 & S1 & S2 & _).
  destruct (unlink_spec _ _ _ _ _ _ n Hd Hn) as [Hd' Hsb]. pose proof (lo_size _ _ _ Hok) as Hcs.
  assert (length q = S (length (l1 ++ l2))) as Hlen by (rewrite Eq, !length_app; cbn; lia).
  set (h' := if bool_decide (nprev n = 0) then nnext n else queue_head c) in *.
  set (t' := if bool_decide (nnext n = 0) then nprev n else queue_tail c) in *.
  exists (set_csize (csize c - 1) (set_queue h' t' (set_nodes (unlink (nodes c) (nprev n) (nnext n)) c))).
  split; [|split; [|split; [exact (sb_payload _ _ _ Hsb)|done]]].
  - unfold block_cache_queue_erase, unlink. unfold node_at at 1.
    rewrite (bind_Ret _ _ c n c) by by apply load_Some. cbv zeta.
    set (m1 := if bool_decide (nprev n = 0) then nodes c else alter (with_next (nnext n)) (nprev n) (nodes c)).
    assert (nprev n <> 0 -> is_Some (nodes c !! nprev n)) as Hpv.
    { intros Hx. rewrite Ep in *. eapply seg_lookup; [exact S1|].
      destruct l1 as [|y l _] using rev_ind; [done|]. rewrite last_or_snoc. apply elem_of_app. right. by left. }
    assert (nnext n <> 0 -> is_Some (m1 !! nnext n)) as Hnx.
    { intros Hx. assert (is_Some (nodes c !! nnext n)) as Hs.
      { rewrite En in *. eapply seg_lookup; [exact S2|]. destruct l2; [done|by left]. }
      subst m1. case_bool_decide; [done|by apply alter_is_Some]. }
    rewrite (bind_Ret _ _ c tt (set_queue h' (queue_tail c) (set_nodes m1 c))).
    + rewrite (bind_Ret _ _ _ tt (set_queue h' t' (set_nodes (if bool_decide (nnext n = 0) then m1
        else alter (with_prev (nprev n)) (nnext n) m1) c))).
      * unfold cmodify. cbn [set_csize set_queue set_nodes csize]. pose proof (lo_small _ _ _ Hok). rewrite uwrap_small by lia. done.
      * subst t'. null_case (nnext n); [done|]. by rewrite node_alter_run by auto.
    + subst m1 h'. null_case (nprev n); [by destruct c|]. rewrite node_alter_run by auto. by destruct c.
  - eapply queue_surgery; [done|done| | |lia|pose proof (lo_small _ _ _ Hok); lia].
    + intros x [? ?]%not_elem_of_app. by apply (sb_out _ _ _ Hsb).
    + intros b l x Hl Hx Hin. eapply (lo_disj _ _ _ Hok); [exact Hl|exact Hx|]. rewrite Eq.
      apply elem_of_app in Hin as [?|?]; apply elem_of_app; [by left|right; by right].
Qed.
End run.

(** The fields of a cache that list surgery on buckets leaves alone. *)
Definition same_queue (c c' : block_cache) : Prop :=
  queue_head c' = queue_head c /\ queue_tail c' = queue_tail c /\ csize c' = csize c /\
  capacity c' = capacity c /\ page_size c' = page_size c.

Section hash_run.
Context (c : block_cache) (q : list Z) (bs : list (list Z)) (Hok : lists_ok c q bs).

Lemma hash_remove_run a l1 p l2 :
  bs !! bucket_of c a = Some (l1 ++ p :: l2) -> find_addr (nodes c) a (l1 ++ p :: l2) = p ->
  exists c', lru_hash_remove a c = Ret (0, c') /\ lists_ok c' q (<[bucket_of c a := l1 ++ l2]> bs) /\
    (forall x, x <> p -> payload (nodes c') x = payload (nodes c) x) /\ same_queue c c'.
Proof using Hok.
  intros Hl Hfind. pose proof (hash_lookup_run c q bs Hok a _ Hl) as Hlook. rewrite Hfind in Hlook.
  destruct (lo_bucket _ _ _ Hok _ _ Hl) as (h & t & Hh & Ht & Hd).
  pose proof (dll_split _ _ _ _ _ _ Hd) as (n & Hn & Ep & En & Hp0 & S1 & S2 & P1 & P2 & _).
  destruct (unlink_spec _ _ _ _ _ _ n Hd Hn) as [Hd' Hsb].
  set (b := bucket_of c a) in *.
  set (h' := if bool_decide (nprev n = 0) then nnext n else h) in *.
  set (t' := if bool_decide (nnext n = 0) then nprev n else t) in *.
  set (m2 := unlink (nodes c) (nprev n) (nnext n)) in *.
  assert (p ∉ l1 ++ l2) as Hpl by (apply not_elem_of_app; done).
  exists (set_buckets (<[b := h']> (bucket_heads c)) (<[b := t']> (bucket_tails c)) (set_nodes (delete p m2) c)).
  split; [|split; [|split]].
  - unfold lru_hash_remove. rewrite (bind_Ret _ _ c c c) by done. rewrite (bind_Ret _ _ _ _ _ Hlook).
    rewrite bool_decide_eq_false_2 by done. unfold node_at at 1.
    rewrite (bind_Ret _ _ c n c) by by apply load_Some. cbv zeta. fold b.
    set (m1 := if bool_decide (nprev n = 0) then nodes c else alter (with_next (nnext n)) (nprev n) (nodes c)).
    assert (nprev n <> 0 -> is_Some (nodes c !! nprev n)) as Hpv.
    { intros Hx. rewrite Ep in *. eapply seg_lookup; [exact S1|].
      destruct l1 as [|y l _] using rev_ind; [done|]. rewrite last_or_snoc. apply elem_of_app. right. by left. }
    assert (nnext n <> 0 -> is_Some (m1 !! nnext n)) as Hnx.
    { intros Hx. assert (is_Some (nodes c !! nnext n)) as Hs.
      { rewrite En in *. eapply seg_lookup; [exact S2|]. destruct l2; [done|by left]. }
      subst m1. case_bool_decide; [done|by apply alter_is_Some]. }
    assert (m2 = if bool_decide (nnext n = 0) then m1 else alter (with_prev (nprev n)) (nnext n) m1) as Em2 by done.
    rewrite (bind_Ret _ _ c tt (set_buckets (<[b := h']> (bucket_heads c)) (bucket_tails c) (set_nodes m1 c))).
    + rewrite (bind_Ret _ _ _ tt (set_buckets (<[b := h']> (bucket_heads c)) (<[b := t']> (bucket_tails c)) (set_nodes m2 c))).
      * unfold node_free, node_at. run_simpl. cbn [nodes set_buckets set_nodes].
        rewrite (sb_out _ _ _ Hsb p Hpl), Hn. done.
      * rewrite Em2. subst t'. null_case (nnext n); [done|]. rewrite node_alter_run by auto.
        by rewrite (list_insert_id (bucket_tails c) b t Ht).
    + subst m1 h'. null_case (nprev n); [by destruct c|]. rewrite node_alter_run by auto.
      by rewrite (list_insert_id (bucket_heads c) b h Hh).
  - eapply bucket_surgery; [done|done| | |].
    + eapply dll_ext; [|exact Hd']. intros x Hx. apply lookup_delete_ne. by intros ->.
    + intros x [[? [? ?]%not_elem_of_cons]%not_elem_of_app _]%not_elem_of_app.
      rewrite lookup_delete_ne by done. apply (sb_out _ _ _ Hsb). by apply not_elem_of_app.
    + intros x Hx. assert (x ∈ l1 ++ p :: l2) as Hx'.
      { apply elem_of_app in Hx as [?|?]; apply elem_of_app; [by left|right; by right]. }
      split; [by eapply (lo_disj _ _ _ Hok)|]. intros b' k Hne Hk Hxk. apply Hne. symmetry.
      by eapply (lo_disj2 _ _ _ Hok _ _ _ _ x Hl Hk).
  - intros x Hx. cbn. rewrite <- (sb_payload _ _ _ Hsb x). unfold payload. by rewrite lookup_delete_ne.
  - done.
Qed.

Lemma hash_insert_run `{NodeAlloc} a idx l :
  bs !! bucket_of c a = Some l -> na_alloc (nodes c) <> 0 ->
  exists c', lru_hash_insert a idx c = Ret (0, c') /\
    lists_ok c' q (<[bucket_of c a := l ++ [na_alloc (nodes c)]]> bs) /\
    payload (nodes c') (na_alloc (nodes c)) = Some (a, idx) /\
    (forall x, x <> na_alloc (nodes c) -> payload (nodes c') x = payload (nodes c) x) /\ same_queue c c'.
Proof using Hok.
  intros Hl Hp0. set (p := na_alloc (nodes c)) in *. pose proof (na_alloc_fresh _ Hp0) as Hfresh. fold p in Hfresh.
  destruct (lo_bucket _ _ _ Hok _ _ Hl) as (h & t & Hh & Ht & Hd). set (b := bucket_of c a) in *.
  set (m0 := <[p := mk_node a idx 0 0]> (nodes c)).
  assert (m0 !! p = Some (mk_node a idx 0 0)) as Hm0 by apply lookup_insert_eq.
  assert (is_Some (m0 !! p)) as Hm0p by by rewrite Hm0.
  assert (forall k h t, dll (nodes c) k h t -> p ∉ k) as Hnew.
  { intros k h0 t0 Hk Hin. destruct (seg_lookup _ _ _ _ p (dll_seg _ _ _ _ Hk) Hin) as [? ?]. congruence. }
  assert (dll m0 l h t) as Hd0.
  { eapply dll_ext; [|exact Hd]. intros x Hx. apply lookup_insert_ne. intros <-. by eapply Hnew. }
  destruct (link_tail_spec m0 l h t p Hd0) as [Hd' Hsb]; [by eapply Hnew|done|done|].
  set (h' := if bool_decide (t = 0) then p else h) in *. set (m3 := link_tail m0 t p) in *.
  exists (set_buckets (<[b := h']> (bucket_heads c)) (<[b := p]> (bucket_tails c)) (set_nodes m3 c)).
  split; [|split; [|split; [|split]]].
  - unfold lru_hash_insert. rewrite (bind_Ret _ _ c c c) by done. cbv zeta. fold b.
    rewrite (bind_Ret _ _ c p (set_nodes m0 c)).
    2:{ unfold node_new. run_simpl. fold p. by rewrite bool_decide_eq_false_2. }
    rewrite bool_decide_eq_true_2 by done. rewrite (bind_Ret _ _ (set_nodes m0 c) tt (set_nodes m0 c)) by done.
    rewrite (bind_Ret _ _ _ t (set_nodes m0 c)) by by apply load_Some.
    rewrite (bind_Ret _ _ _ tt (set_nodes (alter (with_prev t) p m0) c)).
    2:{ by rewrite node_alter_run. }
    set (m1 := alter (with_prev t) p m0).
    set (m2 := if bool_decide (t = 0) then m1 else alter (with_next p) t m1).
    rewrite (bind_Ret _ _ _ tt (set_buckets (<[b := h']> (bucket_heads c)) (bucket_tails c) (set_nodes m2 c))).
    + run_simpl. unfold set_bucket_tail. run_simpl. rewrite node_alter_run; [done|]. cbn.
      subst m2. case_bool_decide; repeat apply alter_is_Some; done.
    + subst m2 h'. null_case t; [done|]. rewrite node_alter_run.
      * by rewrite (list_insert_id (bucket_heads c) b h Hh).
      * cbn. apply alter_is_Some. eapply (seg_lookup m0 0 l 0); [apply Hd0|]. rewrite (dll_tail _ _ _ _ Hd).
        pose proof (dll_tail _ _ _ _ Hd) as Et. destruct l as [|y k _] using rev_ind; [done|].
        rewrite last_or_snoc. apply elem_of_app. right. by left.
  - eapply bucket_surgery; [done|done|exact Hd'| |].
    + intros x [_ Hx]%not_elem_of_app. subst m3. rewrite (sb_out _ _ _ Hsb x Hx).
      apply lookup_insert_ne. intros <-. apply Hx, elem_of_app. right. by left.
    + intros x [Hx| ->%list_elem_of_singleton]%elem_of_app.
      * split; [by eapply (lo_disj _ _ _ Hok)|]. intros b' k Hne Hk Hxk. apply Hne. symmetry.
        by eapply (lo_disj2 _ _ _ Hok _ _ _ _ x Hl Hk).
      * split; [eapply Hnew, (lo_queue _ _ _ Hok)|]. intros b' k _ Hk.
        destruct (lo_bucket _ _ _ Hok _ _ Hk) as (? & ? & _ & _ & Hdk). by eapply Hnew.
  - cbn. rewrite (sb_payload _ _ _ Hsb p). unfold payload. by rewrite Hm0.
  - intros x Hx. cbn. rewrite (sb_payload _ _ _ Hsb x). unfold payload, m0. by rewrite lookup_insert_ne.
  - done.
Qed.

(** The least recently used node leaves the queue, once the index knows it no more. *)
Lemma drop_last_run q0 p n : q = q0 ++ [p] -> nodes c !! p = Some n ->
  exists c',
    (cmodify (fun c => set_queue (queue_head c) (nprev n) c);;
     (if bool_decide (nprev n ≠ 0) then node_alter (with_next 0) (nprev n)
      else s ← cgets csize; cassert (bool_decide (s = 1));; cmodify (fun c => set_queue 0 (queue_tail c) c));;
     cmodify (fun c => set_csize (u64 (csize c - 1)) c)) c = Ret (tt, c') /\
    lists_ok c' q0 bs /\ same_payload (nodes c) (nodes c') /\ capacity c' = capacity c /\ page_size c' = page_size c.
Proof using Hok.
  intros Eq Hn. pose proof (lo_queue _ _ _ Hok) as Hd. rewrite Eq in Hd.
  destruct (drop_tail_spec _ _ _ _ _ n Hd Hn) as (Hd' & Hsb & Hempty).
  pose proof (lo_size _ _ _ Hok) as Hcs. assert (length q = S (length q0)) as Hlen by (rewrite Eq, length_app; cbn; lia).
  pose proof (lo_small _ _ _ Hok) as Hsm.
  set (h' := if bool_decide (nprev n = 0) then 0 else queue_head c) in *.
  exists (set_csize (csize c - 1) (set_queue h' (nprev n) (set_nodes (drop_tail (nodes c) (nprev n)) c))).
  split; [|split; [|split; [exact (sb_payload _ _ _ Hsb)|done]]].
  - rewrite (bind_Ret _ _ c tt (set_queue (queue_head c) (nprev n) c)) by done.
    rewrite (bind_Ret _ _ _ tt (set_queue h' (nprev n) (set_nodes (drop_tail (nodes c) (nprev n)) c))).
    + unfold cmodify. cbn [set_csize set_queue set_nodes csize]. rewrite uwrap_small by lia. done.
    + unfold drop_tail. subst h'. null_case (nprev n).
      * assert (csize c = 1) as Hone by (rewrite Hcs, Hlen; by rewrite (proj1 Hempty)).
        run_simpl. cbn [csize set_queue]. rewrite Hone, bool_decide_eq_true_2 by done. by destruct c.
      * rewrite node_alter_run; [done|]. cbn.
        pose proof (dll_split _ _ _ [] _ _ Hd) as (n' & Hn' & Ep & _ & _ & S1 & _).
        assert (n' = n) as -> by congruence. rewrite Ep in *. eapply seg_lookup; [exact S1|].
        destruct q0 as [|y k _] using rev_ind; [done|]. rewrite last_or_snoc. apply elem_of_app. right. by left.
  - eapply queue_surgery; [done|done| | |lia|lia].
    + intros x [_ Hx]%not_elem_of_app. by apply (sb_out _ _ _ Hsb).
    + intros b l x Hl Hx Hin. eapply (lo_disj _ _ _ Hok); [exact Hl|exact Hx|]. rewrite Eq. apply elem_of_app. by left.
Qed.
End hash_run.

(** ** The index

    Bucket nodes and queue nodes correspond: one index node per queued block, in the
    bucket of its address, pointing at the queue node. *)
Definition bucket_no (a : Z) : nat := Z.to_nat (a mod Z.of_nat BUCKETS).

Record index_ok (m : store) (q : list Z) (bs : list (list Z)) : Prop := {
  io_sound : forall b l p, bs !! b = Some l -> p ∈ l ->
    exists a x v, payload m p = Some (a, x) /\ x ∈ q /\ payload m x = Some (a, v) /\ bucket_no a = b;
  io_complete : forall x a v, x ∈ q -> payload m x = Some (a, v) ->
    0 <= a /\ exists l p, bs !! bucket_no a = Some l /\ p ∈ l /\ payload m p = Some (a, x);
  io_queue_inj : forall x y a v w, x ∈ q -> y ∈ q -> payload m x = Some (a, v) -> payload m y = Some (a, w) -> x = y;
  io_bucket_inj : forall b l p p' a x x', bs !! b = Some l -> p ∈ l -> p' ∈ l ->
    payload m p = Some (a, x) -> payload m p' = Some (a, x') -> p = p';
}.

(** The blocks of the cache, most recently used first, with their page words. *)
Definition entries (m : store) (q : list Z) : list (Z * Z) := omap (payload m) q.

Definition cache_ok (c : block_cache) (es : list (Z * Z)) : Prop :=
  exists q bs, lists_ok c q bs /\ index_ok (nodes c) q bs /\ es = entries (nodes c) q.

Definition lru_lookup (a : Z) (es : list (Z * Z)) : option Z :=
  snd <$> (snd <$> list_find (fun e => e.1 = a) es).
Definition lru_remove (a : Z) (es : list (Z * Z)) : list (Z * Z) := filter (fun e => e.1 <> a) es.

Section entries_lemmas.
Implicit Types (m : store) (q : list Z).

Lemma entries_app m q1 q2 : entries m (q1 ++ q2) = entries m q1 ++ entries m q2.
Proof. unfold entries. by rewrite omap_app. Qed.

Lemma entries_cons m x q a v : payload m x = Some (a, v) -> entries m (x :: q) = (a, v) :: entries m q.
Proof. intros Hx. unfold entries. cbn. by rewrite Hx. Qed.

Lemma entries_ext m m' q : (forall x, x ∈ q -> payload m' x = payload m x) -> entries m' q = entries m q.
Proof.
  induction q as [|x q IH]; intros He; [done|]. unfold entries. cbn. rewrite He by by left.
  unfold entries in IH. rewrite IH; [done|]. intros y Hy. apply He. by right.
Qed.

Lemma elem_entries m q a v : (a, v) ∈ entries m q <-> exists x, x ∈ q /\ payload m x = Some (a, v).
Proof. unfold entries. by rewrite list_elem_of_omap. Qed.

Lemma lists_entries_length c q bs : lists_ok c q bs -> length (entries (nodes c) q) = length q.
Proof.
  intros H. pose proof (dll_seg _ _ _ _ (lo_queue _ _ _ H)) as Hs. revert Hs. generalize 0 at 1.
  clear H. induction q as [|x q IH]; intros pv; [done|]. intros (_ & (n & Hn & _) & Hs).
  erewrite entries_cons; [|unfold payload; by rewrite Hn]. cbn [length]. by erewrite IH.
Qed.

Lemma entries_remove_none m q a : (forall x v, x ∈ q -> payload m x <> Some (a, v)) ->
  lru_remove a (entries m q) = entries m q.
Proof.
  intros Hn. unfold lru_remove. apply filter_all.
  intros [b v] (x & Hx & Hp)%elem_entries. cbn. intros ->. by eapply Hn.
Qed.

Lemma lru_lookup_None a es : lru_lookup a es = None <-> forall v, (a, v) ∉ es.
Proof.
  unfold lru_lookup. destruct (list_find _ es) as [[i [b w]]|] eqn:E; cbn.
  - apply list_find_Some in E as (Hi & Hb & _). cbn in Hb. subst b. split; [done|].
    intros Hn. destruct (Hn w). by eapply list_elem_of_lookup_2.
  - split; [|done]. intros _ v Hin. apply list_find_None in E. rewrite list.Forall_forall in E.
    by apply (E (a, v) Hin).
Qed.

Lemma lru_lookup_Some a v es : lru_lookup a es = Some v -> (a, v) ∈ es.
Proof.
  unfold lru_lookup. destruct (list_find _ es) as [[i [b w]]|] eqn:E; cbn; [|done].
  apply list_find_Some in E as (Hi & Hb & _). cbn in Hb. subst b. intros [= <-].
  by eapply list_elem_of_lookup_2.
Qed.
End entries_lemmas.

Section cache_abs.
Context (c : block_cache) (q : list Z) (bs : list (list Z)).
Context (Hok : lists_ok c q bs) (Hix : index_ok (nodes c) q bs).

Lemma bucket_of_no a : bucket_of c a = bucket_no a.
Proof using Hok. unfold bucket_of, bucket_no. by destruct (lo_lens _ _ _ Hok) as [-> _]. Qed.

Lemma queue_payload x : x ∈ q -> exists a v, payload (nodes c) x = Some (a, v).
Proof using Hok.
  intros Hx. destruct (queue_node c q bs Hok x Hx) as [_ [n Hn]]. unfold payload. rewrite Hn. by eexists _, _.
Qed.

(** Looking a block up in its bucket. *)
Lemma find_addr_spec a l : bs !! bucket_no a = Some l ->
  (find_addr (nodes c) a l = 0 /\ forall v, (a, v) ∉ entries (nodes c) q) \/
  (exists l1 p l2 x v, l = l1 ++ p :: l2 /\ find_addr (nodes c) a l = p /\
     payload (nodes c) p = Some (a, x) /\ x ∈ q /\ payload (nodes c) x = Some (a, v)).
Proof using Hok Hix.
  intros Hl. unfold find_addr. destruct (list_find _ l) as [[i p]|] eqn:E; cbn.
  - right. apply list_find_Some in E as (Hi & Hp & _).
    destruct (io_sound _ _ _ Hix _ l p Hl) as (a' & x & v & Hpp & Hx & Hxp & _).
    { by eapply list_elem_of_lookup_2. }
    rewrite Hpp in Hp. injection Hp as ->. apply take_drop_middle in Hi.
    exists (take i l), p, (drop (S i) l), x, v. done.
  - left. split; [done|]. intros v (x & Hx & Hp)%elem_entries.
    destruct (io_complete _ _ _ Hix x a v Hx Hp) as (_ & l' & p & Hl' & Hin & Hpp).
    assert (l' = l) as -> by congruence. apply list_find_None in E. rewrite list.Forall_forall in E.
    apply (E p Hin). by rewrite Hpp.
Qed.
End cache_abs.

(** ** The operations on the abstract LRU list *)

Lemma index_ok_same m m' q q' bs : index_ok m q bs -> same_payload m m' ->
  (forall x, x ∈ q' <-> x ∈ q) -> index_ok m' q' bs.
Proof.
  intros [S C Q B] Hs Hq. split.
  - intros b l p Hl Hp. destruct (S b l p Hl Hp) as (a & x & v & ? & ? & ? & ?).
    exists a, x, v. by rewrite !Hs, Hq.
  - intros x a v. rewrite Hs, Hq. intros Hx Hp. destruct (C x a v Hx Hp) as (? & l & p & ? & ? & ?).
    split; [done|]. exists l, p. by rewrite Hs.
  - intros x y a v w. rewrite !Hs, !Hq. apply Q.
  - intros b l p p' a x x'. rewrite !Hs. apply B.
Qed.

Lemma entries_split_remove m q1 x q2 a v bs c :
  lists_ok c (q1 ++ x :: q2) bs -> m = nodes c -> index_ok m (q1 ++ x :: q2) bs -> payload m x = Some (a, v) ->
  lru_remove a (entries m (q1 ++ x :: q2)) = entries m (q1 ++ q2).
Proof.
  intros Hok Em Hix Hx. pose proof (dll_nodup _ _ _ _ (lo_queue _ _ _ Hok)) as Hnd.
  apply list.NoDup_app in Hnd as (_ & Hd & [Hn2 _]%list.NoDup_cons).
  assert (forall y, y ∈ q1 ++ q2 -> forall w, payload m y <> Some (a, w)) as Hne.
  { intros y Hy w Hp. assert (y ∈ q1 ++ x :: q2) as Hin.
    { apply elem_of_app in Hy as [?|?]; apply elem_of_app; [by left|right; by right]. }
    assert (x ∈ q1 ++ x :: q2) as Hin' by (apply elem_of_app; right; by left).
    pose proof (io_queue_inj _ _ _ Hix y x a w v Hin Hin' Hp Hx) as ->.
    apply elem_of_app in Hy as [Hy|Hy]; [|done]. apply (Hd x Hy). by left. }
  rewrite !entries_app, (entries_cons _ _ _ _ _ Hx). unfold lru_remove. rewrite list.filter_app.
  rewrite filter_cons_False by (cbn; tauto).
  fold (lru_remove a (entries m q1)) (lru_remove a (entries m q2)).
  rewrite !entries_remove_none; [done|..]; intros y w Hy; apply Hne; apply elem_of_app; [by right|by left].
Qed.

(** Dropping queue node [x] with its index node [p]. *)
Lemma index_ok_drop m m' q0 x bs l1 p l2 a v :
  index_ok m (q0 ++ [x]) bs -> bs !! bucket_no a = Some (l1 ++ p :: l2) ->
  payload m p = Some (a, x) -> payload m x = Some (a, v) -> x ∉ q0 -> p ∉ q0 -> p ∉ l1 ++ l2 ->
  (forall b l, bs !! b = Some l -> p ∈ l -> b = bucket_no a) ->
  (forall y, y <> p -> payload m' y = payload m y) ->
  index_ok m' q0 (<[bucket_no a := l1 ++ l2]> bs).
Proof.
  intros [S C Q B] Hl Hp Hx Hxq Hpq Hpl Hone P. pose proof (lookup_lt_Some _ _ _ Hl) as Hlt.
  assert (forall b k y, <[bucket_no a := l1 ++ l2]> bs !! b = Some k -> y ∈ k ->
    exists k0, bs !! b = Some k0 /\ y ∈ k0 /\ y <> p /\ forall z, z ∈ k -> z ∈ k0) as Hback.
  { intros b k y Hk Hy. destruct (decide (bucket_no a = b)) as [<-|Hne].
    - rewrite list_lookup_insert_eq in Hk by done. injection Hk as <-.
      exists (l1 ++ p :: l2). split; [done|]. split; [set_solver|]. split; [by intros ->|set_solver].
    - rewrite list_lookup_insert_ne in Hk by done. exists k. split; [done|]. split; [done|]. split; [|done].
      intros ->. apply Hne. symmetry. by eapply Hone. }
  split.
  - intros b k y Hk Hy. destruct (Hback b k y Hk Hy) as (k0 & Hk0 & Hy0 & Hyp & _).
    destruct (S b k0 y Hk0 Hy0) as (a' & z & w & H1 & Hz & H2 & Hb).
    assert (z ∈ q0) as Hz0.
    { apply elem_of_app in Hz as [?| ->%list_elem_of_singleton]; [done|]. exfalso. apply Hyp.
      assert (a' = a) as -> by congruence. subst b. assert (k0 = l1 ++ p :: l2) as -> by congruence.
      eapply (B _ _ y p a); [exact Hl|done| |exact H1|exact Hp]. apply elem_of_app. right. by left. }
    exists a', z, w. rewrite !P; [done|by intros ->|done].
  - intros z a' w Hz. assert (z <> p) by (by intros ->). rewrite P by done. intros Hzp.
    destruct (C z a' w) as (Ha' & k & y & Hk & Hy & Hyp); [apply elem_of_app; by left|done|]. split; [done|].
    assert (y <> p) as Hyne by (intros ->; rewrite Hp in Hyp; injection Hyp as _ ->; done).
    destruct (decide (bucket_no a = bucket_no a')) as [Eb|Hne].
    + exists (l1 ++ l2), y. rewrite <- Eb in *. rewrite list_lookup_insert_eq by done.
      assert (k = l1 ++ p :: l2) as -> by congruence. rewrite P by done. split; [done|]. split; [set_solver|done].
    + exists k, y. rewrite list_lookup_insert_ne by done. by rewrite P.
  - intros z y a' w w' Hz Hy. rewrite !P by (by intros ->). apply Q; apply elem_of_app; by left.
  - intros b k y y' a' z z' Hk Hy Hy'. destruct (Hback b k y Hk Hy) as (k0 & Hk0 & Hy0 & Hyp & Hsub).
    destruct (Hback b k y' Hk Hy') as (_ & _ & _ & Hyp' & _). rewrite !P by done.
    apply (B b k0); [done|done|by apply Hsub].
Qed.

(** Adding queue node [x] and its index node [p] for a new address. *)
Lemma index_ok_add m m' q x bs l p a v :
  index_ok m q bs -> bs !! bucket_no a = Some l -> 0 <= a ->
  (forall y w, y ∈ q -> payload m y <> Some (a, w)) ->
  payload m' p = Some (a, x) -> payload m' x = Some (a, v) ->
  (forall y, y ∈ q -> y <> p /\ y <> x) -> (forall b k y, bs !! b = Some k -> y ∈ k -> y <> p /\ y <> x) ->
  (forall y, y <> p -> y <> x -> payload m' y = payload m y) ->
  index_ok m' (x :: q) (<[bucket_no a := l ++ [p]]> bs).
Proof.
  intros [S C Q B] Hl Ha Hnew Hp Hx Hq Hb P. pose proof (lookup_lt_Some _ _ _ Hl) as Hlt.
  assert (forall b k y, <[bucket_no a := l ++ [p]]> bs !! b = Some k -> y ∈ k ->
    (y = p /\ b = bucket_no a) \/ (exists k0, bs !! b = Some k0 /\ y ∈ k0)) as Hback.
  { intros b k y Hk Hy. destruct (decide (bucket_no a = b)) as [<-|Hne].
    - rewrite list_lookup_insert_eq in Hk by done. injection Hk as <-.
      apply elem_of_app in Hy as [?| ->%list_elem_of_singleton]; [right; eauto|by left].
    - rewrite list_lookup_insert_ne in Hk by done. right. eauto. }
  assert (forall b k y, bs !! b = Some k -> y ∈ k -> payload m' y = payload m y) as Pb.
  { intros b k y Hk Hy. destruct (Hb b k y Hk Hy). by apply P. }
  assert (forall y, y ∈ q -> payload m' y = payload m y) as Pq by (intros y Hy; destruct (Hq y Hy); by apply P).
  assert (forall b k y z, bs !! b = Some k -> y ∈ k -> payload m y <> Some (a, z)) as Hnb.
  { intros b k y z Hk Hy E. destruct (S b k y Hk Hy) as (a' & z' & w & E' & Hz & Hzp & _).
    rewrite E in E'. injection E' as <- <-. by eapply Hnew. }
  split.
  - intros b k y Hk Hy. destruct (Hback b k y Hk Hy) as [[-> ->]|(k0 & Hk0 & Hy0)].
    + exists a, x, v. split; [done|]. split; [by left|done].
    + destruct (S b k0 y Hk0 Hy0) as (a' & z & w & ? & Hz & ? & ?). exists a', z, w.
      rewrite (Pb b k0 y), (Pq z) by done. split; [done|]. split; [by right|done].
  - intros z a' w [->|Hz]%elem_of_cons.
    + rewrite Hx. intros [= <- <-]. split; [done|]. exists (l ++ [p]), p.
      rewrite list_lookup_insert_eq by done. split; [done|]. split; [|done]. apply elem_of_app. right. by left.
    + rewrite Pq by done. intros Hzp. destruct (C z a' w Hz Hzp) as (Ha' & k & y & Hk & Hy & Hyp). split; [done|].
      destruct (decide (bucket_no a = bucket_no a')) as [Eb|Hne].
      * exists (l ++ [p]), y. rewrite <- Eb in *. rewrite list_lookup_insert_eq by done.
        assert (k = l) as -> by congruence. rewrite (Pb _ _ y Hl Hy). split; [done|]. split; [|done].
        apply elem_of_app. by left.
      * exists k, y. rewrite list_lookup_insert_ne by done. by rewrite (Pb _ _ y Hk Hy).
  - intros z y a' w w' [->|Hz]%elem_of_cons [->|Hy]%elem_of_cons; [done|..].
    + rewrite Hx, Pq by done. intros [= <- <-] E. by destruct (Hnew y w').
    + rewrite Hx, Pq by done. intros E [= <- <-]. by destruct (Hnew z w).
    + rewrite !Pq by done. by apply Q.
  - intros b k y y' a' z z' Hk Hy Hy'.
    destruct (Hback b k y Hk Hy) as [[-> ->]|(k0 & Hk0 & Hy0)], (Hback _ k y' Hk Hy') as [[-> Eb]|(k1 & Hk1 & Hy1)]; [done|..].
    + rewrite Hp, (Pb _ _ y' Hk1 Hy1). intros [= <- <-] E. by destruct (Hnb _ _ y' z' Hk1 Hy1).
    + rewrite Hp, (Pb _ _ y Hk0 Hy0). intros E [= <- <-]. by destruct (Hnb _ _ y z Hk0 Hy0).
    + assert (k1 = k0) as -> by congruence. rewrite (Pb _ _ y Hk0 Hy0), (Pb _ _ y' Hk0 Hy1). by apply (B b k0).
Qed.

Section abs_ops.
Context (c : block_cache) (es : list (Z * Z)) (Hc : cache_ok c es).

Lemma cache_size : csize c = Z.of_nat (length es) /\ csize c < 2 ^ 63.
Proof using Hc.
  destruct Hc as (q & bs & Hok & _ & ->). rewrite (lists_entries_length _ _ _ Hok).
  split; [apply (lo_size _ _ _ Hok)|apply (lo_small _ _ _ Hok)].
Qed.

Lemma cache_addr_nonneg a v : (a, v) ∈ es -> 0 <= a.
Proof using Hc.
  destruct Hc as (q & bs & _ & Hix & ->). intros (x & Hx & Hp)%elem_entries.
  by apply (io_complete _ _ _ Hix x a v).
Qed.

(** A block is looked up: the index node and the queue node it leads to. *)
Lemma cache_lookup_run a : 0 <= a ->
  (lru_lookup a es = None /\ lru_hash_lookup a c = Ret (0, c)) \/
  (exists v p i x n, lru_lookup a es = Some v /\ lru_hash_lookup a c = Ret (p, c) /\ p <> 0 /\
     nodes c !! p = Some i /\ block_address i = a /\ nval i = x /\ x <> 0 /\
     nodes c !! x = Some n /\ block_address n = a /\ nval n = v).
Proof using Hc.
  intros Ha. destruct Hc as (q & bs & Hok & Hix & ->).
  destruct (bucket_lookup c q bs Hok a Ha) as (l & h & t & Hl & _ & _ & Hd).
  pose proof (hash_lookup_run c q bs Hok a l Hl) as Hrun.
  rewrite (bucket_of_no c q bs Hok) in Hl.
  destruct (find_addr_spec c q bs Hok Hix a l Hl) as [[E Hno]|(l1 & p & l2 & x & v & -> & E & Hp & Hx & Hxp)].
  - left. rewrite E in Hrun. split; [by apply lru_lookup_None|done].
  - right. rewrite E in Hrun. destruct (queue_node c q bs Hok x Hx) as [Hx0 _].
    unfold payload in Hp, Hxp. destruct (nodes c !! p) as [i|] eqn:Hi; [|done].
    destruct (nodes c !! x) as [n|] eqn:Hn; [|done]. injection Hp as Hpa Hpx. injection Hxp as Hxa Hxv.
    exists v, p, i, x, n. split; [|split; [done|split; [|done]]].
    + destruct (lru_lookup a _) as [w|] eqn:El.
      * apply lru_lookup_Some, elem_entries in El as (y & Hy & Hyp). f_equal.
        assert (payload (nodes c) x = Some (a, v)) as Hxp by (unfold payload; rewrite Hn; cbn; congruence).
        pose proof (io_queue_inj _ _ _ Hix y x a w v Hy Hx Hyp Hxp) as ->. congruence.
      * exfalso. apply (proj1 (lru_lookup_None a _) El v). apply elem_entries. exists x. split; [done|].
        unfold payload. rewrite Hn. cbn. congruence.
    + eapply seg_nonzero; [apply Hd|]. apply elem_of_app. right. by left.
Qed.

(** A hit moves the block to the front. *)
Lemma cache_touch_run a v x n : (a, v) ∈ es -> nodes c !! x = Some n -> block_address n = a -> nval n = v ->
  (exists p i, lru_hash_lookup a c = Ret (p, c) /\ nodes c !! p = Some i /\ nval i = x) ->
  exists c', (block_cache_queue_erase x;; block_cache_queue_push_node x) c = Ret (tt, c') /\
    cache_ok c' ((a, v) :: lru_remove a es) /\ capacity c' = capacity c /\ page_size c' = page_size c.
Proof using Hc.
  intros Hin Hn Hna Hnv (p & i & Hp & Hi & Hix'). pose proof (cache_addr_nonneg _ _ Hin) as Ha.
  destruct Hc as (q & bs & Hok & Hix & ->).
  assert (x ∈ q) as Hx.
  { destruct (bucket_lookup c q bs Hok a Ha) as (l & h & t & Hl & _).
    rewrite (hash_lookup_run c q bs Hok a l Hl) in Hp. rewrite (bucket_of_no c q bs Hok) in Hl.
    destruct (find_addr_spec c q bs Hok Hix a l Hl) as [[_ Hno]|(l1 & p' & l2 & y & w & -> & E & Hpp & Hy & _)].
    { by destruct (Hno v). }
    rewrite E in Hp. injection Hp as ->. unfold payload in Hpp. rewrite Hi in Hpp. cbn in Hpp. congruence. }
  assert (payload (nodes c) x = Some (a, v)) as Hxp by (unfold payload; rewrite Hn; cbn; congruence).
  apply list_elem_of_split in Hx as (q1 & q2 & ->).
  destruct (queue_erase_run c _ bs Hok q1 x q2 eq_refl) as (c1 & E1 & Hok1 & P1 & K1 & G1).
  pose proof (dll_nodup _ _ _ _ (lo_queue _ _ _ Hok)) as Hnd.
  apply list.NoDup_app in Hnd as (_ & Hd & [Hn2 _]%list.NoDup_cons).
  destruct (queue_node c _ bs Hok x) as [Hx0 Hxs]; [apply elem_of_app; right; by left|].
  destruct (push_node_run c1 (q1 ++ q2) bs Hok1 x) as (c2 & E2 & Hok2 & P2 & K2 & G2).
  { split.
    - intros [Hy|Hy]%elem_of_app; [|done]. apply (Hd x Hy). by left.
    - intros b l Hl Hxl. eapply (lo_disj _ _ _ Hok); [exact Hl|exact Hxl|]. apply elem_of_app. right. by left. }
  { done. } { by eapply payload_is_Some. }
  { pose proof (lo_size _ _ _ Hok1). pose proof (lo_size _ _ _ Hok). pose proof (lo_small _ _ _ Hok).
    rewrite length_app in *. cbn in *. lia. }
  assert (same_payload (nodes c) (nodes c2)) as P by (intros y; by rewrite P2, P1).
  exists c2. rewrite (bind_Ret _ _ _ _ _ E1). split; [done|]. split; [|split; congruence].
  exists (x :: q1 ++ q2), bs. split; [done|]. split.
  - eapply index_ok_same; [exact Hix|done|]. intros y. rewrite elem_of_cons, !elem_of_app, elem_of_cons. tauto.
  - rewrite (entries_split_remove _ _ _ _ _ _ _ _ Hok eq_refl Hix Hxp).
    rewrite (entries_cons _ _ _ a v) by by rewrite P. f_equal. symmetry. apply entries_ext. intros; apply P.
Qed.

(** The least recently used block is dropped. *)
Lemma cache_pop_run es0 a v : es = es0 ++ [(a, v)] ->
  exists c' n, queue_tail c <> 0 /\ nodes c !! queue_tail c = Some n /\ block_address n = a /\ nval n = v /\
    block_cache_queue_pop_tail c = Ret (tt, c') /\ cache_ok c' es0 /\
    capacity c' = capacity c /\ page_size c' = page_size c.
Proof using Hc.
  intros Ees. destruct Hc as (q & bs & Hok & Hix & Eq). rewrite Ees in Eq.
  destruct q as [|x q0 _] using rev_ind; [by destruct es0|].
  assert (x ∈ q0 ++ [x]) as Hx by (apply elem_of_app; right; by left).
  destruct (queue_node c _ bs Hok x Hx) as [Hx0 [n Hn]].
  assert (payload (nodes c) x = Some (block_address n, nval n)) as Hxp by (unfold payload; by rewrite Hn).
  rewrite entries_app, (entries_cons _ x [] _ _ Hxp) in Eq. apply app_inj_tail in Eq as [Ees0 [= -> ->]].
  assert (queue_tail c = x) as Et.
  { rewrite (dll_tail _ _ _ _ (lo_queue _ _ _ Hok)). apply last_or_snoc. }
  set (a := block_address n) in *.
  destruct (io_complete _ _ _ Hix x a _ Hx Hxp) as (Ha & l & p & Hl & Hp & Hpp).
  destruct (find_addr_spec c _ bs Hok Hix a l Hl) as [[_ Hno]|(l1 & p' & l2 & y & w & -> & E & Hpp' & Hy & Hyp)].
  { destruct (Hno (nval n)). apply elem_entries. by exists x. }
  pose proof (io_queue_inj _ _ _ Hix y x _ _ _ Hy Hx Hyp Hxp) as ->.
  assert (p' = p) as ->.
  { eapply (io_bucket_inj _ _ _ Hix _ _ p' p); [exact Hl| |exact Hp|exact Hpp'|exact Hpp].
    apply elem_of_app. right. by left. }
  rewrite <- (bucket_of_no c _ bs Hok) in Hl.
  destruct (hash_remove_run c _ bs Hok a l1 p l2 Hl E) as (c1 & E1 & Hok1 & P1 & (Q1 & Q2 & Q3 & Q4 & Q5)).
  assert (x <> p) as Hxp' by (intros ->; eapply (lo_disj _ _ _ Hok); [exact Hl| |exact Hx]; apply elem_of_app; right; by left).
  destruct (queue_node c1 _ _ Hok1 x Hx) as [_ [n1 Hn1]].
  destruct (drop_last_run c1 _ _ Hok1 q0 x n1 eq_refl Hn1) as (c2 & E2 & Hok2 & P2 & K2 & G2).
  exists c2, n. rewrite Et. split; [done|]. split; [done|]. split; [done|]. split; [done|]. split; [|split; [|split; congruence]].
  - unfold block_cache_queue_pop_tail. rewrite (bind_Ret _ _ c x c) by (unfold cgets; by rewrite Et).
    rewrite bool_decide_eq_true_2 by done. rewrite (bind_Ret _ _ c tt c) by done. unfold node_at.
    rewrite (bind_Ret _ _ c n c) by by apply load_Some. rewrite (bind_Ret _ _ _ _ _ E1).
    rewrite bool_decide_eq_true_2 by done. rewrite (bind_Ret _ _ c1 tt c1) by done.
    rewrite (bind_Ret _ _ c1 n1 c1) by by apply load_Some. exact E2.
  - exists q0, (<[bucket_of c a := l1 ++ l2]> bs). split; [done|].
    assert (forall y, y <> p -> payload (nodes c2) y = payload (nodes c) y) as P by (intros; by rewrite P2, P1).
    assert (forall y, y ∈ q0 -> y <> p) as Hqp.
    { intros z Hz ->. eapply (lo_disj _ _ _ Hok); [exact Hl|apply elem_of_app; right; by left|].
      apply elem_of_app. by left. }
    pose proof (dll_nodup _ _ _ _ (lo_queue _ _ _ Hok)) as Hnd. apply list.NoDup_app in Hnd as (_ & Hd & _).
    assert (x ∉ q0) as Hxq by (intros Hz; apply (Hd x Hz); by left).
    split; [|rewrite Ees0; symmetry; apply entries_ext; intros; by apply P, Hqp].
    rewrite (bucket_of_no c _ bs Hok) in *.
    destruct (lo_bucket _ _ _ Hok _ _ Hl) as (h & t & _ & _ & Hdl).
    pose proof (dll_split _ _ _ _ _ _ Hdl) as (_ & _ & _ & _ & _ & _ & _ & Hp1 & Hp2 & _).
    eapply (index_ok_drop (nodes c)); [exact Hix|exact Hl|exact Hpp|exact Hxp|done| | | |exact P].
    + intros Hz. by apply (Hqp p).
    + by apply not_elem_of_app.
    + intros b k Hk Hpk. eapply (lo_disj2 _ _ _ Hok _ _ _ _ p Hk Hl Hpk). apply elem_of_app. right. by left.
Qed.
End abs_ops.

Section abs_insert.
Context `{NodeAlloc} (c : block_cache) (es : list (Z * Z)) (Hc : cache_ok c es).

(** A store with one more node, linked nowhere. *)
Lemma lists_ok_fresh q bs p n : lists_ok c q bs -> nodes c !! p = None ->
  lists_ok (set_nodes (<[p := n]> (nodes c)) c) q bs /\ not_linked q bs p.
Proof.
  intros Hok Hp.
  assert (forall l h t, dll (nodes c) l h t -> p ∉ l) as Hnew.
  { intros l h t Hl Hin. destruct (seg_lookup _ _ _ _ p (dll_seg _ _ _ _ Hl) Hin) as [? ?]. congruence. }
  assert (forall l h t, dll (nodes c) l h t -> dll (<[p := n]> (nodes c)) l h t) as Hkeep.
  { intros l h t Hl. eapply dll_ext; [|exact Hl]. intros x Hx. apply lookup_insert_ne. intros <-. by eapply Hnew. }
  split; [|split].
  - split; cbn; [apply Hkeep, Hok|apply Hok| |apply Hok|apply Hok|apply Hok|apply Hok].
    intros b l Hl. destruct (lo_bucket _ _ _ Hok b l Hl) as (h & t & ? & ? & Hd).
    exists h, t. split; [done|]. split; [done|]. by apply Hkeep.
  - eapply Hnew, Hok.
  - intros b l Hl. destruct (lo_bucket _ _ _ Hok b l Hl) as (h & t & _ & _ & Hd). by eapply Hnew.
Qed.

(** A new block goes to the front of the queue and into the index. *)
Lemma cache_insert_run a page : 0 <= a -> lru_lookup a es = None -> csize c < 2 ^ 63 - 1 ->
  (forall m, na_alloc m <> 0) ->
  exists c1 c2 node, block_cache_queue_push_head a page c = Ret (node, c1) /\ node <> 0 /\
    lru_hash_insert a node c1 = Ret (0, c2) /\ cache_ok c2 ((a, page) :: es) /\
    capacity c2 = capacity c /\ page_size c2 = page_size c.
Proof using Hc.
  intros Ha Hno Hsz Hmem. destruct Hc as (q & bs & Hok & Hix & ->).
  set (x := na_alloc (nodes c)). assert (x <> 0) as Hx0 by apply Hmem.
  pose proof (na_alloc_fresh _ Hx0) as Hxf. fold x in Hxf.
  set (c0 := set_nodes (<[x := mk_node a page 0 0]> (nodes c)) c).
  destruct (lists_ok_fresh q bs x (mk_node a page 0 0) Hok Hxf) as [Hok0 Hnl]. fold c0 in Hok0.
  destruct (push_node_run c0 q bs Hok0 x Hnl Hx0) as (c1 & E1 & Hok1 & P1 & K1 & G1).
  { cbn. by rewrite lookup_insert_eq. } { done. }
  destruct (bucket_lookup c1 _ bs Hok1 a Ha) as (l & h & t & Hl & _).
  set (p := na_alloc (nodes c1)). assert (p <> 0) as Hp0 by apply Hmem.
  destruct (hash_insert_run c1 _ bs Hok1 a x l Hl Hp0) as (c2 & E2 & Hok2 & Pp & P2 & (_ & _ & _ & K2 & G2)).
  fold p in Hok2, Pp, P2. rewrite (bucket_of_no c1 _ bs Hok1) in Hl, Hok2.
  assert (nodes c1 !! p = None) as Hpf by by apply na_alloc_fresh.
  assert (forall y, is_Some (nodes c !! y) -> y <> x /\ y <> p) as Hold.
  { intros y Hy. split; [intros ->; by rewrite Hxf in Hy; destruct Hy|]. intros ->.
    assert (is_Some (nodes c1 !! p)) as [? ?]; [|congruence]. eapply payload_is_Some; [exact P1|]. cbn.
    destruct (decide (x = p)) as [<-|]; [by rewrite lookup_insert_eq|by rewrite lookup_insert_ne]. }
  assert (x <> p) as Hxp.
  { intros E. assert (is_Some (nodes c1 !! x)) as [? ?]; [|congruence]. eapply payload_is_Some; [exact P1|].
    cbn. by rewrite lookup_insert_eq. }
  assert (forall y, y <> p -> y <> x -> payload (nodes c2) y = payload (nodes c) y) as P.
  { intros y Hy Hy'. rewrite P2, P1 by done. unfold payload. cbn. by rewrite lookup_insert_ne. }
  assert (payload (nodes c2) x = Some (a, page)) as Px.
  { rewrite P2, P1 by done. unfold payload. cbn. by rewrite lookup_insert_eq. }
  exists c1, c2, x. split; [|split; [done|split; [done|split; [|split; [rewrite K2; exact K1|rewrite G2; exact G1]]]]].
  { unfold block_cache_queue_push_head. rewrite (bind_Ret _ _ c x c0).
    - rewrite bool_decide_eq_false_2 by done. rewrite (bind_Ret _ _ c0 tt c0) by done.
      by rewrite (bind_Ret _ _ _ _ _ E1).
    - unfold node_new. run_simpl. fold x. by rewrite bool_decide_eq_false_2. }
  exists (x :: q), (<[bucket_no a := l ++ [p]]> bs). split; [done|]. split.
  - eapply (index_ok_add (nodes c)); [exact Hix|exact Hl|done| |exact Pp|exact Px| | |exact P].
    + intros y w Hy E. apply (proj1 (lru_lookup_None a _) Hno w). apply elem_entries. by exists y.
    + intros y Hy. destruct (queue_node c q bs Hok y Hy) as [_ Hs]. destruct (Hold y Hs). done.
    + intros b k y Hk Hy. destruct (lo_bucket _ _ _ Hok b k Hk) as (? & ? & _ & _ & Hd).
      destruct (Hold y) as [? ?]; [eapply seg_lookup; [apply Hd|done]|done].
  - rewrite (entries_cons _ _ _ _ _ Px). f_equal. symmetry. apply entries_ext. intros y Hy.
    destruct (queue_node c q bs Hok y Hy) as [_ Hs]. destruct (Hold y Hs). by apply P.
Qed.
End abs_insert.

(** ** Marking a block dirty *)
Definition lru_update (a v : Z) (es : list (Z * Z)) : list (Z * Z) :=
  (fun e => if decide (e.1 = a) then (a, v) else e) <$> es.

Lemma seg_with_val m pv l nx x v : seg m pv l nx -> seg (alter (with_val v) x m) pv l nx.
Proof.
  revert pv. induction l as [|p l IH]; intros pv; [done|]. intros (Hp & (n & Hn & ? & ?) & Hs).
  split; [done|]. split; [|by apply IH]. destruct (decide (x = p)) as [->|].
  - exists (with_val v n). by rewrite lookup_alter_eq, Hn.
  - exists n. by rewrite lookup_alter_ne.
Qed.

Lemma dll_with_val m l h t x v : dll m l h t -> dll (alter (with_val v) x m) l h t.
Proof. intros [? ? ? ?]. split; [by apply seg_with_val|done..]. Qed.

Lemma payload_with_val m x v p : payload (alter (with_val v) x m) p =
  if decide (x = p) then (fun e => (e.1, v)) <$> payload m p else payload m p.
Proof.
  unfold payload. destruct (decide (x = p)) as [->|]; [rewrite lookup_alter_eq; by destruct (m !! p)|].
  by rewrite lookup_alter_ne.
Qed.

Lemma cache_set_val c es a v0 v x : cache_ok c es -> lru_lookup a es = Some v0 ->
  (exists p i, lru_hash_lookup a c = Ret (p, c) /\ nodes c !! p = Some i /\ nval i = x) -> 0 <= a ->
  cache_ok (set_nodes (alter (with_val v) x (nodes c)) c) (lru_update a v es).
Proof.
  intros (q & bs & Hok & Hix & ->) Hlk (p & i & Hp & Hi & Hix') Ha.
  assert (x ∈ q /\ exists w, payload (nodes c) x = Some (a, w)) as [Hx [w Hw]].
  { destruct (bucket_lookup c q bs Hok a Ha) as (l & h & t & Hl & _).
    rewrite (hash_lookup_run c q bs Hok a l Hl) in Hp. rewrite (bucket_of_no c q bs Hok) in Hl.
    destruct (find_addr_spec c q bs Hok Hix a l Hl) as [[_ Hno]|(l1 & p' & l2 & y & w & -> & E & Hpp & Hy & Hyp)].
    { apply lru_lookup_Some in Hlk. by destruct (Hno v0). }
    rewrite E in Hp. injection Hp as ->. unfold payload in Hpp. rewrite Hi in Hpp. cbn in Hpp.
    injection Hpp as _ E'. rewrite Hix' in E'. subst y. eauto. }
  exists q, bs. split; [|split].
  - split; cbn; [apply dll_with_val, Hok|apply Hok| |apply Hok|apply Hok|apply Hok|apply Hok].
    intros b l Hl. destruct (lo_bucket _ _ _ Hok b l Hl) as (h & t & ? & ? & Hd). exists h, t.
    split; [done|]. split; [done|]. by apply dll_with_val.
  - assert (forall b l y, bs !! b = Some l -> y ∈ l ->
      payload (alter (with_val v) x (nodes c)) y = payload (nodes c) y) as Pb.
    { intros b l y Hl Hy. rewrite payload_with_val, decide_False; [done|]. intros <-.
      by eapply (lo_disj _ _ _ Hok). }
    assert (forall y a' w', payload (alter (with_val v) x (nodes c)) y = Some (a', w') ->
      exists w0, payload (nodes c) y = Some (a', w0)) as Pq.
    { intros y a' w'. rewrite payload_with_val. case_decide; [|eauto].
      destruct (payload (nodes c) y) as [[? ?]|]; [|done]. cbn. intros [= <- _]. eauto. }
    cbn. split.
    + intros b l y Hl Hy. destruct (io_sound _ _ _ Hix b l y Hl Hy) as (a' & z & u & ? & Hz & Hzp & ?).
      rewrite (Pb b l y Hl Hy). exists a', z, (if decide (x = z) then v else u).
      split; [done|]. split; [done|]. split; [|done]. rewrite payload_with_val. case_decide; rewrite Hzp; done.
    + intros y a' w' Hy Hyp. destruct (Pq _ _ _ Hyp) as [w0 Hw0].
      destruct (io_complete _ _ _ Hix y a' w0 Hy Hw0) as (? & l & z & Hl & Hz & ?). split; [done|].
      exists l, z. by rewrite (Pb _ _ z Hl Hz).
    + intros y z a' u u' Hy Hz Hyp Hzp. destruct (Pq _ _ _ Hyp), (Pq _ _ _ Hzp). by eapply (io_queue_inj _ _ _ Hix).
    + intros b l y y' a' z z' Hl Hy Hy'. rewrite (Pb b l y Hl Hy), (Pb b l y' Hl Hy'). by apply (io_bucket_inj _ _ _ Hix b l).
  - cbn. unfold lru_update. assert (forall y, y ∈ q -> y ∈ q) as Hsub by done. revert Hsub.
    generalize q at 1 3 4. intros k. induction k as [|y k IH]; intros Hk; [done|].
    destruct (queue_payload c q bs Hok y (Hk y ltac:(by left))) as (b & u & Hy).
    rewrite (entries_cons _ _ _ _ _ Hy). cbn [fmap list_fmap]. rewrite IH by (intros z Hz; apply Hk; by right).
    destruct (decide (x = y)) as [<-|Hne].
    + assert (b = a) as -> by congruence. rewrite (entries_cons _ _ _ a v); [by rewrite decide_True|].
      rewrite payload_with_val, decide_True, Hy by done. done.
    + rewrite (entries_cons _ _ _ b u) by (rewrite payload_with_val, decide_False; done).
      rewrite decide_False; [done|]. cbn. intros ->. apply Hne.
      by eapply (io_queue_inj _ _ _ Hix x y a w u Hx (Hk y ltac:(by left))).
Qed.

(** ** Frames, device and what the cache shows of a block *)
Definition page_of (v : Z) : Z := Z.land v LRU_PAGE_MASK.
Definition is_dirty (v : Z) : bool := bool_decide (Z.land v LRU_PAGE_DIRTY ≠ 0).

(** A page word: an aligned frame address, perhaps with the dirty bit. *)
Definition page_word (v : Z) : Prop := 0 <= v < 2 ^ 63 /\ page_of v mod MM_PAGE_SIZE = 0.

Lemma page_of_mod v : 0 <= v < 2 ^ 64 -> page_of v = v - v mod 2.
Proof.
  intros Hv. unfold page_of. change LRU_PAGE_MASK with (Z.ldiff (Z.ones 64) (Z.ones 1)).
  assert (v = Z.land v (Z.ones 64)) as E by (rewrite Z.land_ones, Z.mod_small; lia).
  rewrite E at 2 3. change 2 with (2 ^ 1) at 1. rewrite <- land_lnot_ones by lia.
  rewrite <- Z.land_assoc. f_equal.
Qed.

Lemma page_of_clean p : 0 <= p < 2 ^ 63 -> p mod MM_PAGE_SIZE = 0 -> page_of p = p /\ is_dirty p = false /\ page_word p.
Proof.
  intros Hp Hm. assert (p mod 2 = 0) as H2.
  { apply Z.mod_divide in Hm as [k ->]; [|done]. apply Z.mod_divide; [done|]. exists (k * 0x800). unfold MM_PAGE_SIZE. lia. }
  assert (page_of p = p) as E by (rewrite page_of_mod by lia; lia).
  split; [done|]. split; [|split; [done|by rewrite E]].
  unfold is_dirty. apply bool_decide_eq_false_2. change LRU_PAGE_DIRTY with (Z.ones 1).
  rewrite Z.land_ones by lia. change (2 ^ 1) with 2. rewrite H2. intros X. by apply X.
Qed.

Lemma page_word_dirty v : page_word v ->
  page_word (Z.lor v LRU_PAGE_DIRTY) /\ page_of (Z.lor v LRU_PAGE_DIRTY) = page_of v /\
  is_dirty (Z.lor v LRU_PAGE_DIRTY) = true.
Proof.
  intros [Hv Hm]. assert (page_of (Z.lor v LRU_PAGE_DIRTY) = page_of v) as E.
  { unfold page_of. rewrite Z.land_lor_distr_l. change (Z.land LRU_PAGE_DIRTY LRU_PAGE_MASK) with 0. apply Z.lor_0_r. }
  split; [split; [|by rewrite E]|split; [done|]].
  - split; [apply Z.lor_nonneg; unfold LRU_PAGE_DIRTY; lia|].
    apply Z.log2_lt_cancel. rewrite Z.log2_lor by (unfold LRU_PAGE_DIRTY; lia).
    change (Z.log2 LRU_PAGE_DIRTY) with 0. rewrite Z.log2_pow2 by lia.
    destruct (decide (v = 0)) as [->|]; [done|]. pose proof (Z.log2_lt_pow2 v 63). pose proof (Z.log2_nonneg v). lia.
  - unfold is_dirty. apply bool_decide_eq_true_2. rewrite Z.land_lor_distr_l.
    change (Z.land LRU_PAGE_DIRTY LRU_PAGE_DIRTY) with 1. intros X%Z.lor_eq_0_iff. lia.
Qed.

Section cache_state.
Context {P D : Type} `{PageAlloc P} `{BlkDev D} `{NodeAlloc}.
Abbreviation bst := (bstate P D).

Definition cached_pages (es : list (Z * Z)) : gset Z := list_to_set (page_of <$> es.*2).

(** The frames of the cache do not depend on the order of its blocks. *)
#[global] Instance cached_pages_proper : Proper (Permutation ==> (=)) cached_pages.
Proof. intros l1 l2 Hl. unfold cached_pages. apply list_to_set_perm_L. by rewrite Hl. Qed.

(** The structures, the frames the cache owns, and enough frames for the capacity. *)
Record cache_state (s : bst) (es : list (Z * Z)) : Prop := {
  cs_cache : cache_ok (bs_cache s) es;
  cs_page_size : page_size (bs_cache s) = MM_PAGE_SIZE;
  cs_capacity : 0 < capacity (bs_cache s) < 2 ^ 62 /\ Z.of_nat (length es) <= capacity (bs_cache s);
  cs_words : Forall (fun e => page_word e.2) es;
  cs_distinct : NoDup (page_of <$> es.*2);
  cs_frames : exists n, pa_ok (bs_phys s) (cached_pages es) n /\ capacity (bs_cache s) <= n + Z.of_nat (length es);
}.

(** Every cached block holds a page of bytes; clean ones agree with the medium. *)
Definition coherent (s : bst) (es : list (Z * Z)) : Prop :=
  forall a v, (a, v) ∈ es -> 0 <= a < bd_pages (bs_dev s) /\
    exists bytes, bs_data s !! page_of v = Some bytes /\ length bytes = Z.to_nat MM_PAGE_SIZE /\
      (is_dirty v = false -> bytes = bd_page (bs_dev s) a).

(** The contents of block [a] as the rest of the kernel sees it. *)
Definition view (s : bst) (es : list (Z * Z)) (a : Z) : list Z :=
  match lru_lookup a es with
  | Some v => default [] (bs_data s !! page_of v)
  | None => bd_page (bs_dev s) a
  end.

Definition same_view (s : bst) (es : list (Z * Z)) (s' : bst) (es' : list (Z * Z)) : Prop :=
  bd_pages (bs_dev s') = bd_pages (bs_dev s) /\
  forall a, 0 <= a < bd_pages (bs_dev s) -> view s' es' a = view s es a.

Lemma on_cache_run {A} (m : cmd block_cache A) (s : bst) r c :
  m (bs_cache s) = Ret (r, c) -> on_cache m s = Ret (r, set_cache c s).
Proof. apply zoom_Ret. Qed.

Lemma set_cache_id (s : bst) : set_cache (bs_cache s) s = s.
Proof. by destruct s. Qed.

Lemma node_at_run (s : bst) p n : nodes (bs_cache s) !! p = Some n -> on_cache (node_at p) s = Ret (n, s).
Proof.
  intros Hn. rewrite (on_cache_run (node_at p) s n (bs_cache s)) by by apply load_Some. by rewrite set_cache_id.
Qed.

Lemma lru_lookup_app a es1 es2 :
  lru_lookup a (es1 ++ es2) = match lru_lookup a es1 with Some v => Some v | None => lru_lookup a es2 end.
Proof.
  unfold lru_lookup. induction es1 as [|e es1 IH]; [done|]. cbn [app list_find].
  destruct (decide (e.1 = a)); [done|].
  destruct (list_find _ (es1 ++ es2)) as [[? ?]|], (list_find _ es1) as [[? ?]|]; done.
Qed.

Lemma lru_lookup_cons a b v es :
  lru_lookup a ((b, v) :: es) = if decide (b = a) then Some v else lru_lookup a es.
Proof.
  unfold lru_lookup. cbn [list_find]. cbn. destruct (decide (b = a)); [done|].
  by destruct (list_find _ es) as [[? ?]|].
Qed.

Lemma entries_unique (c : block_cache) es a v w : cache_ok c es -> (a, v) ∈ es -> (a, w) ∈ es -> v = w.
Proof.
  intros (q & bs & _ & Hix & ->) (x & Hx & Hxp)%elem_entries (y & Hy & Hyp)%elem_entries.
  pose proof (io_queue_inj _ _ _ Hix x y a v w Hx Hy Hxp Hyp) as ->. congruence.
Qed.

Lemma lru_lookup_unique (c : block_cache) es a v : cache_ok c es -> (a, v) ∈ es -> lru_lookup a es = Some v.
Proof.
  intros Hc Hin. destruct (lru_lookup a es) as [w|] eqn:E.
  - apply lru_lookup_Some in E. f_equal. by eapply entries_unique.
  - by destruct (proj1 (lru_lookup_None a es) E v).
Qed.

(** ** Releasing a page *)
Lemma page_release_run s a v n A bytes :
  page_size (bs_cache s) = MM_PAGE_SIZE -> page_word v -> 0 <= a < bd_pages (bs_dev s) -> bd_pages (bs_dev s) <= 2 ^ 50 ->
  pa_ok (bs_phys s) A n -> page_of v ∈ A ->
  bs_data s !! page_of v = Some bytes -> length bytes = Z.to_nat MM_PAGE_SIZE ->
  (is_dirty v = false -> bytes = bd_page (bs_dev s) a) ->
  exists p d, block_cache_page_release a v s = Ret (tt, set_bphys p (set_dev d s)) /\
    pa_ok p (A ∖ {[page_of v]}) (n + 1) /\ bd_pages d = bd_pages (bs_dev s) /\
    bd_page d a = bytes /\ forall b, 0 <= b < bd_pages (bs_dev s) -> b <> a -> bd_page d b = bd_page (bs_dev s) b.
Proof.
  intros Hps Hv Ha Hbig Hpa Hin Hd Hlen Hclean. unfold block_cache_page_release.
  change (Z.land v LRU_PAGE_MASK) with (page_of v).
  destruct (pa_free_spec (bs_phys s) A n (page_of v) Hpa Hin) as (p & Ef & Hp).
  destruct (is_dirty v) eqn:Ed; unfold is_dirty in Ed; rewrite Ed.
  - destruct (bd_write_page (bs_dev s) a bytes Ha Hlen) as (d & Ew & Hpg & Hd').
    exists p, d. split; [|split; [done|split; [done|split]]].
    + rewrite (bind_Ret _ _ s tt (set_dev d s)).
      * unfold on_bphys, czoom. cbn [bs_phys set_dev]. by rewrite Ef.
      * rewrite (bind_Ret _ _ s (page_size (bs_cache s)) s) by done. rewrite Hps.
        rewrite uwrap_small by (unfold MM_PAGE_SIZE; lia).
        rewrite (bind_Ret _ _ s 0 (set_dev d s)); [by rewrite bool_decide_eq_true_2|].
        unfold blk_page_sync. rewrite (bind_Ret _ _ s bytes s) by by apply load_Some.
        rewrite (bind_Ret _ _ s (page_size (bs_cache s)) s) by done.
        rewrite (bind_Ret _ _ s MM_PAGE_SIZE (set_dev d s)) by by apply zoom_Ret. by rewrite Hps.
    + rewrite Hd' by done. by rewrite decide_True.
    + intros b Hb Hne. rewrite Hd' by done. by rewrite decide_False.
  - exists p, (bs_dev s). split; [|split; [done|split; [done|split; [by rewrite <- Hclean|done]]]].
    rewrite (bind_Ret _ _ s tt s) by done. unfold on_bphys, czoom. rewrite Ef. by destruct s.
Qed.

Lemma cached_pages_snoc es e : NoDup (page_of <$> (es ++ [e]).*2) ->
  cached_pages (es ++ [e]) ∖ {[page_of e.2]} = cached_pages es /\ page_of e.2 ∈ cached_pages (es ++ [e]).
Proof.
  unfold cached_pages. rewrite !fmap_app. cbn. intros (Hn & Hd & _)%list.NoDup_app. split; [|set_solver].
  assert (page_of e.2 ∉ page_of <$> es.*2) by (intros Hx; apply (Hd _ Hx); by left). set_solver.
Qed.

(** Evicting the least recently used block. *)
Lemma evict_run s es0 a v : cache_state s (es0 ++ [(a, v)]) -> coherent s (es0 ++ [(a, v)]) ->
  bd_pages (bs_dev s) <= 2 ^ 50 ->
  exists s' n, queue_tail (bs_cache s) <> 0 /\ nodes (bs_cache s) !! queue_tail (bs_cache s) = Some n /\
    (block_cache_page_release (block_address n) (nval n);; on_cache block_cache_queue_pop_tail) s = Ret (tt, s') /\
    cache_state s' es0 /\ coherent s' es0 /\ same_view s (es0 ++ [(a, v)]) s' es0 /\
    capacity (bs_cache s') = capacity (bs_cache s) /\
    (forall b, 0 <= b < bd_pages (bs_dev s) -> b <> a -> bd_page (bs_dev s') b = bd_page (bs_dev s) b).
Proof.
  intros [Hc Hps [Hcap Hlen] Hw Hd (n & Hpa & Hn)] Hco Hbig.
  destruct (Hco a v) as (Ha & bytes & Hb & Hbl & Hclean); [apply elem_of_app; right; by left|].
  destruct (cache_pop_run _ _ Hc es0 a v eq_refl) as (c' & nd & Ht0 & Hnd & Hna & Hnv & Epop & Hc' & K & G).
  destruct (cached_pages_snoc es0 (a, v) Hd) as [Hset Hin]. cbn [snd] in Hset, Hin.
  apply Forall_app in Hw as [Hw0 [Hwv _]%Forall_cons_1].
  destruct (page_release_run s a v n _ bytes Hps Hwv Ha Hbig Hpa Hin Hb Hbl Hclean) as (p & d & Er & Hp & Hpg & Hda & Hdo).
  rewrite length_app in *. cbn [length] in *. rewrite !fmap_app in Hd. apply list.NoDup_app in Hd as (Hd & _ & _).
  assert (forall w, (a, w) ∉ es0) as Hna0.
  { intros w Hw'. destruct Hc as (q & bs & Hok & Hix & Eq).
    assert (lru_lookup a (es0 ++ [(a, v)]) = Some w) as Hl.
    { eapply (lru_lookup_unique (bs_cache s)); [by exists q, bs|]. apply elem_of_app. by left. }
    pose proof (lists_entries_length _ _ _ Hok) as Hlq. rewrite <- Eq, length_app in Hlq. cbn in Hlq.
    destruct q as [|x q0 _] using rev_ind; [by destruct es0|].
    rewrite entries_app in Eq. destruct (queue_payload _ _ _ Hok x) as (b & u & Hx); [apply elem_of_app; right; by left|].
    rewrite (entries_cons _ x [] _ _ Hx) in Eq. apply app_inj_tail in Eq as [E0 [= <- <-]]. rewrite E0 in Hw'.
    apply elem_entries in Hw' as (y & Hy & Hyp).
    assert (y = x) as ->.
    { eapply (io_queue_inj _ _ _ Hix y x a w v); [apply elem_of_app; by left|apply elem_of_app; right; by left|done|done]. }
    pose proof (dll_nodup _ _ _ _ (lo_queue _ _ _ Hok)) as Hq. apply list.NoDup_app in Hq as (_ & Hq & _).
    apply (Hq x Hy). by left. }
  exists (set_cache c' (set_bphys p (set_dev d s))), nd. split; [done|]. split; [done|].
  split; [|split; [|split; [|split; [|split; [done|exact Hdo]]]]].
  - rewrite Hna, Hnv, (bind_Ret _ _ _ _ _ Er). by apply on_cache_run.
  - split; cbn [bs_cache bs_phys set_cache set_bphys set_dev]; [done|congruence| |done|done|].
    + rewrite K. lia.
    + exists (n + 1). rewrite <- Hset, K. split; [done|lia].
  - intros b w Hbw. cbn [bs_dev bs_data set_cache set_bphys set_dev]. rewrite Hpg.
    destruct (Hco b w) as (Hb' & by' & G1 & G2 & G3); [apply elem_of_app; by left|]. split; [done|].
    exists by'. split; [done|]. split; [done|]. intros Hcl. rewrite Hdo; [by apply G3|done|].
    intros ->. by apply (Hna0 w).
  - split; [done|]. intros b Hb'. unfold view. cbn [bs_dev bs_data set_cache set_bphys set_dev].
    rewrite lru_lookup_app. destruct (lru_lookup b es0) as [w|] eqn:El; [done|].
    rewrite lru_lookup_cons. destruct (decide (a = b)) as [<-|]; [by rewrite Hda, Hb|]. by apply Hdo.
Qed.

(** ** [block_cache_get] *)

(** What the queue is after room was made. *)
Definition lru_evict (cap : Z) (es : list (Z * Z)) : list (Z * Z) :=
  if bool_decide (cap = Z.of_nat (length es)) then take (pred (length es)) es else es.

Lemma make_room_run s es : cache_state s es -> coherent s es -> bd_pages (bs_dev s) <= 2 ^ 50 ->
  exists s', cache_make_room s = Ret (tt, s') /\ cache_state s' (lru_evict (capacity (bs_cache s)) es) /\
    coherent s' (lru_evict (capacity (bs_cache s)) es) /\
    same_view s es s' (lru_evict (capacity (bs_cache s)) es) /\
    capacity (bs_cache s') = capacity (bs_cache s) /\
    Z.of_nat (length (lru_evict (capacity (bs_cache s)) es)) < capacity (bs_cache s').
Proof.
  intros Hs Hco Hbig. pose proof (cs_capacity _ _ Hs) as [Hcap Hlen].
  destruct (cache_size _ _ (cs_cache _ _ Hs)) as [Hsz _].
  unfold cache_make_room, lru_evict. rewrite (bind_Ret _ _ s (bs_cache s) s) by done. rewrite Hsz.
  case_bool_decide as Efull.
  - destruct es as [|[a v] es0 _] using rev_ind; [cbn in *; lia|].
    assert (take (pred (length (es0 ++ [(a, v)]))) (es0 ++ [(a, v)]) = es0) as ->.
    { rewrite length_app, Nat.add_1_r. cbn [pred]. by rewrite take_app_length. }
    destruct (evict_run s es0 a v Hs Hco Hbig) as (s' & n & Ht & Hn & E & Hs' & Hco' & Hv & K & _).
    exists s'. rewrite bool_decide_eq_true_2 by done. rewrite (bind_Ret _ _ s tt s) by done.
    rewrite (bind_Ret _ _ _ _ _ (node_at_run _ _ _ Hn)), E. split; [done|]. split; [done|]. split; [done|]. split; [done|]. split; [done|].
    rewrite K, length_app in *. cbn in *. lia.
  - exists s. split; [done|]. split; [done|]. split; [done|]. split; [by split|]. split; [done|]. lia.
Qed.

Lemma view_ext s es s' es' : bs_dev s' = bs_dev s -> bs_data s' = bs_data s ->
  (forall a, lru_lookup a es' = lru_lookup a es) -> same_view s es s' es'.
Proof. intros E1 E2 E3. split; [by rewrite E1|]. intros a _. unfold view. by rewrite E1, E2, E3. Qed.

Lemma lru_touch_lookup a v es b : lru_lookup a es = Some v ->
  lru_lookup b ((a, v) :: lru_remove a es) = lru_lookup b es.
Proof.
  intros Hl. rewrite lru_lookup_cons. destruct (decide (a = b)) as [<-|Hne]; [done|]. clear Hl.
  induction es as [|[x w] es IH]; [done|]. unfold lru_remove. rewrite filter_cons. cbn [fst].
  rewrite (lru_lookup_cons b x). destruct (decide (x <> a)) as [Hx|Hx].
  - rewrite lru_lookup_cons. destruct (decide (x = b)); [done|]. exact IH.
  - rewrite decide_False by (intros ->; apply Hx; congruence). exact IH.
Qed.

(** Blocks are cached once. *)
Lemma cache_addr_nodup c es : cache_ok c es -> NoDup es.*1.
Proof.
  intros (q & bs & Hok & Hix & ->). pose proof (dll_nodup _ _ _ _ (lo_queue _ _ _ Hok)) as Hn.
  assert (forall x, x ∈ q -> x ∈ q) as Hsub by done. revert Hn Hsub. generalize q at 1 2 4. intros k.
  induction k as [|x k IH]; intros Hn Hk; [apply NoDup_nil_2|]. apply list.NoDup_cons in Hn as [Hx Hn].
  destruct (queue_payload c q bs Hok x (Hk x ltac:(by left))) as (a & v & Hp).
  rewrite (entries_cons _ _ _ _ _ Hp). cbn. apply list.NoDup_cons. split.
  - intros ([b w] & E & (y & Hy & Hyp)%elem_entries)%list_elem_of_fmap. cbn in E. subst b. apply Hx.
    assert (y = x) as ->; [|done]. eapply (io_queue_inj _ _ _ Hix y x a w v); [apply Hk; by right|apply Hk; by left|done|done].
  - apply IH; [done|]. intros y Hy. apply Hk. by right.
Qed.

(** The touched list is a reordering. *)
Lemma lru_touch_perm a v es : NoDup es.*1 -> lru_lookup a es = Some v -> (a, v) :: lru_remove a es ≡ₚ es.
Proof.
  induction es as [|[x w] es IH]; [done|]. intros [Hx Hn]%list.NoDup_cons. rewrite lru_lookup_cons.
  unfold lru_remove. rewrite filter_cons. cbn [fst]. destruct (decide (x = a)) as [->|Hne].
  - intros [= ->]. rewrite decide_False by tauto. rewrite filter_all; [done|].
    intros [b u] Hb E. cbn in E. subst b. apply Hx, list_elem_of_fmap. by exists (a, u).
  - intros Hl. rewrite decide_True by done. rewrite perm_swap. f_equiv. by apply IH.
Qed.

Lemma cache_state_perm s s' es es' : cache_state s es -> es' ≡ₚ es -> cache_ok (bs_cache s') es' ->
  capacity (bs_cache s') = capacity (bs_cache s) -> page_size (bs_cache s') = page_size (bs_cache s) ->
  bs_phys s' = bs_phys s -> cache_state s' es'.
Proof.
  intros [Hc Hps Hcap Hw Hd (n & Hpa & Hn)] Hp Hc' K G Eph. split; [done|congruence| | | |].
  - rewrite K, Hp. done.
  - by rewrite Hp.
  - by rewrite Hp.
  - exists n. rewrite K, Eph, Hp. done.
Qed.

(** A hit: the page of the block, which becomes the most recently used. *)
Lemma cache_get_hit s es a v : cache_state s es -> coherent s es -> 0 <= a < 2 ^ 50 -> lru_lookup a es = Some v ->
  exists s', block_cache_get (a * MM_PAGE_SIZE) s = Ret ((0, page_of v), s') /\
    cache_state s' ((a, v) :: lru_remove a es) /\ coherent s' ((a, v) :: lru_remove a es) /\
    same_view s es s' ((a, v) :: lru_remove a es) /\ bs_data s' = bs_data s /\ bs_dev s' = bs_dev s /\
    capacity (bs_cache s') = capacity (bs_cache s).
Proof.
  intros Hs Hco Ha Hl. pose proof (cs_cache _ _ Hs) as Hc. pose proof (lru_lookup_Some _ _ _ Hl) as Hin.
  destruct (cache_lookup_run _ _ Hc a ltac:(lia)) as [[Hno _]|(v' & p & i & x & n & Hl' & Ep & Hp0 & Hi & Hia & Hiv & Hx0 & Hn & Hna & Hnv)];
    [congruence|].
  assert (v' = v) as -> by congruence.
  destruct (cache_touch_run _ _ Hc a v x n Hin Hn Hna Hnv) as (c' & Et & Hc' & K & G); [eauto|].
  apply bind_inv in Et as ([] & c1 & Ee & Epn).
  pose proof (lru_touch_perm a v es (cache_addr_nodup _ _ Hc) Hl) as Hperm.
  exists (set_cache c' s). split; [|split; [|split; [|split]]].
  - unfold block_cache_get. rewrite (bind_Ret _ _ s (page_size (bs_cache s)) s) by done.
    rewrite (cs_page_size _ _ Hs). rewrite bool_decide_eq_true_2 by by apply Z_mod_mult.
    rewrite (bind_Ret _ _ s tt s) by done. rewrite Z.div_mul by done.
    rewrite (bind_Ret _ _ _ _ _ (on_cache_run _ _ _ _ Ep)), set_cache_id.
    rewrite bool_decide_eq_false_2 by done. rewrite (bind_Ret _ _ _ _ _ (node_at_run _ _ _ Hi)). cbv zeta.
    rewrite Hiv. rewrite bool_decide_eq_true_2 by done. rewrite (bind_Ret _ _ s tt s) by done.
    rewrite (bind_Ret _ _ _ _ _ (node_at_run _ _ _ Hn)). rewrite bool_decide_eq_true_2 by congruence.
    rewrite (bind_Ret _ _ s tt s) by done. rewrite (bind_Ret _ _ _ _ _ (on_cache_run _ _ _ _ Ee)).
    rewrite (bind_Ret _ _ _ _ _ (on_cache_run _ (set_cache c1 s) _ _ Epn)). by rewrite Hnv.
  - by eapply cache_state_perm.
  - intros b w Hb. rewrite Hperm in Hb. by apply Hco.
  - apply view_ext; [done|done|]. intros b. by apply lru_touch_lookup.
  - done.
Qed.

(** A miss: room is made, the block gets a fresh frame whose contents are to be read. *)
Lemma cache_get_miss s es a : cache_state s es -> coherent s es -> bd_pages (bs_dev s) <= 2 ^ 50 ->
  0 <= a < 2 ^ 50 -> lru_lookup a es = None -> (forall m, na_alloc m <> 0) ->
  exists s' p, let es0 := lru_evict (capacity (bs_cache s)) es in
    block_cache_get (a * MM_PAGE_SIZE) s = Ret ((-1, p), s') /\
    cache_state s' ((a, p) :: es0) /\ coherent s' es0 /\ same_view s es s' es0 /\
    lru_lookup a es0 = None /\ p ∉ page_of <$> es0.*2 /\ page_of p = p /\ is_dirty p = false /\
    capacity (bs_cache s') = capacity (bs_cache s).
Proof.
  intros Hs Hco Hbig Ha Hl Hmem. cbv zeta. set (es0 := lru_evict (capacity (bs_cache s)) es).
  destruct (make_room_run s es Hs Hco Hbig) as (s1 & E1 & Hs1 & Hco1 & Hv1 & K1 & Hroom). fold es0 in Hs1, Hco1, Hv1, Hroom.
  assert (lru_lookup a es0 = None) as Hl0.
  { apply lru_lookup_None. intros v Hv. apply (proj1 (lru_lookup_None a es) Hl v). revert Hv. subst es0.
    unfold lru_evict. case_bool_decide; [|done]. intros Hv. rewrite <- (take_drop (pred (length es)) es). apply elem_of_app. by left. }
  pose proof Hs1 as [Hc1 Hps1 [Hcap1 Hlen1] Hw1 Hd1 (n & Hpa & Hn)].
  destruct (pa_alloc_spec (bs_phys s1) _ n PU_CACHE Hpa) as (p & ph & Ea & Hp & Hpm & Hpn & Hpa'); [done|lia|].
  destruct (page_of_clean p) as (Hpp & Hpd & Hpw); [lia|done|].
  destruct (cache_size _ _ Hc1) as [Hsz1 _].
  destruct (cache_insert_run _ _ Hc1 a p ltac:(lia) Hl0 ltac:(lia) Hmem) as (c1 & c2 & node & Ep & Hnode & Ei & Hc2 & K2 & G2).
  assert (p ∉ page_of <$> es0.*2) as Hpn' by (unfold cached_pages in Hpn; set_solver).
  exists (set_cache c2 (set_bphys ph s1)), p. split; [|split; [|split; [done|split; [done|split; [done|split; [done|split; [done|split; [done|]]]]]]]].
  - unfold block_cache_get. rewrite (bind_Ret _ _ s (page_size (bs_cache s)) s) by done.
    rewrite (cs_page_size _ _ Hs). rewrite bool_decide_eq_true_2 by by apply Z_mod_mult.
    rewrite (bind_Ret _ _ s tt s) by done. rewrite Z.div_mul by done.
    destruct (cache_lookup_run _ _ (cs_cache _ _ Hs) a ltac:(lia)) as [[_ Elk]|(? & ? & ? & ? & ? & ? & _)]; [|congruence].
    rewrite (bind_Ret _ _ _ _ _ (on_cache_run _ _ _ _ Elk)), set_cache_id.
    rewrite bool_decide_eq_true_2 by done. rewrite (bind_Ret _ _ _ _ _ E1).
    rewrite (bind_Ret _ _ s1 p (set_bphys ph s1)).
    2:{ unfold block_cache_page_alloc. rewrite (bind_Ret _ _ s1 (page_size (bs_cache s1)) s1) by done.
        rewrite Hps1, bool_decide_eq_true_2 by done. rewrite (bind_Ret _ _ s1 tt s1) by done. by apply zoom_Ret. }
    rewrite bool_decide_eq_true_2 by (unfold MM_NADDR; lia). rewrite (bind_Ret _ _ _ tt (set_bphys ph s1)) by done.
    rewrite (bind_Ret _ _ _ _ _ (on_cache_run _ (set_bphys ph s1) _ _ Ep)).
    rewrite bool_decide_eq_true_2 by done. rewrite (bind_Ret _ _ _ tt (set_cache c1 (set_bphys ph s1))) by done.
    by rewrite (bind_Ret _ _ _ _ _ (on_cache_run _ (set_cache c1 (set_bphys ph s1)) _ _ Ei)).
  - split; cbn [bs_cache bs_phys set_cache set_bphys]; [done|congruence| | | |].
    + rewrite K2. cbn [length]. lia.
    + by constructor.
    + cbn. rewrite Hpp. by apply list.NoDup_cons.
    + exists (n - 1). rewrite K2. cbn [length]. split; [|lia].
      unfold cached_pages in *. cbn. rewrite Hpp. exact Hpa'.
  - cbn. congruence.
Qed.

(** ** [block_cache_flush] *)
Lemma cache_empty_tail c : cache_ok c [] -> queue_tail c = 0.
Proof.
  intros (q & bs & Hok & _ & Eq). pose proof (lists_entries_length _ _ _ Hok) as Hl. rewrite <- Eq in Hl.
  destruct q; [|done]. apply (dll_tail _ _ _ _ (lo_queue _ _ _ Hok)).
Qed.

Lemma same_view_trans s1 e1 s2 e2 s3 e3 :
  same_view s1 e1 s2 e2 -> same_view s2 e2 s3 e3 -> same_view s1 e1 s3 e3.
Proof. intros [E1 V1] [E2 V2]. split; [congruence|]. intros a Ha. rewrite V2, V1 by congruence. done. Qed.

Lemma flush_loop_run es : forall s fuel, cache_state s es -> coherent s es -> bd_pages (bs_dev s) <= 2 ^ 50 ->
  (length es < fuel)%nat ->
  exists s', flush_loop fuel s = Ret (tt, s') /\ cache_state s' [] /\ same_view s es s' [].
Proof.
  induction es as [|[a v] es IH] using rev_ind; intros s [|fuel] Hs Hco Hbig Hf; try (cbn in Hf; lia); cbn [flush_loop].
  - exists s. rewrite (bind_Ret _ _ s (queue_tail (bs_cache s)) s) by done.
    rewrite (cache_empty_tail _ (cs_cache _ _ Hs)), bool_decide_eq_true_2 by done. by split.
  - destruct (evict_run s es a v Hs Hco Hbig) as (s1 & n & Ht & Hn & E & Hs1 & Hco1 & Hv & K & _).
    rewrite length_app in Hf. cbn in Hf. pose proof (proj1 Hv) as Epg.
    destruct (IH s1 fuel Hs1 Hco1) as (s2 & E2 & Hs2 & Hv2); [by rewrite Epg|lia|].
    exists s2. split; [|split; [done|by eapply same_view_trans]].
    rewrite (bind_Ret _ _ s (queue_tail (bs_cache s)) s) by done. rewrite bool_decide_eq_false_2 by done.
    rewrite (bind_Ret _ _ _ _ _ (node_at_run _ _ _ Hn)).
    apply bind_inv in E as ([] & s0 & Er & Ep). rewrite (bind_Ret _ _ _ _ _ Er).
    by rewrite (bind_Ret _ _ _ _ _ Ep).
Qed.
End cache_state.

(** ** A new cache *)
Lemma init_cache_ok psize cap : cache_ok (block_cache_init psize cap) [].
Proof.
  exists [], (replicate BUCKETS []). split; [|split; [|done]].
  - split; cbn [block_cache_init nodes queue_head queue_tail bucket_heads bucket_tails csize].
    + split; [done|done|done|apply NoDup_nil_2].
    + by rewrite !length_replicate.
    + intros b l [-> Hb]%lookup_replicate. exists 0, 0. rewrite !lookup_replicate_2 by done.
      split; [done|]. split; [done|]. split; [done|done|done|apply NoDup_nil_2].
    + intros b l p _ _ ?%elem_of_nil. done.
    + intros b b' l l' p [-> _]%lookup_replicate _ ?%elem_of_nil. done.
    + done.
    + done.
  - split.
    + intros b l p [-> _]%lookup_replicate ?%elem_of_nil. done.
    + by intros ? ? ? ?%elem_of_nil.
    + by intros ? ? ? ? ? ?%elem_of_nil.
    + intros b l p p' a x x' [-> _]%lookup_replicate ?%elem_of_nil. done.
Qed.

(** A heap with room always finds a fresh pointer. *)
#[export] Instance roomy_heap : NodeAlloc := {
  na_alloc m := fresh ({[0]} ∪ dom m);
  na_alloc_fresh := fun m _ => not_elem_of_dom_1 m _
    (fun Hin => is_fresh ({[0]} ∪ dom m) (union_subseteq_r {[0]} (dom m) _ Hin));
}.

Lemma roomy_heap_nonzero (m : store) : na_alloc m <> 0.
Proof.
  cbn. intros E. apply (is_fresh ({[0]} ∪ dom m)). rewrite E. set_solver.
Qed.

(** Sample: a cache of two blocks over the kernel's frame allocator and a disk of four
    pages. *)
Definition sample_disk : mdisk := mk_mdisk [[1]; [2]; [3]; [4]].
Definition sample_cache : bstate phys mdisk :=
  mk_bstate (block_cache_init MM_PAGE_SIZE 2) (phys_many [300; 301; 302]) ∅ sample_disk.

Lemma sample_cache_state : cache_state sample_cache [].
Proof.
  assert (NoDup [300; 301; 302]) as Hn by (apply (bool_decide_unpack _); exact I).
  assert (Forall (fun k => LOW_PAGE <= k < PHYS_MAX_PAGES) [300; 301; 302]) as Hr
    by (apply (bool_decide_unpack _); exact I).
  split; [apply init_cache_ok|done|done|by constructor|apply NoDup_nil_2|].
  exists 3. split; [|done]. split; [reflexivity|]. exists ∅.
  split; [|intros a Ha; by apply elem_of_empty in Ha].
  exact (phys_many_ok _ Hn Hr).
Qed.

Lemma sample_coherent : coherent sample_cache [].
Proof. intros a v ?%elem_of_nil. done. Qed.

(** ** Claims *)
Section claims.
Context {P D : Type} `{PageAlloc P} `{BlkDev D} `{NodeAlloc}.

(** C25: [block_cache_get] implements an LRU cache.  On a hit it returns 0 and the page
    of the block, which becomes the most recently used one; on a miss it returns -1
    and a clean frame of its own for the block, put in front, after evicting the least
    recently used block if and only if the cache was full (writing it back when
    dirty).  In both cases the queue, the index and the frame accounting stay
    consistent and what the cache shows of every other block is unchanged. *)
Theorem block_cache_get_lru (s : bstate P D) es a :
  cache_state s es -> coherent s es -> bd_pages (bs_dev s) <= 2 ^ 50 -> 0 <= a < 2 ^ 50 ->
  (forall m, na_alloc m <> 0) ->
  exists r p s' es', block_cache_get (a * MM_PAGE_SIZE) s = Ret ((r, p), s') /\ cache_state s' es' /\
    match lru_lookup a es with
    | Some v => r = 0 /\ p = page_of v /\ es' = (a, v) :: lru_remove a es /\ coherent s' es' /\
        same_view s es s' es'
    | None => r = -1 /\ es' = (a, p) :: lru_evict (capacity (bs_cache s)) es /\
        p ∉ page_of <$> (lru_evict (capacity (bs_cache s)) es).*2 /\ is_dirty p = false /\
        coherent s' (lru_evict (capacity (bs_cache s)) es) /\
        same_view s es s' (lru_evict (capacity (bs_cache s)) es)
    end.
Proof.
  intros Hs Hco Hbig Ha Hmem. destruct (lru_lookup a es) as [v|] eqn:El.
  - destruct (cache_get_hit s es a v Hs Hco Ha El) as (s' & E & Hs' & Hco' & Hv & _).
    exists 0, (page_of v), s', ((a, v) :: lru_remove a es). by split.
  - destruct (cache_get_miss s es a Hs Hco Hbig Ha El Hmem) as (s' & p & E & Hs' & Hco' & Hv & _ & Hp & _ & Hpd & _).
    exists (-1), p, s', ((a, p) :: lru_evict (capacity (bs_cache s)) es). by split.
Qed.

(** [block_cache_flush] terminates with an empty cache, every frame given back, and
    the medium holding exactly what the cache showed of each block. *)
Theorem block_cache_flush_writes_back (s : bstate P D) es :
  cache_state s es -> coherent s es -> bd_pages (bs_dev s) <= 2 ^ 50 ->
  exists s', block_cache_flush s = Ret (tt, s') /\ cache_state s' [] /\
    forall a, 0 <= a < bd_pages (bs_dev s) -> bd_page (bs_dev s') a = view s es a.
Proof.
  intros Hs Hco Hbig. unfold block_cache_flush. rewrite (bind_Ret _ _ s s s) by done.
  destruct (flush_loop_run es s (S (size (nodes (bs_cache s)))) Hs Hco Hbig) as (s' & E & Hs' & _ & Hv).
  { destruct (cs_cache _ _ Hs) as (q & bs & Hok & _ & ->). rewrite (lists_entries_length _ _ _ Hok).
    pose proof (dll_length _ _ _ _ (lo_queue _ _ _ Hok)). lia. }
  exists s'. split; [done|]. split; [done|]. exact Hv.
Qed.
End claims.

Lemma block_cache_get_lru_witness :
  exists p s', block_cache_get (1 * MM_PAGE_SIZE) sample_cache = Ret ((-1, p), s') /\ cache_state s' [(1, p)].
Proof.
  assert (bd_pages (bs_dev sample_cache) <= 2 ^ 50) as Hb by discriminate.
  assert (0 <= 1 < 2 ^ 50) as Ha by done.
  pose proof (block_cache_get_lru sample_cache [] 1 sample_cache_state sample_coherent Hb Ha roomy_heap_nonzero)
    as (r & p & s' & es' & E & Hs & (Hr & Hes & _)).
  subst r es'. exists p, s'. split; [exact E|exact Hs].
Defined.

Lemma block_cache_flush_writes_back_witness :
  exists s', block_cache_flush sample_cache = Ret (tt, s') /\
    bd_page (bs_dev s') 2 = bd_page sample_disk 2.
Proof.
  assert (bd_pages (bs_dev sample_cache) <= 2 ^ 50) as Hb by discriminate.
  pose proof (block_cache_flush_writes_back sample_cache [] sample_cache_state sample_coherent Hb)
    as (s' & E & _ & Hv).
  exists s'. split; [exact E|]. apply (Hv 2). by split.
Defined.
