(* ===== verification/Blk.v ===== *)
(** * Block devices: [sys/block/blk.c], [sys/block/ram.c], [sys/block/pseudo.c]

    Reads and writes of a device through its block cache, of a partition of a device,
    and the RAM and pseudo devices.  Buffers are byte lists; a read returns the result
    and the bytes it put into the buffer. *)

From S2P Require Import Prelude Defs Bytes Phys Interfaces Dll Cache.

Section blk.
Context {P D : Type} `{PageAlloc P} `{BlkDev D} `{NodeAlloc}.
Abbreviation bst := (bstate P D).

(** The 4096 bytes of a frame; one never written reads as zeros. *)
Definition frame_bytes (s : bst) (page : Z) : list Z :=
  resize (Z.to_nat MM_PAGE_SIZE) 0 (default [] (bs_data s !! page)).

(** Get the page of a block, reading it from the device on a miss. *)
Definition blk_fetch (index : Z) : cmd bst Z :=
  ps ← cgets (fun s => page_size (bs_cache s));
  '(r, page) ← block_cache_get (u64 (index * ps));
  (if bool_decide (r ≠ 0) then
     '(err, bytes) ← on_dev (bd_read (u64 (index * ps)) ps);
     if err <? 0 then cpanic
     else cmodify (fun s => set_bdata (<[page := splice 0 bytes (frame_bytes s page)]> (bs_data s)) s)
   else mret tt);;
  mret page.

(** The loop of [blk_read]; [off] is never advanced. *)
Fixpoint blk_read_loop (fuel : nat) (off rem index : Z) (buf : list Z) : cmd bst (list Z) :=
  match fuel with
  | O => cdiverged
  | S fuel =>
      if bool_decide (rem = 0) then mret buf
      else
        ps ← cgets (fun s => page_size (bs_cache s));
        let blk_off := off mod ps in
        let can := Z.min (ps - blk_off) rem in
        page ← blk_fetch index;
        bytes ← cload (fun s => bs_data s !! page);
        blk_read_loop fuel off (rem - can) (u64 (index + 1)) (buf ++ slice blk_off can bytes)
  end.

Definition blk_read (cached : bool) (off lim : Z) : cmd bst (Z * list Z) :=
  if cached then
    ps ← cgets (fun s => page_size (bs_cache s));
    buf ← blk_read_loop (S (Z.to_nat lim)) off lim (off / ps) [];
    mret (lim, buf)
  else on_dev (bd_read off lim).

Fixpoint blk_write_loop (fuel : nat) (off rem index : Z) (buf : list Z) : cmd bst unit :=
  match fuel with
  | O => cdiverged
  | S fuel =>
      if bool_decide (rem = 0) then mret tt
      else
        ps ← cgets (fun s => page_size (bs_cache s));
        let blk_off := off mod ps in
        let can := Z.min (ps - blk_off) rem in
        page ← blk_fetch index;
        bytes ← cload (fun s => bs_data s !! page);
        cmodify (fun s => set_bdata (<[page := splice blk_off (take (Z.to_nat can) buf) bytes]> (bs_data s)) s);;
        on_cache (block_cache_mark_dirty (u64 (index * ps)));;
        blk_write_loop fuel off (rem - can) (u64 (index + 1)) (drop (Z.to_nat can) buf)
  end.

Definition blk_write (cached : bool) (off : Z) (buf : list Z) : cmd bst Z :=
  let lim := Z.of_nat (length buf) in
  if cached then
    ps ← cgets (fun s => page_size (bs_cache s));
    blk_write_loop (S (Z.to_nat lim)) off lim (off / ps) buf;;
    mret lim
  else on_dev (bd_write off buf).
End blk.

(** ** Partitions *)
Record blk_part := mk_part { lba_start : Z; part_size : Z }.

Section part.
Context {S : Type} (read : Z -> Z -> cmd S (Z * list Z)) (write : Z -> list Z -> cmd S Z).

Definition blk_part_read (part : blk_part) (off count : Z) : cmd S (Z * list Z) :=
  let part_size_bytes := u64 (part_size part * 512) in
  let part_off_bytes := u64 (lba_start part * 512) in
  if part_size_bytes <=? off then mret (-1, [])
  else
    let l := Z.min (part_size_bytes - off) count in
    read (u64 (off + part_off_bytes)) l.

Definition blk_part_write (part : blk_part) (off : Z) (buf : list Z) : cmd S Z :=
  let part_size_bytes := u64 (part_size part * 512) in
  let part_off_bytes := u64 (lba_start part * 512) in
  if part_size_bytes <=? off then mret (-1)
  else
    let l := Z.min (part_size_bytes - off) (Z.of_nat (length buf)) in
    write (u64 (off + part_off_bytes)) (take (Z.to_nat l) buf).
End part.

(** ** The RAM disk and the pseudo devices *)
Definition ramblk_read (ram : list Z) (off len : Z) : Z * list Z :=
  let lim := Z.of_nat (length ram) in
  if lim <? off then (-1, [])
  else let r := Z.min len (lim - off) in (r, slice off r ram).

Definition RAM_IOC_GETBASE : Z := 1.
Definition ramblk_ioctl (begin req : Z) : Z * option Z :=
  if bool_decide (req = RAM_IOC_GETBASE) then (0, Some begin) else (- EINVAL, None).

Inductive pseudo_dev := DEV_ZERO | DEV_NULL.
Definition pseudo_write (dev : pseudo_dev) (lim : Z) : Z := match dev with DEV_NULL | DEV_ZERO => lim end.
Definition pseudo_read (dev : pseudo_dev) (lim : Z) : Z * list Z :=
  match dev with
  | DEV_ZERO => (lim, replicate (Z.to_nat lim) 0)
  | DEV_NULL => (0, [])
  end.

(** ** Reads *)
Section blk_proofs.
Context {P D : Type} `{PageAlloc P} `{BlkDev D} `{NodeAlloc}.
Abbreviation bst := (bstate P D).
Context (Hmem : forall m, na_alloc m <> 0).

(** Everything a request keeps true. *)
Definition blk_ok (s : bst) (es : list (Z * Z)) : Prop :=
  cache_state s es /\ coherent s es /\ bd_pages (bs_dev s) <= 2 ^ 50.

Lemma view_length s es a : blk_ok s es -> 0 <= a < bd_pages (bs_dev s) ->
  length (view s es a) = Z.to_nat MM_PAGE_SIZE.
Proof.
  intros (Hs & Hco & _) Ha. unfold view. destruct (lru_lookup a es) as [v|] eqn:El.
  - apply lru_lookup_Some in El. destruct (Hco a v El) as (_ & bytes & -> & Hl & _). done.
  - by apply bd_page_length.
Qed.

(** Filling the frame of a missed block makes the cache coherent again. *)
Lemma fill_coherent (s : bst) es a p bytes : coherent s es -> 0 <= a < bd_pages (bs_dev s) ->
  page_of p = p -> p ∉ page_of <$> es.*2 -> bytes = bd_page (bs_dev s) a ->
  coherent (set_bdata (<[p := bytes]> (bs_data s)) s) ((a, p) :: es).
Proof.
  intros Hco Ha Hp Hn -> b v [[= -> ->]|Hin]%elem_of_cons; cbn [bs_dev bs_data set_bdata].
  - split; [done|]. exists (bd_page (bs_dev s) a). rewrite Hp, lookup_insert_eq.
    split; [done|]. split; [by apply bd_page_length|done].
  - destruct (Hco b v Hin) as (Hb & bytes & Hd & Hrest). split; [done|]. exists bytes.
    rewrite lookup_insert_ne; [done|]. intros ->. apply Hn, list_elem_of_fmap.
    exists v. split; [done|]. apply list_elem_of_fmap. by exists (b, v).
Qed.

Lemma fetch_run s es a : blk_ok s es -> 0 <= a < bd_pages (bs_dev s) ->
  exists s' es' v, blk_fetch a s = Ret (page_of v, s') /\ blk_ok s' es' /\ same_view s es s' es' /\
    lru_lookup a es' = Some v /\ bs_data s' !! page_of v = Some (view s es a).
Proof using Hmem.
  intros (Hs & Hco & Hbig) Ha. unfold blk_fetch. rewrite (bind_Ret _ _ s (page_size (bs_cache s)) s) by done.
  rewrite (cs_page_size _ _ Hs), uwrap_small by (unfold MM_PAGE_SIZE; lia).
  destruct (lru_lookup a es) as [v|] eqn:El.
  - destruct (cache_get_hit s es a v Hs Hco ltac:(lia) El) as (s' & E & Hs' & Hco' & Hv & Ed & Edev & _).
    exists s', ((a, v) :: lru_remove a es), v. rewrite (bind_Ret _ _ _ _ _ E).
    rewrite bool_decide_eq_false_2 by (intros X; by apply X). split; [done|].
    split; [by rewrite <- Edev in Hbig|]. split; [done|]. split; [by rewrite lru_lookup_cons, decide_True|].
    apply lru_lookup_Some in El as Hin. destruct (Hco a v Hin) as (_ & bytes & Hb & _).
    rewrite Ed. unfold view. by rewrite El, Hb.
  - destruct (cache_get_miss s es a Hs Hco Hbig ltac:(lia) El Hmem)
      as (s' & p & E & Hs' & Hco' & Hv & Hl0 & Hpn & Hpp & Hpd & _).
    set (es0 := lru_evict (capacity (bs_cache s)) es) in *. destruct Hv as [Epg Hv].
    set (s2 := set_bdata (<[p := bd_page (bs_dev s') a]> (bs_data s')) s').
    exists s2, ((a, p) :: es0), p. rewrite Hpp, (bind_Ret _ _ _ _ _ E).
    assert (coherent s2 ((a, p) :: es0)) as Hco2 by (apply fill_coherent; [done|by rewrite Epg|done|done|done]).
    assert (bd_page (bs_dev s') a = view s es a) as Hva by (rewrite <- Hv by done; unfold view; by rewrite Hl0).
    split; [|split; [|split; [|split]]].
    + rewrite bool_decide_eq_true_2 by done.
      rewrite (bind_Ret _ _ s' tt s2); [done|].
      rewrite (bind_Ret _ _ s' (MM_PAGE_SIZE, bd_page (bs_dev s') a) s').
      * change (MM_PAGE_SIZE <? 0) with false. subst s2. unfold cmodify. rewrite splice_all; [done|].
        unfold frame_bytes. rewrite length_resize. apply bd_page_length. by rewrite Epg.
      * unfold on_dev, czoom. rewrite bd_read_page by by rewrite Epg. by destruct s'.
    + split; [|split; [done|cbn; by rewrite Epg]].
      eapply cache_state_perm; [exact Hs'|done|apply Hs'|done|done|done].
    + split; [done|]. intros b Hb. rewrite <- Hv by done. unfold view, s2. cbn [bs_dev bs_data set_bdata].
      rewrite lru_lookup_cons. destruct (decide (a = b)) as [<-|Hne].
      * rewrite Hl0, Hpp, lookup_insert_eq. done.
      * destruct (lru_lookup b es0) as [v|] eqn:Eb; [|done]. rewrite lookup_insert_ne; [done|]. intros ->.
        apply Hpn, list_elem_of_fmap. exists v. split; [done|]. apply list_elem_of_fmap. exists (b, v).
        split; [done|]. by apply lru_lookup_Some.
    + by rewrite lru_lookup_cons, decide_True.
    + cbn. rewrite lookup_insert_eq. by rewrite Hva.
Qed.

(** What the loop of [blk_read] copies: from every page it visits, the same offset. *)
Fixpoint read_pieces (pages : Z -> list Z) (bo : Z) (fuel : nat) (rem index : Z) : list Z :=
  match fuel with
  | O => []
  | S fuel =>
      if bool_decide (rem = 0) then []
      else slice bo (Z.min (MM_PAGE_SIZE - bo) rem) (pages index) ++
        read_pieces pages bo fuel (rem - Z.min (MM_PAGE_SIZE - bo) rem) (index + 1)
  end.

Lemma read_pieces_ext f g bo fuel n : (forall a, 0 <= a < n -> f a = g a) -> forall rem index,
  0 <= index -> 0 <= rem -> 0 <= bo < MM_PAGE_SIZE ->
  (rem = 0 \/ index + (rem + MM_PAGE_SIZE - bo - 1) / (MM_PAGE_SIZE - bo) <= n) ->
  read_pieces f bo fuel rem index = read_pieces g bo fuel rem index.
Proof.
  intros Hfg. induction fuel as [|fuel IH]; intros rem index Hi Hr Hbo Hn; [done|]. cbn [read_pieces].
  case_bool_decide as E; [done|]. destruct Hn as [?|Hn]; [done|]. set (w := MM_PAGE_SIZE - bo) in *.
  assert (0 < w) by (subst w; lia).
  assert (1 <= (rem + MM_PAGE_SIZE - bo - 1) / w) as H1'.
  { apply Z.div_le_lower_bound; [done|]. subst w. lia. }
  rewrite Hfg by lia. f_equal. apply IH; [lia|lia|done|].
  destruct (decide (rem <= w)); [left; lia|right].
  rewrite Z.min_l by lia. replace (rem - w + MM_PAGE_SIZE - bo - 1) with (rem + MM_PAGE_SIZE - bo - 1 + (-1) * w) by lia.
  rewrite Z.div_add by lia. lia.
Qed.

Lemma blk_read_loop_run fuel : forall s es off rem index buf,
  blk_ok s es -> 0 <= off -> 0 <= rem < Z.of_nat fuel -> 0 <= index ->
  (rem = 0 \/ index + (rem + MM_PAGE_SIZE - off mod MM_PAGE_SIZE - 1) / (MM_PAGE_SIZE - off mod MM_PAGE_SIZE)
     <= bd_pages (bs_dev s)) ->
  exists s' es', blk_read_loop fuel off rem index buf s =
      Ret (buf ++ read_pieces (view s es) (off mod MM_PAGE_SIZE) fuel rem index, s') /\
    blk_ok s' es' /\ same_view s es s' es'.
Proof using Hmem.
  induction fuel as [|fuel IH]; intros s es off rem index buf Hok Hoff Hrem Hi Hn; [lia|].
  cbn [blk_read_loop read_pieces]. case_bool_decide as E.
  { exists s, es. rewrite app_nil_r. split; [done|]. by split. }
  destruct Hn as [?|Hn]; [done|]. pose proof (cs_page_size _ _ (proj1 Hok)) as Eps.
  rewrite (bind_Ret _ _ s (page_size (bs_cache s)) s) by done. rewrite Eps. cbv zeta.
  set (bo := off mod MM_PAGE_SIZE) in *. set (w := MM_PAGE_SIZE - bo) in *.
  assert (0 <= bo < MM_PAGE_SIZE) as Hbo by (apply Z.mod_pos_bound; done). assert (0 < w) as Hw by (subst w; lia).
  assert (1 <= (rem + MM_PAGE_SIZE - bo - 1) / w) as Hge.
  { apply Z.div_le_lower_bound; [done|]. subst w. lia. }
  destruct (fetch_run s es index Hok) as (s1 & es1 & v & Ef & Hok1 & Hv1 & Hl1 & Hd1); [lia|].
  rewrite (bind_Ret _ _ _ _ _ Ef). rewrite (bind_Ret _ _ s1 (view s es index) s1) by by apply load_Some.
  pose proof (proj2 (proj2 Hok)). destruct Hv1 as [Epg Hv1].
  rewrite uwrap_small by lia.
  assert (rem - Z.min w rem = 0 \/ index + 1 + (rem - Z.min w rem + MM_PAGE_SIZE - bo - 1) / w <= bd_pages (bs_dev s)) as Hn'.
  { destruct (decide (rem <= w)); [left; lia|right]. rewrite Z.min_l by lia.
    replace (rem - w + MM_PAGE_SIZE - bo - 1) with (rem + MM_PAGE_SIZE - bo - 1 + (-1) * w) by lia.
    rewrite Z.div_add by lia. lia. }
  destruct (IH s1 es1 off (rem - Z.min w rem) (index + 1) (buf ++ slice bo (Z.min w rem) (view s es index)) Hok1)
    as (s2 & es2 & E2 & Hok2 & Hv2); [done|lia|lia|by rewrite Epg|].
  exists s2, es2. split; [|split; [done|eapply same_view_trans; [by split|exact Hv2]]].
  rewrite E2. rewrite <- app_assoc. do 3 f_equal. f_equal.
  apply (read_pieces_ext _ _ _ _ (bd_pages (bs_dev s))); [exact Hv1|lia|lia|done|exact Hn'].
Qed.

(** ** Writes *)
Lemma lru_update_lookup a w es b v : lru_lookup a es = Some v ->
  lru_lookup b (lru_update a w es) = if decide (b = a) then Some w else lru_lookup b es.
Proof.
  assert (forall l, lru_lookup b (lru_update a w l) =
    if decide (b = a) then (fun _ => w) <$> lru_lookup a l else lru_lookup b l) as Hall.
  { intros l. induction l as [|[x u] l IH]; [by destruct (decide (b = a))|].
    unfold lru_update. cbn [fmap list_fmap fst]. fold (lru_update a w l). rewrite (lru_lookup_cons a x).
    destruct (decide (x = a)) as [->|Hxa].
    - rewrite !lru_lookup_cons. destruct (decide (a = b)) as [->|Hab]; [by rewrite decide_True|].
      rewrite IH. by rewrite !decide_False by congruence.
    - rewrite !lru_lookup_cons. destruct (decide (x = b)) as [->|Hxb]; [by rewrite decide_False|]. done. }
  intros Hl. rewrite Hall, Hl. done.
Qed.

Lemma lru_update_pages a v w es : (forall u, (a, u) ∈ es -> u = v) -> page_of w = page_of v ->
  page_of <$> (lru_update a w es).*2 = page_of <$> es.*2.
Proof.
  intros Hu Hp. induction es as [|[x u] es IH]; [done|]. unfold lru_update. cbn [fmap list_fmap fst].
  fold (lru_update a w es). rewrite IH by (intros; apply Hu; by right). f_equal.
  case_decide as E; [|done]. cbn in *. subst x. by rewrite Hp, (Hu u ltac:(by left)).
Qed.

Lemma elem_lru_update a w es b u : (b, u) ∈ lru_update a w es -> (b = a /\ u = w) \/ (b <> a /\ (b, u) ∈ es).
Proof.
  unfold lru_update. intros ([x y] & E & Hin)%list_elem_of_fmap. cbn in E. case_decide as Ex.
  - injection E as -> ->. by left.
  - injection E as -> ->. by right.
Qed.

(** The block at address [a] gets new bytes and is marked dirty. *)
Lemma dirty_run s es a v bytes : blk_ok s es -> 0 <= a < bd_pages (bs_dev s) -> lru_lookup a es = Some v ->
  length bytes = Z.to_nat MM_PAGE_SIZE ->
  let s1 := set_bdata (<[page_of v := bytes]> (bs_data s)) s in
  exists s' es', on_cache (block_cache_mark_dirty (a * MM_PAGE_SIZE)) s1 = Ret (tt, s') /\ blk_ok s' es' /\
    bd_pages (bs_dev s') = bd_pages (bs_dev s) /\
    forall b, 0 <= b < bd_pages (bs_dev s) -> view s' es' b = if decide (b = a) then bytes else view s es b.
Proof.
  intros (Hs & Hco & Hbig) Ha Hl Hlen s1. pose proof (cs_cache _ _ Hs) as Hc.
  destruct (cache_lookup_run _ _ Hc a ltac:(lia)) as [[? _]|(v' & p & i & x & n & Hl' & Ep & Hp0 & Hi & Hia & Hiv & Hx0 & Hn & Hna & Hnv)];
    [congruence|]. assert (v' = v) as -> by congruence.
  set (w := Z.lor v LRU_PAGE_DIRTY). pose proof (lru_lookup_Some _ _ _ Hl) as Hin.
  assert (page_word v) as Hwv by (pose proof (cs_words _ _ Hs) as Hw; rewrite list.Forall_forall in Hw; by apply (Hw (a, v))).
  destruct (page_word_dirty v Hwv) as (Hww & Hwp & Hwd). fold w in Hww, Hwp, Hwd.
  set (c' := set_nodes (alter (with_val w) x (nodes (bs_cache s))) (bs_cache s)).
  assert (cache_ok c' (lru_update a w es)) as Hc' by (eapply cache_set_val; [exact Hc|exact Hl|eauto|lia]).
  assert (forall u, (a, u) ∈ es -> u = v) as Huniq by (intros u Hu; exact (entries_unique _ _ _ _ _ Hc Hu Hin)).
  exists (set_cache c' s1), (lru_update a w es).
  assert (page_of <$> (lru_update a w es).*2 = page_of <$> es.*2) as Epages by by apply (lru_update_pages a v).
  split; [|split; [split; [|split]|split; [done|]]].
  - apply on_cache_run. unfold block_cache_mark_dirty. cbn [bs_cache s1 set_bdata].
    rewrite (bind_Ret _ _ (bs_cache s) (page_size (bs_cache s)) (bs_cache s)) by done.
    rewrite (cs_page_size _ _ Hs), bool_decide_eq_true_2 by by apply Z_mod_mult.
    rewrite (bind_Ret _ _ (bs_cache s) tt (bs_cache s)) by done. rewrite Z.div_mul by done. cbv zeta.
    rewrite (bind_Ret _ _ _ _ _ Ep). rewrite bool_decide_eq_true_2 by done.
    rewrite (bind_Ret _ _ (bs_cache s) tt (bs_cache s)) by done.
    rewrite (bind_Ret _ _ (bs_cache s) i (bs_cache s)) by by apply load_Some. rewrite Hiv.
    rewrite bool_decide_eq_true_2 by done. rewrite (bind_Ret _ _ (bs_cache s) tt (bs_cache s)) by done.
    rewrite (bind_Ret _ _ (bs_cache s) n (bs_cache s)) by by apply load_Some.
    rewrite node_alter_run by by eexists. by rewrite Hnv.
  - destruct Hs as [_ Hps [Hcap Hlen'] Hw Hd (k & Hpa & Hk)]. split; cbn [bs_cache bs_phys set_cache set_bdata s1].
    + done.
    + done.
    + cbn [c' capacity set_nodes]. unfold lru_update. by rewrite length_fmap.
    + apply list.Forall_forall. intros [b u] [[-> ->]|[_ Hu]]%elem_lru_update; [done|].
      rewrite list.Forall_forall in Hw. by apply (Hw (b, u)).
    + by rewrite Epages.
    + exists k. unfold cached_pages in *. rewrite Epages. cbn [c' capacity set_nodes]. unfold lru_update.
      by rewrite length_fmap.
  - intros b u [[-> ->]|[Hb Hu]]%elem_lru_update; cbn [bs_dev bs_data set_cache set_bdata s1].
    + split; [done|]. exists bytes. rewrite Hwp, lookup_insert_eq. split; [done|]. split; [done|]. by rewrite Hwd.
    + destruct (Hco b u Hu) as (? & by' & Hby & ?). split; [done|]. exists by'.
      rewrite lookup_insert_ne; [done|]. intros E. pose proof (cs_distinct _ _ Hs) as Hd.
      apply list_elem_of_lookup in Hu as [j1 Hj1]. apply list_elem_of_lookup in Hin as [j2 Hj2].
      assert (j1 = j2) as ->; [|congruence].
      eapply (NoDup_lookup _ _ _ (page_of v)); [exact Hd| |].
      * rewrite list_lookup_fmap, list_lookup_fmap, Hj1. cbn. by rewrite E.
      * by rewrite list_lookup_fmap, list_lookup_fmap, Hj2.
  - done.
  - intros b Hb. unfold view. cbn [bs_dev bs_data set_cache set_bdata s1].
    rewrite (lru_update_lookup a w es b v Hl). destruct (decide (b = a)) as [->|Hne].
    + by rewrite Hwp, lookup_insert_eq.
    + destruct (lru_lookup b es) as [u|] eqn:Eu; [|done]. rewrite lookup_insert_ne; [done|]. intros E.
      apply lru_lookup_Some in Eu. pose proof (cs_distinct _ _ Hs) as Hd.
      apply list_elem_of_lookup in Eu as [j1 Hj1]. apply list_elem_of_lookup in Hin as [j2 Hj2].
      assert (j1 = j2) as ->; [|congruence]. eapply (NoDup_lookup _ _ _ (page_of v)); [exact Hd| |].
      * rewrite list_lookup_fmap, list_lookup_fmap, Hj1. cbn. by rewrite E.
      * by rewrite list_lookup_fmap, list_lookup_fmap, Hj2.
Qed.

(** What the loop of [blk_write] does to the blocks. *)
Fixpoint write_pieces (pages : Z -> list Z) (bo : Z) (fuel : nat) (rem index : Z) (buf : list Z) : Z -> list Z :=
  match fuel with
  | O => pages
  | S fuel =>
      if bool_decide (rem = 0) then pages
      else
        let can := Z.min (MM_PAGE_SIZE - bo) rem in
        write_pieces (fun a => if decide (a = index) then splice bo (take (Z.to_nat can) buf) (pages index) else pages a)
          bo fuel (rem - can) (index + 1) (drop (Z.to_nat can) buf)
  end.

Lemma write_pieces_ext f g bo fuel n : (forall a, 0 <= a < n -> f a = g a) -> forall rem index buf,
  0 <= index -> 0 <= rem -> 0 <= bo < MM_PAGE_SIZE ->
  (rem = 0 \/ index + (rem + MM_PAGE_SIZE - bo - 1) / (MM_PAGE_SIZE - bo) <= n) ->
  forall a, 0 <= a < n -> write_pieces f bo fuel rem index buf a = write_pieces g bo fuel rem index buf a.
Proof.
  intros Hfg rem index buf Hi Hr Hbo. revert f g Hfg rem index buf Hi Hr.
  induction fuel as [|fuel IH]; intros f g Hfg rem index buf Hi Hr Hn a Ha; [by apply Hfg|]. cbn [write_pieces].
  case_bool_decide as E; [by apply Hfg|]. destruct Hn as [?|Hn]; [done|]. set (w := MM_PAGE_SIZE - bo) in *.
  assert (0 < w) by (subst w; lia).
  assert (1 <= (rem + MM_PAGE_SIZE - bo - 1) / w) as Hge by (apply Z.div_le_lower_bound; [done|subst w; lia]).
  cbv zeta. apply IH; [|lia|lia| |done].
  - intros b Hb. case_decide; [|by apply Hfg]. by rewrite Hfg by lia.
  - destruct (decide (rem <= w)); [left; lia|right].
    rewrite Z.min_l by lia. replace (rem - w + MM_PAGE_SIZE - bo - 1) with (rem + MM_PAGE_SIZE - bo - 1 + (-1) * w) by lia.
    rewrite Z.div_add by lia. lia.
Qed.

Lemma blk_write_loop_run fuel : forall s es off rem index buf,
  blk_ok s es -> 0 <= off -> 0 <= rem < Z.of_nat fuel -> 0 <= index -> Z.of_nat (length buf) = rem ->
  (rem = 0 \/ index + (rem + MM_PAGE_SIZE - off mod MM_PAGE_SIZE - 1) / (MM_PAGE_SIZE - off mod MM_PAGE_SIZE)
     <= bd_pages (bs_dev s)) ->
  exists s' es', blk_write_loop fuel off rem index buf s = Ret (tt, s') /\ blk_ok s' es' /\
    bd_pages (bs_dev s') = bd_pages (bs_dev s) /\
    forall a, 0 <= a < bd_pages (bs_dev s) ->
      view s' es' a = write_pieces (view s es) (off mod MM_PAGE_SIZE) fuel rem index buf a.
Proof using Hmem.
  induction fuel as [|fuel IH]; intros s es off rem index buf Hok Hoff Hrem Hi Hbuf Hn; [lia|].
  cbn [blk_write_loop write_pieces]. case_bool_decide as E; [by exists s, es|].
  destruct Hn as [?|Hn]; [done|]. pose proof (cs_page_size _ _ (proj1 Hok)) as Eps.
  rewrite (bind_Ret _ _ s (page_size (bs_cache s)) s) by done. rewrite Eps. cbv zeta.
  set (bo := off mod MM_PAGE_SIZE) in *. set (w := MM_PAGE_SIZE - bo) in *.
  assert (0 <= bo < MM_PAGE_SIZE) as Hbo by (apply Z.mod_pos_bound; done). assert (0 < w) as Hw by (subst w; lia).
  assert (1 <= (rem + MM_PAGE_SIZE - bo - 1) / w) as Hge by (apply Z.div_le_lower_bound; [done|subst w; lia]).
  destruct (fetch_run s es index Hok) as (s1 & es1 & v & Ef & Hok1 & Hv1 & Hl1 & Hd1); [lia|].
  rewrite (bind_Ret _ _ _ _ _ Ef). rewrite (bind_Ret _ _ s1 (view s es index) s1) by by apply load_Some.
  pose proof (proj2 (proj2 Hok)) as Hbig. destruct Hv1 as [Epg Hv1].
  set (nb := splice bo (take (Z.to_nat (Z.min w rem)) buf) (view s es index)).
  assert (length nb = Z.to_nat MM_PAGE_SIZE) as Hnb.
  { unfold nb. rewrite length_splice; [apply view_length; [done|lia]|lia|]. rewrite length_take, view_length; [|done|lia].
    unfold MM_PAGE_SIZE in *. lia. }
  destruct (dirty_run s1 es1 index v nb Hok1) as (s2 & es2 & Ed & Hok2 & Epg2 & Hv2); [rewrite Epg; lia|done|done|].
  rewrite (bind_Ret _ _ s1 tt (set_bdata (<[page_of v := nb]> (bs_data s1)) s1)) by done.
  rewrite (uwrap_small 64 (index * MM_PAGE_SIZE)) by (unfold MM_PAGE_SIZE; lia).
  rewrite (bind_Ret _ _ _ _ _ Ed). rewrite uwrap_small by lia.
  assert (rem - Z.min w rem = 0 \/ index + 1 + (rem - Z.min w rem + MM_PAGE_SIZE - bo - 1) / w <= bd_pages (bs_dev s)) as Hn'.
  { destruct (decide (rem <= w)); [left; lia|right]. rewrite Z.min_l by lia.
    replace (rem - w + MM_PAGE_SIZE - bo - 1) with (rem + MM_PAGE_SIZE - bo - 1 + (-1) * w) by lia.
    rewrite Z.div_add by lia. lia. }
  destruct (IH s2 es2 off (rem - Z.min w rem) (index + 1) (drop (Z.to_nat (Z.min w rem)) buf) Hok2)
    as (s3 & es3 & E3 & Hok3 & Epg3 & Hv3); [done|lia|lia|rewrite length_drop; lia|by rewrite Epg2, Epg|].
  exists s3, es3. split; [done|]. split; [done|]. split; [congruence|]. intros a Ha.
  rewrite Hv3 by (rewrite Epg2, Epg; done). fold bo.
  apply (write_pieces_ext _ _ _ _ (bd_pages (bs_dev s))); [|lia|lia|done|exact Hn'|done].
  intros b Hb. rewrite Hv2 by (rewrite Epg; done). case_decide; [done|]. by apply Hv1.
Qed.
End blk_proofs.

(** ** Bytes of the medium *)
Definition byte_at (f : Z -> list Z) (k : Z) : option Z := f (k / MM_PAGE_SIZE) !! Z.to_nat (k mod MM_PAGE_SIZE).

Lemma byte_at_page f index j : 0 <= j < MM_PAGE_SIZE ->
  byte_at f (index * MM_PAGE_SIZE + j) = f index !! Z.to_nat j.
Proof.
  intros Hj. unfold byte_at. rewrite Z.div_add_l, Z.div_small, Z.add_0_r by (done || lia).
  rewrite Z.add_comm, Z_mod_plus_full, Z.mod_small by lia. done.
Qed.

(** A request that starts on a page boundary or stays inside one page. *)
Definition good_request (bo rem : Z) : Prop := bo = 0 \/ bo + rem <= MM_PAGE_SIZE.

Lemma read_pieces_bytes f bo fuel : 0 <= bo < MM_PAGE_SIZE ->
  (forall a, length (f a) = Z.to_nat MM_PAGE_SIZE) -> forall rem index,
  0 <= rem < Z.of_nat fuel -> good_request bo rem ->
  length (read_pieces f bo fuel rem index) = Z.to_nat rem /\
  forall k : nat, Z.of_nat k < rem ->
    read_pieces f bo fuel rem index !! k = byte_at f (index * MM_PAGE_SIZE + bo + Z.of_nat k).
Proof.
  intros Hbo Hf. induction fuel as [|fuel IH]; intros rem index Hr Hg; [lia|]. cbn [read_pieces].
  case_bool_decide as E; [subst rem; split; [done|lia]|]. set (can := Z.min (MM_PAGE_SIZE - bo) rem).
  assert (0 < can) as Hcan by (unfold can; lia).
  assert (length (slice bo can (f index)) = Z.to_nat can) as Hls.
  { rewrite length_slice; [done|lia|lia|]. rewrite Hf. unfold can. lia. }
  assert (good_request bo (rem - can)) as Hg' by (destruct Hg; [by left|right; lia]).
  destruct (IH (rem - can) (index + 1)) as [Hlen Hget]; [lia|done|].
  split; [rewrite length_app, Hls, Hlen; lia|]. intros k Hk. destruct (decide (Z.of_nat k < can)) as [Hkc|Hkc].
  - rewrite lookup_app_l by lia. rewrite lookup_slice by lia.
    rewrite <- Z.add_assoc, byte_at_page by lia. f_equal. lia.
  - rewrite lookup_app_r by lia. rewrite Hls, Hget by lia. destruct Hg as [->|?]; [|lia].
    f_equal. unfold can in *. lia.
Qed.

Lemma write_pieces_bytes bo fuel : 0 <= bo < MM_PAGE_SIZE -> forall f rem index buf,
  (forall a, length (f a) = Z.to_nat MM_PAGE_SIZE) ->
  0 <= rem < Z.of_nat fuel -> good_request bo rem -> Z.of_nat (length buf) = rem -> forall k, 0 <= k ->
  byte_at (write_pieces f bo fuel rem index buf) k =
    if decide (index * MM_PAGE_SIZE + bo <= k < index * MM_PAGE_SIZE + bo + rem)
    then buf !! Z.to_nat (k - (index * MM_PAGE_SIZE + bo)) else byte_at f k.
Proof.
  intros Hbo. induction fuel as [|fuel IH]; intros f rem index buf Hf Hr Hg Hb k Hk; [lia|]. cbn [write_pieces].
  case_bool_decide as E; [subst rem; rewrite decide_False by lia; done|]. cbv zeta.
  set (can := Z.min (MM_PAGE_SIZE - bo) rem). assert (0 < can <= rem) as Hcan by (unfold can; lia).
  assert (length (take (Z.to_nat can) buf) = Z.to_nat can) as Hlt by (rewrite length_take; lia).
  rewrite IH; [|intros a; case_decide; [|done]|lia|destruct Hg; [by left|right; lia]|rewrite length_drop; lia|done].
  2:{ rewrite length_splice, Hf; [done|lia|]. rewrite Hlt, Hf. unfold can. lia. }
  assert (k = k / MM_PAGE_SIZE * MM_PAGE_SIZE + k mod MM_PAGE_SIZE) as Ek by (pose proof (Z.div_mod k MM_PAGE_SIZE ltac:(done)); lia).
  pose proof (Z.mod_pos_bound k MM_PAGE_SIZE ltac:(done)) as Hmod.
  case_decide as H1.
  { assert (bo = 0) as -> by (destruct Hg; [done|unfold can in *; lia]). rewrite decide_True by (unfold can in *; lia).
    rewrite lookup_drop. f_equal. unfold can in *. lia. }
  rewrite Ek, byte_at_page by done. case_decide as H2.
  - assert (0 <= k - index * MM_PAGE_SIZE < MM_PAGE_SIZE \/ index * MM_PAGE_SIZE + bo + rem <= k) as Hin.
    { rewrite H2 in Ek. lia. }
    rewrite lookup_splice by (rewrite ?Hlt, ?Hf; unfold can; lia). rewrite Hlt.
    case_decide as H3; case_decide as H4; try (exfalso; rewrite H2 in *; unfold can in *; lia).
    + rewrite lookup_take_lt by lia. f_equal. rewrite H2 in *. lia.
    + rewrite <- (byte_at_page f) by done. f_equal. lia.
  - rewrite decide_False; [by rewrite byte_at_page|]. rewrite <- Ek. intros Hx. apply H2.
    destruct Hg as [->|Hg]; symmetry; apply (Z.div_unique _ _ _ (k - index * MM_PAGE_SIZE)); unfold can in *; lia.
Qed.

(** ** Claims *)
Section blk_claims.
Context {P D : Type} `{PageAlloc P} `{BlkDev D} `{NodeAlloc}.

(** The pages a request touches lie on the device. *)
Definition request_fits (s : bstate P D) (off lim : Z) : Prop :=
  lim = 0 \/ off / MM_PAGE_SIZE + (lim + MM_PAGE_SIZE - off mod MM_PAGE_SIZE - 1) / (MM_PAGE_SIZE - off mod MM_PAGE_SIZE)
    <= bd_pages (bs_dev s).

(** A cached read that starts on a page boundary, or stays inside one page,
    returns exactly the requested number of bytes, each the byte the cache shows at
    its position of the medium; it changes nothing of that view. *)
Theorem blk_read_through_cache (s : bstate P D) es off lim :
  (forall m, na_alloc m <> 0) -> blk_ok s es -> 0 <= off -> 0 <= lim -> request_fits s off lim ->
  good_request (off mod MM_PAGE_SIZE) lim -> (forall a, length (view s es a) = Z.to_nat MM_PAGE_SIZE) ->
  exists s' es' buf, blk_read true off lim s = Ret ((lim, buf), s') /\ blk_ok s' es' /\ same_view s es s' es' /\
    length buf = Z.to_nat lim /\
    forall k : nat, Z.of_nat k < lim -> buf !! k = byte_at (view s es) (off + Z.of_nat k).
Proof.
  intros Hmem Hok Hoff Hlim Hfit Hgood Hlen. pose proof (cs_page_size _ _ (proj1 Hok)) as Eps.
  assert (0 <= off / MM_PAGE_SIZE) by (apply Z.div_pos; [done|done]).
  destruct (blk_read_loop_run Hmem (S (Z.to_nat lim)) s es off lim (off / MM_PAGE_SIZE) [] Hok Hoff)
    as (s' & es' & E & Hok' & Hv); [lia|done|exact Hfit|].
  exists s', es', (read_pieces (view s es) (off mod MM_PAGE_SIZE) (S (Z.to_nat lim)) lim (off / MM_PAGE_SIZE)).
  destruct (read_pieces_bytes (view s es) (off mod MM_PAGE_SIZE) (S (Z.to_nat lim))) with (rem := lim) (index := off / MM_PAGE_SIZE)
    as [Hl Hb]; [by apply Z.mod_pos_bound|done|lia|done|].
  split; [|split; [done|split; [done|split; [done|]]]].
  - unfold blk_read. rewrite (bind_Ret _ _ s (page_size (bs_cache s)) s) by done. rewrite Eps.
    by rewrite (bind_Ret _ _ _ _ _ E).
  - intros k Hk. rewrite Hb by done. f_equal. pose proof (Z.div_mod off MM_PAGE_SIZE ltac:(done)). lia.
Qed.

(** A cached write that starts on a page boundary, or stays inside one page,
    replaces exactly the written range of what the cache shows of the medium. *)
Theorem blk_write_through_cache (s : bstate P D) es off buf :
  (forall m, na_alloc m <> 0) -> blk_ok s es -> 0 <= off ->
  request_fits s off (Z.of_nat (length buf)) -> good_request (off mod MM_PAGE_SIZE) (Z.of_nat (length buf)) ->
  (forall a, length (view s es a) = Z.to_nat MM_PAGE_SIZE) ->
  exists s' es', blk_write true off buf s = Ret (Z.of_nat (length buf), s') /\ blk_ok s' es' /\
    forall k, 0 <= k < bd_pages (bs_dev s) * MM_PAGE_SIZE ->
      byte_at (view s' es') k =
        if decide (off <= k < off + Z.of_nat (length buf)) then buf !! Z.to_nat (k - off)
        else byte_at (view s es) k.
Proof.
  intros Hmem Hok Hoff Hfit Hgood Hlen. pose proof (cs_page_size _ _ (proj1 Hok)) as Eps.
  assert (0 <= off / MM_PAGE_SIZE) by (apply Z.div_pos; [done|done]). set (lim := Z.of_nat (length buf)) in *.
  destruct (blk_write_loop_run Hmem (S (Z.to_nat lim)) s es off lim (off / MM_PAGE_SIZE) buf Hok Hoff)
    as (s' & es' & E & Hok' & Epg & Hv); [lia|done|done|exact Hfit|].
  exists s', es'. split; [|split; [done|]].
  - unfold blk_write. fold lim. rewrite (bind_Ret _ _ s (page_size (bs_cache s)) s) by done. rewrite Eps.
    by rewrite (bind_Ret _ _ _ _ _ E).
  - intros k Hk. pose proof (Z.div_mod off MM_PAGE_SIZE ltac:(done)) as Eo.
    unfold byte_at at 1. rewrite Hv.
    2:{ split; [apply Z.div_pos; lia || done|]. apply Z.div_lt_upper_bound; [done|]. lia. }
    fold (byte_at (write_pieces (view s es) (off mod MM_PAGE_SIZE) (S (Z.to_nat lim)) lim (off / MM_PAGE_SIZE) buf) k).
    rewrite write_pieces_bytes; [|by apply Z.mod_pos_bound|done|lia|done|done|lia].
    replace (off / MM_PAGE_SIZE * MM_PAGE_SIZE + off mod MM_PAGE_SIZE) with off by lia. done.
Qed.

(** A cached read that starts inside a page and runs into the next one is wrong:
    the loop recomputes the offset inside the page from the unadvanced [off], so the
    first byte it takes from the next page is not that page's first byte but the one
    at the starting offset. *)
Theorem blk_read_unaligned_skips (s : bstate P D) es off lim :
  (forall m, na_alloc m <> 0) -> blk_ok s es -> 0 <= off -> request_fits s off lim ->
  0 < off mod MM_PAGE_SIZE -> MM_PAGE_SIZE < off mod MM_PAGE_SIZE + lim ->
  exists s' buf, blk_read true off lim s = Ret ((lim, buf), s') /\
    buf !! Z.to_nat (MM_PAGE_SIZE - off mod MM_PAGE_SIZE) =
      view s es (off / MM_PAGE_SIZE + 1) !! Z.to_nat (off mod MM_PAGE_SIZE).
Proof.
  intros Hmem Hok Hoff Hfit Hbo Hlim. pose proof (cs_page_size _ _ (proj1 Hok)) as Eps.
  assert (0 <= off / MM_PAGE_SIZE) by (apply Z.div_pos; [done|done]).
  pose proof (Z.mod_pos_bound off MM_PAGE_SIZE ltac:(done)) as Hmod.
  destruct (blk_read_loop_run Hmem (S (Z.to_nat lim)) s es off lim (off / MM_PAGE_SIZE) [] Hok Hoff)
    as (s' & es' & E & _); [lia|done|exact Hfit|].
  set (bo := off mod MM_PAGE_SIZE) in *. set (w := MM_PAGE_SIZE - bo) in *.
  assert (2 <= (lim + MM_PAGE_SIZE - bo - 1) / w) as Hge by (apply Z.div_le_lower_bound; lia).
  destruct Hfit as [?|Hfit]; [lia|]. fold bo in Hfit. fold w in Hfit.
  pose proof (view_length s es (off / MM_PAGE_SIZE) Hok ltac:(lia)) as Hl0.
  pose proof (view_length s es (off / MM_PAGE_SIZE + 1) Hok ltac:(lia)) as Hl1.
  eexists s', _. split.
  { unfold blk_read. rewrite (bind_Ret _ _ s (page_size (bs_cache s)) s) by done. rewrite Eps.
    by rewrite (bind_Ret _ _ _ _ _ E). }
  cbn [app read_pieces]. fold w.
  rewrite bool_decide_eq_false_2 by lia. rewrite Z.min_l by lia.
  rewrite lookup_app_r by (rewrite length_slice; lia). rewrite length_slice, Nat.sub_diag by lia.
  destruct (Z.to_nat lim) as [|fuel] eqn:Ef; [lia|]. cbn [read_pieces]. rewrite bool_decide_eq_false_2 by lia.
  fold w. rewrite lookup_app_l by (rewrite length_slice; lia). rewrite lookup_slice by lia. f_equal. lia.
Qed.
End blk_claims.

(** ** Witnesses *)
Lemma sample_blk_ok : blk_ok sample_cache [].
Proof. split; [exact sample_cache_state|]. split; [exact sample_coherent|]. discriminate. Qed.

Lemma sample_view_length a : length (view sample_cache [] a) = Z.to_nat MM_PAGE_SIZE.
Proof. apply md_page_length. Qed.

Lemma sample_byte : byte_at (view sample_cache []) 4096 = Some 2.
Proof. reflexivity. Qed.

Lemma blk_read_through_cache_witness :
  exists s' buf, blk_read true 4096 2 sample_cache = Ret ((2, buf), s') /\ length buf = 2%nat /\
    buf !! 0%nat = Some 2.
Proof.
  assert (request_fits sample_cache 4096 2) as Hf by (right; discriminate).
  assert (good_request (4096 mod MM_PAGE_SIZE) 2) as Hg by (by left).
  assert (0 <= 4096) as Ho by done. assert (0 <= 2) as Hl by done.
  pose proof (blk_read_through_cache sample_cache [] 4096 2 roomy_heap_nonzero sample_blk_ok Ho Hl Hf Hg
    sample_view_length) as (s' & es' & buf & E & _ & _ & Hlen & Hb).
  exists s', buf. split; [exact E|]. split; [exact Hlen|]. exact (Hb 0%nat eq_refl).
Defined.

Lemma blk_write_through_cache_witness :
  exists s' es', blk_write true 4098 [7] sample_cache = Ret (1, s') /\
    byte_at (view s' es') 4098 = Some 7 /\ byte_at (view s' es') 4096 = Some 2.
Proof.
  assert (request_fits sample_cache 4098 1) as Hf by (right; discriminate).
  assert (good_request (4098 mod MM_PAGE_SIZE) 1) as Hg by (right; discriminate).
  assert (0 <= 4098) as Ho by done.
  pose proof (blk_write_through_cache sample_cache [] 4098 [7] roomy_heap_nonzero sample_blk_ok Ho Hf Hg
    sample_view_length) as (s' & es' & E & _ & Hb).
  exists s', es'. split; [exact E|].
  assert (bd_pages (bs_dev sample_cache) = 4) as Epg by reflexivity. rewrite Epg in Hb.
  change (Z.of_nat (length [7])) with 1 in Hb. unfold MM_PAGE_SIZE in Hb at 1.
  split; (rewrite Hb; [|lia]); [rewrite decide_True by lia; reflexivity|].
  rewrite decide_False by lia. exact sample_byte.
Defined.

Lemma blk_read_unaligned_skips_witness :
  exists s' buf, blk_read true 1 4096 sample_cache = Ret ((4096, buf), s') /\ buf !! 4095%nat = Some 0.
Proof.
  assert (request_fits sample_cache 1 4096) as Hf by (right; discriminate).
  assert (0 <= 1) as Ho by done. assert (0 < 1 mod MM_PAGE_SIZE) as Hb by done.
  assert (MM_PAGE_SIZE < 1 mod MM_PAGE_SIZE + 4096) as Hl by done.
  pose proof (blk_read_unaligned_skips sample_cache [] 1 4096 roomy_heap_nonzero sample_blk_ok Ho Hf Hb Hl)
    as (s' & buf & E & Hx).
  exists s', buf. split; [exact E|exact Hx].
Defined.
