(* ===== verification/Vnode.v ===== *)
(** * Vnodes and access rights: [fs/node.c], [fs/vfs_access.c], [include/fs/*.h]

    The state of the virtual file system: vnodes, open files, file system instances
    and block device flags, each in a store indexed by address (0 is NULL, and an
    access to an address that holds nothing faults).  A name is a string; the code
    keeps names in arrays of [NODE_MAXLEN] bytes, so a copy of a longer one faults.
    Function pointers are addresses too: the class [FsOps] (file [Vfs]) says what code
    lies there. *)

From S2P Require Import Prelude Defs.

(** ** Data *)
Definition NODE_MAXLEN : nat := 64.
Definition PATH_MAX : nat := 256.
Definition LINK_MAX : Z := 16.
Definition VFS_MODE_MASK : Z := 0xFFF.
Definition VN_MEMORY : Z := 1.
Definition VN_PER_PROCESS : Z := 2.

Inductive vnode_type := VN_REG | VN_DIR | VN_BLK | VN_CHR | VN_LNK | VN_FIFO | VN_SOCK | VN_UNK | VN_MNT.
#[export] Instance vnode_type_eq_dec : EqDecision vnode_type.
Proof. solve_decision. Defined.

Record vnode := mk_vnode {
  v_type : vnode_type;
  v_name : string;
  v_flags : Z;
  first_child : Z;
  next_child : Z;
  v_parent : Z;
  v_target : Z;         (* [target], or [target_func] with [VN_PER_PROCESS] *)
  open_count : Z;
  v_ino : Z;
  v_gid : Z;
  v_uid : Z;
  v_mode : Z;
  v_fs : Z;
  v_fs_data : Z;
  v_dev : Z;
  v_op : Z;
}.

Record ofile := mk_ofile { of_flags : Z; of_refcount : Z; of_vnode : Z; of_pos : Z; of_priv : Z }.
Record fs := mk_fs { fs_blk : Z; fs_flags : Z; fs_private : Z; fs_cls : Z }.
Record vfs_ioctx := mk_ioctx { cwd_vnode : Z; ctx_umask : Z; ctx_uid : Z; ctx_gid : Z }.

Record vfs := mk_vfs {
  vnodes : gmap Z vnode;
  vfs_root : Z;
  ofiles : gmap Z ofile;
  fss : gmap Z fs;
  fs_mount_list : list Z;
  fs_class_list : list Z;
  blk_flags : gmap Z Z;      (* [flags] of the block devices *)
}.

Definition set_vnodes m (s : vfs) :=
  mk_vfs m (vfs_root s) (ofiles s) (fss s) (fs_mount_list s) (fs_class_list s) (blk_flags s).
Definition set_root r (s : vfs) :=
  mk_vfs (vnodes s) r (ofiles s) (fss s) (fs_mount_list s) (fs_class_list s) (blk_flags s).
Definition set_ofiles m (s : vfs) :=
  mk_vfs (vnodes s) (vfs_root s) m (fss s) (fs_mount_list s) (fs_class_list s) (blk_flags s).
Definition set_fss m l (s : vfs) :=
  mk_vfs (vnodes s) (vfs_root s) (ofiles s) m l (fs_class_list s) (blk_flags s).
Definition set_classes l (s : vfs) :=
  mk_vfs (vnodes s) (vfs_root s) (ofiles s) (fss s) (fs_mount_list s) l (blk_flags s).
Definition set_blk_flags m (s : vfs) :=
  mk_vfs (vnodes s) (vfs_root s) (ofiles s) (fss s) (fs_mount_list s) (fs_class_list s) m.

(** Field updates of a vnode. *)
Definition with_type t (v : vnode) :=
  mk_vnode t (v_name v) (v_flags v) (first_child v) (next_child v) (v_parent v) (v_target v) (open_count v)
    (v_ino v) (v_gid v) (v_uid v) (v_mode v) (v_fs v) (v_fs_data v) (v_dev v) (v_op v).
Definition with_first p (v : vnode) :=
  mk_vnode (v_type v) (v_name v) (v_flags v) p (next_child v) (v_parent v) (v_target v) (open_count v)
    (v_ino v) (v_gid v) (v_uid v) (v_mode v) (v_fs v) (v_fs_data v) (v_dev v) (v_op v).
Definition with_sibling p (v : vnode) :=
  mk_vnode (v_type v) (v_name v) (v_flags v) (first_child v) p (v_parent v) (v_target v) (open_count v)
    (v_ino v) (v_gid v) (v_uid v) (v_mode v) (v_fs v) (v_fs_data v) (v_dev v) (v_op v).
Definition with_parent p (v : vnode) :=
  mk_vnode (v_type v) (v_name v) (v_flags v) (first_child v) (next_child v) p (v_target v) (open_count v)
    (v_ino v) (v_gid v) (v_uid v) (v_mode v) (v_fs v) (v_fs_data v) (v_dev v) (v_op v).
Definition with_target p (v : vnode) :=
  mk_vnode (v_type v) (v_name v) (v_flags v) (first_child v) (next_child v) (v_parent v) p (open_count v)
    (v_ino v) (v_gid v) (v_uid v) (v_mode v) (v_fs v) (v_fs_data v) (v_dev v) (v_op v).
Definition with_open n (v : vnode) :=
  mk_vnode (v_type v) (v_name v) (v_flags v) (first_child v) (next_child v) (v_parent v) (v_target v) n
    (v_ino v) (v_gid v) (v_uid v) (v_mode v) (v_fs v) (v_fs_data v) (v_dev v) (v_op v).
Definition with_owner u g (v : vnode) :=
  mk_vnode (v_type v) (v_name v) (v_flags v) (first_child v) (next_child v) (v_parent v) (v_target v) (open_count v)
    (v_ino v) g u (v_mode v) (v_fs v) (v_fs_data v) (v_dev v) (v_op v).
Definition with_mode m (v : vnode) :=
  mk_vnode (v_type v) (v_name v) (v_flags v) (first_child v) (next_child v) (v_parent v) (v_target v) (open_count v)
    (v_ino v) (v_gid v) (v_uid v) m (v_fs v) (v_fs_data v) (v_dev v) (v_op v).

(** [x & mask] used as a condition. *)
Definition flagged (x mask : Z) : bool := negb (Z.land x mask =? 0).
Definition nonnull (p : Z) : bool := bool_decide (p ≠ 0).
Definition is_type (t : vnode_type) (v : vnode) : bool := bool_decide (v_type v = t).

(** Memory accesses. *)
Definition vn (p : Z) : cmd vfs vnode := cload (fun s => vnodes s !! p).
Definition vn_update (p : Z) (f : vnode -> vnode) : cmd vfs unit :=
  v ← vn p; cmodify (fun s => set_vnodes (<[p := f v]> (vnodes s)) s).
Definition vn_free (p : Z) : cmd vfs unit :=
  vn p;; cmodify (fun s => set_vnodes (delete p (vnodes s)) s).
Definition oget (p : Z) : cmd vfs ofile := cload (fun s => ofiles s !! p).
Definition oupdate (p : Z) (f : ofile -> ofile) : cmd vfs unit :=
  o ← oget p; cmodify (fun s => set_ofiles (<[p := f o]> (ofiles s)) s).

(** ** [fs/node.c]

    [slab_calloc] gives an address where nothing is stored, or 0. *)
Class Slab := { slab_calloc : gset Z -> Z }.

Definition vnode_zero : vnode := mk_vnode VN_REG "" 0 0 0 0 0 0 0 0 0 0 0 0 0 0.

Definition vnode_create `{Slab} (t : vnode_type) (name : option string) : cmd vfs Z :=
  s ← cget;
  let p := slab_calloc (dom (vnodes s)) in
  cassert (nonnull p);;
  cassert (match name with Some n => (String.length n <? NODE_MAXLEN)%nat | None => true end);;
  cmodify (fun s => set_vnodes (<[p := mk_vnode t (default "" name) 0 0 0 0 0 0 0 0 0 0 0 0 0 0]> (vnodes s)) s);;
  mret p.

Definition vnode_destroy (p : Z) : cmd vfs unit :=
  v ← vn p;
  cassert (open_count v =? 0);;
  vn_free p.

Definition vnode_attach (parent child : Z) : cmd vfs unit :=
  cassert (nonnull parent);;
  cassert (nonnull child);;
  c ← vn child;
  cassert (negb (nonnull (v_parent c)));;
  vn_update child (with_parent parent);;
  p ← vn parent;
  vn_update child (with_sibling (first_child p));;
  vn_update parent (with_first child).

(** The search of [vnode_detach] for the node that precedes [node]. *)
Fixpoint detach_scan (fuel : nat) (ch node : Z) : cmd vfs unit :=
  match fuel with
  | O => cdiverged
  | S fuel =>
      if nonnull ch then
        c ← vn ch;
        if bool_decide (next_child c = node) then
          n ← vn node;
          vn_update ch (with_sibling (next_child n));;
          vn_update node (with_sibling 0)
        else detach_scan fuel (next_child c) node
      else cpanic
  end.

(** A chain of siblings has at most one node per address. *)
Definition vn_fuel : cmd vfs nat := cgets (fun s => S (size (vnodes s))).

Definition vnode_detach (node : Z) : cmd vfs unit :=
  cassert (nonnull node);;
  n ← vn node;
  let parent := v_parent n in
  vn_update node (with_parent 0);;
  if nonnull parent then
    p ← vn parent;
    if bool_decide (node = first_child p) then
      n ← vn node;
      vn_update parent (with_first (next_child n));;
      vn_update node (with_sibling 0)
    else fuel ← vn_fuel; detach_scan fuel (first_child p) node
  else mret tt.

(** The outcome of a lookup: an error number, or a vnode. *)
Inductive found := Err (e : Z) | Found (p : Z).

Fixpoint lookup_scan (fuel : nat) (ch : Z) (name : string) : cmd vfs found :=
  match fuel with
  | O => cdiverged
  | S fuel =>
      if nonnull ch then
        c ← vn ch;
        if bool_decide (v_name c = name) then mret (Found ch)
        else lookup_scan fuel (next_child c) name
      else mret (Err (- ENOENT))
  end.

Definition vnode_lookup_child (dir : Z) (name : string) : cmd vfs found :=
  cassert (nonnull dir);;
  cassert (String.length name <? NODE_MAXLEN)%nat;;
  o ← vn dir;
  fuel ← vn_fuel;
  lookup_scan fuel (first_child o) name.

(** ** [fs/vfs_access.c] *)
Definition R_OK : Z := 4.
Definition W_OK : Z := 2.
Definition X_OK : Z := 1.
Definition F_OK : Z := 0.
Definition S_IRUSR : Z := 256.
Definition S_IWUSR : Z := 128.
Definition S_IXUSR : Z := 64.
Definition S_IRGRP : Z := 32.
Definition S_IWGRP : Z := 16.
Definition S_IXGRP : Z := 8.
Definition S_IROTH : Z := 4.
Definition S_IWOTH : Z := 2.
Definition S_IXOTH : Z := 1.

Definition vfs_access_check (ctx : vfs_ioctx) (desm mode uid gid : Z) : Z :=
  if ctx_uid ctx =? 0 then
    if flagged desm X_OK && negb (flagged mode (Z.lor (Z.lor S_IXOTH S_IXGRP) S_IXUSR)) then - EACCES
    else 0
  else if uid =? ctx_uid ctx then
    if flagged desm R_OK && negb (flagged mode S_IRUSR) then - EACCES
    else if flagged desm W_OK && negb (flagged mode S_IWUSR) then - EACCES
    else if flagged desm X_OK && negb (flagged mode S_IXUSR) then - EACCES
    else 0
  else if gid =? ctx_gid ctx then
    if flagged desm R_OK && negb (flagged mode S_IRGRP) then - EACCES
    else if flagged desm W_OK && negb (flagged mode S_IWGRP) then - EACCES
    else if flagged desm X_OK && negb (flagged mode S_IXGRP) then - EACCES
    else 0
  else
    if flagged desm R_OK && negb (flagged mode S_IROTH) then - EACCES
    else if flagged desm W_OK && negb (flagged mode S_IWOTH) then - EACCES
    else if flagged desm X_OK && negb (flagged mode S_IXOTH) then - EACCES
    else 0.

Definition vfs_access_node (ctx : vfs_ioctx) (p : Z) (mode : Z) : cmd vfs Z :=
  cassert (nonnull p);;
  v ← vn p;
  mret (vfs_access_check ctx mode (v_mode v) (v_uid v) (v_gid v)).

(** ** Runs of the memory accesses *)
Section runs.
Implicit Types s : vfs.

Lemma nonnull_true p : p <> 0 -> nonnull p = true.
Proof. intros. by apply bool_decide_eq_true_2. Qed.

Lemma vn_run s p v : vnodes s !! p = Some v -> vn p s = Ret (v, s).
Proof. exact (load_Some (fun s => vnodes s !! p) s v). Qed.

Lemma vn_update_run s p f v : vnodes s !! p = Some v ->
  vn_update p f s = Ret (tt, set_vnodes (<[p := f v]> (vnodes s)) s).
Proof. intros H. unfold vn_update. by rewrite (bind_Ret _ _ _ _ _ (vn_run s p v H)). Qed.

Lemma vn_free_run s p v : vnodes s !! p = Some v -> vn_free p s = Ret (tt, set_vnodes (delete p (vnodes s)) s).
Proof. intros H. unfold vn_free. by rewrite (bind_Ret _ _ _ _ _ (vn_run s p v H)). Qed.

Lemma assert_run b s : b = true -> cassert b s = Ret (tt, s).
Proof. by intros ->. Qed.

Lemma set_vnodes_vnodes m m' s : set_vnodes m' (set_vnodes m s) = set_vnodes m' s.
Proof. done. Qed.
End runs.

(** Step over a load or an update of a vnode that the store is known to hold. *)
Ltac vfind := cbn [vnodes set_vnodes]; first [eassumption | simplify_map_eq; done | by simplify_map_eq].
Ltac vload := erewrite bind_Ret; [|apply vn_run; vfind].
Ltac vupd := erewrite bind_Ret; [|apply vn_update_run; vfind].
Ltac vassert := rewrite (bind_Ret _ _ _ tt _) by (apply assert_run; first [done | by apply nonnull_true]).

(** ** The tree of vnodes

    [chain m p l]: following [next_child] from [p] visits exactly [l].  [tree_ok m kids]:
    the children of every node form such a chain, and each child names its parent.
    (The converse fails on purpose: the root of a mounted file system has the parent of
    its mountpoint but is not one of its children.) *)
Section tree.
Implicit Types (m : gmap Z vnode) (kids : Z -> list Z).

Fixpoint chain m (p : Z) (l : list Z) : Prop :=
  match l with
  | [] => p = 0
  | x :: l => p = x /\ x <> 0 /\ exists v, m !! x = Some v /\ chain m (next_child v) l
  end.

Record tree_ok m kids : Prop := {
  t_chain : forall p v, m !! p = Some v -> chain m (first_child v) (kids p);
  t_kid : forall p c, c ∈ kids p -> is_Some (m !! p) /\ exists v, m !! c = Some v /\ v_parent v = p;
  t_nodup : forall p, NoDup (kids p);
  t_null : m !! 0 = None;
}.

Definition kids_set (p : Z) (l : list Z) kids : Z -> list Z := fun q => if decide (q = p) then l else kids q.

Lemma kids_set_eq p l kids : kids_set p l kids p = l.
Proof. unfold kids_set. by rewrite decide_True. Qed.
Lemma kids_set_ne p q l kids : q <> p -> kids_set p l kids q = kids q.
Proof. intros. unfold kids_set. by rewrite decide_False. Qed.

Lemma chain_agree m m' p l : chain m p l ->
  (forall x v, x ∈ l -> m !! x = Some v -> exists v', m' !! x = Some v' /\ next_child v' = next_child v) ->
  chain m' p l.
Proof.
  revert p. induction l as [|x l IH]; intros p; cbn [chain]; [done|].
  intros (-> & Hx & v & Hv & Hc) Hm. split; [done|]. split; [done|].
  destruct (Hm x v ltac:(by left) Hv) as (v' & Hv' & E). exists v'. split; [done|]. rewrite E.
  apply IH; [done|]. intros y w Hy. apply Hm. by right.
Qed.

Lemma chain_dom m p l : chain m p l -> Forall (fun x => is_Some (m !! x)) l.
Proof.
  revert p. induction l as [|x l IH]; intros p; cbn [chain]; [constructor|].
  intros (-> & _ & v & Hv & Hc). constructor; [by exists v|by apply (IH (next_child v))].
Qed.

Lemma chain_short m p l : chain m p l -> NoDup l -> (length l <= size m)%nat.
Proof.
  intros Hc%chain_dom Hn. rewrite <- size_dom, <- (size_list_to_set (C := gset Z) l) by done.
  apply subseteq_size. intros x Hx%elem_of_list_to_set. apply elem_of_dom.
  rewrite list.Forall_forall in Hc. by apply Hc.
Qed.

Lemma chain_head m p l : chain m p l -> p = default 0 (head l).
Proof. destruct l; cbn; [done|]. by intros [-> _]. Qed.

Lemma chain_app m p l1 x l2 : chain m p (l1 ++ x :: l2) ->
  exists v, m !! x = Some v /\ x <> 0 /\ chain m (next_child v) l2.
Proof.
  revert p. induction l1 as [|y l1 IH]; intros p; cbn [app chain].
  - intros (_ & ? & v & ? & ?). by exists v.
  - intros (_ & _ & v & _ & Hc). by apply (IH (next_child v)).
Qed.

(** The first child of that name. *)
Fixpoint find_kid m (l : list Z) (name : string) : option Z :=
  match l with
  | [] => None
  | x :: l => if decide (v_name <$> m !! x = Some name) then Some x else find_kid m l name
  end.

Lemma find_kid_elem m l name x : find_kid m l name = Some x -> x ∈ l /\ v_name <$> m !! x = Some name.
Proof.
  induction l as [|y l IH]; cbn; [done|]. case_decide as E.
  - intros [= <-]. split; [by left|done].
  - intros H%IH. destruct H. split; [by right|done].
Qed.

Lemma lookup_scan_run (s : vfs) name l : forall p fuel, chain (vnodes s) p l -> (length l < fuel)%nat ->
  lookup_scan fuel p name s = Ret (from_option Found (Err (- ENOENT)) (find_kid (vnodes s) l name), s).
Proof.
  induction l as [|x l IH]; intros p [|fuel] Hc Hf; cbn [length] in Hf; try lia; cbn [lookup_scan].
  - cbn in Hc. by subst p.
  - destruct Hc as (-> & Hx & v & Hv & Hc). rewrite nonnull_true by done.
    rewrite (bind_Ret _ _ _ _ _ (vn_run s x v Hv)). cbn [find_kid]. rewrite Hv. cbn [fmap option_fmap option_map].
    case_bool_decide as E; [by rewrite decide_True by congruence|].
    rewrite decide_False by congruence. apply IH; [done|lia].
Qed.

Lemma lookup_child_run (s : vfs) kids p name : tree_ok (vnodes s) kids -> is_Some (vnodes s !! p) ->
  (String.length name < NODE_MAXLEN)%nat ->
  vnode_lookup_child p name s =
    Ret (from_option Found (Err (- ENOENT)) (find_kid (vnodes s) (kids p) name), s).
Proof.
  intros Ht [v Hv] Hn. pose proof (t_chain _ _ Ht p v Hv) as Hc. unfold vnode_lookup_child.
  assert (p <> 0) as Hp by (intros ->; rewrite (t_null _ _ Ht) in Hv; done).
  rewrite (bind_Ret _ _ s tt s) by by rewrite nonnull_true.
  rewrite (bind_Ret _ _ s tt s) by by apply assert_run, Nat.ltb_lt.
  rewrite (bind_Ret _ _ _ _ _ (vn_run s p v Hv)). unfold vn_fuel. rewrite (bind_Ret _ _ s (S (size (vnodes s))) s) by done.
  apply lookup_scan_run; [done|]. pose proof (chain_short _ _ _ Hc (t_nodup _ _ Ht p)). lia.
Qed.

(** Attaching puts the child in front. *)
Definition attached (parent child : Z) (pv cv : vnode) m : gmap Z vnode :=
  <[parent := with_first child pv]> (<[child := with_sibling (first_child pv) (with_parent parent cv)]> m).

Lemma attach_run (s : vfs) parent child pv cv : parent <> 0 -> child <> 0 -> parent <> child ->
  vnodes s !! parent = Some pv -> vnodes s !! child = Some cv -> v_parent cv = 0 ->
  vnode_attach parent child s = Ret (tt, set_vnodes (attached parent child pv cv (vnodes s)) s).
Proof.
  intros Hp0 Hc0 Hne Hp Hc E. unfold vnode_attach.
  do 2 vassert. vload. rewrite E. vassert. vupd.
  vload. vupd. rewrite (vn_update_run _ parent _ pv); cbn [vnodes set_vnodes]; [|by rewrite !lookup_insert_ne].
  by rewrite insert_insert_eq.
Qed.

Lemma attach_ok m kids parent child pv cv : tree_ok m kids -> parent <> child ->
  m !! parent = Some pv -> m !! child = Some cv -> v_parent cv = 0 ->
  tree_ok (attached parent child pv cv m) (kids_set parent (child :: kids parent) kids).
Proof.
  intros Ht Hne Hp Hc E. unfold attached.
  assert (parent <> 0 /\ child <> 0) as [Hp0 Hc0] by (split; intros ->; rewrite (t_null _ _ Ht) in *; done).
  assert (forall q, child ∉ kids q) as Hfresh.
  { intros q Hin. destruct (t_kid _ _ Ht q child Hin) as ([w Hw] & v & Hv & Hq).
    assert (q = 0) as -> by congruence. by rewrite (t_null _ _ Ht) in Hw. }
  set (m' := <[parent := _]> _).
  assert (forall q p, chain m p (kids q) -> chain m' p (kids q)) as Hag.
  { intros q p Hch. eapply chain_agree; [exact Hch|]. intros x v Hx Hv. unfold m'.
    assert (x <> child) by (intros ->; by eapply Hfresh). destruct (decide (x = parent)) as [->|].
    - rewrite lookup_insert_eq. eexists. split; [done|]. by assert (v = pv) as -> by congruence.
    - rewrite !lookup_insert_ne by done. by exists v. }
  assert (forall x, is_Some (m !! x) -> is_Some (m' !! x)) as Hdom.
  { intros x Hx. unfold m'. by rewrite !lookup_insert_is_Some'; auto. }
  split.
  - intros q v Hv. unfold m' in Hv. destruct (decide (q = parent)) as [->|Hqp].
    + rewrite lookup_insert_eq in Hv. injection Hv as <-. rewrite kids_set_eq. cbn [chain first_child with_first].
      split; [done|]. split; [done|]. eexists. split; [unfold m'; by rewrite lookup_insert_ne, lookup_insert_eq|].
      cbn. apply Hag. by apply (t_chain _ _ Ht).
    + rewrite lookup_insert_ne in Hv by done. rewrite kids_set_ne by done.
      destruct (decide (q = child)) as [->|].
      * rewrite lookup_insert_eq in Hv. injection Hv as <-. cbn. apply Hag. by apply (t_chain _ _ Ht).
      * rewrite lookup_insert_ne in Hv by done. apply Hag. by apply (t_chain _ _ Ht).
  - intros q c. destruct (decide (q = parent)) as [->|Hqp].
    + rewrite kids_set_eq. intros [->|Hin]%elem_of_cons.
      * split; [apply Hdom; by eexists|]. eexists. split; [unfold m'; by rewrite lookup_insert_ne, lookup_insert_eq|]. done.
      * destruct (t_kid _ _ Ht _ _ Hin) as (Hs & v & Hv & Hvp). split; [by apply Hdom|].
        assert (c <> child) by (intros ->; by eapply Hfresh). unfold m'. destruct (decide (c = parent)) as [->|].
        { rewrite lookup_insert_eq. eexists. split; [done|]. cbn. congruence. }
        rewrite !lookup_insert_ne by done. by exists v.
    + rewrite kids_set_ne by done. intros Hin. destruct (t_kid _ _ Ht _ _ Hin) as (Hs & v & Hv & Hvp). split; [by apply Hdom|].
      assert (c <> child) by (intros ->; by eapply Hfresh). unfold m'. destruct (decide (c = parent)) as [->|].
      { rewrite lookup_insert_eq. eexists. split; [done|]. cbn. congruence. }
      rewrite !lookup_insert_ne by done. by exists v.
  - intros q. unfold kids_set. case_decide; [|apply (t_nodup _ _ Ht)].
    apply list.NoDup_cons. split; [apply Hfresh|apply (t_nodup _ _ Ht)].
  - unfold m'. rewrite !lookup_insert_ne by done. apply (t_null _ _ Ht).
Qed.

Lemma kids_dom m kids p : tree_ok m kids -> Forall (fun x => is_Some (m !! x)) (kids p).
Proof.
  intros Ht. apply list.Forall_forall. intros x Hx. destruct (t_kid _ _ Ht p x Hx) as (_ & v & Hv & _). by exists v.
Qed.
Lemma kids_none m kids p : tree_ok m kids -> m !! p = None -> kids p = [].
Proof.
  intros Ht Hp. destruct (kids p) as [|x l] eqn:E; [done|].
  destruct (t_kid _ _ Ht p x) as ([v Hv] & _); [rewrite E; by left|congruence].
Qed.

(** A node without children and without a parent. *)
Lemma node_create_ok m kids p v : tree_ok m kids -> m !! p = None -> p <> 0 -> first_child v = 0 ->
  tree_ok (<[p := v]> m) kids.
Proof.
  intros Ht Hp H0 Hv.
  assert (forall q, p ∉ kids q) as Hn. { intros q Hq. destruct (t_kid _ _ Ht q p Hq) as (_ & w & Hw & _). congruence. }
  assert (forall q a, chain m a (kids q) -> chain (<[p := v]> m) a (kids q)) as Hag.
  { intros q a Hc. eapply chain_agree; [exact Hc|]. intros x w Hx Hw. exists w. rewrite lookup_insert_ne by (intros ->; by apply (Hn q)). done. }
  split.
  - intros q w. destruct (decide (q = p)) as [->|]; [rewrite lookup_insert_eq; intros [= <-]|rewrite lookup_insert_ne by done; intros Hw].
    + by rewrite Hv, (kids_none m kids p).
    + by apply Hag, (t_chain _ _ Ht).
  - intros q c Hc. destruct (t_kid _ _ Ht q c Hc) as ([w Hw] & u & Hu & Hup).
    split; [rewrite lookup_insert_ne by congruence; by exists w|]. exists u. by rewrite lookup_insert_ne by congruence.
  - apply (t_nodup _ _ Ht).
  - rewrite lookup_insert_ne by done. apply (t_null _ _ Ht).
Qed.

(** Detaching takes the node out of its parent's chain: [skip m y x w] makes [w] follow
    [y], or become the first child of [x] when there is no [y]. *)
Definition skip m (y : option Z) (x w : Z) : gmap Z vnode :=
  match y with
  | Some y => alter (with_sibling w) y m
  | None => alter (with_first w) x m
  end.

Lemma detach_scan_run (s : vfs) node nv l2 : vnodes s !! node = Some nv ->
  forall l1 y p fuel, chain (vnodes s) p (l1 ++ y :: node :: l2) -> node ∉ l1 -> y <> node ->
  (length l1 < fuel)%nat ->
  detach_scan fuel p node s =
    Ret (tt, set_vnodes (<[node := with_sibling 0 nv]> (skip (vnodes s) (Some y) 0 (next_child nv))) s).
Proof.
  intros Hn l1. induction l1 as [|x l1 IH]; intros y p [|fuel] Hc Hni Hy Hf; cbn [length] in Hf; try lia;
    cbn [detach_scan app chain] in *; destruct Hc as (-> & Hx & v & Hv & Hc); rewrite nonnull_true by done; vload.
  - destruct Hc as (E & _). rewrite bool_decide_eq_true_2 by done. vload. vupd.
    rewrite (vn_update_run _ node _ nv) by vfind. cbn [vnodes set_vnodes skip].
    rewrite set_vnodes_vnodes. do 3 f_equal. apply map_eq. intros i.
    destruct (decide (i = y)), (decide (i = node)); simplify_map_eq; done.
  - assert (next_child v <> node) as Hnn.
    { apply chain_head in Hc. destruct l1 as [|z l1]; cbn in Hc; [congruence|].
      intros E. apply Hni. rewrite <- E, Hc. right. by left. }
    rewrite bool_decide_eq_false_2 by done. apply IH; [done| |done|lia]. intros Hin. apply Hni. by right.
Qed.

(** A node that names [p] as its parent but is not among its children: the search panics. *)
Lemma detach_scan_panics (s : vfs) node l : forall p fuel, chain (vnodes s) p l -> node ∉ l -> node <> 0 ->
  (length l < fuel)%nat -> detach_scan fuel p node s = Panic.
Proof.
  induction l as [|x l IH]; intros p [|fuel] Hc Hn Hn0 Hf; cbn [length] in Hf; try lia; cbn [detach_scan chain] in *.
  - by subst p.
  - destruct Hc as (-> & Hx & v & Hv & Hc). rewrite nonnull_true by done. vload.
    rewrite bool_decide_eq_false_2; [apply IH; [done| |done|lia]|]; [intros Hin; apply Hn; by right|].
    intros E. apply chain_head in Hc. destruct l as [|z l]; cbn in Hc; [congruence|].
    apply Hn. rewrite <- E, Hc. right. by left.
Qed.

Definition detached (node p : Z) (nv : vnode) (l1 : list Z) m : gmap Z vnode :=
  <[node := with_sibling 0 (with_parent 0 nv)]> (skip m (list.last l1) p (next_child nv)).

Lemma detach_run (s : vfs) kids node nv l1 l2 : tree_ok (vnodes s) kids -> vnodes s !! node = Some nv ->
  v_parent nv <> node -> kids (v_parent nv) = l1 ++ node :: l2 ->
  vnode_detach node s = Ret (tt, set_vnodes (detached node (v_parent nv) nv l1 (vnodes s)) s).
Proof.
  intros Ht Hn Hne Hk. set (p := v_parent nv) in *.
  destruct (t_kid _ _ Ht p node) as ([pv Hp] & _); [rewrite Hk; apply elem_of_app; right; by left|].
  assert (p <> 0 /\ node <> 0) as [Hp0 Hn0] by (split; intros E0; rewrite E0, (t_null _ _ Ht) in *; done).
  pose proof (t_chain _ _ Ht p pv Hp) as Hc. pose proof (t_nodup _ _ Ht p) as Hnd. pose proof (chain_short _ _ _ Hc Hnd) as Hlen.
  rewrite Hk in Hc, Hnd, Hlen. apply list.NoDup_app in Hnd as (_ & Hd & _).
  unfold vnode_detach. vassert. vload. fold p. cbv zeta. vupd. rewrite nonnull_true by done. vload.
  assert (chain (<[node := with_parent 0 nv]> (vnodes s)) (first_child pv) (l1 ++ node :: l2)) as Hc'.
  { eapply chain_agree; [exact Hc|]. intros x v _ Hv. destruct (decide (x = node)) as [->|]; simplify_map_eq; eauto. }
  unfold detached. destruct (decide (l1 = [])) as [->|Hl1].
  - cbn in Hc. destruct Hc as (-> & _). rewrite bool_decide_eq_true_2 by done. vload. vupd.
    rewrite (vn_update_run _ node _ (with_parent 0 nv)) by vfind. rewrite !set_vnodes_vnodes.
    cbn [list.last skip vnodes set_vnodes]. do 3 f_equal. apply map_eq. intros i.
    destruct (decide (i = p)), (decide (i = node)); simplify_map_eq; done.
  - destruct (exists_last Hl1) as (l0 & y & ->). rewrite <- app_assoc in Hc', Hc. cbn [app] in Hc', Hc.
    assert (node ∉ l0 ++ [y]) as Hni by (intros Hx; apply (Hd node Hx); by left).
    rewrite bool_decide_eq_false_2.
    2:{ apply chain_head in Hc. intros E. rewrite E, Hc in Hni. apply Hni. destruct l0; cbn; by left. }
    unfold vn_fuel. erewrite bind_Ret by done.
    rewrite (detach_scan_run _ node (with_parent 0 nv) l2) with (l1 := l0) (y := y).
    + rewrite last_snoc. cbn [skip vnodes set_vnodes]. rewrite set_vnodes_vnodes. do 3 f_equal. apply map_eq. intros i.
      assert (y <> node) by (intros ->; apply Hni, elem_of_app; right; by left).
      destruct (decide (i = y)), (decide (i = node)); simplify_map_eq; done.
    + cbn. by simplify_map_eq.
    + exact Hc'.
    + intros Hx. apply Hni, elem_of_app. by left.
    + intros ->. apply Hni, elem_of_app. right. by left.
    + cbn [vnodes set_vnodes]. rewrite map_size_insert_Some by (by exists nv). rewrite !length_app in Hlen. lia.
Qed.

(** The root of a mounted file system cannot be detached. *)
Lemma detach_panics (s : vfs) kids node nv : tree_ok (vnodes s) kids -> vnodes s !! node = Some nv ->
  is_Some (vnodes s !! v_parent nv) -> v_parent nv <> node -> node ∉ kids (v_parent nv) ->
  vnode_detach node s = Panic.
Proof.
  intros Ht Hn [pv Hp] Hne Hk. set (p := v_parent nv) in *.
  assert (p <> 0 /\ node <> 0) as [Hp0 Hn0] by (split; intros E0; rewrite E0, (t_null _ _ Ht) in *; done).
  pose proof (t_chain _ _ Ht p pv Hp) as Hc. pose proof (chain_short _ _ _ Hc (t_nodup _ _ Ht p)) as Hlen.
  unfold vnode_detach. vassert. vload. fold p. cbv zeta. vupd. rewrite nonnull_true by done. vload.
  rewrite bool_decide_eq_false_2.
  2:{ apply chain_head in Hc. rewrite Hc. intros E. apply Hk. destruct (kids p) eqn:Ek; cbn in E; [done|].
      rewrite E. by left. }
  unfold vn_fuel. erewrite bind_Ret by done. apply detach_scan_panics with (l := kids p); [|done|done|].
  - eapply chain_agree; [exact Hc|]. intros x v _ Hv. destruct (decide (x = node)) as [->|]; cbn; simplify_map_eq; eauto.
  - cbn [vnodes set_vnodes]. rewrite map_size_insert_Some by (by exists nv). lia.
Qed.

(** Skipping [node] in the chain of [p]. *)
Lemma chain_skip m m' node nv l2 y : m !! node = Some nv ->
  (forall x v, x <> y -> x <> node -> m !! x = Some v -> exists v', m' !! x = Some v' /\ next_child v' = next_child v) ->
  (exists v', m' !! y = Some v' /\ next_child v' = next_child nv) ->
  forall l1 p, chain m p (l1 ++ y :: node :: l2) -> NoDup (l1 ++ y :: node :: l2) -> chain m' p (l1 ++ y :: l2).
Proof.
  intros Hn Hag (v' & Hv' & Ey) l1. induction l1 as [|x l1 IH]; intros p Hc Hnd; cbn [app chain] in *.
  - destruct Hc as (-> & Hy & v & Hv & (_ & _ & v2 & Hv2 & Hc)). assert (v2 = nv) as -> by congruence.
    split; [done|]. split; [done|]. exists v'. split; [done|]. rewrite Ey.
    apply list.NoDup_cons in Hnd as [Hy2 [Hn2 _]%list.NoDup_cons].
    eapply chain_agree; [exact Hc|]. intros x w Hx. apply Hag; intros ->; [apply Hy2; by right|done].
  - destruct Hc as (-> & Hx & v & Hv & Hc). apply list.NoDup_cons in Hnd as [Hx2 Hnd].
    split; [done|]. split; [done|].
    assert (x <> y /\ x <> node) as [Hxy Hxn]
      by (split; intros ->; apply Hx2, elem_of_app; right; rewrite ?elem_of_cons; auto).
    destruct (Hag x v Hxy Hxn Hv) as (w & Hw & E). exists w. split; [done|]. rewrite E. by apply IH.
Qed.

(** What [detached] changes: the parent and sibling of the node, and one link. *)
Lemma detached_lookup m node p nv l1 x v : p <> node -> node ∉ l1 -> m !! x = Some v -> x <> node ->
  exists v', detached node p nv l1 m !! x = Some v' /\ v_parent v' = v_parent v /\
    (list.last l1 <> Some x -> next_child v' = next_child v) /\ (x <> p \/ l1 <> [] -> first_child v' = first_child v).
Proof.
  intros Hp Hl Hx Hne. unfold detached, skip. rewrite lookup_insert_ne by done.
  destruct (list.last l1) as [y|] eqn:El.
  - destruct (decide (x = y)) as [->|]; simplify_map_eq; eexists; split; [done| |done|done]; cbn. split; [done|]. split; done.
  - apply last_None in El as ->. destruct (decide (x = p)) as [->|]; simplify_map_eq; eexists; (split; [done|]); cbn.
    + split; [done|]. split; [done|]. by intros [?|?].
    + done.
Qed.

Lemma detached_is_Some m node p nv l1 x : m !! node = Some nv ->
  is_Some (detached node p nv l1 m !! x) <-> is_Some (m !! x).
Proof.
  intros Hn. unfold detached. rewrite lookup_insert_is_Some'.
  assert (is_Some (skip m (list.last l1) p (next_child nv) !! x) <-> is_Some (m !! x)) as ->
    by (unfold skip; destruct (list.last l1); by rewrite lookup_alter_is_Some).
  split; [|by right]. intros [<-|?]; [by exists nv|done].
Qed.

Lemma detach_ok m kids node nv l1 l2 : tree_ok m kids -> m !! node = Some nv -> v_parent nv <> node ->
  kids (v_parent nv) = l1 ++ node :: l2 ->
  tree_ok (detached node (v_parent nv) nv l1 m) (kids_set (v_parent nv) (l1 ++ l2) kids).
Proof.
  intros Ht Hn. remember (v_parent nv) as p eqn:Ep. intros Hne Hk. set (m' := detached node p nv l1 m).
  pose proof (t_nodup _ _ Ht p) as Hnd. rewrite Hk in Hnd.
  assert (node ∉ l1 ++ l2) as Hni by (apply list.NoDup_app in Hnd as (_ & Hd & [? _]%list.NoDup_cons);
    intros [Hx|Hx]%elem_of_app; [apply (Hd node Hx); by left|done]).
  assert (node ∉ l1 /\ node ∉ l2) as [Hl1 Hl2] by set_solver.
  assert (forall x v, m !! x = Some v -> x <> node -> exists v', m' !! x = Some v' /\ v_parent v' = v_parent v /\
    (list.last l1 <> Some x -> next_child v' = next_child v) /\ (x <> p \/ l1 <> [] -> first_child v' = first_child v)) as Hx
    by (intros x v Hv Hxn; by apply detached_lookup).
  assert (forall q x, q <> p -> x ∈ kids q -> x <> node /\ list.last l1 <> Some x) as Hother.
  { intros q x Hq Hin. destruct (t_kid _ _ Ht q x Hin) as (_ & v & Hv & E). split; [intros ->; congruence|].
    intros Hlast%last_Some_elem_of. destruct (t_kid _ _ Ht p x) as (_ & w & Hw & E'); [rewrite Hk; set_solver|congruence]. }
  assert (forall q a, q <> p -> chain m a (kids q) -> chain m' a (kids q)) as Hag.
  { intros q a Hq Hc. eapply chain_agree; [exact Hc|]. intros x v Hin Hv.
    destruct (Hother q x Hq Hin) as [? ?]. destruct (Hx x v Hv) as (v' & ? & _ & E & _); [done|]. exists v'. auto. }
  assert (forall q c, c <> node -> c ∈ kids q -> is_Some (m' !! q) /\ exists v, m' !! c = Some v /\ v_parent v = q) as Hkid.
  { intros q c Hc Hin. destruct (t_kid _ _ Ht q c Hin) as (Hs & v & Hv & E). split; [by apply detached_is_Some|].
    destruct (Hx c v Hv Hc) as (v' & ? & ? & _). exists v'. by split; [|congruence]. }
  split.
  - intros q v' Hq. destruct (decide (q = node)) as [->|Hqn].
    { unfold m', detached in Hq. rewrite lookup_insert_eq in Hq. injection Hq as <-. rewrite kids_set_ne by done.
      apply Hag; [done|]. cbn. by apply (t_chain _ _ Ht). }
    destruct (proj1 (detached_is_Some m node p nv l1 q Hn) ltac:(by exists v')) as [v Hv].
    destruct (Hx q v Hv Hqn) as (w & Hw & _ & _ & Hfirst). assert (w = v') as -> by congruence.
    pose proof (t_chain _ _ Ht q v Hv) as Hc. destruct (decide (q = p)) as [->|Hqp].
    2:{ rewrite kids_set_ne by done. rewrite Hfirst by (by left). by apply Hag. }
    rewrite kids_set_eq. rewrite Hk in Hc. destruct (decide (l1 = [])) as [->|Hne1].
    + assert (first_child v' = next_child nv) as ->.
      { unfold m', detached in Hw. cbn [list.last skip] in Hw. rewrite lookup_insert_ne in Hw by done.
        rewrite lookup_alter_eq, Hv in Hw. by injection Hw as <-. }
      destruct Hc as (_ & _ & v2 & Hv2 & Hc). assert (v2 = nv) as -> by congruence. cbn [app].
      eapply chain_agree; [exact Hc|]. intros x w Hin Hxw.
      destruct (Hx x w Hxw) as (w' & ? & _ & E & _); [by intros ->|]. exists w'. auto.
    + rewrite Hfirst by (by right). destruct (exists_last Hne1) as (l0 & y & ->).
      rewrite last_snoc in *. rewrite <- app_assoc in *. cbn [app] in *.
      assert (y <> node) as Hyn by set_solver.
      apply (chain_skip m m' node nv l2 y Hn); [| |done|done].
      * intros x w Hxy Hxn Hxw. destruct (Hx x w Hxw Hxn) as (w' & ? & _ & E & _). exists w'. split; [done|]. apply E. congruence.
      * destruct (chain_app _ _ _ _ _ Hc) as (yv & Hy & _). exists (with_sibling (next_child nv) yv). split; [|done].
        unfold m', detached. rewrite lookup_insert_ne by done. rewrite last_snoc. cbn [skip]. by rewrite lookup_alter_eq, Hy.
  - intros q c. destruct (decide (q = p)) as [->|Hqp]; rewrite ?kids_set_eq, ?kids_set_ne by done.
    + intros Hin. apply Hkid; [by intros ->|]. rewrite Hk. set_solver.
    + intros Hin. destruct (Hother q c Hqp Hin) as [Hcn _]. by apply Hkid.
  - intros q. unfold kids_set. case_decide; [|apply (t_nodup _ _ Ht)].
    apply list.NoDup_app in Hnd as (H1 & Hd & [_ H2]%list.NoDup_cons). apply list.NoDup_app.
    split; [done|]. split; [|done]. intros x Hx1 Hx2. apply (Hd x Hx1). by right.
  - destruct (m' !! 0) eqn:E; [|done]. exfalso.
    destruct (proj1 (detached_is_Some m node p nv l1 0 Hn) ltac:(by eexists)) as [w Hw]. by rewrite (t_null _ _ Ht) in Hw.
Qed.
End tree.

(** ** Access rights *)
Section access.
Lemma flagged_bit x k : 0 <= k -> flagged x (2 ^ k) = Z.testbit x k.
Proof.
  intros Hk. unfold flagged. destruct (Z.testbit x k) eqn:E.
  - destruct (Z.eqb_spec (Z.land x (2 ^ k)) 0) as [H0|]; [|done].
    assert (Z.testbit (Z.land x (2 ^ k)) k = true) as Hb by (rewrite Z.land_spec, E, Z.pow2_bits_true by done; done).
    by rewrite H0, Z.bits_0 in Hb.
  - rewrite (proj2 (Z.eqb_eq (Z.land x (2 ^ k)) 0)); [done|]. apply Z.bits_inj'. intros n Hn.
    rewrite Z.land_spec, Z.bits_0. destruct (decide (n = k)) as [->|Hne]; [by rewrite E|].
    rewrite Z.pow2_bits_false by congruence. apply andb_false_r.
Qed.

Lemma Z_lor_eqb_0 a b : (Z.lor a b =? 0) = ((a =? 0) && (b =? 0))%bool.
Proof.
  destruct (Z.eqb_spec (Z.lor a b) 0) as [E|E].
  - apply Z.lor_eq_0_iff in E as [-> ->]. done.
  - destruct (Z.eqb_spec a 0) as [->|]; [|done]. destruct (Z.eqb_spec b 0) as [->|]; done.
Qed.

Lemma flagged_any mode : flagged mode (Z.lor (Z.lor (2 ^ 0) (2 ^ 3)) (2 ^ 6)) =
  (Z.testbit mode 0 || Z.testbit mode 3 || Z.testbit mode 6)%bool.
Proof.
  rewrite <- !flagged_bit by done. unfold flagged. rewrite !Z.land_lor_distr_r, !Z_lor_eqb_0.
  by destruct (Z.land mode (2 ^ 0) =? 0), (Z.land mode (2 ^ 3) =? 0), (Z.land mode (2 ^ 6) =? 0).
Qed.

(** The permission bits that apply to a caller who is not root, as an [rwx] triple. *)
Definition rights (ctx : vfs_ioctx) (mode uid gid : Z) : Z :=
  if uid =? ctx_uid ctx then Z.shiftr mode 6 else if gid =? ctx_gid ctx then Z.shiftr mode 3 else mode.

(** Whether the wanted [rwx] bits are all granted. *)
Definition granted (desm r : Z) : bool := Z.land (Z.land desm 7) (Z.lnot r) =? 0.

Lemma granted_bits desm r :
  granted desm r = (implb (Z.testbit desm 2) (Z.testbit r 2) && implb (Z.testbit desm 1) (Z.testbit r 1) &&
    implb (Z.testbit desm 0) (Z.testbit r 0))%bool.
Proof.
  unfold granted. set (x := Z.land (Z.land desm 7) (Z.lnot r)).
  assert (forall n, 0 <= n -> Z.testbit x n = (Z.testbit desm n && Z.testbit 7 n && negb (Z.testbit r n))%bool) as Hb
    by (intros n Hn; unfold x; by rewrite !Z.land_spec, Z.lnot_spec).
  destruct (Z.eqb_spec x 0) as [E|E].
  - pose proof (Hb 0 ltac:(done)) as H0. pose proof (Hb 1 ltac:(done)) as H1. pose proof (Hb 2 ltac:(done)) as H2.
    rewrite E, Z.bits_0 in H0, H1, H2. clear Hb E.
    destruct (Z.testbit desm 0), (Z.testbit desm 1), (Z.testbit desm 2), (Z.testbit r 0), (Z.testbit r 1), (Z.testbit r 2);
      first [reflexivity | discriminate H0 | discriminate H1 | discriminate H2].
  - symmetry. apply not_true_is_false. intros Ht. apply E. apply Z.bits_inj'. intros n Hn. rewrite Hb, Z.bits_0 by done.
    destruct (decide (3 <= n)) as [Hn3|].
    + change 7 with (Z.ones 3). rewrite Z.ones_spec_high by lia. by rewrite andb_false_r.
    + assert (n = 0 \/ n = 1 \/ n = 2) as [->|[->| ->]] by lia; clear Hb E;
      destruct (Z.testbit desm 0), (Z.testbit desm 1), (Z.testbit desm 2), (Z.testbit r 0), (Z.testbit r 1), (Z.testbit r 2);
      first [reflexivity | discriminate Ht].
Qed.
End access.

(** C36: [vfs_access_check] implements Unix permissions: root is refused only execution
    of a file nobody may execute; everyone else gets access exactly when each wanted
    bit is set in the one triple that applies, the owner's if they own the file,
    otherwise the group's if they are in the group, otherwise the others'. *)
Theorem access_check_rwx ctx desm mode uid gid :
  vfs_access_check ctx desm mode uid gid =
    if ctx_uid ctx =? 0 then
      if Z.testbit desm 0 && negb (Z.testbit mode 0 || Z.testbit mode 3 || Z.testbit mode 6) then - EACCES else 0
    else if granted desm (rights ctx mode uid gid) then 0 else - EACCES.
Proof.
  unfold vfs_access_check, rights. rewrite granted_bits.
  change R_OK with (2 ^ 2). change W_OK with (2 ^ 1). change X_OK with (2 ^ 0).
  change S_IRUSR with (2 ^ 8). change S_IWUSR with (2 ^ 7). change S_IXUSR with (2 ^ 6).
  change S_IRGRP with (2 ^ 5). change S_IWGRP with (2 ^ 4). change S_IXGRP with (2 ^ 3).
  change S_IROTH with (2 ^ 2). change S_IWOTH with (2 ^ 1). change S_IXOTH with (2 ^ 0).
  rewrite flagged_any. rewrite !flagged_bit by done.
  destruct (ctx_uid ctx =? 0); [done|].
  destruct (uid =? ctx_uid ctx); [|destruct (gid =? ctx_gid ctx)]; rewrite ?Z.shiftr_spec by done;
    change (2 + 6) with 8; change (1 + 6) with 7; change (0 + 6) with 6;
    change (2 + 3) with 5; change (1 + 3) with 4; change (0 + 3) with 3;
    destruct (Z.testbit desm 2), (Z.testbit desm 1), (Z.testbit desm 0); cbn [implb andb negb];
    repeat match goal with |- context [Z.testbit mode ?k] => destruct (Z.testbit mode k); cbn [implb andb negb] end; reflexivity.
Qed.

(** [vnode_attach] puts an orphan in front of its new parent's children, and
    [vnode_detach] takes a node out of its parent's children and clears its links,
    both leaving every other list of children as it was and the tree consistent; a
    node that is not among its parent's children (the root of a mounted file system)
    makes [vnode_detach] panic. *)
Theorem vnode_attach_detach (s : vfs) kids node nv :
  tree_ok (vnodes s) kids -> vnodes s !! node = Some nv -> v_parent nv <> node ->
  (v_parent nv = 0 -> forall p, is_Some (vnodes s !! p) -> p <> node ->
    exists s', vnode_attach p node s = Ret (tt, s') /\ tree_ok (vnodes s') (kids_set p (node :: kids p) kids) /\
      v_parent <$> vnodes s' !! node = Some p) /\
  (forall l1 l2, kids (v_parent nv) = l1 ++ node :: l2 ->
    exists s', vnode_detach node s = Ret (tt, s') /\ tree_ok (vnodes s') (kids_set (v_parent nv) (l1 ++ l2) kids) /\
      v_parent <$> vnodes s' !! node = Some 0) /\
  (is_Some (vnodes s !! v_parent nv) -> node ∉ kids (v_parent nv) -> vnode_detach node s = Panic).
Proof.
  intros Ht Hn Hne. assert (node <> 0) as Hn0 by (intros ->; rewrite (t_null _ _ Ht) in Hn; done).
  split; [|split].
  - intros E p [pv Hp] Hpn. assert (p <> 0) as Hp0 by (intros ->; rewrite (t_null _ _ Ht) in Hp; done).
    eexists. split; [by apply (attach_run s p node pv nv)|]. split; [by apply attach_ok|].
    cbn. unfold attached. by rewrite lookup_insert_ne, lookup_insert_eq.
  - intros l1 l2 Hk. eexists. split; [by eapply detach_run|]. split; [by apply detach_ok|].
    cbn. unfold detached. by rewrite lookup_insert_eq.
  - intros Hp Hk. by apply (detach_panics s kids node nv).
Qed.

(** ** A small tree: a root directory 1 with the children 2 and 3 *)
Definition sample_dir (name : string) (first next parent : Z) : vnode :=
  mk_vnode VN_DIR name VN_MEMORY first next parent 0 0 0 0 0 511 0 0 0 0.
Definition sample_vnodes : gmap Z vnode :=
  <[1 := sample_dir "" 2 0 0]> (<[2 := sample_dir "bin" 0 3 1]> (<[3 := sample_dir "etc" 0 0 1]> ∅)).
Definition sample_vfs : vfs := mk_vfs sample_vnodes 1 ∅ ∅ [] [] ∅.
Definition sample_kids (p : Z) : list Z := if decide (p = 1) then [2; 3] else [].

Lemma sample_vnodes_inv p v : sample_vnodes !! p = Some v ->
  p = 1 /\ v = sample_dir "" 2 0 0 \/ p = 2 /\ v = sample_dir "bin" 0 3 1 \/ p = 3 /\ v = sample_dir "etc" 0 0 1.
Proof.
  unfold sample_vnodes. intros [[<- <-]|[_ [[<- <-]|[_ [[<- <-]|[_ ?]]%lookup_insert_Some]]%lookup_insert_Some]]%lookup_insert_Some;
    auto. by rewrite lookup_empty in *.
Qed.

Lemma sample_tree_ok : tree_ok sample_vnodes sample_kids.
Proof.
  split.
  - intros p v [[-> ->]|[[-> ->]|[-> ->]]]%sample_vnodes_inv; cbn; [|done|done].
    split; [done|]. split; [done|]. exists (sample_dir "bin" 0 3 1). split; [done|]. cbn. split; [done|]. split; [done|].
    by exists (sample_dir "etc" 0 0 1).
  - intros p c. unfold sample_kids. case_decide as E; [|by intros ?%elem_of_nil].
    subst p. intros Hc. split; [by eexists|]. repeat (apply elem_of_cons in Hc as [->|Hc]; [by eexists|]).
    by apply elem_of_nil in Hc.
  - intros p. unfold sample_kids. case_decide; [|by apply NoDup_nil_2].
    apply (bool_decide_unpack _). exact I.
  - done.
Qed.

Lemma vnode_attach_detach_witness :
  exists s', vnode_detach 2 sample_vfs = Ret (tt, s') /\ tree_ok (vnodes s') (kids_set 1 [3] sample_kids).
Proof.
  assert (v_parent (sample_dir "bin" 0 3 1) <> 2) as Hne by done.
  destruct (vnode_attach_detach sample_vfs sample_kids 2 (sample_dir "bin" 0 3 1) sample_tree_ok eq_refl Hne)
    as (_ & Hd & _).
  destruct (Hd [] [3] eq_refl) as (s' & E & Ht & _). exists s'. split; [exact E|exact Ht].
Defined.
