(* ===== verification/Vfs.v ===== *)
(** * Path lookup, symbolic links and mounts: [fs/vfs.c], [fs/fs_class.c]

    Paths are strings.  [vfs_find_internal] calls itself once per path element and once
    per link it has to load, so it takes a bound on the depth of the kernel stack; the
    theorems say which bound is enough, or that none is.  What file systems implement
    (the operation tables of vnodes, the file system classes and the per-process link
    functions) is the class [FsOps]. *)

From Stdlib Require Import Ascii.
From S2P Require Import Prelude Defs Vnode.

(** ** The interface of a file system *)
Record dirent := mk_dirent { d_ino : Z; d_off : Z; d_reclen : Z; d_type : Z; d_name : string }.
Record stat := mk_stat {
  st_dev : Z; st_ino : Z; st_mode : Z; st_nlink : Z; st_uid : Z; st_gid : Z; st_rdev : Z;
  st_size : Z; st_blksize : Z; st_blocks : Z; st_atime : Z; st_mtime : Z; st_ctime : Z;
}.

(** A vnode is passed by address, an open file likewise; an absent operation is [None]. *)
Record vnode_operations := mk_ops {
  op_find : option (Z -> string -> cmd vfs found);
  op_readdir : option (Z -> cmd vfs (Z * option dirent));
  op_opendir : option (Z -> cmd vfs Z);
  op_open : option (Z -> Z -> cmd vfs Z);
  op_close : option (Z -> cmd vfs unit);
  op_mknod : option (Z -> Z -> cmd vfs Z);
  op_creat : option (Z -> string -> Z -> Z -> Z -> cmd vfs Z);
  op_mkdir : option (Z -> string -> Z -> Z -> Z -> cmd vfs Z);
  op_truncate : option (Z -> Z -> cmd vfs Z);
  op_unlink : option (Z -> cmd vfs Z);
  op_lseek : option (Z -> Z -> Z -> cmd vfs Z);
  op_stat : option (Z -> cmd vfs (Z * option stat));
  op_chmod : option (Z -> Z -> cmd vfs Z);
  op_chown : option (Z -> Z -> Z -> cmd vfs Z);
  op_readlink : option (Z -> Z -> cmd vfs (Z * string));
  op_read : option (Z -> Z -> cmd vfs (Z * list Z));
  op_write : option (Z -> list Z -> cmd vfs Z);
}.

Record fs_class := mk_class {
  cls_name : string;
  cls_get_root : option (Z -> cmd vfs Z);
  cls_init : option (Z -> option string -> cmd vfs Z);
  cls_destroy : option (Z -> cmd vfs unit);
}.

(** What lies at the address of an operation table, a class and a link function. *)
Class FsOps := {
  ops_at : Z -> vnode_operations;
  class_at : Z -> fs_class;
  target_func_at : Z -> Z -> option Z -> cmd vfs (Z * string);
}.

(** ** Path strings *)
Fixpoint skip_slashes (s : string) : string :=
  match s with
  | String c r => if decide (c = "/"%char) then skip_slashes r else s
  | EmptyString => EmptyString
  end.

(** [strchr(s, '/')]: the bytes before the first slash, and the string from it on. *)
Fixpoint split_slash (s : string) : option (string * string) :=
  match s with
  | EmptyString => None
  | String c r =>
      if decide (c = "/"%char) then Some (EmptyString, s)
      else (fun ab => (String c ab.1, ab.2)) <$> split_slash r
  end.

(** [None] is the NULL the code returns at the end of the path.  The name buffer has
    [NODE_MAXLEN] bytes; only the copy up to a slash checks that the name fits. *)
Definition path_element (path : string) : cmd vfs (string * option string) :=
  match split_slash path with
  | None => if (String.length path <? NODE_MAXLEN)%nat then mret (path, None) else cfault
  | Some (name, sep) =>
      cassert (String.length name <? NODE_MAXLEN)%nat;;
      let rest := skip_slashes sep in
      mret (name, if bool_decide (rest = EmptyString) then None else Some rest)
  end.

(** Where the loop over [.] and [..] elements ends. *)
Inductive dots := DotHere | DotUp (rest : option string) | DotName (name : string) (rest : option string).

Fixpoint vfs_dots (fuel : nat) (path : string) : cmd vfs dots :=
  match fuel with
  | O => cdiverged
  | S fuel =>
      '(name, child_path) ← path_element path;
      if bool_decide (name = ".") then
        match child_path with
        | None | Some EmptyString => mret DotHere
        | Some p => vfs_dots fuel p
        end
      else if bool_decide (name = "..") then mret (DotUp child_path)
      else mret (DotName name child_path)
  end.

Section vfs.
Context `{FsOps, Slab}.

Definition vfs_lookup_or_load (dir : Z) (name : string) : cmd vfs found :=
  r ← vnode_lookup_child dir name;
  match r with
  | Found p => mret (Found p)
  | Err e =>
      if bool_decide (e ≠ - ENOENT) then mret (Err e)
      else
        d ← vn dir;
        if flagged (v_flags d) VN_MEMORY then mret (Err (- ENOENT))
        else
          cassert (nonnull (v_op d));;
          match op_find (ops_at (v_op d)) with
          | None => cpanic
          | Some find =>
              r ← find dir name;
              match r with
              | Err e => mret (Err e)
              | Found node => vnode_attach dir node;; mret (Found node)
              end
          end
  end.

(** [vfs_find], [vfs_link_resolve] and [vfs_find_internal] call each other: the first two
    take the third as an argument, which is closed below. *)
Section find.
Context (find_internal : vfs_ioctx -> Z -> option string -> Z -> cmd vfs found).

Definition vfs_find_with (ctx : vfs_ioctx) (rel : Z) (path : string) (link_itself : Z) : cmd vfs found :=
  root ← cgets vfs_root;
  if negb (nonnull root) then mret (Err (- ENOENT))
  else
    r ← (match path with
         | String "/" _ => find_internal ctx root (Some (skip_slashes path)) link_itself
         | _ =>
             let rel := if nonnull rel then rel else cwd_vnode ctx in
             let rel := if nonnull rel then rel else root in
             find_internal ctx rel (Some path) link_itself
         end);
    match r with
    | Err e => mret (Err e)
    | Found r =>
        v ← vn r;
        mret (Found (if is_type VN_MNT v then v_target v else r))
    end.

(** Load the target of a link from storage. *)
Definition link_load (ctx : vfs_ioctx) (lnk link_itself : Z) : cmd vfs Z :=
  l ← vn lnk;
  cassert (nonnull (v_op l));;
  match op_readlink (ops_at (v_op l)) with
  | None => cpanic
  | Some readlink =>
      cassert (nonnull (v_parent l));;
      '(res, path) ← readlink lnk (Z.of_nat PATH_MAX);
      if bool_decide (i32 res ≠ 0) then mret (i32 res)
      else
        l ← vn lnk;
        r ← vfs_find_with ctx (v_parent l) path link_itself;
        match r with
        | Err e => vn_update lnk (with_target 0);; mret e
        | Found p => vn_update lnk (with_target p);; mret 0
        end
  end.

Fixpoint vfs_link_resolve_internal (ctx : vfs_ioctx) (cnt : nat) (lnk link_itself : Z) : cmd vfs found :=
  cassert (nonnull lnk);;
  l ← vn lnk;
  if negb (is_type VN_LNK l) then mret (Found lnk)
  else
    res ← (if negb (nonnull (v_target l)) && negb (flagged (v_flags l) VN_MEMORY)
           then link_load ctx lnk link_itself else mret 0);
    if bool_decide (res ≠ 0) then mret (Err res)
    else
      l ← vn lnk;
      target ← (if flagged (v_flags l) VN_PER_PROCESS then
                  cassert (nonnull (v_target l));;
                  r ← target_func_at (v_target l) lnk None; mret r.1
                else mret (v_target l));
      if nonnull target then
        t ← vn target;
        if is_type VN_LNK t then
          match cnt with
          | S (S _ as cnt) => vfs_link_resolve_internal ctx cnt target link_itself
          | _ => mret (Err (- ELOOP))
          end
        else mret (Found target)
      else mret (Err (- ENOENT)).

(** The arguments for [link_itself] and [cnt] are passed in each other's place. *)
Definition vfs_link_resolve_with (ctx : vfs_ioctx) (lnk link_itself : Z) : cmd vfs found :=
  vfs_link_resolve_internal ctx (Z.to_nat link_itself) lnk LINK_MAX.

(** The end of a lookup: the last element, whose link is followed on request. *)
Definition find_last (ctx : vfs_ioctx) (node link_itself : Z) : cmd vfs found :=
  if bool_decide (link_itself ≠ 0) then mret (Found node)
  else
    n ← vn node;
    r ← (if is_type VN_LNK n then vfs_link_resolve_with ctx node 0 else mret (Found node));
    match r with
    | Err e => mret (Err e)
    | Found r =>
        v ← vn r;
        cassert (negb (is_type VN_LNK v));;
        mret (Found r)
    end.

(** One step into the directory [dir], through links and mounts. *)
Definition find_enter (ctx : vfs_ioctx) (dir link_itself : Z) : cmd vfs found :=
  a ← vn dir;
  r ← (if is_type VN_LNK a then vfs_link_resolve_with ctx dir link_itself else mret (Found dir));
  match r with
  | Err e => mret (Err e)
  | Found dir =>
      a ← vn dir;
      cassert (negb (is_type VN_LNK a));;
      dir ← (if is_type VN_MNT a then cassert (nonnull (v_target a));; mret (v_target a) else mret dir);
      a ← vn dir;
      mret (if is_type VN_DIR a then Found dir else Err (- ENOTDIR))
  end.
End find.

Fixpoint vfs_find_internal (fuel : nat) (ctx : vfs_ioctx) (dir : Z) (path : option string) (link_itself : Z)
    : cmd vfs found :=
  match fuel with
  | O => cdiverged
  | S fuel =>
      if negb (nonnull dir) then mret (Err (- ENOENT))
      else
        match path with
        | None | Some EmptyString => mret (Found dir)
        | Some path =>
            r ← find_enter (vfs_find_internal fuel) ctx dir link_itself;
            match r with
            | Err e => mret (Err e)
            | Found dir =>
                d ← vfs_dots (S (String.length path)) (skip_slashes path);
                match d with
                | DotHere => mret (Found dir)
                | DotUp rest =>
                    a ← vn dir;
                    let parent := if nonnull (v_parent a) then v_parent a else dir in
                    vfs_find_internal fuel ctx parent rest link_itself
                | DotName name rest =>
                    r ← vfs_lookup_or_load dir name;
                    match r with
                    | Err e => mret (Err e)
                    | Found node =>
                        cassert (nonnull node);;
                        match rest with
                        | None => find_last (vfs_find_internal fuel) ctx node link_itself
                        | Some p => vfs_find_internal fuel ctx node (Some p) link_itself
                        end
                    end
                end
            end
        end
  end.

Definition vfs_find (fuel : nat) := vfs_find_with (vfs_find_internal fuel).
Definition vfs_link_resolve (fuel : nat) := vfs_link_resolve_with (vfs_find_internal fuel).

(** ** The working directory *)

Definition cwd_to (p : Z) (ctx : vfs_ioctx) : vfs_ioctx := mk_ioctx p (ctx_umask ctx) (ctx_uid ctx) (ctx_gid ctx).

(** What both branches of [vfs_setcwd] do with the node they found. *)
Definition setcwd_node (fuel : nat) (ctx : vfs_ioctx) (node : Z) : cmd vfs (Z * vfs_ioctx) :=
  r ← vfs_link_resolve fuel ctx node 0;
  match r with
  | Err e => mret (e, ctx)
  | Found dst =>
      d ← vn dst;
      dst ← (if is_type VN_MNT d then cassert (nonnull (v_target d));; mret (v_target d) else mret dst);
      d ← vn dst;
      if negb (is_type VN_DIR d) then mret (- ENOTDIR, ctx)
      else
        res ← vfs_access_node ctx dst X_OK;
        if bool_decide (res ≠ 0) then mret (res, ctx)
        else mret (0, cwd_to dst ctx)
  end.

Definition vfs_setcwd (fuel : nat) (ctx : vfs_ioctx) (path : string) : cmd vfs (Z * vfs_ioctx) :=
  match path with
  | String "/" EmptyString => mret (0, cwd_to 0 ctx)
  | String "/" _ =>
      root ← cgets vfs_root;
      if negb (nonnull root) then mret (0, cwd_to 0 ctx)
      else
        r ← vfs_find_internal fuel ctx root (Some path) 0;
        match r with Err e => mret (e, ctx) | Found node => setcwd_node fuel ctx node end
  | _ =>
      r ← vfs_find fuel ctx (cwd_vnode ctx) path 0;
      match r with Err e => mret (e, ctx) | Found node => setcwd_node fuel ctx node end
  end.

(** The stack of [vfs_vnode_path], 16 nodes deep, root side first. *)
Fixpoint backstack (room : nat) (node : Z) (stack : list Z) : cmd vfs (list Z) :=
  v ← vn node;
  if nonnull (v_parent v) then
    match room with
    | O => cpanic
    | S room => backstack room (v_parent v) (node :: stack)
    end
  else mret stack.

(** The name a node has in a path: a file system root goes by its mountpoint. *)
Fixpoint path_of_stack (stack : list Z) : cmd vfs string :=
  match stack with
  | [] => mret EmptyString
  | item :: stack =>
      v ← vn item;
      v ← (if is_type VN_DIR v && nonnull (v_target v) then vn (v_target v) else mret v);
      rest ← path_of_stack stack;
      mret (String "/" (v_name v +:+ rest))
  end.

Definition vfs_vnode_path (node : Z) : cmd vfs string :=
  if negb (nonnull node) then mret "/"
  else
    v ← vn node;
    if negb (nonnull (v_parent v)) then mret "/"
    else stack ← backstack 16 node []; path_of_stack stack.

(** ** File system classes and mounts *)
Definition fs_class_by_name (name : string) : cmd vfs Z :=
  l ← cgets fs_class_list;
  mret (default 0 (list_find (fun c => cls_name (class_at c) = name) l ≫= fun ic => Some ic.2)).

Definition fs_class_register (cls : Z) : cmd vfs Z :=
  c ← fs_class_by_name (cls_name (class_at cls));
  if nonnull c then mret (- EEXIST)
  else cmodify (fun s => set_classes (cls :: fs_class_list s) s);; mret 0.

Definition fs_create (cls blk flags : Z) (opt : option string) : cmd vfs Z :=
  s ← cget;
  let p := slab_calloc (dom (fss s)) in
  cassert (nonnull p);;
  cmodify (fun s => set_fss (<[p := mk_fs blk flags 0 cls]> (fss s)) (fs_mount_list s) s);;
  match cls_init (class_at cls) with
  | Some init =>
      res ← init p opt;
      if bool_decide (res ≠ 0) then
        cmodify (fun s => set_fss (delete p (fss s)) (fs_mount_list s) s);; mret 0
      else cmodify (fun s => set_fss (fss s) (p :: fs_mount_list s) s);; mret p
  | None => cmodify (fun s => set_fss (fss s) (p :: fs_mount_list s) s);; mret p
  end.

Definition BLK_BUSY : Z := 1.
Definition blk_get (blk : Z) : cmd vfs Z := cload (fun s => blk_flags s !! blk).
Definition blk_update (blk : Z) (f : Z -> Z) : cmd vfs unit :=
  v ← blk_get blk; cmodify (fun s => set_blk_flags (<[blk := f v]> (blk_flags s)) s).

(** What prevents a mount before anything is created. *)
Definition mount_check (where_ blk : Z) : cmd vfs Z :=
  busy ← (if nonnull blk then f ← blk_get blk; mret (flagged f BLK_BUSY) else mret false);
  if (busy : bool) then mret (- EBUSY)
  else if nonnull where_ then
    a ← vn where_;
    mret (if nonnull (v_target a) then - EBUSY else if negb (is_type VN_DIR a) then - ENOTDIR else 0)
  else mret 0.

(** Hang the root of the new file system into the tree. *)
Definition mount_attach (where_ fs_root : Z) : cmd vfs unit :=
  if negb (nonnull where_) then cmodify (set_root fs_root)
  else
    vn_update where_ (with_type VN_MNT);;
    vn_update where_ (with_target fs_root);;
    vn_update fs_root (with_target where_);;
    a ← vn where_;
    vn_update fs_root (with_parent (v_parent a)).

Definition vfs_mount_internal (where_ blk cls flags : Z) (opt : option string) : cmd vfs Z :=
  res ← mount_check where_ blk;
  if bool_decide (res ≠ 0) then mret res
  else
    fs ← fs_create cls blk flags opt;
    if negb (nonnull fs) then mret (- EINVAL)
    else
      match cls_get_root (class_at cls) with
      | None => cpanic
      | Some get_root =>
          fs_root ← get_root fs;
          if negb (nonnull fs_root) then mret (- EINVAL)
          else
            mount_attach where_ fs_root;;
            (if nonnull blk then blk_update blk (fun f => Z.lor f BLK_BUSY) else mret tt);;
            mret 0
      end.

Definition blk_mount_auto (where_ blk flags : Z) (opt : option string) : cmd vfs Z :=
  cls ← fs_class_by_name "ext2";
  if nonnull cls then
    res ← vfs_mount_internal where_ blk cls flags opt;
    mret (if bool_decide (res = 0) then 0 else - EINVAL)
  else mret (- EINVAL).

Definition vfs_mount (fuel : nat) (ctx : vfs_ioctx) (where_ : string) (blk : Z) (fs : option string) (flags : Z)
    (opt : option string) : cmd vfs Z :=
  match where_ with
  | String "/" _ =>
      let auto := match fs with None => true | Some n => bool_decide (n = "auto") end in
      cls ← (if auto then mret 0 else fs_class_by_name (default EmptyString fs));
      if negb auto && negb (nonnull cls) then mret (- EINVAL)
      else
        r ← (if bool_decide (where_ = "/") then mret (Found 0) else vfs_find fuel ctx (cwd_vnode ctx) where_ 0);
        match r with
        | Err e => mret e
        | Found mountpoint =>
            if negb (nonnull cls) then
              if negb (nonnull blk) then mret (- EINVAL) else blk_mount_auto mountpoint blk flags opt
            else vfs_mount_internal mountpoint blk cls flags opt
        end
  | _ => mret (- EINVAL)
  end.

Definition fs_get (p : Z) : cmd vfs fs := cload (fun s => fss s !! p).

(** Taking a file system down, once its root is known not to be the root of everything. *)
Definition umount_node (node : Z) : cmd vfs Z :=
  n ← vn node;
  let mountpoint := v_target n in
  vn_update mountpoint (with_target node);;
  cassert (nonnull node);;
  vn_update mountpoint (with_type VN_DIR);;
  vn_update mountpoint (with_target 0);;
  n ← vn node;
  cassert (nonnull (v_fs n));;
  f ← fs_get (v_fs n);
  cassert (nonnull (fs_blk f));;
  cassert (nonnull (fs_cls f));;
  (match cls_destroy (class_at (fs_cls f)) with Some destroy => destroy (v_fs n) | None => mret tt end);;
  cmodify (fun s => set_fss (<[v_fs n := mk_fs 0 0 0 0]> (fss s)) (fs_mount_list s) s);;
  blk_update (fs_blk f) (fun x => Z.land x (Z.lnot BLK_BUSY));;
  mret 0.

Definition vfs_umount (fuel : nat) (ctx : vfs_ioctx) (dir_name : string) : cmd vfs Z :=
  r ← vfs_find fuel ctx (cwd_vnode ctx) dir_name 0;
  match r with
  | Err e => mret e
  | Found node =>
      n ← vn node;
      if negb (nonnull (v_parent n)) then mret (- EBUSY)
      else if negb (is_type VN_DIR n) then mret (- ENOTDIR)
      else if negb (nonnull (v_target n)) then mret (- EINVAL)
      else umount_node node
  end.
End vfs.

Definition S_IFMT : Z := 61440.
Definition S_IFSOCK : Z := 49152.
Definition S_IFLNK : Z := 40960.
Definition S_IFREG : Z := 32768.
Definition S_IFBLK : Z := 24576.
Definition S_IFDIR : Z := 16384.
Definition S_IFCHR : Z := 8192.
Definition S_IFIFO : Z := 4096.

Definition vfs_vnode_to_mode (t : vnode_type) : Z :=
  match t with
  | VN_MNT | VN_DIR => S_IFDIR
  | VN_LNK => S_IFLNK
  | VN_BLK => S_IFBLK
  | VN_CHR => S_IFCHR
  | _ => S_IFREG
  end.

(** ** The elements of a path *)
Section elements.
Implicit Types s name : string.

(** What lies between the slashes, without the empty pieces. *)
Fixpoint elems (s : string) : list string :=
  match s with
  | EmptyString => []
  | String c r =>
      if decide (c = "/"%char) then elems r
      else
        match r with
        | EmptyString => [String c EmptyString]
        | String d _ =>
            if decide (d = "/"%char) then String c EmptyString :: elems r
            else match elems r with n :: ns => String c n :: ns | [] => [String c EmptyString] end
        end
  end.

(** A path the code may pass on: not empty, not starting with a slash. *)
Definition plain s : Prop := match s with EmptyString => False | String c _ => c <> "/"%char end.

Lemma elems_skip s : elems (skip_slashes s) = elems s.
Proof. induction s as [|c r IH]; [done|]. cbn [skip_slashes]. case_decide as E; [|done]. rewrite IH. cbn. by rewrite decide_True. Qed.

Lemma skip_plain s : plain s -> skip_slashes s = s.
Proof. destruct s as [|c r]; [done|]. cbn. intros. by rewrite decide_False. Qed.

Lemma skip_slashes_ends s : skip_slashes s = EmptyString \/ plain (skip_slashes s).
Proof. induction s as [|c r IH]; [by left|]. cbn [skip_slashes]. case_decide; [done|]. by right. Qed.

Lemma skip_slashes_length s : (String.length (skip_slashes s) <= String.length s)%nat.
Proof. induction s as [|c r IH]; [done|]. cbn [skip_slashes]. case_decide; cbn [String.length]; lia. Qed.

Lemma split_slash_None s : split_slash s = None -> s <> EmptyString -> elems s = [s].
Proof.
  induction s as [|c r IH]; [done|]. cbn [split_slash elems]. case_decide as E; [done|]. intros Hs _.
  destruct r as [|d r']; [done|]. apply fmap_None in Hs. specialize (IH Hs ltac:(done)).
  destruct (decide (d = "/"%char)) as [->|]; [|by rewrite IH]. cbn in Hs. done.
Qed.

Lemma split_slash_Some s name sep : split_slash s = Some (name, sep) -> plain s ->
  elems s = name :: elems sep /\ (String.length sep < String.length s)%nat /\ name <> EmptyString.
Proof.
  revert name. induction s as [|c r IH]; intros name; [done|]. cbn [split_slash elems plain]. case_decide as E; [done|].
  intros ([n p] & Hr & [= -> ->])%fmap_Some _. destruct r as [|d r']; [done|].
  destruct (decide (d = "/"%char)) as [->|Hd].
  - cbn [split_slash] in Hr. rewrite decide_True in Hr by done. injection Hr as <- <-. cbn [String.length]. split; [done|]. split; [lia|done].
  - destruct (IH n Hr Hd) as (-> & Hl & _). cbn [String.length] in *. split; [done|]. split; [lia|done].
Qed.

Lemma path_element_run path (s : vfs) : plain path -> Forall (fun n => String.length n < NODE_MAXLEN)%nat (elems path) ->
  exists name rest, path_element path s = Ret ((name, rest), s) /\
    elems path = name :: elems (default EmptyString rest) /\
    match rest with Some r => plain r /\ (String.length r < String.length path)%nat | None => True end.
Proof.
  intros Hp Hl. unfold path_element. destruct (split_slash path) as [[name sep]|] eqn:E.
  - destruct (split_slash_Some _ _ _ E Hp) as (Ee & Hs & _). rewrite Ee in Hl. apply Forall_cons_1 in Hl as [Hn _].
    rewrite (bind_Ret _ _ s tt s) by by apply assert_run, Nat.ltb_lt. cbv zeta.
    pose proof (skip_slashes_length sep) as Hlen. eexists name, _. split; [done|].
    destruct (skip_slashes_ends sep) as [Er|Hr].
    + rewrite bool_decide_eq_true_2 by done. split; [|done]. by rewrite Ee, <- (elems_skip sep), Er.
    + rewrite bool_decide_eq_false_2 by (intros X; by rewrite X in Hr). split; [by rewrite Ee, <- (elems_skip sep)|].
      split; [done|lia].
  - assert (path <> EmptyString) as Hne by (by intros ->). rewrite (split_slash_None _ E Hne) in *.
    apply Forall_cons_1 in Hl as [Hn _]. rewrite (proj2 (Nat.ltb_lt _ _) Hn). by exists path, None.
Qed.

(** What the loop over the dots leaves. *)
Definition dots_ok path (d : dots) : Prop :=
  match d with
  | DotHere => exists k, elems path = replicate (S k) "."
  | DotUp rest => exists k, elems path = replicate k "." ++ ".." :: elems (default EmptyString rest)
  | DotName name rest =>
      name <> "." /\ name <> ".." /\ exists k, elems path = replicate k "." ++ name :: elems (default EmptyString rest)
  end /\
  match d with
  | DotUp (Some r) | DotName _ (Some r) => plain r /\ (String.length r < String.length path)%nat
  | _ => True
  end.

Lemma dots_run fuel : forall path (s : vfs), plain path ->
  Forall (fun n => String.length n < NODE_MAXLEN)%nat (elems path) -> (String.length path < fuel)%nat ->
  exists d, vfs_dots fuel path s = Ret (d, s) /\ dots_ok path d.
Proof.
  induction fuel as [|fuel IH]; intros path s Hp Hl Hf; [lia|]. cbn [vfs_dots].
  destruct (path_element_run path s Hp Hl) as (name & rest & E & Ee & Hr). rewrite (bind_Ret _ _ _ _ _ E).
  rewrite Ee in Hl. apply Forall_cons_1 in Hl as [_ Hl]. unfold dots_ok. case_bool_decide as Hdot.
  - subst name. destruct rest as [r|]; cbn [from_option id] in Ee, Hl.
    + destruct Hr as [Hpr Hlr]. destruct r as [|c r]; [done|]. destruct (IH (String c r) s Hpr Hl) as (d & Ed & Hd & Hd2); [lia|].
      exists d. split; [done|]. split.
      * destruct d as [|rest'|name rest']; [| |destruct Hd as (? & ? & Hd); split; [done|split; [done|]]];
          destruct Hd as [k Hk]; exists (S k); by rewrite Ee, Hk.
      * destruct d as [|[r'|]|? [r'|]]; try done; (split; [apply Hd2|]); destruct Hd2; lia.
    + exists DotHere. split; [done|]. split; [|done]. exists 0%nat. done.
  - case_bool_decide as Hdd.
    + subst name. exists (DotUp rest). split; [done|]. split; [|by destruct rest]. by exists 0%nat.
    + exists (DotName name rest). split; [done|]. split; [|by destruct rest]. split; [done|]. split; [done|]. by exists 0%nat.
Qed.
End elements.

(** ** The specification of a lookup

    On a tree held in memory (no directory and no link has to be loaded from storage) a
    lookup is a walk over the elements of the path. *)
Section walk.
Implicit Types (m : gmap Z vnode) (kids : Z -> list Z).

(** Through one symbolic link; a link to a link is refused. *)
Definition follow m (p : Z) : found :=
  match m !! p with
  | Some v =>
      if is_type VN_LNK v then
        match m !! v_target v with
        | Some t => if is_type VN_LNK t then Err (- ELOOP) else Found (v_target v)
        | None => Err (- ENOENT)
        end
      else Found p
  | None => Err (- ENOENT)
  end.

(** From a mountpoint to what is mounted there. *)
Definition cross m (p : Z) : Z :=
  match m !! p with Some v => if is_type VN_MNT v then v_target v else p | None => p end.

Definition is_dir m (p : Z) : bool := match m !! p with Some v => is_type VN_DIR v | None => false end.

(** The directory in which the next element is looked up. *)
Definition enter m (p : Z) : found :=
  match follow m p with
  | Found p => if is_dir m (cross m p) then Found (cross m p) else Err (- ENOTDIR)
  | Err e => Err e
  end.

Definition up m (p : Z) : Z :=
  match m !! p with Some v => if nonnull (v_parent v) then v_parent v else p | None => p end.

Fixpoint walk m kids (p : Z) (path : list string) (nofollow : bool) : found :=
  match path with
  | [] => Found p
  | name :: path =>
      match enter m p with
      | Err e => Err e
      | Found d =>
          if bool_decide (name = ".") then walk m kids d path nofollow
          else if bool_decide (name = "..") then walk m kids (up m d) path nofollow
          else
            match find_kid m (kids d) name with
            | None => Err (- ENOENT)
            | Some x =>
                match path with
                | [] => if nofollow then Found x else follow m x
                | _ => walk m kids x path nofollow
                end
            end
      end
  end.

(** A tree in memory: links are resolved, targets and parents exist. *)
Record memfs (s : vfs) kids : Prop := {
  mf_tree : tree_ok (vnodes s) kids;
  mf_root : is_Some (vnodes s !! vfs_root s);
  mf_link : forall p v, vnodes s !! p = Some v -> v_type v = VN_LNK ->
    flagged (v_flags v) VN_MEMORY = true /\ flagged (v_flags v) VN_PER_PROCESS = false /\
    (v_target v = 0 \/ is_Some (vnodes s !! v_target v));
  mf_mount : forall p v, vnodes s !! p = Some v -> v_type v = VN_MNT -> is_Some (vnodes s !! v_target v);
  mf_dir : forall p v, vnodes s !! p = Some v -> v_type v = VN_DIR -> flagged (v_flags v) VN_MEMORY = true;
  mf_parent : forall p v, vnodes s !! p = Some v -> v_parent v = 0 \/ is_Some (vnodes s !! v_parent v);
}.

Lemma memfs_null (s : vfs) kids p v : memfs s kids -> vnodes s !! p = Some v -> p <> 0.
Proof. intros H Hp ->. by rewrite (t_null _ _ (mf_tree _ _ H)) in Hp. Qed.

Lemma follow_dom (s : vfs) p q : follow (vnodes s) p = Found q -> exists v, vnodes s !! q = Some v /\ v_type v <> VN_LNK.
Proof.
  unfold follow, is_type. destruct (vnodes s !! p) as [v|] eqn:E; [|done]. case_bool_decide as Ht.
  - destruct (vnodes s !! v_target v) as [t|] eqn:Et; [|done]. case_bool_decide; [done|]. intros [= <-]. by exists t.
  - intros [= <-]. by exists v.
Qed.

Lemma enter_dir (s : vfs) p d : enter (vnodes s) p = Found d -> exists v, vnodes s !! d = Some v /\ v_type v = VN_DIR.
Proof.
  unfold enter. destruct (follow _ p) as [|q]; [done|]. destruct (is_dir _ (cross _ q)) eqn:E; [|done]. intros [= <-].
  unfold is_dir in E. destruct (vnodes s !! cross (vnodes s) q) as [v|]; [|done]. exists v. split; [done|].
  by apply bool_decide_eq_true_1 in E.
Qed.

(** Entering a directory stays there. *)
Lemma enter_self m d v : m !! d = Some v -> v_type v = VN_DIR -> enter m d = Found d.
Proof.
  intros Hd Ht. unfold enter, follow, is_type. rewrite Hd, Ht. change (bool_decide (VN_DIR = VN_LNK)) with false. cbv iota.
  assert (cross m d = d) as -> by (unfold cross, is_type; by rewrite Hd, Ht).
  unfold is_dir, is_type. by rewrite Hd, Ht.
Qed.

Lemma walk_dots (s : vfs) kids d v k path nf : vnodes s !! d = Some v -> v_type v = VN_DIR ->
  walk (vnodes s) kids d (replicate k "." ++ path) nf = walk (vnodes s) kids d path nf.
Proof.
  intros Hd Ht. induction k as [|k IH]; [done|]. cbn [replicate app walk].
  rewrite (enter_self _ d v Hd Ht). by rewrite bool_decide_eq_true_2.
Qed.

Lemma cross_dom (s : vfs) kids p : memfs s kids -> is_Some (vnodes s !! p) -> is_Some (vnodes s !! cross (vnodes s) p).
Proof.
  intros H [v Hv]. unfold cross, is_type. rewrite Hv. case_bool_decide; [|by exists v]. by apply (mf_mount _ _ H p v).
Qed.

Lemma up_dom (s : vfs) kids p v : memfs s kids -> vnodes s !! p = Some v -> is_Some (vnodes s !! up (vnodes s) p).
Proof.
  intros H Hv. unfold up, nonnull. rewrite Hv. destruct (mf_parent _ _ H p v Hv) as [->|Hp]; [by exists v|].
  case_bool_decide; [done|by exists v].
Qed.

Lemma walk_dom (s : vfs) kids nf : memfs s kids -> forall path p q, is_Some (vnodes s !! p) ->
  walk (vnodes s) kids p path nf = Found q -> is_Some (vnodes s !! q).
Proof.
  intros H path. induction path as [|name path IH]; intros p q Hp; cbn [walk]; [by intros [= <-]|].
  destruct (enter (vnodes s) p) as [|d] eqn:Ed; [done|]. destruct (enter_dir _ _ _ Ed) as (v & Hd & Ht).
  case_bool_decide; [apply IH; by exists v|]. case_bool_decide; [apply IH; by eapply up_dom|].
  destruct (find_kid _ (kids d) name) as [x|] eqn:Ex; [|done]. apply find_kid_elem in Ex as [Hx _].
  destruct (t_kid _ _ (mf_tree _ _ H) d x Hx) as (_ & xv & Hxv & _).
  destruct path; [|apply IH; by exists xv]. destruct nf; [intros [= <-]; by exists xv|].
  intros (w & Hw & _)%follow_dom. by exists w.
Qed.
End walk.

(** ** The code implements the walk *)
Section refine.
Context `{FsOps, Slab}.
Context (s : vfs) (kids : Z -> list Z) (Hm : memfs s kids) (ctx : vfs_ioctx).
Local Abbreviation m := (vnodes s).
Implicit Types find : vfs_ioctx -> Z -> option string -> Z -> cmd vfs found.

Lemma link_resolve_run find p v li : m !! p = Some v -> v_type v = VN_LNK -> 0 <= li <= 1 ->
  vfs_link_resolve_with find ctx p li s = Ret (follow m p, s).
Proof using Hm.
  intros Hp Ht Hli. pose proof (memfs_null _ _ _ _ Hm Hp) as Hp0. destruct (mf_link _ _ Hm p v Hp Ht) as (Hmem & Hpp & Htgt).
  unfold vfs_link_resolve_with, follow. rewrite Hp. unfold is_type at 1. rewrite Ht, bool_decide_eq_true_2 by done.
  assert (exists n, Z.to_nat li = n /\ (n <= 1)%nat) as (n & -> & Hn) by (eexists; split; [done|lia]).
  destruct n as [|[|n]]; [| |lia]; cbn [vfs_link_resolve_internal]; vassert; vload; unfold is_type at 1;
    (rewrite Ht, bool_decide_eq_true_2 by done); cbn [negb]; rewrite Hmem, andb_false_r;
    (erewrite bind_Ret by done); (rewrite bool_decide_eq_false_2 by (intros X; by apply X)); vload; rewrite Hpp;
    (erewrite bind_Ret by done); (destruct Htgt as [->|[t Et]];
      [rewrite (t_null _ _ (mf_tree _ _ Hm)); done|]); rewrite Et;
    (rewrite nonnull_true by by eapply memfs_null); vload; destruct (is_type VN_LNK t); done.
Qed.

Lemma maybe_link_run find p v li : m !! p = Some v -> 0 <= li <= 1 ->
  (if is_type VN_LNK v then vfs_link_resolve_with find ctx p li else mret (Found p)) s = Ret (follow m p, s).
Proof using Hm.
  intros Hp Hli. destruct (is_type VN_LNK v) eqn:E.
  - apply (link_resolve_run _ _ v); [done|by apply bool_decide_eq_true_1 in E|done].
  - unfold follow. by rewrite Hp, E.
Qed.

Lemma find_enter_run find p li : is_Some (m !! p) -> 0 <= li <= 1 ->
  find_enter find ctx p li s = Ret (enter m p, s).
Proof using Hm.
  intros [v Hp] Hli. unfold find_enter, enter. vload. rewrite (bind_Ret _ _ _ _ _ (maybe_link_run find p v li Hp Hli)).
  destruct (follow m p) as [e|q] eqn:Eq; [done|]. destruct (follow_dom _ _ _ Eq) as (w & Hw & Hl). vload.
  rewrite (bind_Ret _ _ s tt s) by (apply assert_run; unfold is_type; by rewrite bool_decide_eq_false_2).
  destruct (cross_dom s kids q Hm ltac:(by exists w)) as [c Hc].
  rewrite (bind_Ret _ _ s (cross m q) s).
  - vload. unfold is_dir. by rewrite Hc.
  - unfold cross. rewrite Hw. destruct (is_type VN_MNT w) eqn:Em; [|done]. apply bool_decide_eq_true_1 in Em.
    destruct (mf_mount _ _ Hm q w Hw Em) as [t Et].
    by rewrite (bind_Ret _ _ s tt s) by (apply assert_run, nonnull_true; by eapply memfs_null).
Qed.

Lemma find_last_run find p li : is_Some (m !! p) -> 0 <= li <= 1 ->
  find_last find ctx p li s = Ret (if bool_decide (li ≠ 0) then Found p else follow m p, s).
Proof using Hm.
  intros [v Hp] Hli. unfold find_last. case_bool_decide; [done|]. vload.
  rewrite (bind_Ret _ _ _ _ _ (maybe_link_run find p v 0 Hp ltac:(lia))).
  destruct (follow m p) as [e|q] eqn:Eq; [done|]. destruct (follow_dom _ _ _ Eq) as (w & Hw & Hl). vload.
  by rewrite (bind_Ret _ _ s tt s) by (apply assert_run; unfold is_type; by rewrite bool_decide_eq_false_2).
Qed.

Lemma lookup_or_load_run d v name : m !! d = Some v -> v_type v = VN_DIR -> (String.length name < NODE_MAXLEN)%nat ->
  vfs_lookup_or_load d name s = Ret (from_option Found (Err (- ENOENT)) (find_kid m (kids d) name), s).
Proof using Hm.
  intros Hd Ht Hn. unfold vfs_lookup_or_load.
  rewrite (bind_Ret _ _ _ _ _ (lookup_child_run s kids d name (mf_tree _ _ Hm) ltac:(by exists v) Hn)).
  destruct (find_kid m (kids d) name) as [x|]; cbn [from_option]; [done|].
  rewrite bool_decide_eq_false_2 by (intros X; by apply X). vload. by rewrite (mf_dir _ _ Hm d v Hd Ht).
Qed.

Lemma walk_enter p d path nf : enter m p = Found d -> path <> [] -> walk m kids p path nf = walk m kids d path nf.
Proof.
  intros E Hne. destruct (enter_dir _ _ _ E) as (v & Hd & Ht). destruct path as [|name path]; [done|]. cbn [walk].
  by rewrite E, (enter_self m d v Hd Ht).
Qed.

Lemma elems_plain path : plain path -> elems path <> [].
Proof.
  destruct path as [|c r]; [done|]. cbn [plain elems]. intros Hc. rewrite decide_False by done.
  destruct r as [|d r]; [done|]. destruct (decide _); [done|]. by destruct (elems _).
Qed.

Lemma find_internal_run li : 0 <= li <= 1 -> forall fuel path p, is_Some (m !! p) -> plain path ->
  Forall (fun n => String.length n < NODE_MAXLEN)%nat (elems path) -> (String.length path < fuel)%nat ->
  vfs_find_internal fuel ctx p (Some path) li s = Ret (walk m kids p (elems path) (bool_decide (li ≠ 0)), s).
Proof using Hm.
  intros Hli fuel. induction fuel as [|fuel IH]; intros path p Hp Hpl Hl Hf; [lia|]. cbn [vfs_find_internal].
  assert (p <> 0) as Hp0 by (destruct Hp as [v Hv]; by eapply memfs_null).
  rewrite nonnull_true by done. cbn [negb]. set (nf := bool_decide (li ≠ 0)).
  transitivity ((r ← find_enter (vfs_find_internal fuel) ctx p li;
     match r with Err e => mret (Err e) | Found dir =>
       d ← vfs_dots (S (String.length path)) (skip_slashes path);
       match d with
       | DotHere => mret (Found dir)
       | DotUp rest => a ← vn dir; vfs_find_internal fuel ctx (if nonnull (v_parent a) then v_parent a else dir) rest li
       | DotName name rest => r ← vfs_lookup_or_load dir name;
           match r with Err e => mret (Err e) | Found node => cassert (nonnull node);;
             match rest with None => find_last (vfs_find_internal fuel) ctx node li
             | Some p => vfs_find_internal fuel ctx node (Some p) li end end
       end end) s); [by destruct path|].
  rewrite (bind_Ret _ _ _ _ _ (find_enter_run _ p li Hp Hli)).
  pose proof (elems_plain path Hpl) as Hne. destruct (enter m p) as [e|dir] eqn:Ee.
  { destruct (elems path); [done|]. cbn [walk]. by rewrite Ee. }
  rewrite (walk_enter p dir _ nf Ee Hne). destruct (enter_dir _ _ _ Ee) as (dv & Hd & Ht).
  destruct (dots_run (S (String.length path)) path s Hpl Hl ltac:(lia)) as (d & Ed & Hdk & Hdr).
  rewrite (skip_plain _ Hpl), (bind_Ret _ _ _ _ _ Ed).
  assert (exists f, fuel = S f) as [f Ef] by (destruct fuel; [destruct path; [done|cbn in Hf; lia]|eauto]).
  destruct d as [|rest|name rest].
  - destruct Hdk as [k ->]. rewrite <- (app_nil_r (replicate (S k) ".")). by rewrite (walk_dots s kids dir dv).
  - destruct Hdk as [k Ek]. rewrite Ek in Hl |- *. rewrite (walk_dots s kids dir dv) by done. vload.
    cbn [walk]. rewrite (enter_self m dir dv Hd Ht). change (bool_decide (".." = ".")) with false.
    rewrite bool_decide_eq_true_2 by done. cbv iota.
    assert ((if nonnull (v_parent dv) then v_parent dv else dir) = up m dir) as -> by (unfold up; by rewrite Hd).
    pose proof (up_dom s kids dir dv Hm Hd) as Hup. apply Forall_app in Hl as [_ [_ Hl]%Forall_cons_1].
    destruct rest as [r|]; cbn [from_option id] in *.
    + apply IH; [done|apply Hdr|done|destruct Hdr; lia].
    + destruct Hup as [uv Hup]. rewrite Ef. cbn [vfs_find_internal]. rewrite nonnull_true by by eapply memfs_null. done.
  - destruct Hdk as (Hn1 & Hn2 & k & Ek). rewrite Ek in Hl |- *. rewrite (walk_dots s kids dir dv) by done.
    apply Forall_app in Hl as [_ [Hn Hl]%Forall_cons_1]. rewrite (bind_Ret _ _ _ _ _ (lookup_or_load_run dir dv name Hd Ht Hn)).
    cbn [walk]. rewrite (enter_self m dir dv Hd Ht), !bool_decide_eq_false_2 by done.
    destruct (find_kid m (kids dir) name) as [x|] eqn:Ex; cbn [from_option id]; [|done].
    apply find_kid_elem in Ex as [Hx _]. destruct (t_kid _ _ (mf_tree _ _ Hm) dir x Hx) as (_ & xv & Hxv & _).
    rewrite (bind_Ret _ _ s tt s) by (apply assert_run, nonnull_true; by eapply memfs_null).
    destruct rest as [r|]; cbn [from_option id] in *.
    + destruct Hdr as [Hpr Hlr]. rewrite IH; [|by exists xv|done|done|lia].
      pose proof (elems_plain r Hpr). by destruct (elems r).
    + by rewrite (find_last_run _ x li ltac:(by exists xv) Hli).
Qed.

(** Where a lookup starts. *)
Definition absolute (path : string) : bool := match path with String "/" _ => true | _ => false end.
Definition find_start (rel : Z) (path : string) : Z :=
  if absolute path then vfs_root s
  else if nonnull rel then rel else if nonnull (cwd_vnode ctx) then cwd_vnode ctx else vfs_root s.

(** A lookup of any path, from a node: an empty rest ends it. *)
Lemma find_any_run li fuel path p : 0 <= li <= 1 -> is_Some (m !! p) -> (path = EmptyString \/ plain path) ->
  Forall (fun n => String.length n < NODE_MAXLEN)%nat (elems path) -> (String.length path < fuel)%nat ->
  vfs_find_internal fuel ctx p (Some path) li s = Ret (walk m kids p (elems path) (bool_decide (li ≠ 0)), s).
Proof using Hm.
  intros Hli Hp [->|Hpl] Hl Hf; [|by apply find_internal_run]. destruct fuel; [lia|]. destruct Hp as [v Hv].
  cbn [vfs_find_internal]. by rewrite nonnull_true by by eapply memfs_null.
Qed.

Lemma find_start_dom rel path : (rel = 0 \/ is_Some (m !! rel)) -> (cwd_vnode ctx = 0 \/ is_Some (m !! cwd_vnode ctx)) ->
  is_Some (m !! find_start rel path).
Proof using Hm.
  intros Hrel Hcwd. unfold find_start. pose proof (mf_root _ _ Hm). destruct (absolute path); [done|].
  unfold nonnull. case_bool_decide; [by destruct Hrel|]. case_bool_decide; [by destruct Hcwd|done].
Qed.

Lemma vfs_find_run fuel rel path li : 0 <= li <= 1 ->
  (rel = 0 \/ is_Some (m !! rel)) -> (cwd_vnode ctx = 0 \/ is_Some (m !! cwd_vnode ctx)) ->
  Forall (fun n => String.length n < NODE_MAXLEN)%nat (elems path) -> (String.length path < fuel)%nat ->
  vfs_find fuel ctx rel path li s =
    Ret (match walk m kids (find_start rel path) (elems path) (bool_decide (li ≠ 0)) with
         | Found r => Found (cross m r)
         | Err e => Err e
         end, s).
Proof using Hm.
  intros Hli Hrel Hcwd Hl Hf. pose proof (find_start_dom rel path Hrel Hcwd) as Hs.
  unfold vfs_find, vfs_find_with. erewrite bind_Ret by done. destruct (mf_root _ _ Hm) as [rv Hr].
  rewrite (nonnull_true (vfs_root s)) by by eapply memfs_null. cbn [negb].
  rewrite (bind_Ret _ _ s (walk m kids (find_start rel path) (elems path) (bool_decide (li ≠ 0))) s).
  - destruct (walk m kids _ (elems path) _) as [e|q] eqn:Ew; [done|].
    destruct (walk_dom s kids _ Hm _ _ _ Hs Ew) as [w Hw]. vload. unfold cross. by rewrite Hw.
  - unfold find_start in *. destruct (absolute path) eqn:Ea.
    + assert (exists r, path = String "/" r) as [r ->].
      { destruct path as [|c r]; [done|]. exists r. f_equal. by destruct c as [[] [] [] [] [] [] [] []]. }
      rewrite <- (elems_skip (String "/" r)) in *. pose proof (skip_slashes_length (String "/" r)).
      apply find_any_run; [done|done|apply skip_slashes_ends|done|lia].
    + transitivity (vfs_find_internal fuel ctx
        (if nonnull rel then rel else if nonnull (cwd_vnode ctx) then cwd_vnode ctx else vfs_root s) (Some path) li s).
      { destruct path as [|[[] [] [] [] [] [] [] []] r]; try done; by destruct (nonnull rel) eqn:En; rewrite ?En. }
      apply find_any_run; [done|done| |done|done]. destruct path as [|c r]; [by left|right]. cbn. by intros ->.
Qed.
End refine.


(** ** From a node to its path and back *)
Section paths.
Implicit Types (m : gmap Z vnode) (kids : Z -> list Z).

Fixpoint noslash (s : string) : bool :=
  match s with EmptyString => true | String c r => bool_decide (c ≠ "/"%char) && noslash r end.

Definition good_name (n : string) : Prop :=
  n <> EmptyString /\ noslash n = true /\ n <> "." /\ n <> ".." /\ (String.length n < NODE_MAXLEN)%nat.

(** [lineage m kids p l]: [l] descends from [p], each node being found under its own name
    in the one before it; all but the last are directories on which nothing is mounted. *)
Fixpoint lineage m kids (p : Z) (l : list Z) : Prop :=
  match l with
  | [] => True
  | x :: l =>
      (exists v, m !! x = Some v /\ v_parent v = p /\ good_name (v_name v) /\ find_kid m (kids p) (v_name v) = Some x /\
        (v_type v = VN_DIR /\ v_target v = 0 \/ l = [] /\ v_type v <> VN_LNK /\ v_type v <> VN_MNT /\ v_type v <> VN_DIR)) /\
      lineage m kids x l
  end.

Definition tip (p : Z) (l : list Z) : Z := default p (list.last l).
Definition name_of m (x : Z) : string := default EmptyString (v_name <$> m !! x).
Fixpoint join (names : list string) : string :=
  match names with [] => EmptyString | n :: names => String "/" (n +:+ join names) end.

Lemma elems_app n rest : n <> EmptyString -> noslash n = true -> rest = EmptyString \/ absolute rest = true ->
  elems (n +:+ rest) = n :: elems rest.
Proof.
  intros Hn Hs Hr. induction n as [|c n IH]; [done|]. cbn [noslash] in Hs.
  apply andb_prop in Hs as [Hc%bool_decide_eq_true_1 Hs]. change (String c n +:+ rest) with (String c (n +:+ rest)).
  cbn [elems]. rewrite decide_False by done. destruct n as [|d n].
  - change (EmptyString +:+ rest) with rest. destruct Hr as [->|Ha]; [done|]. destruct rest as [|d r]; [done|].
    assert (d = "/"%char) as -> by by destruct d as [[] [] [] [] [] [] [] []]. by rewrite decide_True.
  - specialize (IH ltac:(done) Hs). change (String d n +:+ rest) with (String d (n +:+ rest)) in *.
    cbn [noslash] in Hs. apply andb_prop in Hs as [Hd%bool_decide_eq_true_1 _]. rewrite decide_False by done. by rewrite IH.
Qed.

Lemma elems_join names : Forall good_name names -> elems (join names) = names.
Proof.
  induction names as [|n names IH]; [done|]. intros [(Hn & Hs & _) Hl]%Forall_cons_1. cbn [join].
  change (elems (String "/" (n +:+ join names))) with (elems (n +:+ join names)).
  rewrite elems_app; [by rewrite IH|done|done|]. destruct names; [by left|by right].
Qed.

Lemma tip_cons p x l : tip p (x :: l) = tip x l.
Proof. unfold tip. rewrite last_cons. by destruct (list.last l). Qed.

Lemma lineage_snoc m kids l x : forall p, lineage m kids p (l ++ [x]) ->
  lineage m kids p l /\ exists v, m !! x = Some v /\ v_parent v = tip p l.
Proof.
  induction l as [|y l IH]; intros p; cbn [app lineage].
  - intros [(v & Hv & Hp & _) _]. split; [done|]. by exists v.
  - intros [(v & Hv & Hp & Hg & Hf & Ht) Hl]. destruct (IH y Hl) as (Hl' & w & Hw & Hwp).
    split; [|exists w; split; [done|]; by rewrite Hwp, tip_cons]. split; [|done]. exists v.
    do 4 (split; [done|]). destruct Ht as [?|(Hnil & _)]; [by left|]. by destruct l.
Qed.

Lemma lineage_names m kids l : forall p, lineage m kids p l -> Forall good_name (name_of m <$> l).
Proof.
  induction l as [|x l IH]; intros p; cbn [lineage]; [constructor|]. intros [(v & Hv & _ & Hg & _) Hl].
  constructor; [|by eapply IH]. unfold name_of. by rewrite Hv.
Qed.

Context (s : vfs) (kids : Z -> list Z) (Hm : memfs s kids).

(** Climbing from the tip collects the lineage. *)
Lemma backstack_run p rv : vnodes s !! p = Some rv -> v_parent rv = 0 -> forall l room stack,
  lineage (vnodes s) kids p l -> (length l <= room)%nat -> backstack room (tip p l) stack s = Ret (l ++ stack, s).
Proof using Hm.
  intros Hp Hr l. induction l as [|x l IH] using rev_ind; intros room stack Hl Hlen.
  - destruct room; cbn [tip list.last from_option id backstack]; vload; by rewrite Hr.
  - destruct (lineage_snoc _ _ _ _ _ Hl) as (Hl' & v & Hv & Ev). rewrite length_app in Hlen. cbn in Hlen.
    destruct room as [|room]; [lia|]. unfold tip at 1. rewrite last_snoc. cbn [from_option id backstack]. vload.
    assert (is_Some (vnodes s !! tip p l)) as [w Hw].
    { destruct l as [|y l0] using rev_ind; [by exists rv|]. destruct (lineage_snoc _ _ _ _ _ Hl') as (_ & w & Hw & _).
      exists w. unfold tip. by rewrite last_snoc. }
    rewrite Ev, nonnull_true by by eapply memfs_null. rewrite IH by (done || lia). by rewrite <- app_assoc.
Qed.

Lemma path_of_stack_run l : forall p, lineage (vnodes s) kids p l ->
  path_of_stack l s = Ret (join (name_of (vnodes s) <$> l), s).
Proof.
  induction l as [|x l IH]; intros p; cbn [lineage path_of_stack]; [done|].
  intros [(v & Hv & _ & _ & _ & Ht) Hl]. vload. rewrite (bind_Ret _ _ s v s).
  - rewrite (bind_Ret _ _ _ _ _ (IH x Hl)). cbn [fmap list_fmap join]. unfold name_of at 2. by rewrite Hv.
  - unfold is_type. destruct Ht as [(-> & ->)|(_ & _ & _ & Ht)]; [done|]. by rewrite bool_decide_eq_false_2.
Qed.

(** Walking the names of a lineage arrives at its tip. *)
Lemma walk_lineage l : forall p pv, l <> [] -> vnodes s !! p = Some pv -> v_type pv = VN_DIR ->
  lineage (vnodes s) kids p l ->
  walk (vnodes s) kids p (name_of (vnodes s) <$> l) false = Found (tip p l) /\
  cross (vnodes s) (tip p l) = tip p l.
Proof.
  induction l as [|x l IH]; intros p pv; [done|]. intros _ Hp Hd. cbn [lineage].
  intros [(v & Hv & Hpar & (_ & _ & Hn1 & Hn2 & _) & Hf & Ht) Hl]. cbn [fmap list_fmap walk].
  rewrite (enter_self _ p pv Hp Hd). assert (name_of (vnodes s) x = v_name v) as -> by (unfold name_of; by rewrite Hv).
  rewrite !bool_decide_eq_false_2 by done. rewrite Hf. destruct l as [|y l].
  - unfold tip, follow, cross, is_type. cbn [list.last from_option id fmap list_fmap].
    destruct Ht as [(Htt & _)|(_ & H1 & H2 & _)]; rewrite Hv, !bool_decide_eq_false_2 by congruence; done.
  - destruct Ht as [(Htt & _)|(? & _)]; [|done]. rewrite tip_cons. exact (IH x v ltac:(done) Hv Htt Hl).
Qed.
End paths.


(** A symbolic link to a symbolic link is never resolved: although [LINK_MAX] is 16,
    resolving a link (in memory, or loaded before) whose target is itself a link answers
    -ELOOP, because the link count and the "link itself" flag change places in the call. *)
Theorem link_to_link_eloop `{FsOps} s kids ctx fuel lnk l t li :
  memfs s kids -> vnodes s !! lnk = Some l -> v_type l = VN_LNK ->
  vnodes s !! v_target l = Some t -> v_type t = VN_LNK -> 0 <= li <= 1 ->
  vfs_link_resolve fuel ctx lnk li s = Ret (Err (- ELOOP), s).
Proof.
  intros Hm Hl Ht Htg Htt Hli. unfold vfs_link_resolve. rewrite (link_resolve_run s kids Hm ctx _ lnk l li Hl Ht Hli).
  unfold follow, is_type. by rewrite Hl, Ht, bool_decide_eq_true_2, Htg, Htt, bool_decide_eq_true_2.
Qed.

(** ** A file system that holds a link into itself

    A directory 1 on storage with the link 2 named [a], whose content is [a/x]. *)
Definition loop_ops : FsOps := {|
  ops_at := fun _ => mk_ops None None None None None None None None None None None None None None
    (Some (fun _ _ => mret (0, "a/x"))) None None;
  class_at := fun _ => mk_class "" None None None;
  target_func_at := fun _ _ _ => mret (0, EmptyString);
|}.
Definition loop_dir : vnode := mk_vnode VN_DIR "" 0 2 0 0 0 0 0 0 0 0 0 0 0 9.
Definition loop_link : vnode := mk_vnode VN_LNK "a" 0 0 0 1 0 0 0 0 0 0 0 0 0 9.
Definition loop_vfs : vfs := mk_vfs (<[1 := loop_dir]> {[2 := loop_link]}) 1 ∅ ∅ [] [] ∅.

Lemma loop_diverges ctx fuel : forall li,
  @vfs_find_internal loop_ops fuel ctx 1 (Some "a/x") li loop_vfs = Diverged /\
  @vfs_find_internal loop_ops fuel ctx 2 (Some "x") li loop_vfs = Diverged.
Proof.
  induction fuel as [|fuel IH]; intros li; [done|]. split; [exact (proj2 (IH li))|].
  cbn [vfs_find_internal]. change (negb (nonnull 2)) with false. cbv iota. apply bind_Diverged.
  unfold find_enter. erewrite bind_Ret by reflexivity. change (is_type VN_LNK loop_link) with true. cbv iota.
  apply bind_Diverged. unfold vfs_link_resolve_with.
  assert (forall cnt, @vfs_link_resolve_internal loop_ops (@vfs_find_internal loop_ops fuel) ctx cnt 2 LINK_MAX loop_vfs = Diverged)
    as Hd; [|apply Hd].
  intros cnt. assert (@link_load loop_ops (@vfs_find_internal loop_ops fuel) ctx 2 LINK_MAX loop_vfs = Diverged) as Hl.
  { unfold link_load. do 2 (erewrite bind_Ret by reflexivity). cbn [op_readlink ops_at loop_ops].
    do 2 (erewrite bind_Ret by reflexivity). cbv beta iota. change (bool_decide (i32 0 ≠ 0)) with false. cbv iota.
    erewrite bind_Ret by reflexivity. apply bind_Diverged. unfold vfs_find_with. erewrite bind_Ret by reflexivity.
    change (negb (nonnull 1)) with false. cbv iota. apply bind_Diverged. exact (proj1 (IH LINK_MAX)). }
  destruct cnt; cbn [vfs_link_resolve_internal]; do 2 (erewrite bind_Ret by reflexivity);
    change (negb (is_type VN_LNK loop_link)) with false; cbv iota; apply bind_Diverged; exact Hl.
Qed.

(** Path lookup need not end: on a file system with a link [a] whose content is
    [a/x], looking up [a/x] exhausts every stack, however deep.  Resolving the link looks
    up its content, which passes through the same unresolved link again; neither the
    depth nor the number of links is counted. *)
Theorem self_link_lookup_diverges ctx fuel li :
  @vfs_find loop_ops fuel ctx 1 "a/x" li loop_vfs = Diverged.
Proof.
  unfold vfs_find, vfs_find_with. erewrite bind_Ret by reflexivity. change (negb (nonnull (vfs_root loop_vfs))) with false.
  cbv iota. apply bind_Diverged. exact (proj1 (loop_diverges ctx fuel li)).
Qed.

(** ** Mounting *)
Section mounts.
Context `{FsOps, Slab}.
Implicit Types s : vfs.

Lemma blk_get_run s b f : blk_flags s !! b = Some f -> blk_get b s = Ret (f, s).
Proof. exact (load_Some (fun s => blk_flags s !! b) s f). Qed.

Lemma blk_update_run s b f g : blk_flags s !! b = Some f ->
  blk_update b g s = Ret (tt, set_blk_flags (<[b := g f]> (blk_flags s)) s).
Proof. intros E. unfold blk_update. by rewrite (bind_Ret _ _ _ _ _ (blk_get_run s b f E)). Qed.

(** A class without an initialiser whose root is [root]: what a mount needs of a driver. *)
Definition simple_class (cls root : Z) : Prop :=
  cls_init (class_at cls) = None /\ cls_destroy (class_at cls) = None /\
  exists g, cls_get_root (class_at cls) = Some g /\ forall p s, g p s = Ret (root, s).

Lemma fs_create_run s cls blk flags opt p : cls_init (class_at cls) = None -> slab_calloc (dom (fss s)) = p -> p <> 0 ->
  fs_create cls blk flags opt s =
    Ret (p, set_fss (<[p := mk_fs blk flags 0 cls]> (fss s)) (p :: fs_mount_list s) s).
Proof.
  intros Hi Hp Hp0. unfold fs_create. erewrite bind_Ret by reflexivity. rewrite Hp. vassert.
  erewrite bind_Ret by reflexivity. rewrite Hi. by erewrite bind_Ret by reflexivity.
Qed.

(** What a mount leaves in the store. *)
Definition mounted (where_ root : Z) (a r : vnode) (m : gmap Z vnode) : gmap Z vnode :=
  <[root := with_parent (v_parent a) (with_target where_ r)]> (<[where_ := with_target root (with_type VN_MNT a)]> m).

Lemma mount_attach_run s where_ root a r : where_ <> 0 -> where_ <> root ->
  vnodes s !! where_ = Some a -> vnodes s !! root = Some r ->
  mount_attach where_ root s = Ret (tt, set_vnodes (mounted where_ root a r (vnodes s)) s).
Proof.
  intros Hw0 Hne Ha Hr. unfold mount_attach. rewrite nonnull_true by done. cbn [negb]. vupd. vupd. vupd. vload.
  rewrite (vn_update_run _ root _ (with_target where_ r)) by vfind. cbn [vnodes set_vnodes]. rewrite set_vnodes_vnodes.
  unfold mounted. by rewrite !insert_insert_eq.
Qed.

Lemma mount_check_ok s where_ blk a f : vnodes s !! where_ = Some a -> v_type a = VN_DIR -> v_target a = 0 ->
  (blk = 0 \/ blk_flags s !! blk = Some f /\ flagged f BLK_BUSY = false) ->
  mount_check where_ blk s = Ret (0, s).
Proof.
  intros Ha Ht Htg Hb. unfold mount_check. rewrite (bind_Ret _ _ s false s).
  - cbv iota. destruct (nonnull where_); [|done]. vload. rewrite Htg. unfold is_type. by rewrite Ht.
  - destruct Hb as [->|[Hf Hz]]; [done|]. destruct (nonnull blk); [|done].
    rewrite (bind_Ret _ _ _ _ _ (blk_get_run s blk f Hf)). by rewrite Hz.
Qed.

Lemma set_busy_clear f : 0 <= f -> flagged f BLK_BUSY = false -> Z.land (Z.lor f BLK_BUSY) (Z.lnot BLK_BUSY) = f.
Proof.
  intros Hf E. unfold flagged, BLK_BUSY in *. apply negb_false_iff, Z.eqb_eq in E.
  apply Z.bits_inj'. intros n Hn. rewrite Z.land_spec, Z.lor_spec, Z.lnot_spec by done.
  change 1 with (2 ^ 0) in *. destruct (decide (n = 0)) as [->|Hne].
  - rewrite Z.pow2_bits_true by done. rewrite orb_true_r. cbn [negb andb].
    assert (Z.testbit (Z.land f (2 ^ 0)) 0 = false) as Hb by (rewrite E; done).
    rewrite Z.land_spec, Z.pow2_bits_true, andb_true_r in Hb by done. by rewrite Hb.
  - rewrite Z.pow2_bits_false by congruence. by rewrite orb_false_r, andb_true_r.
Qed.

(** The state after a successful mount. *)
Definition mount_state (s : vfs) (where_ root blk cls flags p : Z) (a r : vnode) : vfs :=
  let s1 := set_vnodes (mounted where_ root a r (vnodes s))
    (set_fss (<[p := mk_fs blk flags 0 cls]> (fss s)) (p :: fs_mount_list s) s) in
  if nonnull blk then set_blk_flags (alter (fun f => Z.lor f BLK_BUSY) blk (blk_flags s)) s1 else s1.

Lemma mount_run s where_ root blk cls flags opt p a r f :
  where_ <> 0 -> where_ <> root -> root <> 0 -> vnodes s !! where_ = Some a -> v_type a = VN_DIR -> v_target a = 0 ->
  vnodes s !! root = Some r -> (blk = 0 \/ blk_flags s !! blk = Some f /\ flagged f BLK_BUSY = false) ->
  simple_class cls root -> slab_calloc (dom (fss s)) = p -> p <> 0 ->
  vfs_mount_internal where_ blk cls flags opt s = Ret (0, mount_state s where_ root blk cls flags p a r).
Proof.
  intros Hw0 Hne Hr0 Ha Ht Htg Hr Hb (Hi & Hd & g & Hg & Hgr) Hp Hp0. unfold vfs_mount_internal.
  rewrite (bind_Ret _ _ _ _ _ (mount_check_ok s where_ blk a f Ha Ht Htg Hb)).
  rewrite bool_decide_eq_false_2 by (intros X; by apply X).
  rewrite (bind_Ret _ _ _ _ _ (fs_create_run s cls blk flags opt p Hi Hp Hp0)). rewrite (nonnull_true p) by done. cbn [negb].
  rewrite Hg, (bind_Ret _ _ _ _ _ (Hgr p _)). rewrite (nonnull_true root) by done. cbn [negb].
  erewrite bind_Ret; [|by apply mount_attach_run]. unfold mount_state. destruct (nonnull blk) eqn:Eb; [|done].
  destruct Hb as [->|[Hf _]]; [done|]. erewrite bind_Ret; [|by eapply blk_update_run]. cbn.
  assert (alter (fun f => Z.lor f BLK_BUSY) blk (blk_flags s) = <[blk := Z.lor f BLK_BUSY]> (blk_flags s)) as ->; [|done].
  apply map_eq. intros i. destruct (decide (i = blk)) as [->|]; by simplify_map_eq.
Qed.

(** Taking down what was just mounted. *)
Lemma umount_node_run s root mp r m0 fsv blk f : vnodes s !! root = Some r -> v_target r = mp -> root <> 0 -> mp <> root ->
  vnodes s !! mp = Some m0 -> v_fs r <> 0 -> fss s !! v_fs r = Some fsv -> fs_blk fsv = blk -> blk <> 0 -> fs_cls fsv <> 0 ->
  cls_destroy (class_at (fs_cls fsv)) = None -> blk_flags s !! blk = Some f ->
  exists s', umount_node root s = Ret (0, s') /\
    vnodes s' = <[mp := with_target 0 (with_type VN_DIR (with_target root m0))]> (vnodes s) /\
    blk_flags s' = <[blk := Z.land f (Z.lnot BLK_BUSY)]> (blk_flags s).
Proof.
  intros Hr Htg Hr0 Hne Hm Hfs Hf Hb Hb0 Hc0 Hd Hbf. unfold umount_node. vload. rewrite Htg. cbv zeta. vupd. vassert. vupd. vupd.
  vload. vassert. erewrite bind_Ret; [|eapply (load_Some (fun s => fss s !! v_fs r)); cbn; exact Hf]. rewrite Hb. vassert. vassert.
  rewrite Hd. do 2 (erewrite bind_Ret by reflexivity). erewrite bind_Ret; [|apply blk_update_run; cbn; exact Hbf].
  eexists. split; [done|]. cbn. by rewrite !insert_insert_eq.
Qed.

Lemma umount_node_diskless s root mp r m0 fsv : vnodes s !! root = Some r -> v_target r = mp -> root <> 0 -> mp <> root ->
  vnodes s !! mp = Some m0 -> v_fs r <> 0 -> fss s !! v_fs r = Some fsv -> fs_blk fsv = 0 -> umount_node root s = Panic.
Proof.
  intros Hr Htg Hr0 Hne Hm Hfs Hf Hb. unfold umount_node. vload. rewrite Htg. cbv zeta. vupd. vassert. vupd. vupd.
  vload. vassert. erewrite bind_Ret; [|eapply (load_Some (fun s => fss s !! v_fs r)); cbn; exact Hf]. rewrite Hb. done.
Qed.
End mounts.

(** Mounting a device on an empty directory makes lookups cross to the root of the new
    file system, whose parent becomes the mountpoint's; while it is mounted neither the
    device nor the mountpoint can be mounted again (-EBUSY); and unmounting restores the
    mountpoint, every other node but the root of the file system, and the device. *)
Theorem mount_umount_roundtrip `{FsOps, Slab} s where_ root blk cls flags opt a r f :
  where_ <> 0 -> where_ <> root -> root <> 0 -> blk <> 0 -> cls <> 0 ->
  vnodes s !! where_ = Some a -> v_type a = VN_DIR -> v_target a = 0 ->
  vnodes s !! root = Some r -> v_fs r = slab_calloc (dom (fss s)) -> v_fs r <> 0 ->
  blk_flags s !! blk = Some f -> 0 <= f -> flagged f BLK_BUSY = false -> simple_class cls root ->
  exists s1, vfs_mount_internal where_ blk cls flags opt s = Ret (0, s1) /\
    cross (vnodes s1) where_ = root /\ v_parent <$> vnodes s1 !! root = Some (v_parent a) /\
    (forall w cls' flags' opt', vfs_mount_internal w blk cls' flags' opt' s1 = Ret (- EBUSY, s1)) /\
    (forall cls' flags' opt', vfs_mount_internal where_ 0 cls' flags' opt' s1 = Ret (- EBUSY, s1)) /\
    exists s2, umount_node root s1 = Ret (0, s2) /\ vnodes s2 !! where_ = Some a /\ blk_flags s2 = blk_flags s /\
      forall q, q <> root -> vnodes s2 !! q = vnodes s !! q.
Proof.
  intros Hw0 Hne Hr0 Hb0 Hc0 Ha Ht Htg Hr Hp Hp0 Hf Hf0 Hz Hcls. pose proof Hcls as (_ & Hd & _).
  set (s1 := mount_state s where_ root blk cls flags (v_fs r) a r).
  assert (vnodes s1 = mounted where_ root a r (vnodes s)) as Ev by (unfold s1, mount_state; by rewrite nonnull_true).
  assert (fss s1 = <[v_fs r := mk_fs blk flags 0 cls]> (fss s)) as Efs by (unfold s1, mount_state; by rewrite nonnull_true).
  assert (blk_flags s1 !! blk = Some (Z.lor f BLK_BUSY)) as Eb
    by (unfold s1, mount_state; rewrite nonnull_true by done; cbn; by rewrite lookup_alter_eq, Hf).
  assert (flagged (Z.lor f BLK_BUSY) BLK_BUSY = true) as Hbusy.
  { change BLK_BUSY with (2 ^ 0) at 2. rewrite flagged_bit, Z.lor_spec by done. apply orb_true_r. }
  exists s1. split; [eapply mount_run; eauto|]. rewrite Ev. unfold mounted.
  assert (vnodes s1 !! where_ = Some (with_target root (with_type VN_MNT a))) as Hwh
    by (rewrite Ev; unfold mounted; by rewrite lookup_insert_ne, lookup_insert_eq).
  split; [|split; [by rewrite lookup_insert_eq|split; [|split]]].
  - unfold cross. by rewrite lookup_insert_ne, lookup_insert_eq.
  - intros. unfold vfs_mount_internal, mount_check. rewrite (bind_Ret _ _ s1 (- EBUSY) s1); [done|].
    rewrite (bind_Ret _ _ s1 true s1); [done|]. rewrite nonnull_true by done.
    rewrite (bind_Ret _ _ _ _ _ (blk_get_run s1 blk _ Eb)). by rewrite Hbusy.
  - intros. unfold vfs_mount_internal, mount_check. rewrite (bind_Ret _ _ s1 (- EBUSY) s1); [done|].
    rewrite (bind_Ret _ _ s1 false s1) by done. rewrite (nonnull_true where_) by done. vload. cbn. by rewrite nonnull_true.
  - destruct (umount_node_run s1 root where_ (with_parent (v_parent a) (with_target where_ r)) (with_target root (with_type VN_MNT a))
      (mk_fs blk flags 0 cls) blk (Z.lor f BLK_BUSY)) as (s2 & E & Ev2 & Eb2); try done.
    { rewrite Ev. unfold mounted. by rewrite lookup_insert_eq. }
    { cbn. rewrite Efs. by rewrite lookup_insert_eq. }
    assert (with_target 0 (with_type VN_DIR (with_target root (with_target root (with_type VN_MNT a)))) = a) as Ea
      by (destruct a; cbn in *; by subst).
    exists s2. split; [done|]. rewrite Ev2, Ea, Ev. unfold mounted. split; [by rewrite lookup_insert_eq|]. split.
    + rewrite Eb2, set_busy_clear by done. unfold s1, mount_state. rewrite nonnull_true by done. cbn.
      apply map_eq. intros i. destruct (decide (i = blk)) as [->|]; by simplify_map_eq.
    + intros q Hq. destruct (decide (q = where_)) as [->|]; by simplify_map_eq.
Qed.

(** A file system mounted without a device cannot be unmounted: [vfs_umount] has
    already detached it from its mountpoint when it asserts that there is a device, and
    panics. *)
Theorem umount_diskless_panics `{FsOps, Slab} s where_ root cls flags opt a r fuel ctx name :
  where_ <> 0 -> where_ <> root -> root <> 0 -> vnodes s !! where_ = Some a -> v_type a = VN_DIR -> v_target a = 0 ->
  v_parent a <> 0 -> vnodes s !! root = Some r -> v_type r = VN_DIR -> v_fs r = slab_calloc (dom (fss s)) -> v_fs r <> 0 ->
  simple_class cls root ->
  exists s1, vfs_mount_internal where_ 0 cls flags opt s = Ret (0, s1) /\
    (vfs_find fuel ctx (cwd_vnode ctx) name 0 s1 = Ret (Found root, s1) -> vfs_umount fuel ctx name s1 = Panic).
Proof.
  intros Hw0 Hne Hr0 Ha Ht Htg Hpa Hr Hrt Hp Hp0 Hcls.
  set (s1 := mount_state s where_ root 0 cls flags (v_fs r) a r).
  assert (vnodes s1 = mounted where_ root a r (vnodes s)) as Ev by reflexivity.
  assert (fss s1 = <[v_fs r := mk_fs 0 flags 0 cls]> (fss s)) as Efs by reflexivity.
  exists s1. split; [eapply mount_run with (f := 0); eauto|]. intros Hfind. unfold vfs_umount. rewrite (bind_Ret _ _ _ _ _ Hfind).
  assert (vnodes s1 !! root = Some (with_parent (v_parent a) (with_target where_ r))) as Hr1
    by (rewrite Ev; unfold mounted; by rewrite lookup_insert_eq).
  vload. cbn [v_parent v_target with_parent with_target]. rewrite !nonnull_true by done. unfold is_type. cbn [v_type with_parent with_target].
  rewrite Hrt, bool_decide_eq_true_2 by done. cbn [negb].
  eapply (umount_node_diskless s1 root where_ _ (with_target root (with_type VN_MNT a)) (mk_fs 0 flags 0 cls)); try done.
  - rewrite Ev. unfold mounted. by rewrite lookup_insert_ne, lookup_insert_eq.
  - cbn. rewrite Efs. by rewrite lookup_insert_eq.
Qed.

(** ** Samples and witnesses *)

(** An allocator that never reuses an address. *)
Definition next_slab : Slab := {| slab_calloc := fun X => Z.max 0 (set_fold Z.max 0 X) + 1 |}.

(** A driver whose only operation is to hand out the root vnode 3. *)
Definition sample_ops : FsOps := {|
  ops_at := fun _ => mk_ops None None None None None None None None None None None None None None None None None;
  class_at := fun _ => mk_class "mem" (Some (fun _ => mret 3)) None None;
  target_func_at := fun _ _ _ => mret (0, EmptyString);
|}.
Definition root_ctx : vfs_ioctx := mk_ioctx 0 0 0 0.

Lemma sample_memfs : memfs sample_vfs sample_kids.
Proof.
  split; [exact sample_tree_ok|by eexists| | | |].
  - intros p v [[-> ->]|[[-> ->]|[-> ->]]]%sample_vnodes_inv; done.
  - intros p v [[-> ->]|[[-> ->]|[-> ->]]]%sample_vnodes_inv; done.
  - intros p v [[-> ->]|[[-> ->]|[-> ->]]]%sample_vnodes_inv; done.
  - intros p v [[-> ->]|[[-> ->]|[-> ->]]]%sample_vnodes_inv; [by left|right|right]; by eexists.
Qed.



(** A root directory with the links 2 and 3, the first leading to the second. *)
Definition sample_link (name : string) (next target : Z) : vnode :=
  mk_vnode VN_LNK name VN_MEMORY 0 next 1 target 0 0 0 0 511 0 0 0 0.
Definition links_vnodes : gmap Z vnode :=
  <[1 := sample_dir "" 2 0 0]> (<[2 := sample_link "a" 3 3]> (<[3 := sample_link "b" 0 1]> ∅)).
Definition links_vfs : vfs := mk_vfs links_vnodes 1 ∅ ∅ [] [] ∅.

Lemma links_inv p v : links_vnodes !! p = Some v ->
  p = 1 /\ v = sample_dir "" 2 0 0 \/ p = 2 /\ v = sample_link "a" 3 3 \/ p = 3 /\ v = sample_link "b" 0 1.
Proof.
  unfold links_vnodes. intros [[<- <-]|[_ [[<- <-]|[_ [[<- <-]|[_ ?]]%lookup_insert_Some]]%lookup_insert_Some]]%lookup_insert_Some;
    auto. by rewrite lookup_empty in *.
Qed.

Lemma links_tree_ok : tree_ok links_vnodes sample_kids.
Proof.
  split.
  - intros p v [[-> ->]|[[-> ->]|[-> ->]]]%links_inv; cbn; [|done|done].
    split; [done|]. split; [done|]. exists (sample_link "a" 3 3). split; [done|]. cbn. split; [done|]. split; [done|].
    by exists (sample_link "b" 0 1).
  - intros p c. unfold sample_kids. case_decide as E; [|by intros ?%elem_of_nil].
    subst p. intros Hc. split; [by eexists|]. repeat (apply elem_of_cons in Hc as [->|Hc]; [by eexists|]).
    by apply elem_of_nil in Hc.
  - apply (t_nodup _ _ sample_tree_ok).
  - done.
Qed.

Lemma links_memfs : memfs links_vfs sample_kids.
Proof.
  split; [exact links_tree_ok|by eexists| | | |]; intros p v [[-> ->]|[[-> ->]|[-> ->]]]%links_inv; try done; cbn;
    try (by left); try (right; by eexists); (split; [done|]; split; [done|]; right; by eexists).
Qed.

Lemma link_to_link_eloop_witness :
  @vfs_link_resolve sample_ops 10 root_ctx 2 0 links_vfs = Ret (Err (- ELOOP), links_vfs).
Proof.
  assert (0 <= 0 <= 1) as Hli by done.
  exact (@link_to_link_eloop sample_ops links_vfs sample_kids root_ctx 10 2 (sample_link "a" 3 3) (sample_link "b" 0 1) 0
    links_memfs eq_refl eq_refl eq_refl eq_refl Hli).
Defined.

(** A directory 2 to mount on, and the root 3 of a file system instance 1. *)
Definition mount_vfs : vfs :=
  mk_vfs (<[1 := sample_dir "" 2 0 0]> (<[2 := sample_dir "mnt" 0 0 1]>
    {[3 := mk_vnode VN_DIR "" VN_MEMORY 0 0 0 0 0 0 0 0 511 1 0 0 0]})) 1 ∅ ∅ [] [] {[7 := 0]}.

Lemma sample_simple_class : @simple_class sample_ops 9 3.
Proof. split; [done|]. split; [done|]. by eexists. Qed.

Lemma mount_umount_roundtrip_witness :
  exists s1 s2, @vfs_mount_internal sample_ops next_slab 2 7 9 0 None mount_vfs = Ret (0, s1) /\
    @umount_node sample_ops 3 s1 = Ret (0, s2) /\ vnodes s2 !! 2 = vnodes mount_vfs !! 2.
Proof.
  assert (2 <> 0) as H1 by discriminate. assert (2 <> 3) as H2 by discriminate. assert (3 <> 0) as H3 by discriminate.
  assert (7 <> 0) as H4 by discriminate. assert (9 <> 0) as H5 by discriminate. assert (1 <> 0) as H6 by discriminate.
  destruct (@mount_umount_roundtrip sample_ops next_slab mount_vfs 2 3 7 9 0 None (sample_dir "mnt" 0 0 1)
    (mk_vnode VN_DIR "" VN_MEMORY 0 0 0 0 0 0 0 0 511 1 0 0 0) 0 H1 H2 H3 H4 H5 eq_refl eq_refl eq_refl eq_refl eq_refl H6
    eq_refl (Z.le_refl 0) eq_refl sample_simple_class) as (s1 & E1 & _ & _ & _ & _ & s2 & E2 & Ha & _).
  exists s1, s2. split; [exact E1|]. split; [exact E2|exact Ha].
Defined.

Lemma umount_diskless_panics_witness :
  exists s1, @vfs_mount_internal sample_ops next_slab 2 0 9 0 None mount_vfs = Ret (0, s1) /\
    @vfs_umount sample_ops 20 root_ctx "/mnt" s1 = Panic.
Proof.
  assert (2 <> 0) as H1 by discriminate. assert (2 <> 3) as H2 by discriminate. assert (3 <> 0) as H3 by discriminate.
  assert (1 <> 0) as H4 by discriminate.
  destruct (@umount_diskless_panics sample_ops next_slab mount_vfs 2 3 9 0 None (sample_dir "mnt" 0 0 1)
    (mk_vnode VN_DIR "" VN_MEMORY 0 0 0 0 0 0 0 0 511 1 0 0 0) 20 root_ctx "/mnt" H1 H2 H3 eq_refl eq_refl eq_refl H4 eq_refl
    eq_refl eq_refl H4 sample_simple_class) as (s1 & E1 & Hu).
  exists s1. split; [exact E1|]. apply Hu. vm_compute in E1. injection E1 as <-. vm_compute. reflexivity.
Defined.
