(* ===== verification/VfsOps.v ===== *)
(** * File operations: [fs/vfs_ops.c], [fs/ofile.c], [sys/char/chr.c]

    The system-call level of the virtual file system, for the default configuration (no
    networking, so no open file is a socket).  Each operation is a whole function of
    the source: its lookups, permission checks and refusals, and its call of the file
    system's operation. *)

From Stdlib Require Import Ascii.
From S2P Require Import Prelude Defs Vnode Vfs.

(** ** Constants of [user/fcntl.h], [user/dirent.h] and [fs/ofile.h] *)
Definition AT_SYMLINK_NOFOLLOW : Z := 1.
Definition AT_EMPTY_PATH : Z := 2.
Definition AT_REMOVEDIR : Z := 4.
Definition O_EXEC : Z := 4.
Definition O_ACCMODE : Z := 3.
Definition O_RDONLY : Z := 0.
Definition O_WRONLY : Z := 1.
Definition O_RDWR : Z := 2.
Definition O_CREAT : Z := 64.
Definition O_TRUNC : Z := 512.
Definition O_APPEND : Z := 1024.
Definition O_DIRECTORY : Z := 65536.
Definition O_CLOEXEC : Z := 524288.
Definition OF_WRITABLE : Z := 1.
Definition OF_READABLE : Z := 2.
Definition OF_DIRECTORY : Z := 4.
Definition OF_MEMDIR : Z := 8.
Definition OF_MEMDIR_DOT : Z := 16.
Definition OF_MEMDIR_DOTDOT : Z := 32.
Definition OF_CLOEXEC : Z := 128.
Definition DT_UNKNOWN : Z := 0.
Definition DT_DIR : Z := 4.
Definition DT_REG : Z := 8.
Definition SIZEOF_DIRENT : Z := 12.

(** ** Character devices and the block layer, by address *)
Record chrdev_ops := mk_chr {
  chr_ioctl_op : option (Z -> Z -> cmd vfs Z);
  chr_write_op : option (list Z -> Z -> Z -> cmd vfs Z);
  chr_read_op : option (Z -> Z -> cmd vfs (Z * list Z));
}.

Class DevOps := {
  chr_at : Z -> chrdev_ops;
  blk_read_at : Z -> Z -> Z -> cmd vfs (Z * list Z);
  blk_ioctl_at : Z -> option (Z -> Z -> cmd vfs Z);
}.

(** ** Updates of an open file *)
Definition with_oflags f (o : ofile) := mk_ofile f (of_refcount o) (of_vnode o) (of_pos o) (of_priv o).
Definition with_refs n (o : ofile) := mk_ofile (of_flags o) n (of_vnode o) (of_pos o) (of_priv o).
Definition with_pos p (o : ofile) := mk_ofile (of_flags o) (of_refcount o) (of_vnode o) p (of_priv o).
Definition with_node v (o : ofile) := mk_ofile (of_flags o) (of_refcount o) v (of_pos o) (of_priv o).

Definition open_inc (p : Z) : cmd vfs unit := vn_update p (fun v => with_open (u32 (open_count v + 1)) v).
Definition open_dec (p : Z) : cmd vfs unit := vn_update p (fun v => with_open (u32 (open_count v - 1)) v).

(** ** Helpers *)
Definition vfs_open_mode (opt : Z) : Z :=
  let r := if flagged opt O_EXEC then X_OK else 0 in
  let acc := Z.land opt O_ACCMODE in
  if acc =? O_WRONLY then Z.lor r W_OK
  else if acc =? O_RDONLY then Z.lor r R_OK
  else if acc =? O_RDWR then Z.lor r (Z.lor W_OK R_OK)
  else r.

(** [strrchr(s, '/')]: the bytes before and after the last slash. *)
Fixpoint rsplit_slash (s : string) : option (string * string) :=
  match s with
  | EmptyString => None
  | String c r =>
      match rsplit_slash r with
      | Some (a, b) => Some (String c a, b)
      | None => if decide (c = "/"%char) then Some (EmptyString, r) else None
      end
  end.

(** The parent's path and the child's name. *)
Definition vfs_path_parent (input : string) : cmd vfs (string * string) :=
  match rsplit_slash input with
  | None => mret (".", input)
  | Some (EmptyString, name) => mret ("/", name)
  | Some (dir, name) => cassert (String.length dir <? PATH_MAX)%nat;; mret (dir, name)
  end.

Section ops.
Context `{FsOps, Slab, DevOps} (fuel : nat).

Abbreviation find := (vfs_find fuel).
(** [!node->op || !node->op->f] *)
Definition op_of {A} (f : vnode_operations -> option A) (v : vnode) : option A :=
  if nonnull (v_op v) then f (ops_at (v_op v)) else None.

(** ** Directories *)
Definition vfs_opendir (ctx : vfs_ioctx) (fd : Z) : cmd vfs Z :=
  o ← oget fd;
  let node := of_vnode o in
  cassert (nonnull node);;
  n ← vn node;
  if negb (is_type VN_DIR n) then mret (- ENOTDIR)
  else if flagged (v_flags n) VN_MEMORY then
    oupdate fd (fun o => with_oflags (Z.lor (of_flags o) (Z.lor OF_MEMDIR OF_MEMDIR_DOT)) o);;
    oupdate fd (with_pos (first_child n));;
    open_inc node;;
    mret 0
  else
    match op_of op_opendir n with
    | None => mret (- EINVAL)
    | Some opendir =>
        res ← opendir fd;
        if bool_decide (res ≠ 0) then mret res else open_inc node;; mret 0
    end.

Definition dirent_type (t : vnode_type) : Z :=
  match t with VN_REG => DT_REG | VN_DIR | VN_MNT => DT_DIR | _ => DT_UNKNOWN end.

Definition vfs_readdir (ctx : vfs_ioctx) (fd : Z) : cmd vfs (Z * option dirent) :=
  o ← oget fd;
  if negb (flagged (of_flags o) OF_DIRECTORY) then mret (- ENOTDIR, None)
  else if flagged (of_flags o) OF_MEMDIR then
    if flagged (of_flags o) OF_MEMDIR_DOT then
      let node := of_vnode o in
      cassert (nonnull node);;
      oupdate fd (fun o => with_oflags (Z.lor (Z.land (of_flags o) (Z.lnot OF_MEMDIR_DOT)) OF_MEMDIR_DOTDOT) o);;
      n ← vn node;
      mret (SIZEOF_DIRENT + 1, Some (mk_dirent (u32 (v_ino n)) 0 (SIZEOF_DIRENT + 1) DT_DIR "."))
    else if flagged (of_flags o) OF_MEMDIR_DOTDOT then
      let node := of_vnode o in
      cassert (nonnull node);;
      n ← vn node;
      let node := if nonnull (v_parent n) then v_parent n else node in
      oupdate fd (fun o => with_oflags (Z.land (of_flags o) (Z.lnot OF_MEMDIR_DOTDOT)) o);;
      n ← vn node;
      mret (SIZEOF_DIRENT + 2, Some (mk_dirent (u32 (v_ino n)) 0 (SIZEOF_DIRENT + 2) DT_DIR ".."))
    else
      let item := of_pos o in
      if negb (nonnull item) then mret (-1, None)
      else
        v ← vn item;
        let reclen := u16 (SIZEOF_DIRENT + Z.of_nat (String.length (v_name v))) in
        oupdate fd (with_pos (next_child v));;
        mret (reclen, Some (mk_dirent (u32 (v_ino v)) 0 reclen (dirent_type (v_type v)) (v_name v)))
  else
    let node := of_vnode o in
    cassert (nonnull node);;
    n ← vn node;
    match op_of op_readdir n with None => cpanic | Some readdir => readdir fd end.

(** ** Opening *)

(** Opening a node that is not a directory, after the checks. *)
Definition open_file (ctx : vfs_ioctx) (fd node opt : Z) : cmd vfs Z :=
  oupdate fd (with_pos 0);;
  oupdate fd (with_node node);;
  oupdate fd (with_oflags 0);;
  (if flagged (Z.land opt (Z.lnot O_ACCMODE)) (Z.lnot (Z.lor (Z.lor O_CLOEXEC O_CREAT) O_TRUNC)) then cpanic else mret tt);;
  let acc := Z.land opt O_ACCMODE in
  let f := if acc =? O_RDONLY then OF_READABLE
           else if acc =? O_WRONLY then OF_WRITABLE
           else if acc =? O_RDWR then Z.lor OF_READABLE OF_WRITABLE else 0 in
  let f := if flagged opt O_CLOEXEC then Z.lor f OF_CLOEXEC else f in
  oupdate fd (with_oflags f);;
  n ← vn node;
  res ← (match op_of op_open n with Some open => open fd opt | None => mret 0 end);
  if bool_decide (res ≠ 0) then mret res
  else o ← oget fd; open_inc (of_vnode o);; mret 0.

Definition vfs_open_vnode (ctx : vfs_ioctx) (fd node opt : Z) : cmd vfs Z :=
  cassert (nonnull node);;
  n ← vn node;
  if is_type VN_SOCK n then mret (- ENODEV)
  else if flagged opt O_DIRECTORY then
    if negb (is_type VN_DIR n) then mret (- ENOTDIR)
    else if bool_decide (Z.land opt O_ACCMODE ≠ O_RDONLY) then mret (- EACCES)
    else
      oupdate fd (with_pos 0);;
      oupdate fd (with_node node);;
      oupdate fd (with_oflags (Z.lor OF_DIRECTORY OF_READABLE));;
      vfs_opendir ctx fd
  else if is_type VN_DIR n || is_type VN_MNT n then mret (- EISDIR)
  else
    res ← vfs_access_node ctx node (vfs_open_mode opt);
    if bool_decide (res ≠ 0) then mret res
    else
      res ← (if flagged opt O_TRUNC then
               match op_of op_truncate n with None => mret (- EINVAL) | Some truncate => truncate node 0 end
             else mret 0);
      if bool_decide (res ≠ 0) then mret res else open_file ctx fd node opt.

(** ** Creating and removing *)

(** The directory an operation that creates [path] works in: the common part of
    [vfs_mkdirat], [vfs_mknod] and [vfs_creatat]. *)
Definition creation_dir (ctx : vfs_ioctx) (rel : Z) (path : string) : cmd vfs (Z * (Z * string)) :=
  '(parent_path, filename) ← vfs_path_parent path;
  if bool_decide (filename = EmptyString) then mret (- ENOENT, (0, filename))
  else
    r ← find ctx rel parent_path 0;
    match r with
    | Err e => mret (e, (0, filename))
    | Found dir => res ← vfs_access_node ctx dir W_OK; mret (res, (dir, filename))
    end.

Definition umasked (ctx : vfs_ioctx) (mode : Z) : Z := Z.land mode (Z.lnot (ctx_umask ctx)).

Definition vfs_mkdirat (ctx : vfs_ioctx) (rel : Z) (path : string) (mode : Z) : cmd vfs Z :=
  let rel := if nonnull rel then rel else cwd_vnode ctx in
  '(res, (dir, filename)) ← creation_dir ctx rel path;
  if bool_decide (res ≠ 0) then mret res
  else
    d ← vn dir;
    match op_of op_mkdir d with
    | None => mret (- EROFS)
    | Some mkdir => mkdir dir filename (ctx_uid ctx) (ctx_gid ctx) (umasked ctx mode)
    end.

Definition vfs_creatat (ctx : vfs_ioctx) (rel : Z) (path : string) (mode : Z) : cmd vfs Z :=
  '(res, (dir, filename)) ← creation_dir ctx rel path;
  if bool_decide (res ≠ 0) then mret res
  else
    d ← vn dir;
    match op_of op_creat d with
    | None => mret (- EROFS)
    | Some creat => creat dir filename (ctx_uid ctx) (ctx_gid ctx) (umasked ctx mode)
    end.

(** The new node's type, or a panic. *)
Definition mknod_type (mode : Z) : option vnode_type :=
  if Z.land mode S_IFMT =? S_IFIFO then Some VN_FIFO
  else if Z.land mode S_IFMT =? S_IFSOCK then Some VN_SOCK else None.

Definition vfs_mknod (ctx : vfs_ioctx) (path : string) (mode : Z) : cmd vfs (Z * Z) :=
  '(res, (dir, filename)) ← creation_dir ctx (cwd_vnode ctx) path;
  if bool_decide (res ≠ 0) then mret (res, 0)
  else
    d ← vn dir;
    match op_of op_mknod d with
    | None => mret (- EROFS, 0)
    | Some mknod =>
        match mknod_type mode with
        | None => cpanic
        | Some t =>
            nod ← vnode_create t (Some filename);
            vn_update nod (with_mode (Z.land (Z.land mode VFS_MODE_MASK) (Z.lnot (ctx_umask ctx))));;
            vn_update nod (with_owner (ctx_uid ctx) (ctx_gid ctx));;
            res ← mknod dir nod;
            if bool_decide (res ≠ 0) then vnode_destroy nod;; mret (res, 0)
            else mret (0, nod)
        end
    end.

Definition vfs_unlinkat (ctx : vfs_ioctx) (rel : Z) (path : string) (flags : Z) : cmd vfs Z :=
  let rel := if nonnull rel then rel else cwd_vnode ctx in
  r ← find ctx rel path 1;
  match r with
  | Err e => mret e
  | Found node =>
      n ← vn node;
      if is_type VN_MNT n then mret (- EBUSY)
      else
        match op_of op_unlink n with
        | None => mret (- EROFS)
        | Some unlink =>
            if bool_decide (open_count n ≠ 0) then mret (- EBUSY)
            else if flagged flags AT_REMOVEDIR && negb (is_type VN_DIR n) then mret (- ENOTDIR)
            else if negb (flagged flags AT_REMOVEDIR) && is_type VN_DIR n then mret (- EISDIR)
            else
              res ← unlink node;
              if bool_decide (res ≠ 0) then mret res
              else vnode_detach node;; vnode_destroy node;; mret 0
        end
  end.

Definition vfs_openat (ctx : vfs_ioctx) (fd rel : Z) (path : string) (opt mode : Z) : cmd vfs Z :=
  let rel := if nonnull rel then rel else cwd_vnode ctx in
  r ← find ctx rel path 0;
  match r with
  | Found node => vfs_open_vnode ctx fd node opt
  | Err e =>
      if negb (flagged opt O_CREAT) then mret e
      else if flagged opt O_DIRECTORY then mret (- EINVAL)
      else
        res ← vfs_creatat ctx rel path mode;
        if bool_decide (res ≠ 0) then mret res
        else
          r ← find ctx rel path 0;
          match r with Err e => mret e | Found node => vfs_open_vnode ctx fd node opt end
  end.

Definition vfs_close (ctx : vfs_ioctx) (fd : Z) : cmd vfs unit :=
  o ← oget fd;
  cassert (of_refcount o =? 0);;
  cassert (nonnull (of_vnode o));;
  open_dec (of_vnode o);;
  n ← vn (of_vnode o);
  match op_of op_close n with Some close => close fd | None => mret tt end.

(** ** Attributes *)
Definition vfs_faccessat (ctx : vfs_ioctx) (rel : Z) (path : string) (mode flags : Z) : cmd vfs Z :=
  r ← find ctx rel path (Z.land flags AT_SYMLINK_NOFOLLOW);
  match r with
  | Err e => mret e
  | Found node => if bool_decide (mode = F_OK) then mret 0 else vfs_access_node ctx node mode
  end.

Definition vfs_fstatat (ctx : vfs_ioctx) (rel : Z) (path : string) (flags : Z) : cmd vfs (Z * option stat) :=
  let rel := if nonnull rel then rel else cwd_vnode ctx in
  r ← (if flagged flags AT_EMPTY_PATH then (if nonnull rel then mret (Found rel) else cpanic)
       else find ctx rel path (Z.land flags AT_SYMLINK_NOFOLLOW));
  match r with
  | Err e => mret (e, None)
  | Found node =>
      n ← vn node;
      match op_of op_stat n with None => mret (- EINVAL, None) | Some stat => stat node end
  end.

Definition vfs_readlinkat (ctx : vfs_ioctx) (rel : Z) (path : string) (lim : Z) : cmd vfs (Z * string) :=
  let rel := if nonnull rel then rel else cwd_vnode ctx in
  r ← find ctx rel path AT_SYMLINK_NOFOLLOW;
  match r with
  | Err e => mret (e, EmptyString)
  | Found node =>
      n ← vn node;
      if negb (is_type VN_LNK n) then mret (- EINVAL, EmptyString)
      else
        match op_of op_readlink n with
        | Some readlink => readlink node lim
        | None =>
            if flagged (v_flags n) VN_PER_PROCESS && nonnull (v_target n) then
              '(t, str) ← target_func_at (v_target n) node (Some lim);
              mret (if nonnull t then 0 else - EINVAL, str)
            else mret (- EINVAL, EmptyString)
        end
  end.

Definition vfs_ftruncate (ctx : vfs_ioctx) (node length : Z) : cmd vfs Z :=
  cassert (nonnull node);;
  n ← vn node;
  if negb (is_type VN_REG n) then mret (- EPERM)
  else match op_of op_truncate n with Some truncate => truncate node length | None => mret (- ENOSYS) end.

Definition vfs_chmod (ctx : vfs_ioctx) (path : string) (mode : Z) : cmd vfs Z :=
  let mode := Z.land mode VFS_MODE_MASK in
  r ← find ctx (cwd_vnode ctx) path 1;
  match r with
  | Err e => mret e
  | Found node =>
      n ← vn node;
      if is_type VN_LNK n then mret (- EINVAL)
      else if bool_decide (ctx_uid ctx ≠ 0) && bool_decide (ctx_uid ctx ≠ v_uid n) then mret (- EACCES)
      else
        match op_of op_chmod n with
        | None =>
            if flagged (v_flags n) VN_MEMORY then
              vn_update node (fun n => with_mode (Z.lor (Z.land (v_mode n) (Z.lnot VFS_MODE_MASK)) (Z.land mode VFS_MODE_MASK)) n);;
              mret 0
            else mret (- EINVAL)
        | Some chmod =>
            res ← chmod node mode;
            if bool_decide (res ≠ 0) then mret res
            else vn_update node (with_mode mode);; mret 0
        end
  end.

Definition vfs_chown (ctx : vfs_ioctx) (path : string) (uid gid : Z) : cmd vfs Z :=
  r ← find ctx (cwd_vnode ctx) path 0;
  match r with
  | Err e => mret e
  | Found node =>
      if bool_decide (ctx_uid ctx ≠ 0) then mret (- EACCES)
      else
        n ← vn node;
        res ← (match op_of op_chown n with
               | None => mret (if flagged (v_flags n) VN_MEMORY then 0 else - EINVAL)
               | Some chown => chown node uid gid
               end);
        if bool_decide (res ≠ 0) then mret res
        else vn_update node (with_owner uid gid);; mret 0
  end.

(** ** Character devices: [sys/char/chr.c] *)
Definition chr_ioctl (chr cmd_ arg : Z) : cmd vfs Z :=
  if negb (nonnull chr) then mret (- ENODEV)
  else match chr_ioctl_op (chr_at chr) with None => mret (- EINVAL) | Some ioctl => ioctl cmd_ arg end.
Definition chr_write (chr : Z) (buf : list Z) (off count : Z) : cmd vfs Z :=
  if negb (nonnull chr) then mret (- ENODEV)
  else match chr_write_op (chr_at chr) with None => mret (- EROFS) | Some write => write buf off count end.
Definition chr_read (chr off count : Z) : cmd vfs (Z * list Z) :=
  if negb (nonnull chr) then mret (- ENODEV, [])
  else match chr_read_op (chr_at chr) with None => mret (- EINVAL, []) | Some read => read off count end.

Definition blk_ioctl (blk req arg : Z) : cmd vfs Z :=
  cassert (nonnull blk);;
  match blk_ioctl_at blk with Some ioctl => ioctl req arg | None => mret (- EINVAL) end.

(** ** Data *)
Definition vfs_write (ctx : vfs_ioctx) (fd : Z) (buf : list Z) : cmd vfs Z :=
  let count := Z.of_nat (length buf) in
  o ← oget fd;
  if negb (flagged (of_flags o) OF_WRITABLE) || flagged (of_flags o) OF_DIRECTORY then mret (- EINVAL)
  else
    cassert (nonnull (of_vnode o));;
    n ← vn (of_vnode o);
    match v_type n with
    | VN_REG | VN_FIFO => match op_of op_write n with None => cpanic | Some write => write fd buf end
    | VN_CHR =>
        cassert (nonnull (v_dev n));;
        cassert (match chr_write_op (chr_at (v_dev n)) with Some _ => true | None => false end);;
        chr_write (v_dev n) buf (of_pos o) count
    | _ => mret (- EINVAL)
    end.

Definition vfs_read (ctx : vfs_ioctx) (fd count : Z) : cmd vfs (Z * list Z) :=
  o ← oget fd;
  if negb (flagged (of_flags o) OF_READABLE) then mret (- EINVAL, [])
  else
    cassert (nonnull (of_vnode o));;
    n ← vn (of_vnode o);
    match v_type n with
    | VN_REG | VN_FIFO => match op_of op_read n with None => cpanic | Some read => read fd count end
    | VN_CHR =>
        cassert (nonnull (v_dev n));;
        cassert (match chr_read_op (chr_at (v_dev n)) with Some _ => true | None => false end);;
        chr_read (v_dev n) (of_pos o) count
    | VN_BLK =>
        cassert (nonnull (v_dev n));;
        '(b, data) ← blk_read_at (v_dev n) (of_pos o) count;
        (if 0 <? b then oupdate fd (fun o => with_pos (u64 (of_pos o + b)) o) else mret tt);;
        mret (b, data)
    | _ => mret (- EINVAL, [])
    end.

Definition vfs_lseek (ctx : vfs_ioctx) (fd offset whence : Z) : cmd vfs Z :=
  o ← oget fd;
  cassert (nonnull (of_vnode o));;
  n ← vn (of_vnode o);
  if negb (is_type VN_REG n) then mret (- ESPIPE)
  else match op_of op_lseek n with None => mret (- EINVAL) | Some lseek => lseek fd offset whence end.

Definition vfs_ioctl (ctx : vfs_ioctx) (fd cmd_ arg : Z) : cmd vfs Z :=
  o ← oget fd;
  cassert (nonnull (of_vnode o));;
  n ← vn (of_vnode o);
  match v_type n with
  | VN_CHR => chr_ioctl (v_dev n) cmd_ arg
  | VN_BLK => blk_ioctl (v_dev n) cmd_ arg
  | _ => mret (- EINVAL)
  end.

(** ** Open files: [fs/ofile.c] *)
Definition ofile_create : cmd vfs Z :=
  s ← cget;
  let p := slab_calloc (dom (ofiles s)) in
  cassert (nonnull p);;
  cmodify (fun s => set_ofiles (<[p := mk_ofile 0 0 0 0 0]> (ofiles s)) s);;
  mret p.

Definition ofile_destroy (fd : Z) : cmd vfs unit :=
  o ← oget fd;
  cassert (of_refcount o =? 0);;
  cmodify (fun s => set_ofiles (delete fd (ofiles s)) s).

Definition ofile_close (ctx : vfs_ioctx) (fd : Z) : cmd vfs unit :=
  o ← oget fd;
  cassert (0 <? of_refcount o);;
  oupdate fd (fun o => with_refs (of_refcount o - 1) o);;
  o ← oget fd;
  if of_refcount o =? 0 then vfs_close ctx fd;; ofile_destroy fd else mret tt.

Definition ofile_dup (fd : Z) : cmd vfs Z :=
  cassert (nonnull fd);;
  o ← oget fd;
  cassert (0 <=? of_refcount o);;
  oupdate fd (fun o => with_refs (of_refcount o + 1) o);;
  mret fd.
End ops.

(** ** Proofs *)
Lemma oget_run (s : vfs) fd o : ofiles s !! fd = Some o -> oget fd s = Ret (o, s).
Proof. exact (load_Some (fun s => ofiles s !! fd) s o). Qed.

Lemma oupdate_run (s : vfs) fd o f : ofiles s !! fd = Some o ->
  oupdate fd f s = Ret (tt, set_ofiles (<[fd := f o]> (ofiles s)) s).
Proof. intros E. unfold oupdate. by rewrite (bind_Ret _ _ _ _ _ (oget_run s fd o E)). Qed.

Ltac ofind := cbn [ofiles set_ofiles set_vnodes]; first [eassumption | simplify_map_eq; done].
Ltac oload := erewrite bind_Ret; [|apply oget_run; ofind].
Ltac oupd := erewrite bind_Ret; [|apply oupdate_run; ofind].

(** [vfs_path_parent] splits a path at its last slash. *)
Lemma rsplit_slash_spec input dir name : rsplit_slash input = Some (dir, name) ->
  input = dir +:+ String "/" name /\ noslash name = true.
Proof.
  revert dir. induction input as [|c r IH]; intros dir; [done|]. cbn [rsplit_slash].
  assert (rsplit_slash r = None -> noslash r = true) as Hno.
  { clear. induction r as [|d r IH]; [done|]. cbn [rsplit_slash noslash]. destruct (rsplit_slash r) as [[]|]; [done|].
    destruct (decide (d = "/"%char)); [done|]. intros _. rewrite bool_decide_eq_true_2 by done. by apply IH. }
  destruct (rsplit_slash r) as [[a b]|] eqn:E.
  - intros [= <- <-]. destruct (IH a eq_refl) as [-> ?]. done.
  - destruct (decide (c = "/"%char)) as [->|]; [|done]. intros [= <- <-]. split; [done|]. by apply Hno.
Qed.

(** ** Directory listings *)
Section listing.
Context `{FsOps} (ctx : vfs_ioctx).

(** What a program does to list a directory. *)
Fixpoint list_dir (fuel : nat) (fd : Z) : cmd vfs (list string) :=
  match fuel with
  | O => cdiverged
  | S fuel =>
      '(_, d) ← vfs_readdir ctx fd;
      match d with
      | Some e => rest ← list_dir fuel fd; mret (d_name e :: rest)
      | None => mret []
      end
  end.

Definition LISTING : Z := Z.lor (Z.lor OF_DIRECTORY OF_READABLE) OF_MEMDIR.

(** The rest of a listing, from the child at [pos] on. *)
Lemma list_kids_run fd r pv priv : forall l fuel (s : vfs) pos, chain (vnodes s) pos l -> (length l < fuel)%nat ->
  ofiles s !! fd = Some (mk_ofile LISTING r pv pos priv) ->
  exists s', list_dir fuel fd s = Ret (name_of (vnodes s) <$> l, s') /\ vnodes s' = vnodes s.
Proof.
  induction l as [|x l IH]; intros [|fuel] s pos Hc Hf Ho; cbn [length] in Hf; try lia; cbn [list_dir].
  - cbn in Hc. subst pos. exists s. split; [|done]. rewrite (bind_Ret _ _ s (-1, None) s); [done|].
    unfold vfs_readdir. by oload.
  - destruct Hc as (-> & Hx & v & Hv & Hc).
    set (s1 := set_ofiles (<[fd := mk_ofile LISTING r pv (next_child v) priv]> (ofiles s)) s).
    destruct (IH fuel s1 (next_child v)) as (s' & E & Ev); [done|lia|unfold s1; cbn; by rewrite lookup_insert_eq|].
    exists s'. split; [|done]. erewrite bind_Ret.
    2:{ unfold vfs_readdir. oload. change (flagged LISTING OF_DIRECTORY) with true. cbn [of_flags of_pos].
        change (flagged LISTING OF_DIRECTORY) with true. change (flagged LISTING OF_MEMDIR) with true.
        change (flagged LISTING OF_MEMDIR_DOT) with false. change (flagged LISTING OF_MEMDIR_DOTDOT) with false.
        cbn [negb]. cbv iota zeta. rewrite nonnull_true by done. cbn [negb]. vload. oupd. reflexivity. }
    cbv iota. fold s1. rewrite (bind_Ret _ _ _ _ _ E). cbn [d_name fmap list_fmap]. unfold name_of at 2. by rewrite Hv.
Qed.

(** Opening a directory that is held in memory. *)
Definition opened_dir (fd d : Z) (o : ofile) (dv : vnode) (s : vfs) : vfs :=
  set_vnodes (<[d := with_open (u32 (open_count dv + 1)) dv]> (vnodes s))
    (set_ofiles (<[fd := mk_ofile (Z.lor LISTING OF_MEMDIR_DOT) (of_refcount o) d (first_child dv) (of_priv o)]> (ofiles s)) s).

Lemma open_dir_run (s : vfs) fd d o dv : d <> 0 -> vnodes s !! d = Some dv -> v_type dv = VN_DIR ->
  flagged (v_flags dv) VN_MEMORY = true -> ofiles s !! fd = Some o ->
  vfs_open_vnode ctx fd d O_DIRECTORY s = Ret (0, opened_dir fd d o dv s).
Proof.
  intros Hd0 Hd Ht Hmem Ho. unfold vfs_open_vnode. vassert. vload. unfold is_type. rewrite !Ht.
  change (bool_decide (VN_DIR = VN_SOCK)) with false. change (flagged O_DIRECTORY O_DIRECTORY) with true.
  change (bool_decide (VN_DIR = VN_DIR)) with true. change (bool_decide (Z.land O_DIRECTORY O_ACCMODE ≠ O_RDONLY)) with false.
  cbn [negb]. cbv iota. do 3 oupd. unfold vfs_opendir. oload. cbn [of_vnode with_oflags with_node]. vassert. vload.
  unfold is_type. rewrite Ht, Hmem. change (bool_decide (VN_DIR = VN_DIR)) with true. cbn [negb]. cbv iota.
  do 2 oupd. unfold open_inc. vupd. unfold opened_dir. cbn. by rewrite !insert_insert_eq.
Qed.

Lemma readdir_dot_run (s : vfs) fd d r pos priv dv : d <> 0 -> vnodes s !! d = Some dv ->
  ofiles s !! fd = Some (mk_ofile (Z.lor LISTING OF_MEMDIR_DOT) r d pos priv) ->
  exists e, vfs_readdir ctx fd s = Ret ((SIZEOF_DIRENT + 1, Some e),
      set_ofiles (<[fd := mk_ofile (Z.lor LISTING OF_MEMDIR_DOTDOT) r d pos priv]> (ofiles s)) s) /\ d_name e = ".".
Proof.
  intros Hd0 Hd Ho. unfold vfs_readdir. oload. cbn [of_flags of_vnode]. cbv zeta.
  change (flagged (Z.lor LISTING OF_MEMDIR_DOT) OF_DIRECTORY) with true.
  change (flagged (Z.lor LISTING OF_MEMDIR_DOT) OF_MEMDIR) with true.
  change (flagged (Z.lor LISTING OF_MEMDIR_DOT) OF_MEMDIR_DOT) with true. cbn [negb]. cbv iota. vassert. oupd.
  vload. eexists. split; [reflexivity|done].
Qed.

Lemma readdir_dotdot_run (s : vfs) fd d r pos priv dv : d <> 0 -> vnodes s !! d = Some dv ->
  is_Some (vnodes s !! up (vnodes s) d) ->
  ofiles s !! fd = Some (mk_ofile (Z.lor LISTING OF_MEMDIR_DOTDOT) r d pos priv) ->
  exists e, vfs_readdir ctx fd s = Ret ((SIZEOF_DIRENT + 2, Some e),
      set_ofiles (<[fd := mk_ofile LISTING r d pos priv]> (ofiles s)) s) /\ d_name e = "..".
Proof.
  intros Hd0 Hd [uv Hu] Ho. unfold vfs_readdir. oload. cbn [of_flags of_vnode]. cbv zeta.
  change (flagged (Z.lor LISTING OF_MEMDIR_DOTDOT) OF_DIRECTORY) with true.
  change (flagged (Z.lor LISTING OF_MEMDIR_DOTDOT) OF_MEMDIR) with true.
  change (flagged (Z.lor LISTING OF_MEMDIR_DOTDOT) OF_MEMDIR_DOT) with false.
  change (flagged (Z.lor LISTING OF_MEMDIR_DOTDOT) OF_MEMDIR_DOTDOT) with true. cbn [negb]. cbv iota. vassert. vload.
  assert ((if nonnull (v_parent dv) then v_parent dv else d) = up (vnodes s) d) as -> by (unfold up; by rewrite Hd).
  oupd. vload. eexists. split; [reflexivity|done].
Qed.
End listing.

(** Listing a directory held in memory: after opening it, [vfs_readdir] returns [.],
    then [..], then every child exactly once in the order of the sibling chain, and then
    the end; the tree is untouched but for the directory's open count. *)
Theorem readdir_lists_children `{FsOps} ctx s kids fd d dv o :
  memfs s kids -> vnodes s !! d = Some dv -> v_type dv = VN_DIR -> ofiles s !! fd = Some o ->
  exists s1 s2, vfs_open_vnode ctx fd d O_DIRECTORY s = Ret (0, s1) /\
    list_dir ctx (3 + length (kids d)) fd s1 = Ret ("." :: ".." :: (name_of (vnodes s) <$> kids d), s2) /\
    vnodes s2 = <[d := with_open (u32 (open_count dv + 1)) dv]> (vnodes s).
Proof.
  intros Hm Hd Ht Ho. pose proof (memfs_null _ _ _ _ Hm Hd) as Hd0.
  set (s1 := opened_dir fd d o dv s). exists s1.
  assert (vnodes s1 !! d = Some (with_open (u32 (open_count dv + 1)) dv)) as Hd1 by (cbn; by rewrite lookup_insert_eq).
  assert (forall x, name_of (vnodes s1) x = name_of (vnodes s) x) as Hname.
  { intros x. unfold name_of. cbn. destruct (decide (x = d)) as [->|]; simplify_map_eq; done. }
  assert (is_Some (vnodes s1 !! up (vnodes s1) d)) as Hup.
  { unfold up. rewrite Hd1. cbn [v_parent with_open]. destruct (mf_parent _ _ Hm d dv Hd) as [->|[pv Hp]]; [by eexists|].
    destruct (nonnull _); cbn; [|by rewrite lookup_insert_eq]. rewrite lookup_insert_is_Some'. right. by exists pv. }
  assert (chain (vnodes s1) (first_child dv) (kids d)) as Hc.
  { eapply chain_agree; [exact (t_chain _ _ (mf_tree _ _ Hm) d dv Hd)|]. intros x v _ Hv. cbn.
    destruct (decide (x = d)) as [->|]; simplify_map_eq; eauto. }
  destruct (readdir_dot_run ctx s1 fd d (of_refcount o) (first_child dv) (of_priv o) _ Hd0 Hd1) as (e1 & E1 & N1);
    [cbn; by rewrite lookup_insert_eq|]. set (s2 := set_ofiles _ _) in E1.
  destruct (readdir_dotdot_run ctx s2 fd d (of_refcount o) (first_child dv) (of_priv o) _ Hd0 Hd1 Hup) as (e2 & E2 & N2);
    [cbn; by rewrite lookup_insert_eq|]. set (s3 := set_ofiles _ _) in E2.
  destruct (list_kids_run ctx fd (of_refcount o) d (of_priv o) (kids d) (S (length (kids d))) s3 (first_child dv)) as (s4 & E4 & Ev);
    [exact Hc|lia|cbn; by rewrite lookup_insert_eq|].
  assert (name_of (vnodes s3) <$> kids d = name_of (vnodes s) <$> kids d) as En by (apply list_fmap_ext; intros; apply Hname).
  rewrite En in E4. exists s4. split; [apply open_dir_run; [done|done|done|by apply (mf_dir _ _ Hm d)|done]|]. split; [|by rewrite Ev].
  cbn [Nat.add list_dir]. rewrite (bind_Ret _ _ _ _ _ E1). cbv iota. rewrite N1.
  erewrite bind_Ret; [reflexivity|]. rewrite (bind_Ret _ _ _ _ _ E2). cbv iota. rewrite N2.
  by erewrite bind_Ret; [|exact E4].
Qed.

(** ** Opening and closing files *)

(** Flags of [open] that [vfs_open_vnode] does not know. *)
Definition unknown_flags (opt : Z) : bool :=
  flagged (Z.land opt (Z.lnot O_ACCMODE)) (Z.lnot (Z.lor (Z.lor O_CLOEXEC O_CREAT) O_TRUNC)).

(** The flags of the open file. *)
Definition open_flags (opt : Z) : Z :=
  let acc := Z.land opt O_ACCMODE in
  let f := if acc =? O_RDONLY then OF_READABLE
           else if acc =? O_WRONLY then OF_WRITABLE
           else if acc =? O_RDWR then Z.lor OF_READABLE OF_WRITABLE else 0 in
  if flagged opt O_CLOEXEC then Z.lor f OF_CLOEXEC else f.

Lemma open_flags_readable opt :
  flagged (open_flags opt) OF_READABLE = ((Z.land opt O_ACCMODE =? O_RDONLY) || (Z.land opt O_ACCMODE =? O_RDWR)) /\
  flagged (open_flags opt) OF_WRITABLE = ((Z.land opt O_ACCMODE =? O_WRONLY) || (Z.land opt O_ACCMODE =? O_RDWR)).
Proof.
  unfold open_flags. cbv zeta. set (acc := Z.land opt O_ACCMODE). unfold O_RDONLY, O_WRONLY, O_RDWR.
  destruct (Z.eqb_spec acc 0) as [->|H0]; [by destruct (flagged opt O_CLOEXEC)|].
  destruct (Z.eqb_spec acc 1) as [->|H1]; [by destruct (flagged opt O_CLOEXEC)|].
  destruct (Z.eqb_spec acc 2) as [->|H2]; by destruct (flagged opt O_CLOEXEC).
Qed.

Section open_close.
Context `{FsOps} (ctx : vfs_ioctx) (s : vfs) (fd node : Z) (n : vnode) (o : ofile) (opt : Z).
Context (Hn0 : node <> 0) (Hn : vnodes s !! node = Some n) (Ho : ofiles s !! fd = Some o).

Lemma open_file_run : op_of op_open n = None -> unknown_flags opt = false ->
  open_file ctx fd node opt s =
    Ret (0, set_vnodes (<[node := with_open (u32 (open_count n + 1)) n]> (vnodes s))
      (set_ofiles (<[fd := mk_ofile (open_flags opt) (of_refcount o) node 0 (of_priv o)]> (ofiles s)) s)).
Proof using Hn Ho.
  intros Hop Hu. unfold open_file. do 3 oupd. fold (unknown_flags opt). rewrite Hu. erewrite bind_Ret by reflexivity.
  cbv zeta. fold (open_flags opt). oupd. vload. rewrite Hop. erewrite bind_Ret by reflexivity.
  rewrite bool_decide_eq_false_2 by (intros X; by apply X). oload. unfold open_inc. vupd. cbn. by rewrite !insert_insert_eq.
Qed.

End open_close.

Lemma close_run `{FsOps} ctx fd node s1 o1 n1 : node <> 0 -> ofiles s1 !! fd = Some o1 -> of_refcount o1 = 0 -> of_vnode o1 = node ->
  vnodes s1 !! node = Some n1 -> op_of op_close n1 = None ->
  vfs_close ctx fd s1 = Ret (tt, set_vnodes (<[node := with_open (u32 (open_count n1 - 1)) n1]> (vnodes s1)) s1).
Proof.
  intros Hn0 Ho1 Hr1 Hv1 Hn1 Hop. unfold vfs_close. oload. rewrite Hr1, Hv1. do 2 vassert. unfold open_dec. vupd. vload.
  assert (op_of op_close (with_open (u32 (open_count n1 - 1)) n1) = None) as -> by exact Hop. done.
Qed.


(** ** Witnesses *)
Definition sample_open_vfs : vfs := set_ofiles {[5 := mk_ofile 0 0 0 0 0]} sample_vfs.

Lemma sample_open_memfs : memfs sample_open_vfs sample_kids.
Proof. destruct sample_memfs as [H1 H2 H3 H4 H5 H6]. by split. Qed.

Lemma readdir_lists_children_witness :
  exists s1 s2, @vfs_open_vnode sample_ops root_ctx 5 1 O_DIRECTORY sample_open_vfs = Ret (0, s1) /\
    @list_dir sample_ops root_ctx 5 5 s1 = Ret (["."; ".."; "bin"; "etc"], s2).
Proof.
  destruct (@readdir_lists_children sample_ops root_ctx sample_open_vfs sample_kids 5 1 (sample_dir "" 2 0 0) (mk_ofile 0 0 0 0 0)
    sample_open_memfs eq_refl eq_refl eq_refl) as (s1 & s2 & E1 & E2 & _).
  exists s1, s2. split; [exact E1|exact E2].
Defined.

Definition sample_file : vnode := mk_vnode VN_REG "f" VN_MEMORY 0 0 0 0 0 0 0 0 420 0 0 0 0.
Definition sample_file_vfs : vfs := mk_vfs {[4 := sample_file]} 0 {[5 := mk_ofile 0 0 0 0 0]} ∅ [] [] ∅.

