(* ===== verification/ListHead.v ===== *)
(** * Intrusive circular lists: [include/sys/list.h]

    A link is a pair of pointers [(prev, next)]; a store of links maps an address to
    its link.  [cyc lk l] says that the nodes [l] form one circular list in [lk].  A
    [struct list_head] that heads the list [l] is the cycle [h :: l]; the run queues
    of the scheduler are cycles without a head node.  Nodes are compared with the
    mathematical list they represent: [list_add] is [cons], [list_add_tail] is
    [snoc], [list_del] removes one element. *)

From S2P Require Import Prelude.

(** Where the [(prev, next)] of a node is read. *)
Abbreviation links := (Z -> option (Z * Z)).

Fixpoint lseg (lk : links) (pv : Z) (l : list Z) (nx : Z) : Prop :=
  match l with
  | [] => True
  | p :: l => lk p = Some (pv, hd_or nx l) /\ lseg lk p l nx
  end.

Record cyc (lk : links) (l : list Z) : Prop := {
  cyc_seg : lseg lk (last_or 0 l) l (hd_or 0 l);
  cyc_nodup : NoDup l;
  cyc_nonzero : 0 ∉ l;
}.

(** [lk'] is [lk] on [l], except that the first node's [prev] is [pv] and the last
    node's [next] is [nx]. *)
Definition retarget (lk lk' : links) (l : list Z) (pv nx : Z) : Prop :=
  forall x a b, x ∈ l -> lk x = Some (a, b) ->
    lk' x = Some (if decide (x = hd_or 0 l) then pv else a, if decide (x = last_or 0 l) then nx else b).

Section cycles.
Implicit Types (lk : links) (l : list Z).

Lemma lseg_app lk pv l1 l2 nx :
  lseg lk pv (l1 ++ l2) nx <-> lseg lk pv l1 (hd_or nx l2) /\ lseg lk (last_or pv l1) l2 nx.
Proof.
  revert pv. induction l1 as [|p l1 IH]; intros pv; cbn [app lseg]; [by split; [|intros [_ ?]]|].
  rewrite IH, last_or_cons, hd_or_app. tauto.
Qed.

Lemma lseg_ext lk lk' pv l nx : (forall p, p ∈ l -> lk' p = lk p) -> lseg lk pv l nx -> lseg lk' pv l nx.
Proof.
  revert pv. induction l as [|q l IH]; intros pv He; [done|]. intros [Hq Hs]. split.
  - rewrite He by by left. done.
  - apply IH; [|done]. intros p Hp. apply He. by right.
Qed.

Lemma lseg_retarget lk lk' pv l nx pv' nx' :
  lseg lk pv l nx -> NoDup l -> retarget lk lk' l pv' nx' -> lseg lk' pv' l nx'.
Proof.
  intros Hs Hn Hr. destruct l as [|x l]; [done|].
  destruct l as [|y l _] using rev_ind.
  { destruct Hs as [Hx _]. split; [|done]. rewrite (Hr x _ _ ltac:(by left) Hx).
    by rewrite !decide_True by done. }
  assert (hd_or 0 (x :: l ++ [y]) = x) as Eh by done.
  assert (last_or 0 (x :: l ++ [y]) = y) as El by by rewrite last_or_cons, last_or_snoc.
  unfold retarget in Hr. rewrite Eh, El in Hr.
  apply list.NoDup_cons in Hn as [Hx (Hn1 & Hn2 & _)%list.NoDup_app].
  assert (x <> y /\ x ∉ l) as [Hxy Hxl] by (split; [intros ->|intros ?]; apply Hx, elem_of_app; [right; by left|by left]).
  assert (y ∉ l) as Hyl by (intros Hy; apply (Hn2 y Hy); by left).
  destruct Hs as [Hx0 [Hl (Hy0 & _)]%lseg_app]. split.
  - rewrite (Hr x _ _ ltac:(by left) Hx0), decide_True, decide_False by done. by destruct l.
  - apply lseg_app. split.
    + eapply lseg_ext; [|exact Hl]. intros p Hp. destruct (lk p) as [[a b]|] eqn:E.
      * rewrite (Hr p a b), decide_False, decide_False; [done|by intros ->|by intros ->| |done].
        right. apply elem_of_app. by left.
      * exfalso. clear -Hl Hp E. revert Hl. generalize x. induction l as [|q l IH]; intros z; [by apply elem_of_nil in Hp|].
        intros [Hq Hs]. apply elem_of_cons in Hp as [->|Hp]; [congruence|by eapply IH].
    + split; [|done]. rewrite (Hr y _ _ ltac:(right; apply elem_of_app; right; by left) Hy0).
      by rewrite decide_False, decide_True by done.
Qed.

Lemma cyc_ext lk lk' l : (forall p, p ∈ l -> lk' p = lk p) -> cyc lk l -> cyc lk' l.
Proof. intros He [? ? ?]. split; [by eapply lseg_ext|done..]. Qed.

(** The neighbours of a node. *)
Lemma cyc_node lk l1 x l2 : cyc lk (l1 ++ x :: l2) ->
  lk x = Some (last_or (last_or 0 (x :: l2)) l1, hd_or (hd_or 0 (l1 ++ [x])) l2).
Proof.
  intros [[_ [Hx _]]%lseg_app _ _]. rewrite Hx. f_equal. f_equal.
  - by rewrite last_or_app, !last_or_cons.
  - rewrite !hd_or_app. done.
Qed.

Lemma cyc_linked lk l x : cyc lk l -> x ∈ l -> exists a b, lk x = Some (a, b) /\ a ∈ l /\ b ∈ l.
Proof.
  intros H (l1 & l2 & ->)%list_elem_of_split. rewrite (cyc_node _ _ _ _ H). eexists _, _. split; [done|].
  split.
  - destruct l1 as [|y l1]; [|apply elem_of_app; left; auto with kernel]. apply (last_or_in 0). done.
  - destruct l2 as [|y l2]; [|apply elem_of_app; right; right; by left].
    apply (hd_or_in 0). by destruct l1.
Qed.

(** A circular list may be read from any of its nodes. *)
Lemma cyc_rotate lk l1 l2 : cyc lk (l1 ++ l2) -> cyc lk (l2 ++ l1).
Proof.
  intros [[H1 H2]%lseg_app N Z]. split; [apply lseg_app; split| |].
  - revert H2. rewrite hd_or_app, !last_or_app. destruct l1, l2; cbn; rewrite ?last_or_cons; try done.
  - revert H1. rewrite !last_or_app, !hd_or_app. destruct l1, l2; cbn; rewrite ?last_or_cons; done.
  - by rewrite Permutation_app_comm.
  - set_solver.
Qed.

Lemma cyc_singleton lk p : p <> 0 -> lk p = Some (p, p) -> cyc lk [p].
Proof. intros Hp H. split; [by split|apply NoDup_singleton|]. by intros <-%list_elem_of_singleton. Qed.

(** Linking a node between the last and the first one. *)
Lemma cyc_snoc lk lk' l p : cyc lk l -> l <> [] -> p ∉ l -> p <> 0 ->
  lk' p = Some (last_or 0 l, hd_or 0 l) -> retarget lk lk' l p p -> cyc lk' (l ++ [p]).
Proof.
  intros [S N Z] Hl Hp Hp0 Ep Hr. split.
  - apply lseg_app. rewrite last_or_snoc, hd_or_app. split; [by eapply lseg_retarget|].
    split; [|done]. rewrite Ep. f_equal. f_equal; [by apply last_or_dflt|exact (hd_or_dflt 0 p l Hl)].
  - apply list.NoDup_app. split; [done|]. split; [|apply NoDup_singleton].
    intros x Hx ->%list_elem_of_singleton. done.
  - set_solver.
Qed.

(** Unlinking the first node. *)
Lemma cyc_tail lk lk' l p : cyc lk (p :: l) -> retarget lk lk' l (last_or 0 l) (hd_or 0 l) -> cyc lk' l.
Proof.
  intros [[_ S] [? N]%list.NoDup_cons Z] Hr. split; [|done|set_solver]. by eapply lseg_retarget.
Qed.
End cycles.

(** ** The operations of [list.h] on a store of links *)
Record list_head := mk_link { l_prev : Z; l_next : Z }.
Abbreviation heads := (gmap Z list_head).

Definition upd_link (p : Z) (f : list_head -> list_head) : cmd heads unit :=
  n ← cload (fun m : heads => m !! p); cmodify (fun m => <[p := f n]> m).
Definition set_link_next (x : Z) (n : list_head) := mk_link (l_prev n) x.
Definition set_link_prev (x : Z) (n : list_head) := mk_link x (l_next n).
Definition link_next (p : Z) : cmd heads Z := n ← cload (fun m : heads => m !! p); mret (l_next n).
Definition link_prev (p : Z) : cmd heads Z := n ← cload (fun m : heads => m !! p); mret (l_prev n).

Definition list_head_init (list : Z) : cmd heads unit :=
  upd_link list (set_link_next list);; upd_link list (set_link_prev list).

Definition list_insert (new prev next : Z) : cmd heads unit :=
  upd_link next (set_link_prev new);;
  upd_link new (set_link_next next);;
  upd_link new (set_link_prev prev);;
  upd_link prev (set_link_next new).

Definition list_add (new head : Z) : cmd heads unit := n ← link_next head; list_insert new head n.
Definition list_add_tail (new head : Z) : cmd heads unit := p ← link_prev head; list_insert new p head.

Definition list_unlink (prev next : Z) : cmd heads unit :=
  upd_link next (set_link_prev prev);; upd_link prev (set_link_next next).

Definition list_del (entry : Z) : cmd heads unit :=
  p ← link_prev entry; n ← link_next entry; list_unlink p n.
Definition list_del_init (entry : Z) : cmd heads unit := list_del entry;; list_head_init entry.
Definition list_empty (head : Z) : cmd heads bool := n ← link_next head; mret (bool_decide (n = head)).

(** [list_for_each]: the nodes visited, in order. *)
Fixpoint list_for_each (fuel : nat) (pos head : Z) : cmd heads (list Z) :=
  if bool_decide (pos = head) then mret [] else
  match fuel with
  | O => cdiverged
  | S fuel => n ← link_next pos; r ← list_for_each fuel n head; mret (pos :: r)
  end.
Definition list_nodes (fuel : nat) (head : Z) : cmd heads (list Z) :=
  n ← link_next head; list_for_each fuel n head.

(** [listh m h l]: the list headed by [h] holds the nodes [l]. *)
Definition head_links (m : heads) : links := fun p => (fun n => (l_prev n, l_next n)) <$> m !! p.
Definition listh (m : heads) (h : Z) (l : list Z) : Prop := cyc (head_links m) (h :: l).

Section list_ops.
Implicit Types (m : heads) (l : list Z).

Lemma upd_link_run p f m n : m !! p = Some n -> upd_link p f m = Ret (tt, <[p := f n]> m).
Proof. intros H. unfold upd_link. step_run (load_Some (fun m : heads => m !! p) m n H). done. Qed.

Lemma link_run m p a b : head_links m p = Some (a, b) -> link_prev p m = Ret (a, m) /\ link_next p m = Ret (b, m).
Proof.
  unfold head_links, link_prev, link_next. destruct (m !! p) as [[? ?]|] eqn:E; [|done]. intros [= <- <-].
  by split; step_run (load_Some (fun m : heads => m !! p) m _ E).
Qed.

Lemma upd_link_links p f m n : m !! p = Some n ->
  exists m', upd_link p f m = Ret (tt, m') /\ m' !! p = Some (f n) /\ forall q, q <> p -> m' !! q = m !! q.
Proof.
  intros H. rewrite (upd_link_run _ _ _ _ H). eexists. split; [done|]. split; [apply lookup_insert_eq|].
  intros q Hq. by apply lookup_insert_ne.
Qed.

(** The store after [list_insert], node by node. *)
Lemma list_insert_run m new prev next : is_Some (m !! new) -> is_Some (m !! prev) -> is_Some (m !! next) ->
  new <> prev -> new <> next ->
  exists m', list_insert new prev next m = Ret (tt, m') /\
    head_links m' new = Some (prev, next) /\
    forall x, x <> new -> head_links m' x =
      (fun ab => (if decide (x = next) then new else ab.1, if decide (x = prev) then new else ab.2)) <$> head_links m x.
Proof.
  intros [nn Hn] [np Hp] [nx Hx] H1 H2. unfold list_insert.
  rewrite (bind_Ret _ _ _ _ _ (upd_link_run _ _ _ _ Hx)).
  erewrite bind_Ret by (apply upd_link_run; by rewrite lookup_insert_ne).
  erewrite bind_Ret by (apply upd_link_run, lookup_insert_eq).
  assert (exists n, (<[next:=set_link_prev new nx]> m) !! prev = Some n /\ l_prev n = (if decide (prev = next) then new else l_prev np)) as (n & En & Ep).
  { destruct (decide (prev = next)) as [->|]; [rewrite lookup_insert_eq|rewrite lookup_insert_ne by done]; eauto. }
  rewrite (upd_link_run _ _ _ n) by (rewrite 2!lookup_insert_ne by done; exact En).
  eexists. split; [done|]. unfold head_links. split; [by rewrite lookup_insert_ne, lookup_insert_eq|].
  intros x Hxn. destruct (decide (x = prev)) as [->|].
  - rewrite lookup_insert_eq, Hp. cbn [fmap option_fmap option_map set_link_next l_prev l_next fst snd].
    by rewrite Ep.
  - rewrite !lookup_insert_ne by done. destruct (decide (x = next)) as [->|].
    + by rewrite lookup_insert_eq, Hx.
    + rewrite lookup_insert_ne by done. by destruct (m !! x) as [[]|].
Qed.

Lemma cyc_some m l p : cyc (head_links m) l -> p ∈ l -> is_Some (m !! p).
Proof.
  intros H Hp. destruct (cyc_linked _ _ _ H Hp) as (a & b & E & _). unfold head_links in E.
  by destruct (m !! p).
Qed.

Lemma list_insert_cyc m l new : cyc (head_links m) l -> l <> [] -> new ∉ l -> new <> 0 -> is_Some (m !! new) ->
  exists m', list_insert new (last_or 0 l) (hd_or 0 l) m = Ret (tt, m') /\ cyc (head_links m') (l ++ [new]) /\
    forall x, x ∉ l -> x <> new -> head_links m' x = head_links m x.
Proof.
  intros H Hl Hn Hn0 Hs. assert (last_or 0 l ∈ l) as Hin1 by auto with kernel. assert (hd_or 0 l ∈ l) as Hin2 by auto with kernel.
  destruct (list_insert_run m new (last_or 0 l) (hd_or 0 l)) as (m' & E & En & Eo);
    [done|by eapply cyc_some|by eapply cyc_some|by intros ->|by intros ->|].
  exists m'. split; [done|]. split.
  - eapply cyc_snoc; [exact H|done..|]. intros x a b Hx Ex. rewrite Eo by (by intros ->). by rewrite Ex.
  - intros x Hx Hxn. rewrite Eo by done. destruct (head_links m x) as [[a b]|]; [|done].
    cbn [fmap option_fmap option_map fst snd]. by rewrite !decide_False by (by intros ->).
Qed.

(** ** What each operation does to the represented list *)
Lemma list_head_init_spec m h : h <> 0 -> is_Some (m !! h) ->
  exists m', list_head_init h m = Ret (tt, m') /\ listh m' h [] /\ forall x, x <> h -> m' !! x = m !! x.
Proof.
  intros Hh [n Hn]. unfold list_head_init. rewrite (bind_Ret _ _ _ _ _ (upd_link_run _ _ _ _ Hn)).
  rewrite (upd_link_run _ _ _ (set_link_next h n)) by apply lookup_insert_eq.
  eexists. split; [done|]. split.
  - apply cyc_singleton; [done|]. unfold head_links. by rewrite lookup_insert_eq.
  - intros x Hx. by rewrite !lookup_insert_ne.
Qed.

Lemma listh_node m h l1 x l2 : listh m h (l1 ++ x :: l2) ->
  head_links m x = Some (last_or h l1, hd_or h l2).
Proof.
  intros H. change (cyc (head_links m) ((h :: l1) ++ x :: l2)) in H. rewrite (cyc_node _ _ _ _ H).
  by rewrite last_or_cons.
Qed.

Lemma listh_head m h l : listh m h l -> head_links m h = Some (last_or h l, hd_or h l).
Proof. intros H. rewrite (cyc_node _ [] _ _ H). cbn [last_or]. by rewrite last_or_cons. Qed.

Lemma list_add_spec m h l new : listh m h l -> new ∉ h :: l -> new <> 0 -> is_Some (m !! new) ->
  exists m', list_add new h m = Ret (tt, m') /\ listh m' h (new :: l) /\
    forall x, x ∉ h :: l -> x <> new -> head_links m' x = head_links m x.
Proof.
  intros H Hn Hn0 Hs. unfold list_add. step_run (proj2 (link_run _ _ _ _ (listh_head _ _ _ H))).
  assert (cyc (head_links m) (l ++ [h])) as H' by by apply (cyc_rotate _ [h] l).
  destruct (list_insert_cyc m (l ++ [h]) new H') as (m' & E & C & O); [by destruct l|set_solver|done|done|].
  rewrite last_or_snoc, hd_or_app in E. exists m'. split; [exact E|]. split; [|intros; apply O; set_solver].
  apply (cyc_rotate _ l [h; new]). by rewrite <- app_assoc in C.
Qed.

Lemma list_add_tail_spec m h l new : listh m h l -> new ∉ h :: l -> new <> 0 -> is_Some (m !! new) ->
  exists m', list_add_tail new h m = Ret (tt, m') /\ listh m' h (l ++ [new]) /\
    forall x, x ∉ h :: l -> x <> new -> head_links m' x = head_links m x.
Proof.
  intros H Hn Hn0 Hs. unfold list_add_tail. step_run (proj1 (link_run _ _ _ _ (listh_head _ _ _ H))).
  destruct (list_insert_cyc m (h :: l) new H) as (m' & E & C & O); [done..|].
  rewrite last_or_cons in E. by exists m'.
Qed.

Lemma list_unlink_run m prev next : is_Some (m !! prev) -> is_Some (m !! next) ->
  exists m', list_unlink prev next m = Ret (tt, m') /\
    forall x, head_links m' x =
      (fun ab => (if decide (x = next) then prev else ab.1, if decide (x = prev) then next else ab.2)) <$> head_links m x.
Proof.
  intros [np Hp] [nx Hx]. unfold list_unlink. rewrite (bind_Ret _ _ _ _ _ (upd_link_run _ _ _ _ Hx)).
  assert (exists n, (<[next:=set_link_prev prev nx]> m) !! prev = Some n /\ l_prev n = (if decide (prev = next) then prev else l_prev np)) as (n & En & Ep).
  { destruct (decide (prev = next)) as [->|]; [rewrite lookup_insert_eq|rewrite lookup_insert_ne by done]; eauto. }
  rewrite (upd_link_run _ _ _ n En). eexists. split; [done|]. intros x. unfold head_links.
  destruct (decide (x = prev)) as [->|].
  - rewrite lookup_insert_eq, Hp. cbn [fmap option_fmap option_map set_link_next l_prev l_next fst snd].
    by rewrite Ep.
  - rewrite lookup_insert_ne by done. destruct (decide (x = next)) as [->|].
    + by rewrite lookup_insert_eq, Hx.
    + rewrite lookup_insert_ne by done. by destruct (m !! x) as [[]|].
Qed.

Lemma list_del_spec m h l1 x l2 : listh m h (l1 ++ x :: l2) ->
  exists m', list_del x m = Ret (tt, m') /\ listh m' h (l1 ++ l2) /\ is_Some (m' !! x) /\
    forall y, y ∉ h :: l1 ++ l2 -> head_links m' y = head_links m y.
Proof.
  intros H. pose proof (listh_node _ _ _ _ _ H) as Ex. unfold list_del.
  step_run (proj1 (link_run _ _ _ _ Ex)). step_run (proj2 (link_run _ _ _ _ Ex)).
  assert (cyc (head_links m) (x :: l2 ++ h :: l1)) as H' by exact (cyc_rotate _ (h :: l1) (x :: l2) H).
  assert (last_or h l1 = last_or 0 (l2 ++ h :: l1)) as E1 by by rewrite last_or_app, last_or_cons.
  assert (hd_or h l2 = hd_or 0 (l2 ++ h :: l1)) as E2 by by rewrite hd_or_app.
  rewrite E1, E2. set (l := l2 ++ h :: l1) in *. assert (l <> []) as Hl by (by destruct l2).
  assert (last_or 0 l ∈ l /\ hd_or 0 l ∈ l) as [Hin1 Hin2] by auto with kernel.
  destruct (list_unlink_run m (last_or 0 l) (hd_or 0 l)) as (m' & E & Eo);
    [eapply cyc_some; [exact H'|by right]..|].
  exists m'. split; [exact E|]. split; [|split].
  - assert (cyc (head_links m') l) as C.
    { eapply cyc_tail; [exact H'|]. intros y a b Hy Ey. by rewrite Eo, Ey. }
    exact (cyc_rotate _ l2 (h :: l1) C).
  - specialize (Eo x). rewrite Ex in Eo. unfold head_links in Eo. destruct (m' !! x); [done|]. by cbn in Eo.
  - intros y Hy. rewrite Eo. destruct (head_links m y) as [[a b]|]; [|done].
    cbn [fmap option_fmap option_map fst snd].
    by rewrite !decide_False by (intros ->; apply Hy; subst l; set_solver).
Qed.

Lemma list_empty_spec m h l : listh m h l -> list_empty h m = Ret (bool_decide (l = []), m).
Proof.
  intros H. unfold list_empty. step_run (proj2 (link_run _ _ _ _ (listh_head _ _ _ H))).
  change (Ret (bool_decide (hd_or h l = h), m) = Ret (bool_decide (l = []), m)).
  do 2 f_equal. apply bool_decide_ext. destruct l as [|x l]; [done|]. split; [|done].
  intros E. destruct H as [_ [Hh _]%list.NoDup_cons _]. destruct Hh. change (hd_or h (x :: l)) with x in E.
  subst. by left.
Qed.

Lemma list_for_each_from m h l2 : forall l1 fuel, listh m h (l1 ++ l2) -> (length l2 <= fuel)%nat ->
  list_for_each fuel (hd_or h l2) h m = Ret (l2, m).
Proof.
  induction l2 as [|x l2 IH]; intros l1 fuel H Hf.
  - destruct fuel; cbn [list_for_each hd_or head from_option id default]; by rewrite bool_decide_eq_true_2.
  - destruct fuel as [|fuel]; [cbn in Hf; lia|]. change (hd_or h (x :: l2)) with x. cbn [list_for_each].
    rewrite bool_decide_eq_false_2.
    2: { intros ->. destruct H as [_ [Hh _]%list.NoDup_cons _]. apply Hh, elem_of_app. right. by left. }
    step_run (proj2 (link_run _ _ _ _ (listh_node _ _ _ _ _ H))).
    rewrite (bind_Ret _ _ _ _ _ (IH (l1 ++ [x]) fuel ltac:(by rewrite <- app_assoc) ltac:(cbn in Hf; lia))). done.
Qed.
End list_ops.

(** ** Sequences of operations refine operations on lists *)
Inductive list_op := LAdd (x : Z) | LAddTail (x : Z) | LDel (x : Z).

Definition run_op (h : Z) (o : list_op) : cmd heads unit :=
  match o with LAdd x => list_add x h | LAddTail x => list_add_tail x h | LDel x => list_del_init x end.
Fixpoint run_ops (h : Z) (os : list list_op) : cmd heads unit :=
  match os with [] => mret tt | o :: os => run_op h o;; run_ops h os end.

Definition spec_op (l : list Z) (o : list_op) : list Z :=
  match o with LAdd x => x :: l | LAddTail x => l ++ [x] | LDel x => filter (fun y => y <> x) l end.

(** A node is added only while it is not in the list and removed only while it is. *)
Fixpoint legal (l : list Z) (os : list list_op) : Prop :=
  match os with
  | [] => True
  | o :: os => match o with LAdd x | LAddTail x => x ∉ l | LDel x => x ∈ l end /\ legal (spec_op l o) os
  end.
Definition op_node (o : list_op) : Z := match o with LAdd x | LAddTail x | LDel x => x end.

Section refinement.
Context (h : Z) (N : gset Z) (Hh : h ∉ N) (HN : 0 ∉ N).

(** The nodes of [N] exist and [l], headed by [h], is made of some of them. *)
Definition list_sim (m : heads) (l : list Z) : Prop :=
  listh m h l /\ (forall x, x ∈ l -> x ∈ N) /\ (forall x, x ∈ N -> is_Some (m !! x)).

Lemma links_some m m' x : head_links m' x = head_links m x -> is_Some (m !! x) -> is_Some (m' !! x).
Proof. unfold head_links. intros E [n Hn]. rewrite Hn in E. by destruct (m' !! x). Qed.

Lemma run_op_sim m l o : list_sim m l -> op_node o ∈ N -> legal l [o] ->
  exists m', run_op h o m = Ret (tt, m') /\ list_sim m' (spec_op l o).
Proof.
  intros (H & Hl & Hs) Ho [Hleg _]. assert (op_node o <> 0 /\ op_node o <> h) as [Ho0 Hoh] by (split; intros E; by rewrite E in Ho).
  assert (forall m' l', listh m' h l' -> (forall x, x ∈ l' -> x ∈ l \/ x = op_node o) -> is_Some (m' !! op_node o) ->
    (forall x, x ∉ h :: l -> x <> op_node o -> head_links m' x = head_links m x) ->
    (forall x, x ∈ l -> x <> op_node o -> x ∈ l') -> list_sim m' l') as Hsim.
  { intros m' l' C Hin Hx O Hin'. split; [done|]. split; [intros x [?| ->]%Hin; auto|]. intros x Hx'.
    destruct (decide (x = op_node o)) as [->|]; [done|]. destruct (decide (x ∈ l)).
    - eapply cyc_some; [exact C|]. right. auto.
    - eapply links_some; [apply O; [set_solver|done]|auto]. }
  destruct o as [x|x|x]; cbn [op_node run_op spec_op] in *.
  - destruct (list_add_spec m h l x) as (m' & E & C & O); [done|set_solver|done|auto|].
    exists m'. split; [done|]. apply Hsim; [done|set_solver|eapply cyc_some; [exact C|set_solver]|done|set_solver].
  - destruct (list_add_tail_spec m h l x) as (m' & E & C & O); [done|set_solver|done|auto|].
    exists m'. split; [done|]. apply Hsim; [done|set_solver|eapply cyc_some; [exact C|set_solver]|done|set_solver].
  - apply list_elem_of_split in Hleg as (l1 & l2 & ->).
    destruct (list_del_spec m h l1 x l2 H) as (m1 & E1 & C1 & S1 & O1).
    destruct (list_head_init_spec m1 x Ho0 S1) as (m2 & E2 & C2 & O2).
    exists m2. split; [unfold list_del_init; by step_run E1|].
    assert (NoDup (h :: l1 ++ x :: l2)) as HD by apply H.
    assert (x ∉ l1 /\ x ∉ l2) as [X1 X2].
    { apply list.NoDup_cons in HD as [_ (_ & D & [? _]%list.NoDup_cons)%list.NoDup_app]. split; [|done].
      intros Hx. apply (D x Hx). by left. }
    assert (filter (fun y => y <> x) (l1 ++ x :: l2) = l1 ++ l2) as ->.
    { rewrite list.filter_app, filter_cons_False by (intros X; by apply X).
      rewrite !filter_all; [done|by intros y Hy ->..]. }
    assert (forall y, y <> x -> head_links m2 y = head_links m1 y) as O2' by (intros y Hy; unfold head_links; by rewrite O2).
    apply Hsim.
    + eapply cyc_ext; [|exact C1]. intros y Hy. apply O2'. intros ->. set_solver.
    + set_solver.
    + eapply cyc_some; [exact C2|by left].
    + intros y Hy Hyx. rewrite O2' by done. apply O1. set_solver.
    + set_solver.
Qed.

Lemma run_ops_sim os : forall m l, list_sim m l -> Forall (fun o => op_node o ∈ N) os -> legal l os ->
  exists m', run_ops h os m = Ret (tt, m') /\ list_sim m' (foldl spec_op l os).
Proof.
  induction os as [|o os IH]; intros m l H HF Hleg; [by exists m|].
  apply list.Forall_cons in HF as [Ho HF]. destruct Hleg as [Ho' Hleg].
  destruct (run_op_sim m l o H Ho) as (m1 & E1 & H1); [by split|].
  destruct (IH m1 _ H1 HF Hleg) as (m2 & E2 & H2). exists m2. split; [|done].
  cbn [run_ops]. by step_run E1.
Qed.

End refinement.

(** Starting from an initialised head, any legal sequence of [list_add],
    [list_add_tail] and [list_del_init] leaves the links in the state that
    [list_for_each] walks as the mathematical list the same operations build. *)
Theorem list_ops_refine h (N : gset Z) m os n : h ∉ N -> 0 ∉ N -> h <> 0 -> is_Some (m !! h) ->
  (forall x, x ∈ N -> is_Some (m !! x)) -> Forall (fun o => op_node o ∈ N) os -> legal [] os ->
  (size N <= n)%nat ->
  exists m', (list_head_init h;; run_ops h os) m = Ret (tt, m') /\
    list_nodes n h m' = Ret (foldl spec_op [] os, m') /\
    list_empty h m' = Ret (bool_decide (foldl spec_op [] os = []), m').
Proof.
  intros Hh HN Hh0 Hm Hs HF Hleg Hn. destruct (list_head_init_spec m h Hh0 Hm) as (m0 & E0 & C0 & O0).
  destruct (run_ops_sim h N Hh HN os m0 []) as (m' & E & C & Hl & _); [|done|done|].
  { split; [done|]. split; [set_solver|]. intros x Hx. rewrite O0 by by intros ->. auto. }
  exists m'. split; [by step_run E0|]. split; [|by apply list_empty_spec].
  unfold list_nodes. step_run (proj2 (link_run _ _ _ _ (listh_head _ _ _ C))).
  apply (list_for_each_from m' h _ [] n C). etrans; [|exact Hn].
  destruct C as [_ [_ D]%list.NoDup_cons _]. rewrite <- (size_list_to_set (C:=gset Z)) by done.
  apply subseteq_size. intros x. rewrite elem_of_list_to_set. apply Hl.
Qed.

Lemma list_ops_refine_witness :
  let m : heads := {[1 := mk_link 0 0; 2 := mk_link 0 0; 3 := mk_link 7 7; 4 := mk_link 0 9]} in
  let os := [LAdd 2; LAddTail 3; LAdd 4; LDel 2] in
  exists m', (list_head_init 1;; run_ops 1 os) m = Ret (tt, m') /\ list_nodes 3 1 m' = Ret ([4; 3], m') /\
    list_empty 1 m' = Ret (false, m').
Proof.
  apply (list_ops_refine 1 {[2; 3; 4]} _ [LAdd 2; LAddTail 3; LAdd 4; LDel 2] 3);
    [set_solver|set_solver|done|by eexists| | |cbn [legal spec_op app]; set_solver|vm_compute; lia].
  - intros x [[->%elem_of_singleton| ->%elem_of_singleton]%elem_of_union| ->%elem_of_singleton]%elem_of_union; by eexists.
  - repeat constructor; cbn; set_solver.
Defined.
