(* ===== verification/Task.v ===== *)
(** * Threads, processes and processors

    The data of [include/sys/thread.h], [include/sys/wait.h] and
    [include/arch/amd64/asm/asm_cpu.h], and the globals of [sys/sched.c] and
    [sys/process.c].  Threads and processes are named by their addresses, 0 is the
    null pointer.  The lists headed by [thread_list], [proc_all_head] and [wait_head]
    are intrusive lists of [list.h], represented by the lists of their nodes
    ([ListHead] relates the two).  A spin lock makes the code between its acquisition
    and its release one step; what another processor may do in between is modelled
    where the lock is dropped ([Sched]). *)

From S2P Require Import Prelude Defs Wait Vnode.

Inductive thread_state := THREAD_READY | THREAD_RUNNING | THREAD_WAITING | THREAD_STOPPED.
Inductive process_state := PROC_ACTIVE | PROC_SUSPENDED | PROC_FINISHED.
#[export] Instance thread_state_eq_dec : EqDecision thread_state.
Proof. solve_decision. Defined.
#[export] Instance process_state_eq_dec : EqDecision process_state.
Proof. solve_decision. Defined.

Definition THREAD_KERNEL : Z := 1.
Definition PROC_EMPTY : Z := 2.
Definition AMD64_MAX_SMP : nat := 4.
Definition SIGFPE : Z := 8.
Definition SIGKILL : Z := 9.
Definition SIGSEGV : Z := 11.
Definition SIGTERM : Z := 15.
Definition SIGCHLD : Z := 17.
Definition SIGCONT : Z := 18.
Definition SIGSTOP : Z := 19.

(** Where a [struct io_notify] is embedded: in a process, in a thread, elsewhere. *)
Inductive nref := NPid (p : Z) | NSleep (t : Z) | NIo (a : Z).
#[export] Instance nref_eq_dec : EqDecision nref.
Proof. solve_decision. Defined.
#[export] Instance nref_countable : Countable nref.
Proof.
  apply (inj_countable' (fun r => match r with NPid p => inl (inl p) | NSleep t => inl (inr t) | NIo a => inr a end)
    (fun x => match x with inl (inl p) => NPid p | inl (inr t) => NSleep t | inr a => NIo a end)).
  by intros [].
Defined.

Record thread_data := mk_tdata {
  rsp0 : Z; rsp0_top : Z; cr3 : Z; rsp0_sigenter : Z; rsp0_base : Z; rsp0_size : Z; rsp3_base : Z; rsp3_size : Z; fxsave : Z }.

Record thread := mk_thread {
  data : thread_data;
  t_state : thread_state;
  sleep_deadline : Z;
  wait_head : list nref;
  t_proc : Z;
  signal_entry : Z;
  signal_stack_base : Z;
  signal_stack_size : Z;
  t_sigq : Z;
  t_flags : Z;
  t_cpu : Z;
  sched_prev : Z;
  sched_next : Z;
}.

Record process := mk_process {
  space : Z;
  proc_state : process_state;
  thread_list : list Z;
  thread_count : Z;
  ioctx : vfs_ioctx;
  fds : list Z;
  p_sigq : Z;
  ctty : Z;
  p_flags : Z;
  pid : Z;
  pgid : Z;
  parent : Z;
  first_child : Z;
  next_child : Z;
  exit_status : Z;
}.

(** The kernel state these components share; [W] is the rest of the kernel (memory
    and files), which only [Process] touches. *)
Record tstate {W : Type} := mk_tstate {
  threads : gmap Z thread;
  procs : gmap Z process;
  notifies : gmap nref io_notify;
  queue_heads : list Z;
  queue_sizes : list Z;
  sched_ncpus : Z;
  clk : Z;
  cpu_thread : list Z;
  proc_all : list Z;
  last_kernel_pid : Z;
  last_user_pid : Z;
  world : W;
}.
Arguments tstate : clear implicits.

(** The static array [threads_idle] lies outside the memory [kmalloc] hands out. *)
Definition threads_idle (i : Z) : Z := - (i + 1).

(** ** Field updates *)
Definition th_set_data x (t : thread) := mk_thread x (t_state t) (sleep_deadline t) (wait_head t) (t_proc t)
  (signal_entry t) (signal_stack_base t) (signal_stack_size t) (t_sigq t) (t_flags t) (t_cpu t) (sched_prev t) (sched_next t).
Definition th_set_state x (t : thread) := mk_thread (data t) x (sleep_deadline t) (wait_head t) (t_proc t)
  (signal_entry t) (signal_stack_base t) (signal_stack_size t) (t_sigq t) (t_flags t) (t_cpu t) (sched_prev t) (sched_next t).
Definition th_set_deadline x (t : thread) := mk_thread (data t) (t_state t) x (wait_head t) (t_proc t)
  (signal_entry t) (signal_stack_base t) (signal_stack_size t) (t_sigq t) (t_flags t) (t_cpu t) (sched_prev t) (sched_next t).
Definition th_set_wait x (t : thread) := mk_thread (data t) (t_state t) (sleep_deadline t) x (t_proc t)
  (signal_entry t) (signal_stack_base t) (signal_stack_size t) (t_sigq t) (t_flags t) (t_cpu t) (sched_prev t) (sched_next t).
Definition th_set_signal e b z (t : thread) := mk_thread (data t) (t_state t) (sleep_deadline t) (wait_head t) (t_proc t)
  e b z (t_sigq t) (t_flags t) (t_cpu t) (sched_prev t) (sched_next t).
Definition th_set_sigq x (t : thread) := mk_thread (data t) (t_state t) (sleep_deadline t) (wait_head t) (t_proc t)
  (signal_entry t) (signal_stack_base t) (signal_stack_size t) x (t_flags t) (t_cpu t) (sched_prev t) (sched_next t).
Definition th_set_cpu x (t : thread) := mk_thread (data t) (t_state t) (sleep_deadline t) (wait_head t) (t_proc t)
  (signal_entry t) (signal_stack_base t) (signal_stack_size t) (t_sigq t) (t_flags t) x (sched_prev t) (sched_next t).
Definition th_set_prev x (t : thread) := mk_thread (data t) (t_state t) (sleep_deadline t) (wait_head t) (t_proc t)
  (signal_entry t) (signal_stack_base t) (signal_stack_size t) (t_sigq t) (t_flags t) (t_cpu t) x (sched_next t).
Definition th_set_next x (t : thread) := mk_thread (data t) (t_state t) (sleep_deadline t) (wait_head t) (t_proc t)
  (signal_entry t) (signal_stack_base t) (signal_stack_size t) (t_sigq t) (t_flags t) (t_cpu t) (sched_prev t) x.

Definition pr_set_state x (p : process) := mk_process (space p) x (thread_list p) (thread_count p) (ioctx p) (fds p)
  (p_sigq p) (ctty p) (p_flags p) (pid p) (pgid p) (parent p) (first_child p) (next_child p) (exit_status p).
Definition pr_set_threads l n (p : process) := mk_process (space p) (proc_state p) l n (ioctx p) (fds p)
  (p_sigq p) (ctty p) (p_flags p) (pid p) (pgid p) (parent p) (first_child p) (next_child p) (exit_status p).
Definition pr_set_ioctx x (p : process) := mk_process (space p) (proc_state p) (thread_list p) (thread_count p) x (fds p)
  (p_sigq p) (ctty p) (p_flags p) (pid p) (pgid p) (parent p) (first_child p) (next_child p) (exit_status p).
Definition pr_set_fds x (p : process) := mk_process (space p) (proc_state p) (thread_list p) (thread_count p) (ioctx p) x
  (p_sigq p) (ctty p) (p_flags p) (pid p) (pgid p) (parent p) (first_child p) (next_child p) (exit_status p).
Definition pr_set_sigq x (p : process) := mk_process (space p) (proc_state p) (thread_list p) (thread_count p) (ioctx p) (fds p)
  x (ctty p) (p_flags p) (pid p) (pgid p) (parent p) (first_child p) (next_child p) (exit_status p).
Definition pr_set_ctty x (p : process) := mk_process (space p) (proc_state p) (thread_list p) (thread_count p) (ioctx p) (fds p)
  (p_sigq p) x (p_flags p) (pid p) (pgid p) (parent p) (first_child p) (next_child p) (exit_status p).
Definition pr_set_flags x (p : process) := mk_process (space p) (proc_state p) (thread_list p) (thread_count p) (ioctx p) (fds p)
  (p_sigq p) (ctty p) x (pid p) (pgid p) (parent p) (first_child p) (next_child p) (exit_status p).
Definition pr_set_pgid x (p : process) := mk_process (space p) (proc_state p) (thread_list p) (thread_count p) (ioctx p) (fds p)
  (p_sigq p) (ctty p) (p_flags p) (pid p) x (parent p) (first_child p) (next_child p) (exit_status p).
Definition pr_set_parent x (p : process) := mk_process (space p) (proc_state p) (thread_list p) (thread_count p) (ioctx p) (fds p)
  (p_sigq p) (ctty p) (p_flags p) (pid p) (pgid p) x (first_child p) (next_child p) (exit_status p).
Definition pr_set_first x (p : process) := mk_process (space p) (proc_state p) (thread_list p) (thread_count p) (ioctx p) (fds p)
  (p_sigq p) (ctty p) (p_flags p) (pid p) (pgid p) (parent p) x (next_child p) (exit_status p).
Definition pr_set_next x (p : process) := mk_process (space p) (proc_state p) (thread_list p) (thread_count p) (ioctx p) (fds p)
  (p_sigq p) (ctty p) (p_flags p) (pid p) (pgid p) (parent p) (first_child p) x (exit_status p).
Definition pr_set_exit x (p : process) := mk_process (space p) (proc_state p) (thread_list p) (thread_count p) (ioctx p) (fds p)
  (p_sigq p) (ctty p) (p_flags p) (pid p) (pgid p) (parent p) (first_child p) (next_child p) x.

Section access.
Context {W : Type}.
Implicit Types s : tstate W.

Definition ts_threads m s := mk_tstate _ m (procs s) (notifies s) (queue_heads s) (queue_sizes s)
  (sched_ncpus s) (clk s) (cpu_thread s) (proc_all s) (last_kernel_pid s) (last_user_pid s) (world s).
Definition ts_procs m s := mk_tstate _ (threads s) m (notifies s) (queue_heads s) (queue_sizes s)
  (sched_ncpus s) (clk s) (cpu_thread s) (proc_all s) (last_kernel_pid s) (last_user_pid s) (world s).
Definition ts_notifies m s := mk_tstate _ (threads s) (procs s) m (queue_heads s) (queue_sizes s)
  (sched_ncpus s) (clk s) (cpu_thread s) (proc_all s) (last_kernel_pid s) (last_user_pid s) (world s).
Definition ts_heads l s := mk_tstate _ (threads s) (procs s) (notifies s) l (queue_sizes s)
  (sched_ncpus s) (clk s) (cpu_thread s) (proc_all s) (last_kernel_pid s) (last_user_pid s) (world s).
Definition ts_sizes l s := mk_tstate _ (threads s) (procs s) (notifies s) (queue_heads s) l
  (sched_ncpus s) (clk s) (cpu_thread s) (proc_all s) (last_kernel_pid s) (last_user_pid s) (world s).
Definition ts_clk c s := mk_tstate _ (threads s) (procs s) (notifies s) (queue_heads s) (queue_sizes s)
  (sched_ncpus s) c (cpu_thread s) (proc_all s) (last_kernel_pid s) (last_user_pid s) (world s).
Definition ts_current l s := mk_tstate _ (threads s) (procs s) (notifies s) (queue_heads s) (queue_sizes s)
  (sched_ncpus s) (clk s) l (proc_all s) (last_kernel_pid s) (last_user_pid s) (world s).
Definition ts_proc_all l s := mk_tstate _ (threads s) (procs s) (notifies s) (queue_heads s) (queue_sizes s)
  (sched_ncpus s) (clk s) (cpu_thread s) l (last_kernel_pid s) (last_user_pid s) (world s).
Definition ts_pids k u s := mk_tstate _ (threads s) (procs s) (notifies s) (queue_heads s) (queue_sizes s)
  (sched_ncpus s) (clk s) (cpu_thread s) (proc_all s) k u (world s).
Definition ts_world (w : W) s := mk_tstate _ (threads s) (procs s) (notifies s) (queue_heads s) (queue_sizes s)
  (sched_ncpus s) (clk s) (cpu_thread s) (proc_all s) (last_kernel_pid s) (last_user_pid s) w.

(** Reading and writing through a pointer faults on an address that holds nothing. *)
Definition get_thread (t : Z) : cmd (tstate W) thread := cload (fun s => threads s !! t).
Definition upd_thread (t : Z) (f : thread -> thread) : cmd (tstate W) unit :=
  x ← get_thread t; cmodify (fun s => ts_threads (<[t := f x]> (threads s)) s).
Definition get_proc (p : Z) : cmd (tstate W) process := cload (fun s => procs s !! p).
Definition upd_proc (p : Z) (f : process -> process) : cmd (tstate W) unit :=
  x ← get_proc p; cmodify (fun s => ts_procs (<[p := f x]> (procs s)) s).
Definition get_notify (n : nref) : cmd (tstate W) io_notify := cload (fun s => notifies s !! n).
(** Run an operation of [Wait] on one notification object. *)
Definition on_notify {A} (n : nref) (m : cmd io_notify A) : cmd (tstate W) A :=
  x ← get_notify n;
  match m x with
  | Ret (a, x') => cmodify (fun s => ts_notifies (<[n := x']> (notifies s)) s);; mret a
  | Panic => cpanic
  | Fault => cfault
  | Diverged => cdiverged
  end.

(** The per-processor arrays. *)
Definition at_cpu (f : tstate W -> list Z) (c : Z) : cmd (tstate W) Z :=
  cload (fun s => if 0 <=? c then f s !! Z.to_nat c else None).
Definition set_head (c h : Z) : cmd (tstate W) unit :=
  at_cpu queue_heads c;; cmodify (fun s => ts_heads (<[Z.to_nat c := h]> (queue_heads s)) s).
Definition set_size (c n : Z) : cmd (tstate W) unit :=
  at_cpu queue_sizes c;; cmodify (fun s => ts_sizes (<[Z.to_nat c := n]> (queue_sizes s)) s).
Definition set_current (c t : Z) : cmd (tstate W) unit :=
  at_cpu cpu_thread c;; cmodify (fun s => ts_current (<[Z.to_nat c := t]> (cpu_thread s)) s).

Lemma get_thread_run s t x : threads s !! t = Some x -> get_thread t s = Ret (x, s).
Proof. exact (load_Some (fun s => threads s !! t) s x). Qed.
Lemma upd_thread_run s t f x : threads s !! t = Some x ->
  upd_thread t f s = Ret (tt, ts_threads (<[t := f x]> (threads s)) s).
Proof. intros H. unfold upd_thread. by step_run (get_thread_run _ _ _ H). Qed.
Lemma get_proc_run s p x : procs s !! p = Some x -> get_proc p s = Ret (x, s).
Proof. exact (load_Some (fun s => procs s !! p) s x). Qed.
Lemma upd_proc_run s p f x : procs s !! p = Some x ->
  upd_proc p f s = Ret (tt, ts_procs (<[p := f x]> (procs s)) s).
Proof. intros H. unfold upd_proc. by step_run (get_proc_run _ _ _ H). Qed.
Lemma get_notify_run s n x : notifies s !! n = Some x -> get_notify n s = Ret (x, s).
Proof. exact (load_Some (fun s => notifies s !! n) s x). Qed.
Lemma on_notify_run {A} s n x (m : cmd io_notify A) a x' : notifies s !! n = Some x -> m x = Ret (a, x') ->
  on_notify n m s = Ret (a, ts_notifies (<[n := x']> (notifies s)) s).
Proof. intros H E. unfold on_notify. step_run (get_notify_run _ _ _ H). by rewrite E. Qed.

Lemma at_cpu_run s f c x : 0 <= c -> f s !! Z.to_nat c = Some x -> at_cpu f c s = Ret (x, s).
Proof.
  intros Hc H. apply load_Some. rewrite (proj2 (Z.leb_le 0 c) Hc). done.
Qed.
Lemma set_head_run s c h x : 0 <= c -> queue_heads s !! Z.to_nat c = Some x ->
  set_head c h s = Ret (tt, ts_heads (<[Z.to_nat c := h]> (queue_heads s)) s).
Proof. intros Hc H. unfold set_head. by step_run (at_cpu_run s queue_heads c x Hc H). Qed.
Lemma set_size_run s c n x : 0 <= c -> queue_sizes s !! Z.to_nat c = Some x ->
  set_size c n s = Ret (tt, ts_sizes (<[Z.to_nat c := n]> (queue_sizes s)) s).
Proof. intros Hc H. unfold set_size. by step_run (at_cpu_run s queue_sizes c x Hc H). Qed.
Lemma set_current_run s c t x : 0 <= c -> cpu_thread s !! Z.to_nat c = Some x ->
  set_current c t s = Ret (tt, ts_current (<[Z.to_nat c := t]> (cpu_thread s)) s).
Proof. intros Hc H. unfold set_current. by step_run (at_cpu_run s cpu_thread c x Hc H). Qed.
End access.
