(* ===== verification/Sched.v ===== *)
(** * The scheduler and signal delivery: [sys/sched.c], [sys/thread.c], [sys/wait.c]

    The kernel is built for several processors ([AMD64_SMP]); [me] is the number of
    the one that runs an operation.  An operation ends where it hands the processor
    to another thread: its result names that thread.  [sched_unqueue] drops the
    scheduler lock around [thread_check_signal], so it is also given as two steps,
    [sched_unqueue_enter] and [sched_unqueue_leave], between which other processors
    may run. *)

From S2P Require Import Prelude Defs Wait Vnode Task ListHead.

Section sched_ops.
Context {W : Type}.
Abbreviation K := (cmd (tstate W)).

Definition sched_queue_to (thr cpu_no : Z) : K unit :=
  t ← get_thread thr;
  if nonnull (sched_prev t) || nonnull (sched_next t) then mret tt else
  cassert (nonnull thr);;
  upd_thread thr (th_set_state THREAD_READY);;
  upd_thread thr (th_set_cpu cpu_no);;
  head ← at_cpu queue_heads cpu_no;
  (if nonnull head then
     h ← get_thread head;
     let queue_tail := sched_prev h in
     upd_thread queue_tail (th_set_next thr);;
     upd_thread thr (th_set_prev queue_tail);;
     upd_thread head (th_set_prev thr);;
     upd_thread thr (th_set_next head)
   else
     upd_thread thr (th_set_next thr);;
     upd_thread thr (th_set_prev thr);;
     set_head cpu_no thr);;
  n ← at_cpu queue_sizes cpu_no;
  set_size cpu_no (u64 (n + 1)).

(** The loop that looks for the shortest queue. *)
Fixpoint min_queue (n : nat) (i min_index min_size : Z) : K (Z * Z) :=
  match n with
  | O => mret (min_index, min_size)
  | S n =>
      q ← at_cpu queue_sizes i;
      if q <? min_size then min_queue n (i + 1) i q else min_queue n (i + 1) min_index min_size
  end.

Definition sched_queue (thr : Z) : K unit :=
  t ← get_thread thr;
  (if nonnull (t_proc t) then
     p ← get_proc (t_proc t);
     if bool_decide (proc_state p = PROC_SUSPENDED) then cpanic else mret tt
   else mret tt);;
  ncpus ← cgets sched_ncpus;
  '(min_index, min_size) ← min_queue (Z.to_nat ncpus) 0 0 (2 ^ 64 - 1);
  if min_size =? 0 then
    c ← cgets clk;
    cmodify (ts_clk (i32 (c + 1)));;
    sched_queue_to thr (Z.rem c ncpus)
  else sched_queue_to thr min_index.

(** [thread_notify_io] with the wake-up of the owner. *)
Definition notify_io (n : nref) : K unit :=
  o ← on_notify n thread_notify_io;
  match o with
  | None => mret tt
  | Some t =>
      x ← get_thread t;
      if nonnull (sched_next x) then mret tt else sched_queue t
  end.

(** ** Leaving the run queue *)
Definition sched_unqueue_enter (me thr : Z) (new_state : thread_state) : K (Z * Z) :=
  t ← get_thread thr;
  cassert (0 <=? t_cpu t);;
  (if bool_decide (me <> t_cpu t) then cpanic else mret tt);;
  upd_thread thr (th_set_cpu (-1));;
  cassert (bool_decide (new_state = THREAD_WAITING) || bool_decide (new_state = THREAD_STOPPED));;
  n ← at_cpu queue_sizes me;
  cassert (nonnull n);;
  set_size me (n - 1);;
  upd_thread thr (th_set_state new_state);;
  mret (sched_prev t, sched_next t).

Definition sched_unqueue_leave (me thr prev next : Z) : K (option Z) :=
  if bool_decide (next = thr) then
    upd_thread thr (th_set_next 0);;
    upd_thread thr (th_set_prev 0);;
    set_head me 0;;
    set_current me (threads_idle me);;
    mret (Some (threads_idle me))
  else
    head ← at_cpu queue_heads me;
    (if bool_decide (thr = head) then set_head me next else mret tt);;
    cassert (nonnull thr && nonnull next && nonnull prev);;
    upd_thread next (th_set_prev prev);;
    upd_thread prev (th_set_next next);;
    upd_thread thr (th_set_prev 0);;
    upd_thread thr (th_set_next 0);;
    cur ← at_cpu cpu_thread me;
    if bool_decide (thr = cur) then set_current me next;; mret (Some next) else mret None.

(** ** Signals *)

(** How [thread_check_signal] ended: nothing was pending; a signal was dealt with
    ([-EINTR]); the thread went to sleep in [sched_unqueue]; the user's handler is
    running at [entry] on the stack [rsp]. *)
Inductive sig_res (A : Type) :=
  | SigNone
  | SigHandled
  | SigSuspended (a : A)
  | SigHandler (entry rsp signum : Z).
Arguments SigNone {A}.
Arguments SigHandled {A}.
Arguments SigSuspended {A} a.
Arguments SigHandler {A} entry rsp signum.

Definition signal_is_exception (signum : Z) : bool := (signum =? SIGFPE) || (signum =? SIGSEGV).

(** [unqueue] is [sched_unqueue], which calls this function in turn; the wait loop
    of [SIGSTOP] is entered once here and continued by [thread_sigstop_resume]. *)
Definition thread_sigenter {A} (unqueue : Z -> thread_state -> K A) (me signum : Z) : K (sig_res A) :=
  thr ← at_cpu cpu_thread me;
  t ← get_thread thr;
  if (signum =? SIGCHLD) || (signum =? SIGCONT) then mret SigHandled else
  get_proc (t_proc t);;
  if signum =? SIGSTOP then
    upd_proc (t_proc t) (pr_set_state PROC_SUSPENDED);;
    n ← get_notify (NPid (t_proc t));
    (if bool_decide (n_owner n <> None) then notify_io (NPid (t_proc t)) else mret tt);;
    w ← unqueue thr THREAD_WAITING;
    mret (SigSuspended w)
  else
    cassert (bool_decide (signal_entry t <> MM_NADDR));;
    cassert (bool_decide (signal_stack_base t <> MM_NADDR));;
    mret (SigHandler (signal_entry t) (u64 (signal_stack_base t + signal_stack_size t)) signum).

(** The lowest pending signal of [sigq]. *)
Fixpoint first_signal (n : nat) (i sigq : Z) : option Z :=
  match n with
  | O => None
  | S n => if negb (Z.land sigq (Z.shiftl 1 i) =? 0) then Some i else first_signal n (i + 1) sigq
  end.

Definition thread_check_signal {A} (unqueue : Z -> thread_state -> K A) (me thr : Z) : K (sig_res A) :=
  t ← get_thread thr;
  if negb (nonnull (t_proc t)) then mret SigNone else
  if nonnull (t_sigq t) then cpanic else
  p ← get_proc (t_proc t);
  if nonnull (p_sigq p) then
    match first_signal 64 0 (p_sigq p) with
    | None => cpanic
    | Some i =>
        upd_proc (t_proc t) (fun p => pr_set_sigq (Z.land (p_sigq p) (Z.lnot (Z.shiftl 1 i))) p);;
        thread_sigenter unqueue me (i + 1)
    end
  else mret SigNone.

(** The result of [sched_unqueue]: it ran to its end and gave the processor to [to]
    (or to nobody); or a signal handler or a stop interrupted it before
    [sched_unqueue_leave]. *)
Inductive unq_res :=
  | UDone (to : option Z)
  | UHandler (entry rsp signum prev next : Z)
  | UStopped (inner : unq_res) (prev next : Z).

Fixpoint sched_unqueue (fuel : nat) (me thr : Z) (new_state : thread_state) : K unq_res :=
  match fuel with
  | O => cdiverged
  | S fuel =>
      '(prev, next) ← sched_unqueue_enter me thr new_state;
      r ← thread_check_signal (sched_unqueue fuel me) me thr;
      match r with
      | SigNone | SigHandled => to ← sched_unqueue_leave me thr prev next; mret (UDone to)
      | SigSuspended w => mret (UStopped w prev next)
      | SigHandler e r n => mret (UHandler e r n prev next)
      end
  end.

(** Three levels are enough: see [sched_unqueue_terminates] in [SchedInv]. *)
Definition unq_fuel : nat := 3.

(** The test of the [SIGSTOP] loop when the thread runs again. *)
Definition thread_sigstop_resume (me thr : Z) : K (option unq_res) :=
  t ← get_thread thr;
  p ← get_proc (t_proc t);
  if bool_decide (proc_state p = PROC_SUSPENDED) then
    w ← sched_unqueue unq_fuel me thr THREAD_WAITING; mret (Some w)
  else cassert (bool_decide (proc_state p = PROC_ACTIVE));; mret None.

(** ** Switching threads *)
Definition yield_next (me from : Z) : K Z :=
  n ← (if nonnull from then f ← get_thread from; mret (sched_next f) else mret 0);
  if nonnull n then mret n else
  h ← at_cpu queue_heads me;
  mret (if nonnull h then h else threads_idle me).

Definition yield_switch (me from to : Z) : K Z :=
  (if nonnull from then upd_thread from (th_set_state THREAD_READY) else mret tt);;
  t ← get_thread to;
  cassert (bool_decide (t_state t <> THREAD_STOPPED));;
  upd_thread to (th_set_state THREAD_RUNNING);;
  set_current me to;;
  mret to.

Inductive yield_res := YSwitched (to : Z) | YSignal (r : sig_res unq_res) (from to : Z).

Definition yield (me : Z) : K yield_res :=
  from ← at_cpu cpu_thread me;
  to ← yield_next me from;
  r ← thread_check_signal (sched_unqueue unq_fuel me) me from;
  match r with
  | SigNone | SigHandled => to ← yield_switch me from to; mret (YSwitched to)
  | _ => mret (YSignal r from to)
  end.

Definition sched_enter (me : Z) : K Z :=
  h ← at_cpu queue_heads me;
  let first_task := if nonnull h then h else threads_idle me in
  upd_thread first_task (th_set_state THREAD_RUNNING);;
  set_current me first_task;;
  mret first_task.
End sched_ops.
Arguments SigNone {A}.
Arguments SigHandled {A}.
Arguments SigSuspended {A} a.
Arguments SigHandler {A} entry rsp signum.

(** ** The run queues

    [sched_ok s qs]: the queue of processor [i] holds exactly the threads [qs !! i],
    linked in a cycle; no thread is in two queues; a thread outside the queues has
    null links; the thread a processor runs is its idle thread or one of its queue. *)
Definition tlinks {W} (s : tstate W) : links := fun t => (fun x => (sched_prev x, sched_next x)) <$> threads s !! t.

Definition queued (qs : list (list Z)) (t : Z) : Prop := exists i q, qs !! i = Some q /\ t ∈ q.

Record sched_ok {W} (s : tstate W) (qs : list (list Z)) : Prop := {
  ok_len : length qs = AMD64_MAX_SMP;
  ok_heads : queue_heads s = hd_or 0 <$> qs;
  ok_sizes : queue_sizes s = (fun q => Z.of_nat (length q)) <$> qs;
  ok_cyc : forall i q, qs !! i = Some q -> cyc (tlinks s) q;
  ok_disj : forall i j q r t, qs !! i = Some q -> qs !! j = Some r -> t ∈ q -> t ∈ r -> i = j;
  ok_cpu : forall i q t x, qs !! i = Some q -> t ∈ q -> threads s !! t = Some x -> t_cpu x = Z.of_nat i;
  ok_out : forall t x, threads s !! t = Some x -> ~ queued qs t -> sched_prev x = 0 /\ sched_next x = 0;
  ok_idle : forall i, (i < AMD64_MAX_SMP)%nat ->
    is_Some (threads s !! threads_idle (Z.of_nat i)) /\ ~ queued qs (threads_idle (Z.of_nat i));
  ok_null : threads s !! 0 = None;
  ok_few : Z.of_nat (size (threads s)) < 2 ^ 32;
  ok_ncpus : 1 <= sched_ncpus s <= Z.of_nat AMD64_MAX_SMP;
  ok_current : length (cpu_thread s) = AMD64_MAX_SMP;
}.

(** What the processors run. *)
Definition running_ok {W} (s : tstate W) (qs : list (list Z)) : Prop :=
  forall i t, cpu_thread s !! i = Some t -> t = threads_idle (Z.of_nat i) \/ exists q, qs !! i = Some q /\ t ∈ q.

Section sched_lemmas.
Context {W : Type}.
Implicit Types (s : tstate W) (qs : list (list Z)).

Lemma ok_head s qs i q : sched_ok s qs -> qs !! i = Some q -> queue_heads s !! i = Some (hd_or 0 q).
Proof. intros H Hq. by rewrite (ok_heads _ _ H), list_lookup_fmap, Hq. Qed.

Lemma ok_size s qs i q : sched_ok s qs -> qs !! i = Some q -> queue_sizes s !! i = Some (Z.of_nat (length q)).
Proof. intros H Hq. by rewrite (ok_sizes _ _ H), list_lookup_fmap, Hq. Qed.

Lemma ok_in s qs i q t : sched_ok s qs -> qs !! i = Some q -> t ∈ q ->
  exists x, threads s !! t = Some x /\ sched_prev x ∈ q /\ sched_next x ∈ q /\ t_cpu x = Z.of_nat i.
Proof.
  intros H Hq Ht. destruct (cyc_linked _ _ _ (ok_cyc _ _ H _ _ Hq) Ht) as (a & b & E & Ha & Hb).
  unfold tlinks in E. destruct (threads s !! t) as [x|] eqn:Ex; [|done]. injection E as <- <-.
  exists x. split; [done|]. split; [done|]. split; [done|]. exact (ok_cpu _ _ H _ _ _ _ Hq Ht Ex).
Qed.

Lemma ok_nonzero s qs i q t : sched_ok s qs -> qs !! i = Some q -> t ∈ q -> t <> 0.
Proof. intros H Hq Ht ->. by apply (cyc_nonzero _ _ (ok_cyc _ _ H _ _ Hq)). Qed.

Lemma ok_length s qs i q : sched_ok s qs -> qs !! i = Some q -> Z.of_nat (length q) < 2 ^ 32.
Proof.
  intros H Hq. pose proof (ok_few _ _ H).
  assert (length q <= size (threads s))%nat; [|lia].
  rewrite <- (size_list_to_set (C := gset Z)) by apply (ok_cyc _ _ H _ _ Hq). rewrite <- size_dom.
  apply subseteq_size. intros t. rewrite elem_of_list_to_set. intros Ht.
  destruct (ok_in _ _ _ _ _ H Hq Ht) as (x & Hx & _). by apply elem_of_dom_2 in Hx.
Qed.

Lemma nonnull_0 : nonnull 0 = false.
Proof. done. Qed.

Lemma queued_links s qs t x : sched_ok s qs -> threads s !! t = Some x -> queued qs t ->
  nonnull (sched_prev x) = true /\ nonnull (sched_next x) = true.
Proof.
  intros H Hx (i & q & Hq & Ht). destruct (ok_in _ _ _ _ _ H Hq Ht) as (x' & Hx' & Hp & Hn & _).
  assert (x' = x) as -> by congruence. split; apply nonnull_true; by eapply ok_nonzero.
Qed.

#[export] Instance queued_dec qs t : Decision (queued qs t).
Proof.
  refine (cast_if (decide (Exists (fun q => t ∈ q) qs))).
  - abstract (rewrite list.Exists_exists in *; destruct e as (q & Hq & Ht);
      apply list_elem_of_lookup in Hq as [i Hi]; by exists i, q).
  - abstract (intros (i & q & Hq & Ht); destruct n; apply list.Exists_exists; exists q; split; [|done];
      apply list_elem_of_lookup; by exists i).
Defined.

(** ** Queueing *)

(** The threads after [thr], now [x], is linked behind the tail of a queue. *)
Definition linked_threads (m : gmap Z thread) (thr : Z) (x : thread) (head tail : Z) (m' : gmap Z thread) : Prop :=
  m' !! thr = Some (th_set_next head (th_set_prev tail x)) /\
  forall y, y <> thr -> m' !! y =
    (fun t => (if decide (y = head) then th_set_prev thr else id)
      ((if decide (y = tail) then th_set_next thr else id) t)) <$> m !! y.

(** The links written by [sched_queue_to] when the queue is not empty. *)
Definition link_behind (thr head tail : Z) : cmd (tstate W) unit :=
  upd_thread tail (th_set_next thr);;
  upd_thread thr (th_set_prev tail);;
  upd_thread head (th_set_prev thr);;
  upd_thread thr (th_set_next head).

Lemma link_behind_run s thr head tail x : threads s !! thr = Some x -> is_Some (threads s !! head) ->
  is_Some (threads s !! tail) -> thr <> head -> thr <> tail ->
  exists m', link_behind thr head tail s = Ret (tt, ts_threads m' s) /\ linked_threads (threads s) thr x head tail m'.
Proof.
  intros Hx [xh Hh] [xt Ht] H1 H2. unfold link_behind. rewrite (bind_Ret _ _ _ _ _ (upd_thread_run _ _ _ _ Ht)).
  erewrite bind_Ret by (apply upd_thread_run; cbn [ts_threads threads]; rewrite lookup_insert_ne by done; exact Hx).
  assert (exists y, (<[tail := th_set_next thr xt]> (threads s)) !! head = Some y /\
    y = (if decide (head = tail) then th_set_next thr else id) xh) as (y & Hy & Ey).
  { case_decide as E; [subst; rewrite lookup_insert_eq|rewrite lookup_insert_ne by done]; eexists; (split; [done|]); [|done].
    assert (xt = xh) as -> by congruence. done. }
  erewrite bind_Ret by (apply upd_thread_run; cbn [ts_threads threads]; rewrite lookup_insert_ne by done; exact Hy).
  erewrite upd_thread_run by (cbn [ts_threads threads]; rewrite lookup_insert_ne, lookup_insert_eq by done; done).
  eexists. split; [reflexivity|]. cbn [ts_threads threads]. split; [apply lookup_insert_eq|].
  intros z Hz. rewrite lookup_insert_ne by done. destruct (decide (z = head)) as [->|].
  - rewrite lookup_insert_eq, Hh. cbn [fmap option_fmap option_map]. by rewrite Ey.
  - rewrite !lookup_insert_ne by done. destruct (decide (z = tail)) as [->|].
    + by rewrite lookup_insert_eq, Ht.
    + rewrite lookup_insert_ne by done. by destruct (threads s !! z).
Qed.

(** The state after queueing [thr] at the end of [q] on processor [c]. *)
Definition queued_state (s : tstate W) (c : nat) (q : list Z) (thr : Z) (m' : gmap Z thread) : tstate W :=
  ts_sizes (<[c := Z.of_nat (length q) + 1]> (queue_sizes s))
    (ts_heads (<[c := hd_or 0 (q ++ [thr])]> (queue_heads s)) (ts_threads m' s)).

Definition ready_on (c : nat) (x : thread) : thread := th_set_cpu (Z.of_nat c) (th_set_state THREAD_READY x).

Lemma tlinks_linked s thr x head tail m' : linked_threads (threads s) thr x head tail m' ->
  tlinks (ts_threads m' s) thr = Some (tail, head) /\
  forall y a b, y <> thr -> tlinks s y = Some (a, b) ->
    tlinks (ts_threads m' s) y = Some (if decide (y = head) then thr else a, if decide (y = tail) then thr else b).
Proof.
  intros [H1 H2]. unfold tlinks. cbn [ts_threads threads]. rewrite H1. split; [done|]. intros y a b Hy.
  rewrite H2 by done. destruct (threads s !! y) as [t|]; [|done]. intros [= <- <-].
  by destruct (decide (y = head)), (decide (y = tail)).
Qed.

Lemma queue_to_run s qs c q thr x : sched_ok s qs -> qs !! c = Some q -> threads s !! thr = Some x -> ~ queued qs thr ->
  exists m', sched_queue_to thr (Z.of_nat c) s = Ret (tt, queued_state s c q thr m') /\
    linked_threads (threads s) thr (ready_on c x) (hd_or thr q) (last_or thr q) m'.
Proof.
  intros H Hq Hx Hn. assert (thr <> 0) as H0 by (intros ->; rewrite (ok_null _ _ H) in Hx; done).
  destruct (ok_out _ _ H _ _ Hx Hn) as [E1 E2]. unfold sched_queue_to. step_run (get_thread_run _ _ _ Hx).
  rewrite E1, E2, nonnull_0. cbn [orb]. rewrite (nonnull_true _ H0). erewrite bind_Ret by reflexivity.
  rewrite (bind_Ret _ _ _ _ _ (upd_thread_run _ _ _ _ Hx)).
  erewrite bind_Ret by (apply upd_thread_run, lookup_insert_eq). cbn [ts_threads threads].
  rewrite insert_insert_eq. change (th_set_cpu (Z.of_nat c) (th_set_state THREAD_READY x)) with (ready_on c x).
  pose proof (ok_head _ _ _ _ H Hq) as Hh. pose proof (ok_size _ _ _ _ H Hq) as Hsz.
  rewrite <- (Nat2Z.id c) in Hh, Hsz.
  set (s1 := ts_threads _ _). erewrite bind_Ret by (apply at_cpu_run; [lia|exact Hh]).
  pose proof (ok_length _ _ _ _ H Hq) as Hlen.
  assert (forall (k : cmd (tstate W) unit) s2, k s1 = Ret (tt, s2) -> queue_sizes s2 = queue_sizes s ->
    (k;; n ← at_cpu queue_sizes (Z.of_nat c); set_size (Z.of_nat c) (u64 (n + 1))) s1 =
      Ret (tt, ts_sizes (<[c := Z.of_nat (length q) + 1]> (queue_sizes s2)) s2)) as Hend.
  { intros k s2 Ek Es. step_run Ek. rewrite <- Es in Hsz. erewrite bind_Ret by (apply at_cpu_run; [lia|exact Hsz]).
    rewrite (set_size_run s2 (Z.of_nat c) _ _ (Nat2Z.is_nonneg c) Hsz), Nat2Z.id. by rewrite uwrap_small by lia. }
  assert (threads s1 !! thr = Some (ready_on c x)) as Hx1 by apply lookup_insert_eq.
  destruct (decide (q = [])) as [->|Hne].
  - change (hd_or 0 []) with 0. rewrite nonnull_0. eexists. split.
    + erewrite Hend; [unfold queued_state|..]; cycle 1.
      * rewrite (bind_Ret _ _ _ _ _ (upd_thread_run _ _ _ _ Hx1)).
        erewrite bind_Ret by (apply upd_thread_run, lookup_insert_eq).
        erewrite set_head_run; [done|lia|exact Hh].
      * done.
      * rewrite Nat2Z.id. reflexivity.
    + subst s1. cbn [ts_threads threads]. rewrite !insert_insert_eq. split; [apply lookup_insert_eq|].
      intros y Hy. rewrite lookup_insert_ne by done. change (hd_or thr []) with thr. change (last_or thr []) with thr.
      destruct (threads s !! y); [|done]. cbn. by rewrite !decide_False.
  - assert (hd_or 0 q ∈ q /\ last_or 0 q ∈ q) as [Hi1 Hi2] by auto with kernel.
    rewrite (nonnull_true (hd_or 0 q)) by by eapply ok_nonzero.
    assert (forall y, y ∈ q -> y <> thr) as Hqt by (intros y Hy ->; apply Hn; by exists c, q).
    assert (forall y, y ∈ q -> is_Some (threads s1 !! y)) as Hs1.
    { intros y Hy. subst s1. cbn [ts_threads threads]. rewrite lookup_insert_ne by (intros E; by apply (Hqt y)).
      destruct (ok_in _ _ _ _ _ H Hq Hy) as (z & Hz & _). by exists z. }
    destruct (link_behind_run s1 thr (hd_or 0 q) (last_or 0 q) _ Hx1 (Hs1 _ Hi1) (Hs1 _ Hi2)) as (m' & El & Lk);
      [intros E; by apply (Hqt (hd_or 0 q))|intros E; by apply (Hqt (last_or 0 q))|].
    exists m'. split.
    + rewrite (Hend _ (ts_threads m' s1)); [|clear Hend|done]; cycle 1.
      * destruct (Hs1 _ Hi1) as [xh Hxh]. step_run (get_thread_run s1 _ _ Hxh).
        assert (sched_prev xh = last_or 0 q) as ->; [|exact El].
        destruct q as [|y q]; [done|]. pose proof (cyc_node _ [] _ _ (ok_cyc _ _ H _ _ Hq)) as Hy.
        revert Hy. unfold tlinks. change (hd_or 0 (y :: q)) with y in *. subst s1. cbn [ts_threads threads] in Hxh.
        rewrite lookup_insert_ne in Hxh by (intros E; by apply (Hqt y)). rewrite Hxh. by intros [= -> _].
      * unfold queued_state. subst s1. cbn [ts_threads queue_sizes queue_heads]. do 3 f_equal.
        rewrite hd_or_app, (hd_or_dflt _ 0) by done. rewrite Nat2Z.id in Hh. by rewrite list_insert_id.
    + destruct Lk as [L1 L2]. rewrite (hd_or_dflt _ 0), (last_or_dflt _ 0) by done. split; [done|].
      intros y Hy. rewrite L2 by done. subst s1. cbn [ts_threads threads]. by rewrite lookup_insert_ne.
Qed.

(** What the list surgery keeps of the threads other than [thr]. *)
Lemma linked_other m thr x head tail m' y z : linked_threads m thr x head tail m' -> y <> thr -> m' !! y = Some z ->
  exists w, m !! y = Some w /\ t_cpu z = t_cpu w /\ t_state z = t_state w /\ t_proc z = t_proc w /\ t_sigq z = t_sigq w /\
    (y <> head -> y <> tail -> z = w).
Proof.
  intros [_ H] Hy. rewrite H by done. destruct (m !! y) as [w|]; [|done]. intros [= <-]. exists w. split; [done|].
  destruct (decide (y = head)), (decide (y = tail)); done.
Qed.

Lemma linked_dom m thr x0 x head tail m' : linked_threads m thr x head tail m' -> m !! thr = Some x0 -> dom m' = dom m.
Proof.
  intros [H1 H2] Hx. apply set_eq. intros y. rewrite !elem_of_dom. destruct (decide (y = thr)) as [->|].
  - rewrite H1, Hx. by split; eexists.
  - rewrite H2 by done. by rewrite fmap_is_Some.
Qed.

Lemma queued_insert qs c q r t : qs !! c = Some q -> queued (<[c := r]> qs) t <->
  t ∈ r \/ exists i q', i <> c /\ qs !! i = Some q' /\ t ∈ q'.
Proof.
  intros Hq. assert (c < length qs)%nat as Hc by by eapply lookup_lt_Some. split.
  - intros (i & q' & Hi & Ht). destruct (decide (i = c)) as [->|].
    + rewrite list_lookup_insert_eq in Hi by done. injection Hi as <-. by left.
    + rewrite list_lookup_insert_ne in Hi by done. right. eauto.
  - intros [Ht|(i & q' & Hi & Hq' & Ht)].
    + exists c, r. by rewrite list_lookup_insert_eq.
    + exists i, q'. by rewrite list_lookup_insert_ne.
Qed.

Lemma queued_snoc qs c q thr t : qs !! c = Some q -> queued (<[c := q ++ [thr]]> qs) t <-> t = thr \/ queued qs t.
Proof.
  intros Hq. rewrite (queued_insert _ _ _ _ _ Hq), elem_of_app, list_elem_of_singleton. split.
  - intros [[Ht| ->]|(i & q' & Hi & Hq' & Ht)]; [right; by exists c, q|by left|right; by exists i, q'].
  - intros [->|(i & q' & Hq' & Ht)]; [by left; right|]. destruct (decide (i = c)) as [->|].
    + left. left. congruence.
    + right. eauto.
Qed.

(** Disjointness of the queues after one of them was replaced. *)
Lemma disj_insert qs c r :
  (forall i j q q' t, qs !! i = Some q -> qs !! j = Some q' -> t ∈ q -> t ∈ q' -> i = j) ->
  (forall t i q', t ∈ r -> qs !! i = Some q' -> t ∈ q' -> i = c) ->
  forall i j q q' t, <[c := r]> qs !! i = Some q -> <[c := r]> qs !! j = Some q' -> t ∈ q -> t ∈ q' -> i = j.
Proof.
  intros Hd Hr i j q q' t Hi Hj Ht Ht'. apply list_lookup_insert_Some in Hi as [(<- & <- & _)|[Hi Hq]];
    apply list_lookup_insert_Some in Hj as [(<- & <- & _)|[Hj Hq']].
  - done.
  - symmetry. eauto.
  - eauto.
  - eauto.
Qed.

Lemma queue_to_ok s qs c q thr x m' : sched_ok s qs -> qs !! c = Some q -> threads s !! thr = Some x -> ~ queued qs thr ->
  linked_threads (threads s) thr (ready_on c x) (hd_or thr q) (last_or thr q) m' ->
  (forall i, thr <> threads_idle (Z.of_nat i)) ->
  sched_ok (queued_state s c q thr m') (<[c := q ++ [thr]]> qs).
Proof.
  intros H Hq Hx Hn L Hid. assert (c < length qs)%nat as Hc by by eapply lookup_lt_Some.
  assert (thr <> 0) as H0 by (intros ->; rewrite (ok_null _ _ H) in Hx; done).
  destruct (tlinks_linked _ _ _ _ _ _ L) as [T1 T2].
  assert (thr ∉ q) as Hnq by (intros Ht; apply Hn; by exists c, q).
  assert (forall i q', i <> c -> qs !! i = Some q' -> forall y, y ∈ q' -> y <> thr /\ (q <> [] -> y <> hd_or thr q /\ y <> last_or thr q)) as Hoth.
  { intros i q' Hi Hq' y Hy. split; [intros ->; apply Hn; by exists i, q'|]. intros Hne.
    assert (y ∉ q) by (intros Hy'; apply Hi; eapply ok_disj; eauto). split; intros ->; eauto with kernel. }
  split; cbn [queued_state ts_sizes ts_heads ts_threads threads queue_heads queue_sizes sched_ncpus cpu_thread].
  - rewrite length_insert. apply H.
  - by rewrite (ok_heads _ _ H), list_fmap_insert.
  - rewrite (ok_sizes _ _ H), list_fmap_insert, length_app. cbn [length]. do 2 f_equal. lia.
  - intros i r Hi. change (cyc (tlinks (ts_threads m' s)) r).
    apply list_lookup_insert_Some in Hi as [(<- & <- & _)|[Hi Hr]].
    + pose proof (ok_cyc _ _ H _ _ Hq) as C. destruct (decide (q = [])) as [->|Hne]; [by apply cyc_singleton|].
      eapply cyc_snoc; [exact C|done..| |].
      * rewrite T1. by rewrite (hd_or_dflt thr 0), (last_or_dflt thr 0).
      * intros y a b Hy Ey. assert (y <> thr) as Hyt by (by intros ->). rewrite (T2 _ _ _ Hyt Ey).
        by rewrite (hd_or_dflt thr 0), (last_or_dflt thr 0).
    + eapply cyc_ext; [|exact (ok_cyc _ _ H _ _ Hr)]. intros y Hy. destruct (Hoth _ _ (not_eq_sym Hi) Hr y Hy) as [Hyt Hyq].
      destruct (cyc_linked _ _ _ (ok_cyc _ _ H _ _ Hr) Hy) as (a & b & Ey & _). rewrite (T2 _ _ _ Hyt Ey), Ey.
      destruct (decide (q = [])) as [->|Hne]; [|destruct (Hyq Hne) as [? ?]]; by rewrite !decide_False.
  - apply disj_insert; [apply H|]. intros t i r Ht Hr Ht'. apply elem_of_app in Ht as [Ht|Ht%list_elem_of_singleton].
    + eapply ok_disj; eauto.
    + subst. destruct Hn. by exists i, r.
  - intros i r t z Hr Ht Hz. destruct (decide (t = thr)) as [->|Hne].
    + destruct L as [L1 _]. rewrite L1 in Hz. injection Hz as <-. cbn.
      apply list_lookup_insert_Some in Hr as [(<- & <- & _)|[Hi Hr]]; [done|]. destruct Hn. by exists i, r.
    + destruct (linked_other _ _ _ _ _ _ _ _ L Hne Hz) as (w & Hw & -> & _).
      apply list_lookup_insert_Some in Hr as [(<- & <- & _)|[Hi Hr]].
      * apply elem_of_app in Ht as [Ht|Ht%list_elem_of_singleton]; [|done]. exact (ok_cpu _ _ H _ _ _ _ Hq Ht Hw).
      * exact (ok_cpu _ _ H _ _ _ _ Hr Ht Hw).
  - intros t z Hz Ht. rewrite (queued_snoc _ _ _ _ _ Hq) in Ht. assert (t <> thr) as Hne by tauto.
    destruct (linked_other _ _ _ _ _ _ _ _ L Hne Hz) as (w & Hw & _ & _ & _ & _ & Hsame).
    rewrite Hsame; [apply (ok_out _ _ H _ _ Hw); tauto|..]; intros ->;
      (destruct (decide (q = [])) as [->|Hq0]; [by apply Hne|]); apply Ht; right; exists c, q; eauto with kernel.
  - intros i Hi. destruct (ok_idle _ _ H i Hi) as [I1 I2]. rewrite (queued_snoc _ _ _ _ _ Hq).
    rewrite <- elem_of_dom, (linked_dom _ _ _ _ _ _ _ L Hx), elem_of_dom. split; [done|].
    intros [E|?]; [by apply (Hid i)|done].
  - apply not_elem_of_dom. rewrite (linked_dom _ _ _ _ _ _ _ L Hx). apply not_elem_of_dom, H.
  - rewrite <- size_dom, (linked_dom _ _ _ _ _ _ _ L Hx), size_dom. apply H.
  - apply H.
  - apply H.
Qed.

(** ** Choosing a processor *)

(** [c] is the lowest-numbered of the first [n] queues of least length. *)
Definition shortest (qs : list (list Z)) (n c : nat) : Prop :=
  (c < n)%nat /\ exists q, qs !! c = Some q /\
  forall j r, (j < n)%nat -> qs !! j = Some r ->
    (length q <= length r)%nat /\ ((j < c)%nat -> (length q < length r)%nat).

Lemma min_queue_run s qs : sched_ok s qs -> forall k i c q, (i + k <= AMD64_MAX_SMP)%nat -> (0 < i)%nat -> qs !! c = Some q ->
  shortest qs i c -> exists c' q', min_queue k (Z.of_nat i) (Z.of_nat c) (Z.of_nat (length q)) s =
    Ret ((Z.of_nat c', Z.of_nat (length q')), s) /\ qs !! c' = Some q' /\ shortest qs (i + k) c'.
Proof.
  intros H k. induction k as [|k IH]; intros i c q Hik Hi Hq Hs.
  - exists c, q. by rewrite Nat.add_0_r.
  - cbn [min_queue]. destruct (lookup_lt_is_Some_2 qs i) as [r Hr]; [rewrite (ok_len _ _ H); lia|].
    pose proof (ok_size _ _ _ _ H Hr) as Hsz. rewrite <- (Nat2Z.id i) in Hsz.
    erewrite bind_Ret by (apply at_cpu_run; [lia|exact Hsz]). replace (Z.of_nat i + 1) with (Z.of_nat (S i)) by lia.
    replace (i + S k)%nat with (S i + k)%nat by lia. destruct Hs as (Hc & q0 & Hq0 & Hs).
    assert (q0 = q) as -> by congruence.
    destruct (Z.ltb_spec (Z.of_nat (length r)) (Z.of_nat (length q))) as [Hlt|Hge].
    + apply IH; [lia|lia|done|]. split; [lia|]. exists r. split; [done|]. intros j r' Hj Hr'.
      destruct (decide (j = i)) as [->|]; [assert (r' = r) as -> by congruence; lia|].
      destruct (Hs j r' ltac:(lia) Hr') as [? _]. lia.
    + apply IH; [lia|lia|done|]. split; [lia|]. exists q. split; [done|]. intros j r' Hj Hr'.
      destruct (decide (j = i)) as [->|]; [assert (r' = r) as -> by congruence; lia|].
      destruct (Hs j r' ltac:(lia) Hr'). lia.
Qed.

Lemma min_queue_all s qs : sched_ok s qs -> exists c q,
  min_queue (Z.to_nat (sched_ncpus s)) 0 0 (2 ^ 64 - 1) s = Ret ((Z.of_nat c, Z.of_nat (length q)), s) /\
  qs !! c = Some q /\ shortest qs (Z.to_nat (sched_ncpus s)) c.
Proof.
  intros H. pose proof (ok_ncpus _ _ H) as Hn. destruct (Z.to_nat (sched_ncpus s)) as [|k] eqn:Ek; [lia|].
  destruct (lookup_lt_is_Some_2 qs 0) as [q Hq]; [rewrite (ok_len _ _ H); cbn; lia|]. cbn [min_queue].
  pose proof (ok_size _ _ _ _ H Hq) as Hsz. erewrite bind_Ret by (apply at_cpu_run; [lia|exact Hsz]).
  pose proof (ok_length _ _ _ _ H Hq). rewrite (proj2 (Z.ltb_lt _ _)) by lia. apply (min_queue_run s qs H k 1 0 q); [lia|lia|done|].
  split; [lia|]. exists q. split; [done|]. intros j r Hj Hr. assert (j = 0%nat) as -> by lia.
  assert (r = q) as -> by congruence. lia.
Qed.

(** The processor [sched_queue] chooses. *)
Definition chosen (s : tstate W) (qs : list (list Z)) (c : nat) : Prop :=
  shortest qs (Z.to_nat (sched_ncpus s)) c /\ qs !! c <> Some [] \/
  (exists i, (i < Z.to_nat (sched_ncpus s))%nat /\ qs !! i = Some []) /\ Z.of_nat c = clk s mod sched_ncpus s.

Definition not_suspended (s : tstate W) (x : thread) : Prop :=
  t_proc x = 0 \/ exists p, procs s !! t_proc x = Some p /\ proc_state p <> PROC_SUSPENDED.

Lemma sched_queue_guard s x : not_suspended s x ->
  (if nonnull (t_proc x) then
     p ← get_proc (t_proc x); if bool_decide (proc_state p = PROC_SUSPENDED) then cpanic else mret tt
   else mret tt) s = Ret (tt, s).
Proof.
  intros [->|(p & Hp & Hs)]; [done|]. destruct (nonnull (t_proc x)); [|done]. step_run (get_proc_run _ _ _ Hp).
  by rewrite bool_decide_eq_false_2.
Qed.

Lemma sched_ok_clk s qs k : sched_ok s qs -> sched_ok (ts_clk k s) qs.
Proof. intros H. by destruct H; split. Qed.

Lemma sched_queue_run s qs thr x : sched_ok s qs -> threads s !! thr = Some x -> ~ queued qs thr ->
  (forall i, thr <> threads_idle (Z.of_nat i)) -> not_suspended s x -> 0 <= clk s ->
  exists c q k m', qs !! c = Some q /\ chosen s qs c /\
    sched_queue thr s = Ret (tt, queued_state (ts_clk k s) c q thr m') /\
    linked_threads (threads s) thr (ready_on c x) (hd_or thr q) (last_or thr q) m' /\
    sched_ok (queued_state (ts_clk k s) c q thr m') (<[c := q ++ [thr]]> qs).
Proof.
  intros H Hx Hn Hid Hs Hclk. pose proof (ok_ncpus _ _ H) as Hnc. unfold sched_queue.
  step_run (get_thread_run _ _ _ Hx). rewrite (bind_Ret _ _ _ _ _ (sched_queue_guard _ _ Hs)).
  erewrite bind_Ret by reflexivity. destruct (min_queue_all s qs H) as (c & q & E & Hq & Hc). step_run E.
  destruct (Z.eqb_spec (Z.of_nat (length q)) 0) as [E0|E0].
  - erewrite bind_Ret by reflexivity. erewrite bind_Ret by reflexivity.
    set (s1 := ts_clk _ s). assert (sched_ok s1 qs) as H1 by by apply sched_ok_clk.
    rewrite Z.rem_mod_nonneg by lia. pose proof (Z.mod_pos_bound (clk s) (sched_ncpus s) ltac:(lia)) as Hb.
    set (c' := Z.to_nat (clk s mod sched_ncpus s)). replace (clk s mod sched_ncpus s) with (Z.of_nat c') by lia.
    destruct (lookup_lt_is_Some_2 qs c') as [q' Hq']; [rewrite (ok_len _ _ H); lia|].
    destruct (queue_to_run s1 qs c' q' thr x H1 Hq' Hx Hn) as (m' & E' & L).
    exists c', q', (i32 (clk s + 1)), m'. split; [done|]. split; [|split; [exact E'|split; [exact L|by eapply (queue_to_ok s1)]]].
    right. split; [|lia]. exists c. split; [apply Hc|]. rewrite Hq. f_equal. destruct q; [done|cbn in E0; lia].
  - destruct (queue_to_run s qs c q thr x H Hq Hx Hn) as (m' & E' & L). exists c, q, (clk s), m'. split; [done|].
    assert (ts_clk (clk s) s = s) as -> by by destruct s.
    split; [|split; [exact E'|split; [exact L|by eapply queue_to_ok]]].
    left. split; [exact Hc|]. rewrite Hq. intros [= ->]. by apply E0.
Qed.

(** ** Leaving a queue *)

(** The threads after [thr], now [x], was unlinked from between [prev] and [next]. *)
Definition unlinked_threads (m : gmap Z thread) (thr : Z) (x : thread) (prev next : Z) (m' : gmap Z thread) : Prop :=
  m' !! thr = Some (th_set_next 0 (th_set_prev 0 x)) /\
  forall y, y <> thr -> m' !! y =
    (fun t => (if decide (y = prev) then th_set_next next else id)
      ((if decide (y = next) then th_set_prev prev else id) t)) <$> m !! y.

Lemma unlink_thread_run s thr prev next x : threads s !! thr = Some x -> is_Some (threads s !! prev) ->
  is_Some (threads s !! next) -> thr <> prev -> thr <> next ->
  exists m', (forall A (k : cmd (tstate W) A),
      (upd_thread next (th_set_prev prev);; upd_thread prev (th_set_next next);;
       upd_thread thr (th_set_prev 0);; upd_thread thr (th_set_next 0);; k) s = k (ts_threads m' s)) /\
    unlinked_threads (threads s) thr x prev next m'.
Proof.
  intros Hx [xp Hp] [xn Hn] H1 H2.
  assert (exists y, (<[next := th_set_prev prev xn]> (threads s)) !! prev = Some y /\
    y = (if decide (prev = next) then th_set_prev prev else id) xp) as (y & Hy & Ey).
  { case_decide as E; [subst; rewrite lookup_insert_eq|rewrite lookup_insert_ne by done]; eexists; (split; [done|]); [|done].
    assert (xn = xp) as -> by congruence. done. }
  eexists. split.
  - intros A k. rewrite (bind_Ret _ _ _ _ _ (upd_thread_run _ _ _ _ Hn)).
    erewrite bind_Ret by (apply upd_thread_run; exact Hy).
    erewrite bind_Ret by (apply upd_thread_run; cbn [ts_threads threads]; rewrite !lookup_insert_ne by done; exact Hx).
    erewrite bind_Ret by (apply upd_thread_run; cbn [ts_threads threads]; apply lookup_insert_eq).
    cbn [ts_threads threads procs notifies queue_heads queue_sizes sched_ncpus clk cpu_thread proc_all last_kernel_pid last_user_pid world].
    rewrite insert_insert_eq. reflexivity.
  - split; [apply lookup_insert_eq|]. intros z Hz. rewrite lookup_insert_ne by done.
    destruct (decide (z = prev)) as [->|].
    + rewrite lookup_insert_eq, Hp. cbn [fmap option_fmap option_map]. by rewrite Ey.
    + rewrite lookup_insert_ne by done. destruct (decide (z = next)) as [->|].
      * by rewrite lookup_insert_eq, Hn.
      * rewrite lookup_insert_ne by done. by destruct (threads s !! z).
Qed.

(** The state after [sched_unqueue_enter]. *)
Definition leaving (x : thread) (ns : thread_state) : thread := th_set_state ns (th_set_cpu (-1) x).
Definition entered (s : tstate W) (c : nat) (thr : Z) (x : thread) (n : Z) (ns : thread_state) : tstate W :=
  ts_sizes (<[c := n - 1]> (queue_sizes s)) (ts_threads (<[thr := leaving x ns]> (threads s)) s).

Definition blocking (ns : thread_state) : Prop := ns = THREAD_WAITING \/ ns = THREAD_STOPPED.

Lemma unqueue_enter_run s c thr x n ns : threads s !! thr = Some x -> t_cpu x = Z.of_nat c ->
  queue_sizes s !! c = Some n -> n <> 0 -> blocking ns ->
  sched_unqueue_enter (Z.of_nat c) thr ns s = Ret ((sched_prev x, sched_next x), entered s c thr x n ns).
Proof.
  intros Hx Hc Hsz Hn Hns. unfold sched_unqueue_enter. step_run (get_thread_run _ _ _ Hx). rewrite Hc.
  rewrite (proj2 (Z.leb_le 0 (Z.of_nat c))) by lia. erewrite bind_Ret by reflexivity.
  rewrite (bool_decide_eq_false_2 (Z.of_nat c <> Z.of_nat c)) by (intros X; by apply X). erewrite bind_Ret by reflexivity.
  rewrite (bind_Ret _ _ _ _ _ (upd_thread_run _ _ _ _ Hx)).
  assert (bool_decide (ns = THREAD_WAITING) || bool_decide (ns = THREAD_STOPPED) = true) as -> by (by destruct Hns as [->| ->]).
  erewrite bind_Ret by reflexivity. pose proof Hsz as Hsz'. rewrite <- (Nat2Z.id c) in Hsz'.
  erewrite bind_Ret by (apply at_cpu_run; [lia|exact Hsz']). rewrite (nonnull_true _ Hn). erewrite bind_Ret by reflexivity.
  erewrite bind_Ret by (eapply set_size_run; [lia|exact Hsz']). rewrite Nat2Z.id.
  erewrite bind_Ret by (apply upd_thread_run, lookup_insert_eq).
  unfold entered. cbn [ts_sizes ts_threads threads procs notifies queue_heads queue_sizes sched_ncpus clk cpu_thread
    proc_all last_kernel_pid last_user_pid world]. by rewrite insert_insert_eq.
Qed.

(** The thread that gets the processor when [thr] leaves the queue [l1 ++ thr :: l2]
    while [cur] runs. *)
Definition after_unqueue (c : nat) (l1 l2 : list Z) (thr cur : Z) : option Z :=
  if decide (l1 ++ l2 = []) then Some (threads_idle (Z.of_nat c))
  else if decide (thr = cur) then Some (hd_or 0 (l2 ++ l1)) else None.

Definition left_state (s : tstate W) (c : nat) (q' : list Z) (to : option Z) (m' : gmap Z thread) : tstate W :=
  ts_current (match to with Some t => <[c := t]> (cpu_thread s) | None => cpu_thread s end)
    (ts_heads (<[c := hd_or 0 q']> (queue_heads s)) (ts_threads m' s)).

Lemma unqueue_leave_run s c thr x l1 l2 cur prev next : threads s !! thr = Some x -> thr <> 0 ->
  queue_heads s !! c = Some (hd_or 0 (l1 ++ thr :: l2)) -> cpu_thread s !! c = Some cur ->
  NoDup (l1 ++ thr :: l2) -> prev = last_or thr (l2 ++ l1) -> next = hd_or thr (l2 ++ l1) ->
  (forall y, y ∈ l1 ++ l2 -> y <> 0 /\ is_Some (threads s !! y)) ->
  exists m', sched_unqueue_leave (Z.of_nat c) thr prev next s =
      Ret (after_unqueue c l1 l2 thr cur, left_state s c (l1 ++ l2) (after_unqueue c l1 l2 thr cur) m') /\
    unlinked_threads (threads s) thr x prev next m'.
Proof.
  intros Hx H0 Hh Hcur Hnd Ep En Hall. pose proof Hh as Hh'. rewrite <- (Nat2Z.id c) in Hh'.
  pose proof Hcur as Hcur'. rewrite <- (Nat2Z.id c) in Hcur'. unfold sched_unqueue_leave, after_unqueue.
  destruct (decide (l1 ++ l2 = [])) as [E|Hne].
  - apply app_eq_nil in E as [-> ->]. change (next = thr) in En. change (prev = thr) in Ep. subst.
    rewrite bool_decide_eq_true_2 by done. eexists. split.
    + rewrite (bind_Ret _ _ _ _ _ (upd_thread_run _ _ _ _ Hx)).
      erewrite bind_Ret by (apply upd_thread_run, lookup_insert_eq).
      erewrite bind_Ret by (eapply set_head_run; [lia|exact Hh']).
      erewrite bind_Ret by (eapply set_current_run; [lia|exact Hcur']).
      cbn [ts_threads threads]. rewrite insert_insert_eq, Nat2Z.id. reflexivity.
    + split; [apply lookup_insert_eq|]. intros y Hy. rewrite lookup_insert_ne by done.
      rewrite !decide_False by done. by destruct (threads s !! y).
  - set (l := l2 ++ l1). assert (l <> []) as Hl by (subst l; intros [-> ->]%app_eq_nil; by apply Hne).
    rewrite (hd_or_dflt thr 0) in En by done. rewrite (last_or_dflt thr 0) in Ep by done.
    assert (hd_or 0 l ∈ l /\ last_or 0 l ∈ l) as [Hi1 Hi2] by auto with kernel.
    assert (forall y, y ∈ l -> y <> thr /\ y <> 0 /\ is_Some (threads s !! y)) as Hall'.
    { intros y Hy. assert (y ∈ l1 ++ l2) as Hy' by set_solver. split; [|by apply Hall].
      intros ->. apply list.NoDup_app in Hnd as (_ & D & [? _]%list.NoDup_cons).
      apply elem_of_app in Hy' as [Hy'|?]; [|done]. apply (D thr Hy'). by left. }
    fold l in En, Ep. rewrite <- En in Hi1. rewrite <- Ep in Hi2. destruct (Hall' next Hi1) as (N1 & N2 & N3). destruct (Hall' prev Hi2) as (P1 & P2 & P3).
    rewrite bool_decide_eq_false_2 by done. erewrite bind_Ret by (apply at_cpu_run; [lia|exact Hh']).
    set (s1 := ts_heads (<[c := hd_or 0 (l1 ++ l2)]> (queue_heads s)) s).
    assert ((if bool_decide (thr = hd_or 0 (l1 ++ thr :: l2)) then set_head (Z.of_nat c) next else mret tt) s = Ret (tt, s1)) as Eh.
    { destruct l1 as [|y l1].
      - rewrite bool_decide_eq_true_2 by done. erewrite set_head_run by (lia || exact Hh'). rewrite Nat2Z.id.
        subst s1 l. rewrite En. cbn [app]. rewrite app_nil_r. done.
      - rewrite bool_decide_eq_false_2. 2: { intros E. apply (proj1 (Hall' y ltac:(subst l; set_solver))). by rewrite E. }
        subst s1. change (hd_or 0 ((y :: l1) ++ l2)) with y. rewrite list_insert_id by done. by destruct s. }
    rewrite (bind_Ret _ _ _ _ _ Eh). rewrite !nonnull_true by done. erewrite bind_Ret by reflexivity.
    destruct (unlink_thread_run s1 thr prev next x) as (m' & Ek & U); [done..|].
    exists m'. split; [|exact U]. rewrite Ek. erewrite bind_Ret by (apply at_cpu_run; [lia|exact Hcur']).
    clear Eh. destruct (decide (thr = cur)) as [E|E].
    + rewrite bool_decide_eq_true_2 by done. erewrite bind_Ret by (eapply set_current_run; [lia|exact Hcur']).
      rewrite Nat2Z.id, En. done.
    + by rewrite bool_decide_eq_false_2.
Qed.

Lemma unlinked_other m thr x prev next m' y z : unlinked_threads m thr x prev next m' -> y <> thr -> m' !! y = Some z ->
  exists w, m !! y = Some w /\ t_cpu z = t_cpu w /\ t_state z = t_state w /\ t_proc z = t_proc w /\ t_sigq z = t_sigq w /\
    (y <> prev -> y <> next -> z = w).
Proof.
  intros [_ H] Hy. rewrite H by done. destruct (m !! y) as [w|]; [|done]. intros [= <-]. exists w. split; [done|].
  destruct (decide (y = prev)), (decide (y = next)); done.
Qed.

Lemma unlinked_dom m thr x0 x prev next m' : unlinked_threads m thr x prev next m' -> m !! thr = Some x0 -> dom m' = dom m.
Proof.
  intros [H1 H2] Hx. apply set_eq. intros y. rewrite !elem_of_dom. destruct (decide (y = thr)) as [->|].
  - rewrite H1, Hx. by split; eexists.
  - rewrite H2 by done. by rewrite fmap_is_Some.
Qed.

Lemma queued_remove qs c l1 thr l2 t : qs !! c = Some (l1 ++ thr :: l2) -> NoDup (l1 ++ thr :: l2) ->
  (forall i q, qs !! i = Some q -> thr ∈ q -> i = c) ->
  queued (<[c := l1 ++ l2]> qs) t <-> t <> thr /\ queued qs t.
Proof.
  intros Hq Hnd Hu. rewrite (queued_insert _ _ _ _ _ Hq). rewrite <- Permutation_middle in Hnd.
  apply list.NoDup_cons in Hnd as [Hnd _]. split.
  - intros [Ht|(i & q' & Hi & Hq' & Ht)].
    + split; [by intros ->|]. exists c, (l1 ++ thr :: l2). split; [done|set_solver].
    + split; [intros ->; eauto|]. by exists i, q'.
  - intros [Hne (i & q' & Hq' & Ht)]. destruct (decide (i = c)) as [->|]; [left|right; eauto].
    assert (q' = l1 ++ thr :: l2) as -> by congruence. set_solver.
Qed.

Lemma unqueue_ok s qs c thr x ns l1 l2 m' to n : sched_ok s qs -> qs !! c = Some (l1 ++ thr :: l2) ->
  threads s !! thr = Some x -> n = Z.of_nat (length (l1 ++ thr :: l2)) ->
  unlinked_threads (<[thr := leaving x ns]> (threads s)) thr (leaving x ns)
    (last_or thr (l2 ++ l1)) (hd_or thr (l2 ++ l1)) m' ->
  sched_ok (left_state (entered s c thr x n ns) c (l1 ++ l2) to m') (<[c := l1 ++ l2]> qs).
Proof.
  intros H Hq Hx -> U. pose proof (ok_cyc _ _ H _ _ Hq) as C. pose proof (cyc_nodup _ _ C) as Hnd.
  assert (c < length qs)%nat as Hc by by eapply lookup_lt_Some.
  assert (forall i q, qs !! i = Some q -> thr ∈ q -> i = c) as Hu.
  { intros i q Hi Ht. eapply ok_disj; [exact H|exact Hi|exact Hq|exact Ht|set_solver]. }
  assert (forall t, queued (<[c := l1 ++ l2]> qs) t <-> t <> thr /\ queued qs t) as Hqd by (intros; by apply queued_remove).
  assert (thr ∉ l1 ++ l2) as Hnt by (rewrite <- Permutation_middle in Hnd; by apply list.NoDup_cons in Hnd as [? _]).
  set (l := l2 ++ l1) in *. assert (forall y, y ∈ l <-> y ∈ l1 ++ l2) as Hl by set_solver.
  assert (l <> [] -> hd_or thr l ∈ l /\ last_or thr l ∈ l) as Hends by auto with kernel.
  assert (forall y z, m' !! y = Some z -> y <> thr -> exists w, threads s !! y = Some w /\ t_cpu z = t_cpu w /\
    (y ∉ l -> z = w)) as Hback.
  { intros y z Hz Hy. destruct (unlinked_other _ _ _ _ _ _ _ _ U Hy Hz) as (w & Hw & Ec & _ & _ & _ & Es).
    rewrite lookup_insert_ne in Hw by done. exists w. split; [done|]. split; [done|]. intros Hyl.
    destruct (decide (l = [])) as [E|Hne]; [apply Es; rewrite E; done|].
    destruct (Hends Hne). apply Es; by intros ->. }
  assert (dom m' = dom (threads s)) as Hdom.
  { rewrite (unlinked_dom _ _ _ _ _ _ _ U (lookup_insert_eq _ _ _)). rewrite dom_insert_lookup_L; [done|by eexists]. }
  assert (forall y, y <> thr -> y ∉ l -> tlinks (ts_threads m' s) y = tlinks s y) as Hsame.
  { intros y Hy Hyl. unfold tlinks. cbn [ts_threads threads]. destruct (m' !! y) as [z|] eqn:Ez.
    - destruct (Hback _ _ Ez Hy) as (w & -> & _ & E). by rewrite E.
    - apply not_elem_of_dom in Ez. rewrite Hdom in Ez. apply not_elem_of_dom in Ez. by rewrite Ez. }
  split; cbn [left_state entered ts_current ts_sizes ts_heads ts_threads threads queue_heads queue_sizes sched_ncpus cpu_thread].
  - rewrite length_insert. apply H.
  - by rewrite (ok_heads _ _ H), list_fmap_insert.
  - rewrite (ok_sizes _ _ H), list_fmap_insert, !length_app. cbn [length]. do 2 f_equal. lia.
  - intros i r Hi. change (cyc (tlinks (ts_threads m' s)) r).
    apply list_lookup_insert_Some in Hi as [(<- & <- & _)|[Hi Hr]].
    + destruct (decide (l = [])) as [E|Hne].
      { subst l. apply app_eq_nil in E as [-> ->]. split; [done|constructor|set_solver]. }
      apply (cyc_rotate _ l2 l1). fold l.
      assert (cyc (tlinks s) (thr :: l)) as C' by (apply (cyc_rotate _ l1 (thr :: l2)); done).
      eapply cyc_tail; [exact C'|]. intros y a b Hy Ey. unfold tlinks in *. cbn [ts_threads threads].
      destruct U as [_ U]. assert (y <> thr) by (intros ->; by apply Hnt, Hl). rewrite U by done.
      rewrite lookup_insert_ne by done. destruct (threads s !! y) as [w|]; [|done]. injection Ey as <- <-.
      rewrite (hd_or_dflt thr 0), (last_or_dflt thr 0) by done.
      by destruct (decide (y = hd_or 0 l)), (decide (y = last_or 0 l)).
    + eapply cyc_ext; [|exact (ok_cyc _ _ H _ _ Hr)]. intros y Hy. apply Hsame.
      * intros ->. apply Hi. symmetry. eauto.
      * intros Hyl. apply Hi. eapply ok_disj; [exact H|exact Hq|exact Hr| |exact Hy]. set_solver.
  - apply disj_insert; [apply H|]. intros t i r Ht Hr Ht'. eapply ok_disj; [exact H|exact Hr|exact Hq|exact Ht'|set_solver].
  - intros i r t z Hr Ht Hz. assert (t <> thr /\ queued qs t) as [Hne _] by (apply Hqd; by exists i, r).
    destruct (Hback _ _ Hz Hne) as (w & Hw & -> & _). apply list_lookup_insert_Some in Hr as [(<- & <- & _)|[Hi Hr]].
    + eapply (ok_cpu _ _ H); [exact Hq| |exact Hw]. set_solver.
    + exact (ok_cpu _ _ H _ _ _ _ Hr Ht Hw).
  - intros t z Hz Ht. rewrite Hqd in Ht. destruct (decide (t = thr)) as [->|Hne].
    + destruct U as [U _]. rewrite U in Hz. by injection Hz as <-.
    + destruct (Hback _ _ Hz Hne) as (w & Hw & _ & E). rewrite E; [apply (ok_out _ _ H _ _ Hw); tauto|].
      intros Htl. apply Ht. split; [done|]. exists c, (l1 ++ thr :: l2). split; [done|]. set_solver.
  - intros i Hi. destruct (ok_idle _ _ H i Hi) as [I1 I2]. rewrite Hqd, <- elem_of_dom, Hdom, elem_of_dom. tauto.
  - apply not_elem_of_dom. rewrite Hdom. apply not_elem_of_dom, H.
  - rewrite <- size_dom, Hdom, size_dom. apply H.
  - apply H.
  - destruct to; [rewrite length_insert|]; apply H.
Qed.

(** ** No signal pending *)
Definition no_signal (s : tstate W) (x : thread) : Prop :=
  t_proc x = 0 \/ t_sigq x = 0 /\ exists p, procs s !! t_proc x = Some p /\ p_sigq p = 0.

Lemma check_signal_none {A} s (unq : Z -> thread_state -> cmd (tstate W) A) me thr x : threads s !! thr = Some x ->
  no_signal s x -> thread_check_signal unq me thr s = Ret (SigNone, s).
Proof.
  intros Hx Hs. unfold thread_check_signal. step_run (get_thread_run _ _ _ Hx).
  destruct (nonnull (t_proc x)) eqn:E; cbn [negb]; [|done].
  destruct Hs as [Hs|(-> & p & Hp & Hq)]; [by rewrite Hs in E|]. rewrite nonnull_0.
  step_run (get_proc_run _ _ _ Hp). by rewrite Hq.
Qed.

(** The neighbours of a queued thread. *)
Lemma thread_neighbours s qs c l1 thr l2 x : sched_ok s qs -> qs !! c = Some (l1 ++ thr :: l2) -> threads s !! thr = Some x ->
  sched_prev x = last_or thr (l2 ++ l1) /\ sched_next x = hd_or thr (l2 ++ l1).
Proof.
  intros H Hq Hx. pose proof (cyc_node _ [] _ _ (cyc_rotate _ l1 (thr :: l2) (ok_cyc _ _ H _ _ Hq))) as E.
  unfold tlinks in E. rewrite Hx in E. injection E as -> ->. split; [apply (last_or_cons 0 thr)|done].
Qed.

(** [sched_unqueue] on a thread of this processor's queue with nothing pending. *)
Lemma unqueue_run s qs c l1 thr l2 x ns fuel cur : sched_ok s qs -> qs !! c = Some (l1 ++ thr :: l2) ->
  threads s !! thr = Some x -> no_signal s x -> blocking ns -> cpu_thread s !! c = Some cur ->
  exists m', sched_unqueue (S fuel) (Z.of_nat c) thr ns s =
      Ret (UDone (after_unqueue c l1 l2 thr cur),
        left_state (entered s c thr x (Z.of_nat (length (l1 ++ thr :: l2))) ns) c (l1 ++ l2) (after_unqueue c l1 l2 thr cur) m') /\
    unlinked_threads (<[thr := leaving x ns]> (threads s)) thr (leaving x ns)
      (last_or thr (l2 ++ l1)) (hd_or thr (l2 ++ l1)) m'.
Proof.
  intros H Hq Hx Hns Hb Hcur. pose proof (ok_cyc _ _ H _ _ Hq) as C. pose proof (cyc_nodup _ _ C) as Hnd.
  assert (thr ∈ l1 ++ thr :: l2) as Ht by set_solver.
  destruct (thread_neighbours _ _ _ _ _ _ _ H Hq Hx) as [Ep' En'].
  assert (Z.of_nat (length (l1 ++ thr :: l2)) <> 0) as Hlen by (rewrite length_app; cbn; lia).
  cbn [sched_unqueue].
  rewrite (bind_Ret _ _ _ _ _ (unqueue_enter_run s c thr x _ ns Hx (ok_cpu _ _ H _ _ _ _ Hq Ht Hx) (ok_size _ _ _ _ H Hq) Hlen Hb)).
  set (s1 := entered _ _ _ _ _ _). assert (threads s1 !! thr = Some (leaving x ns)) as Hx1 by apply lookup_insert_eq.
  erewrite bind_Ret by (by eapply check_signal_none).
  destruct (unqueue_leave_run s1 c thr (leaving x ns) l1 l2 cur (sched_prev x) (sched_next x)) as (m' & El & U);
    [done|by eapply ok_nonzero|exact (ok_head _ _ _ _ H Hq)|done|done|done|done| |].
  { intros y Hy. assert (y ∈ l1 ++ thr :: l2) as Hy' by set_solver. split; [by eapply ok_nonzero|].
    subst s1. cbn [entered ts_sizes ts_threads threads]. destruct (decide (y = thr)) as [->|]; [by rewrite lookup_insert_eq|].
    rewrite lookup_insert_ne by done. destruct (ok_in _ _ _ _ _ H Hq Hy') as (w & Hw & _). by exists w. }
  exists m'. split; [|by rewrite <- Ep', <- En']. by step_run El.
Qed.

(** ** Switching threads *)
Definition runnable (x : thread) : Prop := t_state x = THREAD_READY \/ t_state x = THREAD_RUNNING.

Definition switched (m : gmap Z thread) (from to : Z) (xf xt : thread) : gmap Z thread :=
  <[to := th_set_state THREAD_RUNNING (if decide (to = from) then th_set_state THREAD_READY xf else xt)]>
    (<[from := th_set_state THREAD_READY xf]> m).
Definition yielded (s : tstate W) (c : nat) (m' : gmap Z thread) (to : Z) : tstate W :=
  ts_current (<[c := to]> (cpu_thread s)) (ts_threads m' s).

(** The thread [yield] switches to. *)
Definition yield_target (s : tstate W) (c : nat) (xf : thread) (head : Z) : Z :=
  if nonnull (sched_next xf) then sched_next xf else if nonnull head then head else threads_idle (Z.of_nat c).

Lemma yield_run s c from xf to xt head : cpu_thread s !! c = Some from -> from <> 0 -> threads s !! from = Some xf ->
  no_signal s xf -> queue_heads s !! c = Some head -> yield_target s c xf head = to -> threads s !! to = Some xt -> runnable xt ->
  yield (Z.of_nat c) s = Ret (YSwitched to, yielded s c (switched (threads s) from to xf xt) to).
Proof.
  intros Hc H0 Hf Hn Hh Ht Hxt Hr. pose proof Hc as Hc'. rewrite <- (Nat2Z.id c) in Hc'.
  pose proof Hh as Hh'. rewrite <- (Nat2Z.id c) in Hh'. unfold yield.
  erewrite bind_Ret by (apply at_cpu_run; [lia|exact Hc']).
  assert (yield_next (Z.of_nat c) from s = Ret (to, s)) as En.
  { unfold yield_next. rewrite (nonnull_true _ H0). erewrite bind_Ret by (by step_run (get_thread_run _ _ _ Hf)).
    unfold yield_target in Ht. destruct (nonnull (sched_next xf)); [by subst|].
    erewrite bind_Ret by (apply at_cpu_run; [lia|exact Hh']). by destruct (nonnull head); subst. }
  assert (yield_switch (Z.of_nat c) from to s = Ret (to, yielded s c (switched (threads s) from to xf xt) to)) as Es.
  { unfold yield_switch. rewrite (nonnull_true _ H0), (bind_Ret _ _ _ _ _ (upd_thread_run _ _ _ _ Hf)).
    set (s1 := ts_threads _ s). set (y := if decide (to = from) then th_set_state THREAD_READY xf else xt).
    assert (threads s1 !! to = Some y) as Hy.
    { subst s1 y. cbn [ts_threads threads]. case_decide; [subst; apply lookup_insert_eq|by rewrite lookup_insert_ne]. }
    assert (t_state y <> THREAD_STOPPED) as Hys by (subst y; case_decide; [done|destruct Hr as [->| ->]; done]).
    step_run (get_thread_run _ _ _ Hy). rewrite bool_decide_eq_true_2 by done.
    erewrite bind_Ret by reflexivity. rewrite (bind_Ret _ _ _ _ _ (upd_thread_run _ _ _ _ Hy)).
    erewrite bind_Ret by (eapply set_current_run; [lia|exact Hc']). rewrite Nat2Z.id. done. }
  step_run En. erewrite bind_Ret by (by eapply check_signal_none). cbn iota. by step_run Es.
Qed.

(** Timer ticks on one processor: the threads [k] successive calls of [yield] run. *)
Fixpoint yields (k : nat) (c : Z) : cmd (tstate W) (list Z) :=
  match k with
  | O => mret []
  | S k =>
      r ← yield c;
      match r with
      | YSwitched to => l ← yields k c; mret (to :: l)
      | YSignal _ _ _ => cpanic
      end
  end.

(** The threads [l] can run without being interrupted. *)
Definition quiet (s : tstate W) (l : list Z) : Prop :=
  forall t, t ∈ l -> exists x, threads s !! t = Some x /\ runnable x /\ no_signal s x.

Lemma switched_lookup m from to xf xt t : m !! from = Some xf -> m !! to = Some xt ->
  exists f, switched m from to xf xt !! t = f <$> m !! t /\
    forall x, sched_prev (f x) = sched_prev x /\ sched_next (f x) = sched_next x /\ t_cpu (f x) = t_cpu x /\
      t_proc (f x) = t_proc x /\ t_sigq (f x) = t_sigq x /\ (runnable x -> runnable (f x)).
Proof.
  intros Hf Ht. unfold switched. destruct (decide (t = to)) as [->|Hto].
  - exists (th_set_state THREAD_RUNNING). rewrite lookup_insert_eq, Ht. split; [|intros; by repeat split; right].
    case_decide as E; [subst|done]. assert (xf = xt) as -> by congruence. done.
  - rewrite lookup_insert_ne by done. destruct (decide (t = from)) as [->|].
    + exists (th_set_state THREAD_READY). rewrite lookup_insert_eq, Hf. split; [done|]. intros; by repeat split; left.
    + exists id. rewrite lookup_insert_ne by done. split; [by destruct (m !! t)|done].
Qed.

(** A tick keeps the links and the readiness of every thread. *)
Lemma yielded_keeps s c from to xf xt l : threads s !! from = Some xf -> threads s !! to = Some xt ->
  let s' := yielded s c (switched (threads s) from to xf xt) to in
  (forall t, tlinks s' t = tlinks s t) /\ (quiet s l -> quiet s' l).
Proof.
  intros Hf Ht s'. split.
  - intros t. unfold tlinks. subst s'. cbn [yielded ts_current ts_threads threads].
    destruct (switched_lookup (threads s) from to xf xt t Hf Ht) as (f & -> & Ef).
    destruct (threads s !! t) as [x|]; [|done]. cbn. destruct (Ef x) as (-> & -> & _). done.
  - intros Hq t Hin. destruct (Hq t Hin) as (x & Hx & Hr & Hn).
    destruct (switched_lookup (threads s) from to xf xt t Hf Ht) as (f & Efx & Ef). rewrite Hx in Efx.
    exists (f x). split; [exact Efx|]. destruct (Ef x) as (_ & _ & _ & E1 & E2 & E3). split; [auto|].
    unfold no_signal. by rewrite E1, E2.
Qed.

Lemma yield_step s c from to head pv : cpu_thread s !! c = Some from -> from <> 0 -> to <> 0 ->
  queue_heads s !! c = Some head -> tlinks s from = Some (pv, to) -> quiet s [from; to] ->
  exists m', yield (Z.of_nat c) s = Ret (YSwitched to, yielded s c m' to) /\
    (forall t, tlinks (yielded s c m' to) t = tlinks s t) /\
    (forall l, quiet s l -> quiet (yielded s c m' to) l).
Proof.
  intros Hc H0 H1 Hh Hl Hq. destruct (Hq from) as (xf & Hf & _ & Hn); [by left|].
  destruct (Hq to) as (xt & Ht & Hr & _); [by right; left|]. unfold tlinks in Hl. rewrite Hf in Hl. injection Hl as Hpv Hnx.
  exists (switched (threads s) from to xf xt). split.
  - eapply yield_run; try done. unfold yield_target. by rewrite Hnx, nonnull_true.
  - split; [apply (yielded_keeps s c from to xf xt [] Hf Ht)|].
    intros l. apply (yielded_keeps s c from to xf xt l Hf Ht).
Qed.

(** From [from], the rest of the cycle runs in order. *)
Lemma yields_rest c l : forall s l1 from head, cyc (tlinks s) (l1 ++ from :: l) -> quiet s (l1 ++ from :: l) ->
  cpu_thread s !! c = Some from -> queue_heads s !! c = Some head ->
  exists s', yields (length l) (Z.of_nat c) s = Ret (l, s') /\ (forall t, tlinks s' t = tlinks s t) /\
    (forall k, quiet s k -> quiet s' k) /\ cpu_thread s' !! c = Some (last_or from l) /\ queue_heads s' = queue_heads s.
Proof.
  induction l as [|to l IH]; intros s l1 from head C Hq Hc Hh; [by exists s|].
  pose proof (cyc_node _ _ _ _ C) as Hl. change (hd_or _ (to :: l)) with to in Hl.
  assert (from <> 0 /\ to <> 0) as [H0 H1] by (split; intros ->; apply (cyc_nonzero _ _ C); set_solver).
  destruct (yield_step s c from to head _ Hc H0 H1 Hh Hl) as (m' & E & T & Q).
  { intros t Ht. apply Hq. set_solver. }
  set (s1 := yielded s c m' to) in *. assert (c < length (cpu_thread s))%nat as Hlt by by eapply lookup_lt_Some.
  assert (l1 ++ from :: to :: l = (l1 ++ [from]) ++ to :: l) as El by by rewrite <- app_assoc.
  rewrite El in C, Hq. destruct (IH s1 (l1 ++ [from]) to head) as (s' & E' & T' & Q' & Hc' & Hh').
  - eapply cyc_ext; [|exact C]. intros; apply T.
  - auto.
  - subst s1. cbn [yielded ts_current cpu_thread]. by apply list_lookup_insert_eq.
  - done.
  - exists s'. cbn [yields length]. step_run E. rewrite (bind_Ret _ _ _ _ _ E').
    split; [done|]. split; [intros; by rewrite T', T|]. split; [auto|]. split; [by rewrite last_or_cons|by rewrite Hh'].
Qed.

Lemma yields_add a c : forall b s l s1 k s2, yields a c s = Ret (l, s1) -> yields b c s1 = Ret (k, s2) ->
  yields (a + b) c s = Ret (l ++ k, s2).
Proof.
  induction a as [|a IH]; intros b s l s1 k s2 E1 E2; [by injection E1 as <- <-|].
  cbn [yields Nat.add] in *. apply bind_inv in E1 as (r & s' & Er & E1). step_run Er.
  destruct r as [to|]; [|done]. apply bind_inv in E1 as (l' & s'' & El & E1). injection E1 as <- <-.
  rewrite (bind_Ret _ _ _ _ _ (IH _ _ _ _ _ _ El E2)). done.
Qed.

(** A whole round from [from], which runs again last. *)
Lemma yields_round s c l1 from l2 head : cyc (tlinks s) (l1 ++ from :: l2) -> quiet s (l1 ++ from :: l2) ->
  cpu_thread s !! c = Some from -> queue_heads s !! c = Some head ->
  exists s', yields (length (l1 ++ from :: l2)) (Z.of_nat c) s = Ret (l2 ++ l1 ++ [from], s') /\
    cpu_thread s' !! c = Some from.
Proof.
  intros C Hq Hc Hh. set (l := l2 ++ l1).
  assert (cyc (tlinks s) ([] ++ from :: l)) as C' by exact (cyc_rotate _ l1 (from :: l2) C).
  assert (forall t, t ∈ from :: l -> t ∈ l1 ++ from :: l2) as Hsub by set_solver.
  destruct (yields_rest c l s [] from head C') as (s1 & E1 & T1 & Q1 & Hc1 & Hh1); [intros t Ht; auto|done|done|].
  assert (exists s', yields 1 (Z.of_nat c) s1 = Ret ([from], s') /\ cpu_thread s' !! c = Some from) as (s' & E2 & Hc2).
  { assert (last_or from l ∈ from :: l) as Hin by (rewrite <- (last_or_cons 0); auto with kernel).
    assert (exists pv, tlinks s (last_or from l) = Some (pv, from)) as [pv Hpv].
    { destruct l as [|y l _] using rev_ind; [eexists; exact (cyc_node _ [] _ _ C')|]. rewrite last_or_snoc.
      eexists. rewrite app_comm_cons in C'. exact (cyc_node _ (from :: l) y [] C'). }
    assert (forall t, t ∈ from :: l -> t <> 0) as Hnz by (intros t Ht ->; by apply (cyc_nonzero _ _ C')).
    destruct (yield_step s1 c (last_or from l) from head pv Hc1) as (m' & E & _ & _);
      [by apply Hnz|apply Hnz; by left|by rewrite Hh1|by rewrite T1| |].
    { apply Q1. intros t Ht. apply Hq, Hsub. set_solver. }
    exists (yielded s1 c m' from). cbn [yields]. step_run E. split; [done|].
    apply list_lookup_insert_eq. by eapply lookup_lt_Some. }
  exists s'. split; [|done]. replace (length (l1 ++ from :: l2)) with (length l + 1)%nat
    by (subst l; rewrite !length_app; cbn; lia).
  rewrite (yields_add _ _ _ _ _ _ _ _ E1 E2). subst l. by rewrite <- app_assoc.
Qed.
End sched_lemmas.
