(* ===== verification/SchedInv.v ===== *)
(** * Properties of the scheduler

    The steps of several processors interleaved ([sstep]), the invariant of the run
    queues along them, round-robin order, and the two races [sched_unqueue] opens by
    dropping the lock between its halves. *)

From S2P Require Import Prelude Defs Wait Vnode Task ListHead Sched.

(** The whole invariant: queues, what the processors run, and that what may run is
    marked ready or running. *)
Record sys_ok {W} (s : tstate W) (qs : list (list Z)) : Prop := {
  sys_sched : sched_ok s qs;
  sys_running : running_ok s qs;
  sys_queued : forall t x, queued qs t -> threads s !! t = Some x -> runnable x;
  sys_idle : forall i x, (i < AMD64_MAX_SMP)%nat -> threads s !! threads_idle (Z.of_nat i) = Some x -> runnable x;
}.

Definition is_idle (t : Z) : Prop := exists i, t = threads_idle (Z.of_nat i).

(** One operation on one processor, with no signal pending for the thread it runs. *)
Inductive sstep {W} (s : tstate W) : tstate W -> Prop :=
| step_new t x : threads s !! t = None -> t <> 0 -> sched_prev x = 0 -> sched_next x = 0 ->
    Z.of_nat (size (threads s)) + 1 < 2 ^ 32 ->
    sstep s (ts_threads (<[t := x]> (threads s)) s)
| step_queue thr x s' : threads s !! thr = Some x -> ~ is_idle thr -> not_suspended s x -> 0 <= clk s ->
    sched_queue thr s = Ret (tt, s') -> sstep s s'
| step_tick c from x to s' : cpu_thread s !! c = Some from -> threads s !! from = Some x -> no_signal s x ->
    yield (Z.of_nat c) s = Ret (YSwitched to, s') -> sstep s s'
| step_block c thr x ns to s' : cpu_thread s !! c = Some thr -> ~ is_idle thr -> threads s !! thr = Some x -> no_signal s x ->
    blocking ns -> sched_unqueue unq_fuel (Z.of_nat c) thr ns s = Ret (UDone to, s') -> sstep s s'.

Inductive sreach {W} (s0 : tstate W) : tstate W -> Prop :=
| sreach_refl : sreach s0 s0
| sreach_step s s' : sreach s0 s -> sstep s s' -> sreach s0 s'.

Section invariant.
Context {W : Type}.
Implicit Types (s : tstate W) (qs : list (list Z)).

Lemma idle_inj i j : threads_idle (Z.of_nat i) = threads_idle (Z.of_nat j) -> i = j.
Proof. unfold threads_idle. lia. Qed.

Lemma cpu_bound s qs c t : sched_ok s qs -> cpu_thread s !! c = Some t -> (c < AMD64_MAX_SMP)%nat.
Proof. intros H Hc. rewrite <- (ok_current _ _ H). by eapply lookup_lt_Some. Qed.

Lemma cpu_queue s qs c t : sched_ok s qs -> cpu_thread s !! c = Some t -> exists q, qs !! c = Some q.
Proof.
  intros H Hc. destruct (lookup_lt_is_Some_2 qs c) as [q Hq]; [|by exists q].
  rewrite (ok_len _ _ H). by eapply cpu_bound.
Qed.

(** Threads that agree on links and processor represent the same queues. *)
Lemma sched_ok_ext s s' qs : sched_ok s qs -> queue_heads s' = queue_heads s -> queue_sizes s' = queue_sizes s ->
  sched_ncpus s' = sched_ncpus s -> length (cpu_thread s') = length (cpu_thread s) -> dom (threads s') = dom (threads s) ->
  (forall t x', threads s' !! t = Some x' -> exists x, threads s !! t = Some x /\ sched_prev x' = sched_prev x /\
     sched_next x' = sched_next x /\ t_cpu x' = t_cpu x) -> sched_ok s' qs.
Proof.
  intros H Eh Es En Ec Ed Ht. assert (forall t, tlinks s' t = tlinks s t) as Hl.
  { intros t. unfold tlinks. destruct (threads s' !! t) as [x'|] eqn:E.
    - destruct (Ht _ _ E) as (x & -> & E1 & E2 & _). cbn. by rewrite E1, E2.
    - apply not_elem_of_dom in E. rewrite Ed in E. apply not_elem_of_dom in E. by rewrite E. }
  split.
  - apply H.
  - rewrite Eh. apply H.
  - rewrite Es. apply H.
  - intros i q Hq. eapply cyc_ext; [|exact (ok_cyc _ _ H _ _ Hq)]. intros; apply Hl.
  - apply H.
  - intros i q t x' Hq Hin Hx. destruct (Ht _ _ Hx) as (x & Hx0 & _ & _ & ->). exact (ok_cpu _ _ H _ _ _ _ Hq Hin Hx0).
  - intros t x' Hx Hn. destruct (Ht _ _ Hx) as (x & Hx0 & -> & -> & _). exact (ok_out _ _ H _ _ Hx0 Hn).
  - intros i Hi. rewrite <- elem_of_dom, Ed, elem_of_dom. by apply H.
  - apply not_elem_of_dom. rewrite Ed. apply not_elem_of_dom, H.
  - rewrite <- size_dom, Ed, size_dom. apply H.
  - rewrite En. apply H.
  - rewrite Ec. apply H.
Qed.

(** ** Each step keeps the invariant *)
Lemma new_ok s qs t x : sys_ok s qs -> threads s !! t = None -> t <> 0 -> sched_prev x = 0 -> sched_next x = 0 ->
  Z.of_nat (size (threads s)) + 1 < 2 ^ 32 -> sys_ok (ts_threads (<[t := x]> (threads s)) s) qs.
Proof.
  intros [H R Q I] Ht H0 E1 E2 Hsz.
  assert (forall i q y, qs !! i = Some q -> y ∈ q -> y <> t) as Hnt.
  { intros i q y Hq Hy ->. destruct (ok_in _ _ _ _ _ H Hq Hy) as (z & Hz & _). congruence. }
  assert (forall i, (i < AMD64_MAX_SMP)%nat -> threads_idle (Z.of_nat i) <> t) as Hni.
  { intros i Hi <-. destruct (ok_idle _ _ H i Hi) as [[z Hz] _]. congruence. }
  assert (~ queued qs t) as Hnq by (intros (i & q & Hq & Hy); by eapply Hnt).
  split; [split|done|..]; cbn [ts_threads threads queue_heads queue_sizes sched_ncpus cpu_thread]; try apply H.
  - intros i q Hq. eapply cyc_ext; [|exact (ok_cyc _ _ H _ _ Hq)]. intros y Hy. unfold tlinks. cbn [ts_threads threads].
    rewrite lookup_insert_ne; [done|]. intros ->. by eapply Hnt.
  - intros i q y z Hq Hy Hz. rewrite lookup_insert_ne in Hz by (intros ->; by eapply Hnt).
    exact (ok_cpu _ _ H _ _ _ _ Hq Hy Hz).
  - intros y z Hz Hy. apply lookup_insert_Some in Hz as [[<- <-]|[_ Hz]]; [done|]. exact (ok_out _ _ H _ _ Hz Hy).
  - intros i Hi. destruct (ok_idle _ _ H i Hi) as [Hs ?]. split; [|done]. rewrite lookup_insert_ne; [done|].
    intros E. by apply (Hni i Hi).
  - rewrite lookup_insert_ne by done. apply H.
  - rewrite map_size_insert_None by done. lia.
  - intros y z Hy Hz. rewrite lookup_insert_ne in Hz by (intros ->; done). by eapply Q.
  - intros i z Hi Hz. rewrite lookup_insert_ne in Hz by (intros E; by apply (Hni i Hi)). by eapply I.
Qed.

(** Queueing a thread that already is in a queue changes nothing but the clock. *)
Lemma queue_again s qs thr x : sched_ok s qs -> threads s !! thr = Some x -> queued qs thr -> not_suspended s x ->
  exists k, sched_queue thr s = Ret (tt, ts_clk k s).
Proof.
  intros H Hx Hq Hs. unfold sched_queue. step_run (get_thread_run _ _ _ Hx).
  rewrite (bind_Ret _ _ _ _ _ (sched_queue_guard _ _ Hs)). erewrite bind_Ret by reflexivity.
  destruct (min_queue_all s qs H) as (c & q & E & _ & _). step_run E.
  destruct (queued_links _ _ _ _ H Hx Hq) as [E1 _].
  assert (forall k c, sched_queue_to thr c (ts_clk k s) = Ret (tt, ts_clk k s)) as Hto.
  { intros k c'. unfold sched_queue_to. assert (threads (ts_clk k s) !! thr = Some x) as Hx' by done.
    step_run (get_thread_run _ _ _ Hx'). by rewrite E1. }
  destruct (Z.of_nat (length q) =? 0).
  - erewrite bind_Ret by reflexivity. erewrite bind_Ret by reflexivity. eexists. apply Hto.
  - exists (clk s). assert (ts_clk (clk s) s = s) as Es by by destruct s. rewrite <- Es at 1. apply Hto.
Qed.

Lemma clk_ok s qs k : sys_ok s qs -> sys_ok (ts_clk k s) qs.
Proof. intros [H R Q I]. split; [by apply sched_ok_clk|done..]. Qed.

Lemma queue_ok s qs thr x s' : sys_ok s qs -> threads s !! thr = Some x -> ~ is_idle thr -> not_suspended s x -> 0 <= clk s ->
  sched_queue thr s = Ret (tt, s') -> exists qs', sys_ok s' qs'.
Proof.
  intros HS Hx Hid Hs Hc E. pose proof HS as [H R Q I]. destruct (decide (queued qs thr)) as [Hq|Hq].
  { destruct (queue_again _ _ _ _ H Hx Hq Hs) as [k Ek]. rewrite Ek in E. injection E as <-.
    exists qs. by apply clk_ok. }
  destruct (sched_queue_run s qs thr x H Hx Hq) as (c & q & k & m' & Hcq & _ & Er & L & OK);
    [intros i ->; apply Hid; by exists i|done|done|].
  rewrite Er in E. injection E as <-. exists (<[c := q ++ [thr]]> qs). split; [done|..].
  - intros i t Ht. destruct (R i t Ht) as [->|(r & Hr & Hin)]; [by left|right].
    destruct (decide (i = c)) as [->|].
    + exists (q ++ [thr]). rewrite list_lookup_insert_eq by (by eapply lookup_lt_Some). split; [done|].
      assert (r = q) as -> by congruence. set_solver.
    + exists r. by rewrite list_lookup_insert_ne.
  - intros t y Ht Hy. change (m' !! t = Some y) in Hy. rewrite (queued_snoc _ _ _ _ _ Hcq) in Ht.
    destruct (decide (t = thr)) as [->|Hne].
    + destruct L as [L _]. rewrite L in Hy. injection Hy as <-. by left.
    + destruct (linked_other _ _ _ _ _ _ _ _ L Hne Hy) as (w & Hw & _ & Es & _). unfold runnable. rewrite Es.
      eapply Q; [|exact Hw]. tauto.
  - intros i y Hi Hy. change (m' !! threads_idle (Z.of_nat i) = Some y) in Hy.
    destruct (linked_other _ _ _ _ _ _ _ _ L (fun E => Hid (ex_intro _ i (eq_sym E))) Hy) as (w & Hw & _ & Es & _).
    unfold runnable. rewrite Es. by eapply I.
Qed.

(** The thread [yield] picks is in the same queue, the head of it, or idle. *)
Lemma yield_pick s qs c q from xf : sys_ok s qs -> cpu_thread s !! c = Some from -> threads s !! from = Some xf ->
  qs !! c = Some q ->
  exists xt, let to := yield_target s c xf (hd_or 0 q) in
    threads s !! to = Some xt /\ runnable xt /\ (to = threads_idle (Z.of_nat c) /\ q = [] \/ to ∈ q).
Proof.
  intros [H R Q I] Hc Hf Hq. unfold yield_target. pose proof (cpu_bound _ _ _ _ H Hc) as Hb.
  assert (forall t, t ∈ q -> exists xt, threads s !! t = Some xt /\ runnable xt /\ (t = threads_idle (Z.of_nat c) /\ q = [] \/ t ∈ q)) as Hin.
  { intros t Ht. destruct (ok_in _ _ _ _ _ H Hq Ht) as (y & Hy & _). exists y. split; [done|]. split; [|by right].
    eapply Q; [|exact Hy]. by exists c, q. }
  assert (nonnull (sched_next xf) = true -> sched_next xf ∈ q) as Hnx.
  { intros E. destruct (R c from Hc) as [->|(r & Hr & Ht)].
    - destruct (ok_idle _ _ H c Hb) as [_ Hn]. destruct (ok_out _ _ H _ _ Hf Hn) as [_ E2]. by rewrite E2 in E.
    - assert (r = q) as -> by congruence. destruct (ok_in _ _ _ _ _ H Hq Ht) as (y & Hy & _ & ? & _). congruence. }
  destruct (nonnull (sched_next xf)); [by apply Hin, Hnx|]. destruct q as [|y q].
  - change (hd_or 0 []) with 0. rewrite nonnull_0. destruct (ok_idle _ _ H c Hb) as [[xt Hxt] _]. exists xt.
    split; [done|]. split; [by eapply I|]. by left.
  - change (hd_or 0 (y :: q)) with y in *. rewrite nonnull_true by (eapply ok_nonzero; [exact H|exact Hq|by left]).
    apply Hin. by left.
Qed.

Lemma running_some s qs c t : sys_ok s qs -> cpu_thread s !! c = Some t -> t <> 0 /\ exists x, threads s !! t = Some x.
Proof.
  intros [H R _ _] Hc. destruct (R c t Hc) as [->|(q & Hq & Ht)].
  - destruct (ok_idle _ _ H c (cpu_bound _ _ _ _ H Hc)) as [[x Hx] _]. split; [unfold threads_idle; lia|by exists x].
  - split; [by eapply ok_nonzero|]. destruct (ok_in _ _ _ _ _ H Hq Ht) as (x & Hx & _). by exists x.
Qed.

(** Under the invariant every processor can always switch. *)
Lemma tick_run s qs c from x q : sys_ok s qs -> cpu_thread s !! c = Some from -> threads s !! from = Some x -> no_signal s x ->
  qs !! c = Some q -> exists to xt, yield (Z.of_nat c) s = Ret (YSwitched to, yielded s c (switched (threads s) from to x xt) to) /\
    to = yield_target s c x (hd_or 0 q) /\ threads s !! to = Some xt /\
    (to = threads_idle (Z.of_nat c) /\ q = [] \/ to ∈ q).
Proof.
  intros HS Hc Hx Hn Hq. destruct (yield_pick _ _ _ _ _ _ HS Hc Hx Hq) as (xt & Hxt & Hr & Hin).
  exists (yield_target s c x (hd_or 0 q)), xt. split; [|done]. destruct (running_some _ _ _ _ HS Hc) as [H0 _].
  eapply yield_run; try done. exact (ok_head _ _ _ _ (sys_sched _ _ HS) Hq).
Qed.

Lemma tick_ok s qs c from x to s' : sys_ok s qs -> cpu_thread s !! c = Some from -> threads s !! from = Some x -> no_signal s x ->
  yield (Z.of_nat c) s = Ret (YSwitched to, s') -> sys_ok s' qs.
Proof.
  intros HS Hc Hx Hn E. pose proof HS as [H R Q I]. destruct (cpu_queue _ _ _ _ H Hc) as [q Hq].
  destruct (tick_run _ _ _ _ _ _ HS Hc Hx Hn Hq) as (to' & xt & E' & _ & Hxt & Hin). rewrite E in E'. injection E' as -> ->.
  assert (forall t y', switched (threads s) from to' x xt !! t = Some y' -> exists y, threads s !! t = Some y /\
    sched_prev y' = sched_prev y /\ sched_next y' = sched_next y /\ t_cpu y' = t_cpu y /\ (runnable y -> runnable y')) as Hsw.
  { intros t y' Hy. destruct (switched_lookup (threads s) from to' x xt t Hx Hxt) as (f & Ef & Hf). rewrite Ef in Hy.
    destruct (threads s !! t) as [y|]; [|done]. injection Hy as <-. exists y. destruct (Hf y) as (? & ? & ? & _ & _ & ?). done. }
  assert (sched_ok (yielded s c (switched (threads s) from to' x xt) to') qs) as H'.
  { eapply sched_ok_ext; [exact H|done|done|done|..]; cbn [yielded ts_current ts_threads cpu_thread threads].
    - by rewrite length_insert.
    - unfold switched. rewrite !dom_insert_L. apply elem_of_dom_2 in Hx, Hxt. set_solver.
    - intros t y' Hy. destruct (Hsw t y' Hy) as (y & ? & ? & ? & ? & _). eauto 10. }
  split; [exact H'|..].
  - intros i t Ht. change (<[c := to']> (cpu_thread s) !! i = Some t) in Ht.
    apply list_lookup_insert_Some in Ht as [(<- & <- & _)|[_ Ht]]; [|by apply R].
    destruct Hin as [[-> _]|Hin]; [by left|right; by exists q].
  - intros t y' Ht Hy. destruct (Hsw t y' Hy) as (y & Hy0 & _ & _ & _ & Hr). eauto.
  - intros i y' Hi Hy. destruct (Hsw _ y' Hy) as (y & Hy0 & _ & _ & _ & Hr). eauto.
Qed.

(** A processor's thread that is not idle is in the processor's queue. *)
Lemma running_split s qs c thr : sys_ok s qs -> cpu_thread s !! c = Some thr -> ~ is_idle thr ->
  exists l1 l2, qs !! c = Some (l1 ++ thr :: l2).
Proof.
  intros [H R _ _] Hc Hid. destruct (R c thr Hc) as [->|(q & Hq & Ht)]; [destruct Hid; by exists c|].
  apply list_elem_of_split in Ht as (l1 & l2 & ->). by exists l1, l2.
Qed.

Lemma after_unqueue_self c l1 thr l2 :
  after_unqueue c l1 l2 thr thr = Some (hd_or (threads_idle (Z.of_nat c)) (l2 ++ l1)).
Proof.
  unfold after_unqueue. destruct (decide (l1 ++ l2 = [])) as [[-> ->]%app_eq_nil|Hne]; [done|].
  rewrite decide_True by done. f_equal. apply hd_or_dflt. intros [-> ->]%app_eq_nil. by apply Hne.
Qed.

Lemma block_run s qs c thr x ns l1 l2 : sys_ok s qs -> cpu_thread s !! c = Some thr -> qs !! c = Some (l1 ++ thr :: l2) ->
  threads s !! thr = Some x -> no_signal s x -> blocking ns ->
  exists s' to, sched_unqueue unq_fuel (Z.of_nat c) thr ns s = Ret (UDone (Some to), s') /\
    to = hd_or (threads_idle (Z.of_nat c)) (l2 ++ l1) /\ cpu_thread s' !! c = Some to /\
    sys_ok s' (<[c := l1 ++ l2]> qs) /\
    threads s' !! thr = Some (th_set_next 0 (th_set_prev 0 (leaving x ns))) /\
    notifies s' = notifies s /\ procs s' = procs s.
Proof.
  intros HS Hc Hq Hx Hn Hb. pose proof HS as [H R Q I].
  destruct (unqueue_run s qs c l1 thr l2 x ns 2 thr H Hq Hx Hn Hb Hc) as (m' & E & U).
  set (to := hd_or (threads_idle (Z.of_nat c)) (l2 ++ l1)).
  assert (after_unqueue c l1 l2 thr thr = Some to) as Eto by apply after_unqueue_self.
  rewrite Eto in E. eexists _, to. split; [exact E|]. split; [done|].
  pose proof (cpu_bound _ _ _ _ H Hc) as Hcb.
  assert (thr ∉ l1 ++ l2) as Hnt.
  { pose proof (cyc_nodup _ _ (ok_cyc _ _ H _ _ Hq)) as Hnd. rewrite <- Permutation_middle in Hnd.
    by apply list.NoDup_cons in Hnd as [? _]. }
  split; [apply list_lookup_insert_eq; by eapply lookup_lt_Some|]. split; [|split; [apply U|done]].
  assert (forall t y', m' !! t = Some y' -> t <> thr -> exists y, threads s !! t = Some y /\ t_state y' = t_state y) as Hst.
  { intros t y' Hy Hne. destruct (unlinked_other _ _ _ _ _ _ _ _ U Hne Hy) as (w & Hw & _ & Es & _).
    rewrite lookup_insert_ne in Hw by done. eauto. }
  split.
  - by eapply unqueue_ok.
  - intros i t Ht. change (<[c := to]> (cpu_thread s) !! i = Some t) in Ht.
    apply list_lookup_insert_Some in Ht as [(<- & <- & _)|[Hi Ht]].
    + unfold to. destruct (decide (l2 ++ l1 = [])) as [->|Hne]; [by left|right]. exists (l1 ++ l2).
      rewrite list_lookup_insert_eq by (rewrite (ok_len _ _ H); done). split; [done|].
      pose proof (hd_or_in (threads_idle (Z.of_nat c)) _ Hne). set_solver.
    + destruct (R i t Ht) as [->|(r & Hr & Hin)]; [by left|right]. exists r. by rewrite list_lookup_insert_ne.
  - intros t y' Ht Hy. change (m' !! t = Some y') in Hy.
    apply (queued_remove _ _ _ _ _ _ Hq (cyc_nodup _ _ (ok_cyc _ _ H _ _ Hq))) in Ht as [Hne Ht].
    2: { intros i q Hi Hin. eapply ok_disj; [exact H|exact Hi|exact Hq|exact Hin|set_solver]. }
    destruct (Hst _ _ Hy Hne) as (y & Hy0 & Es). unfold runnable. rewrite Es. by eapply Q.
  - intros i y' Hi Hy. change (m' !! threads_idle (Z.of_nat i) = Some y') in Hy.
    assert (threads_idle (Z.of_nat i) <> thr) as Hne.
    { intros <-. apply (ok_idle _ _ H i Hi). exists c, (l1 ++ threads_idle (Z.of_nat i) :: l2). split; [done|set_solver]. }
    destruct (Hst _ _ Hy Hne) as (y & Hy0 & Es). unfold runnable. rewrite Es. by eapply I.
Qed.

Lemma step_ok s qs s' : sys_ok s qs -> sstep s s' -> exists qs', sys_ok s' qs'.
Proof.
  intros HS [t x H1 H2 H3 H4 H5|thr x s1 H1 H2 H3 H4 E|c from x to s1 H1 H2 H3 E|c thr x ns to s1 H1 H2 H3 H4 H5 E].
  - exists qs. by apply new_ok.
  - by eapply queue_ok.
  - exists qs. by eapply tick_ok.
  - destruct (running_split _ _ _ _ HS H1 H2) as (l1 & l2 & Hq).
    destruct (block_run _ _ _ _ _ _ _ _ HS H1 Hq H3 H4 H5) as (s2 & to' & E' & _ & _ & OK & _).
    rewrite E in E'. injection E' as _ <-. eauto.
Qed.

Lemma reach_ok s0 qs0 s : sys_ok s0 qs0 -> sreach s0 s -> exists qs, sys_ok s qs.
Proof. intros H0. induction 1 as [|s s' _ [qs IH] St]; [eauto|]. by eapply step_ok. Qed.

Lemma running_unique s qs i j t : sys_ok s qs -> cpu_thread s !! i = Some t -> cpu_thread s !! j = Some t -> i = j.
Proof.
  intros [H R _ _] Hi Hj.
  assert (forall i q, (exists k, (k < AMD64_MAX_SMP)%nat /\ t = threads_idle (Z.of_nat k)) -> qs !! i = Some q -> t ∈ q -> False) as Hx.
  { intros k q (n & Hn & ->) Hq Ht. apply (ok_idle _ _ H n Hn). by exists k, q. }
  pose proof (cpu_bound _ _ _ _ H Hi) as Bi. pose proof (cpu_bound _ _ _ _ H Hj) as Bj.
  destruct (R i t Hi) as [Ei|(q & Hq & Ht)], (R j t Hj) as [Ej|(r & Hr & Ht')].
  - apply idle_inj. congruence.
  - destruct (Hx j r); [by exists i|done..].
  - destruct (Hx i q); [by exists j|done..].
  - eapply ok_disj; eauto.
Qed.
End invariant.

(** ** A machine with two processors in use *)
Definition mk_idle (c : Z) : thread := mk_thread (mk_tdata 0 0 0 0 0 0 0 0 0) THREAD_READY 0 [] 0 0 0 0 0 1 c 0 0.
Definition mk_plain (c pv nx : Z) : thread := mk_thread (mk_tdata 0 0 0 0 0 0 0 0 0) THREAD_READY 0 [] 0 0 0 0 0 1 c pv nx.
Definition demo_threads : gmap Z thread :=
  {[ -1 := mk_idle 0; -2 := mk_idle 1; -3 := mk_idle 2; -4 := mk_idle 3;
     10 := mk_plain 0 12 11; 11 := mk_plain 0 10 12; 12 := mk_plain 0 11 10; 20 := mk_plain 1 20 20; 30 := mk_plain (-1) 0 0 ]}.
Definition demo_queues : list (list Z) := [[10; 11; 12]; [20]; []; []].
(** Threads 10, 11 and 12 on processor 0, 20 on processor 1, 30 asleep. *)
Definition demo : tstate unit := mk_tstate unit demo_threads ∅ ∅ [10; 20; 0; 0] [3; 1; 0; 0] 2 5 [10; 20; -3; -4] [] 0 0 tt.

Lemma demo_lookup t x : demo_threads !! t = Some x -> (t, x) ∈ map_to_list demo_threads.
Proof. apply elem_of_map_to_list. Qed.

Ltac demo_cases :=
  repeat match goal with
  | H : demo_threads !! _ = Some _ |- _ =>
      apply demo_lookup in H; let l := eval vm_compute in (map_to_list demo_threads) in change (map_to_list demo_threads) with l in H
  | H : threads demo !! ?t = Some ?x |- _ => change (demo_threads !! t = Some x) in H
  | H : _ ∈ _ :: _ |- _ => apply elem_of_cons in H as [H|H]
  | H : _ ∈ [] |- _ => by apply elem_of_nil in H
  | H : (_, _) = (_, _) |- _ => injection H as ? ?; subst
  end.

Lemma demo_queued i q t : demo_queues !! i = Some q -> t ∈ q ->
  i = 0%nat /\ (t = 10 \/ t = 11 \/ t = 12) \/ i = 1%nat /\ t = 20.
Proof. intros Hq Ht. destruct i as [|[|[|[|i]]]]; cbn in Hq; simplify_eq; demo_cases; subst; auto. Qed.

Lemma demo_ok : sys_ok demo demo_queues.
Proof.
  split; [split|..]; try done.
  - intros i q Hq. destruct i as [|[|[|[|i]]]]; cbn in Hq; simplify_eq; (split; [vm_compute; by repeat split| |]);
      try (repeat (apply list.NoDup_cons; split; [set_solver|]); apply NoDup_nil_2); set_solver.
  - intros i j q r t Hi Hj Ht Ht'. destruct (demo_queued _ _ _ Hi Ht), (demo_queued _ _ _ Hj Ht'); lia.
  - intros i q t x Hq Ht Hx. destruct (demo_queued _ _ _ Hq Ht) as [[-> [->|[->| ->]]]|[-> ->]];
      vm_compute in Hx; by injection Hx as <-.
  - intros t x Hx Hn. assert (t ∉ [10; 11; 12; 20]) as Ht.
    { intros Ht. apply Hn. clear Hx. demo_cases; subst; [exists 0%nat, [10; 11; 12]..|exists 1%nat, [20]]; (split; [done|set_solver]). }
    clear Hn. demo_cases; first [done|set_solver].
  - intros i Hi. split; [destruct i as [|[|[|[|i]]]]; [by eexists..|unfold AMD64_MAX_SMP in Hi; lia]|].
    intros (k & q & Hq & Ht). destruct (demo_queued _ _ _ Hq Ht); unfold threads_idle in *; lia.
  - intros i t Ht. destruct i as [|[|[|[|i]]]]; cbn in Ht; simplify_eq; [right|right|by left|by left]; eexists; (split; [done|set_solver]).
  - intros t x _ Hx. demo_cases; by left.
  - intros i x _ Hx. remember (threads_idle (Z.of_nat i)) as t eqn:E. clear E. demo_cases; by left.
Qed.

(** ** Queueing, blocking, ticking *)

(** A thread outside the queues goes to the end of exactly one queue: that of the
    lowest-numbered processor with the fewest threads, or, as soon as some queue is
    empty, that of processor [clk % ncpus] (which need not be the empty one); it is
    ready there and the other queues keep their threads. *)
Theorem sched_queue_balances {W} (s : tstate W) qs thr x : sched_ok s qs -> threads s !! thr = Some x -> ~ queued qs thr ->
  ~ is_idle thr -> not_suspended s x -> 0 <= clk s ->
  exists c q s' x', sched_queue thr s = Ret (tt, s') /\ qs !! c = Some q /\ chosen s qs c /\
    sched_ok s' (<[c := q ++ [thr]]> qs) /\ threads s' !! thr = Some x' /\
    t_state x' = THREAD_READY /\ t_cpu x' = Z.of_nat c.
Proof.
  intros H Hx Hq Hid Hs Hc.
  destruct (sched_queue_run s qs thr x H Hx Hq) as (c & q & k & m' & Hcq & Hch & E & L & OK);
    [intros i ->; apply Hid; by exists i|done|done|].
  exists c, q. eexists _, _. split; [exact E|]. split; [done|]. split; [done|]. split; [done|]. split; [apply L|done].
Qed.

Lemma sched_queue_balances_witness : exists c q s' x', sched_queue 30 demo = Ret (tt, s') /\ demo_queues !! c = Some q /\
  chosen demo demo_queues c /\ sched_ok s' (<[c := q ++ [30]]> demo_queues) /\ threads s' !! 30 = Some x' /\
  t_state x' = THREAD_READY /\ t_cpu x' = Z.of_nat c.
Proof.
  eapply sched_queue_balances; [apply demo_ok|reflexivity| | |by left|done].
  - intros (i & q & Hq & Ht). destruct (demo_queued _ _ _ Hq Ht); lia.
  - intros [i Hi]. unfold threads_idle in Hi. lia.
Defined.

(** A thread that blocks leaves its processor's queue and gives the processor to its
    successor in it, or to the idle thread when it was alone. *)
Theorem sched_unqueue_hands_over {W} (s : tstate W) qs c thr x ns l1 l2 : sys_ok s qs -> cpu_thread s !! c = Some thr ->
  qs !! c = Some (l1 ++ thr :: l2) -> threads s !! thr = Some x -> no_signal s x -> blocking ns ->
  exists s' to x', sched_unqueue unq_fuel (Z.of_nat c) thr ns s = Ret (UDone (Some to), s') /\
    to = hd_or (threads_idle (Z.of_nat c)) (l2 ++ l1) /\ cpu_thread s' !! c = Some to /\
    sys_ok s' (<[c := l1 ++ l2]> qs) /\ threads s' !! thr = Some x' /\ t_state x' = ns /\ t_cpu x' = -1.
Proof.
  intros HS Hc Hq Hx Hn Hb. destruct (block_run _ _ _ _ _ _ _ _ HS Hc Hq Hx Hn Hb) as (s' & to & E & Et & Hc' & OK & Hx' & _).
  exists s', to. eexists. split; [exact E|]. split; [exact Et|]. split; [done|]. split; [done|]. split; [exact Hx'|done].
Qed.

Lemma sched_unqueue_hands_over_witness : exists s' to x',
  sched_unqueue unq_fuel 0 10 THREAD_WAITING demo = Ret (UDone (Some to), s') /\ to = 11 /\ cpu_thread s' !! 0%nat = Some to /\
  sys_ok s' [[11; 12]; [20]; []; []] /\ threads s' !! 10 = Some x' /\ t_state x' = THREAD_WAITING /\ t_cpu x' = -1.
Proof.
  eapply (sched_unqueue_hands_over demo demo_queues 0 10 _ THREAD_WAITING [] [11; 12]);
    [apply demo_ok|done|done|reflexivity|by left|by left].
Defined.

(** C5: Ticks on a processor run the threads of its queue in turn: after as many ticks as
    the queue has threads, each has run exactly once, in the order of the queue from
    the successor of the one that ran first. *)
Theorem yield_round_robin {W} (s : tstate W) qs c from l1 l2 : sys_ok s qs -> cpu_thread s !! c = Some from ->
  qs !! c = Some (l1 ++ from :: l2) ->
  (forall t x, t ∈ l1 ++ from :: l2 -> threads s !! t = Some x -> no_signal s x) ->
  exists s', yields (length (l1 ++ from :: l2)) (Z.of_nat c) s = Ret (l2 ++ l1 ++ [from], s') /\
    cpu_thread s' !! c = Some from.
Proof.
  intros [H R Q I] Hc Hq Hn. eapply yields_round; [exact (ok_cyc _ _ H _ _ Hq)| |done|exact (ok_head _ _ _ _ H Hq)].
  intros t Ht. destruct (ok_in _ _ _ _ _ H Hq Ht) as (x & Hx & _). exists x. split; [done|]. split; [|by eapply Hn].
  eapply Q; [|exact Hx]. eexists _, _. split; [exact Hq|exact Ht].
Qed.

Lemma yield_round_robin_witness : exists s', yields 3 0 demo = Ret ([11; 12; 10], s') /\ cpu_thread s' !! 0%nat = Some 10.
Proof.
  apply (yield_round_robin demo demo_queues 0 10 [] [11; 12]); [apply demo_ok|done|done|].
  intros t x _ Hx. demo_cases; by left.
Defined.



(** ** What may happen while [sched_unqueue] has dropped the lock *)
Section races.
Context {W : Type}.
Implicit Types (s : tstate W) (qs : list (list Z)).

Lemma cyc_alone lk thr : cyc lk [thr] -> lk thr = Some (thr, thr).
Proof. intros C. exact (cyc_node _ [] _ [] C). Qed.

Lemma queue_to_linked s thr c x : threads s !! thr = Some x -> sched_prev x <> 0 -> sched_queue_to thr c s = Ret (tt, s).
Proof.
  intros Hx Hp. unfold sched_queue_to. step_run (get_thread_run _ _ _ Hx). by rewrite (nonnull_true _ Hp).
Qed.

(** Queueing behind a thread that is alone in its queue and about to leave it. *)
Lemma queue_behind_leaving s c h xh y xy : threads s !! h = Some xh -> sched_prev xh = h -> h <> 0 -> queue_heads s !! c = Some h ->
  threads s !! y = Some xy -> sched_prev xy = 0 -> sched_next xy = 0 -> y <> 0 -> y <> h -> queue_sizes s !! c = Some 0 ->
  exists m', sched_queue_to y (Z.of_nat c) s = Ret (tt, ts_sizes (<[c := 1]> (queue_sizes s)) (ts_threads m' s)) /\
    linked_threads (threads s) y (ready_on c xy) h h m'.
Proof.
  intros Hh Hp H0 Hq Hy E1 E2 Hy0 Hne Hsz. pose proof Hq as Hq'. rewrite <- (Nat2Z.id c) in Hq'.
  pose proof Hsz as Hsz'. rewrite <- (Nat2Z.id c) in Hsz'. unfold sched_queue_to. step_run (get_thread_run _ _ _ Hy).
  rewrite E1, E2, nonnull_0. cbn [orb]. rewrite (nonnull_true _ Hy0). erewrite bind_Ret by reflexivity.
  rewrite (bind_Ret _ _ _ _ _ (upd_thread_run _ _ _ _ Hy)). erewrite bind_Ret by (apply upd_thread_run, lookup_insert_eq).
  cbn [ts_threads threads]. rewrite insert_insert_eq. change (th_set_cpu (Z.of_nat c) (th_set_state THREAD_READY xy)) with (ready_on c xy).
  erewrite bind_Ret by (apply at_cpu_run; [lia|exact Hq']). rewrite (nonnull_true _ H0). set (s1 := ts_threads _ _).
  assert (threads s1 !! h = Some xh) as Hh1 by (subst s1; cbn [ts_threads threads]; by rewrite lookup_insert_ne).
  destruct (link_behind_run s1 y h h (ready_on c xy)) as (m' & El & L); [apply lookup_insert_eq|by exists xh|by exists xh|done|done|].
  exists m'. split.
  - erewrite bind_Ret; [|step_run (get_thread_run _ _ _ Hh1); rewrite Hp; exact El].
    erewrite bind_Ret by (apply at_cpu_run; [lia|exact Hsz']). erewrite set_size_run by (lia || exact Hsz').
    rewrite Nat2Z.id. done.
  - destruct L as [L1 L2]. split; [done|]. intros z Hz. rewrite L2 by done. subst s1. cbn [ts_threads threads].
    by rewrite lookup_insert_ne.
Qed.
End races.

(** If a second thread is queued while the only thread of a queue is between the two
    halves of [sched_unqueue], it disappears: the queue is left empty, counted as
    one long, and the thread keeps links that make every later [sched_queue_to]
    ignore it. *)
Theorem unqueue_race_loses_thread {W} (s : tstate W) qs c thr x y xy ns : sys_ok s qs -> cpu_thread s !! c = Some thr ->
  qs !! c = Some [thr] -> threads s !! thr = Some x -> blocking ns -> threads s !! y = Some xy -> ~ queued qs y ->
  exists s1 s2 s3,
    sched_unqueue_enter (Z.of_nat c) thr ns s = Ret ((thr, thr), s1) /\
    sched_queue_to y (Z.of_nat c) s1 = Ret (tt, s2) /\
    sched_unqueue_leave (Z.of_nat c) thr thr thr s2 = Ret (Some (threads_idle (Z.of_nat c)), s3) /\
    queue_heads s3 !! c = Some 0 /\ queue_sizes s3 !! c = Some 1 /\
    forall k, sched_queue_to y k s3 = Ret (tt, s3).
Proof.
  intros HS Hc Hq Hx Hb Hy Hnq. pose proof HS as [H _ _ _].
  assert (thr <> 0) as H0 by (eapply ok_nonzero; [exact H|exact Hq|by left]).
  pose proof (cyc_alone _ _ (ok_cyc _ _ H _ _ Hq)) as E. unfold tlinks in E. rewrite Hx in E. injection E as Ep En.
  assert (c < AMD64_MAX_SMP)%nat as Hcb by by eapply cpu_bound.
  assert (y <> 0) as Hy0 by (intros ->; rewrite (ok_null _ _ H) in Hy; done).
  assert (y <> thr) as Hne by (intros ->; apply Hnq; exists c, [thr]; split; [done|by left]).
  destruct (ok_out _ _ H _ _ Hy Hnq) as [Y1 Y2]. pose proof (ok_size _ _ _ _ H Hq) as Hsz. cbn [length] in Hsz.
  pose proof (unqueue_enter_run s c thr x _ ns Hx (ok_cpu _ _ H _ _ _ _ Hq ltac:(by left) Hx) Hsz ltac:(done) Hb) as E1.
  rewrite Ep, En in E1. set (s1 := entered _ _ _ _ _ _) in E1.
  destruct (queue_behind_leaving s1 c thr (leaving x ns) y xy) as (m' & E2 & L);
    [apply lookup_insert_eq|done|done|exact (ok_head _ _ _ _ H Hq)|subst s1; cbn [entered ts_sizes ts_threads threads]; by rewrite lookup_insert_ne|
     done|done|done|done|subst s1; cbn [entered ts_sizes queue_sizes]; apply list_lookup_insert_eq; by eapply lookup_lt_Some|].
  set (s2 := ts_sizes _ _) in E2. destruct L as [L1 L2].
  assert (exists z, threads s2 !! thr = Some z) as [z Hz].
  { subst s2. cbn [ts_sizes ts_threads threads]. rewrite L2 by done. subst s1. cbn [entered ts_sizes ts_threads threads].
    rewrite lookup_insert_eq. by eexists. }
  eexists s1, s2, _. split; [exact E1|]. split; [exact E2|]. split; [|split; [|split]].
  - unfold sched_unqueue_leave. rewrite bool_decide_eq_true_2 by done.
    rewrite (bind_Ret _ _ _ _ _ (upd_thread_run _ _ _ _ Hz)). erewrite bind_Ret by (apply upd_thread_run, lookup_insert_eq).
    erewrite bind_Ret by (eapply set_head_run; [lia|rewrite Nat2Z.id; exact (ok_head _ _ _ _ H Hq)]).
    erewrite bind_Ret by (eapply set_current_run; [lia|rewrite Nat2Z.id; exact Hc]). reflexivity.
  - cbn [ts_current ts_heads queue_heads]. rewrite Nat2Z.id. apply list_lookup_insert_eq.
    by eapply lookup_lt_Some, (ok_head _ _ _ _ H Hq).
  - cbn [ts_current ts_heads ts_threads queue_sizes]. subst s2. cbn [ts_sizes queue_sizes]. apply list_lookup_insert_eq.
    subst s1. cbn [entered ts_sizes queue_sizes]. rewrite length_insert. by eapply lookup_lt_Some.
  - intros k. eapply queue_to_linked; [cbn [ts_current ts_heads ts_threads threads]|].
    + rewrite !lookup_insert_ne by done. exact L1.
    + done.
Qed.

Lemma unqueue_race_loses_thread_witness : exists s1 s2 s3,
  sched_unqueue_enter 1 20 THREAD_WAITING demo = Ret ((20, 20), s1) /\ sched_queue_to 30 1 s1 = Ret (tt, s2) /\
  sched_unqueue_leave 1 20 20 20 s2 = Ret (Some (-2), s3) /\
  queue_heads s3 !! 1%nat = Some 0 /\ queue_sizes s3 !! 1%nat = Some 1 /\ forall k, sched_queue_to 30 k s3 = Ret (tt, s3).
Proof.
  eapply (unqueue_race_loses_thread demo demo_queues 1 20 _ 30 _ THREAD_WAITING);
    [apply demo_ok|done|done|reflexivity|by left|reflexivity|].
  intros (i & q & Hq & Ht). destruct (demo_queued _ _ _ Hq Ht); lia.
Defined.

(** An event that arrives between the two halves of [sched_unqueue] is lost: the
    notifier sees a thread that is still linked and does not queue it, and then the
    thread leaves its queue; it sleeps although the event was counted, and no later
    event on that notifier can wake it, for it has no owner any more. *)
Theorem unqueue_lost_wakeup {W} (s : tstate W) qs c thr x n v l1 l2 : sys_ok s qs -> cpu_thread s !! c = Some thr ->
  qs !! c = Some (l1 ++ thr :: l2) -> threads s !! thr = Some x -> notifies s !! n = Some (mk_notify (Some thr) v) ->
  exists pn s1 s2 s3 to x',
    sched_unqueue_enter (Z.of_nat c) thr THREAD_WAITING s = Ret (pn, s1) /\
    notify_io n s1 = Ret (tt, s2) /\
    sched_unqueue_leave (Z.of_nat c) thr pn.1 pn.2 s2 = Ret (Some to, s3) /\ to <> thr /\
    sched_ok s3 (<[c := l1 ++ l2]> qs) /\ threads s3 !! thr = Some x' /\ t_state x' = THREAD_WAITING /\
    notifies s3 !! n = Some (mk_notify None (u64 (v + 1))) /\
    exists s4, notify_io n s3 = Ret (tt, s4) /\ threads s4 = threads s3.
Proof.
  intros HS Hc Hq Hx Hn. pose proof HS as [H _ _ _]. pose proof (ok_cyc _ _ H _ _ Hq) as C. pose proof (cyc_nodup _ _ C) as Hnd.
  assert (thr ∈ l1 ++ thr :: l2) as Ht by set_solver.
  destruct (ok_in _ _ _ _ _ H Hq Ht) as (x0 & Hx0 & Hpin & Hnin & Hcpu). assert (x0 = x) as -> by congruence.
  assert (sched_next x <> 0) as Hnz by by eapply ok_nonzero.
  destruct (thread_neighbours _ _ _ _ _ _ _ H Hq Hx) as [Ep' En'].
  assert (Z.of_nat (length (l1 ++ thr :: l2)) <> 0) as Hlen by (rewrite length_app; cbn; lia).
  pose proof (unqueue_enter_run s c thr x _ THREAD_WAITING Hx Hcpu (ok_size _ _ _ _ H Hq) Hlen (or_introl eq_refl)) as E1.
  set (s1 := entered _ _ _ _ _ _) in E1. set (n' := mk_notify None (u64 (v + 1))).
  set (s2 := ts_notifies (<[n := n']> (notifies s)) s1).
  assert (threads s2 !! thr = Some (leaving x THREAD_WAITING)) as Hx2 by apply lookup_insert_eq.
  assert (notify_io n s1 = Ret (tt, s2)) as E2.
  { unfold notify_io. erewrite bind_Ret by (eapply on_notify_run; [exact Hn|reflexivity]).
    cbn [n_owner]. change (ts_notifies _ s1) with s2. step_run (get_thread_run _ _ _ Hx2). cbn [leaving th_set_state th_set_cpu sched_next].
    by rewrite (nonnull_true _ Hnz). }
  destruct (unqueue_leave_run s2 c thr (leaving x THREAD_WAITING) l1 l2 thr (sched_prev x) (sched_next x)) as (m' & E3 & U);
    [done|by eapply ok_nonzero|exact (ok_head _ _ _ _ H Hq)|done|done|done|done| |].
  { intros z Hz. assert (z ∈ l1 ++ thr :: l2) as Hz' by set_solver. split; [by eapply ok_nonzero|].
    subst s2 s1. cbn [ts_notifies entered ts_sizes ts_threads threads]. destruct (decide (z = thr)) as [->|]; [by rewrite lookup_insert_eq|].
    rewrite lookup_insert_ne by done. destruct (ok_in _ _ _ _ _ H Hq Hz') as (w & Hw & _). by exists w. }
  set (to := hd_or (threads_idle (Z.of_nat c)) (l2 ++ l1)).
  assert (after_unqueue c l1 l2 thr thr = Some to) as Eto by apply after_unqueue_self.
  rewrite Eto in E3. eexists (sched_prev x, sched_next x), s1, s2, _, to, _. split; [exact E1|]. split; [exact E2|].
  split; [exact E3|].  split; [|split; [|split; [exact (proj1 U)|split; [done|split]]]].
  - intros E'. assert (thr ∉ l1 ++ l2) as Hnt by (rewrite <- Permutation_middle in Hnd; by apply list.NoDup_cons in Hnd as [? _]).
    unfold to in E'. destruct (decide (l2 ++ l1 = [])) as [E0|Hne].
    + rewrite E0 in E'. change (threads_idle (Z.of_nat c) = thr) in E'.
      apply (ok_idle _ _ H c (cpu_bound _ _ _ _ H Hc)). rewrite E'. eexists _, _. split; [exact Hq|done].
    + pose proof (hd_or_in (threads_idle (Z.of_nat c)) _ Hne). set_solver.
  - rewrite Ep', En' in U.
    pose proof (unqueue_ok s qs c thr x THREAD_WAITING l1 l2 m' (Some to) _ H Hq Hx eq_refl U) as OK.
    destruct OK. by split.
  - apply lookup_insert_eq.
  - eexists. split; [unfold notify_io; erewrite bind_Ret by (eapply on_notify_run; [apply lookup_insert_eq|reflexivity]);
      reflexivity|reflexivity].
Qed.

Definition demo_waiting : tstate unit := ts_notifies {[ NIo 7 := mk_notify (Some 11) 0 ]} (ts_current [11; 20; -3; -4] demo).

Lemma demo_waiting_ok : sys_ok demo_waiting demo_queues.
Proof.
  destruct demo_ok as [H R Q I]. split; [destruct H; by split| |done|done].
  intros i t Ht. destruct i as [|[|[|[|i]]]]; cbn in Ht; simplify_eq; [right|right|by left|by left]; eexists; (split; [done|set_solver]).
Qed.

Lemma unqueue_lost_wakeup_witness : exists pn s1 s2 s3 to x',
  sched_unqueue_enter 0 11 THREAD_WAITING demo_waiting = Ret (pn, s1) /\ notify_io (NIo 7) s1 = Ret (tt, s2) /\
  sched_unqueue_leave 0 11 pn.1 pn.2 s2 = Ret (Some to, s3) /\ to <> 11 /\
  sched_ok s3 [[10; 12]; [20]; []; []] /\ threads s3 !! 11 = Some x' /\ t_state x' = THREAD_WAITING /\
  notifies s3 !! NIo 7 = Some (mk_notify None 1) /\ exists s4, notify_io (NIo 7) s3 = Ret (tt, s4) /\ threads s4 = threads s3.
Proof.
  eapply (unqueue_lost_wakeup demo_waiting demo_queues 0 11 _ (NIo 7) 0 [10] [12]);
    [apply demo_waiting_ok|done|done|reflexivity|reflexivity].
Defined.

(** ** Stopping a thread that is about to block *)
Section stop.
Context {W : Type}.
Implicit Types s : tstate W.

(** The assertion of the first half: the thread was taken off its processor before. *)
Lemma unqueue_enter_twice s me thr x ns : threads s !! thr = Some x -> t_cpu x = -1 -> sched_unqueue_enter me thr ns s = Panic.
Proof. intros Hx Hc. unfold sched_unqueue_enter. step_run (get_thread_run _ _ _ Hx). by rewrite Hc. Qed.

Lemma first_signal_nonzero n i q k : first_signal n i q = Some k -> q <> 0.
Proof. revert i. induction n as [|n IH]; intros i; [done|]. cbn [first_signal]. intros E Hq. subst q. rewrite Z.land_0_l in E. cbn [Z.eqb negb] in E. by eapply (IH (i + 1)). Qed.
End stop.

(** A thread with a pending stop signal cannot block: [sched_unqueue] delivers the
    signal between its halves, the stop calls [sched_unqueue] again on a thread that
    no longer has a processor, and the kernel panics. *)
Theorem sigstop_while_blocking_panics {W} (s : tstate W) c thr x ns n p pn fuel : cpu_thread s !! c = Some thr ->
  threads s !! thr = Some x -> t_cpu x = Z.of_nat c -> queue_sizes s !! c = Some n -> n <> 0 -> blocking ns ->
  t_proc x <> 0 -> t_sigq x = 0 -> procs s !! t_proc x = Some p -> first_signal 64 0 (p_sigq p) = Some (SIGSTOP - 1) ->
  notifies s !! NPid (t_proc x) = Some pn -> n_owner pn = None ->
  sched_unqueue (S (S fuel)) (Z.of_nat c) thr ns s = Panic.
Proof.
  intros Hc Hx Hcpu Hsz Hn Hb Hp0 Hq Hp Hsig Hpn Ho. pose proof Hc as Hc'. rewrite <- (Nat2Z.id c) in Hc'.
  pose proof (unqueue_enter_run s c thr x n ns Hx Hcpu Hsz Hn Hb) as E1. cbn [sched_unqueue].
  rewrite (bind_Ret _ _ _ _ _ E1). cbn beta iota. set (s1 := entered _ _ _ _ _ _). apply bind_Panic.
  assert (threads s1 !! thr = Some (leaving x ns)) as Hx1 by apply lookup_insert_eq.
  unfold thread_check_signal. step_run (get_thread_run _ _ _ Hx1). cbn [leaving th_set_state th_set_cpu t_proc t_sigq].
  rewrite (nonnull_true _ Hp0), Hq, nonnull_0. cbn [negb]. step_run (get_proc_run s1 _ _ Hp).
  rewrite (nonnull_true _ (first_signal_nonzero _ _ _ _ Hsig)), Hsig.
  rewrite (bind_Ret _ _ _ _ _ (upd_proc_run s1 _ _ _ Hp)). set (s2 := ts_procs _ s1).
  unfold thread_sigenter. erewrite bind_Ret by (apply at_cpu_run; [lia|exact Hc']).
  assert (threads s2 !! thr = Some (leaving x ns)) as Hx2 by exact Hx1. step_run (get_thread_run _ _ _ Hx2).
  change ((SIGSTOP - 1 + 1 =? SIGCHLD) || (SIGSTOP - 1 + 1 =? SIGCONT)) with false.
  change (SIGSTOP - 1 + 1 =? SIGSTOP) with true. cbn [leaving th_set_state th_set_cpu t_proc] in *. cbn iota.
  erewrite bind_Ret by (apply get_proc_run, lookup_insert_eq). erewrite bind_Ret by (apply upd_proc_run, lookup_insert_eq).
  erewrite bind_Ret by (apply get_notify_run; exact Hpn). rewrite Ho, (bool_decide_eq_false_2 (None <> None)) by (intros X; by apply X).
  erewrite bind_Ret by reflexivity. apply bind_Panic, bind_Panic. eapply unqueue_enter_twice; [exact Hx1|done].
Qed.

Definition stop_proc : process := mk_process 4096 PROC_ACTIVE [20] 1 (mk_ioctx 0 0 0 0) [] (2 ^ 18) 0 0 5 5 0 0 0 0.
Definition demo_stopping : tstate unit :=
  ts_notifies {[ NPid 200 := mk_notify None 0 ]} (ts_procs {[ 200 := stop_proc ]}
    (ts_threads (<[20 := th_set_state THREAD_RUNNING (mk_thread (mk_tdata 0 0 0 0 0 0 0 0 0) THREAD_READY 0 [] 200 0 0 0 0 1 1 20 20)]> demo_threads) demo)).

Lemma sigstop_while_blocking_panics_witness : sched_unqueue unq_fuel 1 20 THREAD_WAITING demo_stopping = Panic.
Proof.
  eapply (sigstop_while_blocking_panics demo_stopping 1 20); first [reflexivity|done|by left].
Defined.

(** ** Blocking ends

    [sched_unqueue] and [thread_check_signal] call each other; each nested call
    consumes a pending stop signal, and no part of them makes one pending. *)
Section unqueue_depth.
Context {W : Type}.
Implicit Types s : tstate W.

(** What scheduling keeps of the signals: the current threads, the process of each
    thread and the pending signals of each process. *)
Definition same_signals s s' : Prop :=
  cpu_thread s' = cpu_thread s /\ t_proc <$> threads s' = t_proc <$> threads s /\ p_sigq <$> procs s' = p_sigq <$> procs s.

#[local] Instance same_signals_preorder : PreOrder same_signals.
Proof. split; [by intros s|]. intros s1 s2 s3 (?&?&?) (?&?&?). split_and!; by etrans. Qed.

Lemma upd_thread_keeps t f : (forall x, t_proc (f x) = t_proc x) -> maintains same_signals (@upd_thread W t f).
Proof.
  intros Hf s. unfold upd_thread, get_thread. cbv [mbind cmd_mbind cbind cload cmodify].
  destruct (threads s !! t) as [x|] eqn:E; [|done]. cbn. split; [done|]. split; [|done]. cbn.
  rewrite fmap_insert, Hf. apply insert_id. by rewrite lookup_fmap, E.
Qed.

Lemma set_size_keeps c n : maintains same_signals (@set_size W c n).
Proof. apply maintains_bind; [apply _|apply maintains_load, _|]. intros _. by apply maintains_modify. Qed.
Lemma set_head_keeps c n : maintains same_signals (@set_head W c n).
Proof. apply maintains_bind; [apply _|apply maintains_load, _|]. intros _. by apply maintains_modify. Qed.

Lemma set_current_returns c t s : @set_current W c t s <> Diverged.
Proof. unfold set_current, at_cpu. cbv [mbind cmd_mbind cbind cload cmodify]. by repeat case_match. Qed.

Ltac keep :=
  lazymatch goal with
  | |- maintains _ (_ ≫= _) => apply maintains_bind; [apply _|keep|intros ?; keep]
  | |- maintains _ (if ?b then _ else _) => destruct b; keep
  | |- maintains _ (let '(_, _) := ?p in _) => destruct p; keep
  | |- maintains _ (match ?o with Some _ => _ | None => _ end) => destruct o; keep
  | |- maintains _ (upd_thread _ _) => by apply upd_thread_keeps
  | |- maintains _ (set_size _ _) => apply set_size_keeps
  | |- maintains _ (set_head _ _) => apply set_head_keeps
  | |- maintains _ (get_thread _) => apply maintains_load, _
  | |- maintains _ (get_proc _) => apply maintains_load, _
  | |- maintains _ (get_notify _) => apply maintains_load, _
  | |- maintains _ (at_cpu _ _) => apply maintains_load, _
  | |- maintains _ (cmodify _) => by apply maintains_modify
  | |- _ => solve [auto with kernel typeclass_instances]
  end.

Lemma queue_to_keeps t c : maintains same_signals (@sched_queue_to W t c).
Proof. unfold sched_queue_to. keep. Qed.

Lemma min_queue_keeps n i a b : maintains same_signals (@min_queue W n i a b).
Proof.
  revert i a b. induction n as [|n IH]; intros i a b; cbn [min_queue]; [keep|].
  apply maintains_bind; [apply _|apply maintains_load, _|]. intros q. by destruct (q <? b).
Qed.

Lemma sched_queue_keeps t : maintains same_signals (@sched_queue W t).
Proof.
  unfold sched_queue. apply maintains_bind; [apply _|keep|]. intros x. apply maintains_bind; [apply _|keep|]. intros _.
  apply maintains_bind; [apply _|keep|]. intros n. apply maintains_bind; [apply _|apply min_queue_keeps|]. intros [i z].
  destruct (z =? 0); [|apply queue_to_keeps]. apply maintains_bind; [apply _|keep|]. intros c.
  apply maintains_bind; [apply _|keep|]. intros _. apply queue_to_keeps.
Qed.

Lemma notify_io_keeps n : maintains same_signals (@notify_io W n).
Proof.
  unfold notify_io, on_notify. apply maintains_bind; [apply _| |].
  - apply maintains_bind; [apply _|keep|]. intros x. destruct (thread_notify_io x) as [[a x']| | |] eqn:E; [keep|keep|keep|].
    unfold thread_notify_io in E. by repeat case_match.
  - intros [t|]; [|keep]. apply maintains_bind; [apply _|keep|]. intros x. destruct (nonnull _); [keep|apply sched_queue_keeps].
Qed.

Lemma enter_keeps me thr ns : maintains same_signals (@sched_unqueue_enter W me thr ns).
Proof. unfold sched_unqueue_enter. keep. Qed.

Lemma leave_returns me thr p n s : @sched_unqueue_leave W me thr p n s <> Diverged.
Proof.
  assert (PreOrder (fun _ _ : tstate W => True)) as HR by done. apply (maintains_returns (fun _ _ => True)).
  unfold sched_unqueue_leave, upd_thread, set_head, set_current. keep.
Qed.

(** A stop signal is pending for the process of [t]. *)
Definition stop_pending s t : Prop := exists p q, (t_proc <$> threads s) !! t = Some p /\
  (p_sigq <$> procs s) !! p = Some q /\ Z.testbit q (SIGSTOP - 1) = true.

Lemma same_stop_pending s s' t : same_signals s s' -> stop_pending s' t -> stop_pending s t.
Proof. intros (_ & E1 & E2) (p & q & Ht & Hp & Hb). exists p, q. by rewrite <- E1, <- E2. Qed.

Lemma first_signal_testbit n i q k : 0 <= i -> first_signal n i q = Some k -> 0 <= k /\ Z.testbit q k = true.
Proof.
  revert i. induction n as [|n IH]; intros i Hi; [done|]. cbn [first_signal].
  destruct (Z.land q (Z.shiftl 1 i) =? 0) eqn:E; cbn [negb]; [apply IH; lia|]. intros [= <-]. split; [done|].
  apply Z.eqb_neq in E. destruct (Z.testbit q i) eqn:Eb; [done|]. destruct E. apply Z.bits_inj'. intros j Hj.
  rewrite Z.land_spec, Z.shiftl_1_l, Z.pow2_bits_eqb, Z.bits_0 by done.
  destruct (Z.eqb_spec i j) as [<-|]; [by rewrite Eb|apply andb_false_r].
Qed.

Lemma cleared_testbit q k : 0 <= k -> Z.testbit (Z.land q (Z.lnot (Z.shiftl 1 k))) k = false.
Proof.
  intros Hk. rewrite Z.land_spec, Z.lnot_spec, Z.shiftl_1_l, Z.pow2_bits_eqb by done.
  rewrite Z.eqb_refl. apply andb_false_r.
Qed.

(** Where delivering a stop to the current thread runs out of fuel, its nested
    [sched_unqueue] did. *)
Lemma sigenter_diverges {A} (u : Z -> thread_state -> cmd (tstate W) A) me k s : thread_sigenter u me k s = Diverged ->
  exists cur s', k = SIGSTOP /\ same_signals s s' /\ at_cpu cpu_thread me s' = Ret (cur, s') /\ u cur THREAD_WAITING s' = Diverged.
Proof.
  unfold thread_sigenter, at_cpu, get_thread, get_proc, get_notify.
  intros (cur & E1 & (x & _ & E)%load_diverges)%load_diverges. destruct (_ || _); [done|].
  apply load_diverges in E as (p & Hp & E).
  destruct (Z.eqb_spec k SIGSTOP) as [->|_]; [|exfalso; revert E; apply (maintains_returns same_signals); keep].
  rewrite (bind_Ret _ _ _ _ _ (upd_proc_run _ _ _ _ Hp)) in E. set (s1 := ts_procs _ s) in E.
  assert (same_signals s s1) as H1.
  { split; [done|]. split; [done|]. cbn. rewrite fmap_insert. apply insert_id. by rewrite lookup_fmap, Hp. }
  apply load_diverges in E as (n & _ & E).
  assert (maintains same_signals (if bool_decide (n_owner n <> None) then notify_io (NPid (t_proc x)) else mret tt)) as K
    by (destruct (bool_decide _); [apply notify_io_keeps|keep]).
  apply bind_diverges in E as [E|(? & s2 & E2 & E)]; [by apply (maintains_returns _ _ _ K) in E|].
  apply (maintains_inv _ _ _ _ _ K) in E2. exists cur, s2. split; [done|]. assert (same_signals s s2) as H2 by (by etrans).
  split; [done|]. split; [|by apply bind_diverges in E as [E|(? & ? & _ & ?)]].
  apply load_Some. by rewrite (proj1 H2).
Qed.

Lemma check_diverges {A} (u : Z -> thread_state -> cmd (tstate W) A) me thr s : thread_check_signal u me thr s = Diverged ->
  exists cur s', stop_pending s thr /\ ~ stop_pending s' thr /\ cpu_thread s' = cpu_thread s /\
    at_cpu cpu_thread me s' = Ret (cur, s') /\ u cur THREAD_WAITING s' = Diverged.
Proof.
  unfold thread_check_signal, get_thread, get_proc. intros (x & Hx & E)%load_diverges. destruct (negb _); [done|]. destruct (nonnull _); [done|].
  apply load_diverges in E as (p & Hp & E).
  destruct (nonnull _); [|done]. destruct (first_signal _ _ _) as [k|] eqn:Ek; [|done].
  apply first_signal_testbit in Ek as [Hk Eb]; [|done]. rewrite (bind_Ret _ _ _ _ _ (upd_proc_run _ _ _ _ Hp)) in E.
  apply sigenter_diverges in E as (cur & s' & Ek & HS & Hcur & E). exists cur, s'. split; [|split; [|split; [apply HS|done]]].
  - exists (t_proc x), (p_sigq p). rewrite !lookup_fmap, Hx, Hp. by replace (SIGSTOP - 1) with k by lia.
  - intros (q & m & Hq & Hm & Hb)%(same_stop_pending _ _ _ HS). cbn in Hq, Hm. rewrite lookup_fmap, Hx in Hq. injection Hq as <-.
    rewrite fmap_insert, lookup_insert_eq in Hm. injection Hm as <-. cbn in Hb.
    replace (SIGSTOP - 1) with k in Hb by lia. by rewrite cleared_testbit in Hb.
Qed.

Lemma unqueue_diverges fuel me thr ns s : sched_unqueue (S fuel) me thr ns s = Diverged ->
  exists cur s', stop_pending s thr /\ ~ stop_pending s' thr /\ cpu_thread s' = cpu_thread s /\
    at_cpu cpu_thread me s' = Ret (cur, s') /\
    sched_unqueue fuel me cur THREAD_WAITING s' = Diverged.
Proof.
  cbn [sched_unqueue].
  intros [E|([p n] & s1 & E1 & E)]%bind_diverges; [by apply (maintains_returns _ _ _ (enter_keeps me thr ns)) in E|].
  apply (maintains_inv _ _ _ _ _ (enter_keeps me thr ns)) in E1. apply bind_diverges in E as [E|(r & s2 & _ & E)].
  - apply check_diverges in E as (cur & s' & Hp & Hn & Ht & Hc & E). exists cur, s'. split; [by eapply same_stop_pending|].
    split; [done|]. split; [|done]. rewrite Ht. apply E1.
  - destruct r; [| |done|done]; by apply bind_diverges in E as [E%leave_returns|(? & ? & _ & ?)].
Qed.
End unqueue_depth.

