(* ===== verification/Kernel.v ===== *)
(** * What threads and processes use of the rest of the kernel

    [Kernel W] is the interface of [sys/thread.c] and [sys/process.c] to memory and
    files; [StackMem] adds the law of memory that context switches rely on.  The
    instance [world_kernel] puts the components of this development behind it: the
    kernel heap ([Heap]), frames and address spaces ([Phys], [Paging]) and open files
    ([VfsOps]).  The entries a process has in sysfs are kept as the set of the
    processes that have one. *)

From S2P Require Import Prelude Defs Heap Phys Paging Vnode Vfs VfsOps.

Class Kernel (W : Type) := {
  mm_kernel : Z;                               (* the kernel's page directory *)
  k_kmalloc : Z -> cmd W Z;
  k_kfree : Z -> cmd W unit;
  k_pool_alloc : cmd W Z;
  k_space_clone : Z -> Z -> Z -> cmd W Z;      (* mm_space_clone(dst, src, flags) *)
  k_space_fork : Z -> Z -> Z -> cmd W Z;
  k_space_release : Z -> cmd W unit;
  k_space_free : Z -> cmd W unit;
  k_alloc_contiguous : Z -> page_usage -> cmd W Z;
  k_alloc_page : page_usage -> cmd W Z;
  k_free_page : Z -> cmd W unit;
  k_vmfind : Z -> Z -> Z -> Z -> cmd W Z;
  k_map_single : Z -> Z -> Z -> Z -> cmd W Z;
  k_read_cr3 : cmd W Z;
  k_load : Z -> cmd W Z;                       (* a 64-bit word of kernel memory *)
  k_store : Z -> Z -> cmd W unit;
  k_memcpy : Z -> Z -> Z -> cmd W unit;        (* memcpy(dst, src, bytes), whole words *)
  k_ofile_dup : Z -> cmd W Z;
  k_ofile_close : vfs_ioctx -> Z -> cmd W unit;
  k_ofile_vnode : Z -> cmd W Z;                (* fd->file.vnode *)
  k_add_entry : Z -> cmd W unit;               (* proc_add_entry, by pid *)
  k_del_entry : Z -> cmd W unit;
}.

(** Storing a word changes that word only. *)
Class StackMem (W : Type) `{Kernel W} := {
  k_word : W -> Z -> option Z;
  k_load_word : forall w a v, k_word w a = Some v -> k_load a w = Ret (v, w);
  k_store_word : forall w a v, a mod 8 = 0 -> exists w', k_store a v w = Ret (tt, w') /\ k_word w' a = Some v /\
    forall b, b mod 8 = 0 -> b <> a -> k_word w' b = k_word w b;
}.

(** ** The components of this development as one world *)
Record world := mk_world {
  w_heap : heap;
  w_vm : vm;
  w_vfs : vfs;
  w_words : gmap Z Z;
  w_cr3 : Z;
  w_entries : gset Z;
}.
Definition set_w_heap h w := mk_world h (w_vm w) (w_vfs w) (w_words w) (w_cr3 w) (w_entries w).
Definition set_w_vm v w := mk_world (w_heap w) v (w_vfs w) (w_words w) (w_cr3 w) (w_entries w).
Definition set_w_vfs v w := mk_world (w_heap w) (w_vm w) v (w_words w) (w_cr3 w) (w_entries w).
Definition set_w_words m w := mk_world (w_heap w) (w_vm w) (w_vfs w) m (w_cr3 w) (w_entries w).
Definition set_w_entries e w := mk_world (w_heap w) (w_vm w) (w_vfs w) (w_words w) (w_cr3 w) e.

Definition on_heap {A} (m : cmd heap A) : cmd world A := czoom w_heap set_w_heap m.
Definition on_space {A} (m : cmd vm A) : cmd world A := czoom w_vm set_w_vm m.
Definition on_files {A} (m : cmd vfs A) : cmd world A := czoom w_vfs set_w_vfs m.

(** Words of kernel stacks. *)
Definition load_word (a : Z) : cmd world Z := cload (fun w => w_words w !! a).
Definition store_word (a v : Z) : cmd world unit := cmodify (fun w => set_w_words (<[a := v]> (w_words w)) w).

Fixpoint copy_words (n : nat) (dst src : Z) : cmd world unit :=
  match n with
  | O => mret tt
  | S n => v ← load_word src; store_word dst v;; copy_words n (dst + 8) (src + 8)
  end.

#[export] Instance world_kernel `{FsOps, Slab, DevOps} (kernel_space : Z) : Kernel world := {
  mm_kernel := kernel_space;
  k_kmalloc := fun n => on_heap (heap_alloc n);
  k_kfree := fun p => on_heap (heap_free p);
  k_pool_alloc := on_space amd64_mm_pool_alloc;
  k_space_clone := fun d s f => on_space (mm_space_clone d s f);
  k_space_fork := fun d s f => on_space (mm_space_fork d s f);
  k_space_release := fun s => on_space (mm_space_release kernel_space s);
  k_space_free := fun s => on_space (mm_space_free kernel_space s);
  k_alloc_contiguous := fun n u => on_space (on_phys (mm_phys_alloc_contiguous n u));
  k_alloc_page := fun u => on_space (on_phys (mm_phys_alloc_page u));
  k_free_page := fun a => on_space (on_phys (mm_phys_free_page a));
  k_vmfind := fun s b e n => on_space (vmfind s b e n);
  k_map_single := fun s v p f => on_space (mm_map_single s v p f);
  k_read_cr3 := cgets w_cr3;
  k_load := load_word;
  k_store := store_word;
  k_memcpy := fun d s n => copy_words (Z.to_nat (n / 8)) d s;
  k_ofile_dup := fun f => on_files (ofile_dup f);
  k_ofile_close := fun c f => on_files (ofile_close c f);
  k_ofile_vnode := fun f => on_files (o ← oget f; mret (of_vnode o));
  k_add_entry := fun p => cmodify (fun w => set_w_entries ({[p]} ∪ w_entries w) w);
  k_del_entry := fun p => cmodify (fun w => set_w_entries (w_entries w ∖ {[p]}) w);
}.

#[export] Instance world_stack `{FsOps, Slab, DevOps} ks : @StackMem world (world_kernel ks).
Proof.
  refine {| k_word := fun w a => w_words w !! a |}.
  - intros w a v Hv. exact (load_Some (fun w => w_words w !! a) w v Hv).
  - intros w a v _. eexists. split; [reflexivity|]. split; [apply lookup_insert_eq|].
    intros b _ Hb. by apply lookup_insert_ne.
Defined.

(** ** A bare machine for examples

    Memory is handed out in increasing order and never reclaimed; a file is a
    reference count. *)
Record bare := mk_bare { b_next : Z; b_words : gmap Z Z; b_files : gmap Z Z }.
Definition bare_alloc (n : Z) : cmd bare Z :=
  fun b => Ret (b_next b, mk_bare (b_next b + MM_PAGE_SIZE * (n / MM_PAGE_SIZE + 1)) (b_words b) (b_files b)).
Definition bare_ref (d f : Z) : cmd bare unit :=
  c ← cload (fun b => b_files b !! f); cmodify (fun b => mk_bare (b_next b) (b_words b) (<[f := c + d]> (b_files b))).

#[export] Instance bare_kernel : Kernel bare := {
  mm_kernel := 4096;
  k_kmalloc := bare_alloc;
  k_kfree := fun _ => mret tt;
  k_pool_alloc := bare_alloc MM_PAGE_SIZE;
  k_space_clone := fun _ _ _ => mret 0;
  k_space_fork := fun _ _ _ => mret 0;
  k_space_release := fun _ => mret tt;
  k_space_free := fun _ => mret tt;
  k_alloc_contiguous := fun n _ => bare_alloc (n * MM_PAGE_SIZE);
  k_alloc_page := fun _ => bare_alloc 0;
  k_free_page := fun _ => mret tt;
  k_vmfind := fun _ b _ _ => mret b;
  k_map_single := fun _ _ _ _ => mret 0;
  k_read_cr3 := mret 0;
  k_load := fun a => cload (fun b => b_words b !! a);
  k_store := fun a v => cmodify (fun b => mk_bare (b_next b) (<[a := v]> (b_words b)) (b_files b));
  k_memcpy := fun _ _ _ => mret tt;
  k_ofile_dup := fun f => bare_ref 1 f;; mret f;
  k_ofile_close := fun _ f => bare_ref (-1) f;
  k_ofile_vnode := fun f => mret f;
  k_add_entry := fun _ => mret tt;
  k_del_entry := fun _ => mret tt;
}.

#[export] Instance bare_stack : StackMem bare.
Proof.
  refine {| k_word := fun b a => b_words b !! a |}.
  - intros w a v Hv. exact (load_Some (fun b => b_words b !! a) w v Hv).
  - intros w a v _. eexists. split; [reflexivity|]. split; [apply lookup_insert_eq|].
    intros b _ Hb. by apply lookup_insert_ne.
Defined.
