(* ===== verification/Thread.v ===== *)
(** * Threads: [sys/thread.c], the waiting of [sys/wait.c]

    The initial stack of a thread is written word by word as the C code does
    ([push_all]) and read back by the instructions of [arch/amd64/sched_s.S]
    ([context_switch_first], [context_enter]). *)

From S2P Require Import Prelude Defs Wait Phys Vnode Paging Kernel Task ListHead Sched.

Definition THREAD_KSTACK_PAGES : Z := 4.
Definition THREAD_USTACK_PAGES : Z := 8.
Definition THREAD_USTACK_BEGIN : Z := 0x10000000.
Definition THREAD_USTACK_END : Z := 0xF0000000.
Definition FXSAVE_REGION : Z := 512.
Definition THREAD_FPU_SAVED : Z := 4.
Definition THR_INIT_USER : Z := 1.
Definition THR_INIT_STACK_SET : Z := 2.
(** [sizeof(struct thread)] and [sizeof(struct process)] on amd64. *)
Definition SIZEOF_THREAD : Z := 240.
Definition SIZEOF_PROCESS : Z := 624.

Definition on_world {W A} (m : cmd W A) : cmd (tstate W) A := czoom world ts_world m.

Definition td_set_rsp0 x (d : thread_data) := mk_tdata x (rsp0_top d) (cr3 d) (rsp0_sigenter d) (rsp0_base d) (rsp0_size d) (rsp3_base d) (rsp3_size d) (fxsave d).
Definition td_set_kstack base size top (d : thread_data) := mk_tdata (rsp0 d) top (cr3 d) (rsp0_sigenter d) base size (rsp3_base d) (rsp3_size d) (fxsave d).
Definition td_set_cr3 x (d : thread_data) := mk_tdata (rsp0 d) (rsp0_top d) x (rsp0_sigenter d) (rsp0_base d) (rsp0_size d) (rsp3_base d) (rsp3_size d) (fxsave d).
Definition td_set_ustack base size (d : thread_data) := mk_tdata (rsp0 d) (rsp0_top d) (cr3 d) (rsp0_sigenter d) (rsp0_base d) (rsp0_size d) base size (fxsave d).
Definition td_set_fxsave x (d : thread_data) := mk_tdata (rsp0 d) (rsp0_top d) (cr3 d) (rsp0_sigenter d) (rsp0_base d) (rsp0_size d) (rsp3_base d) (rsp3_size d) x.
Definition th_upd_data (f : thread_data -> thread_data) (t : thread) := th_set_data (f (data t)) t.
Definition th_set_flags x (t : thread) := mk_thread (data t) (t_state t) (sleep_deadline t) (wait_head t) (t_proc t)
  (signal_entry t) (signal_stack_base t) (signal_stack_size t) (t_sigq t) x (t_cpu t) (sched_prev t) (sched_next t).
Definition th_set_proc x (t : thread) := mk_thread (data t) (t_state t) (sleep_deadline t) (wait_head t) x
  (signal_entry t) (signal_stack_base t) (signal_stack_size t) (t_sigq t) (t_flags t) (t_cpu t) (sched_prev t) (sched_next t).

Section thread_ops.
Context {W : Type} `{Kernel W}.
Abbreviation K := (cmd (tstate W)).
(** The address of the stub [context_enter]. *)
Context (context_enter_addr : Z).

(** ** Stacks *)

(** [*--stack = v] *)
Fixpoint push_all (l : list Z) (stack : Z) : cmd W Z :=
  match l with
  | [] => mret stack
  | v :: l => k_store (u64 (stack - 8)) v;; push_all l (u64 (stack - 8))
  end.

Definition pop (sp : Z) : cmd W (Z * Z) := v ← k_load sp; mret (v, u64 (sp + 8)).

(** What a thread is entered with. *)
Record iframe := mk_iframe { f_rip : Z; f_cs : Z; f_rflags : Z; f_rsp : Z; f_ss : Z }.
Record gregs := mk_gregs { g_rax : Z; g_rdi : Z; g_rsi : Z; g_rdx : Z; g_rcx : Z; g_r8 : Z; g_r9 : Z; g_r10 : Z; g_r11 : Z }.
Record sregs := mk_sregs { g_rbx : Z; g_rbp : Z; g_r12 : Z; g_r13 : Z; g_r14 : Z; g_r15 : Z }.

(** The callee-saved registers and the address [ret] goes to. *)
Definition context_switch_first (rsp0 : Z) : cmd W (sregs * Z * Z) :=
  '(rbx, sp) ← pop rsp0; '(rbp, sp) ← pop sp; '(r12, sp) ← pop sp; '(r13, sp) ← pop sp;
  '(r14, sp) ← pop sp; '(r15, sp) ← pop sp; '(ra, sp) ← pop sp;
  mret (mk_sregs rbx rbp r12 r13 r14 r15, ra, sp).

Definition context_enter (sp : Z) : cmd W (gregs * iframe) :=
  '(rax, sp) ← pop sp; '(rdi, sp) ← pop sp; '(rsi, sp) ← pop sp; '(rdx, sp) ← pop sp; '(rcx, sp) ← pop sp;
  '(r8, sp) ← pop sp; '(r9, sp) ← pop sp; '(r10, sp) ← pop sp; '(r11, sp) ← pop sp;
  '(rip, sp) ← pop sp; '(cs, sp) ← pop sp; '(rflags, sp) ← pop sp; '(rsp, sp) ← pop sp; '(ss, sp) ← pop sp;
  mret (mk_gregs rax rdi rsi rdx rcx r8 r9 r10 r11, mk_iframe rip cs rflags rsp ss).

(** The words [thread_init] pushes, in order. *)
Definition init_words (user : bool) (entry arg rsp3_top rsp0_top : Z) : list Z :=
  (if user then [0x1B; u64 (rsp3_top - 8); 0x200; 0x23; entry] else [0x10; rsp0_top; 0x200; 0x08; entry]) ++
  [0; 0; 0; 0; 0; 0; 0; arg; 0] ++ [context_enter_addr] ++ [0; 0; 0; 0; 0; 0].

(** The user stack of a new thread: the loop over its pages. *)
Fixpoint map_ustack (n : nat) (space base i : Z) : cmd W unit :=
  match n with
  | O => mret tt
  | S n =>
      phys ← k_alloc_page PU_PRIVATE;
      cassert (bool_decide (phys <> MM_NADDR));;
      k_map_single space (u64 (base + i * MM_PAGE_SIZE)) phys (Z.lor MM_PAGE_WRITE MM_PAGE_USER);;
      map_ustack n space base (i + 1)
  end.

Definition thread_init (thr entry arg flags : Z) : K Z :=
  let user := flagged flags THR_INIT_USER in
  stack_pages ← on_world (k_alloc_contiguous THREAD_KSTACK_PAGES PU_KERNEL);
  cassert (bool_decide (stack_pages <> MM_NADDR));;
  let base := MM_VIRTUALIZE stack_pages in
  let size := MM_PAGE_SIZE * THREAD_KSTACK_PAGES in
  let top := u64 (base + size) in
  upd_thread thr (fun t => th_set_next 0 (th_set_prev 0 (th_set_signal MM_NADDR MM_NADDR 0 t)));;
  upd_thread thr (fun t => th_set_sigq 0 (th_set_flags (if user then 0 else THREAD_KERNEL) (th_upd_data (td_set_kstack base size top) t)));;
  fx ← (if user then p ← on_world (k_kmalloc FXSAVE_REGION); cassert (nonnull p);; mret p else mret 0);
  upd_thread thr (fun t => th_set_wait [] (th_upd_data (td_set_fxsave fx) t));;
  cmodify (fun s => ts_notifies (<[NSleep thr := thread_wait_io_init]> (notifies s)) s);;
  t ← get_thread thr;
  space ← (if nonnull (t_proc t) then p ← get_proc (t_proc t); mret (space p)
           else mret (if user then 0 else mm_kernel));
  cassert (nonnull space);;
  upd_thread thr (th_upd_data (td_set_cr3 (MM_PHYS space)));;
  (if user && negb (flagged flags THR_INIT_STACK_SET) then
     ustack_base ← on_world (k_vmfind space THREAD_USTACK_BEGIN THREAD_USTACK_END THREAD_USTACK_PAGES);
     cassert (bool_decide (ustack_base <> MM_NADDR));;
     on_world (map_ustack (Z.to_nat THREAD_USTACK_PAGES) space ustack_base 0);;
     upd_thread thr (th_upd_data (td_set_ustack ustack_base (MM_PAGE_SIZE * THREAD_USTACK_PAGES)))
   else mret tt);;
  upd_thread thr (th_set_state THREAD_READY);;
  t ← get_thread thr;
  let d := data t in
  sp ← on_world (push_all (init_words user entry arg (u64 (rsp3_base d + rsp3_size d)) (u64 (rsp0_base d + rsp0_size d)))
                          (u64 (rsp0_base d + rsp0_size d)));
  upd_thread thr (th_upd_data (td_set_rsp0 sp));;
  mret 0.

(** ** Signals *)
Definition xxx_signal_set (sigq signum : Z) : Z := Z.lor sigq (Z.shiftl 1 (signum - 1)).

(** [Some r]: the signal is handled now, by the thread itself. *)
Definition thread_signal (me thr signum : Z) : K (option (sig_res unq_res)) :=
  t ← get_thread thr;
  n ← get_notify (NSleep thr);
  (if bool_decide (n_owner n <> None) then notify_io (NSleep thr) else mret tt);;
  t ← get_thread thr;
  self ← at_cpu cpu_thread me;
  if bool_decide (t_cpu t = me) && bool_decide (thr = self) then
    r ← thread_sigenter (sched_unqueue unq_fuel me) me signum; mret (Some r)
  else
    (if signal_is_exception signum then upd_thread thr (fun t => th_set_sigq (xxx_signal_set (t_sigq t) signum) t)
     else upd_proc (t_proc t) (fun p => pr_set_sigq (xxx_signal_set (p_sigq p) signum) p));;
    sched_queue thr;;
    mret None.

Definition sys_sigentry (me entry : Z) : K unit :=
  thr ← at_cpu cpu_thread me;
  upd_thread thr (fun t => th_set_signal entry (signal_stack_base t) (signal_stack_size t) t).

(** [ss]: the new stack, if given; the result is what [old_ss] receives. *)
Definition sys_sigaltstack (me : Z) (ss : option (Z * Z)) : K (Z * (Z * Z)) :=
  thr ← at_cpu cpu_thread me;
  cassert (nonnull thr);;
  t ← get_thread thr;
  (match ss with
   | Some (sp, size) => upd_thread thr (fun t => th_set_signal (signal_entry t) sp size t)
   | None => mret tt
   end);;
  mret (0, (signal_stack_base t, signal_stack_size t)).

(** ** Waiting on several notifiers *)
Definition thread_wait_io_add (thr : Z) (n : nref) : K unit :=
  x ← get_notify n;
  cassert (bool_decide (n_owner x = None));;
  cmodify (fun s => ts_notifies (<[n := mk_notify (Some thr) (n_value x)]> (notifies s)) s);;
  upd_thread thr (fun t => th_set_wait (n :: wait_head t) t).

(** The first notifier of [wait_head] with a pending event. *)
Fixpoint first_ready (l : list nref) : K (option nref) :=
  match l with
  | [] => mret None
  | n :: l => x ← get_notify n; if nonnull (n_value x) then mret (Some n) else first_ready l
  end.

(** One pass of the loop of [thread_wait_io_any]: it ends with a notifier whose event
    was consumed, or goes to sleep in [sched_unqueue]. *)
Definition thread_wait_io_any (me thr : Z) : K (nref + unq_res) :=
  t ← get_thread thr;
  r ← first_ready (wait_head t);
  match r with
  | Some n =>
      x ← get_notify n;
      cmodify (fun s => ts_notifies (<[n := mk_notify (n_owner x) (n_value x - 1)]> (notifies s)) s);;
      mret (inl n)
  | None => w ← sched_unqueue unq_fuel me thr THREAD_WAITING; mret (inr w)
  end.

(** When it runs again: interrupted, or the next pass. *)
Definition thread_wait_io_any_resume (me thr : Z) : K (sig_res unq_res + (nref + unq_res)) :=
  r ← thread_check_signal (sched_unqueue unq_fuel me) me thr;
  match r with
  | SigNone => w ← thread_wait_io_any me thr; mret (inr w)
  | _ => mret (inl r)
  end.

Fixpoint clear_owners (l : list nref) : K unit :=
  match l with
  | [] => mret tt
  | n :: l =>
      x ← get_notify n;
      cmodify (fun s => ts_notifies (<[n := mk_notify None (n_value x)]> (notifies s)) s);;
      clear_owners l
  end.
Definition thread_wait_io_clear (thr : Z) : K unit :=
  t ← get_thread thr;
  clear_owners (wait_head t);;
  upd_thread thr (th_set_wait []).
End thread_ops.
