(* ===== verification/Process.v ===== *)
(** * Processes: [sys/process.c], [sys_exit], [sys_clone], [sys_waitpid]

    The family tree is kept by the pointers [parent], [first_child], [next_child];
    [proc_all] lists every process.  Memory from [kmalloc] holds what the parameters
    [junk_thread] and [junk_process] say before it is initialised. *)

From S2P Require Import Prelude Defs Wait Phys Vnode Mmap Paging Kernel Task ListHead Sched Thread.

Definition ESRCH : Z := 3.
Definition WSTOPPED : Z := 2.

Definition zero_thread : thread := mk_thread (mk_tdata 0 0 0 0 0 0 0 0 0) THREAD_READY 0 [] 0 0 0 0 0 0 0 0 0.
Definition pr_set_space x (p : process) := mk_process x (proc_state p) (thread_list p) (thread_count p) (ioctx p) (fds p)
  (p_sigq p) (ctty p) (p_flags p) (pid p) (pgid p) (parent p) (first_child p) (next_child p) (exit_status p).
Definition pr_set_pid x (p : process) := mk_process (space p) (proc_state p) (thread_list p) (thread_count p) (ioctx p) (fds p)
  (p_sigq p) (ctty p) (p_flags p) x (pgid p) (parent p) (first_child p) (next_child p) (exit_status p).

Section process_ops.
Context {W : Type} `{Kernel W}.
Abbreviation K := (cmd (tstate W)).
Context (context_enter_addr : Z) (junk_thread : thread) (junk_process : process).

Definition self (me : Z) : K Z := at_cpu cpu_thread me.
Definition self_proc (me : Z) : K Z := t ← self me; x ← get_thread t; mret (t_proc x).
(** Walks over the children and over the threads are bounded by the processes. *)
Definition proc_fuel : K nat := cgets (fun s => S (size (procs s))).

Definition alloc_thread : K Z :=
  p ← on_world (k_kmalloc SIZEOF_THREAD);
  (if nonnull p then cmodify (fun s => ts_threads (<[p := junk_thread]> (threads s)) s) else mret tt);; mret p.
Definition alloc_process : K Z :=
  p ← on_world (k_kmalloc SIZEOF_PROCESS);
  (if nonnull p then cmodify (fun s => ts_procs (<[p := junk_process]> (procs s)) s) else mret tt);; mret p.

(** ** Identities *)
Definition process_alloc_pid (is_user : bool) : K Z :=
  k ← cgets last_kernel_pid;
  u ← cgets last_user_pid;
  if is_user then cmodify (ts_pids k (i32 (u + 1)));; mret (i32 (u + 1))
  else cmodify (ts_pids (i32 (k + 1)) u);; mret (- i32 (k + 1)).

Fixpoint find_pid (l : list Z) (n : Z) : K Z :=
  match l with
  | [] => mret 0
  | p :: l => x ← get_proc p; if pid x =? n then mret p else find_pid l n
  end.
Definition process_find (n : Z) : K Z := l ← cgets proc_all; find_pid l n.

Definition process_first_thread (proc : Z) : K Z :=
  cassert (nonnull proc);;
  p ← get_proc proc;
  cassert (bool_decide (thread_list p <> []) && nonnull (thread_count p));;
  mret (hd_or 0 (thread_list p)).

Fixpoint child_pid (fuel : nat) (p n : Z) : K Z :=
  if negb (nonnull p) then mret 0 else
  match fuel with
  | O => cdiverged
  | S fuel => x ← get_proc p; if pid x =? n then mret p else child_pid fuel (next_child x) n
  end.
Definition process_child (of_ n : Z) : K Z :=
  p ← get_proc of_; f ← proc_fuel; child_pid f (first_child p) n.

(** The loop of [process_unchild]: [p] is the sibling before [c]. *)
Fixpoint unchild_from (fuel : nat) (proc par p c : Z) : K bool :=
  if negb (nonnull c) then mret false else
  match fuel with
  | O => cdiverged
  | S fuel =>
      x ← get_proc c;
      if bool_decide (c = proc) then
        (if nonnull p then upd_proc p (pr_set_next (next_child x)) else upd_proc par (pr_set_first (next_child x)));;
        mret true
      else unchild_from fuel proc par c (next_child x)
  end.
Definition process_unchild (proc : Z) : K unit :=
  x ← get_proc proc;
  cassert (nonnull (parent x));;
  par ← get_proc (parent x);
  f ← proc_fuel;
  found ← unchild_from f proc (parent x) 0 (first_child par);
  cassert found.

(** ** File descriptors: the mask 18 is the octal 0022. *)
Definition empty_fds : list Z := replicate (Z.to_nat THREAD_MAX_FDS) 0.
Definition process_ioctx_empty (proc : Z) : K unit :=
  upd_proc proc (fun p => pr_set_fds empty_fds (pr_set_ioctx (mk_ioctx 0 18 0 0) p)).

Fixpoint dup_fds (l : list Z) : cmd W (list Z) :=
  match l with
  | [] => mret []
  | f :: l => g ← (if nonnull f then k_ofile_dup f else mret 0); r ← dup_fds l; mret (g :: r)
  end.
Definition process_ioctx_fork (dst src : Z) : K unit :=
  process_ioctx_empty dst;;
  s ← get_proc src;
  upd_proc dst (pr_set_ioctx (ioctx s));;
  l ← on_world (dup_fds (fds s));
  upd_proc dst (pr_set_fds l).

(** ** Creation *)
Definition process_init_thread (proc entry arg : Z) (user : bool) : K Z :=
  cmodify (fun s => ts_notifies (<[NPid proc := thread_wait_io_init]> (notifies s)) s);;
  upd_proc proc (pr_set_flags (if user then 0 else THREAD_KERNEL));;
  sp ← (if user then
          sp ← on_world k_pool_alloc;
          on_world (k_space_clone sp mm_kernel MM_CLONE_FLG_KERNEL);; mret sp
        else mret mm_kernel);
  upd_proc proc (pr_set_space sp);;
  main_thread ← alloc_thread;
  cassert (nonnull main_thread);;
  upd_thread main_thread (th_set_proc proc);;
  upd_proc proc (fun p => pr_set_threads [] (thread_count p) p);;
  res ← thread_init context_enter_addr main_thread entry arg (if user then THR_INIT_USER else 0);
  cassert (res =? 0);;
  process_ioctx_empty proc;;
  upd_proc proc (fun p => pr_set_threads (main_thread :: thread_list p) 1 p);;
  upd_proc proc (fun p => pr_set_pgid (-1) (pr_set_next 0 (pr_set_first 0 (pr_set_parent 0 p))));;
  n ← process_alloc_pid user;
  upd_proc proc (fun p => pr_set_state PROC_ACTIVE (pr_set_sigq 0 (pr_set_ctty 0 (pr_set_pid n p))));;
  cmodify (fun s => ts_proc_all (proc :: proc_all s) s);;
  on_world (k_add_entry n);;
  mret 0.

Definition task_start (entry arg : Z) : K Z :=
  proc ← alloc_process;
  if negb (nonnull proc) then mret 0 else
  res ← process_init_thread proc entry arg false;
  if negb (res =? 0) then
    on_world (k_kfree proc);; cmodify (fun s => ts_procs (delete proc (procs s)) s);; mret 0
  else
    t ← process_first_thread proc;
    sched_queue t;;
    mret proc.

Definition sys_clone (me fn stack flags arg : Z) : K Z :=
  self_thr ← self me;
  st ← get_thread self_thr;
  let proc := t_proc st in
  cassert (nonnull proc);;
  thr ← alloc_thread;
  cassert (nonnull thr);;
  upd_thread thr (fun _ => th_upd_data (td_set_ustack stack 0) (th_set_proc proc zero_thread));;
  res ← thread_init context_enter_addr thr fn arg (Z.lor THR_INIT_USER THR_INIT_STACK_SET);
  if res <? 0 then mret res else
  upd_thread thr (fun t => th_set_signal (signal_entry st) (signal_stack_base t) (signal_stack_size t) t);;
  upd_proc proc (fun p => pr_set_threads (thr :: thread_list p) (u64 (thread_count p + 1)) p);;
  sched_queue thr;;
  mret 0.

(** The registers the system call entry saved. *)
Record sys_fork_frame := mk_fork_frame { ff_caller : gregs; ff_callee : sregs; ff_rsp : Z; ff_rflags : Z; ff_rip : Z }.

(** The words [sys_fork] pushes on the child's kernel stack, in order. *)
Definition fork_words (f : sys_fork_frame) : list Z :=
  let g := ff_caller f in
  let s := ff_callee f in
  [0x1B; ff_rsp f; ff_rflags f; 0x23; ff_rip f] ++
  [g_r11 g; g_r10 g; g_r9 g; g_r8 g; g_rcx g; g_rdx g; g_rsi g; g_rdi g; 0] ++
  [context_enter_addr] ++
  [g_r15 s; g_r14 s; g_r13 s; g_r12 s; g_rbp s; g_rbx s].

Definition sys_fork (me : Z) (frame : sys_fork_frame) : K Z :=
  src_thread ← self me;
  cassert (nonnull src_thread);;
  st ← get_thread src_thread;
  let src := t_proc st in
  cassert (nonnull src);;
  sp ← get_proc src;
  if flagged (p_flags sp) THREAD_KERNEL then cpanic else
  if negb (thread_count sp =? 1) then cpanic else
  dst ← alloc_process;
  cassert (nonnull dst);;
  dst_thread ← alloc_thread;
  cassert (nonnull dst_thread);;
  upd_proc dst (pr_set_threads [dst_thread] 1);;
  upd_thread dst_thread (th_set_proc dst);;
  sp' ← on_world k_pool_alloc;
  upd_proc dst (pr_set_space sp');;
  on_world (k_space_fork sp' (space sp) (Z.lor MM_CLONE_FLG_KERNEL MM_CLONE_FLG_USER));;
  cmodify (fun s => ts_notifies (<[NPid dst := thread_wait_io_init]> (notifies s)) s);;
  upd_proc dst (pr_set_flags 0);;
  process_ioctx_fork dst src;;
  sp ← get_proc src;
  upd_proc dst (fun p => pr_set_next (first_child sp) (pr_set_parent src p));;
  upd_proc src (pr_set_first dst);;
  upd_proc dst (pr_set_first 0);;
  n ← process_alloc_pid true;
  upd_proc dst (fun p => pr_set_ctty (ctty sp) (pr_set_state PROC_ACTIVE (pr_set_sigq 0 (pr_set_pgid (pgid sp) (pr_set_pid n p)))));;
  stack_pages ← on_world (k_alloc_contiguous THREAD_KSTACK_PAGES PU_KERNEL);
  cassert (bool_decide (stack_pages <> MM_NADDR));;
  cmodify (fun s => ts_notifies (<[NSleep dst_thread := thread_wait_io_init]> (notifies s)) s);;
  let base := MM_VIRTUALIZE stack_pages in
  let size := MM_PAGE_SIZE * THREAD_KSTACK_PAGES in
  let top := u64 (base + size) in
  upd_thread dst_thread (fun t => th_set_sigq 0 (th_set_flags 0 (th_upd_data (td_set_kstack base size top)
    (th_set_next 0 (th_set_prev 0 (th_set_wait [] t))))));;
  upd_thread dst_thread (fun t => th_upd_data (td_set_cr3 (MM_PHYS sp'))
    (th_set_signal (signal_entry st) (signal_stack_base st) (signal_stack_size st)
      (th_upd_data (td_set_ustack (rsp3_base (data st)) (rsp3_size (data st))) t)));;
  fx ← on_world (k_kmalloc FXSAVE_REGION);
  upd_thread dst_thread (th_upd_data (td_set_fxsave fx));;
  cassert (nonnull fx);;
  cassert (nonnull (fxsave (data st)));;
  (if flagged (t_flags st) THREAD_FPU_SAVED then on_world (k_memcpy fx (fxsave (data st)) FXSAVE_REGION) else mret tt);;
  upd_thread dst_thread (th_set_state THREAD_READY);;
  cassert (flagged (ff_rflags frame) 0x200);;
  sp0 ← on_world (push_all (fork_words frame) top);
  upd_thread dst_thread (th_upd_data (td_set_rsp0 sp0));;
  cmodify (fun s => ts_proc_all (dst :: proc_all s) s);;
  on_world (k_add_entry n);;
  sched_queue dst_thread;;
  mret n.

(** ** Signals to processes *)

(** [process_signal] hands the signal to the first thread that has not stopped. *)
Fixpoint first_live (l : list Z) : K (option Z) :=
  match l with
  | [] => mret None
  | t :: l => x ← get_thread t; if bool_decide (t_state x <> THREAD_STOPPED) then mret (Some t) else first_live l
  end.

Definition process_signal (me proc signum : Z) : K (option (sig_res unq_res)) :=
  cassert (negb (signal_is_exception signum));;
  p ← get_proc proc;
  let suspended := bool_decide (proc_state p = PROC_SUSPENDED) in
  (if suspended && (signum =? SIGCONT) then upd_proc proc (pr_set_state PROC_ACTIVE) else mret tt);;
  if suspended && negb (signum =? SIGKILL) && negb (signum =? SIGCONT) then mret None else
  t ← first_live (thread_list p);
  match t with
  | Some t => thread_signal me t signum
  | None => cpanic
  end.

(** A signal the sender handles itself may suspend it or run its handler: the loop
    over the other processes then goes on later, from [rest]. *)
Inductive kill_res :=
  | KRet (r : Z)
  | KSelf (r : sig_res unq_res) (rest : list Z) (sent : Z).

Definition goes_on (r : option (sig_res unq_res)) : bool :=
  match r with None | Some SigNone | Some SigHandled => true | _ => false end.
Definition self_res (r : option (sig_res unq_res)) : sig_res unq_res := match r with Some r => r | None => SigNone end.

Fixpoint signal_pgid_from (me : Z) (l : list Z) (group signum ret : Z) : K kill_res :=
  match l with
  | [] => mret (KRet (if ret =? 0 then - ECHILD else ret))
  | p :: l =>
      x ← get_proc p;
      if bool_decide (proc_state x <> PROC_FINISHED) && (pgid x =? group) then
        r ← process_signal me p signum;
        if goes_on r then signal_pgid_from me l group signum (ret + 1) else mret (KSelf (self_res r) l (ret + 1))
      else signal_pgid_from me l group signum ret
  end.
Definition process_signal_pgid (me group signum : Z) : K kill_res :=
  l ← cgets proc_all; signal_pgid_from me l group signum 0.

Fixpoint signal_children_from (fuel : nat) (me proc chld signum ret : Z) : K kill_res :=
  if negb (nonnull chld) then mret (KRet (if ret =? 0 then - ECHILD else 0)) else
  match fuel with
  | O => cdiverged
  | S fuel =>
      p ← get_proc proc;
      x ← get_proc chld;
      if bool_decide (proc_state p <> PROC_FINISHED) then
        r ← process_signal me chld signum;
        x ← get_proc chld;
        if goes_on r then signal_children_from fuel me proc (next_child x) signum (ret + 1)
        else mret (KSelf (self_res r) [next_child x] (ret + 1))
      else signal_children_from fuel me proc (next_child x) signum ret
  end.
Definition process_signal_children (me proc signum : Z) : K kill_res :=
  p ← get_proc proc; f ← proc_fuel; signal_children_from f me proc (first_child p) signum 0.

Definition sys_kill (me n signum : Z) : K kill_res :=
  if n <? -1 then process_signal_pgid me (- n) signum else
  if n =? -1 then p ← self_proc me; process_signal_children me p signum else
  proc ← (if 0 <? n then process_find n else self_proc me);
  if negb (nonnull proc) then mret (KRet (- ESRCH)) else
  p ← get_proc proc;
  if bool_decide (proc_state p = PROC_FINISHED) then mret (KRet (- ESRCH)) else
  if signum =? 0 then mret (KRet 0) else
  if (signum <=? 0) || (64 <=? signum) then mret (KRet (- EINVAL)) else
  r ← process_signal me proc signum;
  if goes_on r then mret (KRet 0) else mret (KSelf (self_res r) [] 0).

(** ** Identities of the caller *)
Definition sys_getpid (me : Z) : K Z :=
  t ← self me;
  cassert (nonnull t);;
  x ← get_thread t;
  cassert (nonnull (t_proc x));;
  p ← get_proc (t_proc x);
  mret (pid p).

Definition sys_getppid (me : Z) : K Z :=
  t ← self me;
  cassert (nonnull t);;
  x ← get_thread t;
  cassert (nonnull (t_proc x));;
  p ← get_proc (t_proc x);
  if negb (nonnull (parent p)) then cassert (pid p =? 1);; mret 1
  else q ← get_proc (parent p); mret (pid q).

Definition sys_getpgid (me n : Z) : K Z :=
  proc ← (if n =? 0 then self_proc me else process_find n);
  if negb (nonnull proc) then mret (- ESRCH) else
  p ← get_proc proc; mret (pgid p).

Definition sys_setpgid (me n pgrp : Z) : K Z :=
  proc ← self_proc me;
  p ← get_proc proc;
  if (n =? 0) && (pgrp =? 0) then upd_proc proc (pr_set_pgid (pid p));; mret 0 else
  if n =? pid p then upd_proc proc (pr_set_pgid pgrp);; mret 0 else
  chld ← process_child proc n;
  if negb (nonnull chld) then mret (- ESRCH) else
  c ← get_proc chld;
  if negb (pgid c =? pgid p) then mret (- EACCES) else
  upd_proc chld (pr_set_pgid pgrp);; mret 0.

Definition with_uid u (c : vfs_ioctx) := mk_ioctx (cwd_vnode c) (ctx_umask c) u (ctx_gid c).
Definition with_gid g (c : vfs_ioctx) := mk_ioctx (cwd_vnode c) (ctx_umask c) (ctx_uid c) g.

Definition sys_setuid (me uid : Z) : K Z :=
  proc ← self_proc me;
  cassert (nonnull proc);;
  p ← get_proc proc;
  if nonnull (ctx_uid (ioctx p)) then mret (- EACCES) else
  upd_proc proc (fun p => pr_set_ioctx (with_uid uid (ioctx p)) p);; mret 0.

Definition sys_setgid (me gid : Z) : K Z :=
  proc ← self_proc me;
  cassert (nonnull proc);;
  p ← get_proc proc;
  if nonnull (ctx_gid (ioctx p)) && nonnull (ctx_uid (ioctx p)) then mret (- EACCES) else
  upd_proc proc (fun p => pr_set_ioctx (with_gid gid (ioctx p)) p);; mret 0.

Definition sys_getuid (me : Z) : K Z := proc ← self_proc me; p ← get_proc proc; mret (ctx_uid (ioctx p)).
Definition sys_getgid (me : Z) : K Z := proc ← self_proc me; p ← get_proc proc; mret (ctx_gid (ioctx p)).

(** The descriptors of [l] that are open on the terminal [tty] are closed. *)
Fixpoint detach_fds (ctx : vfs_ioctx) (tty : Z) (l : list Z) : cmd W (list Z) :=
  match l with
  | [] => mret []
  | f :: l =>
      f' ← (if nonnull f then
              v ← k_ofile_vnode f;
              if v =? tty then k_ofile_close ctx f;; mret 0 else mret f
            else mret 0);
      r ← detach_fds ctx tty l; mret (f' :: r)
  end.

Definition sys_setsid (me : Z) : K Z :=
  proc ← self_proc me;
  cassert (nonnull proc);;
  p ← get_proc proc;
  (if nonnull (ctty p) then
     l ← on_world (detach_fds (ioctx p) (ctty p) (fds p));
     upd_proc proc (fun p => pr_set_ctty 0 (pr_set_fds l p))
   else mret tt);;
  mret (pid p).

(** ** The end of a process *)

(** Give the children from [chld] on to process 1. *)
Fixpoint reparent (fuel : nat) (chld : Z) : K unit :=
  if negb (nonnull chld) then mret tt else
  match fuel with
  | O => cdiverged
  | S fuel =>
      init ← process_find 1;
      cassert (nonnull init);;
      c ← get_proc chld;
      i ← get_proc init;
      upd_proc chld (pr_set_parent init);;
      upd_proc chld (pr_set_next (first_child i));;
      upd_proc init (pr_set_first chld);;
      reparent fuel (next_child c)
  end.

Definition process_cleanup (proc : Z) : K unit :=
  p ← get_proc proc;
  on_world (k_del_entry (pid p));;
  f ← proc_fuel;
  reparent f (first_child p);;
  upd_proc proc (pr_set_first 0);;
  p ← get_proc proc;
  cassert (bool_decide (proc_state p = PROC_FINISHED));;
  cassert (thread_count p =? 1);;
  upd_proc proc (fun p => pr_set_flags (Z.lor (p_flags p) PROC_EMPTY) p);;
  on_world (k_space_release (space p)).

Fixpoint free_kstack (n : nat) (base i : Z) : cmd W unit :=
  match n with
  | O => mret tt
  | S n => k_free_page (MM_PHYS (u64 (i * MM_PAGE_SIZE + base)));; free_kstack n base (i + 1)
  end.

Definition process_free (proc : Z) : K unit :=
  p ← get_proc proc;
  cassert (thread_count p =? 1);;
  process_cleanup proc;;
  p ← get_proc proc;
  cassert (bool_decide (proc_state p = PROC_FINISHED));;
  let thr := hd_or 0 (thread_list p) in
  cassert (nonnull thr);;
  t ← get_thread thr;
  on_world (free_kstack (Z.to_nat (rsp0_size (data t) / MM_PAGE_SIZE)) (rsp0_base (data t)) 0);;
  (if negb (space p =? mm_kernel) then
     c ← on_world k_read_cr3;
     cassert (negb (MM_VIRTUALIZE c =? space p));;
     on_world (k_space_free (space p))
   else mret tt);;
  on_world (k_kfree (fxsave (data t)));;
  cmodify (fun s => ts_notifies (delete (NSleep thr) (notifies s)) (ts_threads (delete thr (threads s)) s));;
  on_world (k_kfree thr);;
  cmodify (fun s => ts_notifies (delete (NPid proc) (notifies s)) (ts_procs (delete proc (procs s)) s));;
  on_world (k_kfree proc).

Fixpoint close_fds (ctx : vfs_ioctx) (l : list Z) : cmd W unit :=
  match l with
  | [] => mret tt
  | f :: l => (if nonnull f then k_ofile_close ctx f else mret tt);; close_fds ctx l
  end.

(** [sys_exit] ends in [sched_unqueue] and does not return; its result is where the
    processor went. *)
Definition sys_exit (me status : Z) : K unq_res :=
  thr ← self me;
  t ← get_thread thr;
  let proc := t_proc t in
  p ← get_proc proc;
  thread_wait_io_clear thr;;
  if negb (thread_count p =? 1) then
    upd_proc proc (fun p => pr_set_threads (thread_list p) (u64 (thread_count p - 1)) p);;
    sched_unqueue unq_fuel me thr THREAD_STOPPED
  else
    on_world (close_fds (ioctx p) (fds p));;
    upd_proc proc (fun p => pr_set_exit status (pr_set_fds empty_fds p));;
    n ← get_notify (NPid proc);
    (if bool_decide (n_owner n <> None) then notify_io (NPid proc) else mret tt);;
    upd_proc proc (pr_set_state PROC_FINISHED);;
    sched_unqueue unq_fuel me thr THREAD_STOPPED.

(** ** Waiting for children *)

(** [thread_wait_io]: an event was there, or the thread sleeps in [sched_unqueue]. *)
Definition thread_wait_io (me thr : Z) (n : nref) : K (unit + unq_res) :=
  r ← on_notify n (thread_wait_io_enter thr);
  match r with
  | Done _ => mret (inl tt)
  | Sleep => w ← sched_unqueue unq_fuel me thr THREAD_WAITING; mret (inr w)
  end.

Definition disown (n : nref) : K unit := on_notify n (x ← cget; cput (mk_notify None (n_value x))).

Definition wait_check_pid (chld : process) (flags : Z) : bool :=
  bool_decide (proc_state chld = PROC_FINISHED) ||
  flagged flags WSTOPPED && bool_decide (proc_state chld = PROC_SUSPENDED).

(** Does the child with group [g] count for [waitpid(n, ...)]? *)
Definition wait_selects (n g : Z) : bool := (n =? -1) || (g =? - n).

Fixpoint wait_check_pgrp (fuel : nat) (chld n flags : Z) : K Z :=
  if negb (nonnull chld) then mret 0 else
  match fuel with
  | O => cdiverged
  | S fuel =>
      c ← get_proc chld;
      if wait_selects n (pgid c) && wait_check_pid c flags then mret chld
      else wait_check_pgrp fuel (next_child c) n flags
  end.

Fixpoint any_child (fuel : nat) (chld n : Z) : K bool :=
  if negb (nonnull chld) then mret false else
  match fuel with
  | O => cdiverged
  | S fuel => c ← get_proc chld; r ← any_child fuel (next_child c) n; mret ((pgid c =? - n) || r)
  end.

Fixpoint wait_add_all (fuel : nat) (thr chld n : Z) : K unit :=
  if negb (nonnull chld) then mret tt else
  match fuel with
  | O => cdiverged
  | S fuel =>
      c ← get_proc chld;
      (if wait_selects n (pgid c) then thread_wait_io_add thr (NPid chld) else mret tt);;
      wait_add_all fuel thr (next_child c) n
  end.

(** The child is reported, and buried if it has finished. *)
Definition wait_report (chld : Z) : K (Z * option Z) :=
  c ← get_proc chld;
  if bool_decide (proc_state c = PROC_FINISHED) then
    process_unchild chld;;
    cmodify (fun s => ts_proc_all (filter (fun p => p <> chld) (proc_all s)) s);;
    process_free chld;;
    mret (pid c, Some (exit_status c))
  else mret (pid c, if bool_decide (proc_state c = PROC_SUSPENDED) then Some 127 else None).

Inductive wait_out := WaitErr (e : Z) | WaitDone (n : Z) (status : option Z) | WaitSleep (chld : Z) (w : unq_res)
  | WaitSignal (r : sig_res unq_res).

(** The loop of [sys_waitpid]; [chld] is the child looked for when [n > 0]. *)
Fixpoint waitpid_loop (fuel : nat) (me thr proc n flags chld : Z) : K wait_out :=
  match fuel with
  | O => cdiverged
  | S fuel =>
      f ← proc_fuel;
      if 0 <? n then
        c ← get_proc chld;
        if wait_check_pid c flags then '(m, st) ← wait_report chld; mret (WaitDone m st) else
        r ← thread_wait_io me thr (NPid chld);
        match r with
        | inl _ => waitpid_loop fuel me thr proc n flags chld
        | inr w => mret (WaitSleep chld w)
        end
      else
        p ← get_proc proc;
        ready ← wait_check_pgrp f (first_child p) n flags;
        if nonnull ready then '(m, st) ← wait_report ready; mret (WaitDone m st) else
        wait_add_all f thr (first_child p) n;;
        r ← thread_wait_io_any me thr;
        match r with
        | inl _ => thread_wait_io_clear thr;; waitpid_loop fuel me thr proc n flags chld
        | inr w => mret (WaitSleep 0 w)
        end
  end.

(** An event that is already there sends the loop round once more per event. *)
Definition wait_fuel : nat := 64.

Definition sys_waitpid (me n flags : Z) : K wait_out :=
  thr ← self me;
  cassert (nonnull thr);;
  t ← get_thread thr;
  let proc := t_proc t in
  cassert (nonnull proc);;
  p ← get_proc proc;
  if 0 <? n then
    chld ← process_child proc n;
    if nonnull chld then waitpid_loop wait_fuel me thr proc n flags chld else mret (WaitErr (- ECHILD))
  else if n <? -1 then
    f ← proc_fuel;
    any ← any_child f (first_child p) n;
    if (any : bool) then waitpid_loop wait_fuel me thr proc n flags 0 else mret (WaitErr (- ECHILD))
  else if n =? -1 then waitpid_loop wait_fuel me thr proc n flags 0
  else cpanic.

(** The thread runs again inside [sys_waitpid], with or without a signal; a handler or
    a stop comes before the [-EINTR]. *)
Definition waitpid_resume (me n flags chld : Z) : K wait_out :=
  thr ← self me;
  t ← get_thread thr;
  (if 0 <? n then disown (NPid chld) else mret tt);;
  r ← thread_check_signal (sched_unqueue unq_fuel me) me thr;
  match r with
  | SigNone =>
      (if 0 <? n then waitpid_loop wait_fuel me thr (t_proc t) n flags chld
       else
         a ← thread_wait_io_any me thr;
         match a with
         | inl _ => thread_wait_io_clear thr;; waitpid_loop wait_fuel me thr (t_proc t) n flags chld
         | inr w => mret (WaitSleep 0 w)
         end)
  | SigHandled => (if 0 <? n then mret tt else thread_wait_io_clear thr);; mret (WaitErr (- EINTR))
  | _ => mret (WaitSignal r)
  end.
End process_ops.
