(* ===== verification/ProcessInv.v ===== *)
(** * Properties of threads and processes

    Signals to stopped processes, process identifiers, the family tree, the burial of
    finished children, and the first instructions of new and forked threads. *)

From S2P Require Import Prelude Defs Wait Phys Vnode Mmap Paging Kernel Task ListHead Sched SchedInv Thread Process.

(** [tlook] reads a thread, process or notifier out of an updated state. *)
Ltac tsimpl :=
  cbn [ts_threads ts_procs ts_notifies ts_heads ts_sizes ts_clk ts_current ts_proc_all ts_pids ts_world
       threads procs notifies queue_heads queue_sizes sched_ncpus clk cpu_thread proc_all last_kernel_pid last_user_pid world].
Ltac tlook :=
  tsimpl; repeat first [rewrite lookup_insert_eq | rewrite lookup_insert_ne by done]; first [reflexivity | eassumption].
Ltac tget :=
  first [ erewrite bind_Ret by (apply get_thread_run; tlook)
        | erewrite bind_Ret by (apply get_proc_run; tlook)
        | erewrite bind_Ret by (apply get_notify_run; tlook)
        | erewrite bind_Ret by (apply upd_thread_run; tlook)
        | erewrite bind_Ret by (apply upd_proc_run; tlook)
        | erewrite bind_Ret by reflexivity ]; cbn beta iota.

Section signals.
Context {W : Type} `{Kernel W}.
Implicit Types s : tstate W.

Lemma first_live_hd s t l x : threads s !! t = Some x -> t_state x <> THREAD_STOPPED ->
  first_live (t :: l) s = Ret (Some t, s).
Proof. intros Hx Hs. cbn [first_live]. tget. by rewrite bool_decide_eq_true_2. Qed.

Lemma first_live_none s l : (forall t, t ∈ l -> exists x, threads s !! t = Some x /\ t_state x = THREAD_STOPPED) ->
  first_live l s = Ret (None, s).
Proof.
  induction l as [|t l IH]; intros Hl; [done|]. cbn [first_live]. destruct (Hl t ltac:(by left)) as (x & Hx & Hs).
  tget. rewrite bool_decide_eq_false_2 by (rewrite Hs; intros X; by apply X). apply IH. intros u Hu. apply Hl. by right.
Qed.

(** Queueing a thread of a suspended process panics. *)
Lemma sched_queue_suspended s t x p : threads s !! t = Some x -> t_proc x <> 0 -> procs s !! t_proc x = Some p ->
  proc_state p = PROC_SUSPENDED -> sched_queue t s = Panic.
Proof.
  intros Hx H0 Hp Hs. unfold sched_queue. tget. rewrite (nonnull_true _ H0). apply bind_Panic.
  tget. by rewrite bool_decide_eq_true_2.
Qed.
End signals.

(** A stopped process cannot be killed: although [process_signal] lets [SIGKILL]
    through to a suspended process, delivering it queues a thread of a process that
    is still marked suspended, which panics the kernel. *)
Theorem kill_suspended_panics {W} `{Kernel W} (s : tstate W) me proc p t x l n self :
  procs s !! proc = Some p -> proc_state p = PROC_SUSPENDED -> thread_list p = t :: l -> threads s !! t = Some x ->
  t_proc x = proc -> proc <> 0 -> t_state x = THREAD_WAITING -> notifies s !! NSleep t = Some n -> n_owner n = None ->
  0 <= me -> cpu_thread s !! Z.to_nat me = Some self -> self <> t ->
  process_signal me proc SIGKILL s = Panic.
Proof.
  intros Hp Hs Hl Hx Ht H0 Hw Hn Ho Hme Hself Hne. unfold process_signal. tget. tget.
  rewrite (bool_decide_eq_true_2 (proc_state p = PROC_SUSPENDED)) by done. cbn [andb].
  change (SIGKILL =? SIGCONT) with false. change (SIGKILL =? SIGKILL) with true. cbn [andb negb]. tget.
  rewrite Hl. rewrite (bind_Ret _ _ _ _ _ (first_live_hd s t l x Hx ltac:(by rewrite Hw))). unfold thread_signal. tget. tget.
  rewrite (bool_decide_eq_false_2 (n_owner n <> None)) by (rewrite Ho; intros X; by apply X). tget. tget.
  rewrite (bind_Ret _ _ _ _ _ (at_cpu_run s cpu_thread me self Hme Hself)).
  rewrite (bool_decide_eq_false_2 (t = self)) by (intros ->; by apply Hne). rewrite andb_false_r.
  change (signal_is_exception SIGKILL) with false. rewrite Ht. tget. apply bind_Panic.
  eapply sched_queue_suspended; [tlook|by rewrite Ht|rewrite Ht; tlook|done].
Qed.

(** ** A small family

    Process 100 (pid 1, thread 10) runs on processor 0; its children are 101 (pid 2,
    thread 11, suspended) and 102 (pid 3, thread 12, finished); 103 (pid 4, thread 13)
    is a child of 102. *)
Definition fam_thread (p : Z) (st : thread_state) (c pv nx : Z) : thread :=
  mk_thread (mk_tdata 0 0 4096 0 8192 16384 0 0 4096) st 0 [] p 1 1 0 0 0 c pv nx.
Definition fam_process (n : Z) (st : process_state) (t par first next : Z) : process :=
  mk_process 8192 st [t] 1 (mk_ioctx 0 18 0 0) empty_fds 0 0 0 n 1 par first next 7.
Definition fam_threads : gmap Z thread :=
  {[ -1 := mk_idle 0; -2 := mk_idle 1; -3 := mk_idle 2; -4 := mk_idle 3;
     10 := fam_thread 100 THREAD_RUNNING 0 10 10; 11 := fam_thread 101 THREAD_WAITING (-1) 0 0;
     12 := fam_thread 102 THREAD_STOPPED (-1) 0 0; 13 := fam_thread 103 THREAD_WAITING (-1) 0 0 ]}.
Definition fam_procs : gmap Z process :=
  {[ 100 := fam_process 1 PROC_ACTIVE 10 0 101 0; 101 := fam_process 2 PROC_SUSPENDED 11 100 0 102;
     102 := fam_process 3 PROC_FINISHED 12 100 103 0; 103 := fam_process 4 PROC_ACTIVE 13 102 0 0 ]}.
Definition fam_notifies : gmap nref io_notify :=
  {[ NPid 100 := mk_notify None 0; NPid 101 := mk_notify None 0; NPid 102 := mk_notify None 0; NPid 103 := mk_notify None 0;
     NSleep 10 := mk_notify None 0; NSleep 11 := mk_notify None 0; NSleep 12 := mk_notify None 0; NSleep 13 := mk_notify None 0 ]}.
Definition family : tstate bare :=
  mk_tstate bare fam_threads fam_procs fam_notifies [10; 0; 0; 0] [1; 0; 0; 0] 1 0 [10; -2; -3; -4]
    [103; 102; 101; 100] 0 4 (mk_bare 0x100000 ∅ ∅).

Lemma kill_suspended_panics_witness : process_signal 0 101 SIGKILL family = Panic.
Proof.
  eapply (kill_suspended_panics family 0 101); first [reflexivity|done].
Defined.

(** [kill(-1, sig)] panics as soon as the caller's newest child has finished and was
    not waited for: [process_signal_children] asks for the state of the parent where
    it means that of the child, and a process whose threads have all stopped cannot
    take a signal. *)
Theorem kill_children_zombie_panics {W} `{Kernel W} (s : tstate W) me signum t x p c :
  0 <= me -> cpu_thread s !! Z.to_nat me = Some t -> threads s !! t = Some x -> procs s !! t_proc x = Some p ->
  proc_state p = PROC_ACTIVE -> first_child p <> 0 -> procs s !! first_child p = Some c -> proc_state c = PROC_FINISHED ->
  (forall u, u ∈ thread_list c -> exists y, threads s !! u = Some y /\ t_state y = THREAD_STOPPED) ->
  sys_kill me (-1) signum s = Panic.
Proof.
  intros Hme Ht Hx Hp Hs H0 Hc Hf Hstop. unfold sys_kill.
  change (-1 <? -1) with false. change (-1 =? -1) with true. cbn iota. unfold self_proc, self.
  erewrite bind_Ret; [|rewrite (bind_Ret _ _ _ _ _ (at_cpu_run s cpu_thread me t Hme Ht)); tget; reflexivity].
  unfold process_signal_children. tget. unfold proc_fuel. tget. cbn [signal_children_from].
  rewrite (nonnull_true _ H0). cbn [negb]. tget. tget. rewrite bool_decide_eq_true_2 by (rewrite Hs; done).
  apply bind_Panic. unfold process_signal. destruct (signal_is_exception signum); [by apply bind_Panic|]. tget. tget.
  rewrite Hf, (bool_decide_eq_false_2 (PROC_FINISHED = PROC_SUSPENDED)) by done. cbn [andb]. tget.
  by rewrite (bind_Ret _ _ _ _ _ (first_live_none s _ Hstop)).
Qed.

Definition family_zombie : tstate bare :=
  ts_procs (<[100 := fam_process 1 PROC_ACTIVE 10 0 102 0]> fam_procs) family.

Lemma kill_children_zombie_panics_witness : sys_kill 0 (-1) SIGTERM family_zombie = Panic.
Proof.
  eapply (kill_children_zombie_panics family_zombie 0 SIGTERM); try first [reflexivity|done].
  intros u ->%list_elem_of_singleton. eexists. split; [reflexivity|done].
Defined.

(** ** Continuing a stopped process *)
Section continue.
Context {W : Type} `{Kernel W}.

Lemma sched_ok_procs (s : tstate W) qs m : sched_ok s qs -> sched_ok (ts_procs m s) qs.
Proof. intros HS. by destruct HS; split. Qed.
End continue.

(** [SIGCONT] makes a suspended process active again, marks the signal pending and
    puts the thread that slept in the stop loop back into a run queue, ready. *)
Theorem sigcont_resumes {W} `{Kernel W} (s : tstate W) qs me proc p t x l n self :
  sched_ok s qs -> procs s !! proc = Some p -> proc_state p = PROC_SUSPENDED -> thread_list p = t :: l ->
  threads s !! t = Some x -> t_proc x = proc -> t_state x = THREAD_WAITING -> ~ queued qs t -> ~ is_idle t ->
  notifies s !! NSleep t = Some n -> n_owner n = None -> 0 <= clk s ->
  0 <= me -> cpu_thread s !! Z.to_nat me = Some self -> self <> t ->
  exists s' c q x' p', process_signal me proc SIGCONT s = Ret (None, s') /\
    qs !! c = Some q /\ sched_ok s' (<[c := q ++ [t]]> qs) /\
    threads s' !! t = Some x' /\ t_state x' = THREAD_READY /\
    procs s' !! proc = Some p' /\ proc_state p' = PROC_ACTIVE /\ Z.testbit (p_sigq p') (SIGCONT - 1) = true.
Proof.
  intros HS Hp Hs Hl Hx Ht Hw Hq Hid Hn Ho Hc Hme Hself Hne. unfold process_signal. tget. tget.
  rewrite (bool_decide_eq_true_2 (proc_state p = PROC_SUSPENDED)) by done. cbn [andb].
  change (SIGCONT =? SIGCONT) with true. change (SIGCONT =? SIGKILL) with false. cbn [andb negb]. tget.
  set (s1 := ts_procs _ s). rewrite Hl. rewrite (bind_Ret _ _ _ _ _ (first_live_hd s1 t l x Hx ltac:(by rewrite Hw))).
  unfold thread_signal. subst s1. tget. tget.
  rewrite (bool_decide_eq_false_2 (n_owner n <> None)) by (rewrite Ho; intros X; by apply X). tget. tget.
  erewrite bind_Ret by (eapply at_cpu_run; [exact Hme|exact Hself]).
  rewrite (bool_decide_eq_false_2 (t = self)) by (intros ->; by apply Hne). rewrite andb_false_r.
  change (signal_is_exception SIGCONT) with false. rewrite Ht. tget. tsimpl. rewrite insert_insert_eq.
  set (p' := pr_set_sigq _ _). set (s2 := ts_procs _ _).
  assert (sched_ok s2 qs) as HS2 by (unfold s2; by repeat apply sched_ok_procs).
  destruct (sched_queue_run s2 qs t x HS2 Hx Hq) as (c & q & k & m' & Hcq & _ & E & L & OK).
  - intros i ->. apply Hid. by exists i.
  - right. exists p'. rewrite Ht. subst s2. split; [apply lookup_insert_eq|done].
  - done.
  - rewrite (bind_Ret _ _ _ _ _ E). eexists _, c, q, _, p'. split; [reflexivity|]. split; [done|]. split; [exact OK|].
    split; [exact (proj1 L)|]. split; [done|]. split; [apply lookup_insert_eq|]. split; [done|].
    subst p'. cbn [pr_set_sigq pr_set_state p_sigq]. unfold xxx_signal_set. rewrite Z.lor_spec, Z.shiftl_spec by done.
    apply orb_true_r.
Qed.

Definition fam_queues : list (list Z) := [[10]; []; []; []].

Lemma fam_queued i q t : fam_queues !! i = Some q -> t ∈ q -> i = 0%nat /\ t = 10.
Proof. intros Hq Ht. destruct i as [|[|[|[|i]]]]; cbn in Hq; simplify_eq; demo_cases; by subst. Qed.

Lemma fam_lookup t x : fam_threads !! t = Some x -> (t, x) ∈ map_to_list fam_threads.
Proof. apply elem_of_map_to_list. Qed.

Lemma family_ok : sched_ok family fam_queues.
Proof.
  split; try done.
  - intros i q Hq. destruct i as [|[|[|[|i]]]]; cbn in Hq; simplify_eq; (split; [vm_compute; by repeat split| |]);
      try (repeat (apply list.NoDup_cons; split; [set_solver|]); apply NoDup_nil_2); set_solver.
  - intros i j q r t Hi Hj Ht Ht'. destruct (fam_queued _ _ _ Hi Ht), (fam_queued _ _ _ Hj Ht'); lia.
  - intros i q t x Hq Ht Hx. destruct (fam_queued _ _ _ Hq Ht) as [-> ->]. vm_compute in Hx. by injection Hx as <-.
  - intros t x Hx Hn. assert (t <> 10) as Ht by (intros ->; apply Hn; exists 0%nat, [10]; split; [done|set_solver]).
    clear Hn. change (fam_threads !! t = Some x) in Hx. apply fam_lookup in Hx.
    let l := eval vm_compute in (map_to_list fam_threads) in change (map_to_list fam_threads) with l in Hx.
    demo_cases; done.
  - intros i Hi. split; [destruct i as [|[|[|[|i]]]]; [by eexists..|unfold AMD64_MAX_SMP in Hi; lia]|].
    intros (k & q & Hq & Ht). destruct (fam_queued _ _ _ Hq Ht); unfold threads_idle in *; lia.
Qed.

Lemma fam_not_idle t : 0 < t -> ~ is_idle t.
Proof. intros Ht [i ->]. unfold threads_idle in Ht. lia. Qed.

Lemma fam_not_queued t : t <> 10 -> ~ queued fam_queues t.
Proof. intros Ht (i & q & Hq & Hin). by destruct (fam_queued _ _ _ Hq Hin). Qed.

Lemma sigcont_resumes_witness : exists s' c q x' p', process_signal 0 101 SIGCONT family = Ret (None, s') /\
  fam_queues !! c = Some q /\ sched_ok s' (<[c := q ++ [11]]> fam_queues) /\
  threads s' !! 11 = Some x' /\ t_state x' = THREAD_READY /\
  procs s' !! 101 = Some p' /\ proc_state p' = PROC_ACTIVE /\ Z.testbit (p_sigq p') (SIGCONT - 1) = true.
Proof.
  eapply (sigcont_resumes family fam_queues 0 101); try first [reflexivity|done|exact family_ok].
  - by apply fam_not_queued.
  - by apply fam_not_idle.
Defined.

(** ** Process identifiers *)

(** User processes have the identifiers 1, 2, ... up to [last_user_pid], kernel
    processes -1, -2, ... down to [-last_kernel_pid]; none is used twice. *)
Record pids_ok {W} (s : tstate W) : Prop := {
  pids_range : forall p x, procs s !! p = Some x -> - last_kernel_pid s <= pid x <= last_user_pid s;
  pids_nonneg : 0 <= last_kernel_pid s /\ 0 <= last_user_pid s;
}.

Section pids.
Context {W : Type} `{Kernel W}.
Implicit Types s : tstate W.

(** A new user process gets an identifier no process has. *)
Lemma alloc_pid_run s : 0 <= last_user_pid s < 2 ^ 31 - 1 ->
  process_alloc_pid true s = Ret (last_user_pid s + 1, ts_pids (last_kernel_pid s) (last_user_pid s + 1) s).
Proof.
  intros Hm. unfold process_alloc_pid. tget. tget. rewrite !(swrap_small 32) by lia. reflexivity.
Qed.

(** ** Words on a stack

    [words_at w sp l]: the words [l] lie at increasing addresses from [sp]. *)
Context `{!StackMem W}.

Fixpoint words_at (w : W) (sp : Z) (l : list Z) : Prop :=
  match l with
  | [] => True
  | v :: l => k_word w sp = Some v /\ words_at w (sp + 8) l
  end.

Lemma words_at_ext w w' l : forall sp, (forall b, sp <= b -> b mod 8 = 0 -> k_word w' b = k_word w b) -> sp mod 8 = 0 ->
  words_at w sp l -> words_at w' sp l.
Proof.
  induction l as [|v l IH]; intros sp He Hm; [done|]. intros [Hv Hl]. split; [rewrite He by (lia || done); done|].
  apply IH; [intros; apply He; [lia|done]|rewrite <- (Zplus_mod_idemp_r 8); by rewrite Z.add_0_r|done].
Qed.

Lemma words_at_app w l1 l2 : forall sp,
  words_at w sp (l1 ++ l2) <-> words_at w sp l1 /\ words_at w (sp + 8 * Z.of_nat (length l1)) l2.
Proof.
  induction l1 as [|v l1 IH]; intros sp.
  - cbn [app words_at length]. change (8 * Z.of_nat 0) with 0. rewrite Z.add_0_r. tauto.
  - cbn [app words_at length]. rewrite IH. replace (sp + 8 + 8 * Z.of_nat (length l1)) with (sp + 8 * Z.of_nat (S (length l1))) by lia.
    tauto.
Qed.

Lemma push_all_run l : forall top w, top mod 8 = 0 -> 8 * Z.of_nat (length l) <= top < 2 ^ 64 ->
  exists w', push_all l top w = Ret (top - 8 * Z.of_nat (length l), w') /\
    words_at w' (top - 8 * Z.of_nat (length l)) (rev l) /\
    (forall b, top <= b -> b mod 8 = 0 -> k_word w' b = k_word w b).
Proof.
  induction l as [|v l IH]; intros top w Hm Hr.
  { exists w. cbn [push_all length rev]. change (8 * Z.of_nat 0) with 0. rewrite Z.sub_0_r. done. }
  cbn [push_all length] in *. rewrite Nat2Z.inj_succ in *. assert (u64 (top - 8) = top - 8) as -> by (apply uwrap_small; lia).
  assert ((top - 8) mod 8 = 0) as Hm8 by (rewrite Zminus_mod, Hm; done).
  destruct (k_store_word w (top - 8) v Hm8) as (w1 & E1 & V1 & O1).
  destruct (IH (top - 8) w1 Hm8 ltac:(lia)) as (w2 & E2 & A2 & O2). exists w2. step_run E1. rewrite E2.
  replace (top - 8 - 8 * Z.of_nat (length l)) with (top - 8 * Z.succ (Z.of_nat (length l))) in * by lia.
  split; [done|]. split.
  - cbn [rev]. apply words_at_app. split; [exact A2|]. rewrite length_rev. split; [|done].
    replace (top - 8 * Z.succ (Z.of_nat (length l)) + 8 * Z.of_nat (length l)) with (top - 8) by lia. by rewrite O2.
  - intros b Hb Hbm. rewrite O2 by (lia || done). apply O1; [done|lia].
Qed.

Lemma pop_run w sp v l : words_at w sp (v :: l) -> 0 <= sp < 2 ^ 64 - 8 ->
  pop sp w = Ret ((v, sp + 8), w) /\ words_at w (sp + 8) l.
Proof.
  intros [Hv Hl] Hr. split; [|done]. unfold pop. step_run (k_load_word w sp v Hv). by rewrite uwrap_small by lia.
Qed.

(** A frame of fourteen words, the return address and six saved registers, as
    [context_switch_first] and [context_enter] take it apart. *)
Lemma restore_run w sp sr ra gr f l : 0 <= sp < 2 ^ 64 - 512 ->
  words_at w sp ([g_rbx sr; g_rbp sr; g_r12 sr; g_r13 sr; g_r14 sr; g_r15 sr] ++ [ra] ++
    [g_rax gr; g_rdi gr; g_rsi gr; g_rdx gr; g_rcx gr; g_r8 gr; g_r9 gr; g_r10 gr; g_r11 gr] ++
    [f_rip f; f_cs f; f_rflags f; f_rsp f; f_ss f] ++ l) ->
  context_switch_first sp w = Ret ((sr, ra, sp + 56), w) /\ context_enter (sp + 56) w = Ret ((gr, f), w).
Proof.
  intros Hr A. cbn [app] in A.
  unfold context_switch_first, context_enter.
  split.
  - do 7 (match goal with |- context [pop ?a] => destruct (pop_run _ _ _ _ A ltac:(lia)) as [E A']; clear A; rename A' into A; step_run E; clear E end).
    replace (sp + 8 + 8 + 8 + 8 + 8 + 8 + 8) with (sp + 56) by lia. by destruct sr.
  - do 7 (let A' := fresh in destruct A as [_ A']; rename A' into A).
    replace (sp + 8 + 8 + 8 + 8 + 8 + 8 + 8) with (sp + 56) in A by lia.
    do 14 (match goal with |- context [pop ?a] => destruct (pop_run _ _ _ _ A ltac:(lia)) as [E A']; clear A; rename A' into A; step_run E; clear E end).
    by destruct gr, f.
Qed.
End pids.

(** Kernel stacks: four frames below the top of the address space, seen through the
    kernel's window. *)
Definition kstack_frames (pg : Z) : Prop := 0 <= pg < 2 ^ 39 /\ pg mod MM_PAGE_SIZE = 0.
Definition kstack_top (pg : Z) : Z := u64 (MM_VIRTUALIZE pg + MM_PAGE_SIZE * THREAD_KSTACK_PAGES).

Lemma kstack_top_ok pg : kstack_frames pg ->
  kstack_top pg mod 8 = 0 /\ 2 ^ 63 <= kstack_top pg < 2 ^ 64 - 512 /\
  kstack_top pg = pg + KERNEL_VIRT_BASE + MM_PAGE_SIZE * THREAD_KSTACK_PAGES.
Proof.
  intros [Hr Hm]. unfold kstack_top, MM_VIRTUALIZE, KERNEL_VIRT_BASE, MM_PAGE_SIZE, THREAD_KSTACK_PAGES in *.
  rewrite !(uwrap_small 64) by (rewrite ?uwrap_small by lia; lia). split; [|lia].
  rewrite (Z.div_mod pg 0x1000), Hm by done. replace (0x1000 * (pg / 0x1000) + 0 + 0xFFFFFF0000000000 + 0x1000 * 4)
    with ((0x200 * (pg / 0x1000) + 0x1FFFFFE000000000 + 0x800) * 8) by lia. apply Z_mod_mult.
Qed.

Ltac tworld E := erewrite bind_Ret by (eapply zoom_Ret; tsimpl; exact E); cbn beta iota.

(** What a new thread's first words are read back as. *)
Definition entry_frame (user : bool) (entry rsp3_top rsp0_top : Z) : iframe :=
  if user then mk_iframe entry 0x23 0x200 (u64 (rsp3_top - 8)) 0x1B else mk_iframe entry 0x08 0x200 rsp0_top 0x10.

Lemma init_words_restore {W} `{Kernel W, !StackMem W} ce user entry arg r3 r0 w sp : 0 <= sp < 2 ^ 64 - 512 ->
  words_at w sp (rev (init_words ce user entry arg r3 r0)) ->
  context_switch_first sp w = Ret ((mk_sregs 0 0 0 0 0 0, ce, sp + 56), w) /\
  context_enter (sp + 56) w = Ret ((mk_gregs 0 arg 0 0 0 0 0 0 0, entry_frame user entry r3 r0), w).
Proof. intros Hr A. apply (restore_run w sp _ _ _ _ [] Hr). by destruct user. Qed.

(** The flags a thread with a given stack is created with. *)
Definition init_flags (user : bool) : Z := if user then Z.lor THR_INIT_USER THR_INIT_STACK_SET else 0.

(** A new thread of a process, once a processor switches to it for the first time,
    starts at its entry point with its argument in [rdi], every other register zero,
    interrupts on, in user mode on the stack it was given or in kernel mode on its
    own kernel stack, in the address space of its process; and it is not yet in any
    run queue. *)
Theorem thread_starts_at_entry {W} `{Kernel W, !StackMem W} ce (s : tstate W) thr x p (user : bool) entry arg pg w1 fx w2 :
  threads s !! thr = Some x -> t_proc x <> 0 -> procs s !! t_proc x = Some p -> space p <> 0 ->
  k_alloc_contiguous THREAD_KSTACK_PAGES PU_KERNEL (world s) = Ret (pg, w1) -> kstack_frames pg ->
  (if user then k_kmalloc FXSAVE_REGION w1 = Ret (fx, w2) /\ fx <> 0 else fx = 0 /\ w2 = w1) ->
  exists s' x' sp, thread_init ce thr entry arg (init_flags user) s = Ret (0, s') /\ threads s' !! thr = Some x' /\
    t_state x' = THREAD_READY /\ sched_prev x' = 0 /\ sched_next x' = 0 /\ cr3 (data x') = MM_PHYS (space p) /\
    context_switch_first (rsp0 (data x')) (world s') = Ret ((mk_sregs 0 0 0 0 0 0, ce, sp), world s') /\
    context_enter sp (world s') = Ret ((mk_gregs 0 arg 0 0 0 0 0 0 0,
      entry_frame user entry (u64 (rsp3_base (data x) + rsp3_size (data x))) (kstack_top pg)), world s').
Proof.
  intros Hx H0 Hp Hsp Ea Hpg Hfx. destruct (kstack_top_ok pg Hpg) as (Hm & Hr & Et). unfold thread_init.
  assert (flagged (init_flags user) THR_INIT_USER = user) as -> by by destruct user.
  tworld Ea. rewrite (bool_decide_eq_true_2 (pg <> MM_NADDR)).
  2: { destruct Hpg as [? _]. unfold MM_NADDR. lia. }
  tget. fold (kstack_top pg). tget. tget.
  set (words := init_words ce user entry arg (u64 (rsp3_base (data x) + rsp3_size (data x))) (kstack_top pg)).
  assert (length words = 21%nat) as Hlen by by destruct user.
  destruct (push_all_run words (kstack_top pg) w2 Hm) as (w3 & E3 & A3 & _); [lia|]. rewrite Hlen in E3, A3.
  destruct (init_words_restore _ _ _ _ _ _ w3 (kstack_top pg - 8 * Z.of_nat 21) ltac:(lia) A3) as [R1 R2].
  match goal with |- context [(_ ≫= _) ?s1] => erewrite (bind_Ret _ _ s1 fx (ts_world w2 s1)) end.
  2: { destruct user; [destruct Hfx as [Ef Hf]|by destruct Hfx as [-> ->]]. tworld Ef. rewrite (nonnull_true _ Hf). by tget. }
  tget. tget. tget. cbn [t_proc th_set_wait th_upd_data th_set_data th_set_sigq th_set_flags th_set_next th_set_prev th_set_signal].
  rewrite (nonnull_true _ H0). erewrite bind_Ret by (tget; reflexivity). rewrite (nonnull_true _ Hsp). tget. tget.
  assert (user && negb (flagged (init_flags user) THR_INIT_STACK_SET) = false) as -> by by destruct user. tget. tget. tget.
  cbn [data th_set_state th_upd_data th_set_data th_set_wait th_set_sigq th_set_flags th_set_next th_set_prev th_set_signal
       td_set_cr3 td_set_fxsave td_set_kstack rsp3_base rsp3_size rsp0_base rsp0_size]. fold (kstack_top pg). fold words.
  tworld E3. tget. eexists _, _, _. split; [reflexivity|]. split; [tlook|]. do 4 (split; [done|]). by split.
Qed.

Definition family_new : tstate bare := ts_threads (<[14 := fam_thread 101 THREAD_STOPPED 0 5 5]> fam_threads) family.

Lemma thread_starts_at_entry_witness : exists s' x' sp,
  thread_init 77 14 0x400000 42 (init_flags true) family_new = Ret (0, s') /\ threads s' !! 14 = Some x' /\
  t_state x' = THREAD_READY /\ sched_prev x' = 0 /\ sched_next x' = 0 /\ cr3 (data x') = MM_PHYS 8192 /\
  context_switch_first (rsp0 (data x')) (world s') = Ret ((mk_sregs 0 0 0 0 0 0, 77, sp), world s') /\
  context_enter sp (world s') = Ret ((mk_gregs 0 42 0 0 0 0 0 0 0,
    entry_frame true 0x400000 (u64 (0 + 0)) (kstack_top 0x100000)), world s').
Proof.
  eapply (thread_starts_at_entry 77 family_new 14 (fam_thread 101 THREAD_STOPPED 0 5 5) (fam_process 2 PROC_SUSPENDED 11 100 0 102) true 0x400000 42 0x100000); first [reflexivity|done].
Defined.

(** The same steps keeping the state flat. *)
Ltac tflat :=
  cbv beta delta [ts_threads ts_procs ts_notifies ts_heads ts_sizes ts_clk ts_current ts_proc_all ts_pids ts_world];
  tsimpl; rewrite ?insert_insert_eq.
Ltac trun := tget; tflat.

(** ** fork *)
Section fork.
Context {W : Type} `{Kernel W, !StackMem W}.
Implicit Types s : tstate W.

Lemma ioctx_fork_run s dst src d sp l w : procs s !! dst = Some d -> procs s !! src = Some sp -> dst <> src ->
  dup_fds (fds sp) (world s) = Ret (l, w) ->
  process_ioctx_fork dst src s =
    Ret (tt, ts_procs (<[dst := pr_set_fds l (pr_set_ioctx (ioctx sp) d)]> (procs s)) (ts_world w s)).
Proof.
  intros Hd Hs Hne El. unfold process_ioctx_fork, process_ioctx_empty. tget. tget. tget. tworld El.
  erewrite upd_proc_run by tlook. tsimpl. by rewrite !insert_insert_eq.
Qed.

(** The frame [sys_fork] builds is the parent's registers with 0 in [rax]. *)
Lemma fork_words_restore ce f w sp : 0 <= sp < 2 ^ 64 - 512 -> words_at w sp (rev (fork_words ce f)) ->
  context_switch_first sp w = Ret ((ff_callee f, ce, sp + 56), w) /\
  context_enter (sp + 56) w = Ret ((mk_gregs 0 (g_rdi (ff_caller f)) (g_rsi (ff_caller f)) (g_rdx (ff_caller f)) (g_rcx (ff_caller f))
      (g_r8 (ff_caller f)) (g_r9 (ff_caller f)) (g_r10 (ff_caller f)) (g_r11 (ff_caller f)),
    mk_iframe (ff_rip f) 0x23 (ff_rflags f) (ff_rsp f) 0x1B), w).
Proof. intros Hr A. apply (restore_run w sp _ _ _ _ [] Hr). exact A. Qed.

(** The services [sys_fork] calls all succeed, one after the other. *)
Record fork_services s (src : process) (dst dst_thread : Z) (l : list Z) (sp' pg fx : Z) (w5 w7 : W) : Prop := {
  fs_memory : exists w1 w2 w3 w4 w6 r,
    k_kmalloc SIZEOF_PROCESS (world s) = Ret (dst, w1) /\ k_kmalloc SIZEOF_THREAD w1 = Ret (dst_thread, w2) /\
    k_pool_alloc w2 = Ret (sp', w3) /\
    k_space_fork sp' (space src) (Z.lor MM_CLONE_FLG_KERNEL MM_CLONE_FLG_USER) w3 = Ret (r, w4) /\
    dup_fds (fds src) w4 = Ret (l, w5) /\
    k_alloc_contiguous THREAD_KSTACK_PAGES PU_KERNEL w5 = Ret (pg, w6) /\ k_kmalloc FXSAVE_REGION w6 = Ret (fx, w7);
  fs_fresh : dst <> 0 /\ dst_thread <> 0 /\ procs s !! dst = None /\ threads s !! dst_thread = None /\ fx <> 0;
  fs_frames : kstack_frames pg;
  fs_entry : forall n w, exists w', k_add_entry n w = Ret (tt, w') /\ forall a, k_word w' a = k_word w a;
}.
End fork.

(** C11: [fork] makes a process of its own for the child: newest child of the caller, in
    the caller's group, with the caller's files and identity and an identifier no
    process has; its thread is ready at the end of a run queue; and the first switch
    to it resumes the caller's registers at the caller's [rip], with 0 as the result. *)
Theorem fork_child {W} `{Kernel W, !StackMem W} ce jt jp (s : tstate W) qs me t st src dst dst_thread l sp' pg fx w5 w7 frame :
  sys_ok s qs -> 0 <= me -> cpu_thread s !! Z.to_nat me = Some t -> threads s !! t = Some st -> procs s !! t_proc st = Some src ->
  t_proc st <> 0 -> flagged (p_flags src) THREAD_KERNEL = false -> thread_count src = 1 -> fxsave (data st) <> 0 ->
  flagged (t_flags st) THREAD_FPU_SAVED = false -> flagged (ff_rflags frame) 0x200 = true ->
  fork_services s src dst dst_thread l sp' pg fx w5 w7 -> pids_ok s -> last_user_pid s < 2 ^ 31 - 1 -> 0 <= clk s ->
  ~ is_idle dst_thread -> Z.of_nat (size (threads s)) + 1 < 2 ^ 32 ->
  exists s' child par x' c q sp,
    sys_fork ce jt jp me frame s = Ret (pid child, s') /\
    (forall p x, procs s !! p = Some x -> pid x <> pid child) /\ proc_all s' = dst :: proc_all s /\
    procs s' !! dst = Some child /\ parent child = t_proc st /\ next_child child = first_child src /\
    pgid child = pgid src /\ ioctx child = ioctx src /\ fds child = l /\ proc_state child = PROC_ACTIVE /\
    procs s' !! t_proc st = Some par /\ first_child par = dst /\
    threads s' !! dst_thread = Some x' /\ t_state x' = THREAD_READY /\ t_proc x' = dst /\ cr3 (data x') = MM_PHYS sp' /\
    qs !! c = Some q /\ sched_ok s' (<[c := q ++ [dst_thread]]> qs) /\
    context_switch_first (rsp0 (data x')) (world s') = Ret ((ff_callee frame, ce, sp), world s') /\
    exists g, context_enter sp (world s') =
        Ret ((g, mk_iframe (ff_rip frame) 0x23 (ff_rflags frame) (ff_rsp frame) 0x1B), world s') /\
      g = mk_gregs 0 (g_rdi (ff_caller frame)) (g_rsi (ff_caller frame)) (g_rdx (ff_caller frame)) (g_rcx (ff_caller frame))
        (g_r8 (ff_caller frame)) (g_r9 (ff_caller frame)) (g_r10 (ff_caller frame)) (g_r11 (ff_caller frame)).
Proof.
  intros HS Hme Ht Hst Hsrc Hp0 Hk Htc Hfx Hfpu Hif [(w1 & w2 & w3 & w4 & w6 & r & E1 & E2 & E3 & E4 & E5 & E6 & E7) (Hd & Hdt & Hdn & Htn & Hfx0) Hpg He] Hpid Hpm Hclk Hid Hsz.
  destruct (running_some _ _ _ _ HS Ht) as [Ht0 _].
  assert (0 <= last_user_pid s < 2 ^ 31 - 1) as Hu by (destruct Hpid as [_ [_ ?]]; lia).
  assert (dst <> t_proc st) as Hds by (intros E; rewrite <- E in Hsrc; congruence).
  assert (t_proc st <> dst) as Hsd by (intros E; by apply Hds).
  destruct (kstack_top_ok pg Hpg) as (Hm & Hr & _).
  destruct (push_all_run (fork_words ce frame) (kstack_top pg) w7 Hm) as (w8 & E8 & A8 & _); [cbn [fork_words length app]; lia|].
  change (Z.of_nat (length (fork_words ce frame))) with 21 in E8, A8.
  destruct (He (last_user_pid s + 1) w8) as (w9 & E9 & O9).
  assert (words_at w9 (kstack_top pg - 8 * 21) (rev (fork_words ce frame))) as A9.
  { eapply words_at_ext; [intros b _ _; apply O9| |exact A8]. rewrite Zminus_mod, Hm. done. }
  destruct (fork_words_restore ce frame w9 (kstack_top pg - 8 * 21) ltac:(lia) A9) as [R1 R2].
  unfold sys_fork, self. rewrite (bind_Ret _ _ _ _ _ (at_cpu_run s cpu_thread me t Hme Ht)). rewrite (nonnull_true _ Ht0).
  trun. trun. rewrite (nonnull_true _ Hp0). trun. trun. rewrite Hk. rewrite (proj2 (Z.eqb_eq _ _) Htc). cbn [negb].
  erewrite bind_Ret; [|unfold alloc_process; tworld E1; rewrite (nonnull_true _ Hd); tget; reflexivity].
  rewrite (nonnull_true _ Hd). tflat. trun.
  erewrite bind_Ret; [|unfold alloc_thread; tworld E2; rewrite (nonnull_true _ Hdt); tget; reflexivity].
  rewrite (nonnull_true _ Hdt). tflat. trun. trun. trun. tworld E3. trun. tworld E4. trun. trun.
  erewrite bind_Ret by (eapply ioctx_fork_run; [tlook|tlook|done|tsimpl; exact E5]). tflat.
  trun. trun. trun. trun.
  match goal with |- context [(process_alloc_pid true ≫= _) ?s1] => rewrite (bind_Ret _ _ s1 _ _ (alloc_pid_run s1 Hu)) end.
  tflat. trun. tworld E6. tflat. rewrite (bool_decide_eq_true_2 (pg <> MM_NADDR)) by (destruct Hpg; unfold MM_NADDR; lia).
  trun. trun. trun. trun. tworld E7. trun. rewrite (nonnull_true _ Hfx0). trun. rewrite (nonnull_true _ Hfx). trun. rewrite Hfpu. trun. trun.
  rewrite Hif. trun. fold (kstack_top pg). tworld E8. trun. trun. tworld E9. tflat.
  match goal with |- context [(sched_queue _ ≫= _) ?s1] => set (s2 := s1) end.
  match goal with s2 := mk_tstate _ (<[dst_thread := ?y]> _) (<[dst := ?d]> _) _ _ _ _ _ _ _ _ _ _ : _ |- _ =>
    set (x2 := y) in s2; set (child := d) in s2 end.
  assert (sched_ok s2 qs) as HS2.
  { pose proof (sys_sched _ _ (new_ok s qs dst_thread x2 HS Htn Hdt eq_refl eq_refl Hsz)) as HS'. by destruct HS'; split. }
  assert (~ queued qs dst_thread) as Hnq.
  { intros (i & q & Hq & Hin). destruct (ok_in _ _ _ _ _ (sys_sched _ _ HS) Hq Hin) as (y & Hy & _). congruence. }
  destruct (sched_queue_run s2 qs dst_thread x2 HS2) as (c & q & k & m' & Hcq & _ & E & L & OK).
  - apply lookup_insert_eq.
  - done.
  - intros i ->. apply Hid. by exists i.
  - right. exists child. split; [apply lookup_insert_eq|done].
  - done.
  - rewrite (bind_Ret _ _ _ _ _ E). eexists _, child, _, _, c, q, _. split; [reflexivity|].
    split; [intros p y Hy; pose proof (pids_range _ Hpid _ _ Hy); change (pid child) with (last_user_pid s + 1); lia|].
    split; [done|]. split; [apply lookup_insert_eq|]. do 6 (split; [done|]).
    split; [subst s2; cbn [queued_state ts_sizes ts_heads ts_threads ts_clk procs]; rewrite lookup_insert_ne by done; apply lookup_insert_eq|].
    split; [done|]. split; [exact (proj1 L)|]. do 3 (split; [done|]). split; [done|]. split; [exact OK|].
    split; [exact R1|]. eexists. split; [exact R2|done].
Qed.

Lemma family_sys : sys_ok family fam_queues.
Proof.
  split; [exact family_ok|..].
  - intros i t Ht. destruct i as [|[|[|[|i]]]]; cbn in Ht; simplify_eq; [right|by left..]. eexists. split; [done|set_solver].
  - intros t x (i & q & Hq & Ht) Hx. destruct (fam_queued _ _ _ Hq Ht) as [-> ->]. vm_compute in Hx. injection Hx as <-. by right.
  - intros i x Hi Hx. destruct i as [|[|[|[|i]]]]; [vm_compute in Hx; injection Hx as <-; by left..|unfold AMD64_MAX_SMP in Hi; lia].
Qed.

Lemma fam_proc_lookup p x : fam_procs !! p = Some x -> (p, x) ∈ map_to_list fam_procs.
Proof. apply elem_of_map_to_list. Qed.

Lemma family_pids : pids_ok family.
Proof.
  split; [|done]. intros p x Hx. change (fam_procs !! p = Some x) in Hx. apply fam_proc_lookup in Hx.
  let l := eval vm_compute in (map_to_list fam_procs) in change (map_to_list fam_procs) with l in Hx.
  change (0 <= pid x <= 4). demo_cases; cbn; lia.
Qed.

Definition fam_frame : sys_fork_frame :=
  mk_fork_frame (mk_gregs 57 1 2 3 4 5 6 7 8) (mk_sregs 11 12 13 14 15 16) 0x7000 0x202 0x401000.

Lemma fork_child_witness : exists s' child par x' c q sp,
  sys_fork 77 zero_thread (fam_process 0 PROC_ACTIVE 0 0 0 0) 0 fam_frame family = Ret (pid child, s') /\
  (forall p x, procs family !! p = Some x -> pid x <> pid child) /\ proc_all s' = 0x100000 :: proc_all family /\
  procs s' !! 0x100000 = Some child /\ parent child = 100 /\ next_child child = 101 /\ pgid child = 1 /\
  ioctx child = mk_ioctx 0 18 0 0 /\ fds child = empty_fds /\ proc_state child = PROC_ACTIVE /\
  procs s' !! 100 = Some par /\ first_child par = 0x100000 /\
  threads s' !! 0x101000 = Some x' /\ t_state x' = THREAD_READY /\ t_proc x' = 0x100000 /\ cr3 (data x') = MM_PHYS 0x102000 /\
  fam_queues !! c = Some q /\ sched_ok s' (<[c := q ++ [0x101000]]> fam_queues) /\
  context_switch_first (rsp0 (data x')) (world s') = Ret ((mk_sregs 11 12 13 14 15 16, 77, sp), world s') /\
  exists g, context_enter sp (world s') = Ret ((g, mk_iframe 0x401000 0x23 0x202 0x7000 0x1B), world s') /\
    g = mk_gregs 0 1 2 3 4 5 6 7 8.
Proof.
  eapply (fork_child 77 _ _ family fam_queues 0 10 (fam_thread 100 THREAD_RUNNING 0 10 10) (fam_process 1 PROC_ACTIVE 10 0 101 0)
    0x100000 0x101000 empty_fds 0x102000 0x104000 0x109000);
    try first [exact family_sys|exact family_pids|reflexivity|done].
  - split; [|done|done|].
    + eexists _, _, _, _, _, _. repeat (split; [reflexivity|]). reflexivity.
    + intros n w. by exists w.
  - by apply fam_not_idle.
Defined.
