(* ===== verification/ProcessTree.v ===== *)
(** * The family tree of processes

    [first_child] and [next_child] chain the children of a process, newest first.
    [forest s ch]: the children of every process [p] are exactly the list [ch p], and
    each of them has [p] as its parent.  [process_unchild] takes one child out,
    [process_cleanup] gives the children of a dead process to process 1, and
    [sys_waitpid] buries a finished child. *)

From S2P Require Import Prelude Defs Wait Phys Vnode Mmap Paging Kernel Task ListHead Sched SchedInv Thread Process ProcessInv.

(** The chain of siblings [l] from [c] to [e]. *)
Fixpoint sibs (m : gmap Z process) (c : Z) (l : list Z) (e : Z) : Prop :=
  match l with
  | [] => c = e
  | x :: l => c = x /\ x <> 0 /\ exists r, m !! x = Some r /\ sibs m (next_child r) l e
  end.

Record forest {W} (s : tstate W) (ch : gmap Z (list Z)) : Prop := {
  fo_dom : dom ch = dom (procs s);
  fo_null : procs s !! 0 = None;
  fo_list : forall p x l, procs s !! p = Some x -> ch !! p = Some l ->
    sibs (procs s) (first_child x) l 0 /\ NoDup l /\
    forall c, c ∈ l -> exists y, procs s !! c = Some y /\ parent y = p;
  fo_irrefl : forall p x, procs s !! p = Some x -> parent x <> p;
}.

Section siblings.
Implicit Types m : gmap Z process.

Lemma sibs_app m l1 l2 : forall c e, sibs m c (l1 ++ l2) e <-> exists d, sibs m c l1 d /\ sibs m d l2 e.
Proof.
  induction l1 as [|x l1 IH]; intros c e; cbn [app sibs].
  - split; [by exists c|intros (d & -> & ?); done].
  - split.
    + intros (-> & H0 & r & Hr & (d & ? & ?)%IH). exists d. split; [|done]. split; [done|]. split; [done|]. by exists r.
    + intros (d & (-> & H0 & r & Hr & ?) & ?). split; [done|]. split; [done|]. exists r. split; [done|]. apply IH. by exists d.
Qed.

Lemma sibs_ext m m' l : forall c e, (forall x r, x ∈ l -> m !! x = Some r -> exists r', m' !! x = Some r' /\ next_child r' = next_child r) ->
  sibs m c l e -> sibs m' c l e.
Proof.
  induction l as [|x l IH]; intros c e Hm; [done|]. intros (-> & H0 & r & Hr & Hs). split; [done|]. split; [done|].
  destruct (Hm x r ltac:(by left) Hr) as (r' & Hr' & En). exists r'. split; [done|]. rewrite En. apply IH; [|done].
  intros y q Hy. apply Hm. by right.
Qed.

Lemma sibs_in m l : forall c e x, sibs m c l e -> x ∈ l -> x <> 0 /\ is_Some (m !! x).
Proof.
  induction l as [|y l IH]; intros c e x; [by intros _ ?%elem_of_nil|]. intros (-> & H0 & r & Hr & Hs) [->|Hx]%elem_of_cons.
  - split; [done|]. by exists r.
  - by eapply IH.
Qed.

Lemma sibs_hd m l c : sibs m c l 0 -> c = hd_or 0 l.
Proof. destruct l; [done|]. by intros [-> _]. Qed.

(** Cutting [x] out of a chain by redirecting the sibling before it. *)
Lemma sibs_cut m l1 p x l2 c rp rx : sibs m c (l1 ++ p :: x :: l2) 0 -> NoDup (l1 ++ p :: x :: l2) ->
  m !! p = Some rp -> m !! x = Some rx -> sibs (<[p := pr_set_next (next_child rx) rp]> m) c (l1 ++ p :: l2) 0.
Proof.
  intros (d & S1 & (-> & H0 & r & Hr & (E & Hx0 & r' & Hr' & S2)))%sibs_app Hn Hp Hx.
  assert (r = rp) as -> by congruence. assert (r' = rx) as -> by congruence.
  apply list.NoDup_app in Hn as (_ & D & [Np Nx]%list.NoDup_cons). apply list.NoDup_cons in Nx as [Nx _].
  apply sibs_app. exists p. split.
  - eapply sibs_ext; [|exact S1]. intros y q Hy Hq. exists q. split; [|done]. rewrite lookup_insert_ne; [done|].
    intros ->. apply (D y Hy). by left.
  - split; [done|]. split; [done|]. eexists. split; [apply lookup_insert_eq|]. cbn [pr_set_next next_child].
    eapply sibs_ext; [|exact S2]. intros y q Hy Hq. exists q. split; [|done]. rewrite lookup_insert_ne; [done|].
    intros ->. apply Np. by right.
Qed.
End siblings.

Lemma elem_of_rev {A} (x : A) l : x ∈ rev l -> x ∈ l.
Proof. rewrite rev_alt. exact (proj1 (elem_of_reverse x l)). Qed.

Lemma NoDup_rev {A} (l : list A) : NoDup l -> NoDup (rev l).
Proof. intros Hn. rewrite rev_alt. change (NoDup (reverse l)). by rewrite reverse_Permutation. Qed.

Section tree.
Context {W : Type} `{Kernel W}.
Implicit Types (s : tstate W) (ch : gmap Z (list Z)).

(** ** [process_unchild] *)

(** The processes after [proc], found behind [p], was taken out of the chain. *)
Definition cut_procs (m : gmap Z process) (par p next : Z) : gmap Z process :=
  if nonnull p then alter (pr_set_next next) p m else alter (pr_set_first next) par m.

Lemma upd_proc_alter s p f x : procs s !! p = Some x -> upd_proc p f s = Ret (tt, ts_procs (alter f p (procs s)) s).
Proof. intros Hx. rewrite (upd_proc_run _ _ _ _ Hx). by rewrite (alter_alt_Some _ _ _ _ Hx). Qed.

Lemma unchild_from_run s proc par l2 : is_Some (procs s !! par) -> forall l1 fuel p c,
  sibs (procs s) c (l1 ++ proc :: l2) 0 -> proc ∉ l1 -> (length l1 < fuel)%nat -> (p <> 0 -> is_Some (procs s !! p)) ->
  unchild_from fuel proc par p c s = Ret (true, ts_procs (cut_procs (procs s) par (last_or p l1) (hd_or 0 l2)) s).
Proof.
  intros [xp Hpar] l1. induction l1 as [|x l1 IH]; intros fuel p c Hs Hn Hf Hp; (destruct fuel as [|fuel]; [cbn in Hf; lia|]).
  - destruct Hs as (-> & H0 & r & Hr & Hs). cbn [unchild_from]. rewrite (nonnull_true _ H0). cbn [negb]. tget.
    rewrite bool_decide_eq_true_2 by done. rewrite (sibs_hd _ _ _ Hs). unfold cut_procs. change (last_or p []) with p.
    destruct (decide (p = 0)) as [->|Hp0].
    + rewrite nonnull_0. by erewrite bind_Ret by (by eapply upd_proc_alter).
    + rewrite (nonnull_true _ Hp0). destruct (Hp Hp0) as [y Hy]. by erewrite bind_Ret by (by eapply upd_proc_alter).
  - destruct Hs as (-> & H0 & r & Hr & Hs). cbn [unchild_from]. rewrite (nonnull_true _ H0). cbn [negb]. tget.
    apply not_elem_of_cons in Hn as [Hn1 Hn2]. rewrite bool_decide_eq_false_2 by (intros ->; by apply Hn1).
    rewrite (IH fuel x (next_child r) Hs Hn2 ltac:(cbn in Hf; lia)) by (intros _; by exists r). by rewrite last_or_cons.
Qed.

(** What the operations on the tree leave alone: everything but the three pointers. *)
Definition core (p : process) : process := pr_set_parent 0 (pr_set_first 0 (pr_set_next 0 p)).
Definition same_core (m m' : gmap Z process) : Prop := forall p, core <$> m' !! p = core <$> m !! p.

Lemma same_core_Some m m' p x : same_core m m' -> m !! p = Some x -> exists x', m' !! p = Some x' /\ core x' = core x.
Proof. intros Hc Hx. specialize (Hc p). rewrite Hx in Hc. destruct (m' !! p) as [x'|]; [|done]. exists x'. split; [done|exact (Some_inj _ _ Hc)]. Qed.

Lemma same_core_dom m m' : same_core m m' -> dom m' = dom m.
Proof.
  intros Hc. apply set_eq. intros p. rewrite !elem_of_dom. specialize (Hc p).
  destruct (m !! p), (m' !! p); try done; by split; intros [? ?].
Qed.

Lemma same_core_trans m1 m2 m3 : same_core m1 m2 -> same_core m2 m3 -> same_core m1 m3.
Proof. intros H1 H2 p. by rewrite H2. Qed.

Lemma alter_same_core m p f : (forall x, core (f x) = core x) -> same_core m (alter f p m).
Proof.
  intros Hf q. destruct (decide (p = q)) as [->|]; [|by rewrite lookup_alter_ne].
  rewrite lookup_alter_eq. destruct (m !! q); [|done]. cbn. by rewrite Hf.
Qed.

Lemma cut_same_core m par p next : same_core m (cut_procs m par p next).
Proof. unfold cut_procs. destruct (nonnull p); by apply alter_same_core. Qed.

Lemma forest_children s ch p x l : forest s ch -> procs s !! p = Some x -> ch !! p = Some l ->
  (length l < S (size (procs s)))%nat.
Proof.
  intros F Hx Hl. destruct (fo_list _ _ F _ _ _ Hx Hl) as (_ & Hn & Hc). apply Nat.lt_succ_r.
  rewrite <- (size_list_to_set (C := gset Z)) by done. rewrite <- size_dom. apply subseteq_size.
  intros c. rewrite elem_of_list_to_set. intros (y & Hy & _)%Hc. by apply elem_of_dom_2 in Hy.
Qed.

Lemma forest_list s ch p x : forest s ch -> procs s !! p = Some x -> exists l, ch !! p = Some l.
Proof.
  intros F Hx. apply elem_of_dom_2 in Hx. rewrite <- (fo_dom _ _ F) in Hx. by apply elem_of_dom in Hx.
Qed.

(** A child is listed by its parent only. *)
Lemma forest_unique s ch p q lp lq c : forest s ch -> ch !! p = Some lp -> ch !! q = Some lq -> c ∈ lp -> c ∈ lq -> p = q.
Proof.
  intros F Hp Hq Cp Cq.
  assert (forall r l, ch !! r = Some l -> c ∈ l -> exists y, procs s !! c = Some y /\ parent y = r) as Hr.
  { intros r l Hl Hc. assert (is_Some (procs s !! r)) as [x Hx] by (apply elem_of_dom; rewrite <- (fo_dom _ _ F); by apply elem_of_dom_2 in Hl).
    by apply (fo_list _ _ F _ _ _ Hx Hl). }
  destruct (Hr _ _ Hp Cp) as (y & Hy & <-). destruct (Hr _ _ Hq Cq) as (z & Hz & <-). congruence.
Qed.

(** Only the chain of [par] changes when a sibling pointer of one of its children or
    its own [first_child] is rewritten. *)
Lemma forest_relink s ch par xp l l' m' : forest s ch -> procs s !! par = Some xp -> ch !! par = Some l ->
  same_core (procs s) m' -> (forall c y y', procs s !! c = Some y -> m' !! c = Some y' -> parent y' = parent y) ->
  (forall q y y', q <> par -> procs s !! q = Some y -> m' !! q = Some y' -> first_child y' = first_child y) ->
  (forall c y y', c ∉ l -> procs s !! c = Some y -> m' !! c = Some y' -> next_child y' = next_child y) ->
  (forall xp', m' !! par = Some xp' -> sibs m' (first_child xp') l' 0) -> NoDup l' -> l' ⊆ l ->
  forest (ts_procs m' s) (<[par := l']> ch).
Proof.
  intros F Hpar Hl Hc Hpr Hfc Hnc Hs Hn Hsub. split; cbn [ts_procs procs].
  - rewrite dom_insert_L, (fo_dom _ _ F), (same_core_dom _ _ Hc). apply elem_of_dom_2 in Hpar. set_solver.
  - apply not_elem_of_dom. rewrite (same_core_dom _ _ Hc). apply not_elem_of_dom, F.
  - intros q y' lq Hy' Hq.
    assert (is_Some (procs s !! q)) as [y Hy] by (apply elem_of_dom; rewrite <- (same_core_dom _ _ Hc); by apply elem_of_dom_2 in Hy').
    assert (forall c z, procs s !! c = Some z -> exists z', m' !! c = Some z' /\ parent z' = parent z) as Hkeep.
    { intros c z Hz. destruct (same_core_Some _ _ _ _ Hc Hz) as (z' & Hz' & _). exists z'. split; [done|]. by eapply Hpr. }
    destruct (decide (q = par)) as [->|Hne].
    + rewrite lookup_insert_eq in Hq. injection Hq as <-. split; [by apply Hs|]. split; [done|]. intros c Hin.
      destruct (fo_list _ _ F _ _ _ Hpar Hl) as (_ & _ & Hpl). destruct (Hpl c (Hsub c Hin)) as (z & Hz & <-). by apply Hkeep.
    + rewrite lookup_insert_ne in Hq by done. destruct (fo_list _ _ F _ _ _ Hy Hq) as (S & N & P).
      split; [|split; [done|]].
      * rewrite (Hfc q y y' Hne Hy Hy'). eapply sibs_ext; [|exact S]. intros c z Hin Hz.
        destruct (Hkeep c z Hz) as (z' & Hz' & _). exists z'. split; [done|]. eapply Hnc; [|exact Hz|exact Hz'].
        intros Hin'. apply Hne. by eapply forest_unique.
      * intros c Hin. destruct (P c Hin) as (z & Hz & <-). by apply Hkeep.
  - intros q y' Hy'.
    assert (is_Some (procs s !! q)) as [y Hy] by (apply elem_of_dom; rewrite <- (same_core_dom _ _ Hc); by apply elem_of_dom_2 in Hy').
    rewrite (Hpr q y y' Hy Hy'). by eapply fo_irrefl.
Qed.

Lemma cut_lookup m par p next c y y' : m !! c = Some y -> cut_procs m par p next !! c = Some y' ->
  parent y' = parent y /\ (c <> par -> first_child y' = first_child y) /\ (c <> p \/ p = 0 -> next_child y' = next_child y).
Proof.
  intros Hy Hy'. unfold cut_procs in Hy'. destruct (decide (p = 0)) as [->|Hp].
  - rewrite nonnull_0 in Hy'. apply lookup_alter_Some in Hy' as [(-> & z & Hz & ->)|[_ Hz]].
    + assert (z = y) as -> by congruence. split; [done|]. split; [by intros []|done].
    + assert (y' = y) as -> by congruence. done.
  - rewrite (nonnull_true _ Hp) in Hy'. apply lookup_alter_Some in Hy' as [(-> & z & Hz & ->)|[_ Hz]].
    + assert (z = y) as -> by congruence. split; [done|]. split; [done|]. by intros [[]|].
    + assert (y' = y) as -> by congruence. done.
Qed.

Lemma cut_sibs m par xp l1 proc l2 xp' : m !! par = Some xp -> sibs m (first_child xp) (l1 ++ proc :: l2) 0 ->
  NoDup (l1 ++ proc :: l2) -> cut_procs m par (last_or 0 l1) (hd_or 0 l2) !! par = Some xp' ->
  (forall c, c ∈ l1 ++ proc :: l2 -> c <> par) ->
  sibs (cut_procs m par (last_or 0 l1) (hd_or 0 l2)) (first_child xp') (l1 ++ l2) 0.
Proof.
  intros Hp Hs Hn Hp' Hne. unfold cut_procs in *. destruct l1 as [|y l1 _] using rev_ind.
  - change (last_or 0 []) with 0 in *. rewrite nonnull_0 in *. rewrite lookup_alter_eq, Hp in Hp'. injection Hp' as <-.
    cbn [pr_set_first first_child app]. destruct Hs as (_ & _ & r & Hr & Hs). rewrite <- (sibs_hd _ _ _ Hs).
    eapply sibs_ext; [|exact Hs]. intros c q Hc Hq. exists q. split; [|done]. rewrite lookup_alter_ne; [done|].
    intros <-. apply (Hne par); [right; done|done].
  - rewrite last_or_snoc in *. rewrite <- app_assoc in *. cbn [app] in *.
    assert (y <> 0 /\ is_Some (m !! y)) as [Hy0 [ry Hy]] by (eapply sibs_in; [exact Hs|set_solver]).
    assert (is_Some (m !! proc)) as [rx Hx] by (eapply sibs_in; [exact Hs|set_solver]).
    rewrite (nonnull_true _ Hy0) in *. rewrite lookup_alter_ne, Hp in Hp' by (apply Hne; set_solver). injection Hp' as <-.
    rewrite (alter_alt_Some _ _ _ _ Hy). pose proof (sibs_cut m l1 y proc l2 _ ry rx Hs Hn Hy Hx) as Hcut.
    apply sibs_app in Hs as (d & _ & (_ & _ & r & Hr & (_ & _ & r' & Hr' & Hs))). assert (r' = rx) as -> by congruence.
    by rewrite <- (sibs_hd _ _ _ Hs).
Qed.

Lemma unchild_run s ch proc x l1 l2 : forest s ch -> procs s !! proc = Some x -> is_Some (procs s !! parent x) ->
  ch !! parent x = Some (l1 ++ proc :: l2) ->
  exists m', process_unchild proc s = Ret (tt, ts_procs m' s) /\ forest (ts_procs m' s) (<[parent x := l1 ++ l2]> ch) /\
    same_core (procs s) m' /\ (forall c y y', procs s !! c = Some y -> m' !! c = Some y' -> parent y' = parent y) /\
    (forall q y y', q <> parent x -> procs s !! q = Some y -> m' !! q = Some y' -> first_child y' = first_child y).
Proof.
  intros F Hx [xp Hpar] Hl. destruct (fo_list _ _ F _ _ _ Hpar Hl) as (Hs & Hn & Hc).
  assert (forall c, c ∈ l1 ++ proc :: l2 -> c <> parent x) as Hne.
  { intros c Hin ->. destruct (Hc _ Hin) as (y & Hy & Ey). by apply (fo_irrefl _ _ F _ _ Hy). }
  exists (cut_procs (procs s) (parent x) (last_or 0 l1) (hd_or 0 l2)).
  assert (parent x <> 0) as H0 by (intros E; rewrite E, (fo_null _ _ F) in Hpar; done).
  assert (proc ∉ l1) as Hp1 by (intros Hin; apply list.NoDup_app in Hn as (_ & D & _); apply (D proc Hin); by left).
  assert (last_or 0 l1 <> 0 -> last_or 0 l1 ∈ l1) as Hlast by (intros E; apply last_or_in; by intros ->).
  split; [|split; [|split; [apply cut_same_core|split]]].
  - unfold process_unchild. tget. rewrite (nonnull_true _ H0). tget. tget. unfold proc_fuel. tget.
    assert (length l1 < S (size (procs s)))%nat as Hlen.
    { pose proof (forest_children _ _ _ _ _ F Hpar Hl) as Hlen. rewrite length_app in Hlen. cbn in Hlen. lia. }
    rewrite (bind_Ret _ _ _ _ _ (unchild_from_run s proc (parent x) l2 (mk_is_Some _ _ Hpar) l1 _ 0 _ Hs Hp1 Hlen ltac:(done))). done.
  - eapply forest_relink; [exact F|exact Hpar|exact Hl|apply cut_same_core|..].
    + intros c y y' Hy Hy'. by eapply cut_lookup.
    + intros q y y' Hq Hy Hy'. by eapply cut_lookup.
    + intros c y y' Hq Hy Hy'. eapply cut_lookup; [done..|].
      destruct (decide (last_or 0 l1 = 0)) as [E|E]; [by right|left]. intros ->. apply Hq, elem_of_app. left. by apply Hlast.
    + intros xp' Hxp'. by eapply cut_sibs.
    + apply list.NoDup_app in Hn as (N1 & D & [_ N2]%list.NoDup_cons). apply list.NoDup_app. split; [done|]. split; [|done].
      intros c Hc1 Hc2. apply (D c Hc1). by right.
    + intros c. rewrite !elem_of_app. intros [?|?]; [by left|right; by right].
  - intros c y y' Hy Hy'. by eapply cut_lookup.
  - intros q y y' Hq Hy Hy'. by eapply cut_lookup.
Qed.

(** ** Looking a process up *)
Definition finds s (n p : Z) : Prop := exists a b, proc_all s = a ++ p :: b /\
  (forall q, q ∈ a -> exists x, procs s !! q = Some x /\ pid x <> n) /\ exists x, procs s !! p = Some x /\ pid x = n.

Lemma process_find_run s n p : finds s n p -> process_find n s = Ret (p, s).
Proof.
  intros (a & b & E & Ha & x & Hx & Hp). unfold process_find. tget. rewrite E. clear E. induction a as [|q a IH]; cbn [app find_pid].
  - tget. by rewrite (proj2 (Z.eqb_eq _ _) Hp).
  - destruct (Ha q ltac:(by left)) as (y & Hy & Hn). tget. rewrite (proj2 (Z.eqb_neq _ _) Hn). apply IH. intros r Hr.
    apply Ha. by right.
Qed.

Lemma core_pid x y : core x = core y -> pid x = pid y.
Proof. by intros [= ]. Qed.

Lemma finds_core s s' n p : finds s n p -> proc_all s' = proc_all s -> same_core (procs s) (procs s') -> finds s' n p.
Proof.
  intros (a & b & E & Ha & x & Hx & Hp) Ea Hc. exists a, b. rewrite Ea. split; [done|]. split.
  - intros q Hq. destruct (Ha q Hq) as (y & Hy & Hn). destruct (same_core_Some _ _ _ _ Hc Hy) as (y' & Hy' & Ec).
    exists y'. by rewrite (core_pid _ _ Ec).
  - destruct (same_core_Some _ _ _ _ Hc Hx) as (x' & Hx' & Ec). exists x'. by rewrite (core_pid _ _ Ec).
Qed.

(** ** Giving the children away *)

(** The processes after one child was moved to the front of [init]'s chain. *)
Definition moved (m : gmap Z process) (chld init : Z) (xc xi : process) : gmap Z process :=
  <[init := pr_set_first chld xi]> (<[chld := pr_set_next (first_child xi) (pr_set_parent init xc)]> m).

Lemma moved_core m chld init xc xi : m !! chld = Some xc -> m !! init = Some xi -> chld <> init -> same_core m (moved m chld init xc xi).
Proof.
  intros Hc Hi Hne q. unfold moved. destruct (decide (q = init)) as [->|]; [by rewrite lookup_insert_eq, Hi|].
  rewrite lookup_insert_ne by done. destruct (decide (q = chld)) as [->|]; [by rewrite lookup_insert_eq, Hc|].
  by rewrite lookup_insert_ne.
Qed.

Lemma reparent_run init rem : forall s fuel c li xi, sibs (procs s) c rem 0 -> NoDup rem -> init ∉ rem -> finds s 1 init ->
  procs s !! init = Some xi -> init <> 0 -> sibs (procs s) (first_child xi) li 0 -> (forall x, x ∈ rem -> x ∉ li) -> init ∉ li ->
  (length rem <= fuel)%nat ->
  exists m' xi', reparent fuel c s = Ret (tt, ts_procs m' s) /\ same_core (procs s) m' /\
    m' !! init = Some xi' /\ parent xi' = parent xi /\ next_child xi' = next_child xi /\
    sibs m' (first_child xi') (rev rem ++ li) 0 /\
    (forall x, x ∈ rem -> exists y y', procs s !! x = Some y /\ m' !! x = Some y' /\ parent y' = init /\ first_child y' = first_child y) /\
    (forall q, q ∉ rem -> q <> init -> m' !! q = procs s !! q).
Proof.
  induction rem as [|x rem IH]; intros s fuel c li xi Hs Hn Hi Hfind Hxi Hi0 Hli Hd Hili Hf.
  { change (c = 0) in Hs. subst c. exists (procs s), xi. destruct fuel; (split; [by destruct s|]; split; [done|]);
      (do 4 (split; [done|])); (split; [by intros ? ?%elem_of_nil|done]). }
  destruct fuel as [|fuel]; [cbn in Hf; lia|]. destruct Hs as (-> & H0 & xc & Hxc & Hs).
  apply list.NoDup_cons in Hn as [Hn1 Hn2]. apply not_elem_of_cons in Hi as [Hi1 Hi2].
  assert (x <> init) as Hxi' by (intros ->; by apply Hi1). assert (init <> x) as Hix by by intros ->.
  set (m1 := moved (procs s) x init xc xi). set (s1 := ts_procs m1 s).
  assert (same_core (procs s) m1) as C1 by by apply moved_core.
  assert (forall y, y <> x -> y <> init -> m1 !! y = procs s !! y) as Hm1 by (intros; unfold m1, moved; by rewrite !lookup_insert_ne).
  assert (m1 !! x = Some (pr_set_next (first_child xi) (pr_set_parent init xc))) as Hx1
    by (unfold m1, moved; rewrite lookup_insert_ne by done; apply lookup_insert_eq).
  assert (m1 !! init = Some (pr_set_first x xi)) as Hin1 by apply lookup_insert_eq.
  assert (sibs m1 x (x :: li) 0) as Hli1.
  { split; [done|]. split; [done|]. eexists. split; [exact Hx1|]. cbn [pr_set_next next_child].
    eapply sibs_ext; [|exact Hli]. intros y r Hy Hr. exists r. rewrite Hm1; [done|intros ->; eapply Hd; [by left|done]|by intros ->]. }
  destruct (IH s1 fuel (next_child xc) (x :: li) (pr_set_first x xi)) as (m2 & xi2 & E2 & C2 & I2 & P2 & N2 & S2 & R2 & O2).
  - eapply sibs_ext; [|exact Hs]. intros y r Hy Hr. exists r. split; [|done]. cbn [s1 ts_procs procs]. rewrite Hm1; [done|by intros ->|by intros ->].
  - done.
  - done.
  - by eapply finds_core.
  - done.
  - done.
  - exact Hli1.
  - intros y Hy [->|Hy']%elem_of_cons; [done|]. eapply Hd; [by right|done].
  - intros [->|?]%elem_of_cons; done.
  - cbn in Hf. lia.
  - exists m2, xi2. split; [|split; [by eapply same_core_trans|split; [done|split; [by rewrite P2|split; [by rewrite N2|split; [|split]]]]]].
    + cbn [reparent]. rewrite (nonnull_true _ H0). cbn [negb]. rewrite (bind_Ret _ _ _ _ _ (process_find_run s 1 init Hfind)).
      rewrite (nonnull_true _ Hi0). tget. tget. tget. trun. trun. trun. exact E2.
    + cbn [rev]. rewrite <- app_assoc. exact S2.
    + intros y [->|Hy]%elem_of_cons.
      * exists xc. rewrite O2 by done. eexists. split; [done|]. split; [exact Hx1|]. done.
      * destruct (R2 y Hy) as (z & z' & Hz & Hz' & Ep & Ef). exists z, z'. split; [|done]. rewrite <- Hz. symmetry.
        apply Hm1; [by intros ->|by intros ->].
    + intros q [Hq1 Hq2]%not_elem_of_cons Hq. rewrite O2 by done. by apply Hm1.
Qed.

(** Moving all children of [proc] to [init] keeps the forest. *)
Lemma reparent_forest s ch proc x lc init xi li fuel : forest s ch -> procs s !! proc = Some x -> ch !! proc = Some lc ->
  finds s 1 init -> procs s !! init = Some xi -> parent xi = 0 -> ch !! init = Some li -> init <> proc ->
  (length lc <= fuel)%nat ->
  exists m' x', reparent fuel (first_child x) s = Ret (tt, ts_procs m' s) /\ same_core (procs s) m' /\ m' !! proc = Some x' /\
    core x' = core x /\ forest (ts_procs (<[proc := pr_set_first 0 x']> m') s) (<[init := rev lc ++ li]> (<[proc := []]> ch)).
Proof.
  intros F Hx Hlc Hfind Hxi Hp0 Hli Hne Hf. destruct (fo_list _ _ F _ _ _ Hx Hlc) as (Sc & Nc & Pc).
  destruct (fo_list _ _ F _ _ _ Hxi Hli) as (Si & Ni & Pi).
  assert (init ∉ lc) as Hi1.
  { intros Hin. destruct (Pc _ Hin) as (y & Hy & Ey). assert (y = xi) as -> by congruence.
    rewrite Hp0 in Ey. rewrite <- Ey, (fo_null _ _ F) in Hx. done. }
  assert (init ∉ li) as Hi2 by (intros Hin; destruct (Pi _ Hin) as (y & Hy & Ey); by apply (fo_irrefl _ _ F _ _ Hy)).
  assert (proc ∉ lc) as Hpl by (intros Hin; destruct (Pc _ Hin) as (y & Hy & Ey); by apply (fo_irrefl _ _ F _ _ Hy)).
  assert (init <> 0) as Hi0 by (intros ->; rewrite (fo_null _ _ F) in Hxi; done).
  assert (forall y, y ∈ lc -> y ∉ li) as Hd by (intros y H1 H2; apply Hne; symmetry; by eapply (forest_unique s ch proc init)).
  destruct (reparent_run init lc s fuel (first_child x) li xi Sc Nc Hi1 Hfind Hxi Hi0 Si Hd Hi2 Hf)
    as (m' & xi' & E & C & Hxi' & Pxi & Nxi & S' & R & O).
  destruct (same_core_Some _ _ _ _ C Hx) as (x' & Hx' & Ex). assert (procs s !! proc = Some x') as Hxx by (rewrite <- O; done).
  assert (x' = x) as -> by congruence. exists m', x. split; [done|]. split; [done|]. split; [done|]. split; [done|].
  set (m2 := <[proc := pr_set_first 0 x]> m').
  assert (forall c y, procs s !! c = Some y -> c ∉ lc -> exists y', m2 !! c = Some y' /\ next_child y' = next_child y /\ parent y' = parent y) as Hnext.
  { intros c y Hy Hc. unfold m2. destruct (decide (c = proc)) as [->|Hcp].
    - rewrite lookup_insert_eq. eexists. split; [done|]. by simplify_eq.
    - rewrite lookup_insert_ne by done. destruct (decide (c = init)) as [->|]; [exists xi'; by simplify_eq|].
      exists y. by rewrite O. }
  assert (forall c y, c ∈ lc -> m' !! c = Some y -> m2 !! c = Some y) as Hlc2.
  { intros c y Hc Hy. unfold m2. rewrite lookup_insert_ne; [done|by intros ->]. }
  split; cbn [ts_procs procs].
  - unfold m2. rewrite !dom_insert_L, (fo_dom _ _ F), (same_core_dom _ _ C). apply elem_of_dom_2 in Hx, Hxi. set_solver.
  - unfold m2. rewrite lookup_insert_ne by (intros ->; rewrite (fo_null _ _ F) in Hx; done).
    apply not_elem_of_dom. rewrite (same_core_dom _ _ C). apply not_elem_of_dom, F.
  - intros q y' l Hy' Hl. destruct (decide (q = init)) as [->|Hqi]; [|destruct (decide (q = proc)) as [->|Hqp]].
    + rewrite lookup_insert_eq in Hl. injection Hl as <-. unfold m2 in Hy'. rewrite lookup_insert_ne in Hy' by (intros E'; by apply Hne).
      assert (y' = xi') as -> by congruence. split; [|split].
      * eapply sibs_ext; [|exact S']. intros c r Hc Hr. unfold m2. destruct (decide (c = proc)) as [->|].
        -- rewrite lookup_insert_eq. eexists. split; [done|]. by simplify_eq.
        -- exists r. by rewrite lookup_insert_ne.
      * apply list.NoDup_app. split; [by apply NoDup_rev|]. split; [|done]. intros c Hc%elem_of_rev. exact (Hd c Hc).
      * intros c [Hc%elem_of_rev|Hc]%elem_of_app.
        -- destruct (R c Hc) as (z & z' & _ & Hz' & Ep & _). exists z'. split; [|done]. by apply Hlc2.
        -- destruct (Pi c Hc) as (z & Hz & <-). destruct (Hnext c z Hz) as (z' & Hz' & _ & Ep); [intros Hc'; by apply (Hd c)|]. eauto.
    + rewrite lookup_insert_ne, lookup_insert_eq in Hl by done. injection Hl as <-. unfold m2 in Hy'. rewrite lookup_insert_eq in Hy'.
      injection Hy' as <-. split; [done|]. split; [constructor|]. by intros ? ?%elem_of_nil.
    + rewrite !lookup_insert_ne in Hl by done. unfold m2 in Hy'. rewrite lookup_insert_ne in Hy' by done.
      assert (exists y, procs s !! q = Some y /\ first_child y' = first_child y) as (y & Hy & Ef).
      { destruct (decide (q ∈ lc)) as [Hin|Hin].
        - destruct (R q Hin) as (z & z' & Hz & Hz' & _ & Ef). exists z. split; [done|]. congruence.
        - exists y'. by rewrite <- O. }
      destruct (fo_list _ _ F _ _ _ Hy Hl) as (S & N & P). rewrite Ef.
      assert (forall c, c ∈ l -> c ∉ lc) as Hnl by (intros c Hc Hc'; apply Hqp; by eapply (forest_unique s ch q proc)).
      split; [|split; [done|]].
      * eapply sibs_ext; [|exact S]. intros c r Hc Hr. destruct (Hnext c r Hr (Hnl c Hc)) as (r' & Hr' & En & _). eauto.
      * intros c Hc. destruct (P c Hc) as (z & Hz & <-). destruct (Hnext c z Hz (Hnl c Hc)) as (z' & Hz' & _ & Ep). eauto.
  - intros q y' Hy'. destruct (decide (q ∈ lc)) as [Hin|Hin].
    + destruct (R q Hin) as (z & z' & _ & Hz' & Ep & _). pose proof (Hlc2 q z' Hin Hz'). assert (y' = z') as -> by congruence.
      rewrite Ep. intros ->. done.
    + assert (is_Some (procs s !! q)) as [y Hy].
      { apply elem_of_dom. rewrite <- (same_core_dom _ _ C). apply elem_of_dom_2 in Hy'. unfold m2 in Hy'. rewrite dom_insert_L in Hy'.
        apply elem_of_dom_2 in Hx'. set_solver. }
      destruct (Hnext q y Hy Hin) as (z & Hz & _ & Ep). assert (y' = z) as -> by congruence. rewrite Ep. by eapply fo_irrefl.
Qed.

(** ** The end of a process *)
Lemma forest_upd s ch p x f : forest s ch -> procs s !! p = Some x ->
  parent (f x) = parent x -> first_child (f x) = first_child x -> next_child (f x) = next_child x ->
  forest (ts_procs (<[p := f x]> (procs s)) s) ch.
Proof.
  intros F Hx E1 E2 E3.
  assert (forall q y, procs s !! q = Some y -> exists y', <[p := f x]> (procs s) !! q = Some y' /\ parent y' = parent y /\
    first_child y' = first_child y /\ next_child y' = next_child y) as Hk.
  { intros q y Hy. destruct (decide (q = p)) as [->|]; [|exists y; by rewrite lookup_insert_ne].
    rewrite lookup_insert_eq. eexists. split; [done|]. by simplify_eq. }
  assert (forall q y', <[p := f x]> (procs s) !! q = Some y' -> exists y, procs s !! q = Some y) as Hb.
  { intros q y' Hy'. destruct (decide (q = p)) as [->|]; [by exists x|]. rewrite lookup_insert_ne in Hy' by done. eauto. }
  split; cbn [ts_procs procs].
  - rewrite dom_insert_L, (fo_dom _ _ F). apply elem_of_dom_2 in Hx. set_solver.
  - rewrite lookup_insert_ne by (intros ->; rewrite (fo_null _ _ F) in Hx; done). apply F.
  - intros q y' l Hy' Hl. destruct (Hb q y' Hy') as (y & Hy). destruct (Hk q y Hy) as (z & Hz & _ & Ef & _).
    assert (z = y') as -> by congruence. destruct (fo_list _ _ F _ _ _ Hy Hl) as (S & N & P). rewrite Ef. split; [|split; [done|]].
    + eapply sibs_ext; [|exact S]. intros c r _ Hr. destruct (Hk c r Hr) as (r' & Hr' & _ & _ & ?). eauto.
    + intros c Hc. destruct (P c Hc) as (r & Hr & <-). destruct (Hk c r Hr) as (r' & Hr' & ? & _). eauto.
  - intros q y' Hy'. destruct (Hb q y' Hy') as (y & Hy). destruct (Hk q y Hy) as (z & Hz & Ep & _).
    assert (z = y') as -> by congruence. rewrite Ep. by eapply fo_irrefl.
Qed.

Lemma forest_delete s ch p : forest s ch -> (forall q l, ch !! q = Some l -> p ∉ l) ->
  forest (ts_procs (delete p (procs s)) s) (delete p ch).
Proof.
  intros F Hn. split; cbn [ts_procs procs].
  - by rewrite !dom_delete_L, (fo_dom _ _ F).
  - rewrite lookup_delete_None. right. apply F.
  - intros q y l [Hq Hy]%lookup_delete_Some [_ Hl]%lookup_delete_Some. destruct (fo_list _ _ F _ _ _ Hy Hl) as (S & N & P).
    assert (forall c, c ∈ l -> c <> p) as Hcp by (intros c Hc ->; by eapply Hn).
    split; [|split; [done|]].
    + eapply sibs_ext; [|exact S]. intros c r Hc Hr. exists r. split; [|done]. rewrite lookup_delete_ne; [done|]. intros ->. by eapply Hcp.
    + intros c Hc. destruct (P c Hc) as (r & Hr & Ep). exists r. split; [|done]. rewrite lookup_delete_ne; [done|]. intros ->. by eapply Hcp.
  - intros q y [_ Hy]%lookup_delete_Some. by eapply fo_irrefl.
Qed.

(** The services the burial of the process [x] with the thread [tx] needs. *)
Definition bury_services (w : W) (proc : Z) (x : process) (thr : Z) (tx : thread) (w' : W) : Prop :=
  exists w1 w2 w3 w4 w5 w6,
    k_del_entry (pid x) w = Ret (tt, w1) /\ k_space_release (space x) w1 = Ret (tt, w2) /\
    free_kstack (Z.to_nat (rsp0_size (data tx) / MM_PAGE_SIZE)) (rsp0_base (data tx)) 0 w2 = Ret (tt, w3) /\
    (if space x =? mm_kernel then w4 = w3
     else exists c w0, k_read_cr3 w3 = Ret (c, w0) /\ MM_VIRTUALIZE c <> space x /\ k_space_free (space x) w0 = Ret (tt, w4)) /\
    k_kfree (fxsave (data tx)) w4 = Ret (tt, w5) /\ k_kfree thr w5 = Ret (tt, w6) /\ k_kfree proc w6 = Ret (tt, w').

Lemma core_fields x y : core x = core y -> pid x = pid y /\ space x = space y /\ thread_list x = thread_list y /\
  thread_count x = thread_count y /\ proc_state x = proc_state y /\ exit_status x = exit_status y.
Proof. by intros [= ]. Qed.

Lemma process_cleanup_run s ch proc x lc init xi li w1 w2 : forest s ch -> procs s !! proc = Some x -> ch !! proc = Some lc ->
  finds s 1 init -> procs s !! init = Some xi -> parent xi = 0 -> ch !! init = Some li -> init <> proc ->
  thread_count x = 1 -> proc_state x = PROC_FINISHED ->
  k_del_entry (pid x) (world s) = Ret (tt, w1) -> k_space_release (space x) w1 = Ret (tt, w2) ->
  exists m' x', process_cleanup proc s = Ret (tt, ts_world w2 (ts_procs m' s)) /\ m' !! proc = Some x' /\
    thread_list x' = thread_list x /\ space x' = space x /\ proc_state x' = PROC_FINISHED /\
    forest (ts_procs m' s) (<[init := rev lc ++ li]> (<[proc := []]> ch)).
Proof.
  intros F Hx Hlc Hfind Hxi Hp0 Hli Hne Htc Hst E1 E2. set (s1 := ts_world w1 s).
  assert (forest s1 ch) as F1 by (by destruct F; split).
  pose proof (forest_children _ _ _ _ _ F1 Hx Hlc) as Hlen.
  destruct (reparent_forest s1 ch proc x lc init xi li (S (size (procs s1))) F1 Hx Hlc Hfind Hxi Hp0 Hli Hne ltac:(lia))
    as (m' & x' & Er & C & Hx' & Ec & F2).
  destruct (core_fields _ _ Ec) as (_ & C2 & C3 & C4 & C5 & _).
  set (x2 := pr_set_flags (Z.lor (p_flags x') PROC_EMPTY) (pr_set_first 0 x')).
  exists (<[proc := x2]> m'), x2. split; [|split; [apply lookup_insert_eq|split; [done|split; [done|split]]]].
  - unfold process_cleanup. tget. tworld E1. unfold proc_fuel. tget. rewrite (bind_Ret _ _ _ _ _ Er). trun. trun.
    rewrite (bool_decide_eq_true_2 (proc_state _ = _)) by (cbn; congruence). trun.
    rewrite (proj2 (Z.eqb_eq (thread_count (pr_set_first 0 x')) 1)) by (cbn; congruence). trun. trun.
    cbn [pr_set_first space]. rewrite C2. unfold on_world. erewrite zoom_Ret by (tsimpl; exact E2). done.
  - cbn. congruence.
  - pose proof (forest_upd _ _ proc (pr_set_first 0 x') (fun p => pr_set_flags (Z.lor (p_flags p) PROC_EMPTY) p) F2
      (lookup_insert_eq _ _ _) eq_refl eq_refl eq_refl) as F3.
    cbn [ts_procs procs] in F3. rewrite insert_insert_eq in F3. by destruct F3; split.
Qed.

Lemma process_free_run s ch proc x lc init xi li thr tx w' : forest s ch -> procs s !! proc = Some x -> ch !! proc = Some lc ->
  finds s 1 init -> procs s !! init = Some xi -> parent xi = 0 -> ch !! init = Some li -> init <> proc ->
  thread_count x = 1 -> proc_state x = PROC_FINISHED -> hd_or 0 (thread_list x) = thr -> thr <> 0 -> threads s !! thr = Some tx ->
  (forall q l, ch !! q = Some l -> proc ∉ l) -> bury_services (world s) proc x thr tx w' ->
  exists s', process_free proc s = Ret (tt, s') /\ forest s' (delete proc (<[init := rev lc ++ li]> (<[proc := []]> ch))) /\
    procs s' !! proc = None /\ threads s' = delete thr (threads s) /\ proc_all s' = proc_all s.
Proof.
  intros F Hx Hlc Hfind Hxi Hp0 Hli Hne Htc Hst Hthr Ht0 Htx Hnl (w1 & w2 & w3 & w4 & w5 & w6 & E1 & E2 & E3 & E4 & E5 & E6 & E7).
  destruct (process_cleanup_run s ch proc x lc init xi li w1 w2 F Hx Hlc Hfind Hxi Hp0 Hli Hne Htc Hst E1 E2)
    as (m' & x' & Ec & Hx' & C1 & C2 & C3 & F2).
  unfold process_free. tget. rewrite (proj2 (Z.eqb_eq _ _) Htc). tget. rewrite (bind_Ret _ _ _ _ _ Ec). trun.
  rewrite (bool_decide_eq_true_2 (proc_state x' = _)) by done. trun. rewrite C1, Hthr, (nonnull_true _ Ht0). trun. trun.
  tworld E3. tflat. rewrite C2.
  match goal with |- context [(_ ≫= _) ?s1] => rewrite (bind_Ret _ _ s1 tt (ts_world w4 s1)) end.
  2: { destruct (space x =? mm_kernel) eqn:E; cbn [negb]; [by rewrite E4|]. destruct E4 as (c & w0 & E8 & E9 & E10).
       tworld E8. tflat. rewrite (proj2 (Z.eqb_neq _ _) E9). cbn [negb]. trun. unfold on_world.
       erewrite zoom_Ret by (tsimpl; exact E10). done. }
  tflat. tworld E5. trun. tworld E6. trun. unfold on_world. erewrite zoom_Ret by (tsimpl; exact E7). tflat.
  eexists. split; [reflexivity|]. split; [|split; [apply lookup_delete_eq|done]].
  assert (forall q l, <[init := rev lc ++ li]> (<[proc := []]> ch) !! q = Some l -> proc ∉ l) as Hnl'.
  { intros q l [(<- & <-)|[_ Hl]]%lookup_insert_Some; [|apply lookup_insert_Some in Hl as [(<- & <-)|[_ Hl]]; [by intros ?%elem_of_nil|eauto]].
    intros [Hin%elem_of_rev|Hin]%elem_of_app; [by eapply (Hnl proc)|by eapply (Hnl init)]. }
  pose proof (forest_delete _ _ proc F2 Hnl') as F3. by destruct F3; split.
Qed.

Lemma child_pid_run s n p x l2 : procs s !! p = Some x -> pid x = n -> p <> 0 -> forall l1 fuel c,
  sibs (procs s) c (l1 ++ p :: l2) 0 -> (length l1 < fuel)%nat ->
  (forall q y, q ∈ l1 -> procs s !! q = Some y -> pid y <> n) -> child_pid fuel c n s = Ret (p, s).
Proof.
  intros Hx Hn H0. induction l1 as [|q l1 IH]; intros fuel c Hs Hf Hl; (destruct fuel as [|fuel]; [cbn in Hf; lia|]);
    destruct Hs as (-> & Hq0 & r & Hr & Hs); cbn [child_pid]; rewrite (nonnull_true _ Hq0); cbn [negb]; tget.
  - assert (r = x) as -> by congruence. by rewrite (proj2 (Z.eqb_eq _ _) Hn).
  - rewrite (proj2 (Z.eqb_neq _ _)) by (eapply Hl; [by left|done]). apply IH; [done|cbn in Hf; lia|].
    intros y z Hy. apply Hl. by right.
Qed.

Lemma finds_filter s n p q : finds s n p -> p <> q -> finds (ts_proc_all (filter (fun x => x <> q) (proc_all s)) s) n p.
Proof.
  intros (a & b & E & Ha & Hx) Hne. exists (filter (fun x => x <> q) a), (filter (fun x => x <> q) b). split; [|split; [|done]].
  - cbn [ts_proc_all proc_all]. rewrite E, list.filter_app, filter_cons_True by done. done.
  - intros r [_ Hr]%list_elem_of_filter. by apply Ha.
Qed.

(** The forest after [chld] is gone: its parent loses it, process [init] gets its children. *)
Definition buried (ch : gmap Z (list Z)) (par chld init : Z) (l lc li : list Z) : gmap Z (list Z) :=
  delete chld (<[init := rev lc ++ (if decide (init = par) then l else li)]> (<[chld := []]> (<[par := l]> ch))).

Lemma wait_report_run s ch par xp l1 chld l2 x lc init xi li thr tx w' : forest s ch -> procs s !! par = Some xp ->
  ch !! par = Some (l1 ++ chld :: l2) -> procs s !! chld = Some x -> ch !! chld = Some lc ->
  finds s 1 init -> procs s !! init = Some xi -> parent xi = 0 -> ch !! init = Some li -> init <> chld ->
  thread_count x = 1 -> proc_state x = PROC_FINISHED -> hd_or 0 (thread_list x) = thr -> thr <> 0 -> threads s !! thr = Some tx ->
  bury_services (world s) chld x thr tx w' ->
  exists s', wait_report chld s = Ret ((pid x, Some (exit_status x)), s') /\
    forest s' (buried ch par chld init (l1 ++ l2) lc li) /\ procs s' !! chld = None /\ threads s' = delete thr (threads s) /\
    proc_all s' = filter (fun p => p <> chld) (proc_all s).
Proof.
  intros F Hp Hl Hx Hlc Hfind Hxi Hp0 Hli Hne Htc Hst Hthr Ht0 Htx Hb.
  destruct (fo_list _ _ F _ _ _ Hp Hl) as (_ & Hn & Pl). destruct (Pl chld ltac:(set_solver)) as (y & Hy & Ey).
  assert (y = x) as -> by congruence. subst par.
  assert (parent x <> chld) as Hpc by by eapply fo_irrefl.
  destruct (unchild_run s ch chld x l1 l2 F Hx ltac:(by eexists) Hl) as (m1 & E1 & F1 & C1 & P1 & Fc1).
  destruct (same_core_Some _ _ _ _ C1 Hx) as (x1 & Hx1 & Ex). destruct (core_fields _ _ Ex) as (K1 & K2 & K3 & K4 & K5 & K6).
  destruct (same_core_Some _ _ _ _ C1 Hxi) as (xi1 & Hxi1 & _).
  set (s2 := ts_proc_all (filter (fun p => p <> chld) (proc_all s)) (ts_procs m1 s)).
  assert (forest s2 (<[parent x := l1 ++ l2]> ch)) as F2 by (by destruct F1; split).
  assert (chld ∉ l1 ++ l2) as Hnl.
  { rewrite <- Permutation_middle in Hn. by apply list.NoDup_cons in Hn as [? _]. }
  destruct (process_free_run s2 (<[parent x := l1 ++ l2]> ch) chld x1 lc init xi1 (if decide (init = parent x) then l1 ++ l2 else li)
    thr tx w') as (s' & E2 & F3 & D1 & D2 & D3); try done.
  - by rewrite lookup_insert_ne.
  - apply (finds_filter (ts_procs m1 s)); [|done]. by eapply finds_core.
  - by rewrite (P1 init xi xi1 Hxi Hxi1).
  - case_decide as E; [by rewrite E, lookup_insert_eq|]. by rewrite lookup_insert_ne.
  - congruence.
  - congruence.
  - by rewrite K3.
  - intros q l [(<- & <-)|[Hq Hql]]%lookup_insert_Some; [done|]. intros Hin. apply Hq. eapply (forest_unique s ch); [done..|exact Hl|exact Hql| |exact Hin].
    set_solver.
  - unfold bury_services in *. by rewrite K1, K2.
  - exists s'. split; [|done]. unfold wait_report. tget. rewrite bool_decide_eq_true_2 by done.
    rewrite (bind_Ret _ _ _ _ _ E1). erewrite bind_Ret by reflexivity. rewrite (bind_Ret _ _ _ _ _ E2). done.
Qed.

(** A child that has finished is reported in the first pass of the loop. *)
Lemma waitpid_loop_finished s fuel me thr proc n flags chld x r s' : 0 < n -> procs s !! chld = Some x ->
  proc_state x = PROC_FINISHED -> wait_report chld s = Ret (r, s') ->
  waitpid_loop (S fuel) me thr proc n flags chld s = Ret (WaitDone r.1 r.2, s').
Proof.
  intros Hn Hx Hf E. cbn [waitpid_loop]. unfold proc_fuel. tget. rewrite (proj2 (Z.ltb_lt _ _) Hn). tget.
  unfold wait_check_pid. rewrite Hf, bool_decide_eq_true_2 by done. cbn [orb]. rewrite (bind_Ret _ _ _ _ _ E). by destruct r.
Qed.

Lemma wait_fuel_S : wait_fuel = S (Nat.pred wait_fuel).
Proof. reflexivity. Qed.
End tree.

(** C12: [waitpid] on a finished child returns its identifier and exit status and removes
    it for good: no process lists it any more, its record and its thread are gone,
    its own children now belong to process 1 and the other children of the caller
    stay in order. *)
Theorem waitpid_buries_child {W} `{Kernel W} (s : tstate W) ch me flags t st par xp l1 chld l2 x lc init xi li thr tx w' :
  forest s ch -> 0 <= me -> cpu_thread s !! Z.to_nat me = Some t -> t <> 0 -> threads s !! t = Some st -> t_proc st = par ->
  procs s !! par = Some xp -> ch !! par = Some (l1 ++ chld :: l2) -> procs s !! chld = Some x -> ch !! chld = Some lc ->
  0 < pid x -> (forall q y, q ∈ l1 -> procs s !! q = Some y -> pid y <> pid x) ->
  finds s 1 init -> procs s !! init = Some xi -> parent xi = 0 -> ch !! init = Some li -> init <> chld ->
  thread_count x = 1 -> proc_state x = PROC_FINISHED -> hd_or 0 (thread_list x) = thr -> thr <> 0 -> threads s !! thr = Some tx ->
  bury_services (world s) chld x thr tx w' ->
  exists s', sys_waitpid me (pid x) flags s = Ret (WaitDone (pid x) (Some (exit_status x)), s') /\
    forest s' (buried ch par chld init (l1 ++ l2) lc li) /\ procs s' !! chld = None /\ threads s' = delete thr (threads s) /\
    chld ∉ proc_all s'.
Proof.
  intros F Hme Hc Ht0 Hst Hpar Hp Hl Hx Hlc Hpid Hdiff Hfind Hxi Hp0 Hli Hne Htc Hfin Hthr Hthr0 Htx Hb.
  destruct (wait_report_run s ch par xp l1 chld l2 x lc init xi li thr tx w' F Hp Hl Hx Hlc Hfind Hxi Hp0 Hli Hne Htc Hfin Hthr Hthr0 Htx Hb)
    as (s' & E & F' & D1 & D2 & D3).
  destruct (fo_list _ _ F _ _ _ Hp Hl) as (Hs & _ & _). pose proof (forest_children _ _ _ _ _ F Hp Hl) as Hlen.
  destruct (sibs_in _ _ _ _ chld Hs ltac:(set_solver)) as [Hc0 _].
  assert (par <> 0) as Hpar0 by (intros ->; rewrite (fo_null _ _ F) in Hp; done).
  exists s'. split; [|split; [done|split; [done|split; [done|rewrite D3; by intros [[] _]%list_elem_of_filter]]]].
  unfold sys_waitpid, self. rewrite (bind_Ret _ _ _ _ _ (at_cpu_run s cpu_thread me t Hme Hc)). rewrite (nonnull_true _ Ht0).
  tget. tget. rewrite Hpar, (nonnull_true _ Hpar0). tget. tget. rewrite (proj2 (Z.ltb_lt _ _) Hpid).
  assert (process_child par (pid x) s = Ret (chld, s)) as Ech.
  { unfold process_child. tget. unfold proc_fuel. tget. eapply child_pid_run; [exact Hx|done|done|exact Hs| |done].
    rewrite length_app in Hlen. cbn in Hlen. lia. }
  rewrite (bind_Ret _ _ _ _ _ Ech), (nonnull_true _ Hc0), wait_fuel_S. by rewrite (waitpid_loop_finished _ _ _ _ _ _ _ _ _ _ _ Hpid Hx Hfin E).
Qed.

Definition fam_children : gmap Z (list Z) := {[ 100 := [101; 102]; 101 := []; 102 := [103]; 103 := [] ]}.

Lemma family_forest : forest family fam_children.
Proof.
  split; [by vm_compute|done|..].
  - intros p x l Hx Hl. change (fam_procs !! p = Some x) in Hx. apply fam_proc_lookup in Hx.
    let l := eval vm_compute in (map_to_list fam_procs) in change (map_to_list fam_procs) with l in Hx.
    demo_cases; vm_compute in Hl; injection Hl as <-; (split; [vm_compute; repeat (first [done|split; [done|]|eexists])|split]);
      try (repeat (apply list.NoDup_cons; split; [set_solver|]); apply NoDup_nil_2);
      intros c Hc; demo_cases; subst; eexists; (split; [reflexivity|done]).
  - intros p x Hx. change (fam_procs !! p = Some x) in Hx. apply fam_proc_lookup in Hx.
    let l := eval vm_compute in (map_to_list fam_procs) in change (map_to_list fam_procs) with l in Hx.
    demo_cases; done.
Qed.

Lemma waitpid_buries_child_witness : exists s', sys_waitpid 0 3 0 family = Ret (WaitDone 3 (Some 7), s') /\
  forest s' {[ 100 := [103; 101]; 101 := []; 103 := [] ]} /\ procs s' !! 102 = None /\
  threads s' = delete 12 (threads family) /\ 102 ∉ proc_all s'.
Proof.
  assert (buried fam_children 100 102 100 [101] [103] [101; 102] = {[ 100 := [103; 101]; 101 := []; 103 := [] ]}) as E
    by (vm_compute; reflexivity).
  rewrite <- E.
  eapply (waitpid_buries_child family fam_children 0 0 10 _ 100 _ [101] 102 [] (fam_process 3 PROC_FINISHED 12 100 103 0) [103] 100 _
    [101; 102] 12 _); try first [exact family_forest|reflexivity|done].
  - intros q y ->%list_elem_of_singleton Hy. vm_compute in Hy. by injection Hy as <-.
  - exists [103; 102; 101], []. split; [done|]. split.
    + intros q Hq. demo_cases; subst; eexists; (split; [reflexivity|done]).
    + eexists. by split.
  - eexists _, _, _, _, _, _. do 3 (split; [reflexivity|]). split; [eexists _, _; by split_and!|]. by split_and!.
Defined.
