(* ===== verification/Context.v ===== *)
(** * Context switches and signal frames: [arch/amd64/sched_s.S], [sys/thread.c]

    The assembly that saves and restores the callee-saved registers, the stack
    pointer, the FPU and the address space of a thread, and the frames signals are
    delivered on.  [machine] is one processor with its registers, the static buffer
    [fxsave_buf], and the threads and memory of [Task] and [Kernel].  Memory a C
    function called from here uses below the stack pointer is not modelled. *)

From S2P Require Import Prelude Defs Wait Phys Vnode Paging Kernel Task ListHead Sched SchedInv Thread Process ProcessInv.

Record cpu_state := mk_cpu { c_regs : sregs; c_sp : Z; c_cr3 : Z; c_tss : Z; c_fpu : list Z }.

Record machine {W : Type} := mk_machine { m_cpu : cpu_state; m_fxbuf : list Z; m_tasks : tstate W }.
Arguments machine : clear implicits.

(** The FPU state fills [FXSAVE_REGION] bytes. *)
Definition FPU_WORDS : nat := Z.to_nat (FXSAVE_REGION / 8).

Definition td_set_top x (d : thread_data) := mk_tdata (rsp0 d) x (cr3 d) (rsp0_sigenter d) (rsp0_base d) (rsp0_size d) (rsp3_base d) (rsp3_size d) (fxsave d).
Definition td_set_sigenter x (d : thread_data) := mk_tdata (rsp0 d) (rsp0_top d) (cr3 d) x (rsp0_base d) (rsp0_size d) (rsp3_base d) (rsp3_size d) (fxsave d).

Section context.
Context {W : Type} `{Kernel W}.
Abbreviation M := (cmd (machine W)).
Implicit Types m : machine W.

Definition set_cpu c m : machine W := mk_machine _ c (m_fxbuf m) (m_tasks m).
Definition set_fxbuf b m : machine W := mk_machine _ (m_cpu m) b (m_tasks m).
Definition set_tasks s m : machine W := mk_machine _ (m_cpu m) (m_fxbuf m) s.
Definition on_tasks {A} (c : cmd (tstate W) A) : M A := czoom m_tasks set_tasks c.
Definition mem {A} (c : cmd W A) : M A := on_tasks (on_world c).

Definition cpu_regs r (c : cpu_state) := mk_cpu r (c_sp c) (c_cr3 c) (c_tss c) (c_fpu c).
Definition cpu_sp x (c : cpu_state) := mk_cpu (c_regs c) x (c_cr3 c) (c_tss c) (c_fpu c).
Definition cpu_cr3 x (c : cpu_state) := mk_cpu (c_regs c) (c_sp c) x (c_tss c) (c_fpu c).
Definition cpu_tss x (c : cpu_state) := mk_cpu (c_regs c) (c_sp c) (c_cr3 c) x (c_fpu c).
Definition cpu_fpu x (c : cpu_state) := mk_cpu (c_regs c) (c_sp c) (c_cr3 c) (c_tss c) x.
Definition on_cpu (f : cpu_state -> cpu_state) : M unit := cmodify (fun m => set_cpu (f (m_cpu m)) m).
Definition get_cpu : M cpu_state := cgets m_cpu.

(** ** Memory blocks *)
Fixpoint store_words (a : Z) (l : list Z) : cmd W unit :=
  match l with
  | [] => mret tt
  | v :: l => k_store a v;; store_words (u64 (a + 8)) l
  end.
Fixpoint load_words (n : nat) (a : Z) : cmd W (list Z) :=
  match n with
  | O => mret []
  | S n => v ← k_load a; l ← load_words n (u64 (a + 8)); mret (v :: l)
  end.

(** ** The FPU *)
Definition context_save_fpu (new old : Z) : M unit :=
  cassert (nonnull old);;
  t ← on_tasks (get_thread old);
  if nonnull (fxsave (data t)) then
    c ← get_cpu;
    cmodify (set_fxbuf (c_fpu c));;
    mem (store_words (fxsave (data t)) (c_fpu c));;
    on_tasks (upd_thread old (fun t => th_set_flags (Z.lor (t_flags t) THREAD_FPU_SAVED) t))
  else mret tt.

Definition context_restore_fpu (new old : Z) : M unit :=
  cassert (nonnull new);;
  t ← on_tasks (get_thread new);
  if flagged (t_flags t) THREAD_FPU_SAVED then
    l ← mem (load_words FPU_WORDS (fxsave (data t)));
    cmodify (set_fxbuf l);;
    on_cpu (cpu_fpu l);;
    on_tasks (upd_thread new (fun t => th_set_flags (Z.land (t_flags t) (Z.lnot THREAD_FPU_SAVED)) t))
  else mret tt.

(** ** Switching

    The two arguments are kept on the stack around the calls of C functions and read
    back.  The first half leaves the old thread. *)
Definition saved_words (r : sregs) : list Z := [g_r15 r; g_r14 r; g_r13 r; g_r12 r; g_rbp r; g_rbx r].

Definition context_switch_out (new old : Z) : M (Z * Z) :=
  c ← get_cpu;
  sp ← mem (push_all [new; old] (c_sp c));
  context_save_fpu new old;;
  '(rsi, sp) ← mem (pop sp);
  '(rdi, sp) ← mem (pop sp);
  sp ← mem (push_all (saved_words (c_regs c)) sp);
  on_cpu (cpu_sp sp);;
  on_tasks (upd_thread rsi (th_upd_data (td_set_rsp0 sp)));;
  mret (rdi, rsi).

(** The [test] instruction: the load of [cr3] is skipped when the two addresses have
    no bit in common. *)
Definition load_cr3 (x : Z) : M unit :=
  c ← get_cpu; if Z.land x (c_cr3 c) =? 0 then mret tt else on_cpu (cpu_cr3 x).

(** The second half enters the new thread; the result is where [ret] goes. *)
Definition context_switch_in (new old : Z) : M Z :=
  t ← on_tasks (get_thread new);
  '(rbx, sp) ← mem (pop (rsp0 (data t))); '(rbp, sp) ← mem (pop sp); '(r12, sp) ← mem (pop sp);
  '(r13, sp) ← mem (pop sp); '(r14, sp) ← mem (pop sp); '(r15, sp) ← mem (pop sp);
  on_cpu (fun c => cpu_sp sp (cpu_regs (mk_sregs rbx rbp r12 r13 r14 r15) c));;
  sp ← mem (push_all [new; old] sp);
  context_restore_fpu new old;;
  '(rsi, sp) ← mem (pop sp);
  '(rdi, sp) ← mem (pop sp);
  t ← on_tasks (get_thread rdi);
  on_cpu (cpu_tss (rsp0_top (data t)));;
  load_cr3 (cr3 (data t));;
  '(ra, sp) ← mem (pop sp);
  on_cpu (cpu_sp sp);;
  mret ra.

Definition context_switch_to (new old : Z) : M Z :=
  '(rdi, rsi) ← context_switch_out new old; context_switch_in rdi rsi.

(** ** Signals: [self] is the thread of this processor; the handler is entered with
    the frame and with [arg] in [rdi]. *)
Definition context_sigenter (self entry stack arg : Z) : M (iframe * Z) :=
  c ← get_cpu;
  sp ← mem (push_all (saved_words (c_regs c)) (c_sp c));
  on_tasks (upd_thread self (th_upd_data (fun d => td_set_top sp (td_set_rsp0 sp (td_set_sigenter sp d)))));;
  on_cpu (fun c => cpu_tss sp (cpu_sp sp c));;
  sp ← mem (push_all [0x1B; stack; 0x200; 0x23; entry] sp);
  '(rip, sp) ← mem (pop sp); '(cs, sp) ← mem (pop sp); '(rflags, sp) ← mem (pop sp); '(rsp, sp) ← mem (pop sp);
  '(ss, sp) ← mem (pop sp);
  mret (mk_iframe rip cs rflags rsp ss, arg).

Definition context_sigreturn (self : Z) : M Z :=
  t ← on_tasks (get_thread self);
  '(rbx, sp) ← mem (pop (rsp0_sigenter (data t))); '(rbp, sp) ← mem (pop sp); '(r12, sp) ← mem (pop sp);
  '(r13, sp) ← mem (pop sp); '(r14, sp) ← mem (pop sp); '(r15, sp) ← mem (pop sp);
  '(ra, sp) ← mem (pop sp);
  on_cpu (fun c => cpu_sp sp (cpu_regs (mk_sregs rbx rbp r12 r13 r14 r15) c));;
  mret ra.

(** The delivery of a signal to the current thread ([thread_sigenter] from the
    assertions on) up to the handler, and what runs when the handler has returned;
    [top] is the local [old_rsp0_top]. *)
Definition deliver_signal (self signum : Z) : M (iframe * Z * Z) :=
  t ← on_tasks (get_thread self);
  cassert (bool_decide (signal_entry t <> MM_NADDR));;
  cassert (bool_decide (signal_stack_base t <> MM_NADDR));;
  f ← context_sigenter self (signal_entry t) (u64 (signal_stack_base t + signal_stack_size t)) signum;
  mret (f, rsp0_top (data t)).

Definition signal_returned (self top : Z) : M unit :=
  on_tasks (upd_thread self (th_upd_data (td_set_top top)));;
  on_cpu (cpu_tss top).
End context.

(** ** Memory lemmas *)
Definition disjoint_areas (a n b k : Z) : Prop := a + n <= b \/ b + k <= a.

Section words.
Context {W : Type} `{Kernel W, !StackMem W}.

Lemma mod8_add a k : a mod 8 = 0 -> (a + 8 * k) mod 8 = 0.
Proof. intros Ha. rewrite Z.mul_comm, Z_mod_plus_full. done. Qed.
Lemma mod8_sub a k : a mod 8 = 0 -> (a - 8 * k) mod 8 = 0.
Proof. intros Ha. replace (a - 8 * k) with (a + 8 * (- k)) by lia. by apply mod8_add. Qed.

Lemma words_at_frame (w w' : W) l : forall a, a mod 8 = 0 ->
  (forall b, a <= b < a + 8 * Z.of_nat (length l) -> b mod 8 = 0 -> k_word w' b = k_word w b) ->
  words_at w a l -> words_at w' a l.
Proof.
  induction l as [|v l IH]; intros a Ha Hb; [done|]. cbn [words_at length] in *. intros [Hv Hl].
  split; [rewrite Hb by (lia || done); done|]. apply (IH (a + 8)); [exact (mod8_add a 1 Ha)|intros; apply Hb; [lia|done]|done].
Qed.

Lemma push_frame l : forall top (w : W), top mod 8 = 0 -> 8 * Z.of_nat (length l) <= top < 2 ^ 64 ->
  exists w', push_all l top w = Ret (top - 8 * Z.of_nat (length l), w') /\
    words_at w' (top - 8 * Z.of_nat (length l)) (rev l) /\
    (forall b, b mod 8 = 0 -> ~ (top - 8 * Z.of_nat (length l) <= b < top) -> k_word w' b = k_word w b).
Proof.
  induction l as [|v l IH]; intros top w Hm Hr.
  { exists w. cbn [push_all length rev]. change (8 * Z.of_nat 0) with 0. rewrite Z.sub_0_r. done. }
  cbn [push_all length] in *. rewrite Nat2Z.inj_succ in *. rewrite (uwrap_small 64 (top - 8)) by lia.
  assert ((top - 8) mod 8 = 0) as Hm8 by exact (mod8_sub top 1 Hm).
  destruct (k_store_word w (top - 8) v Hm8) as (w1 & E1 & V1 & O1).
  destruct (IH (top - 8) w1 Hm8 ltac:(lia)) as (w2 & E2 & A2 & O2). exists w2. step_run E1. rewrite E2.
  replace (top - 8 - 8 * Z.of_nat (length l)) with (top - 8 * Z.succ (Z.of_nat (length l))) in * by lia.
  split; [done|]. split.
  - cbn [rev]. apply words_at_app. split; [exact A2|]. rewrite length_rev. split; [|done].
    replace (top - 8 * Z.succ (Z.of_nat (length l)) + 8 * Z.of_nat (length l)) with (top - 8) by lia.
    rewrite O2 by (done || lia). done.
  - intros b Hbm Hb. rewrite O2 by (lia || done). apply O1; [done|lia].
Qed.

Lemma store_frame l : forall a (w : W), a mod 8 = 0 -> 0 <= a -> a + 8 * Z.of_nat (length l) < 2 ^ 64 ->
  exists w', store_words a l w = Ret (tt, w') /\ words_at w' a l /\
    (forall b, b mod 8 = 0 -> ~ (a <= b < a + 8 * Z.of_nat (length l)) -> k_word w' b = k_word w b).
Proof.
  induction l as [|v l IH]; intros a w Hm Ha Hr; [by exists w|]. cbn [store_words length] in *.
  destruct (k_store_word w a v Hm) as (w1 & E1 & V1 & O1). rewrite (uwrap_small 64 (a + 8)) by lia.
  destruct (IH (a + 8) w1 (mod8_add a 1 Hm) ltac:(lia) ltac:(lia)) as (w2 & E2 & A2 & O2). exists w2. step_run E1.
  split; [done|]. split.
  - split; [|done]. rewrite O2 by (done || lia). done.
  - intros b Hbm Hb. rewrite O2 by (done || lia). apply O1; [done|lia].
Qed.

Lemma load_words_run (w : W) l : forall a, words_at w a l -> 0 <= a -> a + 8 * Z.of_nat (length l) < 2 ^ 64 ->
  load_words (length l) a w = Ret (l, w).
Proof.
  induction l as [|v l IH]; intros a Hw Ha Hr; [done|]. cbn [load_words length words_at] in *. destruct Hw as [Hv Hl].
  step_run (k_load_word w a v Hv). rewrite (uwrap_small 64 (a + 8)) by lia.
  by step_run (IH (a + 8) Hl ltac:(lia) ltac:(lia)).
Qed.
End words.

(** ** Threads that run and threads that are parked *)
Definition mw {W} (m : machine W) : W := world (m_tasks m).
Definition set_w {W} (w : W) (m : machine W) : machine W := set_tasks (ts_world w (m_tasks m)) m.

(** A save area for the FPU: aligned, and inside the address space. *)
Definition fx_ok (a : Z) : Prop := a mod 8 = 0 /\ 0 <= a /\ a + FXSAVE_REGION < 2 ^ 64.
(** The return address and the six registers above and below a stack pointer. *)
Definition frame_base (sp : Z) : Z := sp - 48.
Definition FRAME : Z := 56.

(** The processor of [m] runs [thr], whose stack pointer is at the return address [ra]. *)
Record running {W} `{Kernel W, !StackMem W} (m : machine W) (thr : Z) (x : thread) (ra : Z) : Prop := {
  run_thread : threads (m_tasks m) !! thr = Some x;
  run_ne : thr <> 0;
  run_sp : c_sp (m_cpu m) mod 8 = 0 /\ 64 <= c_sp (m_cpu m) < 2 ^ 64 - 16;
  run_ra : k_word (mw m) (c_sp (m_cpu m)) = Some ra;
  run_flag : flagged (t_flags x) THREAD_FPU_SAVED = false;
  run_fpu : length (c_fpu (m_cpu m)) = FPU_WORDS;
  run_fx : fxsave (data x) <> 0 -> fx_ok (fxsave (data x)) /\
    disjoint_areas (fxsave (data x)) FXSAVE_REGION (frame_base (c_sp (m_cpu m))) FRAME;
}.

(** [thr] waits in memory with the registers [r] and the FPU state [fpu], to go on at
    [ra] with the stack pointer behind [sp]. *)
Record parked {W} `{Kernel W, !StackMem W} (m : machine W) (thr : Z) (x : thread) (r : sregs) (ra sp : Z) (fpu : list Z) : Prop := {
  pk_thread : threads (m_tasks m) !! thr = Some x;
  pk_ne : thr <> 0;
  pk_sp : sp mod 8 = 0 /\ 64 <= sp < 2 ^ 64 - 16;
  pk_rsp0 : rsp0 (data x) = frame_base sp;
  pk_words : words_at (mw m) (frame_base sp) (rev (saved_words r) ++ [ra]);
  pk_fpu : length fpu = FPU_WORDS;
  pk_fx : fxsave (data x) <> 0 -> fx_ok (fxsave (data x)) /\
    disjoint_areas (fxsave (data x)) FXSAVE_REGION (frame_base sp) FRAME /\
    flagged (t_flags x) THREAD_FPU_SAVED = true /\ words_at (mw m) (fxsave (data x)) fpu;
  pk_nofx : fxsave (data x) = 0 -> flagged (t_flags x) THREAD_FPU_SAVED = false;
}.

Section switch.
Context {W : Type} `{Kernel W, !StackMem W}.
Implicit Types m : machine W.

Lemma mem_run {A} (c : cmd W A) m a w' : c (mw m) = Ret (a, w') -> mem c m = Ret (a, set_w w' m).
Proof. intros E. unfold mem, on_tasks, on_world. by rewrite (zoom_Ret _ _ _ _ _ _ (zoom_Ret _ _ _ _ _ _ E)). Qed.

Lemma set_w_id m : set_w (mw m) m = m.
Proof. by destruct m as [c b []]. Qed.
Lemma set_w_twice m w w' : set_w w' (set_w w m) = set_w w' m.
Proof. done. Qed.

Lemma mpop m sp v l : words_at (mw m) sp (v :: l) -> 0 <= sp < 2 ^ 64 - 8 ->
  mem (pop sp) m = Ret ((v, sp + 8), m).
Proof. intros Hw Hr. destruct (pop_run _ _ _ _ Hw Hr) as [E _]. by rewrite (mem_run _ _ _ _ E), set_w_id. Qed.

Lemma tasks_thread m t x : threads (m_tasks m) !! t = Some x -> on_tasks (get_thread t) m = Ret (x, m).
Proof.
  intros Hx. unfold on_tasks. rewrite (zoom_Ret _ _ _ _ _ _ (get_thread_run _ _ _ Hx)). by destruct m.
Qed.

Definition put_thread t x m : machine W := set_tasks (ts_threads (<[t := x]> (threads (m_tasks m))) (m_tasks m)) m.
Lemma tasks_update m t x f : threads (m_tasks m) !! t = Some x -> on_tasks (upd_thread t f) m = Ret (tt, put_thread t (f x) m).
Proof. intros Hx. unfold on_tasks. by rewrite (zoom_Ret _ _ _ _ _ _ (upd_thread_run _ _ _ _ Hx)). Qed.

Lemma FPU_bytes (l : list Z) : length l = FPU_WORDS -> 8 * Z.of_nat (length l) = FXSAVE_REGION.
Proof. by intros ->. Qed.

Definition fpu_saved (x : thread) : thread :=
  if nonnull (fxsave (data x)) then th_set_flags (Z.lor (t_flags x) THREAD_FPU_SAVED) x else x.

(** Saving the FPU writes the save area of the old thread, if it has one. *)
Lemma save_fpu_run m new old x ra : running m old x ra -> exists m', context_save_fpu new old m = Ret (tt, m') /\
  m_cpu m' = m_cpu m /\ threads (m_tasks m') = <[old := fpu_saved x]> (threads (m_tasks m)) /\
  (fxsave (data x) <> 0 -> words_at (mw m') (fxsave (data x)) (c_fpu (m_cpu m))) /\
  (forall b, b mod 8 = 0 -> (fxsave (data x) <> 0 -> ~ (fxsave (data x) <= b < fxsave (data x) + FXSAVE_REGION)) ->
    k_word (mw m') b = k_word (mw m) b).
Proof.
  intros R. unfold context_save_fpu, fpu_saved. rewrite (nonnull_true _ (run_ne _ _ _ _ R)).
  erewrite bind_Ret by reflexivity. rewrite (bind_Ret _ _ _ _ _ (tasks_thread _ _ _ (run_thread _ _ _ _ R))).
  destruct (decide (fxsave (data x) = 0)) as [E|E].
  { rewrite E. change (nonnull 0) with false. cbn iota. exists m. split; [done|]. split; [done|].
    split; [by rewrite insert_id by apply R|]. split; [done|]. done. }
  rewrite (nonnull_true _ E). destruct (run_fx _ _ _ _ R E) as [(Ha & H0 & H1) _].
  pose proof (FPU_bytes _ (run_fpu _ _ _ _ R)) as Hl.
  destruct (store_frame (c_fpu (m_cpu m)) (fxsave (data x)) (mw m) Ha H0 ltac:(lia)) as (w' & Ew & Aw & Ow).
  erewrite bind_Ret by reflexivity. erewrite bind_Ret by reflexivity.
  erewrite bind_Ret by (apply mem_run; exact Ew).
  rewrite (tasks_update _ _ x) by apply R. eexists. split; [reflexivity|]. split; [done|]. split; [done|]. split; [done|].
  intros b Hb Hn. apply Ow; [done|]. rewrite Hl. by apply Hn.
Qed.

(** The record a thread leaves behind when it is switched away from at [sp]. *)
Definition left_thread (x : thread) (sp : Z) : thread := th_upd_data (td_set_rsp0 (frame_base sp)) (fpu_saved x).

Lemma left_thread_fx x sp : fxsave (data (left_thread x sp)) = fxsave (data x).
Proof. unfold left_thread, fpu_saved. by destruct (nonnull _). Qed.

Lemma fpu_saved_flag x : fxsave (data x) <> 0 -> flagged (t_flags (fpu_saved x)) THREAD_FPU_SAVED = true.
Proof.
  intros E. unfold fpu_saved. rewrite (nonnull_true _ E). cbn. unfold flagged, THREAD_FPU_SAVED. apply negb_true_iff, Z.eqb_neq.
  intros Hz. assert (Z.testbit (Z.land (Z.lor (t_flags x) 4) 4) 2 = true) as Hb.
  { rewrite Z.land_spec, Z.lor_spec. change (Z.testbit 4 2) with true. by rewrite orb_true_r. }
  rewrite Hz in Hb. by rewrite Z.bits_0 in Hb.
Qed.

Lemma switch_out_run m new old x ra : running m old x ra ->
  exists m1, context_switch_out new old m = Ret ((new, old), m1) /\
    m_cpu m1 = cpu_sp (frame_base (c_sp (m_cpu m))) (m_cpu m) /\
    threads (m_tasks m1) = <[old := left_thread x (c_sp (m_cpu m))]> (threads (m_tasks m)) /\
    words_at (mw m1) (frame_base (c_sp (m_cpu m))) (rev (saved_words (c_regs (m_cpu m))) ++ [ra]) /\
    (fxsave (data x) <> 0 -> words_at (mw m1) (fxsave (data x)) (c_fpu (m_cpu m))) /\
    (forall b, b mod 8 = 0 -> (fxsave (data x) <> 0 -> ~ (fxsave (data x) <= b < fxsave (data x) + FXSAVE_REGION)) ->
      ~ (frame_base (c_sp (m_cpu m)) <= b < c_sp (m_cpu m)) -> k_word (mw m1) b = k_word (mw m) b).
Proof.
  intros R. destruct (run_sp _ _ _ _ R) as [Ha Hr]. set (sp := c_sp (m_cpu m)) in *. unfold context_switch_out.
  erewrite bind_Ret by reflexivity. fold sp.
  destruct (push_frame [new; old] sp (mw m) Ha ltac:(cbn; lia)) as (w1 & E1 & A1 & O1).
  cbn [length rev app] in E1, A1, O1. change (8 * Z.of_nat 2) with 16 in *.
  rewrite (bind_Ret _ _ _ _ _ (mem_run _ _ _ _ E1)). set (mm := set_w w1 m).
  assert (running mm old x ra) as R1.
  { destruct R. split; try done. cbn. rewrite O1 by (done || lia). done. }
  destruct (save_fpu_run mm new old x ra R1) as (m2 & E2 & C2 & T2 & A2 & O2). rewrite (bind_Ret _ _ _ _ _ E2).
  assert (words_at (mw m2) (sp - 16) [old; new]) as P2.
  { eapply words_at_frame; [exact (mod8_sub sp 2 Ha)| |exact A1]. cbn [length]. intros b Hb Hm. apply O2; [done|].
    intros Hfx. destruct (run_fx _ _ _ _ R Hfx) as [_ D]. unfold disjoint_areas, frame_base, FRAME in D. fold sp in D. lia. }
  rewrite (bind_Ret _ _ _ _ _ (mpop _ _ _ _ P2 ltac:(lia))). cbn beta iota. destruct P2 as [_ P2].
  rewrite (bind_Ret _ _ _ _ _ (mpop _ _ _ _ P2 ltac:(lia))). cbn beta iota. replace (sp - 16 + 8 + 8) with sp by lia.
  destruct (push_frame (saved_words (c_regs (m_cpu m))) sp (mw m2) Ha ltac:(cbn; lia)) as (w3 & E3 & A3 & O3).
  cbn [length saved_words] in E3, O3. change (8 * Z.of_nat 6) with 48 in *. change (8 * Z.of_nat (length (saved_words (c_regs (m_cpu m))))) with 48 in A3.
  rewrite (bind_Ret _ _ _ _ _ (mem_run _ _ _ _ E3)). cbn beta iota. erewrite bind_Ret by reflexivity.
  erewrite bind_Ret by (apply (tasks_update _ _ (fpu_saved x)); cbn; rewrite T2; apply lookup_insert_eq).
  eexists. split; [reflexivity|]. split; [cbn; by rewrite C2|]. split; [cbn; rewrite T2; apply insert_insert_eq|]. split.
  - apply words_at_app. split; [exact A3|]. rewrite length_rev. change (8 * Z.of_nat (length (saved_words (c_regs (m_cpu m))))) with 48.
    split; [|done]. cbn. rewrite O3 by ((unfold frame_base; rewrite Z.sub_add; done) || (unfold frame_base; lia)).
    unfold frame_base. rewrite Z.sub_add. rewrite O2; [|done|].
    + cbn. rewrite O1 by (done || lia). apply R.
    + intros Hfx. destruct (run_fx _ _ _ _ R Hfx) as [_ D]. unfold disjoint_areas, frame_base, FRAME in D. fold sp in D. lia.
  - split.
    + intros Hfx. destruct (run_fx _ _ _ _ R Hfx) as [(F1 & _) D]. unfold disjoint_areas, frame_base, FRAME in D. fold sp in D.
      eapply words_at_frame; [exact F1| |exact (A2 Hfx)]. rewrite (FPU_bytes _ (run_fpu _ _ _ _ R)). intros b Hb Hm.
      apply O3; [done|lia].
    + intros b Hb Hn Hf. unfold frame_base in Hf. cbn. rewrite O3 by (done || lia). rewrite O2 by done. cbn. apply O1; [done|lia].
Qed.

Definition fpu_restored (x : thread) : thread :=
  if nonnull (fxsave (data x)) then th_set_flags (Z.land (t_flags x) (Z.lnot THREAD_FPU_SAVED)) x else x.

(** What restoring the FPU needs of a thread. *)
Record fpu_kept m (thr : Z) (x : thread) (fpu : list Z) : Prop := {
  fk_thread : threads (m_tasks m) !! thr = Some x;
  fk_ne : thr <> 0;
  fk_len : length fpu = FPU_WORDS;
  fk_fx : fxsave (data x) <> 0 -> fx_ok (fxsave (data x)) /\ flagged (t_flags x) THREAD_FPU_SAVED = true /\
    words_at (mw m) (fxsave (data x)) fpu;
  fk_nofx : fxsave (data x) = 0 -> flagged (t_flags x) THREAD_FPU_SAVED = false;
}.

(** Restoring the FPU reads the save area back. *)
Lemma restore_fpu_run m new old x fpu : fpu_kept m new x fpu ->
  exists m', context_restore_fpu new old m = Ret (tt, m') /\ mw m' = mw m /\
    m_cpu m' = cpu_fpu (if nonnull (fxsave (data x)) then fpu else c_fpu (m_cpu m)) (m_cpu m) /\
    threads (m_tasks m') = <[new := fpu_restored x]> (threads (m_tasks m)).
Proof.
  intros [Hx Hne Hlen Hfx Hno]. unfold context_restore_fpu, fpu_restored. rewrite (nonnull_true _ Hne).
  erewrite bind_Ret by reflexivity. rewrite (bind_Ret _ _ _ _ _ (tasks_thread _ _ _ Hx)).
  destruct (decide (fxsave (data x) = 0)) as [E|E].
  { rewrite (Hno E), E. change (nonnull 0) with false. cbn iota. exists m. split; [done|].
    split; [done|]. split; [by destruct (m_cpu m)|]. by rewrite insert_id. }
  rewrite (nonnull_true _ E). destruct (Hfx E) as ((Fa & F0 & F1) & -> & Hw).
  pose proof (FPU_bytes _ Hlen) as Hl.
  assert (mem (load_words FPU_WORDS (fxsave (data x))) m = Ret (fpu, m)) as El.
  { rewrite <- Hlen. rewrite (mem_run _ _ _ _ (load_words_run (mw m) fpu _ Hw F0 ltac:(rewrite Hl; exact F1))). by rewrite set_w_id. }
  rewrite (bind_Ret _ _ _ _ _ El). erewrite bind_Ret by reflexivity. erewrite bind_Ret by reflexivity.
  rewrite (tasks_update _ _ x) by done. eexists. split; [reflexivity|]. done.
Qed.

Lemma switch_in_run m new old x r ra sp fpu : parked m new x r ra sp fpu ->
  exists m', context_switch_in new old m = Ret (ra, m') /\ c_regs (m_cpu m') = r /\ c_sp (m_cpu m') = sp + 8 /\
    c_tss (m_cpu m') = rsp0_top (data x) /\
    c_cr3 (m_cpu m') = (if Z.land (cr3 (data x)) (c_cr3 (m_cpu m)) =? 0 then c_cr3 (m_cpu m) else cr3 (data x)) /\
    c_fpu (m_cpu m') = (if nonnull (fxsave (data x)) then fpu else c_fpu (m_cpu m)).
Proof.
  intros P. destruct (pk_sp _ _ _ _ _ _ _ P) as [Ha Hr]. pose proof (pk_words _ _ _ _ _ _ _ P) as A.
  unfold context_switch_in. rewrite (bind_Ret _ _ _ _ _ (tasks_thread _ _ _ (pk_thread _ _ _ _ _ _ _ P))).
  rewrite (pk_rsp0 _ _ _ _ _ _ _ P). cbn [rev saved_words app] in A. unfold frame_base in *.
  do 6 (rewrite (bind_Ret _ _ _ _ _ (mpop _ _ _ _ A ltac:(lia))); cbn beta iota; destruct A as [_ A]).
  replace (sp - 48 + 8 + 8 + 8 + 8 + 8 + 8) with sp in * by lia. erewrite bind_Ret by reflexivity.
  set (m1 := set_cpu _ m). destruct (push_frame [new; old] sp (mw m1) Ha ltac:(cbn; lia)) as (w1 & E1 & A1 & O1).
  cbn [length rev app] in E1, A1, O1. change (8 * Z.of_nat 2) with 16 in *.
  rewrite (bind_Ret _ _ _ _ _ (mem_run _ _ _ _ E1)). set (m2 := set_w w1 m1).
  assert (fpu_kept m2 new x fpu) as K2.
  { destruct P as [H1 H2 _ _ _ H3 H4 H5]. split; [done..| |done]. intros E. destruct (H4 E) as (F & D & Fl & A').
    split; [done|]. split; [done|]. eapply words_at_frame; [apply F| |exact A'].
    rewrite (FPU_bytes _ H3). intros b Hb Hm. apply O1; [done|]. unfold disjoint_areas, frame_base, FRAME in D. lia. }
  destruct (restore_fpu_run m2 new old x fpu K2) as (m3 & E3 & W3 & C3 & T3). rewrite (bind_Ret _ _ _ _ _ E3).
  assert (words_at (mw m3) (sp - 16) [old; new]) as P3 by by rewrite W3.
  rewrite (bind_Ret _ _ _ _ _ (mpop _ _ _ _ P3 ltac:(lia))). cbn beta iota. destruct P3 as [_ P3].
  rewrite (bind_Ret _ _ _ _ _ (mpop _ _ _ _ P3 ltac:(lia))). cbn beta iota. replace (sp - 16 + 8 + 8) with sp by lia.
  rewrite (bind_Ret _ _ _ _ _ (tasks_thread m3 new (fpu_restored x) ltac:(rewrite T3; apply lookup_insert_eq))).
  assert (data (fpu_restored x) = data x) as -> by (unfold fpu_restored; by destruct (nonnull _)).
  erewrite bind_Ret by reflexivity. set (m4 := set_cpu _ m3).
  assert (words_at (mw m4) sp [ra]) as P4.
  { split; [|done]. change (mw m4) with (mw m3). rewrite W3. cbn. rewrite O1 by (done || lia). apply A. }
  set (c5 := if Z.land (cr3 (data x)) (c_cr3 (m_cpu m)) =? 0 then m_cpu m4 else cpu_cr3 (cr3 (data x)) (m_cpu m4)).
  assert (load_cr3 (cr3 (data x)) m4 = Ret (tt, set_cpu c5 m4)) as E5.
  { unfold load_cr3. erewrite bind_Ret by reflexivity. unfold c5. replace (c_cr3 (m_cpu m4)) with (c_cr3 (m_cpu m)) by (cbn; by rewrite C3).
    destruct (_ =? 0); [|done]. by destruct m3 as [[] ? ?]. }
  rewrite (bind_Ret _ _ _ _ _ E5), (bind_Ret _ _ _ _ _ (mpop (set_cpu c5 m4) sp ra [] P4 ltac:(lia))). cbn beta iota.
  erewrite bind_Ret by reflexivity. eexists. split; [reflexivity|].
  assert (m_cpu m4 = cpu_tss (rsp0_top (data x)) (m_cpu m3)) as C4 by done. rewrite C3 in C4.
  unfold c5. cbn [set_cpu cpu_sp m_cpu c_regs c_sp c_tss c_cr3 c_fpu]. rewrite C4.
  destruct (_ =? 0); cbn; (split; [by destruct r|]); done.
Qed.
End switch.

(** The memory that holds a parked thread [x] that stopped at [sp], and the memory
    that is written when a thread [x] is switched away from at [sp]. *)
Definition parked_at (x : thread) (sp b : Z) : Prop := frame_base sp <= b < sp + 8 \/
  (fxsave (data x) <> 0 /\ fxsave (data x) <= b < fxsave (data x) + FXSAVE_REGION).
Definition written_at (x : thread) (sp b : Z) : Prop := frame_base sp <= b < sp \/
  (fxsave (data x) <> 0 /\ fxsave (data x) <= b < fxsave (data x) + FXSAVE_REGION).

Section resume.
Context {W : Type} `{Kernel W, !StackMem W}.
Implicit Types m : machine W.

Lemma switch_out_parks m new old x ra : running m old x ra ->
  exists m1, context_switch_out new old m = Ret ((new, old), m1) /\
    parked m1 old (left_thread x (c_sp (m_cpu m))) (c_regs (m_cpu m)) ra (c_sp (m_cpu m)) (c_fpu (m_cpu m)).
Proof.
  intros R. destruct (switch_out_run m new old x ra R) as (m1 & E & C1 & T1 & A1 & F1 & _). exists m1. split; [done|].
  split; [rewrite T1; apply lookup_insert_eq|apply R|apply R|done|done|apply R|..]; rewrite left_thread_fx.
  - intros Hfx. destruct (run_fx _ _ _ _ R Hfx) as [? ?]. split; [done|]. split; [done|].
    split; [apply (fpu_saved_flag x Hfx)|by apply F1].
  - intros Hfx. unfold left_thread, fpu_saved. rewrite Hfx. apply R.
Qed.

(** A parked thread stays parked as long as nothing touches its record and memory. *)
Lemma parked_frame m m' thr x r ra sp fpu : parked m thr x r ra sp fpu ->
  threads (m_tasks m') !! thr = threads (m_tasks m) !! thr ->
  (forall b, b mod 8 = 0 -> parked_at x sp b -> k_word (mw m') b = k_word (mw m) b) -> parked m' thr x r ra sp fpu.
Proof.
  intros [H1 H2 H3 H4 H5 H6 H7 H8] Ht Hw. split; [by rewrite Ht|done|done|done| |done| |done].
  - eapply words_at_frame; [exact (mod8_sub sp 6 (proj1 H3))| |exact H5]. intros b Hb Hm. apply Hw; [done|]. left.
    rewrite length_app, length_rev in Hb. change (Z.of_nat (length (saved_words r) + length [ra])) with 7 in Hb. unfold frame_base in *. lia.
  - intros Hfx. destruct (H7 Hfx) as (F & D & Fl & A). split; [done|]. split; [done|]. split; [done|].
    eapply words_at_frame; [apply F| |exact A]. rewrite (FPU_bytes _ H6). intros b Hb Hm. apply Hw; [done|by right].
Qed.
End resume.


(** The switch loads the new thread's page directory only if its address has a bit in
    common with the one loaded: otherwise the new thread runs in the address space of
    the old one. *)
Theorem switch_keeps_foreign_cr3 {W} `{Kernel W, !StackMem W} (m : machine W) new old x r ra sp fpu :
  parked m new x r ra sp fpu ->
  exists m', context_switch_in new old m = Ret (ra, m') /\
    (c_cr3 (m_cpu m') = cr3 (data x) <-> c_cr3 (m_cpu m) = cr3 (data x) \/ Z.land (cr3 (data x)) (c_cr3 (m_cpu m)) <> 0).
Proof.
  intros P. destruct (switch_in_run m new old _ _ _ _ _ P) as (m' & E & _ & _ & _ & Ec & _). exists m'. split; [done|]. rewrite Ec.
  destruct (Z.eqb_spec (Z.land (cr3 (data x)) (c_cr3 (m_cpu m))) 0) as [->|Hn]; [|tauto]. split; [by left|]. by intros [?|[]].
Qed.

(** ** Signal frames *)
Section signals.
Context {W : Type} `{Kernel W, !StackMem W}.
Implicit Types m : machine W.

(** The record of a thread whose signal frame lies at [frame_base sp]. *)
Definition sig_thread (x : thread) (sp : Z) : thread :=
  th_upd_data (fun d => td_set_top (frame_base sp) (td_set_rsp0 (frame_base sp) (td_set_sigenter (frame_base sp) d))) x.

Lemma mod8_frame sp : sp mod 8 = 0 -> frame_base sp mod 8 = 0.
Proof. exact (mod8_sub sp 6). Qed.

Lemma sigenter_run m thr x ra entry stack arg : running m thr x ra -> 128 <= c_sp (m_cpu m) ->
  exists m1, context_sigenter thr entry stack arg m = Ret ((mk_iframe entry 0x23 0x200 stack 0x1B, arg), m1) /\
    m_cpu m1 = cpu_tss (frame_base (c_sp (m_cpu m))) (cpu_sp (frame_base (c_sp (m_cpu m))) (m_cpu m)) /\
    threads (m_tasks m1) !! thr = Some (sig_thread x (c_sp (m_cpu m))) /\
    words_at (mw m1) (frame_base (c_sp (m_cpu m))) (rev (saved_words (c_regs (m_cpu m))) ++ [ra]).
Proof.
  intros R Hsp. destruct (run_sp _ _ _ _ R) as [Ha Hr]. set (sp := c_sp (m_cpu m)) in *. unfold context_sigenter.
  erewrite bind_Ret by reflexivity. fold sp.
  destruct (push_frame (saved_words (c_regs (m_cpu m))) sp (mw m) Ha ltac:(cbn; lia)) as (w1 & E1 & A1 & O1).
  change (8 * Z.of_nat (length (saved_words (c_regs (m_cpu m))))) with 48 in *. fold (frame_base sp) in *.
  rewrite (bind_Ret _ _ _ _ _ (mem_run _ _ _ _ E1)). erewrite bind_Ret by (apply (tasks_update _ _ x); apply R).
  erewrite bind_Ret by reflexivity.
  match goal with |- context [(mem (push_all ?l ?a) ≫= _) ?m2] =>
    destruct (push_frame l a (mw m2) (mod8_frame sp Ha) ltac:(unfold frame_base; cbn; lia)) as (w2 & E2 & A2 & O2); set (mm := m2) in * end.
  cbn [length rev app] in E2, A2, O2. change (8 * Z.of_nat 5) with 40 in *.
  rewrite (bind_Ret _ _ _ _ _ (mem_run _ _ _ _ E2)). set (m3 := set_w w2 mm). change w2 with (mw m3) in A2.
  do 5 (rewrite (bind_Ret _ _ _ _ _ (mpop _ _ _ _ A2 ltac:(unfold frame_base; lia))); cbn beta iota; destruct A2 as [_ A2]).
  eexists. split; [reflexivity|]. split; [done|]. split; [apply lookup_insert_eq|].
  eapply (words_at_frame w1); [exact (mod8_frame sp Ha)|intros b Hb Hm; apply O2; [done|lia]|].
  apply words_at_app. split; [exact A1|]. split; [|done]. rewrite length_rev.
  change (frame_base sp + 8 * Z.of_nat (length (saved_words (c_regs (m_cpu m))))) with (frame_base sp + 48).
  unfold frame_base. rewrite Z.sub_add, O1 by (done || unfold frame_base; lia). apply R.
Qed.

Lemma deliver_run m thr x ra signum : running m thr x ra -> signal_entry x <> MM_NADDR -> signal_stack_base x <> MM_NADDR ->
  128 <= c_sp (m_cpu m) ->
  exists m1, deliver_signal thr signum m = Ret ((mk_iframe (signal_entry x) 0x23 0x200
      (u64 (signal_stack_base x + signal_stack_size x)) 0x1B, signum, rsp0_top (data x)), m1) /\
    m_cpu m1 = cpu_tss (frame_base (c_sp (m_cpu m))) (cpu_sp (frame_base (c_sp (m_cpu m))) (m_cpu m)) /\
    threads (m_tasks m1) !! thr = Some (sig_thread x (c_sp (m_cpu m))) /\
    words_at (mw m1) (frame_base (c_sp (m_cpu m))) (rev (saved_words (c_regs (m_cpu m))) ++ [ra]).
Proof.
  intros R He Hb Hsp. destruct (sigenter_run m thr x ra (signal_entry x) (u64 (signal_stack_base x + signal_stack_size x)) signum R Hsp)
    as (m1 & E & H1). exists m1. split; [|done]. unfold deliver_signal.
  rewrite (bind_Ret _ _ _ _ _ (tasks_thread _ _ _ (run_thread _ _ _ _ R))).
  rewrite !bool_decide_eq_true_2 by done. do 2 erewrite bind_Ret by reflexivity. by step_run E.
Qed.

Lemma sigreturn_run m thr x r ra sp : threads (m_tasks m) !! thr = Some x -> rsp0_sigenter (data x) = frame_base sp ->
  64 <= sp < 2 ^ 64 - 16 -> words_at (mw m) (frame_base sp) (rev (saved_words r) ++ [ra]) ->
  context_sigreturn thr m = Ret (ra, set_cpu (cpu_sp (sp + 8) (cpu_regs r (m_cpu m))) m).
Proof.
  intros Hx Hs Hr A. unfold context_sigreturn. rewrite (bind_Ret _ _ _ _ _ (tasks_thread _ _ _ Hx)), Hs.
  cbn [rev saved_words app] in A. unfold frame_base in *.
  do 7 (rewrite (bind_Ret _ _ _ _ _ (mpop _ _ _ _ A ltac:(lia))); cbn beta iota; destruct A as [_ A]).
  erewrite bind_Ret by reflexivity. replace (sp - 48 + 8 + 8 + 8 + 8 + 8 + 8 + 8) with (sp + 8) by lia. by destruct r.
Qed.
End signals.

(** C38: A signal is transparent to the code it interrupts: the handler is entered in user
    mode on the thread's signal stack with the signal number as its argument, the
    kernel stack below the saved frame is used meanwhile, and when the handler
    returns the interrupted code goes on at its return address with its registers
    and stack pointer, and the thread's stack top is what it was. *)
Theorem signal_handler_transparent {W} `{Kernel W, !StackMem W} (m : machine W) thr x ra signum :
  running m thr x ra -> signal_entry x <> MM_NADDR -> signal_stack_base x <> MM_NADDR -> 128 <= c_sp (m_cpu m) ->
  exists m1, deliver_signal thr signum m = Ret ((mk_iframe (signal_entry x) 0x23 0x200
      (u64 (signal_stack_base x + signal_stack_size x)) 0x1B, signum, rsp0_top (data x)), m1) /\
    c_tss (m_cpu m1) = frame_base (c_sp (m_cpu m)) /\
    forall m2 y, threads (m_tasks m2) !! thr = Some y -> rsp0_sigenter (data y) = frame_base (c_sp (m_cpu m)) ->
      (forall b, b mod 8 = 0 -> frame_base (c_sp (m_cpu m)) <= b < c_sp (m_cpu m) + 8 -> k_word (mw m2) b = k_word (mw m1) b) ->
      exists m3 m4, context_sigreturn thr m2 = Ret (ra, m3) /\ c_regs (m_cpu m3) = c_regs (m_cpu m) /\
        c_sp (m_cpu m3) = c_sp (m_cpu m) + 8 /\
        signal_returned thr (rsp0_top (data x)) m3 = Ret (tt, m4) /\ c_tss (m_cpu m4) = rsp0_top (data x) /\
        exists z, threads (m_tasks m4) !! thr = Some z /\ rsp0_top (data z) = rsp0_top (data x).
Proof.
  intros R He Hb Hsp. destruct (deliver_run m thr x ra signum R He Hb Hsp) as (m1 & E1 & C1 & T1 & A1). exists m1.
  split; [done|]. split; [by rewrite C1|]. intros m2 y Hy Hs Hw. destruct (run_sp _ _ _ _ R) as [Ha Hr].
  assert (words_at (mw m2) (frame_base (c_sp (m_cpu m))) (rev (saved_words (c_regs (m_cpu m))) ++ [ra])) as A2.
  { eapply words_at_frame; [exact (mod8_frame _ Ha)| |exact A1]. intros b Hb' Hm. apply Hw; [done|].
    rewrite length_app, length_rev in Hb'. change (Z.of_nat (length (saved_words (c_regs (m_cpu m))) + length [ra])) with 7 in Hb'.
    unfold frame_base in *. lia. }
  pose proof (sigreturn_run m2 thr y _ ra _ Hy Hs Hr A2) as E2. eexists _, _. split; [exact E2|]. split; [done|]. split; [done|].
  unfold signal_returned. split; [erewrite bind_Ret by (apply (tasks_update _ _ y); exact Hy); reflexivity|]. split; [done|].
  eexists. split; [apply lookup_insert_eq|done].
Qed.

(** Returning from a handler does not take the frame away: a second [sigreturn], that
    of an outer handler which the signal interrupted, goes to the same place again
    and never reaches the code the outer signal had interrupted. *)
Theorem outer_sigreturn_repeats_inner {W} `{Kernel W, !StackMem W} (m : machine W) thr x ra signum :
  running m thr x ra -> signal_entry x <> MM_NADDR -> signal_stack_base x <> MM_NADDR -> 128 <= c_sp (m_cpu m) ->
  exists f m1 m2 m3 m4, deliver_signal thr signum m = Ret ((f, rsp0_top (data x)), m1) /\
    context_sigreturn thr m1 = Ret (ra, m2) /\ signal_returned thr (rsp0_top (data x)) m2 = Ret (tt, m3) /\
    context_sigreturn thr m3 = Ret (ra, m4) /\ c_sp (m_cpu m4) = c_sp (m_cpu m) + 8.
Proof.
  intros R He Hb Hsp. destruct (deliver_run m thr x ra signum R He Hb Hsp) as (m1 & E1 & C1 & T1 & A1).
  destruct (run_sp _ _ _ _ R) as [Ha Hr]. eexists _, m1, _, _, _. split; [exact E1|].
  split; [exact (sigreturn_run m1 thr _ _ ra _ T1 eq_refl Hr A1)|].
  split; [unfold signal_returned; erewrite bind_Ret by (eapply tasks_update; exact T1); reflexivity|].
  split; [eapply sigreturn_run; [apply lookup_insert_eq|done|exact Hr|exact A1]|done].
Qed.

(** ** Examples on the bare machine

    Thread 10 runs at 20480 and has a save area, thread 11 is a kernel thread at 40960. *)
Definition ctx_thread (fx dir : Z) : thread :=
  mk_thread (mk_tdata 0 32768 dir 0 16384 16384 0 0 fx) THREAD_RUNNING 0 [] 0 5 4096 64 0 0 0 0 0.
Definition ctx_cpu (sp dir : Z) : cpu_state := mk_cpu (mk_sregs 1 2 3 4 5 6) sp dir 0 (replicate 64 9).
Definition ctx_machine : machine bare :=
  mk_machine _ (ctx_cpu 20480 8192) []
    (mk_tstate _ {[ 10 := ctx_thread 65536 4096; 11 := ctx_thread 0 8192 ]} ∅ ∅ [] [] 1 0 [10] [] 0 0
      (mk_bare 1048576 {[ 20480 := 7777; 40960 := 8888 ]} ∅)).

Lemma ctx_running : running ctx_machine 10 (ctx_thread 65536 4096) 7777.
Proof. split; [reflexivity|done|done|reflexivity|done|done|]. intros _. split; [done|]. right. done. Qed.


Lemma signal_handler_transparent_witness : exists m1, deliver_signal 10 15 ctx_machine =
    Ret ((mk_iframe 5 0x23 0x200 4160 0x1B, 15, 32768), m1) /\ c_tss (m_cpu m1) = 20432 /\
  exists m3 m4, context_sigreturn 10 m1 = Ret (7777, m3) /\ c_regs (m_cpu m3) = mk_sregs 1 2 3 4 5 6 /\
    c_sp (m_cpu m3) = 20488 /\ signal_returned 10 32768 m3 = Ret (tt, m4) /\ c_tss (m_cpu m4) = 32768 /\
    exists z, threads (m_tasks m4) !! 10 = Some z /\ rsp0_top (data z) = 32768.
Proof.
  destruct (signal_handler_transparent ctx_machine 10 _ _ 15 ctx_running) as (m1 & E1 & Ht & F); [done..|]. exists m1.
  split; [exact E1|]. split; [exact Ht|]. eapply (F m1 (sig_thread (ctx_thread 65536 4096) 20480)); [|reflexivity|done].
  vm_compute in E1. injection E1 as <-. reflexivity.
Defined.

Lemma outer_sigreturn_repeats_inner_witness : exists f m1 m2 m3 m4, deliver_signal 10 15 ctx_machine = Ret ((f, 32768), m1) /\
  context_sigreturn 10 m1 = Ret (7777, m2) /\ signal_returned 10 32768 m2 = Ret (tt, m3) /\
  context_sigreturn 10 m3 = Ret (7777, m4) /\ c_sp (m_cpu m4) = 20488.
Proof. by apply (outer_sigreturn_repeats_inner ctx_machine 10 _ _ 15 ctx_running). Defined.

(** Directories 4096 and 8192 have no bit in common. *)
Lemma switch_keeps_foreign_cr3_witness : exists m m', context_switch_in 10 11 m = Ret (7777, m') /\ c_cr3 (m_cpu m') <> 4096.
Proof.
  destruct (switch_out_parks ctx_machine 11 10 _ _ ctx_running) as (m1 & E1 & P1).
  destruct (switch_out_run ctx_machine 11 10 _ _ ctx_running) as (m2 & E2 & C2 & _). rewrite E1 in E2. injection E2 as <-.
  destruct (switch_keeps_foreign_cr3 m1 10 11 _ _ _ _ _ P1) as (m' & E & Hc). exists m1, m'. split; [done|].
  intros Hbad%Hc. rewrite C2 in Hbad. cbn in Hbad. by destruct Hbad as [Hbad|[]].
Defined.
