(* ===== verification/Timer.v ===== *)
(** * Time: [arch/amd64/hw/timer.c], [sys/time.c], sleeping ([sys/wait.c])

    [clock] adds to the threads of [Task] the list of sleepers ([g_sleep_head], by
    their threads), the system time in nanoseconds and the counters of the timer
    interrupt.  Drawing the cursor and the periodic listing of the queues only print
    and are left out. *)

From S2P Require Import Prelude Defs Wait Phys Vnode Paging Kernel Task ListHead Sched SchedInv Thread Process.

Record clock {W : Type} := mk_clock {
  sleepers : list Z;
  system_time : Z;
  int_timer_ticks : Z;
  blink_state : Z;
  ck_tasks : tstate W;
}.
Arguments clock : clear implicits.

Section timer.
Context {W : Type}.
Abbreviation C := (cmd (clock W)).
Implicit Types k : clock W.

Definition set_sleepers l k : clock W := mk_clock _ l (system_time k) (int_timer_ticks k) (blink_state k) (ck_tasks k).
Definition set_ck_tasks s k : clock W := mk_clock _ (sleepers k) (system_time k) (int_timer_ticks k) (blink_state k) s.
Definition on_sched {A} (c : cmd (tstate W) A) : C A := czoom ck_tasks set_ck_tasks c.

(** [list_del_init] of a link that is in no list changes nothing. *)
Definition del_sleep (thr : Z) : C unit := cmodify (fun k => set_sleepers (filter (fun t => t <> thr) (sleepers k)) k).

Definition timer_add_sleep (thr : Z) : C unit := cmodify (fun k => set_sleepers (thr :: sleepers k) k).
Definition timer_remove_sleep (thr : Z) : C unit := del_sleep thr.

(** The loop over the sleepers; [l] is what is left of it. *)
Fixpoint wake_sleepers (l : list Z) : C unit :=
  match l with
  | [] => mret tt
  | t :: l =>
      n ← on_sched (get_notify (NSleep t));
      (match n_owner n with
       | None => del_sleep t
       | Some o =>
           x ← on_sched (get_thread o);
           now ← cgets system_time;
           if sleep_deadline x <=? now then del_sleep t;; on_sched (notify_io (NSleep t)) else mret tt
       end);;
      wake_sleepers l
  end.

(** The counters of the interrupt of the interval timer. *)
Definition tick_counters (k : clock W) : clock W :=
  let n := u64 (int_timer_ticks k + 1) in
  let wrap := 300 <=? n in
  mk_clock _ (sleepers k) (u64 (system_time k + 1000000)) (if wrap then 0 else n)
    (if wrap then Z.lxor (blink_state k) 1 else blink_state k) (ck_tasks k).

Definition timer_tick : C unit :=
  cmodify tick_counters;;
  l ← cgets sleepers;
  wake_sleepers l.

(** [thread_sleep] up to the point where the thread waits: between the two steps the
    timer interrupt may run. *)
Definition sleep_arm (thr deadline : Z) : C unit :=
  del_sleep thr;;
  on_sched (n ← get_notify (NSleep thr);
            cmodify (fun s => ts_notifies (<[NSleep thr := mk_notify (n_owner n) 0]> (notifies s)) s));;
  on_sched (upd_thread thr (th_set_deadline deadline));;
  timer_add_sleep thr.

Definition thread_sleep (me thr deadline : Z) : C (unit + unq_res) :=
  sleep_arm thr deadline;;
  on_sched (thread_wait_io me thr (NSleep thr)).

(** The deadline [sys_nanosleep] asks for. *)
Definition sleep_deadline_of (sec nsec now : Z) : Z := u64 (u64 (u64 (sec * 1000000000) + nsec) + now).
End timer.

(** ** [sys/time.c] *)
Record tm := mk_tm { tm_sec : Z; tm_min : Z; tm_hour : Z; tm_mday : Z; tm_mon : Z; tm_year : Z }.

Definition leap_days_to_1970 : Z := 477.
Definition days_to_month365 : list Z := [0; 31; 59; 90; 120; 151; 181; 212; 243; 273; 304; 334; 365].
Definition days_to_month366 : list Z := [0; 31; 60; 91; 121; 152; 182; 213; 244; 274; 305; 335; 366].

Definition is_leap (year : Z) : bool := (year mod 4 =? 0) && (negb (year mod 100 =? 0) || (year mod 400 =? 0)).

Definition tm_check (t : tm) : bool :=
  (tm_mday t <? 0) || (31 <? tm_mday t) || (tm_mon t <? 0) || (12 <? tm_mon t) || (tm_year t <? 1970) || (2500 <? tm_year t) ||
  (tm_hour t <? 0) || (23 <? tm_hour t) || (tm_min t <? 0) || (59 <? tm_min t) || (tm_sec t <? 0) || (59 <? tm_sec t).

(** [None]: the table is read outside its bounds. *)
Definition mktime (t : tm) : option Z :=
  if tm_check t then Some 0 else
  let tbl := if is_leap (tm_year t) then days_to_month366 else days_to_month365 in
  if tm_mon t - 1 <? 0 then None else
  month_startd ← tbl !! Z.to_nat (tm_mon t - 1);
  let y := tm_year t in
  let days_before := (y - 1970) * 365 + Z.quot y 4 - Z.quot y 100 + Z.quot y 400 - leap_days_to_1970 in
  Some ((days_before + month_startd + tm_mday t - 2) * 86400 + (tm_hour t * 3600 + tm_min t * 60 + tm_sec t)).

Definition time (boot now : Z) : Z := boot + now / 1000000000.

(** ** The calendar *)
Definition year_days (y : Z) : Z := if is_leap y then 366 else 365.
(** Days from the first of January 1970 to that of year [1970 + n]. *)
Fixpoint days_to_year (n : nat) : Z :=
  match n with
  | O => 0
  | S n => days_to_year n + year_days (1970 + Z.of_nat n)
  end.
Definition month_days (leap : bool) : list Z := [31; if leap then 29 else 28; 31; 30; 31; 30; 31; 31; 30; 31; 30; 31].
(** Seconds since the epoch of a date of the Gregorian calendar. *)
Definition civil_seconds (t : tm) : Z :=
  (days_to_year (Z.to_nat (tm_year t - 1970)) + foldr Z.add 0 (take (Z.to_nat (tm_mon t - 1)) (month_days (is_leap (tm_year t)))) +
   (tm_mday t - 1)) * 86400 + (tm_hour t * 3600 + tm_min t * 60 + tm_sec t).

Section calendar.
(** Leap years up to and including [y]. *)
Definition leaps (y : Z) : Z := y / 4 - y / 100 + y / 400.

Lemma leaps_step y : leaps (y + 1) = leaps y + (if is_leap (y + 1) then 1 else 0).
Proof.
  unfold leaps, is_leap.
  destruct (Z.eqb_spec ((y + 1) mod 4) 0), (Z.eqb_spec ((y + 1) mod 100) 0), (Z.eqb_spec ((y + 1) mod 400) 0);
    cbn [andb orb negb]; Z.div_mod_to_equations; lia.
Qed.

Lemma days_to_year_leaps n : days_to_year n = Z.of_nat n * 365 + leaps (1969 + Z.of_nat n) - leap_days_to_1970.
Proof.
  induction n as [|n IH]; [reflexivity|]. cbn [days_to_year]. rewrite IH, Nat2Z.inj_succ. unfold year_days.
  replace (1969 + Z.succ (Z.of_nat n)) with (1969 + Z.of_nat n + 1) by lia. rewrite leaps_step.
  replace (1969 + Z.of_nat n + 1) with (1970 + Z.of_nat n) by lia. destruct (is_leap _); lia.
Qed.

Lemma month_start leap m : 1 <= m <= 12 -> (if leap : bool then days_to_month366 else days_to_month365) !! Z.to_nat (m - 1) =
  Some (foldr Z.add 0 (take (Z.to_nat (m - 1)) (month_days leap))).
Proof.
  intros Hm. assert (m - 1 = Z.of_nat (Z.to_nat (m - 1)) /\ (Z.to_nat (m - 1) < 12)%nat) as [_ Hn] by lia.
  revert Hn. generalize (Z.to_nat (m - 1)). intros n Hn.
  do 12 (destruct n as [|n]; [by destruct leap|]). lia.
Qed.
End calendar.

(** [mktime] is exact in leap years and one day behind in all others: it counts the
    leap day of the current year with those before it and subtracts it again
    whether the year has one or not. *)
Theorem mktime_civil t : tm_check t = false -> 1 <= tm_mon t ->
  mktime t = Some (civil_seconds t - (if is_leap (tm_year t) then 0 else 86400)).
Proof.
  intros Hc Hm. unfold mktime. rewrite Hc. unfold tm_check in Hc. repeat (apply orb_false_iff in Hc as [Hc ?]).
  assert (1970 <= tm_year t /\ tm_mon t <= 12) as [Hy Hm'] by lia.
  rewrite (proj2 (Z.ltb_ge _ _)) by lia. rewrite month_start by lia. cbn [mbind option_bind]. f_equal. unfold civil_seconds.
  rewrite days_to_year_leaps, Z2Nat.id by lia. replace (1969 + (tm_year t - 1970)) with (tm_year t - 1) by lia.
  pose proof (leaps_step (tm_year t - 1)) as L. rewrite Z.sub_add in L. rewrite !Z.quot_div_nonneg by lia.
  unfold leaps in *. set (f := foldr _ _ _). destruct (is_leap (tm_year t)); nia.
Qed.

Lemma mktime_civil_witness : mktime (mk_tm 0 0 0 1 1 2021) = Some (civil_seconds (mk_tm 0 0 0 1 1 2021) - 86400) /\
  mktime (mk_tm 0 0 0 1 1 2020) = Some (civil_seconds (mk_tm 0 0 0 1 1 2020) - 0).
Proof. split; by apply mktime_civil. Defined.

(** The table is read before its start for month 0, which [tm_check] accepts. *)
Lemma mktime_month_zero t : tm_check t = false -> tm_mon t = 0 -> mktime t = None.
Proof. intros Hc Hm. unfold mktime. by rewrite Hc, Hm. Qed.

(** ** Waking the sleepers *)
Section wake.
Context {W : Type}.
Implicit Types (s : tstate W) (k : clock W) (qs : list (list Z)).

Definition same_clk s s' : Prop := clk s' = clk s.
#[local] Instance same_clk_preorder : PreOrder same_clk.
Proof. split; [by intros s|]. intros s1 s2 s3 H1 H2. by etrans. Qed.

Lemma queue_to_clk t c : maintains same_clk (@sched_queue_to W t c).
Proof.
  unfold sched_queue_to, upd_thread, set_head, set_size, get_thread, at_cpu.
  repeat first [apply maintains_bind; [apply _| |intros ?] | progress case_match | by apply maintains_modify |
    solve [auto with kernel typeclass_instances]].
Qed.

Lemma min_queue_same n : forall i a b s r s', @min_queue W n i a b s = Ret (r, s') -> s' = s.
Proof.
  induction n as [|n IH]; intros i a b s r s'; cbn [min_queue]; [by intros [= _ <-]|]. unfold at_cpu.
  intros (q & s1 & [_ ->]%load_inv & E)%bind_inv. destruct (q <? b); by eapply IH.
Qed.

Lemma sched_queue_clk t s u s' : sched_queue t s = Ret (u, s') -> clk s' = clk s \/ clk s' = i32 (clk s + 1).
Proof.
  unfold sched_queue, get_thread, get_proc. intros (x & s1 & [_ ->]%load_inv & E)%bind_inv. apply bind_inv in E as (? & s1 & E1 & E).
  assert (s1 = s) as ->.
  { destruct (nonnull _); [|by injection E1]. apply bind_inv in E1 as (p & s2 & [_ ->]%load_inv & E1).
    destruct (bool_decide _); [done|by injection E1]. }
  apply bind_inv in E as (n & s1 & [= <- <-] & E). apply bind_inv in E as ([i z] & s1 & ->%min_queue_same & E).
  destruct (z =? 0).
  - apply bind_inv in E as (c & s1 & [= <- <-] & E). apply bind_inv in E as (? & s1 & [= _ <-] & E). right.
    by rewrite (maintains_inv _ _ _ _ _ (queue_to_clk _ _) E).
  - left. by rewrite (maintains_inv _ _ _ _ _ (queue_to_clk _ _) E).
Qed.

(** [t] sleeps: it waits for its own sleep notifier, outside the run queues. *)
Record sleeping s qs (t : Z) (x : thread) : Prop := {
  sl_thread : threads s !! t = Some x;
  sl_notify : exists v, notifies s !! NSleep t = Some (mk_notify (Some t) v);
  sl_out : ~ queued qs t;
  sl_idle : ~ is_idle t;
  sl_susp : not_suspended s x;
}.

(** What waking one thread leaves of the others. *)
Record woken s s' (t : Z) (qs qs' : list (list Z)) : Prop := {
  wk_sched : sched_ok s' qs';
  wk_queued : forall u, queued qs' u <-> u = t \/ queued qs u;
  wk_ready : exists x', threads s' !! t = Some x' /\ t_state x' = THREAD_READY;
  wk_others : forall u, u <> t -> ~ queued qs u -> threads s' !! u = threads s !! u;
  wk_state : forall u y, u <> t -> threads s !! u = Some y -> exists y', threads s' !! u = Some y' /\ t_state y' = t_state y;
  wk_notifies : forall n, n <> NSleep t -> notifies s' !! n = notifies s !! n;
  wk_procs : procs s' = procs s;
  wk_clk : clk s' = clk s \/ clk s' = i32 (clk s + 1);
}.

Lemma notify_wakes s qs t x : sched_ok s qs -> sleeping s qs t x -> 0 <= clk s ->
  exists s' qs', notify_io (NSleep t) s = Ret (tt, s') /\ woken s s' t qs qs'.
Proof.
  intros H [Hx [v Hv] Hq Hid Hs] Hc. destruct (ok_out _ _ H _ _ Hx Hq) as [_ Hn].
  unfold notify_io. rewrite (bind_Ret _ _ _ _ _ (on_notify_run s _ _ thread_notify_io (Some t) (mk_notify None (u64 (v + 1))) Hv eq_refl)).
  cbn iota. set (s1 := ts_notifies _ s). assert (sched_ok s1 qs) as H1 by (destruct H; by split).
  step_run (get_thread_run s1 _ _ Hx). rewrite Hn. change (nonnull 0) with false. cbn iota.
  destruct (sched_queue_run s1 qs t x H1 Hx Hq ltac:(intros i ->; apply Hid; by exists i) Hs Hc)
    as (c & q & kk & m' & Hcq & _ & E & [L1 L2] & OK).
  eexists _, _. split; [exact E|]. split; [exact OK| | | | | | |].
  - intros u. rewrite (queued_snoc _ _ _ _ _ Hcq). tauto.
  - eexists. split; [exact L1|done].
  - intros u Hu Hnu. change (m' !! u = threads s !! u). rewrite (L2 u Hu).
    assert (forall d, (d = hd_or t q \/ d = last_or t q) -> u <> d) as Hd.
    { intros d Hd ->. destruct (decide (q = [])) as [->|Hne]; [destruct Hd; by apply Hu|]. apply Hnu. exists c, q. split; [done|].
      destruct Hd as [->| ->]; auto with kernel. }
    rewrite !decide_False by (apply Hd; auto). change (threads s1) with (threads s). by destruct (threads s !! u).
  - intros u y Hu Hy. change (exists y', m' !! u = Some y' /\ t_state y' = t_state y). rewrite (L2 u Hu).
    change (threads s1) with (threads s). rewrite Hy. eexists. split; [reflexivity|]. by repeat case_decide.
  - intros n Hne. change (<[NSleep t := mk_notify None (u64 (v + 1))]> (notifies s) !! n = notifies s !! n). by apply lookup_insert_ne.
  - done.
  - apply (sched_queue_clk _ _ _ _ E).
Qed.

(** A sleeper [t] is asleep, or was abandoned by its owner. *)
Definition sleeper s qs (t : Z) : Prop :=
  (exists x, sleeping s qs t x) \/ exists v, notifies s !! NSleep t = Some (mk_notify None v).
(** [t] leaves the list of sleepers at time [now]. *)
Definition expired s (now t : Z) : Prop :=
  (exists v, notifies s !! NSleep t = Some (mk_notify None v)) \/
  exists x v, threads s !! t = Some x /\ notifies s !! NSleep t = Some (mk_notify (Some t) v) /\ sleep_deadline x <= now.

(** Waking [t] leaves the other sleepers as they are. *)
Lemma woken_sleeping s s' t qs qs' u y : woken s s' t qs qs' -> u <> t -> sleeping s qs u y -> sleeping s' qs' u y.
Proof.
  intros Wk Hu [H1 [v H2] H3 H4 H5]. split.
  - by rewrite (wk_others _ _ _ _ _ Wk) by done.
  - exists v. rewrite (wk_notifies _ _ _ _ _ Wk); [done|]. by intros [= ->].
  - rewrite (wk_queued _ _ _ _ _ Wk). by intros [->|?].
  - done.
  - unfold not_suspended. by rewrite (wk_procs _ _ _ _ _ Wk).
Qed.

Lemma woken_sleeper s s' t qs qs' u : woken s s' t qs qs' -> u <> t -> sleeper s qs u -> sleeper s' qs' u.
Proof.
  intros Wk Hu [[x Hx]|[v Hv]]; [left; exists x; by eapply woken_sleeping|right].
  exists v. rewrite (wk_notifies _ _ _ _ _ Wk); [done|]. by intros [= ->].
Qed.

Lemma woken_expired s s' t qs qs' u now : woken s s' t qs qs' -> u <> t -> sleeper s qs u -> expired s' now u <-> expired s now u.
Proof.
  intros Wk Hu Hs. unfold expired. rewrite (wk_notifies _ _ _ _ _ Wk) by by intros [= ->].
  destruct Hs as [[x [H1 [v H2] H3 _ _]]|[v Hv]]; [|naive_solver]. by rewrite (wk_others _ _ _ _ _ Wk) by done.
Qed.

(** What the timer interrupt achieves for the sleepers [l] from [s] to [s'] at [now]. *)
Record wakes s s' (qs qs' : list (list Z)) (now : Z) (l : list Z) : Prop := {
  wa_sched : sched_ok s' qs';
  wa_due : forall t x, t ∈ l -> sleeping s qs t x -> sleep_deadline x <= now ->
    queued qs' t /\ exists x', threads s' !! t = Some x' /\ t_state x' = THREAD_READY;
  wa_early : forall t x, sleeping s qs t x -> (t ∈ l -> now < sleep_deadline x) -> sleeping s' qs' t x;
  wa_queued : forall t, queued qs t -> queued qs' t;
  wa_state : forall u y, ~ (u ∈ l /\ expired s now u) -> threads s !! u = Some y ->
    exists y', threads s' !! u = Some y' /\ t_state y' = t_state y;
}.

Definition kept_sleepers s (now : Z) (l old new : list Z) : Prop :=
  forall t, t ∈ new <-> t ∈ old /\ ~ (t ∈ l /\ expired s now t).

Lemma wake_none k qs : sched_ok (ck_tasks k) qs -> wakes (ck_tasks k) (ck_tasks k) qs qs (system_time k) [].
Proof.
  intros H. split; [done| | | |].
  - intros t x Ht. by apply not_elem_of_nil in Ht.
  - intros t x Ht _. done.
  - done.
  - intros u y _ Hy. by exists y.
Qed.

Lemma sleeping_owner s qs t x : sleeping s qs t x -> forall v, notifies s !! NSleep t <> Some (mk_notify None v).
Proof. intros [_ [v Hv] _ _ _] v'. rewrite Hv. done. Qed.

(** A sleeper that stays where it is, or was abandoned. *)
Lemma wakes_skip s s' qs qs' now t l : wakes s s' qs qs' now l ->
  (forall x, sleeping s qs t x -> now < sleep_deadline x) -> wakes s s' qs qs' now (t :: l).
Proof.
  intros [H1 H2 H3 H4 H5] Ht. split; [done| | |done|].
  - intros u x [->|Hu]%elem_of_cons Hs Hd; [specialize (Ht x Hs); lia|by eapply H2].
  - intros u x Hs Hu. apply H3; [done|]. intros Hin. apply Hu. by right.
  - intros u y Hu Hy. apply H5; [|done]. intros [Hin He]. apply Hu. split; [by right|done].
Qed.

(** A sleeper that was woken before the others. *)
Lemma wakes_after s s1 s' qs qs1 qs' now t x l : woken s s1 t qs qs1 -> sleeping s qs t x -> sleep_deadline x <= now -> t ∉ l ->
  (forall u, u ∈ l -> sleeper s qs u) -> wakes s1 s' qs1 qs' now l -> wakes s s' qs qs' now (t :: l).
Proof.
  intros Wk Hs Hd Hni Hl [H1 H2 H3 H4 H5].
  assert (forall u, u ∈ l -> u <> t) as Hne by (intros u Hu ->; done). split; [done| | | |].
  - intros u y [->|Hu]%elem_of_cons Hy Hyd; [|eapply H2; [done|by eapply woken_sleeping; eauto|done]].
    split; [apply H4, (wk_queued _ _ _ _ _ Wk); by left|]. destruct (wk_ready _ _ _ _ _ Wk) as (x1 & Hx1 & Hr).
    destruct (H5 t x1 ltac:(by intros [? _]) Hx1) as (x' & Hx' & Es). exists x'. by rewrite Es.
  - intros u y Hy Hu. destruct (decide (u = t)) as [->|Hut].
    + assert (y = x) as -> by (pose proof (sl_thread _ _ _ _ Hy); pose proof (sl_thread _ _ _ _ Hs); congruence).
      specialize (Hu ltac:(by left)). lia.
    + apply H3; [by eapply woken_sleeping|]. intros Hin. apply Hu. by right.
  - intros u Hu. apply H4, (wk_queued _ _ _ _ _ Wk). by right.
  - intros u y Hu Hy. destruct (decide (u = t)) as [->|Hut].
    { destruct Hu. split; [by left|]. right. destruct (sl_notify _ _ _ _ Hs) as [v Hv]. exists x, v. by split; [apply Hs|]. }
    destruct (wk_state _ _ _ _ _ Wk u y Hut Hy) as (y1 & Hy1 & E1). destruct (H5 u y1) as (y2 & Hy2 & E2); [|done|].
    + intros [Hin He]. apply Hu. split; [by right|]. by apply (woken_expired _ _ _ _ _ _ _ Wk Hut (Hl u Hin)).
    + exists y2. split; [done|congruence].
Qed.

Lemma wake_loop l : forall k qs, NoDup l -> sched_ok (ck_tasks k) qs -> (forall t, t ∈ l -> sleeper (ck_tasks k) qs t) ->
  0 <= clk (ck_tasks k) -> clk (ck_tasks k) + Z.of_nat (length l) < 2 ^ 31 ->
  exists k' qs', wake_sleepers l k = Ret (tt, k') /\ wakes (ck_tasks k) (ck_tasks k') qs qs' (system_time k) l /\
    system_time k' = system_time k /\ kept_sleepers (ck_tasks k) (system_time k) l (sleepers k) (sleepers k').
Proof.
  induction l as [|t l IH]; intros k qs Hnd H Hl Hc Hb.
  { exists k, qs. split; [done|]. split; [by apply wake_none|]. split; [done|]. intros t. rewrite elem_of_nil. tauto. }
  apply list.NoDup_cons in Hnd as [Hni Hnd]. cbn [length] in Hb. cbn [wake_sleepers].
  assert (forall n, notifies (ck_tasks k) !! NSleep t = Some n -> on_sched (get_notify (NSleep t)) k = Ret (n, k)) as En.
  { intros n Hn. unfold on_sched. rewrite (zoom_Ret _ _ _ _ _ _ (get_notify_run _ _ _ Hn)). by destruct k. }
  assert (forall k1, ck_tasks k1 = ck_tasks k -> system_time k1 = system_time k -> (forall x, sleeping (ck_tasks k) qs t x -> system_time k < sleep_deadline x) ->
    (forall u, u ∈ sleepers k1 <-> u ∈ sleepers k /\ (u = t -> ~ expired (ck_tasks k) (system_time k) t)) ->
    exists k' qs', wake_sleepers l k1 = Ret (tt, k') /\ wakes (ck_tasks k) (ck_tasks k') qs qs' (system_time k) (t :: l) /\
    system_time k' = system_time k /\ kept_sleepers (ck_tasks k) (system_time k) (t :: l) (sleepers k) (sleepers k')) as Hskip.
  { intros k1 Hk1 Hk2 Ht Hs1. destruct (IH k1 qs Hnd) as (k' & qs' & E & Wa & Et & Ks); [by rewrite Hk1|rewrite Hk1; intros u Hu; apply Hl; by right|
      by rewrite Hk1|rewrite Hk1; lia|]. rewrite Hk1, Hk2 in *. exists k', qs'. split; [done|]. split; [by apply wakes_skip|]. split; [done|].
    intros u. rewrite (Ks u), (Hs1 u), elem_of_cons. split; [|naive_solver].
    intros [[Hu Hut] Hnl]. split; [done|]. intros [[->|Hin] He]; [by apply Hut|by apply Hnl]. }
  destruct (Hl t ltac:(by left)) as [[x Hx]|[v Hv]].
  - destruct (sl_notify _ _ _ _ Hx) as [v Hv]. rewrite (bind_Ret _ _ _ _ _ (En _ Hv)). cbn [n_owner].
    assert (on_sched (get_thread t) k = Ret (x, k)) as Ex.
    { unfold on_sched. rewrite (zoom_Ret _ _ _ _ _ _ (get_thread_run _ _ _ (sl_thread _ _ _ _ Hx))). by destruct k. }
    destruct (Z.leb_spec (sleep_deadline x) (system_time k)) as [Hd|Hd].
    + destruct (notify_wakes (ck_tasks k) qs t x H Hx Hc) as (s1 & qs1 & E1 & Wk).
      set (k2 := set_ck_tasks s1 (set_sleepers (filter (fun u => u <> t) (sleepers k)) k)).
      erewrite (bind_Ret _ _ k tt k2).
      2: { rewrite (bind_Ret _ _ _ _ _ Ex). erewrite bind_Ret by reflexivity. rewrite (proj2 (Z.leb_le _ _) Hd).
           erewrite bind_Ret by reflexivity. unfold on_sched, czoom. cbn [set_sleepers ck_tasks]. by rewrite E1. }
      assert (forall u, u ∈ l -> u <> t) as Hne by (intros u Hu ->; done).
      destruct (IH k2 qs1 Hnd (wk_sched _ _ _ _ _ Wk)) as (k' & qs' & E & Wa & Et & Ks).
      * intros u Hu. eapply woken_sleeper; [exact Wk|by apply Hne|apply Hl; by right].
      * change (0 <= clk s1). destruct (wk_clk _ _ _ _ _ Wk) as [->| ->]; [done|]. rewrite (swrap_small 32); lia.
      * change (clk s1 + Z.of_nat (length l) < 2 ^ 31). destruct (wk_clk _ _ _ _ _ Wk) as [->| ->]; [lia|]. rewrite (swrap_small 32); lia.
      * exists k', qs'. split; [done|]. split; [eapply wakes_after; try done; intros u Hu; apply Hl; by right|]. split; [done|].
        intros u. rewrite (Ks u). cbn [k2 set_ck_tasks set_sleepers sleepers system_time ck_tasks]. rewrite list_elem_of_filter, elem_of_cons.
        split; [intros [[Hut Hu] Hnl]|intros [Hu Hnl]].
        -- split; [done|]. intros [[->|Hin] He]; [done|]. apply Hnl. split; [done|].
           by apply (woken_expired _ _ _ _ _ _ _ Wk Hut (Hl u ltac:(by right))).
        -- assert (u <> t) as Hut.
           { intros ->. apply Hnl. split; [by left|]. right. exists x, v. by split; [apply Hx|]. }
           split; [done|]. intros [Hin He]. apply Hnl. split; [by right|].
           by apply (woken_expired _ _ _ _ _ _ _ Wk Hut (Hl u ltac:(by right))).
    + erewrite bind_Ret.
      2: { rewrite (bind_Ret _ _ _ _ _ Ex). erewrite bind_Ret by reflexivity. by rewrite (proj2 (Z.leb_gt _ _) Hd). }
      apply Hskip; [done|done|..].
      * intros y Hy. replace y with x; [done|]. pose proof (sl_thread _ _ _ _ Hy). pose proof (sl_thread _ _ _ _ Hx). congruence.
      * intros u. split; [|tauto]. intros Hu. split; [done|]. intros -> [[v' Hv']|(y & v' & Hy & _ & Hyd)]; [congruence|].
        rewrite (sl_thread _ _ _ _ Hx) in Hy. injection Hy as <-. lia.
  - rewrite (bind_Ret _ _ _ _ _ (En _ Hv)). cbn [n_owner]. erewrite bind_Ret by reflexivity. apply Hskip; [done|done|..].
    + intros y Hy. by destruct (sleeping_owner _ _ _ _ Hy v).
    + intros u. cbn. rewrite list_elem_of_filter. split; [intros [Hne Hu]; by split|]. intros [Hu Hut]. split; [|done].
      intros ->. apply Hut; [done|]. left. by exists v.
Qed.
End wake.


(** ** A sleep that never ends *)
Fixpoint ticks {W} (n : nat) : cmd (clock W) unit := match n with O => mret tt | S n => timer_tick;; ticks n end.

Section lost.
Context {W : Type}.

Lemma ticks_idle n : forall k : clock W, sleepers k = [] -> exists k', ticks n k = Ret (tt, k') /\ ck_tasks k' = ck_tasks k.
Proof.
  induction n as [|n IH]; intros k Hs; [by exists k|]. cbn [ticks].
  assert (timer_tick k = Ret (tt, tick_counters k)) as E.
  { unfold timer_tick. erewrite bind_Ret by reflexivity. erewrite bind_Ret by reflexivity. cbn. by rewrite Hs. }
  step_run E. by destruct (IH (tick_counters k) Hs) as (k' & E' & Et); [exists k'].
Qed.

Lemma set_notifies_ok (s : tstate W) qs m : sys_ok s qs -> sys_ok (ts_notifies m s) qs.
Proof. intros [[] ? ? ?]. by split. Qed.
Lemma set_deadline_ok (s : tstate W) qs t x d : sys_ok s qs -> threads s !! t = Some x ->
  sys_ok (ts_threads (<[t := th_set_deadline d x]> (threads s)) s) qs.
Proof.
  intros [H R Q I] Hx.
  assert (forall u y', <[t := th_set_deadline d x]> (threads s) !! u = Some y' -> exists y, threads s !! u = Some y /\
    sched_prev y' = sched_prev y /\ sched_next y' = sched_next y /\ t_cpu y' = t_cpu y /\ t_state y' = t_state y) as Hu.
  { intros u y' Hy. destruct (decide (u = t)) as [->|]; [rewrite lookup_insert_eq in Hy; injection Hy as <-; by exists x|].
    rewrite lookup_insert_ne in Hy by done. by exists y'. }
  split.
  - eapply sched_ok_ext; [exact H|done|done|done|done| |].
    + cbn. rewrite dom_insert_L. apply elem_of_dom_2 in Hx. set_solver.
    + intros u y' Hy. destruct (Hu u y' Hy) as (y & ? & ? & ? & ? & _). eauto 10.
  - done.
  - intros u y' Hq Hy. destruct (Hu u y' Hy) as (y & Hy0 & _ & _ & _ & Es). unfold runnable. rewrite Es. by eapply Q.
  - intros i y' Hi Hy. destruct (Hu _ y' Hy) as (y & Hy0 & _ & _ & _ & Es). unfold runnable. rewrite Es. by eapply I.
Qed.
End lost.

(** A timer interrupt between the two steps of [thread_sleep] drops the sleep: the
    notifier has no owner yet.  The thread then sleeps and no later interrupt can
    wake it. *)
Theorem sleep_dropped_by_tick {W} (k : clock W) qs c thr x v d : sys_ok (ck_tasks k) qs -> sleepers k = [] ->
  cpu_thread (ck_tasks k) !! c = Some thr -> ~ is_idle thr -> threads (ck_tasks k) !! thr = Some x -> no_signal (ck_tasks k) x ->
  notifies (ck_tasks k) !! NSleep thr = Some (mk_notify None v) ->
  exists to k', (sleep_arm thr d;; timer_tick;; on_sched (thread_wait_io (Z.of_nat c) thr (NSleep thr))) k = Ret (inr (UDone (Some to)), k') /\
    (exists x', threads (ck_tasks k') !! thr = Some x' /\ t_state x' = THREAD_WAITING) /\
    forall n, exists k'', ticks n k' = Ret (tt, k'') /\ ck_tasks k'' = ck_tasks k'.
Proof.
  intros HS Hsl Hc Hid Hx Hn Hv. set (s := ck_tasks k) in *.
  set (s1 := ts_notifies (<[NSleep thr := mk_notify None 0]> (notifies s)) s).
  set (s2 := ts_threads (<[thr := th_set_deadline d x]> (threads s1)) s1).
  set (k2 := set_sleepers [thr] (set_ck_tasks s2 k)).
  assert (sleep_arm thr d k = Ret (tt, k2)) as E1.
  { unfold sleep_arm. erewrite bind_Ret by reflexivity. unfold on_sched.
    erewrite (bind_Ret _ _ _ tt (set_ck_tasks s1 k)).
    2: { unfold czoom. cbn [set_sleepers ck_tasks]. rewrite (bind_Ret _ _ _ _ _ (get_notify_run _ _ _ Hv)). cbn. rewrite Hsl. by destruct k; cbn in Hsl; subst. }
    erewrite (bind_Ret _ _ _ tt (set_ck_tasks s2 k)).
    2: { unfold czoom. by rewrite (upd_thread_run s1 thr _ x Hx). }
    unfold timer_add_sleep, cmodify. cbn. by rewrite Hsl. }
  set (k3 := set_sleepers [] (tick_counters k2)).
  assert (timer_tick k2 = Ret (tt, k3)) as E2.
  { unfold timer_tick. erewrite bind_Ret by reflexivity. erewrite bind_Ret by reflexivity. cbn [wake_sleepers k2 set_sleepers sleepers tick_counters].
    erewrite bind_Ret.
    2: { unfold on_sched. eapply zoom_Ret. eapply get_notify_run. cbn. apply lookup_insert_eq. }
    cbn [n_owner]. erewrite bind_Ret by reflexivity. unfold mret, cmd_mret, cret, k3. cbn. by rewrite decide_False by (intros X; by apply X). }
  step_run E1. step_run E2.
  assert (sys_ok s2 qs) as HS2 by (apply set_deadline_ok; [by apply set_notifies_ok|done]).
  set (s3 := ts_notifies (<[NSleep thr := mk_notify (Some thr) 0]> (notifies s2)) s2).
  destruct (running_split s3 qs c thr (set_notifies_ok _ _ _ HS2) Hc Hid) as (l1 & l2 & Hq).
  destruct (block_run s3 qs c thr (th_set_deadline d x) THREAD_WAITING l1 l2 (set_notifies_ok _ _ _ HS2) Hc Hq) as (s' & to & E & _ & _ & _ & Hx' & _);
    [apply lookup_insert_eq|exact Hn|by left|].
  exists to, (set_ck_tasks s' k3). split.
  - unfold on_sched, czoom. unfold thread_wait_io. cbn [k3 set_sleepers tick_counters ck_tasks k2 set_ck_tasks].
    rewrite (bind_Ret _ _ _ _ _ (on_notify_run s2 (NSleep thr) (mk_notify None 0) (thread_wait_io_enter thr) Sleep (mk_notify (Some thr) 0)
      ltac:(apply lookup_insert_eq) eq_refl)). fold s3. by step_run E.
  - split; [eexists; split; [exact Hx'|done]|]. intros n. by apply ticks_idle.
Qed.

(** ** Examples: in the state [demo] thread 30 is outside the queues. *)
Definition demo_clock (l : list Z) (t : Z) (o : option Z) : clock unit :=
  mk_clock _ l 0 0 0 (ts_notifies {[ NSleep t := mk_notify o 0 ]} demo).

Lemma demo_clock_ok l t o : sys_ok (ck_tasks (demo_clock l t o)) demo_queues.
Proof. apply set_notifies_ok, demo_ok. Qed.

Lemma demo_30_sleeps : sleeping (ck_tasks (demo_clock [30] 30 (Some 30))) demo_queues 30 (mk_plain (-1) 0 0).
Proof.
  split; [reflexivity|by exists 0| | |by left].
  - intros (i & q & Hq & Ht). destruct (demo_queued _ _ _ Hq Ht); lia.
  - intros [i Hi]. unfold threads_idle in Hi. lia.
Qed.


Lemma sleep_dropped_by_tick_witness : exists to k',
  (sleep_arm 10 5000000;; timer_tick;; on_sched (thread_wait_io 0 10 (NSleep 10))) (demo_clock [] 10 None) = Ret (inr (UDone (Some to)), k') /\
  (exists x', threads (ck_tasks k') !! 10 = Some x' /\ t_state x' = THREAD_WAITING) /\
  forall n, exists k'', ticks n k' = Ret (tt, k'') /\ ck_tasks k'' = ck_tasks k'.
Proof.
  eapply (sleep_dropped_by_tick (demo_clock [] 10 None) demo_queues 0 10);
    [apply demo_clock_ok|done|done| |reflexivity|by left|reflexivity].
  intros [i Hi]. unfold threads_idle in Hi. lia.
Defined.
