(* ===== verification/Ext2.v ===== *)
(** * The ext2 file system: [fs/ext2/*.c]

    The code of the file system on a device that reads and writes blocks of 1024 bytes
    ([BlkIO]).  Superblock, group descriptors, inodes and directory entries are packed
    structures in byte buffers, read and written field by field ([Bytes]).  Inodes in
    memory are objects named by their addresses.  The buffers the functions keep on
    their stacks hold what the parameter [stack] says before they are filled. *)

From S2P Require Import Prelude Defs Bytes Vnode Vfs VfsOps Slab.

(** What the file system uses of the block layer: [io_rep d n f] says that the device
    has [n] blocks of 1024 bytes with the contents [f]. *)
Class BlkIO (D : Type) := {
  io_read : Z -> Z -> cmd D (Z * list Z);
  io_write : Z -> list Z -> cmd D Z;
  io_rep : D -> Z -> (Z -> list Z) -> Prop;
  io_length : forall d n f b, io_rep d n f -> 0 <= b < n -> length (f b) = 1024%nat;
  io_read_block : forall d n f b, io_rep d n f -> 0 <= b < n ->
    exists d', io_read (b * 1024) 1024 d = Ret ((1024, f b), d') /\ io_rep d' n f;
  io_write_block : forall d n f b l, io_rep d n f -> 0 <= b < n -> length l = 1024%nat ->
    exists d', io_write (b * 1024) l d = Ret (1024, d') /\ io_rep d' n (fun c => if decide (c = b) then l else f c);
}.

Definition EXT2_DIRECT_BLOCKS : Z := 12.
Definition EXT2_SIGNATURE : Z := 0xEF53.
Definition EXT2_REQ_ENT_TYPE : Z := 2.
Definition EXT2_IFDIR : Z := 0x4000.
Definition EXT2_IFREG : Z := 0x8000.
(** [sizeof(struct ext2_blkgrp_desc)] and [sizeof(struct ext2_dirent)]. *)
Definition SIZEOF_BGD : Z := 32.
Definition DIRENT_HEADER : Z := 8.

(** Offsets and widths of the fields of [struct ext2_superblock], [struct
    ext2_blkgrp_desc] and [struct ext2_inode]. *)
Record field := mk_field { f_width : nat; f_off : Z }.
Definition sb_inode_count := mk_field 4 0.
Definition sb_block_count := mk_field 4 4.
Definition sb_free_blocks := mk_field 4 12.
Definition sb_free_inodes := mk_field 4 16.
Definition sb_log2_block_size := mk_field 4 24.
Definition sb_block_group_blocks := mk_field 4 32.
Definition sb_block_group_inodes := mk_field 4 40.
Definition sb_signature := mk_field 2 56.
Definition sb_version_major := mk_field 4 76.
Definition sb_inode_size := mk_field 2 88.
Definition sb_required_features := mk_field 4 96.
Definition bgd_block_bitmap := mk_field 4 0.
Definition bgd_inode_bitmap := mk_field 4 4.
Definition bgd_inode_table := mk_field 4 8.
Definition bgd_free_blocks := mk_field 2 12.
Definition bgd_free_inodes := mk_field 2 14.
Definition bgd_directory_count := mk_field 2 16.
Definition i_mode := mk_field 2 0.
Definition i_uid := mk_field 2 2.
Definition i_size_lower := mk_field 4 4.
Definition i_atime := mk_field 4 8.
Definition i_ctime := mk_field 4 12.
Definition i_mtime := mk_field 4 16.
Definition i_dtime := mk_field 4 20.
Definition i_gid := mk_field 2 24.
Definition i_hard_links := mk_field 2 26.
Definition i_sector_count := mk_field 4 28.
Definition i_direct (k : Z) := mk_field 4 (40 + 4 * k).
Definition i_indirect_l1 := mk_field 4 88.
Definition i_indirect_l2 := mk_field 4 92.
Definition i_size_upper := mk_field 4 108.

(** [struct ext2_data] with the device below it, the inodes in memory and the value of
    [time()]. *)
Record ext2 {D : Type} := mk_ext2 {
  e_dev : D;
  e_sb : list Z;
  e_bgdt : list Z;
  e_block_size : Z;
  e_inode_size : Z;
  e_inodes_per_block : Z;
  bgdt_entry_count : Z;
  e_time : Z;
  e_inodes : gmap Z (list Z);
}.
Arguments ext2 : clear implicits.

Section setters.
Context {D : Type}.
Implicit Types e : ext2 D.
Definition set_dev d e := mk_ext2 D d (e_sb e) (e_bgdt e) (e_block_size e) (e_inode_size e) (e_inodes_per_block e) (bgdt_entry_count e) (e_time e) (e_inodes e).
Definition set_sb l e := mk_ext2 D (e_dev e) l (e_bgdt e) (e_block_size e) (e_inode_size e) (e_inodes_per_block e) (bgdt_entry_count e) (e_time e) (e_inodes e).
Definition set_bgdt l e := mk_ext2 D (e_dev e) (e_sb e) l (e_block_size e) (e_inode_size e) (e_inodes_per_block e) (bgdt_entry_count e) (e_time e) (e_inodes e).
Definition set_geometry bs isz ipb n e := mk_ext2 D (e_dev e) (e_sb e) (e_bgdt e) bs isz ipb n (e_time e) (e_inodes e).
Definition set_inodes m e := mk_ext2 D (e_dev e) (e_sb e) (e_bgdt e) (e_block_size e) (e_inode_size e) (e_inodes_per_block e) (bgdt_entry_count e) (e_time e) m.
End setters.

Section ext2_block.
Context {D : Type} `{BlkIO D}.
Abbreviation M := (cmd (ext2 D)).

Definition on_blk {A} (c : cmd D A) : M A := czoom e_dev set_dev c.

(** Loads and stores of fields. *)
Definition sb_get (f : field) : M Z := cload (fun e => peek (f_width f) (f_off f) (e_sb e)).
Definition sb_put (f : field) (x : Z) : M unit :=
  l ← cload (fun e => poke (f_width f) (f_off f) x (e_sb e)); cmodify (set_sb l).
Definition bgd_get (f : field) (i : Z) : M Z := cload (fun e => peek (f_width f) (SIZEOF_BGD * i + f_off f) (e_bgdt e)).
Definition bgd_put (f : field) (i x : Z) : M unit :=
  l ← cload (fun e => poke (f_width f) (SIZEOF_BGD * i + f_off f) x (e_bgdt e)); cmodify (set_bgdt l).
Definition inode_bytes (p : Z) : M (list Z) := cload (fun e => e_inodes e !! p).
Definition store_inode (p : Z) (l : list Z) : M unit := cmodify (fun e => set_inodes (<[p := l]> (e_inodes e)) e).
Definition i_get (f : field) (p : Z) : M Z := l ← inode_bytes p; cload (fun _ => peek (f_width f) (f_off f) l).
Definition i_put (f : field) (p x : Z) : M unit :=
  l ← inode_bytes p; l' ← cload (fun _ => poke (f_width f) (f_off f) x l); store_inode p l'.

(** ** [fs/ext2/block.c] *)
Definition ext2_read_superblock : M Z :=
  '(res, l) ← on_blk (io_read 1024 1024);
  cmodify (fun e => set_sb (splice 0 l (e_sb e)) e);;
  mret (if i32 res =? 1024 then 0 else i32 res).

Definition ext2_write_superblock : M Z :=
  sb ← cgets e_sb;
  res ← on_blk (io_write 1024 sb);
  mret (if i32 res =? 1024 then 0 else i32 res).

(** The result, and the bytes the read put into the buffer. *)
Definition ext2_read_block (no : Z) : M (Z * list Z) :=
  bs ← cgets e_block_size;
  '(res, l) ← on_blk (io_read (u32 (no * bs)) bs);
  mret (if i32 res =? 1024 then 0 else i32 res, l).

Definition ext2_write_block (block : list Z) (no : Z) : M Z :=
  bs ← cgets e_block_size;
  res ← on_blk (io_write (u32 (no * bs)) (take (Z.to_nat bs) block));
  mret (if i32 res =? 1024 then 0 else i32 res).

(** The block of an inode and its offset there. *)
Definition inode_place (ino : Z) : M (Z * Z) :=
  count ← sb_get sb_inode_count;
  if (ino <? 1) || (count <=? ino) then cpanic else
  per ← sb_get sb_block_group_inodes;
  ipb ← cgets e_inodes_per_block;
  if (per =? 0) || (ipb =? 0) then cfault else
  let ino_group := (ino - 1) / per in
  let ino_in_group := (ino - 1) mod per in
  table ← bgd_get bgd_inode_table ino_group;
  isz ← cgets e_inode_size;
  bs ← cgets e_block_size;
  let offset_in_block := u32 (ino_in_group mod ipb * isz) in
  cassert (offset_in_block <? bs);;
  mret (u32 (table + ino_in_group / ipb), offset_in_block).

(** A read outside the block buffer is a fault. *)
Definition in_block (off n : Z) (l : list Z) : bool := off + n <=? Z.of_nat (length l).

Definition ext2_read_inode (p ino : Z) : M Z :=
  '(ino_block, off) ← inode_place ino;
  '(res, block) ← ext2_read_block ino_block;
  if negb (res =? 0) then mret res else
  isz ← cgets e_inode_size;
  inode_bytes p;;
  if in_block off isz block then store_inode p (slice off isz block);; mret 0 else cfault.

Definition ext2_write_inode (p ino : Z) : M Z :=
  now ← cgets e_time;
  i_put i_atime p now;;
  '(ino_block, off) ← inode_place ino;
  '(res, block) ← ext2_read_block ino_block;
  if negb (res =? 0) then mret res else
  isz ← cgets e_inode_size;
  l ← inode_bytes p;
  if in_block off isz block then ext2_write_block (splice off (take (Z.to_nat isz) l) block) ino_block else cfault.

(** [ptrs[k]] of a block read into [uint32_t ptrs[p]]. *)
Definition ptr_at (k : Z) (ptrs : list Z) : M Z := cload (fun _ => peek 4 (4 * k) ptrs).
Definition read_ptrs (no : Z) : M (list Z) := '(res, ptrs) ← ext2_read_block no; cassert (res =? 0);; mret ptrs.

Definition ext2_inode_get_index (p index : Z) : M Z :=
  bs ← cgets e_block_size;
  let n := bs / 4 in
  if index <? EXT2_DIRECT_BLOCKS then i_get (i_direct index) p else
  let index := index - EXT2_DIRECT_BLOCKS in
  if index <? n then
    l1 ← i_get i_indirect_l1 p;
    if l1 =? 0 then cpanic else
    ptrs ← read_ptrs l1; ptr_at index ptrs
  else
  let index := index - n in
  if index <? u32 (n * n) then
    l2 ← i_get i_indirect_l2 p;
    if l2 =? 0 then cpanic else
    ptrs ← read_ptrs l2;
    l1 ← ptr_at (index / n) ptrs;
    if l1 =? 0 then cpanic else
    ptrs ← read_ptrs l1; ptr_at (index mod n) ptrs
  else cpanic.

Definition ext2_read_inode_block (p index : Z) : M (Z * list Z) :=
  block ← ext2_inode_get_index p index;
  if block =? 0 then cpanic else ext2_read_block block.

Definition ext2_write_inode_block (p : Z) (buf : list Z) (index : Z) : M Z :=
  block ← ext2_inode_get_index p index;
  if block =? 0 then cpanic else ext2_write_block buf block.
End ext2_block.

(** ** [fs/ext2/alloc.c]

    Blocks and inodes are allocated by the same code on different fields. *)
Inductive resource := Blocks | Inodes.
#[export] Instance resource_eq_dec : EqDecision resource.
Proof. solve_decision. Defined.
Definition r_bitmap (r : resource) : field := match r with Blocks => bgd_block_bitmap | Inodes => bgd_inode_bitmap end.
Definition r_free (r : resource) : field := match r with Blocks => bgd_free_blocks | Inodes => bgd_free_inodes end.
Definition r_per_group (r : resource) : field := match r with Blocks => sb_block_group_blocks | Inodes => sb_block_group_inodes end.
Definition r_total (r : resource) : field := match r with Blocks => sb_free_blocks | Inodes => sb_free_inodes end.

Section ext2_alloc.
Context {D : Type} `{BlkIO D} (stack : list Z).
Abbreviation M := (cmd (ext2 D)).

(** The first clear bit from [j] on, among [n] bits. *)
Fixpoint scan_bits (n : nat) (j : Z) (buf : list Z) : M (option Z) :=
  match n with
  | O => mret None
  | S n => b ← cload (fun _ => bm_test j buf); if (b : bool) then scan_bits n (j + 1) buf else mret (Some j)
  end.

(** The loop over the groups: the number found last, its group and its bit, and the
    buffer, which holds the bitmap that was read last. *)
Fixpoint scan_groups (r : resource) (n : nat) (i : Z) (acc : Z * Z * Z) (buf : list Z) : M (Z * Z * Z * list Z) :=
  match n with
  | O => mret (acc, buf)
  | S n =>
      free ← bgd_get (r_free r) i;
      if free =? 0 then scan_groups r n (i + 1) acc buf else
      no ← bgd_get (r_bitmap r) i;
      '(_, l) ← ext2_read_block no;
      let buf := splice 0 l buf in
      per ← sb_get (r_per_group r);
      o ← scan_bits (Z.to_nat per) 0 buf;
      match o with
      | Some j => scan_groups r n (i + 1) (u32 (i * per + j + 1), i, j) buf
      | None => scan_groups r n (i + 1) acc buf
      end
  end.

(** The block of the descriptor table that holds group [group]. *)
Definition write_bgdt (group : Z) : M unit :=
  bs ← cgets e_block_size;
  bgdt ← cgets e_bgdt;
  let bgd_block_number := group * SIZEOF_BGD / bs in
  res ← ext2_write_block (slice (bgd_block_number * bs) bs bgdt) (bgd_block_number + 2);
  if res =? 0 then mret tt else cpanic.

Definition write_sb : M unit := res ← ext2_write_superblock; if res =? 0 then mret tt else cpanic.

(** The number of directories of a group. *)
Definition count_dir (is_dir : bool) (group x : Z) : M unit :=
  if is_dir then dc ← bgd_get bgd_directory_count group; bgd_put bgd_directory_count group (dc + x) else mret tt.

(** Write a changed bitmap back and account for [x] more free resources of [group]. *)
Definition store_bitmap (r : resource) (is_dir : bool) (group x : Z) (buf : list Z) (no : Z) : M unit :=
  res ← ext2_write_block buf no;
  if negb (res =? 0) then cpanic else
  free ← bgd_get (r_free r) group;
  bgd_put (r_free r) group (free + x);;
  count_dir is_dir group (- x);;
  write_bgdt group;;
  total ← sb_get (r_total r);
  sb_put (r_total r) (total + x);;
  write_sb.

(** Mark bit [offset] of [group] in the bitmap [buf]. *)
Definition take_bit (r : resource) (is_dir : bool) (group offset : Z) (buf : list Z) : M unit :=
  no ← bgd_get (r_bitmap r) group;
  buf ← cload (fun _ => bm_set offset buf);
  store_bitmap r is_dir group (-1) buf no.

(** 0: there is no free inode. *)
Definition ext2_alloc_inode (is_dir : bool) : M Z :=
  n ← cgets bgdt_entry_count;
  '(ino, group, offset, buf) ← scan_groups Inodes (Z.to_nat n) 0 (0, 0, 0) stack;
  if ino =? 0 then mret 0 else
  take_bit Inodes is_dir group offset buf;;
  mret ino.

Definition ext2_alloc_block : M Z :=
  n ← cgets bgdt_entry_count;
  '(block, group, offset, buf) ← scan_groups Blocks (Z.to_nat n) 0 (0, 0, 0) stack;
  if block =? 0 then cpanic else
  take_bit Blocks false group offset buf;;
  mret block.

(** Clear the bit of number [no]. *)
Definition free_bit (r : resource) (is_dir : bool) (no : Z) : M unit :=
  if no =? 0 then cpanic else
  per ← sb_get (r_per_group r);
  if per =? 0 then cfault else
  let offset := (no - 1) mod per in
  let group := (no - 1) / per in
  bm ← bgd_get (r_bitmap r) group;
  '(res, buf) ← ext2_read_block bm;
  if negb (res =? 0) then cpanic else
  buf ← cload (fun _ => bm_clear offset buf);
  store_bitmap r is_dir group 1 buf bm.

Definition ext2_free_inode (ino : Z) (is_dir : bool) : M unit := free_bit Inodes is_dir ino.
Definition ext2_free_block (blk : Z) : M unit := free_bit Blocks false blk.

(** [ext2_inode_set_index] of [block.c]. *)
Definition ext2_inode_set_index (p index value : Z) : M Z :=
  bs ← cgets e_block_size;
  let n := bs / 4 in
  if index <? EXT2_DIRECT_BLOCKS then i_put (i_direct index) p value;; mret 0
  else if index <? EXT2_DIRECT_BLOCKS + n then
    l1 ← i_get i_indirect_l1 p;
    (if l1 =? 0 then
       block ← ext2_alloc_block;
       if block =? 0 then cpanic else i_put i_indirect_l1 p block
     else mret tt);;
    l1 ← i_get i_indirect_l1 p;
    ptrs ← read_ptrs l1;
    ptrs ← cload (fun _ => poke 4 (4 * (index - EXT2_DIRECT_BLOCKS)) value ptrs);
    res ← ext2_write_block ptrs l1;
    cassert (res =? 0);;
    mret 0
  else cpanic.

(** Append [n] blocks from index [index] on. *)
Fixpoint grow_file (n : nat) (p index : Z) : M unit :=
  match n with
  | O => mret tt
  | S n =>
      block ← ext2_alloc_block;
      if block =? 0 then cpanic else
      res ← ext2_inode_set_index p index block;
      cassert (res =? 0);;
      grow_file n p (index + 1)
  end.

(** Release [n] blocks from index [index] on. *)
Fixpoint shrink_file (n : nat) (p index : Z) : M unit :=
  match n with
  | O => mret tt
  | S n =>
      block ← ext2_inode_get_index p index;
      cassert (negb (block =? 0));;
      ext2_inode_set_index p index 0;;
      ext2_free_block block;;
      shrink_file n p (index + 1)
  end.

Definition ext2_file_resize (p new_size : Z) : M Z :=
  bs ← cgets e_block_size;
  size ← i_get i_size_lower p;
  let block_count := u64 (new_size + bs - 1) / bs in
  let old_block_count := u32 (size + bs - 1) / bs in
  let n := bs / 4 in
  cassert ((block_count <=? EXT2_DIRECT_BLOCKS + n) && (old_block_count <=? EXT2_DIRECT_BLOCKS + n));;
  (if old_block_count <=? block_count then grow_file (Z.to_nat (block_count - old_block_count)) p old_block_count
   else
     shrink_file (Z.to_nat (old_block_count - block_count)) p block_count;;
     (if (EXT2_DIRECT_BLOCKS <? old_block_count) && (block_count <=? EXT2_DIRECT_BLOCKS + n) then
        l1 ← i_get i_indirect_l1 p;
        cassert (negb (l1 =? 0));;
        ext2_free_block l1;;
        i_put i_indirect_l1 p 0
      else mret tt);;
     (if (EXT2_DIRECT_BLOCKS + n <? old_block_count) && (block_count <=? EXT2_DIRECT_BLOCKS + n + n * n) then cpanic else mret tt));;
  i_put i_size_lower p new_size;;
  let real_block_count := block_count + (if EXT2_DIRECT_BLOCKS <? block_count then 1 else 0) in
  i_put i_sector_count p ((real_block_count * bs + 511) / 512);;
  mret 0.
End ext2_alloc.

(** ** Files: [fs/ext2/node.c]

    A file is given by the inode its vnode points to and its inode number; the position
    of the open file is passed and returned. *)
Definition SEEK_SET : Z := 0.
Definition SEEK_CUR : Z := 1.

(** The fields of [struct stat] that are filled in. *)
Record stat := mk_stat { st_mode : Z; st_uid : Z; st_gid : Z; st_size : Z; st_blksize : Z; st_blocks : Z;
  st_mtime : Z; st_atime : Z; st_ctime : Z; st_nlink : Z }.

Section ext2_file.
Context {D : Type} `{BlkIO D} (stack : list Z).
Abbreviation M := (cmd (ext2 D)).

(** The result, and the position the file is opened at. *)
Definition ext2_vnode_open (opt pos : Z) : M (Z * Z) :=
  if negb (Z.land opt O_APPEND =? 0) && (Z.land opt O_ACCMODE =? O_RDONLY) then mret (- EINVAL, pos) else
  cassert (Z.land opt O_DIRECTORY =? 0);;
  mret (0, 0).

Fixpoint read_blocks (fuel : nat) (p pos rem bread : Z) (buf : list Z) : M (Z * list Z * Z) :=
  match fuel with
  | O => cdiverged
  | S fuel =>
      if rem =? 0 then mret (bread, buf, pos) else
      bs ← cgets e_block_size;
      let block_offset := pos mod bs in
      let can_read := Z.min rem (bs - block_offset) in
      '(res, block) ← ext2_read_inode_block p (u32 (pos / bs));
      if negb (res =? 0) then mret (res, buf, pos) else
      read_blocks fuel p (pos + can_read) (rem - can_read) (bread + can_read) (buf ++ slice block_offset can_read block)
  end.

(** The result, the bytes put into the buffer and the new position. *)
Definition ext2_vnode_read (p pos count : Z) : M (Z * list Z * Z) :=
  upper ← i_get i_size_upper p;
  cassert (upper =? 0);;
  size ← i_get i_size_lower p;
  if size <=? pos then mret (0, [], pos) else
  let rem := Z.min count (size - pos) in
  read_blocks (S (Z.to_nat rem)) p pos rem 0 [].

Definition ext2_vnode_lseek (p pos off whence : Z) : M (Z * Z) :=
  size ← i_get i_size_lower p;
  calc ← (if whence =? SEEK_SET then mret off else if whence =? SEEK_CUR then mret (i64 (off + pos)) else cpanic);
  if (calc <? 0) || (size <=? calc) then mret (- ESPIPE, pos) else mret (calc, calc).

Fixpoint write_blocks (fuel : nat) (p pos rem off : Z) (buf : list Z) : M (Z * Z) :=
  match fuel with
  | O => cdiverged
  | S fuel =>
      if rem =? 0 then mret (off, pos) else
      bs ← cgets e_block_size;
      let block_index := u32 (pos / bs) in
      let block_offset := pos mod bs in
      let can_write := Z.min rem (bs - block_offset) in
      cassert (negb (can_write =? 0));;
      (if negb (can_write =? bs) then
         '(res, block) ← ext2_read_inode_block p block_index;
         if negb (res =? 0) then cpanic else
         res ← ext2_write_inode_block p (splice block_offset (slice off can_write buf) block) block_index;
         if negb (res =? 0) then cpanic else mret tt
       else
         res ← ext2_write_inode_block p (slice off bs buf) block_index;
         if negb (res =? 0) then cpanic else mret tt);;
      write_blocks fuel p (pos + can_write) (rem - can_write) (off + can_write) buf
  end.

Definition ext2_vnode_write (p ino pos : Z) (buf : list Z) : M (Z * Z) :=
  let count := Z.of_nat (length buf) in
  upper ← i_get i_size_upper p;
  cassert (upper =? 0);;
  size ← i_get i_size_lower p;
  if size <? pos then mret (0, pos) else
  let req_size := Z.max (u64 (pos + count)) size in
  res ← ext2_file_resize stack p req_size;
  if negb (res =? 0) then mret (res, pos) else
  '(off, pos) ← write_blocks (S (Z.to_nat count)) p pos count 0 buf;
  now ← cgets e_time;
  i_put i_mtime p now;;
  res ← ext2_write_inode p ino;
  mret (if negb (res =? 0) then res else off, pos).

Definition ext2_vnode_truncate (t : vnode_type) (p ino new_size : Z) : M Z :=
  if negb (bool_decide (t = VN_REG)) then mret (- EPERM) else
  res ← ext2_file_resize stack p new_size;
  if negb (res =? 0) then mret res else
  now ← cgets e_time;
  i_put i_mtime p now;;
  ext2_write_inode p ino.

(** [chmod] and [chown] also return the vnode with its new rights. *)
Definition ext2_vnode_chmod (v : vnode) (new_mode : Z) : M (Z * vnode) :=
  let p := v_fs_data v in
  mode ← i_get i_mode p;
  if Z.land mode 0xFFF =? Z.land new_mode 0xFFF then mret (0, v) else
  i_put i_mode p (Z.lor (Z.land mode (Z.lnot 0xFFF)) (Z.land new_mode 0xFFF));;
  now ← cgets e_time;
  i_put i_mtime p now;;
  res ← ext2_write_inode p (v_ino v);
  mret (res, with_mode (Z.land new_mode 0xFFF) v).

Definition ext2_vnode_chown (v : vnode) (new_uid new_gid : Z) : M (Z * vnode) :=
  let p := v_fs_data v in
  uid ← i_get i_uid p;
  gid ← i_get i_gid p;
  if (new_uid =? uid) && (new_gid =? gid) then mret (0, v) else
  i_put i_uid p new_uid;;
  i_put i_gid p new_gid;;
  now ← cgets e_time;
  i_put i_mtime p now;;
  res ← ext2_write_inode p (v_ino v);
  mret (res, with_owner new_uid new_gid v).

Definition ext2_vnode_stat (v : vnode) : M (Z * stat) :=
  let p := v_fs_data v in
  uid ← i_get i_uid p; cassert (uid =? v_uid v);;
  gid ← i_get i_gid p; cassert (gid =? v_gid v);;
  mode ← i_get i_mode p; cassert (Z.land mode 0xFFF =? v_mode v);;
  size ← i_get i_size_lower p;
  upper ← i_get i_size_upper p; cassert (upper =? 0);;
  bs ← cgets e_block_size;
  mtime ← i_get i_mtime p; atime ← i_get i_atime p; ctime ← i_get i_ctime p; links ← i_get i_hard_links p;
  mret (0, mk_stat mode uid gid size bs ((size + bs - 1) / bs) mtime atime ctime links).

(** [ext2_inode_to_vnode]. *)
Definition ext2_inode_to_vnode (v : vnode) (p ino op : Z) : M vnode :=
  uid ← i_get i_uid p;
  gid ← i_get i_gid p;
  mode ← i_get i_mode p;
  t ← (if Z.land mode 0xF000 =? EXT2_IFDIR then mret VN_DIR else if Z.land mode 0xF000 =? EXT2_IFREG then mret VN_REG else cpanic);
  mret (mk_vnode t (v_name v) (v_flags v) (first_child v) (next_child v) (v_parent v) (v_target v) (open_count v)
    ino gid uid (Z.land mode 0xFFF) (v_fs v) p (v_dev v) op).
End ext2_file.
