(* ===== verification/Ext2Alloc.v ===== *)
(** * Allocation of ext2 blocks and inodes

    The invariant of a mounted file system: the layout of its metadata, the bitmaps
    and the counters of free blocks and inodes in memory and on the device.
    Allocation and release keep it and change exactly one bit. *)

From S2P Require Import Prelude Defs Bytes Vnode Vfs VfsOps Slab Ext2.

Definition upd (b : Z) (l : list Z) (f : Z -> list Z) : Z -> list Z := fun c => if decide (c = b) then l else f c.

(** ** Counting clear bits, sums over the groups *)
Fixpoint nfree (n : nat) (l : list Z) : Z :=
  match n with
  | O => 0
  | S n => nfree n l + (if decide (bm_test (Z.of_nat n) l = Some false) then 1 else 0)
  end.
Fixpoint gsum (n : nat) (h : Z -> Z) : Z := match n with O => 0 | S n => gsum n h + h (Z.of_nat n) end.

Section counts.
Lemma upd_eq b l f : upd b l f b = l.
Proof. unfold upd. by rewrite decide_True. Qed.
Lemma upd_ne b l f c : c <> b -> upd b l f c = f c.
Proof. intros. unfold upd. by rewrite decide_False. Qed.

Lemma nfree_bound n l : 0 <= nfree n l <= Z.of_nat n.
Proof. induction n as [|n IH]; [done|]. cbn [nfree]. case_decide; lia. Qed.

Lemma nfree_pos n l : 0 < nfree n l -> exists j, 0 <= j < Z.of_nat n /\ bm_test j l = Some false.
Proof.
  induction n as [|n IH]; [cbn; lia|]. cbn [nfree]. case_decide as E.
  - intros _. exists (Z.of_nat n). split; [lia|done].
  - intros H. destruct IH as (j & Hj & Ej); [lia|]. exists j. split; [lia|done].
Qed.

Lemma nfree_zero n l : nfree n l = 0 -> forall j, 0 <= j < Z.of_nat n -> bm_test j l <> Some false.
Proof.
  induction n as [|n IH]; [intros _ j; lia|]. cbn [nfree]. pose proof (nfree_bound n l). case_decide as E; [lia|].
  intros H1 j Hj. destruct (decide (j = Z.of_nat n)) as [->|]; [done|]. apply IH; lia.
Qed.

Lemma nfree_ext n l l' : (forall j, 0 <= j < Z.of_nat n -> bm_test j l' = bm_test j l) -> nfree n l' = nfree n l.
Proof. induction n as [|n IH]; intros Hj; [done|]. cbn [nfree]. rewrite Hj by lia. rewrite IH; [done|]. intros j Hn. apply Hj. lia. Qed.

(** One bit changes from [b] to [negb b]. *)
Lemma nfree_flip n l l' (b : bool) j : 0 <= j < Z.of_nat n -> bm_test j l = Some b ->
  (forall k, 0 <= k -> bm_test k l' = if decide (k = j) then Some (negb b) else bm_test k l) ->
  nfree n l' = nfree n l + (if b then 1 else -1).
Proof.
  intros Hj Hb Hk. induction n as [|n IH]; [cbn in Hj; lia|]. cbn [nfree]. rewrite Hk by lia. destruct (decide (Z.of_nat n = j)) as [<-|Hne].
  - rewrite Hb, (nfree_ext n l l'); [destruct b; cbn [negb]; case_decide; case_decide; try lia; congruence|].
    intros k Hkn. rewrite Hk by lia. by rewrite decide_False by lia.
  - rewrite IH by lia. lia.
Qed.

Lemma gsum_ext n h h' : (forall i, 0 <= i < Z.of_nat n -> h' i = h i) -> gsum n h' = gsum n h.
Proof. induction n as [|n IH]; intros Hi; [done|]. cbn [gsum]. rewrite IH by (intros; apply Hi; lia). by rewrite Hi by lia. Qed.

Lemma gsum_change n h h' g x : 0 <= g < Z.of_nat n -> (forall i, 0 <= i < Z.of_nat n -> h' i = if decide (i = g) then h i + x else h i) ->
  gsum n h' = gsum n h + x.
Proof.
  intros Hg Hi. induction n as [|n IH]; [lia|]. cbn [gsum]. rewrite (Hi (Z.of_nat n)) by lia. case_decide as E.
  - rewrite (gsum_ext n h h'); [lia|]. intros i Hin. rewrite Hi by lia. by rewrite decide_False by lia.
  - rewrite IH; [lia|lia|]. intros i Hin. apply Hi. lia.
Qed.

Lemma gsum_bound n h m : (forall i, 0 <= i < Z.of_nat n -> 0 <= h i <= m) -> 0 <= gsum n h <= Z.of_nat n * m.
Proof.
  induction n as [|n IH]; intros Hi; [cbn; lia|]. cbn [gsum]. pose proof (Hi (Z.of_nat n) ltac:(lia)).
  assert (0 <= gsum n h <= Z.of_nat n * m) by (apply IH; intros; apply Hi; lia). lia.
Qed.

Lemma gsum_ge n h g : (forall i, 0 <= i < Z.of_nat n -> 0 <= h i) -> 0 <= g < Z.of_nat n -> h g <= gsum n h.
Proof.
  intros Hi Hg. assert (forall k, (k <= n)%nat -> 0 <= gsum k h) as Hpos.
  { induction k as [|k IHk]; intros Hk; [done|]. cbn [gsum]. pose proof (Hi (Z.of_nat k) ltac:(lia)). specialize (IHk ltac:(lia)). lia. }
  induction n as [|n IH]; [lia|]. cbn [gsum]. destruct (decide (g = Z.of_nat n)) as [->|]; [specialize (Hpos n ltac:(lia)); lia|].
  pose proof (Hi (Z.of_nat n) ltac:(lia)). assert (h g <= gsum n h); [|lia]. apply IH; [intros; apply Hi; lia|lia|intros; apply Hpos; lia].
Qed.
End counts.

(** ** Fields *)
Definition sbv {D} (e : ext2 D) (f : field) : Z := default 0 (peek (f_width f) (f_off f) (e_sb e)).
Definition bgv {D} (e : ext2 D) (f : field) (i : Z) : Z := default 0 (peek (f_width f) (SIZEOF_BGD * i + f_off f) (e_bgdt e)).
Definition per {D} (e : ext2 D) (r : resource) : Z := sbv e (r_per_group r).
Definition bitmap_no {D} (e : ext2 D) (r : resource) (i : Z) : Z := bgv e (r_bitmap r) i.
Definition bgdt_blocks {D} (e : ext2 D) : Z := (bgdt_entry_count e * SIZEOF_BGD + 1023) / 1024.
Definition table_blocks {D} (e : ext2 D) : Z := (per e Inodes + e_inodes_per_block e - 1) / e_inodes_per_block e.

(** What a metadata block is for. *)
Inductive meta := MSuper | MTable (k : Z) | MBitmap (r : resource) (i : Z) | MInodes (i k : Z).
Definition meta_at {D} (e : ext2 D) (m : meta) (b : Z) : Prop :=
  match m with
  | MSuper => b = 1
  | MTable k => 0 <= k < bgdt_blocks e /\ b = k + 2
  | MBitmap r i => 0 <= i < bgdt_entry_count e /\ b = bitmap_no e r i
  | MInodes i k => 0 <= i < bgdt_entry_count e /\ 0 <= k < table_blocks e /\ b = bgv e bgd_inode_table i + k
  end.

(** The layout of a file system of [n] blocks. *)
Record geometry {D} (e : ext2 D) (n : Z) : Prop := {
  g_bs : e_block_size e = 1024;
  g_sb : length (e_sb e) = 1024%nat;
  g_groups : 0 < bgdt_entry_count e;
  g_bgdt : Z.of_nat (length (e_bgdt e)) = bgdt_blocks e * 1024;
  g_n : 2 < n <= 2 ^ 22;
  g_per : forall r, 0 < per e r <= 8192 /\ bgdt_entry_count e * per e r < 2 ^ 32 - 1;
  g_isz : 128 <= e_inode_size e <= 1024;
  g_ipb : e_inodes_per_block e = 1024 / e_inode_size e;
  g_ic : sbv e sb_inode_count = bgdt_entry_count e * per e Inodes;
  g_meta_in : forall m b, meta_at e m b -> 1 <= b < n /\ b <= bgdt_entry_count e * per e Blocks;
  g_meta_inj : forall m m' b, meta_at e m b -> meta_at e m' b -> m = m';
}.

(** Bit of number [no] (counted from 1) in the bitmap of its group. *)
Definition bit_of {D} (e : ext2 D) (f : Z -> list Z) (r : resource) (no : Z) : option bool :=
  bm_test ((no - 1) mod per e r) (f (bitmap_no e r ((no - 1) / per e r))).
Definition numbers {D} (e : ext2 D) (r : resource) (no : Z) : Prop := 1 <= no <= bgdt_entry_count e * per e r.
Definition taken {D} (e : ext2 D) f r no : Prop := numbers e r no /\ bit_of e f r no = Some true.

Record e2_ok {D} `{BlkIO D} (e : ext2 D) (n : Z) (f : Z -> list Z) : Prop := {
  ok_io : io_rep (e_dev e) n f;
  ok_geo : geometry e n;
  ok_sb : f 1 = e_sb e;
  ok_bgdt : forall k, 0 <= k < bgdt_blocks e -> f (k + 2) = slice (k * 1024) 1024 (e_bgdt e);
  ok_free : forall r i, 0 <= i < bgdt_entry_count e -> bgv e (r_free r) i = nfree (Z.to_nat (per e r)) (f (bitmap_no e r i));
  ok_total : forall r, sbv e (r_total r) = gsum (Z.to_nat (bgdt_entry_count e)) (bgv e (r_free r));
  ok_meta : forall m b, meta_at e m b -> taken e f Blocks b;
  ok_in : forall b, numbers e Blocks b -> ~ taken e f Blocks b -> b < n;
}.

(** What no operation changes. *)
Record same_geometry {D} (e e' : ext2 D) : Prop := {
  sg_bs : e_block_size e' = e_block_size e;
  sg_isz : e_inode_size e' = e_inode_size e;
  sg_ipb : e_inodes_per_block e' = e_inodes_per_block e;
  sg_groups : bgdt_entry_count e' = bgdt_entry_count e;
  sg_time : e_time e' = e_time e;
  sg_sb : length (e_sb e') = length (e_sb e);
  sg_bgdt : length (e_bgdt e') = length (e_bgdt e);
  sg_fields : forall g, g ∈ [sb_inode_count; sb_block_group_blocks; sb_block_group_inodes; sb_required_features] -> sbv e' g = sbv e g;
  sg_desc : forall g i, g ∈ [bgd_block_bitmap; bgd_inode_bitmap; bgd_inode_table] -> bgv e' g i = bgv e g i;
}.

#[export] Instance same_geometry_preorder {D} : PreOrder (@same_geometry D).
Proof.
  split.
  - intros e. by split.
  - intros e1 e2 e3 H1 H2. split; try (destruct H1, H2; congruence).
    + intros g Hg. by rewrite (sg_fields _ _ H2), (sg_fields _ _ H1).
    + intros g i Hg. by rewrite (sg_desc _ _ H2), (sg_desc _ _ H1).
Qed.

Section geo.
Context {D : Type}.
Implicit Types e : ext2 D.

Lemma sg_per e e' r : same_geometry e e' -> per e' r = per e r.
Proof. intros H. apply (sg_fields _ _ H). destruct r; set_solver. Qed.
Lemma sg_bitmap e e' r i : same_geometry e e' -> bitmap_no e' r i = bitmap_no e r i.
Proof. intros H. apply (sg_desc _ _ H). destruct r; set_solver. Qed.
Lemma sg_table e e' i : same_geometry e e' -> bgv e' bgd_inode_table i = bgv e bgd_inode_table i.
Proof. intros H. apply (sg_desc _ _ H). set_solver. Qed.

Lemma sg_meta e e' m b : same_geometry e e' -> meta_at e' m b <-> meta_at e m b.
Proof.
  intros H. destruct m; cbn; unfold bgdt_blocks, table_blocks; rewrite ?(sg_groups _ _ H), ?(sg_bitmap _ _ _ _ H), ?(sg_per _ _ _ H), ?(sg_ipb _ _ H), ?(sg_table _ _ _ H); done.
Qed.

Lemma sg_geometry e e' n : same_geometry e e' -> geometry e n -> geometry e' n.
Proof.
  intros Hs [H1 H2 H3 H4 H5 H6 H7 H8 H9 H10 H11]. split.
  - by rewrite (sg_bs _ _ Hs).
  - by rewrite (sg_sb _ _ Hs).
  - by rewrite (sg_groups _ _ Hs).
  - rewrite (sg_bgdt _ _ Hs). unfold bgdt_blocks. by rewrite (sg_groups _ _ Hs).
  - done.
  - intros r. rewrite (sg_per _ _ r Hs), (sg_groups _ _ Hs). apply H6.
  - by rewrite (sg_isz _ _ Hs).
  - by rewrite (sg_ipb _ _ Hs), (sg_isz _ _ Hs).
  - rewrite (sg_fields _ _ Hs) by set_solver. by rewrite (sg_per _ _ _ Hs), (sg_groups _ _ Hs).
  - intros m b. rewrite (sg_meta _ _ _ _ Hs), (sg_per _ _ _ Hs), (sg_groups _ _ Hs). apply H10.
  - intros m m' b. rewrite !(sg_meta _ _ _ _ Hs). apply H11.
Qed.

Lemma sg_bit e e' f r no : same_geometry e e' -> bit_of e' f r no = bit_of e f r no.
Proof. intros Hs. unfold bit_of. by rewrite (sg_per _ _ _ Hs), (sg_bitmap _ _ _ _ Hs). Qed.
Lemma sg_numbers e e' r no : same_geometry e e' -> numbers e' r no <-> numbers e r no.
Proof. intros Hs. unfold numbers. by rewrite (sg_per _ _ _ Hs), (sg_groups _ _ Hs). Qed.
Lemma sg_taken e e' f r no : same_geometry e e' -> taken e' f r no <-> taken e f r no.
Proof. intros Hs. unfold taken. by rewrite (sg_numbers _ _ _ _ Hs), (sg_bit _ _ _ _ _ Hs). Qed.

(** The group and the bit of a number. *)
Lemma number_split e n r no : geometry e n -> numbers e r no ->
  0 <= (no - 1) / per e r < bgdt_entry_count e /\ 0 <= (no - 1) mod per e r < per e r /\ no = (no - 1) / per e r * per e r + (no - 1) mod per e r + 1.
Proof.
  intros Hg [H1 H2]. destruct (g_per _ _ Hg r) as [Hp _]. pose proof (Z.div_mod (no - 1) (per e r) ltac:(lia)).
  split; [split; [apply Z.div_pos; lia|apply Z.div_lt_upper_bound; lia]|]. split; [apply Z.mod_pos_bound; lia|lia].
Qed.

Lemma number_join e n r g j : geometry e n -> 0 <= g < bgdt_entry_count e -> 0 <= j < per e r ->
  numbers e r (g * per e r + j + 1) /\ (g * per e r + j + 1 - 1) / per e r = g /\ (g * per e r + j + 1 - 1) mod per e r = j.
Proof.
  intros Hg Hgr Hj. destruct (g_per _ _ Hg r) as [Hp _]. replace (g * per e r + j + 1 - 1) with (g * per e r + j) by lia.
  split; [split; nia|]. split; [rewrite Z.div_add_l, Z.div_small by lia; lia|]. rewrite Z.add_comm, Z_mod_plus_full. apply Z.mod_small. lia.
Qed.

Lemma desc_in e n i : geometry e n -> 0 <= i < bgdt_entry_count e -> 0 <= SIZEOF_BGD * i /\ SIZEOF_BGD * i + 32 <= Z.of_nat (length (e_bgdt e)).
Proof. intros Hg Hi. rewrite (g_bgdt _ _ Hg). unfold bgdt_blocks, SIZEOF_BGD in *. Z.div_mod_to_equations. lia. Qed.

Definition sb_field (g : field) : Prop := 0 <= f_off g /\ f_off g + Z.of_nat (f_width g) <= 128.
Definition bgd_field (g : field) : Prop := 0 <= f_off g < 32 /\ f_off g + Z.of_nat (f_width g) <= 32.

Lemma sb_get_run e n g : geometry e n -> sb_field g -> sb_get g e = Ret (sbv e g, e).
Proof.
  intros Hg [H1 H2]. unfold sb_get, sbv. apply load_Some. rewrite peek_in; [done|done|]. rewrite (g_sb _ _ Hg). lia.
Qed.
Lemma bgd_get_run e n g i : geometry e n -> bgd_field g -> 0 <= i < bgdt_entry_count e -> bgd_get g i e = Ret (bgv e g i, e).
Proof.
  intros Hg [H1 H2] Hi. destruct (desc_in e n i Hg Hi). unfold bgd_get, bgv. apply load_Some. rewrite peek_in; [done|lia|lia].
Qed.

Lemma sb_put_run e n g x : geometry e n -> sb_field g -> exists l, sb_put g x e = Ret (tt, set_sb l e) /\ length l = length (e_sb e) /\
  sbv (set_sb l e) g = uwrap (8 * Z.of_nat (f_width g)) x /\
  forall h, f_off h + Z.of_nat (f_width h) <= f_off g \/ f_off g + Z.of_nat (f_width g) <= f_off h -> sbv (set_sb l e) h = sbv e h.
Proof.
  intros Hg [H1 H2]. pose proof (g_sb _ _ Hg) as Hl. eexists. split.
  { unfold sb_put. erewrite bind_Ret by (apply load_Some, poke_in; [done|rewrite Hl; lia]). reflexivity. }
  pose proof (poke_in (f_width g) (f_off g) x (e_sb e) H1 ltac:(rewrite Hl; lia)) as Hp. split; [by eapply poke_length|]. split.
  - unfold sbv. cbn [e_sb set_sb]. by rewrite (peek_poke_eq _ _ _ _ _ Hp).
  - intros h Hd. unfold sbv. cbn [e_sb set_sb]. by rewrite (peek_poke_ne _ _ _ _ _ (f_width h) (f_off h) Hp).
Qed.

(** A store into descriptor [i] leaves all other descriptors alone. *)
Record desc_frame e l (i : Z) : Prop := {
  df_length : length l = length (e_bgdt e);
  df_slice : forall o m, 0 <= o -> 0 <= m -> o + m <= SIZEOF_BGD * i \/ SIZEOF_BGD * i + 32 <= o -> slice o m l = slice o m (e_bgdt e);
  df_other : forall h j, bgd_field h -> 0 <= j -> j <> i -> bgv (set_bgdt l e) h j = bgv e h j;
}.

Lemma bgd_put_run e n g i x : geometry e n -> bgd_field g -> 0 <= i < bgdt_entry_count e -> exists l, bgd_put g i x e = Ret (tt, set_bgdt l e) /\
  desc_frame e l i /\ bgv (set_bgdt l e) g i = uwrap (8 * Z.of_nat (f_width g)) x /\
  forall h, f_off h + Z.of_nat (f_width h) <= f_off g \/ f_off g + Z.of_nat (f_width g) <= f_off h -> bgv (set_bgdt l e) h i = bgv e h i.
Proof.
  intros Hg [H1 H2] Hi. destruct (desc_in e n i Hg Hi) as [Hi0 Hi1].
  pose proof (poke_in (f_width g) (SIZEOF_BGD * i + f_off g) x (e_bgdt e) ltac:(lia) ltac:(lia)) as Hp. eexists. split.
  { unfold bgd_put. erewrite bind_Ret by (apply load_Some; exact Hp). reflexivity. }
  pose proof (poke_length _ _ _ _ _ Hp) as Hl. split; [split; [done| |]|split].
  - intros o m Ho Hm Hd. apply slice_splice_ne; rewrite ?length_le_put; lia.
  - intros h j [H3 H4] Hj Hne. unfold bgv. cbn [e_bgdt set_bgdt]. rewrite (peek_poke_ne _ _ _ _ _ (f_width h) (SIZEOF_BGD * j + f_off h) Hp); [done|].
    unfold SIZEOF_BGD. lia.
  - unfold bgv. cbn [e_bgdt set_bgdt]. by rewrite (peek_poke_eq _ _ _ _ _ Hp).
  - intros h Hd. unfold bgv. cbn [e_bgdt set_bgdt]. rewrite (peek_poke_ne _ _ _ _ _ (f_width h) (SIZEOF_BGD * i + f_off h) Hp); [done|lia].
Qed.
End geo.

(** ** Reading and writing blocks *)
Section io.
Context {D : Type} `{BlkIO D}.
Implicit Types e : ext2 D.

Lemma set_dev_id e : set_dev (e_dev e) e = e.
Proof. by destruct e. Qed.

Lemma block_offset b : 0 <= b < 2 ^ 22 -> u32 (b * 1024) = b * 1024.
Proof. intros. apply uwrap_small. lia. Qed.

Lemma read_block_run e n f b : io_rep (e_dev e) n f -> e_block_size e = 1024 -> n <= 2 ^ 22 -> 0 <= b < n ->
  exists d, ext2_read_block b e = Ret ((0, f b), set_dev d e) /\ io_rep d n f.
Proof.
  intros Hio Hbs Hn Hb. destruct (io_read_block _ _ _ _ Hio Hb) as (d & E & Hd). exists d. split; [|done].
  unfold ext2_read_block. erewrite bind_Ret by reflexivity. rewrite Hbs, block_offset by lia. erewrite bind_Ret by (apply zoom_Ret; exact E). done.
Qed.

Lemma write_block_run e n f b l : io_rep (e_dev e) n f -> e_block_size e = 1024 -> n <= 2 ^ 22 -> 0 <= b < n -> length l = 1024%nat ->
  exists d, ext2_write_block l b e = Ret (0, set_dev d e) /\ io_rep d n (upd b l f).
Proof.
  intros Hio Hbs Hn Hb Hl. destruct (io_write_block _ _ _ _ _ Hio Hb Hl) as (d & E & Hd). exists d. split; [|done].
  unfold ext2_write_block. erewrite bind_Ret by reflexivity. rewrite Hbs, block_offset by lia. change (Z.to_nat 1024) with 1024%nat. rewrite take_ge by lia.
  erewrite bind_Ret by (apply zoom_Ret; exact E). done.
Qed.

Lemma write_sb_run e n f : io_rep (e_dev e) n f -> 2 < n -> length (e_sb e) = 1024%nat ->
  exists d, write_sb e = Ret (tt, set_dev d e) /\ io_rep d n (upd 1 (e_sb e) f).
Proof.
  intros Hio Hn Hl. destruct (io_write_block _ _ _ 1 _ Hio ltac:(lia) Hl) as (d & E & Hd). exists d. split; [|done].
  unfold write_sb, ext2_write_superblock. erewrite bind_Ret; [|erewrite bind_Ret by reflexivity; erewrite bind_Ret by (apply zoom_Ret; exact E); reflexivity]. done.
Qed.

Lemma same_dev e d : same_geometry e (set_dev d e).
Proof. by split. Qed.

Lemma ok_dev e n f d : e2_ok e n f -> io_rep d n f -> e2_ok (set_dev d e) n f.
Proof. intros [H1 H2 H3 H4 H5 H6 H7 H8] Hd. split; try done. by apply (sg_geometry _ _ _ (same_dev e d)). Qed.

Lemma meta_no e n m b : geometry e n -> meta_at e m b -> 0 <= b < n.
Proof. intros Hg Hm. destruct (g_meta_in _ _ Hg _ _ Hm). lia. Qed.

Lemma ok_read_meta e n f m b : e2_ok e n f -> meta_at e m b -> exists d, ext2_read_block b e = Ret ((0, f b), set_dev d e) /\ io_rep d n f.
Proof.
  intros Hok Hm. pose proof (ok_geo _ _ _ Hok) as Hg. apply read_block_run; [apply Hok|apply Hg|apply Hg|by eapply meta_no].
Qed.

Lemma meta_length e n f m b : e2_ok e n f -> meta_at e m b -> length (f b) = 1024%nat.
Proof. intros Hok Hm. eapply io_length; [apply Hok|]. eapply meta_no; [apply Hok|done]. Qed.

(** ** Looking for a clear bit *)
Lemma bit_in_block j (l : list Z) : length l = 1024%nat -> 0 <= j < 8192 -> (j / 64 + 1) * 8 <= Z.of_nat (length l).
Proof. intros -> Hj. Z.div_mod_to_equations. lia. Qed.

Lemma scan_bits_run k : forall j buf e, length buf = 1024%nat -> 0 <= j -> j + Z.of_nat k <= 8192 ->
  exists o, scan_bits k j buf e = Ret (o, e) /\
    match o with
    | Some i => j <= i < j + Z.of_nat k /\ bm_test i buf = Some false
    | None => forall i, j <= i < j + Z.of_nat k -> bm_test i buf = Some true
    end.
Proof.
  induction k as [|k IH]; intros j buf e Hl Hj Hk; [exists None; split; [done|lia]|]. cbn [scan_bits].
  destruct (bm_test_in j buf Hj) as (w & _ & Ew); [apply bit_in_block; [done|lia]|].
  rewrite (bind_Ret _ _ _ _ _ (load_Some (fun _ => bm_test j buf) e _ Ew)). destruct (Z.testbit w (j mod 64)) eqn:Eb.
  - destruct (IH (j + 1) buf e Hl ltac:(lia) ltac:(lia)) as (o & E & Ho). exists o. split; [done|]. destruct o as [i|]; [split; [lia|apply Ho]|].
    intros i Hi. destruct (decide (i = j)) as [->|]; [congruence|]. apply Ho. lia.
  - exists (Some j). split; [done|]. split; [lia|congruence].
Qed.

(** The buffer holds the bitmap of the group found last. *)
Definition found_bit e f r (acc : Z * Z * Z) (buf : list Z) : Prop :=
  let '(no, g, j) := acc in 0 <= g < bgdt_entry_count e /\ 0 <= j < per e r /\ no = g * per e r + j + 1 /\
  buf = f (bitmap_no e r g) /\ bm_test j buf = Some false.
Definition scanned e f r (i : Z) (acc : Z * Z * Z) (buf : list Z) : Prop :=
  (acc = (0, 0, 0) /\ forall g, 0 <= g < i -> bgv e (r_free r) g = 0) \/ found_bit e f r acc buf.

Lemma r_fields r : bgd_field (r_free r) /\ bgd_field (r_bitmap r) /\ sb_field (r_per_group r) /\ sb_field (r_total r).
Proof. destruct r; repeat split; done. Qed.

Lemma scan_groups_run e n f r k : e2_ok e n f -> forall i acc buf d, io_rep d n f -> length buf = 1024%nat ->
  0 <= i -> i + Z.of_nat k = bgdt_entry_count e -> scanned e f r i acc buf ->
  exists acc' buf' d', scan_groups r k i acc buf (set_dev d e) = Ret ((acc', buf'), set_dev d' e) /\ io_rep d' n f /\ scanned e f r (bgdt_entry_count e) acc' buf'.
Proof.
  intros Hok. pose proof (ok_geo _ _ _ Hok) as Hg. destruct (r_fields r) as (Ff & Fb & Fp & _).
  induction k as [|k IH]; intros i acc buf d Hd Hl Hi0 Hi Hs.
  { exists acc, buf, d. split; [done|]. split; [done|]. by replace (bgdt_entry_count e) with i by lia. }
  pose proof (sg_geometry _ _ _ (same_dev e d) Hg) as Hgd. cbn [scan_groups].
  rewrite (bind_Ret _ _ _ _ _ (bgd_get_run _ n _ i Hgd Ff ltac:(cbn; lia))). change (bgv (set_dev d e) (r_free r) i) with (bgv e (r_free r) i).
  pose proof (ok_free _ _ _ Hok r i ltac:(lia)) as Efree. destruct (Z.eqb_spec (bgv e (r_free r) i) 0) as [E0|E0].
  { apply IH; [done|done|lia|lia|]. destruct Hs as [[-> Hz]|?]; [left|by right]. split; [done|]. intros g Hgi.
    destruct (decide (g = i)) as [->|]; [done|]. apply Hz. lia. }
  assert (meta_at e (MBitmap r i) (bitmap_no e r i)) as Hm by (split; [lia|done]).
  rewrite (bind_Ret _ _ _ _ _ (bgd_get_run _ n _ i Hgd Fb ltac:(cbn; lia))). change (bgv (set_dev d e) (r_bitmap r) i) with (bitmap_no e r i).
  destruct (ok_read_meta (set_dev d e) n f (MBitmap r i) (bitmap_no e r i) (ok_dev _ _ _ _ Hok Hd) Hm) as (d1 & E1 & Hd1). change (set_dev d1 (set_dev d e)) with (set_dev d1 e) in E1.
  rewrite (bind_Ret _ _ _ _ _ E1). cbv zeta beta iota. pose proof (meta_length _ _ _ _ _ Hok Hm) as Hlb. rewrite splice_all by lia.
  pose proof (sg_geometry _ _ _ (same_dev e d1) Hg) as Hgd1. rewrite (bind_Ret _ _ _ _ _ (sb_get_run _ n _ Hgd1 Fp)). change (sbv (set_dev d1 e) (r_per_group r)) with (per e r).
  destruct (g_per _ _ Hg r) as [Hp Hp2].
  destruct (scan_bits_run (Z.to_nat (per e r)) 0 (f (bitmap_no e r i)) (set_dev d1 e) Hlb ltac:(lia) ltac:(lia)) as (o & Eo & Ho).
  rewrite (bind_Ret _ _ _ _ _ Eo). destruct o as [j|].
  - apply IH; [done|done|lia|lia|]. right. split; [lia|]. split; [lia|]. split; [|split; [done|apply Ho]]. apply uwrap_small. nia.
  - exfalso. pose proof (nfree_bound (Z.to_nat (per e r)) (f (bitmap_no e r i))). destruct (nfree_pos (Z.to_nat (per e r)) (f (bitmap_no e r i))) as (j & Hj & Ej); [lia|].
    specialize (Ho j ltac:(lia)). congruence.
Qed.
End io.

(** ** Changing one bit *)
Section change.
Context {D : Type} `{BlkIO D}.
Implicit Types e : ext2 D.

Lemma bgv_neg e h i : bgd_field h -> i < 0 -> bgv e h i = 0.
Proof.
  intros [H1 H2] Hi. unfold bgv, peek, in_buffer. destruct (Z.leb_spec 0 (SIZEOF_BGD * i + f_off h)); [unfold SIZEOF_BGD in *; lia|done].
Qed.

(** What accounting for [x] more free resources [r] does to the descriptors. *)
Record desc_changed e (l : list Z) (g : Z) (r : resource) (x : Z) : Prop := {
  dc_length : length l = length (e_bgdt e);
  dc_slice : forall o m, 0 <= o -> 0 <= m -> o + m <= SIZEOF_BGD * g \/ SIZEOF_BGD * g + 32 <= o -> slice o m l = slice o m (e_bgdt e);
  dc_free : forall r' i, bgv (set_bgdt l e) (r_free r') i = if decide (r' = r /\ i = g) then bgv e (r_free r) g + x else bgv e (r_free r') i;
  dc_desc : forall h i, h ∈ [bgd_block_bitmap; bgd_inode_bitmap; bgd_inode_table] -> bgv (set_bgdt l e) h i = bgv e h i;
}.

Lemma desc_frame_other e l g h i : desc_frame e l g -> bgd_field h -> i <> g -> bgv (set_bgdt l e) h i = bgv e h i.
Proof.
  intros Hf Hh Hi. destruct (Z.lt_ge_cases i 0); [by rewrite !bgv_neg|]. by apply (df_other _ _ _ Hf).
Qed.

Lemma addr_fields h : h ∈ [bgd_block_bitmap; bgd_inode_bitmap; bgd_inode_table] -> bgd_field h /\ f_off h + Z.of_nat (f_width h) <= 12.
Proof. intros Hh. repeat (apply elem_of_cons in Hh as [->|Hh]; [done|]). by apply not_elem_of_nil in Hh. Qed.

Lemma desc_frame_trans e l l' g : desc_frame e l g -> desc_frame (set_bgdt l e) l' g -> desc_frame e l' g.
Proof.
  intros [H1 H2 H3] [H4 H5 H6]. split.
  - cbn in H4. congruence.
  - intros o m Ho Hm Hd. rewrite H5 by done. by apply H2.
  - intros h j Hh Hj Hne. transitivity (bgv (set_bgdt l e) h j); [by apply H6|by apply H3].
Qed.

Lemma desc_frame_refl e g : desc_frame e (e_bgdt e) g.
Proof. by split. Qed.

Lemma count_dir_run e n is_dir g x : geometry e n -> 0 <= g < bgdt_entry_count e ->
  exists l, count_dir is_dir g x e = Ret (tt, set_bgdt l e) /\ desc_frame e l g /\
    forall h, bgd_field h -> f_off h + Z.of_nat (f_width h) <= 16 -> bgv (set_bgdt l e) h g = bgv e h g.
Proof.
  intros Hg Hgr. destruct is_dir; cbn [count_dir].
  - rewrite (bind_Ret _ _ _ _ _ (bgd_get_run e n bgd_directory_count g Hg ltac:(done) Hgr)).
    destruct (bgd_put_run e n bgd_directory_count g (bgv e bgd_directory_count g + x) Hg ltac:(done) Hgr) as (l & E & Hf & _ & Ho).
    exists l. split; [done|]. split; [done|]. intros h _ Hh. apply Ho. left. exact Hh.
  - exists (e_bgdt e). split; [by destruct e|]. split; [apply desc_frame_refl|]. by destruct e.
Qed.

Lemma account_run e n r is_dir g x : geometry e n -> 0 <= g < bgdt_entry_count e -> 0 <= bgv e (r_free r) g + x < 2 ^ 16 ->
  exists l, (free ← bgd_get (r_free r) g; bgd_put (r_free r) g (free + x);; count_dir is_dir g (- x)) e = Ret (tt, set_bgdt l e) /\ desc_changed e l g r x.
Proof.
  intros Hg Hgr Hx. destruct (r_fields r) as (Ff & _). rewrite (bind_Ret _ _ _ _ _ (bgd_get_run e n _ g Hg Ff Hgr)).
  destruct (bgd_put_run e n (r_free r) g (bgv e (r_free r) g + x) Hg Ff Hgr) as (l & E & Hf & Hv & Ho). rewrite (bind_Ret _ _ _ _ _ E).
  assert (same_geometry e (set_bgdt l e)) as Hs.
  { split; try done; [apply Hf|]. intros h i Hh. destruct (addr_fields h Hh) as [Hb H12]. destruct (decide (i = g)) as [->|]; [|by apply (desc_frame_other _ _ g)].
    apply Ho. left. destruct r; cbn; lia. }
  destruct (count_dir_run (set_bgdt l e) n is_dir g (- x) (sg_geometry _ _ _ Hs Hg) Hgr) as (l' & E' & Hf' & Ho').
  exists l'. rewrite E'. split; [done|]. pose proof (desc_frame_trans _ _ _ _ Hf Hf') as Hff. change (set_bgdt l' (set_bgdt l e)) with (set_bgdt l' e) in *. split.
  - apply Hff.
  - apply Hff.
  - intros r' i. destruct (r_fields r') as (Ff' & _). destruct (decide (i = g)) as [->|Hi].
    + assert (f_off (r_free r') + Z.of_nat (f_width (r_free r')) <= 16) as H16 by (destruct r'; cbn; lia). rewrite (Ho' _ Ff' H16). destruct (decide (r' = r)) as [->|Hr].
      * rewrite decide_True by done. rewrite Hv. apply uwrap_small. destruct r; exact Hx.
      * rewrite decide_False by naive_solver. apply Ho. destruct r, r'; cbn; (done || lia).
    + rewrite decide_False by naive_solver. by apply (desc_frame_other _ _ g).
  - intros h i Hh. destruct (addr_fields h Hh) as [Hb H12]. destruct (decide (i = g)) as [->|]; [|by apply (desc_frame_other _ _ g)].
    rewrite (Ho' h Hb) by lia. by apply (sg_desc _ _ Hs).
Qed.

Lemma write_bgdt_run e n f g : io_rep (e_dev e) n f -> geometry e n -> 0 <= g < bgdt_entry_count e ->
  exists d, write_bgdt g e = Ret (tt, set_dev d e) /\ io_rep d n (upd (g / 32 + 2) (slice (g / 32 * 1024) 1024 (e_bgdt e)) f).
Proof.
  intros Hio Hg Hgr. unfold write_bgdt. erewrite bind_Ret by reflexivity. erewrite bind_Ret by reflexivity. rewrite (g_bs _ _ Hg). cbv zeta.
  replace (g * SIZEOF_BGD / 1024) with (g / 32) by (unfold SIZEOF_BGD; replace 1024 with (32 * 32) by done; by rewrite Z.div_mul_cancel_r).
  assert (0 <= g / 32 < bgdt_blocks e) as Hk by (unfold bgdt_blocks, SIZEOF_BGD; Z.div_mod_to_equations; lia).
  destruct (write_block_run e n f (g / 32 + 2) (slice (g / 32 * 1024) 1024 (e_bgdt e)) Hio (g_bs _ _ Hg)) as (d & E & Hd).
  - apply Hg.
  - apply (meta_no e n (MTable (g / 32))); [done|by split].
  - rewrite length_slice; [done|lia|lia|]. rewrite (g_bgdt _ _ Hg). lia.
  - exists d. rewrite (bind_Ret _ _ _ _ _ E). done.
Qed.
End change.

Lemma total_offset r : 12 <= f_off (r_total r) <= 16 /\ f_width (r_total r) = 4%nat.
Proof. destruct r; cbn; lia. Qed.
Lemma total_disjoint r r' : r' <> r -> f_off (r_total r') + Z.of_nat (f_width (r_total r')) <= f_off (r_total r) \/ f_off (r_total r) + Z.of_nat (f_width (r_total r)) <= f_off (r_total r').
Proof. destruct r, r'; cbn; (done || lia). Qed.

(** Bit [j] of group [g] flips from [b]; [buf] is the new bitmap, [l] and [sb] are the
    new descriptors and superblock. *)
Section flip.
Context {D : Type} `{BlkIO D}.
Context (e : ext2 D) (n : Z) (f : Z -> list Z) (r : resource) (b : bool) (g j : Z) (buf l sb : list Z).
#[local] Notation no := (g * per e r + j + 1).
#[local] Notation x := (if b then 1 else -1).
Context (Hok : e2_ok e n f) (Hgr : 0 <= g < bgdt_entry_count e) (Hj : 0 <= j < per e r).
Context (Hold : bm_test j (f (bitmap_no e r g)) = Some b).
Context (Hbuf : forall k, 0 <= k -> bm_test k buf = if decide (k = j) then Some (negb b) else bm_test k (f (bitmap_no e r g))).
Context (Hdesc : desc_changed e l g r x).
Context (Hsb : length sb = length (e_sb e)) (Htot : sbv (set_sb sb e) (r_total r) = sbv e (r_total r) + x).
Context (Hsbo : forall h, f_off h + Z.of_nat (f_width h) <= f_off (r_total r) \/ f_off (r_total r) + Z.of_nat (f_width (r_total r)) <= f_off h -> sbv (set_sb sb e) h = sbv e h).
Context (Hsafe : r = Blocks -> b = true -> no < n /\ forall m, ~ meta_at e m no).

Definition flip_contents : Z -> list Z := upd 1 sb (upd (g / 32 + 2) (slice (g / 32 * 1024) 1024 l) (upd (bitmap_no e r g) buf f)).
Definition flip_state : ext2 D := set_sb sb (set_bgdt l e).

Lemma flip_geometry : same_geometry e flip_state.
Proof using Hdesc Hsb Hsbo.
  split; try done.
  - apply Hdesc.
  - intros h Hh. apply Hsbo. destruct (total_offset r) as [Ho ->]. repeat (apply elem_of_cons in Hh as [->|Hh]; [cbn; lia|]). by apply not_elem_of_nil in Hh.
  - intros h i Hh. by apply (dc_desc _ _ _ _ _ Hdesc).
Qed.

Lemma flip_table_meta : meta_at e (MTable (g / 32)) (g / 32 + 2).
Proof using Hgr.
  clear -Hgr. split; [|done]. unfold bgdt_blocks, SIZEOF_BGD. split; [apply Z.div_pos; lia|apply Z.div_lt_upper_bound; [done|]; Z.div_mod_to_equations; lia].
Qed.

(** Two metadata blocks with different uses are different. *)
Lemma meta_ne m m' c c' : meta_at e m c -> meta_at e m' c' -> m <> m' -> c <> c'.
Proof using Hok. intros H1 H2 Hne ->. apply Hne. eapply (g_meta_inj _ _ (ok_geo _ _ _ Hok)); eauto. Qed.

Lemma flip_bitmap r' i : 0 <= i < bgdt_entry_count e ->
  flip_contents (bitmap_no e r' i) = if decide (r' = r /\ i = g) then buf else f (bitmap_no e r' i).
Proof using Hok Hgr.
  intros Hi. assert (meta_at e (MBitmap r' i) (bitmap_no e r' i)) as Hm by done. unfold flip_contents.
  rewrite upd_ne by (eapply meta_ne; [exact Hm|exact (eq_refl : meta_at e MSuper 1)|done]).
  rewrite upd_ne by (eapply meta_ne; [exact Hm|exact flip_table_meta|done]). case_decide as E.
  - destruct E as [-> ->]. apply upd_eq.
  - apply upd_ne. eapply meta_ne; [exact Hm|exact (conj Hgr eq_refl : meta_at e (MBitmap r g) _)|]. intros [= -> ->]. by apply E.
Qed.

Lemma flip_frame c : (forall m, ~ meta_at e m c) -> flip_contents c = f c.
Proof using Hgr.
  intros Hc. unfold flip_contents. rewrite !upd_ne; [done|..]; intros ->.
  - by apply (Hc (MBitmap r g)).
  - apply (Hc (MTable (g / 32))), flip_table_meta.
  - by apply (Hc MSuper).
Qed.

Lemma flip_table i k c : meta_at e (MInodes i k) c -> flip_contents c = f c.
Proof using Hok Hgr.
  intros Hm. unfold flip_contents. rewrite upd_ne by (eapply meta_ne; [exact Hm|exact (eq_refl : meta_at e MSuper 1)|done]).
  rewrite upd_ne by (eapply meta_ne; [exact Hm|exact flip_table_meta|done]).
  apply upd_ne. eapply meta_ne; [exact Hm|exact (conj Hgr eq_refl : meta_at e (MBitmap r g) _)|done].
Qed.

Lemma flip_bits r' no' : numbers e r' no' -> bit_of e flip_contents r' no' = if decide (r' = r /\ no' = no) then Some (negb b) else bit_of e f r' no'.
Proof using All.
  intros Hn. pose proof (ok_geo _ _ _ Hok) as Hg. destruct (number_split e n r' no' Hg Hn) as (H1 & H2 & H3). unfold bit_of. rewrite flip_bitmap by done.
  destruct (number_join e n r g j Hg Hgr Hj) as (_ & E1 & E2). case_decide as Ea.
  - destruct Ea as [-> Eg]. rewrite Hbuf by lia. rewrite Eg in *. case_decide as Eb; case_decide as Ec; try done.
    + destruct Ec. split; [done|]. lia.
    + destruct Ec as [_ ->]. congruence.
  - case_decide as Ec; [|done]. destruct Ec as [-> ->]. by destruct Ea.
Qed.

Lemma flip_free_bound r' i : 0 <= i < bgdt_entry_count e -> 0 <= bgv e (r_free r') i <= per e r'.
Proof using All.
  intros Hi. rewrite (ok_free _ _ _ Hok) by done. pose proof (nfree_bound (Z.to_nat (per e r')) (f (bitmap_no e r' i))).
  pose proof (g_per _ _ (ok_geo _ _ _ Hok) r'). lia.
Qed.

Lemma flip_nfree : nfree (Z.to_nat (per e r)) buf = nfree (Z.to_nat (per e r)) (f (bitmap_no e r g)) + x.
Proof using All. apply (nfree_flip _ _ _ b j); [lia|done|done]. Qed.

Lemma flip_ok d : io_rep d n flip_contents -> e2_ok (set_dev d flip_state) n flip_contents.
Proof using All.
  intros Hd. pose proof flip_geometry as Hs. pose proof flip_bits as HB. pose proof (ok_geo _ _ _ Hok) as Hg.
  assert (same_geometry e (set_dev d flip_state)) as Hs' by (etransitivity; [exact Hs|apply same_dev]).
  split.
  - done.
  - by apply (sg_geometry _ _ _ Hs').
  - apply upd_eq.
  - intros k Hk. unfold bgdt_blocks in Hk. cbn [bgdt_entry_count set_dev flip_state set_sb set_bgdt] in Hk. fold (bgdt_blocks e) in Hk.
    change (e_bgdt (set_dev d flip_state)) with l. unfold flip_contents. rewrite upd_ne by lia. destruct (decide (k = g / 32)) as [->|Hne]; [apply upd_eq|].
    rewrite upd_ne by lia. rewrite upd_ne by (eapply meta_ne; [exact (conj Hk eq_refl : meta_at e (MTable k) _)|exact (conj Hgr eq_refl : meta_at e (MBitmap r g) _)|done]).
    rewrite (ok_bgdt _ _ _ Hok) by done. symmetry. apply (dc_slice _ _ _ _ _ Hdesc); [lia|lia|]. unfold SIZEOF_BGD. clear -Hne. Z.div_mod_to_equations. lia.
  - intros r' i Hi. rewrite (sg_per _ _ _ Hs'), (sg_bitmap _ _ _ _ Hs'), flip_bitmap by done.
    change (bgv (set_dev d flip_state) (r_free r') i) with (bgv (set_bgdt l e) (r_free r') i). rewrite (dc_free _ _ _ _ _ Hdesc).
    case_decide as E; [|by apply (ok_free _ _ _ Hok)]. destruct E as [-> ->]. by rewrite flip_nfree, (ok_free _ _ _ Hok).
  - intros r'. change (sbv (set_dev d flip_state) (r_total r')) with (sbv (set_sb sb e) (r_total r')). change (bgdt_entry_count (set_dev d flip_state)) with (bgdt_entry_count e).
    destruct (decide (r' = r)) as [->|Hr].
    + rewrite Htot, (ok_total _ _ _ Hok). symmetry. apply (gsum_change _ _ _ g); [lia|]. intros i Hi.
      change (bgv (set_dev d flip_state) (r_free r) i) with (bgv (set_bgdt l e) (r_free r) i). rewrite (dc_free _ _ _ _ _ Hdesc). case_decide; case_decide; naive_solver.
    + rewrite Hsbo by (by apply total_disjoint). rewrite (ok_total _ _ _ Hok). symmetry. apply gsum_ext. intros i Hi.
      change (bgv (set_dev d flip_state) (r_free r') i) with (bgv (set_bgdt l e) (r_free r') i). rewrite (dc_free _ _ _ _ _ Hdesc). case_decide; naive_solver.
  - intros m c Hm%(sg_meta _ _ _ _ Hs'). apply (sg_taken _ _ _ _ _ Hs'). destruct (ok_meta _ _ _ Hok m c Hm) as [Hn Hb]. split; [done|]. rewrite HB by done.
    case_decide as E; [|done]. destruct E as [<- ->]. destruct b eqn:Eb; [|done]. destruct (Hsafe eq_refl eq_refl) as [_ Hx]. by destruct (Hx m).
  - intros c Hn%(sg_numbers _ _ _ _ Hs') Ht. destruct (decide (bit_of e f Blocks c = Some true)) as [Eb|Eb].
    + destruct (decide (r = Blocks /\ c = no)) as [[-> ->]|Hne].
      * destruct b eqn:Ebb; [by apply Hsafe|]. exfalso. apply Ht, (sg_taken _ _ _ _ _ Hs'). split; [done|]. rewrite HB by done. by rewrite decide_True.
      * exfalso. apply Ht, (sg_taken _ _ _ _ _ Hs'). split; [done|]. rewrite HB by done. rewrite decide_False by naive_solver. done.
    + apply (ok_in _ _ _ Hok); [done|]. by intros [_ ?].
Qed.
End flip.

(** What an allocation or a release of number [no] has done: its bit is now [v], and no
    other bit and no block that holds no metadata has changed. *)
Record bit_changed {D} `{BlkIO D} (e e' : ext2 D) (n : Z) (f f' : Z -> list Z) (r : resource) (no : Z) (v : bool) : Prop := {
  bc_ok : e2_ok e' n f';
  bc_geo : same_geometry e e';
  bc_inodes : e_inodes e' = e_inodes e;
  bc_bits : forall r' no', numbers e r' no' -> bit_of e f' r' no' = if decide (r' = r /\ no' = no) then Some v else bit_of e f r' no';
  bc_frame : forall c, (forall m, ~ meta_at e m c) -> f' c = f c;
  bc_table : forall i k c, meta_at e (MInodes i k) c -> f' c = f c;
  bc_total : forall r', sbv e' (r_total r') = sbv e (r_total r') + (if decide (r' = r) then if v then -1 else 1 else 0);
}.

Section alloc.
Context {D : Type} `{BlkIO D}.
Implicit Types e : ext2 D.

(** The new total fits its field. *)
Lemma total_in_range e n f l g r x : e2_ok e n f -> 0 <= g < bgdt_entry_count e -> desc_changed e l g r x ->
  0 <= bgv e (r_free r) g + x <= per e r -> 0 <= sbv e (r_total r) + x < 2 ^ (8 * Z.of_nat 4).
Proof.
  intros Hok Hgr Hdesc Hx. rewrite (ok_total _ _ _ Hok). pose proof (g_per _ _ (ok_geo _ _ _ Hok) r) as [Hper Hper2].
  rewrite <- (gsum_change _ (bgv e (r_free r)) (bgv (set_bgdt l e) (r_free r)) g x); [|lia|].
  - assert (0 <= gsum (Z.to_nat (bgdt_entry_count e)) (bgv (set_bgdt l e) (r_free r)) <= Z.of_nat (Z.to_nat (bgdt_entry_count e)) * per e r) as Hs.
    { apply gsum_bound. intros i Hi. rewrite (dc_free _ _ _ _ _ Hdesc). case_decide as Ed; [destruct Ed as [_ ->]; lia|].
      rewrite (ok_free _ _ _ Hok) by lia. pose proof (nfree_bound (Z.to_nat (per e r)) (f (bitmap_no e r i))). lia. }
    rewrite Z2Nat.id in Hs by lia. lia.
  - intros i Hi. rewrite (dc_free _ _ _ _ _ Hdesc). case_decide; case_decide; naive_solver.
Qed.

Lemma store_bitmap_run e n f r is_dir b g j buf d : e2_ok e n f -> io_rep d n f -> 0 <= g < bgdt_entry_count e -> 0 <= j < per e r ->
  bm_test j (f (bitmap_no e r g)) = Some b -> length buf = 1024%nat ->
  (forall k, 0 <= k -> bm_test k buf = if decide (k = j) then Some (negb b) else bm_test k (f (bitmap_no e r g))) ->
  (r = Blocks -> b = true -> g * per e r + j + 1 < n /\ forall m, ~ meta_at e m (g * per e r + j + 1)) ->
  exists e' f', store_bitmap r is_dir g (if b then 1 else -1) buf (bitmap_no e r g) (set_dev d e) = Ret (tt, e') /\
    bit_changed e e' n f f' r (g * per e r + j + 1) (negb b).
Proof.
  intros Hok Hd Hgr Hj Hold Hlen Hbuf Hsafe. pose proof (ok_geo _ _ _ Hok) as Hg. set (x := if b then 1 else -1).
  pose proof (g_per _ _ Hg r) as [Hper Hper2]. pose proof (g_n _ _ Hg) as Hn.
  assert (nfree (Z.to_nat (per e r)) buf = bgv e (r_free r) g + x) as Hnf.
  { rewrite (ok_free _ _ _ Hok) by done. apply (nfree_flip _ _ _ b j); [lia|done|done]. }
  pose proof (nfree_bound (Z.to_nat (per e r)) buf) as Hnb.
  unfold store_bitmap. destruct (write_block_run (set_dev d e) n f (bitmap_no e r g) buf Hd (g_bs _ _ Hg) ltac:(lia)) as (d1 & E1 & Hd1).
  { apply (meta_no e n (MBitmap r g)); [done|by split]. }
  { done. }
  rewrite (bind_Ret _ _ _ _ _ E1). cbn beta iota. change (negb (0 =? 0)) with false. cbn iota. change (set_dev d1 (set_dev d e)) with (set_dev d1 e).
  pose proof (sg_geometry _ _ _ (same_dev e d1) Hg) as Hg1.
  destruct (account_run (set_dev d1 e) n r is_dir g x Hg1 Hgr) as (l & E2 & Hdc).
  { change (bgv (set_dev d1 e) (r_free r) g) with (bgv e (r_free r) g). lia. }
  assert (desc_changed e l g r x) as Hdesc by (destruct Hdc; by split).
  apply bind_inv in E2 as (fr & ea & Ea & Eb). rewrite (bind_Ret _ _ _ _ _ Ea). apply bind_inv in Eb as ([] & eb & Eb & Ec).
  rewrite (bind_Ret _ _ _ _ _ Eb), (bind_Ret _ _ _ _ _ Ec). change (set_bgdt l (set_dev d1 e)) with (set_dev d1 (set_bgdt l e)).
  assert (same_geometry e (set_dev d1 (set_bgdt l e))) as Hs2.
  { split; try done; [apply Hdesc|]. intros h i Hh. by apply (dc_desc _ _ _ _ _ Hdesc). }
  pose proof (sg_geometry _ _ _ Hs2 Hg) as Hg2. destruct (write_bgdt_run (set_dev d1 (set_bgdt l e)) n _ g Hd1 Hg2 Hgr) as (d2 & E3 & Hd2). rewrite (bind_Ret _ _ _ _ _ E3).
  change (set_dev d2 (set_dev d1 (set_bgdt l e))) with (set_dev d2 (set_bgdt l e)). destruct (r_fields r) as (_ & _ & _ & Ft).
  rewrite (bind_Ret _ _ _ _ _ (sb_get_run (set_dev d2 (set_bgdt l e)) n _ ltac:(exact (sg_geometry _ _ _ (same_dev _ d2) Hg2)) Ft)).
  change (sbv (set_dev d2 (set_bgdt l e)) (r_total r)) with (sbv e (r_total r)).
  destruct (sb_put_run (set_dev d2 (set_bgdt l e)) n (r_total r) (sbv e (r_total r) + x) ltac:(exact (sg_geometry _ _ _ (same_dev _ d2) Hg2)) Ft) as (sb & E4 & Hsb & Htot & Hsbo).
  rewrite (bind_Ret _ _ _ _ _ E4). change (set_sb sb (set_dev d2 (set_bgdt l e))) with (set_dev d2 (set_sb sb (set_bgdt l e))).
  destruct (write_sb_run (set_dev d2 (set_sb sb (set_bgdt l e))) n _ Hd2 ltac:(lia)) as (d3 & E5 & Hd3).
  { change (length sb = 1024%nat). rewrite Hsb. apply Hg. }
  assert (sbv (set_sb sb e) (r_total r) = sbv e (r_total r) + x) as Htot'.
  { transitivity (uwrap (8 * Z.of_nat (f_width (r_total r))) (sbv e (r_total r) + x)); [exact Htot|]. apply uwrap_small.
    destruct (total_offset r) as [_ ->]. eapply total_in_range; [done|done|exact Hdesc|lia]. }
  eexists _, (flip_contents e f r g buf l sb). split; [exact E5|].
  split.
  - apply (flip_ok e n f r b g j buf l sb Hok Hgr Hj Hold Hbuf Hdesc Hsb Htot' Hsbo Hsafe d3 Hd3).
  - transitivity (flip_state e l sb); [apply (flip_geometry e r b g l sb Hdesc Hsb Hsbo)|exact (same_dev _ d3)].
  - done.
  - apply (flip_bits e n f r b g j buf l sb Hok Hgr Hj Hold Hbuf Hdesc Hsb Htot' Hsbo Hsafe).
  - by apply flip_frame.
  - by apply (flip_table e n f r g buf l sb Hok Hgr).
  - intros r'. case_decide as Er; [subst r'; transitivity (sbv e (r_total r) + x); [exact Htot'|by destruct b]|].
    rewrite Z.add_0_r. exact (Hsbo _ (total_disjoint _ _ Er)).
Qed.

Lemma take_bit_run e n f r is_dir g j d : e2_ok e n f -> io_rep d n f -> 0 <= g < bgdt_entry_count e -> 0 <= j < per e r ->
  bm_test j (f (bitmap_no e r g)) = Some false ->
  exists e' f', take_bit r is_dir g j (f (bitmap_no e r g)) (set_dev d e) = Ret (tt, e') /\ bit_changed e e' n f f' r (g * per e r + j + 1) true.
Proof.
  intros Hok Hd Hgr Hj Hold. pose proof (ok_geo _ _ _ Hok) as Hg. destruct (r_fields r) as (_ & Fb & _).
  pose proof (sg_geometry _ _ _ (same_dev e d) Hg) as Hg1. pose proof (g_per _ _ Hg r) as [Hper _].
  unfold take_bit. rewrite (bind_Ret _ _ _ _ _ (bgd_get_run _ n _ g Hg1 Fb Hgr)). change (bgv (set_dev d e) (r_bitmap r) g) with (bitmap_no e r g).
  pose proof (meta_length e n f (MBitmap r g) _ Hok (conj Hgr eq_refl)) as Hlen.
  destruct (bm_set_spec j (f (bitmap_no e r g)) ltac:(lia)) as (buf & Eb & Hl & Hb); [apply bit_in_block; [done|lia]|].
  rewrite (bind_Ret _ _ _ _ _ (load_Some (fun _ => bm_set j (f (bitmap_no e r g))) _ _ Eb)).
  apply (store_bitmap_run e n f r is_dir false g j buf d); [done|done|done|done|done|congruence|done|done].
Qed.

Lemma free_bit_run e n f r is_dir no : e2_ok e n f -> taken e f r no -> (r = Blocks -> no < n /\ forall m, ~ meta_at e m no) ->
  exists e' f', free_bit r is_dir no e = Ret (tt, e') /\ bit_changed e e' n f f' r no false.
Proof.
  intros Hok [Hno Hbit] Hsafe. pose proof (ok_geo _ _ _ Hok) as Hg. destruct (r_fields r) as (_ & Fb & Fp & _).
  pose proof (g_per _ _ Hg r) as [Hper _]. destruct (number_split e n r no Hg Hno) as (Hgr & Hj & Eno). unfold free_bit.
  rewrite (proj2 (Z.eqb_neq no 0)) by (destruct Hno; lia). rewrite (bind_Ret _ _ _ _ _ (sb_get_run e n _ Hg Fp)). fold (per e r).
  rewrite (proj2 (Z.eqb_neq (per e r) 0)) by lia. cbv zeta. set (g := (no - 1) / per e r) in *. set (j := (no - 1) mod per e r) in *.
  rewrite (bind_Ret _ _ _ _ _ (bgd_get_run _ n _ g Hg Fb Hgr)). fold (bitmap_no e r g).
  destruct (ok_read_meta e n f (MBitmap r g) _ Hok (conj Hgr eq_refl)) as (d & E & Hd). rewrite (bind_Ret _ _ _ _ _ E). cbn beta iota. change (negb (0 =? 0)) with false. cbn iota.
  pose proof (meta_length e n f (MBitmap r g) _ Hok (conj Hgr eq_refl)) as Hlen.
  destruct (bm_clear_spec j (f (bitmap_no e r g)) ltac:(lia)) as (buf & Eb & Hl & Hb); [apply bit_in_block; [done|lia]|].
  rewrite (bind_Ret _ _ _ _ _ (load_Some (fun _ => bm_clear j (f (bitmap_no e r g))) _ _ Eb)).
  destruct (store_bitmap_run e n f r is_dir true g j buf d) as (e' & f' & E' & Hc); try done; [congruence|intros Hr _; rewrite <- Eno; by apply Hsafe|].
  exists e', f'. rewrite <- Eno in Hc. done.
Qed.

Context (stack : list Z) (Hstack : length stack = 1024%nat).

(** Either a free number is found and taken, or every one is taken. *)
Lemma scan_run e n f r : e2_ok e n f -> exists acc buf d, scan_groups r (Z.to_nat (bgdt_entry_count e)) 0 (0, 0, 0) stack e = Ret ((acc, buf), set_dev d e) /\ io_rep d n f /\
  ((acc = (0, 0, 0) /\ forall no, numbers e r no -> taken e f r no) \/ found_bit e f r acc buf).
Proof using Hstack.
  intros Hok. pose proof (ok_geo _ _ _ Hok) as Hg. pose proof (g_groups _ _ Hg). destruct (scan_groups_run e n f r (Z.to_nat (bgdt_entry_count e)) Hok 0 (0, 0, 0) stack (e_dev e)) as (acc & buf & d & E & Hd & Hs);
    [apply Hok|done|done|lia|left; split; [done|lia]|]. rewrite set_dev_id in E. exists acc, buf, d. split; [done|]. split; [done|].
  destruct Hs as [[-> Hz]|?]; [left|by right]. split; [done|]. intros no Hno. split; [done|]. destruct (number_split e n r no Hg Hno) as (Hgr & Hj & _).
  specialize (Hz _ Hgr). rewrite (ok_free _ _ _ Hok) in Hz by done. pose proof (g_per _ _ Hg r).
  pose proof (nfree_zero _ _ Hz ((no - 1) mod per e r) ltac:(lia)) as Hb. unfold bit_of.
  destruct (bm_test_in ((no - 1) mod per e r) (f (bitmap_no e r ((no - 1) / per e r))) ltac:(lia)) as (w & _ & Ew); [apply bit_in_block; [|lia]|].
  { apply (meta_length e n f (MBitmap r ((no - 1) / per e r)) _ Hok). by split. }
  rewrite Ew in *. destruct (Z.testbit w _); [done|congruence].
Qed.

Lemma found_bit_taken e n f r is_dir acc buf d : e2_ok e n f -> io_rep d n f -> found_bit e f r acc buf ->
  let '(no, g, j) := acc in no <> 0 /\ numbers e r no /\ bit_of e f r no = Some false /\
  exists e' f', take_bit r is_dir g j buf (set_dev d e) = Ret (tt, e') /\ bit_changed e e' n f f' r no true.
Proof.
  intros Hok Hd Hf. destruct acc as [[no g] j]. destruct Hf as (Hgr & Hj & -> & -> & Hb). destruct (number_join e n r g j (ok_geo _ _ _ Hok) Hgr Hj) as (Hn & E1 & E2).
  split; [destruct Hn; lia|]. split; [done|]. split; [unfold bit_of; by rewrite E1, E2|]. by apply take_bit_run.
Qed.

Lemma alloc_block_run e n f : e2_ok e n f ->
  ((forall b, numbers e Blocks b -> taken e f Blocks b) /\ ext2_alloc_block stack e = Panic) \/
  exists b e' f', ext2_alloc_block stack e = Ret (b, e') /\ numbers e Blocks b /\ bit_of e f Blocks b = Some false /\ b < n /\ b <> 0 /\ bit_changed e e' n f f' Blocks b true.
Proof using Hstack.
  intros Hok. destruct (scan_run e n f Blocks Hok) as (acc & buf & d & E & Hd & Hs). unfold ext2_alloc_block. erewrite bind_Ret by reflexivity.
  rewrite (bind_Ret _ _ _ _ _ E). destruct Hs as [[-> Hall]|Hf]; [left; by split|right].
  pose proof (found_bit_taken e n f Blocks false acc buf d Hok Hd Hf) as Ht. destruct acc as [[b g] j]. destruct Ht as (Hne & Hnum & Hbit & e' & f' & Et & Hc).
  exists b, e', f'. cbn beta iota. rewrite (proj2 (Z.eqb_neq b 0) Hne), (bind_Ret _ _ _ _ _ Et). split; [done|]. split; [done|]. split; [done|].
  split; [apply (ok_in _ _ _ Hok); [done|]; intros [_ ?]; congruence|]. done.
Qed.

Lemma nfree_all n l : (forall j, 0 <= j < Z.of_nat n -> bm_test j l <> Some false) -> nfree n l = 0.
Proof.
  intros Hj. pose proof (nfree_bound n l). destruct (decide (nfree n l = 0)); [done|]. destruct (nfree_pos n l) as (j & Hn & E); [lia|]. by destruct (Hj j Hn).
Qed.

(** The superblock's counter says whether there is a free block. *)
Lemma alloc_block_some e n f : e2_ok e n f -> 0 < sbv e sb_free_blocks ->
  exists b e' f', ext2_alloc_block stack e = Ret (b, e') /\ numbers e Blocks b /\ bit_of e f Blocks b = Some false /\ b < n /\ b <> 0 /\ bit_changed e e' n f f' Blocks b true.
Proof using Hstack.
  intros Hok Hpos. destruct (alloc_block_run e n f Hok) as [[Hall _]|?]; [|done]. exfalso. pose proof (ok_geo _ _ _ Hok) as Hg. pose proof (g_per _ _ Hg Blocks) as [Hp _].
  change sb_free_blocks with (r_total Blocks) in Hpos. rewrite (ok_total _ _ _ Hok Blocks) in Hpos.
  assert (gsum (Z.to_nat (bgdt_entry_count e)) (bgv e (r_free Blocks)) <= 0); [|lia]. pose proof (g_groups _ _ Hg).
  replace 0 with (Z.of_nat (Z.to_nat (bgdt_entry_count e)) * 0) by lia. apply gsum_bound. intros i Hi. rewrite (ok_free _ _ _ Hok) by lia. rewrite nfree_all; [lia|].
  intros j Hj. destruct (number_join e n Blocks i j Hg ltac:(lia) ltac:(lia)) as (Hn & E1 & E2). destruct (Hall _ Hn) as [_ Hb]. unfold bit_of in Hb. rewrite E1, E2 in Hb. congruence.
Qed.

Lemma alloc_inode_run e n f is_dir : e2_ok e n f ->
  (exists d, (forall i, numbers e Inodes i -> taken e f Inodes i) /\ ext2_alloc_inode stack is_dir e = Ret (0, set_dev d e) /\ io_rep d n f) \/
  exists i e' f', ext2_alloc_inode stack is_dir e = Ret (i, e') /\ numbers e Inodes i /\ bit_of e f Inodes i = Some false /\ bit_changed e e' n f f' Inodes i true.
Proof using Hstack.
  intros Hok. destruct (scan_run e n f Inodes Hok) as (acc & buf & d & E & Hd & Hs). unfold ext2_alloc_inode. erewrite bind_Ret by reflexivity.
  rewrite (bind_Ret _ _ _ _ _ E). destruct Hs as [[-> Hall]|Hf]; [left; by exists d|right].
  pose proof (found_bit_taken e n f Inodes is_dir acc buf d Hok Hd Hf) as Ht. destruct acc as [[b g] j]. destruct Ht as (Hne & Hnum & Hbit & e' & f' & Et & Hc).
  exists b, e', f'. cbn beta iota. rewrite (proj2 (Z.eqb_neq b 0) Hne), (bind_Ret _ _ _ _ _ Et). done.
Qed.
End alloc.
