(* ===== verification/Ext2File.v ===== *)
(** * Contents of ext2 files

    Inodes on the device, the block map of a file (direct and singly indirect blocks),
    growing a file, and reading and writing its bytes.  [contents f bl] are the bytes of
    the blocks [bl]; a file shows the first [size] of them. *)

From S2P Require Import Prelude Defs Bytes Vnode Vfs VfsOps Slab Ext2 Ext2Alloc.

(** The value of a field of an inode in memory. *)
Definition iv (l : list Z) (h : field) : Z := default 0 (peek (f_width h) (f_off h) l).
Definition i_field (h : field) : Prop := 0 <= f_off h /\ f_off h + Z.of_nat (f_width h) <= 128.
Definition apart (h g : field) : Prop := f_off h + Z.of_nat (f_width h) <= f_off g \/ f_off g + Z.of_nat (f_width g) <= f_off h.

(** Where inode [ino] is on the device. *)
Definition inode_block {D} (e : ext2 D) (ino : Z) : Z :=
  bgv e bgd_inode_table ((ino - 1) / per e Inodes) + (ino - 1) mod per e Inodes / e_inodes_per_block e.
Definition inode_off {D} (e : ext2 D) (ino : Z) : Z := (ino - 1) mod per e Inodes mod e_inodes_per_block e * e_inode_size e.
Definition disk_inode {D} (e : ext2 D) (f : Z -> list Z) (ino : Z) : list Z := slice (inode_off e ino) (e_inode_size e) (f (inode_block e ino)).
(** The numbers the code accepts: the last inode is refused. *)
Definition inode_no {D} (e : ext2 D) (ino : Z) : Prop := 1 <= ino < bgdt_entry_count e * per e Inodes.

Section inodes.
Context {D : Type} `{BlkIO D}.
Implicit Types e : ext2 D.

Lemma inode_bytes_run e p l : e_inodes e !! p = Some l -> inode_bytes p e = Ret (l, e).
Proof. exact (load_Some (fun e => e_inodes e !! p) e l). Qed.

Lemma i_get_run e h p l : e_inodes e !! p = Some l -> i_field h -> (128 <= length l)%nat -> i_get h p e = Ret (iv l h, e).
Proof.
  intros Hp [H1 H2] Hl. unfold i_get, inode_bytes. rewrite (bind_Ret _ _ _ _ _ (load_Some (fun e => e_inodes e !! p) e l Hp)).
  apply load_Some. unfold iv. rewrite peek_in; [done|done|lia].
Qed.

Lemma i_put_run e h p l x : e_inodes e !! p = Some l -> i_field h -> (128 <= length l)%nat ->
  exists l', i_put h p x e = Ret (tt, set_inodes (<[p := l']> (e_inodes e)) e) /\ length l' = length l /\
    iv l' h = uwrap (8 * Z.of_nat (f_width h)) x /\ forall g, apart h g -> iv l' g = iv l g.
Proof.
  intros Hp [H1 H2] Hl. pose proof (poke_in (f_width h) (f_off h) x l H1 ltac:(lia)) as Hk. eexists. split.
  { unfold i_put, inode_bytes. rewrite (bind_Ret _ _ _ _ _ (load_Some (fun e => e_inodes e !! p) e l Hp)).
    rewrite (bind_Ret _ _ _ _ _ (load_Some (fun _ => poke (f_width h) (f_off h) x l) e _ Hk)). reflexivity. }
  split; [by eapply poke_length|]. split.
  - unfold iv. by rewrite (peek_poke_eq _ _ _ _ _ Hk).
  - intros g Hg. unfold iv. rewrite (peek_poke_ne _ _ _ _ _ (f_width g) (f_off g) Hk); [done|]. destruct Hg; lia.
Qed.

Lemma same_inodes e m : same_geometry e (set_inodes m e).
Proof. by split. Qed.

Lemma ok_inodes e n f m : e2_ok e n f -> e2_ok (set_inodes m e) n f.
Proof. intros [H1 H2 H3 H4 H5 H6 H7 H8]. split; try done. by apply (sg_geometry _ _ _ (same_inodes e m)). Qed.

(** ** Inodes on the device *)
Lemma inode_place_meta e n ino : geometry e n -> inode_no e ino ->
  meta_at e (MInodes ((ino - 1) / per e Inodes) ((ino - 1) mod per e Inodes / e_inodes_per_block e)) (inode_block e ino) /\
  0 <= inode_off e ino /\ inode_off e ino + e_inode_size e <= 1024.
Proof.
  intros Hg [H1 H2]. destruct (number_split e n Inodes ino Hg) as (Hgr & Hj & _); [split; lia|].
  pose proof (g_isz _ _ Hg) as Hs. pose proof (g_ipb _ _ Hg) as Hi. set (j := (ino - 1) mod per e Inodes) in *. set (q := e_inodes_per_block e) in *.
  assert (0 < q /\ q * e_inode_size e <= 1024) as [Hq Hq2].
  { rewrite Hi. split; [apply Z.div_str_pos; lia|]. pose proof (Z.mul_div_le 1024 (e_inode_size e) ltac:(lia)). lia. }
  pose proof (Z.mod_pos_bound j q Hq). split; [|unfold inode_off; fold j; fold q; nia].
  split; [done|]. split; [|done]. split; [apply Z.div_pos; lia|]. unfold table_blocks. fold q. apply Z.div_lt_upper_bound; [lia|].
  pose proof (Z.div_mod (per e Inodes + q - 1) q ltac:(lia)). pose proof (Z.mod_pos_bound (per e Inodes + q - 1) q ltac:(lia)). lia.
Qed.

Lemma inode_place_run e n ino : geometry e n -> inode_no e ino -> inode_place ino e = Ret ((inode_block e ino, inode_off e ino), e).
Proof.
  intros Hg Hno. destruct (inode_place_meta e n ino Hg Hno) as (Hm & Ho1 & Ho2). pose proof (meta_no _ _ _ _ Hg Hm) as Hb. pose proof (g_n _ _ Hg) as Hn.
  destruct Hno as [H1 H2]. destruct (number_split e n Inodes ino Hg) as (Hgr & Hj & _); [split; lia|]. destruct (g_per _ _ Hg Inodes) as [Hp _].
  pose proof (g_isz _ _ Hg). assert (0 < e_inodes_per_block e) as Hq by (rewrite (g_ipb _ _ Hg); apply Z.div_str_pos; lia).
  unfold inode_place. rewrite (bind_Ret _ _ _ _ _ (sb_get_run e n sb_inode_count Hg ltac:(done))), (g_ic _ _ Hg).
  rewrite (proj2 (Z.ltb_ge ino 1)), (proj2 (Z.leb_gt _ ino)) by lia. cbn [orb].
  rewrite (bind_Ret _ _ _ _ _ (sb_get_run e n sb_block_group_inodes Hg ltac:(done))). erewrite bind_Ret by reflexivity.
  change (sbv e sb_block_group_inodes) with (per e Inodes). rewrite (proj2 (Z.eqb_neq (per e Inodes) 0)), (proj2 (Z.eqb_neq (e_inodes_per_block e) 0)) by lia. cbn [orb]. cbv zeta.
  rewrite (bind_Ret _ _ _ _ _ (bgd_get_run e n bgd_inode_table _ Hg ltac:(done) Hgr)). erewrite bind_Ret by reflexivity. erewrite bind_Ret by reflexivity.
  fold (inode_off e ino). fold (inode_block e ino). rewrite (g_bs _ _ Hg), !uwrap_small by lia. rewrite (proj2 (Z.ltb_lt (inode_off e ino) 1024)) by lia. done.
Qed.

Lemma read_inode_run e n f p ino old : e2_ok e n f -> inode_no e ino -> e_inodes e !! p = Some old ->
  exists d, ext2_read_inode p ino e = Ret (0, set_dev d (set_inodes (<[p := disk_inode e f ino]> (e_inodes e)) e)) /\ io_rep d n f.
Proof.
  intros Hok Hno Hp. pose proof (ok_geo _ _ _ Hok) as Hg. destruct (inode_place_meta e n ino Hg Hno) as (Hm & Ho1 & Ho2).
  unfold ext2_read_inode. rewrite (bind_Ret _ _ _ _ _ (inode_place_run e n ino Hg Hno)). destruct (ok_read_meta e n f _ _ Hok Hm) as (d & E & Hd).
  exists d. cbn beta iota. rewrite (bind_Ret _ _ _ _ _ E). cbn beta iota. change (negb (0 =? 0)) with false. cbn iota. erewrite bind_Ret by reflexivity.
  rewrite (bind_Ret _ _ _ _ _ (inode_bytes_run (set_dev d e) p old Hp)). unfold in_block.
  rewrite (meta_length e n f _ _ Hok Hm). cbn [e_inode_size set_dev]. rewrite (proj2 (Z.leb_le _ _)) by lia. done.
Qed.

(** Writing a metadata block that is neither the superblock, a descriptor nor a bitmap. *)
Lemma ok_table_write e n f i k b x d : e2_ok e n f -> meta_at e (MInodes i k) b -> io_rep d n (upd b x f) -> e2_ok (set_dev d e) n (upd b x f).
Proof.
  intros Hok Hm Hd. pose proof (ok_geo _ _ _ Hok) as Hg. assert (forall m c, meta_at e m c -> m <> MInodes i k -> c <> b) as Hne.
  { intros m c Hc Hmm ->. apply Hmm. by apply (g_meta_inj _ _ Hg _ _ b). }
  assert (forall r g, 0 <= g < bgdt_entry_count e -> upd b x f (bitmap_no e r g) = f (bitmap_no e r g)) as Hbm.
  { intros r g Hgr. apply upd_ne, (Hne (MBitmap r g)); [by split|done]. }
  assert (forall c, numbers e Blocks c -> taken (set_dev d e) (upd b x f) Blocks c <-> taken e f Blocks c) as Ht.
  { intros c Hc. rewrite (sg_taken _ _ _ _ _ (same_dev e d)). unfold taken, bit_of. destruct (number_split e n Blocks c Hg Hc) as (Hgr & _). by rewrite Hbm. }
  split.
  - done.
  - by apply (sg_geometry _ _ _ (same_dev e d)).
  - rewrite upd_ne; [apply Hok|]. by apply (Hne MSuper).
  - intros j Hj. rewrite upd_ne; [by apply Hok|]. by apply (Hne (MTable j)).
  - intros r g Hgr. change (bitmap_no (set_dev d e) r g) with (bitmap_no e r g). rewrite Hbm by done. by apply Hok.
  - apply Hok.
  - intros m c Hc. pose proof (ok_meta _ _ _ Hok m c Hc) as Htk. apply Ht; [apply Htk|done].
  - intros c Hc Htk. apply (ok_in _ _ _ Hok); [done|]. by rewrite <- (Ht c Hc).
Qed.

(** Different inodes do not overlap. *)
Lemma inode_disjoint e n ino ino' : geometry e n -> inode_no e ino -> inode_no e ino' -> ino <> ino' -> inode_block e ino = inode_block e ino' ->
  inode_off e ino + e_inode_size e <= inode_off e ino' \/ inode_off e ino' + e_inode_size e <= inode_off e ino.
Proof.
  intros Hg H1 H2 Hne Hb. destruct (inode_place_meta e n ino Hg H1) as (M1 & _). destruct (inode_place_meta e n ino' Hg H2) as (M2 & _). rewrite Hb in M1.
  pose proof (g_meta_inj _ _ Hg _ _ _ M1 M2) as E. injection E as Eg Ek. pose proof (g_isz _ _ Hg).
  assert (0 < e_inodes_per_block e) as Hq by (rewrite (g_ipb _ _ Hg); apply Z.div_str_pos; lia). destruct (g_per _ _ Hg Inodes) as [Hp _].
  unfold inode_off. pose proof (Z.div_mod (ino - 1) (per e Inodes) ltac:(lia)). pose proof (Z.div_mod (ino' - 1) (per e Inodes) ltac:(lia)).
  set (j := (ino - 1) mod per e Inodes) in *. set (j' := (ino' - 1) mod per e Inodes) in *.
  pose proof (Z.div_mod j (e_inodes_per_block e) ltac:(lia)). pose proof (Z.div_mod j' (e_inodes_per_block e) ltac:(lia)). nia.
Qed.

(** What writing the inode at [p] as number [ino] has done. *)
Record inode_written e e' n (f f' : Z -> list Z) (p ino : Z) (l l' : list Z) : Prop := {
  iw_ok : e2_ok e' n f';
  iw_geo : same_geometry e e';
  iw_inodes : e_inodes e' = <[p := l']> (e_inodes e);
  iw_length : length l' = length l;
  iw_atime : iv l' i_atime = u32 (e_time e);
  iw_fields : forall g, apart i_atime g -> iv l' g = iv l g;
  iw_disk : disk_inode e f' ino = l';
  iw_other : forall ino', inode_no e ino' -> ino' <> ino -> disk_inode e f' ino' = disk_inode e f ino';
  iw_frame : forall c, c <> inode_block e ino -> f' c = f c;
  iw_bits : forall r no, numbers e r no -> bit_of e f' r no = bit_of e f r no;
}.

Lemma write_inode_run e n f p ino l : e2_ok e n f -> inode_no e ino -> e_inodes e !! p = Some l -> Z.of_nat (length l) = e_inode_size e ->
  exists l' e' f', ext2_write_inode p ino e = Ret (0, e') /\ inode_written e e' n f f' p ino l l' /\ sbv e' sb_free_blocks = sbv e sb_free_blocks.
Proof.
  intros Hok Hno Hp Hl. pose proof (ok_geo _ _ _ Hok) as Hg. destruct (inode_place_meta e n ino Hg Hno) as (Hm & Ho1 & Ho2). pose proof (g_isz _ _ Hg) as Hs.
  set (mi := (ino - 1) / per e Inodes) in Hm. set (mk := (ino - 1) mod per e Inodes / e_inodes_per_block e) in Hm.
  unfold ext2_write_inode. erewrite bind_Ret by reflexivity. destruct (i_put_run e i_atime p l (e_time e) Hp ltac:(done) ltac:(lia)) as (l' & E & Hl' & Ha & Hf).
  rewrite (bind_Ret _ _ _ _ _ E). set (e1 := set_inodes (<[p := l']> (e_inodes e)) e). pose proof (ok_inodes _ _ _ (<[p := l']> (e_inodes e)) Hok) as Hok1. fold e1 in Hok1.
  rewrite (bind_Ret _ _ _ _ _ (inode_place_run e1 n ino (ok_geo _ _ _ Hok1) Hno)). cbn beta iota.
  destruct (ok_read_meta e1 n f (MInodes mi mk) (inode_block e ino) Hok1 Hm) as (d & Er & Hd). rewrite (bind_Ret _ _ _ _ _ Er). cbn beta iota. change (negb (0 =? 0)) with false. cbn iota.
  erewrite bind_Ret by reflexivity. rewrite (bind_Ret _ _ _ _ _ (inode_bytes_run (set_dev d e1) p l' (lookup_insert_eq _ _ _))).
  pose proof (meta_length e n f _ _ Hok Hm) as Hlb. unfold in_block. rewrite Hlb. change (e_inode_size (set_dev d e1)) with (e_inode_size e).
  change (inode_off e1 ino) with (inode_off e ino). change (inode_block e1 ino) with (inode_block e ino). rewrite (proj2 (Z.leb_le _ _)) by lia.
  rewrite (take_ge l') by lia. set (x := splice (inode_off e ino) l' (f (inode_block e ino))).
  assert (length x = 1024%nat) as Hx by (unfold x; rewrite length_splice; lia).
  destruct (write_block_run (set_dev d e1) n f (inode_block e ino) x Hd (g_bs _ _ Hg) ltac:(apply Hg) ltac:(by eapply meta_no)) as (d' & Ew & Hd'); [done|].
  exists l', (set_dev d' e1), (upd (inode_block e ino) x f). split; [exact Ew|]. split; [|done].
  assert (e2_ok (set_dev d' e1) n (upd (inode_block e ino) x f)) as Hok' by (by apply (ok_table_write e1 n f mi mk (inode_block e ino) x d' Hok1 Hm)). split; try done.
  - unfold disk_inode. rewrite upd_eq. replace (e_inode_size e) with (Z.of_nat (length l')) by lia. apply slice_splice_eq; lia.
  - intros ino' Hno' Hne. unfold disk_inode. destruct (decide (inode_block e ino' = inode_block e ino)) as [Eb|Eb]; [|by rewrite upd_ne].
    rewrite Eb, upd_eq. destruct (inode_place_meta e n ino' Hg Hno') as (_ & Ho3 & Ho4). pose proof (inode_disjoint e n ino' ino Hg Hno' Hno Hne Eb).
    unfold x. apply slice_splice_ne; lia.
  - intros c Hc. by apply upd_ne.
  - intros r no Hr. unfold bit_of. destruct (number_split e n r no Hg Hr) as (Hgr & _). rewrite upd_ne; [done|]. intros Eb.
    assert (meta_at e (MBitmap r ((no - 1) / per e r)) (inode_block e ino)) as Hm' by (split; [done|by rewrite Eb]).
    by pose proof (g_meta_inj _ _ Hg _ _ _ Hm Hm').
Qed.
End inodes.

(** ** Blocks that hold data *)
Definition data_block {D} (e : ext2 D) (n : Z) (f : Z -> list Z) (b : Z) : Prop := taken e f Blocks b /\ b < n /\ forall m, ~ meta_at e m b.

Section data.
Context {D : Type} `{BlkIO D}.
Implicit Types e : ext2 D.

Lemma data_pos e n f b : data_block e n f b -> 0 < b < n.
Proof. intros ([[? ?] _] & ? & _). lia. Qed.

Lemma sg_data e e' n f b : same_geometry e e' -> data_block e' n f b <-> data_block e n f b.
Proof.
  intros Hs. unfold data_block. rewrite (sg_taken _ _ _ _ _ Hs). split; intros (H1 & H2 & H3); (split; [done|]); (split; [done|]); intros m Hm; apply (H3 m); by apply (sg_meta _ _ _ _ Hs).
Qed.

Lemma data_read e n f b : e2_ok e n f -> data_block e n f b -> exists d, ext2_read_block b e = Ret ((0, f b), set_dev d e) /\ io_rep d n f.
Proof.
  intros Hok Hb. pose proof (ok_geo _ _ _ Hok) as Hg. pose proof (data_pos _ _ _ _ Hb). apply read_block_run; [apply Hok|apply Hg|apply Hg|lia].
Qed.

Lemma data_length e n f b : e2_ok e n f -> data_block e n f b -> length (f b) = 1024%nat.
Proof. intros Hok Hb. pose proof (data_pos _ _ _ _ Hb). eapply io_length; [apply Hok|lia]. Qed.

(** Writing a data block keeps the invariant and every bit. *)
Lemma data_bits e n f b x r no : e2_ok e n f -> data_block e n f b -> numbers e r no -> bit_of e (upd b x f) r no = bit_of e f r no.
Proof.
  intros Hok Hb Hr. unfold bit_of. destruct (number_split e n r no (ok_geo _ _ _ Hok) Hr) as (Hgr & _). rewrite upd_ne; [done|]. intros E.
  destruct Hb as (_ & _ & Hm). apply (Hm (MBitmap r ((no - 1) / per e r))). by split.
Qed.

Lemma data_keep e n f b x c : e2_ok e n f -> data_block e n f b -> data_block e n (upd b x f) c <-> data_block e n f c.
Proof.
  intros Hok Hb. unfold data_block, taken. split; intros ([H1 H2] & H3); (split; [split; [done|]|done]);
    [rewrite (data_bits _ n) in H2 by done|rewrite (data_bits _ n) by done]; done.
Qed.

Lemma data_write e n f b x : e2_ok e n f -> data_block e n f b -> length x = 1024%nat ->
  exists d, ext2_write_block x b e = Ret (0, set_dev d e) /\ e2_ok (set_dev d e) n (upd b x f).
Proof.
  intros Hok Hb Hx. pose proof (ok_geo _ _ _ Hok) as Hg. pose proof (data_pos _ _ _ _ Hb) as Hpos.
  destruct (write_block_run e n f b x (ok_io _ _ _ Hok) (g_bs _ _ Hg) ltac:(apply Hg) ltac:(lia) Hx) as (d & E & Hd). exists d. split; [done|].
  assert (forall m c, meta_at e m c -> upd b x f c = f c) as Hne.
  { intros m c Hc. apply upd_ne. intros ->. by apply (proj2 (proj2 Hb) m). }
  split.
  - done.
  - by apply (sg_geometry _ _ _ (same_dev e d)).
  - rewrite (Hne MSuper) by done. apply Hok.
  - intros j Hj. rewrite (Hne (MTable j)) by done. by apply Hok.
  - intros r g Hgr. change (bitmap_no (set_dev d e) r g) with (bitmap_no e r g). rewrite (Hne (MBitmap r g)) by (by split). by apply Hok.
  - apply Hok.
  - intros m c Hc. destruct (ok_meta _ _ _ Hok m c Hc) as [H1 H2]. split; [done|]. change (bit_of (set_dev d e)) with (bit_of e). by rewrite (data_bits _ n).
  - intros c Hc Htk. apply (ok_in _ _ _ Hok); [done|]. intros [_ H2]. apply Htk. split; [done|]. change (bit_of (set_dev d e)) with (bit_of e). by rewrite (data_bits _ n).
Qed.
End data.

(** ** The block map of a file *)

(** The inode [l] maps the blocks [bl], through the pointer block [l1] beyond the
    twelfth. *)
Record file_map (f : Z -> list Z) (l bl : list Z) (l1 : Z) : Prop := {
  fm_len : (128 <= length l)%nat;
  fm_count : (length bl <= 268)%nat;
  fm_direct : forall (k : nat) b, (k < 12)%nat -> bl !! k = Some b -> iv l (i_direct (Z.of_nat k)) = b;
  fm_l1 : iv l i_indirect_l1 = l1;
  fm_none : (length bl <= 12)%nat -> l1 = 0;
  fm_some : (12 < length bl)%nat -> l1 <> 0;
  fm_ptr : forall (k : nat) b, (12 <= k)%nat -> bl !! k = Some b -> peek 4 (4 * (Z.of_nat k - 12)) (f l1) = Some b;
}.

(** The blocks of a file are distinct data blocks. *)
Record owned {D} (e : ext2 D) (n : Z) (f : Z -> list Z) (bl : list Z) (l1 : Z) : Prop := {
  ow_nodup : NoDup (l1 :: bl);
  ow_data : Forall (data_block e n f) bl;
  ow_l1 : l1 <> 0 -> data_block e n f l1;
}.

(** A block that is not in use. *)
Definition free_block {D} (e : ext2 D) (f : Z -> list Z) (b : Z) : Prop := numbers e Blocks b /\ bit_of e f Blocks b = Some false.

Section maps.
Context {D : Type} `{BlkIO D}.
Implicit Types e : ext2 D.

Lemma owned_data e n f bl l1 k b : owned e n f bl l1 -> bl !! k = Some b -> data_block e n f b.
Proof. intros Ho Hk. apply (Forall_lookup_1 _ _ _ _ (ow_data _ _ _ _ _ Ho) Hk). Qed.

Lemma direct_field k : 0 <= k < 12 -> i_field (i_direct k).
Proof. intros. split; cbn; lia. Qed.

Lemma get_index_run e n f p l bl l1 (k : nat) b : e2_ok e n f -> file_map f l bl l1 -> owned e n f bl l1 -> e_inodes e !! p = Some l -> bl !! k = Some b ->
  exists d, ext2_inode_get_index p (Z.of_nat k) e = Ret (b, set_dev d e) /\ io_rep d n f.
Proof.
  intros Hok Hm Ho Hp Hk. pose proof (ok_geo _ _ _ Hok) as Hg. pose proof (lookup_lt_Some _ _ _ Hk) as Hlt. pose proof (fm_count _ _ _ _ Hm) as Hc.
  unfold ext2_inode_get_index. erewrite bind_Ret by reflexivity. rewrite (g_bs _ _ Hg). cbv zeta. change (1024 / 4) with 256. unfold EXT2_DIRECT_BLOCKS.
  destruct (Z.ltb_spec (Z.of_nat k) 12) as [Hk12|Hk12].
  - exists (e_dev e). rewrite set_dev_id. split; [|apply Hok]. rewrite (i_get_run e _ p l Hp (direct_field (Z.of_nat k) ltac:(lia)) (fm_len _ _ _ _ Hm)).
    by rewrite (fm_direct _ _ _ _ Hm k b) by (lia || done).
  - rewrite (proj2 (Z.ltb_lt (Z.of_nat k - 12) 256)) by lia. rewrite (bind_Ret _ _ _ _ _ (i_get_run e i_indirect_l1 p l Hp ltac:(done) (fm_len _ _ _ _ Hm))).
    rewrite (fm_l1 _ _ _ _ Hm). pose proof (fm_some _ _ _ _ Hm ltac:(lia)) as Hl1. rewrite (proj2 (Z.eqb_neq l1 0) Hl1).
    destruct (data_read e n f l1 Hok (ow_l1 _ _ _ _ _ Ho Hl1)) as (d & E & Hd). exists d. split; [|done]. unfold read_ptrs.
    rewrite (bind_Ret _ _ e (f l1) (set_dev d e)) by (by rewrite (bind_Ret _ _ _ _ _ E)). apply load_Some. apply (fm_ptr _ _ _ _ Hm k); [lia|done].
Qed.

(** What adding the blocks [new] to a file has done. *)
Record extended e e' n (f f' : Z -> list Z) (p : Z) (l l' bl new : list Z) (l1 l1' : Z) : Prop := {
  ex_ok : e2_ok e' n f';
  ex_geo : same_geometry e e';
  ex_inodes : e_inodes e' = <[p := l']> (e_inodes e);
  ex_len : length l' = length l;
  ex_fields : forall g, f_off g + Z.of_nat (f_width g) <= 40 \/ 92 <= f_off g -> iv l' g = iv l g;
  ex_map : file_map f' l' (bl ++ new) l1';
  ex_owned : owned e n f' (bl ++ new) l1';
  ex_l1 : l1 <> 0 -> l1' = l1;
  ex_fresh : forall c, c ∈ l1' :: new -> c = l1 \/ free_block e f c;
  ex_frame : forall c, (forall m, ~ meta_at e m c) -> c <> l1' \/ c = 0 -> f' c = f c;
  ex_taken : forall c, taken e f Blocks c -> taken e f' Blocks c;
  ex_bits : forall i, numbers e Inodes i -> bit_of e f' Inodes i = bit_of e f Inodes i;
  ex_table : forall i k c, meta_at e (MInodes i k) c -> f' c = f c;
  ex_total : sbv e' sb_free_blocks = sbv e sb_free_blocks - Z.of_nat (length new) - (if decide (l1 = 0 /\ l1' <> 0) then 1 else 0);
}.

(** A new block of the file system. *)
Lemma alloc_data stack e n f bl l1 : length stack = 1024%nat -> e2_ok e n f -> owned e n f bl l1 -> 0 < sbv e sb_free_blocks ->
  exists b e' f', ext2_alloc_block stack e = Ret (b, e') /\ bit_changed e e' n f f' Blocks b true /\ bit_of e f Blocks b = Some false /\ numbers e Blocks b /\
    b <> 0 /\ b ∉ l1 :: bl /\ data_block e n f' b /\ owned e n f' bl l1 /\ (forall c, data_block e n f c -> f' c = f c /\ data_block e n f' c /\ c <> b).
Proof.
  intros Hst Hok Ho Hpos. destruct (alloc_block_some stack Hst e n f Hok Hpos) as (b & e' & f' & E & Hn & Hb & Hlt & Hne & Hc). exists b, e', f'.
  assert (forall c, data_block e n f c -> f' c = f c /\ data_block e n f' c /\ c <> b) as Hkeep.
  { intros c ([Hcn Hcb] & Hcl & Hcm). assert (c <> b) as Hcb' by congruence. split; [by apply (bc_frame _ _ _ _ _ _ _ _ Hc)|]. split; [|done]. split; [|done].
    split; [done|]. rewrite (bc_bits _ _ _ _ _ _ _ _ Hc) by done. by rewrite decide_False by naive_solver. }
  assert (b ∉ l1 :: bl) as Hbn.
  { intros [->|Hin]%elem_of_cons; [by destruct (Hkeep l1 (ow_l1 _ _ _ _ _ Ho Hne)) as (_ & _ & ?)|].
    pose proof (ow_data _ _ _ _ _ Ho) as Hf. rewrite list.Forall_forall in Hf. by destruct (Hkeep b (Hf b Hin)) as (_ & _ & ?). }
  split; [done|]. split; [done|]. split; [done|]. split; [done|]. split; [done|]. split; [done|]. split; [|split; [|done]].
  - split; [split; [done|]|split; [done|]].
    + rewrite (bc_bits _ _ _ _ _ _ _ _ Hc) by done. by rewrite decide_True.
    + intros m Hm. destruct (ok_meta _ _ _ Hok m b Hm) as [_ ?]. congruence.
  - split; [apply Ho| |intros Hl1; by apply Hkeep, Ho]. eapply list.Forall_impl; [apply Ho|]. intros c Hcd. by apply Hkeep.
Qed.

(** An inode field of the block map is stored; the other blocks keep their places. *)
Lemma map_put_direct f l l' bl l1 b : file_map f l bl l1 -> (length bl < 12)%nat -> length l' = length l ->
  iv l' (i_direct (Z.of_nat (length bl))) = b -> (forall g, apart (i_direct (Z.of_nat (length bl))) g -> iv l' g = iv l g) ->
  file_map f l' (bl ++ [b]) l1.
Proof.
  intros [H1 H2 H3 H4 H5 H6 H7] Hlt Hl Hb Hf. assert (forall k c, (bl ++ [b]) !! k = Some c -> (k < length bl)%nat /\ bl !! k = Some c \/ k = length bl /\ c = b) as Hk.
  { intros k c. intros [Hk|[Hk Hc]]%lookup_app_Some; [left; split; [by eapply lookup_lt_Some|done]|right]. apply list_lookup_singleton_Some in Hc as [? <-]. split; [lia|done]. }
  split.
  - lia.
  - rewrite length_app. cbn. lia.
  - intros k c Hk12 [[Hkl Hc]|[-> ->]]%Hk; [|done]. rewrite Hf; [by apply H3|]. unfold apart. cbn. lia.
  - rewrite Hf; [done|]. unfold apart. cbn. lia.
  - intros _. apply H5. lia.
  - rewrite length_app. cbn. lia.
  - intros k c Hk12 [[Hkl Hc]|[-> ->]]%Hk; lia.
Qed.

Lemma map_put_ptr f l bl l1 b ptrs : (128 <= length l)%nat -> (12 <= length bl < 268)%nat -> iv l i_indirect_l1 = l1 -> l1 <> 0 ->
  (forall (k : nat) c, (k < 12)%nat -> bl !! k = Some c -> iv l (i_direct (Z.of_nat k)) = c) ->
  (forall (k : nat) c, (12 <= k)%nat -> bl !! k = Some c -> peek 4 (4 * (Z.of_nat k - 12)) (f l1) = Some c) ->
  poke 4 (4 * (Z.of_nat (length bl) - 12)) b (f l1) = Some ptrs -> 0 <= b < 2 ^ 32 -> file_map (upd l1 ptrs f) l (bl ++ [b]) l1.
Proof.
  intros H1 H2 H3 H4 H5 H6 Hp Hb. split.
  - done.
  - rewrite length_app. cbn. lia.
  - intros k c Hk. rewrite lookup_app_l by lia. by apply H5.
  - done.
  - rewrite length_app. cbn. lia.
  - done.
  - intros k c Hk [Hc|[Hl Hc]]%lookup_app_Some; rewrite upd_eq.
    + pose proof (lookup_lt_Some _ _ _ Hc). rewrite (peek_poke_ne _ _ _ _ _ 4 (4 * (Z.of_nat k - 12)) Hp); [by apply H6|]. lia.
    + apply list_lookup_singleton_Some in Hc as [? <-]. replace k with (length bl) by lia. rewrite (peek_poke_eq _ _ _ _ _ Hp). f_equal. by apply uwrap_small.
Qed.

(** Storing entry [k] of the pointer block. *)
Lemma ptr_store_run e n f p l l1 k b : e2_ok e n f -> e_inodes e !! p = Some l -> (128 <= length l)%nat -> iv l i_indirect_l1 = l1 -> data_block e n f l1 -> 0 <= k < 256 ->
  exists ptrs d, (l1 ← i_get i_indirect_l1 p; ptrs ← read_ptrs l1; ptrs ← cload (fun _ => poke 4 (4 * k) b ptrs);
      res ← ext2_write_block ptrs l1; cassert (res =? 0);; mret 0) e = Ret (0, set_dev d e) /\
    poke 4 (4 * k) b (f l1) = Some ptrs /\ e2_ok (set_dev d e) n (upd l1 ptrs f).
Proof.
  intros Hok Hp Hl E1 Hd1 Hk. rewrite (bind_Ret _ _ _ _ _ (i_get_run e i_indirect_l1 p l Hp ltac:(done) Hl)), E1.
  destruct (data_read e n f l1 Hok Hd1) as (d & E & Hd). unfold read_ptrs at 1. rewrite (bind_Ret _ _ e (f l1) (set_dev d e)) by (by rewrite (bind_Ret _ _ _ _ _ E)).
  pose proof (data_length e n f l1 Hok Hd1) as Hlen. pose proof (poke_in 4 (4 * k) b (f l1) ltac:(lia) ltac:(lia)) as Hpk.
  rewrite (bind_Ret _ _ _ _ _ (load_Some (fun _ => poke 4 (4 * k) b (f l1)) (set_dev d e) _ Hpk)). pose proof (poke_length _ _ _ _ _ Hpk) as Hl'.
  destruct (data_write (set_dev d e) n f l1 (splice (4 * k) (le_put 4 b) (f l1)) (ok_dev _ _ _ _ Hok Hd) Hd1 ltac:(congruence)) as (d' & Ew & Hok').
  rewrite (bind_Ret _ _ _ _ _ Ew). eexists _, d'. split; [reflexivity|]. by split.
Qed.

Lemma extended_direct e n f p l bl l1 stack : length stack = 1024%nat -> e2_ok e n f -> file_map f l bl l1 -> owned e n f bl l1 -> e_inodes e !! p = Some l ->
  (length bl < 12)%nat -> 0 < sbv e sb_free_blocks -> exists e' f' l' b, (block ← ext2_alloc_block stack; if block =? 0 then cpanic else res ← ext2_inode_set_index stack p (Z.of_nat (length bl)) block;
    cassert (res =? 0)) e = Ret (tt, e') /\ extended e e' n f f' p l l' bl [b] l1 l1.
Proof.
  intros Hst Hok Hm Ho Hp Hlt Hfree. destruct (alloc_data stack e n f bl l1 Hst Hok Ho Hfree) as (b & e1 & f1 & E & Hc & Hbit & Hnum & Hne & Hni & Hdb & Ho1 & Hkeep).
  rewrite (bind_Ret _ _ _ _ _ E), (proj2 (Z.eqb_neq b 0) Hne). pose proof (bc_ok _ _ _ _ _ _ _ _ Hc) as Hok1. pose proof (bc_geo _ _ _ _ _ _ _ _ Hc) as Hs1.
  assert (e_inodes e1 !! p = Some l) as Hp1 by (by rewrite (bc_inodes _ _ _ _ _ _ _ _ Hc)). set (k := Z.of_nat (length bl)).
  destruct (i_put_run e1 (i_direct k) p l b Hp1 (direct_field k ltac:(lia)) (fm_len _ _ _ _ Hm)) as (l' & Ei & Hl' & Hv & Hf).
  assert (iv l' (i_direct k) = b) as Hvb.
  { rewrite Hv. apply uwrap_small. pose proof (data_pos _ _ _ _ Hdb). pose proof (g_n _ _ (ok_geo _ _ _ Hok)). change (2 ^ (8 * Z.of_nat (f_width (i_direct k)))) with (2 ^ 32). lia. }
  exists (set_inodes (<[p := l']> (e_inodes e1)) e1), f1, l', b. split.
  { rewrite (bind_Ret _ _ e1 0 (set_inodes (<[p := l']> (e_inodes e1)) e1)); [done|]. unfold ext2_inode_set_index. erewrite bind_Ret by reflexivity. cbv zeta.
    rewrite (proj2 (Z.ltb_lt k EXT2_DIRECT_BLOCKS)) by (unfold EXT2_DIRECT_BLOCKS; lia). by rewrite (bind_Ret _ _ _ _ _ Ei). }
  assert (file_map f1 l bl l1) as Hm1.
  { destruct Hm as [H1 H2 H3 H4 H5 H6 H7]. split; try done. intros j c Hj Hjc. pose proof (lookup_lt_Some _ _ _ Hjc). lia. }
  split.
  - by apply ok_inodes.
  - etransitivity; [exact Hs1|apply same_inodes].
  - cbn. by rewrite (bc_inodes _ _ _ _ _ _ _ _ Hc).
  - done.
  - intros g Hg. apply Hf. unfold apart. cbn. lia.
  - by apply (map_put_direct f1 l).
  - destruct Ho1 as [H1 H2 H3]. split; [|apply Forall_app; split; [done|by apply Forall_singleton]|done].
    rewrite app_comm_cons. apply list.NoDup_app. split; [done|]. split; [|apply NoDup_singleton]. intros c Hcin Hcb%list_elem_of_singleton. by subst.
  - done.
  - intros c [->|Hcb%list_elem_of_singleton]%elem_of_cons; [by left|right; by subst].
  - intros c Hcm _. by apply (bc_frame _ _ _ _ _ _ _ _ Hc).
  - intros c [Hcn Hcb]. split; [done|]. rewrite (bc_bits _ _ _ _ _ _ _ _ Hc) by done. case_decide; [done|done].
  - intros i Hi. rewrite (bc_bits _ _ _ _ _ _ _ _ Hc) by done. case_decide as E'; [by destruct E'|done].
  - apply Hc.
  - rewrite decide_False by naive_solver. change (sbv (set_inodes (<[p := l']> (e_inodes e1)) e1) sb_free_blocks) with (sbv e1 (r_total Blocks)).
    rewrite (bc_total _ _ _ _ _ _ _ _ Hc). rewrite decide_True by done. cbn. lia.
Qed.

(** Block [b] and the pointer block [l1'] are allocated and known to the inode; the
    pointer to [b] is still to be stored. *)
Record reserved e e2 n (f f2 : Z -> list Z) (p : Z) (l l2 bl : list Z) (b l1 l1' : Z) : Prop := {
  rs_ok : e2_ok e2 n f2;
  rs_geo : same_geometry e e2;
  rs_inodes : e_inodes e2 = <[p := l2]> (e_inodes e);
  rs_len : length l2 = length l;
  rs_fields : forall g, apart i_indirect_l1 g -> iv l2 g = iv l g;
  rs_l1 : iv l2 i_indirect_l1 = l1' /\ l1' <> 0;
  rs_owned : owned e n f2 (bl ++ [b]) l1';
  rs_ptr : forall (k : nat) c, (12 <= k)%nat -> bl !! k = Some c -> peek 4 (4 * (Z.of_nat k - 12)) (f2 l1') = Some c;
  rs_old : l1 <> 0 -> l1' = l1;
  rs_fresh : (l1' = l1 \/ free_block e f l1') /\ free_block e f b;
  rs_frame : forall c, (forall m, ~ meta_at e m c) -> f2 c = f c;
  rs_taken : forall c, taken e f Blocks c -> taken e f2 Blocks c;
  rs_bits : forall i, numbers e Inodes i -> bit_of e f2 Inodes i = bit_of e f Inodes i;
  rs_table : forall i k c, meta_at e (MInodes i k) c -> f2 c = f c;
  rs_total : sbv e2 sb_free_blocks = sbv e sb_free_blocks - 1 - (if decide (l1 = 0 /\ l1' <> 0) then 1 else 0);
}.

Lemma reserved_extended e e2 n f f2 p l l2 bl b l1 l1' : e2_ok e n f -> file_map f l bl l1 -> (12 <= length bl < 268)%nat -> reserved e e2 n f f2 p l l2 bl b l1 l1' ->
  exists e3 f3, (l1 ← i_get i_indirect_l1 p; ptrs ← read_ptrs l1; ptrs ← cload (fun _ => poke 4 (4 * (Z.of_nat (length bl) - 12)) b ptrs);
      res ← ext2_write_block ptrs l1; cassert (res =? 0);; mret 0) e2 = Ret (0, e3) /\ extended e e3 n f f3 p l l2 bl [b] l1 l1'.
Proof.
  intros Hok Hm Hlen Hr. destruct (rs_l1 _ _ _ _ _ _ _ _ _ _ _ _ Hr) as [El1 Hl1]. pose proof (rs_geo _ _ _ _ _ _ _ _ _ _ _ _ Hr) as Hs.
  pose proof (rs_owned _ _ _ _ _ _ _ _ _ _ _ _ Hr) as Ho. pose proof (rs_ok _ _ _ _ _ _ _ _ _ _ _ _ Hr) as Hok2. pose proof (ow_l1 _ _ _ _ _ Ho Hl1) as Hd.
  assert (128 <= length l2)%nat as Hl2 by (rewrite (rs_len _ _ _ _ _ _ _ _ _ _ _ _ Hr); apply Hm).
  assert (e_inodes e2 !! p = Some l2) as Hp2 by (rewrite (rs_inodes _ _ _ _ _ _ _ _ _ _ _ _ Hr); apply lookup_insert_eq).
  destruct (ptr_store_run e2 n f2 p l2 l1' (Z.of_nat (length bl) - 12) b Hok2 Hp2 Hl2 El1) as (ptrs & d & E & Hpk & Hok3); [by apply (sg_data _ _ _ _ _ Hs)|lia|].
  exists (set_dev d e2), (upd l1' ptrs f2). split; [exact E|].
  assert (forall c, data_block e2 n f2 c -> data_block e2 n (upd l1' ptrs f2) c) as Hkeep by (intros c Hc; apply (data_keep e2 n f2); [done|by apply (sg_data _ _ _ _ _ Hs)|done]).
  assert (forall r no, numbers e r no -> bit_of e (upd l1' ptrs f2) r no = bit_of e f2 r no) as Hbits.
  { intros r no Hno. rewrite <- !(sg_bit _ _ _ _ _ Hs). apply (data_bits e2 n); [done|by apply (sg_data _ _ _ _ _ Hs)|by apply (sg_numbers _ _ _ _ Hs)]. }
  assert (data_block e n f2 b) as Hdb by (apply (owned_data _ _ _ _ _ (length bl) _ Ho); by rewrite lookup_app_r, Nat.sub_diag).
  split.
  - done.
  - etransitivity; [exact Hs|apply same_dev].
  - apply Hr.
  - apply Hr.
  - intros g Hg. apply (rs_fields _ _ _ _ _ _ _ _ _ _ _ _ Hr). unfold apart. cbn. lia.
  - apply map_put_ptr; [done|done|done|done| |apply Hr|done|].
    + intros k c Hk Hc. rewrite (rs_fields _ _ _ _ _ _ _ _ _ _ _ _ Hr) by (unfold apart; cbn; lia). by apply (fm_direct _ _ _ _ Hm).
    + pose proof (data_pos _ _ _ _ Hdb). pose proof (g_n _ _ (ok_geo _ _ _ Hok)). lia.
  - split; [apply Ho| |intros _; by apply (sg_data _ _ _ _ _ Hs), Hkeep, (sg_data _ _ _ _ _ Hs)]. eapply list.Forall_impl; [apply Ho|].
    intros c Hc. by apply (sg_data _ _ _ _ _ Hs), Hkeep, (sg_data _ _ _ _ _ Hs).
  - apply Hr.
  - intros c Hc. destruct (rs_fresh _ _ _ _ _ _ _ _ _ _ _ _ Hr) as [H1 H2]. apply elem_of_cons in Hc as [->|Hc]; [done|]. apply list_elem_of_singleton in Hc as ->. by right.
  - intros c Hcm Hne. rewrite upd_ne by (destruct Hne; congruence). by apply (rs_frame _ _ _ _ _ _ _ _ _ _ _ _ Hr).
  - intros c Hc. destruct (rs_taken _ _ _ _ _ _ _ _ _ _ _ _ Hr c Hc) as [Hn Hb]. split; [done|]. by rewrite Hbits.
  - intros i Hi. rewrite Hbits by done. by apply (rs_bits _ _ _ _ _ _ _ _ _ _ _ _ Hr).
  - intros i k c Hmc. rewrite upd_ne; [by apply (rs_table _ _ _ _ _ _ _ _ _ _ _ _ Hr i k)|]. intros ->. by apply (proj2 (proj2 Hd) (MInodes i k)).
  - etransitivity; [apply (rs_total _ _ _ _ _ _ _ _ _ _ _ _ Hr)|]. cbn. lia.
Qed.

Lemma owned_snoc e n f bl l1 b : owned e n f bl l1 -> b ∉ l1 :: bl -> data_block e n f b -> owned e n f (bl ++ [b]) l1.
Proof.
  intros [H1 H2 H3] Hni Hd. split; [|apply Forall_app; split; [done|by apply Forall_singleton]|done].
  rewrite app_comm_cons. apply list.NoDup_app. split; [done|]. split; [|apply NoDup_singleton]. intros c Hcin Hcb%list_elem_of_singleton. by subst.
Qed.

Lemma sg_owned e e' n f bl l1 : same_geometry e e' -> owned e' n f bl l1 <-> owned e n f bl l1.
Proof.
  intros Hs. split; intros [H1 H2 H3]; (split; [done| |intros Hl; by apply (sg_data _ _ _ _ _ Hs), H3]);
    (eapply list.Forall_impl; [exact H2|]; intros c; apply (sg_data _ _ _ _ _ Hs)).
Qed.

(** The part of [ext2_inode_set_index] that makes sure there is a pointer block. *)
Definition need_l1 (stack : list Z) (p : Z) : cmd (ext2 D) unit :=
  l1 ← i_get i_indirect_l1 p;
  if l1 =? 0 then block ← ext2_alloc_block stack; if block =? 0 then cpanic else i_put i_indirect_l1 p block else mret tt.

Lemma reserve_old e n f p l bl l1 stack : length stack = 1024%nat -> e2_ok e n f -> file_map f l bl l1 -> owned e n f bl l1 -> e_inodes e !! p = Some l ->
  l1 <> 0 -> 0 < sbv e sb_free_blocks ->
  exists b e1 f1, ext2_alloc_block stack e = Ret (b, e1) /\ b <> 0 /\ need_l1 stack p e1 = Ret (tt, e1) /\ reserved e e1 n f f1 p l l bl b l1 l1.
Proof.
  intros Hst Hok Hm Ho Hp Hl1 Hfree. destruct (alloc_data stack e n f bl l1 Hst Hok Ho Hfree) as (b & e1 & f1 & E & Hc & Hbit & Hnum & Hne & Hni & Hdb & Ho1 & Hkeep).
  exists b, e1, f1. split; [done|]. split; [done|]. assert (e_inodes e1 = e_inodes e) as Ei by apply Hc. split.
  { unfold need_l1. rewrite (bind_Ret _ _ _ _ _ (i_get_run e1 i_indirect_l1 p l ltac:(by rewrite Ei) ltac:(done) (fm_len _ _ _ _ Hm))). rewrite (fm_l1 _ _ _ _ Hm).
    by rewrite (proj2 (Z.eqb_neq l1 0) Hl1). }
  split; try (by apply Hc); try done.
  - by rewrite Ei, insert_id.
  - by split; [apply (fm_l1 _ _ _ _ Hm)|].
  - by apply owned_snoc.
  - intros k c Hk Hkc. destruct (Hkeep l1 (ow_l1 _ _ _ _ _ Ho Hl1)) as [-> _]. by apply (fm_ptr _ _ _ _ Hm).
  - split; [by left|done].
  - intros c [Hcn Hcb]. split; [done|]. rewrite (bc_bits _ _ _ _ _ _ _ _ Hc) by done. case_decide; [done|done].
  - rewrite decide_False by naive_solver. change sb_free_blocks with (r_total Blocks). rewrite (bc_total _ _ _ _ _ _ _ _ Hc). rewrite decide_True by done. lia.
Qed.

Lemma reserve_new e n f p l bl stack : length stack = 1024%nat -> e2_ok e n f -> file_map f l bl 0 -> owned e n f bl 0 -> e_inodes e !! p = Some l ->
  length bl = 12%nat -> 1 < sbv e sb_free_blocks ->
  exists b e1 e2 f2 l2 l1', ext2_alloc_block stack e = Ret (b, e1) /\ b <> 0 /\ need_l1 stack p e1 = Ret (tt, e2) /\ reserved e e2 n f f2 p l l2 bl b 0 l1'.
Proof.
  intros Hst Hok Hm Ho Hp Hlen Hfree. destruct (alloc_data stack e n f bl 0 Hst Hok Ho ltac:(lia)) as (b & e1 & f1 & E & Hc & Hbit & Hnum & Hne & Hni & Hdb & Ho1 & Hkeep).
  assert (e_inodes e1 = e_inodes e) as Ei by apply Hc. pose proof (bc_geo _ _ _ _ _ _ _ _ Hc) as Hs1. pose proof (bc_ok _ _ _ _ _ _ _ _ Hc) as Hok1.
  assert (owned e1 n f1 (bl ++ [b]) 0) as Ho1' by (apply (sg_owned _ _ _ _ _ _ Hs1); by apply owned_snoc).
  assert (sbv e1 sb_free_blocks = sbv e sb_free_blocks - 1) as Ht1 by (change sb_free_blocks with (r_total Blocks); rewrite (bc_total _ _ _ _ _ _ _ _ Hc); by rewrite decide_True by done).
  destruct (alloc_data stack e1 n f1 (bl ++ [b]) 0 Hst Hok1 Ho1' ltac:(lia)) as (l1' & e2 & f2 & E2 & Hc2 & Hbit2 & Hnum2 & Hne2 & Hni2 & Hdb2 & Ho2 & Hkeep2).
  assert (e_inodes e2 !! p = Some l) as Hp2 by (by rewrite (bc_inodes _ _ _ _ _ _ _ _ Hc2), Ei). pose proof (bc_geo _ _ _ _ _ _ _ _ Hc2) as Hs2.
  assert (same_geometry e e2) as Hs by (by etransitivity). pose proof (fm_len _ _ _ _ Hm) as Hl.
  destruct (i_put_run e2 i_indirect_l1 p l l1' Hp2 ltac:(done) Hl) as (l2 & Ep & Hl2 & Hv & Hf). exists b, e1, (set_inodes (<[p := l2]> (e_inodes e2)) e2), f2, l2, l1'.
  split; [done|]. split; [done|]. split.
  { unfold need_l1. rewrite (bind_Ret _ _ _ _ _ (i_get_run e1 i_indirect_l1 p l ltac:(by rewrite Ei) ltac:(done) Hl)). rewrite (fm_l1 _ _ _ _ Hm), Z.eqb_refl.
    rewrite (bind_Ret _ _ _ _ _ E2), (proj2 (Z.eqb_neq l1' 0) Hne2). exact Ep. }
  assert (forall r no, numbers e r no -> bit_of e f2 r no = if decide (r = Blocks /\ no = l1') then Some true else if decide (r = Blocks /\ no = b) then Some true else bit_of e f r no) as Hbits.
  { intros r no Hno. rewrite <- (sg_bit _ _ _ _ _ Hs1), (bc_bits _ _ _ _ _ _ _ _ Hc2) by (by apply (sg_numbers _ _ _ _ Hs1)). case_decide; [done|].
    rewrite (sg_bit _ _ _ _ _ Hs1). by apply (bc_bits _ _ _ _ _ _ _ _ Hc). }
  assert (numbers e Blocks l1') as Hnum2' by (by apply (sg_numbers _ _ _ _ Hs1)).
  split.
  - apply ok_inodes, Hc2.
  - etransitivity; [exact Hs|apply same_inodes].
  - cbn. by rewrite (bc_inodes _ _ _ _ _ _ _ _ Hc2), Ei.
  - done.
  - exact Hf.
  - split; [|done]. rewrite Hv. apply uwrap_small. pose proof (data_pos _ _ _ _ Hdb2). pose proof (g_n _ _ (ok_geo _ _ _ Hok)). change (2 ^ (8 * Z.of_nat (f_width i_indirect_l1))) with (2 ^ 32). lia.
  - apply (sg_owned _ _ _ _ _ _ Hs1). destruct Ho2 as [_ H2 _]. split; [|done|done]. apply list.NoDup_cons. split; [by apply not_elem_of_cons in Hni2 as [_ ?]|].
    destruct Ho1' as [H1 _ _]. by apply list.NoDup_cons in H1 as [_ ?].
  - intros k c Hk Hkc. pose proof (lookup_lt_Some _ _ _ Hkc). lia.
  - done.
  - split; [right; split; [done|]|done]. rewrite (sg_bit _ _ _ _ _ Hs1), (bc_bits _ _ _ _ _ _ _ _ Hc) in Hbit2 by done. case_decide as Ed; [done|done].
  - intros c Hcm. transitivity (f1 c); [apply (bc_frame _ _ _ _ _ _ _ _ Hc2); intros m Hmm; by apply (Hcm m), (sg_meta _ _ _ _ Hs1)|by apply (bc_frame _ _ _ _ _ _ _ _ Hc)].
  - intros c [Hcn Hcb]. split; [done|]. rewrite Hbits by done. by repeat case_decide.
  - intros i Hi. rewrite Hbits by done. rewrite !decide_False by naive_solver. done.
  - intros i k c Hmc. transitivity (f1 c); [apply (bc_table _ _ _ _ _ _ _ _ Hc2 i k); by apply (sg_meta _ _ _ _ Hs1)|by apply (bc_table _ _ _ _ _ _ _ _ Hc i k)].
  - rewrite decide_True by done. change (sbv (set_inodes (<[p := l2]> (e_inodes e2)) e2) sb_free_blocks) with (sbv e2 (r_total Blocks)).
    rewrite (bc_total _ _ _ _ _ _ _ _ Hc2), decide_True by done. change (sbv e1 (r_total Blocks)) with (sbv e1 sb_free_blocks). lia.
Qed.

Lemma set_index_indirect stack p k b : (12 <= k < 268) -> forall e, e_block_size e = 1024 ->
  ext2_inode_set_index stack p k b e = (need_l1 stack p;; l1 ← i_get i_indirect_l1 p; ptrs ← read_ptrs l1; ptrs ← cload (fun _ => poke 4 (4 * (k - 12)) b ptrs);
      res ← ext2_write_block ptrs l1; cassert (res =? 0);; mret 0) e.
Proof.
  intros Hk e Hbs. unfold ext2_inode_set_index, need_l1. rewrite (bind_Ret _ _ e (e_block_size e) e) by done. rewrite Hbs. cbv zeta. change (1024 / 4) with 256.
  rewrite (proj2 (Z.ltb_ge k EXT2_DIRECT_BLOCKS)), (proj2 (Z.ltb_lt k (EXT2_DIRECT_BLOCKS + 256))) by (unfold EXT2_DIRECT_BLOCKS; lia).
  unfold EXT2_DIRECT_BLOCKS. cbv [mbind cmd_mbind cbind]. by destruct (i_get i_indirect_l1 p e) as [[l1 e1]| | |].
Qed.

(** One more block at the end of a file. *)
Definition append_block (stack : list Z) (p index : Z) : cmd (ext2 D) unit :=
  block ← ext2_alloc_block stack;
  if block =? 0 then cpanic else res ← ext2_inode_set_index stack p index block; cassert (res =? 0).

Lemma append_run e n f p l bl l1 stack : length stack = 1024%nat -> e2_ok e n f -> file_map f l bl l1 -> owned e n f bl l1 -> e_inodes e !! p = Some l ->
  (length bl < 268)%nat -> (if decide (length bl = 12%nat) then 2 else 1) <= sbv e sb_free_blocks ->
  exists e' f' l' b l1', append_block stack p (Z.of_nat (length bl)) e = Ret (tt, e') /\ extended e e' n f f' p l l' bl [b] l1 l1'.
Proof.
  intros Hst Hok Hm Ho Hp Hlt Hfree. destruct (decide (length bl < 12)%nat) as [H12|H12].
  { rewrite decide_False in Hfree by lia. destruct (extended_direct e n f p l bl l1 stack Hst Hok Hm Ho Hp H12 ltac:(lia)) as (e' & f' & l' & b & E & Hx). by exists e', f', l', b, l1. }
  assert (exists b e1 e2 f2 l2 l1', ext2_alloc_block stack e = Ret (b, e1) /\ b <> 0 /\ need_l1 stack p e1 = Ret (tt, e2) /\ reserved e e2 n f f2 p l l2 bl b l1 l1') as
    (b & e1 & e2 & f2 & l2 & l1' & E1 & Hb & E2 & Hr).
  { case_decide as E.
    - pose proof (fm_none _ _ _ _ Hm ltac:(lia)) as ->. by apply reserve_new; [..|lia].
    - destruct (reserve_old e n f p l bl l1 stack Hst Hok Hm Ho Hp (fm_some _ _ _ _ Hm ltac:(lia)) ltac:(lia)) as (b & e1 & f1 & E1 & Hb & E2 & Hr).
      by exists b, e1, e1, f1, l, l1. }
  destruct (reserved_extended e e2 n f f2 p l l2 bl b l1 l1' Hok Hm ltac:(lia) Hr) as (e3 & f3 & E3 & Hx). exists e3, f3, l2, b, l1'. split; [|done].
  unfold append_block. rewrite (bind_Ret _ _ _ _ _ E1), (proj2 (Z.eqb_neq b 0) Hb). rewrite (bind_Ret _ _ e1 0 e3); [done|].
  rewrite set_index_indirect; [by rewrite (bind_Ret _ _ _ _ _ E2)|lia|]. pose proof (alloc_block_run stack Hst e n f Hok) as [[_ Ha]|(b' & e1' & f1 & Ha & _ & _ & _ & _ & Hc)]; [congruence|].
  rewrite E1 in Ha. injection Ha as <- <-. rewrite (sg_bs _ _ (bc_geo _ _ _ _ _ _ _ _ Hc)). apply (ok_geo _ _ _ Hok).
Qed.

Lemma grow_file_S stack k p index e : grow_file stack (S k) p index e = (append_block stack p index;; grow_file stack k p (index + 1)) e.
Proof.
  cbn [grow_file]. unfold append_block. cbv [mbind cmd_mbind cbind]. destruct (ext2_alloc_block stack e) as [[b e1]| | |]; try done. destruct (b =? 0); [done|].
  by destruct (ext2_inode_set_index stack p index b e1) as [[r e2]| | |].
Qed.

Lemma bit_some e n f r no : e2_ok e n f -> numbers e r no -> is_Some (bit_of e f r no).
Proof.
  intros Hok Hno. pose proof (ok_geo _ _ _ Hok) as Hg. destruct (number_split e n r no Hg Hno) as (Hgr & Hj & _). destruct (g_per _ _ Hg r) as [Hp _]. unfold bit_of.
  destruct (bm_test_in ((no - 1) mod per e r) (f (bitmap_no e r ((no - 1) / per e r))) ltac:(lia)) as (w & _ & ->); [|done].
  apply bit_in_block; [|lia]. apply (meta_length e n f (MBitmap r ((no - 1) / per e r)) _ Hok). by split.
Qed.

Lemma extended_trans e e1 e2 n f f1 f2 p l l' l'' bl new1 new2 a a1 a2 : e2_ok e n f ->
  extended e e1 n f f1 p l l' bl new1 a a1 -> extended e1 e2 n f1 f2 p l' l'' (bl ++ new1) new2 a1 a2 ->
  extended e e2 n f f2 p l l'' bl (new1 ++ new2) a a2.
Proof.
  intros Hok [A1 A2 A3 A4 A5 A6 A7 A8 A9 A10 A11 A12 A13 A14] [B1 B2 B3 B4 B5 B6 B7 B8 B9 B10 B11 B12 B13 B14].
  assert (forall c, free_block e1 f1 c -> free_block e f c) as Hfree.
  { intros c [Hn Hb]. apply (sg_numbers _ _ _ _ A2) in Hn. rewrite (sg_bit _ _ _ _ _ A2) in Hb. split; [done|]. destruct (bit_some e n f Blocks c Hok Hn) as [v Hv].
    rewrite Hv. f_equal. destruct v; [|done]. destruct (A11 c) as [_ ?]; [by split|]. congruence. }
  split.
  - done.
  - by etransitivity.
  - by rewrite B3, A3, insert_insert_eq.
  - congruence.
  - intros g Hg. by rewrite B5, A5.
  - by rewrite app_assoc.
  - rewrite app_assoc. by apply (sg_owned _ _ _ _ _ _ A2).
  - intros Ha. rewrite B8; [by apply A8|]. by rewrite A8.
  - intros c Hc. assert (c ∈ a1 :: new1 \/ c ∈ a2 :: new2) as [Hc'|Hc'] by set_solver; [by apply A9|]. destruct (B9 c Hc') as [->|Hf]; [apply A9; by left|right; by apply Hfree].
  - intros c Hcm Hne. rewrite B10; [|intros m Hm; by apply (Hcm m), (sg_meta _ _ _ _ A2)|done]. apply A10; [done|]. destruct (decide (a1 = 0)) as [->|Ha]; [|by rewrite <- B8].
    destruct (decide (c = 0)); [by right|by left].
  - intros c Hc. apply (sg_taken _ _ _ _ _ A2), B11, (sg_taken _ _ _ _ _ A2). by apply A11.
  - intros i Hi. rewrite <- (sg_bit _ _ _ _ _ A2), B12 by (by apply (sg_numbers _ _ _ _ A2)). rewrite (sg_bit _ _ _ _ _ A2). by apply A12.
  - intros i k c Hc. rewrite (B13 i k) by (by apply (sg_meta _ _ _ _ A2)). by apply (A13 i k).
  - rewrite B14, A14, length_app. repeat case_decide; try lia; naive_solver.
Qed.

(** The free blocks that growing a file from [k] to [k + m] blocks takes. *)
Definition grow_cost (k m : nat) : Z := Z.of_nat m + (if decide (k <= 12 < k + m)%nat then 1 else 0).

Lemma grow_run m : forall e n f p l bl l1 stack, length stack = 1024%nat -> e2_ok e n f -> file_map f l bl l1 -> owned e n f bl l1 -> e_inodes e !! p = Some l ->
  (length bl + m <= 268)%nat -> grow_cost (length bl) m <= sbv e sb_free_blocks ->
  exists e' f' l' new l1', grow_file stack m p (Z.of_nat (length bl)) e = Ret (tt, e') /\ length new = m /\ extended e e' n f f' p l l' bl new l1 l1'.
Proof.
  induction m as [|m IH]; intros e n f p l bl l1 stack Hst Hok Hm Ho Hp Hlen Hcost.
  { exists e, f, l, [], l1. split; [done|]. split; [done|]. split; rewrite ?app_nil_r; try done.
    - by rewrite insert_id.
    - intros c [->|?%elem_of_nil]%elem_of_cons; [by left|done].
    - rewrite decide_False by naive_solver. cbn. lia. }
  rewrite grow_file_S. destruct (append_run e n f p l bl l1 stack Hst Hok Hm Ho Hp ltac:(lia)) as (e1 & f1 & l' & b & l1' & E & Hx).
  { unfold grow_cost in Hcost. case_decide; case_decide; lia. }
  rewrite (bind_Ret _ _ _ _ _ E). replace (Z.of_nat (length bl) + 1) with (Z.of_nat (length (bl ++ [b]))) by (rewrite length_app; cbn; lia).
  destruct (IH e1 n f1 p l' (bl ++ [b]) l1' stack Hst) as (e2 & f2 & l'' & new & l1'' & E2 & Hn & Hx2).
  - apply Hx.
  - apply Hx.
  - apply (sg_owned _ _ _ _ _ _ (ex_geo _ _ _ _ _ _ _ _ _ _ _ _ Hx)), Hx.
  - rewrite (ex_inodes _ _ _ _ _ _ _ _ _ _ _ _ Hx). apply lookup_insert_eq.
  - rewrite length_app. cbn. lia.
  - rewrite (ex_total _ _ _ _ _ _ _ _ _ _ _ _ Hx). pose proof (ex_map _ _ _ _ _ _ _ _ _ _ _ _ Hx) as Hm1. pose proof (fm_none _ _ _ _ Hm1) as N1. pose proof (fm_some _ _ _ _ Hm) as N2.
    pose proof (fm_some _ _ _ _ Hm1) as N3. rewrite length_app in N1, N3. unfold grow_cost in *. rewrite length_app. cbn [length] in *. repeat case_decide; try lia.
    all: exfalso; naive_solver lia.
  - exists e2, f2, l'', ([b] ++ new), l1''. split; [done|]. split; [cbn; lia|]. by eapply extended_trans.
Qed.
End maps.
