(* ===== verification/Ext2Data.v ===== *)
(** * Reading and writing ext2 files

    [ext2_vnode_read] returns the bytes of the file at its position and
    [ext2_vnode_write] replaces them, growing the file; no other file is touched. *)

From S2P Require Import Prelude Defs Bytes Vnode Vfs VfsOps Slab Ext2 Ext2Alloc Ext2File.

(** The bytes of the blocks [bl]. *)
Definition contents (f : Z -> list Z) (bl : list Z) : list Z := concat (f <$> bl).
Definition nblocks (size : Z) : Z := (size + 1023) / 1024.
Definition file_bytes (f : Z -> list Z) (bl : list Z) (size : Z) : list Z := take (Z.to_nat size) (contents f bl).

Section contents.
Implicit Types f : Z -> list Z.

Lemma file_contents_length f bl : (forall b, b ∈ bl -> length (f b) = 1024%nat) -> length (contents f bl) = (1024 * length bl)%nat.
Proof.
  unfold contents. induction bl as [|b bl IH]; intros Hl; [done|]. cbn [fmap list_fmap concat length]. rewrite length_app, Hl, IH; [lia| |by left].
  intros c Hc. apply Hl. by right.
Qed.

Lemma contents_lookup f bl : (forall b, b ∈ bl -> length (f b) = 1024%nat) -> forall i : nat,
  contents f bl !! i = b ← bl !! (i / 1024)%nat; f b !! (i mod 1024)%nat.
Proof.
  unfold contents. induction bl as [|b bl IH]; intros Hl i; [by rewrite !lookup_nil|]. cbn [fmap list_fmap concat]. assert (length (f b) = 1024%nat) as Hb by (apply Hl; by left).
  destruct (decide (i < 1024)%nat) as [Hi|Hi].
  - rewrite lookup_app_l by lia. rewrite Nat.div_small, Nat.mod_small by lia. done.
  - rewrite lookup_app_r by lia. fold (fmap (M:=list) f bl). rewrite IH by (intros c Hc; apply Hl; by right). rewrite Hb.
    assert (i / 1024 = S ((i - 1024) / 1024))%nat as -> by (replace i with (i - 1024 + 1 * 1024)%nat at 1 by lia; rewrite Nat.div_add by lia; lia).
    assert (i mod 1024 = (i - 1024) mod 1024)%nat as -> by (replace i with (i - 1024 + 1 * 1024)%nat at 1 by lia; by rewrite Nat.Div0.mod_add). done.
Qed.

Lemma contents_app f bl bl' : contents f (bl ++ bl') = contents f bl ++ contents f bl'.
Proof. unfold contents. by rewrite fmap_app, concat_app. Qed.

Lemma contents_ext f f' bl : (forall b, b ∈ bl -> f' b = f b) -> contents f' bl = contents f bl.
Proof. intros Hf. unfold contents. f_equal. apply list_fmap_ext. intros i b Hb. apply Hf. by eapply list_elem_of_lookup_2. Qed.

(** Changing part of block [k] of a file changes that range of its bytes. *)
Lemma contents_upd f bl (k : nat) b o x : NoDup bl -> (forall c, c ∈ bl -> length (f c) = 1024%nat) -> bl !! k = Some b ->
  0 <= o -> o + Z.of_nat (length x) <= 1024 ->
  contents (upd b (splice o x (f b)) f) bl = splice (1024 * Z.of_nat k + o) x (contents f bl).
Proof.
  intros Hnd Hl Hk Ho Hx. pose proof (lookup_lt_Some _ _ _ Hk) as Hlt. assert (length (f b) = 1024%nat) as Hb by (apply Hl; by eapply list_elem_of_lookup_2).
  assert (length (splice o x (f b)) = 1024%nat) as Hs by (rewrite length_splice; lia).
  apply list_eq. intros i. rewrite contents_lookup.
  2:{ intros c Hc. unfold upd. case_decide; [done|by apply Hl]. }
  rewrite lookup_splice by (rewrite ?file_contents_length by done; lia). rewrite contents_lookup by done.
  pose proof (Nat.div_mod_eq i 1024) as Hdm. pose proof (Nat.mod_upper_bound i 1024 ltac:(lia)) as Hm. set (q := (i / 1024)%nat) in *. set (r := (i mod 1024)%nat) in *.
  destruct (bl !! q) as [c|] eqn:Eq; cbn [mbind option_bind].
  - destruct (decide (q = k)) as [->|Hne].
    + assert (c = b) as -> by congruence. rewrite upd_eq, lookup_splice by lia. case_decide; case_decide; try lia; [f_equal; lia|done].
    + assert (c <> b) as Hcb by (intros ->; apply Hne; by eapply (NoDup_lookup _ _ _ _ Hnd)). rewrite upd_ne by done. rewrite decide_False; [done|]. nia.
  - apply lookup_ge_None in Eq. rewrite decide_False; [done|]. nia.
Qed.
End contents.

(** The inode at [p] is a file of [size] bytes in the blocks [bl]. *)
Record file_ok {D} `{BlkIO D} (e : ext2 D) (n : Z) (f : Z -> list Z) (p : Z) (l bl : list Z) (l1 size : Z) : Prop := {
  fo_ok : e2_ok e n f;
  fo_map : file_map f l bl l1;
  fo_owned : owned e n f bl l1;
  fo_inode : e_inodes e !! p = Some l;
  fo_len : Z.of_nat (length l) = e_inode_size e;
  fo_size : iv l i_size_lower = size;
  fo_upper : iv l i_size_upper = 0;
  fo_blocks : Z.of_nat (length bl) = nblocks size;
}.

Section rw.
Context {D : Type} `{BlkIO D}.
Implicit Types e : ext2 D.

Lemma owned_lengths e n f bl l1 : e2_ok e n f -> owned e n f bl l1 -> forall b, b ∈ bl -> length (f b) = 1024%nat.
Proof. intros Hok Ho b Hb. pose proof (ow_data _ _ _ _ _ Ho) as Hf. rewrite list.Forall_forall in Hf. by apply (data_length e n f b Hok), Hf. Qed.

Lemma block_of_pos (bl : list Z) pos : 0 <= pos < 1024 * Z.of_nat (length bl) -> (length bl <= 268)%nat ->
  exists b, bl !! Z.to_nat (pos / 1024) = Some b /\ u32 (pos / 1024) = Z.of_nat (Z.to_nat (pos / 1024)) /\ 0 <= pos / 1024.
Proof.
  intros Hp Hl. assert (0 <= pos / 1024 < Z.of_nat (length bl)) as Hk by (split; [apply Z.div_pos; lia|apply Z.div_lt_upper_bound; lia]).
  destruct (lookup_lt_is_Some_2 bl (Z.to_nat (pos / 1024))) as [b Hb]; [lia|]. exists b. split; [done|]. rewrite uwrap_small by lia. lia.
Qed.

Lemma read_inode_block_run e n f p l bl l1 (k : nat) b : e2_ok e n f -> file_map f l bl l1 -> owned e n f bl l1 -> e_inodes e !! p = Some l -> bl !! k = Some b ->
  exists d, ext2_read_inode_block p (Z.of_nat k) e = Ret ((0, f b), set_dev d e) /\ io_rep d n f.
Proof.
  intros Hok Hm Ho Hp Hk. destruct (get_index_run e n f p l bl l1 k b Hok Hm Ho Hp Hk) as (d & E & Hd). unfold ext2_read_inode_block. rewrite (bind_Ret _ _ _ _ _ E).
  pose proof (owned_data _ _ _ _ _ _ _ Ho Hk) as Hb. rewrite (proj2 (Z.eqb_neq b 0)) by (pose proof (data_pos _ _ _ _ Hb); lia).
  exact (data_read (set_dev d e) n f b (ok_dev _ _ _ _ Hok Hd) Hb).
Qed.

Lemma write_inode_block_run e n f p l bl l1 (k : nat) b x : e2_ok e n f -> file_map f l bl l1 -> owned e n f bl l1 -> e_inodes e !! p = Some l -> bl !! k = Some b -> length x = 1024%nat ->
  exists d, ext2_write_inode_block p x (Z.of_nat k) e = Ret (0, set_dev d e) /\ e2_ok (set_dev d e) n (upd b x f).
Proof.
  intros Hok Hm Ho Hp Hk Hx. destruct (get_index_run e n f p l bl l1 k b Hok Hm Ho Hp Hk) as (d & E & Hd). unfold ext2_write_inode_block. rewrite (bind_Ret _ _ _ _ _ E).
  pose proof (owned_data _ _ _ _ _ _ _ Ho Hk) as Hb. rewrite (proj2 (Z.eqb_neq b 0)) by (pose proof (data_pos _ _ _ _ Hb); lia).
  exact (data_write (set_dev d e) n f b x (ok_dev _ _ _ _ Hok Hd) Hb Hx).
Qed.

Lemma slice_block f bl (k : nat) b o m : (forall c, c ∈ bl -> length (f c) = 1024%nat) -> bl !! k = Some b -> 0 <= o -> 0 <= m -> o + m <= 1024 ->
  slice o m (f b) = slice (1024 * Z.of_nat k + o) m (contents f bl).
Proof.
  intros Hl Hk Ho Hm Hom. unfold slice. apply list_eq. intros i. destruct (decide (Z.of_nat i < m)) as [Hi|Hi]; [|by rewrite !lookup_take_ge by lia].
  rewrite !lookup_take_lt, !lookup_drop by lia. rewrite contents_lookup by done.
  replace (Z.to_nat (1024 * Z.of_nat k + o) + i)%nat with ((Z.to_nat o + i) + k * 1024)%nat by lia. rewrite Nat.div_add, Nat.Div0.mod_add, Nat.div_small, Nat.mod_small by lia.
  cbn [Nat.add]. by rewrite Hk.
Qed.

Lemma read_blocks_run fuel : forall e n f p l bl l1 pos rem bread buf, e2_ok e n f -> file_map f l bl l1 -> owned e n f bl l1 -> e_inodes e !! p = Some l ->
  0 <= pos -> 0 <= rem < Z.of_nat fuel -> pos + rem <= 1024 * Z.of_nat (length bl) ->
  exists d, read_blocks fuel p pos rem bread buf e = Ret ((bread + rem, buf ++ slice pos rem (contents f bl), pos + rem), set_dev d e) /\ io_rep d n f.
Proof.
  induction fuel as [|fuel IH]; intros e n f p l bl l1 pos rem bread buf Hok Hm Ho Hp Hpos Hrem Hfit; [lia|]. cbn [read_blocks]. destruct (Z.eqb_spec rem 0) as [->|Hne].
  { exists (e_dev e). rewrite set_dev_id. split; [|apply Hok]. unfold slice. change (Z.to_nat 0) with 0%nat. cbn [take]. by rewrite app_nil_r, !Z.add_0_r. }
  rewrite (bind_Ret _ _ e 1024 e) by (unfold cgets; by rewrite (g_bs _ _ (ok_geo _ _ _ Hok))). cbv zeta.
  destruct (block_of_pos bl pos ltac:(lia) (fm_count _ _ _ _ Hm)) as (b & Hb & Eu & Hk0). pose proof (Z.div_mod pos 1024 ltac:(done)) as Hdm. pose proof (Z.mod_pos_bound pos 1024 ltac:(done)) as Hmod.
  set (can := Z.min rem (1024 - pos mod 1024)). rewrite Eu. destruct (read_inode_block_run e n f p l bl l1 _ b Hok Hm Ho Hp Hb) as (d & E & Hd). rewrite (bind_Ret _ _ _ _ _ E). cbn beta iota.
  change (negb (0 =? 0)) with false. cbn iota.
  destruct (IH (set_dev d e) n f p l bl l1 (pos + can) (rem - can) (bread + can) (buf ++ slice (pos mod 1024) can (f b))) as (d' & E' & Hd');
    [by apply ok_dev|done|by apply (sg_owned _ _ _ _ _ _ (same_dev e d))|done|lia|lia|lia|].
  exists d'. split; [|done]. change (set_dev d' (set_dev d e)) with (set_dev d' e) in E'. rewrite E'.
  rewrite (slice_block f bl _ b (pos mod 1024) can (owned_lengths _ _ _ _ _ Hok Ho) Hb) by lia. replace (1024 * Z.of_nat (Z.to_nat (pos / 1024)) + pos mod 1024) with pos by lia.
  rewrite <- app_assoc, slice_app by lia. replace (can + (rem - can)) with rem by lia. replace (bread + can + (rem - can)) with (bread + rem) by lia.
  by replace (pos + can + (rem - can)) with (pos + rem) by lia.
Qed.

Lemma owned_upd e n f bl l1 b x : e2_ok e n f -> owned e n f bl l1 -> data_block e n f b -> owned e n (upd b x f) bl l1.
Proof.
  intros Hok [H1 H2 H3] Hb. split; [done| |intros Hl; by apply (data_keep e n f), H3]. eapply list.Forall_impl; [exact H2|]. intros c Hc. by apply (data_keep e n f).
Qed.

Lemma map_upd f l bl l1 b x : file_map f l bl l1 -> b <> l1 -> file_map (upd b x f) l bl l1.
Proof. intros [H1 H2 H3 H4 H5 H6 H7] Hb. split; try done. intros k c Hk Hc. rewrite upd_ne by done. by apply H7. Qed.

(** One round of the write loop: the bytes [x] go to offset [o] of block [k]. *)
Lemma write_round e n f p l bl l1 (k : nat) b o off can buf : e2_ok e n f -> file_map f l bl l1 -> owned e n f bl l1 -> e_inodes e !! p = Some l -> bl !! k = Some b ->
  0 <= o -> 0 < can -> o + can <= 1024 -> 0 <= off -> off + can <= Z.of_nat (length buf) -> (can = 1024 -> o = 0) ->
  exists d, (if negb (can =? 1024) then '(res, block) ← ext2_read_inode_block p (Z.of_nat k); if negb (res =? 0) then cpanic else
         res ← ext2_write_inode_block p (splice o (slice off can buf) block) (Z.of_nat k); if negb (res =? 0) then cpanic else mret tt
       else res ← ext2_write_inode_block p (slice off 1024 buf) (Z.of_nat k); if negb (res =? 0) then cpanic else mret tt) e = Ret (tt, set_dev d e) /\
    e2_ok (set_dev d e) n (upd b (splice o (slice off can buf) (f b)) f).
Proof.
  intros Hok Hm Ho Hp Hk H1 H2 H3 H4 H5 H6. pose proof (owned_data _ _ _ _ _ _ _ Ho Hk) as Hb. pose proof (data_length _ _ _ _ Hok Hb) as Hlb.
  assert (length (slice off can buf) = Z.to_nat can) as Hls by (apply length_slice; lia).
  assert (length (splice o (slice off can buf) (f b)) = 1024%nat) as Hlx by (rewrite length_splice; lia). destruct (Z.eqb_spec can 1024) as [Ec|Ec]; cbn [negb].
  - destruct (write_inode_block_run e n f p l bl l1 k b (splice o (slice off can buf) (f b)) Hok Hm Ho Hp Hk Hlx) as (d & E & Hok'). exists d. split; [|done].
    rewrite (H6 Ec), Ec, splice_all in E by (rewrite <- Ec; lia). by rewrite (bind_Ret _ _ _ _ _ E).
  - destruct (read_inode_block_run e n f p l bl l1 k b Hok Hm Ho Hp Hk) as (d1 & E1 & Hd1). rewrite (bind_Ret _ _ _ _ _ E1). cbn beta iota. change (negb (0 =? 0)) with false. cbn iota.
    destruct (write_inode_block_run (set_dev d1 e) n f p l bl l1 k b (splice o (slice off can buf) (f b)) (ok_dev _ _ _ _ Hok Hd1) Hm) as (d & E & Hok');
      [by apply (sg_owned _ _ _ _ _ _ (same_dev e d1))|done|done|done|]. exists d. split; [|done]. by rewrite (bind_Ret _ _ _ _ _ E).
Qed.

Lemma write_blocks_run fuel : forall e n f p l bl l1 pos rem off buf, e2_ok e n f -> file_map f l bl l1 -> owned e n f bl l1 -> e_inodes e !! p = Some l ->
  0 <= pos -> 0 <= rem < Z.of_nat fuel -> pos + rem <= 1024 * Z.of_nat (length bl) -> 0 <= off -> off + rem <= Z.of_nat (length buf) ->
  exists d f', write_blocks fuel p pos rem off buf e = Ret ((off + rem, pos + rem), set_dev d e) /\ e2_ok (set_dev d e) n f' /\ file_map f' l bl l1 /\ owned e n f' bl l1 /\
    contents f' bl = splice pos (slice off rem buf) (contents f bl) /\ (forall c, c ∉ bl -> f' c = f c) /\
    (forall r no, numbers e r no -> bit_of e f' r no = bit_of e f r no).
Proof.
  induction fuel as [|fuel IH]; intros e n f p l bl l1 pos rem off buf Hok Hm Ho Hp Hpos Hrem Hfit Hoff Hbuf; [lia|]. cbn [write_blocks].
  pose proof (file_contents_length f bl (owned_lengths _ _ _ _ _ Hok Ho)) as Hlc. destruct (Z.eqb_spec rem 0) as [->|Hne].
  { exists (e_dev e), f. rewrite set_dev_id, !Z.add_0_r. split; [done|]. split; [done|]. split; [done|]. split; [done|]. split; [|done].
    unfold slice. change (Z.to_nat 0) with 0%nat. rewrite take_0. unfold splice. rewrite app_nil_l, Nat.add_0_r. symmetry. apply take_drop. }
  rewrite (bind_Ret _ _ e 1024 e) by (unfold cgets; by rewrite (g_bs _ _ (ok_geo _ _ _ Hok))). cbv zeta.
  destruct (block_of_pos bl pos ltac:(lia) (fm_count _ _ _ _ Hm)) as (b & Hb & Eu & Hk0). pose proof (Z.div_mod pos 1024 ltac:(done)) as Hdm. pose proof (Z.mod_pos_bound pos 1024 ltac:(done)) as Hmod.
  set (can := Z.min rem (1024 - pos mod 1024)). assert (0 < can) as Hcan by lia. rewrite (proj2 (Z.eqb_neq can 0)) by lia. rewrite (bind_Ret _ _ e tt e) by done. rewrite Eu.
  destruct (write_round e n f p l bl l1 _ b (pos mod 1024) off can buf Hok Hm Ho Hp Hb) as (d1 & E1 & Hok1); [lia|lia|lia|lia|lia|lia|]. rewrite (bind_Ret _ _ _ _ _ E1).
  set (x := splice (pos mod 1024) (slice off can buf) (f b)) in *. pose proof (owned_data _ _ _ _ _ _ _ Ho Hb) as Hdb.
  assert (b <> l1) as Hbl1. { intros ->. pose proof (ow_nodup _ _ _ _ _ Ho) as Hnd. apply list.NoDup_cons in Hnd as [Hni _]. apply Hni. by eapply list_elem_of_lookup_2. }
  assert (length (slice off can buf) = Z.to_nat can) as Hls by (apply length_slice; lia).
  destruct (IH (set_dev d1 e) n (upd b x f) p l bl l1 (pos + can) (rem - can) (off + can) buf Hok1) as (d & f' & E & Hok' & Hm' & Ho' & Hc & Hfr & Hbits);
    [by apply map_upd|by apply (sg_owned _ _ _ _ _ _ (same_dev e d1)), owned_upd|done|lia|lia|lia|lia|lia|].
  exists d, f'. split; [rewrite E; replace (off + can + (rem - can)) with (off + rem) by lia; by replace (pos + can + (rem - can)) with (pos + rem) by lia|]. split; [done|]. split; [done|]. split; [by apply (sg_owned _ _ _ _ _ _ (same_dev e d1))|]. split; [|split].
  - rewrite Hc. unfold x. rewrite (contents_upd f bl (Z.to_nat (pos / 1024)) b); [|pose proof (ow_nodup _ _ _ _ _ Ho) as Hnd; by apply list.NoDup_cons in Hnd as [_ ?]|by eapply owned_lengths|done|lia|lia].
    replace (1024 * Z.of_nat (Z.to_nat (pos / 1024)) + pos mod 1024) with pos by lia. replace (pos + can) with (pos + Z.of_nat (length (slice off can buf))) by lia.
    assert (length (slice (off + can) (rem - can) buf) = Z.to_nat (rem - can)) as Hls' by (apply length_slice; lia). rewrite splice_app by lia.
    f_equal. rewrite slice_app by lia. f_equal. lia.
  - intros c Hcn. rewrite Hfr by done. apply upd_ne. intros ->. apply Hcn. by eapply list_elem_of_lookup_2.
  - intros r no Hno. etransitivity; [exact (Hbits r no Hno)|exact (data_bits e n f b x r no Hok Hdb Hno)].
Qed.

(** ** Growing a file *)
Lemma map_keep f f' l l' bl l1 : file_map f l bl l1 -> length l' = length l -> (forall g, 40 <= f_off g -> f_off g + Z.of_nat (f_width g) <= 92 -> iv l' g = iv l g) ->
  (l1 <> 0 -> f' l1 = f l1) -> file_map f' l' bl l1.
Proof.
  intros [H1 H2 H3 H4 H5 H6 H7] Hl Hg Hf. split; try done.
  - by rewrite Hl.
  - intros k b Hk Hb. rewrite Hg; [by apply H3| |]; cbn; lia.
  - by rewrite Hg.
  - intros k b Hk Hb. rewrite Hf; [by apply H7|]. apply H6. apply lookup_lt_Some in Hb. lia.
Qed.

Lemma owned_keep e n f f' bl l1 : owned e n f bl l1 -> (forall c, data_block e n f c -> data_block e n f' c) -> owned e n f' bl l1.
Proof. intros [H1 H2 H3] Hd. split; [done| |auto]. eapply list.Forall_impl; [exact H2|exact Hd]. Qed.

Lemma nblocks_spec s : 0 <= s -> 0 <= nblocks s /\ s <= 1024 * nblocks s /\ (forall k, s <= 1024 * k -> nblocks s <= k).
Proof. intros Hs. unfold nblocks. split; [apply Z.div_pos; lia|]. split; [Z.div_mod_to_equations; lia|]. intros k Hk. Z.div_mod_to_equations. lia. Qed.

(** A file that has grown to [new_size]. *)
Record resized e e' n (f f' : Z -> list Z) (p : Z) (l l' bl new : list Z) (l1 l1' new_size : Z) : Prop := {
  rz_grown : exists e1 k, extended e e1 n f f' p l k bl new l1 l1' /\ e' = set_inodes (<[p := l']> (e_inodes e)) e1;
  rz_file : file_ok e' n f' p l' (bl ++ new) l1' new_size;
  rz_fields : forall g, f_off g + Z.of_nat (f_width g) <= 40 \/ 92 <= f_off g -> apart i_size_lower g -> apart i_sector_count g -> iv l' g = iv l g;
}.

Lemma size_of_file e n f p l bl l1 size : file_ok e n f p l bl l1 size -> 0 <= size <= 268 * 1024.
Proof.
  intros Hf. pose proof (fo_size _ _ _ _ _ _ _ _ Hf) as Hs. pose proof (fm_count _ _ _ _ (fo_map _ _ _ _ _ _ _ _ Hf)) as Hc. pose proof (fo_blocks _ _ _ _ _ _ _ _ Hf) as Hb.
  assert (0 <= size) as H0. { rewrite <- Hs. unfold iv. destruct (peek (f_width i_size_lower) (f_off i_size_lower) l) eqn:E; cbn; [|lia]. apply peek_inv in E. lia. }
  destruct (nblocks_spec size H0) as (_ & H1 & _). lia.
Qed.

Lemma resize_grow_run stack e n f p l bl l1 size new_size : length stack = 1024%nat -> file_ok e n f p l bl l1 size -> size <= new_size -> nblocks new_size <= 268 ->
  grow_cost (length bl) (Z.to_nat (nblocks new_size) - length bl) <= sbv e sb_free_blocks ->
  exists e' f' l' new l1', ext2_file_resize stack p new_size e = Ret (0, e') /\ resized e e' n f f' p l l' bl new l1 l1' new_size.
Proof.
  intros Hst Hf Hsz Hnb Hcost. pose proof (size_of_file _ _ _ _ _ _ _ _ Hf) as Hs. destruct Hf as [Hok Hm Ho Hp Hlen Hsize Hup Hbl]. pose proof (fm_len _ _ _ _ Hm) as Hl.
  destruct (nblocks_spec size ltac:(lia)) as (N1 & N2 & N3). destruct (nblocks_spec new_size ltac:(lia)) as (M1 & M2 & M3). pose proof (N3 (nblocks new_size) ltac:(lia)) as Hle.
  destruct (grow_run (Z.to_nat (nblocks new_size) - length bl) e n f p l bl l1 stack Hst Hok Hm Ho Hp ltac:(lia) Hcost) as (e1 & f1 & k & new & l1' & E & Hn & Hx).
  assert (e_inodes e1 !! p = Some k) as Hp1 by (rewrite (ex_inodes _ _ _ _ _ _ _ _ _ _ _ _ Hx); apply lookup_insert_eq). pose proof (ex_len _ _ _ _ _ _ _ _ _ _ _ _ Hx) as Hlk.
  destruct (i_put_run e1 i_size_lower p k new_size Hp1 ltac:(done) ltac:(lia)) as (k1 & E1 & Hl1 & Hv1 & Hf1).
  set (e2 := set_inodes (<[p := k1]> (e_inodes e1)) e1) in *. assert (e_inodes e2 !! p = Some k1) as Hp2 by apply lookup_insert_eq.
  set (sectors := (nblocks new_size + (if EXT2_DIRECT_BLOCKS <? nblocks new_size then 1 else 0)) * 1024 + 511).
  destruct (i_put_run e2 i_sector_count p k1 (sectors / 512) Hp2 ltac:(done) ltac:(lia)) as (k2 & E2 & Hl2 & Hv2 & Hf2).
  exists (set_inodes (<[p := k2]> (e_inodes e2)) e2), f1, k2, new, l1'. split.
  { unfold ext2_file_resize. rewrite (bind_Ret _ _ e 1024 e) by (unfold cgets; by rewrite (g_bs _ _ (ok_geo _ _ _ Hok))).
    rewrite (bind_Ret _ _ _ _ _ (i_get_run e i_size_lower p l Hp ltac:(done) Hl)), Hsize. cbv zeta. change (1024 / 4) with 256.
    replace (u64 (new_size + 1024 - 1) / 1024) with (nblocks new_size) by (unfold nblocks; rewrite uwrap_small by lia; f_equal; lia).
    replace (u32 (size + 1024 - 1) / 1024) with (nblocks size) by (unfold nblocks; rewrite uwrap_small by lia; f_equal; lia).
    rewrite !(proj2 (Z.leb_le _ _)) by (unfold EXT2_DIRECT_BLOCKS; lia). cbn [andb]. rewrite (bind_Ret _ _ e tt e) by done.
    replace (Z.to_nat (nblocks new_size - nblocks size)) with (Z.to_nat (nblocks new_size) - length bl)%nat by lia. rewrite <- Hbl.
    rewrite (bind_Ret _ _ _ _ _ E). rewrite (bind_Ret _ _ _ _ _ E1). by rewrite (bind_Ret _ _ _ _ _ E2). }
  assert (forall g, apart i_size_lower g -> apart i_sector_count g -> iv k2 g = iv k g) as Hfields by (intros g H1 H2; by rewrite Hf2, Hf1).
  assert (same_geometry e e2) as Hs2 by (etransitivity; [apply Hx|apply same_inodes]).
  assert (set_inodes (<[p := k2]> (e_inodes e2)) e2 = set_inodes (<[p := k2]> (e_inodes e)) e1) as Ee.
  { unfold e2. cbn [e_inodes set_inodes]. rewrite (ex_inodes _ _ _ _ _ _ _ _ _ _ _ _ Hx). rewrite !insert_insert_eq. done. }
  split.
  - exists e1, k. split; [done|exact Ee].
  - split.
    + do 2 apply ok_inodes. apply Hx.
    + eapply map_keep; [apply Hx|lia| |done]. intros g G1 G2. apply Hfields; left; cbn; lia.
    + apply (sg_owned _ _ _ _ _ _ (transitivity Hs2 (same_inodes e2 _))), Hx.
    + cbn. apply lookup_insert_eq.
    + cbn. rewrite (sg_isz _ _ (ex_geo _ _ _ _ _ _ _ _ _ _ _ _ Hx)). lia.
    + rewrite Hf2 by (right; cbn; lia). rewrite Hv1. apply uwrap_small. change (2 ^ (8 * Z.of_nat (f_width i_size_lower))) with (2 ^ 32). lia.
    + rewrite Hfields by (left; cbn; lia). rewrite (ex_fields _ _ _ _ _ _ _ _ _ _ _ _ Hx) by (right; cbn; lia). done.
    + rewrite length_app, Hn. lia.
  - intros g G1 G2 G3. rewrite Hfields by done. by apply (ex_fields _ _ _ _ _ _ _ _ _ _ _ _ Hx).
Qed.

(** ** The whole of [ext2_vnode_write] *)
Lemma take_splice_grow (C X buf : list Z) (pos size : Z) : 0 <= pos <= size -> size <= Z.of_nat (length C) -> pos + Z.of_nat (length buf) <= Z.of_nat (length C + length X) ->
  take (Z.to_nat (Z.max (pos + Z.of_nat (length buf)) size)) (splice pos buf (C ++ X)) = splice pos buf (take (Z.to_nat size) C).
Proof.
  intros Hp Hs Hc. unfold splice. remember (Z.to_nat pos) as q eqn:Eq. remember (Z.to_nat size - (q + length buf))%nat as k eqn:Ek.
  replace (Z.to_nat (Z.max (pos + Z.of_nat (length buf)) size)) with (q + (length buf + k))%nat by lia.
  rewrite take_take, Nat.min_l by lia. rewrite (take_app_le C X q) by lia. rewrite take_app_add' by (rewrite length_take; lia). rewrite take_app_add. f_equal. f_equal.
  rewrite skipn_firstn_comm, <- Ek. destruct (decide (k = 0%nat)) as [->|Hk]; [done|]. rewrite drop_app_le by lia. rewrite take_app_le; [done|]. rewrite length_drop. lia.
Qed.

Lemma grown_contents e e1 n f f1 p l k bl new l1 l1' : owned e n f bl l1 -> extended e e1 n f f1 p l k bl new l1 l1' ->
  contents f1 (bl ++ new) = contents f bl ++ contents f1 new.
Proof.
  intros Ho Hx. rewrite contents_app. f_equal. apply contents_ext. intros b Hb. apply (ex_frame _ _ _ _ _ _ _ _ _ _ _ _ Hx).
  - pose proof (ow_data _ _ _ _ _ Ho) as Hd. rewrite list.Forall_forall in Hd. apply (Hd b Hb).
  - left. intros ->. pose proof (ow_nodup _ _ _ _ _ (ex_owned _ _ _ _ _ _ _ _ _ _ _ _ Hx)) as Hnd. apply list.NoDup_cons in Hnd as [Hni _]. apply Hni. set_solver.
Qed.

(** A block in use that is not of this file. *)
Definition foreign {D} (e : ext2 D) (n : Z) (f : Z -> list Z) (bl : list Z) (l1 c : Z) : Prop := data_block e n f c /\ c ∉ l1 :: bl.

Lemma foreign_kept e e1 n f f1 p l k bl new l1 l1' c : owned e n f bl l1 -> extended e e1 n f f1 p l k bl new l1 l1' -> foreign e n f bl l1 c ->
  f1 c = f c /\ foreign e n f1 (bl ++ new) l1' c.
Proof.
  intros Ho Hx [Hd Hc]. destruct Hd as (Ht & Hn & Hmeta). assert (forall b, b ∈ l1' :: new -> c <> b) as Hne.
  { intros b Hb ->. destruct (ex_fresh _ _ _ _ _ _ _ _ _ _ _ _ Hx b Hb) as [->|[_ Hf]]; [apply Hc; by left|]. destruct Ht as [_ Ht]. congruence. }
  split; [|split].
  - apply (ex_frame _ _ _ _ _ _ _ _ _ _ _ _ Hx); [done|]. left. apply Hne. by left.
  - split; [by apply (ex_taken _ _ _ _ _ _ _ _ _ _ _ _ Hx)|done].
  - intros [->|[Hb|Hb]%elem_of_app]%elem_of_cons; [by apply (Hne l1'); [left|]|apply Hc; by right|apply (Hne c); [by right|done]].
Qed.

(** What [ext2_vnode_write] leaves: the file with its new contents, everything else as it was. *)
Record file_written e e' n (f f' : Z -> list Z) (p ino : Z) (l' bl bl' : list Z) (l1 l1' size' : Z) : Prop := {
  fw_file : file_ok e' n f' p l' bl' l1' size';
  fw_geo : same_geometry e e';
  fw_inodes : e_inodes e' = <[p := l']> (e_inodes e);
  fw_disk : disk_inode e' f' ino = l';
  fw_others : forall ino', inode_no e ino' -> ino' <> ino -> disk_inode e f' ino' = disk_inode e f ino';
  fw_foreign : forall c, foreign e n f bl l1 c -> f' c = f c /\ foreign e n f' bl' l1' c;
  fw_ibits : forall i, numbers e Inodes i -> bit_of e f' Inodes i = bit_of e f Inodes i;
}.

Lemma meta_not_data e n f m b : meta_at e m b -> ~ data_block e n f b.
Proof. intros Hm (_ & _ & Hd). by apply (Hd m). Qed.

Lemma sg_inode_no e e' ino : same_geometry e e' -> inode_no e' ino <-> inode_no e ino.
Proof. intros Hs. unfold inode_no. by rewrite (sg_groups _ _ Hs), (sg_per _ _ _ Hs). Qed.
Lemma sg_disk e e' f ino : same_geometry e e' -> disk_inode e' f ino = disk_inode e f ino.
Proof. intros Hs. unfold disk_inode, inode_off, inode_block. by rewrite (sg_table _ _ _ Hs), (sg_per _ _ _ Hs), (sg_ipb _ _ Hs), (sg_isz _ _ Hs). Qed.
Lemma disk_frame e n f f' ino : geometry e n -> inode_no e ino -> (forall i k c, meta_at e (MInodes i k) c -> f' c = f c) -> disk_inode e f' ino = disk_inode e f ino.
Proof. intros Hg Hi Hf. unfold disk_inode. destruct (inode_place_meta e n ino Hg Hi) as [Hm _]. by rewrite (Hf _ _ _ Hm). Qed.
Lemma bits_data e n f f' c : (forall no, numbers e Blocks no -> bit_of e f' Blocks no = bit_of e f Blocks no) -> data_block e n f c -> data_block e n f' c.
Proof. intros Hb ((Hn & Ht) & H1 & H2). split; [|done]. split; [done|]. by rewrite Hb. Qed.

(** Fields that do not say where the data is. *)
Definition plain_field (h : field) : Prop := i_field h /\ f_off h + Z.of_nat (f_width h) <= 40 /\ apart h i_size_lower.

Lemma file_put e n f p l bl l1 size h x : file_ok e n f p l bl l1 size -> plain_field h ->
  exists k, i_put h p x e = Ret (tt, set_inodes (<[p := k]> (e_inodes e)) e) /\ file_ok (set_inodes (<[p := k]> (e_inodes e)) e) n f p k bl l1 size /\
    iv k h = uwrap (8 * Z.of_nat (f_width h)) x /\ forall g, apart h g -> iv k g = iv l g.
Proof.
  intros [Hok Hm Ho Hp Hlen Hsize Hup Hbl] (Hh & H40 & Ha). pose proof (fm_len _ _ _ _ Hm) as Hl.
  destruct (i_put_run e h p l x Hp Hh Hl) as (k & E & Hlk & Hv & Hfk). exists k. split; [done|]. split; [|done]. split.
  - by apply ok_inodes.
  - eapply map_keep; [exact Hm|done| |done]. intros g G1 G2. apply Hfk. left. lia.
  - by apply (sg_owned _ _ _ _ _ _ (same_inodes e _)).
  - apply lookup_insert_eq.
  - cbn. lia.
  - by rewrite Hfk.
  - rewrite Hfk by (left; cbn; lia). done.
  - done.
Qed.

(** Writing the inode of a file. *)
Lemma write_inode_file e n f p ino l bl l1 size : file_ok e n f p l bl l1 size -> inode_no e ino ->
  exists l' e' f', ext2_write_inode p ino e = Ret (0, e') /\ file_written e e' n f f' p ino l' bl bl l1 l1 size /\ (forall c, data_block e n f c -> f' c = f c).
Proof.
  intros [Hok Hm Ho Hp Hlen Hsize Hup Hbl] Hino. pose proof (fm_len _ _ _ _ Hm) as Hl.
  destruct (write_inode_run e n f p ino l Hok Hino Hp Hlen) as (l' & e' & f' & E2 & Hw & _). exists l', e', f'. split; [done|].
  pose proof (iw_geo _ _ _ _ _ _ _ _ _ Hw) as Hs.
  assert (forall c, data_block e n f c -> f' c = f c) as Hframe.
  { intros c Hc. apply (iw_frame _ _ _ _ _ _ _ _ _ Hw). intros ->. destruct (inode_place_meta e n ino (ok_geo _ _ _ Hok) Hino) as [Hmm _]. by eapply meta_not_data. }
  assert (forall c, data_block e n f c -> data_block e n f' c) as Hdata by (intros c; apply bits_data, (iw_bits _ _ _ _ _ _ _ _ _ Hw)).
  pose proof (iw_length _ _ _ _ _ _ _ _ _ Hw) as Hll. pose proof (iw_fields _ _ _ _ _ _ _ _ _ Hw) as Hfields. split; [|exact Hframe]. split.
  - split.
    + apply Hw.
    + eapply map_keep; [exact Hm|lia| |intros H1; by apply Hframe, (ow_l1 _ _ _ _ _ Ho)]. intros g G1 G2. apply Hfields; left; cbn; lia.
    + apply (sg_owned _ _ _ _ _ _ Hs). by eapply owned_keep.
    + rewrite (iw_inodes _ _ _ _ _ _ _ _ _ Hw). apply lookup_insert_eq.
    + rewrite (sg_isz _ _ Hs). lia.
    + rewrite Hfields by (right; cbn; lia). done.
    + rewrite Hfields by (left; cbn; lia). done.
    + done.
  - done.
  - apply Hw.
  - rewrite (sg_disk _ _ _ _ Hs). apply Hw.
  - apply (iw_other _ _ _ _ _ _ _ _ _ Hw).
  - intros c [Hc Hni]. split; [by apply Hframe|]. by split; [apply Hdata|].
  - intros i Hi. by apply (iw_bits _ _ _ _ _ _ _ _ _ Hw).
Qed.

(** The time stamps and the inode are written last. *)
Lemma finish_run e n f p ino l bl l1 size : file_ok e n f p l bl l1 size -> inode_no e ino ->
  exists l' e' f', (now ← cgets e_time; i_put i_mtime p now;; ext2_write_inode p ino) e = Ret (0, e') /\
    file_written e e' n f f' p ino l' bl bl l1 l1 size /\ (forall c, data_block e n f c -> f' c = f c).
Proof.
  intros Hf Hino. destruct (file_put e n f p l bl l1 size i_mtime (e_time e) Hf) as (k & E1 & Hf1 & _); [repeat split; cbn; try lia; right; cbn; lia|].
  set (m := <[p := k]> (e_inodes e)) in *. destruct (write_inode_file (set_inodes m e) n f p ino k bl l1 size Hf1 Hino) as (l' & e' & f' & E2 & Hw & Hfr).
  exists l', e', f'. split; [rewrite (bind_Ret _ _ e (e_time e) e) by done; by rewrite (bind_Ret _ _ _ _ _ E1)|]. split; [|exact Hfr]. pose proof (same_inodes e m) as Hs.
  destruct Hw as [W1 W2 W3 W4 W5 W6 W7]. split; try done.
  - by etransitivity.
  - rewrite W3. apply insert_insert_eq.
Qed.

Lemma foreign_upd e n f f' bl l1 c : (forall c, data_block e n f c -> data_block e n f' c) -> foreign e n f bl l1 c -> foreign e n f' bl l1 c.
Proof. intros Hd [H1 H2]. split; auto. Qed.

Lemma write_run stack e n f p ino pos buf l bl l1 size : length stack = 1024%nat -> file_ok e n f p l bl l1 size -> inode_no e ino -> 0 <= pos <= size ->
  let size' := Z.max (pos + Z.of_nat (length buf)) size in nblocks size' <= 268 -> grow_cost (length bl) (Z.to_nat (nblocks size') - length bl) <= sbv e sb_free_blocks ->
  exists e' f' l' bl' l1', ext2_vnode_write stack p ino pos buf e = Ret ((Z.of_nat (length buf), pos + Z.of_nat (length buf)), e') /\
    file_written e e' n f f' p ino l' bl bl' l1 l1' size' /\ file_bytes f' bl' size' = splice pos buf (file_bytes f bl size).
Proof.
  intros Hst Hf Hino Hpos size' Hnb Hcost. pose proof (size_of_file _ _ _ _ _ _ _ _ Hf) as Hsz. set (count := Z.of_nat (length buf)) in *.
  destruct (resize_grow_run stack e n f p l bl l1 size size' Hst Hf ltac:(lia) Hnb Hcost) as (e1 & f1 & k & new & l1' & E1 & Hrz).
  pose proof (rz_file _ _ _ _ _ _ _ _ _ _ _ _ _ Hrz) as Hf1. destruct (rz_grown _ _ _ _ _ _ _ _ _ _ _ _ _ Hrz) as (e0 & k0 & Hx & Ee).
  assert (same_geometry e e1) as Hs1 by (rewrite Ee; etransitivity; [apply Hx|apply same_inodes]).
  destruct (nblocks_spec size' ltac:(lia)) as (_ & N2 & _). pose proof (fo_blocks _ _ _ _ _ _ _ _ Hf1) as Hbl1.
  destruct (write_blocks_run (S (Z.to_nat count)) e1 n f1 p k (bl ++ new) l1' pos count 0 buf) as (d & f2 & E2 & Hok2 & Hm2 & Ho2 & Hc2 & Hfr2 & Hb2);
    [apply Hf1|apply Hf1|apply Hf1|apply Hf1|lia|lia|lia|lia|lia|].
  pose proof (same_dev e1 d) as Hs2. assert (file_ok (set_dev d e1) n f2 p k (bl ++ new) l1' size') as Hf2.
  { destruct Hf1. split; try done. by apply (sg_owned _ _ _ _ _ _ Hs2). }
  assert (same_geometry e (set_dev d e1)) as Hs by (by etransitivity).
  destruct (finish_run (set_dev d e1) n f2 p ino k (bl ++ new) l1' size' Hf2 ltac:(by apply (sg_inode_no _ _ _ Hs))) as (l' & e3 & f3 & E3 & Hw & Hfr3).
  exists e3, f3, l', (bl ++ new), l1'.
  assert (forall c, data_block e n f2 c -> f3 c = f2 c) as Hfr3' by (intros c Hc; by apply Hfr3, (sg_data _ _ _ _ _ Hs)).
  pose proof (fo_owned _ _ _ _ _ _ _ _ Hf2) as Ho2'. split; [|split].
  - unfold ext2_vnode_write. cbv zeta. pose proof (fm_len _ _ _ _ (fo_map _ _ _ _ _ _ _ _ Hf)) as Hl.
    rewrite (bind_Ret _ _ _ _ _ (i_get_run e i_size_upper p l (fo_inode _ _ _ _ _ _ _ _ Hf) ltac:(done) Hl)), (fo_upper _ _ _ _ _ _ _ _ Hf). rewrite (bind_Ret _ _ e tt e) by done.
    rewrite (bind_Ret _ _ _ _ _ (i_get_run e i_size_lower p l (fo_inode _ _ _ _ _ _ _ _ Hf) ltac:(done) Hl)), (fo_size _ _ _ _ _ _ _ _ Hf).
    rewrite (proj2 (Z.ltb_ge size pos)) by lia. rewrite uwrap_small by lia. fold count. fold size'. rewrite (bind_Ret _ _ _ _ _ E1). change (negb (0 =? 0)) with false. cbn iota.
    rewrite (bind_Ret _ _ _ _ _ E2). cbn iota beta. rewrite (bind_Ret _ _ (set_dev d e1) (e_time e1) (set_dev d e1)) by done.
    rewrite (bind_Ret _ _ (set_dev d e1) (e_time e1) (set_dev d e1)) in E3 by done.
    revert E3. cbv [mbind cmd_mbind cbind]. destruct (i_put i_mtime p (e_time e1) (set_dev d e1)) as [[[] e2]| | |]; try done. intros ->. done.
  - split.
    + apply Hw.
    + etransitivity; [exact Hs|apply Hw].
    + rewrite (fw_inodes _ _ _ _ _ _ _ _ _ _ _ _ _ Hw), Ee. cbn. apply insert_insert_eq.
    + apply Hw.
    + intros ino' H1 H2. rewrite <- (sg_disk _ _ f3 _ Hs), (fw_others _ _ _ _ _ _ _ _ _ _ _ _ _ Hw) by first [done|by apply (sg_inode_no _ _ _ Hs)]. rewrite (sg_disk _ _ _ _ Hs).
      eapply disk_frame; [apply Hf|done|]. intros i j c Hc. rewrite Hfr2; [by eapply (ex_table _ _ _ _ _ _ _ _ _ _ _ _ Hx)|]. intros Hin.
      pose proof (ow_data _ _ _ _ _ Ho2) as Hd. rewrite list.Forall_forall in Hd. apply (meta_not_data e1 n f2 (MInodes i j) c); [by apply (sg_meta _ _ _ _ Hs1)|by apply Hd].
    + intros c Hc. destruct (foreign_kept _ _ _ _ _ _ _ _ _ _ _ _ c (fo_owned _ _ _ _ _ _ _ _ Hf) Hx Hc) as [Hfc Hc1].
      assert (foreign e n f2 (bl ++ new) l1' c) as Hc2'.
      { destruct Hc1 as [Hd Hni]. split; [|done]. eapply bits_data; [|exact Hd]. intros no Hno. rewrite <- !(sg_bit _ _ _ _ _ Hs1). apply Hb2. by apply (sg_numbers _ _ _ _ Hs1). }
      destruct (fw_foreign _ _ _ _ _ _ _ _ _ _ _ _ _ Hw c) as [Hf3c Hc3]; [split; [apply (sg_data _ _ _ _ _ Hs), Hc2'|apply Hc2']|].
      split; [|split; [apply (sg_data _ _ _ _ _ Hs), Hc3|apply Hc3]]. rewrite Hf3c, Hfr2; [done|]. destruct Hc1 as [_ Hni]. set_solver.
    + intros i Hi. rewrite <- (sg_bit _ _ f3 _ _ Hs), (fw_ibits _ _ _ _ _ _ _ _ _ _ _ _ _ Hw) by (by apply (sg_numbers _ _ _ _ Hs)). rewrite (sg_bit _ _ _ _ _ Hs).
      rewrite <- (sg_bit _ _ f2 _ _ Hs1), Hb2 by (by apply (sg_numbers _ _ _ _ Hs1)). rewrite (sg_bit _ _ _ _ _ Hs1). by apply (ex_bits _ _ _ _ _ _ _ _ _ _ _ _ Hx).
  - unfold file_bytes. rewrite (contents_ext f2 f3). 2:{ intros b Hb. apply Hfr3'. pose proof (ow_data _ _ _ _ _ Ho2) as Hd. rewrite list.Forall_forall in Hd. by apply (sg_data _ _ _ _ _ Hs1), Hd. }
    rewrite Hc2, (slice_all buf count) by done. rewrite (grown_contents _ _ _ _ _ _ _ _ _ _ _ _ (fo_owned _ _ _ _ _ _ _ _ Hf) Hx).
    pose proof (file_contents_length f bl (owned_lengths _ _ _ _ _ (fo_ok _ _ _ _ _ _ _ _ Hf) (fo_owned _ _ _ _ _ _ _ _ Hf))) as L1.
    pose proof (file_contents_length f1 (bl ++ new) (owned_lengths _ _ _ _ _ (fo_ok _ _ _ _ _ _ _ _ Hf1) (fo_owned _ _ _ _ _ _ _ _ Hf1))) as L2.
    rewrite (grown_contents _ _ _ _ _ _ _ _ _ _ _ _ (fo_owned _ _ _ _ _ _ _ _ Hf) Hx), length_app in L2.
    destruct (nblocks_spec size ltac:(lia)) as (_ & N3 & _). pose proof (fo_blocks _ _ _ _ _ _ _ _ Hf). apply take_splice_grow; lia.
Qed.

(** ** The whole of [ext2_vnode_read] *)
Lemma read_run e n f p l bl l1 size pos count : file_ok e n f p l bl l1 size -> 0 <= pos -> 0 <= count ->
  let got := Z.min count (Z.max 0 (size - pos)) in
  exists d, ext2_vnode_read p pos count e = Ret ((got, slice pos got (file_bytes f bl size), pos + got), set_dev d e) /\ file_ok (set_dev d e) n f p l bl l1 size.
Proof.
  intros Hf Hpos Hcount got. pose proof (size_of_file _ _ _ _ _ _ _ _ Hf) as Hsz. destruct Hf as [Hok Hm Ho Hp Hlen Hsize Hup Hbl]. pose proof (fm_len _ _ _ _ Hm) as Hl.
  assert (forall d, io_rep d n f -> file_ok (set_dev d e) n f p l bl l1 size) as Hfile.
  { intros d Hd. split; try done; [by apply ok_dev|by apply (sg_owned _ _ _ _ _ _ (same_dev e d))]. }
  unfold ext2_vnode_read. rewrite (bind_Ret _ _ _ _ _ (i_get_run e i_size_upper p l Hp ltac:(done) Hl)), Hup. rewrite (bind_Ret _ _ e tt e) by done.
  rewrite (bind_Ret _ _ _ _ _ (i_get_run e i_size_lower p l Hp ltac:(done) Hl)), Hsize. destruct (Z.leb_spec size pos) as [Hle|Hlt].
  - exists (e_dev e). assert (got = 0) as -> by lia. split; [|apply Hfile, Hok]. rewrite set_dev_id, Z.add_0_r. done.
  - assert (Z.min count (size - pos) = got) as -> by lia. destruct (nblocks_spec size ltac:(lia)) as (_ & N2 & _).
    destruct (read_blocks_run (S (Z.to_nat got)) e n f p l bl l1 pos got 0 [] Hok Hm Ho Hp) as (d & E & Hd); [lia|lia|lia|]. exists d. split; [|by apply Hfile].
    rewrite E, Z.add_0_l, app_nil_l. unfold file_bytes, slice. rewrite skipn_firstn_comm, take_take, Nat.min_l by lia. done.
Qed.
End rw.
