(* ===== verification/Ext2Spec.v ===== *)
(** * What ext2 promises: files, allocation, and a sample volume *)

From S2P Require Import Prelude Defs Bytes Vnode Vfs VfsOps Slab Ext2 Ext2Alloc Ext2File Ext2Data.

(** ** A device that is a disk image *)
Definition image_read (off n : Z) : cmd (list Z) (Z * list Z) := fun d => Ret ((n, slice off n d), d).
Definition image_write (off : Z) (l : list Z) : cmd (list Z) Z := fun d => Ret (Z.of_nat (length l), splice off l d).
Definition image_rep (d : list Z) (n : Z) (f : Z -> list Z) : Prop :=
  Z.of_nat (length d) = n * 1024 /\ forall b, 0 <= b < n -> f b = slice (b * 1024) 1024 d.

Lemma image_length d n f b : image_rep d n f -> 0 <= b < n -> length (f b) = 1024%nat.
Proof. intros [Hl Hf] Hb. rewrite Hf by done. rewrite length_slice; [done|lia|lia|lia]. Qed.

Lemma image_write_block d n f b l : image_rep d n f -> 0 <= b < n -> length l = 1024%nat -> image_rep (splice (b * 1024) l d) n (upd b l f).
Proof.
  intros [Hl Hf] Hb Hlen. split; [rewrite length_splice; lia|]. intros c Hc. destruct (decide (c = b)) as [->|Hne].
  - rewrite upd_eq. replace 1024 with (Z.of_nat (length l)) at 2 by lia. symmetry. apply slice_splice_eq; lia.
  - rewrite upd_ne, Hf by done. symmetry. apply slice_splice_ne; lia.
Qed.

#[export] Instance image_io : BlkIO (list Z) := {|
  io_read := image_read; io_write := image_write; io_rep := image_rep; io_length := image_length;
  io_read_block d n f b H Hb := ex_intro _ d (conj (f_equal (fun l => Ret ((1024, l), d)) (eq_sym (proj2 H b Hb))) H);
  io_write_block d n f b l H Hb Hl := ex_intro _ _ (conj (f_equal (fun k => Ret (k, splice (b * 1024) l d)) (f_equal Z.of_nat Hl)) (image_write_block d n f b l H Hb Hl));
|}.

(** ** Claims *)
Section claims.
Context {D : Type} `{BlkIO D}.
Implicit Types e : ext2 D.

(** Two files share no block. *)
Definition separate (bl bl2 : list Z) (l1 m1 : Z) : Prop := forall c, c ∈ m1 :: bl2 -> c <> 0 -> c ∉ l1 :: bl.

Lemma file_elsewhere e e' n f f' p p2 ino l' bl bl' l1 l1' size' l2 bl2 m2 size2 : file_written e e' n f f' p ino l' bl bl' l1 l1' size' -> p2 <> p ->
  file_ok e n f p2 l2 bl2 m2 size2 -> separate bl bl2 l1 m2 -> file_ok e' n f' p2 l2 bl2 m2 size2 /\ file_bytes f' bl2 size2 = file_bytes f bl2 size2.
Proof.
  intros Hw Hp [Hok Hm Ho Hpi Hlen Hsize Hup Hbl] Hsep. pose proof (fw_geo _ _ _ _ _ _ _ _ _ _ _ _ _ Hw) as Hs.
  assert (forall c, c ∈ m2 :: bl2 -> c <> 0 -> f' c = f c /\ data_block e n f' c) as Hc.
  { intros c Hc H0. destruct (fw_foreign _ _ _ _ _ _ _ _ _ _ _ _ _ Hw c) as [E [Hd _]]; [|done]. split; [|by apply Hsep].
    apply elem_of_cons in Hc as [->|Hc]; [by apply (ow_l1 _ _ _ _ _ Ho)|]. pose proof (ow_data _ _ _ _ _ Ho) as Hd. rewrite list.Forall_forall in Hd. by apply Hd. }
  assert (forall c, c ∈ bl2 -> c <> 0) as Hnz.
  { intros c Hin. pose proof (ow_data _ _ _ _ _ Ho) as Hd. rewrite list.Forall_forall in Hd. pose proof (data_pos _ _ _ _ (Hd c Hin)). lia. }
  split; [split|].
  - apply Hw.
  - eapply map_keep; [exact Hm|done|done|]. intros H0. apply Hc; [by left|done].
  - apply (sg_owned _ _ _ _ _ _ Hs). destruct Ho as [H1 H2 H3]. split; [done| |intros H0; apply Hc; [by left|done]].
    apply list.Forall_forall. intros c Hin. apply Hc; [by right|by apply Hnz].
  - rewrite (fw_inodes _ _ _ _ _ _ _ _ _ _ _ _ _ Hw), lookup_insert_ne by done. done.
  - by rewrite (sg_isz _ _ Hs).
  - done.
  - done.
  - done.
  - unfold file_bytes. f_equal. apply contents_ext. intros b Hb. apply Hc; [by right|by apply Hnz].
Qed.

(** C15: Writing inside a file or at its end returns the length written and leaves a
    well-formed file whose bytes are the old ones with the written range replaced and
    which has grown exactly as far as needed; its inode is on the device, and no other
    inode and no file that shares no block with it has changed. *)
Theorem ext2_write_contents stack e n f p ino pos buf l bl l1 size :
  length stack = 1024%nat -> file_ok e n f p l bl l1 size -> inode_no e ino -> 0 <= pos <= size ->
  nblocks (Z.max (pos + Z.of_nat (length buf)) size) <= 268 ->
  grow_cost (length bl) (Z.to_nat (nblocks (Z.max (pos + Z.of_nat (length buf)) size)) - length bl) <= sbv e sb_free_blocks ->
  exists e' f' l' bl' l1', ext2_vnode_write stack p ino pos buf e = Ret ((Z.of_nat (length buf), pos + Z.of_nat (length buf)), e') /\
    file_ok e' n f' p l' bl' l1' (Z.max (pos + Z.of_nat (length buf)) size) /\
    file_bytes f' bl' (Z.max (pos + Z.of_nat (length buf)) size) = splice pos buf (file_bytes f bl size) /\
    disk_inode e' f' ino = l' /\ (forall ino', inode_no e ino' -> ino' <> ino -> disk_inode e' f' ino' = disk_inode e f ino') /\
    (forall p2 l2 bl2 m2 size2, p2 <> p -> file_ok e n f p2 l2 bl2 m2 size2 -> separate bl bl2 l1 m2 ->
      file_ok e' n f' p2 l2 bl2 m2 size2 /\ file_bytes f' bl2 size2 = file_bytes f bl2 size2).
Proof.
  intros Hst Hf Hino Hpos Hnb Hcost. destruct (write_run stack e n f p ino pos buf l bl l1 size Hst Hf Hino Hpos Hnb Hcost) as (e' & f' & l' & bl' & l1' & E & Hw & Hb).
  exists e', f', l', bl', l1'. split; [done|]. split; [apply Hw|]. split; [done|]. split; [apply Hw|]. split.
  - intros ino' H1 H2. rewrite (sg_disk _ _ _ _ (fw_geo _ _ _ _ _ _ _ _ _ _ _ _ _ Hw)). by apply (fw_others _ _ _ _ _ _ _ _ _ _ _ _ _ Hw).
  - intros p2 l2 bl2 m2 size2 Hp2 Hf2 Hsep. by eapply file_elsewhere.
Qed.

(** Reading returns the bytes of the file from the position on, as many as asked
    for or as there are, and moves the position past them; nothing changes. *)
Theorem ext2_read_contents e n f p l bl l1 size pos count : file_ok e n f p l bl l1 size -> 0 <= pos -> 0 <= count ->
  let got := Z.min count (Z.max 0 (size - pos)) in
  exists d, ext2_vnode_read p pos count e = Ret ((got, slice pos got (file_bytes f bl size), pos + got), set_dev d e) /\ file_ok (set_dev d e) n f p l bl l1 size.
Proof. apply read_run. Qed.
End claims.

Section alloc_claims.
Context {D : Type} `{BlkIO D}.
Implicit Types e : ext2 D.

(** Allocating a block panics only when every block is taken; otherwise it takes a
    block that was free, is no metadata and lies on the device, touches no data block,
    keeps the volume consistent, and releasing the block restores every bit and every
    counter. *)
Theorem ext2_alloc_free_block stack e n f : length stack = 1024%nat -> e2_ok e n f ->
  ((forall b, numbers e Blocks b -> taken e f Blocks b) /\ ext2_alloc_block stack e = Panic) \/
  exists b e1 f1, ext2_alloc_block stack e = Ret (b, e1) /\ free_block e f b /\ data_block e1 n f1 b /\ e2_ok e1 n f1 /\
    (forall c, data_block e n f c -> f1 c = f c /\ data_block e1 n f1 c) /\ sbv e1 sb_free_blocks = sbv e sb_free_blocks - 1 /\
    exists e2 f2, ext2_free_block b e1 = Ret (tt, e2) /\ e2_ok e2 n f2 /\ (forall r no, numbers e r no -> bit_of e2 f2 r no = bit_of e f r no) /\
      forall r, sbv e2 (r_total r) = sbv e (r_total r).
Proof.
  intros Hst Hok. destruct (alloc_block_run stack Hst e n f Hok) as [[Hall E]|(b & e1 & f1 & E & Hnum & Hbit & Hbn & Hb0 & Hc)]; [by left|right].
  pose proof (bc_geo _ _ _ _ _ _ _ _ Hc) as Hs. pose proof (bc_total _ _ _ _ _ _ _ _ Hc) as Ht.
  assert (forall m, ~ meta_at e m b) as Hmeta by (intros m Hm; destruct (ok_meta _ _ _ Hok m b Hm) as [_ ?]; congruence).
  assert (data_block e n f1 b) as Hd. { split; [|done]. split; [done|]. rewrite (bc_bits _ _ _ _ _ _ _ _ Hc) by done. by rewrite decide_True. }
  exists b, e1, f1. split; [done|]. split; [done|]. split; [by apply (sg_data _ _ _ _ _ Hs)|]. split; [apply Hc|]. split; [|split].
  - intros c Hcd. split; [by apply (bc_frame _ _ _ _ _ _ _ _ Hc), Hcd|]. apply (sg_data _ _ _ _ _ Hs). destruct Hcd as ((Hn & Hb) & H1 & H2). split; [|done]. split; [done|].
    rewrite (bc_bits _ _ _ _ _ _ _ _ Hc) by done. by case_decide.
  - change sb_free_blocks with (r_total Blocks). by rewrite Ht, decide_True.
  - apply (sg_data _ _ _ _ _ Hs) in Hd. destruct (free_bit_run e1 n f1 Blocks false b (bc_ok _ _ _ _ _ _ _ _ Hc) (proj1 Hd)) as (e2 & f2 & E2 & Hc2); [intros _; apply Hd|].
    exists e2, f2. split; [exact E2|]. split; [apply Hc2|]. split.
    + intros r no Hno. rewrite (sg_bit _ _ _ _ _ (bc_geo _ _ _ _ _ _ _ _ Hc2)), (bc_bits _ _ _ _ _ _ _ _ Hc2) by (by apply (sg_numbers _ _ _ _ Hs)).
      rewrite (sg_bit _ _ _ _ _ Hs), (bc_bits _ _ _ _ _ _ _ _ Hc) by done. case_decide as Ed; [|done]. by destruct Ed as [-> ->].
    + intros r. rewrite (bc_total _ _ _ _ _ _ _ _ Hc2), Ht. case_decide; lia.
Qed.

(** An inode written to the device and read back is the inode that was in memory,
    with its time of access set, and all other inodes are untouched. *)
Theorem ext2_inode_roundtrip e n f p q ino l old : e2_ok e n f -> inode_no e ino -> e_inodes e !! p = Some l -> Z.of_nat (length l) = e_inode_size e -> e_inodes e !! q = Some old -> q <> p ->
  exists e1 e2 f1 l', ext2_write_inode p ino e = Ret (0, e1) /\ ext2_read_inode q ino e1 = Ret (0, e2) /\ e2_ok e2 n f1 /\
    e_inodes e2 !! q = Some l' /\ e_inodes e2 !! p = Some l' /\ iv l' i_atime = u32 (e_time e) /\ (forall g, apart i_atime g -> iv l' g = iv l g) /\
    forall ino', inode_no e ino' -> ino' <> ino -> disk_inode e2 f1 ino' = disk_inode e f ino'.
Proof.
  intros Hok Hino Hp Hl Hq Hqp. destruct (write_inode_run e n f p ino l Hok Hino Hp Hl) as (l' & e1 & f1 & E1 & Hw & _). pose proof (iw_geo _ _ _ _ _ _ _ _ _ Hw) as Hs.
  destruct (read_inode_run e1 n f1 q ino old (iw_ok _ _ _ _ _ _ _ _ _ Hw)) as (d & E2 & Hd);
    [by apply (sg_inode_no _ _ _ Hs)|rewrite (iw_inodes _ _ _ _ _ _ _ _ _ Hw); by rewrite lookup_insert_ne|].
  eexists e1, _, f1, l'. split; [done|]. split; [exact E2|]. assert (disk_inode e1 f1 ino = l') as Ed by (rewrite (sg_disk _ _ _ _ Hs); apply Hw).
  split; [apply (ok_dev (set_inodes _ e1)); [apply ok_inodes, Hw|done]|]. cbn. rewrite Ed. split; [apply lookup_insert_eq|].
  split; [rewrite lookup_insert_ne by done; rewrite (iw_inodes _ _ _ _ _ _ _ _ _ Hw); apply lookup_insert_eq|]. split; [apply Hw|]. split; [apply Hw|].
  intros ino' H1 H2. etransitivity; [|apply (iw_other _ _ _ _ _ _ _ _ _ Hw ino' H1 H2)]. exact (sg_disk e e1 f1 ino' Hs).
Qed.
End alloc_claims.

(** ** A sample volume

    One group of 31 blocks and 8 inodes: superblock, descriptors, the two bitmaps and
    the inode table in blocks 1 to 5; inode 2, the root, has block 6 and inode 5, a file
    of 1030 bytes, has blocks 7 and 8. *)
Definition pokes (l : list (field * Z)) (b : list Z) : list Z := foldl (fun b fx => default b (poke (f_width fx.1) (f_off fx.1) fx.2 b)) b l.
Definition sample_sb : list Z := pokes [(sb_inode_count, 8); (sb_block_count, 32); (sb_free_blocks, 23); (sb_free_inodes, 3); (sb_block_group_blocks, 31);
  (sb_block_group_inodes, 8); (sb_signature, EXT2_SIGNATURE); (sb_version_major, 1); (sb_inode_size, 128); (sb_required_features, 2)] (replicate 1024 0).
Definition sample_bgdt : list Z := pokes [(bgd_block_bitmap, 3); (bgd_inode_bitmap, 4); (bgd_inode_table, 5); (bgd_free_blocks, 23); (bgd_free_inodes, 3);
  (bgd_directory_count, 1)] (replicate 1024 0).
Definition sample_root : list Z := pokes [(i_mode, 0x41ED); (i_size_lower, 1024); (i_hard_links, 2); (i_sector_count, 2); (i_direct 0, 6)] (replicate 128 0).
Definition sample_file : list Z := pokes [(i_mode, 0x81A4); (i_size_lower, 1030); (i_hard_links, 1); (i_sector_count, 4); (i_direct 0, 7); (i_direct 1, 8)] (replicate 128 0).
(** Entries [.], [..] and [f] of the root directory. *)
Definition sample_dir : list Z := [2; 0; 0; 0; 12; 0; 1; 2; 46; 0; 0; 0;  2; 0; 0; 0; 12; 0; 2; 2; 46; 46; 0; 0;  5; 0; 0; 0; 232; 3; 1; 1; 102] ++ replicate 991 0.
Definition sample_block (b : Z) : list Z :=
  if b =? 1 then sample_sb else if b =? 2 then sample_bgdt else
  if b =? 3 then [255] ++ replicate 1023 0 else if b =? 4 then [31] ++ replicate 1023 0 else
  if b =? 5 then replicate 128 0 ++ sample_root ++ replicate 256 0 ++ sample_file ++ replicate 384 0 else
  if b =? 6 then sample_dir else
  if b =? 7 then replicate 1024 65 else if b =? 8 then replicate 6 66 ++ replicate 1018 0 else replicate 1024 0.
Definition sample_image : list Z := concat (sample_block <$> (Z.of_nat <$> seq 0 32)).
Definition sample_ext2 {D} (d : D) : ext2 D := mk_ext2 D d sample_sb sample_bgdt 1024 128 8 1 1000 {[100 := sample_file; 200 := sample_root; 300 := replicate 128 0]}.

Lemma sample_image_rep : image_rep sample_image 32 sample_block.
Proof.
  split; [vm_compute; reflexivity|].
  assert (forallb (fun b => bool_decide (sample_block b = slice (b * 1024) 1024 sample_image)) (Z.of_nat <$> seq 0 32) = true) as Hall by (vm_compute; reflexivity).
  rewrite forallb_forall in Hall. intros b Hb. apply (bool_decide_eq_true_1 (sample_block b = slice (b * 1024) 1024 sample_image)), Hall.
  apply list_elem_of_In, list_elem_of_fmap. exists (Z.to_nat b). split; [lia|]. apply elem_of_seq. lia.
Qed.

Section sample.
Context {D : Type} `{BlkIO D} (d : D).
#[local] Abbreviation e := (sample_ext2 d).

Definition sample_role (b : Z) : meta :=
  if b =? 1 then MSuper else if b =? 2 then MTable 0 else if b =? 3 then MBitmap Blocks 0 else if b =? 4 then MBitmap Inodes 0 else MInodes 0 0.

Lemma sample_meta m b : meta_at e m b -> 1 <= b <= 5 /\ m = sample_role b.
Proof.
  assert (bgdt_blocks e = 1) as E1 by (vm_compute; reflexivity). assert (table_blocks e = 1) as E2 by (vm_compute; reflexivity).
  assert (bitmap_no e Blocks 0 = 3) as E3 by (vm_compute; reflexivity). assert (bitmap_no e Inodes 0 = 4) as E4 by (vm_compute; reflexivity).
  assert (bgv e bgd_inode_table 0 = 5) as E5 by (vm_compute; reflexivity). destruct m as [|k|r i|i k]; cbn [meta_at bgdt_entry_count sample_ext2].
  - intros ->. split; [lia|reflexivity].
  - rewrite E1. intros [Hk ->]. assert (k = 0) as -> by lia. split; [lia|reflexivity].
  - intros [Hi ->]. assert (i = 0) as -> by lia. destruct r; rewrite ?E3, ?E4; (split; [lia|reflexivity]).
  - rewrite E2. intros (Hi & Hk & ->). assert (i = 0) as -> by lia. assert (k = 0) as -> by lia. rewrite E5. split; [lia|reflexivity].
Qed.

Lemma sample_numbers b : numbers e Blocks b <-> 1 <= b <= 31.
Proof. unfold numbers. assert (bgdt_entry_count e * per e Blocks = 31) as -> by (vm_compute; reflexivity). reflexivity. Qed.

Lemma sample_bit b : 1 <= b <= 8 -> bit_of e sample_block Blocks b = Some true.
Proof.
  intros Hb. assert (b = 1 \/ b = 2 \/ b = 3 \/ b = 4 \/ b = 5 \/ b = 6 \/ b = 7 \/ b = 8) as Hc by lia. clear Hb. repeat destruct Hc as [->|Hc]; [vm_compute; reflexivity..|].
  subst b. vm_compute. reflexivity.
Qed.

Lemma sample_geometry : geometry e 32.
Proof.
  assert (bgdt_entry_count e * per e Blocks = 31) as P3 by (vm_compute; reflexivity). split.
  - reflexivity.
  - vm_compute. reflexivity.
  - reflexivity.
  - vm_compute. reflexivity.
  - lia.
  - intros [|]; vm_compute; repeat split; discriminate.
  - cbn. lia.
  - reflexivity.
  - vm_compute. reflexivity.
  - intros m b [Hb _]%sample_meta. rewrite P3. clear P3. lia.
  - intros m m' b [_ ->]%sample_meta [_ ->]%sample_meta. reflexivity.
Qed.

Lemma sample_ok : io_rep d 32 sample_block -> e2_ok e 32 sample_block.
Proof.
  intros Hd. split.
  - exact Hd.
  - exact sample_geometry.
  - reflexivity.
  - assert (bgdt_blocks e = 1) as -> by (vm_compute; reflexivity). intros k Hk. assert (k = 0) as -> by lia. vm_compute. reflexivity.
  - intros r i Hi. cbn in Hi. assert (i = 0) as -> by lia. destruct r; vm_compute; reflexivity.
  - intros r. destruct r; vm_compute; reflexivity.
  - intros m b [Hb _]%sample_meta. split; [apply sample_numbers; lia|apply sample_bit; lia].
  - intros b Hb _. pose proof (proj1 (sample_numbers b) Hb) as Hb1. clear Hb. lia.
Qed.

Lemma sample_data b : 6 <= b <= 8 -> data_block e 32 sample_block b.
Proof.
  intros Hb. split; [split; [apply sample_numbers; lia|apply sample_bit; lia]|]. split; [lia|]. intros m [Hm _]%sample_meta. lia.
Qed.

Lemma sample_file_ok : io_rep d 32 sample_block -> file_ok e 32 sample_block 100 sample_file [7; 8] 0 1030.
Proof.
  intros Hd. split.
  - by apply sample_ok.
  - split.
    + vm_compute. lia.
    + cbn. lia.
    + intros k b _ Hk. destruct k as [|[|k]]; cbn in Hk; simplify_eq; vm_compute; reflexivity.
    + vm_compute. reflexivity.
    + done.
    + cbn. lia.
    + intros k b Hk Hb. apply lookup_lt_Some in Hb. cbn in Hb. lia.
  - split; [by apply (bool_decide_unpack (NoDup [0; 7; 8]))|repeat constructor; apply sample_data; lia|done].
  - reflexivity.
  - vm_compute. reflexivity.
  - vm_compute. reflexivity.
  - vm_compute. reflexivity.
  - vm_compute. reflexivity.
Qed.

Lemma sample_inode_no ino : 1 <= ino < 8 -> inode_no e ino.
Proof. intros Hi. unfold inode_no. assert (bgdt_entry_count e * per e Inodes = 8) as -> by (vm_compute; reflexivity). exact Hi. Qed.
Lemma sample_free : sbv e sb_free_blocks = 23.
Proof. vm_compute. reflexivity. Qed.

Lemma sample_root_ok : io_rep d 32 sample_block -> file_ok e 32 sample_block 200 sample_root [6] 0 1024.
Proof.
  intros Hd. split.
  - by apply sample_ok.
  - split.
    + vm_compute. lia.
    + cbn. lia.
    + intros k b _ Hk. destruct k as [|k]; cbn in Hk; simplify_eq. vm_compute. reflexivity.
    + vm_compute. reflexivity.
    + done.
    + cbn. lia.
    + intros k b Hk Hb. apply lookup_lt_Some in Hb. cbn in Hb. lia.
  - split; [by apply (bool_decide_unpack (NoDup [0; 6]))|repeat constructor; apply sample_data; lia|done].
  - reflexivity.
  - vm_compute. reflexivity.
  - vm_compute. reflexivity.
  - vm_compute. reflexivity.
  - vm_compute. reflexivity.
Qed.
End sample.

Abbreviation sample_volume := (sample_ext2 sample_image).
Definition sample_stack : list Z := replicate 1024 170.

Lemma ext2_write_contents_witness : exists e', ext2_vnode_write sample_stack 100 5 1028 [1; 2; 3; 4] sample_volume = Ret ((4, 1032), e').
Proof.
  destruct (ext2_write_contents sample_stack sample_volume 32 sample_block 100 5 1028 [1; 2; 3; 4] sample_file [7; 8] 0 1030) as (e' & f' & l' & bl' & l1' & E & _);
    [reflexivity|apply sample_file_ok, sample_image_rep|vm_compute; split; [discriminate|reflexivity]|lia|vm_compute; discriminate|vm_compute; discriminate|].
  exists e'. exact E.
Defined.

Lemma ext2_read_contents_witness : exists d, ext2_vnode_read 100 1020 8 sample_volume = Ret ((8, [65; 65; 65; 65; 66; 66; 66; 66], 1028), set_dev d sample_volume).
Proof.
  destruct (ext2_read_contents sample_volume 32 sample_block 100 sample_file [7; 8] 0 1030 1020 8) as (d & E & _); [apply sample_file_ok, sample_image_rep|lia|lia|].
  exists d. exact E.
Defined.

Lemma ext2_alloc_free_block_witness : exists b e1 e2 f2, ext2_alloc_block sample_stack sample_volume = Ret (b, e1) /\ ext2_free_block b e1 = Ret (tt, e2) /\ e2_ok e2 32 f2.
Proof.
  destruct (ext2_alloc_free_block sample_stack sample_volume 32 sample_block) as [[Hall _]|(b & e1 & f1 & E & _ & _ & _ & _ & _ & e2 & f2 & E2 & Hok & _)];
    [reflexivity|apply sample_ok, sample_image_rep| |exists b, e1, e2, f2; exact (conj E (conj E2 Hok))].
  destruct (Hall 9) as [_ Hbit]; [vm_compute; split; discriminate|]. vm_compute in Hbit. discriminate.
Defined.

Lemma ext2_inode_roundtrip_witness : exists e1 e2, ext2_write_inode 100 5 sample_volume = Ret (0, e1) /\ ext2_read_inode 300 5 e1 = Ret (0, e2).
Proof.
  destruct (ext2_inode_roundtrip sample_volume 32 sample_block 100 300 5 sample_file (replicate 128 0)) as (e1 & e2 & f1 & l' & E1 & E2 & _);
    [apply sample_ok, sample_image_rep|vm_compute; split; [discriminate|reflexivity]|reflexivity|vm_compute; reflexivity|reflexivity|discriminate|exists e1, e2; exact (conj E1 E2)].
Defined.

(** ** What the code gets wrong

    Shrinking a file of 14 blocks to 13 releases the block of pointers, although the
    thirteenth block is reached through it: the file has 13312 bytes and reading its
    last block panics. *)
Definition returned {S A} (r : outcome (A * S)) : option A := match r with Ret (a, _) => Some a | _ => None end.
Definition shrink_sample : cmd (ext2 (list Z)) (Z * Z * Z) :=
  '(n, _) ← ext2_vnode_write sample_stack 100 5 1030 (replicate 13306 1); r ← ext2_vnode_truncate sample_stack VN_REG 100 5 13312; size ← i_get i_size_lower 100; mret (n, r, size).

Theorem truncate_loses_blocks : returned (shrink_sample sample_volume) = Some (13306, 0, 13312) /\ (shrink_sample;; ext2_vnode_read 100 12288 1) sample_volume = Panic.
Proof. split; vm_compute; reflexivity. Qed.

(** Inodes are numbered from 1 to their count, but the last one is refused. *)
Theorem last_inode_refused {D} `{BlkIO D} (e : ext2 D) n f p : e2_ok e n f ->
  numbers e Inodes (bgdt_entry_count e * per e Inodes) /\ ext2_read_inode p (bgdt_entry_count e * per e Inodes) e = Panic.
Proof.
  intros Hok. pose proof (ok_geo _ _ _ Hok) as Hg. destruct (g_per _ _ Hg Inodes) as [Hp _]. pose proof (g_groups _ _ Hg). split; [split; nia|].
  unfold ext2_read_inode, inode_place. cbv [mbind cmd_mbind cbind]. rewrite (sb_get_run e n sb_inode_count Hg) by (split; cbn; lia). rewrite (g_ic _ _ Hg).
  rewrite (proj2 (Z.leb_le _ _)) by lia. by rewrite orb_true_r.
Qed.
