(* ===== verification/Strings.v ===== *)
(** * Strings and memory: [sys/string.c], [sys/ctype.c]

    A pointer into an object of memory is the list of the bytes from there to the end
    of the object; an access past the end is [None].  [memcpy] and [memmove] work on one
    object and take offsets in it, so that source and destination may overlap. *)

From S2P Require Import Prelude Defs Bytes.

(** ** [sys/ctype.c] *)
Definition isprint (x : Z) : bool := (32 <=? x) && (x <? 255).
Definition islower (x : Z) : bool := (97 <=? x) && (x <=? 122).
Definition isupper (x : Z) : bool := (65 <=? x) && (x <=? 90).
Definition isspace (x : Z) : bool := (x =? 32) || (x =? 10) || (x =? 9).
Definition isdigit (x : Z) : bool := (48 <=? x) && (x <=? 57).
Definition isxdigit (x : Z) : bool := ((48 <=? x) && (x <=? 57)) || ((65 <=? x) && (x <=? 70)) || ((97 <=? x) && (x <=? 102)).
Definition toupper (x : Z) : Z := if islower x then x - 97 + 65 else x.
Definition tolower (x : Z) : Z := if isupper x then x - 65 + 97 else x.

(** ** [sys/string.c] *)
Fixpoint atoi_from (res : Z) (str : list Z) : option Z :=
  match str with
  | [] => None
  | c :: str => if isdigit c then atoi_from (i32 (i32 (res * 10) + (c - 48))) str else Some res
  end.
Definition atoi (str : list Z) : option Z := atoi_from 0 str.

Fixpoint strlen (a : list Z) : option Z :=
  match a with
  | [] => None
  | c :: a => if c =? 0 then Some 0 else (fun s => s + 1) <$> strlen a
  end.

Fixpoint strncmp (a b : list Z) (n : Z) : option Z :=
  if n =? 0 then Some 0 else
  match a, b with
  | x :: a, y :: b => if (x =? 0) && (y =? 0) then Some 0 else if x =? y then strncmp a b (n - 1) else Some (-1)
  | _, _ => None
  end.

Fixpoint strcmp_from (a b : list Z) : option Z :=
  match a, b with
  | x :: a, y :: b => if (x =? 0) && (y =? 0) then Some 0 else if x =? y then strcmp_from a b else Some 1
  | _, _ => None
  end.
(** [same]: the two pointers are equal; a [None] argument is NULL. *)
Definition strcmp (same : bool) (a b : option (list Z)) : option Z :=
  if same then Some 0 else match a, b with Some a, Some b => strcmp_from a b | _, _ => Some (-1) end.

(** The destination afterwards. *)
Fixpoint strcpy (dst src : list Z) : option (list Z) :=
  match dst, src with
  | _ :: dst, c :: src => if c =? 0 then Some (0 :: dst) else cons c <$> strcpy dst src
  | _, _ => None
  end.

Fixpoint strncpy (dst src : list Z) (lim : Z) : option (list Z) :=
  if lim =? 0 then Some dst else
  match dst, src with
  | _ :: dst, c :: src => if c =? 0 then Some (0 :: dst) else cons c <$> strncpy dst src (lim - 1)
  | _, _ => None
  end.

Definition strcat (dst src : list Z) : option (list Z) :=
  l ← strlen dst; app (take (Z.to_nat l) dst) <$> strcpy (drop (Z.to_nat l) dst) src.

Definition strncat (dst src : list Z) (lim : Z) : option (list Z) :=
  l ← strlen dst;
  if l <? lim then Some dst else app (take (Z.to_nat l) dst) <$> strncpy (drop (Z.to_nat l) dst) src (u64 (lim - l)).

(** The index of the byte found; [Some None] is NULL. *)
Fixpoint strchr (s : list Z) (c : Z) : option (option Z) :=
  match s with
  | [] => None
  | x :: s => if x =? 0 then Some None else if x =? u8 c then Some (Some 0) else k ← strchr s c; Some (option_map (Z.add 1) k)
  end.

Fixpoint strrchr_from (l : nat) (s : list Z) (c : Z) : option (option Z) :=
  x ← s !! l;
  if x =? u8 c then Some (Some (Z.of_nat l)) else match l with O => Some None | S l => strrchr_from l s c end.
Definition strrchr (s : list Z) (c : Z) : option (option Z) :=
  l ← strlen s; if l =? 0 then Some None else strrchr_from (Z.to_nat l) s c.

Fixpoint memchr (a : list Z) (v c : Z) : option (option Z) :=
  if c =? 0 then Some None else
  match a with
  | [] => None
  | x :: a => if i8 x =? v then Some (Some 0) else k ← memchr a v (c - 1); Some (option_map (Z.add 1) k)
  end.

Fixpoint memcmp (l r : list Z) (n : Z) : option Z :=
  if n =? 0 then Some 0 else
  match l, r with
  | x :: l, y :: r => if x =? y then memcmp l r (n - 1) else Some (i8 x - i8 y)
  | _, _ => None
  end.

(** [w] bytes are loaded from [s] and stored at [d]. *)
Definition move (w d s : Z) (m : list Z) : option (list Z) :=
  if (0 <=? s) && (s + w <=? Z.of_nat (length m)) && (0 <=? d) && (d + w <=? Z.of_nat (length m)) then Some (splice d (slice s w m) m) else None.

Fixpoint memcpy_loop (n : nat) (d s : Z) (m : list Z) : option (list Z) :=
  match n with O => Some m | S n => m ← move 1 d s m; memcpy_loop n (d + 1) (s + 1) m end.
Definition memcpy (d s n : Z) (m : list Z) : option (list Z) := memcpy_loop (Z.to_nat n) d s m.

(** The loops of [memmove]: bytes up to an aligned destination ([None] for [n] when the
    function returns there), words, and the remaining bytes. *)
Section memmove.
Context (base : Z).

Fixpoint align_forward (fuel : nat) (d s n : Z) (m : list Z) : option (Z * Z * option Z * list Z) :=
  match fuel with
  | O => None
  | S fuel =>
      if (base + d) mod 8 =? 0 then Some (d, s, Some n, m) else
      if n =? 0 then Some (d, s, None, m) else
      m ← move 1 d s m; align_forward fuel (d + 1) (s + 1) (n - 1) m
  end.
Fixpoint words_forward (fuel : nat) (d s n : Z) (m : list Z) : option (Z * Z * Z * list Z) :=
  match fuel with
  | O => None
  | S fuel => if 8 <=? n then m ← move 8 d s m; words_forward fuel (d + 8) (s + 8) (n - 8) m else Some (d, s, n, m)
  end.
Fixpoint align_backward (fuel : nat) (d s n : Z) (m : list Z) : option (option Z * list Z) :=
  match fuel with
  | O => None
  | S fuel =>
      if (base + d + n) mod 8 =? 0 then Some (Some n, m) else
      if n =? 0 then Some (None, m) else
      let n := n - 1 in m ← move 1 (d + n) (s + n) m; align_backward fuel d s n m
  end.
Fixpoint words_backward (fuel : nat) (d s n : Z) (m : list Z) : option (Z * list Z) :=
  match fuel with
  | O => None
  | S fuel => if 8 <=? n then let n := n - 8 in m ← move 8 (d + n) (s + n) m; words_backward fuel d s n m else Some (n, m)
  end.
Fixpoint bytes_backward (n : nat) (d s : Z) (m : list Z) : option (list Z) :=
  match n with O => Some m | S n => m ← move 1 (d + Z.of_nat n) (s + Z.of_nat n) m; bytes_backward n d s m end.

(** The object starts at address [base]. *)
Definition memmove (d s n : Z) (m : list Z) : option (list Z) :=
  if d =? s then Some m else
  if (s + n <=? d) || (d + n <=? s) then memcpy d s n m else
  let same := (base + s) mod 8 =? (base + d) mod 8 in
  if d <? s then
    if same then
      '(d, s, on, m) ← align_forward (S (Z.to_nat n)) d s n m;
      match on with
      | None => Some m
      | Some n => '(d, s, n, m) ← words_forward (S (Z.to_nat n)) d s n m; memcpy_loop (Z.to_nat n) d s m
      end
    else memcpy_loop (Z.to_nat n) d s m
  else
    if same then
      '(on, m) ← align_backward (S (Z.to_nat n)) d s n m;
      match on with
      | None => Some m
      | Some n => '(n, m) ← words_backward (S (Z.to_nat n)) d s n m; bytes_backward (Z.to_nat n) d s m
      end
    else bytes_backward (Z.to_nat n) d s m.
End memmove.

(** [memset], and [memsetw], [memsetl], [memsetq] with [w] bytes per element. *)
Fixpoint memset_elems (w : nat) (n : nat) (off v : Z) (m : list Z) : option (list Z) :=
  match n with O => Some m | S n => m ← poke w off v m; memset_elems w n (off + Z.of_nat w) v m end.
Definition memset (blk v sz : Z) (m : list Z) : option (list Z) := memset_elems 1 (Z.to_nat sz) blk v m.
Definition memsetw (blk v sz : Z) (m : list Z) : option (list Z) := memset_elems 2 (Z.to_nat sz) blk v m.
Definition memsetl (blk v sz : Z) (m : list Z) : option (list Z) := memset_elems 4 (Z.to_nat sz) blk v m.
Definition memsetq (blk v sz : Z) (m : list Z) : option (list Z) := memset_elems 8 (Z.to_nat sz) blk v m.

(** ** Moving bytes *)
(** After [k] bytes from the front: [splice d (slice s k m) m]. *)
Lemma move_forward d s k w m : d < s \/ s + k + w <= d -> 0 <= d -> 0 <= s -> 0 <= k -> 0 <= w -> s + k + w <= Z.of_nat (length m) -> d + k + w <= Z.of_nat (length m) ->
  move w (d + k) (s + k) (splice d (slice s k m) m) = Some (splice d (slice s (k + w) m) m).
Proof.
  intros Hds Hd Hs Hk Hw Hl Hl'. assert (length (slice s k m) = Z.to_nat k) as Hls by (apply length_slice; lia).
  assert (length (splice d (slice s k m) m) = length m) as Hlm by (apply length_splice; lia). unfold move. rewrite Hlm, !(proj2 (Z.leb_le _ _)) by lia. cbn [andb].
  rewrite slice_splice_ne by lia. assert (length (slice (s + k) w m) = Z.to_nat w) as Hlw by (apply length_slice; lia).
  replace (d + k) with (d + Z.of_nat (length (slice s k m))) by lia. rewrite splice_app by lia. by rewrite slice_app by lia.
Qed.

(** After the last [k] of [n] bytes. *)
Lemma splice_back d b1 b2 m : 0 <= d -> d + Z.of_nat (length b1) + Z.of_nat (length b2) <= Z.of_nat (length m) ->
  splice d b1 (splice (d + Z.of_nat (length b1)) b2 m) = splice d (b1 ++ b2) m.
Proof.
  intros Hd Hl. apply list_eq. intros i. rewrite !lookup_splice; rewrite ?length_splice, ?length_app; try lia. repeat case_decide; try lia.
  - by rewrite lookup_app_l by lia.
  - rewrite lookup_app_r by lia. f_equal. lia.
  - done.
Qed.

Lemma move_backward d s n k w m : s < d -> 0 <= s -> 0 <= w -> 0 <= k - w -> k <= n -> d + n <= Z.of_nat (length m) ->
  move w (d + (k - w)) (s + (k - w)) (splice (d + k) (slice (s + k) (n - k) m) m) = Some (splice (d + (k - w)) (slice (s + (k - w)) (n - (k - w)) m) m).
Proof.
  intros Hds Hs Hw Hk Hkn Hl. assert (length (slice (s + k) (n - k) m) = Z.to_nat (n - k)) as Hls by (apply length_slice; lia).
  assert (length (splice (d + k) (slice (s + k) (n - k) m) m) = length m) as Hlm by (apply length_splice; lia). unfold move. rewrite Hlm, !(proj2 (Z.leb_le _ _)) by lia. cbn [andb].
  rewrite slice_splice_ne by lia. assert (length (slice (s + (k - w)) w m) = Z.to_nat w) as Hlw by (apply length_slice; lia).
  replace (d + k) with (d + (k - w) + Z.of_nat (length (slice (s + (k - w)) w m))) by lia. rewrite splice_back by lia.
  replace (s + k) with (s + (k - w) + w) by lia. rewrite slice_app by lia. do 3 f_equal. lia.
Qed.

Section loops.
Context (base : Z) (m : list Z).
Implicit Types d s n k : Z.

Lemma memcpy_forward (r : nat) : forall d s k, d < s \/ s + k + Z.of_nat r <= d -> 0 <= d -> 0 <= s -> 0 <= k -> s + k + Z.of_nat r <= Z.of_nat (length m) -> d + k + Z.of_nat r <= Z.of_nat (length m) ->
  memcpy_loop r (d + k) (s + k) (splice d (slice s k m) m) = Some (splice d (slice s (k + Z.of_nat r) m) m).
Proof.
  induction r as [|r IH]; intros d s k H1 H2 H3 H4 H5 H6; [cbn; by rewrite Z.add_0_r|]. cbn [memcpy_loop]. rewrite move_forward by lia. cbn [mbind option_bind].
  rewrite <- !Z.add_assoc. rewrite IH by lia. do 3 f_equal. lia.
Qed.

Lemma splice_nil d s : splice d (slice s 0 m) m = m.
Proof. unfold slice. change (Z.to_nat 0) with 0%nat. rewrite take_0. unfold splice. rewrite app_nil_l, Nat.add_0_r. apply take_drop. Qed.

Lemma align_forward_run (fuel : nat) d s : d < s -> 0 <= d -> forall k n, 0 <= k -> 0 <= n < Z.of_nat fuel -> s + k + n <= Z.of_nat (length m) ->
  exists j on, align_forward base fuel (d + k) (s + k) n (splice d (slice s k m) m) = Some (d + k + j, s + k + j, on, splice d (slice s (k + j) m) m) /\
    0 <= j <= n /\ match on with Some r => r = n - j | None => j = n end.
Proof.
  intros Hds Hd. induction fuel as [|fuel IH]; intros k n Hk Hn Hl; [lia|]. cbn [align_forward]. destruct ((base + (d + k)) mod 8 =? 0).
  { exists 0, (Some n). rewrite !Z.add_0_r. split; [done|lia]. }
  destruct (Z.eqb_spec n 0) as [->|Hn0]; [exists 0, None; rewrite !Z.add_0_r; split; [done|lia]|]. rewrite move_forward by lia. cbn [mbind option_bind].
  destruct (IH (k + 1) (n - 1)) as (j & on & E & Hj & Hon); [lia|lia|lia|]. exists (1 + j), on. rewrite <- !Z.add_assoc. rewrite <- !Z.add_assoc in E. rewrite E. split; [done|].
  split; [lia|]. destruct on; lia.
Qed.

Lemma words_forward_run (fuel : nat) d s : d < s -> 0 <= d -> forall k n, 0 <= k -> 0 <= n < Z.of_nat fuel -> s + k + n <= Z.of_nat (length m) ->
  exists j, words_forward fuel (d + k) (s + k) n (splice d (slice s k m) m) = Some (d + k + j, s + k + j, n - j, splice d (slice s (k + j) m) m) /\ 0 <= j <= n.
Proof.
  intros Hds Hd. induction fuel as [|fuel IH]; intros k n Hk Hn Hl; [lia|]. cbn [words_forward]. destruct (Z.leb_spec 8 n) as [H8|H8].
  - rewrite move_forward by lia. cbn [mbind option_bind]. destruct (IH (k + 8) (n - 8)) as (j & E & Hj); [lia|lia|lia|]. exists (8 + j). rewrite <- !Z.add_assoc. rewrite <- !Z.add_assoc in E.
    rewrite E. split; [|lia]. do 3 f_equal. lia.
  - exists 0. rewrite !Z.add_0_r, Z.sub_0_r. split; [done|lia].
Qed.

Lemma bytes_backward_run d s n : s < d -> 0 <= s -> d + n <= Z.of_nat (length m) -> forall r : nat, Z.of_nat r <= n ->
  bytes_backward r d s (splice (d + Z.of_nat r) (slice (s + Z.of_nat r) (n - Z.of_nat r) m) m) = Some (splice d (slice s n m) m).
Proof.
  intros Hds Hs Hl. induction r as [|r IH]; intros Hr; [cbn; by rewrite !Z.add_0_r, Z.sub_0_r|]. cbn [bytes_backward].
  replace (Z.of_nat r) with (Z.of_nat (S r) - 1) at 1 2 by lia. rewrite move_backward by lia. cbn [mbind option_bind].
  replace (Z.of_nat (S r) - 1) with (Z.of_nat r) by lia. apply IH. lia.
Qed.

Lemma align_backward_run (fuel : nat) d s n : s < d -> 0 <= s -> d + n <= Z.of_nat (length m) -> forall r, 0 <= r <= n -> r < Z.of_nat fuel ->
  exists on q, align_backward base fuel d s r (splice (d + r) (slice (s + r) (n - r) m) m) = Some (on, splice (d + q) (slice (s + q) (n - q) m) m) /\
    0 <= q <= r /\ match on with Some x => x = q | None => q = 0 end.
Proof.
  intros Hds Hs Hl. induction fuel as [|fuel IH]; intros r Hr Hf; [lia|]. cbn [align_backward]. destruct ((base + d + r) mod 8 =? 0); [exists (Some r), r; split; [done|lia]|].
  destruct (Z.eqb_spec r 0) as [->|Hr0]; [exists None, 0; split; [done|lia]|]. cbv zeta. rewrite move_backward by lia. cbn [mbind option_bind].
  destruct (IH (r - 1)) as (on & q & E & Hq & Hon); [lia|lia|]. exists on, q. split; [exact E|]. split; [lia|done].
Qed.

Lemma words_backward_run (fuel : nat) d s n : s < d -> 0 <= s -> d + n <= Z.of_nat (length m) -> forall r, 0 <= r <= n -> r < Z.of_nat fuel ->
  exists q, words_backward fuel d s r (splice (d + r) (slice (s + r) (n - r) m) m) = Some (q, splice (d + q) (slice (s + q) (n - q) m) m) /\ 0 <= q <= r.
Proof.
  intros Hds Hs Hl. induction fuel as [|fuel IH]; intros r Hr Hf; [lia|]. cbn [words_backward]. destruct (Z.leb_spec 8 r) as [H8|H8]; [|exists r; split; [done|lia]].
  cbv zeta. rewrite move_backward by lia. cbn [mbind option_bind]. destruct (IH (r - 8)) as (q & E & Hq); [lia|lia|]. exists q. split; [exact E|lia].
Qed.
End loops.

(** Whatever the alignment and the overlap. *)
Lemma memmove_run base d s n m : 0 <= d -> 0 <= s -> 0 <= n -> d + n <= Z.of_nat (length m) -> s + n <= Z.of_nat (length m) ->
  memmove base d s n m = Some (splice d (slice s n m) m).
Proof.
  intros Hd Hs Hn Hdl Hsl. unfold memmove. destruct (Z.eqb_spec d s) as [->|Hne].
  { f_equal. symmetry. apply list_eq. intros i. assert (length (slice s n m) = Z.to_nat n) as Hl by (apply length_slice; lia). rewrite lookup_splice by lia.
    case_decide; [|done]. rewrite lookup_slice by lia. f_equal. lia. }
  pose proof (splice_nil m) as Hnil. destruct ((s + n <=? d) || (d + n <=? s)) eqn:Ed.
  { apply orb_prop in Ed. rewrite !Z.leb_le in Ed. unfold memcpy. pose proof (memcpy_forward m (Z.to_nat n) d s 0) as E.
    rewrite Hnil, !Z.add_0_r, Z.add_0_l, Z2Nat.id in E by lia. apply E; lia. }
  apply orb_false_elim in Ed as [Ed1%Z.leb_gt Ed2%Z.leb_gt]. cbv zeta. destruct (Z.ltb_spec d s) as [Hlt|Hge].
  - pose proof (memcpy_forward m (Z.to_nat n) d s 0) as E. rewrite Hnil, !Z.add_0_r, Z.add_0_l, Z2Nat.id in E by lia. destruct (_ =? _); [|apply E; lia].
    destruct (align_forward_run base m (S (Z.to_nat n)) d s Hlt Hd 0 n) as (j & on & E1 & Hj & Hon); [lia|lia|lia|]. rewrite Hnil, !Z.add_0_r, Z.add_0_l in E1. rewrite E1. cbn [mbind option_bind].
    destruct on as [r|]; [|by rewrite Hon]. destruct (words_forward_run m (S (Z.to_nat r)) d s Hlt Hd j r) as (i & E2 & Hi); [lia|lia|lia|]. rewrite E2. cbn [mbind option_bind].
    rewrite <- !Z.add_assoc. rewrite memcpy_forward by lia. do 3 f_equal. lia.
  - assert (s < d) as Hlt by lia. pose proof (bytes_backward_run m d s n Hlt Hs Hdl) as E. assert (splice (d + n) (slice (s + n) (n - n) m) m = m) as Hnil' by (rewrite Z.sub_diag; apply Hnil).
    destruct (_ =? _).
    + destruct (align_backward_run base m (S (Z.to_nat n)) d s n Hlt Hs Hdl n) as (on & q & E1 & Hq & Hon); [lia|lia|]. rewrite Hnil' in E1. rewrite E1. cbn [mbind option_bind].
      destruct on as [r|]; [|subst q; by rewrite !Z.add_0_r, Z.sub_0_r]. subst r.
      destruct (words_backward_run m (S (Z.to_nat q)) d s n Hlt Hs Hdl q) as (r & E2 & Hr); [lia|lia|]. rewrite E2. cbn [mbind option_bind].
      specialize (E (Z.to_nat r) ltac:(lia)). rewrite Z2Nat.id in E by lia. exact E.
    + specialize (E (Z.to_nat n) ltac:(lia)). rewrite Z2Nat.id, Hnil' in E by lia. exact E.
Qed.

(** [memmove] puts into every byte of the destination range the byte the source range
    held before the call, whatever the alignment and the overlap of the two ranges, and
    touches no other byte. *)
Theorem memmove_moves base d s n m : 0 <= d -> 0 <= s -> 0 <= n -> d + n <= Z.of_nat (length m) -> s + n <= Z.of_nat (length m) ->
  exists m', memmove base d s n m = Some m' /\ length m' = length m /\
    forall i : nat, m' !! i = if decide (d <= Z.of_nat i < d + n) then m !! Z.to_nat (s + (Z.of_nat i - d)) else m !! i.
Proof.
  intros Hd Hs Hn Hdl Hsl. assert (length (slice s n m) = Z.to_nat n) as Hl by (apply length_slice; lia). exists (splice d (slice s n m) m). split; [by apply memmove_run|].
  split; [rewrite length_splice; lia|]. intros i. rewrite lookup_splice by lia. rewrite Hl, Z2Nat.id by done. case_decide; [|done]. rewrite lookup_slice by lia. f_equal. lia.
Qed.

Lemma memmove_moves_witness : exists m', memmove 3 2 5 12 (seqZ 0 20) = Some m' /\ length m' = 20%nat /\ m' !! 13%nat = Some 16.
Proof.
  destruct (memmove_moves 3 2 5 12 (seqZ 0 20)) as (m' & E & Hl & Hi); [lia|lia|lia|vm_compute; discriminate|vm_compute; discriminate|].
  exists m'. split; [exact E|]. split; [exact Hl|]. rewrite Hi. reflexivity.
Defined.

(** ** NUL-terminated strings *)
Definition cstr (a s : list Z) : Prop := Forall (fun c => c <> 0) s /\ exists r, a = s ++ 0 :: r.

Lemma strlen_cstr a s : cstr a s -> strlen a = Some (Z.of_nat (length s)).
Proof.
  intros [Hs [r ->]]. induction Hs as [|c s Hc Hs IH]; [done|]. cbn [app strlen length]. rewrite (proj2 (Z.eqb_neq c 0) Hc), IH. cbn. f_equal. lia.
Qed.

Lemma strcmp_from_cstr a b s t : cstr a s -> cstr b t -> exists r, strcmp_from a b = Some r /\ (r = 0 <-> s = t).
Proof.
  intros [Hs [ra ->]] [Ht [rb ->]]. revert t Ht. induction Hs as [|c s Hc Hs IH]; intros t Ht.
  - destruct Ht as [|y t Hy Ht]; [by exists 0|]. cbn [app strcmp_from]. rewrite (proj2 (Z.eqb_neq y 0) Hy), (proj2 (Z.eqb_neq 0 y)) by lia. by exists 1.
  - cbn [app strcmp_from]. rewrite (proj2 (Z.eqb_neq c 0) Hc). cbn [andb]. destruct Ht as [|y t Hy Ht].
    + cbn [app]. rewrite (proj2 (Z.eqb_neq c 0) Hc). by exists 1.
    + cbn [app]. destruct (Z.eqb_spec c y) as [->|Hne]; [|exists 1; split; [done|split; [done|by intros [= ? _]]]]. destruct (IH t Ht) as (r & E & Hr). exists r. split; [done|]. rewrite Hr. split; [by intros ->|by intros [= ->]].
Qed.

(** For two strings at different addresses [strcmp] returns 0 exactly when they are
    equal, and [strncmp] exactly when their first [n] bytes are. *)
Theorem strcmp_equal a b s t n : cstr a s -> cstr b t -> 0 <= n ->
  (exists r, strcmp false (Some a) (Some b) = Some r /\ (r = 0 <-> s = t)) /\
  (exists r, strncmp a b n = Some r /\ (r = 0 <-> take (Z.to_nat n) s = take (Z.to_nat n) t)).
Proof.
  intros Ha Hb Hn. split; [by apply strcmp_from_cstr|]. destruct Ha as [Hs [ra ->]], Hb as [Ht [rb ->]]. revert t Ht n Hn. induction Hs as [|c s Hc Hs IH]; intros t Ht n Hn.
  - cbn [app strncmp]. destruct (Z.eqb_spec n 0) as [->|Hn0]; [by exists 0|]. destruct Ht as [|y t Hy Ht]; [exists 0; split; [done|by rewrite take_nil]|]. cbn [app].
    rewrite (proj2 (Z.eqb_neq y 0) Hy), (proj2 (Z.eqb_neq 0 y)) by lia. exists (-1). split; [done|]. split; [done|]. destruct (Z.to_nat n) eqn:En; [lia|done].
  - cbn [app strncmp]. destruct (Z.eqb_spec n 0) as [->|Hn0]; [by exists 0|]. rewrite (proj2 (Z.eqb_neq c 0) Hc). cbn [andb].
    destruct (Z.to_nat n) as [|k] eqn:En; [lia|]. destruct Ht as [|y t Hy Ht]; cbn [app].
    + rewrite (proj2 (Z.eqb_neq c 0) Hc). by exists (-1).
    + destruct (Z.eqb_spec c y) as [->|Hne]; [|exists (-1); split; [done|split; [done|by intros [= ? _]]]]. destruct (IH t Ht (n - 1) ltac:(lia)) as (r & E & Hr). exists r. split; [done|].
      replace (Z.to_nat (n - 1)) with k in Hr by lia. cbn [take]. rewrite Hr. split; [by intros ->|by intros [= ->]].
Qed.

Lemma strcmp_equal_witness : exists r, strncmp [97; 98; 0] [97; 99; 0; 7] 1 = Some r /\ (r = 0 <-> [97] = [97]).
Proof.
  destruct (strcmp_equal [97; 98; 0] [97; 99; 0; 7] [97; 98] [97; 99] 1) as [_ Hr];
    [split; [repeat constructor; discriminate|by exists []]|split; [repeat constructor; discriminate|by exists [7]]|lia|exact Hr].
Defined.

Lemma strcpy_cstr dst src s : cstr src s -> (length s < length dst)%nat -> strcpy dst src = Some (s ++ 0 :: drop (S (length s)) dst).
Proof.
  intros [Hs [r ->]]. revert dst. induction Hs as [|c s Hc Hs IH]; intros [|x dst] Hl; cbn in Hl; try lia; [done|]. cbn [app strcpy]. rewrite (proj2 (Z.eqb_neq c 0) Hc), IH by lia. done.
Qed.

Lemma strncpy_cstr dst src s n : cstr src s -> 0 <= n <= Z.of_nat (length dst) ->
  strncpy dst src n = Some (if decide (n <= Z.of_nat (length s)) then take (Z.to_nat n) s ++ drop (Z.to_nat n) dst else s ++ 0 :: drop (S (length s)) dst).
Proof.
  intros [Hs [r ->]]. revert dst n. induction Hs as [|c s Hc Hs IH]; intros dst n Hn.
  - destruct dst as [|x dst]; cbn [app strncpy length] in *; destruct (Z.eqb_spec n 0) as [->|Hn0]; [done|lia|done|]. by rewrite decide_False by lia.
  - destruct dst as [|x dst]; cbn [app strncpy length] in *; (destruct (Z.eqb_spec n 0) as [->|Hn0]; [done|]); [lia|]. rewrite (proj2 (Z.eqb_neq c 0) Hc), IH by lia. cbn.
    destruct (Z.to_nat n) as [|k] eqn:En; [lia|]. replace (Z.to_nat (n - 1)) with k by lia. repeat case_decide; try lia; done.
Qed.

(** [strncat] never appends: it gives up when the text is shorter than the limit. *)
Theorem strncat_never_appends dst src lim s : cstr dst s -> Z.of_nat (length s) < lim -> strncat dst src lim = Some dst.
Proof. intros Hd Hl. unfold strncat. rewrite (strlen_cstr _ _ Hd). cbn [mbind option_bind]. by rewrite (proj2 (Z.ltb_lt _ _)). Qed.
