(* ===== verification/Format.v ===== *)
(** * Formatted output: [sys/snprintf.c]

    [vsnprintf] on a buffer of bytes.  A store outside the buffer is a fault.  The format
    is a NUL-terminated string; an argument is an integer or a pointer to a string. *)

From S2P Require Import Prelude Defs Bytes Strings.

Definition byte_at (i : Z) (l : list Z) : option Z := if 0 <=? i then l !! Z.to_nat i else None.
Definition byte_put (i x : Z) (l : list Z) : option (list Z) := byte_at i l;; Some (<[Z.to_nat i := u8 x]> l).

(** ** Numbers *)
(** The loop that reverses the digits in place. *)
Definition xor_at (i j : Z) (res : list Z) : option (list Z) := x ← byte_at i res; y ← byte_at j res; byte_put i (Z.lxor x y) res.
Fixpoint reverse_in_place (fuel : nat) (i j : Z) (res : list Z) : option (list Z) :=
  match fuel with
  | O => None
  | S fuel =>
      if i <? j then
        res ← xor_at i j res; res ← xor_at j i res; res ← xor_at i j res;
        reverse_in_place fuel (i + 1) (j - 1) res
      else Some res
  end.

(** The digits of [v], the lowest first, from index [c] on.  The fuel is more than the 64
    bytes of the buffer. *)
Fixpoint put_digits (fuel : nat) (base : Z) (set : Z -> Z) (v c : Z) (res : list Z) : option (Z * list Z) :=
  match fuel with
  | O => None
  | S fuel => if v =? 0 then Some (c, res) else res ← byte_put c (set (v mod base)) res; put_digits fuel base set (v / base) (c + 1) res
  end.
Definition CBUF : nat := 64.

Definition zero_text (res : list Z) : option (Z * list Z) := res ← byte_put 0 48 res; res ← byte_put 1 0 res; Some (1, res).

Definition vsnprintf_ds (x : Z) (s sz : bool) (res : list Z) : option (Z * list Z) :=
  if x =? 0 then zero_text res else
  let neg := s && ((if sz then x else i32 x) <? 0) in
  let v := if neg then u64 (- (if sz then x else i32 x)) else u64 x in
  '(c, res) ← put_digits (S CBUF) 10 (fun d => 48 + d) v 0 res;
  '(c, res) ← (if neg then res ← byte_put c 45 res; Some (c + 1, res) else Some (c, res));
  res ← byte_put c 0 res;
  res ← reverse_in_place (S CBUF) 0 (c - 1) res;
  Some (c, res).

Definition s_print_xs_set0 (d : Z) : Z := if d <? 10 then 48 + d else 97 + (d - 10).
Definition s_print_xs_set1 (d : Z) : Z := if d <? 10 then 48 + d else 65 + (d - 10).

(** [v & 0xF] and [v >>= 4] are remainder and quotient by 16. *)
Definition vsnprintf_xs (v : Z) (set : Z -> Z) (res : list Z) : option (Z * list Z) :=
  if v =? 0 then zero_text res else
  '(c, res) ← put_digits (S CBUF) 16 set v 0 res;
  res ← byte_put c 0 res;
  res ← reverse_in_place (S CBUF) 0 (c - 1) res;
  Some (c, res).

(** ** Output *)
Inductive arg := AStr (s : option (list Z)) | AInt (x : Z).
(** [Go]: carry on at [p]; [Stop]: [goto __end]; [Fail]: [return -1]. *)
Inductive flow := Go (p : Z) | Stop (p : Z) | Fail.
Abbreviation B := (cmd (list Z)).

Definition chain (c : B flow) (k : Z -> B flow) : B flow := r ← c; match r with Go p => k p | _ => mret r end.

Section output.
Context (len : Z).

Definition putc (ch p : Z) : B flow :=
  if p =? u64 (len - 1) then mret (Stop p) else
  b ← cload (byte_put p ch); cput b;; mret (Go (p + 1)).

Definition fill (p c n : Z) : B unit := b ← cload (memset p c n); cput b.
Definition copy (p : Z) (s : list Z) (n : Z) : B unit :=
  b ← cload (fun b => app (take (Z.to_nat p) b) <$> strncpy (drop (Z.to_nat p) b) s n); cput b.

Definition put_pad (padn padc l p : Z) : B flow :=
  if i32 l <? padn then
    let padd := u64 (padn - l) in
    if u64 (p + padd) <? u64 (len + 1) then fill p padc padd;; mret (Go (p + padd))
    else fill p padc (u64 (len - 1 - p));; mret (Stop (u64 (len - 1)))
  else mret (Go p).
Definition put_text (s : list Z) (l p : Z) : B flow :=
  if u64 (p + l) <? u64 (len + 1) then copy p s l;; mret (Go (p + l))
  else copy p s (u64 (len - 1 - p));; mret (Stop (u64 (len - 1))).
Definition puts (padn padc : Z) (s : list Z) (l p : Z) : B flow :=
  if 0 <=? padn then chain (put_pad padn padc l p) (put_text s l)
  else chain (put_text s l p) (put_pad (- padn) padc l).
End output.

(** What follows a [%]: the padding, the conversion and the rest of the format. *)
Fixpoint pad_digits (padn : Z) (fmt : list Z) : option (Z * Z * list Z) :=
  match fmt with
  | [] => None
  | c :: r => if isdigit c then pad_digits (i32 (i32 (padn * 10) + (c - 48))) r else Some (padn, c, r)
  end.
Definition skip_char (x : Z) (fmt : list Z) : option (bool * list Z) :=
  match fmt with [] => None | c :: r => Some (if c =? x then (true, r) else (false, fmt)) end.
Definition directive (fmt : list Z) : option (Z * Z * Z * list Z) :=
  '(zero, fmt) ← skip_char 48 fmt;
  '(minus, fmt) ← skip_char 45 fmt;
  '(padn, c, fmt) ← pad_digits 0 fmt;
  Some (if (minus : bool) then - padn else padn, if (zero : bool) then 48 else 32, c, fmt).

Definition va_int (args : list arg) : B (Z * list arg) := cload (fun _ => match args with AInt x :: r => Some (x, r) | _ => None end).
Definition va_str (args : list arg) : B (option (list Z) * list arg) := cload (fun _ => match args with AStr s :: r => Some (s, r) | _ => None end).

(** One conversion: where to go on, the arguments left and the scratch buffer. *)
Definition convert (len c padn padc : Z) (args : list arg) (cbuf : list Z) (p : Z) : B (flow * list arg * list Z) :=
  if c =? 108 then mret (Fail, args, cbuf) else
  if c =? 115 then
    '(s, args) ← va_str args;
    f ← match s with
        | Some s => l ← cload (fun _ => strlen s); puts len padn padc s l p
        | None => puts len padn padc [40; 110; 117; 108; 108; 41; 0] 6 p
        end;
    mret (f, args, cbuf)
  else if c =? 112 then
    '(x, args) ← va_int args;
    f ← chain (putc len 48 p) (putc len 120);
    match f with
    | Go p =>
        '(clen, cbuf) ← cload (fun _ => vsnprintf_xs (u64 x) s_print_xs_set0 cbuf);
        f ← puts len 16 48 cbuf clen p; mret (f, args, cbuf)
    | _ => mret (f, args, cbuf)
    end
  else if (c =? 105) || (c =? 100) then
    '(x, args) ← va_int args;
    '(clen, cbuf) ← cload (fun _ => vsnprintf_ds (i32 x) true true cbuf);
    f ← puts len padn padc cbuf clen p; mret (f, args, cbuf)
  else if c =? 117 then
    '(x, args) ← va_int args;
    '(clen, cbuf) ← cload (fun _ => vsnprintf_ds (u32 x) false true cbuf);
    f ← puts len padn padc cbuf clen p; mret (f, args, cbuf)
  else if (c =? 120) || (c =? 88) then
    '(x, args) ← va_int args;
    '(clen, cbuf) ← cload (fun _ => vsnprintf_xs (u32 x) (if c =? 120 then s_print_xs_set0 else s_print_xs_set1) cbuf);
    f ← puts len padn padc cbuf clen p; mret (f, args, cbuf)
  else if c =? 99 then
    '(x, args) ← va_int args;
    f ← putc len x p; mret (f, args, cbuf)
  else f ← chain (putc len 37 p) (putc len c); mret (f, args, cbuf).

Fixpoint format_loop (fuel : nat) (len : Z) (fmt : list Z) (args : list arg) (cbuf : list Z) (p : Z) : B flow :=
  match fuel with
  | O => cdiverged
  | S fuel =>
      match fmt with
      | [] => cfault
      | c :: fmt =>
          if c =? 0 then mret (Stop p) else
          if c =? 37 then
            '(padn, padc, c, fmt) ← cload (fun _ => directive fmt);
            '(f, args, cbuf) ← convert len c padn padc args cbuf p;
            match f with Go p => format_loop fuel len fmt args cbuf p | _ => mret f end
          else chain (putc len c p) (format_loop fuel len fmt args cbuf)
      end
  end.

(** [cbuf] is the scratch buffer as it is on the stack. *)
Definition vsnprintf (cbuf : list Z) (len : Z) (fmt : list Z) (args : list arg) : B Z :=
  f ← format_loop (S (length fmt)) len fmt args cbuf 0;
  match f with
  | Fail => mret (-1)
  | Go p | Stop p => b ← cload (byte_put p 0); cput b;; mret (i32 p)
  end.

Example format_d : vsnprintf (replicate 64 0) 16 [37; 48; 53; 100; 44; 37; 120; 0] [AInt (-42); AInt 255] (replicate 16 7) =
  Ret (8, [48; 48; 45; 52; 50; 44; 102; 102; 0] ++ replicate 7 7).
Proof. vm_compute. reflexivity. Qed.

(** ** The text of a number *)
Fixpoint lsd (fuel : nat) (base v : Z) : list Z :=
  match fuel with O => [] | S fuel => if v =? 0 then [] else v mod base :: lsd fuel base (v / base) end.
Definition decimal (x : Z) : list Z := if x =? 0 then [48] else (if x <? 0 then [45] else []) ++ reverse (Z.add 48 <$> lsd 20 10 (Z.abs x)).
Definition hexadecimal (set : Z -> Z) (v : Z) : list Z := if v =? 0 then [48] else reverse (set <$> lsd 16 16 v).

Definition bytes (l : list Z) : Prop := Forall (fun c => 0 <= c < 256) l.

Lemma byte_put_middle a x r v : byte_put (Z.of_nat (length a)) v (a ++ x :: r) = Some (a ++ u8 v :: r).
Proof.
  unfold byte_put, byte_at. rewrite (proj2 (Z.leb_le _ _)) by lia. rewrite Nat2Z.id, list_lookup_middle by done. cbn. f_equal.
  replace (length a) with (length a + 0)%nat at 1 by lia. by rewrite insert_app_r.
Qed.
Lemma byte_at_middle a x r : byte_at (Z.of_nat (length a)) (a ++ x :: r) = Some x.
Proof. unfold byte_at. rewrite (proj2 (Z.leb_le _ _)) by lia. by rewrite Nat2Z.id, list_lookup_middle. Qed.

Lemma u8_byte x : 0 <= x < 256 -> u8 x = x.
Proof. intros. by apply uwrap_small. Qed.
Lemma lxor_byte x y : 0 <= x < 256 -> 0 <= y < 256 -> 0 <= Z.lxor x y < 256.
Proof.
  intros Hx Hy. split; [apply Z.lxor_nonneg; lia|]. change 256 with (2 ^ 8). destruct (decide (Z.lxor x y = 0)) as [->|Hne]; [done|].
  assert (0 < Z.lxor x y) by (pose proof (proj2 (Z.lxor_nonneg x y) ltac:(lia)); lia). apply Z.log2_lt_pow2; [done|].
  eapply Z.le_lt_trans; [apply Z.log2_lxor; lia|]. assert (forall z, 0 <= z < 256 -> Z.log2 z < 8) as Hl.
  { intros z Hz. destruct (decide (z = 0)) as [->|]; [done|]. apply Z.log2_lt_pow2; [lia|]. change (2 ^ 8) with 256. lia. }
  apply Z.max_lub_lt; by apply Hl.
Qed.

(** Three exclusive ors swap two bytes. *)
Lemma xor_swap a x m y b : 0 <= x < 256 -> 0 <= y < 256 ->
  let i := Z.of_nat (length a) in let j := Z.of_nat (length (a ++ x :: m)) in
  (res ← xor_at i j (a ++ x :: m ++ y :: b); res ← xor_at j i res; xor_at i j res) = Some (a ++ y :: m ++ x :: b).
Proof.
  intros Hx Hy i j. pose proof (lxor_byte x y Hx Hy) as Hxy.
  assert (forall v w, xor_at i j (a ++ v :: m ++ w :: b) = Some (a ++ u8 (Z.lxor v w) :: m ++ w :: b)) as H1.
  { intros v w. unfold xor_at, i, j. rewrite byte_at_middle. cbn [mbind option_bind]. rewrite (app_assoc a (v :: m) (w :: b) : a ++ v :: m ++ w :: b = _).
    replace (length (a ++ x :: m)) with (length (a ++ v :: m)) by (rewrite !length_app; done). rewrite byte_at_middle. cbn [mbind option_bind].
    rewrite <- app_assoc. apply byte_put_middle. }
  assert (forall v w, xor_at j i (a ++ v :: m ++ w :: b) = Some (a ++ v :: m ++ u8 (Z.lxor w v) :: b)) as H2.
  { intros v w. unfold xor_at, i, j. rewrite (app_assoc a (v :: m) (w :: b) : a ++ v :: m ++ w :: b = _).
    replace (length (a ++ x :: m)) with (length (a ++ v :: m)) by (rewrite !length_app; done). rewrite byte_at_middle. cbn [mbind option_bind].
    rewrite <- app_assoc. cbn [app]. rewrite byte_at_middle. cbn [mbind option_bind]. rewrite (app_assoc a (v :: m) (w :: b) : a ++ v :: m ++ w :: b = _), byte_put_middle, <- app_assoc. done. }
  rewrite H1. cbn [mbind option_bind]. rewrite H2. cbn [mbind option_bind]. rewrite H1.
  rewrite (u8_byte (Z.lxor x y)) by done. replace (Z.lxor y (Z.lxor x y)) with x by (rewrite (Z.lxor_comm x y), <- Z.lxor_assoc, Z.lxor_nilpotent, Z.lxor_0_l; done).
  rewrite (u8_byte x) by done. replace (Z.lxor (Z.lxor x y) x) with y by (rewrite (Z.lxor_comm (Z.lxor x y)), <- Z.lxor_assoc, Z.lxor_nilpotent, Z.lxor_0_l; done).
  by rewrite (u8_byte y).
Qed.

Lemma reverse_in_place_run (fuel : nat) : forall a m b, bytes m -> (length m < 2 * fuel)%nat ->
  reverse_in_place fuel (Z.of_nat (length a)) (Z.of_nat (length a) + Z.of_nat (length m) - 1) (a ++ m ++ b) = Some (a ++ reverse m ++ b).
Proof.
  induction fuel as [|fuel IH]; intros a m b Hm Hf; [lia|]. cbn [reverse_in_place]. destruct m as [|x m]; [rewrite (proj2 (Z.ltb_ge _ _)) by (cbn; lia); done|].
  destruct (decide (m = [])) as [->|Hne]; [rewrite (proj2 (Z.ltb_ge _ _)) by (cbn; lia); done|]. destruct (exists_last Hne) as (m' & y & ->). clear Hne. rename m' into m.
  rewrite (proj2 (Z.ltb_lt _ _)) by (cbn; rewrite length_app; cbn; lia).
  apply list.Forall_cons in Hm as [Hx Hm]. apply list.Forall_app in Hm as [Hm Hy]. apply list.Forall_cons in Hy as [Hy _].
  pose proof (xor_swap a x m y b Hx Hy) as E. cbv zeta in E.
  replace (Z.of_nat (length a) + Z.of_nat (length (x :: m ++ [y])) - 1) with (Z.of_nat (length (a ++ x :: m))) by (rewrite !length_app; cbn; rewrite length_app; cbn; lia).
  replace (a ++ (x :: m ++ [y]) ++ b) with (a ++ x :: m ++ y :: b) by (cbn; by rewrite <- app_assoc).
  revert E. destruct (xor_at _ _ (a ++ x :: m ++ y :: b)) as [r1|]; cbn [mbind option_bind]; [|done]. destruct (xor_at _ _ r1) as [r2|]; cbn [mbind option_bind]; [|done]. intros ->.
  cbn [mbind option_bind]. specialize (IH (a ++ [y]) m (x :: b) Hm). rewrite length_app in IH. cbn [length] in IH.
  replace (Z.of_nat (length a) + 1) with (Z.of_nat (length a + 1)) by lia. replace (Z.of_nat (length (a ++ x :: m)) - 1) with (Z.of_nat (length a + 1) + Z.of_nat (length m) - 1) by (rewrite length_app; cbn; lia).
  rewrite <- app_assoc in IH. cbn [app] in IH. rewrite IH by (cbn in Hf; rewrite length_app in Hf; cbn in Hf; lia).
  f_equal. rewrite <- !app_assoc. rewrite reverse_cons, reverse_app. cbn [reverse rev_append app]. rewrite <- !app_assoc. done.
Qed.

Lemma lsd_length base fuel v : (length (lsd fuel base v) <= fuel)%nat.
Proof. revert v. induction fuel as [|fuel IH]; intros v; cbn; [lia|]. destruct (v =? 0); cbn; [lia|]. specialize (IH (v / base)). lia. Qed.

Lemma lsd_digits base fuel v : 0 < base -> Forall (fun d => 0 <= d < base) (lsd fuel base v).
Proof. intros Hb. revert v. induction fuel as [|fuel IH]; intros v; cbn; [done|]. destruct (v =? 0); [done|]. constructor; [by apply Z.mod_pos_bound|apply IH]. Qed.

Lemma set_bytes set base fuel v : 0 < base -> (forall d, 0 <= d < base -> 0 < set d < 256) -> Forall (fun c => 0 < c < 256) (set <$> lsd fuel base v).
Proof. intros Hb Hs. apply Forall_fmap. eapply list.Forall_impl; [by apply lsd_digits|]. intros d Hd. cbn. by apply Hs. Qed.

Lemma put_digits_run set base n : 1 < base -> (forall d, 0 <= d < base -> 0 < set d < 256) -> forall v a r fuel, 0 <= v < base ^ Z.of_nat n -> (n < fuel)%nat -> (n <= length r)%nat ->
  put_digits fuel base set v (Z.of_nat (length a)) (a ++ r) = Some (Z.of_nat (length (a ++ (set <$> lsd n base v))), a ++ (set <$> lsd n base v) ++ drop (length (lsd n base v)) r).
Proof.
  intros Hb Hset. induction n as [|n IH]; intros v a r fuel Hv Hf Hr; (destruct fuel as [|fuel]; [lia|]); cbn [put_digits lsd].
  - cbn in Hv. rewrite (proj2 (Z.eqb_eq v 0)) by lia. cbn. by rewrite app_nil_r.
  - destruct (Z.eqb_spec v 0) as [->|Hv0]; [cbn; by rewrite app_nil_r|]. destruct r as [|x r]; [cbn in Hr; lia|]. rewrite byte_put_middle. cbn [mbind option_bind].
    pose proof (Z.mod_pos_bound v base ltac:(lia)) as Hm. rewrite u8_byte by (pose proof (Hset _ Hm); lia).
    specialize (IH (v / base) (a ++ [set (v mod base)]) r fuel). rewrite length_app in IH. cbn [length] in IH.
    replace (Z.of_nat (length a) + 1) with (Z.of_nat (length a + 1)) by lia. rewrite <- app_assoc in IH. cbn [app] in IH. rewrite IH; [| |lia|cbn in Hr; lia].
    2:{ split; [apply Z.div_pos; lia|]. apply Z.div_lt_upper_bound; [lia|]. rewrite Nat2Z.inj_succ, Z.pow_succ_r in Hv by lia. lia. }
    cbn. rewrite <- !app_assoc. done.
Qed.

(** A number in the scratch buffer: its text, the NUL and what was there. *)
Definition scratch (t cbuf : list Z) : list Z := t ++ 0 :: drop (S (length t)) cbuf.

Lemma finish_number (d sign cbuf : list Z) : Forall (fun c => 0 < c < 256) (d ++ sign) -> (length (d ++ sign) < CBUF)%nat -> length cbuf = CBUF ->
  (res ← byte_put (Z.of_nat (length (d ++ sign))) 0 ((d ++ sign) ++ drop (length (d ++ sign)) cbuf);
   res ← reverse_in_place (S CBUF) 0 (Z.of_nat (length (d ++ sign)) - 1) res; Some (Z.of_nat (length (d ++ sign)), res)) =
  Some (Z.of_nat (length (d ++ sign)), scratch (reverse (d ++ sign)) cbuf).
Proof.
  intros Hb Hl Hc. set (t := d ++ sign) in *. destruct (drop (length t) cbuf) as [|x r] eqn:Ed; [apply (f_equal length) in Ed; rewrite length_drop in Ed; cbn in Ed; lia|].
  rewrite byte_put_middle. cbn [mbind option_bind]. pose proof (reverse_in_place_run (S CBUF) [] t (u8 0 :: r)) as E. cbn [app length] in E. change (Z.of_nat 0) with 0 in E. rewrite Z.add_0_l in E. rewrite E.
  - cbn [mbind option_bind]. unfold scratch. rewrite length_reverse. replace (drop (S (length t)) cbuf) with r; [done|].
    replace (S (length t)) with (length t + 1)%nat by lia. rewrite <- drop_drop, Ed. done.
  - eapply list.Forall_impl; [exact Hb|]. cbn. lia.
  - lia.
Qed.

Lemma vsnprintf_ds_run x s cbuf : length cbuf = CBUF -> - 2 ^ 63 <= x < 2 ^ 63 -> (x < 0 -> s = true) ->
  vsnprintf_ds x s true cbuf = Some (Z.of_nat (length (decimal x)), scratch (decimal x) cbuf).
Proof.
  intros Hc Hx Hs. unfold vsnprintf_ds, decimal. destruct (Z.eqb_spec x 0) as [->|Hx0].
  { destruct cbuf as [|a [|b cbuf]]; [done..|]. reflexivity. }
  cbv zeta. assert ((if s && (x <? 0) then u64 (- x) else u64 x) = Z.abs x) as ->.
  { destruct (Z.ltb_spec x 0) as [Hn|Hn]; [rewrite (Hs Hn); cbn [andb]; rewrite uwrap_small by lia; lia|]. rewrite andb_false_r, uwrap_small by lia. lia. }
  assert (s && (x <? 0) = (x <? 0)) as -> by (destruct (Z.ltb_spec x 0) as [Hn|Hn]; [by rewrite (Hs Hn)|apply andb_false_r]).
  pose proof (put_digits_run (fun d => 48 + d) 10 20 ltac:(lia) ltac:(lia) (Z.abs x) [] cbuf (S CBUF)) as E. cbn [app length] in E. change (Z.of_nat 0) with 0 in E.
  rewrite E; [| |unfold CBUF; lia|rewrite Hc; unfold CBUF; lia]. 2:{ change (10 ^ Z.of_nat 20) with 100000000000000000000. lia. }
  cbn [mbind option_bind]. set (d := (fun d => 48 + d) <$> lsd 20 10 (Z.abs x)). assert (length d = length (lsd 20 10 (Z.abs x))) as Hld by (unfold d; apply length_fmap).
  pose proof (lsd_length 10 20 (Z.abs x)) as Hl20. assert (Forall (fun c => 0 < c < 256) d) as Hd by (apply set_bytes; lia). rewrite <- Hld.
  assert (exists r, drop (length d) cbuf = hd 0 (drop (length d) cbuf) :: r) as [r Er].
  { destruct (drop (length d) cbuf) eqn:Ed; [apply (f_equal length) in Ed; rewrite length_drop, Hc in Ed; cbn [length] in Ed; unfold CBUF in Ed; lia|]. eauto. }
  destruct (x <? 0).
  - rewrite Er, byte_put_middle. cbn [mbind option_bind].
    pose proof (finish_number d [45] cbuf) as F. rewrite length_app in F. cbn [length] in F. replace (Z.of_nat (length d + 1)) with (Z.of_nat (length d) + 1) in F by lia.
    replace ((d ++ [45]) ++ drop (length d + 1) cbuf) with (d ++ u8 45 :: r) in F by (rewrite <- app_assoc, <- drop_drop, Er; done).
    rewrite F; [| |unfold CBUF; lia|done]. 2:{ apply list.Forall_app. split; [done|]. repeat constructor. }
    rewrite reverse_app. cbn [reverse rev_append app]. do 2 f_equal. cbn [length]. rewrite length_reverse. fold d. lia.
  - cbn [mbind option_bind]. pose proof (finish_number d [] cbuf) as F. rewrite app_nil_r in F. rewrite F; [|done|unfold CBUF; lia|done]. rewrite app_nil_l. fold d. by rewrite length_reverse.
Qed.

Lemma vsnprintf_xs_run v set cbuf : length cbuf = CBUF -> 0 <= v < 2 ^ 64 -> (forall d, 0 <= d < 16 -> 0 < set d < 256) ->
  vsnprintf_xs v set cbuf = Some (Z.of_nat (length (hexadecimal set v)), scratch (hexadecimal set v) cbuf).
Proof.
  intros Hc Hv Hset. unfold vsnprintf_xs, hexadecimal. destruct (Z.eqb_spec v 0) as [->|Hv0].
  { destruct cbuf as [|a [|b cbuf]]; [done..|]. reflexivity. }
  pose proof (put_digits_run set 16 16 ltac:(lia) Hset v [] cbuf (S CBUF)) as E. cbn [app length] in E. change (Z.of_nat 0) with 0 in E.
  rewrite E; [| |unfold CBUF; lia|rewrite Hc; unfold CBUF; lia]. 2:{ change (16 ^ Z.of_nat 16) with (2 ^ 64). lia. }
  cbn [mbind option_bind]. set (d := set <$> lsd 16 16 v). assert (length d = length (lsd 16 16 v)) as Hld by (unfold d; apply length_fmap).
  pose proof (lsd_length 16 16 v) as Hl. rewrite <- Hld. pose proof (finish_number d [] cbuf) as F. rewrite app_nil_r in F. rewrite F; [|apply set_bytes; [lia|done]|unfold CBUF; lia|done].
  fold d. by rewrite length_reverse.
Qed.

(** ** The text a format denotes *)
Definition pad (padn padc : Z) (t : list Z) : list Z :=
  if 0 <=? padn then replicate (Z.to_nat padn - length t) padc ++ t else t ++ replicate (Z.to_nat (- padn) - length t) padc.
Definition c_string (s : list Z) : option (list Z) := l ← strlen s; Some (take (Z.to_nat l) s).

Definition render_one (c padn padc : Z) (args : list arg) : option (list Z * list arg) :=
  if c =? 108 then None else
  if c =? 115 then
    match args with
    | AStr (Some s) :: args => t ← c_string s; Some (pad padn padc t, args)
    | AStr None :: args => Some (pad padn padc [40; 110; 117; 108; 108; 41], args)
    | _ => None
    end
  else if (c =? 112) || (c =? 105) || (c =? 100) || (c =? 117) || (c =? 120) || (c =? 88) || (c =? 99) then
    match args with
    | AInt x :: args => Some (
        if c =? 112 then [48; 120] ++ pad 16 48 (hexadecimal s_print_xs_set0 (u64 x)) else
        if (c =? 105) || (c =? 100) then pad padn padc (decimal (i32 x)) else
        if c =? 117 then pad padn padc (decimal (u32 x)) else
        if c =? 120 then pad padn padc (hexadecimal s_print_xs_set0 (u32 x)) else
        if c =? 88 then pad padn padc (hexadecimal s_print_xs_set1 (u32 x)) else [u8 x], args)
    | _ => None
    end
  else Some ([37; u8 c], args).

(** A width that does not fit an [int] has no meaning. *)
Fixpoint render (fuel : nat) (fmt : list Z) (args : list arg) : option (list Z) :=
  match fuel, fmt with
  | S fuel, c :: fmt =>
      if c =? 0 then Some [] else
      if c =? 37 then
        '(padn, padc, c, fmt) ← directive fmt;
        '(t, args) ← (if Z.abs padn <? 2 ^ 31 then render_one c padn padc args else None);
        app t <$> render fuel fmt args
      else cons (u8 c) <$> render fuel fmt args
  | _, _ => None
  end.

(** ** Writing it *)
Definition over (out b : list Z) : list Z := out ++ drop (length out) b.

Lemma over_append out x b : take (length out) (over out b) ++ x ++ drop (length out + length x) (over out b) = over (out ++ x) b.
Proof.
  unfold over. rewrite take_app_length. rewrite <- drop_drop, drop_app_length, drop_drop, <- app_assoc, length_app. done.
Qed.
Lemma drop_over out b : drop (length out) (over out b) = drop (length out) b.
Proof. unfold over. apply drop_app_length. Qed.
Lemma length_over out b : (length out <= length b)%nat -> length (over out b) = length b.
Proof. intros. unfold over. rewrite length_app, length_drop. lia. Qed.

Lemma memset_run n : forall a c r, (n <= length r)%nat -> memset_elems 1 n (Z.of_nat (length a)) c (a ++ r) = Some (a ++ replicate n (u8 c) ++ drop n r).
Proof.
  induction n as [|n IH]; intros a c r Hn; [done|]. destruct r as [|x r]; [cbn in Hn; lia|]. cbn [memset_elems]. rewrite poke_in by (rewrite ?length_app; cbn [length]; lia). cbn [mbind option_bind].
  unfold splice. cbn [le_put length]. rewrite Nat2Z.id, take_app_length. rewrite <- drop_drop, drop_app_length. cbn [drop app].
  specialize (IH (a ++ [u8 c]) c r). rewrite length_app in IH. cbn [length] in IH. rewrite <- !app_assoc in IH. cbn [app] in IH.
  replace (Z.of_nat (length a) + Z.of_nat 1) with (Z.of_nat (length a + 1)) by lia. etransitivity; [apply IH; cbn in Hn; lia|]. done.
Qed.

Section writing.
Context (len : Z) (b : list Z) (Hlen : 0 < len <= Z.of_nat (length b)) (Hsmall : len < 2 ^ 31).

Lemma putc_run out ch : Z.of_nat (length out) + 1 < len ->
  putc len ch (Z.of_nat (length out)) (over out b) = Ret (Go (Z.of_nat (length (out ++ [u8 ch]))), over (out ++ [u8 ch]) b).
Proof using All.
  intros Ho. unfold putc. rewrite uwrap_small by lia. rewrite (proj2 (Z.eqb_neq _ _)) by lia.
  assert (exists x r, drop (length out) b = x :: r) as (x & r & Er). { destruct (drop (length out) b) eqn:Ed; [|eauto]. apply (f_equal length) in Ed. rewrite length_drop in Ed. cbn [length] in Ed. lia. }
  rewrite (bind_Ret _ _ _ (over (out ++ [u8 ch]) b) (over out b)); [by rewrite length_app, Nat2Z.inj_add|]. apply load_Some. unfold over at 1. rewrite Er, byte_put_middle. f_equal.
  unfold over. rewrite length_app, <- drop_drop, Er, <- app_assoc. done.
Qed.

Lemma fill_run out c n : (length out + n <= length b)%nat -> fill (Z.of_nat (length out)) c (Z.of_nat n) (over out b) = Ret (tt, over (out ++ replicate n (u8 c)) b).
Proof using All.
  intros Hn. unfold fill. rewrite (bind_Ret _ _ _ (over (out ++ replicate n (u8 c)) b) (over out b)); [done|]. apply load_Some. unfold memset. rewrite Nat2Z.id. unfold over at 1.
  rewrite memset_run by (rewrite length_drop; lia). f_equal. unfold over. by rewrite drop_drop, length_app, length_replicate, <- app_assoc.
Qed.

Lemma copy_run out s t : cstr s t -> (length out + length t <= length b)%nat -> copy (Z.of_nat (length out)) s (Z.of_nat (length t)) (over out b) = Ret (tt, over (out ++ t) b).
Proof using All.
  intros Hs Hn. unfold copy. rewrite (bind_Ret _ _ _ (over (out ++ t) b) (over out b)); [done|]. apply load_Some. rewrite Nat2Z.id.
  rewrite (strncpy_cstr _ _ _ _ Hs) by (rewrite length_drop, length_over; lia). rewrite decide_True by done. cbn. f_equal.
  rewrite Nat2Z.id, firstn_all, drop_drop. apply over_append.
Qed.

Lemma put_pad_run out padn padc l : 0 <= l < 2 ^ 31 -> 0 <= padc < 256 -> padn < 2 ^ 31 -> Z.of_nat (length (out ++ replicate (Z.to_nat (padn - l)) padc)) <= len ->
  put_pad len padn padc l (Z.of_nat (length out)) (over out b) =
    Ret (Go (Z.of_nat (length (out ++ replicate (Z.to_nat (padn - l)) padc))), over (out ++ replicate (Z.to_nat (padn - l)) padc) b).
Proof using All.
  intros Hl Hc Hp Hfit. unfold put_pad. rewrite length_app, length_replicate in Hfit. rewrite (swrap_small 32 l) by (done || lia). destruct (Z.ltb_spec l padn) as [Hlt|Hge].
  - cbv zeta. rewrite (uwrap_small 64 (padn - l)), !uwrap_small by lia. rewrite (proj2 (Z.ltb_lt _ _)) by lia. pose proof (fill_run out padc (Z.to_nat (padn - l)) ltac:(lia)) as E.
    rewrite Z2Nat.id in E by lia. rewrite (bind_Ret _ _ _ _ _ E). rewrite (u8_byte padc Hc), length_app, length_replicate, Nat2Z.inj_add, Z2Nat.id by lia. done.
  - replace (Z.to_nat (padn - l)) with 0%nat by lia. cbn [replicate]. by rewrite app_nil_r.
Qed.

Lemma put_text_run out s t : cstr s t -> Z.of_nat (length (out ++ t)) <= len ->
  put_text len s (Z.of_nat (length t)) (Z.of_nat (length out)) (over out b) = Ret (Go (Z.of_nat (length (out ++ t))), over (out ++ t) b).
Proof using All.
  intros Hs Hfit. unfold put_text. rewrite length_app in *. rewrite !uwrap_small by lia. rewrite (proj2 (Z.ltb_lt _ _)) by lia. rewrite (bind_Ret _ _ _ _ _ (copy_run out s t Hs ltac:(lia))).
  by rewrite Nat2Z.inj_add.
Qed.

Lemma puts_run out padn padc s t : cstr s t -> 0 <= padc < 256 -> - 2 ^ 31 < padn < 2 ^ 31 -> Z.of_nat (length (out ++ pad padn padc t)) <= len ->
  puts len padn padc s (Z.of_nat (length t)) (Z.of_nat (length out)) (over out b) = Ret (Go (Z.of_nat (length (out ++ pad padn padc t))), over (out ++ pad padn padc t) b).
Proof using All.
  intros Hs Hc Hp Hfit. unfold puts, pad in *. destruct (Z.leb_spec 0 padn) as [H0|H0].
  - rewrite app_assoc in *. rewrite length_app in Hfit. replace (Z.to_nat padn - length t)%nat with (Z.to_nat (padn - Z.of_nat (length t))) in * by lia. rewrite length_app in Hfit.
    unfold chain. rewrite (bind_Ret _ _ _ _ _ (put_pad_run out padn padc (Z.of_nat (length t)) ltac:(lia) Hc ltac:(lia) ltac:(rewrite length_app; lia))).
    apply put_text_run; [done|]. rewrite !length_app. lia.
  - rewrite (app_assoc out t) in *. replace (Z.to_nat (- padn) - length t)%nat with (Z.to_nat (- padn - Z.of_nat (length t))) in * by lia. rewrite !length_app in Hfit.
    unfold chain. rewrite (bind_Ret _ _ _ _ _ (put_text_run out s t Hs ltac:(rewrite length_app; lia))). apply put_pad_run; [lia|done|lia|]. rewrite !length_app. lia.
Qed.
End writing.

(** ** Strings in the scratch buffer *)
Lemma strlen_inv s l : strlen s = Some l -> cstr s (take (Z.to_nat l) s) /\ 0 <= l.
Proof.
  revert l. induction s as [|c s IH]; intros l; cbn [strlen]; [done|]. destruct (Z.eqb_spec c 0) as [->|Hc].
  - intros [= <-]. split; [|done]. split; [constructor|]. by exists s.
  - destruct (strlen s) as [k|] eqn:E; [|done]. cbn. intros [= <-]. destruct (IH k eq_refl) as [[Hf [r Hr]] Hk]. split; [|lia].
    replace (Z.to_nat (k + 1)) with (S (Z.to_nat k)) by lia. cbn [take]. split; [by constructor|]. exists r. cbn. by rewrite <- Hr.
Qed.

Lemma decimal_nonzero x : Forall (fun c => c <> 0) (decimal x).
Proof.
  unfold decimal. destruct (x =? 0); [by repeat constructor|]. apply list.Forall_app. split; [destruct (x <? 0); by repeat constructor|]. apply Forall_reverse.
  eapply list.Forall_impl; [apply (set_bytes (Z.add 48) 10); [lia|intros ? ?; lia]|]. cbn. lia.
Qed.
Lemma hexadecimal_nonzero set v : (forall d, 0 <= d < 16 -> 0 < set d < 256) -> Forall (fun c => c <> 0) (hexadecimal set v).
Proof.
  intros Hs. unfold hexadecimal. destruct (v =? 0); [by repeat constructor|]. apply Forall_reverse. eapply list.Forall_impl; [apply (set_bytes set 16); [lia|done]|]. cbn. lia.
Qed.
Lemma set0_byte d : 0 <= d < 16 -> 0 < s_print_xs_set0 d < 256.
Proof. unfold s_print_xs_set0. destruct (Z.ltb_spec d 10); lia. Qed.
Lemma set1_byte d : 0 <= d < 16 -> 0 < s_print_xs_set1 d < 256.
Proof. unfold s_print_xs_set1. destruct (Z.ltb_spec d 10); lia. Qed.
Lemma scratch_cstr t cbuf : Forall (fun c => c <> 0) t -> cstr (scratch t cbuf) t.
Proof. intros Ht. split; [done|]. by eexists. Qed.
Lemma decimal_length x : (length (decimal x) <= 21)%nat.
Proof.
  unfold decimal. destruct (x =? 0); cbn [length]; [lia|]. rewrite length_app, length_reverse, length_fmap. pose proof (lsd_length 10 20 (Z.abs x)). destruct (x <? 0); cbn [length]; lia.
Qed.
Lemma hexadecimal_length set v : (length (hexadecimal set v) <= 16)%nat.
Proof. unfold hexadecimal. destruct (v =? 0); cbn [length]; [lia|]. rewrite length_reverse, length_fmap. apply lsd_length. Qed.
Lemma scratch_length t cbuf : (length t < CBUF)%nat -> length cbuf = CBUF -> length (scratch t cbuf) = CBUF.
Proof. intros Ht Hc. unfold scratch. rewrite length_app. cbn [length]. rewrite length_drop. lia. Qed.

(** ** [vsnprintf] writes the text of its format *)
Section rendering.
Context (len : Z) (b : list Z) (Hlen : 0 < len <= Z.of_nat (length b)) (Hsmall : len < 2 ^ 31).

(** The number conversions. *)
Lemma number_run out padn padc t cbuf (g : list Z -> option (Z * list Z)) args : length cbuf = CBUF -> g cbuf = Some (Z.of_nat (length t), scratch t cbuf) -> Forall (fun c => c <> 0) t ->
  (length t < CBUF)%nat -> 0 <= padc < 256 -> - 2 ^ 31 < padn < 2 ^ 31 -> Z.of_nat (length (out ++ pad padn padc t)) <= len ->
  exists cbuf', ('(clen, cbuf) ← cload (fun _ => g cbuf); f ← puts len padn padc cbuf clen (Z.of_nat (length out)); mret (f, args : list arg, cbuf)) (over out b) =
    Ret ((Go (Z.of_nat (length (out ++ pad padn padc t))), args, cbuf'), over (out ++ pad padn padc t) b) /\ length cbuf' = CBUF.
Proof using All.
  intros Hc Hg Ht Hlt Hp Hn Hfit. exists (scratch t cbuf). split; [|by apply scratch_length].
  rewrite (bind_Ret _ _ _ (Z.of_nat (length t), scratch t cbuf) (over out b)) by (by apply load_Some). cbn beta iota.
  by rewrite (bind_Ret _ _ _ _ _ (puts_run len b Hlen Hsmall out padn padc _ _ (scratch_cstr t cbuf Ht) Hp Hn Hfit)).
Qed.

Lemma u32_range x : 0 <= u32 x < 2 ^ 32. Proof. by apply uwrap_range. Qed.
Lemma i32_range x : - 2 ^ 31 <= i32 x < 2 ^ 31.
Proof. unfold swrap. pose proof (Z.mod_pos_bound x (2 ^ 32) ltac:(lia)). cbv zeta. change (32 - 1) with 31. destruct (Z.ltb_spec (x mod 2 ^ 32) (2 ^ 31)); lia. Qed.
Lemma u64_range x : 0 <= u64 x < 2 ^ 64. Proof. by apply uwrap_range. Qed.

Lemma two_chars_run out x y : Z.of_nat (length (out ++ [u8 x; u8 y])) < len ->
  chain (putc len x (Z.of_nat (length out))) (putc len y) (over out b) = Ret (Go (Z.of_nat (length (out ++ [u8 x; u8 y]))), over (out ++ [u8 x; u8 y]) b).
Proof using All.
  intros Hfit. rewrite length_app in Hfit. cbn [length] in Hfit. unfold chain. rewrite (bind_Ret _ _ _ _ _ (putc_run len b Hlen Hsmall out x ltac:(lia))).
  rewrite (putc_run len b Hlen Hsmall (out ++ [u8 x]) y) by (rewrite length_app; cbn [length]; lia). by rewrite <- !app_assoc.
Qed.

Lemma convert_run c padn padc args args' t cbuf out : render_one c padn padc args = Some (t, args') -> length cbuf = CBUF -> 0 <= padc < 256 -> Z.abs padn < 2 ^ 31 ->
  Z.of_nat (length (out ++ t)) < len ->
  exists cbuf', convert len c padn padc args cbuf (Z.of_nat (length out)) (over out b) = Ret ((Go (Z.of_nat (length (out ++ t))), args', cbuf'), over (out ++ t) b) /\ length cbuf' = CBUF.
Proof using All.
  intros Hr Hc Hpc Hpn Hfit. unfold render_one in Hr. unfold convert. destruct (c =? 108) eqn:E108; [done|]. destruct (c =? 115) eqn:E115.
  { destruct args as [|[[s|]|x] args]; [done| | |done].
    - unfold c_string in Hr. destruct (strlen s) as [l|] eqn:El; [|done]. cbn in Hr. injection Hr as <- <-. destruct (strlen_inv s l El) as [Hs Hl]. exists cbuf. split; [|done].
      rewrite (bind_Ret _ _ _ (Some s, args) (over out b)) by done. cbn beta iota. rewrite bind_Ret with (a := Go (Z.of_nat (length (out ++ pad padn padc (take (Z.to_nat l) s))))) (s' := over (out ++ pad padn padc (take (Z.to_nat l) s)) b); [done|].
      rewrite (bind_Ret _ _ _ l (over out b)) by (by apply load_Some). pose proof (strlen_cstr _ _ Hs) as El'. rewrite El in El'. injection El' as El'. rewrite El' at 1.
      apply (puts_run len b Hlen Hsmall); [done|done|lia|lia].
    - injection Hr as <- <-. exists cbuf. split; [|done]. rewrite (bind_Ret _ _ _ (None, args) (over out b)) by done. cbn beta iota.
      rewrite (bind_Ret _ _ _ _ _ (puts_run len b Hlen Hsmall out padn padc [40; 110; 117; 108; 108; 41; 0] [40; 110; 117; 108; 108; 41]
        ltac:(split; [repeat constructor; discriminate|by exists []]) Hpc ltac:(lia) ltac:(lia))). done. }
  destruct (c =? 112) eqn:E112.
  { destruct args as [|[s|x] args]; [done..|]. cbn [orb] in Hr. injection Hr as <- <-. rewrite (bind_Ret _ _ _ (x, args) (over out b)) by done. cbn beta iota.
    set (t := hexadecimal s_print_xs_set0 (u64 x)) in *. rewrite (app_assoc out [48; 120] (pad 16 48 t) : out ++ 48 :: 120 :: pad 16 48 t = _) in *. pose proof Hfit as Hfit'. rewrite length_app in Hfit'.
    rewrite (bind_Ret _ _ _ _ _ (two_chars_run out 48 120 ltac:(change (u8 48) with 48; change (u8 120) with 120; lia))). change (u8 48) with 48. change (u8 120) with 120. cbn beta iota.
    apply (number_run (out ++ [48; 120]) 16 48 t cbuf (fun cbuf => vsnprintf_xs (u64 x) s_print_xs_set0 cbuf)); [done|by apply vsnprintf_xs_run; [|apply u64_range|apply set0_byte]| | |lia|lia|lia].
    - apply hexadecimal_nonzero, set0_byte.
    - unfold t. pose proof (hexadecimal_length s_print_xs_set0 (u64 x)). unfold CBUF. lia. }
  cbn [orb] in Hr. destruct ((c =? 105) || (c =? 100)) eqn:Ed.
  { destruct args as [|[s|x] args]; [done..|]. cbn [orb] in Hr. injection Hr as <- <-. rewrite (bind_Ret _ _ _ (x, args) (over out b)) by done. cbn beta iota.
    pose proof (i32_range x). pose proof (decimal_length (i32 x)).
    apply (number_run out padn padc _ cbuf (fun cbuf => vsnprintf_ds (i32 x) true true cbuf)); [done|by apply vsnprintf_ds_run; [|lia|]|apply decimal_nonzero|unfold CBUF; lia|done|lia|lia]. }
  cbn [orb] in Hr. destruct (c =? 117) eqn:E117.
  { destruct args as [|[s|x] args]; [done..|]. cbn [orb] in Hr. injection Hr as <- <-. rewrite (bind_Ret _ _ _ (x, args) (over out b)) by done. cbn beta iota.
    pose proof (u32_range x). pose proof (decimal_length (u32 x)).
    apply (number_run out padn padc _ cbuf (fun cbuf => vsnprintf_ds (u32 x) false true cbuf)); [done|apply vsnprintf_ds_run; [done|lia|lia]|apply decimal_nonzero|unfold CBUF; lia|done|lia|lia]. }
  cbn [orb] in Hr. destruct ((c =? 120) || (c =? 88)) eqn:Ex.
  { destruct args as [|[s|x] args]; [done..|]. rewrite (bind_Ret _ _ _ (x, args) (over out b)) by done. cbn beta iota. pose proof (u32_range x) as Hu.
    set (set := if c =? 120 then s_print_xs_set0 else s_print_xs_set1). assert (forall d, 0 <= d < 16 -> 0 < set d < 256) as Hset by (unfold set; destruct (c =? 120); [apply set0_byte|apply set1_byte]).
    assert (t = pad padn padc (hexadecimal set (u32 x)) /\ args = args') as [-> ->].
    { unfold set. destruct (c =? 120) eqn:E120; [cbn [orb] in Hr; by injection Hr as <- <-|]. cbn [orb] in Ex. rewrite Ex in Hr. cbn [orb] in Hr. by injection Hr as <- <-. }
    pose proof (hexadecimal_length set (u32 x)).
    apply (number_run out padn padc _ cbuf (fun cbuf => vsnprintf_xs (u32 x) set cbuf)); [done|by apply vsnprintf_xs_run; [|lia|]|by apply hexadecimal_nonzero|unfold CBUF; lia|done|lia|lia]. }
  cbn [orb] in Hr. destruct (c =? 99) eqn:E99.
  { destruct args as [|[s|x] args]; [done..|]. apply orb_false_elim in Ex as [Ex1 Ex2]. rewrite Ex1, Ex2 in Hr. cbn [orb] in Hr. injection Hr as <- <-. rewrite (bind_Ret _ _ _ (x, args) (over out b)) by done. cbn beta iota.
    exists cbuf. split; [|done]. pose proof Hfit as Hf. rewrite length_app in Hf. cbn [length] in Hf. by rewrite (bind_Ret _ _ _ _ _ (putc_run len b Hlen Hsmall out x ltac:(lia))). }
  injection Hr as <- <-. exists cbuf. split; [|done]. by rewrite (bind_Ret _ _ _ _ _ (two_chars_run out 37 c Hfit)).
Qed.

Lemma directive_padc fmt padn padc c r : directive fmt = Some (padn, padc, c, r) -> 0 <= padc < 256.
Proof.
  unfold directive. destruct (skip_char 48 fmt) as [[[] f1]|]; cbn; [| |done]; (destruct (skip_char 45 f1) as [[m f2]|]; cbn; [|done]); (destruct (pad_digits 0 f2) as [[[p q] f3]|]; cbn; [|done]); intros [= <- <- <- <-]; lia.
Qed.

Lemma format_loop_run fuel : forall fmt args cbuf out t, render fuel fmt args = Some t -> length cbuf = CBUF -> Z.of_nat (length (out ++ t)) < len ->
  format_loop fuel len fmt args cbuf (Z.of_nat (length out)) (over out b) = Ret (Stop (Z.of_nat (length (out ++ t))), over (out ++ t) b).
Proof using All.
  induction fuel as [|fuel IH]; intros fmt args cbuf out t Hr Hc Hfit; [done|]. destruct fmt as [|c fmt]; [done|]. cbn [render format_loop] in *. destruct (c =? 0).
  { injection Hr as <-. by rewrite app_nil_r. }
  destruct (c =? 37).
  - destruct (directive fmt) as [[[[padn padc] d] r]|] eqn:Ed; [|done]. cbn in Hr. rewrite (bind_Ret _ _ _ (padn, padc, d, r) (over out b)) by (by apply load_Some). cbn beta iota.
    destruct (Z.ltb_spec (Z.abs padn) (2 ^ 31)) as [Hp|Hp]; [|done]. destruct (render_one d padn padc args) as [[u args']|] eqn:Eu; [|done]. cbn in Hr.
    destruct (render fuel r args') as [v|] eqn:Ev; [|done]. cbn in Hr. injection Hr as <-. rewrite app_assoc in *. pose proof Hfit as Hf. rewrite length_app in Hf.
    destruct (convert_run d padn padc args args' u cbuf out Eu Hc (directive_padc _ _ _ _ _ Ed) Hp ltac:(lia)) as (cbuf' & E & Hc'). rewrite (bind_Ret _ _ _ _ _ E). cbn beta iota. by apply IH.
  - destruct (render fuel fmt args) as [v|] eqn:Ev; [|done]. cbn in Hr. injection Hr as <-. rewrite (app_assoc out [u8 c] v : out ++ u8 c :: v = _) in *. pose proof Hfit as Hf. rewrite !length_app in Hf. cbn [length] in Hf.
    unfold chain. rewrite (bind_Ret _ _ _ _ _ (putc_run len b Hlen Hsmall out c ltac:(lia))). by apply IH.
Qed.
End rendering.

(** C40: When the text a format denotes is shorter than the buffer's [len] bytes, [vsnprintf]
    writes exactly that text and a NUL, leaves the rest of the buffer alone, faults
    nowhere and returns the length of the text. *)
Theorem vsnprintf_renders cbuf len fmt args b t : length cbuf = CBUF -> 0 < len <= Z.of_nat (length b) -> len < 2 ^ 31 ->
  render (S (length fmt)) fmt args = Some t -> Z.of_nat (length t) < len ->
  vsnprintf cbuf len fmt args b = Ret (Z.of_nat (length t), t ++ 0 :: drop (S (length t)) b).
Proof.
  intros Hc Hlen Hsmall Hr Hfit. unfold vsnprintf. pose proof (format_loop_run len b Hlen Hsmall _ fmt args cbuf [] t Hr Hc Hfit) as E. cbn [length app] in E.
  change (over [] b) with b in E. rewrite (bind_Ret _ _ _ _ _ E).
  assert (exists x r, drop (length t) b = x :: r) as (x & r & Er). { destruct (drop (length t) b) eqn:Ed; [|eauto]. apply (f_equal length) in Ed. rewrite length_drop in Ed. cbn [length] in Ed. lia. }
  assert (over t b = t ++ x :: r) as -> by (unfold over; by rewrite Er). rewrite (bind_Ret _ _ _ (t ++ 0 :: r) (t ++ x :: r)) by (apply load_Some; apply byte_put_middle).
  rewrite swrap_small by lia. replace (drop (S (length t)) b) with r; [done|]. replace (S (length t)) with (length t + 1)%nat by lia. by rewrite <- drop_drop, Er.
Qed.

Lemma vsnprintf_renders_witness : vsnprintf (replicate 64 170) 16 [37; 48; 53; 100; 44; 37; 120; 0] [AInt (-42); AInt 255] (replicate 20 7) = Ret (8, [48; 48; 45; 52; 50; 44; 102; 102; 0] ++ replicate 11 7).
Proof. apply (vsnprintf_renders (replicate 64 170) 16 [37; 48; 53; 100; 44; 37; 120; 0] [AInt (-42); AInt 255] (replicate 20 7) [48; 48; 45; 52; 50; 44; 102; 102]); vm_compute; (reflexivity || (split; (reflexivity || discriminate))). Defined.

(** A text of exactly [len] bytes is not cut: the NUL goes one past the buffer, and what
    follows is written further past it. *)
Theorem vsnprintf_overflows : vsnprintf (replicate 64 0) 4 [37; 115; 0] [AStr (Some [97; 98; 99; 100; 0])] (replicate 4 7) = Fault /\
  vsnprintf (replicate 64 0) 4 [37; 115; 120; 121; 122; 0] [AStr (Some [97; 98; 99; 100; 0])] (replicate 10 7) = Ret (7, [97; 98; 99; 100; 120; 121; 122; 0; 7; 7]).
Proof. split; vm_compute; reflexivity. Qed.

(** ** Printing and parsing *)
Lemma atoi_digits n : forall v tail, 0 <= v < 10 ^ Z.of_nat n -> v < 2 ^ 31 -> atoi_from 0 (reverse (Z.add 48 <$> lsd n 10 v) ++ tail) = atoi_from v tail.
Proof.
  induction n as [|n IH]; intros v tail Hv H31; cbn [lsd]; [cbn in Hv; by replace v with 0 by lia|]. destruct (Z.eqb_spec v 0) as [->|Hv0]; [done|].
  cbn [fmap list_fmap]. rewrite reverse_cons, <- app_assoc. pose proof (Z.div_mod v 10 ltac:(lia)) as Hdm. pose proof (Z.mod_pos_bound v 10 ltac:(lia)) as Hm.
  rewrite Nat2Z.inj_succ, Z.pow_succ_r in Hv by lia. assert (0 <= v / 10 < 10 ^ Z.of_nat n) as Hq by (split; [apply Z.div_pos; lia|apply Z.div_lt_upper_bound; lia]).
  fold (fmap (M:=list) (Z.add 48) (lsd n 10 (v / 10))). rewrite IH by lia. cbn [app atoi_from]. unfold isdigit. rewrite !(proj2 (Z.leb_le _ _)) by lia. cbn [andb].
  rewrite (swrap_small 32 (v / 10 * 10)), swrap_small by lia. f_equal. lia.
Qed.

(** [atoi] reads back the number that the decimal conversion printed. *)
Theorem print_parse_roundtrip x s cbuf : length cbuf = CBUF -> 0 <= x < 2 ^ 31 -> exists c res, vsnprintf_ds x s true cbuf = Some (c, res) /\ atoi res = Some x /\ strlen res = Some c.
Proof.
  intros Hc Hx. eexists _, _. split; [apply vsnprintf_ds_run; [done|lia|lia]|]. split; [|apply strlen_cstr, scratch_cstr, decimal_nonzero].
  unfold atoi, scratch, decimal. destruct (Z.eqb_spec x 0) as [->|Hx0]; [done|]. rewrite (proj2 (Z.ltb_ge x 0)) by lia. rewrite app_nil_l, Z.abs_eq by lia.
  rewrite atoi_digits; [done| |lia]. change (10 ^ Z.of_nat 20) with 100000000000000000000. lia.
Qed.

Lemma print_parse_roundtrip_witness : exists c res, vsnprintf_ds 1234567890 true true (replicate 64 3) = Some (c, res) /\ atoi res = Some 1234567890 /\ strlen res = Some c.
Proof. apply print_parse_roundtrip; [reflexivity|lia]. Defined.
