(* ===== verification/Ext2Dir.v ===== *)
(** * Directories: [fs/ext2/dir.c] and the rest of [fs/ext2/node.c] and [fs/ext2/ext2.c]

    Directory entries lie one after the other in a block: inode number, size of the
    entry, length of the name, type, name.  An access outside the block buffer is a
    fault.  A name is a list of bytes without the NUL. *)

From S2P Require Import Prelude Defs Bytes Strings Vnode Vfs VfsOps Slab Ext2.

Definition d_ino := mk_field 4 0.
Definition d_ent_size := mk_field 2 4.
Definition d_name_length_low := mk_field 1 6.
Definition d_type_indicator := mk_field 1 7.
(** [(n + 3) & ~3]. *)
Definition align4 (n : Z) : Z := Z.land (n + 3) (Z.lnot 3).

Section dir.
(** [addr]: the address of the block buffer on the stack. *)
Context {D : Type} `{BlkIO D} (stack : list Z) (addr : Z).
Abbreviation M := (cmd (ext2 D)).

Definition ent_get (f : field) (offset : Z) (buf : list Z) : M Z := cload (fun _ => peek (f_width f) (offset + f_off f) buf).
Definition ent_put (f : field) (offset x : Z) (buf : list Z) : M (list Z) := cload (fun _ => poke (f_width f) (offset + f_off f) x buf).
(** [ent->name]. *)
Definition ent_name (offset : Z) (buf : list Z) : list Z := drop (Z.to_nat (offset + DIRENT_HEADER)) buf.

(** ** [ext2_dir_insert_inode] *)
(** Look for an entry with room after it: the offset of the new entry, in the changed block. *)
Fixpoint fit_entry (fuel : nat) (size_needed offset : Z) (buf : list Z) : M (option (Z * list Z)) :=
  match fuel with
  | O => cdiverged
  | S fuel =>
      bs ← cgets e_block_size;
      if bs <=? offset then mret None else
      ino ← ent_get d_ino offset buf;
      size_needed_prev ← (if ino =? 0 then mret DIRENT_HEADER
                          else nl ← ent_get d_name_length_low offset buf; mret (DIRENT_HEADER + align4 nl));
      ent_size ← ent_get d_ent_size offset buf;
      cassert (size_needed_prev <=? ent_size);;
      let spare_space := ent_size - size_needed_prev in
      if size_needed <=? spare_space then
        buf ← ent_put d_ent_size offset size_needed_prev buf;
        buf ← ent_put d_ent_size (offset + size_needed_prev) spare_space buf;
        mret (Some (offset + size_needed_prev, buf))
      else fit_entry fuel size_needed (offset + ent_size) buf
  end.

(** The same in [n] blocks from block [i] on. *)
Fixpoint fit_block (n : nat) (p i size_needed : Z) : M (option (Z * Z * list Z)) :=
  match n with
  | O => mret None
  | S n =>
      '(res, buf) ← ext2_read_inode_block p i;
      cassert (res =? 0);;
      o ← fit_entry (S (length buf)) size_needed 0 buf;
      match o with
      | Some (off, buf) => mret (Some (i, off, buf))
      | None => fit_block n p (i + 1) size_needed
      end
  end.

(** Fill in the new entry. *)
Definition fill_entry (off : Z) (name : list Z) (ino : Z) (t : vnode_type) (buf : list Z) : M (list Z) :=
  buf ← ent_put d_ino off ino buf;
  buf ← ent_put d_name_length_low off (Z.of_nat (length name)) buf;
  lim ← ent_get d_name_length_low off buf;
  buf ← cload (fun _ => app (take (Z.to_nat (off + DIRENT_HEADER)) buf) <$> strncpy (ent_name off buf) (name ++ [0]) lim);
  features ← sb_get sb_required_features;
  if negb (Z.land features EXT2_REQ_ENT_TYPE =? 0) then
    match t with
    | VN_REG => ent_put d_type_indicator off 1 buf
    | VN_DIR => ent_put d_type_indicator off 2 buf
    | _ => cpanic
    end
  else ent_put d_type_indicator off 0 buf.

Definition ext2_dir_insert_inode (p at_ino : Z) (name : list Z) (ino : Z) (t : vnode_type) : M Z :=
  let size_needed := align4 (Z.of_nat (length name)) + DIRENT_HEADER in
  bs ← cgets e_block_size;
  size ← i_get i_size_lower p;
  let block_count := size / bs in
  o ← fit_block (Z.to_nat block_count) p 0 size_needed;
  '(inode_changed, index, off, buf) ←
    match o with
    | Some (index, off, buf) => mret (false, index, off, buf)
    | None =>
        res ← ext2_file_resize stack p (u32 (size + bs));
        cassert (res =? 0);;
        buf ← ent_put d_ent_size 0 bs (replicate (Z.to_nat bs) 0);
        mret (true, block_count, 0, buf)
    end;
  buf ← fill_entry off name ino t buf;
  res ← ext2_write_inode_block p buf index;
  cassert (res =? 0);;
  (if (inode_changed : bool) then res ← ext2_write_inode p at_ino; cassert (res =? 0) else mret tt);;
  mret 0.

(** ** [ext2_dir_del_inode] *)
Definition del_entry_at (offset : Z) (prev : option Z) (buf : list Z) : M (list Z) :=
  bs ← cgets e_block_size;
  buf ← ent_put d_ino offset 0 buf;
  ent_size ← ent_get d_ent_size offset buf;
  if ent_size =? bs then mret buf else
  match prev with
  | Some q => ps ← ent_get d_ent_size q buf; ent_put d_ent_size q (ps + ent_size) buf
  | None =>
      cassert (offset =? 0);;
      cassert (ent_size <? bs);;
      let next := offset + ent_size in
      len ← ent_get d_ent_size next buf;
      buf ← cload (fun _ => memmove addr offset next len buf);
      ent_put d_ent_size offset (ent_size + len) buf
  end.

Fixpoint del_entry (fuel : nat) (vn_ino : Z) (vn_name : list Z) (offset : Z) (prev : option Z) (buf : list Z) : M (option (list Z)) :=
  match fuel with
  | O => cdiverged
  | S fuel =>
      bs ← cgets e_block_size;
      if bs <=? offset then mret None else
      ino ← ent_get d_ino offset buf;
      if ino =? vn_ino then
        nl ← ent_get d_name_length_low offset buf;
        c ← cload (fun _ => strncmp (ent_name offset buf) (vn_name ++ [0]) nl);
        cassert (c =? 0);;
        buf ← del_entry_at offset prev buf; mret (Some buf)
      else
        ent_size ← ent_get d_ent_size offset buf;
        del_entry fuel vn_ino vn_name (offset + ent_size) (Some offset) buf
  end.

Fixpoint del_block (n : nat) (p i vn_ino : Z) (vn_name : list Z) : M Z :=
  match n with
  | O => mret (- ENOENT)
  | S n =>
      '(res, buf) ← ext2_read_inode_block p i;
      cassert (res =? 0);;
      o ← del_entry (S (length buf)) vn_ino vn_name 0 None buf;
      match o with
      | Some buf => ext2_write_inode_block p buf i
      | None => del_block n p (i + 1) vn_ino vn_name
      end
  end.

Definition ext2_dir_del_inode (p vn_ino : Z) (vn_name : list Z) : M Z :=
  bs ← cgets e_block_size;
  size ← i_get i_size_lower p;
  del_block (Z.to_nat (size / bs)) p 0 vn_ino vn_name.

(** ** Lookup in a directory *)
(** The inode number of the entry with this name. *)
Fixpoint find_entry (fuel : nat) (name : list Z) (offset : Z) (buf : list Z) : M (option Z) :=
  match fuel with
  | O => cdiverged
  | S fuel =>
      bs ← cgets e_block_size;
      if bs <=? offset then mret None else
      ino ← ent_get d_ino offset buf;
      same ← (if ino =? 0 then mret false else
              nl ← ent_get d_name_length_low offset buf;
              if negb (nl =? Z.of_nat (length name)) then mret false else
              c ← cload (fun _ => strncmp (ent_name offset buf) (name ++ [0]) nl); mret (c =? 0));
      if (same : bool) then mret (Some ino) else
      ent_size ← ent_get d_ent_size offset buf;
      find_entry fuel name (u32 (offset + ent_size)) buf
  end.

(** [inl]: the result of a failed read. *)
Fixpoint find_block (n : nat) (p i : Z) (name : list Z) : M (Z + option Z) :=
  match n with
  | O => mret (inr None)
  | S n =>
      '(res, buf) ← ext2_read_inode_block p i;
      if negb (res =? 0) then mret (inl res) else
      o ← find_entry (S (length buf)) name 0 buf;
      match o with Some ino => mret (inr (Some ino)) | None => find_block n p (i + 1) name end
  end.

(** The part of [ext2_vnode_find] before a result is loaded. *)
Definition ext2_find_ino (t : vnode_type) (p : Z) (name : list Z) : M (Z + option Z) :=
  cassert (bool_decide (t = VN_DIR));;
  cassert (nonnull p);;
  bs ← cgets e_block_size;
  size ← i_get i_size_lower p;
  cassert (Z.of_nat (length name) <? 255);;
  find_block (Z.to_nat (size / bs)) p 0 name.

(** ** Directory listing *)
(** The string [strncpy] and the final NUL leave in [d_name]. *)
Fixpoint name_upto (lim : Z) (l : list Z) : option (list Z) :=
  match l with
  | [] => if lim =? 0 then Some [] else None
  | c :: l => if (lim =? 0) || (c =? 0) then Some [] else cons c <$> name_upto (lim - 1) l
  end.
Record dirent := mk_dirent { de_name : list Z; de_off : Z; de_reclen : Z }.

(** The result, the entry and the position of the open directory. *)
Fixpoint ext2_vnode_readdir (fuel : nat) (p pos : Z) : M (Z * option dirent * Z) :=
  match fuel with
  | O => cdiverged
  | S fuel =>
      size ← i_get i_size_lower p;
      if size <=? pos then mret (0, None, pos) else
      bs ← cgets e_block_size;
      let block_index := u32 (pos / bs) in
      '(res, buf) ← ext2_read_inode_block p block_index;
      if negb (res =? 0) then mret (res, None, pos) else
      let emit pos :=
        let off := pos mod bs in
        nl ← ent_get d_name_length_low off buf;
        features ← sb_get sb_required_features;
        high ← (if Z.land features EXT2_REQ_ENT_TYPE =? 0 then ent_get d_type_indicator off buf else mret 0);
        let name_length := nl + Z.shiftl high 8 in
        name ← cload (fun _ => name_upto name_length (ent_name off buf));
        reclen ← ent_get d_ent_size off buf;
        mret (reclen, Some (mk_dirent name (u32 pos) reclen), pos + reclen) in
      ino ← ent_get d_ino (pos mod bs) buf;
      if negb (ino =? 0) then emit pos else
      ent_size ← ent_get d_ent_size (pos mod bs) buf;
      let pos := pos + ent_size in
      if negb (pos / bs =? block_index) then
        cassert (pos mod bs =? 0);;
        ext2_vnode_readdir fuel p pos
      else
        ino ← ent_get d_ino (pos mod bs) buf;
        cassert (negb (ino =? 0));;
        emit pos
  end.
End dir.

(** ** Nodes: [fs/ext2/node.c] and [fs/ext2/ext2.c]

    The state of the volume and of the virtual file system. *)
Definition bytes_of (s : string) : list Z := (fun a => Z.of_nat (Ascii.nat_of_ascii a)) <$> String.list_ascii_of_string s.

Section nodes.
Context {D : Type} `{BlkIO D} `{Vnode.Slab} (stack : list Z) (addr : Z).
Abbreviation M := (cmd (ext2 D)).
Abbreviation W := (cmd (ext2 D * vfs)).
Definition on_vol {A} (c : M A) : W A := czoom fst (fun e w => (e, w.2)) c.
Definition on_vfs {A} (c : cmd vfs A) : W A := czoom snd (fun v w => (w.1, v)) c.

(** [slab_calloc(data->inode_cache)]. *)
Definition inode_calloc : M Z :=
  e ← cget;
  let p := Vnode.slab_calloc (dom (e_inodes e)) in
  (if nonnull p then store_inode p (replicate (Z.to_nat (e_inode_size e)) 0) else mret tt);;
  mret p.

Definition EXT2_OPS : Z := 0x32.

(** [ext2_vnode_find] with a place for the result: the result and the new node. *)
Definition ext2_vnode_find (at_vn : Z) (name : string) : W (Z * option Z) :=
  cassert (nonnull at_vn);;
  v ← on_vfs (vn at_vn);
  r ← on_vol (ext2_find_ino (v_type v) (v_fs_data v) (bytes_of name));
  match r with
  | inl res => mret (res, None)
  | inr None => mret (- ENOENT, None)
  | inr (Some ino) =>
      p ← on_vol inode_calloc;
      cassert (nonnull p);;
      node ← on_vfs (vnode_create VN_DIR (Some name));
      res ← on_vol (ext2_read_inode p ino);
      (* [kfree] refuses the address of a slab object *)
      if negb (res =? 0) then cpanic else
      nv ← on_vfs (vn node);
      nv ← on_vol (ext2_inode_to_vnode (mk_vnode (v_type nv) (v_name nv) (v_flags nv) (first_child nv) (next_child nv) (v_parent nv) (v_target nv)
        (open_count nv) (v_ino nv) (v_gid nv) (v_uid nv) (v_mode nv) (v_fs v) (v_fs_data nv) (v_dev nv) (v_op nv)) p ino EXT2_OPS);
      on_vfs (vn_update node (fun _ => nv));;
      mret (0, Some node)
  end.

(** [ext2_vnode_find] without one: is there such an entry? *)
Definition ext2_exists (v : vnode) (name : list Z) : M bool :=
  r ← ext2_find_ino (v_type v) (v_fs_data v) name;
  mret match r with inr (Some _) => true | _ => false end.

(** The inode [ext2_vnode_creat] and [ext2_vnode_mkdir] make: its address and number. *)
Definition new_inode (is_dir : bool) (uid gid mode kind links : Z) : M (Z * Z) :=
  p ← inode_calloc;
  if negb (nonnull p) then cpanic else
  ino ← ext2_alloc_inode stack is_dir;
  if ino =? 0 then cpanic else
  now ← cgets e_time; i_put i_mtime p now;;
  mtime ← i_get i_mtime p; i_put i_atime p mtime;;
  mtime ← i_get i_mtime p; i_put i_ctime p mtime;;
  i_put i_uid p uid;;
  i_put i_gid p gid;;
  i_put i_mode p (Z.lor (Z.land mode 0xFFF) kind);;
  i_put i_hard_links p links;;
  mret (p, ino).

Definition check (c : M Z) : M unit := res ← c; cassert (res =? 0).

Definition ext2_vnode_creat (v : vnode) (name : list Z) (uid gid mode : Z) : M Z :=
  let at_inode := v_fs_data v in
  cassert (nonnull at_inode);;
  found ← ext2_exists v name;
  if (found : bool) then mret (- EEXIST) else
  at_mode ← i_get i_mode at_inode;
  if negb (Z.land at_mode 0xF000 =? EXT2_IFDIR) then cpanic else
  '(p, ino) ← new_inode false uid gid mode EXT2_IFREG 1;
  check (ext2_dir_insert_inode stack at_inode (v_ino v) name ino VN_REG);;
  check (ext2_write_inode p ino);;
  mret 0.

Definition ext2_vnode_mkdir (v : vnode) (name : list Z) (uid gid mode : Z) : M Z :=
  let at_inode := v_fs_data v in
  cassert (nonnull at_inode);;
  found ← ext2_exists v name;
  if (found : bool) then mret (- EEXIST) else
  at_mode ← i_get i_mode at_inode;
  if negb (Z.land at_mode 0xF000 =? EXT2_IFDIR) then cpanic else
  '(p, ino) ← new_inode true uid gid mode EXT2_IFDIR 2;
  check (ext2_dir_insert_inode stack p ino [46] ino VN_DIR);;
  check (ext2_dir_insert_inode stack p ino [46; 46] (v_ino v) VN_DIR);;
  check (ext2_dir_insert_inode stack at_inode (v_ino v) name ino VN_DIR);;
  check (ext2_write_inode p ino);;
  links ← i_get i_hard_links at_inode;
  i_put i_hard_links at_inode (links + 1);;
  check (ext2_write_inode at_inode (v_ino v));;
  mret 0.

(** [at_v]: the parent of the node [v]. *)
Definition ext2_vnode_unlink (v at_v : vnode) : M Z :=
  if v_ino v =? 2 then mret (- EPERM) else
  let at_inode := v_fs_data at_v in
  let inode := v_fs_data v in
  cassert (nonnull at_inode && nonnull inode);;
  found ← ext2_exists at_v (bytes_of (v_name v));
  if negb (found : bool) then mret (- ENOENT) else
  check (ext2_dir_del_inode addr at_inode (v_ino v) (bytes_of (v_name v)));;
  mode ← i_get i_mode inode;
  (if Z.land mode 0xF000 =? EXT2_IFDIR then
     links ← i_get i_hard_links at_inode;
     i_put i_hard_links at_inode (links - 1);;
     check (ext2_write_inode at_inode (v_ino at_v))
   else mret tt);;
  check (ext2_file_resize stack inode 0);;
  i_put i_hard_links inode 0;;
  now ← cgets e_time;
  i_put i_dtime inode now;;
  check (ext2_write_inode inode (v_ino v));;
  ext2_free_inode (v_ino v) (bool_decide (v_type v = VN_DIR));;
  mret 0.

(** ** [fs/ext2/ext2.c] *)
Fixpoint read_bgdt (n : nat) (i : Z) (bgdt : list Z) : M (Z * list Z) :=
  match n with
  | O => mret (0, bgdt)
  | S n =>
      bs ← cgets e_block_size;
      '(res, l) ← ext2_read_block (u32 (i + 2));
      if negb (res =? 0) then mret (res, bgdt) else read_bgdt n (i + 1) (splice (u32 (i * bs)) l bgdt)
  end.

(** The file system parameters from the superblock; [bgdt_mem] is what the memory of the
    descriptors holds before they are read. *)
Definition ext2_setup (bgdt_mem : Z -> list Z) : M Z :=
  res ← ext2_read_superblock;
  if negb (res =? 0) then mret res else
  sig ← sb_get sb_signature;
  if negb (sig =? EXT2_SIGNATURE) then mret (- EINVAL) else
  log2 ← sb_get sb_log2_block_size;
  major ← sb_get sb_version_major;
  isz ← (if negb (major =? 0) then sb_get sb_inode_size else mret 128);
  let bs := u32 (Z.shiftl 1024 log2) in
  if isz =? 0 then cfault else
  let ipb := bs / isz in
  per_inodes ← sb_get sb_block_group_inodes;
  if ipb =? 0 then cfault else
  blocks ← sb_get sb_block_count;
  per_blocks ← sb_get sb_block_group_blocks;
  if per_blocks =? 0 then cfault else
  let groups := u32 (blocks + per_blocks - 1) / per_blocks in
  let bgdt_size := u32 (groups * SIZEOF_BGD) in
  if bs =? 0 then cfault else
  let bgdt_blocks := u32 (bgdt_size + bs - 1) / bs in
  cmodify (set_geometry bs isz ipb groups);;
  '(res, bgdt) ← read_bgdt (Z.to_nat bgdt_blocks) 0 (bgdt_mem (u32 (bgdt_blocks * bs)));
  cmodify (set_bgdt bgdt);;
  mret res.

(** The result and the root node. *)
Definition ext2_init (bgdt_mem : Z -> list Z) (fs : Z) : W (Z * option Z) :=
  res ← on_vol (ext2_setup bgdt_mem);
  if negb (res =? 0) then mret (res, None) else
  p ← on_vol inode_calloc;
  cassert (nonnull p);;
  root ← on_vfs (vnode_create VN_DIR None);
  res ← on_vol (ext2_read_inode p 2);
  if negb (res =? 0) then cpanic else
  v ← on_vfs (vn root);
  v ← on_vol (ext2_inode_to_vnode (mk_vnode (v_type v) (v_name v) (v_flags v) (first_child v) (next_child v) (v_parent v) (v_target v) (open_count v)
    (v_ino v) (v_gid v) (v_uid v) (v_mode v) fs (v_fs_data v) (v_dev v) (v_op v)) p 2 EXT2_OPS);
  on_vfs (vn_update root (fun _ => v));;
  mret (0, Some root).
End nodes.
