(* ===== verification/Ext2DirSpec.v ===== *)
(** * Directories are finite maps

    The entries of a directory block form a chain that fills the block.  Lookup, insertion
    and deletion of entries are those of a map from names to inode numbers. *)

From S2P Require Import Prelude Defs Bytes Strings Vnode Vfs VfsOps Slab Ext2 Ext2Alloc Ext2File Ext2Data Ext2Spec Ext2Dir.

(** ** Buffers that agree outside a range *)
Definition agree (buf buf' : list Z) (a b : Z) : Prop :=
  length buf' = length buf /\ forall i : nat, Z.of_nat i < a \/ b <= Z.of_nat i -> buf' !! i = buf !! i.

Section agree.
Implicit Types buf : list Z.

Lemma agree_refl buf a b : agree buf buf a b.
Proof. done. Qed.
Lemma agree_trans buf buf1 buf2 a b : agree buf buf1 a b -> agree buf1 buf2 a b -> agree buf buf2 a b.
Proof. intros [H1 H2] [H3 H4]. split; [congruence|]. intros i Hi. by rewrite H4, H2. Qed.
Lemma agree_weaken buf buf' a b a' b' : agree buf buf' a b -> a' <= a -> b <= b' -> agree buf buf' a' b'.
Proof. intros [H1 H2] Ha Hb. split; [done|]. intros i Hi. apply H2. lia. Qed.

Lemma agree_slice buf buf' a b o m : agree buf buf' a b -> 0 <= o -> o + m <= a \/ b <= o -> slice o m buf' = slice o m buf.
Proof.
  intros [Hl Hi] Ho Hd. unfold slice. apply list_eq. intros i. destruct (decide (Z.of_nat i < m)); [|by rewrite !lookup_take_ge by lia].
  rewrite !lookup_take_lt, !lookup_drop by lia. apply Hi. lia.
Qed.
Lemma agree_peek buf buf' a b w o : agree buf buf' a b -> o + Z.of_nat w <= a \/ b <= o -> peek w o buf' = peek w o buf.
Proof.
  intros Ha Hd. pose proof Ha as [Hl _]. unfold peek, in_buffer. rewrite Hl. case_match eqn:E; [|done]. apply andb_prop in E as [E1%Z.leb_le E2%Z.leb_le].
  by rewrite (agree_slice _ _ _ _ _ _ Ha) by lia.
Qed.
Lemma poke_agree buf buf' w o x : poke w o x buf = Some buf' -> agree buf buf' o (o + Z.of_nat w).
Proof.
  intros Hp. pose proof (poke_length _ _ _ _ _ Hp) as Hl. split; [done|]. intros i Hi. unfold poke in Hp. destruct (in_buffer w o buf) eqn:E; [|done]. apply in_buffer_true in E as [E1 E2].
  injection Hp as <-. rewrite lookup_splice by (rewrite ?length_le_put; lia). rewrite length_le_put. by rewrite decide_False by lia.
Qed.
Lemma splice_agree buf o x : 0 <= o -> o + Z.of_nat (length x) <= Z.of_nat (length buf) -> agree buf (splice o x buf) o (o + Z.of_nat (length x)).
Proof. intros H1 H2. split; [by apply length_splice|]. intros i Hi. rewrite lookup_splice by done. by rewrite decide_False by lia. Qed.
End agree.

Lemma align4_spec n : 0 <= n -> n <= align4 n <= n + 3.
Proof.
  intros Hn. unfold align4. replace (Z.lnot 3) with (Z.lnot (Z.ones 2)) by done. rewrite <- Z.ldiff_land, Z.ldiff_ones_r, Z.shiftl_mul_pow2, Z.shiftr_div_pow2 by lia.
  change (2 ^ 2) with 4. Z.div_mod_to_equations. lia.
Qed.

(** ** Entries *)
Record ent := mk_ent { en_size : Z; en_ino : Z; en_name : list Z }.
(** The bytes an entry needs for itself. *)
Definition en_need (x : ent) : Z := if decide (en_ino x = 0) then 8 else 8 + align4 (Z.of_nat (length (en_name x))).
(** The entry at offset [off]; of one that is not in use only the size counts. *)
Record ent_at (buf : list Z) (off : Z) (x : ent) : Prop := {
  ea_ino : peek 4 off buf = Some (en_ino x);
  ea_size : peek 2 (off + 4) buf = Some (en_size x);
  ea_len : en_ino x <> 0 -> peek 1 (off + 6) buf = Some (Z.of_nat (length (en_name x)));
  ea_name : en_ino x <> 0 -> slice (off + 8) (Z.of_nat (length (en_name x))) buf = en_name x;
  ea_need : en_need x <= en_size x;
  ea_empty : en_ino x = 0 -> en_name x = [];
}.
(** The entries from offset [off] to offset [off']. *)
Fixpoint chain (buf : list Z) (off : Z) (es : list ent) (off' : Z) : Prop :=
  match es with [] => off = off' | x :: es => ent_at buf off x /\ chain buf (off + en_size x) es off' end.
(** A directory block. *)
Definition dir_block (buf : list Z) (es : list ent) : Prop := length buf = 1024%nat /\ chain buf 0 es 1024.

Definition matches (name : list Z) (x : ent) : Prop := en_ino x <> 0 /\ en_name x = name.
#[export] Instance matches_dec name x : Decision (matches name x).
Proof. unfold matches. apply _. Defined.
Fixpoint lookup_name (name : list Z) (es : list ent) : option Z :=
  match es with [] => None | x :: es => if decide (matches name x) then Some (en_ino x) else lookup_name name es end.

Section chains.
Implicit Types (buf name : list Z) (es : list ent).

Lemma en_need_ge x : 8 <= en_need x.
Proof. unfold en_need. case_decide; [lia|]. pose proof (align4_spec (Z.of_nat (length (en_name x))) ltac:(lia)). lia. Qed.
Lemma ent_size_pos buf off x : ent_at buf off x -> 8 <= en_size x.
Proof. intros H. pose proof (en_need_ge x). pose proof (ea_need _ _ _ H). lia. Qed.

Lemma ents_app buf l : forall off r off', chain buf off (l ++ r) off' <-> exists mid, chain buf off l mid /\ chain buf mid r off'.
Proof.
  induction l as [|x l IH]; intros off r off'; cbn [app chain]; [split; [eauto|by intros (? & -> & ?)]|]. rewrite IH. split.
  - intros (H & mid & H1 & H2). eauto.
  - intros (mid & (H & H1) & H2). eauto.
Qed.

Lemma chain_le buf es : forall off off', chain buf off es off' -> off <= off'.
Proof. induction es as [|x es IH]; intros off off'; cbn [chain]; [lia|]. intros [H Hc]. pose proof (ent_size_pos _ _ _ H). specialize (IH _ _ Hc). lia. Qed.

Lemma ent_at_agree buf buf' off x a b : 0 <= off -> agree buf buf' a b -> off + en_need x <= a \/ b <= off -> ent_at buf off x -> ent_at buf' off x.
Proof.
  intros Ho Ha Hd [H1 H2 H3 H4 H5 H6]. pose proof (en_need_ge x). split; try done.
  - rewrite (agree_peek _ _ _ _ _ _ Ha) by lia. done.
  - rewrite (agree_peek _ _ _ _ _ _ Ha) by lia. done.
  - intros Hi. rewrite (agree_peek _ _ _ _ _ _ Ha) by lia. by apply H3.
  - intros Hi. unfold en_need in Hd. rewrite decide_False in Hd by done. pose proof (align4_spec (Z.of_nat (length (en_name x))) ltac:(lia)).
    rewrite (agree_slice _ _ _ _ _ _ Ha) by lia. by apply H4.
Qed.

Lemma ents_agree buf buf' a b es : agree buf buf' a b -> forall off off', 0 <= off -> off' <= a \/ b <= off -> chain buf off es off' -> chain buf' off es off'.
Proof.
  intros Ha. induction es as [|x es IH]; intros off off' Ho Hd; cbn [chain]; [done|]. intros [H Hc]. pose proof (ent_size_pos _ _ _ H). pose proof (chain_le _ _ _ _ Hc). pose proof (ea_need _ _ _ H).
  split; [eapply (ent_at_agree _ _ _ _ _ _ Ho Ha); [|done]; lia|]. apply IH; [lia| |done]. lia.
Qed.

Lemma strncmp_name (x r name : list Z) : length x = length name -> Forall (fun c => c <> 0) name ->
  exists c, strncmp (x ++ r) (name ++ [0]) (Z.of_nat (length name)) = Some c /\ (c = 0 <-> x = name).
Proof.
  intros Hl Hn. revert x Hl. induction Hn as [|y name Hy Hn IH]; intros [|a x] Hl; cbn in Hl; try lia; [exists 0; split; [by destruct r|done]|].
  cbn [app strncmp length]. rewrite (proj2 (Z.eqb_neq (Z.of_nat (S (length name))) 0)) by lia. rewrite (proj2 (Z.eqb_neq y 0) Hy), andb_false_r.
  destruct (Z.eqb_spec a y) as [->|Hne]; [|exists (-1); split; [done|split; [done|by intros [= ?]]]]. destruct (IH x ltac:(lia)) as (c & E & Hc). exists c.
  replace (Z.of_nat (S (length name)) - 1) with (Z.of_nat (length name)) by lia. split; [done|]. rewrite Hc. split; [by intros ->|by intros [= ->]].
Qed.

Lemma strncmp_entry buf off x name : length buf = 1024%nat -> 0 <= off -> ent_at buf off x -> en_ino x <> 0 -> length (en_name x) = length name -> Forall (fun c => c <> 0) name ->
  exists c, strncmp (ent_name off buf) (name ++ [0]) (Z.of_nat (length name)) = Some c /\ (c = 0 <-> en_name x = name).
Proof.
  intros Hl Ho H Hi Hlen Hn. pose proof (ea_name _ _ _ H Hi) as En. unfold ent_name, DIRENT_HEADER. unfold slice in En. rewrite Nat2Z.id in En.
  rewrite <- (take_drop (length (en_name x)) (drop (Z.to_nat (off + 8)) buf)), En. by apply strncmp_name.
Qed.
End chains.

Section runs.
Context {D : Type} `{BlkIO D}.
Implicit Types (e : ext2 D) (buf name : list Z) (es : list ent).

Lemma ent_get_run e f off buf x : peek (f_width f) (off + f_off f) buf = Some x -> ent_get f off buf e = Ret (x, e).
Proof. intros Hp. unfold ent_get. by apply load_Some. Qed.
Lemma peek_0 w off buf : peek w (off + 0) buf = peek w off buf.
Proof. by rewrite Z.add_0_r. Qed.

(** Reading an entry's header. *)
Lemma ent_ino_run e off buf x : ent_at buf off x -> ent_get d_ino off buf e = Ret (en_ino x, e).
Proof. intros Hx. apply ent_get_run. cbn. rewrite Z.add_0_r. apply Hx. Qed.
Lemma ent_size_run e off buf x : ent_at buf off x -> ent_get d_ent_size off buf e = Ret (en_size x, e).
Proof. intros Hx. apply ent_get_run. apply Hx. Qed.
Lemma ent_len_run e off buf x : ent_at buf off x -> en_ino x <> 0 -> ent_get d_name_length_low off buf e = Ret (Z.of_nat (length (en_name x)), e).
Proof. intros Hx Hi. apply ent_get_run. by apply Hx. Qed.

Lemma find_entry_run e buf name (fuel : nat) : e_block_size e = 1024 -> length buf = 1024%nat -> Forall (fun c => c <> 0) name -> forall off es, 0 <= off -> chain buf off es 1024 ->
  1024 - off < Z.of_nat fuel -> find_entry fuel name off buf e = Ret (lookup_name name es, e).
Proof.
  intros Hbs Hl Hn. induction fuel as [|fuel IH]; intros off es Ho Hc Hf; [pose proof (chain_le _ _ _ _ Hc); lia|]. cbn [find_entry].
  rewrite (bind_Ret _ _ e 1024 e) by (unfold cgets; by rewrite Hbs). destruct es as [|x es]; cbn [chain lookup_name] in *.
  { subst off. done. }
  destruct Hc as [Hx Hc]. pose proof (ent_size_pos _ _ _ Hx). pose proof (chain_le _ _ _ _ Hc). rewrite (proj2 (Z.leb_gt 1024 off)) by lia.
  rewrite (bind_Ret _ _ _ _ _ (ent_ino_run e off buf x Hx)).
  assert (forall (b : bool), b = bool_decide (matches name x) -> (if b then mret (Some (en_ino x)) else ent_size ← ent_get d_ent_size off buf; find_entry fuel name (u32 (off + ent_size)) buf) e =
    Ret (if decide (matches name x) then Some (en_ino x) else lookup_name name es, e)) as Hrest.
  { intros b ->. case_bool_decide; [by rewrite decide_True|]. rewrite decide_False by done. rewrite (bind_Ret _ _ _ _ _ (ent_size_run e off buf x Hx)).
    rewrite uwrap_small by lia. apply IH; [lia|done|lia]. }
  destruct (Z.eqb_spec (en_ino x) 0) as [Ei|Ei].
  { rewrite (bind_Ret _ _ e false e) by done. apply (Hrest false). symmetry. apply bool_decide_eq_false_2. unfold matches. naive_solver. }
  rewrite (bind_Ret _ _ e (bool_decide (matches name x)) e); [by apply Hrest|]. rewrite (bind_Ret _ _ _ _ _ (ent_len_run e off buf x Hx Ei)).
  destruct (Z.eqb_spec (Z.of_nat (length (en_name x))) (Z.of_nat (length name))) as [Elen|Elen]; cbn [negb].
  - destruct (strncmp_entry buf off x name Hl Ho Hx Ei ltac:(lia) Hn) as (c & E & Hc0). rewrite Elen. rewrite (bind_Ret _ _ e c e) by (by apply load_Some).
    replace (c =? 0) with (bool_decide (matches name x)); [done|]. case_bool_decide as Em; symmetry; [apply Z.eqb_eq, Hc0, Em|].
    apply Z.eqb_neq. intros E0. apply Em. split; [done|by apply Hc0].
  - rewrite bool_decide_eq_false_2; [done|]. intros [_ <-]. done.
Qed.

(** ** Filling in an entry *)
Lemma ent_put_run e f off x buf : 0 <= off + f_off f -> off + f_off f + Z.of_nat (f_width f) <= Z.of_nat (length buf) ->
  exists buf', ent_put f off x buf e = Ret (buf', e) /\ poke (f_width f) (off + f_off f) x buf = Some buf'.
Proof. intros H1 H2. eexists. split; [|by apply poke_in]. unfold ent_put. apply load_Some. by apply poke_in. Qed.

Lemma copy_name off name buf : 0 <= off -> off + 8 + Z.of_nat (length name) <= Z.of_nat (length buf) -> Forall (fun c => c <> 0) name ->
  app (take (Z.to_nat (off + DIRENT_HEADER)) buf) <$> strncpy (ent_name off buf) (name ++ [0]) (Z.of_nat (length name)) = Some (splice (off + 8) name buf).
Proof.
  intros Ho Hl Hn. unfold ent_name, DIRENT_HEADER. rewrite (strncpy_cstr _ _ name) by (try (split; [done|by exists []]); rewrite length_drop; lia). rewrite decide_True by done. cbn [fmap option_fmap option_map].
  unfold splice. by rewrite Nat2Z.id, firstn_all, drop_drop.
Qed.

Lemma dir_fill_run e n buf off name ino t : geometry e n -> length buf = 1024%nat -> 0 <= off -> off + 8 + Z.of_nat (length name) <= 1024 -> (length name < 256)%nat -> Forall (fun c => c <> 0) name ->
  0 <= ino < 2 ^ 32 -> t = VN_REG \/ t = VN_DIR ->
  exists buf', fill_entry off name ino t buf e = Ret (buf', e) /\ agree buf buf' off (off + 8 + Z.of_nat (length name)) /\ peek 4 off buf' = Some ino /\ peek 2 (off + 4) buf' = peek 2 (off + 4) buf /\
    peek 1 (off + 6) buf' = Some (Z.of_nat (length name)) /\ slice (off + 8) (Z.of_nat (length name)) buf' = name.
Proof.
  intros Hg Hl Ho Hfit Hlen Hn Hino Ht. destruct (ent_put_run e d_ino off ino buf) as (b1 & E1 & P1); [cbn; lia|cbn; lia|]. cbn in P1. rewrite Z.add_0_r in P1.
  pose proof (poke_length _ _ _ _ _ P1) as L1. destruct (ent_put_run e d_name_length_low off (Z.of_nat (length name)) b1) as (b2 & E2 & P2); [cbn; lia|cbn; lia|]. cbn in P2.
  pose proof (poke_length _ _ _ _ _ P2) as L2. pose proof (peek_poke_eq _ _ _ _ _ P2) as V2. rewrite uwrap_small in V2 by (change (2 ^ (8 * Z.of_nat 1)) with 256; lia).
  set (b3 := splice (off + 8) name b2). assert (length b3 = 1024%nat) as L3 by (unfold b3; rewrite length_splice; lia).
  assert (agree b2 b3 (off + 8) (off + 8 + Z.of_nat (length name))) as A3 by (apply splice_agree; lia).
  set (tv := if negb (Z.land (sbv e sb_required_features) EXT2_REQ_ENT_TYPE =? 0) then match t with VN_REG => 1 | _ => 2 end else 0).
  destruct (ent_put_run e d_type_indicator off tv b3) as (b4 & E4 & P4); [cbn; lia|cbn; lia|]. cbn in P4. pose proof (poke_agree _ _ _ _ _ P1) as A1. pose proof (poke_agree _ _ _ _ _ P2) as A2.
  pose proof (poke_agree _ _ _ _ _ P4) as A4. change (Z.of_nat 4) with 4 in A1. change (Z.of_nat 1) with 1 in A2, A4. exists b4. split; [|split; [|split; [|split; [|split]]]].
  - unfold fill_entry. rewrite (bind_Ret _ _ _ _ _ E1), (bind_Ret _ _ _ _ _ E2). rewrite (bind_Ret _ _ _ _ _ (ent_get_run e d_name_length_low off b2 _ V2)).
    rewrite (bind_Ret _ _ e b3 e) by (apply load_Some, copy_name; [done|lia|done]). rewrite (bind_Ret _ _ _ _ _ (sb_get_run e n sb_required_features Hg ltac:(split; cbn; lia))).
    unfold tv in E4. destruct (negb _); [|exact E4]. destruct Ht as [->| ->]; exact E4.
  - repeat (eapply agree_trans; [|eapply agree_weaken; [eassumption|lia|lia]]). apply agree_refl.
  - rewrite (agree_peek _ _ _ _ _ _ A4), (agree_peek _ _ _ _ _ _ A3), (agree_peek _ _ _ _ _ _ A2), (peek_poke_eq _ _ _ _ _ P1) by lia. f_equal. apply uwrap_small. done.
  - by rewrite (agree_peek _ _ _ _ _ _ A4), (agree_peek _ _ _ _ _ _ A3), (agree_peek _ _ _ _ _ _ A2), (agree_peek _ _ _ _ _ _ A1) by lia.
  - by rewrite (agree_peek _ _ _ _ _ _ A4), (agree_peek _ _ _ _ _ _ A3) by lia.
  - rewrite (agree_slice _ _ _ _ _ _ A4) by lia. apply slice_splice_eq; lia.
Qed.

(** ** Finding room *)
Definition cut (x : ent) : ent := mk_ent (en_need x) (en_ino x) (en_name x).
Definition room (need : Z) (x : ent) : Prop := en_need x + need <= en_size x.

(** Either no entry has room, or the first that does is cut and a new one follows it. *)
Lemma fit_entry_run e buf need (fuel : nat) : e_block_size e = 1024 -> length buf = 1024%nat -> 8 <= need -> forall off es, 0 <= off -> chain buf off es 1024 -> 1024 - off < Z.of_nat fuel ->
  (Forall (fun x => ~ room need x) es /\ fit_entry fuel need off buf e = Ret (None, e)) \/
  exists l x r o buf', es = l ++ x :: r /\ room need x /\ chain buf off l o /\ fit_entry fuel need off buf e = Ret (Some (o + en_need x, buf'), e) /\
    ent_at buf' o (cut x) /\ agree buf buf' (o + 4) (o + en_need x + 6) /\ peek 2 (o + en_need x + 4) buf' = Some (en_size x - en_need x).
Proof.
  intros Hbs Hl Hneed. induction fuel as [|fuel IH]; intros off es Ho Hc Hf; [pose proof (chain_le _ _ _ _ Hc); lia|]. cbn [fit_entry].
  rewrite (bind_Ret _ _ e 1024 e) by (unfold cgets; by rewrite Hbs). destruct es as [|x es]; cbn [chain] in Hc.
  { subst off. left. split; [constructor|done]. }
  destruct Hc as [Hx Hc]. pose proof (ent_size_pos _ _ _ Hx) as Hpos. pose proof (chain_le _ _ _ _ Hc) as Hle. rewrite (proj2 (Z.leb_gt 1024 off)) by lia. pose proof (ea_need _ _ _ Hx) as Hnd. pose proof (en_need_ge x) as Hge.
  rewrite (bind_Ret _ _ _ _ _ (ent_ino_run e off buf x Hx)). rewrite (bind_Ret _ _ e (en_need x) e).
  2:{ unfold en_need. destruct (Z.eqb_spec (en_ino x) 0) as [Ei|Ei]; [by rewrite decide_True|]. rewrite decide_False by done. by rewrite (bind_Ret _ _ _ _ _ (ent_len_run e off buf x Hx Ei)). }
  rewrite (bind_Ret _ _ _ _ _ (ent_size_run e off buf x Hx)). rewrite (proj2 (Z.leb_le _ _) Hnd). rewrite (bind_Ret _ _ e tt e) by done. cbv zeta.
  destruct (Z.leb_spec need (en_size x - en_need x)) as [Hroom|Hno].
  - right. destruct (ent_put_run e d_ent_size off (en_need x) buf) as (b1 & E1 & P1); [cbn; lia|cbn; lia|]. cbn in P1. pose proof (poke_length _ _ _ _ _ P1) as L1.
    destruct (ent_put_run e d_ent_size (off + en_need x) (en_size x - en_need x) b1) as (b2 & E2 & P2); [cbn; lia|cbn; lia|]. cbn in P2.
    pose proof (poke_agree _ _ _ _ _ P1) as A1. pose proof (poke_agree _ _ _ _ _ P2) as A2. change (Z.of_nat 2) with 2 in A1, A2.
    exists [], x, es, off, b2. split; [done|]. split; [unfold room; lia|]. split; [done|]. split; [by rewrite (bind_Ret _ _ _ _ _ E1), (bind_Ret _ _ _ _ _ E2)|]. split; [|split].
    + assert (agree b1 b2 (off + en_need x + 4) (off + en_need x + 6)) as A2' by (eapply agree_weaken; [exact A2|lia|lia]).
      destruct Hx as [X1 X2 X3 X4 X5 X6]. split; cbn [cut en_ino en_size en_name].
      * rewrite (agree_peek _ _ _ _ _ _ A2'), (agree_peek _ _ _ _ _ _ A1) by lia. done.
      * rewrite (agree_peek _ _ _ _ _ _ A2'), (peek_poke_eq _ _ _ _ _ P1) by lia. f_equal. apply uwrap_small. change (2 ^ (8 * Z.of_nat 2)) with 65536. lia.
      * intros Hi. rewrite (agree_peek _ _ _ _ _ _ A2'), (agree_peek _ _ _ _ _ _ A1) by lia. by apply X3.
      * intros Hi. pose proof (align4_spec (Z.of_nat (length (en_name x))) ltac:(lia)). assert (8 + Z.of_nat (length (en_name x)) <= en_need x) by (unfold en_need; rewrite decide_False by done; lia).
        rewrite (agree_slice _ _ _ _ _ _ A2'), (agree_slice _ _ _ _ _ _ A1) by lia. by apply X4.
      * done.
      * done.
    + eapply agree_trans; eapply agree_weaken; try eassumption; lia.
    + rewrite (peek_poke_eq _ _ _ _ _ P2). f_equal. apply uwrap_small. change (2 ^ (8 * Z.of_nat 2)) with 65536. lia.
  - destruct (IH (off + en_size x) es ltac:(lia) Hc ltac:(lia)) as [[Hall E]|(l & y & r & o & buf' & -> & Hy & Hcl & E & Hcut & Ha & Hp)].
    + left. split; [constructor; [unfold room; lia|done]|done].
    + right. exists (x :: l), y, r, o, buf'. split; [done|]. split; [done|]. split; [by split|]. done.
Qed.
End runs.

(** ** Insertion into a block *)
Section insertion.
Implicit Types (buf name nm : list Z) (es : list ent).

Lemma chain_end buf es : forall off a b, chain buf off es a -> chain buf off es b -> a = b.
Proof. induction es as [|x es IH]; intros off a b; cbn [chain]; [congruence|]. intros [_ H1] [_ H2]. by eapply IH. Qed.

Lemma lookup_name_app nm l r : lookup_name nm (l ++ r) = match lookup_name nm l with Some i => Some i | None => lookup_name nm r end.
Proof. induction l as [|x l IH]; [done|]. cbn [app lookup_name]. by case_decide. Qed.

Definition entry_size name : Z := align4 (Z.of_nat (length name)) + DIRENT_HEADER.
(** What [dir_fill_run] establishes. *)
Record filled buf buf' (o : Z) name (ino : Z) : Prop := {
  fl_agree : agree buf buf' o (o + 8 + Z.of_nat (length name));
  fl_ino : peek 4 o buf' = Some ino;
  fl_size : peek 2 (o + 4) buf' = peek 2 (o + 4) buf;
  fl_len : peek 1 (o + 6) buf' = Some (Z.of_nat (length name));
  fl_name : slice (o + 8) (Z.of_nat (length name)) buf' = name;
}.

Lemma filled_entry buf buf' o name ino size : filled buf buf' o name ino -> peek 2 (o + 4) buf = Some size -> ino <> 0 -> entry_size name <= size -> ent_at buf' o (mk_ent size ino name).
Proof.
  intros [F1 F2 F3 F4 F5] Hs Hi Hsz. split; cbn; try done; [by rewrite F3|]. unfold en_need. cbn. rewrite decide_False by done. unfold entry_size, DIRENT_HEADER in Hsz. lia.
Qed.

Lemma insert_chain buf buf1 buf2 l x r o name ino : dir_block buf (l ++ x :: r) -> chain buf 0 l o -> room (entry_size name) x -> ent_at buf1 o (cut x) ->
  agree buf buf1 (o + 4) (o + en_need x + 6) -> peek 2 (o + en_need x + 4) buf1 = Some (en_size x - en_need x) -> filled buf1 buf2 (o + en_need x) name ino -> ino <> 0 ->
  dir_block buf2 (l ++ cut x :: mk_ent (en_size x - en_need x) ino name :: r).
Proof.
  intros [Hl Hc] Hcl Hroom Hcut Ha Hp Hf Hi. apply ents_app in Hc as (mid & Hm & Hc). pose proof (chain_end _ _ _ _ _ Hm Hcl) as ->. destruct Hc as [Hx Hr]. pose proof (chain_le _ _ _ _ Hcl) as Ho.
  pose proof (fl_agree _ _ _ _ _ Hf) as Hf2. pose proof (en_need_ge x) as Hge. unfold room in Hroom. pose proof (align4_spec (Z.of_nat (length name)) ltac:(lia)) as Hal.
  assert (entry_size name = align4 (Z.of_nat (length name)) + 8) as Hes by done. split; [destruct Ha as [-> _] || destruct Hf2 as [-> _]; destruct Ha as [Ha1 _]; lia|].
  apply ents_app. exists o. split; [eapply (ents_agree _ _ _ _ _ Hf2); [lia|lia|]; eapply (ents_agree _ _ _ _ _ Ha); [lia|lia|done]|].
  split; [eapply (ent_at_agree _ _ _ _ _ _ Ho Hf2); [|done]; left; change (en_need (cut x)) with (en_need x); lia|]. cbn [cut en_size].
  split; [eapply filled_entry; [done|done|done|lia]|]. cbn [en_size]. replace (o + en_need x + (en_size x - en_need x)) with (o + en_size x) by lia.
  eapply (ents_agree _ _ _ _ _ Hf2); [lia|lia|]. eapply (ents_agree _ _ _ _ _ Ha); [lia|lia|done].
Qed.

Lemma insert_lookup l x r y name nm : matches name y -> lookup_name name (l ++ x :: r) = None ->
  lookup_name nm (l ++ cut x :: y :: r) = if decide (nm = name) then Some (en_ino y) else lookup_name nm (l ++ x :: r).
Proof.
  intros Hy Hnone. rewrite !lookup_name_app in *. destruct (lookup_name name l) eqn:E1; [done|]. cbn [lookup_name] in *.
  change (decide (matches name x)) with (decide (matches name x)) in Hnone. destruct (decide (matches name x)) as [|Hx] eqn:Ex; [done|]. destruct (decide (nm = name)) as [->|Hne].
  - rewrite E1. rewrite decide_False by (exact Hx). by rewrite decide_True.
  - destruct (lookup_name nm l); [done|]. destruct (decide (matches nm (cut x))) as [Hm|Hm]; [by rewrite decide_True|]. rewrite (decide_False (P := matches nm y)) by (intros [_ ?]; destruct Hy; congruence).
    by rewrite decide_False.
Qed.
End insertion.

(** ** Directories of several blocks *)
Record dir_ok {D} `{BlkIO D} (e : ext2 D) (n : Z) (f : Z -> list Z) (p : Z) (l bl : list Z) (l1 : Z) (ess : list (list ent)) : Prop := {
  do_file : file_ok e n f p l bl l1 (1024 * Z.of_nat (length bl));
  do_blocks : Forall2 (fun b es => dir_block (f b) es) bl ess;
}.
(** A name the code accepts. *)
Definition name_ok (name : list Z) : Prop := Forall (fun c => c <> 0) name /\ (length name < 255)%nat.

Section directory.
Context {D : Type} `{BlkIO D}.
Implicit Types (e : ext2 D) (name nm : list Z).

Lemma file_dev e n f p l bl l1 size d : file_ok e n f p l bl l1 size -> io_rep d n f -> file_ok (set_dev d e) n f p l bl l1 size.
Proof. intros [F1 F2 F3 F4 F5 F6 F7 F8] Hd. split; try done; [by apply ok_dev|by apply (sg_owned _ _ _ _ _ _ (same_dev e d))]. Qed.

Lemma find_block_run n f p l l1 size name : name_ok name -> forall suf pre ess e, file_ok e n f p l (pre ++ suf) l1 size -> Forall2 (fun b es => dir_block (f b) es) suf ess ->
  exists d, find_block (length suf) p (Z.of_nat (length pre)) name e = Ret (inr (lookup_name name (concat ess)), set_dev d e) /\ io_rep d n f.
Proof.
  intros [Hn _]. induction suf as [|b suf IH]; intros pre ess e Hf Hb; inversion Hb as [|? es ? ess' [Hl Hc] Hb']; subst; clear Hb.
  { exists (e_dev e). split; [cbn; by rewrite set_dev_id|apply Hf]. }
  cbn [length find_block]. destruct (read_inode_block_run e n f p l (pre ++ b :: suf) l1 (length pre) b (fo_ok _ _ _ _ _ _ _ _ Hf) (fo_map _ _ _ _ _ _ _ _ Hf) (fo_owned _ _ _ _ _ _ _ _ Hf)
    (fo_inode _ _ _ _ _ _ _ _ Hf) ltac:(by apply list_lookup_middle)) as (d & E & Hd). rewrite (bind_Ret _ _ _ _ _ E). cbn beta iota. change (negb (0 =? 0)) with false. cbn iota.
  pose proof (file_dev _ _ _ _ _ _ _ _ _ Hf Hd) as Hf'. rewrite (bind_Ret _ _ (set_dev d e) (lookup_name name es) (set_dev d e)).
  2:{ apply find_entry_run; [apply Hf'|done|done|lia|done|rewrite Hl; lia]. }
  cbn [concat]. rewrite lookup_name_app. destruct (lookup_name name es) as [i|]; [by exists d|]. replace (Z.of_nat (length pre) + 1) with (Z.of_nat (length (pre ++ [b]))) by (rewrite length_app; cbn; lia).
  destruct (IH (pre ++ [b]) ess' (set_dev d e)) as (d' & E' & Hd'); [by rewrite <- app_assoc|done|]. exists d'. by split.
Qed.

(** Either no entry of these blocks has room or a block is found. *)
Lemma fit_block_run n f p l l1 size need : 8 <= need -> forall suf pre ess e, file_ok e n f p l (pre ++ suf) l1 size -> Forall2 (fun b es => dir_block (f b) es) suf ess ->
  exists d, io_rep d n f /\
  ((Forall (fun x => ~ room need x) (concat ess) /\ fit_block (length suf) p (Z.of_nat (length pre)) need e = Ret (None, set_dev d e)) \/
   exists k b es1 ess1 ess2 lx x rx o buf', suf !! k = Some b /\ ess = ess1 ++ es1 :: ess2 /\ length ess1 = k /\ es1 = lx ++ x :: rx /\ room need x /\ chain (f b) 0 lx o /\
     fit_block (length suf) p (Z.of_nat (length pre)) need e = Ret (Some (Z.of_nat (length pre + k), o + en_need x, buf'), set_dev d e) /\ 
     ent_at buf' o (cut x) /\ agree (f b) buf' (o + 4) (o + en_need x + 6) /\ peek 2 (o + en_need x + 4) buf' = Some (en_size x - en_need x)).
Proof.
  intros Hneed. induction suf as [|b suf IH]; intros pre ess e Hf Hb; inversion Hb as [|? es ? ess' [Hl Hc] Hb']; subst; clear Hb.
  { exists (e_dev e). split; [apply Hf|]. left. split; [constructor|cbn; by rewrite set_dev_id]. }
  cbn [length fit_block]. destruct (read_inode_block_run e n f p l (pre ++ b :: suf) l1 (length pre) b (fo_ok _ _ _ _ _ _ _ _ Hf) (fo_map _ _ _ _ _ _ _ _ Hf) (fo_owned _ _ _ _ _ _ _ _ Hf)
    (fo_inode _ _ _ _ _ _ _ _ Hf) ltac:(by apply list_lookup_middle)) as (d & E & Hd). rewrite (bind_Ret _ _ _ _ _ E). cbn beta iota. change (0 =? 0) with true. rewrite (bind_Ret _ _ (set_dev d e) tt (set_dev d e)) by done.
  pose proof (file_dev _ _ _ _ _ _ _ _ _ Hf Hd) as Hf'.
  destruct (fit_entry_run (set_dev d e) (f b) need (S (length (f b))) ltac:(apply Hf') Hl Hneed 0 es ltac:(lia) Hc ltac:(rewrite Hl; lia)) as [[Hall E1]|(lx & x & rx & o & buf' & -> & Hroom & Hcl & E1 & Hcut & Ha & Hp)];
    rewrite (bind_Ret _ _ _ _ _ E1).
  - replace (Z.of_nat (length pre) + 1) with (Z.of_nat (length (pre ++ [b]))) by (rewrite length_app; cbn; lia).
    destruct (IH (pre ++ [b]) ess' (set_dev d e) ltac:(by rewrite <- app_assoc) Hb') as (d' & Hd' & [[Hall' E']|(k & c & es1 & ess1 & ess2 & lx & x & rx & o & buf' & Hk & -> & Hlk & -> & Hroom & Hcl & E' & Hrest)]); exists d'; (split; [done|]).
    + left. split; [cbn [concat]; by apply list.Forall_app|]. exact E'.
    + right. exists (S k), c, (lx ++ x :: rx), (es :: ess1), ess2, lx, x, rx, o, buf'. split; [done|]. split; [done|]. split; [cbn; lia|]. split; [done|]. split; [done|]. split; [done|]. split; [|done].
      rewrite E'. rewrite length_app. cbn [length]. by replace (length pre + 1 + k)%nat with (length pre + S k)%nat by lia.
  - exists d. split; [done|]. right. exists 0%nat, b, (lx ++ x :: rx), [], ess', lx, x, rx, o, buf'. repeat (split; [done|]). split; [|done]. by rewrite Nat.add_0_r.
Qed.

Lemma Forall2_upd {A} (P : Z -> A -> Prop) (Q : Z -> A -> Prop) bl (k : nat) b (xs1 : list A) x x' xs2 : NoDup bl -> bl !! k = Some b -> length xs1 = k ->
  Forall2 P bl (xs1 ++ x :: xs2) -> (forall c y, c <> b -> P c y -> Q c y) -> Q b x' -> Forall2 Q bl (xs1 ++ x' :: xs2).
Proof.
  intros Hnd Hk Hlk Hall Hother Hb. apply Forall2_same_length_lookup in Hall as [Hlen Hall]. apply Forall2_same_length_lookup. split; [rewrite Hlen, !length_app; done|].
  intros i c y Hc Hy. destruct (decide (i = k)) as [->|Hne].
  - rewrite <- Hlk, list_lookup_middle in Hy by done. simplify_eq. done.
  - apply Hother; [intros ->; apply Hne; by eapply (NoDup_lookup _ _ _ _ Hnd)|]. eapply Hall; [exact Hc|]. destruct (decide (i < length xs1)%nat).
    + rewrite lookup_app_l in * by lia. done.
    + rewrite lookup_app_r in * by lia. destruct (i - length xs1)%nat eqn:E; [lia|]. done.
Qed.

Lemma dir_block_length buf es : dir_block buf es -> length buf = 1024%nat. Proof. by intros [? _]. Qed.

Lemma file_upd e n f p l bl l1 size (k : nat) b x d : file_ok e n f p l bl l1 size -> bl !! k = Some b -> e2_ok (set_dev d e) n (upd b x f) -> file_ok (set_dev d e) n (upd b x f) p l bl l1 size.
Proof.
  intros [F1 F2 F3 F4 F5 F6 F7 F8] Hk Hok. split; try done.
  - apply map_upd; [done|]. intros ->. pose proof (ow_nodup _ _ _ _ _ F3) as Hnd. apply list.NoDup_cons in Hnd as [Hni _]. apply Hni. by eapply list_elem_of_lookup_2.
  - apply (sg_owned _ _ _ _ _ _ (same_dev e d)), owned_upd; [done|done|by eapply owned_data].
Qed.

Lemma nodup_blocks e n f bl l1 : owned e n f bl l1 -> NoDup bl.
Proof. intros Ho. pose proof (ow_nodup _ _ _ _ _ Ho) as Hnd. by apply list.NoDup_cons in Hnd as [_ ?]. Qed.

Lemma entry_size_ge name : 8 <= entry_size name <= Z.of_nat (length name) + 11.
Proof. unfold entry_size, DIRENT_HEADER. pose proof (align4_spec (Z.of_nat (length name)) ltac:(lia)). lia. Qed.

Lemma dir_size_run e n f p l bl l1 ess : dir_ok e n f p l bl l1 ess -> i_get i_size_lower p e = Ret (1024 * Z.of_nat (length bl), e) /\ e_block_size e = 1024 /\ 1024 * Z.of_nat (length bl) / 1024 = Z.of_nat (length bl) /\ (length bl <= 268)%nat.
Proof.
  intros [Hf _]. split; [|split; [apply Hf|split; [rewrite Z.mul_comm; apply Z.div_mul; lia|apply Hf]]].
  rewrite (i_get_run e i_size_lower p l) by (apply Hf || done || apply (fm_len _ _ _ _ (fo_map _ _ _ _ _ _ _ _ Hf))). by rewrite (fo_size _ _ _ _ _ _ _ _ Hf).
Qed.

(** What insertion and deletion leave of the other files. *)
Definition others_kept e n (f f' : Z -> list Z) (bl : list Z) (l1 : Z) : Prop := forall c, foreign e n f bl l1 c -> f' c = f c.

(** Looking a name up in a directory finds the inode number that its entry holds, or
    nothing when there is none, and always returns. *)
Theorem ext2_find_looks_up e n f p l bl l1 ess name : dir_ok e n f p l bl l1 ess -> name_ok name -> p <> 0 ->
  exists d, ext2_find_ino VN_DIR p name e = Ret (inr (lookup_name name (concat ess)), set_dev d e) /\ dir_ok (set_dev d e) n f p l bl l1 ess.
Proof.
  intros Hd Hname Hp. destruct (dir_size_run _ _ _ _ _ _ _ _ Hd) as (Es & Ebs & Ediv & _). destruct (find_block_run n f p l l1 _ name Hname bl [] ess e (do_file _ _ _ _ _ _ _ _ Hd) (do_blocks _ _ _ _ _ _ _ _ Hd)) as (d & E & Hio).
  exists d. split; [|split; [by apply file_dev; [apply Hd|]|apply Hd]]. unfold ext2_find_ino, nonnull. rewrite !bool_decide_eq_true_2 by done.
  rewrite (bind_Ret _ _ e tt e) by done. rewrite (bind_Ret _ _ e tt e) by done. rewrite (bind_Ret _ _ e 1024 e) by (unfold cgets; by rewrite Ebs). rewrite (bind_Ret _ _ _ _ _ Es).
  rewrite (proj2 (Z.ltb_lt _ _)) by (destruct Hname; lia). rewrite (bind_Ret _ _ e tt e) by done. rewrite Ediv, Nat2Z.id. exact E.
Qed.

(** The new entry goes to offset [o] of block [k]. *)
Lemma insert_at e n f p l bl l1 size (k : nat) b o buf1 name ino t : file_ok e n f p l bl l1 size -> bl !! k = Some b -> length buf1 = 1024%nat -> 0 <= o -> o + 8 + Z.of_nat (length name) <= 1024 ->
  name_ok name -> 0 < ino < 2 ^ 32 -> t = VN_REG \/ t = VN_DIR ->
  exists buf2 d, fill_entry o name ino t buf1 e = Ret (buf2, e) /\ ext2_write_inode_block p buf2 (Z.of_nat k) e = Ret (0, set_dev d e) /\ filled buf1 buf2 o name ino /\ length buf2 = 1024%nat /\
    file_ok (set_dev d e) n (upd b buf2 f) p l bl l1 size.
Proof.
  intros Hf Hk Hl Ho Hfit [Hnz Hlen] Hino Ht. destruct (dir_fill_run e n buf1 o name ino t (ok_geo _ _ _ (fo_ok _ _ _ _ _ _ _ _ Hf)) Hl Ho Hfit ltac:(lia) Hnz ltac:(lia) Ht) as (buf2 & E1 & A & F1 & F2 & F3 & F4).
  assert (length buf2 = 1024%nat) as Hl2 by (destruct A; lia).
  destruct (write_inode_block_run e n f p l bl l1 k b buf2 (fo_ok _ _ _ _ _ _ _ _ Hf) (fo_map _ _ _ _ _ _ _ _ Hf) (fo_owned _ _ _ _ _ _ _ _ Hf) (fo_inode _ _ _ _ _ _ _ _ Hf) Hk Hl2) as (d & E2 & Hok).
  exists buf2, d. split; [done|]. split; [done|]. split; [by split|]. split; [done|]. by eapply file_upd.
Qed.

Lemma insert_here_run e n f p l bl l1 ess1 ess2 (k : nat) b lx x rx o buf1 name ino t : dir_ok e n f p l bl l1 (ess1 ++ (lx ++ x :: rx) :: ess2) -> bl !! k = Some b -> length ess1 = k -> name_ok name -> 0 < ino < 2 ^ 32 -> t = VN_REG \/ t = VN_DIR ->
  lookup_name name (concat (ess1 ++ (lx ++ x :: rx) :: ess2)) = None -> room (entry_size name) x -> chain (f b) 0 lx o -> ent_at buf1 o (cut x) -> agree (f b) buf1 (o + 4) (o + en_need x + 6) ->
  peek 2 (o + en_need x + 4) buf1 = Some (en_size x - en_need x) ->
  exists buf2 d ess', fill_entry (o + en_need x) name ino t buf1 e = Ret (buf2, e) /\ ext2_write_inode_block p buf2 (Z.of_nat k) e = Ret (0, set_dev d e) /\ dir_ok (set_dev d e) n (upd b buf2 f) p l bl l1 ess' /\
    forall nm, lookup_name nm (concat ess') = if decide (nm = name) then Some ino else lookup_name nm (concat (ess1 ++ (lx ++ x :: rx) :: ess2)).
Proof.
  intros Hd Hk Hlk Hname Hino Ht Hnone Hroom Hcl Hcut Ha Hp. pose proof (do_blocks _ _ _ _ _ _ _ _ Hd) as Hbs. pose proof (do_file _ _ _ _ _ _ _ _ Hd) as Hf.
  assert (dir_block (f b) (lx ++ x :: rx)) as Hblk. { eapply (Forall2_lookup_lr _ _ _ _ _ _ Hbs Hk). rewrite <- Hlk. by apply list_lookup_middle. }
  pose proof Hblk as [Hlb Hcb]. apply ents_app in Hcb as (mid & Hm & [Hx Hr]). pose proof (chain_end _ _ _ _ _ Hm Hcl) as ->. pose proof (chain_le _ _ _ _ Hr) as Hle. pose proof (chain_le _ _ _ _ Hcl) as Ho.
  pose proof (en_need_ge x) as Hge. unfold room in Hroom. pose proof (align4_spec (Z.of_nat (length name)) ltac:(lia)) as Hal. assert (entry_size name = align4 (Z.of_nat (length name)) + 8) as Hes by done.
  destruct (insert_at e n f p l bl l1 _ k b (o + en_need x) buf1 name ino t Hf Hk) as (buf2 & d & E1 & E2 & Hfill & Hl2 & Hf2); [destruct Ha; lia|lia|lia|done|done|done|].
  exists buf2, d, (ess1 ++ (lx ++ cut x :: mk_ent (en_size x - en_need x) ino name :: rx) :: ess2). split; [done|]. split; [done|]. split; [split; [done|]|].
  - eapply Forall2_upd; [by eapply nodup_blocks, Hf|exact Hk|exact Hlk|exact Hbs| |].
    + intros c y Hne Hy. by rewrite upd_ne.
    + rewrite upd_eq. eapply insert_chain; try done. lia.
  - intros nm. rewrite !concat_app in *. cbn [concat] in *. rewrite <- !app_assoc in *. cbn [app] in *. rewrite (app_assoc (concat ess1) lx) in *. rewrite (app_assoc (concat ess1) lx).
    apply (insert_lookup (concat ess1 ++ lx) x (rx ++ concat ess2) (mk_ent (en_size x - en_need x) ino name) name nm); [split; [cbn; lia|done]|done].
Qed.

Lemma grow_one e n f p l bl l1 d stack : length stack = 1024%nat -> file_ok e n f p l bl l1 (1024 * Z.of_nat (length bl)) -> io_rep d n f -> (length bl < 268)%nat -> 2 <= sbv e sb_free_blocks ->
  exists e1 f1 k c l1', ext2_file_resize stack p (u32 (1024 * Z.of_nat (length bl) + 1024)) (set_dev d e) = Ret (0, e1) /\
    resized (set_dev d e) e1 n f f1 p l k bl [c] l1 l1' (1024 * Z.of_nat (length (bl ++ [c]))).
Proof.
  intros Hst Hf Hio Hlt Hfree. pose proof (file_dev _ _ _ _ _ _ _ _ _ Hf Hio) as Hf'. set (size' := 1024 * Z.of_nat (length bl) + 1024).
  assert (nblocks size' = Z.of_nat (length bl) + 1) as Hnb. { unfold nblocks, size'. replace (1024 * Z.of_nat (length bl) + 1024 + 1023) with ((Z.of_nat (length bl) + 1) * 1024 + 1023) by lia. rewrite Z.div_add_l by lia. change (1023 / 1024) with 0. lia. }
  destruct (resize_grow_run stack (set_dev d e) n f p l bl l1 _ size' Hst Hf') as (e1 & f1 & k & new & l1' & E & Hrz); [lia|lia| |].
  { rewrite Hnb. unfold grow_cost. replace (Z.to_nat (Z.of_nat (length bl) + 1) - length bl)%nat with 1%nat by lia. change (sbv (set_dev d e) sb_free_blocks) with (sbv e sb_free_blocks). case_decide; lia. }
  pose proof (fo_blocks _ _ _ _ _ _ _ _ (rz_file _ _ _ _ _ _ _ _ _ _ _ _ _ Hrz)) as Hnew. rewrite Hnb, length_app in Hnew. destruct new as [|c [|c' new]]; cbn [length] in Hnew; [lia| |lia].
  exists e1, f1, k, c, l1'. rewrite uwrap_small by lia. split; [exact E|]. replace (1024 * Z.of_nat (length (bl ++ [c]))) with size'; [done|]. unfold size'. rewrite length_app. cbn. lia.
Qed.

(** A block that holds one entry. *)
Lemma single_entry b0 buf name ino : poke 2 4 1024 (replicate 1024 0) = Some b0 -> filled b0 buf 0 name ino -> length buf = 1024%nat -> name_ok name -> ino <> 0 -> dir_block buf [mk_ent 1024 ino name].
Proof.
  intros Hp Hf Hl [_ Hn] Hi. split; [done|]. cbn [chain en_size]. split; [|done]. eapply filled_entry; [done| |done|].
  - pose proof (peek_poke_eq _ _ _ _ _ Hp) as E. exact E.
  - pose proof (entry_size_ge name). lia.
Qed.

Lemma lookup_snoc name es y nm : matches name y -> lookup_name name es = None -> lookup_name nm (es ++ [y]) = if decide (nm = name) then Some (en_ino y) else lookup_name nm es.
Proof.
  intros Hy Hnone. rewrite lookup_name_app. cbn [lookup_name]. destruct (decide (nm = name)) as [->|Hne]; [by rewrite Hnone, decide_True|].
  rewrite decide_False by (intros [_ ?]; destruct Hy; congruence). by destruct (lookup_name nm es).
Qed.

(** The directory grows by a block that holds the new entry. *)
Lemma insert_new_run stack e n f p at_ino l bl l1 ess d name ino t : length stack = 1024%nat -> dir_ok e n f p l bl l1 ess -> io_rep d n f -> inode_no e at_ino -> name_ok name -> 0 < ino < 2 ^ 32 -> t = VN_REG \/ t = VN_DIR ->
  lookup_name name (concat ess) = None -> (length bl < 268)%nat -> 2 <= sbv e sb_free_blocks ->
  exists e1 b0 buf2 d2 e' f' l' bl' l1' ess', ext2_file_resize stack p (u32 (1024 * Z.of_nat (length bl) + 1024)) (set_dev d e) = Ret (0, e1) /\
    ent_put d_ent_size 0 1024 (replicate 1024 0) e1 = Ret (b0, e1) /\ fill_entry 0 name ino t b0 e1 = Ret (buf2, e1) /\ ext2_write_inode_block p buf2 (Z.of_nat (length bl)) e1 = Ret (0, set_dev d2 e1) /\
    ext2_write_inode p at_ino (set_dev d2 e1) = Ret (0, e') /\ dir_ok e' n f' p l' bl' l1' ess' /\
    (forall nm, lookup_name nm (concat ess') = if decide (nm = name) then Some ino else lookup_name nm (concat ess)) /\ others_kept e n f f' bl l1.
Proof.
  intros Hst Hd Hio Hat Hname Hino Ht Hnone Hlt Hfree. pose proof (do_file _ _ _ _ _ _ _ _ Hd) as Hf. destruct (grow_one e n f p l bl l1 d stack Hst Hf Hio Hlt Hfree) as (e1 & f1 & k & c & l1' & E1 & Hrz).
  pose proof (rz_file _ _ _ _ _ _ _ _ _ _ _ _ _ Hrz) as Hf1. destruct (rz_grown _ _ _ _ _ _ _ _ _ _ _ _ _ Hrz) as (e0 & k0 & Hx & Ee). pose proof (fo_owned _ _ _ _ _ _ _ _ (file_dev _ _ _ _ _ _ _ _ _ Hf Hio)) as Ho.
  assert (same_geometry (set_dev d e) e1) as Hs1 by (rewrite Ee; etransitivity; [apply Hx|apply same_inodes]). pose proof (transitivity (same_dev e d) Hs1) as Hs.
  destruct (ent_put_run e1 d_ent_size 0 1024 (replicate 1024 0)) as (b0 & E2 & P0); [cbn; lia|rewrite length_replicate; cbn; lia|]. cbn [d_ent_size f_width f_off] in P0. rewrite Z.add_0_l in P0.
  destruct Hname as [Hnz Hlen]. assert ((bl ++ [c]) !! length bl = Some c) as Hk by (by apply list_lookup_middle).
  destruct (insert_at e1 n f1 p k (bl ++ [c]) l1' _ (length bl) c 0 b0 name ino t Hf1 Hk) as (buf2 & d2 & E3 & E4 & Hfill & Hl2 & Hf2); [rewrite (poke_length _ _ _ _ _ P0); apply length_replicate|lia|lia|by split|done|done|].
  destruct (write_inode_file (set_dev d2 e1) n (upd c buf2 f1) p at_ino k (bl ++ [c]) l1' _ Hf2 ltac:(by apply (sg_inode_no _ _ _ (transitivity Hs (same_dev e1 d2))))) as (l' & e' & f' & E5 & Hw & Hfr).
  assert (forall b, b ∈ bl ++ [c] -> f' b = upd c buf2 f1 b) as Hf'. { intros b Hb. apply Hfr. pose proof (ow_data _ _ _ _ _ (fo_owned _ _ _ _ _ _ _ _ Hf2)) as Hdd. rewrite list.Forall_forall in Hdd. by apply Hdd. }
  pose proof (nodup_blocks _ _ _ _ _ (fo_owned _ _ _ _ _ _ _ _ Hf1)) as Hnd. apply list.NoDup_app in Hnd as (_ & Hdis & _).
  exists e1, b0, buf2, d2, e', f', l', (bl ++ [c]), l1', (ess ++ [[mk_ent 1024 ino name]]). do 5 (split; [done|]). split; [split; [apply Hw|]|split].
  - apply Forall2_app; [|constructor; [|constructor]].
    + apply Forall2_same_length_lookup. pose proof (do_blocks _ _ _ _ _ _ _ _ Hd) as Hbs. apply Forall2_same_length_lookup in Hbs as [Hle Hbs]. split; [done|]. intros i b es Hb Hes.
      apply list_elem_of_lookup_2 in Hb as Hin. rewrite Hf' by (apply elem_of_app; by left). rewrite upd_ne by (intros ->; apply (Hdis c Hin); apply list_elem_of_here).
      rewrite (ex_frame _ _ _ _ _ _ _ _ _ _ _ _ Hx); [by eapply Hbs| |].
      * pose proof (ow_data _ _ _ _ _ Ho) as Hdd. rewrite list.Forall_forall in Hdd. apply (Hdd b Hin).
      * left. intros ->. pose proof (ow_nodup _ _ _ _ _ (ex_owned _ _ _ _ _ _ _ _ _ _ _ _ Hx)) as Hn2. apply list.NoDup_cons in Hn2 as [Hni _]. apply Hni, elem_of_app. by left.
    + rewrite Hf' by (apply elem_of_app; right; apply list_elem_of_here). rewrite upd_eq. eapply single_entry; [done|done|done|by split|lia].
  - intros nm. rewrite concat_app. cbn [concat]. rewrite app_nil_r. apply (lookup_snoc name); [by split; [cbn; lia|]|done].
  - intros x Hxf. destruct (foreign_kept _ _ _ _ _ _ _ _ _ _ _ _ x Ho Hx) as [Efx Hfx]; [split; [by apply (sg_data _ _ _ _ _ (same_dev e d)), Hxf|apply Hxf]|].
    destruct (fw_foreign _ _ _ _ _ _ _ _ _ _ _ _ _ Hw x) as [E6 _].
    + split; [|apply Hfx]. apply (sg_data _ _ _ _ _ (same_dev e1 d2)), (data_keep e1 n f1 c); [apply Hf1|exact (owned_data _ _ _ _ _ _ _ (fo_owned _ _ _ _ _ _ _ _ Hf1) Hk)|].
      apply (sg_data _ _ _ _ _ Hs1), Hfx.
    + rewrite E6, upd_ne; [done|]. destruct Hfx as [_ Hni]. intros ->. apply Hni. apply elem_of_cons. right. apply elem_of_app. right. apply list_elem_of_here.
Qed.

(** C17: Inserting a name that is not there makes lookup find it with the given inode and
    changes no other name, whether an entry had room or the directory grows by a block;
    no block of another file changes. *)
Theorem ext2_insert_extends stack e n f p at_ino l bl l1 ess name ino t : length stack = 1024%nat -> dir_ok e n f p l bl l1 ess -> inode_no e at_ino -> name_ok name -> 0 < ino < 2 ^ 32 -> t = VN_REG \/ t = VN_DIR ->
  lookup_name name (concat ess) = None -> Exists (room (entry_size name)) (concat ess) \/ (length bl < 268)%nat /\ 2 <= sbv e sb_free_blocks ->
  exists e' f' l' bl' l1' ess', ext2_dir_insert_inode stack p at_ino name ino t e = Ret (0, e') /\ dir_ok e' n f' p l' bl' l1' ess' /\
    (forall nm, lookup_name nm (concat ess') = if decide (nm = name) then Some ino else lookup_name nm (concat ess)) /\ others_kept e n f f' bl l1.
Proof.
  intros Hst Hd Hat Hname Hino Ht Hnone Hroom. destruct (dir_size_run _ _ _ _ _ _ _ _ Hd) as (Es & Ebs & Ediv & Hmax). pose proof (do_file _ _ _ _ _ _ _ _ Hd) as Hf. destruct Hname as [Hnz Hlen].
  pose proof (entry_size_ge name) as Hes. destruct (fit_block_run n f p l l1 _ (entry_size name) ltac:(lia) bl [] ess e Hf (do_blocks _ _ _ _ _ _ _ _ Hd)) as (d & Hio & Hcase).
  unfold ext2_dir_insert_inode. cbv zeta. fold (entry_size name). rewrite (bind_Ret _ _ e 1024 e) by (unfold cgets; by rewrite Ebs). rewrite (bind_Ret _ _ _ _ _ Es). rewrite Ediv, Nat2Z.id.
  destruct Hcase as [[Hall E]|(k & b & es1 & ess1 & ess2 & lx & x & rx & o & buf1 & Hk & -> & Hlk & -> & Hrx & Hcl & E & Hcut & Ha & Hp)]; cbn [length app Nat.add] in E; change (Z.of_nat 0) with 0 in E; rewrite (bind_Ret _ _ _ _ _ E).
  - destruct Hroom as [Hex|[Hlt Hfree]]; [exfalso; apply list.Exists_exists in Hex as (x & Hx & Hr); rewrite list.Forall_forall in Hall; by apply (Hall x)|].
    destruct (insert_new_run stack e n f p at_ino l bl l1 ess d name ino t Hst Hd Hio Hat ltac:(by split) Hino Ht Hnone Hlt Hfree) as
      (e1 & b0 & buf2 & d2 & e' & f' & l' & bl' & l1' & ess' & E1 & E2 & E3 & E4 & E5 & Hd' & Hlook & Hoth). exists e', f', l', bl', l1', ess'. split; [|done].
    rewrite (bind_Ret _ _ _ (true, Z.of_nat (length bl), 0, b0) e1). 2:{ rewrite (bind_Ret _ _ _ _ _ E1). change (0 =? 0) with true. rewrite (bind_Ret _ _ e1 tt e1) by done. by rewrite (bind_Ret _ _ _ _ _ E2). }
    cbn beta iota. rewrite (bind_Ret _ _ _ _ _ E3), (bind_Ret _ _ _ _ _ E4). change (0 =? 0) with true. rewrite (bind_Ret _ _ (set_dev d2 e1) tt (set_dev d2 e1)) by done.
    rewrite (bind_Ret _ _ (set_dev d2 e1) tt e'); [done|]. by rewrite (bind_Ret _ _ _ _ _ E5).
  - rewrite (bind_Ret _ _ _ (false, Z.of_nat k, o + en_need x, buf1) (set_dev d e)) by done. cbn beta iota. assert (dir_ok (set_dev d e) n f p l bl l1 (ess1 ++ (lx ++ x :: rx) :: ess2)) as Hd' by (split; [by apply file_dev|apply Hd]).
    destruct (insert_here_run (set_dev d e) n f p l bl l1 ess1 ess2 k b lx x rx o buf1 name ino t Hd' Hk Hlk ltac:(by split) Hino Ht Hnone Hrx Hcl Hcut Ha Hp) as (buf2 & d2 & ess' & E1 & E2 & Hd2 & Hlook).
    exists (set_dev d2 (set_dev d e)), (upd b buf2 f), l, bl, l1, ess'. split; [|split; [done|split; [done|]]].
    + rewrite (bind_Ret _ _ _ _ _ E1), (bind_Ret _ _ _ _ _ E2). done.
    + intros c [_ Hc]. apply upd_ne. intros ->. apply Hc. right. by eapply list_elem_of_lookup_2.
Qed.
End directory.

(** ** Deletion *)
Definition grown (q : ent) (m : Z) : ent := mk_ent (en_size q + m) (en_ino q) (en_name q).
(** The entries of a block after [x] between [l] and [r] is removed. *)
Definition without (l : list ent) (x : ent) (r : list ent) : list ent :=
  match list.last l, r with
  | Some q, _ => removelast l ++ grown q (en_size x) :: r
  | None, y :: r => grown y (en_size x) :: r
  | None, [] => [mk_ent (en_size x) 0 []]
  end.

Section deletion.
Context {D : Type} `{BlkIO D} (addr : Z).
Implicit Types (e : ext2 D) (buf name nm : list Z).

Lemma slice_in_splice o x buf a m : 0 <= o <= a -> 0 <= m -> a + m <= o + Z.of_nat (length x) -> o + Z.of_nat (length x) <= Z.of_nat (length buf) -> slice a m (splice o x buf) = slice (a - o) m x.
Proof.
  intros H1 H2 H3 H4. unfold slice. apply list_eq. intros i. destruct (decide (Z.of_nat i < m)); [|by rewrite !lookup_take_ge by lia].
  rewrite !lookup_take_lt, !lookup_drop by lia. rewrite lookup_splice by lia. rewrite decide_True by lia. f_equal. lia.
Qed.

Lemma ent_at_grown buf buf' off q m : ent_at buf off q -> 0 <= off -> 0 <= m -> en_size q + m <= 1024 -> poke 2 (off + 4) (en_size q + m) buf = Some buf' -> ent_at buf' off (grown q m).
Proof.
  intros Hq Ho Hm Hsz Hp. pose proof (poke_agree _ _ _ _ _ Hp) as A. change (Z.of_nat 2) with 2 in A. destruct Hq as [Q1 Q2 Q3 Q4 Q5 Q6]. pose proof (en_need_ge q).
  split; cbn [grown en_ino en_size en_name].
  - rewrite (agree_peek _ _ _ _ _ _ A) by lia. done.
  - rewrite (peek_poke_eq _ _ _ _ _ Hp). f_equal. apply uwrap_small. change (2 ^ (8 * Z.of_nat 2)) with 65536. lia.
  - intros Hi. rewrite (agree_peek _ _ _ _ _ _ A) by lia. by apply Q3.
  - intros Hi. rewrite (agree_slice _ _ _ _ _ _ A) by lia. by apply Q4.
  - change (en_need (grown q m)) with (en_need q). lia.
  - done.
Qed.

(** The entry before takes the space. *)
Lemma del_at_prev e buf l q x r oq : e_block_size e = 1024 -> dir_block buf (l ++ q :: x :: r) -> chain buf 0 l oq -> 
  exists buf', del_entry_at addr (oq + en_size q) (Some oq) buf e = Ret (buf', e) /\ dir_block buf' (l ++ grown q (en_size x) :: r).
Proof.
  intros Hbs [Hl Hc] Hcl. apply ents_app in Hc as (mid & Hm & Hq & Hx & Hr). pose proof (chain_end _ _ _ _ _ Hm Hcl) as ->. pose proof (chain_le _ _ _ _ Hcl) as Ho. set (o := oq + en_size q) in *.
  pose proof (ent_size_pos _ _ _ Hq) as Hsq. pose proof (ent_size_pos _ _ _ Hx) as Hsx. pose proof (chain_le _ _ _ _ Hr) as Hle. pose proof (ea_need _ _ _ Hq) as Hnq.
  destruct (ent_put_run e d_ino o 0 buf) as (b1 & E1 & P1); [cbn; lia|cbn; lia|]. cbn in P1. rewrite Z.add_0_r in P1. pose proof (poke_agree _ _ _ _ _ P1) as A1. change (Z.of_nat 4) with 4 in A1.
  pose proof (poke_length _ _ _ _ _ P1) as L1. assert (ent_at b1 oq q) as Hq1 by (eapply (ent_at_agree _ _ _ _ _ _ Ho A1); [lia|done]).
  destruct (ent_put_run e d_ent_size oq (en_size q + en_size x) b1) as (b2 & E2 & P2); [cbn; lia|cbn; lia|]. cbn in P2. pose proof (poke_agree _ _ _ _ _ P2) as A2. change (Z.of_nat 2) with 2 in A2.
  exists b2. split.
  - unfold del_entry_at. rewrite (bind_Ret _ _ e 1024 e) by (unfold cgets; by rewrite Hbs). rewrite (bind_Ret _ _ _ _ _ E1).
    rewrite (bind_Ret _ _ _ _ _ (ent_get_run e d_ent_size o b1 (en_size x) ltac:(cbn; rewrite (agree_peek _ _ _ _ _ _ A1) by lia; apply Hx))).
    rewrite (proj2 (Z.eqb_neq (en_size x) 1024)) by lia. by rewrite (bind_Ret _ _ _ _ _ (ent_size_run e oq b1 q Hq1)).
  - split; [rewrite (poke_length _ _ _ _ _ P2); lia|]. apply ents_app. exists oq. split; [|split].
    + eapply (ents_agree _ _ _ _ _ A2); [lia|lia|]. eapply (ents_agree _ _ _ _ _ A1); [lia|lia|done].
    + eapply ent_at_grown; [exact Hq1|lia|lia|lia|done].
    + cbn [grown en_size]. rewrite Z.add_assoc. fold o. eapply (ents_agree _ _ _ _ _ A2); [lia|lia|]. eapply (ents_agree _ _ _ _ _ A1); [lia|lia|done].
Qed.

(** The first entry: the next one moves to its place. *)
Lemma del_at_first e buf x y r : e_block_size e = 1024 -> dir_block buf (x :: y :: r) ->
  exists buf', del_entry_at addr 0 None buf e = Ret (buf', e) /\ dir_block buf' (grown y (en_size x) :: r).
Proof.
  intros Hbs [Hl (Hx & Hy & Hr)]. rewrite Z.add_0_l in *. set (o := en_size x) in *. pose proof (ent_size_pos _ _ _ Hx) as Hsx. pose proof (ent_size_pos _ _ _ Hy) as Hsy. pose proof (chain_le _ _ _ _ Hr) as Hle.
  pose proof (ea_need _ _ _ Hy) as Hny. pose proof (en_need_ge y) as Hge. fold o in Hsx.
  destruct (ent_put_run e d_ino 0 0 buf) as (b1 & E1 & P1); [cbn; lia|cbn; lia|]. cbn in P1. pose proof (poke_agree _ _ _ _ _ P1) as A1. change (Z.of_nat 4) with 4 in A1. pose proof (poke_length _ _ _ _ _ P1) as L1.
  assert (ent_at b1 o y) as Hy1 by (eapply (ent_at_agree buf b1 o y 0 (0 + 4) ltac:(lia) A1); [lia|done]). set (len := en_size y) in *. set (b2 := splice 0 (slice o len b1) b1).
  assert (length (slice o len b1) = Z.to_nat len) as Hls by (apply length_slice; lia). assert (length b2 = 1024%nat) as L2 by (unfold b2; rewrite length_splice; lia).
  assert (forall a m, 0 <= a -> 0 <= m -> a + m <= len -> slice a m b2 = slice (o + a) m b1) as Hsl.
  { intros a m H1 H2 H3. unfold b2. rewrite slice_in_splice by lia. rewrite Z.sub_0_r. apply slice_slice; lia. }
  assert (forall w a, 0 <= a -> a + Z.of_nat w <= len -> peek w a b2 = peek w (o + a) b1) as Hpk.
  { intros w a H1 H2. rewrite !peek_in by lia. by rewrite Hsl by lia. }
  assert (ent_at b2 0 y) as Hy2.
  { destruct Hy1 as [Y1 Y2 Y3 Y4 Y5 Y6]. split; try done.
    - rewrite Hpk, Z.add_0_r by lia. done.
    - rewrite Hpk by lia. done.
    - intros Hi. rewrite Hpk by lia. by apply Y3.
    - intros Hi. unfold en_need in Hny. rewrite decide_False in Hny by done. pose proof (align4_spec (Z.of_nat (length (en_name y))) ltac:(lia)). rewrite Hsl by lia. by apply Y4. }
  destruct (ent_put_run e d_ent_size 0 (o + len) b2) as (b3 & E3 & P3); [cbn; lia|cbn; lia|]. cbn in P3. pose proof (poke_agree _ _ _ _ _ P3) as A3. change (Z.of_nat 2) with 2 in A3.
  exists b3. split.
  - unfold del_entry_at. rewrite (bind_Ret _ _ e 1024 e) by (unfold cgets; by rewrite Hbs). rewrite (bind_Ret _ _ _ _ _ E1).
    rewrite (bind_Ret _ _ _ _ _ (ent_get_run e d_ent_size 0 b1 o ltac:(cbn; rewrite (agree_peek _ _ _ _ _ _ A1) by lia; apply Hx))).
    rewrite (proj2 (Z.eqb_neq o 1024)) by lia. change (0 =? 0) with true. rewrite (bind_Ret _ _ e tt e) by done. rewrite (proj2 (Z.ltb_lt o 1024)) by lia. rewrite (bind_Ret _ _ e tt e) by done. cbv zeta. rewrite Z.add_0_l.
    rewrite (bind_Ret _ _ _ _ _ (ent_size_run e o b1 y Hy1)). fold len. rewrite (bind_Ret _ _ e b2 e) by (apply load_Some, memmove_run; lia). exact E3.
  - split; [rewrite (poke_length _ _ _ _ _ P3); lia|]. cbn [chain]. split; [eapply ent_at_grown; [exact Hy2|lia|lia|fold len; lia|]; fold len; by rewrite (Z.add_comm len o)|].
    cbn [grown en_size]. fold len. rewrite Z.add_0_l, (Z.add_comm len o). eapply (ents_agree _ _ _ _ _ A3); [lia|lia|].
    eapply (ents_agree b1 b2 0 len); [eapply agree_weaken; [apply splice_agree; lia|lia|lia]|lia|lia|]. eapply (ents_agree _ _ _ _ _ A1); [lia|lia|done].
Qed.

(** The only entry. *)
Lemma del_at_only e buf x : e_block_size e = 1024 -> dir_block buf [x] -> exists buf', del_entry_at addr 0 None buf e = Ret (buf', e) /\ dir_block buf' [mk_ent (en_size x) 0 []].
Proof.
  intros Hbs [Hl [Hx Hend]]. cbn in Hend. pose proof (ent_size_pos _ _ _ Hx) as Hsx. destruct (ent_put_run e d_ino 0 0 buf) as (b1 & E1 & P1); [cbn; lia|cbn; lia|]. cbn in P1.
  pose proof (poke_agree _ _ _ _ _ P1) as A1. change (Z.of_nat 4) with 4 in A1. exists b1. split.
  - unfold del_entry_at. rewrite (bind_Ret _ _ e 1024 e) by (unfold cgets; by rewrite Hbs). rewrite (bind_Ret _ _ _ _ _ E1).
    rewrite (bind_Ret _ _ _ _ _ (ent_get_run e d_ent_size 0 b1 (en_size x) ltac:(cbn; rewrite (agree_peek _ _ _ _ _ _ A1) by lia; apply Hx))). by rewrite (proj2 (Z.eqb_eq (en_size x) 1024)) by lia.
  - split; [rewrite (poke_length _ _ _ _ _ P1); lia|]. split; [|done]. split; cbn [en_ino en_size en_name]; try done.
    + change 0 with (0 + 0) at 1. by rewrite (peek_poke_eq _ _ _ _ _ P1).
    + rewrite (agree_peek _ _ _ _ _ _ A1) by lia. apply Hx.
Qed.

(** The entries of this inode or of this name. *)
Definition mentions name (ino : Z) (x : ent) : Prop := en_ino x = ino \/ matches name x.
#[local] Instance mentions_dec name ino x : Decision (mentions name ino x).
Proof. unfold mentions. apply _. Defined.
Definition only_entry name (ino : Z) (es : list ent) : Prop := exists x, filter (mentions name ino) es = [x] /\ en_ino x = ino /\ en_name x = name.

Lemma filter_single {A} (P : A -> Prop) `{!forall x, Decision (P x)} es x : filter P es = [x] -> exists l r, es = l ++ x :: r /\ Forall (fun y => ~ P y) l /\ Forall (fun y => ~ P y) r.
Proof.
  induction es as [|y es IH]; [done|]. rewrite filter_cons. case_decide as Hy.
  - intros [= -> E]. exists [], es. split; [done|]. split; [constructor|]. apply list.Forall_forall. intros z Hz Hp. assert (z ∈ filter P es) as Hin by (by apply list_elem_of_filter). rewrite E in Hin. by apply elem_of_nil in Hin.
  - intros E. destruct (IH E) as (l & r & -> & Hl & Hr). exists (y :: l), r. split; [done|]. split; [by constructor|done].
Qed.
Lemma filter_none {A} (P : A -> Prop) `{!forall x, Decision (P x)} es : filter P es = [] -> Forall (fun y => ~ P y) es.
Proof. intros E. apply list.Forall_forall. intros z Hz Hp. assert (z ∈ filter P es) as Hin by (by apply list_elem_of_filter). rewrite E in Hin. by apply elem_of_nil in Hin. Qed.
Lemma lookup_unmentioned name ino es : Forall (fun y => ~ mentions name ino y) es -> lookup_name name es = None.
Proof. induction 1 as [|y es Hy Hes IH]; [done|]. cbn [lookup_name]. rewrite decide_False; [done|]. intros Hm. apply Hy. by right. Qed.

Lemma lookup_without l x r name nm : matches name x -> lookup_name name l = None -> lookup_name name r = None ->
  lookup_name nm (without l x r) = if decide (nm = name) then None else lookup_name nm (l ++ x :: r).
Proof.
  intros Hx Hl Hr. assert (nm <> name -> ~ matches nm x) as Hnx by (intros Hne [_ ?]; destruct Hx; congruence). unfold without. destruct (list.last l) as [q|] eqn:Eq.
  - apply last_Some in Eq as (l' & ->). rewrite removelast_last. rewrite <- app_assoc. cbn [app]. rewrite !lookup_name_app in *. cbn [lookup_name] in *. change (matches nm (grown q (en_size x))) with (matches nm q). change (en_ino (grown q (en_size x))) with (en_ino q).
    destruct (decide (nm = name)) as [->|Hne].
    + destruct (lookup_name name l'); [done|]. destruct (decide (matches name q)); [done|]. done.
    + destruct (lookup_name nm l'); [done|]. destruct (decide (matches nm q)); [done|]. by rewrite (decide_False (P := matches nm x)) by auto.
  - apply last_None in Eq as ->. cbn [app]. destruct r as [|y r]; cbn [lookup_name] in *.
    + rewrite decide_False by (intros [? _]; done). case_decide; [done|]. by rewrite decide_False by auto.
    + change (matches nm (grown y (en_size x))) with (matches nm y). change (en_ino (grown y (en_size x))) with (en_ino y). destruct (decide (nm = name)) as [->|Hne].
      * destruct (decide (matches name y)); [done|]. done.
      * by rewrite (decide_False (P := matches nm x)) by auto.
Qed.

Lemma del_entry_none e buf ino name (fuel : nat) : e_block_size e = 1024 -> forall off prev es, 0 <= off -> chain buf off es 1024 -> Forall (fun x => en_ino x <> ino) es -> 1024 - off < Z.of_nat fuel ->
  del_entry addr fuel ino name off prev buf e = Ret (None, e).
Proof.
  intros Hbs. induction fuel as [|fuel IH]; intros off prev es Ho Hc Hall Hf; [pose proof (chain_le _ _ _ _ Hc); lia|]. cbn [del_entry].
  rewrite (bind_Ret _ _ e 1024 e) by (unfold cgets; by rewrite Hbs). destruct es as [|x es]; cbn [chain] in Hc; [by subst off|]. destruct Hc as [Hx Hc]. apply list.Forall_cons in Hall as [Hxi Hall].
  pose proof (ent_size_pos _ _ _ Hx). pose proof (chain_le _ _ _ _ Hc). rewrite (proj2 (Z.leb_gt 1024 off)) by lia. rewrite (bind_Ret _ _ _ _ _ (ent_ino_run e off buf x Hx)).
  rewrite (proj2 (Z.eqb_neq _ _) Hxi). rewrite (bind_Ret _ _ _ _ _ (ent_size_run e off buf x Hx)). eapply IH; [lia|done|done|lia].
Qed.

Lemma del_entry_found e buf name (fuel : nat) x r : e_block_size e = 1024 -> length buf = 1024%nat -> Forall (fun c => c <> 0) name -> matches name x -> forall l off prev, 0 <= off -> chain buf off (l ++ x :: r) 1024 ->
  Forall (fun y => en_ino y <> en_ino x) l -> 1024 - off < Z.of_nat fuel ->
  exists o prev', chain buf off l o /\ del_entry addr fuel (en_ino x) name off prev buf e = (buf ← del_entry_at addr o prev' buf; mret (Some buf)) e /\
    (l = [] -> prev' = prev) /\ forall l' q, l = l' ++ [q] -> exists oq, prev' = Some oq /\ chain buf off l' oq /\ o = oq + en_size q.
Proof.
  intros Hbs Hl Hnz [Hxi Hxn]. induction fuel as [|fuel IH]; intros l off prev Ho Hc Hall Hf; [pose proof (chain_le _ _ _ _ Hc); lia|]. cbn [del_entry].
  rewrite (bind_Ret _ _ e 1024 e) by (unfold cgets; by rewrite Hbs). destruct l as [|y l]; cbn [app chain] in Hc; destruct Hc as [Hy Hc]; pose proof (ent_size_pos _ _ _ Hy); pose proof (chain_le _ _ _ _ Hc);
    rewrite (proj2 (Z.leb_gt 1024 off)) by lia; rewrite (bind_Ret _ _ _ _ _ (ent_ino_run e off buf _ Hy)).
  - exists off, prev. split; [done|]. split; [|split; [done|by intros [|? ?] q]]. rewrite Z.eqb_refl. rewrite (bind_Ret _ _ _ _ _ (ent_len_run e off buf x Hy Hxi)), Hxn.
    destruct (strncmp_entry buf off x name Hl Ho Hy Hxi ltac:(by rewrite Hxn) Hnz) as (c & E & Hc0). rewrite (bind_Ret _ _ e c e) by (by apply load_Some). rewrite (proj2 (Z.eqb_eq c 0)) by (by apply Hc0). by rewrite (bind_Ret _ _ e tt e).
  - apply list.Forall_cons in Hall as [Hyi Hall]. rewrite (proj2 (Z.eqb_neq _ _) Hyi). rewrite (bind_Ret _ _ _ _ _ (ent_size_run e off buf y Hy)).
    destruct (IH l (off + en_size y) (Some off) ltac:(lia) Hc Hall ltac:(lia)) as (o & prev' & Hcl & E & Hnil & Hlast). exists o, prev'. split; [by split|]. split; [exact E|]. split; [done|].
    intros l' q Eq. destruct l' as [|z l'].
    + injection Eq as -> ->. exists off. rewrite (Hnil eq_refl). split; [done|]. split; [done|]. by cbn in Hcl.
    + injection Eq as -> ->. destruct (Hlast l' q eq_refl) as (oq & -> & Hq & ->). exists oq. split; [done|]. split; [by split|done].
Qed.

Lemma del_entry_run e buf name l x r : e_block_size e = 1024 -> dir_block buf (l ++ x :: r) -> Forall (fun c => c <> 0) name -> matches name x -> Forall (fun y => en_ino y <> en_ino x) l ->
  exists buf', del_entry addr (S (length buf)) (en_ino x) name 0 None buf e = Ret (Some buf', e) /\ dir_block buf' (without l x r).
Proof.
  intros Hbs Hb Hnz Hx Hall. pose proof Hb as [Hl Hc]. destruct (del_entry_found e buf name (S (length buf)) x r Hbs Hl Hnz Hx l 0 None ltac:(lia) Hc Hall ltac:(rewrite Hl; lia)) as (o & prev' & Hcl & E & Hnil & Hlast).
  unfold without. destruct (list.last l) as [q|] eqn:Eq.
  - apply last_Some in Eq as (l' & ->). rewrite removelast_last. destruct (Hlast l' q eq_refl) as (oq & -> & Hq & ->). rewrite <- app_assoc in Hb.
    destruct (del_at_prev e buf l' q x r oq Hbs Hb Hq) as (buf' & E' & Hb'). exists buf'. split; [|done]. rewrite E. by rewrite (bind_Ret _ _ _ _ _ E').
  - apply last_None in Eq as ->. rewrite (Hnil eq_refl) in E. cbn in Hcl. subst o. destruct r as [|y r].
    + destruct (del_at_only e buf x Hbs Hb) as (buf' & E' & Hb'). exists buf'. split; [|done]. rewrite E. by rewrite (bind_Ret _ _ _ _ _ E').
    + destruct (del_at_first e buf x y r Hbs Hb) as (buf' & E' & Hb'). exists buf'. split; [|done]. rewrite E. by rewrite (bind_Ret _ _ _ _ _ E').
Qed.

Lemma unmentioned_inos name ino es : Forall (fun y => ~ mentions name ino y) es -> Forall (fun y => en_ino y <> ino) es.
Proof. intros Hall. eapply list.Forall_impl; [exact Hall|]. intros y Hy E. apply Hy. by left. Qed.

(** The loop over the blocks: nothing mentions the name, or one entry does. *)
Lemma del_block_run n f p l l1 size name ino : Forall (fun c => c <> 0) name -> ino <> 0 -> forall suf pre ess e, file_ok e n f p l (pre ++ suf) l1 size -> Forall2 (fun b es => dir_block (f b) es) suf ess ->
  (filter (mentions name ino) (concat ess) = [] -> exists d, del_block addr (length suf) p (Z.of_nat (length pre)) ino name e = Ret (- ENOENT, set_dev d e) /\ io_rep d n f) /\
  (only_entry name ino (concat ess) -> exists (k : nat) b buf' d ess1 lx x rx ess2, suf !! k = Some b /\ length ess1 = k /\ ess = ess1 ++ (lx ++ x :: rx) :: ess2 /\ matches name x /\
     Forall (fun y => ~ mentions name ino y) (concat ess1 ++ lx) /\ Forall (fun y => ~ mentions name ino y) (rx ++ concat ess2) /\
     dir_block buf' (without lx x rx) /\ e2_ok (set_dev d e) n (upd b buf' f) /\ del_block addr (length suf) p (Z.of_nat (length pre)) ino name e = Ret (0, set_dev d e)).
Proof.
  intros Hnz Hino. induction suf as [|b suf IH]; intros pre ess e Hf Hb; inversion Hb as [|? es ? ess' Hblk Hb']; subst; clear Hb.
  { split; [|by intros (x & ? & _)]. intros _. exists (e_dev e). split; [cbn; by rewrite set_dev_id|apply Hf]. }
  assert ((pre ++ b :: suf) !! length pre = Some b) as Hpre by (by apply list_lookup_middle). pose proof Hblk as [Hl Hc].
  destruct (read_inode_block_run e n f p l (pre ++ b :: suf) l1 (length pre) b (fo_ok _ _ _ _ _ _ _ _ Hf) (fo_map _ _ _ _ _ _ _ _ Hf) (fo_owned _ _ _ _ _ _ _ _ Hf) (fo_inode _ _ _ _ _ _ _ _ Hf) Hpre) as (d & E & Hd).
  pose proof (file_dev _ _ _ _ _ _ _ _ _ Hf Hd) as Hf'. assert (e_block_size (set_dev d e) = 1024) as Hbs by apply Hf'.
  assert (forall o, del_entry addr (S (length (f b))) ino name 0 None (f b) (set_dev d e) = Ret (o, set_dev d e) -> del_block addr (length (b :: suf)) p (Z.of_nat (length pre)) ino name e =
    match o with Some buf => ext2_write_inode_block p buf (Z.of_nat (length pre)) | None => del_block addr (length suf) p (Z.of_nat (length (pre ++ [b]))) ino name end (set_dev d e)) as Hstep.
  { intros o Eo. cbn [length del_block]. rewrite (bind_Ret _ _ _ _ _ E). cbn beta iota. change (0 =? 0) with true. rewrite (bind_Ret _ _ (set_dev d e) tt (set_dev d e)) by done. rewrite (bind_Ret _ _ _ _ _ Eo).
    destruct o; [done|]. rewrite length_app. cbn [length]. by replace (Z.of_nat (length pre) + 1) with (Z.of_nat (length pre + 1)) by lia. }
  destruct (IH (pre ++ [b]) ess' (set_dev d e) ltac:(by rewrite <- app_assoc) Hb') as [IHn IHf]. cbn [concat]. unfold only_entry. rewrite list.filter_app.
  assert (filter (mentions name ino) es = [] -> del_block addr (length (b :: suf)) p (Z.of_nat (length pre)) ino name e = del_block addr (length suf) p (Z.of_nat (length (pre ++ [b]))) ino name (set_dev d e)) as Hskip.
  { intros Hnone. apply (Hstep None). eapply del_entry_none; [done|lia|exact Hc|by eapply unmentioned_inos, filter_none|rewrite Hl; lia]. }
  split.
  - intros [Hnone1 Hnone2]%app_nil. rewrite (Hskip Hnone1). destruct (IHn Hnone2) as (d' & E' & Hd'). by exists d'.
  - intros (x & Hx & Hxi & Hxn). destruct (filter (mentions name ino) es) as [|y ys] eqn:Ef.
    + destruct IHf as (k & c & buf' & d' & ess1 & lx & x' & rx & ess2 & Hk & Hlk & -> & Hm & Hl1 & Hr1 & Hb2 & Hok' & E'); [by exists x|].
      exists (S k), c, buf', d', (es :: ess1), lx, x', rx, ess2. split; [done|]. split; [cbn; lia|]. split; [done|]. split; [done|]. split; [cbn [concat]; rewrite <- app_assoc; apply list.Forall_app; split; [exact (filter_none _ _ Ef)|done]|].
      split; [done|]. split; [done|]. split; [done|]. rewrite Hskip by done. exact E'.
    + injection Hx as -> [-> Hnone2]%app_nil. destruct (filter_single _ _ _ Ef) as (lx & rx & -> & Hlx & Hrx). assert (matches name x) as Hm by (split; [congruence|done]). rewrite <- Hxi in Hlx.
      destruct (del_entry_run (set_dev d e) (f b) name lx x rx Hbs Hblk Hnz Hm ltac:(by eapply unmentioned_inos)) as (buf' & Eo & Hb2). rewrite Hxi in Eo, Hlx.
      assert (length buf' = 1024%nat) as Hl2 by apply Hb2.
      destruct (write_inode_block_run (set_dev d e) n f p l (pre ++ b :: suf) l1 (length pre) b buf' (fo_ok _ _ _ _ _ _ _ _ Hf') (fo_map _ _ _ _ _ _ _ _ Hf') (fo_owned _ _ _ _ _ _ _ _ Hf') (fo_inode _ _ _ _ _ _ _ _ Hf') Hpre Hl2) as (d2 & E2 & Hok2).
      exists 0%nat, b, buf', d2, [], lx, x, rx, ess'. do 4 (split; [done|]). split; [done|]. split; [apply list.Forall_app; split; [done|exact (filter_none _ _ Hnone2)]|]. split; [done|]. split; [exact Hok2|]. rewrite (Hstep _ Eo). exact E2.
Qed.

(** C18: Deleting the only entry of an inode and a name makes lookup of that name fail and
    changes no other name and no block outside the directory; when nothing mentions the
    inode or the name the result is ENOENT and nothing changes. *)
Theorem ext2_delete_removes e n f p l bl l1 ess name ino : dir_ok e n f p l bl l1 ess -> name_ok name -> ino <> 0 ->
  (only_entry name ino (concat ess) -> exists d f' ess', ext2_dir_del_inode addr p ino name e = Ret (0, set_dev d e) /\ dir_ok (set_dev d e) n f' p l bl l1 ess' /\
     (forall nm, lookup_name nm (concat ess') = if decide (nm = name) then None else lookup_name nm (concat ess)) /\ forall c, c ∉ bl -> f' c = f c) /\
  (filter (mentions name ino) (concat ess) = [] -> exists d, ext2_dir_del_inode addr p ino name e = Ret (- ENOENT, set_dev d e) /\ dir_ok (set_dev d e) n f p l bl l1 ess).
Proof.
  intros Hd [Hnz _] Hino. destruct (dir_size_run _ _ _ _ _ _ _ _ Hd) as (Es & Ebs & Ediv & _). pose proof (do_file _ _ _ _ _ _ _ _ Hd) as Hf. pose proof (do_blocks _ _ _ _ _ _ _ _ Hd) as Hbs.
  assert (ext2_dir_del_inode addr p ino name e = del_block addr (length bl) p 0 ino name e) as Erun.
  { unfold ext2_dir_del_inode. rewrite (bind_Ret _ _ e 1024 e) by (unfold cgets; by rewrite Ebs). rewrite (bind_Ret _ _ _ _ _ Es). by rewrite Ediv, Nat2Z.id. }
  rewrite Erun. destruct (del_block_run n f p l l1 _ name ino Hnz Hino bl [] ess e Hf Hbs) as [Hnone Hone]. split.
  - intros Honly. destruct (Hone Honly) as (k & b & buf' & d & ess1 & lx & x & rx & ess2 & Hk & Hlk & -> & Hm & Hl & Hr & Hb' & Hok & E).
    exists d, (upd b buf' f), (ess1 ++ without lx x rx :: ess2). split; [exact E|]. split; [split; [by eapply file_upd|]|split].
    + eapply Forall2_upd; [by eapply nodup_blocks, Hf|exact Hk|exact Hlk|exact Hbs| |by rewrite upd_eq]. intros c y Hne Hy. by rewrite upd_ne.
    + intros nm. pose proof (lookup_unmentioned _ _ _ Hl) as Hl0. pose proof (lookup_unmentioned _ _ _ Hr) as Hr0. rewrite !concat_app. cbn [concat]. rewrite !lookup_name_app in *.
      destruct (lookup_name name (concat ess1)) eqn:E1; [done|]. destruct (lookup_name name rx) eqn:E2; [done|]. rewrite (lookup_without lx x rx name nm Hm Hl0 E2), lookup_name_app.
      destruct (decide (nm = name)) as [->|Hne]; [by rewrite E1|done].
    + intros c Hc. apply upd_ne. intros ->. apply Hc. by eapply list_elem_of_lookup_2.
  - intros Hf0. destruct (Hnone Hf0) as (d & E & Hio). exists d. split; [exact E|]. split; [by apply file_dev|done].
Qed.
End deletion.

(** ** The root directory of the sample volume *)
Definition sample_entries : list ent := [mk_ent 12 2 [46]; mk_ent 12 2 [46; 46]; mk_ent 1000 5 [102]].

Lemma sample_dir_ok : dir_ok sample_volume 32 sample_block 200 sample_root [6] 0 [sample_entries].
Proof.
  assert (dir_block (sample_block 6) sample_entries) as Hb.
  { split; [vm_compute; reflexivity|]. split; [|split; [|split; [|reflexivity]]]; split; first [vm_compute; reflexivity|vm_compute; discriminate|intros _; vm_compute; reflexivity]. }
  split; [exact (sample_root_ok _ sample_image_rep)|]. constructor; [exact Hb|constructor].
Qed.

Lemma ext2_find_looks_up_witness : exists d, ext2_find_ino VN_DIR 200 [102] sample_volume = Ret (inr (Some 5), set_dev d sample_volume).
Proof.
  destruct (ext2_find_looks_up sample_volume 32 sample_block 200 sample_root [6] 0 [sample_entries] [102] sample_dir_ok) as (d & E & _);
    [split; [repeat constructor; discriminate|cbn; lia]|discriminate|]. exists d. exact E.
Defined.

Lemma ext2_insert_extends_witness : exists e', ext2_dir_insert_inode sample_stack 200 2 [103; 104] 6 VN_REG sample_volume = Ret (0, e').
Proof.
  destruct (ext2_insert_extends sample_stack sample_volume 32 sample_block 200 2 sample_root [6] 0 [sample_entries] [103; 104] 6 VN_REG) as (e' & f' & l' & bl' & l1' & ess' & E & _);
    [reflexivity|exact sample_dir_ok|vm_compute; split; [discriminate|reflexivity]|split; [repeat constructor; discriminate|cbn; lia]|lia|left; reflexivity|reflexivity| |exists e'; exact E].
  right. split; [cbn; lia|vm_compute; discriminate].
Defined.

Lemma ext2_delete_removes_witness : exists d, ext2_dir_del_inode 0 200 5 [102] sample_volume = Ret (0, set_dev d sample_volume).
Proof.
  destruct (ext2_delete_removes 0 sample_volume 32 sample_block 200 sample_root [6] 0 [sample_entries] [102] 5 sample_dir_ok) as [Hone _];
    [split; [repeat constructor; discriminate|cbn; lia]|discriminate|]. destruct Hone as (d & f' & ess' & E & _); [|exists d; exact E].
  exists (mk_ent 1000 5 [102]). split; [reflexivity|]. split; reflexivity.
Defined.
