(* ===== verification/Ext2Blk.v ===== *)
(** * ext2 on the cached block device

    The block layer with its cache promises ext2 what ext2 asks for, so that the theorems
    on files and directories hold for a volume behind the cache. *)

From S2P Require Import Prelude Defs Bytes Phys Interfaces Dll Cache Blk Ext2 Ext2Alloc Ext2File Ext2Data Ext2Spec.

Section cached.
Context {P D : Type} `{PageAlloc P} `{BlkDev D} `{NodeAlloc}.
Context (Hmem : forall m, na_alloc m <> 0).
Abbreviation bst := (bstate P D).

(** A page holds four blocks. *)
Definition cached_rep (s : bst) (n : Z) (f : Z -> list Z) : Prop :=
  exists es, blk_ok s es /\ n = 4 * bd_pages (bs_dev s) /\ forall b, 0 <= b < n -> f b = slice (b mod 4 * 1024) 1024 (view s es (b / 4)).

Lemma block_place b : 0 <= b -> b * 1024 / MM_PAGE_SIZE = b / 4 /\ (b * 1024) mod MM_PAGE_SIZE = b mod 4 * 1024 /\ 0 <= b mod 4 < 4.
Proof.
  intros Hb. unfold MM_PAGE_SIZE. pose proof (Z.mod_pos_bound b 4 ltac:(lia)). split; [change 4096 with (4 * 1024); apply Z.div_mul_cancel_r; lia|]. split; [|done].
  change 4096 with (4 * 1024). apply Z.mul_mod_distr_r; lia.
Qed.

Lemma block_page (s : bst) b n : n = 4 * bd_pages (bs_dev s) -> 0 <= b < n -> 0 <= b / 4 < bd_pages (bs_dev s).
Proof. intros -> Hb. split; [apply Z.div_pos; lia|apply Z.div_lt_upper_bound; lia]. Qed.

Lemma cached_length s n f b : cached_rep s n f -> 0 <= b < n -> length (f b) = 1024%nat.
Proof using Hmem.
  intros (es & Hok & Hn & Hf) Hb. rewrite Hf by done. destruct (block_place b ltac:(lia)) as (_ & _ & Hm). pose proof (view_length s es (b / 4) Hok (block_page s b n Hn Hb)) as Hl.
  rewrite length_slice; [done|lia|lia|]. rewrite Hl. unfold MM_PAGE_SIZE. lia.
Qed.

Lemma one_piece (s : bst) b n : n = 4 * bd_pages (bs_dev s) -> 0 <= b < n ->
  1024 = 0 \/ b * 1024 / MM_PAGE_SIZE + (1024 + MM_PAGE_SIZE - (b * 1024) mod MM_PAGE_SIZE - 1) / (MM_PAGE_SIZE - (b * 1024) mod MM_PAGE_SIZE) <= bd_pages (bs_dev s).
Proof.
  intros Hn Hb. right. destruct (block_place b ltac:(lia)) as (-> & -> & Hm). pose proof (block_page s b n Hn Hb) as Hp.
  assert ((1024 + MM_PAGE_SIZE - b mod 4 * 1024 - 1) / (MM_PAGE_SIZE - b mod 4 * 1024) < 2) by (apply Z.div_lt_upper_bound; unfold MM_PAGE_SIZE; lia). lia.
Qed.

(** A request inside one page. *)
Lemma read_in_page s es off k : blk_ok s es -> 0 <= off -> 0 < k -> off mod MM_PAGE_SIZE + k <= MM_PAGE_SIZE -> off / MM_PAGE_SIZE < bd_pages (bs_dev s) ->
  exists s' es', blk_read true off k s = Ret ((k, slice (off mod MM_PAGE_SIZE) k (view s es (off / MM_PAGE_SIZE))), s') /\ blk_ok s' es' /\ same_view s es s' es'.
Proof using Hmem.
  intros Hok Ho Hk Hfit Hpg. set (bo := off mod MM_PAGE_SIZE) in *. pose proof (Z.mod_pos_bound off MM_PAGE_SIZE ltac:(done)) as Hbo. fold bo in Hbo.
  assert ((k + MM_PAGE_SIZE - bo - 1) / (MM_PAGE_SIZE - bo) < 2) as Hone by (apply Z.div_lt_upper_bound; lia).
  destruct (blk_read_loop_run Hmem (S (Z.to_nat k)) s es off k (off / MM_PAGE_SIZE) [] Hok) as (s' & es' & E & Hok' & Hv); [done|lia|apply Z.div_pos; done|right; fold bo; lia|].
  exists s', es'. split; [|done]. unfold blk_read. rewrite (bind_Ret _ _ s (page_size (bs_cache s)) s) by done. rewrite (cs_page_size _ _ (proj1 Hok)), (bind_Ret _ _ _ _ _ E).
  cbn [read_pieces app]. fold bo. rewrite bool_decide_eq_false_2 by lia. rewrite Z.min_r by lia. destruct (Z.to_nat k) as [|fuel] eqn:Ef; [lia|]. cbn [read_pieces].
  rewrite bool_decide_eq_true_2 by lia. by rewrite app_nil_r.
Qed.

Lemma write_in_page s es off buf : blk_ok s es -> 0 <= off -> (0 < length buf)%nat -> off mod MM_PAGE_SIZE + Z.of_nat (length buf) <= MM_PAGE_SIZE -> off / MM_PAGE_SIZE < bd_pages (bs_dev s) ->
  exists s' es', blk_write true off buf s = Ret (Z.of_nat (length buf), s') /\ blk_ok s' es' /\ bd_pages (bs_dev s') = bd_pages (bs_dev s) /\ forall a, 0 <= a < bd_pages (bs_dev s) ->
    view s' es' a = if decide (a = off / MM_PAGE_SIZE) then splice (off mod MM_PAGE_SIZE) buf (view s es a) else view s es a.
Proof using Hmem.
  intros Hok Ho Hk Hfit Hpg. set (bo := off mod MM_PAGE_SIZE) in *. pose proof (Z.mod_pos_bound off MM_PAGE_SIZE ltac:(done)) as Hbo. fold bo in Hbo. set (k := Z.of_nat (length buf)) in *.
  assert ((k + MM_PAGE_SIZE - bo - 1) / (MM_PAGE_SIZE - bo) < 2) as Hone by (apply Z.div_lt_upper_bound; lia).
  destruct (blk_write_loop_run Hmem (S (Z.to_nat k)) s es off k (off / MM_PAGE_SIZE) buf Hok) as (s' & es' & E & Hok' & Hpg' & Hv); [done|lia|apply Z.div_pos; done|done|right; fold bo; lia|].
  exists s', es'. split; [|split; [done|split; [done|]]].
  - unfold blk_write. fold k. rewrite (bind_Ret _ _ s (page_size (bs_cache s)) s) by done. by rewrite (cs_page_size _ _ (proj1 Hok)), (bind_Ret _ _ _ _ _ E).
  - intros a Ha. rewrite Hv by done. fold bo. cbn [write_pieces]. rewrite bool_decide_eq_false_2 by lia. cbv zeta. rewrite Z.min_r by lia. rewrite take_ge by lia.
    destruct (Z.to_nat k) as [|fuel] eqn:Ef; [lia|]. cbn [write_pieces]. rewrite bool_decide_eq_true_2 by lia. case_decide as Ea; [by rewrite Ea|done].
Qed.

Lemma cached_read s n f b : cached_rep s n f -> 0 <= b < n -> exists s', blk_read true (b * 1024) 1024 s = Ret ((1024, f b), s') /\ cached_rep s' n f.
Proof using Hmem.
  intros (es & Hok & Hn & Hf) Hb. destruct (block_place b ltac:(lia)) as (Hdiv & Hmod & Hm). pose proof (block_page s b n Hn Hb) as Hp.
  destruct (read_in_page s es (b * 1024) 1024 Hok) as (s' & es' & E & Hok' & Hpg & Hv); [lia|lia|rewrite Hmod; unfold MM_PAGE_SIZE; lia|rewrite Hdiv; lia|].
  exists s'. split; [rewrite E, Hdiv, Hmod, Hf by done; reflexivity|]. exists es'. split; [done|]. split; [by rewrite Hpg|]. intros c Hc. rewrite Hf by done. by rewrite Hv by (by eapply block_page).
Qed.

Lemma cached_write s n f b l : cached_rep s n f -> 0 <= b < n -> length l = 1024%nat -> exists s', blk_write true (b * 1024) l s = Ret (1024, s') /\ cached_rep s' n (fun c => if decide (c = b) then l else f c).
Proof using Hmem.
  intros (es & Hok & Hn & Hf) Hb Hl. destruct (block_place b ltac:(lia)) as (Hdiv & Hmod & Hm). pose proof (block_page s b n Hn Hb) as Hp.
  destruct (write_in_page s es (b * 1024) l Hok) as (s' & es' & E & Hok' & Hpg & Hv); [lia|lia|rewrite Hmod, Hl; unfold MM_PAGE_SIZE; lia|rewrite Hdiv; lia|]. rewrite Hl in E.
  exists s'. split; [exact E|]. exists es'. split; [done|]. split; [by rewrite Hpg|]. intros c Hc. pose proof (block_page s c n Hn Hc) as Hcp. rewrite Hv by done. rewrite Hdiv, Hmod.
  pose proof (view_length s es (b / 4) Hok Hp) as Hlv. assert (Z.of_nat (length (view s es (b / 4))) = 4096) as Hlz by (rewrite Hlv; by apply Z2Nat.id). clear Hlv.
  destruct (block_place c ltac:(lia)) as (_ & _ & Hcm). pose proof (Z.div_mod b 4 ltac:(lia)). pose proof (Z.div_mod c 4 ltac:(lia)). destruct (decide (c / 4 = b / 4)) as [Ec|Ec].
  - rewrite Ec. destruct (decide (c = b)) as [->|Hne].
    + assert (0 <= b mod 4 * 1024) as H1a by lia. assert (b mod 4 * 1024 + Z.of_nat (length l) <= Z.of_nat (length (view s es (b / 4)))) as H2a by lia.
      pose proof (slice_splice_eq (b mod 4 * 1024) l (view s es (b / 4)) H1a H2a) as Es. rewrite Hl in Es. symmetry. exact Es.
    + rewrite slice_splice_ne by lia. rewrite Hf, Ec by done. done.
  - rewrite decide_False by congruence. by apply Hf.
Qed.

Definition cached_io : BlkIO bst := {|
  io_read := blk_read true; io_write := blk_write true; io_rep := cached_rep; io_length := cached_length; io_read_block := cached_read; io_write_block := cached_write;
|}.

(** C16: On a volume behind the block cache, what is written to a file is what is read
    back from it, whatever the cache evicts and writes back in between. *)
Theorem cached_write_read_back stack (e : ext2 bst) n f p ino pos buf l bl l1 size : length stack = 1024%nat -> @file_ok _ cached_io e n f p l bl l1 size -> inode_no e ino -> 0 <= pos <= size ->
  nblocks (Z.max (pos + Z.of_nat (length buf)) size) <= 268 ->
  grow_cost (length bl) (Z.to_nat (nblocks (Z.max (pos + Z.of_nat (length buf)) size)) - length bl) <= sbv e sb_free_blocks ->
  exists e1 e2, @ext2_vnode_write _ cached_io stack p ino pos buf e = Ret ((Z.of_nat (length buf), pos + Z.of_nat (length buf)), e1) /\
    @ext2_vnode_read _ cached_io p pos (Z.of_nat (length buf)) e1 = Ret ((Z.of_nat (length buf), buf, pos + Z.of_nat (length buf)), e2).
Proof using All.
  intros Hst Hf Hino Hpos Hnb Hcost. pose proof (@size_of_file _ cached_io _ _ _ _ _ _ _ _ Hf) as Hsz.
  destruct (@write_run _ cached_io stack e n f p ino pos buf l bl l1 size Hst Hf Hino Hpos Hnb Hcost) as (e' & f' & l' & bl' & l1' & E & Hw & Hb).
  destruct (@read_run _ cached_io e' n f' p l' bl' l1' _ pos (Z.of_nat (length buf)) (@fw_file _ cached_io _ _ _ _ _ _ _ _ _ _ _ _ _ Hw) ltac:(lia) ltac:(lia)) as (d & E2 & _).
  exists e', (set_dev d e'). split; [exact E|]. rewrite E2, Hb. rewrite Z.min_l by lia. do 4 f_equal.
  pose proof (@owned_lengths _ cached_io _ _ _ _ _ (@fo_ok _ cached_io _ _ _ _ _ _ _ _ Hf) (@fo_owned _ cached_io _ _ _ _ _ _ _ _ Hf)) as Hlb. pose proof (file_contents_length f bl Hlb) as Hlc.
  assert (Z.of_nat (length (file_bytes f bl size)) = size) as Hlen.
  { unfold file_bytes. rewrite length_take. destruct (nblocks_spec size ltac:(lia)) as (_ & N2 & _). pose proof (@fo_blocks _ cached_io _ _ _ _ _ _ _ _ Hf). lia. }
  unfold slice, splice. rewrite drop_app_length' by (rewrite length_take; lia). rewrite Nat2Z.id. apply take_app_length.
Qed.
End cached.

(** ** The sample volume behind a cache of two pages *)
Definition volume_disk : mdisk := mk_mdisk ((fun i => slice (Z.of_nat i * 4096) 4096 sample_image) <$> seq 0 8).
Definition volume_cache : bstate phys mdisk := mk_bstate (block_cache_init MM_PAGE_SIZE 2) (phys_many [300; 301; 302]) ∅ volume_disk.

Lemma volume_rep : cached_rep volume_cache 32 sample_block.
Proof.
  exists []. split; [split; [|split; [|discriminate]]|split; [reflexivity|]].
  - destruct sample_cache_state as [S1 S2 S3 S4 S5 S6]. split; [exact S1|exact S2|exact S3|exact S4|exact S5|exact S6].
  - intros a v Hin. by apply elem_of_nil in Hin.
  - assert (forallb (fun b => bool_decide (sample_block b = slice (b mod 4 * 1024) 1024 (md_page volume_disk (b / 4)))) (Z.of_nat <$> seq 0 32) = true) as Hall by (vm_compute; reflexivity).
    rewrite forallb_forall in Hall. intros b Hb. apply (bool_decide_eq_true_1 (sample_block b = slice (b mod 4 * 1024) 1024 (md_page volume_disk (b / 4)))), Hall.
    apply list_elem_of_In, list_elem_of_fmap. exists (Z.to_nat b). split; [lia|]. apply elem_of_seq. lia.
Qed.

Lemma cached_write_read_back_witness : exists e1 e2, @ext2_vnode_write _ (cached_io roomy_heap_nonzero) sample_stack 100 5 1028 [1; 2; 3; 4] (sample_ext2 volume_cache) = Ret ((4, 1032), e1) /\
  @ext2_vnode_read _ (cached_io roomy_heap_nonzero) 100 1028 4 e1 = Ret ((4, [1; 2; 3; 4], 1032), e2).
Proof.
  apply (cached_write_read_back roomy_heap_nonzero sample_stack (sample_ext2 volume_cache) 32 sample_block 100 5 1028 [1; 2; 3; 4] sample_file [7; 8] 0 1030);
    [reflexivity|exact (@sample_file_ok _ (cached_io roomy_heap_nonzero) volume_cache volume_rep)|apply sample_inode_no; lia|lia|vm_compute; discriminate|rewrite sample_free; vm_compute; discriminate].
Defined.
