(* ===== verification/Console.v ===== *)
(** * The text console: [sys/console.c], [sys/display.c], [sys/char/input.c]

    A console shows the buffer of one of its terminals on a display.  [putc_view] is
    [_console_putc] on one buffer: the buffer, the size of the console, whether the
    buffer is the active one, and the display, here the map from (row, column) to the
    cell [display_setc] drew there last.  [term] holds all consoles, buffers and
    terminals; the functions that take a console or a terminal work on it.

    The console is a window on the last lines of an unbounded sheet of paper
    ([console_shows_paper]), and escape sequences keep it well formed
    ([console_write_keeps]), except for those the code does not bound. *)

From S2P Require Import Prelude Defs Bytes Strings ListHead.

Definition ATTR_DEFAULT : Z := 0x1700.
Definition ESC_ESC : Z := 1.
Definition ESC_CSI : Z := 2.
Definition ATTR_BOLD : Z := 1.

Record console_buffer := mk_cbuf {
  cb_attr : Z; cb_xattrs : Z;
  cb_esc_argv : list Z; cb_esc_letter : Z; cb_esc_argc : Z; cb_esc_mode : Z;
  cb_y : Z; cb_x : Z; cb_saved_y : Z; cb_saved_x : Z;
  cb_last_blink_y : Z; cb_last_blink_x : Z;
  cb_data : list Z;
}.

Definition set_attr v b := mk_cbuf v (cb_xattrs b) (cb_esc_argv b) (cb_esc_letter b) (cb_esc_argc b) (cb_esc_mode b) (cb_y b) (cb_x b) (cb_saved_y b) (cb_saved_x b) (cb_last_blink_y b) (cb_last_blink_x b) (cb_data b).
Definition set_xattrs v b := mk_cbuf (cb_attr b) v (cb_esc_argv b) (cb_esc_letter b) (cb_esc_argc b) (cb_esc_mode b) (cb_y b) (cb_x b) (cb_saved_y b) (cb_saved_x b) (cb_last_blink_y b) (cb_last_blink_x b) (cb_data b).
Definition set_argv v b := mk_cbuf (cb_attr b) (cb_xattrs b) v (cb_esc_letter b) (cb_esc_argc b) (cb_esc_mode b) (cb_y b) (cb_x b) (cb_saved_y b) (cb_saved_x b) (cb_last_blink_y b) (cb_last_blink_x b) (cb_data b).
Definition set_letter v b := mk_cbuf (cb_attr b) (cb_xattrs b) (cb_esc_argv b) v (cb_esc_argc b) (cb_esc_mode b) (cb_y b) (cb_x b) (cb_saved_y b) (cb_saved_x b) (cb_last_blink_y b) (cb_last_blink_x b) (cb_data b).
Definition set_argc v b := mk_cbuf (cb_attr b) (cb_xattrs b) (cb_esc_argv b) (cb_esc_letter b) v (cb_esc_mode b) (cb_y b) (cb_x b) (cb_saved_y b) (cb_saved_x b) (cb_last_blink_y b) (cb_last_blink_x b) (cb_data b).
Definition set_mode v b := mk_cbuf (cb_attr b) (cb_xattrs b) (cb_esc_argv b) (cb_esc_letter b) (cb_esc_argc b) v (cb_y b) (cb_x b) (cb_saved_y b) (cb_saved_x b) (cb_last_blink_y b) (cb_last_blink_x b) (cb_data b).
Definition set_yx y x b := mk_cbuf (cb_attr b) (cb_xattrs b) (cb_esc_argv b) (cb_esc_letter b) (cb_esc_argc b) (cb_esc_mode b) y x (cb_saved_y b) (cb_saved_x b) (cb_last_blink_y b) (cb_last_blink_x b) (cb_data b).
Definition set_saved y x b := mk_cbuf (cb_attr b) (cb_xattrs b) (cb_esc_argv b) (cb_esc_letter b) (cb_esc_argc b) (cb_esc_mode b) (cb_y b) (cb_x b) y x (cb_last_blink_y b) (cb_last_blink_x b) (cb_data b).
Definition set_blink y x b := mk_cbuf (cb_attr b) (cb_xattrs b) (cb_esc_argv b) (cb_esc_letter b) (cb_esc_argc b) (cb_esc_mode b) (cb_y b) (cb_x b) (cb_saved_y b) (cb_saved_x b) y x (cb_data b).
Definition set_data v b := mk_cbuf (cb_attr b) (cb_xattrs b) (cb_esc_argv b) (cb_esc_letter b) (cb_esc_argc b) (cb_esc_mode b) (cb_y b) (cb_x b) (cb_saved_y b) (cb_saved_x b) (cb_last_blink_y b) (cb_last_blink_x b) v.

(** ** Displays *)
Definition DISP_GRAPHIC : Z := 1.
Definition DISP_LFB : Z := 2.
Definition DISP_LOCK : Z := 4.

(** [d_cursor]: where [d->cursor] last put the hardware cursor of a text display. *)
Record display := mk_display { d_flags : Z; d_width_pixels : Z; d_height_pixels : Z; d_width_chars : Z; d_height_chars : Z; d_cursor : option (Z * Z); d_cells : gmap (Z * Z) Z }.

Definition flag_set (x m : Z) : bool := negb (Z.land x m =? 0).

(** A text display takes the cell as it is; a graphic one draws its glyph, unless locked. *)
Definition display_setc (y x ch : Z) (d : display) : display :=
  if flag_set (d_flags d) DISP_GRAPHIC && flag_set (d_flags d) DISP_LOCK then d
  else mk_display (d_flags d) (d_width_pixels d) (d_height_pixels d) (d_width_chars d) (d_height_chars d) (d_cursor d) (<[(u16 y, u16 x) := u16 ch]> (d_cells d)).

(** ** One buffer of a console *)
Record view := mk_view { v_width : Z; v_height : Z; v_act : bool; v_buf : console_buffer; v_disp : display }.

Definition upd_buf (f : console_buffer -> console_buffer) : cmd view unit :=
  cmodify (fun v => mk_view (v_width v) (v_height v) (v_act v) (f (v_buf v)) (v_disp v)).
Definition draw (y x ch : Z) : cmd view unit :=
  cmodify (fun v => mk_view (v_width v) (v_height v) (v_act v) (v_buf v) (display_setc y x ch (v_disp v))).
Definition get_buf : cmd view console_buffer := cgets v_buf.

(** [buf->data[i]], read and written. *)
Definition data_at (i : Z) : cmd view Z := cload (fun v => if 0 <=? i then cb_data (v_buf v) !! Z.to_nat i else None).
Definition data_set (i c : Z) : cmd view unit := data_at i;; upd_buf (fun b => set_data (<[Z.to_nat i := u16 c]> (cb_data b)) b).

(** [buf->esc_argv[i]]: an array of eight. *)
Definition argv_at (i : Z) : cmd view Z := cload (fun v => cb_esc_argv (v_buf v) !! Z.to_nat i).
Definition argv_set (i a : Z) : cmd view unit := argv_at i;; upd_buf (fun b => set_argv (<[Z.to_nat i := u32 a]> (cb_esc_argv b)) b).

(** [memsetw(&buf->data[i], c, n)]. *)
Fixpoint memsetw_loop (n : nat) (i c : Z) : cmd view unit :=
  match n with O => mret tt | S n => data_set i c;; memsetw_loop n (i + 1) c end.
(** A count of more words than the buffer has runs past its end. *)
Definition memsetw (i c n : Z) : cmd view unit :=
  b ← get_buf;
  if Z.of_nat (length (cb_data b)) <? u64 n then cfault else memsetw_loop (Z.to_nat (u64 n)) i c.

(** [memcpy(buf->data, &buf->data[w], n * 2)], forwards. *)
Fixpoint copy_words (n : nat) (d s : Z) : cmd view unit :=
  match n with O => mret tt | S n => c ← data_at s; data_set d c;; copy_words n (d + 1) (s + 1) end.

Fixpoint flush_row (row : Z) (cols : list Z) : cmd view unit :=
  match cols with
  | [] => mret tt
  | col :: cols => w ← cgets v_width; ch ← data_at (row * w + col); draw row col ch;; flush_row row cols
  end.
Fixpoint flush_rows (rows : list Z) : cmd view unit :=
  match rows with
  | [] => mret tt
  | row :: rows => w ← cgets v_width; flush_row row (seqZ 0 w);; flush_rows rows
  end.
Definition console_flush : cmd view unit := h ← cgets v_height; flush_rows (seqZ 0 h).

Definition console_scroll_check : cmd view unit :=
  v ← cget;
  let w := v_width v in let h := v_height v in
  if h <=? cb_y (v_buf v) then
    upd_buf (fun b => set_yx (u16 (h - 1)) (cb_x b) b);;
    copy_words (Z.to_nat ((h - 1) * w)) 0 w;;
    memsetw ((h - 1) * w) ATTR_DEFAULT w;;
    console_flush
  else mret tt.

Definition color_map : list Z := [0; 4; 2; 6; 1; 5; 3; 7].

(** One parameter of [ESC [ ... m]. *)
Definition csi_attr (v : Z) : cmd view unit :=
  if v / 10 =? 0 then
    if v mod 10 =? 0 then upd_buf (fun b => set_xattrs 0 (set_attr ATTR_DEFAULT b))
    else if v mod 10 =? 1 then upd_buf (fun b => set_xattrs (Z.lor (cb_xattrs b) ATTR_BOLD) b)
    else if v mod 10 =? 2 then upd_buf (fun b => set_xattrs (Z.land (cb_xattrs b) (u16 (Z.lnot ATTR_BOLD))) b)
    else if v mod 10 =? 7 then
      upd_buf (fun b =>
        let a := Z.shiftr (cb_attr b) 4 in
        let a := u16 (Z.lor a (Z.shiftl (Z.land a 0xF0) 8)) in
        set_attr (Z.land a 0xFF00) b)
    else mret tt
  else if v / 10 =? 3 then
    m ← cload (fun _ => color_map !! Z.to_nat (v mod 10));
    upd_buf (fun b => set_attr (u16 (Z.lor (Z.land (cb_attr b) (u16 (Z.lnot 0x0F00))) (Z.shiftl m 8))) b)
  else if v / 10 =? 4 then
    m ← cload (fun _ => color_map !! Z.to_nat (v mod 10));
    upd_buf (fun b => set_attr (u16 (Z.lor (Z.land (cb_attr b) (u16 (Z.lnot 0xF000))) (Z.shiftl m 12))) b)
  else mret tt.

Fixpoint csi_attrs (l : list Z) : cmd view unit :=
  match l with [] => mret tt | i :: l => v ← argv_at i; csi_attr v;; csi_attrs l end.

(** [if (!buf->esc_argv[0]) buf->esc_argv[0] = 1;] and its value. *)
Definition csi_count : cmd view Z :=
  n ← argv_at 0;
  if n =? 0 then argv_set 0 1;; mret 1 else mret n.

Definition process_csi : cmd view unit :=
  v ← cget;
  let b := v_buf v in let w := v_width v in let h := v_height v in
  let l := cb_esc_letter b in
  if l =? 109 (* m *) then csi_attrs (seqZ 0 (cb_esc_argc b))
  else if l =? 115 (* s *) then upd_buf (fun b => set_saved (cb_y b) (cb_x b) b)
  else if l =? 117 (* u *) then upd_buf (fun b => set_yx (cb_saved_y b) (cb_saved_x b) b)
  else if l =? 74 (* J *) then
    n ← argv_at 0;
    if n =? 0 then memsetw 0 (cb_attr b) (w * cb_y b)
    else if n =? 1 then memsetw (cb_y b * w) (cb_attr b) (w * (h - cb_y b))
    else if n =? 2 then memsetw 0 (cb_attr b) (w * h);; console_flush
    else mret tt
  else if l =? 102 (* f *) then
    n ← argv_at 0; m ← argv_at 1;
    if (h =? 0) || (u32 (w - 1) =? 0) then cfault
    else upd_buf (set_yx (u16 (u32 (n - 1) mod h)) (u16 (u32 (m - 1) mod u32 (w - 1))))
  else if l =? 65 (* A *) then
    n ← csi_count;
    upd_buf (fun b => set_yx (if cb_y b <=? n then 0 else u16 (cb_y b - n)) (cb_x b) b)
  else if l =? 66 (* B *) then
    n ← csi_count;
    upd_buf (fun b => set_yx (if h <=? u32 (n + cb_y b) then u16 (h - 1) else u16 (cb_y b + n)) (cb_x b) b)
  else if l =? 67 (* C *) then
    n ← csi_count;
    upd_buf (fun b => set_yx (cb_y b) (if w <=? u32 (n + cb_x b) then u16 (w - 1) else u16 (cb_x b + n)) b)
  else if l =? 68 (* D *) then
    n ← csi_count;
    upd_buf (fun b => set_yx (cb_y b) (if cb_x b <=? n then 0 else u16 (cb_x b - n)) b)
  else if l =? 75 (* K *) then
    memsetw (cb_y b * w + cb_x b) (cb_attr b) (w - cb_x b);; console_flush
  else mret tt.

(** [++buf->y; buf->x = 0; console_scroll_check(con, buf);] *)
Definition new_line : cmd view unit :=
  upd_buf (fun b => set_yx (u16 (cb_y b + 1)) 0 b);; console_scroll_check.
Definition wrap_line : cmd view unit :=
  v ← cget; if v_width v <=? cb_x (v_buf v) then new_line else mret tt.

(** A printable character is stored at the cursor, and drawn if the buffer is active. *)
Definition put_glyph (c : Z) : cmd view unit :=
  v ← cget;
  let b := v_buf v in
  data_set (cb_y b * v_width v + cb_x b) (Z.lor c (cb_attr b));;
  if v_act v then
    let a := if flag_set (cb_xattrs b) ATTR_BOLD then Z.lor (cb_attr b) 0x8000 else cb_attr b in
    draw (cb_y b) (cb_x b) (Z.lor c a)
  else mret tt.

(** The character cases of [_console_putc], outside escape sequences. *)
Definition put_char (c : Z) : cmd view unit :=
  if c =? 27 then upd_buf (fun b => set_mode ESC_ESC b);; argv_set 0 0;; upd_buf (set_argc 0)
  else if c =? 10 then new_line
  else if c =? 13 then upd_buf (fun b => set_yx (cb_y b) 0 b)
  else if c =? 9 then
    upd_buf (fun b => set_yx (cb_y b) (u16 (cb_x b + (4 - cb_x b mod 4))) b);; wrap_line
  else if 32 <=? c then
    put_glyph c;;
    upd_buf (fun b => set_yx (cb_y b) (u16 (cb_x b + 1)) b);; wrap_line
  else mret tt.

Definition putc_view (c : Z) : cmd view unit :=
  b ← get_buf;
  if cb_esc_mode b =? ESC_CSI then
    if (48 <=? c) && (c <=? 57) then
      n ← argv_at (cb_esc_argc b); argv_set (cb_esc_argc b) (u32 (n * 10) + (c - 48))
    else if c =? 59 then
      upd_buf (set_argc (cb_esc_argc b + 1));; argv_set (cb_esc_argc b + 1) 0
    else
      upd_buf (fun b => set_letter (i8 c) (set_argc (cb_esc_argc b + 1) b));;
      process_csi;; upd_buf (set_mode 0)
  else if cb_esc_mode b =? ESC_ESC then
    if c =? 91 then upd_buf (set_mode ESC_CSI) else upd_buf (set_mode 0);; put_char c
  else if cb_esc_mode b =? 0 then put_char c
  else mret tt.

(** ** All consoles and their terminals

    [td_peer] is the union of [master], the console, and [serial], the serial line.
    [c_slaves] and [t_list] are the lists linked through [struct list_head], first
    element first ([ListHead] relates the two).  [t_serial]: what was handed to the
    [putc] of each serial line, oldest first. *)
Record tty_data := mk_tty_data { td_fg_pgid : Z; td_has_console : bool; td_peer : Z; td_buffer : Z }.
Record console := mk_console { c_display : Z; c_tty_active : Z; c_buf_active : Z; c_slaves : list Z; c_width_chars : Z; c_height_chars : Z }.
Record term := mk_term {
  t_consoles : gmap Z console;
  t_list : list Z;
  t_displays : gmap Z display;
  t_bufs : gmap Z console_buffer;
  t_ttys : gmap Z tty_data;
  t_early : option console;
  t_prev_blink : Z;
  t_serial : gmap Z (list Z);
}.
Definition set_consoles f t := mk_term (f (t_consoles t)) (t_list t) (t_displays t) (t_bufs t) (t_ttys t) (t_early t) (t_prev_blink t) (t_serial t).
Definition set_list f t := mk_term (t_consoles t) (f (t_list t)) (t_displays t) (t_bufs t) (t_ttys t) (t_early t) (t_prev_blink t) (t_serial t).
Definition set_displays f t := mk_term (t_consoles t) (t_list t) (f (t_displays t)) (t_bufs t) (t_ttys t) (t_early t) (t_prev_blink t) (t_serial t).
Definition set_bufs f t := mk_term (t_consoles t) (t_list t) (t_displays t) (f (t_bufs t)) (t_ttys t) (t_early t) (t_prev_blink t) (t_serial t).
Definition set_ttys f t := mk_term (t_consoles t) (t_list t) (t_displays t) (t_bufs t) (f (t_ttys t)) (t_early t) (t_prev_blink t) (t_serial t).
Definition set_early v t := mk_term (t_consoles t) (t_list t) (t_displays t) (t_bufs t) (t_ttys t) v (t_prev_blink t) (t_serial t).
Definition set_prev_blink v t := mk_term (t_consoles t) (t_list t) (t_displays t) (t_bufs t) (t_ttys t) (t_early t) v (t_serial t).
Definition set_serial f t := mk_term (t_consoles t) (t_list t) (t_displays t) (t_bufs t) (t_ttys t) (t_early t) (t_prev_blink t) (f (t_serial t)).

(** Run code on buffer [buf] of console [con]. *)
Definition run_view {A} (con : console) (buf : Z) (v : view) (m : cmd view A) : cmd term A := fun t =>
  match m v with
  | Ret (a, v) => Ret (a, set_bufs <[buf := v_buf v]> (set_displays <[c_display con := v_disp v]> t))
  | Panic => Panic
  | Fault => Fault
  | Diverged => Diverged
  end.
Definition on_buffer {A} (con : console) (buf : Z) (m : cmd view A) : cmd term A :=
  b ← cload (fun t => t_bufs t !! buf);
  d ← cload (fun t => t_displays t !! c_display con);
  run_view con buf (mk_view (c_width_chars con) (c_height_chars con) (bool_decide (buf = c_buf_active con)) b d) m.

(** What [console_buffer_create] and [console_init_early] set; [old] is the memory
    before: its escape arguments are left as they were. *)
Definition cbuf_init (old : console_buffer) (cells : list Z) : console_buffer :=
  mk_cbuf ATTR_DEFAULT 0 (cb_esc_argv old) (cb_esc_letter old) (cb_esc_argc old) 0 0 0 0 0 0 0 cells.
(** [mem]: the block [kmalloc] returned and what it held, NULL when it failed. *)
Definition console_buffer_create (mem : option (Z * console_buffer)) (rows cols : Z) : cmd term Z :=
  match mem with
  | None => cpanic
  | Some (a, old) =>
      cmodify (set_bufs <[a := cbuf_init old (replicate (Z.to_nat (rows * cols)) ATTR_DEFAULT)]>);; mret a
  end.

Definition console_attach (mem : option (Z * console_buffer)) (con tty : Z) : cmd term unit :=
  c ← cload (fun t => t_consoles t !! con);
  buf ← console_buffer_create mem (c_width_chars c) (c_height_chars c);
  cassert (negb (buf =? 0));;
  data ← cload (fun t => t_ttys t !! tty);
  cassert (td_buffer data =? 0);;
  cassert (td_peer data =? 0);;
  cmodify (set_ttys <[tty := mk_tty_data (td_fg_pgid data) (td_has_console data) con buf]>);;
  let c := mk_console (c_display c) (c_tty_active c) (c_buf_active c) (tty :: c_slaves c) (c_width_chars c) (c_height_chars c) in
  cmodify (set_consoles <[con := c]>);;
  if c_tty_active c =? 0 then
    let c := mk_console (c_display c) tty buf (c_slaves c) (c_width_chars c) (c_height_chars c) in
    cmodify (set_consoles <[con := c]>);;
    on_buffer c buf console_flush
  else mret tt.

Definition console_putc (con tty c : Z) : cmd term unit :=
  co ← cload (fun t => t_consoles t !! con);
  data ← cload (fun t => t_ttys t !! tty);
  cassert (negb (td_buffer data =? 0));;
  on_buffer co (td_buffer data) (putc_view c).

Definition console_default_putc (c : Z) : cmd term unit :=
  t ← cget;
  match t_list t with
  | [] => match t_early t with
          | Some con => cassert (negb (c_buf_active con =? 0));; on_buffer con (c_buf_active con) (putc_view c)
          | None => mret tt
          end
  | a :: _ =>
      con ← cload (fun t => t_consoles t !! a);
      if c_buf_active con =? 0 then mret tt else on_buffer con (c_buf_active con) (putc_view c)
  end.

Definition ECON_BUFSIZ : Z := 32768.
(** The static buffer of the early console. *)
Definition early_buffer : Z := 8.

Definition console_init_early (output : Z) : cmd term unit :=
  d ← cload (fun t => t_displays t !! output);
  let w := u16 (d_width_pixels d / 8) in let h := u16 (d_height_pixels d / 16) in
  let con := mk_console output 0 early_buffer [] w h in
  if ECON_BUFSIZ <? w * h * 2 then cpanic
  else
    old ← cload (fun t => t_bufs t !! early_buffer);
    let cells := replicate (Z.to_nat (w * h)) ATTR_DEFAULT ++ drop (Z.to_nat (w * h)) (cb_data old) in
    cmodify (set_bufs <[early_buffer := cbuf_init old cells]>);;
    cmodify (set_early (Some con));;
    on_buffer con early_buffer console_flush.

(** The body of [console_update_cursor] for one console; [blink] is
    [g_display_blink_state]. *)
Definition swap_cell (c : Z) : Z :=
  u16 (Z.lor (Z.lor (Z.land (Z.shiftr c 4) 0xF00) (Z.shiftl (Z.land c 0xF00) 4)) (Z.land c 0xFF)).
Definition blink_view (blink : Z) : cmd view unit :=
  v ← cget;
  let b := v_buf v in let w := v_width v in
  c ← data_at (cb_y b * w + cb_x b);
  draw (cb_y b) (cb_x b) (if blink =? 0 then c else swap_cell c);;
  if (cb_last_blink_x b =? cb_x b) && (cb_last_blink_y b =? cb_y b) then mret tt
  else
    o ← data_at (cb_last_blink_y b * w + cb_last_blink_x b);
    draw (cb_last_blink_y b) (cb_last_blink_x b) o;;
    upd_buf (set_blink (cb_y b) (cb_x b)).
Definition hw_cursor : cmd view unit :=
  cmodify (fun v => mk_view (v_width v) (v_height v) (v_act v) (v_buf v)
    (mk_display (d_flags (v_disp v)) (d_width_pixels (v_disp v)) (d_height_pixels (v_disp v)) (d_width_chars (v_disp v)) (d_height_chars (v_disp v))
       (Some (cb_y (v_buf v), cb_x (v_buf v))) (d_cells (v_disp v)))).
Fixpoint update_cursors (blink : Z) (l : list Z) : cmd term unit :=
  match l with
  | [] => mret tt
  | a :: l =>
      con ← cload (fun t => t_consoles t !! a);
      (if (c_display con =? 0) || (c_buf_active con =? 0) then mret tt
       else
         d ← cload (fun t => t_displays t !! c_display con);
         prev ← cgets t_prev_blink;
         if flag_set (d_flags d) DISP_GRAPHIC then
           if blink =? prev then mret tt else on_buffer con (c_buf_active con) (blink_view blink)
         else on_buffer con (c_buf_active con) hw_cursor);;
      update_cursors blink l
  end.
Definition console_update_cursor (blink : Z) : cmd term unit :=
  l ← cgets t_list; update_cursors blink l;; cmodify (set_prev_blink blink).

(** ** Runs of the primitives *)
Definition with_buf b v := mk_view (v_width v) (v_height v) (v_act v) b (v_disp v).
Definition with_data l v := with_buf (set_data l (v_buf v)) v.
Definition with_disp d v := mk_view (v_width v) (v_height v) (v_act v) (v_buf v) d.
Abbreviation cells v := (cb_data (v_buf v)).
Definition is_cell (c : Z) : Prop := 0 <= c < 2 ^ 16.

(** The cells of the screen: row [r], column [c]. *)
Definition shows (v : view) : Prop :=
  forall r c, 0 <= r < v_height v -> 0 <= c < v_width v ->
    d_cells (v_disp v) !! (r, c) = cells v !! Z.to_nat (r * v_width v + c).
Definition unlocked (d : display) : Prop := flag_set (d_flags d) DISP_GRAPHIC && flag_set (d_flags d) DISP_LOCK = false.

Section primitives.
Implicit Types (v : view) (d : display).

Lemma data_at_run i v : 0 <= i < Z.of_nat (length (cells v)) -> data_at i v = Ret (nthZ (cells v) i, v).
Proof. intros Hi. unfold data_at. apply load_Some. rewrite (proj2 (Z.leb_le 0 i)) by lia. by apply lookup_nthZ. Qed.

Lemma data_set_run i c v : 0 <= i < Z.of_nat (length (cells v)) -> data_set i c v = Ret (tt, with_data (<[Z.to_nat i := u16 c]> (cells v)) v).
Proof. intros Hi. unfold data_set. step_run (data_at_run i v Hi). done. Qed.

Lemma with_data_data l l' v : with_data l (with_data l' v) = with_data l v.
Proof. by destruct v as [? ? ? [] ?]. Qed.
Lemma with_data_id v : with_data (cells v) v = v.
Proof. by destruct v as [? ? ? [] ?]. Qed.

Lemma insert_splice (i : nat) (c : Z) l : (i < length l)%nat -> <[i := c]> l = splice (Z.of_nat i) [c] l.
Proof. intros Hi. unfold splice. rewrite Nat2Z.id. cbn [length app]. rewrite insert_take_drop by done. f_equal. f_equal. f_equal. lia. Qed.

Lemma memsetw_loop_run c n : forall i v, 0 <= i -> i + Z.of_nat n <= Z.of_nat (length (cells v)) ->
  memsetw_loop n i c v = Ret (tt, with_data (splice i (replicate n (u16 c)) (cells v)) v).
Proof.
  induction n as [|n IH]; intros i v Hi Hn; cbn [memsetw_loop].
  - unfold splice. cbn [replicate app length]. rewrite Nat.add_0_r, take_drop, with_data_id. done.
  - step_run (data_set_run i c v ltac:(lia)). rewrite IH by (cbn; rewrite ?length_insert; lia). cbn [v_buf with_data with_buf cb_data set_data].
    rewrite with_data_data. do 3 f_equal. rewrite insert_splice, Z2Nat.id by lia. change (i + 1) with (i + Z.of_nat (length [u16 c])).
    rewrite splice_app by (cbn [length]; rewrite ?length_replicate; lia). done.
Qed.

Lemma memsetw_run i c n v : 0 <= i -> 0 <= n < 2 ^ 64 -> i + n <= Z.of_nat (length (cells v)) ->
  memsetw i c n v = Ret (tt, with_data (splice i (replicate (Z.to_nat n) (u16 c)) (cells v)) v).
Proof.
  intros Hi Hn Hl. unfold memsetw, get_buf. cbv [mbind cmd_mbind cbind cgets]. rewrite uwrap_small by lia.
  rewrite (proj2 (Z.ltb_ge _ _)) by lia. apply memsetw_loop_run; lia.
Qed.

Lemma copy_words_run n : forall (d s : Z) v, 0 <= d < s -> s + Z.of_nat n <= Z.of_nat (length (cells v)) -> Forall is_cell (cells v) ->
  copy_words n d s v = Ret (tt, with_data (splice d (slice s (Z.of_nat n) (cells v)) (cells v)) v).
Proof.
  induction n as [|n IH]; intros d s v Hd Hn Hc; cbn [copy_words].
  - unfold splice, slice. change (Z.to_nat (Z.of_nat 0)) with 0%nat. rewrite take_0. cbn [app length]. rewrite Nat.add_0_r, take_drop, with_data_id. done.
  - step_run (data_at_run s v ltac:(lia)). step_run (data_set_run d (nthZ (cells v) s) v ltac:(lia)). set (x := nthZ (cells v) s).
    pose proof (lookup_nthZ (cells v) s ltac:(lia)) as Hx. fold x in Hx. assert (is_cell x) as Hcx by (eapply list.Forall_forall; [exact Hc|by eapply list_elem_of_lookup_2]).
    rewrite (uwrap_small 16 x) by done. rewrite IH; cbn [v_buf with_data with_buf cb_data set_data]; rewrite ?length_insert; [|lia|lia|by apply Forall_insert].
    rewrite with_data_data. do 3 f_equal. rewrite insert_splice, Z2Nat.id by lia.
    rewrite slice_splice_ne by (cbn [length]; lia). assert (slice s (Z.of_nat (Datatypes.S n)) (cells v) = [x] ++ slice (s + 1) (Z.of_nat n) (cells v)) as ->.
    { replace (Z.of_nat (Datatypes.S n)) with (1 + Z.of_nat n) by lia. rewrite <- slice_app by lia. f_equal. unfold slice.
      change (Z.to_nat 1) with 1%nat. rewrite (drop_S _ _ _ Hx). done. }
    change (d + 1) with (d + Z.of_nat (length [x])). rewrite splice_app by (cbn [length]; rewrite ?length_slice; lia). done.
Qed.

(** [console_flush] draws every cell. *)
Definition drawn_row row w (l : list Z) (cols : list Z) d : display :=
  fold_left (fun d col => display_setc row col (nthZ l (row * w + col)) d) cols d.
Definition drawn w (l : list Z) (rows : list Z) d : display :=
  fold_left (fun d row => drawn_row row w l (seqZ 0 w) d) rows d.

Lemma flush_row_run row cols : forall v, (forall c, c ∈ cols -> 0 <= row * v_width v + c < Z.of_nat (length (cells v))) ->
  flush_row row cols v = Ret (tt, with_disp (drawn_row row (v_width v) (cells v) cols (v_disp v)) v).
Proof.
  induction cols as [|c cols IH]; intros v Hc; [by destruct v|]. cbn [flush_row].
  rewrite (bind_Ret _ _ v (v_width v) v eq_refl); cbn beta. step_run (data_at_run _ v (Hc c ltac:(by left))). unfold draw.
  rewrite (bind_Ret _ _ _ tt _ eq_refl). rewrite IH by (intros ? ?; apply Hc; by right). done.
Qed.

Lemma flush_rows_run rows : forall v, (forall r, r ∈ rows -> 0 <= r /\ (r + 1) * v_width v <= Z.of_nat (length (cells v))) ->
  flush_rows rows v = Ret (tt, with_disp (drawn (v_width v) (cells v) rows (v_disp v)) v).
Proof.
  induction rows as [|r rows IH]; intros v Hr; [by destruct v|]. cbn [flush_rows].
  rewrite (bind_Ret _ _ v (v_width v) v eq_refl); cbn beta.
  rewrite (bind_Ret _ _ _ _ _ (flush_row_run r (seqZ 0 (v_width v)) v ltac:(intros c [? ?]%elem_of_seqZ; destruct (Hr r ltac:(by left)); nia))).
  rewrite IH by (intros ? ?; apply Hr; by right). done.
Qed.

Lemma setc_flags y x ch d : d_flags (display_setc y x ch d) = d_flags d.
Proof. unfold display_setc. by case_match. Qed.
Lemma setc_cells y x ch d : unlocked d -> 0 <= y < 2 ^ 16 -> 0 <= x < 2 ^ 16 -> is_cell ch ->
  d_cells (display_setc y x ch d) = <[(y, x) := ch]> (d_cells d).
Proof. intros Hu Hy Hx Hc. unfold display_setc. rewrite Hu. cbn. by rewrite !uwrap_small by done. Qed.
Lemma unlocked_flags d d' : d_flags d' = d_flags d -> unlocked d -> unlocked d'.
Proof. unfold unlocked. by intros ->. Qed.

Lemma drawn_row_flags row w l cols : forall d, d_flags (drawn_row row w l cols d) = d_flags d.
Proof. induction cols as [|c cols IH]; intros d; [done|]. etrans; [apply IH|apply setc_flags]. Qed.

Lemma drawn_row_cells row w l cols : forall d, unlocked d -> 0 <= row < 2 ^ 16 -> (forall c, c ∈ cols -> 0 <= c < 2 ^ 16) -> Forall is_cell l ->
  forall r c, d_cells (drawn_row row w l cols d) !! (r, c) = if decide (r = row /\ c ∈ cols) then Some (nthZ l (row * w + c)) else d_cells d !! (r, c).
Proof.
  induction cols as [|c0 cols IH]; intros d Hu Hr Hc Hl r c.
  - rewrite decide_False; [done|]. intros [_ H]. by apply not_elem_of_nil in H.
  - assert (is_cell (nthZ l (row * w + c0))) as Hx. { unfold nthZ. destruct (l !! _) eqn:E; [|done]. cbn. eapply list.Forall_forall; [done|by eapply list_elem_of_lookup_2]. }
    change (drawn_row row w l (c0 :: cols) d) with (drawn_row row w l cols (display_setc row c0 (nthZ l (row * w + c0)) d)).
    rewrite IH; [|eapply unlocked_flags; [apply setc_flags|done]|done|intros ? ?; apply Hc; by right|done].
    rewrite setc_cells by (try done; apply Hc; by left). destruct (decide (r = row /\ c ∈ cols)) as [[-> H]|Hn].
    + rewrite decide_True; [done|]. split; [done|by right].
    + destruct (decide ((row, c0) = (r, c))) as [[= <- <-]|Hne].
      * rewrite lookup_insert_eq, decide_True; [done|]. split; [done|by left].
      * rewrite lookup_insert_ne by done. rewrite decide_False; [done|]. intros [-> [->|H]%elem_of_cons]; [done|]. by apply Hn.
Qed.

Lemma drawn_flags w l rows : forall d, d_flags (drawn w l rows d) = d_flags d.
Proof. induction rows as [|r rows IH]; intros d; [done|]. etrans; [apply IH|apply drawn_row_flags]. Qed.

Lemma drawn_cells w l rows : forall d, unlocked d -> 0 <= w < 2 ^ 16 -> (forall r, r ∈ rows -> 0 <= r < 2 ^ 16) -> Forall is_cell l ->
  forall r c, 0 <= c < w -> d_cells (drawn w l rows d) !! (r, c) = if decide (r ∈ rows) then Some (nthZ l (r * w + c)) else d_cells d !! (r, c).
Proof.
  induction rows as [|r0 rows IH]; intros d Hu Hw Hr Hl r c Hc.
  - rewrite decide_False; [done|apply not_elem_of_nil].
  - change (drawn w l (r0 :: rows) d) with (drawn w l rows (drawn_row r0 w l (seqZ 0 w) d)).
    rewrite IH; [|eapply unlocked_flags; [apply drawn_row_flags|done]|done|intros ? ?; apply Hr; by right|done|done].
    rewrite drawn_row_cells; [|done|apply Hr; by left|intros ? [? ?]%elem_of_seqZ; lia|done].
    destruct (decide (r ∈ rows)) as [H|Hn]; [rewrite decide_True; [done|by right]|].
    destruct (decide (r = r0)) as [->|].
    + rewrite decide_True by (split; [done|]; apply elem_of_seqZ; lia). rewrite decide_True by (by left). done.
    + rewrite decide_False by tauto. rewrite decide_False; [done|]. by intros [->|?]%elem_of_cons.
Qed.

(** The size of a console, and its buffer of that size. *)
Definition sized v : Prop :=
  2 <= v_width v <= 2 ^ 15 /\ 1 <= v_height v <= 2 ^ 15 /\ Z.of_nat (length (cells v)) = v_width v * v_height v /\ Forall is_cell (cells v).

Lemma flush_run v : sized v -> exists d, console_flush v = Ret (tt, with_disp d v) /\ d_flags d = d_flags (v_disp v) /\
  (unlocked (v_disp v) -> shows (with_disp d v)).
Proof.
  intros (Hw & Hh & Hl & Hc). eexists. split; [|split].
  - unfold console_flush. rewrite (bind_Ret _ _ v (v_height v) v eq_refl); cbn beta. apply flush_rows_run.
    intros r [? ?]%elem_of_seqZ. nia.
  - apply drawn_flags.
  - intros Hu r c Hr Hcc. cbn. rewrite drawn_cells; [|done|lia|intros ? [? ?]%elem_of_seqZ; lia|done|done].
    rewrite decide_True by (apply elem_of_seqZ; cbn in Hr; lia). symmetry. apply lookup_nthZ. cbn in Hr, Hcc. nia.
Qed.
End primitives.

(** ** Text is laid out on paper

    [paper]: the complete lines, the current one and the column.  [feed] prints one
    character on it; paper never ends. *)
Record paper := mk_paper { p_rows : list (list Z); p_cur : list Z; p_col : Z }.
Definition blank (w : Z) : list Z := replicate (Z.to_nat w) ATTR_DEFAULT.
Definition push w p : paper := mk_paper (p_rows p ++ [p_cur p]) (blank w) 0.
Definition wrapped w p : paper := if w <=? p_col p then push w p else p.
Definition feed (w attr : Z) (p : paper) (c : Z) : paper :=
  if c =? 10 then push w p
  else if c =? 13 then mk_paper (p_rows p) (p_cur p) 0
  else if c =? 9 then wrapped w (mk_paper (p_rows p) (p_cur p) (p_col p + (4 - p_col p mod 4)))
  else if 32 <=? c then
    wrapped w (mk_paper (p_rows p) (<[Z.to_nat (p_col p) := u16 (Z.lor c attr)]> (p_cur p)) (p_col p + 1))
  else p.
Definition sheet w : paper := mk_paper [] (blank w) 0.
(** The last [h] lines, with blank lines below while there are fewer. *)
Definition window (w h : Z) (p : paper) : list (list Z) :=
  let l := p_rows p ++ [p_cur p] in
  take (Z.to_nat h) (drop (length l - Z.to_nat h) l ++ replicate (Z.to_nat h) (blank w)).

(** The loop of [tty_write] and [tty_puts] on a console. *)
Fixpoint write_view (s : list Z) : cmd view unit :=
  match s with [] => mret tt | c :: s => putc_view c;; write_view s end.

Section layout.
Implicit Types (v : view) (p : paper).

Lemma scroll_run v : sized v -> cb_y (v_buf v) = v_height v -> exists d,
  console_scroll_check v = Ret (tt, with_disp d (with_buf (set_data (drop (Z.to_nat (v_width v)) (cells v) ++ blank (v_width v)) (set_yx (v_height v - 1) (cb_x (v_buf v)) (v_buf v))) v)) /\
  d_flags d = d_flags (v_disp v) /\
  (unlocked (v_disp v) -> shows (with_disp d (with_data (drop (Z.to_nat (v_width v)) (cells v) ++ blank (v_width v)) v))).
Proof.
  intros (Hw & Hh & Hl & Hc) Hy. set (w := v_width v) in *. set (h := v_height v) in *.
  set (l1 := splice 0 (slice w (Z.of_nat (Z.to_nat ((h - 1) * w))) (cells v)) (cells v)).
  assert (Z.of_nat (Z.to_nat ((h - 1) * w)) = (h - 1) * w) as En by nia. 
  assert (length (slice w ((h - 1) * w) (cells v)) = Z.to_nat ((h - 1) * w)) as Es by (rewrite length_slice; nia).
  assert (length l1 = length (cells v)) as E1. { apply length_splice; [done|]. rewrite En, Es. nia. }
  assert (splice ((h - 1) * w) (replicate (Z.to_nat w) (u16 ATTR_DEFAULT)) l1 = drop (Z.to_nat w) (cells v) ++ blank w) as E2.
  { unfold l1. rewrite En. unfold splice at 1. rewrite drop_ge by (rewrite length_replicate, length_splice; rewrite ?Es; nia).
    rewrite app_nil_r. change (replicate (Z.to_nat w) (u16 ATTR_DEFAULT)) with (blank w). f_equal. unfold splice. rewrite Z2Nat.inj_0, take_0. cbn [app].
    rewrite take_app_le by lia. rewrite take_ge by lia. unfold slice. apply take_ge. rewrite length_drop. nia. }
  set (v1 := with_buf (set_yx (h - 1) (cb_x (v_buf v)) (v_buf v)) v).
  assert (sized (with_data (drop (Z.to_nat w) (cells v) ++ blank w) v1)) as Hs.
  { split; [done|]. split; [done|]. split; cbn; fold w h.
    - rewrite length_app, length_drop. unfold blank. rewrite length_replicate. nia.
    - apply list.Forall_app. split; [by apply Forall_drop|]. apply Forall_replicate. done. }
  destruct (flush_run _ Hs) as (d & E & Hf & Hsh). exists d. split; [|split; [done|exact Hsh]].
  unfold console_scroll_check. rewrite (bind_Ret _ _ v v v eq_refl). cbn beta zeta. fold w h. rewrite Hy, Z.leb_refl.
  rewrite (bind_Ret _ _ v tt v1); [|unfold upd_buf, cmodify; do 2 f_equal; unfold v1, with_buf; do 2 f_equal; apply uwrap_small; lia].
  rewrite (bind_Ret _ _ v1 tt (with_data l1 v1)); [|apply copy_words_run; [lia|change (cells v1) with (cells v); nia|done]].
  rewrite (bind_Ret _ _ (with_data l1 v1) tt (with_data (drop (Z.to_nat w) (cells v) ++ blank w) v1)); [exact E|].
  rewrite memsetw_run; [|nia|lia|change (cells (with_data l1 v1)) with l1; rewrite E1; nia]. change (cells (with_data l1 v1)) with l1. by rewrite E2, with_data_data.
Qed.

(** What is on the screen, [x] apart. *)
Record on_paper v p : Prop := {
  op_size : sized v;
  op_mode : cb_esc_mode (v_buf v) = 0;
  op_rows : Forall (fun r => length r = Z.to_nat (v_width v)) (p_rows p ++ [p_cur p]);
  op_data : cells v = mjoin (window (v_width v) (v_height v) p);
  op_y : cb_y (v_buf v) = Z.min (Z.of_nat (length (p_rows p))) (v_height v - 1);
  op_shows : v_act v = true -> unlocked (v_disp v) -> flag_set (cb_xattrs (v_buf v)) ATTR_BOLD = false -> shows v;
}.

Lemma length_blank w : length (blank w) = Z.to_nat w.
Proof. apply length_replicate. Qed.

Lemma length_join_same n (l : list (list Z)) : Forall (fun r => length r = n) l -> length (mjoin l) = (length l * n)%nat.
Proof. induction 1 as [|r l Hr _ IH]; [done|]. change (mjoin (r :: l)) with (r ++ mjoin l). rewrite length_app, Hr, IH. cbn [length]. lia. Qed.

(** The window shows the current line at row [y]. *)
Lemma window_split w h p : 1 <= h -> exists a b, window w h p = a ++ p_cur p :: b /\
  Z.of_nat (length a) = Z.min (Z.of_nat (length (p_rows p))) (h - 1) /\
  (length a + length b + 1)%nat = Z.to_nat h /\ (forall r, r ∈ a -> r ∈ p_rows p) /\ Forall (fun r => r = blank w) b /\
  forall cur, window w h (mk_paper (p_rows p) cur (p_col p)) = a ++ cur :: b.
Proof.
  intros Hh. set (k := (length (p_rows p) + 1 - Z.to_nat h)%nat).
  exists (drop k (p_rows p)), (replicate (Z.to_nat h - (length (p_rows p) - k) - 1)%nat (blank w)).
  assert (forall cur, window w h (mk_paper (p_rows p) cur (p_col p)) = drop k (p_rows p) ++ cur :: replicate (Z.to_nat h - (length (p_rows p) - k) - 1)%nat (blank w)) as Hw.
  { intros cur. unfold window. cbn [p_rows p_cur]. rewrite length_app. cbn [length]. fold k. rewrite drop_app_le by lia. rewrite <- app_assoc. cbn [app].
    rewrite take_app_ge by (rewrite length_drop; lia). f_equal. rewrite length_drop.
    destruct (Z.to_nat h - (length (p_rows p) - k))%nat as [|m] eqn:Em; [lia|]. rewrite firstn_cons, take_replicate. do 2 f_equal. lia. }
  split; [destruct p; apply Hw|]. rewrite length_drop, length_replicate. split; [lia|]. split; [lia|]. split; [|split; [|done]].
  - intros r Hr. rewrite <- (take_drop k (p_rows p)). apply elem_of_app. by right.
  - by apply Forall_replicate.
Qed.

(** Moving to a new line: the window moves when the cursor is on the last row. *)
Lemma window_push w h p : 1 <= h ->
  (Z.of_nat (length (p_rows p)) < h - 1 -> window w h (push w p) = window w h p) /\
  (h - 1 <= Z.of_nat (length (p_rows p)) -> window w h (push w p) = drop 1 (window w h p) ++ [blank w]).
Proof.
  intros Hh. unfold window, push. cbn [p_rows p_cur]. rewrite !length_app. cbn [length]. set (l := p_rows p ++ [p_cur p]).
  assert (length l = (length (p_rows p) + 1)%nat) as El by (unfold l; rewrite length_app; done). rewrite <- El. split; intros Hp.
  - replace (length l + 1 - Z.to_nat h)%nat with 0%nat by lia. replace (length l - Z.to_nat h)%nat with 0%nat by lia. rewrite !drop_0, <- app_assoc.
    rewrite !(take_app_ge l) by lia. f_equal. rewrite take_replicate. destruct (Z.to_nat h - length l)%nat as [|m] eqn:Em; [lia|]. cbn [app].
    rewrite firstn_cons, take_replicate. replace (Datatypes.S m `min` Z.to_nat h)%nat with (Datatypes.S m) by lia. cbn [replicate]. do 2 f_equal. lia.
  - rewrite drop_app_le by lia. rewrite (take_app_le (drop _ l ++ [blank w])) by (rewrite length_app, length_drop; cbn; lia).
    rewrite (take_app_le (drop (length l - Z.to_nat h) l)) by (rewrite length_drop; lia). rewrite !take_ge by (rewrite ?length_app, length_drop; cbn; lia).
    rewrite drop_drop. do 2 f_equal. lia.
Qed.

(** What printing text leaves alone. *)
Definition same_frame v v' : Prop :=
  v_width v' = v_width v /\ v_height v' = v_height v /\ v_act v' = v_act v /\ cb_attr (v_buf v') = cb_attr (v_buf v) /\
  cb_xattrs (v_buf v') = cb_xattrs (v_buf v) /\ d_flags (v_disp v') = d_flags (v_disp v).

#[global] Instance same_frame_preorder : PreOrder same_frame.
Proof. split; [by repeat split|]. intros ? ? ? (? & ? & ? & ? & ? & ?) (? & ? & ? & ? & ? & ?). repeat split; congruence. Qed.

Lemma window_rows w h p : 0 <= w -> Forall (fun r => length r = Z.to_nat w) (p_rows p ++ [p_cur p]) -> Forall (fun r => length r = Z.to_nat w) (window w h p).
Proof.
  intros Hw Hr. unfold window. apply Forall_take, list.Forall_app. split; [by apply Forall_drop|]. apply Forall_replicate, length_blank.
Qed.

Lemma push_rows w p : Forall (fun r => length r = Z.to_nat w) (p_rows p ++ [p_cur p]) -> Forall (fun r => length r = Z.to_nat w) (p_rows (push w p) ++ [p_cur (push w p)]).
Proof. intros Hr. cbn. apply list.Forall_app. split; [done|]. apply list.Forall_cons. split; [apply length_blank|done]. Qed.

Lemma new_line_run v p : on_paper v p -> exists v', new_line v = Ret (tt, v') /\ on_paper v' (push (v_width v) p) /\ cb_x (v_buf v') = 0 /\ same_frame v v'.
Proof.
  intros [Hs Hm Hr Hd Hy Hsh]. pose proof Hs as (Hw & Hh & Hl & Hc). set (v1 := with_buf (set_yx (cb_y (v_buf v) + 1) 0 (v_buf v)) v).
  assert (upd_buf (fun b => set_yx (u16 (cb_y b + 1)) 0 b) v = Ret (tt, v1)) as E1.
  { unfold upd_buf, cmodify. do 2 f_equal. unfold v1, with_buf. do 2 f_equal. apply uwrap_small. lia. }
  unfold new_line. step_run E1. destruct (window_push (v_width v) (v_height v) p ltac:(lia)) as [W1 W2].
  destruct (decide (Z.of_nat (length (p_rows p)) < v_height v - 1)) as [Hlt|Hge].
  - exists v1. split; [|split; [|split; [done|by repeat split]]].
    + unfold console_scroll_check. rewrite (bind_Ret _ _ v1 v1 v1 eq_refl). cbn beta zeta. rewrite (proj2 (Z.leb_gt _ _)); [done|]. cbn. lia.
    + split; [done|done|by apply push_rows| | |done]; cbn; [rewrite W1 by done; exact Hd|]. rewrite length_app. cbn. lia.
  - destruct (scroll_run v1 Hs ltac:(cbn; lia)) as (d & E2 & Hf & Hsh2). eexists. split; [exact E2|]. cbn [v_width with_buf v1] in *. split; [|split; [done|by repeat split]].
    assert (drop (Z.to_nat (v_width v)) (cells v) ++ blank (v_width v) = mjoin (window (v_width v) (v_height v) (push (v_width v) p))) as Ed.
    { rewrite W2 by lia. rewrite join_app. cbn [mjoin list_join]. rewrite app_nil_r. f_equal. rewrite Hd.
      pose proof (window_rows (v_width v) (v_height v) p ltac:(lia) Hr) as Hrw. destruct (window_split (v_width v) (v_height v) p ltac:(lia)) as (a & b & Ew & _).
      destruct (window (v_width v) (v_height v) p) as [|r l]; [by destruct a|]. cbn [drop]. apply list.Forall_cons in Hrw as [Hr0 _].
      change (mjoin (r :: l)) with (r ++ mjoin l). rewrite drop_app_ge by lia. replace (Z.to_nat (v_width v) - length r)%nat with 0%nat by lia. done. }
    split.
    + split; [done|]. split; [done|]. cbn. split; [|apply list.Forall_app; split; [by apply Forall_drop|by apply Forall_replicate]].
      rewrite length_app, length_drop, length_blank. nia.
    + done.
    + by apply push_rows.
    + exact Ed.
    + cbn. rewrite length_app. cbn. lia.
    + intros _ Hu _. apply Hsh2. eapply unlocked_flags; [|exact Hu]. by cbn.
Qed.

Lemma wrap_run v p : on_paper v p -> 0 <= p_col p -> cb_x (v_buf v) = p_col p -> exists v', wrap_line v = Ret (tt, v') /\ on_paper v' (wrapped (v_width v) p) /\
  cb_x (v_buf v') = p_col (wrapped (v_width v) p) /\ 0 <= p_col (wrapped (v_width v) p) < v_width v /\ same_frame v v'.
Proof.
  intros Hp Hc Hx. pose proof (op_size _ _ Hp) as (Hw & _). unfold wrap_line, wrapped. rewrite (bind_Ret _ _ v v v eq_refl); cbn beta. rewrite Hx.
  destruct (Z.leb_spec (v_width v) (p_col p)) as [H|H].
  - destruct (new_line_run v p Hp) as (v' & E & Hp' & Hx' & Hf). exists v'. cbn. rewrite Hx'. split_and!; try done. lia.
  - exists v. split_and!; try done.
Qed.

(** Only the column differs. *)
Lemma on_paper_col v p x c : on_paper v p -> on_paper (with_buf (set_yx (cb_y (v_buf v)) x (v_buf v)) v) (mk_paper (p_rows p) (p_cur p) c).
Proof. intros [Hs Hm Hr Hd Hy Hsh]. by split. Qed.

Lemma join_insert w a (cur : list Z) b (k : nat) x : Forall (fun r => length r = w) a -> (k < length cur)%nat ->
  <[(length a * w + k)%nat := x]> (mjoin (a ++ cur :: b)) = mjoin (a ++ <[k := x]> cur :: b).
Proof.
  intros Ha Hk. rewrite !join_app. pose proof (length_join_same w a Ha) as El. rewrite insert_app_r_alt by lia. rewrite El.
  replace (length a * w + k - length a * w)%nat with k by lia. f_equal. change (mjoin (cur :: b)) with (cur ++ mjoin b). by rewrite insert_app_l.
Qed.

(** A printable character is stored and drawn at the cursor. *)
Lemma put_cell v p c : on_paper v p -> 32 <= c -> 0 <= p_col p < v_width v -> cb_x (v_buf v) = p_col p -> exists v', 
  put_glyph c v = Ret (tt, v') /\
  on_paper v' (mk_paper (p_rows p) (<[Z.to_nat (p_col p) := u16 (Z.lor c (cb_attr (v_buf v)))]> (p_cur p)) (p_col p)) /\
  cb_x (v_buf v') = p_col p /\ same_frame v v'.
Proof.
  intros [Hs Hm Hr Hd Hy Hsh] Hc Hcol Hx. pose proof Hs as (Hw & Hh & Hl & Hcl). set (w := v_width v) in *. set (h := v_height v) in *.
  set (ch := u16 (Z.lor c (cb_attr (v_buf v)))). assert (is_cell ch) as Hch by (apply uwrap_range; done).
  assert (0 <= cb_y (v_buf v) < h) as Hyr by lia. set (i := cb_y (v_buf v) * w + cb_x (v_buf v)).
  assert (0 <= i < Z.of_nat (length (cells v))) as Hi by (unfold i; nia).
  set (v1 := with_data (<[Z.to_nat i := ch]> (cells v)) v).
  assert (exists d, (if v_act v then
       let a := if flag_set (cb_xattrs (v_buf v)) ATTR_BOLD then Z.lor (cb_attr (v_buf v)) 0x8000 else cb_attr (v_buf v) in
       draw (cb_y (v_buf v)) (cb_x (v_buf v)) (Z.lor c a)
     else mret tt) v1 = Ret (tt, with_disp d v1) /\ d_flags d = d_flags (v_disp v) /\
     (v_act v = true -> unlocked (v_disp v) -> flag_set (cb_xattrs (v_buf v)) ATTR_BOLD = false -> d_cells d = <[(cb_y (v_buf v), p_col p) := ch]> (d_cells (v_disp v)))) as (d & E2 & Hf & Hcells).
  { destruct (v_act v); [|by exists (v_disp v1)].
    exists (display_setc (cb_y (v_buf v)) (cb_x (v_buf v)) (Z.lor c (if flag_set (cb_xattrs (v_buf v)) ATTR_BOLD then Z.lor (cb_attr (v_buf v)) 0x8000 else cb_attr (v_buf v))) (v_disp v)).
    split; [reflexivity|]. split; [apply setc_flags|]. intros _ Hu ->. unfold display_setc. rewrite Hu. cbn.
    rewrite Hx. rewrite !(uwrap_small 16) by lia. done. }
  exists (with_disp d v1). split; [unfold put_glyph; rewrite (bind_Ret _ _ v v v eq_refl); cbn beta zeta; step_run (data_set_run i (Z.lor c (cb_attr (v_buf v))) v Hi); exact E2|]. split; [|split; [done|by repeat split]].
  destruct (window_split w h p ltac:(lia)) as (a & b & Ew & Hla & Hlen & Hina & Hb & Hwin).
  assert (Forall (fun r => length r = Z.to_nat w) a) as Hra. { apply list.Forall_forall. intros r Hin. apply (proj1 (list.Forall_forall _ _) Hr), elem_of_app. left. auto. }
  apply list.Forall_app in Hr as [Hr1 Hr2]. apply list.Forall_cons in Hr2 as [Hcur _]. split.
  - split; [done|]. split; [done|]. cbn. rewrite length_insert. split; [done|]. by apply Forall_insert.
  - done.
  - cbn. apply list.Forall_app. split; [done|]. apply list.Forall_cons. by rewrite length_insert.
  - cbn -[window]. unfold window. fold w h. etrans; [|symmetry; apply f_equal, (Hwin (<[Z.to_nat (p_col p) := ch]> (p_cur p)))].
    rewrite Hd, Ew. rewrite <- (join_insert (Z.to_nat w)) by (done || lia). f_equal. unfold i. rewrite Hx, Hy, <- Hla. nia.
  - done.
  - intros Hact Hu Hb' r cc Hrr Hcc. cbn in Hact, Hu, Hb', Hrr, Hcc |- *. fold w in Hcc |- *. fold h in Hrr.
    assert (unlocked (v_disp v)) as Hu' by (eapply unlocked_flags; [symmetry; exact Hf|exact Hu]). rewrite Hcells by done.
    destruct (decide ((cb_y (v_buf v), p_col p) = (r, cc))) as [[= <- <-]|Hne].
    + rewrite lookup_insert_eq. unfold i. rewrite Hx. rewrite list_lookup_insert_eq; [done|]. unfold i in Hi. rewrite Hx in Hi. lia.
    + rewrite lookup_insert_ne by done. rewrite list_lookup_insert_ne; [by apply Hsh|]. unfold i. rewrite Hx. intros E. apply Hne.
      assert (cb_y (v_buf v) * w + p_col p = r * w + cc) as E' by nia. assert (cb_y (v_buf v) = r) by nia. subst r. f_equal. lia.
Qed.
End layout.

Section text.
Implicit Types (v : view) (p : paper).

Lemma feed_run v p c : on_paper v p -> c <> 27 -> 0 <= p_col p < v_width v -> cb_x (v_buf v) = p_col p -> exists v',
  putc_view c v = Ret (tt, v') /\ on_paper v' (feed (v_width v) (cb_attr (v_buf v)) p c) /\
  cb_x (v_buf v') = p_col (feed (v_width v) (cb_attr (v_buf v)) p c) /\ 0 <= p_col (feed (v_width v) (cb_attr (v_buf v)) p c) < v_width v /\ same_frame v v'.
Proof.
  intros Hp Hc Hcol Hx. pose proof (op_size _ _ Hp) as (Hw & Hh & _). unfold putc_view, get_buf. rewrite (bind_Ret _ _ v (v_buf v) v eq_refl); cbn beta.
  rewrite (op_mode _ _ Hp). cbn [Z.eqb ESC_CSI ESC_ESC]. unfold put_char, feed. rewrite (proj2 (Z.eqb_neq c 27) Hc).
  destruct (c =? 10); [|destruct (c =? 13); [|destruct (c =? 9); [|destruct (Z.leb_spec 32 c) as [H32|_]]]].
  - destruct (new_line_run v p Hp) as (v' & E & Hp' & Hx' & Hf). exists v'. cbn. split_and!; try done. lia.
  - eexists. split; [reflexivity|]. split; [exact (on_paper_col v p 0 0 Hp)|]. cbn. split_and!; try done. lia.
  - assert (0 <= p_col p mod 4 < 4) by (apply Z.mod_pos_bound; lia). set (k := p_col p + (4 - p_col p mod 4)).
    rewrite (bind_Ret _ _ v tt (with_buf (set_yx (cb_y (v_buf v)) k (v_buf v)) v)).
    2:{ unfold upd_buf, cmodify. do 2 f_equal. unfold with_buf. do 2 f_equal. rewrite Hx. apply uwrap_small. unfold k. lia. }
    exact (wrap_run _ (mk_paper (p_rows p) (p_cur p) k) (on_paper_col v p k k Hp) ltac:(cbn; unfold k; lia) eq_refl).
  - destruct (put_cell v p c Hp H32 Hcol Hx) as (v1 & E & Hp1 & Hx1 & Hf1).
    set (p1 := mk_paper (p_rows p) (<[Z.to_nat (p_col p) := u16 (Z.lor c (cb_attr (v_buf v)))]> (p_cur p)) (p_col p)) in *.
    pose proof Hf1 as (F1 & F2 & F3 & F4 & F5 & F6).
    step_run E. rewrite (bind_Ret _ _ v1 tt (with_buf (set_yx (cb_y (v_buf v1)) (p_col p + 1) (v_buf v1)) v1)).
    2:{ unfold upd_buf, cmodify. do 2 f_equal. unfold with_buf. do 2 f_equal. rewrite Hx1. apply uwrap_small. lia. }
    destruct (wrap_run _ (mk_paper (p_rows p1) (p_cur p1) (p_col p + 1)) (on_paper_col v1 p1 (p_col p + 1) (p_col p + 1) Hp1) ltac:(cbn; lia) eq_refl) as (v' & E' & Hp' & Hx' & Hc' & Hf').
    change (v_width (with_buf (set_yx (cb_y (v_buf v1)) (p_col p + 1) (v_buf v1)) v1)) with (v_width v1) in *. rewrite F1 in *. cbn [p1 p_rows p_cur] in *.
    exists v'. split_and!; try done; try lia. etrans; [exact Hf1|]. exact Hf'.
  - by exists v.
Qed.

Lemma write_view_run s : forall v p, on_paper v p -> Forall (fun c => c <> 27) s -> 0 <= p_col p < v_width v -> cb_x (v_buf v) = p_col p -> exists v',
  write_view s v = Ret (tt, v') /\ on_paper v' (fold_left (feed (v_width v) (cb_attr (v_buf v))) s p) /\
  cb_x (v_buf v') = p_col (fold_left (feed (v_width v) (cb_attr (v_buf v))) s p) /\ same_frame v v'.
Proof.
  induction s as [|c s IH]; intros v p Hp Hs Hcol Hx; [by exists v|]. apply list.Forall_cons in Hs as [Hc Hs]. cbn [write_view fold_left].
  destruct (feed_run v p c Hp Hc Hcol Hx) as (v1 & E & Hp1 & Hx1 & Hc1 & Hf). pose proof Hf as (F1 & F2 & F3 & F4 & F5 & F6). step_run E.
  destruct (IH v1 _ Hp1 Hs ltac:(lia) Hx1) as (v' & E' & Hp' & Hx' & Hf'). exists v'. rewrite F1, F4 in *. split_and!; try done. by etrans.
Qed.

(** A console just created: blank, the cursor at the top, and on its display if active. *)
Record blank_console v : Prop := {
  bc_size : sized v;
  bc_data : cells v = replicate (Z.to_nat (v_width v * v_height v)) ATTR_DEFAULT;
  bc_y : cb_y (v_buf v) = 0;
  bc_x : cb_x (v_buf v) = 0;
  bc_mode : cb_esc_mode (v_buf v) = 0;
  bc_shows : v_act v = true -> unlocked (v_disp v) -> shows v;
}.

Lemma join_replicate (n m : nat) (c : Z) : mjoin (replicate n (replicate m c)) = replicate (n * m) c.
Proof. induction n as [|n IH]; [done|]. cbn [replicate Nat.mul]. change (mjoin (?r :: ?l)) with (r ++ mjoin l). by rewrite IH, replicate_add. Qed.

Lemma blank_on_paper v : blank_console v -> on_paper v (sheet (v_width v)).
Proof.
  intros [Hs Hd Hy Hx Hm Hsh]. pose proof Hs as (Hw & Hh & Hl & Hc). split; try done.
  - cbn. apply list.Forall_cons. split; [apply length_blank|done].
  - rewrite Hd. unfold window, sheet. cbn [p_rows p_cur app length]. replace (1 - Z.to_nat (v_height v))%nat with 0%nat by lia. rewrite drop_0.
    destruct (Z.to_nat (v_height v)) as [|n] eqn:En; [lia|]. cbn [app]. rewrite firstn_cons, take_replicate. replace (n `min` Datatypes.S n)%nat with n by lia.
    change (blank (v_width v) :: replicate n (blank (v_width v))) with (replicate (Datatypes.S n) (blank (v_width v))). unfold blank. rewrite join_replicate. f_equal. nia.
  - rewrite Hy. cbn. lia.
  - auto.
Qed.

(** C29: a console is a window on an endless sheet of paper.  Printing any text without
    escapes (with newlines, carriage returns, tabs and wrapped lines) on a new console
    returns, and the buffer holds the last lines of the sheet the text is laid out on
    (all of them, above blank lines, while they fit), with the cursor at the current
    line and column; the display of an active console shows exactly the buffer. *)
Theorem console_shows_paper s v :
  blank_console v -> Forall (fun c => c <> 27) s ->
  exists v', write_view s v = Ret (tt, v') /\
    let p := fold_left (feed (v_width v) (cb_attr (v_buf v))) s (sheet (v_width v)) in
    cells v' = mjoin (window (v_width v) (v_height v) p) /\
    cb_y (v_buf v') = Z.min (Z.of_nat (length (p_rows p))) (v_height v - 1) /\
    cb_x (v_buf v') = p_col p /\
    (v_act v = true -> unlocked (v_disp v) -> flag_set (cb_xattrs (v_buf v)) ATTR_BOLD = false -> shows v').
Proof.
  intros Hb Hs. pose proof (bc_size _ Hb) as (Hw & _).
  destruct (write_view_run s v (sheet (v_width v)) (blank_on_paper v Hb) Hs ltac:(cbn; lia) (bc_x _ Hb)) as (v' & E & Hp & Hx & (F1 & F2 & F3 & F4 & F5 & F6)).
  exists v'. split; [done|]. cbn zeta. split_and!; [by rewrite (op_data _ _ Hp), F1, F2|by rewrite (op_y _ _ Hp), F2|done|].
  intros Ha Hu Hbold. apply (op_shows _ _ Hp); [congruence| |congruence]. by eapply unlocked_flags.
Qed.
End text.

(** ** Escape sequences *)
Definition is_arg (a : Z) : Prop := 0 <= a < 2 ^ 32.
(** [lim] bounds the number of parameters while a sequence is read. *)
Record con_inv (lim : Z) (v : view) : Prop := {
  ok_size : sized v;
  ok_y : 0 <= cb_y (v_buf v) < v_height v;
  ok_x : 0 <= cb_x (v_buf v) < v_width v;
  ok_saved_y : 0 <= cb_saved_y (v_buf v) < v_height v;
  ok_saved_x : 0 <= cb_saved_x (v_buf v) < v_width v;
  ok_argv : length (cb_esc_argv (v_buf v)) = 8%nat /\ Forall is_arg (cb_esc_argv (v_buf v));
  ok_argc : cb_esc_mode (v_buf v) <> 0 -> 0 <= cb_esc_argc (v_buf v) < lim;
}.
Abbreviation con_ok := (con_inv 8).

(** The characters after which the code is out of its arrays: a ninth parameter, and
    colours 8 and 9 ([ESC [ 38 m], [ESC [ 49 m] and the like). *)
Definition color_ok (a : Z) : bool := negb ((a / 10 =? 3) || (a / 10 =? 4)) || (a mod 10 <? 8).
Definition within_arrays (v : view) (c : Z) : bool :=
  let b := v_buf v in
  negb (cb_esc_mode b =? ESC_CSI) ||
  (if c =? 59 then cb_esc_argc b <? 7
   else if i8 c =? 109 then forallb color_ok (take (Z.to_nat (cb_esc_argc b + 1)) (cb_esc_argv b))
   else true).

Section escapes.
Implicit Types (v : view).
Variable lim : Z.
#[local] Abbreviation con_fine := (con_inv lim).

(** The parts of [con_ok] a change of the buffer must establish again. *)
Lemma con_ok_buf v b : con_fine v -> 
  Z.of_nat (length (cb_data b)) = v_width v * v_height v -> Forall is_cell (cb_data b) ->
  0 <= cb_y b < v_height v -> 0 <= cb_x b < v_width v -> 0 <= cb_saved_y b < v_height v -> 0 <= cb_saved_x b < v_width v ->
  length (cb_esc_argv b) = 8%nat -> Forall is_arg (cb_esc_argv b) -> (cb_esc_mode b <> 0 -> 0 <= cb_esc_argc b < lim) ->
  con_fine (with_buf b v).
Proof. intros [(? & ? & ? & ?) ? ? ? ? ? ?]. intros; by split. Qed.

Lemma con_ok_disp v d : con_fine v -> con_fine (with_disp d v).
Proof. intros [(? & ? & ? & ?) ? ? ? ? ? ?]. by split. Qed.

Lemma con_ok_data v l : con_fine v -> length l = length (cells v) -> Forall is_cell l -> con_fine (with_data l v).
Proof. intros H Hl Hc. pose proof H as [(? & ? & ? & ?) ? ? ? ? [? ?] ?]. apply con_ok_buf; cbn; try done. by rewrite Hl. Qed.

Lemma con_ok_yx v y x : con_fine v -> 0 <= y < v_height v -> 0 <= x < v_width v -> con_fine (with_buf (set_yx y x (v_buf v)) v).
Proof. intros H Hy Hx. pose proof H as [(? & ? & ? & ?) ? ? ? ? [? ?] ?]. by apply con_ok_buf. Qed.

Lemma memset_keeps i c n v : con_fine v -> 0 <= i -> 0 <= n -> i + n <= Z.of_nat (length (cells v)) ->
  exists v', memsetw i c n v = Ret (tt, v') /\ con_fine v'.
Proof.
  intros H Hi Hn Hl. pose proof (ok_size _ _ H) as (Hw & Hh & Hlen & Hc). eexists. rewrite memsetw_run by nia. split; [done|]. apply con_ok_data; [done| |].
  - apply length_splice; [done|]. rewrite length_replicate. lia.
  - unfold splice. apply list.Forall_app. split; [by apply Forall_take|]. apply list.Forall_app. split; [|by apply Forall_drop].
    apply Forall_replicate, uwrap_range. done.
Qed.

Lemma flush_keeps v : con_fine v -> exists v', console_flush v = Ret (tt, v') /\ con_fine v'.
Proof. intros H. destruct (flush_run v (ok_size _ _ H)) as (d & E & _ & _). eexists. split; [exact E|]. by apply con_ok_disp. Qed.

Lemma argv_at_run i v : con_fine v -> 0 <= i < 8 -> exists a, argv_at i v = Ret (a, v) /\ cb_esc_argv (v_buf v) !! Z.to_nat i = Some a /\ is_arg a.
Proof.
  intros H Hi. destruct (ok_argv _ _ H) as [Hl Ha]. destruct (lookup_lt_is_Some_2 (cb_esc_argv (v_buf v)) (Z.to_nat i)) as [a E]; [lia|].
  exists a. split; [by apply load_Some|]. split; [done|]. eapply list.Forall_forall; [exact Ha|by eapply list_elem_of_lookup_2].
Qed.

Lemma argv_set_run i a v : length (cb_esc_argv (v_buf v)) = 8%nat -> 0 <= i < 8 ->
  argv_set i a v = Ret (tt, with_buf (set_argv (<[Z.to_nat i := u32 a]> (cb_esc_argv (v_buf v))) (v_buf v)) v).
Proof.
  intros Hl Hi. destruct (lookup_lt_is_Some_2 (cb_esc_argv (v_buf v)) (Z.to_nat i)) as [x E]; [lia|].
  unfold argv_set. rewrite (bind_Ret _ _ v x v); [done|]. by apply load_Some.
Qed.

Lemma con_ok_argv v i a : con_fine v -> con_fine (with_buf (set_argv (<[Z.to_nat i := u32 a]> (cb_esc_argv (v_buf v))) (v_buf v)) v).
Proof.
  intros H. pose proof H as [(? & ? & ? & ?) ? ? ? ? [? ?] ?]. apply con_ok_buf; cbn; try done; [by rewrite length_insert|].
  apply Forall_insert; [done|]. apply uwrap_range. done.
Qed.

Lemma upd_run f v : upd_buf f v = Ret (tt, with_buf (f (v_buf v)) v).
Proof. done. Qed.

Lemma csi_count_run v : con_fine v -> exists n v', csi_count v = Ret (n, v') /\ con_fine v' /\ 0 <= n < 2 ^ 32 /\ v_width v' = v_width v /\ v_height v' = v_height v.
Proof.
  intros H. unfold csi_count. destruct (argv_at_run 0 v H ltac:(lia)) as (a & E & _ & Ha). step_run E. destruct (a =? 0).
  - exists 1. eexists. step_run (argv_set_run 0 1 v (proj1 (ok_argv _ _ H)) ltac:(lia)). split; [reflexivity|]. split; [by apply con_ok_argv|]. by repeat split.
  - exists a, v. split; [done|]. split; [done|]. by repeat split; apply Ha.
Qed.

Lemma csi_attr_run a v : con_fine v -> color_ok a = true -> exists v', csi_attr a v = Ret (tt, v') /\ con_fine v' /\ cb_esc_argv (v_buf v') = cb_esc_argv (v_buf v).
Proof.
  intros H Hc. assert (forall f, (forall b, cb_esc_argv (f b) = cb_esc_argv b /\ cb_data (f b) = cb_data b /\ cb_y (f b) = cb_y b /\ cb_x (f b) = cb_x b /\ cb_saved_y (f b) = cb_saved_y b /\ cb_saved_x (f b) = cb_saved_x b /\ cb_esc_mode (f b) = cb_esc_mode b /\ cb_esc_argc (f b) = cb_esc_argc b) ->
    exists v', upd_buf f v = Ret (tt, v') /\ con_fine v' /\ cb_esc_argv (v_buf v') = cb_esc_argv (v_buf v)) as Hu.
  { intros f Hf. destruct (Hf (v_buf v)) as (F1 & F2 & F3 & F4 & F5 & F6 & F7 & F8). eexists. split; [reflexivity|]. split; [|done].
    pose proof H as [(? & ? & ? & ?) ? ? ? ? [? ?] ?]. apply con_ok_buf; rewrite ?F1, ?F2, ?F3, ?F4, ?F5, ?F6, ?F7, ?F8; done. }
  assert (forall k : Z -> cmd view unit, (a / 10 =? 3) || (a / 10 =? 4) = true -> (forall m, exists v', k m v = Ret (tt, v') /\ con_fine v' /\ cb_esc_argv (v_buf v') = cb_esc_argv (v_buf v)) ->
    exists v', (m ← cload (fun _ => color_map !! Z.to_nat (a mod 10)); k m) v = Ret (tt, v') /\ con_fine v' /\ cb_esc_argv (v_buf v') = cb_esc_argv (v_buf v)) as Hm.
  { intros k H34 Hk. unfold color_ok in Hc. rewrite H34 in Hc. cbn in Hc. apply Z.ltb_lt in Hc. assert (0 <= a mod 10) by (apply Z.mod_pos_bound; lia).
    destruct (lookup_lt_is_Some_2 color_map (Z.to_nat (a mod 10))) as [m Em]; [cbn; lia|]. rewrite (bind_Ret _ _ v m v); [apply Hk|]. by apply load_Some. }
  unfold csi_attr. destruct (a / 10 =? 0).
  - destruct (a mod 10 =? 0); [by apply Hu|]. destruct (a mod 10 =? 1); [by apply Hu|]. destruct (a mod 10 =? 2); [by apply Hu|].
    destruct (a mod 10 =? 7); [by apply Hu|by exists v].
  - destruct (a / 10 =? 3) eqn:E3; [apply Hm; [done|]; intros; by apply Hu|].
    destruct (a / 10 =? 4) eqn:E4; [apply Hm; [done|]; intros; by apply Hu|by exists v].
Qed.

Lemma csi_attrs_run l : forall v, con_fine v -> (forall i, i ∈ l -> 0 <= i < 8 /\ forall a, cb_esc_argv (v_buf v) !! Z.to_nat i = Some a -> color_ok a = true) ->
  exists v', csi_attrs l v = Ret (tt, v') /\ con_fine v'.
Proof.
  induction l as [|i l IH]; intros v H Hl; [by exists v|]. cbn [csi_attrs]. destruct (Hl i ltac:(by left)) as [Hi Hc].
  destruct (argv_at_run i v H Hi) as (a & E & Ea & _). step_run E. destruct (csi_attr_run a v H (Hc a Ea)) as (v1 & E1 & H1 & F). step_run E1.
  apply IH; [done|]. intros j Hj. rewrite F. apply Hl. by right.
Qed.

Lemma u16_small x : 0 <= x < 2 ^ 16 -> u16 x = x.
Proof. apply uwrap_small. Qed.

(** Moving the cursor by a count. *)
Lemma csi_move_run (f : Z -> console_buffer -> console_buffer) v : con_fine v ->
  (forall n b w h, 0 <= n < 2 ^ 32 -> 0 <= cb_y b < h -> 0 <= cb_x b < w -> 2 <= w <= 2 ^ 15 -> 1 <= h <= 2 ^ 15 -> w = v_width v -> h = v_height v ->
    exists y x, f n b = set_yx y x b /\ 0 <= y < h /\ 0 <= x < w) ->
  exists v', (n ← csi_count; upd_buf (f n)) v = Ret (tt, v') /\ con_fine v'.
Proof.
  intros H Hf. destruct (csi_count_run v H) as (n & v1 & E & H1 & Hn & Ew & Eh). step_run E. pose proof H1 as [(? & ? & ? & ?) ? ? ? ? [? ?] ?].
  destruct (Hf n (v_buf v1) (v_width v1) (v_height v1)) as (y & x & Ef & Hy & Hx); try done.
  exists (with_buf (set_yx y x (v_buf v1)) v1). split; [rewrite upd_run; by rewrite Ef|]. by apply con_ok_yx.
Qed.

Lemma u32_sum_u16 n y h : 0 <= n -> 0 <= y -> u32 (n + y) < h <= 2 ^ 15 -> u16 (y + n) = u32 (n + y).
Proof.
  intros Hn Hy Hs. pose proof (uwrap_range 32 (n + y) ltac:(done)). rewrite (Z.add_comm y n). unfold uwrap in *. rewrite <- (Z.mod_small ((n + y) mod 2 ^ 32) (2 ^ 16)) at 1 by lia.
  change (2 ^ 32) with (2 ^ 16 * 2 ^ 16). rewrite Z.rem_mul_r by lia. rewrite Z.mul_comm, Z_mod_plus_full, Z.mod_mod by lia. done.
Qed.

Lemma csi_run v : con_fine v -> (cb_esc_letter (v_buf v) = 109 -> 0 <= cb_esc_argc (v_buf v) <= 8 /\ forallb color_ok (take (Z.to_nat (cb_esc_argc (v_buf v))) (cb_esc_argv (v_buf v))) = true) ->
  exists v', process_csi v = Ret (tt, v') /\ con_fine v'.
Proof.
  intros H Hm. pose proof H as [(Hw & Hh & Hlen & Hc) Hy Hx Hsy Hsx [Hla Ha] Hac]. unfold process_csi. rewrite (bind_Ret _ _ v v v eq_refl). cbn beta zeta.
  destruct (Z.eqb_spec (cb_esc_letter (v_buf v)) 109) as [E|_].
  { destruct (Hm E) as [Hr Hcol]. apply csi_attrs_run; [done|]. intros i [Hi1 Hi2]%elem_of_seqZ. split; [lia|]. intros a Ea.
    apply (proj1 (forallb_forall _ _) Hcol). apply list_elem_of_In, list_elem_of_lookup. exists (Z.to_nat i). rewrite lookup_take_lt by lia. done. }
  destruct (_ =? 115). { eexists. split; [reflexivity|]. by apply con_ok_buf. }
  destruct (_ =? 117). { eexists. split; [reflexivity|]. by apply con_ok_buf. }
  destruct (_ =? 74).
  { destruct (argv_at_run 0 v H ltac:(lia)) as (a & E & _ & _). step_run E. destruct (a =? 0); [apply memset_keeps; [done|nia..]|]. destruct (a =? 1); [apply memset_keeps; [done|nia..]|].
    destruct (a =? 2); [|by exists v]. destruct (memset_keeps 0 (cb_attr (v_buf v)) (v_width v * v_height v) v H ltac:(lia) ltac:(nia) ltac:(lia)) as (v1 & E1 & H1). step_run E1. by apply flush_keeps. }
  destruct (_ =? 102).
  { destruct (argv_at_run 0 v H ltac:(lia)) as (a & E & _ & _). step_run E. destruct (argv_at_run 1 v H ltac:(lia)) as (a' & E' & _ & _). step_run E'.
    rewrite (uwrap_small 32 (v_width v - 1)) by lia. rewrite (proj2 (Z.eqb_neq (v_height v) 0)), (proj2 (Z.eqb_neq (v_width v - 1) 0)) by lia. cbn [orb].
    eexists. split; [reflexivity|]. pose proof (Z.mod_pos_bound (u32 (a - 1)) (v_height v) ltac:(lia)). pose proof (Z.mod_pos_bound (u32 (a' - 1)) (v_width v - 1) ltac:(lia)).
    apply con_ok_yx; [done| |]; rewrite u16_small; lia. }
  destruct (_ =? 65). { apply csi_move_run; [done|]. intros n b w h Hn Hb Hbx Hw' Hh' -> ->. eexists _, _. split; [reflexivity|]. split; [|done]. destruct (Z.leb_spec (cb_y b) n); [lia|]. rewrite u16_small; lia. }
  destruct (_ =? 66). { apply csi_move_run; [done|]. intros n b w h Hn Hb Hbx Hw' Hh' -> ->. eexists _, _. split; [reflexivity|]. split; [|done].
    pose proof (uwrap_range 32 (n + cb_y b) ltac:(done)). destruct (Z.leb_spec (v_height v) (u32 (n + cb_y b))); [rewrite u16_small; lia|]. rewrite (u32_sum_u16 n (cb_y b) (v_height v)); lia. }
  destruct (_ =? 67). { apply csi_move_run; [done|]. intros n b w h Hn Hb Hbx Hw' Hh' -> ->. eexists _, _. split; [reflexivity|]. split; [done|].
    pose proof (uwrap_range 32 (n + cb_x b) ltac:(done)). destruct (Z.leb_spec (v_width v) (u32 (n + cb_x b))); [rewrite u16_small; lia|]. rewrite (u32_sum_u16 n (cb_x b) (v_width v)); lia. }
  destruct (_ =? 68). { apply csi_move_run; [done|]. intros n b w h Hn Hb Hbx Hw' Hh' -> ->. eexists _, _. split; [reflexivity|]. split; [done|]. destruct (Z.leb_spec (cb_x b) n); [lia|]. rewrite u16_small; lia. }
  destruct (_ =? 75); [|by exists v].
  destruct (memset_keeps (cb_y (v_buf v) * v_width v + cb_x (v_buf v)) (cb_attr (v_buf v)) (v_width v - cb_x (v_buf v)) v H ltac:(nia) ltac:(lia) ltac:(nia)) as (v1 & E1 & H1). step_run E1. by apply flush_keeps.
Qed.

(** A new line from a sound state whose column may be one past the end. *)
Lemma new_line_keeps v : con_fine (with_buf (set_yx (cb_y (v_buf v)) 0 (v_buf v)) v) -> exists v', new_line v = Ret (tt, v') /\ con_fine v'.
Proof.
  intros H. pose proof H as [(Hw & Hh & Hlen & Hc) Hy Hx Hsy Hsx [Hla Ha] Hac]. cbn in Hw, Hh, Hlen, Hc, Hy, Hsy, Hsx, Hla, Ha, Hac.
  set (v1 := with_buf (set_yx (cb_y (v_buf v) + 1) 0 (v_buf v)) v).
  assert (upd_buf (fun b => set_yx (u16 (cb_y b + 1)) 0 b) v = Ret (tt, v1)) as E1 by (rewrite upd_run, u16_small by lia; done).
  unfold new_line. step_run E1. destruct (decide (cb_y (v_buf v) + 1 = v_height v)) as [E|Hne].
  - destruct (scroll_run v1 ltac:(done) E) as (d & E2 & _ & _). eexists. split; [exact E2|]. apply con_ok_disp.
    apply (con_ok_buf _ _ H); cbn; try done; try lia; [rewrite length_app, length_drop, length_blank; nia|]. apply list.Forall_app. split; [by apply Forall_drop|by apply Forall_replicate].
  - exists v1. split; [|apply (con_ok_buf _ _ H); cbn; try done; lia]. unfold console_scroll_check. rewrite (bind_Ret _ _ v1 v1 v1 eq_refl). cbn beta zeta.
    rewrite (proj2 (Z.leb_gt _ _)); [done|]. cbn. lia.
Qed.

Lemma wrap_keeps v : con_fine (with_buf (set_yx (cb_y (v_buf v)) 0 (v_buf v)) v) -> 0 <= cb_x (v_buf v) -> exists v', wrap_line v = Ret (tt, v') /\ con_fine v'.
Proof.
  intros H Hx. unfold wrap_line. rewrite (bind_Ret _ _ v v v eq_refl); cbn beta. destruct (Z.leb_spec (v_width v) (cb_x (v_buf v))); [by apply new_line_keeps|].
  exists v. split; [done|]. pose proof (con_ok_yx _ (cb_y (v_buf v)) (cb_x (v_buf v)) H (ok_y _ _ H) ltac:(cbn; lia)) as H'. destruct v as [w h a [] d]. exact H'.
Qed.

Lemma put_char_keeps c v : con_fine v -> 0 < lim -> exists v', put_char c v = Ret (tt, v') /\ con_fine v'.
Proof.
  intros H Hlim. pose proof H as [(Hw & Hh & Hlen & Hc) Hy Hx Hsy Hsx [Hla Ha] Hac]. unfold put_char.
  assert (forall v', con_fine v' -> con_fine (with_buf (set_yx (cb_y (v_buf v')) 0 (v_buf v')) v')) as H0 by (intros v' H'; pose proof (ok_size _ _ H') as (? & _); apply con_ok_yx; [done|apply H'|lia]).
  destruct (c =? 27).
  { rewrite (bind_Ret _ _ v tt _ (upd_run _ v)). set (v1 := with_buf _ v). step_run (argv_set_run 0 0 v1 Hla ltac:(lia)). eexists. split; [reflexivity|].
    pose proof (con_ok_argv v 0 0 H) as H2. pose proof H2 as [(? & ? & ? & ?) ? ? ? ? [? ?] ?]. by apply (con_ok_buf _ _ H2). }
  destruct (c =? 10); [apply new_line_keeps; auto|]. destruct (c =? 13); [eexists; split; [reflexivity|exact (H0 v H)]|].
  destruct (c =? 9).
  { rewrite (bind_Ret _ _ v tt _ (upd_run _ v)). apply wrap_keeps; [|cbn; apply uwrap_range; done]. exact (H0 v H). }
  destruct (32 <=? c); [|by exists v].
  assert (exists v1, put_glyph c v = Ret (tt, v1) /\ con_fine v1) as (v1 & E1 & H1).
  { unfold put_glyph. rewrite (bind_Ret _ _ v v v eq_refl). cbn beta zeta. rewrite (bind_Ret _ _ _ _ _ (data_set_run (cb_y (v_buf v) * v_width v + cb_x (v_buf v)) (Z.lor c (cb_attr (v_buf v))) v ltac:(nia))).
    set (v1 := with_data _ v). assert (con_fine v1) as H1 by (apply con_ok_data; [done|by rewrite length_insert|]; apply Forall_insert; [done|]; apply uwrap_range; done).
    destruct (v_act v); [|by exists v1]. eexists. split; [reflexivity|]. by apply (con_ok_disp v1). }
  step_run E1. rewrite (bind_Ret _ _ v1 tt _ (upd_run _ v1)). apply wrap_keeps; [exact (H0 v1 H1)|]. cbn. apply uwrap_range. done.
Qed.

End escapes.

Section putc.
Implicit Types (v : view).

Lemma putc_keeps c v : con_ok v -> within_arrays v c = true -> exists v', putc_view c v = Ret (tt, v') /\ con_ok v'.
Proof.
  intros H Hin. pose proof H as [(Hw & Hh & Hlen & Hc) Hy Hx Hsy Hsx [Hla Ha] Hac]. unfold within_arrays in Hin. unfold putc_view, get_buf. rewrite (bind_Ret _ _ v (v_buf v) v eq_refl); cbn beta.
  destruct (Z.eqb_spec (cb_esc_mode (v_buf v)) ESC_CSI) as [E|Hne]; cbn [negb orb] in Hin.
  - specialize (Hac ltac:(by rewrite E)). destruct ((48 <=? c) && (c <=? 57)) eqn:Ed.
    { destruct (argv_at_run _ (cb_esc_argc (v_buf v)) v H Hac) as (a & E1 & _ & _). step_run E1.
      rewrite argv_set_run by done. eexists. split; [reflexivity|]. by apply con_ok_argv. }
    destruct (c =? 59).
    { apply Z.ltb_lt in Hin. rewrite (bind_Ret _ _ v tt _ (upd_run _ v)). set (v1 := with_buf _ v). rewrite argv_set_run by (done || lia).
      eexists. split; [reflexivity|]. apply con_ok_argv, con_ok_buf; cbn; try done; lia. }
    rewrite (bind_Ret _ _ v tt _ (upd_run _ v)). set (v2 := with_buf _ v). destruct (csi_run 9 v2) as (v3 & E3 & H3).
    + split; cbn; try done. lia.
    + cbn. intros E8. split; [lia|]. rewrite E8 in Hin. destruct (Z.eqb_spec c 59) as [->|]; [by vm_compute in E8|done].
    + step_run E3. eexists. split; [reflexivity|]. pose proof H3 as [(? & ? & ? & ?) ? ? ? ? [? ?] ?]. by split.
  - destruct (Z.eqb_spec (cb_esc_mode (v_buf v)) ESC_ESC) as [E|Hne']; [|destruct (cb_esc_mode (v_buf v) =? 0); [by apply put_char_keeps|by exists v]].
    specialize (Hac ltac:(by rewrite E)). destruct (c =? 91); [eexists; split; [reflexivity|]; by apply con_ok_buf|].
    rewrite (bind_Ret _ _ v tt _ (upd_run _ v)). apply put_char_keeps; [|done]. by apply con_ok_buf.
Qed.

(** Every character of [s], where it is printed, stays within the arrays. *)
Fixpoint stays_within (s : list Z) v : bool :=
  match s with
  | [] => true
  | c :: s => within_arrays v c && match putc_view c v with Ret (_, v') => stays_within s v' | _ => true end
  end.

(** C30: text and escape sequences keep a console well formed.  From a state where the
    cursor, the saved cursor and the parameters are in range and the buffer has the size
    of the console, printing any string returns such a state again, never touching
    memory outside the buffer, whatever the parameters of its escape sequences are; the
    only strings excluded are those that make the code leave [esc_argv] (a ninth
    parameter) or [color_map] (colours 8 and 9). *)
Theorem console_write_keeps s : forall v, con_ok v -> stays_within s v = true ->
  exists v', write_view s v = Ret (tt, v') /\ con_ok v'.
Proof.
  induction s as [|c s IH]; intros v H Hs; [by exists v|]. cbn [stays_within write_view] in *. apply andb_true_iff in Hs as [Hc Hs].
  destruct (putc_keeps c v H Hc) as (v1 & E & H1). rewrite E in Hs. step_run E. by apply IH.
Qed.
End putc.

(** ** The automaton of escape sequences *)
Definition next_mode (m c : Z) : Z :=
  if m =? ESC_CSI then if ((48 <=? c) && (c <=? 57)) || (c =? 59) then ESC_CSI else 0
  else if (m =? ESC_ESC) && (c =? 91) then ESC_CSI
  else if c =? 27 then ESC_ESC else 0.

Definition same_mode (v v' : view) : Prop := cb_esc_mode (v_buf v') = cb_esc_mode (v_buf v).
#[export] Instance same_mode_preorder : PreOrder same_mode.
Proof. split; [done|]. intros ? ? ? H1 H2. unfold same_mode in *. congruence. Qed.

Section modes.
#[local] Hint Resolve maintains_bind maintains_modify : kernel.

Lemma upd_mode f : (forall b, cb_esc_mode (f b) = cb_esc_mode b) -> maintains same_mode (upd_buf f).
Proof. intros H. apply maintains_modify. intros v. apply H. Qed.
Lemma draw_mode y x ch : maintains same_mode (draw y x ch).
Proof. by apply maintains_modify. Qed.
Lemma data_set_mode i c : maintains same_mode (data_set i c).
Proof. apply maintains_bind; [apply same_mode_preorder|apply maintains_load, same_mode_preorder|]. intros _. by apply upd_mode. Qed.

Ltac known_mode := fail.
Ltac modes := repeat first
  [ known_mode
  | apply maintains_bind; [apply same_mode_preorder| |intros ?]
  | apply maintains_ret, same_mode_preorder
  | apply maintains_gets, same_mode_preorder
  | apply maintains_load, same_mode_preorder
  | apply upd_mode; done
  | apply draw_mode | apply data_set_mode | apply maintains_fault
  | intros v; change (same_mode v v); reflexivity ].

Lemma memsetw_mode i c n : maintains same_mode (memsetw i c n).
Proof. unfold memsetw. modes. case_match; modes. generalize (Z.to_nat (u64 n)) as k. intros k. revert i. induction k; intros i; cbn [memsetw_loop]; modes. apply IHk. Qed.
Lemma copy_words_mode n : forall d s, maintains same_mode (copy_words n d s).
Proof. induction n as [|n IH]; intros d s; cbn [copy_words]; modes. apply IH. Qed.
Lemma flush_mode : maintains same_mode console_flush.
Proof.
  unfold console_flush. modes. generalize (seqZ 0 a) as l. induction l as [|r l IH]; cbn [flush_rows]; modes; [|apply IH].
  generalize (seqZ 0 a0) as cs. induction cs as [|c cs IHc]; cbn [flush_row]; modes. apply IHc.
Qed.
Ltac known_mode ::= first [apply memsetw_mode | apply copy_words_mode | apply flush_mode].
Lemma new_line_mode : maintains same_mode new_line.
Proof.
  unfold new_line, console_scroll_check. modes. case_match; modes.
Qed.
Ltac known_mode ::= apply new_line_mode.
Lemma wrap_mode : maintains same_mode wrap_line.
Proof. unfold wrap_line. modes. case_match; modes. Qed.
Lemma put_glyph_mode c : maintains same_mode (put_glyph c).
Proof. unfold put_glyph. modes. case_match; modes. Qed.

Ltac known_mode ::= first [apply put_glyph_mode | apply wrap_mode | apply new_line_mode].
Lemma put_char_mode c v v' : put_char c v = Ret (tt, v') -> cb_esc_mode (v_buf v') = if c =? 27 then ESC_ESC else cb_esc_mode (v_buf v).
Proof.
  unfold put_char. destruct (c =? 27).
  - intros E. apply bind_inv in E as ([] & v1 & E1 & E). apply bind_inv in E as ([] & v2 & E2 & E). rewrite upd_run in E1. injection E1 as <-.
    assert (maintains same_mode (argv_set 0 0)) as Hm by (unfold argv_set; modes). pose proof (maintains_inv _ _ _ _ _ Hm E2) as H2. rewrite upd_run in E. injection E as <-. exact H2.
  - apply (maintains_inv same_mode). destruct (c =? 10); [apply new_line_mode|]. destruct (c =? 13); [modes|]. destruct (c =? 9); [modes|]. destruct (32 <=? c); modes.
Qed.

Lemma putc_mode c v v' : cb_esc_mode (v_buf v) ∈ [0; ESC_ESC; ESC_CSI] -> putc_view c v = Ret (tt, v') -> cb_esc_mode (v_buf v') = next_mode (cb_esc_mode (v_buf v)) c.
Proof.
  intros Hin E. unfold putc_view, get_buf in E. rewrite (bind_Ret _ _ v (v_buf v) v eq_refl) in E; cbn beta in E. unfold next_mode.
  destruct (Z.eqb_spec (cb_esc_mode (v_buf v)) ESC_CSI) as [Em|Hn].
  - destruct ((48 <=? c) && (c <=? 57)); cbn [orb].
    { rewrite <- Em. revert E. apply (maintains_inv same_mode). unfold argv_set. modes. }
    destruct (c =? 59); [rewrite <- Em; revert E; apply (maintains_inv same_mode); unfold argv_set; modes|].
    apply bind_inv in E as ([] & v1 & _ & E). apply bind_inv in E as ([] & v2 & _ & E). rewrite upd_run in E. by injection E as <-.
  - destruct (Z.eqb_spec (cb_esc_mode (v_buf v)) ESC_ESC) as [Em|Hn']; cbn [andb].
    + destruct (c =? 91); [rewrite upd_run in E; by injection E as <-|]. apply bind_inv in E as ([] & v1 & E1 & E). rewrite upd_run in E1. injection E1 as <-.
      apply put_char_mode in E. exact E.
    + assert (cb_esc_mode (v_buf v) = 0) as E0 by set_solver. rewrite E0 in E. apply put_char_mode in E. by rewrite E, E0.
Qed.
End modes.

(** No operation on a buffer changes the console it belongs to. *)
Definition same_geo (v v' : view) : Prop := v_width v' = v_width v /\ v_height v' = v_height v /\ v_act v' = v_act v.
#[export] Instance same_geo_preorder : PreOrder same_geo.
Proof. split; [done|]. intros ? ? ? (? & ? & ?) (? & ? & ?). repeat split; congruence. Qed.

Section geometry.
Ltac known_geo := fail.
Ltac geos := repeat first
  [ known_geo
  | apply maintains_bind; [apply same_geo_preorder| |intros ?]
  | apply maintains_ret, same_geo_preorder
  | apply maintains_gets, same_geo_preorder
  | apply maintains_load, same_geo_preorder
  | apply maintains_fault
  | apply maintains_modify; done
  | intros v; change (same_geo v v); reflexivity
  | case_match ].

Lemma memsetw_loop_geo c n : forall i, maintains same_geo (memsetw_loop n i c).
Proof. induction n as [|n IH]; intros i; cbn [memsetw_loop]; unfold data_set; geos; try apply IH. Qed.
Lemma memsetw_geo i c n : maintains same_geo (memsetw i c n).
Proof. unfold memsetw. geos; try apply memsetw_loop_geo. Qed.
Lemma copy_words_geo n : forall d s, maintains same_geo (copy_words n d s).
Proof. induction n as [|n IH]; intros d s; cbn [copy_words]; unfold data_set; geos; try apply IH. Qed.
Lemma flush_geo : maintains same_geo console_flush.
Proof.
  unfold console_flush. geos. generalize (seqZ 0 a) as l. induction l as [|r l IH]; cbn [flush_rows]; geos; try apply IH.
  generalize (seqZ 0 a0) as cs. induction cs as [|c cs IHc]; cbn [flush_row]; geos; try apply IHc.
Qed.
Lemma csi_attrs_geo l : maintains same_geo (csi_attrs l).
Proof. induction l as [|i l IH]; cbn [csi_attrs]; unfold csi_attr; geos; try apply IH. Qed.
Ltac known_geo ::= first [apply memsetw_geo | apply copy_words_geo | apply flush_geo | apply csi_attrs_geo].
Lemma new_line_geo : maintains same_geo new_line.
Proof. unfold new_line, console_scroll_check. geos. Qed.
Lemma process_csi_geo : maintains same_geo process_csi.
Proof. unfold process_csi, csi_count, argv_set. geos. Qed.
Ltac known_geo ::= first [apply new_line_geo | apply process_csi_geo].
Lemma putc_geo c : maintains same_geo (putc_view c).
Proof. unfold putc_view, put_char, put_glyph, wrap_line, argv_set, data_set. geos. Qed.
End geometry.

(** A sound console outside an escape sequence, and what a terminal echoes on it. *)
Definition con_text (v : view) : Prop := con_ok v /\ cb_esc_mode (v_buf v) = 0.

Lemma putc_text c v : con_text v -> c <> 27 -> exists v', putc_view c v = Ret (tt, v') /\ con_text v'.
Proof.
  intros [H Hm] Hc. assert (exists v', putc_view c v = Ret (tt, v') /\ con_ok v') as (v' & E & H').
  { unfold putc_view, get_buf. rewrite (bind_Ret _ _ v (v_buf v) v eq_refl); cbn beta. rewrite Hm. change (0 =? ESC_CSI) with false. change (0 =? ESC_ESC) with false. by apply put_char_keeps. }
  exists v'. split; [done|]. split; [done|]. rewrite (putc_mode c v v') by (rewrite ?Hm; set_solver). rewrite Hm. unfold next_mode. cbn. by rewrite (proj2 (Z.eqb_neq c 27)).
Qed.
(** [tty_puts(chr, "\033[D \033[D")]: the character left of the cursor is erased. *)
Definition erase_seq : list Z := [27; 91; 68; 32; 27; 91; 68].

Lemma putc_other c v : con_ok v -> cb_esc_mode (v_buf v) ∈ [0; ESC_ESC; ESC_CSI] -> c <> 59 -> i8 c <> 109 ->
  exists v', putc_view c v = Ret (tt, v') /\ con_ok v' /\ cb_esc_mode (v_buf v') = next_mode (cb_esc_mode (v_buf v)) c.
Proof.
  intros H Hm H1 H2. destruct (putc_keeps c v H) as (v' & E & H'); [|exists v'; split_and!; [done|done|by apply putc_mode]].
  unfold within_arrays. rewrite (proj2 (Z.eqb_neq _ _) H1), (proj2 (Z.eqb_neq _ _) H2). apply orb_true_r.
Qed.

(** ** A small console *)
Definition sample_cbuf (w h : Z) : console_buffer :=
  cbuf_init (mk_cbuf 0 0 (replicate 8 0) 0 0 0 0 0 0 0 0 0 []) (replicate (Z.to_nat (w * h)) ATTR_DEFAULT).
Definition sample_view : view :=
  mk_view 4 2 true (sample_cbuf 4 2) (drawn 4 (replicate 8 ATTR_DEFAULT) (seqZ 0 2) (mk_display 0 0 0 4 2 None ∅)).

Lemma sample_size : sized sample_view.
Proof. split; [done|]. split; [done|]. split; [done|]. by apply Forall_replicate. Qed.

Lemma sample_blank : blank_console sample_view.
Proof.
  split; try done; [apply sample_size|]. intros _ _ r c Hr Hc. cbn in Hr, Hc.
  assert (r = 0 \/ r = 1) as [-> | ->] by lia; assert (c = 0 \/ c = 1 \/ c = 2 \/ c = 3) as [-> | [-> | [-> | ->]]] by lia; reflexivity.
Qed.

Lemma sample_view_ok : con_ok sample_view.
Proof. split; try done; [apply sample_size|]. split; [done|]. by apply Forall_replicate. Qed.

(** "abcdef\ng": two rows of the sheet are left above, the window shows "ef" and "g". *)
Lemma console_shows_paper_witness : exists v',
  write_view [97; 98; 99; 100; 101; 102; 10; 103] sample_view = Ret (tt, v') /\
  cells v' = [101 + ATTR_DEFAULT; 102 + ATTR_DEFAULT; ATTR_DEFAULT; ATTR_DEFAULT; 103 + ATTR_DEFAULT; ATTR_DEFAULT; ATTR_DEFAULT; ATTR_DEFAULT] /\ shows v'.
Proof.
  destruct (console_shows_paper [97; 98; 99; 100; 101; 102; 10; 103] sample_view sample_blank ltac:(by repeat constructor)) as (v' & E & Hd & _ & _ & Hs).
  exists v'. split; [done|]. split; [rewrite Hd; reflexivity|by apply Hs].
Defined.

(** Colours, a position far outside, and erasing to the end of the line. *)
Lemma console_write_keeps_witness : exists v', write_view [27; 91; 51; 49; 109; 120; 27; 91; 57; 57; 59; 57; 57; 102; 121; 27; 91; 75] sample_view = Ret (tt, v') /\ con_ok v'.
Proof. apply (console_write_keeps _ sample_view sample_view_ok). vm_compute. reflexivity. Defined.

(** ** Flaws *)

(** [ESC [ ; ; ; ; ; ; ; ;]: the ninth parameter is stored behind [esc_argv]. *)
Theorem console_ninth_parameter v :
  cb_esc_mode (v_buf v) = ESC_CSI -> cb_esc_argc (v_buf v) = 7 -> length (cb_esc_argv (v_buf v)) = 8%nat -> putc_view 59 v = Fault.
Proof.
  intros Hm Hc Hl. unfold putc_view, get_buf. rewrite (bind_Ret _ _ v (v_buf v) v eq_refl); cbn beta. rewrite Hm.
  change (ESC_CSI =? ESC_CSI) with true. change (59 =? 59) with true. change ((48 <=? 59) && (59 <=? 57)) with false. cbn iota. rewrite (bind_Ret _ _ v tt _ (upd_run _ v)). rewrite Hc. unfold argv_set, argv_at. cbv [mbind cmd_mbind cbind cload]. cbn [with_buf v_buf set_argc cb_esc_argv].
  by rewrite lookup_ge_None_2 by (rewrite Hl; done).
Qed.

(** [ESC [ 39 m], the default foreground, reads [color_map[9]]. *)
Theorem console_color_nine : write_view [27; 91; 51; 57; 109] sample_view = Fault.
Proof. vm_compute. reflexivity. Qed.

(** [ESC [ J] clears the rows above the cursor, although it is meant to erase downwards. *)
Theorem erase_down_erases_above :
  match write_view [97; 10; 98; 27; 91; 74] sample_view with
  | Ret (_, v) => cells v = [ATTR_DEFAULT; ATTR_DEFAULT; ATTR_DEFAULT; ATTR_DEFAULT; 98 + ATTR_DEFAULT; ATTR_DEFAULT; ATTR_DEFAULT; ATTR_DEFAULT]
  | _ => False
  end.
Proof. vm_compute. reflexivity. Qed.

(** A bold character is drawn bold, but the buffer does not record it: the next flush
    draws it plain. *)
Theorem bold_not_kept :
  match write_view [27; 91; 49; 109; 97] sample_view with
  | Ret (_, v) => d_cells (v_disp v) !! (0, 0) = Some (Z.lor 0x8000 (97 + ATTR_DEFAULT)) /\
      match console_flush v with Ret (_, v) => d_cells (v_disp v) !! (0, 0) = Some (97 + ATTR_DEFAULT) | _ => False end
  | _ => False
  end.
Proof. vm_compute. by split. Qed.

(** [ESC [ 1 f] takes the column of an earlier sequence. *)
Theorem cursor_stale_column :
  match write_view [27; 91; 49; 59; 51; 102; 13; 27; 91; 49; 102] sample_view with
  | Ret (_, v) => (cb_y (v_buf v), cb_x (v_buf v)) = (0, 2)
  | _ => False
  end.
Proof. vm_compute. reflexivity. Qed.
