(* ===== verification/Tty.v ===== *)
(** * Terminals: [sys/char/tty.c], [sys/char/line.c], [sys/char/input.c]

    A terminal is a character device with a ring of typed characters and [termios]
    settings; its output goes to a console or a serial line.  [tty_data_write] is what a
    keyboard types, [line_read] what a process reads: it edits the line and echoes the
    erasures.  [line_read] sleeps in [ring_getc]; it returns [LSleep] with the bytes kept
    so far and [line_read_resume] goes on from there.

    A typed line is read back as the editing keys leave it ([typed_line_is_read]). *)

From S2P Require Import Prelude Defs Wait Ring Bytes Strings Console.

(** ** [include/user/termios.h] *)
Definition TCGETS : Z := 0x5401.
Definition TCSETS : Z := 0x5402.
Definition TIOCSPGRP : Z := 0x5410.
Definition TIOCGWINSZ : Z := 0x5413.
Definition ICRNL : Z := 1.
Definition OPOST : Z := 1.
Definition ISIG : Z := 1.
Definition ICANON : Z := 2.
Definition ECHO : Z := 16.
Definition ECHOE : Z := 32.
Definition ECHOK : Z := 64.
Definition ECHONL : Z := 256.
Definition VEOF : nat := 0.
Definition VINTR : nat := 1.
Definition VSUSP : nat := 2.
Definition SIGINT : Z := 2.
Definition SIGSTOP : Z := 19.

Record termios := mk_termios { c_iflag : Z; c_oflag : Z; c_cflag : Z; c_lflag : Z; c_cc : list Z }.
Definition default_termios : termios :=
  mk_termios 0 OPOST 0 (Z.lor ECHO (Z.lor ECHONL (Z.lor ECHOE (Z.lor ECHOK (Z.lor ISIG ICANON))))) [4; 3; 26].

(** A terminal device: [ch_rs] is its ring with the threads it woke. *)
Record chrdev := mk_chrdev { ch_rs : rstate; ch_tc : termios }.

(** All terminals.  [ts_signals] are the calls of [process_signal_pgid], last first;
    [last_tty_n] and [last_ttys_n] number the device names. *)
Record tsys := mk_tsys {
  ts_term : term;
  ts_devs : gmap Z chrdev;
  ts_signals : list (Z * Z);
  ts_keyboard : Z;
  last_tty_n : Z;
  last_ttys_n : Z;
}.
Definition set_term t s := mk_tsys t (ts_devs s) (ts_signals s) (ts_keyboard s) (last_tty_n s) (last_ttys_n s).
Definition set_devs d s := mk_tsys (ts_term s) d (ts_signals s) (ts_keyboard s) (last_tty_n s) (last_ttys_n s).
Definition set_signals l s := mk_tsys (ts_term s) (ts_devs s) l (ts_keyboard s) (last_tty_n s) (last_ttys_n s).
Definition set_keyboard k s := mk_tsys (ts_term s) (ts_devs s) (ts_signals s) k (last_tty_n s) (last_ttys_n s).
Definition set_names a b s := mk_tsys (ts_term s) (ts_devs s) (ts_signals s) (ts_keyboard s) a b.

Definition on_term {A} (m : cmd term A) : cmd tsys A := czoom ts_term set_term m.
Definition get_chr (tty : Z) : cmd tsys chrdev := cload (fun s => ts_devs s !! tty).
Definition put_chr (tty : Z) (c : chrdev) : cmd tsys unit := cmodify (fun s => set_devs (<[tty := c]> (ts_devs s)) s).
(** Run an operation of the terminal's ring. *)
Definition run_ring {A} (tty : Z) (c : chrdev) (m : cmd rstate A) : cmd tsys A := fun s =>
  match m (ch_rs c) with
  | Ret (a, rs) => Ret (a, set_devs (<[tty := mk_chrdev rs (ch_tc c)]> (ts_devs s)) s)
  | Panic => Panic
  | Fault => Fault
  | Diverged => Diverged
  end.
Definition on_buf {A} (tty : Z) (m : cmd rstate A) : cmd tsys A := c ← get_chr tty; run_ring tty c m.
Definition lflag (f : Z) (tc : termios) : bool := flag_set (c_lflag tc) f.

(** ** Output *)
Definition serial_putc (ser c : Z) : cmd term unit := cmodify (set_serial (fun m => <[ser := default [] (m !! ser) ++ [c]]> m)).

Definition tty_putc (tty c : Z) : cmd term unit :=
  data ← cload (fun t => t_ttys t !! tty);
  cassert (negb (td_peer data =? 0));;
  if td_has_console data then console_putc (td_peer data) tty c else serial_putc (td_peer data) c.

Fixpoint tty_puts (tty : Z) (s : list Z) : cmd term unit :=
  match s with [] => mret tt | c :: s => tty_putc tty c;; tty_puts tty s end.

(** [buf] holds bytes; they reach the device as [unsigned char]. *)
Fixpoint tty_write_from (tty : Z) (buf : list Z) : cmd term unit :=
  match buf with [] => mret tt | c :: buf => tty_putc tty (u8 c);; tty_write_from tty buf end.
Definition tty_write (tty : Z) (buf : list Z) : cmd term Z :=
  cload (fun t => t_ttys t !! tty);; tty_write_from tty buf;; mret (Z.of_nat (length buf)).

(** ** Typed characters *)
Definition process_signal_pgid (pgid signum : Z) : cmd tsys unit := cmodify (fun s => set_signals ((pgid, signum) :: ts_signals s) s).
Definition fg_pgid (tty : Z) : cmd tsys Z := d ← cload (fun s => t_ttys (ts_term s) !! tty); mret (td_fg_pgid d).
Definition cc (i : nat) (tc : termios) : cmd tsys Z := cload (fun _ => c_cc tc !! i).
Definition echo (tty c : Z) : cmd tsys unit := on_term (tty_putc tty c).

(** What follows the store of [c]: echo and line flush. *)
Definition tty_typed (tty : Z) (tc : termios) (c : Z) : cmd tsys unit :=
  if c =? 10 then
    (if lflag ECHONL tc then echo tty c else mret tt);;
    (if lflag ICANON tc then on_buf tty (ring_signal RING_SIGNAL_RET) else mret tt)
  else if (c =? 0x17) || (c =? 0x7F) then on_buf tty (ring_signal 0)
  else if c =? 0x0C then
    if lflag ECHO tc then echo tty 94;; echo tty 76 else mret tt
  else if c =? 27 then
    if lflag ECHO tc && lflag ICANON tc then on_term (tty_puts tty [94; 91]) else mret tt
  else if lflag ECHO tc then echo tty c else mret tt.

Definition tty_data_write (tty c : Z) : cmd tsys unit :=
  d ← get_chr tty;
  let tc := ch_tc d in
  let c := i8 c in
  let c := if (c =? 13) && flag_set (c_iflag tc) ICRNL then 10 else c in
  eof ← cc VEOF tc;
  if lflag ICANON tc && (eof =? c) then on_buf tty (ring_signal RING_SIGNAL_EOF)
  else
    susp ← cc VSUSP tc;
    if (susp =? c) && lflag ISIG tc then g ← fg_pgid tty; process_signal_pgid g SIGSTOP
    else
      (if susp =? c then echo tty 94;; echo tty 90 else mret tt);;
      intr ← cc VINTR tc;
      if (intr =? c) && lflag ISIG tc then g ← fg_pgid tty; process_signal_pgid g SIGINT
      else
        (if intr =? c then echo tty 94;; echo tty 67 else mret tt);;
        on_buf tty (ring_putc 0 c false);;
        tty_typed tty tc c.

Definition console_type (con c : Z) : cmd tsys unit :=
  co ← cload (fun s => t_consoles (ts_term s) !! con);
  if c_tty_active co =? 0 then mret tt else tty_data_write (c_tty_active co) c.

(** ** [sys/char/input.c]: the characters of a key *)
Definition INPUT_MOD_CONTROL : Z := 1.
Definition INPUT_MOD_SHIFT : Z := 2.
Definition INPUT_MOD_CAPS : Z := 4.

Definition input_scan (c : Z) : list Z :=
  if c =? 0x82 then [27; 91; 65] else if c =? 0x83 then [27; 91; 66]
  else if c =? 0x81 then [27; 91; 67] else if c =? 0x80 then [27; 91; 68]
  else if c =? 0x84 then [27; 91; 72] else if c =? 0x85 then [27; 91; 70] else [].

(** [map0], [map1]: the key map without and with shift, as bytes. *)
Definition key_chars (key mods : Z) (map0 map1 : list Z) : option (list Z) :=
  if negb (flag_set mods INPUT_MOD_CONTROL) then
    c ← (if flag_set mods INPUT_MOD_SHIFT then map1 else map0) !! Z.to_nat key;
    if negb (c =? 0) && (c <=? 0x7F) then
      Some [if flag_set mods INPUT_MOD_CAPS then
              if islower c then toupper c else if isupper c then tolower c else c
            else c]
    else Some (input_scan c)
  else
    c ← map0 !! Z.to_nat key;
    Some (if c =? 99 then [3] else if c =? 100 then [4] else if c =? 108 then [12]
          else if c =? 119 then [23] else if c =? 122 then [26] else []).

Fixpoint console_types (con : Z) (l : list Z) : cmd tsys unit :=
  match l with [] => mret tt | c :: l => console_type con c;; console_types con l end.
Definition input_key (key mods : Z) (map0 map1 : list Z) : cmd tsys unit :=
  con ← cgets ts_keyboard;
  if con =? 0 then mret tt
  else l ← cload (fun _ => key_chars key mods map0 map1); console_types con l.

(** ** The line discipline

    [acc] holds the [rd] bytes before the write pointer, last first. *)
Inductive line_res := LDone (buf : list Z) | LSleep (acc : list Z).
(** One round of the loop: continue, [return rd], or leave the loop. *)
Inductive line_ctl := Go (acc : list Z) | Stop (acc : list Z) | Break (acc : list Z).

Definition erase_echo (tty : Z) (tc : termios) : cmd tsys unit :=
  if lflag ECHOE tc then on_term (tty_puts tty erase_seq) else mret tt.

Fixpoint erase_word (tty : Z) (tc : termios) (acc : list Z) : cmd tsys (list Z) :=
  match acc with
  | [] => mret []
  | c :: acc' => if (1 <? Z.of_nat (length acc)) && isspace c then mret acc else erase_echo tty tc;; erase_word tty tc acc'
  end.

Definition line_next (tty : Z) (g : getc_res) (acc : list Z) : cmd tsys line_ctl :=
  d ← get_chr tty;
  let tc := ch_tc d in
  match g with
  | GetErr _ => mret (if has (flags (rs_ring (ch_rs d))) RING_SIGNAL_EOF then Stop acc else Go [])
  | GetC c =>
      if (c =? 0x17) && lflag ICANON tc then acc ← erase_word tty tc acc; mret (Go acc)
      else if (c =? 0x7F) && lflag ICANON tc then
        match acc with
        | [] => mret (Go [])
        | _ :: acc => erase_echo tty tc;; mret (Go acc)
        end
      else
        mret (if (c =? 10) || ((ring_readable (rs_ring (ch_rs d)) =? 0) && negb (lflag ICANON tc)) then Break (c :: acc) else Go (c :: acc))
  end.

Definition clear_ret : cmd rstate unit := upd_ring (fun r => set_flags (Z.land (flags r) (Z.lnot RING_SIGNAL_RET)) r).

(** The rest of a round after [ring_getc]; [k] is the next round. *)
Definition line_cont (tty : Z) (k : list Z -> cmd tsys line_res) (w : io getc_res) (acc : list Z) : cmd tsys line_res :=
  match w with
  | Sleep => mret (LSleep acc)
  | Done g =>
      r ← line_next tty g acc;
      match r with
      | Go acc => k acc
      | Stop acc => mret (LDone (rev acc))
      | Break acc => on_buf tty clear_ret;; mret (LDone (rev acc))
      end
  end.
Fixpoint line_loop (fuel : nat) (ctx tty lim : Z) (acc : list Z) : cmd tsys line_res :=
  match fuel with
  | O => cdiverged
  | S fuel =>
      if lim <=? Z.of_nat (length acc) then on_buf tty clear_ret;; mret (LDone (rev acc))
      else w ← on_buf tty (ring_getc ctx false); line_cont tty (line_loop fuel ctx tty lim) w acc
  end.
(** Each round takes a byte from the ring, clears [RING_SIGNAL_BRK] or ends. *)
Definition line_fuel (tty : Z) : cmd tsys nat := d ← get_chr tty; mret (Z.to_nat (cap (rs_ring (ch_rs d))) + 3)%nat.

Definition line_read (ctx tty lim : Z) : cmd tsys line_res :=
  on_buf tty clear_ret;;
  d ← get_chr tty;
  if has (flags (rs_ring (ch_rs d))) RING_SIGNAL_EOF then mret (LDone [])
  else n ← line_fuel tty; line_loop n ctx tty lim [].

(** The reader sleeping in [ring_getc] runs again. *)
Definition line_read_resume (ctx tty lim : Z) (acc : list Z) (intr : bool) : cmd tsys line_res :=
  w ← on_buf tty (ring_getc_resume ctx intr);
  n ← line_fuel tty;
  line_cont tty (line_loop n ctx tty lim) w acc.

(** [simple_line_read] waits for an interrupt while nothing is readable ([None]). *)
Fixpoint simple_loop (fuel : nat) (ctx tty lim : Z) (acc : list Z) : cmd tsys (list Z) :=
  match fuel with
  | O => cdiverged
  | S fuel =>
      d ← get_chr tty;
      if (lim <=? Z.of_nat (length acc)) || (ring_readable (rs_ring (ch_rs d)) =? 0) then mret (rev acc)
      else
        w ← on_buf tty (ring_getc ctx true);
        match w with Done (GetC c) => simple_loop fuel ctx tty lim (c :: acc) | _ => mret (rev acc) end
  end.
Definition simple_line_read (ctx tty lim : Z) : cmd tsys (option (list Z)) :=
  d ← get_chr tty;
  if ring_readable (rs_ring (ch_rs d)) =? 0 then mret None
  else n ← line_fuel tty; l ← simple_loop n ctx tty lim []; mret (Some l).

(** ** Control and creation *)

(** What [arg] points to, read as each type a command expects. *)
Record ioctl_arg := mk_arg { arg_winsize : Z * Z; arg_termios : termios; arg_pid : Z }.

Definition tty_ioctl (tty : Z) (cmd : Z) (arg : ioctl_arg) : Prelude.cmd tsys (Z * ioctl_arg) :=
  d ← get_chr tty;
  data ← cload (fun s => t_ttys (ts_term s) !! tty);
  if cmd =? TIOCGWINSZ then
    if td_has_console data then
      co ← cload (fun s => t_consoles (ts_term s) !! td_peer data);
      mret (0, mk_arg (c_width_chars co, c_height_chars co) (arg_termios arg) (arg_pid arg))
    else mret (0, mk_arg (80, 25) (arg_termios arg) (arg_pid arg))
  else if cmd =? TCGETS then mret (0, mk_arg (arg_winsize arg) (ch_tc d) (arg_pid arg))
  else if cmd =? TCSETS then
    let tc := arg_termios arg in
    put_chr tty (mk_chrdev (ch_rs d) tc);;
    on_buf tty (upd_ring (fun r => set_flags
      (if lflag ICANON tc then Z.land (flags r) (Z.lnot RING_RAW) else Z.lor (flags r) RING_RAW) r));;
    mret (0, arg)
  else if cmd =? TIOCSPGRP then
    on_buf tty (upd_ring (set_flags 0));;
    cmodify (fun s => set_term (set_ttys <[tty := mk_tty_data (arg_pid arg) (td_has_console data) (td_peer data) (td_buffer data)]> (ts_term s)) s);;
    mret (0, arg)
  else mret (- EINVAL, arg).

Definition TTY_BUF_SIZE : Z := 128.

(** The device of a new terminal; [mem] is the block of its ring, if there was one. *)
Definition new_chrdev (tc : termios) (mem : option (list Z)) : chrdev :=
  mk_chrdev (mk_rstate (ring_init TTY_BUF_SIZE mem).2 []) tc.

(** [tty] and [buf]: the addresses [kmalloc] returned for the device and the console's
    buffer.  The result is the name given to [dev_add]. *)
Definition tty_create (master tty : Z) (buf : option (Z * console_buffer)) (mem : option (list Z)) : cmd tsys (list Z) :=
  cassert (negb (tty =? 0));;
  cmodify (fun s => set_term (set_ttys <[tty := mk_tty_data 1 true 0 0]> (ts_term s)) s);;
  put_chr tty (new_chrdev default_termios mem);;
  on_term (console_attach buf master tty);;
  n ← cgets last_tty_n;
  cmodify (fun s => set_names (i8 (n + 1)) (last_ttys_n s) s);;
  mret [116; 116; 121; n].

Definition tty_create_serial (ser tty : Z) (mem : option (list Z)) : cmd tsys (list Z) :=
  cassert (negb (tty =? 0));;
  cmodify (fun s => set_term (set_ttys <[tty := mk_tty_data 1 false ser 0]> (ts_term s)) s);;
  put_chr tty (new_chrdev (mk_termios (Z.lor (c_iflag default_termios) ICRNL) (c_oflag default_termios) (c_cflag default_termios) (c_lflag default_termios) (c_cc default_termios)) mem);;
  n ← cgets last_ttys_n;
  cmodify (fun s => set_names (last_tty_n s) (i8 (n + 1)) s);;
  mret [116; 116; 121; 83; n].

(** [con], [tty], [buf]: the blocks [kmalloc] returned; [disp]: the first display. *)
Definition console_init_default (con disp tty : Z) (buf : option (Z * console_buffer)) (mem : option (list Z)) : cmd tsys unit :=
  cassert (negb (con =? 0));;
  cassert (negb (disp =? 0));;
  d ← cload (fun s => t_displays (ts_term s) !! disp);
  cmodify (fun s => set_term (set_consoles <[con := mk_console disp 0 0 [] (d_width_chars d) (d_height_chars d)]> (ts_term s)) s);;
  k ← cgets ts_keyboard;
  (if k =? 0 then cmodify (set_keyboard con) else mret tt);;
  tty_create con tty buf mem;;
  cmodify (fun s => set_term (set_list (cons con) (ts_term s)) s).

(** ** Output never fails on a sound terminal

    [tty_on P tty t]: the terminal prints on a serial line, or on a console whose buffer
    and display satisfy [P]. *)
Definition console_view (con : console) (buf : Z) b d : view :=
  mk_view (c_width_chars con) (c_height_chars con) (bool_decide (buf = c_buf_active con)) b d.
Definition tty_on (P : view -> Prop) (tty : Z) (t : term) : Prop :=
  exists data, t_ttys t !! tty = Some data /\ td_peer data <> 0 /\
    (td_has_console data = true -> exists con b d,
       t_consoles t !! td_peer data = Some con /\ td_buffer data <> 0 /\ t_bufs t !! td_buffer data = Some b /\
       t_displays t !! c_display con = Some d /\ P (console_view con (td_buffer data) b d)).
Definition in_mode (m : Z) (v : view) : Prop := con_ok v /\ cb_esc_mode (v_buf v) = m.
Definition tty_fine : Z -> term -> Prop := tty_on con_text.

Section output.
Implicit Types (t : term) (P Q : view -> Prop).

Lemma tty_putc_on P Q tty c t : tty_on P tty t -> (forall v, P v -> exists v', putc_view c v = Ret (tt, v') /\ Q v') ->
  exists t', tty_putc tty c t = Ret (tt, t') /\ tty_on Q tty t'.
Proof.
  intros (data & Ed & Hp & Hc) Hput. unfold tty_putc. rewrite (bind_Ret _ _ t data t) by by apply load_Some. cbn beta.
  rewrite (proj2 (Z.eqb_neq _ _) Hp). rewrite (bind_Ret _ _ t tt t eq_refl). destruct (td_has_console data) eqn:Eh.
  - destruct (Hc eq_refl) as (con & b & d & E1 & Hb & E2 & E3 & HP). destruct (Hput _ HP) as (v' & E & HQ).
    pose proof (maintains_inv _ _ _ _ _ (putc_geo c) E) as (G1 & G2 & G3).
    exists (set_bufs <[td_buffer data := v_buf v']> (set_displays <[c_display con := v_disp v']> t)). split.
    + unfold console_putc. rewrite (bind_Ret _ _ t con t) by by apply load_Some. cbn beta. rewrite (bind_Ret _ _ t data t) by by apply load_Some. cbn beta.
      rewrite (proj2 (Z.eqb_neq _ _) Hb). rewrite (bind_Ret _ _ t tt t eq_refl). unfold on_buffer. rewrite (bind_Ret _ _ t b t) by by apply load_Some. cbn beta.
      rewrite (bind_Ret _ _ t d t) by by apply load_Some. unfold run_view. fold (console_view con (td_buffer data) b d). by rewrite E.
    + exists data. split; [done|]. split; [done|]. intros _. exists con, (v_buf v'), (v_disp v'). cbn. rewrite !lookup_insert_eq. split_and!; try done.
      destruct v' as [w h a b' d']; cbn in *. unfold console_view. by rewrite <- G1, <- G2, <- G3.
  - eexists. split; [reflexivity|]. exists data. split; [done|]. split; [done|]. by rewrite Eh.
Qed.

Lemma tty_putc_text tty c t : tty_fine tty t -> c <> 27 -> exists t', tty_putc tty c t = Ret (tt, t') /\ tty_fine tty t'.
Proof. intros H Hc. apply (tty_putc_on con_text con_text); [done|]. intros v Hv. by apply putc_text. Qed.

Lemma tty_puts_text tty s : forall t, tty_fine tty t -> Forall (fun c => c <> 27) s -> exists t', tty_puts tty s t = Ret (tt, t') /\ tty_fine tty t'.
Proof.
  induction s as [|c s IH]; intros t H Hs; [by exists t|]. apply list.Forall_cons in Hs as [Hc Hs]. cbn [tty_puts].
  destruct (tty_putc_text tty c t H Hc) as (t1 & E & H1). step_run E. by apply IH.
Qed.

(** One character of a fixed sequence moves the automaton. *)
Lemma tty_putc_mode m c tty t : tty_on (in_mode m) tty t -> m ∈ [0; ESC_ESC; ESC_CSI] -> c <> 59 -> i8 c <> 109 ->
  exists t', tty_putc tty c t = Ret (tt, t') /\ tty_on (in_mode (next_mode m c)) tty t'.
Proof.
  intros H Hm H1 H2. apply (tty_putc_on (in_mode m)); [done|]. intros v [Hv <-]. destruct (putc_other c v Hv Hm H1 H2) as (v' & E & Hv' & E'). by exists v'.
Qed.

Lemma tty_erase tty t : tty_fine tty t -> exists t', tty_puts tty erase_seq t = Ret (tt, t') /\ tty_fine tty t'.
Proof.
  intros H. assert (forall s m t, tty_on (in_mode m) tty t -> m ∈ [0; ESC_ESC; ESC_CSI] -> Forall (fun c => c <> 59 /\ i8 c <> 109) s ->
    exists t', tty_puts tty s t = Ret (tt, t') /\ tty_on (in_mode (fold_left next_mode s m)) tty t') as Hs.
  { induction s as [|c s IH]; intros m t0 H0 Hm Hf; [by exists t0|]. apply list.Forall_cons in Hf as [[H1 H2] Hf]. cbn [tty_puts fold_left].
    destruct (tty_putc_mode m c tty t0 H0 Hm H1 H2) as (t1 & E & Ht1). step_run E. apply IH; [done| |done].
    unfold next_mode. repeat case_match; set_solver. }
  apply (Hs erase_seq 0 t H); [set_solver|]. by repeat constructor.
Qed.
End output.

(** ** Reference: a line edited by the erase keys

    On the line written backwards: DEL removes the last character, ETB the last word,
    which reaches back to a space that is not the first character. *)
Fixpoint drop_word (acc : list Z) : list Z :=
  match acc with [] => [] | c :: acc' => if isspace c then acc else drop_word acc' end.
Definition without_word (acc : list Z) : list Z := let w := drop_word acc in if Z.of_nat (length w) <=? 1 then [] else w.
Definition edit_key (acc : list Z) (c : Z) : list Z :=
  if c =? 0x17 then without_word acc else if c =? 0x7F then tail acc else c :: acc.
Definition edited (line : list Z) : list Z := rev (fold_left edit_key line []).

(** ** Terminal states *)
Definition set_chr tty c s := set_devs (<[tty := c]> (ts_devs s)) s.

Section runs.
Implicit Types (s : tsys).

Lemma on_buf_run {A} tty (m : cmd rstate A) s d a rs : ts_devs s !! tty = Some d -> m (ch_rs d) = Ret (a, rs) ->
  on_buf tty m s = Ret (a, set_chr tty (mk_chrdev rs (ch_tc d)) s).
Proof. intros Hd E. unfold on_buf, get_chr. rewrite (bind_Ret _ _ s d s) by by apply load_Some. unfold run_ring. by rewrite E. Qed.

Lemma get_chr_run tty s d : ts_devs s !! tty = Some d -> get_chr tty s = Ret (d, s).
Proof. intros Hd. by apply load_Some. Qed.

Lemma on_term_run {A} (m : cmd term A) s a t : m (ts_term s) = Ret (a, t) -> on_term m s = Ret (a, set_term t s).
Proof. apply zoom_Ret. Qed.

(** The terminal [tty] of [s]: a canonical one with device [d]. *)
Record ready tty (s : tsys) (d : chrdev) : Prop := {
  rd_dev : ts_devs s !! tty = Some d;
  rd_fine : tty_fine tty (ts_term s);
  rd_ring : ring_ok (rs_ring (ch_rs d));
  rd_flags : has (flags (rs_ring (ch_rs d))) (Z.lor RING_SIGNAL_BRK RING_SIGNAL_EOF) = false;
  rd_canon : lflag ICANON (ch_tc d) = true;
}.

Lemma has_lor x a b : has x (Z.lor a b) = has x a || has x b.
Proof.
  unfold has. rewrite Z.land_lor_distr_r. destruct (Z.eqb_spec (Z.land x a) 0) as [->|Ha]; [by rewrite Z.lor_0_l|]. cbn [negb orb].
  apply negb_true_iff, Z.eqb_neq. by intros [? _]%Z.lor_eq_0_iff.
Qed.
Lemma no_eof x : has x (Z.lor RING_SIGNAL_BRK RING_SIGNAL_EOF) = false -> has x RING_SIGNAL_EOF = false.
Proof. rewrite has_lor. by intros [_ ?]%orb_false_iff. Qed.

Lemma ready_term tty s d t : ready tty s d -> tty_fine tty t -> ready tty (set_term t s) d.
Proof. intros [? ? ? ? ?] Ht. by split. Qed.
Lemma ready_chr tty s d d' : ready tty s d -> ch_tc d' = ch_tc d -> ring_ok (rs_ring (ch_rs d')) -> has (flags (rs_ring (ch_rs d'))) (Z.lor RING_SIGNAL_BRK RING_SIGNAL_EOF) = false ->
  ready tty (set_chr tty d' s) d'.
Proof. intros [? ? ? ? ?] Ht Hr Hf. split; try done; [apply lookup_insert_eq|congruence]. Qed.

(** Signalling and clearing flags leave the characters alone. *)
Lemma ring_signal_keeps sg r ws : ring_ok r -> exists r' ws', ring_signal sg (mk_rstate r ws) = Ret (tt, mk_rstate r' ws') /\
  ring_ok r' /\ contents r' = contents r /\ flags r' = Z.lor (flags r) sg /\ cap r' = cap r.
Proof. intros Hr. eexists _, _. split; [unfold ring_signal; ring_run; reflexivity|]. split; [exact Hr|]. done. Qed.

Lemma clear_ret_keeps r ws : clear_ret (mk_rstate r ws) = Ret (tt, mk_rstate (set_flags (Z.land (flags r) (Z.lnot RING_SIGNAL_RET)) r) ws).
Proof. done. Qed.

Lemma has_land x m k : Z.land m k = m -> has (Z.land x k) m = has x m.
Proof. intros E. unfold has. by rewrite <- Z.land_assoc, (Z.land_comm k), E. Qed.
Lemma has_lor_l x y m : Z.land y m = 0 -> has (Z.lor x y) m = has x m.
Proof. intros E. unfold has. by rewrite Z.land_lor_distr_l, E, Z.lor_0_r. Qed.

(** The states between two keys: [s] with [l] typed and not yet read. *)
Definition holds tty s d (l : list Z) : Prop := ready tty s d /\ contents (rs_ring (ch_rs d)) = l.

Lemma signal_holds sg tty s d l : holds tty s d l -> Z.land sg (Z.lor RING_SIGNAL_BRK RING_SIGNAL_EOF) = 0 ->
  exists s' d', on_buf tty (ring_signal sg) s = Ret (tt, s') /\ holds tty s' d' l /\ ch_tc d' = ch_tc d /\ cap (rs_ring (ch_rs d')) = cap (rs_ring (ch_rs d)).
Proof.
  intros [Hr Hl] Hsg. destruct (ch_rs d) as [r ws] eqn:Er. pose proof (rd_ring _ _ _ Hr) as Hok. rewrite Er in Hok. cbn in Hok, Hl |- *.
  destruct (ring_signal_keeps sg r ws Hok) as (r' & ws' & E & Hok' & Hc & Hf & Hcap). eexists _, (mk_chrdev (mk_rstate r' ws') (ch_tc d)).
  split; [apply (on_buf_run _ _ _ d _ (mk_rstate r' ws') (rd_dev _ _ _ Hr)); rewrite Er; exact E|]. split; [|done]. split; [|cbn; congruence].
  pose proof (rd_flags _ _ _ Hr) as Hfl. rewrite Er in Hfl. cbn in Hfl. eapply ready_chr; [exact Hr|done|done|]. cbn. rewrite Hf. by rewrite has_lor_l.
Qed.

Lemma store_holds c tty s d l : holds tty s d l -> Z.of_nat (length l) < cap (rs_ring (ch_rs d)) - 1 ->
  exists s' d', on_buf tty (ring_putc 0 c false) s = Ret (Done 0, s') /\ holds tty s' d' (l ++ [c]) /\ ch_tc d' = ch_tc d /\ cap (rs_ring (ch_rs d')) = cap (rs_ring (ch_rs d)).
Proof.
  intros [Hr Hl] Hroom. pose proof (rd_ring _ _ _ Hr) as Hok. pose proof (rd_flags _ _ _ Hr) as Hfl. destruct (ch_rs d) as [r ws] eqn:Er. rewrite ?Er in Hok; rewrite ?Er in Hfl. cbn in Hok, Hl, Hroom, Hfl |- *.
  pose proof (length_contents r Hok) as Hlen. rewrite Hl in Hlen. eexists _, (mk_chrdev (mk_rstate (stored c r) (option_list (n_owner (wait r)) ++ ws)) (ch_tc d)). split_and!.
  - apply (on_buf_run _ _ _ d _ (mk_rstate (stored c r) (option_list (n_owner (wait r)) ++ ws)) (rd_dev _ _ _ Hr)). rewrite Er. unfold ring_putc.
    step_run (ring_store_run c r ws Hok (no_eof _ Hfl)). done.
  - split; [eapply ready_chr; [exact Hr|done|by apply stored_ok|]|].
    + cbn. unfold stored, ring_advance_write. by case_match.
    + cbn. rewrite stored_contents by (done || lia). by rewrite Hl.
  - done.
  - cbn. unfold stored, ring_advance_write. by case_match.
Qed.

Lemma echo_holds tty c s d l : holds tty s d l -> c <> 27 -> exists s', echo tty c s = Ret (tt, s') /\ holds tty s' d l.
Proof.
  intros [Hr Hl] Hc. destruct (tty_putc_text tty c _ (rd_fine _ _ _ Hr) Hc) as (t & E & Ht). eexists. split; [by apply on_term_run|]. split; [by apply ready_term|done].
Qed.

Lemma take_holds ctx tty s d c l : holds tty s d (c :: l) -> exists s' d', on_buf tty (ring_getc ctx false) s = Ret (Done (GetC c), s') /\ holds tty s' d' l /\
  ch_tc d' = ch_tc d /\ cap (rs_ring (ch_rs d')) = cap (rs_ring (ch_rs d)).
Proof.
  intros [Hr Hl]. pose proof (rd_ring _ _ _ Hr) as Hok. pose proof (rd_flags _ _ _ Hr) as Hfl. destruct (ch_rs d) as [r ws] eqn:Er. rewrite ?Er in Hok; rewrite ?Er in Hfl. cbn in Hok, Hl, Hfl |- *.
  assert (ring_readable r <> 0) as Hre. { rewrite ring_readable_count by done. rewrite <- contents_nil_iff by done. by rewrite Hl. }
  eexists _, (mk_chrdev (mk_rstate (taken r) (option_list (n_owner (writer_wait r)) ++ ws)) (ch_tc d)). split_and!.
  - apply (on_buf_run _ _ _ d _ (mk_rstate (taken r) (option_list (n_owner (writer_wait r)) ++ ws)) (rd_dev _ _ _ Hr)). rewrite Er. unfold ring_getc.
    unfold ring_fuel. step_run (ring_getc_loop_data ctx r ws 2 Hre). unfold ring_getc_finish. cbn [Z.eqb]. step_run (ring_take_run r ws c l Hok Hl). done.
  - split; [eapply ready_chr; [exact Hr|done|by apply taken_ok|]|].
    + cbn. unfold taken, ring_advance_read. by case_match.
    + cbn. by destruct (taken_contents r c l Hok Hl).
  - done.
  - cbn. unfold taken, ring_advance_read. by case_match.
Qed.
End runs.

(** ** Typing *)

(** The key is neither a control character of the terminal nor out of [char]. *)
Definition plain_key (tc : termios) (c : Z) : Prop :=
  -128 <= c < 128 /\ c ∉ c_cc tc /\ (c = 13 -> flag_set (c_iflag tc) ICRNL = false).

(** A sequence of keys. *)
Fixpoint tty_types (tty : Z) (l : list Z) : cmd tsys unit :=
  match l with [] => mret tt | c :: l => tty_data_write tty c;; tty_types tty l end.

Section typing.
Implicit Types (s : tsys).

Lemma typed_holds tty tc c s d l : holds tty s d l -> lflag ICANON tc = true -> exists s' d', tty_typed tty tc c s = Ret (tt, s') /\ holds tty s' d' l /\
  ch_tc d' = ch_tc d /\ cap (rs_ring (ch_rs d')) = cap (rs_ring (ch_rs d)).
Proof.
  intros H Hcan. unfold tty_typed. rewrite Hcan. destruct (Z.eqb_spec c 10) as [->|H10].
  - assert (exists s1, (if lflag ECHONL tc then echo tty 10 else mret tt) s = Ret (tt, s1) /\ holds tty s1 d l) as (s1 & E1 & H1)
      by (destruct (lflag ECHONL tc); [by apply echo_holds|by exists s]).
    step_run E1. by apply signal_holds.
  - destruct ((c =? 0x17) || (c =? 0x7F)); [by apply signal_holds|]. destruct (c =? 0x0C).
    { destruct (lflag ECHO tc); [|by exists s, d]. destruct (echo_holds tty 94 s d l H) as (s1 & E1 & H1); [done|]. step_run E1.
      destruct (echo_holds tty 76 s1 d l H1) as (s2 & E2 & H2); [done|]. by exists s2, d. }
    destruct (Z.eqb_spec c 27) as [->|H27].
    { destruct (lflag ECHO tc && true); [|by exists s, d]. destruct H as [Hr Hl]. destruct (tty_puts_text tty [94; 91] _ (rd_fine _ _ _ Hr)) as (t & E & Ht); [by repeat constructor|].
      exists (set_term t s), d. split; [by apply on_term_run|]. split; [|done]. split; [by apply ready_term|done]. }
    destruct (lflag ECHO tc); [|by exists s, d]. destruct (echo_holds tty c s d l H H27) as (s1 & E1 & H1). by exists s1, d.
Qed.

Lemma key_holds tty c s d l : holds tty s d l -> length (c_cc (ch_tc d)) = 3%nat -> plain_key (ch_tc d) c -> Z.of_nat (length l) < cap (rs_ring (ch_rs d)) - 1 ->
  exists s' d', tty_data_write tty c s = Ret (tt, s') /\ holds tty s' d' (l ++ [c]) /\ ch_tc d' = ch_tc d /\ cap (rs_ring (ch_rs d')) = cap (rs_ring (ch_rs d)).
Proof.
  intros H Hcc (Hc & Hnin & Hcr) Hroom. pose proof (proj1 H) as Hr. unfold tty_data_write. step_run (get_chr_run tty s d (rd_dev _ _ _ Hr)). cbn zeta.
  assert (i8 c = c) as -> by (unfold swrap; destruct (Z.leb_spec 0 c); [rewrite Z.mod_small by lia; destruct (Z.ltb_spec c (2 ^ (8 - 1))); lia|];
    rewrite <- (Z_mod_plus_full c 1), Z.mod_small by lia; destruct (Z.ltb_spec (c + 1 * 2 ^ 8) (2 ^ (8 - 1))); lia).
  assert ((if (c =? 13) && flag_set (c_iflag (ch_tc d)) ICRNL then 10 else c) = c) as ->.
  { destruct (Z.eqb_spec c 13) as [->|]; [|done]. by rewrite Hcr. }
  destruct (c_cc (ch_tc d)) as [|e [|i [|u [|]]]] eqn:Ecc; try done. assert (e <> c /\ i <> c /\ u <> c) as (He & Hi & Hu) by set_solver.
  assert (forall k x, c_cc (ch_tc d) !! k = Some x -> cc k (ch_tc d) s = Ret (x, s)) as Hk by (intros k x E; by apply load_Some).
  rewrite (bind_Ret _ _ s e s) by (apply Hk; by rewrite Ecc). cbn beta. rewrite (proj2 (Z.eqb_neq _ _) He), andb_false_r.
  rewrite (bind_Ret _ _ s u s) by (apply Hk; by rewrite Ecc). cbn beta. rewrite (proj2 (Z.eqb_neq _ _) Hu). cbn [andb].
  rewrite (bind_Ret _ _ s tt s eq_refl). rewrite (bind_Ret _ _ s i s) by (apply Hk; by rewrite Ecc). cbn beta. rewrite (proj2 (Z.eqb_neq _ _) Hi). cbn [andb].
  rewrite (bind_Ret _ _ s tt s eq_refl). destruct (store_holds c tty s d l H Hroom) as (s1 & d1 & E1 & H1 & T1 & C1). step_run E1.
  destruct (typed_holds tty (ch_tc d) c s1 d1 _ H1 (rd_canon _ _ _ Hr)) as (s2 & d2 & E2 & H2 & T2 & C2). exists s2, d2. split_and!; try done; congruence.
Qed.

Lemma keys_hold tty ks : forall s d l, holds tty s d l -> length (c_cc (ch_tc d)) = 3%nat -> Forall (plain_key (ch_tc d)) ks ->
  Z.of_nat (length l + length ks) < cap (rs_ring (ch_rs d)) ->
  exists s' d', tty_types tty ks s = Ret (tt, s') /\ holds tty s' d' (l ++ ks) /\ ch_tc d' = ch_tc d /\ cap (rs_ring (ch_rs d')) = cap (rs_ring (ch_rs d)).
Proof.
  induction ks as [|c ks IH]; intros s d l H Hcc Hk Hroom; [exists s, d; by rewrite app_nil_r|]. apply list.Forall_cons in Hk as [Hc Hk]. cbn [tty_types length] in *.
  destruct (key_holds tty c s d l H Hcc Hc ltac:(lia)) as (s1 & d1 & E1 & H1 & T1 & C1). step_run E1.
  destruct (IH s1 d1 (l ++ [c]) H1 ltac:(congruence) ltac:(by rewrite T1) ltac:(rewrite length_app, C1; cbn; lia)) as (s2 & d2 & E2 & H2 & T2 & C2).
  exists s2, d2. rewrite <- app_assoc in H2. split_and!; try done; congruence.
Qed.
End typing.

(** ** Reading *)
Section reading.
Implicit Types (s : tsys).

Lemma erase_holds tty tc s d l : holds tty s d l -> exists s', erase_echo tty tc s = Ret (tt, s') /\ holds tty s' d l.
Proof.
  intros [Hr Hl]. unfold erase_echo. destruct (lflag ECHOE tc); [|by exists s]. destruct (tty_erase tty _ (rd_fine _ _ _ Hr)) as (t & E & Ht).
  exists (set_term t s). split; [by apply on_term_run|]. split; [by apply ready_term|done].
Qed.

Lemma without_word_cons c acc : without_word (c :: acc) = if (1 <? Z.of_nat (length (c :: acc))) && isspace c then c :: acc else without_word acc.
Proof.
  unfold without_word. cbn [drop_word]. destruct (isspace c); [|by rewrite andb_false_r]. rewrite andb_true_r. cbn [length].
  destruct (Z.leb_spec (Z.of_nat (Datatypes.S (length acc))) 1), (Z.ltb_spec 1 (Z.of_nat (Datatypes.S (length acc)))); try lia; [|done].
  destruct acc; [done|cbn in *; lia].
Qed.

Lemma erase_word_holds tty tc d l acc : forall s, holds tty s d l -> exists s', erase_word tty tc acc s = Ret (without_word acc, s') /\ holds tty s' d l.
Proof.
  induction acc as [|c acc IH]; intros s H; [by exists s|]. rewrite without_word_cons. cbn [erase_word].
  destruct ((1 <? Z.of_nat (length (c :: acc))) && isspace c); [by exists s|]. destruct (erase_holds tty tc s d l H) as (s1 & E1 & H1). step_run E1. by apply IH.
Qed.

Lemma next_holds tty s d l c acc : holds tty s d l -> c <> 10 -> exists s', line_next tty (GetC c) acc s = Ret (Go (edit_key acc c), s') /\ holds tty s' d l.
Proof.
  intros H Hc. pose proof (proj1 H) as Hr. unfold line_next, edit_key. step_run (get_chr_run tty s d (rd_dev _ _ _ Hr)). rewrite (rd_canon _ _ _ Hr), !andb_true_r.
  destruct (c =? 0x17). { destruct (erase_word_holds tty (ch_tc d) d l acc s H) as (s1 & E1 & H1). exists s1. step_run E1. done. }
  destruct (c =? 0x7F). { destruct acc as [|a acc]; [by exists s|]. destruct (erase_holds tty (ch_tc d) s d l H) as (s1 & E1 & H1). exists s1. step_run E1. done. }
  exists s. rewrite (proj2 (Z.eqb_neq _ _) Hc). cbn [negb orb]. by rewrite andb_false_r.
Qed.

Lemma clear_holds tty s d l : holds tty s d l -> exists s' d', on_buf tty clear_ret s = Ret (tt, s') /\ holds tty s' d' l /\ ch_tc d' = ch_tc d /\
  cap (rs_ring (ch_rs d')) = cap (rs_ring (ch_rs d)).
Proof.
  intros [Hr Hl]. pose proof (rd_ring _ _ _ Hr) as Hok. pose proof (rd_flags _ _ _ Hr) as Hfl. destruct (ch_rs d) as [r ws] eqn:Er. rewrite ?Er in Hok; rewrite ?Er in Hfl. cbn in Hok, Hl, Hfl |- *.
  set (rs := mk_rstate (set_flags (Z.land (flags r) (Z.lnot RING_SIGNAL_RET)) r) ws).
  eexists _, (mk_chrdev rs (ch_tc d)). split; [apply (on_buf_run _ _ _ d _ rs (rd_dev _ _ _ Hr)); by rewrite Er|].
  split; [|done]. split; [|done]. eapply ready_chr; [exact Hr|done|done|]. cbn. by rewrite has_land.
Qed.

(** The loop on a line that is complete in the ring and never longer than the buffer. *)
Lemma line_holds ctx tty lim line : forall fuel s d acc rest, holds tty s d (line ++ 10 :: rest) -> Forall (fun c => c <> 10) line ->
  (length line < fuel)%nat -> (forall k, Z.of_nat (length (fold_left edit_key (take k line) acc)) < lim) ->
  exists s' d', line_loop fuel ctx tty lim acc s = Ret (LDone (rev (fold_left edit_key line acc) ++ [10]), s') /\ holds tty s' d' rest /\ ch_tc d' = ch_tc d.
Proof.
  induction line as [|c line IH]; intros [|fuel] s d acc rest H Hl Hfuel Hfit; try (cbn in Hfuel; lia); cbn [line_loop].
  - pose proof (Hfit 0%nat) as H0. cbn in H0. rewrite (proj2 (Z.leb_gt _ _)) by done. cbn [app] in H.
    destruct (take_holds ctx tty s d 10 rest H) as (s1 & d1 & E1 & H1 & T1 & C1). step_run E1. unfold line_cont, line_next.
    rewrite (bind_Ret _ _ s1 (Break (10 :: acc)) s1); [|by step_run (get_chr_run tty s1 d1 (rd_dev _ _ _ (proj1 H1)))]. cbn beta iota.
    destruct (clear_holds tty s1 d1 rest H1) as (s2 & d2 & E2 & H2 & T2 & C2). step_run E2. exists s2, d2. split; [|split; [done|congruence]]. done.
  - pose proof (Hfit 0%nat) as H0. cbn in H0. rewrite (proj2 (Z.leb_gt _ _)) by done. apply list.Forall_cons in Hl as [Hc Hl]. cbn [app fold_left] in *.
    destruct (take_holds ctx tty s d c _ H) as (s1 & d1 & E1 & H1 & T1 & C1). step_run E1. unfold line_cont.
    destruct (next_holds tty s1 d1 _ c acc H1 Hc) as (s2 & E2 & H2). step_run E2.
    destruct (IH fuel s2 d1 (edit_key acc c) rest H2 Hl ltac:(cbn in Hfuel; lia)) as (s' & d' & E & H' & T'); [intros k; apply (Hfit (Datatypes.S k))|].
    exists s', d'. split; [done|]. split; [done|congruence].
Qed.

(** C28: a typed line is read as edited.  On a canonical terminal that nobody typed on
    yet, a line of keys that are not its control characters, followed by newline, is
    accepted key by key (echoing on the console or serial line, never failing) while it
    fits the ring; reading then returns the line as DEL and ETB leave it, with the
    newline, and nothing of the line is left in the ring. *)
Theorem typed_line_is_read ctx tty lim line s d :
  holds tty s d [] -> length (c_cc (ch_tc d)) = 3%nat ->
  Forall (fun c => plain_key (ch_tc d) c /\ c <> 10) line -> plain_key (ch_tc d) 10 ->
  Z.of_nat (length line) + 1 < cap (rs_ring (ch_rs d)) ->
  (forall k, Z.of_nat (length (fold_left edit_key (take k line) [])) < lim) ->
  exists s1 s2 d2, tty_types tty (line ++ [10]) s = Ret (tt, s1) /\
    line_read ctx tty lim s1 = Ret (LDone (edited line ++ [10]), s2) /\ holds tty s2 d2 [].
Proof.
  intros H Hcc Hline Hnl Hroom Hfit.
  destruct (keys_hold tty (line ++ [10]) s d [] H Hcc) as (s1 & d1 & E1 & H1 & T1 & C1).
  { apply list.Forall_app. split; [|by apply list.Forall_cons]. eapply list.Forall_impl; [exact Hline|]. by intros c [? _]. }
  { rewrite length_app. cbn. lia. }
  exists s1. unfold line_read. destruct (clear_holds tty s1 d1 _ H1) as (s2 & d2 & E2 & H2 & T2 & C2). cbn [app] in *.
  destruct (line_holds ctx tty lim line (Z.to_nat (cap (rs_ring (ch_rs d2))) + 3)%nat s2 d2 [] [] H2) as (s3 & d3 & E3 & H3 & T3); [|rewrite C2, C1; lia|done|].
  { eapply list.Forall_impl; [exact Hline|]. by intros c [_ ?]. }
  exists s3, d3. split; [done|]. split; [|done]. step_run E2. pose proof (proj1 H2) as Hr2. step_run (get_chr_run tty s2 d2 (rd_dev _ _ _ Hr2)).
  rewrite (no_eof _ (rd_flags _ _ _ Hr2)). unfold line_fuel. rewrite (bind_Ret _ _ s2 (Z.to_nat (cap (rs_ring (ch_rs d2))) + 3)%nat s2); [exact E3|].
  by step_run (get_chr_run tty s2 d2 (rd_dev _ _ _ Hr2)).
Qed.
End reading.

(** ** A terminal on the small console *)
Definition sample_term : term :=
  mk_term {[2 := mk_console 4 1 3 [1] 4 2]} [2] {[4 := v_disp sample_view]} {[3 := v_buf sample_view]} {[1 := mk_tty_data 1 true 2 3]} None 0 ∅.
Definition sample_chr : chrdev := new_chrdev default_termios (Some (replicate 128 0)).
Definition sample_tsys : tsys := mk_tsys sample_term {[1 := sample_chr]} [] 2 48 48.

Lemma sample_holds : holds 1 sample_tsys sample_chr [].
Proof.
  split; [|done]. split; try done. exists (mk_tty_data 1 true 2 3). split; [done|]. split; [done|]. intros _.
  exists (mk_console 4 1 3 [1] 4 2), (v_buf sample_view), (v_disp sample_view). split_and!; try done. split; [exact sample_view_ok|done].
Qed.

(** "ab", DEL, "c d", ETB, "e" reads "ac e". *)
Lemma typed_line_is_read_witness : exists s1 s2 d2,
  tty_types 1 [97; 98; 127; 99; 32; 100; 23; 101; 10] sample_tsys = Ret (tt, s1) /\
  line_read 9 1 64 s1 = Ret (LDone [97; 99; 32; 101; 10], s2) /\ holds 1 s2 d2 [].
Proof.
  apply (typed_line_is_read 9 1 64 [97; 98; 127; 99; 32; 100; 23; 101] sample_tsys sample_chr sample_holds); try done.
  - repeat (apply list.Forall_cons; split; [split; [split_and!; [done|done|set_solver|done]|done]|]). done.
  - split_and!; [done|done|set_solver|done].
  - intros k. do 9 (destruct k as [|k]; [done|]). done.
Defined.

(** After EOF was typed every read returns nothing, although characters are pending:
    [line_read] never clears the flag. *)
Theorem eof_hides_pending ctx tty lim s d :
  ts_devs s !! tty = Some d -> has (flags (rs_ring (ch_rs d))) RING_SIGNAL_EOF = true ->
  exists s' d', line_read ctx tty lim s = Ret (LDone [], s') /\ ts_devs s' !! tty = Some d' /\
    contents (rs_ring (ch_rs d')) = contents (rs_ring (ch_rs d)) /\ has (flags (rs_ring (ch_rs d'))) RING_SIGNAL_EOF = true.
Proof.
  intros Hd He. destruct (ch_rs d) as [r ws] eqn:Er. cbn in He. set (rs := mk_rstate (set_flags (Z.land (flags r) (Z.lnot RING_SIGNAL_RET)) r) ws).
  assert (has (flags (rs_ring rs)) RING_SIGNAL_EOF = true) as He' by (cbn; by rewrite has_land).
  exists (set_chr tty (mk_chrdev rs (ch_tc d)) s), (mk_chrdev rs (ch_tc d)). split; [|split; [apply lookup_insert_eq|by split]].
  unfold line_read. rewrite (bind_Ret _ _ s tt (set_chr tty (mk_chrdev rs (ch_tc d)) s)) by (apply (on_buf_run _ _ _ d _ rs Hd); by rewrite Er).
  rewrite (bind_Ret _ _ _ (mk_chrdev rs (ch_tc d)) (set_chr tty (mk_chrdev rs (ch_tc d)) s)) by (apply get_chr_run, lookup_insert_eq). cbn [ch_rs]. by rewrite He'.
Qed.
