(* ===== verification/Hash.v ===== *)
(** * Hash tables of strings: [sys/hash.c]

    A table is an array of list heads ([ListHead]); a pair is a slab object of 128 bytes,
    32 for the structure and the rest for the key.  [struct hash_pair] is [key], [value]
    and, at offset 16, the link of its bucket; bucket [i] is at [buckets + 16 * i].

    The table implements a finite map from strings ([hash_refines_map]). *)

From S2P Require Import Prelude Defs Bytes Strings ListHead.

Definition HASH_LINK : Z := 16.
Definition HASH_KEY_MAX : Z := 128 - 32.

(** [hp_key]: the bytes behind the structure, where [key] points. *)
Record hash_pair := mk_pair { hp_key : list Z; hp_value : Z }.
Record hash := mk_hash { bucket_count : Z; buckets : Z }.
Record hstore := mk_hstore { h_links : heads; h_pairs : gmap Z hash_pair }.

Definition on_links {A} (m : cmd heads A) : cmd hstore A := czoom h_links (fun l s => mk_hstore l (h_pairs s)) m.
Definition bucket (h : hash) (i : Z) : Z := buckets h + 16 * i.

Definition hash_step (hash c : Z) : Z := u64 (u64 (u64 (Z.shiftl hash 5) + hash) + i8 c).
Fixpoint shash_hash_from (hash : Z) (s : list Z) : option Z :=
  match s with
  | [] => None
  | c :: s => if c =? 0 then Some hash else shash_hash_from (hash_step hash c) s
  end.
Definition shash_hash (s : list Z) : option Z := shash_hash_from 5381 s.

(** [mem]: what [slab_calloc] returned, zeroed, or 0. *)
Definition shash_pair_new (mem : Z) (key : list Z) (value : Z) : cmd hstore Z :=
  l ← cload (fun _ => strlen key);
  cassert (l <? HASH_KEY_MAX);;
  if mem =? 0 then mret 0
  else
    k ← cload (fun _ => strcpy (replicate (Z.to_nat HASH_KEY_MAX) 0) key);
    cmodify (fun s => mk_hstore (<[mem + HASH_LINK := mk_link 0 0]> (h_links s)) (<[mem := mk_pair k value]> (h_pairs s)));;
    on_links (list_head_init (mem + HASH_LINK));;
    mret mem.

Definition shash_pair_free (pair : Z) : cmd hstore unit :=
  cmodify (fun s => mk_hstore (delete (pair + HASH_LINK) (h_links s)) (delete pair (h_pairs s))).

Fixpoint init_buckets (h : hash) (l : list Z) : cmd hstore unit :=
  match l with [] => mret tt | i :: l => on_links (list_head_init (bucket h i));; init_buckets h l end.
(** [mem]: the array [kmalloc] returned, with whatever it held, or 0. *)
Definition shash_init (mem cap : Z) : cmd hstore (Z * hash) :=
  let h := mk_hash cap mem in
  if mem =? 0 then mret (- ENOMEM, h) else init_buckets h (seqZ 0 cap);; mret (0, h).

(** [h->hash(key) % h->bucket_count]. *)
Definition bucket_of (h : hash) (key : list Z) : cmd hstore Z :=
  v ← cload (fun _ => shash_hash key);
  if bucket_count h =? 0 then cfault else mret (v mod bucket_count h).

(** [list_for_each_entry] with the comparison. *)
Fixpoint find_pair (fuel : nat) (pos head : Z) (key : list Z) : cmd hstore Z :=
  if pos =? head then mret 0 else
  match fuel with
  | O => cdiverged
  | S fuel =>
      p ← cload (fun s => h_pairs s !! (pos - HASH_LINK));
      r ← cload (fun _ => strcmp false (Some (hp_key p)) (Some key));
      if r =? 0 then mret (pos - HASH_LINK)
      else n ← on_links (link_next pos); find_pair fuel n head key
  end.
Definition hash_lookup (h : hash) (key : list Z) : cmd hstore Z :=
  i ← bucket_of h key;
  n ← on_links (link_next (bucket h i));
  s ← cget;
  find_pair (size (h_links s)) n (bucket h i) key.

Definition hash_insert (mem : Z) (h : hash) (key : list Z) (value : Z) : cmd hstore Z :=
  old ← hash_lookup h key;
  cassert (old =? 0);;
  pair ← shash_pair_new mem key value;
  if pair =? 0 then mret (- ENOMEM)
  else
    i ← bucket_of h key;
    on_links (list_add (pair + HASH_LINK) (bucket h i));;
    mret 0.

(** ** The table as a map

    [hash_string k]: the hash of the string [k]; [bs i]: the links of bucket [i]. *)
Definition hash_string (k : list Z) : Z := fold_left hash_step k 5381.

Record hash_at (h : hash) (bs : Z -> list Z) (s : hstore) (m : gmap (list Z) Z) : Prop := {
  ha_count : 0 < bucket_count h;
  ha_lists : forall i, 0 <= i < bucket_count h -> listh (h_links s) (bucket h i) (bs i);
  ha_disjoint : forall i j x, 0 <= i < bucket_count h -> 0 <= j < bucket_count h -> i <> j ->
    x ∈ bucket h i :: bs i -> x ∉ bucket h j :: bs j;
  ha_sound : forall i x, 0 <= i < bucket_count h -> x ∈ bs i -> exists p k,
    0 < x - HASH_LINK /\ h_pairs s !! (x - HASH_LINK) = Some p /\ cstr (hp_key p) k /\ hash_string k mod bucket_count h = i /\ m !! k = Some (hp_value p);
  ha_complete : forall k v, m !! k = Some v -> exists x p,
    x ∈ bs (hash_string k mod bucket_count h) /\ h_pairs s !! (x - HASH_LINK) = Some p /\ cstr (hp_key p) k;
}.
Definition hash_rep h s m : Prop := exists bs, hash_at h bs s m.

(** An object of the slab that the table does not use yet. *)
Definition unused_by (h : hash) (s : hstore) (mem : Z) : Prop :=
  0 < mem /\ h_links s !! (mem + HASH_LINK) = None.

Section proofs.
Implicit Types (h : hash) (s : hstore) (m : gmap (list Z) Z).

Lemma hash_from_cstr k r : Forall (fun c => c <> 0) k -> forall v,
  shash_hash_from v (k ++ 0 :: r) = Some (fold_left hash_step k v).
Proof. induction 1 as [|c k Hc _ IH]; intros v; [done|]. cbn [app shash_hash_from fold_left]. by rewrite (proj2 (Z.eqb_neq _ _) Hc). Qed.

Lemma bucket_of_run h key k s : cstr key k -> 0 < bucket_count h -> bucket_of h key s = Ret (hash_string k mod bucket_count h, s).
Proof.
  intros [Hk [r ->]] Hn. unfold bucket_of. rewrite (bind_Ret _ _ s (hash_string k) s) by (apply load_Some; by apply hash_from_cstr).
  by rewrite (proj2 (Z.eqb_neq _ _)) by lia.
Qed.

Lemma on_links_run {A} (f : cmd heads A) s a l : f (h_links s) = Ret (a, l) -> on_links f s = Ret (a, mk_hstore l (h_pairs s)).
Proof. intros E. unfold on_links, czoom. by rewrite E. Qed.

Lemma cstr_unique a k k' : cstr a k -> cstr a k' -> k = k'.
Proof.
  intros [Hk [r ->]] [Hk' [r' E]]. revert k' Hk' E. induction Hk as [|c k Hc Hk IH]; intros k' Hk' E; destruct Hk' as [|c' k' Hc' Hk']; cbn in E; try congruence.
  injection E as -> E. f_equal. by apply IH.
Qed.

(** The walk over a bucket from the part [l2] on. *)
Lemma find_pair_run h bs s m i key k l2 : hash_at h bs s m -> 0 <= i < bucket_count h -> cstr key k -> forall l1 fuel,
  bs i = l1 ++ l2 -> (length l2 <= fuel)%nat ->
  exists r, find_pair fuel (hd_or (bucket h i) l2) (bucket h i) key s = Ret (r, s) /\
    ((r = 0 /\ forall x p, x ∈ l2 -> h_pairs s !! (x - HASH_LINK) = Some p -> ~ cstr (hp_key p) k) \/
     (exists x p, x ∈ l2 /\ r = x - HASH_LINK /\ h_pairs s !! r = Some p /\ cstr (hp_key p) k)).
Proof.
  intros H Hi Hkey. pose proof (ha_lists _ _ _ _ H i Hi) as Hl. induction l2 as [|x l2 IH]; intros l1 fuel E Hf.
  { exists 0. split; [destruct fuel; cbn; by rewrite Z.eqb_refl|]. left. split; [done|]. by intros x p ?%elem_of_nil. }
  destruct fuel as [|fuel]; [cbn in Hf; lia|]. cbn [find_pair hd_or head default from_option id].
  assert (x ∈ bs i) as Hx by (rewrite E; apply elem_of_app; right; by left).
  rewrite (proj2 (Z.eqb_neq _ _)). 2:{ intros ->. destruct Hl as [_ [Hh _]%list.NoDup_cons _]. done. }
  destruct (ha_sound _ _ _ _ H i x Hi Hx) as (p & k' & Hpos & Ep & Hk' & _ & _).
  rewrite (bind_Ret _ _ s p s) by (by apply load_Some). cbn beta.
  destruct (strcmp_from_cstr _ _ _ _ Hk' Hkey) as (r & Er & Hr). rewrite (bind_Ret _ _ s r s) by (by apply load_Some). cbn beta.
  destruct (Z.eqb_spec r 0) as [->|Hne].
  - exists (x - HASH_LINK). split; [done|]. right. exists x, p. rewrite <- (proj1 Hr eq_refl). split_and!; try done. by left.
  - rewrite E in Hl. pose proof (proj2 (link_run _ _ _ _ (listh_node _ _ _ _ _ Hl))) as En. rewrite (bind_Ret _ _ s (hd_or (bucket h i) l2) s).
    2:{ rewrite (on_links_run _ _ _ _ En). by destruct s. }
    destruct (IH (l1 ++ [x]) fuel ltac:(by rewrite <- app_assoc) ltac:(cbn in Hf; lia)) as (q & Eq & Hq). exists q. split; [done|].
    destruct Hq as [[-> Hq]|(y & p' & Hy & Hq)].
    + left. split; [done|]. intros y p' [->|Hy]%elem_of_cons Ep'; [|by apply (Hq y)]. rewrite Ep in Ep'. injection Ep' as <-. intros Hc.
      apply Hne, Hr. by eapply cstr_unique.
    + right. exists y, p'. split; [by right|done].
Qed.

Lemma bucket_length h bs s m i : hash_at h bs s m -> 0 <= i < bucket_count h -> (length (bs i) <= size (h_links s))%nat.
Proof.
  intros H Hi. pose proof (ha_lists _ _ _ _ H i Hi) as Hl. pose proof Hl as [_ [_ Hn]%list.NoDup_cons _].
  rewrite <- size_dom, <- (size_list_to_set (C := gset Z) (bs i)) by done. apply subseteq_size.
  intros x Hx%elem_of_list_to_set. apply elem_of_dom. eapply cyc_some; [exact Hl|]. by right.
Qed.

Lemma lookup_run h s m key k : hash_rep h s m -> cstr key k -> exists r, hash_lookup h key s = Ret (r, s) /\
  match m !! k with
  | None => r = 0
  | Some v => 0 < r /\ exists p, h_pairs s !! r = Some p /\ cstr (hp_key p) k /\ hp_value p = v
  end.
Proof.
  intros [bs H] Hk. set (i := hash_string k mod bucket_count h). assert (0 <= i < bucket_count h) as Hi by (apply Z.mod_pos_bound, H).
  unfold hash_lookup. rewrite (bind_Ret _ _ s i s) by (by apply bucket_of_run; [|apply H]). cbn beta.
  pose proof (ha_lists _ _ _ _ H i Hi) as Hl. rewrite (bind_Ret _ _ s (hd_or (bucket h i) (bs i)) s).
  2:{ rewrite (on_links_run _ _ _ _ (proj2 (link_run _ _ _ _ (listh_head _ _ _ Hl)))). by destruct s. }
  cbn beta. rewrite (bind_Ret _ _ s s s eq_refl). cbn beta.
  destruct (find_pair_run h bs s m i key k (bs i) H Hi Hk [] (size (h_links s)) eq_refl (bucket_length _ _ _ _ _ H Hi)) as (r & E & Hr). exists r. split; [done|].
  destruct Hr as [[-> Hr]|(x & p & Hx & -> & Ep & Hp)].
  - destruct (m !! k) as [v|] eqn:Em; [|done]. destruct (ha_complete _ _ _ _ H k v Em) as (x & p & Hx & Ep & Hp). by destruct (Hr x p Hx Ep).
  - destruct (ha_sound _ _ _ _ H i x Hi Hx) as (p' & k' & Hpos & Ep' & Hk' & _ & Em). rewrite Ep in Ep'. injection Ep' as <-.
    rewrite <- (cstr_unique _ _ _ Hp Hk') in Em. rewrite Em. split; [done|]. by exists p.
Qed.

(** The new pair, not yet in a bucket. *)
Lemma pair_new_run h bs s m mem key k v : hash_at h bs s m -> unused_by h s mem -> cstr key k -> Z.of_nat (length k) < HASH_KEY_MAX ->
  exists s', shash_pair_new mem key v s = Ret (mem, s') /\ hash_at h bs s' m /\ is_Some (h_links s' !! (mem + HASH_LINK)) /\
    (exists p, h_pairs s' !! mem = Some p /\ cstr (hp_key p) k /\ hp_value p = v).
Proof.
  intros H [Hmem Hnew] Hk Hlen. unfold shash_pair_new. rewrite (bind_Ret _ _ s (Z.of_nat (length k)) s) by (apply load_Some; by apply strlen_cstr). cbn beta.
  rewrite (proj2 (Z.ltb_lt _ _) Hlen). rewrite (bind_Ret _ _ s tt s eq_refl). rewrite (proj2 (Z.eqb_neq mem 0)) by lia.
  pose proof (strcpy_cstr (replicate (Z.to_nat HASH_KEY_MAX) 0) key k Hk ltac:(rewrite length_replicate; lia)) as Ec.
  set (kb := k ++ 0 :: _) in *. rewrite (bind_Ret _ _ s kb s) by (by apply load_Some). cbn beta.
  set (s1 := mk_hstore (<[mem + HASH_LINK := mk_link 0 0]> (h_links s)) (<[mem := mk_pair kb v]> (h_pairs s))). rewrite (bind_Ret _ _ s tt s1) by reflexivity.
  destruct (list_head_init_spec (h_links s1) (mem + HASH_LINK)) as (l' & El & _ & Ho); [unfold HASH_LINK; lia|cbn; rewrite lookup_insert_eq; eauto|].
  rewrite (bind_Ret _ _ _ _ _ (on_links_run _ _ _ _ El)). eexists. split; [done|].
  assert (forall x, x <> mem + HASH_LINK -> head_links l' x = head_links (h_links s) x) as Hhl.
  { intros x Hx. unfold head_links. rewrite Ho by done. cbn. by rewrite lookup_insert_ne. }
  assert (forall i x, 0 <= i < bucket_count h -> x ∈ bucket h i :: bs i -> x <> mem + HASH_LINK) as Hne.
  { intros i x Hi Hx ->. destruct (cyc_some _ _ _ (ha_lists _ _ _ _ H i Hi) Hx) as [? E]. by rewrite Hnew in E. }
  split; [|split].
  - split; cbn.
    + apply H.
    + intros i Hi. eapply cyc_ext; [|exact (ha_lists _ _ _ _ H i Hi)]. intros x Hx. apply Hhl. by eapply Hne.
    + apply H.
    + intros i x Hi Hx. destruct (ha_sound _ _ _ _ H i x Hi Hx) as (p & k' & Hp & Ep & Hr). exists p, k'. split; [done|]. split; [|done].
      rewrite lookup_insert_ne; [done|]. pose proof (Hne i x Hi ltac:(by right)). unfold HASH_LINK in *. lia.
    + intros k' v' Em. destruct (ha_complete _ _ _ _ H k' v' Em) as (x & p & Hx & Ep & Hp). exists x, p. split; [done|]. split; [|done].
      rewrite lookup_insert_ne; [done|]. pose proof (Hne (hash_string k' mod bucket_count h) x ltac:(apply Z.mod_pos_bound, H) ltac:(by right)). unfold HASH_LINK in *. lia.
  - cbn. unfold list_head_init in El. apply bind_inv in El as ([] & l1 & E1 & E2). unfold upd_link in E2. apply bind_inv in E2 as (n & l2 & E2 & E3).
    injection E3 as <-. rewrite lookup_insert_eq. eauto.
  - exists (mk_pair kb v). cbn. rewrite lookup_insert_eq. split; [done|]. split; [|done]. split; [apply Hk|]. by eexists.
Qed.

Lemma insert_run h s m mem key k v : hash_rep h s m -> unused_by h s mem -> cstr key k -> Z.of_nat (length k) < HASH_KEY_MAX -> m !! k = None ->
  exists s', hash_insert mem h key v s = Ret (0, s') /\ hash_rep h s' (<[k := v]> m).
Proof.
  intros Hrep Hun Hk Hlen Hm. unfold hash_insert. destruct (lookup_run h s m key k Hrep Hk) as (r & E & Hr). rewrite Hm in Hr. subst r. step_run E.
  rewrite (bind_Ret _ _ s tt s eq_refl). destruct Hrep as [bs H].
  assert (forall i, 0 <= i < bucket_count h -> mem + HASH_LINK ∉ bucket h i :: bs i) as Hfresh.
  { intros i Hi Hin. destruct (cyc_some _ _ _ (ha_lists _ _ _ _ H i Hi) Hin) as [? Ex]. by rewrite (proj2 Hun) in Ex. }
  destruct (pair_new_run h bs s m mem key k v H Hun Hk Hlen) as (s1 & E1 & H1 & Hs1 & p & Ep & Hp & Hv). step_run E1.
  destruct Hun as [Hmem _]. rewrite (proj2 (Z.eqb_neq mem 0)) by lia. set (i := hash_string k mod bucket_count h). assert (0 <= i < bucket_count h) as Hi by (apply Z.mod_pos_bound, H).
  rewrite (bind_Ret _ _ s1 i s1) by (by apply bucket_of_run; [|apply H]). cbn beta.
  destruct (list_add_spec (h_links s1) (bucket h i) (bs i) (mem + HASH_LINK) (ha_lists _ _ _ _ H1 i Hi) (Hfresh i Hi) ltac:(unfold HASH_LINK; lia) Hs1) as (l2 & E2 & Hl2 & Ho2).
  rewrite (bind_Ret _ _ _ _ _ (on_links_run _ _ _ _ E2)). eexists. split; [done|].
  exists (fun j => if decide (j = i) then (mem + HASH_LINK) :: bs i else bs j). split; cbn.
  - apply H.
  - intros j Hj. case_decide as Eij; [by subst|]. eapply cyc_ext; [|exact (ha_lists _ _ _ _ H1 j Hj)]. intros x Hx. apply Ho2; [by apply (ha_disjoint _ _ _ _ H j i)|].
    intros ->. by apply (Hfresh j).
  - intros a b x Ha Hb Hab Hx. repeat case_decide; subst; try done.
    + apply elem_of_cons in Hx as [->|[->|Hx]%elem_of_cons]; [apply (ha_disjoint _ _ _ _ H i b); try done; by left|by apply Hfresh|]. apply (ha_disjoint _ _ _ _ H i b); try done. by right.
    + intros [->|[->|Hin]%elem_of_cons]%elem_of_cons; [revert Hx; apply (ha_disjoint _ _ _ _ H i a); try done; by left|by apply (Hfresh a)|].
      revert Hx. apply (ha_disjoint _ _ _ _ H i a); try done. by right.
    + by apply (ha_disjoint _ _ _ _ H a b).
  - intros j x Hj Hx. assert (forall x, x ∈ bs j -> exists p k0, 0 < x - HASH_LINK /\ h_pairs s1 !! (x - HASH_LINK) = Some p /\ cstr (hp_key p) k0 /\ hash_string k0 mod bucket_count h = j /\ <[k:=v]> m !! k0 = Some (hp_value p)) as Hold.
    { intros y Hy. destruct (ha_sound _ _ _ _ H1 j y Hj Hy) as (q & k' & Hq & Eq & Hk' & Hh & Emk). exists q, k'. split_and!; try done. rewrite lookup_insert_ne; [done|]. congruence. }
    case_decide as Ej; [|by apply Hold]. subst j. apply elem_of_cons in Hx as [->|Hx]; [|by apply Hold].
    exists p, k. rewrite Z.add_simpl_r. rewrite lookup_insert_eq. split_and!; try done. congruence.
  - intros k' v' Em'. destruct (decide (k' = k)) as [->|Hne].
    + fold i. rewrite decide_True by done. exists (mem + HASH_LINK), p. rewrite Z.add_simpl_r. split_and!; try done. by left.
    + rewrite lookup_insert_ne in Em' by done. destruct (ha_complete _ _ _ _ H1 k' v' Em') as (x & q & Hx & Eq & Hq). exists x, q. split_and!; try done.
      case_decide as Ei; [|done]. rewrite Ei in Hx. by right.
Qed.
End proofs.

(** the hash table is a map from strings.  In a table that represents a finite map,
    looking up a key returns NULL exactly when the map has no such key, and otherwise
    the pair with that key and its value, changing nothing; inserting a new key of less
    than 96 bytes in an unused slab object returns 0 and the table represents the map
    with that key added. *)
Theorem hash_refines_map (h : hash) (s : hstore) (m : gmap (list Z) Z) key k :
  hash_rep h s m -> cstr key k ->
  (exists r, hash_lookup h key s = Ret (r, s) /\
     match m !! k with
     | None => r = 0
     | Some v => 0 < r /\ exists p, h_pairs s !! r = Some p /\ cstr (hp_key p) k /\ hp_value p = v
     end) /\
  (forall mem v, unused_by h s mem -> Z.of_nat (length k) < HASH_KEY_MAX -> m !! k = None ->
     exists s', hash_insert mem h key v s = Ret (0, s') /\ hash_rep h s' (<[k := v]> m)).
Proof. intros H Hk. split; [by apply lookup_run|]. intros mem v Hu Hl Hm. by apply insert_run. Qed.

(** A new table represents the empty map. *)
Lemma init_rep_run n : forall (h : hash) k s, 0 <= k -> 0 < buckets h -> (forall i, k <= i < k + Z.of_nat n -> is_Some (h_links s !! bucket h i)) ->
  (forall i, 0 <= i < k -> listh (h_links s) (bucket h i) []) ->
  exists s', init_buckets h (seqZ k (Z.of_nat n)) s = Ret (tt, s') /\ h_pairs s' = h_pairs s /\ forall i, 0 <= i < k + Z.of_nat n -> listh (h_links s') (bucket h i) [].
Proof.
  induction n as [|n IH]; intros h k s Hk Hb Hsome Hdone.
  { exists s. rewrite seqZ_nil by lia. split; [done|]. split; [done|]. intros i Hi. apply Hdone. lia. }
  rewrite seqZ_cons by lia. cbn [init_buckets].
  destruct (list_head_init_spec (h_links s) (bucket h k)) as (l & El & Hl & Ho); [unfold bucket; lia|apply Hsome; lia|].
  rewrite (bind_Ret _ _ _ _ _ (on_links_run _ _ _ _ El)). replace (Z.pred (Z.of_nat (Datatypes.S n))) with (Z.of_nat n) by lia.
  destruct (IH h (Z.succ k) (mk_hstore l (h_pairs s))) as (s' & E & Hp & Hall); [lia|done| | |].
  - intros i Hi. cbn. rewrite Ho by (unfold bucket; lia). apply Hsome. lia.
  - intros i Hi. cbn. destruct (decide (i = k)) as [->|]; [done|]. eapply cyc_ext; [|apply Hdone; lia]. intros x ->%list_elem_of_singleton. unfold head_links. rewrite Ho; [done|]. unfold bucket. lia.
  - exists s'. split; [done|]. split; [done|]. intros i Hi. apply Hall. lia.
Qed.

Theorem shash_init_empty mem cap (s : hstore) :
  0 < mem -> 0 < cap -> (forall i, 0 <= i < cap -> is_Some (h_links s !! (mem + 16 * i))) ->
  exists h s', shash_init mem cap s = Ret ((0, h), s') /\ hash_rep h s' ∅.
Proof.
  intros Hm Hc Hs. unfold shash_init. rewrite (proj2 (Z.eqb_neq mem 0)) by lia. set (h := mk_hash cap mem).
  destruct (init_rep_run (Z.to_nat cap) h 0 s) as (s' & E & _ & Hall); [lia|done|intros i Hi; apply Hs; lia|lia|]. rewrite Z2Nat.id in E, Hall by lia.
  exists h, s'. step_run E. split; [done|]. exists (fun _ => []). split; [done| | | |by intros k v ?%lookup_empty_Some].
  - intros i Hi. apply (Hall i). cbn in Hi. lia.
  - intros i j x Hi Hj Hij ->%list_elem_of_singleton Hx%list_elem_of_singleton. unfold bucket in Hx. cbn in Hx. lia.
  - by intros i x _ ?%elem_of_nil.
Qed.

(** ** A table of two buckets *)
Definition sample_hash : hash := mk_hash 2 64.
Definition sample_hstore : hstore := mk_hstore {[64 := mk_link 64 64; 80 := mk_link 80 80]} ∅.

Lemma sample_rep : hash_rep sample_hash sample_hstore ∅.
Proof.
  exists (fun _ => []). split; try done.
  - intros i Hi. cbn in Hi. assert (i = 0 \/ i = 1) as [-> | ->] by lia; by apply cyc_singleton.
  - intros i j x Hi Hj Hij ->%list_elem_of_singleton Hx%list_elem_of_singleton. unfold bucket in Hx. cbn in Hx. lia.
  - by intros i x _ ?%elem_of_nil.
Qed.

Lemma hash_refines_map_witness :
  hash_lookup sample_hash [97; 98; 0] sample_hstore = Ret (0, sample_hstore) /\
  exists s', hash_insert 256 sample_hash [97; 98; 0] 7 sample_hstore = Ret (0, s') /\ hash_rep sample_hash s' {[ [97; 98] := 7 ]}.
Proof.
  destruct (hash_refines_map sample_hash sample_hstore ∅ [97; 98; 0] [97; 98] sample_rep) as [Hl Hi]; [split; [by repeat constructor|by exists []]|].
  split.
  - destruct Hl as (r & E & Hr). by rewrite E, Hr.
  - destruct (Hi 256 7) as (s' & E & H); [by split|done|done|]. exists s'. split; [done|]. by rewrite insert_empty in H.
Defined.
