(* ===== verification/Elf.v ===== *)
(** * Loading programs: [arch/amd64/binfmt_elf.c]

    The loader reads an open file and fills the address space of a process.  Memory is
    that of [Mmap]: page tables, frames and their contents.  The file is the class
    [ElfFile]: what [vfs_lseek] and [vfs_read] do on a regular file.

    [elf_load_image]: after loading, every byte of every segment is the byte of the file
    or zero. *)

From S2P Require Import Prelude Defs Bytes Strings Phys Paging Mmap.

Definition PT_LOAD : Z := 1.
Definition PT_DYNAMIC : Z := 2.
Definition EI_CLASS : Z := 4.
Definition ELFCLASS64 : Z := 2.
Definition ENOEXEC : Z := 8.
Definition SIZEOF_EHDR : Z := 64.
Definition SIZEOF_PHDR : Z := 56.

(** ** The file *)
Class ElfFile (F : Type) := {
  ef_lseek : Z -> cmd F Z;
  ef_read : Z -> cmd F (Z * list Z);
  ef_bytes : F -> list Z;
  ef_read_at : forall f pos n, 0 <= pos -> 0 <= n -> pos + n <= Z.of_nat (length (ef_bytes f)) ->
    exists f1 f2, ef_lseek pos f = Ret (pos, f1) /\ ef_read n f1 = Ret ((n, slice pos n (ef_bytes f)), f2) /\ ef_bytes f2 = ef_bytes f;
}.

(** ** Headers, little-endian *)
Definition e_class (h : list Z) : option Z := peek 1 EI_CLASS h.
Definition e_entry (h : list Z) : option Z := peek 8 24 h.
Definition e_phoff (h : list Z) : option Z := peek 8 32 h.
Definition e_phentsize (h : list Z) : option Z := peek 2 54 h.
Definition e_phnum (h : list Z) : option Z := peek 2 56 h.
Definition p_type (h : list Z) : option Z := peek 4 0 h.
Definition p_offset (h : list Z) : option Z := peek 8 8 h.
Definition p_vaddr (h : list Z) : option Z := peek 8 16 h.
Definition p_filesz (h : list Z) : option Z := peek 8 32 h.
Definition p_memsz (h : list Z) : option Z := peek 8 40 h.

Section loader.
Context {F : Type} `{ElfFile F}.

(** The memory, the file, and [image_end] and [brk] of the process. *)
Record loader := mk_loader { ld_mem : mem; ld_file : F; ld_image_end : Z; ld_brk : Z }.
Definition on_mem {A} (c : cmd mem A) : cmd loader A :=
  czoom ld_mem (fun m l => mk_loader m (ld_file l) (ld_image_end l) (ld_brk l)) c.
Definition on_file {A} (c : cmd F A) : cmd loader A :=
  czoom ld_file (fun f l => mk_loader (ld_mem l) f (ld_image_end l) (ld_brk l)) c.
Definition set_brk (e b : Z) : cmd loader unit := cmodify (fun l => mk_loader (ld_mem l) (ld_file l) e b).

(** [npages] of the functions below. *)
Definition page_span (vma size : Z) : Z := u64 (u64 (size + Z.land vma 0xFFF) + 4095) / 4096.
Definition page_base (vma : Z) : Z := Z.land vma (u64 (Z.lnot 0xFFF)).

Definition elf_map_page (space base i : Z) : cmd mem unit :=
  r ← on_vm (mm_map_get space (u64 (base + i * MM_PAGE_SIZE)));
  if bool_decide (r.1 = MM_NADDR) then
    phys ← on_mphys (mm_phys_alloc_page PU_PRIVATE);
    cassert (bool_decide (phys ≠ MM_NADDR));;
    e ← on_vm (mm_map_single space (u64 (base + i * MM_PAGE_SIZE)) phys (Z.lor MM_PAGE_USER MM_PAGE_WRITE));
    cassert (e =? 0)
  else mret tt.
Definition elf_map_region (space vma_dst size : Z) : cmd mem unit :=
  for_range (elf_map_page space (page_base vma_dst)) (Z.to_nat (page_span vma_dst size)) 0.

(** [res] and the buffer afterwards; [dst] has room for what it is. *)
Definition elf_read (pos : Z) (dst : list Z) (count : Z) : cmd F (Z * list Z) :=
  res ← ef_lseek pos;
  if negb (res =? pos) then mret (i32 res, dst)
  else
    br ← ef_read count;
    if negb (br.1 =? count) then cpanic
    else if Z.of_nat (length dst) <? count then cfault
    else mret (0, splice 0 br.2 dst).

(** A store of [l] at the physical address [a] through the direct map. *)
Definition frame_write (a : Z) (l : list Z) : cmd mem unit :=
  let off := a mod MM_PAGE_SIZE in
  d ← cload (fun m => m_data m !! (a - off));
  if Z.of_nat (length d) <? off + Z.of_nat (length l) then cfault
  else cmodify (fun m => set_data (<[a - off := splice off l d]> (m_data m)) m).

(** The loops over pages: page [i], [off] bytes done, [rem] left. *)
Fixpoint load_pages (space base load_src : Z) (n : nat) (i page_offset off rem : Z) : cmd loader Z :=
  match n with
  | O => mret 0
  | S n =>
      r ← on_mem (on_vm (mm_map_get space (u64 (base + i * MM_PAGE_SIZE))));
      cassert (negb (r.1 =? 0));;
      let nbytes := Z.min rem (4096 - page_offset) in
      rb ← on_file (elf_read (i64 (load_src + off)) (replicate 4096 0) nbytes);
      if negb (rb.1 =? 0) then mret rb.1
      else
        on_mem (frame_write (r.1 + page_offset) (slice 0 nbytes rb.2));;
        load_pages space base load_src n (i + 1) 0 (off + nbytes) (rem - nbytes)
  end.
Definition elf_load_bytes (space vma_dst load_src size : Z) : cmd loader Z :=
  load_pages space (page_base vma_dst) load_src (Z.to_nat (page_span vma_dst size)) 0 (Z.land vma_dst 0xFFF) 0 size.

Fixpoint zero_pages (space base : Z) (n : nat) (i page_offset rem : Z) : cmd mem unit :=
  match n with
  | O => mret tt
  | S n =>
      r ← on_vm (mm_map_get space (u64 (base + i * MM_PAGE_SIZE)));
      cassert (negb (r.1 =? 0));;
      let nbytes := Z.min rem (4096 - page_offset) in
      frame_write (r.1 + page_offset) (replicate (Z.to_nat nbytes) 0);;
      zero_pages space base n (i + 1) 0 (rem - nbytes)
  end.
Definition elf_bzero (space vma_dst size : Z) : cmd mem unit :=
  zero_pages space (page_base vma_dst) (Z.to_nat (page_span vma_dst size)) 0 (Z.land vma_dst 0xFFF) size.

Definition binfmt_is_elf (ident : list Z) (len : Z) : option bool :=
  if len <? 4 then Some false
  else r ← Strings.strncmp ident [0x7F; 69; 76; 70; 0] 4; Some (r =? 0).

(** One program header of [elf_is_dynamic]: [None] to go on. *)
Fixpoint dynamic_scan (n : nat) (i phoff entsize : Z) (phdr : list Z) : cmd F (Z * bool) :=
  match n with
  | O => mret (0, false)
  | S n =>
      rb ← elf_read (i64 (phoff + i * entsize)) phdr entsize;
      if negb (rb.1 =? 0) then mret (rb.1, false)
      else
        t ← cload (fun _ => p_type rb.2);
        if t =? PT_DYNAMIC then mret (0, true) else dynamic_scan n (i + 1) phoff entsize rb.2
  end.
(** [junk]: the uninitialised header variables. *)
Definition elf_is_dynamic (junk_e junk_p : list Z) : cmd F (Z * bool) :=
  rb ← elf_read 0 junk_e SIZEOF_EHDR;
  if negb (rb.1 =? 0) then mret (rb.1, false)
  else
    let h := rb.2 in
    c ← cload (fun _ => e_class h);
    if negb (c =? ELFCLASS64) then mret (- ENOEXEC, false)
    else
      num ← cload (fun _ => e_phnum h); off ← cload (fun _ => e_phoff h); sz ← cload (fun _ => e_phentsize h);
      dynamic_scan (Z.to_nat num) 0 off sz junk_p.

(** The body of the loop of [elf_load] for a header of type [PT_LOAD]. *)
Definition load_segment (space : Z) (ph : list Z) : cmd loader unit :=
  vaddr ← cload (fun _ => p_vaddr ph); memsz ← cload (fun _ => p_memsz ph);
  filesz ← cload (fun _ => p_filesz ph); offset ← cload (fun _ => p_offset ph);
  let start_aligned := page_base vaddr in
  let size_aligned := u64 (page_base (u64 (u64 (vaddr + memsz) + 0xFFF)) - start_aligned) in
  on_mem (elf_map_region space start_aligned size_aligned);;
  e ← elf_load_bytes space vaddr offset filesz;
  if negb (e =? 0) then cpanic
  else if filesz <? memsz then on_mem (elf_bzero space (u64 (vaddr + filesz)) (u64 (memsz - filesz)))
  else mret tt.

(** A header that cannot be read is reported, and the loop goes on with the variable as
    it is. *)
Fixpoint load_segments (space : Z) (n : nat) (i phoff entsize : Z) (phdr : list Z) : cmd loader unit :=
  match n with
  | O => mret tt
  | S n =>
      rb ← on_file (elf_read (i64 (phoff + entsize * i)) phdr entsize);
      let ph := rb.2 in
      t ← cload (fun _ => p_type ph);
      (if t =? PT_LOAD then load_segment space ph else mret tt);;
      load_segments space n (i + 1) phoff entsize ph
  end.

(** The result is [res] and the entry point. *)
Definition elf_load (space : Z) (junk_e junk_p : list Z) : cmd loader (Z * Z) :=
  rb ← on_file (elf_read 0 junk_e SIZEOF_EHDR);
  if negb (rb.1 =? 0) then mret (rb.1, 0)
  else
    let h := rb.2 in
    m ← cload (fun _ => Strings.strncmp h [0x7F; 69; 76; 70; 0] 4);
    if negb (m =? 0) then mret (- EINVAL, 0)
    else
      c ← cload (fun _ => e_class h);
      if negb (c =? ELFCLASS64) then mret (- EINVAL, 0)
      else
        num ← cload (fun _ => e_phnum h); off ← cload (fun _ => e_phoff h); sz ← cload (fun _ => e_phentsize h);
        cassert (negb (num =? 0));;
        set_brk 0 0;;
        load_segments space (Z.to_nat num) 0 off sz junk_p;;
        l ← cget;
        set_brk (ld_image_end l) (page_base (u64 (u64 (ld_image_end l + MM_PAGE_SIZE) - 1)));;
        entry ← cload (fun _ => e_entry h);
        mret (0, entry).
End loader.
Arguments loader F : clear implicits.

(** ** The image of a process

    The pages from [lo] up to [hi] are the loader's: those in [pg] are mapped, each to a
    frame of its own, the others are not. *)
Definition elf_flags : Z := Z.lor MM_PAGE_USER MM_PAGE_WRITE.

Record image (root lo hi : Z) (m : mem) (o : gmap Z page_usage) (pg : gmap Z Z) : Prop := {
  im_space : space_ok (m_vm m) o root;
  im_page : forall p k, pg !! p = Some k -> lo <= p < hi /\ LOW_PAGE <= k < PHYS_MAX_PAGES /\
    leaf (m_vm m) root (p * MM_PAGE_SIZE) = Some (leaf_entry (k * MM_PAGE_SIZE) elf_flags) /\
    exists q, mm_pages (vm_phys (m_vm m)) !! k = Some q /\ is_alloc q = true;
  im_inj : forall p p' k, pg !! p = Some k -> pg !! p' = Some k -> p = p';
  im_none : forall p, lo <= p < hi -> pg !! p = None -> leaf (m_vm m) root (p * MM_PAGE_SIZE) = None;
  im_data : forall k, LOW_PAGE <= k < PHYS_MAX_PAGES -> exists l, m_data m !! (k * MM_PAGE_SIZE) = Some l /\ length l = Z.to_nat MM_PAGE_SIZE;
}.

(** The byte at address [v] of the image. *)
Definition image_byte (m : mem) (pg : gmap Z Z) (v : Z) : option Z :=
  k ← pg !! (v / MM_PAGE_SIZE); l ← m_data m !! (k * MM_PAGE_SIZE); l !! Z.to_nat (v mod MM_PAGE_SIZE).

Section image.
Context (root lo hi : Z) (Hlo : 0 <= lo) (Hhi : hi <= USER_PAGES).
Implicit Types (m : mem) (pg : gmap Z Z).

Lemma low_frames k : LOW_PAGE <= k < PHYS_MAX_PAGES -> 0 < k * MM_PAGE_SIZE < 2 ^ 30.
Proof. intros Hk. change PHYS_MAX_PAGES with 262144 in Hk. assert (0 < LOW_PAGE) by done. unfold MM_PAGE_SIZE. lia. Qed.

(** A page-aligned address is translated to the address of its frame. *)
Lemma page_translation p k f : LOW_PAGE <= k < PHYS_MAX_PAGES -> (translation (p * MM_PAGE_SIZE) (Some (leaf_entry (k * MM_PAGE_SIZE) f))).1 = k * MM_PAGE_SIZE.
Proof using Type.
  intros Hk. pose proof (low_frames k Hk) as Hkr. unfold translation. cbn [fst]. rewrite leaf_entry_child by lia. assert (Z.land (AMD64_MM_STRIPSX (p * MM_PAGE_SIZE)) MM_PAGE_OFFSET_MASK = 0) as ->.
  { unfold AMD64_MM_STRIPSX. change MM_PAGE_OFFSET_MASK with (Z.ones 12). change 0xFFFFFFFFFFFF with (Z.ones 48). rewrite <- Z.land_assoc, (Z.land_comm (Z.ones 48)).
    change (Z.land (Z.ones 12) (Z.ones 48)) with (Z.ones 12). rewrite Z.land_ones by lia. unfold MM_PAGE_SIZE. by apply Z_mod_mult. }
  rewrite Z.lor_0_r. unfold MM_PAGE_SIZE. rewrite Z_mod_mult. lia.
Qed.

(** [mm_map_get] on a page of the image. *)
Lemma image_get m o pg p k : image root lo hi m o pg -> pg !! p = Some k ->
  exists f, on_vm (mm_map_get (MM_VIRTUALIZE root) (u64 (p * MM_PAGE_SIZE))) m = Ret ((k * MM_PAGE_SIZE, f), m).
Proof using Hlo Hhi.
  intros H Hp. destruct (im_page _ _ _ _ _ _ H p k Hp) as (Hr & Hk & Hl & _). pose proof (low_frames k Hk) as Hkr. destruct (user_page_addr p) as [Ev Hu]; [lia|].
  pose proof (map_get_run _ _ _ (im_space _ _ _ _ _ _ H) _ Hu) as Hg. rewrite Hl in Hg.
  pose proof (page_translation p k elf_flags Hk) as Et. destruct (translation _ _) as [a f]. cbn [fst] in Et. subst a. exists f. rewrite Ev, (on_vm_run _ _ _ _ Hg). by replace (set_vm (m_vm m) m) with m by (by destruct m).
Qed.

Lemma map_page_run m o pg b i : image root lo hi m o pg -> lo <= b + i < hi -> 4 <= pages_free (vm_phys (m_vm m)) ->
  exists m' o' pg', elf_map_page (MM_VIRTUALIZE root) (b * MM_PAGE_SIZE) i m = Ret (tt, m') /\ image root lo hi m' o' pg' /\
    pg ⊆ pg' /\ is_Some (pg' !! (b + i)) /\ m_data m' = m_data m /\
    pages_free (vm_phys (m_vm m)) - 4 <= pages_free (vm_phys (m_vm m')).
Proof using Hlo Hhi.
  intros H Hi Hf. unfold elf_map_page. replace (b * MM_PAGE_SIZE + i * MM_PAGE_SIZE) with ((b + i) * MM_PAGE_SIZE) by lia. set (p := b + i) in *.
  destruct (pg !! p) as [k0|] eqn:Ep.
  { destruct (image_get m o pg p k0 H Ep) as (f & E). pose proof (low_frames k0 (proj1 (proj2 (im_page _ _ _ _ _ _ H _ _ Ep)))). step_run E. cbn [fst].
    rewrite bool_decide_eq_false_2 by (unfold MM_NADDR; lia). exists m, o, pg. rewrite Ep. split_and!; try done. lia. }
  pose proof (im_space _ _ _ _ _ _ H) as Hsp. pose proof (im_none _ _ _ _ _ _ H p Hi Ep) as Hl. destruct (user_page_addr p) as [Ev Hu]; [lia|].
  pose proof (map_get_run _ _ _ Hsp _ Hu) as Hg. rewrite Hl in Hg. cbn [translation] in Hg. rewrite Ev. step_run (on_vm_run _ m _ _ Hg). cbn [fst].
  rewrite bool_decide_eq_true_2 by done. replace (set_vm (m_vm m) m) with m by (by destruct m).
  destruct (alloc_page_run _ _ PU_PRIVATE (sp_phys _ _ _ Hsp) ltac:(done)) as [(_ & ? & _)|(k & q & Ea & Hq & Hqf & _)]; [lia|].
  assert (is_free (vm_phys (m_vm m)) k) as Hk by by exists q. pose proof (free_range _ _ _ (sp_phys _ _ _ Hsp) Hk) as Hkr. pose proof (low_frames k Hkr) as Hka.
  assert (PHYS2PAGE (k * MM_PAGE_SIZE) = k) as Hkk by by apply Z.div_mul.
  set (s0 := set_phys (claim PU_PRIVATE k q (vm_phys (m_vm m))) (m_vm m)). pose proof (claim_space _ _ _ PU_PRIVATE k q Hsp Hq Hqf) as H0. fold s0 in H0.
  set (q1 := mk_page (Z.lor (pg_flags q) PG_ALLOC) PU_PRIVATE (pg_refcount q)). assert (mm_pages (vm_phys s0) !! k = Some q1) as Hq1 by apply lookup_insert_eq.
  assert (is_alloc q1 = true) as Ha1 by apply is_alloc_set.
  pose proof (map_single_run s0 _ root (p * MM_PAGE_SIZE) (k * MM_PAGE_SIZE) elf_flags q1 H0 Hu) as Hm.
  change (leaf s0 root (p * MM_PAGE_SIZE)) with (leaf (m_vm m) root (p * MM_PAGE_SIZE)) in Hm. rewrite Hl, Hkk in Hm.
  destruct Hm as (s2 & o2 & Em & H2 & _ & Hl2 & Hother & Hrc & Hkeep & Hfr); [cbn; lia|lia|done|done|].
  rewrite (bind_Ret _ _ _ _ _ (on_mphys_run _ _ _ _ Ea)). fold s0. rewrite bool_decide_eq_true_2 by (unfold MM_NADDR; lia).
  rewrite (bind_Ret _ _ (set_vm s0 m) tt (set_vm s0 m)) by done. rewrite (bind_Ret _ _ _ _ _ (on_vm_run _ (set_vm s0 m) _ _ Em)).
  exists (set_vm s2 m), o2, (<[p := k]> pg). split; [done|].
  assert (forall p' k', pg !! p' = Some k' -> k' <> k) as Hfresh.
  { intros p' k' Hp' ->. destruct (im_page _ _ _ _ _ _ H p' k Hp') as (_ & _ & _ & q' & Hq' & Ha'). congruence. }
  split; [|split; [|split; [|split; [done|cbn in *; lia]]]].
  - split; cbn [m_vm set_vm].
    + done.
    + intros p' k' Hp'. destruct (decide (p' = p)) as [->|Hne].
      * rewrite lookup_insert_eq in Hp'. injection Hp' as <-. split; [done|]. split; [done|]. split; [done|]. eexists. split; [exact Hrc|]. exact Ha1.
      * rewrite lookup_insert_ne in Hp' by done. destruct (im_page _ _ _ _ _ _ H p' k' Hp') as (Hr & Hkr' & Hl' & q' & Hq' & Ha'). split; [done|]. split; [done|].
        destruct (user_page_addr p') as [_ Hu']; [lia|]. split.
        -- rewrite Hother; [done|done|]. rewrite !strip_page by lia. done.
        -- exists q'. split; [|done]. apply Hkeep; [by apply (Hfresh p')| |done]. cbn. rewrite lookup_insert_ne; [done|]. intros E. by apply (Hfresh p' k').
    + intros a b' k' Ha Hb. destruct (decide (a = p)) as [->|Hna], (decide (b' = p)) as [->|Hnb]; rewrite ?lookup_insert_eq in *; rewrite ?lookup_insert_ne in * by done; try done.
      * injection Ha as <-. by destruct (Hfresh b' k).
      * injection Hb as <-. by destruct (Hfresh a k).
      * by eapply (im_inj _ _ _ _ _ _ H).
    + intros p' Hp' Hn. destruct (decide (p' = p)) as [->|Hne]; [by rewrite lookup_insert_eq in Hn|]. rewrite lookup_insert_ne in Hn by done.
      destruct (user_page_addr p') as [_ Hu']; [lia|]. rewrite Hother; [by apply (im_none _ _ _ _ _ _ H)|done|]. rewrite !strip_page by lia. done.
    + apply (im_data _ _ _ _ _ _ H).
  - by apply insert_subseteq.
  - rewrite lookup_insert_eq. eauto.
Qed.

Lemma map_pages_run n : forall m o pg b i, image root lo hi m o pg -> lo <= b + i -> b + i + Z.of_nat n <= hi -> 4 * Z.of_nat n <= pages_free (vm_phys (m_vm m)) ->
  exists m' o' pg', for_range (elf_map_page (MM_VIRTUALIZE root) (b * MM_PAGE_SIZE)) n i m = Ret (tt, m') /\ image root lo hi m' o' pg' /\
    pg ⊆ pg' /\ (forall p, b + i <= p < b + i + Z.of_nat n -> is_Some (pg' !! p)) /\ m_data m' = m_data m /\
    pages_free (vm_phys (m_vm m)) - 4 * Z.of_nat n <= pages_free (vm_phys (m_vm m')).
Proof using Hlo Hhi.
  induction n as [|n IH]; intros m o pg b i H Hl Hn Hf.
  { exists m, o, pg. split_and!; try done; [|lia]. intros p Hp. lia. }
  cbn [for_range]. destruct (map_page_run m o pg b i H ltac:(lia) ltac:(lia)) as (m1 & o1 & pg1 & E1 & H1 & Hs1 & Hi1 & Hd1 & Hf1). step_run E1.
  destruct (IH m1 o1 pg1 b (i + 1) H1 ltac:(lia) ltac:(lia) ltac:(lia)) as (m2 & o2 & pg2 & E2 & H2 & Hs2 & Hi2 & Hd2 & Hf2).
  exists m2, o2, pg2. split_and!; try done; [by etrans| |congruence|lia]. intros p Hp. destruct (decide (p = b + i)) as [->|]; [|apply Hi2; lia].
  destruct Hi1 as [k Hk]. exists k. by eapply lookup_weaken.
Qed.

(** A store into a page of the image. *)
Lemma frame_write_run m o pg p k off l : image root lo hi m o pg -> pg !! p = Some k -> 0 <= off -> off + Z.of_nat (length l) <= MM_PAGE_SIZE -> off < MM_PAGE_SIZE ->
  exists m', frame_write (k * MM_PAGE_SIZE + off) l m = Ret (tt, m') /\ image root lo hi m' o pg /\ m_vm m' = m_vm m /\
    forall v, image_byte m' pg v = if decide (p * MM_PAGE_SIZE + off <= v < p * MM_PAGE_SIZE + off + Z.of_nat (length l))
      then l !! Z.to_nat (v - (p * MM_PAGE_SIZE + off)) else image_byte m pg v.
Proof using Type.
  intros H Hp Ho Hl Hlt. destruct (im_page _ _ _ _ _ _ H p k Hp) as (_ & Hk & _). destruct (im_data _ _ _ _ _ _ H k Hk) as (d & Hd & Hlen).
  assert ((k * MM_PAGE_SIZE + off) mod MM_PAGE_SIZE = off) as Em by (unfold MM_PAGE_SIZE in *; rewrite Z.add_comm, Z_mod_plus_full; apply Z.mod_small; lia).
  unfold frame_write. cbn zeta. rewrite Em, Z.add_simpl_r. rewrite (bind_Ret _ _ m d m) by (by apply load_Some). cbn beta.
  rewrite (proj2 (Z.ltb_ge _ _)) by lia. eexists. split; [reflexivity|]. split; [|split; [done|]].
  - destruct H as [S P J N D]. split; try done. intros k' Hk'. cbn. destruct (decide (k' = k)) as [->|Hne].
    + rewrite lookup_insert_eq. eexists. split; [done|]. rewrite length_splice by lia. done.
    + rewrite lookup_insert_ne by (unfold MM_PAGE_SIZE; lia). by apply D.
  - intros v. unfold image_byte. cbn [m_data set_data]. assert (0 <= v mod MM_PAGE_SIZE < MM_PAGE_SIZE) as Hv by (apply Z.mod_pos_bound; done).
    pose proof (Z.div_mod v MM_PAGE_SIZE ltac:(done)) as Edm. destruct (decide (v / MM_PAGE_SIZE = p)) as [Ev|Hne].
    + rewrite Ev, Hp. cbn [mbind option_bind]. rewrite lookup_insert_eq, Hd. cbn [mbind option_bind]. rewrite lookup_splice by lia. rewrite Ev in Edm.
      destruct (decide (p * MM_PAGE_SIZE + off <= v < p * MM_PAGE_SIZE + off + Z.of_nat (length l))) as [Hin|Hout]; case_decide; try lia; [|done]. f_equal. lia.
    + rewrite decide_False by (unfold MM_PAGE_SIZE in *; lia). destruct (pg !! (v / MM_PAGE_SIZE)) as [k'|] eqn:Ek; [|done]. cbn [mbind option_bind].
      rewrite lookup_insert_ne; [done|]. intros E. assert (k = k') as <- by (unfold MM_PAGE_SIZE in E; lia). by apply Hne, (im_inj _ _ _ _ _ _ H _ _ k).
Qed.

(** The number of pages left for [rem] bytes from offset [po] of a page. *)
Definition pages_for (po rem : Z) : Z := (po + rem + 4095) / 4096.
Lemma pages_for_step po rem : 0 <= po < 4096 -> 0 <= rem -> 0 < pages_for po rem ->
  let n := Z.min rem (4096 - po) in
  pages_for 0 (rem - n) = pages_for po rem - 1 /\ (0 < rem - n -> po + n = 4096).
Proof using Type.
  intros Hp Hr Hpos n. unfold pages_for in *. split; [|lia]. destruct (Z.min_spec rem (4096 - po)) as [[H E]|[H E]]; fold n in E; rewrite E.
  - rewrite Z.sub_diag. change ((0 + 0 + 4095) / 4096) with 0. assert ((po + rem + 4095) / 4096 < 2) by (apply Z.div_lt_upper_bound; lia). lia.
  - replace (po + rem + 4095) with (0 + (rem - (4096 - po)) + 4095 + 1 * 4096) by lia. rewrite Z.div_add by lia. lia.
Qed.
Lemma pages_for_0 po rem : 0 <= po < 4096 -> 0 <= rem -> pages_for po rem <= 0 -> rem = 0.
Proof using Type. intros Hp Hr H. unfold pages_for in H. assert (po + rem + 4095 < 4096); [|lia]. apply Z.nle_gt. intros Hge. pose proof (Z.div_le_lower_bound (po + rem + 4095) 4096 1). lia. Qed.

Lemma zero_pages_run n : forall m o pg b i po rem, image root lo hi m o pg -> Z.of_nat n = pages_for po rem -> 0 <= po < 4096 -> 0 <= rem ->
  (forall j, b + i <= j < b + i + Z.of_nat n -> is_Some (pg !! j)) ->
  exists m', zero_pages (MM_VIRTUALIZE root) (b * MM_PAGE_SIZE) n i po rem m = Ret (tt, m') /\ image root lo hi m' o pg /\ m_vm m' = m_vm m /\
    forall v, image_byte m' pg v = if decide ((b + i) * MM_PAGE_SIZE + po <= v < (b + i) * MM_PAGE_SIZE + po + rem) then Some 0 else image_byte m pg v.
Proof using Hlo Hhi.
  induction n as [|n IH]; intros m o pg b i po rem H Hn Hpo Hrem Hpg.
  { exists m. split_and!; try done. intros v. pose proof (pages_for_0 po rem Hpo Hrem ltac:(lia)). rewrite decide_False by lia. done. }
  cbn [zero_pages]. destruct (Hpg (b + i) ltac:(lia)) as [k Hk]. destruct (image_get m o pg (b + i) k H Hk) as (f & E).
  pose proof (low_frames k (proj1 (proj2 (im_page _ _ _ _ _ _ H _ _ Hk)))) as Hkr.
  replace (b * MM_PAGE_SIZE + i * MM_PAGE_SIZE) with ((b + i) * MM_PAGE_SIZE) by lia. step_run E. cbn [fst].
  rewrite (proj2 (Z.eqb_neq (k * MM_PAGE_SIZE) 0)) by lia. rewrite (bind_Ret _ _ m tt m eq_refl). cbn zeta. set (nb := Z.min rem (4096 - po)).
  destruct (pages_for_step po rem Hpo Hrem ltac:(lia)) as [Hstep Hcont]. fold nb in Hstep, Hcont.
  destruct (frame_write_run m o pg (b + i) k po (replicate (Z.to_nat nb) 0) H Hk) as (m1 & E1 & H1 & V1 & B1); [lia|rewrite length_replicate; change MM_PAGE_SIZE with 4096; lia|change MM_PAGE_SIZE with 4096; lia|].
  step_run E1. rewrite length_replicate in B1.
  destruct (IH m1 o pg b (i + 1) 0 (rem - nb) H1 ltac:(lia) ltac:(lia) ltac:(lia)) as (m2 & E2 & H2 & V2 & B2); [intros j Hj; apply Hpg; lia|].
  exists m2. split; [done|]. split; [done|]. split; [congruence|]. intros v. rewrite B2, B1. unfold MM_PAGE_SIZE in *.
  destruct (decide ((b + i) * 4096 + po <= v < (b + i) * 4096 + po + rem)) as [Hin|Hout].
  - case_decide; [done|]. rewrite decide_True by lia. apply lookup_replicate_2. lia.
  - rewrite decide_False by lia. by rewrite decide_False by lia.
Qed.

(** ** With the file *)
Context {F : Type} `{EF : ElfFile F}.
Implicit Types (l : loader F).

Lemma elf_read_run f pos dst n : 0 <= pos -> 0 <= n -> pos + n <= Z.of_nat (length (ef_bytes f)) -> n <= Z.of_nat (length dst) ->
  exists f', elf_read pos dst n f = Ret ((0, splice 0 (slice pos n (ef_bytes f)) dst), f') /\ ef_bytes f' = ef_bytes f.
Proof using Type.
  intros Hp Hn Hl Hd. destruct (ef_read_at f pos n Hp Hn Hl) as (f1 & f2 & E1 & E2 & Eb). exists f2. split; [|done]. unfold elf_read. step_run E1.
  rewrite Z.eqb_refl. cbn [negb]. step_run E2. cbn [fst snd]. rewrite Z.eqb_refl. cbn [negb]. by rewrite (proj2 (Z.ltb_ge _ _)) by lia.
Qed.

Lemma on_mem_run {A} (c : cmd mem A) l a m : c (ld_mem l) = Ret (a, m) -> on_mem c l = Ret (a, mk_loader m (ld_file l) (ld_image_end l) (ld_brk l)).
Proof using Type. intros E. unfold on_mem, czoom. by rewrite E. Qed.
Lemma on_file_run {A} (c : cmd F A) l a f : c (ld_file l) = Ret (a, f) -> on_file c l = Ret (a, mk_loader (ld_mem l) f (ld_image_end l) (ld_brk l)).
Proof using Type. intros E. unfold on_file, czoom. by rewrite E. Qed.

Lemma load_pages_run n : forall l o pg b src i po off rem, image root lo hi (ld_mem l) o pg -> Z.of_nat n = pages_for po rem -> 0 <= po < 4096 -> 0 <= rem ->
  0 <= src -> 0 <= off -> src + off + rem <= Z.of_nat (length (ef_bytes (ld_file l))) < 2 ^ 63 ->
  (forall j, b + i <= j < b + i + Z.of_nat n -> is_Some (pg !! j)) ->
  exists l', load_pages (MM_VIRTUALIZE root) (b * MM_PAGE_SIZE) src n i po off rem l = Ret (0, l') /\ image root lo hi (ld_mem l') o pg /\ m_vm (ld_mem l') = m_vm (ld_mem l) /\
    ef_bytes (ld_file l') = ef_bytes (ld_file l) /\
    forall v, image_byte (ld_mem l') pg v = if decide ((b + i) * MM_PAGE_SIZE + po <= v < (b + i) * MM_PAGE_SIZE + po + rem)
      then ef_bytes (ld_file l) !! Z.to_nat (src + off + (v - ((b + i) * MM_PAGE_SIZE + po))) else image_byte (ld_mem l) pg v.
Proof using Hlo Hhi.
  induction n as [|n IH]; intros l o pg b src i po off rem H Hn Hpo Hrem Hsrc Hoff Hfile Hpg.
  { exists l. split_and!; try done. intros v. pose proof (pages_for_0 po rem Hpo Hrem ltac:(lia)). rewrite decide_False by lia. done. }
  cbn [load_pages]. destruct (Hpg (b + i) ltac:(lia)) as [k Hk]. destruct (image_get (ld_mem l) o pg (b + i) k H Hk) as (f & E).
  pose proof (low_frames k (proj1 (proj2 (im_page _ _ _ _ _ _ H _ _ Hk)))) as Hkr.
  replace (b * MM_PAGE_SIZE + i * MM_PAGE_SIZE) with ((b + i) * MM_PAGE_SIZE) by lia.
  rewrite (bind_Ret _ _ l (k * MM_PAGE_SIZE, f) l); [|rewrite (on_mem_run _ _ _ _ E); by destruct l]. cbn [fst].
  rewrite (proj2 (Z.eqb_neq (k * MM_PAGE_SIZE) 0)) by lia. rewrite (bind_Ret _ _ l tt l eq_refl). cbn zeta. set (nb := Z.min rem (4096 - po)).
  destruct (pages_for_step po rem Hpo Hrem ltac:(lia)) as [Hstep Hcont]. fold nb in Hstep, Hcont.
  destruct (elf_read_run (ld_file l) (i64 (src + off)) (replicate 4096 0) nb) as (f' & Ef & Hb); rewrite ?(swrap_small 64 (src + off)) in * by lia; [lia|lia|lia|rewrite length_replicate; lia|].
  rewrite (bind_Ret _ _ _ _ _ (on_file_run _ l _ _ Ef)). cbn [fst snd negb Z.eqb]. set (bytes := slice (src + off) nb (ef_bytes (ld_file l))) in *.
  assert (length bytes = Z.to_nat nb) as Elen by (apply length_slice; lia).
  assert (slice 0 nb (splice 0 bytes (replicate 4096 0)) = bytes) as Es.
  { replace nb with (Z.of_nat (length bytes)) by lia. apply slice_splice_eq; [done|]. rewrite length_replicate. lia. }
  destruct (frame_write_run (ld_mem l) o pg (b + i) k po bytes H Hk) as (m1 & E1 & H1 & V1 & B1); [lia|change MM_PAGE_SIZE with 4096; lia|change MM_PAGE_SIZE with 4096; lia|].
  rewrite Es. rewrite (bind_Ret _ _ _ _ _ (on_mem_run _ (mk_loader (ld_mem l) f' (ld_image_end l) (ld_brk l)) _ _ E1)). cbn [ld_mem ld_file ld_image_end ld_brk].
  destruct (IH (mk_loader m1 f' (ld_image_end l) (ld_brk l)) o pg b src (i + 1) 0 (off + nb) (rem - nb) H1 ltac:(lia) ltac:(lia) ltac:(lia) Hsrc ltac:(lia)) as (l2 & E2 & H2 & V2 & F2 & B2);
    [cbn; rewrite Hb; lia|intros j Hj; apply Hpg; lia|]. cbn [ld_mem ld_file] in *.
  exists l2. split; [done|]. split; [done|]. split; [congruence|]. split; [congruence|]. intros v. rewrite B2, B1, Hb. unfold MM_PAGE_SIZE in *.
  destruct (decide ((b + i) * 4096 + po <= v < (b + i) * 4096 + po + rem)) as [Hin|Hout].
  - case_decide; [f_equal; lia|]. rewrite decide_True by lia. unfold bytes. rewrite lookup_slice by lia. f_equal. lia.
  - rewrite decide_False by lia. by rewrite decide_False by lia.
Qed.
End image.

(** ** Segments *)
Record segment := mk_seg { sg_vaddr : Z; sg_memsz : Z; sg_filesz : Z; sg_offset : Z }.
Definition segment_of (ph : list Z) : option segment :=
  v ← p_vaddr ph; m ← p_memsz ph; f ← p_filesz ph; o ← p_offset ph; Some (mk_seg v m f o).
(** The pages of a segment, and the byte it wants at [vaddr + i]. *)
Definition seg_first (g : segment) : Z := sg_vaddr g / MM_PAGE_SIZE.
Definition seg_end (g : segment) : Z := (sg_vaddr g + sg_memsz g + 4095) / MM_PAGE_SIZE.
Definition seg_byte (file : list Z) (g : segment) (i : Z) : option Z :=
  if i <? sg_filesz g then file !! Z.to_nat (sg_offset g + i) else Some 0.
Definition seg_ok (lo hi : Z) (file : list Z) (g : segment) : Prop :=
  0 <= sg_vaddr g /\ 0 <= sg_filesz g <= sg_memsz g /\ 0 <= sg_offset g /\ lo * MM_PAGE_SIZE <= sg_vaddr g /\ sg_vaddr g + sg_memsz g <= hi * MM_PAGE_SIZE /\
  sg_offset g + sg_filesz g <= Z.of_nat (length file).

Section segments.
Context (root lo hi : Z) (Hlo : 0 <= lo) (Hhi : hi <= USER_PAGES).
Context {F : Type} `{EF : ElfFile F}.
Implicit Types (l : loader F) (g : segment).

Lemma page_base_div v : 0 <= v < 2 ^ 64 -> page_base v = v / MM_PAGE_SIZE * MM_PAGE_SIZE.
Proof using Type.
  intros Hv. unfold page_base. assert (Z.land v (u64 (Z.lnot 0xFFF)) = Z.land v (Z.lnot (Z.ones 12))) as ->.
  { apply Z.bits_inj'. intros n Hn. rewrite !Z.land_spec. destruct (decide (n < 64)).
    - f_equal. unfold uwrap. by rewrite Z.mod_pow2_bits_low.
    - rewrite (Z.bits_above_log2 v n); [done|lia|]. destruct (decide (v = 0)) as [->|]; [cbn; lia|]. apply Z.log2_lt_pow2; [lia|]. apply Z.lt_le_trans with (2 ^ 64); [lia|]. apply Z.pow_le_mono_r; lia. }
  rewrite land_lnot_ones by lia. change MM_PAGE_SIZE with (2 ^ 12). pose proof (Z.div_mod v (2 ^ 12) ltac:(done)). lia.
Qed.

Lemma page_span_for v n : 0 <= v -> 0 <= n < 2 ^ 62 -> page_span v n = pages_for (v mod 4096) n.
Proof using Type.
  intros Hv Hn. unfold page_span, pages_for. change (Z.land v 0xFFF) with (Z.land v (Z.ones 12)). rewrite Z.land_ones by lia. change (2 ^ 12) with 4096.
  pose proof (Z.mod_pos_bound v 4096 ltac:(done)). rewrite (uwrap_small 64 (n + v mod 4096)), uwrap_small by lia. f_equal. lia.
Qed.

Lemma user_limit : USER_PAGES * MM_PAGE_SIZE <= 2 ^ 47.
Proof using Type. done. Qed.

Lemma seg_pages g : 0 <= sg_vaddr g -> 0 <= sg_memsz g -> sg_vaddr g + sg_memsz g <= hi * MM_PAGE_SIZE ->
  lo * MM_PAGE_SIZE <= sg_vaddr g -> lo <= seg_first g <= seg_end g /\ seg_end g <= hi.
Proof using Type.
  intros Hv Hm Hh Hl. unfold seg_first, seg_end, MM_PAGE_SIZE in *. split; [split|].
  - apply Z.div_le_lower_bound; lia.
  - apply Z.div_le_mono; lia.
  - apply Z.lt_succ_r. apply Z.div_lt_upper_bound; lia.
Qed.

Lemma load_segment_run l o pg ph g : image root lo hi (ld_mem l) o pg -> segment_of ph = Some g -> seg_ok lo hi (ef_bytes (ld_file l)) g ->
  Z.of_nat (length (ef_bytes (ld_file l))) < 2 ^ 62 -> 4 * (seg_end g - seg_first g) <= pages_free (vm_phys (m_vm (ld_mem l))) ->
  exists l' o' pg', load_segment (MM_VIRTUALIZE root) ph l = Ret (tt, l') /\ image root lo hi (ld_mem l') o' pg' /\ pg ⊆ pg' /\
    ef_bytes (ld_file l') = ef_bytes (ld_file l) /\
    pages_free (vm_phys (m_vm (ld_mem l))) - 4 * (seg_end g - seg_first g) <= pages_free (vm_phys (m_vm (ld_mem l'))) /\
    (forall i, 0 <= i < sg_memsz g -> image_byte (ld_mem l') pg' (sg_vaddr g + i) = seg_byte (ef_bytes (ld_file l)) g i) /\
    (forall v x, ~ (sg_vaddr g <= v < sg_vaddr g + sg_memsz g) -> image_byte (ld_mem l) pg v = Some x -> image_byte (ld_mem l') pg' v = Some x).
Proof using Hlo Hhi.
  intros H Hg (Hv & Hf & Hof & Hlv & Hhv & Hfile) Hlen Hfree. pose proof user_limit as Hul. pose proof (seg_pages g Hv ltac:(lia) Hhv Hlv) as [Hpl Hph].
  assert (hi * MM_PAGE_SIZE <= 2 ^ 47) as Hh47 by (unfold MM_PAGE_SIZE in *; lia). unfold segment_of in Hg.
  destruct (p_vaddr ph) as [va|] eqn:Ev; [|done]. destruct (p_memsz ph) as [ms|] eqn:Em; [|done]. destruct (p_filesz ph) as [fs|] eqn:Ef; [|done].
  destruct (p_offset ph) as [ofs|] eqn:Eo; [|done]. injection Hg as <-. cbn [sg_vaddr sg_memsz sg_filesz sg_offset] in *.
  unfold seg_first, seg_end in *. cbn [sg_vaddr sg_memsz] in *. set (b := va / MM_PAGE_SIZE) in *. set (e := (va + ms + 4095) / MM_PAGE_SIZE) in *.
  assert (va = b * MM_PAGE_SIZE + va mod 4096 /\ 0 <= va mod 4096 < 4096) as [Edm Hpo] by (split; [pose proof (Z.div_mod va MM_PAGE_SIZE ltac:(done)); unfold b, MM_PAGE_SIZE in *; lia|apply Z.mod_pos_bound; lia]).
  set (po := va mod 4096) in *.
  assert (e - b = pages_for po ms) as Eeb. { unfold e, pages_for, MM_PAGE_SIZE in *. replace (va + ms + 4095) with (po + ms + 4095 + b * 4096) by lia. rewrite Z.div_add by lia. lia. }
  assert (u64 (page_base (u64 (u64 (va + ms) + 4095)) - page_base va) = (e - b) * MM_PAGE_SIZE) as Esize.
  { rewrite (uwrap_small 64 (va + ms)), (uwrap_small 64 (va + ms + 4095)) by lia. rewrite !page_base_div by lia. fold b e. rewrite uwrap_small; unfold MM_PAGE_SIZE in *; lia. }
  assert (page_span (page_base va) ((e - b) * MM_PAGE_SIZE) = e - b) as Espan.
  { rewrite page_base_div, page_span_for by (unfold MM_PAGE_SIZE in *; lia). fold b. unfold MM_PAGE_SIZE. rewrite Z_mod_mult. unfold pages_for. rewrite Z.add_0_l, Z.add_comm, Z.div_add by lia. done. }
  unfold load_segment. rewrite (bind_Ret _ _ l va l) by (by apply load_Some). cbn beta. rewrite (bind_Ret _ _ l ms l) by (by apply load_Some). cbn beta.
  rewrite (bind_Ret _ _ l fs l) by (by apply load_Some). cbn beta. rewrite (bind_Ret _ _ l ofs l) by (by apply load_Some). cbn beta zeta. rewrite Esize.
  destruct (map_pages_run root lo hi Hlo Hhi (Z.to_nat (e - b)) (ld_mem l) o pg b 0 H) as (m1 & o1 & pg1 & E1 & H1 & Hs1 & Hi1 & Hd1 & Hf1); [lia|lia|lia|].
  rewrite (bind_Ret _ _ l tt (mk_loader m1 (ld_file l) (ld_image_end l) (ld_brk l))).
  2:{ apply on_mem_run. unfold elf_map_region. rewrite Espan. rewrite page_base_div by (rewrite page_base_div; unfold MM_PAGE_SIZE in *; lia).
      rewrite page_base_div by lia. rewrite Z.div_mul by done. exact E1. }
  set (l1 := mk_loader m1 (ld_file l) (ld_image_end l) (ld_brk l)). unfold elf_load_bytes. rewrite page_span_for, page_base_div by lia. change (Z.land va 0xFFF) with (Z.land va (Z.ones 12)).
  rewrite Z.land_ones by lia. change (va mod 2 ^ 12) with po. fold po. fold b.
  assert (0 <= pages_for po fs <= e - b) as Hpf by (rewrite Eeb; unfold pages_for; split; [apply Z.div_pos; lia|apply Z.div_le_mono; lia]).
  destruct (load_pages_run root lo hi Hlo Hhi (Z.to_nat (pages_for po fs)) l1 o1 pg1 b ofs 0 po 0 fs H1) as (l2 & E2 & H2 & V2 & F2 & B2); [lia|done|lia|lia|lia|cbn; lia|intros j Hj; apply Hi1; lia|].
  step_run E2. cbn [negb Z.eqb].
  assert (exists l3, (if fs <? ms then on_mem (elf_bzero (MM_VIRTUALIZE root) (u64 (va + fs)) (u64 (ms - fs))) else mret tt) l2 = Ret (tt, l3) /\
    image root lo hi (ld_mem l3) o1 pg1 /\ m_vm (ld_mem l3) = m_vm (ld_mem l2) /\ ef_bytes (ld_file l3) = ef_bytes (ld_file l2) /\
    forall v, image_byte (ld_mem l3) pg1 v = if decide (va + fs <= v < va + ms) then Some 0 else image_byte (ld_mem l2) pg1 v) as (l3 & E3 & H3 & V3 & F3 & B3).
  { destruct (Z.ltb_spec fs ms) as [Hlt|Hge].
    2:{ exists l2. split_and!; try done. intros v. by rewrite decide_False by lia. }
    rewrite (uwrap_small 64 (va + fs)), (uwrap_small 64 (ms - fs)) by lia. set (b' := (va + fs) / MM_PAGE_SIZE). set (po' := (va + fs) mod 4096).
    assert (va + fs = b' * MM_PAGE_SIZE + po' /\ 0 <= po' < 4096) as [Edm' Hpo'] by (split; [pose proof (Z.div_mod (va + fs) MM_PAGE_SIZE ltac:(done)); unfold b', po', MM_PAGE_SIZE in *; lia|apply Z.mod_pos_bound; lia]).
    assert (pages_for po' (ms - fs) = e - b') as Epf. { unfold e, pages_for, MM_PAGE_SIZE in *. replace (va + ms + 4095) with (po' + (ms - fs) + 4095 + b' * 4096) by lia. rewrite Z.div_add by lia. lia. }
    assert (b <= b') as Hbb by (apply Z.div_le_mono; [done|lia]).
    assert (b' <= e) as Hbe by (assert (0 <= pages_for po' (ms - fs)) by (apply Z.div_pos; lia); lia).
    destruct (zero_pages_run root lo hi Hlo Hhi (Z.to_nat (e - b')) (ld_mem l2) o1 pg1 b' 0 po' (ms - fs) H2) as (m3 & E3 & H3 & V3 & B3); [lia|done|lia|intros j Hj; apply Hi1; lia|].
    exists (mk_loader m3 (ld_file l2) (ld_image_end l2) (ld_brk l2)). split.
    - apply on_mem_run. unfold elf_bzero. rewrite page_span_for, page_base_div by lia. change (Z.land (va + fs) 0xFFF) with (Z.land (va + fs) (Z.ones 12)). rewrite Z.land_ones by lia.
      change ((va + fs) mod 2 ^ 12) with po'. fold po' b'. rewrite Epf. exact E3.
    - cbn [ld_mem ld_file]. split_and!; try done. intros v. rewrite B3. rewrite Z.add_0_r, <- Edm'. replace (va + fs + (ms - fs)) with (va + ms) by lia. done. }
  cbn [ld_mem ld_file l1] in *. exists l3, o1, pg1. split; [done|]. split; [done|]. split; [done|]. split; [congruence|]. rewrite Z.add_0_r, <- Edm in B2. split; [rewrite V3, V2; lia|]. split.
  - intros i Hi. rewrite B3. unfold seg_byte. cbn [sg_filesz sg_offset]. destruct (Z.ltb_spec i fs); [|by rewrite decide_True by lia].
    rewrite decide_False by lia. rewrite B2, decide_True by lia. f_equal. lia.
  - intros v x Hout Hx. rewrite B3, decide_False by lia. rewrite B2, decide_False by lia. revert Hx. unfold image_byte. rewrite Hd1.
    destruct (pg !! (v / MM_PAGE_SIZE)) as [k|] eqn:Ek; [|done]. by rewrite (lookup_weaken _ _ _ _ Ek Hs1).
Qed.
End segments.

(** ** The program headers of a file *)
Definition phdr_at (file : list Z) (off i : Z) : list Z := slice (off + SIZEOF_PHDR * i) SIZEOF_PHDR file.
(** The [PT_LOAD] segments among the [n] headers from header [i] on. *)
Fixpoint segments_of (file : list Z) (off : Z) (n : nat) (i : Z) : list segment :=
  match n with
  | O => []
  | S n =>
      (if bool_decide (p_type (phdr_at file off i) = Some PT_LOAD) then option_list (segment_of (phdr_at file off i)) else []) ++
      segments_of file off n (i + 1)
  end.
Definition seg_cost (gs : list segment) : Z := foldr (fun g z => 4 * (seg_end g - seg_first g) + z) 0 gs.
Definition seg_disjoint (g g' : segment) : Prop :=
  sg_vaddr g + sg_memsz g <= sg_vaddr g' \/ sg_vaddr g' + sg_memsz g' <= sg_vaddr g.
Definition in_seg (g : segment) (v : Z) : Prop := sg_vaddr g <= v < sg_vaddr g + sg_memsz g.

Lemma phdr_segment ph : length ph = Z.to_nat SIZEOF_PHDR -> is_Some (p_type ph) /\ exists g, segment_of ph = Some g.
Proof.
  intros E. unfold segment_of, p_type, p_vaddr, p_memsz, p_filesz, p_offset, peek, in_buffer. rewrite E. cbn [andb Z.leb]. split; [by eexists|].
  eexists. reflexivity.
Qed.

Section load.
Context (root lo hi : Z) (Hlo : 0 <= lo) (Hhi : hi <= USER_PAGES).
Context {F : Type} `{EF : ElfFile F}.
Implicit Types (l : loader F) (g : segment).

Lemma seg_byte_some file g i : seg_ok lo hi file g -> 0 <= i < sg_memsz g -> is_Some (seg_byte file g i).
Proof using Type.
  intros (_ & Hf & Ho & _ & _ & Hl) Hi. unfold seg_byte. destruct (Z.ltb_spec i (sg_filesz g)); [|done]. apply lookup_lt_is_Some_2. lia.
Qed.

Lemma seg_cost_nonneg file gs : Forall (seg_ok lo hi file) gs -> 0 <= seg_cost gs.
Proof using Type.
  induction 1 as [|g gs (Hv & Hf & _ & Hl & Hh & _) _ IH]; [done|]. cbn [seg_cost foldr]. fold (seg_cost gs).
  destruct (seg_pages lo hi g Hv ltac:(lia) Hh Hl) as [[_ ?] _]. lia.
Qed.

Lemma load_segments_run n : forall l o pg off i phdr, image root lo hi (ld_mem l) o pg -> length phdr = Z.to_nat SIZEOF_PHDR ->
  Z.of_nat (length (ef_bytes (ld_file l))) < 2 ^ 62 -> 0 <= off -> 0 <= i -> off + SIZEOF_PHDR * (i + Z.of_nat n) <= Z.of_nat (length (ef_bytes (ld_file l))) ->
  Forall (seg_ok lo hi (ef_bytes (ld_file l))) (segments_of (ef_bytes (ld_file l)) off n i) -> ForallOrdPairs seg_disjoint (segments_of (ef_bytes (ld_file l)) off n i) ->
  seg_cost (segments_of (ef_bytes (ld_file l)) off n i) <= pages_free (vm_phys (m_vm (ld_mem l))) ->
  exists l' o' pg', load_segments (MM_VIRTUALIZE root) n i off SIZEOF_PHDR phdr l = Ret (tt, l') /\ image root lo hi (ld_mem l') o' pg' /\ pg ⊆ pg' /\
    ef_bytes (ld_file l') = ef_bytes (ld_file l) /\
    (forall g j, g ∈ segments_of (ef_bytes (ld_file l)) off n i -> 0 <= j < sg_memsz g -> image_byte (ld_mem l') pg' (sg_vaddr g + j) = seg_byte (ef_bytes (ld_file l)) g j) /\
    (forall v x, (forall g, g ∈ segments_of (ef_bytes (ld_file l)) off n i -> ~ in_seg g v) -> image_byte (ld_mem l) pg v = Some x -> image_byte (ld_mem l') pg' v = Some x).
Proof using Hlo Hhi.
  induction n as [|n IH]; intros l o pg off i phdr H Hph Hlen Hoff Hi Hend Hok Hdis Hcost.
  { exists l, o, pg. split_and!; try done. intros g j Hg. by apply not_elem_of_nil in Hg. }
  cbn [load_segments]. unfold SIZEOF_PHDR in Hend. rewrite Nat2Z.inj_succ in Hend. set (file := ef_bytes (ld_file l)) in *.
  destruct (elf_read_run (ld_file l) (i64 (off + SIZEOF_PHDR * i)) phdr SIZEOF_PHDR) as (f1 & E1 & Hb1); rewrite ?(swrap_small 64 (off + SIZEOF_PHDR * i)) in * by (unfold SIZEOF_PHDR; lia);
    [unfold SIZEOF_PHDR; lia|done|fold file; unfold SIZEOF_PHDR; lia|rewrite Hph; done|].
  fold file in E1, Hb1. fold (phdr_at file off i) in E1. assert (length (phdr_at file off i) = Z.to_nat SIZEOF_PHDR) as Eph by (apply length_slice; unfold SIZEOF_PHDR; lia).
  rewrite splice_all in E1 by congruence. rewrite (bind_Ret _ _ _ _ _ (on_file_run _ l _ _ E1)). cbn zeta. cbn [snd]. set (ph := phdr_at file off i) in *.
  set (l1 := mk_loader (ld_mem l) f1 (ld_image_end l) (ld_brk l)). destruct (phdr_segment ph Eph) as [[t Et] [g Eg]]. rewrite (bind_Ret _ _ l1 t l1) by (by apply load_Some). cbn beta.
  cbn [segments_of] in Hok, Hdis, Hcost |- *. fold ph in Hok, Hdis, Hcost |- *.
  assert (exists l2 o2 pg2, (if t =? PT_LOAD then load_segment (MM_VIRTUALIZE root) ph else mret tt) l1 = Ret (tt, l2) /\ image root lo hi (ld_mem l2) o2 pg2 /\ pg ⊆ pg2 /\
    ef_bytes (ld_file l2) = file /\ seg_cost (segments_of file off n (i + 1)) <= pages_free (vm_phys (m_vm (ld_mem l2))) /\
    (t = PT_LOAD -> forall j, 0 <= j < sg_memsz g -> image_byte (ld_mem l2) pg2 (sg_vaddr g + j) = seg_byte file g j) /\
    (forall v x, (t = PT_LOAD -> ~ in_seg g v) -> image_byte (ld_mem l) pg v = Some x -> image_byte (ld_mem l2) pg2 v = Some x)) as (l2 & o2 & pg2 & E2 & H2 & Hs2 & F2 & C2 & B2 & K2).
  { rewrite Et in Hcost, Hok. destruct (Z.eqb_spec t PT_LOAD) as [->|Hne].
    - rewrite bool_decide_eq_true_2, Eg in Hcost, Hok by done. cbn [option_list app] in Hok. apply list.Forall_cons in Hok as [Hg Hgs]. change (4 * (seg_end g - seg_first g) + seg_cost (segments_of file off n (i + 1)) <= pages_free (vm_phys (m_vm (ld_mem l)))) in Hcost.
      assert (0 <= seg_cost (segments_of file off n (i + 1))) as Hc0 by (by apply (seg_cost_nonneg file)).
      destruct (load_segment_run root lo hi Hlo Hhi l1 o pg ph g H Eg) as (l2 & o2 & pg2 & E2 & H2 & Hs2 & F2 & P2 & B2 & K2); [cbn; by rewrite Hb1|cbn; by rewrite Hb1|unfold l1; cbn [ld_mem]; lia|].
      cbn [l1 ld_mem ld_file] in *. rewrite Hb1 in *. exists l2, o2, pg2. split_and!; try done; [lia|intros v x Hv; apply K2, Hv; done].
    - exists l1, o, pg. split_and!; try done. rewrite bool_decide_eq_false_2 in Hcost by congruence. exact Hcost. }
  step_run E2.
  destruct (IH l2 o2 pg2 off (i + 1) ph H2 Eph) as (l3 & o3 & pg3 & E3 & H3 & Hs3 & F3 & B3 & K3); rewrite ?F2; [done|done|lia|unfold SIZEOF_PHDR; lia| | |done|].
  { by apply list.Forall_app in Hok as [_ ?]. }
  { clear -Hdis. case_bool_decide; [|done]. destruct (segment_of ph); [|done]. cbn in Hdis. by inversion Hdis. }
  rewrite F2 in B3, K3, F3. exists l3, o3, pg3. split; [exact E3|]. split; [done|]. split; [by etransitivity|]. split; [done|]. rewrite Et. split.
  - intros g' j Hg' Hj. apply elem_of_app in Hg' as [Hg'|Hg']; [|by apply B3]. case_bool_decide as Ht; [|by apply not_elem_of_nil in Hg']. injection Ht as ->. rewrite Eg in Hg'. apply list_elem_of_singleton in Hg' as ->.
    rewrite Et, bool_decide_eq_true_2, Eg in Hdis, Hok by done. cbn [option_list app] in Hdis, Hok. apply list.Forall_cons in Hok as [Hg _]. destruct (seg_byte_some file g j Hg Hj) as [x Ex]. rewrite Ex. apply K3; [|by rewrite B2].
    intros g' Hg' Hin. inversion Hdis as [|?? Hd _]; subst. rewrite list.Forall_forall in Hd. specialize (Hd g' Hg'). unfold seg_disjoint, in_seg in *. lia.
  - intros v x Hv Hx. apply K3; [intros g' Hg'; apply Hv, elem_of_app; by right|]. apply K2; [|done]. intros ->. apply Hv, elem_of_app. left. rewrite bool_decide_eq_true_2, Eg by done. by apply list_elem_of_singleton.
Qed.
End load.

(** ** Loading a program *)

(** The byte a process whose tables are at [root] finds at the address [v]. *)
Definition user_byte (m : mem) (root v : Z) : option Z :=
  e ← leaf (m_vm m) root (v / MM_PAGE_SIZE * MM_PAGE_SIZE); l ← m_data m !! child e; l !! Z.to_nat (v mod MM_PAGE_SIZE).

(** A well-formed executable: its header, entry point and header table. *)
Definition ELF_MAGIC : list Z := [0x7F; 69; 76; 70].
Record elf_ok (file : list Z) (entry off num : Z) : Prop := {
  eo_length : SIZEOF_EHDR <= Z.of_nat (length file) < 2 ^ 62;
  eo_magic : slice 0 4 file = ELF_MAGIC;
  eo_class : e_class (slice 0 SIZEOF_EHDR file) = Some ELFCLASS64;
  eo_entry : e_entry (slice 0 SIZEOF_EHDR file) = Some entry;
  eo_phoff : e_phoff (slice 0 SIZEOF_EHDR file) = Some off;
  eo_phnum : e_phnum (slice 0 SIZEOF_EHDR file) = Some num;
  eo_phentsize : e_phentsize (slice 0 SIZEOF_EHDR file) = Some SIZEOF_PHDR;
  eo_table : 0 <= off /\ 0 < num /\ off + SIZEOF_PHDR * num <= Z.of_nat (length file);
}.

Lemma magic_matches h : slice 0 4 h = ELF_MAGIC -> Strings.strncmp h [0x7F; 69; 76; 70; 0] 4 = Some 0.
Proof.
  intros E. unfold slice, ELF_MAGIC in E. change (Z.to_nat 0) with 0%nat in E. change (Z.to_nat 4) with 4%nat in E. rewrite drop_0 in E.
  destruct h as [|a [|b [|c [|d h]]]]; try discriminate. injection E as -> -> -> ->. destruct h; reflexivity.
Qed.

Lemma image_user_byte root lo hi m o pg v x : image root lo hi m o pg -> image_byte m pg v = Some x -> user_byte m root v = Some x.
Proof.
  intros H E. unfold image_byte in E. unfold user_byte. destruct (pg !! (v / MM_PAGE_SIZE)) as [k|] eqn:Ek; [|done]. destruct (im_page _ _ _ _ _ _ H _ _ Ek) as (_ & Hk & -> & _).
  pose proof (low_frames k Hk). cbn [mbind option_bind]. rewrite leaf_entry_child by lia. assert ((k * MM_PAGE_SIZE) mod 0x1000 = 0) as -> by apply Z_mod_mult. by rewrite Z.sub_0_r.
Qed.

(** Before loading nothing is mapped between the pages [lo] and [hi]. *)
Lemma image_start root lo hi m o : space_ok (m_vm m) o root -> run_unmapped (m_vm m) root lo (hi - lo) ->
  (forall k, LOW_PAGE <= k < PHYS_MAX_PAGES -> exists l, m_data m !! (k * MM_PAGE_SIZE) = Some l /\ length l = Z.to_nat MM_PAGE_SIZE) ->
  image root lo hi m o ∅.
Proof. intros H Hr Hd. split; try done. intros p Hp _. apply Hr. lia. Qed.

(** C26: [elf_load] builds the program's image.  A well-formed 64-bit executable whose
    segments lie between the user pages [lo] and [hi], nothing mapped there and memory
    enough, is loaded without an error: the entry point is the one of the header, and the
    process reads at every address of every segment the byte of the file, or zero after
    the part that is in the file.  The page tables stay well-formed. *)
Theorem elf_load_image {F} `{EF : ElfFile F} root lo hi o entry off num (l : loader F) junk_e junk_p :
  0 <= lo -> hi <= USER_PAGES -> space_ok (m_vm (ld_mem l)) o root -> run_unmapped (m_vm (ld_mem l)) root lo (hi - lo) ->
  (forall k, LOW_PAGE <= k < PHYS_MAX_PAGES -> exists d, m_data (ld_mem l) !! (k * MM_PAGE_SIZE) = Some d /\ length d = Z.to_nat MM_PAGE_SIZE) ->
  let file := ef_bytes (ld_file l) in let segs := segments_of file off (Z.to_nat num) 0 in
  elf_ok file entry off num -> Forall (seg_ok lo hi file) segs -> ForallOrdPairs seg_disjoint segs ->
  seg_cost segs <= pages_free (vm_phys (m_vm (ld_mem l))) ->
  length junk_e = Z.to_nat SIZEOF_EHDR -> length junk_p = Z.to_nat SIZEOF_PHDR ->
  exists l' o', elf_load (MM_VIRTUALIZE root) junk_e junk_p l = Ret ((0, entry), l') /\ space_ok (m_vm (ld_mem l')) o' root /\
    forall g i, g ∈ segs -> 0 <= i < sg_memsz g ->
      is_Some (seg_byte file g i) /\ user_byte (ld_mem l') root (sg_vaddr g + i) = seg_byte file g i.
Proof.
  intros Hlo Hhi Hsp Hr Hd file segs [Hlen Hmg Hcl Hen Hpo Hpn Hpe (Hoff & Hnum & Htab)] Hok Hdis Hcost Eje Ejp. unfold elf_load.
  destruct (elf_read_run (ld_file l) 0 junk_e SIZEOF_EHDR) as (f1 & E1 & Hb1); [done|done|fold file; lia|by rewrite Eje|]. fold file in E1, Hb1.
  rewrite splice_all in E1 by (rewrite length_slice; [done|done|done|lia]). rewrite (bind_Ret _ _ _ _ _ (on_file_run _ l _ _ E1)). cbn [fst snd Z.eqb negb]. cbn zeta.
  set (h := slice 0 SIZEOF_EHDR file) in *. set (l1 := mk_loader (ld_mem l) f1 (ld_image_end l) (ld_brk l)).
  rewrite (bind_Ret _ _ l1 0 l1) by (apply load_Some, magic_matches; unfold h; by rewrite slice_slice). cbn [Z.eqb negb]. rewrite (bind_Ret _ _ l1 ELFCLASS64 l1) by (by apply load_Some). rewrite Z.eqb_refl. cbn [negb].
  rewrite (bind_Ret _ _ l1 num l1) by (by apply load_Some). cbn beta. rewrite (bind_Ret _ _ l1 off l1) by (by apply load_Some). cbn beta.
  rewrite (bind_Ret _ _ l1 SIZEOF_PHDR l1) by (by apply load_Some). cbn beta. rewrite (proj2 (Z.eqb_neq num 0)) by lia. rewrite (bind_Ret _ _ l1 tt l1) by done.
  set (l2 := mk_loader (ld_mem l) f1 0 0). rewrite (bind_Ret _ _ l1 tt l2) by done.
  destruct (load_segments_run root lo hi Hlo Hhi (Z.to_nat num) l2 o ∅ off 0 junk_p) as (l3 & o3 & pg3 & E3 & H3 & _ & F3 & B3 & _); cbn [l2 ld_mem ld_file]; rewrite ?Hb1; try done; [by apply image_start|lia|lia|].
  step_run E3. rewrite (bind_Ret _ _ l3 l3 l3) by done. cbn beta. set (l4 := mk_loader (ld_mem l3) (ld_file l3) (ld_image_end l3) (page_base (u64 (u64 (ld_image_end l3 + MM_PAGE_SIZE) - 1)))).
  exists l4, o3. split; [|split].
  - rewrite (bind_Ret _ _ l3 tt l4) by done. by rewrite (bind_Ret _ _ l4 entry l4) by (by apply load_Some).
  - exact (im_space _ _ _ _ _ _ H3).
  - intros g i Hg Hi. cbn [l4 ld_mem]. cbn [l2 ld_file] in B3. rewrite Hb1 in B3. pose proof (B3 g i Hg Hi) as Ex. rewrite list.Forall_forall in Hok. destruct (seg_byte_some lo hi file g i (Hok g Hg) Hi) as [x Hx].
    rewrite Hx in Ex |- *. split; [done|]. by apply (image_user_byte root lo hi (ld_mem l3) o3 pg3).
Qed.

(** ** A file in memory *)
Record image_file := mk_file { if_pos : Z; if_bytes : list Z }.
Definition if_lseek (pos : Z) : cmd image_file Z := fun f => Ret (pos, mk_file pos (if_bytes f)).
Definition if_read (n : Z) : cmd image_file (Z * list Z) := fun f =>
  let l := slice (if_pos f) n (if_bytes f) in Ret ((Z.of_nat (length l), l), mk_file (if_pos f + Z.of_nat (length l)) (if_bytes f)).
#[export] Program Instance image_elf_file : ElfFile image_file := {| ef_lseek := if_lseek; ef_read := if_read; ef_bytes := if_bytes |}.
Next Obligation.
  intros [q bs] pos n Hp Hn Hl. cbn in Hl. assert (Z.of_nat (length (slice pos n bs)) = n) as En by (rewrite length_slice; lia).
  exists (mk_file pos bs), (mk_file (pos + n) bs). split; [reflexivity|]. split; [|reflexivity]. cbn [if_bytes]. unfold if_read. cbn [if_pos if_bytes]. by rewrite En.
Qed.

(** A program of one segment: six bytes of the file across a page boundary, then four
    zeros.  Every frame holds rubbish. *)
Definition sample_phdr (vaddr offset filesz memsz : Z) : list Z :=
  le_put 4 PT_LOAD ++ le_put 4 7 ++ le_put 8 offset ++ le_put 8 vaddr ++ le_put 8 0 ++ le_put 8 filesz ++ le_put 8 memsz ++ le_put 8 4096.
Definition sample_ehdr (entry phentsize phnum : Z) : list Z :=
  ELF_MAGIC ++ [2; 1; 1; 0] ++ le_put 8 0 ++ le_put 8 0x1003E0002 ++ le_put 8 entry ++ le_put 8 SIZEOF_EHDR ++ le_put 8 0 ++
  le_put 4 0 ++ le_put 2 64 ++ le_put 2 phentsize ++ le_put 2 phnum ++ le_put 2 0 ++ le_put 2 0 ++ le_put 2 0.
Definition sample_elf : list Z := sample_ehdr 0x400FFC SIZEOF_PHDR 1 ++ sample_phdr 0x400FFC 120 6 10 ++ [1; 2; 3; 4; 5; 6].

Definition rubbish : gmap Z (list Z) :=
  list_to_map ((fun k => (k * MM_PAGE_SIZE, replicate (Z.to_nat MM_PAGE_SIZE) 0xAA)) <$> seqZ LOW_PAGE (PHYS_MAX_PAGES - LOW_PAGE)).
Definition sample_loader (file : list Z) : loader image_file := mk_loader (mk_mem sample_vm rubbish [] 0) (mk_file 0 file) 0 0.

Lemma rubbish_frames k : LOW_PAGE <= k < PHYS_MAX_PAGES -> exists d, rubbish !! (k * MM_PAGE_SIZE) = Some d /\ length d = Z.to_nat MM_PAGE_SIZE.
Proof.
  intros Hk. exists (replicate (Z.to_nat MM_PAGE_SIZE) 0xAA). split; [|apply length_replicate]. apply elem_of_list_to_map_1.
  - rewrite <- list_fmap_compose. apply NoDup_fmap_2; [|apply NoDup_seqZ]. intros a b E. cbn in E. unfold MM_PAGE_SIZE in E. lia.
  - apply list_elem_of_fmap. exists k. split; [done|]. apply elem_of_seqZ. lia.
Qed.

Lemma elf_load_image_witness : exists l', elf_load (MM_VIRTUALIZE sample_root) (replicate 64 0) (replicate 56 0) (sample_loader sample_elf) = Ret ((0, 0x400FFC), l') /\
  user_byte (ld_mem l') sample_root 0x400FFF = Some 4 /\ user_byte (ld_mem l') sample_root 0x401001 = Some 6 /\ user_byte (ld_mem l') sample_root 0x401005 = Some 0.
Proof.
  assert (segments_of sample_elf SIZEOF_EHDR 1 0 = [mk_seg 0x400FFC 10 6 120]) as Es by (vm_compute; reflexivity).
  destruct (elf_load_image sample_root 0x400 0x402 sample_owned 0x400FFC SIZEOF_EHDR 1 (sample_loader sample_elf) (replicate 64 0) (replicate 56 0)) as (l' & o' & E & _ & B).
  - done.
  - done.
  - exact (proj1 sample_space).
  - intros j Hj. apply sample_space. apply user_page_addr. assert (0x402 < USER_PAGES) as Hx by done. lia.
  - exact rubbish_frames.
  - change (elf_ok sample_elf 0x400FFC SIZEOF_EHDR 1). split; try (vm_compute; reflexivity); by vm_compute.
  - change (Forall (seg_ok 0x400 0x402 sample_elf) (segments_of sample_elf SIZEOF_EHDR 1 0)). rewrite Es. repeat constructor; done.
  - change (ForallOrdPairs seg_disjoint (segments_of sample_elf SIZEOF_EHDR 1 0)). rewrite Es. repeat constructor.
  - change (seg_cost (segments_of sample_elf SIZEOF_EHDR 1 0) <= pages_free (vm_phys sample_vm)). rewrite Es. change (8 <= pages_free (vm_phys sample_vm)). discriminate.
  - done.
  - done.
  - exists l'. split; [exact E|]. change (Z.to_nat 1) with 1%nat in B. change (ef_bytes (ld_file (sample_loader sample_elf))) with sample_elf in B. rewrite Es in B.
    pose proof (fun i => B (mk_seg 0x400FFC 10 6 120) i (list_elem_of_here _ _)) as Bs. clear B E.
    split; [|split].
    + change 0x400FFF with (sg_vaddr (mk_seg 0x400FFC 10 6 120) + 3). rewrite (proj2 (Bs 3 ltac:(done))). vm_compute. reflexivity.
    + change 0x401001 with (sg_vaddr (mk_seg 0x400FFC 10 6 120) + 5). rewrite (proj2 (Bs 5 ltac:(done))). vm_compute. reflexivity.
    + change 0x401005 with (sg_vaddr (mk_seg 0x400FFC 10 6 120) + 9). rewrite (proj2 (Bs 9 ltac:(done))). vm_compute. reflexivity.
Defined.

(** ** What the loader does not check *)

(** [e_phentsize] is trusted: a larger entry than [Elf64_Phdr] is read over the variable's
    end, by [elf_load] and by [elf_is_dynamic]. *)
Theorem phentsize_overflows m space : let file := mk_file 0 (sample_ehdr 0 57 1 ++ replicate 64 0) in
  elf_load space (replicate 64 0) (replicate 56 0) (mk_loader m file 0 0) = Fault /\ elf_is_dynamic (replicate 64 0) (replicate 56 0) file = Fault.
Proof. split; vm_compute; reflexivity. Qed.

(** [image_end] is only ever set to zero, so the program break of every loaded program is
    address zero. *)
Definition keeps_end {F A} (c : cmd (loader F) A) : Prop := forall l a l', c l = Ret (a, l') -> ld_image_end l' = ld_image_end l.

Section keeps_end.
Context {F : Type} `{EF : ElfFile F}.

Lemma ke_bind {A B} (c : cmd (loader F) A) (k : A -> cmd (loader F) B) : keeps_end c -> (forall a, keeps_end (k a)) -> keeps_end (c ≫= k).
Proof using Type. intros Hc Hk l b l' E. apply bind_inv in E as (a & l1 & E1 & E2). rewrite (Hk a _ _ _ E2). exact (Hc _ _ _ E1). Qed.
Lemma ke_ret {A} (a : A) : keeps_end (F := F) (mret a).
Proof using Type. intros l b l' [= _ <-]. done. Qed.
Lemma ke_on_mem {A} (c : cmd mem A) : keeps_end (F := F) (on_mem c).
Proof using Type. intros l b l' E. unfold on_mem, czoom in E. destruct (c (ld_mem l)) as [[??]| | |]; [|done..]. by injection E as <- <-. Qed.
Lemma ke_on_file {A} (c : cmd F A) : keeps_end (on_file c).
Proof using Type. intros l b l' E. unfold on_file, czoom in E. destruct (c (ld_file l)) as [[??]| | |]; [|done..]. by injection E as <- <-. Qed.
Lemma ke_load {A} (f : loader F -> option A) : keeps_end (cload f).
Proof using Type. intros l b l' E. unfold cload in E. destruct (f l); [|done]. by injection E as <- <-. Qed.
Lemma ke_assert b : keeps_end (F := F) (cassert b).
Proof using Type. intros l a l' E. destruct b; [|done]. by injection E as <- <-. Qed.
Lemma ke_panic {A} : keeps_end (F := F) (A := A) cpanic.
Proof using Type. by intros l a l' E. Qed.

Local Ltac keeps := repeat first [apply ke_bind; [|intros ?] | apply ke_ret | apply ke_on_mem | apply ke_on_file | apply ke_load | apply ke_assert | apply ke_panic | case_match].

Lemma ke_load_pages space base src n : forall i po off rem, keeps_end (load_pages space base src n i po off rem).
Proof using Type. induction n; intros; cbn [load_pages]; cbn zeta; keeps; auto. Qed.
Lemma ke_load_segments space off sz n : forall i phdr, keeps_end (load_segments space n i off sz phdr).
Proof using Type. induction n; intros; cbn [load_segments]; cbn zeta; unfold load_segment, elf_load_bytes; keeps; auto using ke_load_pages. Qed.
End keeps_end.

Theorem brk_is_zero {F} `{EF : ElfFile F} space junk_e junk_p (l l' : loader F) entry :
  elf_load space junk_e junk_p l = Ret ((0, entry), l') -> ld_brk l' = 0 /\ ld_image_end l' = 0.
Proof.
  intros E. unfold elf_load in E. apply bind_inv in E as (rb & l0 & _ & E). destruct (Z.eqb_spec (rb.1) 0) as [_|Hne]; cbn [negb] in E; [|by injection E]. cbn zeta in E.
  apply bind_inv in E as (c & l1 & _ & E). destruct (c =? 0); cbn [negb] in E; [|done]. apply bind_inv in E as (d & l2 & _ & E). destruct (d =? ELFCLASS64); cbn [negb] in E; [|done].
  apply bind_inv in E as (num & l3 & _ & E). apply bind_inv in E as (off & l4 & _ & E). apply bind_inv in E as (sz & l5 & _ & E). apply bind_inv in E as ([] & l6 & _ & E).
  apply bind_inv in E as ([] & l7 & E7 & E). apply bind_inv in E as ([] & l8 & E8 & E). apply bind_inv in E as (l9 & l10 & E9 & E). apply bind_inv in E as ([] & l11 & E11 & E).
  apply bind_inv in E as (en & l12 & E12 & E). apply load_inv in E12 as [_ ->]. injection E as _ ->. injection E9 as <- <-. injection E11 as <-. injection E7 as <-.
  apply ke_load_segments in E8. cbn [ld_image_end] in E8. cbn [ld_image_end ld_brk]. by rewrite E8.
Qed.
