(* ===== verification/Ram.v ===== *)
(** * Files in memory: [fs/ram.c]

    A regular file of ramfs is an index of blocks of 512 bytes: 32 pointers in the
    private data of its vnode, then up to 24 pages of 512 pointers each.  A pointer
    carries two flags, [RAM_BSET_AVAIL] for every index below the capacity and
    [RAM_BSET_ALLOC] for a block in a frame of its own; other blocks lie in the image the
    file system was made from.  Memory is a store of pages of bytes by kernel address;
    frames come from a page allocator ([PageAlloc]).

    [ram_write_contents] and [ram_read_contents]: a file is a list of bytes, writing
    replaces a range of it and reading returns one; [ram_truncate_frees]: shrinking a
    file keeps a prefix and returns exactly the frames it no longer needs. *)

From S2P Require Import Prelude Defs Bytes Phys Paging Interfaces Vnode Vfs.

Definition RAM_BLOCKS_L0 : Z := 32.
Definition RAM_BLOCKS_L1 : Z := 24.
Definition RAM_BLOCKS_PER_Ln : Z := 512.
Definition RAM_MAX_L1 : Z := RAM_BLOCKS_L1 * RAM_BLOCKS_PER_Ln.
Definition RAM_BSET_AVAIL : Z := 1.
Definition RAM_BSET_ALLOC : Z := 2.
(** [RAM_BLOCKS_L0 + RAM_BLOCKS_L1 * RAM_BLOCKS_PER_Ln] *)
Definition RAM_LIMIT : Z := RAM_BLOCKS_L0 + RAM_MAX_L1.

Record ram_vnode_private := mk_priv { rp_size : Z; bpa_cap : Z; bpa_l0 : list Z; bpa_l1 : list Z }.
Definition priv_zero : ram_vnode_private := mk_priv 0 0 (replicate 32 0) (replicate 24 0).

Section ram.
Context {P : Type} `{PageAlloc P}.

Record ramfs := mk_ramfs { rf_vfs : vfs; rf_privs : gmap Z ram_vnode_private; rf_frames : P; rf_mem : gmap Z (list Z) }.
Definition set_vfs v r := mk_ramfs v (rf_privs r) (rf_frames r) (rf_mem r).
Definition set_privs p r := mk_ramfs (rf_vfs r) p (rf_frames r) (rf_mem r).
Definition set_rframes f r := mk_ramfs (rf_vfs r) (rf_privs r) f (rf_mem r).
Definition set_rmem m r := mk_ramfs (rf_vfs r) (rf_privs r) (rf_frames r) m.
Definition on_vfs {A} (c : cmd vfs A) : cmd ramfs A := czoom rf_vfs set_vfs c.
Definition on_rframes {A} (c : cmd P A) : cmd ramfs A := czoom rf_frames set_rframes c.

(** ** Memory: accesses stay inside one page. *)
Definition page_at (a : Z) : cmd ramfs (list Z) := cload (fun r => rf_mem r !! (a - a mod MM_PAGE_SIZE)).
Definition put_page (a : Z) (l : list Z) : cmd ramfs unit := cmodify (fun r => set_rmem (<[a - a mod MM_PAGE_SIZE := l]> (rf_mem r)) r).
Definition load_ptr (a : Z) : cmd ramfs Z := l ← page_at a; cload (fun _ => peek 8 (a mod MM_PAGE_SIZE) l).
Definition store_ptr (a v : Z) : cmd ramfs unit :=
  l ← page_at a; l ← cload (fun _ => poke 8 (a mod MM_PAGE_SIZE) v l); put_page a l.
(** [memcpy] from and to memory. *)
Definition mem_get (a n : Z) : cmd ramfs (list Z) :=
  l ← page_at a;
  if Z.of_nat (length l) <? a mod MM_PAGE_SIZE + n then cfault else mret (slice (a mod MM_PAGE_SIZE) n l).
Definition mem_put (a : Z) (b : list Z) : cmd ramfs unit :=
  l ← page_at a;
  if Z.of_nat (length l) <? a mod MM_PAGE_SIZE + Z.of_nat (length b) then cfault else put_page a (splice (a mod MM_PAGE_SIZE) b l).

(** [fs_data] of a vnode, and what is there. *)
Definition fs_data (vn : Z) : cmd ramfs Z := v ← on_vfs (Vnode.vn vn); mret (v_fs_data v).
Definition priv_at (a : Z) : cmd ramfs ram_vnode_private := cload (fun r => rf_privs r !! a).
Definition put_priv (a : Z) (p : ram_vnode_private) : cmd ramfs unit := cmodify (fun r => set_privs (<[a := p]> (rf_privs r)) r).
Definition put_l0 (a i w : Z) : cmd ramfs unit :=
  p ← priv_at a; cload (fun _ => bpa_l0 p !! Z.to_nat i);;
  put_priv a (mk_priv (rp_size p) (bpa_cap p) (<[Z.to_nat i := w]> (bpa_l0 p)) (bpa_l1 p)).
Definition put_l1 (a i w : Z) : cmd ramfs unit :=
  p ← priv_at a; cload (fun _ => bpa_l1 p !! Z.to_nat i);;
  put_priv a (mk_priv (rp_size p) (bpa_cap p) (bpa_l0 p) (<[Z.to_nat i := w]> (bpa_l1 p))).

Definition l1_index (i : Z) : Z := (i - RAM_BLOCKS_L0) / RAM_BLOCKS_PER_Ln.
Definition l0_index (i : Z) : Z := (i - RAM_BLOCKS_L0) mod RAM_BLOCKS_PER_Ln.

(** ** The index of blocks *)

(** [mm_phys_alloc_page] and the assertion that it succeeded. *)
Definition alloc_frame : cmd ramfs Z :=
  a ← on_rframes (pa_alloc PU_KERNEL); cassert (bool_decide (a ≠ MM_NADDR));; mret a.
Definition free_block (blk : Z) : cmd ramfs unit :=
  cassert (flagged blk RAM_BSET_AVAIL);;
  if flagged blk RAM_BSET_ALLOC then on_rframes (pa_free (MM_PHYS (Z.land blk (u64 (Z.lnot 511))))) else mret tt.

Definition shrink_step (a i : Z) : cmd ramfs unit :=
  p ← priv_at a;
  if i <? RAM_BLOCKS_L0 then
    blk ← cload (fun _ => bpa_l0 p !! Z.to_nat i); put_l0 a i 0;; free_block blk
  else if i <? RAM_LIMIT then
    t ← cload (fun _ => bpa_l1 p !! Z.to_nat (l1_index i));
    cassert (nonnull t);;
    blk ← load_ptr (t + 8 * l0_index i); free_block blk
  else cpanic.
Definition free_l1 (a i : Z) : cmd ramfs unit :=
  p ← priv_at a;
  t ← cload (fun _ => bpa_l1 p !! Z.to_nat i);
  cassert (nonnull t);;
  on_rframes (pa_free (MM_PHYS t));;
  put_l1 a i 0.
Definition grow_step (a i : Z) : cmd ramfs unit :=
  p ← priv_at a;
  if i <? RAM_BLOCKS_L0 then
    w ← cload (fun _ => bpa_l0 p !! Z.to_nat i);
    cassert (w =? 0);;
    put_l0 a i RAM_BSET_AVAIL
  else if i <? RAM_LIMIT then
    t ← cload (fun _ => bpa_l1 p !! Z.to_nat (l1_index i));
    t ← (if nonnull t then mret t
         else blk ← alloc_frame; put_l1 a (l1_index i) (MM_VIRTUALIZE blk);; mem_put (MM_VIRTUALIZE blk) (replicate 4096 0);; mret (MM_VIRTUALIZE blk));
    store_ptr (t + 8 * l0_index i) RAM_BSET_AVAIL
  else cpanic.

Definition ram_vnode_bset_resize (vn size : Z) : cmd ramfs Z :=
  a ← fs_data vn;
  p ← priv_at a;
  let count := u64 (size + 511) / 512 in
  let cap := bpa_cap p in
  (if count <? cap then
     for_range (shrink_step a) (Z.to_nat (cap - count)) count;;
     if (RAM_BLOCKS_L0 <? cap) && (count <=? RAM_LIMIT) then
       let block_index := Z.min ((cap - RAM_BLOCKS_L0 + RAM_BLOCKS_PER_Ln - 1) / RAM_BLOCKS_PER_Ln) RAM_BLOCKS_L1 in
       let block_start := (count + RAM_BLOCKS_PER_Ln - RAM_BLOCKS_L0 - 1) / RAM_BLOCKS_PER_Ln in
       cassert (block_start <=? block_index);;
       for_range (free_l1 a) (Z.to_nat (block_index - block_start)) block_start
     else mret tt
   else for_range (grow_step a) (Z.to_nat (count - cap)) cap);;
  p ← priv_at a;
  put_priv a (mk_priv size count (bpa_l0 p) (bpa_l1 p));;
  mret 0.

Definition ram_vnode_bset_get (vn index : Z) : cmd ramfs Z :=
  a ← fs_data vn;
  p ← priv_at a;
  w ← (if index <? RAM_BLOCKS_L0 then cload (fun _ => bpa_l0 p !! Z.to_nat index)
       else if index <? RAM_LIMIT then
         t ← cload (fun _ => bpa_l1 p !! Z.to_nat (l1_index index));
         cassert (nonnull t);;
         load_ptr (t + 8 * l0_index index)
       else cpanic);
  cassert (flagged w RAM_BSET_AVAIL);;
  mret w.

Definition ram_vnode_bset_set (vn index block : Z) : cmd ramfs Z :=
  a ← fs_data vn;
  p ← priv_at a;
  cassert (negb (flagged block 511) || flagged block RAM_BSET_ALLOC);;
  let block := Z.lor block RAM_BSET_AVAIL in
  if index <? RAM_BLOCKS_L0 then
    w ← cload (fun _ => bpa_l0 p !! Z.to_nat index);
    cassert (w =? RAM_BSET_AVAIL);; put_l0 a index block;; mret 0
  else if index <? RAM_LIMIT then
    t ← cload (fun _ => bpa_l1 p !! Z.to_nat (l1_index index));
    cassert (nonnull t);;
    w ← load_ptr (t + 8 * l0_index index);
    cassert (w =? RAM_BSET_AVAIL);; store_ptr (t + 8 * l0_index index) block;; mret 0
  else cpanic.

(** ** Vnode operations *)

(** The loop that gives blocks to new indices. *)
Definition new_block (vn i : Z) : cmd ramfs unit :=
  blk ← alloc_frame;
  r ← ram_vnode_bset_set vn i (Z.lor (MM_VIRTUALIZE blk) RAM_BSET_ALLOC);
  cassert (r =? 0).
Definition grow_file (vn size : Z) : cmd ramfs unit :=
  a ← fs_data vn;
  p ← priv_at a;
  let block_index := u64 (size + 511) / 512 in
  let block_offset := bpa_cap p in
  r ← ram_vnode_bset_resize vn size;
  cassert (r =? 0);;
  for_range (new_block vn) (Z.to_nat (block_index - block_offset)) block_offset.

Definition ramfs_vnode_truncate (at_ size : Z) : cmd ramfs Z :=
  a ← fs_data at_;
  cassert (nonnull a);;
  p ← priv_at a;
  if rp_size p <? size then grow_file at_ size;; mret 0
  else if size <? rp_size p then r ← ram_vnode_bset_resize at_ size; cassert (r =? 0);; mret 0
  else mret 0.

(** The loops over the blocks from [pos] on; the position is stored when they end. *)
Fixpoint ram_read_loop (fuel : nat) (vn pos rem : Z) (acc : list Z) : cmd ramfs (Z * list Z) :=
  if rem =? 0 then mret (pos, acc) else
  match fuel with
  | O => cdiverged
  | S fuel =>
      let block_offset := pos mod 512 in
      let can_read := Z.min rem (512 - block_offset) in
      cassert (negb (can_read =? 0));;
      blk ← ram_vnode_bset_get vn (pos / 512);
      cassert (flagged blk (u64 (Z.lnot 511)));;
      l ← mem_get (Z.land blk (u64 (Z.lnot 511)) + block_offset) can_read;
      ram_read_loop fuel vn (u64 (pos + can_read)) (rem - can_read) (acc ++ l)
  end.
Definition set_pos (f pos : Z) : cmd ramfs unit :=
  on_vfs (oupdate f (fun o => mk_ofile (of_flags o) (of_refcount o) (of_vnode o) pos (of_priv o))).
(** The result and the bytes put into the caller's buffer. *)
Definition ramfs_vnode_read (f count : Z) : cmd ramfs (Z * list Z) :=
  o ← on_vfs (oget f);
  a ← fs_data (of_vnode o);
  cassert (nonnull a);;
  p ← priv_at a;
  if rp_size p <=? of_pos o then set_pos f (rp_size p);; mret (0, [])
  else
    let rem := Z.min count (rp_size p - of_pos o) in
    r ← ram_read_loop (Z.to_nat rem) (of_vnode o) (of_pos o) rem [];
    set_pos f r.1;;
    mret (Z.of_nat (length r.2), r.2).

Fixpoint ram_write_loop (fuel : nat) (vn pos : Z) (buf : list Z) : cmd ramfs Z :=
  match buf with
  | [] => mret pos
  | _ :: _ =>
      match fuel with
      | O => cdiverged
      | S fuel =>
          let block_offset := pos mod 512 in
          let can_write := Z.min (Z.of_nat (length buf)) (512 - block_offset) in
          cassert (negb (can_write =? 0));;
          blk ← ram_vnode_bset_get vn (pos / 512);
          cassert (flagged blk (u64 (Z.lnot 511)));;
          mem_put (Z.land blk (u64 (Z.lnot 511)) + block_offset) (take (Z.to_nat can_write) buf);;
          ram_write_loop fuel vn (u64 (pos + can_write)) (drop (Z.to_nat can_write) buf)
      end
  end.
Definition ramfs_vnode_write (f : Z) (buf : list Z) : cmd ramfs Z :=
  o ← on_vfs (oget f);
  cassert (nonnull (of_vnode o));;
  a ← fs_data (of_vnode o);
  cassert (nonnull a);;
  p ← priv_at a;
  let count := Z.of_nat (length buf) in
  if rp_size p <? of_pos o then cpanic
  else
    (if rp_size p <? u64 (of_pos o + count) then grow_file (of_vnode o) (u64 (of_pos o + count)) else mret tt);;
    pos ← ram_write_loop (length buf) (of_vnode o) (of_pos o) buf;
    set_pos f pos;;
    mret count.

(** [SEEK_SET] and [SEEK_CUR] are 0 and 1. *)
Definition ramfs_vnode_lseek (f off whence : Z) : cmd ramfs Z :=
  o ← on_vfs (oget f);
  a ← fs_data (of_vnode o);
  cassert (nonnull a);;
  p ← priv_at a;
  if whence =? 0 then
    res ← (if rp_size p <? u64 off then ramfs_vnode_truncate (of_vnode o) (u64 off) else mret 0);
    if res <? 0 then mret res else set_pos f (u64 off);; mret (i64 off)
  else if whence =? 1 then
    if (i64 (off + of_pos o) <? 0) || (rp_size p <? u64 (off + of_pos o)) then mret (- ESPIPE)
    else set_pos f (u64 (of_pos o + off));; mret (i64 (of_pos o + off))
  else mret (i64 (of_pos o)).

Definition ramfs_vnode_open (f opt : Z) : cmd ramfs Z := on_vfs (oget f);; mret 0.

(** [None] where the code panics: the type is none of the four. *)
Definition ram_type_bits (t : vnode_type) : option Z :=
  match t with
  | VN_REG => Some S_IFREG | VN_LNK => Some S_IFLNK | VN_DIR => Some S_IFDIR | VN_SOCK => Some S_IFSOCK
  | _ => None
  end.
Definition ramfs_vnode_stat (vn : Z) : cmd ramfs stat :=
  v ← on_vfs (Vnode.vn vn);
  match ram_type_bits (v_type v) with
  | None => cpanic
  | Some bits =>
      sb ← (if is_type VN_REG v then cassert (nonnull (v_fs_data v));; p ← priv_at (v_fs_data v); mret (rp_size p, bpa_cap p) else mret (512, 1));
      mret (mk_stat 0 0 (Z.lor (v_mode v) bits) 0 (v_uid v) (v_gid v) 0 sb.1 512 sb.2 0 0 0)
  end.

(** ** Making and removing nodes *)
Definition RAMFS_OP : Z := 1.
Definition set_node (priv : Z) (v : vnode) : vnode :=
  mk_vnode (v_type v) (v_name v) (Z.lor (v_flags v) VN_MEMORY) (first_child v) (next_child v) (v_parent v) (v_target v) (open_count v) (v_ino v) (v_gid v) (v_uid v) (v_mode v) 0 priv (v_dev v) RAMFS_OP.
Definition with_op (op : Z) (v : vnode) : vnode :=
  mk_vnode (v_type v) (v_name v) (v_flags v) (first_child v) (next_child v) (v_parent v) (v_target v) (open_count v) (v_ino v) (v_gid v) (v_uid v) (v_mode v) (v_fs v) (v_fs_data v) (v_dev v) op.
Definition with_fs_data (d : Z) (v : vnode) : vnode :=
  mk_vnode (v_type v) (v_name v) (v_flags v) (first_child v) (next_child v) (v_parent v) (v_target v) (open_count v) (v_ino v) (v_gid v) (v_uid v) (v_mode v) (v_fs v) d (v_dev v) (v_op v).

Definition ram_vnode_create `{Slab} (t : vnode_type) (filename : string) : cmd ramfs Z :=
  vn ← on_vfs (vnode_create t (Some filename));
  priv ← (if bool_decide (t = VN_REG) || bool_decide (t = VN_LNK)
          then p ← cgets (fun r => slab_calloc (dom (rf_privs r))); cassert (nonnull p);; put_priv p priv_zero;; mret p
          else mret 0);
  on_vfs (vn_update vn (set_node priv));;
  mret vn.
(** [ramfs_vnode_creat] and [ramfs_vnode_mkdir] differ in the type. *)
Definition ram_make `{Slab} (t : vnode_type) (at_ : Z) (filename : string) (uid gid mode : Z) : cmd ramfs Z :=
  vn ← ram_vnode_create t filename;
  on_vfs (vn_update vn (with_owner uid gid));;
  on_vfs (vn_update vn (with_mode (Z.land mode VFS_MODE_MASK)));;
  on_vfs (vnode_attach at_ vn);;
  mret 0.
Definition ramfs_vnode_creat `{Slab} := ram_make VN_REG.
Definition ramfs_vnode_mkdir `{Slab} := ram_make VN_DIR.
Definition ramfs_vnode_mknod (at_ node : Z) : cmd ramfs Z :=
  d ← on_vfs (Vnode.vn at_);
  cassert (nonnull at_ && is_type VN_DIR d);;
  cassert (nonnull node);;
  on_vfs (vn_update node (with_op RAMFS_OP));;
  on_vfs (vnode_attach at_ node);;
  mret 0.
Definition ramfs_vnode_unlink (node : Z) : cmd ramfs Z :=
  v ← on_vfs (Vnode.vn node);
  if is_type VN_DIR v && nonnull (first_child v) then mret (- EEXIST)
  else
    (if nonnull (v_fs_data v) then
       cassert (is_type VN_REG v || is_type VN_LNK v);;
       priv_at (v_fs_data v);;
       cmodify (fun r => set_privs (delete (v_fs_data v) (rf_privs r)) r)
     else mret tt);;
    on_vfs (vn_update node (with_fs_data 0));;
    mret 0.
End ram.
Arguments ramfs P : clear implicits.

(** ** Entries of the index

    [None] is an index without a block, [Some (b, own)] the block at [b], in a frame of
    the file's own or in the image. *)
Abbreviation entry := (option (Z * bool)).
Definition entw (e : entry) : Z := match e with None => 1 | Some (b, own) => b + (if own : bool then 3 else 1) end.
Definition vpage (b : Z) : Z := b - b mod MM_PAGE_SIZE.
Definition kpage (a : Z) : Prop := exists p, a = MM_VIRTUALIZE p /\ 0 <= p < 2 ^ 39 /\ p mod MM_PAGE_SIZE = 0.
Definition block_ok (b : Z) : Prop := b mod 512 = 0 /\ kpage (vpage b).
Definition owned (es : list entry) : list Z := omap (fun e : entry => match e with Some (b, true) => Some b | _ => None end) es.
(** The number of second-level tables [n] indices need. *)
Definition tables_for (n : Z) : Z := Z.max 0 ((n - RAM_BLOCKS_L0 + RAM_BLOCKS_PER_Ln - 1) / RAM_BLOCKS_PER_Ln).

Lemma kpage_range a : kpage a -> KERNEL_VIRT_BASE <= a < 2 ^ 64 - 2 ^ 39 /\ a mod MM_PAGE_SIZE = 0.
Proof.
  intros (p & -> & Hp & Hm). unfold MM_VIRTUALIZE, KERNEL_VIRT_BASE, MM_PAGE_SIZE in *. rewrite uwrap_small by lia.
  split; [lia|]. rewrite Zplus_mod, Hm. done.
Qed.
Lemma kpage_phys a : kpage a -> MM_VIRTUALIZE (MM_PHYS a) = a /\ 0 <= MM_PHYS a < 2 ^ 39.
Proof. intros (p & -> & Hp & _). rewrite MM_PHYS_VIRTUALIZE by lia. done. Qed.
Lemma kpage_inj a b : kpage a -> kpage b -> MM_PHYS a = MM_PHYS b -> a = b.
Proof. intros [Ea _]%kpage_phys [Eb _]%kpage_phys E. congruence. Qed.
Lemma kpage_self a : a mod MM_PAGE_SIZE = 0 -> vpage a = a.
Proof. unfold vpage. lia. Qed.

Lemma block_range b : block_ok b -> KERNEL_VIRT_BASE <= b < 2 ^ 64 - 2 ^ 38 /\ b mod 512 = 0.
Proof.
  intros [Hm Hk]. split; [|done]. apply kpage_range in Hk as [Hr _]. unfold vpage, MM_PAGE_SIZE in Hr. pose proof (Z.mod_pos_bound b 0x1000 ltac:(done)).
  change (2 ^ 39) with 549755813888 in Hr. change (2 ^ 38) with 274877906944. unfold KERNEL_VIRT_BASE in *. lia.
Qed.
Lemma page_block b : kpage b -> block_ok b.
Proof.
  intros Hb. pose proof (kpage_range b Hb) as [_ Hm]. split; [|by rewrite kpage_self].
  unfold MM_PAGE_SIZE in Hm. apply Z.mod_divide; [done|]. apply Z.mod_divide in Hm as [q ->]; [|done]. exists (q * 8). lia.
Qed.

Lemma lor_low b x : b mod 512 = 0 -> 0 <= x < 512 -> Z.lor b x = b + x.
Proof.
  intros Hb Hx. rewrite <- Z.add_lor_land. assert (Z.land b x = 0) as ->; [|lia]. apply Z.bits_inj'. intros n Hn. rewrite Z.land_spec, Z.bits_0.
  destruct (decide (n < 9)) as [Hl|Hl].
  - assert (Z.testbit b n = false) as ->; [|done]. rewrite <- (Z.mod_pow2_bits_low b 9 n) by lia. change (2 ^ 9) with 512. by rewrite Hb, Z.bits_0.
  - rewrite (testbit_high x 9 n) by (try lia; done). apply andb_false_r.
Qed.
Lemma flag_low b x k : b mod 512 = 0 -> 0 <= x < 512 -> 0 <= k < 9 -> flagged (b + x) (2 ^ k) = Z.testbit x k.
Proof.
  intros Hb Hx Hk. rewrite flagged_bit by lia. rewrite <- (Z.mod_pow2_bits_low (b + x) 9 k) by lia. change (2 ^ 9) with 512.
  rewrite Zplus_mod, Hb, Z.add_0_l, Z.mod_mod, Z.mod_small by lia. done.
Qed.
Lemma strip_low b x : 0 <= b -> b + 512 <= 2 ^ 64 -> b mod 512 = 0 -> 0 <= x < 512 -> Z.land (b + x) (u64 (Z.lnot 511)) = b.
Proof.
  intros H0 Hr Hb Hx. assert (Z.land (b + x) (u64 (Z.lnot 511)) = Z.land (b + x) (Z.lnot (Z.ones 9))) as ->.
  { apply Z.bits_inj'. intros n Hn. rewrite !Z.land_spec. destruct (decide (n < 64)).
    - f_equal. unfold uwrap. by rewrite Z.mod_pow2_bits_low.
    - rewrite (testbit_high (b + x) 64 n) by lia. done. }
  rewrite land_lnot_ones by done. change (2 ^ 9) with 512. rewrite Zplus_mod, Hb, Z.add_0_l, Z.mod_mod, Z.mod_small by lia. lia.
Qed.

(** What the code sees of an entry. *)
Lemma entry_avail e : (forall b own, e = Some (b, own) -> block_ok b) -> flagged (entw e) RAM_BSET_AVAIL = true.
Proof.
  intros He. destruct e as [[b own]|]; [|done]. destruct (He b own eq_refl) as [Hm _]. unfold entw. change RAM_BSET_AVAIL with (2 ^ 0).
  rewrite flag_low; [by destruct own|done|by destruct own|done].
Qed.
Lemma entry_alloc b own : block_ok b -> flagged (entw (Some (b, own))) RAM_BSET_ALLOC = own.
Proof. intros [Hm _]. unfold entw. change RAM_BSET_ALLOC with (2 ^ 1). rewrite flag_low; [by destruct own|done|by destruct own|done]. Qed.
Lemma entry_strip b own : block_ok b -> Z.land (entw (Some (b, own))) (u64 (Z.lnot 511)) = b.
Proof. intros Hb. destruct (block_range b Hb) as [Hr Hm]. unfold KERNEL_VIRT_BASE in Hr. apply strip_low; [lia|lia|done|by destruct own]. Qed.
Lemma entry_block b own : block_ok b -> flagged (entw (Some (b, own))) (u64 (Z.lnot 511)) = true.
Proof. intros Hb. unfold flagged. rewrite entry_strip by done. destruct (block_range b Hb) as [Hr _]. unfold KERNEL_VIRT_BASE in Hr. by rewrite (proj2 (Z.eqb_neq b 0)) by lia. Qed.
Lemma entry_range e : (forall b own, e = Some (b, own) -> block_ok b) -> 0 <= entw e < 2 ^ 64.
Proof.
  intros He. destruct e as [[b own]|]; [|done]. destruct (block_range b (He b own eq_refl)) as [Hr _]. unfold entw, KERNEL_VIRT_BASE in *. destruct own; lia.
Qed.

(** ** A file and its index *)
Definition l0_words (es : list entry) : list Z := take 32 (entw <$> es) ++ replicate (32 - length es) 0.
Definition l1_words (ts : list Z) : list Z := ts ++ replicate (24 - length ts) 0.

Section file.
Context {P : Type} `{PageAlloc P}.
Context (vn a : Z).
Implicit Types (r : ramfs P) (es : list entry) (ts : list Z) (A : gset Z).

(** The vnode [vn] with private data at [a] has the entries [es], with second-level
    tables in the pages [ts].  The frames of the file come on top of those in [A], which
    hold the blocks in the image; [k] frames are free. *)
Record indexed r es ts (size : Z) A (k : Z) : Prop := {
  ix_node : exists v, vnodes (rf_vfs r) !! vn = Some v /\ v_fs_data v = a;
  ix_priv : rf_privs r !! a = Some (mk_priv size (Z.of_nat (length es)) (l0_words es) (l1_words ts));
  ix_len : Z.of_nat (length es) <= RAM_LIMIT;
  ix_tabs : Z.of_nat (length ts) = tables_for (Z.of_nat (length es));
  ix_table : forall j t i e, ts !! j = Some t -> es !! i = Some e -> RAM_BLOCKS_L0 <= Z.of_nat i -> l1_index (Z.of_nat i) = Z.of_nat j ->
    exists pg, rf_mem r !! t = Some pg /\ peek 8 (8 * l0_index (Z.of_nat i)) pg = Some (entw e);
  ix_block : forall i b own, es !! i = Some (Some (b, own)) -> block_ok b /\ (own = false -> MM_PHYS (vpage b) ∈ A);
  ix_inj : forall i j b o o', es !! i = Some (Some (b, o)) -> es !! j = Some (Some (b, o')) -> i = j;
  ix_nodup : NoDup (ts ++ owned es);
  ix_own : forall t, t ∈ ts ++ owned es -> kpage t /\ MM_PHYS t ∉ A;
  ix_mem : forall t, kpage t -> exists pg, rf_mem r !! t = Some pg /\ length pg = 4096%nat;
  ix_frames : pa_ok (rf_frames r) (A ∪ list_to_set (MM_PHYS <$> (ts ++ owned es))) k;
}.

Lemma tables_range n : 0 <= n <= RAM_LIMIT -> 0 <= tables_for n <= 24.
Proof using Type. unfold tables_for, RAM_LIMIT, RAM_MAX_L1, RAM_BLOCKS_L0, RAM_BLOCKS_L1, RAM_BLOCKS_PER_Ln. intros Hn. split; [lia|]. apply Z.max_lub; [lia|]. apply Z.lt_succ_r, Z.div_lt_upper_bound; lia. Qed.

(** An index beyond the first 32 is in one of the tables. *)
Lemma slot_range i n : RAM_BLOCKS_L0 <= i < n -> n <= RAM_LIMIT -> 0 <= l1_index i < tables_for n /\ 0 <= l0_index i < 512 /\ i = RAM_BLOCKS_L0 + 512 * l1_index i + l0_index i.
Proof using Type.
  intros Hi Hn. unfold l1_index, l0_index, tables_for, RAM_LIMIT, RAM_MAX_L1, RAM_BLOCKS_L0, RAM_BLOCKS_L1, RAM_BLOCKS_PER_Ln in *.
  pose proof (Z.div_mod (i - 32) 512 ltac:(done)). pose proof (Z.mod_pos_bound (i - 32) 512 ltac:(done)).
  split; [|split; [done|lia]]. split; [apply Z.div_pos; lia|]. apply Z.lt_le_trans with ((n - 32 + 512 - 1) / 512); [|lia].
  apply Z.lt_le_trans with ((i - 32) / 512 + 1); [lia|]. rewrite <- Z.div_add by done. apply Z.div_le_mono; lia.
Qed.

Lemma l0_lookup es (i : nat) e : es !! i = Some e -> (i < 32)%nat -> l0_words es !! i = Some (entw e).
Proof using Type.
  intros Hi Hlt. pose proof (lookup_lt_Some _ _ _ Hi). unfold l0_words. rewrite lookup_app_l by (rewrite length_take, length_fmap; lia). rewrite lookup_take_lt by lia. by rewrite list_lookup_fmap, Hi.
Qed.
Lemma l1_lookup ts (j : nat) t : ts !! j = Some t -> l1_words ts !! j = Some t.
Proof using Type. intros Hj. unfold l1_words. apply lookup_app_l_Some. done. Qed.
Lemma length_l0 es : length (l0_words es) = 32%nat.
Proof using Type. unfold l0_words. rewrite length_app, length_take, length_fmap, length_replicate. lia. Qed.

Lemma fs_data_run r es ts size A k : indexed r es ts size A k -> fs_data vn r = Ret (a, r).
Proof using Type.
  intros Hx. destruct (ix_node _ _ _ _ _ _ Hx) as (v & Ev & Ea). unfold fs_data. rewrite (bind_Ret _ _ r v r); [by rewrite Ea|].
  unfold on_vfs, czoom, Vnode.vn, cload. rewrite Ev. by destruct r.
Qed.

Lemma priv_run r p : rf_privs r !! a = Some p -> priv_at a r = Ret (p, r).
Proof using Type. intros E. by apply load_Some. Qed.

(** The page of table [j]. *)
Lemma table_page r es ts size A k (j : nat) t : indexed r es ts size A k -> ts !! j = Some t ->
  kpage t /\ t ≠ 0 /\ exists pg, rf_mem r !! t = Some pg /\ length pg = 4096%nat.
Proof using Type.
  intros Hx Ht. destruct (ix_own _ _ _ _ _ _ Hx t) as [Hk _]; [apply elem_of_app; left; by apply list_elem_of_lookup_2 in Ht|].
  split; [done|]. split; [pose proof (kpage_range t Hk) as [Hr _]; unfold KERNEL_VIRT_BASE in Hr; lia|]. by apply (ix_mem _ _ _ _ _ _ Hx).
Qed.
Lemma ptr_addr t k : kpage t -> 0 <= k < 512 -> (t + 8 * k) - (t + 8 * k) mod MM_PAGE_SIZE = t /\ (t + 8 * k) mod MM_PAGE_SIZE = 8 * k.
Proof using Type.
  intros [_ Hm]%kpage_range Hk. assert ((t + 8 * k) mod MM_PAGE_SIZE = 8 * k) as E; [|split; [lia|done]].
  rewrite Zplus_mod, Hm, Z.add_0_l, Z.mod_mod by done. unfold MM_PAGE_SIZE. apply Z.mod_small. lia.
Qed.

(** Loading the word of an index. *)
Definition index_load (p : ram_vnode_private) (index : Z) : cmd (ramfs P) Z :=
  if index <? RAM_BLOCKS_L0 then cload (fun _ => bpa_l0 p !! Z.to_nat index)
  else if index <? RAM_LIMIT then
    t ← cload (fun _ => bpa_l1 p !! Z.to_nat (l1_index index));
    cassert (nonnull t);;
    load_ptr (t + 8 * l0_index index)
  else cpanic.

Lemma table_at r es ts size A k (i : nat) : indexed r es ts size A k -> (i < length es)%nat -> RAM_BLOCKS_L0 <= Z.of_nat i ->
  exists t, ts !! Z.to_nat (l1_index (Z.of_nat i)) = Some t /\ l1_words ts !! Z.to_nat (l1_index (Z.of_nat i)) = Some t.
Proof using Type.
  intros Hx Hi Hl. destruct (slot_range (Z.of_nat i) (Z.of_nat (length es))) as ([H1 H2] & _); [lia|exact (ix_len _ _ _ _ _ _ Hx)|].
  rewrite <- (ix_tabs _ _ _ _ _ _ Hx) in H2. destruct (lookup_lt_is_Some_2 ts (Z.to_nat (l1_index (Z.of_nat i)))) as [t Ht]; [lia|]. exists t. split; [done|]. by apply l1_lookup.
Qed.

Lemma load_ptr_run r es ts size A k (i : nat) e t : indexed r es ts size A k -> es !! i = Some e -> RAM_BLOCKS_L0 <= Z.of_nat i ->
  ts !! Z.to_nat (l1_index (Z.of_nat i)) = Some t -> load_ptr (t + 8 * l0_index (Z.of_nat i)) r = Ret (entw e, r).
Proof using Type.
  intros Hx Hi Hl Ht. pose proof (lookup_lt_Some _ _ _ Hi) as Hlt. destruct (slot_range (Z.of_nat i) (Z.of_nat (length es))) as (Hj & Hk & _); [lia|exact (ix_len _ _ _ _ _ _ Hx)|].
  destruct (table_page _ _ _ _ _ _ _ _ Hx Ht) as (Hkp & _ & _). destruct (ix_table _ _ _ _ _ _ Hx _ t i e Ht Hi Hl) as (pg & Epg & Ew); [lia|].
  destruct (ptr_addr t (l0_index (Z.of_nat i)) Hkp Hk) as [E1 E2]. unfold load_ptr, page_at. rewrite E1, E2. rewrite (bind_Ret _ _ r pg r) by (by apply load_Some). by apply load_Some.
Qed.

Lemma index_load_run r es ts size A k (i : nat) e : indexed r es ts size A k -> es !! i = Some e ->
  index_load (mk_priv size (Z.of_nat (length es)) (l0_words es) (l1_words ts)) (Z.of_nat i) r = Ret (entw e, r).
Proof using Type.
  intros Hx Hi. pose proof (lookup_lt_Some _ _ _ Hi) as Hlt. pose proof (ix_len _ _ _ _ _ _ Hx) as Hlen. unfold index_load. cbn [bpa_l0 bpa_l1]. destruct (Z.ltb_spec (Z.of_nat i) RAM_BLOCKS_L0) as [Hs|Hs].
  - rewrite Nat2Z.id. apply load_Some, l0_lookup; [done|]. unfold RAM_BLOCKS_L0 in Hs. lia.
  - rewrite (proj2 (Z.ltb_lt (Z.of_nat i) RAM_LIMIT)) by lia. destruct (table_at _ _ _ _ _ _ i Hx Hlt Hs) as (t & Ht & Ht').
    rewrite (bind_Ret _ _ r t r) by (by apply load_Some). destruct (table_page _ _ _ _ _ _ _ _ Hx Ht) as (_ & Hn & _). unfold nonnull. rewrite bool_decide_eq_true_2 by done.
    rewrite (bind_Ret _ _ r tt r) by done. by apply (load_ptr_run r es ts size A k).
Qed.

Lemma bset_get_run r es ts size A k (i : nat) e : indexed r es ts size A k -> es !! i = Some e -> ram_vnode_bset_get vn (Z.of_nat i) r = Ret (entw e, r).
Proof using Type.
  intros Hx Hi. unfold ram_vnode_bset_get. step_run (fs_data_run _ _ _ _ _ _ Hx). step_run (priv_run _ _ (ix_priv _ _ _ _ _ _ Hx)).
  rewrite (bind_Ret _ _ r (entw e) r); [|exact (index_load_run _ _ _ _ _ _ _ _ Hx Hi)]. rewrite entry_avail; [by rewrite (bind_Ret _ _ r tt r) by done|].
  intros b own ->. by apply (ix_block _ _ _ _ _ _ Hx i b own).
Qed.

(** ** Storing the word of an index *)

(** What an operation on the file leaves alone: everything but its private data and the
    pages [ts]. *)
Definition beside ts r r' : Prop :=
  rf_vfs r' = rf_vfs r /\ (forall q, q ≠ a -> rf_privs r' !! q = rf_privs r !! q) /\ (forall p, p ∉ ts -> rf_mem r' !! p = rf_mem r !! p).
Lemma beside_refl ts r : beside ts r r.
Proof using Type. done. Qed.
Lemma beside_trans ts ts' r1 r2 r3 : ts ⊆ ts' -> beside ts r1 r2 -> beside ts' r2 r3 -> beside ts' r1 r3.
Proof using Type. intros Hs (V1 & P1 & M1) (V2 & P2 & M2). split; [congruence|]. split; [intros q Hq; by rewrite P2, P1|]. intros p Hp. rewrite M2, M1; [done|set_solver|done]. Qed.

Lemma owned_app es es' : owned (es ++ es') = owned es ++ owned es'.
Proof using Type. apply omap_app. Qed.
Lemma elem_of_owned es b : b ∈ owned es <-> exists i, es !! i = Some (Some (b, true)).
Proof using Type.
  unfold owned. rewrite list_elem_of_omap. split.
  - intros (e & He & E). apply list_elem_of_lookup_1 in He as [i Hi]. exists i. destruct e as [[b' []]|]; naive_solver.
  - intros [i Hi]. exists (Some (b, true)). split; [by apply list_elem_of_lookup_2 in Hi|done].
Qed.

(** A page of a table is none of the pages with blocks. *)
Lemma block_not_table r es ts size A k i b own : indexed r es ts size A k -> es !! i = Some (Some (b, own)) -> vpage b ∉ ts.
Proof using Type.
  intros Hx Hi Ht. destruct (ix_block _ _ _ _ _ _ Hx i b own Hi) as [Hb Hs]. destruct (ix_own _ _ _ _ _ _ Hx (vpage b)) as [_ Hn]; [apply elem_of_app; by left|].
  destruct own; [|by apply Hn, Hs]. assert (b ∈ owned es) as Hob by (apply elem_of_owned; by exists i).
  destruct (ix_own _ _ _ _ _ _ Hx b) as [Hkb _]; [apply elem_of_app; by right|]. rewrite kpage_self in Ht by exact (proj2 (kpage_range _ Hkb)).
  pose proof (ix_nodup _ _ _ _ _ _ Hx) as Hnd. apply list.NoDup_app in Hnd as (_ & Hd & _). by apply (Hd b).
Qed.

Lemma insert_l0 es (i : nat) e : (i < length es)%nat -> (i < 32)%nat -> l0_words (<[i := e]> es) = <[i := entw e]> (l0_words es).
Proof using Type.
  intros Hi Hl. unfold l0_words. rewrite length_insert, list_fmap_insert, insert_app_l by (rewrite length_take, length_fmap; lia). f_equal. by rewrite take_insert_lt by lia.
Qed.
Lemma insert_l0_far es (i : nat) e : (32 <= i)%nat -> l0_words (<[i := e]> es) = l0_words es.
Proof using Type. intros Hl. unfold l0_words. rewrite length_insert, list_fmap_insert. by rewrite take_insert_ge by lia. Qed.

Lemma put_l0_run r p (i : nat) w : rf_privs r !! a = Some p -> (i < length (bpa_l0 p))%nat ->
  put_l0 a (Z.of_nat i) w r = Ret (tt, set_privs (<[a := mk_priv (rp_size p) (bpa_cap p) (<[i := w]> (bpa_l0 p)) (bpa_l1 p)]> (rf_privs r)) r).
Proof using Type.
  intros Hp Hi. destruct (lookup_lt_is_Some_2 (bpa_l0 p) i Hi) as [x Ex]. unfold put_l0. step_run (priv_run _ _ Hp). rewrite Nat2Z.id.
  rewrite (bind_Ret _ _ r x r) by (by apply load_Some). done.
Qed.

Lemma store_ptr_run r t j w pg : kpage t -> 0 <= j < 512 -> rf_mem r !! t = Some pg -> length pg = 4096%nat ->
  exists pg', poke 8 (8 * j) w pg = Some pg' /\ store_ptr (t + 8 * j) w r = Ret (tt, set_rmem (<[t := pg']> (rf_mem r)) r).
Proof using Type.
  intros Hk Hj Hpg Hl. destruct (ptr_addr t j Hk Hj) as [E1 E2]. exists (splice (8 * j) (le_put 8 w) pg). assert (poke 8 (8 * j) w pg = Some (splice (8 * j) (le_put 8 w) pg)) as Ep by (apply poke_in; lia).
  split; [done|]. unfold store_ptr, page_at. rewrite E1, E2. rewrite (bind_Ret _ _ r pg r) by (by apply load_Some). rewrite Ep. rewrite (bind_Ret _ _ r (splice (8 * j) (le_put 8 w) pg) r) by done.
  unfold put_page. by rewrite E1.
Qed.

(** Memory after a store into table [t]: a page again, other pages the same. *)
Lemma mem_insert (m : gmap Z (list Z)) t pg : (forall q, kpage q -> exists l, m !! q = Some l /\ length l = 4096%nat) -> length pg = 4096%nat ->
  forall q, kpage q -> exists l, <[t := pg]> m !! q = Some l /\ length l = 4096%nat.
Proof using Type. intros Hm Hl q Hq. destruct (decide (q = t)) as [->|Hne]; [rewrite lookup_insert_eq; by exists pg|]. rewrite lookup_insert_ne by done. by apply Hm. Qed.

(** The tables after a store of word [w] for index [i]: the words of the entries with
    entry [i] replaced. *)
Lemma table_store es ts (m : gmap Z (list Z)) (i j : nat) t pg pg' e :
  (forall j t i' e', i' ≠ i -> ts !! j = Some t -> es !! i' = Some e' -> RAM_BLOCKS_L0 <= Z.of_nat i' -> l1_index (Z.of_nat i') = Z.of_nat j ->
    exists pg, m !! t = Some pg /\ peek 8 (8 * l0_index (Z.of_nat i')) pg = Some (entw e')) ->
  NoDup ts -> Z.of_nat (length es) <= RAM_LIMIT -> RAM_BLOCKS_L0 <= Z.of_nat i -> (i < length es)%nat -> l1_index (Z.of_nat i) = Z.of_nat j -> ts !! j = Some t ->
  m !! t = Some pg -> poke 8 (8 * l0_index (Z.of_nat i)) (entw e) pg = Some pg' -> 0 <= entw e < 2 ^ 64 ->
  forall j t0 i' e', ts !! j = Some t0 -> <[i := e]> es !! i' = Some e' -> RAM_BLOCKS_L0 <= Z.of_nat i' -> l1_index (Z.of_nat i') = Z.of_nat j ->
    exists pg, <[t := pg']> m !! t0 = Some pg /\ peek 8 (8 * l0_index (Z.of_nat i')) pg = Some (entw e').
Proof using Type.
  intros Hold Hnd Hlen Hil Hi Hij Ht Hpg Hpk Hw j0 t0 i' e' Ht0 He' Hl' Hj0. pose proof (lookup_lt_Some _ _ _ He') as Hlt. rewrite length_insert in Hlt.
  destruct (slot_range (Z.of_nat i) (Z.of_nat (length es))) as (_ & Hk & Ei); [lia|done|]. destruct (slot_range (Z.of_nat i') (Z.of_nat (length es))) as (_ & Hk' & Ei'); [lia|done|].
  destruct (decide (i' = i)) as [->|Hne].
  - rewrite list_lookup_insert_eq in He' by done. injection He' as <-. assert (j0 = j) as -> by lia. assert (t0 = t) as -> by congruence.
    exists pg'. split; [apply lookup_insert_eq|]. rewrite (peek_poke_eq _ _ _ _ _ Hpk). f_equal. by apply uwrap_small.
  - rewrite list_lookup_insert_ne in He' by done. destruct (Hold j0 t0 i' e' Hne Ht0 He' Hl' Hj0) as (pg0 & Epg0 & Ew0). destruct (decide (t0 = t)) as [->|Hnt].
    + exists pg'. split; [apply lookup_insert_eq|]. assert (pg0 = pg) as -> by congruence. assert (j0 = j) as -> by (eapply NoDup_lookup; [exact Hnd|exact Ht0|exact Ht]).
      rewrite <- Ew0. eapply peek_poke_ne; [exact Hpk|lia].
    + exists pg0. by rewrite lookup_insert_ne.
Qed.

(** ** A new block for an index *)
Lemma alloc_frame_run r A (l : list Z) k : pa_ok (rf_frames r) (A ∪ list_to_set (MM_PHYS <$> l)) k -> 0 < k ->
  exists p f, alloc_frame r = Ret (p, set_rframes f r) /\ pa_ok f ({[p]} ∪ (A ∪ list_to_set (MM_PHYS <$> l))) (k - 1) /\
    p ∉ A /\ kpage (MM_VIRTUALIZE p) /\ MM_PHYS (MM_VIRTUALIZE p) = p /\ MM_VIRTUALIZE p ∉ l.
Proof using Type.
  intros Hx Hk. destruct (pa_alloc_spec _ _ _ PU_KERNEL Hx ltac:(done) Hk) as (p & f & E & Hp & Hm & Hn & Hok).
  assert (MM_PHYS (MM_VIRTUALIZE p) = p) as Ep by (apply MM_PHYS_VIRTUALIZE; lia).
  exists p, f. split_and!; try done.
  - unfold alloc_frame. rewrite (bind_Ret _ _ r p (set_rframes f r)); [|unfold on_rframes, czoom; by rewrite E].
    rewrite bool_decide_eq_true_2 by (unfold MM_NADDR; lia). done.
  - intros Ha. apply Hn, elem_of_union. by left.
  - by exists p.
  - intros Ht. apply Hn, elem_of_union. right. apply elem_of_list_to_set, list_elem_of_fmap. exists (MM_VIRTUALIZE p). done.
Qed.

Lemma owned_insert es (i : nat) b : es !! i = Some None -> owned (<[i := Some (b, true)]> es) ≡ₚ b :: owned es.
Proof using Type.
  intros Hi. rewrite <- (take_drop_middle es i None Hi) at 2. rewrite insert_take_drop by (by eapply lookup_lt_Some). rewrite !owned_app. cbn. by rewrite Permutation_middle.
Qed.

(** The frames of the file after the frame of page [b] became one of them. *)
Lemma frames_perm (f : P) A p b l l' k : pa_ok f ({[p]} ∪ (A ∪ list_to_set (MM_PHYS <$> l))) k -> MM_PHYS b = p -> l' ≡ₚ b :: l ->
  pa_ok f (A ∪ list_to_set (MM_PHYS <$> l')) k.
Proof using Type.
  intros Hok <- Hl. replace (A ∪ list_to_set (MM_PHYS <$> l')) with ({[MM_PHYS b]} ∪ (A ∪ list_to_set (MM_PHYS <$> l)) : gset Z); [done|].
  apply set_eq. intros x. rewrite !elem_of_union, !elem_of_list_to_set, !list_elem_of_fmap, elem_of_singleton. setoid_rewrite Hl. set_solver.
Qed.

Lemma own_more A ts es l' b : (forall t, t ∈ ts ++ owned es -> kpage t /\ MM_PHYS t ∉ A) -> kpage b -> MM_PHYS b ∉ A -> l' ≡ₚ b :: ts ++ owned es ->
  forall t, t ∈ l' -> kpage t /\ MM_PHYS t ∉ A.
Proof using Type. intros Ho Hb Hn Hl t Ht. rewrite Hl in Ht. apply elem_of_cons in Ht as [->|Ht]; [done|by apply Ho]. Qed.

(** Replacing an empty entry by a block in the fresh page [b]; [m] and [q] are memory and
    private data afterwards. *)
Lemma indexed_set r es ts size A k (i : nat) b f m q : indexed r es ts size A k -> es !! i = Some None -> kpage b -> MM_PHYS b ∉ A -> b ∉ ts ++ owned es ->
  pa_ok f ({[MM_PHYS b]} ∪ (A ∪ list_to_set (MM_PHYS <$> (ts ++ owned es)))) (k - 1) ->
  q !! a = Some (mk_priv size (Z.of_nat (length es)) (l0_words (<[i := Some (b, true)]> es)) (l1_words ts)) ->
  (forall j t i' e', ts !! j = Some t -> <[i := Some (b, true)]> es !! i' = Some e' -> RAM_BLOCKS_L0 <= Z.of_nat i' -> l1_index (Z.of_nat i') = Z.of_nat j ->
    exists pg, m !! t = Some pg /\ peek 8 (8 * l0_index (Z.of_nat i')) pg = Some (entw e')) ->
  (forall t, kpage t -> exists pg, m !! t = Some pg /\ length pg = 4096%nat) ->
  indexed (mk_ramfs (rf_vfs r) q f m) (<[i := Some (b, true)]> es) ts size A (k - 1).
Proof using Type.
  intros Hx Hi Hb HbA Hnew Hok Hq Ht Hm. assert (ts ++ owned (<[i := Some (b, true)]> es) ≡ₚ b :: ts ++ owned es) as Hperm by (rewrite owned_insert by done; by rewrite Permutation_middle).
  assert (forall b' o, es !! i <> Some (Some (b', o))) as Hno by (intros; congruence).
  assert (forall b' o j, es !! j = Some (Some (b', o)) -> b' <> b) as Hfresh.
  { intros b' o j Hj ->. destruct (ix_block _ _ _ _ _ _ Hx j b o Hj) as [_ Hs]. destruct o.
    - apply Hnew, elem_of_app. right. apply elem_of_owned. by exists j.
    - apply HbA. rewrite <- (kpage_self b) by exact (proj2 (kpage_range _ Hb)). by apply Hs. }
  split; cbn [rf_vfs rf_privs rf_mem rf_frames]; rewrite ?length_insert.
  - exact (ix_node _ _ _ _ _ _ Hx).
  - done.
  - exact (ix_len _ _ _ _ _ _ Hx).
  - exact (ix_tabs _ _ _ _ _ _ Hx).
  - done.
  - intros j b' o Hj. destruct (decide (j = i)) as [->|Hne].
    + rewrite list_lookup_insert_eq in Hj by (by eapply lookup_lt_Some). injection Hj as <- <-. split; [by apply page_block|done].
    + rewrite list_lookup_insert_ne in Hj by done. by apply (ix_block _ _ _ _ _ _ Hx j).
  - intros j j' b' o o' Hj Hj'. destruct (decide (j = i)) as [->|Hne], (decide (j' = i)) as [->|Hne']; rewrite ?list_lookup_insert_eq in * by (by eapply lookup_lt_Some);
      rewrite ?list_lookup_insert_ne in * by done; try done.
    + injection Hj as <- <-. by destruct (Hfresh b o' j' Hj').
    + injection Hj' as <- <-. by destruct (Hfresh b o j Hj).
    + by apply (ix_inj _ _ _ _ _ _ Hx j j' b' o o').
  - rewrite Hperm. apply list.NoDup_cons. split; [done|exact (ix_nodup _ _ _ _ _ _ Hx)].
  - eapply own_more; [exact (ix_own _ _ _ _ _ _ Hx)|done|done|done].
  - done.
  - by eapply frames_perm.
Qed.

Lemma load_ptr_frames x r f v : load_ptr x r = Ret (v, r) -> load_ptr x (set_rframes f r) = Ret (v, set_rframes f r).
Proof using Type.
  unfold load_ptr, page_at. intros E. apply bind_inv in E as (l & r1 & E1 & E2). apply load_inv in E1 as [E1 ->]. apply load_inv in E2 as [E2 _].
  rewrite (bind_Ret _ _ (set_rframes f r) l (set_rframes f r)) by (by apply load_Some). by apply load_Some.
Qed.
Lemma fs_data_frames r f : fs_data vn r = Ret (a, r) -> fs_data vn (set_rframes f r) = Ret (a, set_rframes f r).
Proof using Type.
  unfold fs_data, on_vfs, czoom, Vnode.vn, cload. cbv [mbind cmd_mbind cbind mret cmd_mret cret]. cbn [rf_vfs set_rframes]. destruct (vnodes (rf_vfs r) !! vn); [|done]. intros [= E _]. by rewrite E.
Qed.

(** What storing the word of entry [e] for the empty index [i] leaves in the private data
    and in memory, whatever became of the frames. *)
Lemma bset_store r es ts size A k (i : nat) e w f : indexed r es ts size A k -> es !! i = Some None -> 0 <= entw e < 2 ^ 64 ->
  Z.lor w RAM_BSET_AVAIL = entw e -> negb (flagged w 511) || flagged w RAM_BSET_ALLOC = true ->
  exists q m, ram_vnode_bset_set vn (Z.of_nat i) w (set_rframes f r) = Ret (0, mk_ramfs (rf_vfs r) q f m) /\ beside ts r (mk_ramfs (rf_vfs r) q f m) /\
    q !! a = Some (mk_priv size (Z.of_nat (length es)) (l0_words (<[i := e]> es)) (l1_words ts)) /\
    (forall j t i' e', ts !! j = Some t -> <[i := e]> es !! i' = Some e' -> RAM_BLOCKS_L0 <= Z.of_nat i' -> l1_index (Z.of_nat i') = Z.of_nat j ->
      exists pg, m !! t = Some pg /\ peek 8 (8 * l0_index (Z.of_nat i')) pg = Some (entw e')) /\
    (forall t, kpage t -> exists pg, m !! t = Some pg /\ length pg = 4096%nat).
Proof using Type.
  intros Hx Hi He Ew Ef. set (r1 := set_rframes f r). pose proof (lookup_lt_Some _ _ _ Hi) as Hlt.
  pose proof (ix_priv _ _ _ _ _ _ Hx) as Hp. pose proof (ix_len _ _ _ _ _ _ Hx) as Hlen.
  unfold ram_vnode_bset_set. step_run (fs_data_frames r f (fs_data_run _ _ _ _ _ _ Hx)). fold r1. rewrite (bind_Ret _ _ r1 _ r1 (priv_run r1 _ Hp)). cbn [bpa_l0 bpa_l1]. rewrite Ef.
  rewrite (bind_Ret _ _ r1 tt r1) by done. cbn zeta. rewrite Ew. destruct (Z.ltb_spec (Z.of_nat i) RAM_BLOCKS_L0) as [Hs|Hs].
  - unfold RAM_BLOCKS_L0 in Hs. rewrite Nat2Z.id. rewrite (bind_Ret _ _ r1 (entw None) r1) by (apply load_Some, l0_lookup; [done|lia]). rewrite (bind_Ret _ _ r1 tt r1) by done.
    eexists _, (rf_mem r). split; [rewrite (bind_Ret _ _ r1 _ _ (put_l0_run r1 _ i (entw e) Hp ltac:(cbn [bpa_l0]; rewrite length_l0; lia))); reflexivity|]. cbn [rp_size bpa_cap bpa_l0 bpa_l1].
    split; [split; [done|split; [|done]]; intros q Hq; cbn; by rewrite lookup_insert_ne|]. split; [|split].
    + rewrite lookup_insert_eq. by rewrite insert_l0 by lia.
    + intros j t i' e' Ht He' Hl. rewrite list_lookup_insert_ne in He' by (unfold RAM_BLOCKS_L0 in Hl; lia). by apply (ix_table _ _ _ _ _ _ Hx).
    + exact (ix_mem _ _ _ _ _ _ Hx).
  - rewrite (proj2 (Z.ltb_lt (Z.of_nat i) RAM_LIMIT)) by lia. destruct (table_at _ _ _ _ _ _ i Hx Hlt Hs) as (t & Ht & Ht'). rewrite (bind_Ret _ _ r1 t r1) by (by apply load_Some).
    destruct (table_page _ _ _ _ _ _ _ _ Hx Ht) as (Hkt & Hn & pg & Epg & Elp). unfold nonnull. rewrite bool_decide_eq_true_2 by done. rewrite (bind_Ret _ _ r1 tt r1) by done.
    step_run (load_ptr_frames _ _ f _ (load_ptr_run _ _ _ _ _ _ _ None t Hx Hi Hs Ht)). fold r1. rewrite (bind_Ret _ _ r1 tt r1) by done.
    destruct (slot_range (Z.of_nat i) (Z.of_nat (length es)) ltac:(lia) Hlen) as (Hj & Hj0 & _).
    destruct (store_ptr_run r1 t (l0_index (Z.of_nat i)) (entw e) pg Hkt Hj0 Epg Elp) as (pg' & Epk & Est). step_run Est. eexists (rf_privs r), _. split; [reflexivity|].
    assert (t ∈ ts) as Htin by (by apply list_elem_of_lookup_2 in Ht).
    split; [split; [done|split; [done|]]; intros q Hq; cbn; rewrite lookup_insert_ne; [done|by intros ->]|]. split; [|split].
    + rewrite Hp. rewrite insert_l0_far; [done|]. unfold RAM_BLOCKS_L0 in Hs. lia.
    + eapply (table_store es ts (rf_mem r) i _ t pg); [intros ???? _; by apply (ix_table _ _ _ _ _ _ Hx)| |done|done|done| |exact Ht|done|done|done].
      * pose proof (ix_nodup _ _ _ _ _ _ Hx) as Hnd. by apply list.NoDup_app in Hnd as (? & _).
      * lia.
    + apply mem_insert; [exact (ix_mem _ _ _ _ _ _ Hx)|]. by rewrite (poke_length _ _ _ _ _ Epk).
Qed.

Lemma bset_set_run r es ts size A k (i : nat) b f : indexed r es ts size A k -> es !! i = Some None -> kpage b -> MM_PHYS b ∉ A -> b ∉ ts ++ owned es ->
  pa_ok f ({[MM_PHYS b]} ∪ (A ∪ list_to_set (MM_PHYS <$> (ts ++ owned es)))) (k - 1) ->
  exists r', ram_vnode_bset_set vn (Z.of_nat i) (b + RAM_BSET_ALLOC) (set_rframes f r) = Ret (0, r') /\ indexed r' (<[i := Some (b, true)]> es) ts size A (k - 1) /\ beside ts r r'.
Proof using Type.
  intros Hx Hi Hkp HbA Hnew Hok. pose proof (page_block b Hkp) as Hbk. pose proof (proj1 Hbk) as H512.
  assert (Z.lor (b + RAM_BSET_ALLOC) RAM_BSET_AVAIL = entw (Some (b, true))) as Ew.
  { unfold RAM_BSET_ALLOC, RAM_BSET_AVAIL, entw. rewrite <- (lor_low b 2), <- Z.lor_assoc by done. change (Z.lor 2 1) with 3. by apply lor_low. }
  assert (flagged (b + RAM_BSET_ALLOC) RAM_BSET_ALLOC = true) as Ef by (change (flagged (b + 2) (2 ^ 1) = true); by rewrite flag_low).
  destruct (bset_store r es ts size A k i (Some (b, true)) (b + RAM_BSET_ALLOC) f Hx Hi) as (q & m & E & B & Hq & Ht & Hm); [|done|by rewrite Ef, orb_true_r|].
  { apply entry_range. by intros ?? [= <- <-]. }
  exists (mk_ramfs (rf_vfs r) q f m). split; [exact E|]. split; [|exact B]. by apply indexed_set.
Qed.

Lemma new_block_run r es ts size A k (i : nat) : indexed r es ts size A k -> 0 < k -> es !! i = Some None ->
  exists b r', new_block vn (Z.of_nat i) r = Ret (tt, r') /\ indexed r' (<[i := Some (b, true)]> es) ts size A (k - 1) /\ beside ts r r'.
Proof using Type.
  intros Hx Hk Hi. destruct (alloc_frame_run _ _ _ _ (ix_frames _ _ _ _ _ _ Hx) Hk) as (p & f & E & Hok & HpA & Hkp & Epp & Hnew). rewrite <- Epp in HpA. rewrite <- Epp in Hok at 1.
  destruct (bset_set_run r es ts size A k i (MM_VIRTUALIZE p) f Hx Hi Hkp HpA Hnew Hok) as (r' & E' & Hx' & Hb). exists (MM_VIRTUALIZE p), r'. split; [|done].
  unfold new_block. step_run E. rewrite lor_low; [|exact (proj1 (page_block _ Hkp))|done]. by step_run E'.
Qed.

(** ** Growing the index *)
Lemma tables_next i : RAM_BLOCKS_L0 <= i -> tables_for (i + 1) = l1_index i + 1 /\ tables_for i = l1_index i + (if l0_index i =? 0 then 0 else 1).
Proof using Type.
  unfold tables_for, l1_index, l0_index, RAM_BLOCKS_L0, RAM_BLOCKS_PER_Ln. intros Hi. set (x := i - 32). assert (0 <= x) by (unfold x; lia).
  replace (i + 1 - 32 + 512 - 1) with (x + 1 * 512) by lia. replace (x + 512 - 1) with (x - 1 + 1 * 512) by lia. rewrite !Z.div_add by done.
  pose proof (Z.div_mod x 512 ltac:(done)). pose proof (Z.mod_pos_bound x 512 ltac:(done)). assert (0 <= x / 512) by (apply Z.div_pos; lia). split; [lia|].
  destruct (Z.eqb_spec (x mod 512) 0) as [E|E].
  - assert ((x - 1) / 512 = x / 512 - 1) as ->; [|lia]. symmetry. apply Z.div_unique with 511; lia.
  - assert ((x - 1) / 512 = x / 512) as ->; [|lia]. symmetry. apply Z.div_unique with (x mod 512 - 1); lia.
Qed.
Lemma tables_small i : 0 <= i <= RAM_BLOCKS_L0 -> tables_for i = 0.
Proof using Type. unfold tables_for, RAM_BLOCKS_L0, RAM_BLOCKS_PER_Ln. intros Hi. apply Z.max_l. apply Z.lt_succ_r, Z.div_lt_upper_bound; lia. Qed.

Lemma l0_grow es : (length es < 32)%nat -> l0_words (es ++ [None]) = <[length es := 1]> (l0_words es) /\ l0_words es !! length es = Some 0.
Proof using Type.
  intros Hl. unfold l0_words. rewrite fmap_app, length_app. cbn [length fmap list_fmap entw].
  rewrite !take_ge by (rewrite ?length_app, ?length_fmap; cbn; lia). replace (32 - length es)%nat with (S (32 - (length es + 1))) by lia. cbn [replicate]. split.
  - rewrite insert_app_r_alt by (rewrite length_fmap; lia). rewrite length_fmap, Nat.sub_diag. cbn. by rewrite <- app_assoc.
  - rewrite lookup_app_r by (rewrite length_fmap; lia). by rewrite length_fmap, Nat.sub_diag.
Qed.
Lemma l0_grow_far es e : (32 <= length es)%nat -> l0_words (es ++ [e]) = l0_words es.
Proof using Type.
  intros Hl. unfold l0_words. rewrite fmap_app, length_app. cbn [length]. rewrite take_app_le by (rewrite length_fmap; lia). by replace (32 - (length es + 1))%nat with (32 - length es)%nat by lia.
Qed.
Lemma l1_grow ts t : (length ts < 24)%nat -> l1_words (ts ++ [t]) = <[length ts := t]> (l1_words ts) /\ l1_words ts !! length ts = Some 0.
Proof using Type.
  intros Hl. unfold l1_words. rewrite length_app. cbn [length]. replace (24 - length ts)%nat with (S (24 - (length ts + 1))) by lia. cbn [replicate]. split.
  - rewrite insert_app_r_alt by lia. rewrite Nat.sub_diag. cbn. by rewrite <- app_assoc.
  - rewrite lookup_app_r by lia. by rewrite Nat.sub_diag.
Qed.
Lemma owned_grow es : owned (es ++ [None]) = owned es.
Proof using Type. rewrite owned_app. apply app_nil_r. Qed.

(** One more index without a block; [ts'] are the tables afterwards. *)
Lemma indexed_grow r es ts ts' size A k k' f m q : indexed r es ts size A k -> Z.of_nat (length es) < RAM_LIMIT ->
  Z.of_nat (length ts') = tables_for (Z.of_nat (length es) + 1) ->
  (forall j t i e, ts' !! j = Some t -> (es ++ [None]) !! i = Some e -> RAM_BLOCKS_L0 <= Z.of_nat i -> l1_index (Z.of_nat i) = Z.of_nat j ->
    exists pg, m !! t = Some pg /\ peek 8 (8 * l0_index (Z.of_nat i)) pg = Some (entw e)) ->
  NoDup (ts' ++ owned es) -> (forall t, t ∈ ts' ++ owned es -> kpage t /\ MM_PHYS t ∉ A) ->
  (forall t, kpage t -> exists pg, m !! t = Some pg /\ length pg = 4096%nat) ->
  pa_ok f (A ∪ list_to_set (MM_PHYS <$> (ts' ++ owned es))) k' ->
  indexed (mk_ramfs (rf_vfs r) (<[a := mk_priv size (Z.of_nat (length (es ++ [None]))) (l0_words (es ++ [None])) (l1_words ts')]> q) f m) (es ++ [None]) ts' size A k'.
Proof using Type.
  intros Hx Hl Hts Htab Hnd Hown Hm Hok.
  assert (forall i b o, (es ++ [None]) !! i = Some (Some (b, o)) -> es !! i = Some (Some (b, o))) as Hback.
  { intros i b o Hi. apply lookup_app_Some in Hi as [Hi|[_ Hi]]; [done|]. apply list_lookup_singleton_Some in Hi as [_ Hi]. done. }
  split; cbn [rf_vfs rf_privs rf_mem rf_frames]; rewrite ?owned_grow; try done.
  - exact (ix_node _ _ _ _ _ _ Hx).
  - apply lookup_insert_eq.
  - rewrite length_app. cbn [length]. lia.
  - rewrite length_app. cbn [length]. rewrite Hts. f_equal. lia.
  - intros i b o Hi. apply (ix_block _ _ _ _ _ _ Hx i). by apply Hback.
  - intros i j b o o' Hi Hj. apply (ix_inj _ _ _ _ _ _ Hx i j b o o'); by apply Hback.
Qed.

(** While it resizes, the code keeps the old capacity and size in the private data. *)
Definition recap (size : Z) es ts r : ramfs P := set_privs (<[a := mk_priv size (Z.of_nat (length es)) (l0_words es) (l1_words ts)]> (rf_privs r)) r.
Definition resizing (cap size : Z) r es ts A k : Prop :=
  rf_privs r !! a = Some (mk_priv size cap (l0_words es) (l1_words ts)) /\ indexed (recap size es ts r) es ts size A k.

Lemma put_l1_run r p (i : nat) w : rf_privs r !! a = Some p -> (i < length (bpa_l1 p))%nat ->
  put_l1 a (Z.of_nat i) w r = Ret (tt, set_privs (<[a := mk_priv (rp_size p) (bpa_cap p) (bpa_l0 p) (<[i := w]> (bpa_l1 p))]> (rf_privs r)) r).
Proof using Type.
  intros Hp Hi. destruct (lookup_lt_is_Some_2 (bpa_l1 p) i Hi) as [x Ex]. unfold put_l1. step_run (priv_run _ _ Hp). rewrite Nat2Z.id.
  rewrite (bind_Ret _ _ r x r) by (by apply load_Some). done.
Qed.
Lemma zero_page_run r t : kpage t -> (exists pg, rf_mem r !! t = Some pg /\ length pg = 4096%nat) ->
  mem_put t (replicate 4096 0) r = Ret (tt, set_rmem (<[t := replicate 4096 0]> (rf_mem r)) r).
Proof using Type.
  intros [_ Hm]%kpage_range (pg & Epg & El). unfold mem_put, page_at. rewrite Hm, Z.sub_0_r. rewrite (bind_Ret _ _ r pg r) by (by apply load_Some).
  rewrite El, length_replicate. change (Z.of_nat 4096 <? 0 + Z.of_nat 4096) with false. cbn iota. unfold put_page. rewrite Hm, Z.sub_0_r. rewrite splice_all; [done|]. by rewrite El, length_replicate.
Qed.

(** Storing the word of the new last index in table [t] of [ts]. *)
Lemma table_append r es ts size A k (j : nat) t pg pg' : indexed r es ts size A k -> Z.of_nat (length es) < RAM_LIMIT -> RAM_BLOCKS_L0 <= Z.of_nat (length es) ->
  l1_index (Z.of_nat (length es)) = Z.of_nat j -> ts !! j = Some t -> rf_mem r !! t = Some pg -> poke 8 (8 * l0_index (Z.of_nat (length es))) RAM_BSET_AVAIL pg = Some pg' ->
  forall j t0 i e, ts !! j = Some t0 -> (es ++ [None]) !! i = Some e -> RAM_BLOCKS_L0 <= Z.of_nat i -> l1_index (Z.of_nat i) = Z.of_nat j ->
    exists pg, <[t := pg']> (rf_mem r) !! t0 = Some pg /\ peek 8 (8 * l0_index (Z.of_nat i)) pg = Some (entw e).
Proof using Type.
  intros Hx Hl Hs Hj Ht Hpg Hpk. assert ((es ++ [None]) !! length es = Some (None : entry)) as Hlast by (rewrite lookup_app_r by lia; by rewrite Nat.sub_diag).
  rewrite <- (list_insert_id (es ++ [None]) (length es) (None : entry)) by done.
  eapply (table_store (es ++ [None]) ts (rf_mem r) (length es) j t pg pg' None).
  - intros j' t' i' e' Hne Ht' He' Hl' Hj'. rewrite lookup_app_l in He'; [by apply (ix_table _ _ _ _ _ _ Hx j')|]. apply lookup_lt_Some in He'. rewrite length_app in He'. cbn in He'. lia.
  - pose proof (ix_nodup _ _ _ _ _ _ Hx) as Hnd. by apply list.NoDup_app in Hnd as (? & _).
  - rewrite length_app. cbn. lia.
  - done.
  - rewrite length_app. cbn. lia.
  - done.
  - done.
  - done.
  - done.
  - done.
Qed.

Lemma grow_step_run cap size r es ts A k : resizing cap size r es ts A k -> Z.of_nat (length es) < RAM_LIMIT ->
  tables_for (Z.of_nat (length es) + 1) - tables_for (Z.of_nat (length es)) <= k ->
  exists r' ts', grow_step a (Z.of_nat (length es)) r = Ret (tt, r') /\ ts ⊆ ts' /\ beside ts' r r' /\
    resizing cap size r' (es ++ [None]) ts' A (k - (tables_for (Z.of_nat (length es) + 1) - tables_for (Z.of_nat (length es)))).
Proof using Type.
  intros [Hp Hx] Hl Hk. unfold grow_step. step_run (priv_run _ _ Hp). cbn [bpa_l0 bpa_l1]. set (n := Z.of_nat (length es)) in *.
  assert (forall p q, <[a := p]> (<[a := q]> (rf_privs r)) = <[a := p]> (rf_privs r)) as Hii by (intros; apply insert_insert_eq).
  destruct (Z.ltb_spec n RAM_BLOCKS_L0) as [Hs|Hs].
  { unfold RAM_BLOCKS_L0 in Hs. destruct (l0_grow es ltac:(lia)) as [Eg E0]. rewrite !tables_small in * by (unfold RAM_BLOCKS_L0; lia). rewrite Z.sub_diag, Z.sub_0_r in *.
    unfold n. rewrite Nat2Z.id. rewrite (bind_Ret _ _ r 0 r) by (by apply load_Some). rewrite (bind_Ret _ _ r tt r) by done.
    rewrite (put_l0_run r _ (length es) RAM_BSET_AVAIL Hp) by (cbn [bpa_l0]; rewrite length_l0; lia). cbn [rp_size bpa_cap bpa_l0 bpa_l1]. change RAM_BSET_AVAIL with 1. rewrite <- Eg.
    eexists _, ts. split; [reflexivity|]. split; [done|]. split; [split; [done|split; [|done]]; intros q Hq; cbn; by rewrite lookup_insert_ne|]. split; [apply lookup_insert_eq|].
    apply (indexed_grow _ es ts ts size A k k (rf_frames r) (rf_mem r) _ Hx Hl); [| |exact (ix_nodup _ _ _ _ _ _ Hx)|exact (ix_own _ _ _ _ _ _ Hx)|exact (ix_mem _ _ _ _ _ _ Hx)|exact (ix_frames _ _ _ _ _ _ Hx)].
    - rewrite (ix_tabs _ _ _ _ _ _ Hx). rewrite !tables_small; unfold RAM_BLOCKS_L0; lia.
    - intros j t i e Ht He Hi. rewrite lookup_app_l in He; [by apply (ix_table _ _ _ _ _ _ Hx)|]. apply lookup_lt_Some in He. rewrite length_app in He. cbn in He. unfold RAM_BLOCKS_L0 in Hi. lia. }
  rewrite (proj2 (Z.ltb_lt n RAM_LIMIT)) by exact Hl. destruct (tables_next n Hs) as [En1 En0]. rewrite En1, En0 in *. pose proof (ix_tabs _ _ _ _ _ _ Hx) as Htn. fold n in Htn. rewrite En0 in Htn.
  destruct (slot_range n (n + 1) ltac:(lia) ltac:(lia)) as ([Hj0 Hj1] & Hj & _). rewrite En1 in Hj1. pose proof (tables_range (n + 1) ltac:(unfold RAM_BLOCKS_L0 in *; lia)) as Ht24. rewrite En1 in Ht24.
  pose proof (ix_nodup _ _ _ _ _ _ Hx) as Hnd. destruct (l0_index n =? 0) eqn:E0.
  - assert (length ts = Z.to_nat (l1_index n)) as Elt by lia. rewrite <- Elt. destruct (l1_grow ts 0 ltac:(lia)) as [_ Ez].
    rewrite (bind_Ret _ _ r 0 r) by (by apply load_Some). replace (nonnull 0) with false by reflexivity. cbn iota.
    destruct (alloc_frame_run r _ _ _ (ix_frames _ _ _ _ _ _ Hx) ltac:(lia)) as (p & f & E & Hok & HpA & Hkp & Epp & Hnew). set (t := MM_VIRTUALIZE p) in *. set (r1 := set_rframes f r) in *.
    set (r2 := set_privs (<[a := mk_priv size cap (l0_words es) (l1_words (ts ++ [t]))]> (rf_privs r)) r1). set (r3 := set_rmem (<[t := replicate 4096 0]> (rf_mem r)) r2).
    assert ((blk ← alloc_frame; put_l1 a (l1_index n) (MM_VIRTUALIZE blk);; mem_put (MM_VIRTUALIZE blk) (replicate 4096 0);; mret (MM_VIRTUALIZE blk)) r = Ret (t, r3)) as E3.
    { step_run E. fold t. replace (l1_index n) with (Z.of_nat (length ts)) by lia. rewrite (bind_Ret _ _ r1 tt r2).
      - rewrite (bind_Ret _ _ r2 tt r3); [done|]. apply zero_page_run; [done|]. by apply (ix_mem _ _ _ _ _ _ Hx).
      - rewrite (put_l1_run r1 _ (length ts) t Hp) by (cbn [bpa_l1]; unfold l1_words; rewrite length_app, length_replicate; lia). cbn [rp_size bpa_cap bpa_l0 bpa_l1]. by rewrite <- (proj1 (l1_grow ts t ltac:(lia))). }
    step_run E3. apply Z.eqb_eq in E0. destruct (store_ptr_run r3 t (l0_index n) RAM_BSET_AVAIL (replicate 4096 0) Hkp Hj (lookup_insert_eq _ _ _)) as (pg' & Epk & Est); [done|]. rewrite Est. rewrite <- Epp in HpA, Hok. rewrite !Z.add_0_r.
    assert ((ts ++ [t]) ++ owned es ≡ₚ t :: ts ++ owned es) as Hperm by (rewrite <- app_assoc; symmetry; apply (Permutation_middle ts (owned es) t)).
    eexists _, (ts ++ [t]). split; [reflexivity|]. split; [intros x Hxt; apply elem_of_app; by left|]. split.
    { split; [done|]. split; intros q Hq; cbn; [by rewrite lookup_insert_ne|]. rewrite insert_insert_eq, lookup_insert_ne; [done|]. intros <-. apply Hq, elem_of_app. right. by apply list_elem_of_singleton. }
    split; [cbn; rewrite lookup_insert_eq; by rewrite l0_grow_far by (unfold RAM_BLOCKS_L0 in Hs; lia)|]. cbn [r3 rf_mem set_rmem]. rewrite insert_insert_eq.
    apply (indexed_grow _ es ts (ts ++ [t]) size A k _ f _ _ Hx Hl).
    + rewrite length_app. cbn [length]. fold n. rewrite En1. lia.
    + apply list.NoDup_app in Hnd as (Hndt & _). assert (t ∉ ts) as Htn' by (intros Hin; apply Hnew, elem_of_app; by left).
      assert ((es ++ [None]) !! length es = Some (None : entry)) as Hlast by (rewrite lookup_app_r by lia; by rewrite Nat.sub_diag).
      rewrite <- (list_insert_id (es ++ [None]) (length es) (None : entry)) by done. rewrite <- (insert_insert_eq (rf_mem r) t pg' (replicate 4096 0)).
      eapply (table_store (es ++ [None]) (ts ++ [t]) _ (length es) (length ts) t (replicate 4096 0) pg' None).
      * intros j' t' i' e' Hne Ht' He' Hl' Hj'. pose proof (lookup_lt_Some _ _ _ He') as Hi'. rewrite length_app in Hi'. cbn in Hi'. rewrite lookup_app_l in He' by lia.
        destruct (slot_range (Z.of_nat i') n) as ([_ Hlt] & _); [lia|lia|]. rewrite En0, Hj' in Hlt. rewrite lookup_app_l in Ht' by lia.
        destruct (ix_table _ _ _ _ _ _ Hx j' t' i' e' Ht' He' Hl' Hj') as (pg0 & Epg0 & Ew0). exists pg0. rewrite lookup_insert_ne; [done|]. intros <-. apply list_elem_of_lookup_2 in Ht'. by apply Htn'.
      * apply list.NoDup_app. split; [done|]. split; [|apply NoDup_singleton]. intros x Hxt ->%list_elem_of_singleton. done.
      * rewrite length_app. cbn. lia.
      * done.
      * rewrite length_app. cbn. lia.
      * fold n. lia.
      * rewrite lookup_app_r by lia. by rewrite Nat.sub_diag.
      * apply lookup_insert_eq.
      * done.
      * done.
    + rewrite Hperm. apply list.NoDup_cons. done.
    + eapply own_more; [exact (ix_own _ _ _ _ _ _ Hx)|exact Hkp|done|done].
    + apply mem_insert; [exact (ix_mem _ _ _ _ _ _ Hx)|]. by rewrite (poke_length _ _ _ _ _ Epk).
    + replace (k - (l1_index n + 1 - l1_index n)) with (k - 1) by lia. by eapply frames_perm.
  - assert (exists t, ts !! Z.to_nat (l1_index n) = Some t) as [t Ht] by (apply lookup_lt_is_Some_2; lia). rewrite (bind_Ret _ _ r t r) by (apply load_Some; by apply l1_lookup).
    destruct (table_page _ _ _ _ _ _ _ _ Hx Ht) as (Hkt & Hn & pg & Epg & Elp). unfold nonnull. rewrite bool_decide_eq_true_2 by done. rewrite (bind_Ret _ _ r t r) by done.
    destruct (store_ptr_run r t (l0_index n) RAM_BSET_AVAIL pg Hkt Hj Epg Elp) as (pg' & Epk & Est). rewrite Est. replace (k - (l1_index n + 1 - (l1_index n + 1))) with k by lia.
    eexists _, ts. split; [reflexivity|]. split; [done|]. split.
    { split; [done|]. split; [done|]. intros q Hq. cbn. rewrite lookup_insert_ne; [done|]. intros <-. apply Hq. by apply list_elem_of_lookup_2 in Ht. }
    split; [cbn; rewrite Hp; by rewrite l0_grow_far by (unfold RAM_BLOCKS_L0 in Hs; lia)|].
    apply (indexed_grow _ es ts ts size A k k (rf_frames r) _ _ Hx Hl); [| |exact Hnd|exact (ix_own _ _ _ _ _ _ Hx)| |exact (ix_frames _ _ _ _ _ _ Hx)].
    + fold n. rewrite En1. lia.
    + eapply (table_append _ es ts size A k _ t pg pg' Hx Hl Hs); [|exact Ht|done|done]. fold n. lia.
    + apply mem_insert; [exact (ix_mem _ _ _ _ _ _ Hx)|]. by rewrite (poke_length _ _ _ _ _ Epk).
Qed.

Lemma tables_mono n m : n <= m -> tables_for n <= tables_for m.
Proof using Type. intros Hn. unfold tables_for, RAM_BLOCKS_L0, RAM_BLOCKS_PER_Ln. apply Z.max_le_compat_l, Z.div_le_mono; lia. Qed.

Lemma grow_loop_run n : forall cap size r es ts A k, resizing cap size r es ts A k -> Z.of_nat (length es + n) <= RAM_LIMIT ->
  tables_for (Z.of_nat (length es + n)) - tables_for (Z.of_nat (length es)) <= k ->
  exists r' ts', for_range (grow_step a) n (Z.of_nat (length es)) r = Ret (tt, r') /\ ts ⊆ ts' /\ beside ts' r r' /\
    resizing cap size r' (es ++ replicate n None) ts' A (k - (tables_for (Z.of_nat (length es + n)) - tables_for (Z.of_nat (length es)))).
Proof using Type.
  induction n as [|n IH]; intros cap size r es ts A k Hx Hl Hk.
  { exists r, ts. rewrite Nat.add_0_r, Z.sub_diag, Z.sub_0_r. cbn [replicate]. rewrite app_nil_r. split_and!; done. }
  cbn [for_range]. pose proof (tables_mono (Z.of_nat (length es)) (Z.of_nat (length es) + 1) ltac:(lia)). pose proof (tables_mono (Z.of_nat (length es) + 1) (Z.of_nat (length es + S n)) ltac:(lia)).
  destruct (grow_step_run cap size r es ts A k Hx ltac:(lia) ltac:(lia)) as (r1 & ts1 & E1 & S1 & B1 & Hx1). step_run E1.
  assert (length (es ++ [None]) = length es + 1)%nat as El by (by rewrite length_app).
  destruct (IH cap size r1 (es ++ [None]) ts1 A _ Hx1) as (r2 & ts2 & E2 & S2 & B2 & Hx2).
  { rewrite El. lia. }
  { rewrite El. replace (length es + 1 + n)%nat with (length es + S n)%nat by lia. rewrite (Nat2Z.inj_add _ 1). change (Z.of_nat 1) with 1. lia. }
  rewrite El, Nat2Z.inj_add in E2. change (Z.of_nat 1) with 1 in E2. exists r2, ts2. split; [done|]. split; [by etrans|]. split; [by eapply beside_trans|].
  rewrite <- app_assoc in Hx2. cbn [app] in Hx2. rewrite El in Hx2.
  replace (k - (tables_for (Z.of_nat (length es + S n)) - tables_for (Z.of_nat (length es)))) with
    (k - (tables_for (Z.of_nat (length es) + 1) - tables_for (Z.of_nat (length es))) - (tables_for (Z.of_nat (length es + 1 + n)) - tables_for (Z.of_nat (length es + 1)))); [exact Hx2|].
  replace (Z.of_nat (length es + 1 + n)) with (Z.of_nat (length es + S n)) by lia. replace (Z.of_nat (length es + 1)) with (Z.of_nat (length es) + 1) by lia. lia.
Qed.

Definition blocks_for (n : Z) : Z := (n + 511) / 512.
Lemma blocks_range n : 0 <= n -> 0 <= blocks_for n /\ n <= 512 * blocks_for n < n + 512.
Proof using Type. intros Hn. unfold blocks_for. pose proof (Z.div_mod (n + 511) 512 ltac:(done)). pose proof (Z.mod_pos_bound (n + 511) 512 ltac:(done)). split; [apply Z.div_pos; lia|lia]. Qed.

(** [size] and [bpa_cap] stored at the end. *)
Lemma resizing_end cap size size' r es ts A k : resizing cap size r es ts A k ->
  indexed (set_privs (<[a := mk_priv size' (Z.of_nat (length es)) (l0_words es) (l1_words ts)]> (rf_privs r)) r) es ts size' A k.
Proof using Type. intros [_ [H1 H2 H3 H4 H5 H6 H7 H8 H9 H10 H11]]. split; try done. apply lookup_insert_eq. Qed.

Lemma resizing_start r es ts size A k : indexed r es ts size A k -> resizing (Z.of_nat (length es)) size r es ts A k.
Proof using Type.
  intros Hx. split; [exact (ix_priv _ _ _ _ _ _ Hx)|]. unfold recap. rewrite insert_id by exact (ix_priv _ _ _ _ _ _ Hx). destruct r. exact Hx.
Qed.

Lemma resize_up_run r es ts size A k size' : indexed r es ts size A k -> 0 <= size' -> Z.of_nat (length es) <= blocks_for size' <= RAM_LIMIT ->
  tables_for (blocks_for size') - tables_for (Z.of_nat (length es)) <= k ->
  exists r' ts', ram_vnode_bset_resize vn size' r = Ret (0, r') /\ ts ⊆ ts' /\ beside ts' r r' /\
    indexed r' (es ++ replicate (Z.to_nat (blocks_for size') - length es) None) ts' size' A (k - (tables_for (blocks_for size') - tables_for (Z.of_nat (length es)))).
Proof using Type.
  intros Hx H0 Hl Hk. unfold ram_vnode_bset_resize. step_run (fs_data_run _ _ _ _ _ _ Hx). step_run (priv_run _ _ (ix_priv _ _ _ _ _ _ Hx)). cbn [bpa_cap].
  assert (u64 (size' + 511) / 512 = blocks_for size') as ->.
  { unfold blocks_for. rewrite uwrap_small; [done|]. pose proof (blocks_range size' H0). unfold RAM_LIMIT, RAM_MAX_L1, RAM_BLOCKS_L0, RAM_BLOCKS_L1, RAM_BLOCKS_PER_Ln in *. lia. }
  cbn zeta. rewrite (proj2 (Z.ltb_ge _ _)) by lia. set (n := (Z.to_nat (blocks_for size') - length es)%nat). replace (Z.to_nat (blocks_for size' - Z.of_nat (length es))) with n by lia.
  assert (Z.of_nat (length es + n) = blocks_for size') as En by lia.
  destruct (grow_loop_run n _ _ _ _ _ _ _ (resizing_start _ _ _ _ _ _ Hx)) as (r1 & ts1 & E1 & S1 & B1 & Hx1); [lia|by rewrite En|]. rewrite En in Hx1.
  step_run E1. step_run (priv_run _ _ (proj1 Hx1)). cbn [bpa_l0 bpa_l1].
  eexists _, ts1. split; [reflexivity|]. split; [done|]. pose proof (resizing_end _ _ size' _ _ _ _ _ Hx1) as He. rewrite length_app, length_replicate, En in He. split; [|done].
  destruct B1 as (V1 & P1 & M1). split; [done|]. split; [|done]. intros q Hq. cbn. rewrite lookup_insert_ne by done. by apply P1.
Qed.

Lemma ram_fill_run n : forall r pre ts size A k, indexed r (pre ++ replicate n None) ts size A k -> Z.of_nat n <= k ->
  exists r' bs, for_range (new_block vn) n (Z.of_nat (length pre)) r = Ret (tt, r') /\ length bs = n /\ Forall is_Some bs /\ length (owned bs) = n /\
    indexed r' (pre ++ bs) ts size A (k - Z.of_nat n) /\ beside ts r r'.
Proof using Type.
  induction n as [|n IH]; intros r pre ts size A k Hx Hk.
  { exists r, []. rewrite Z.sub_0_r. split_and!; done. }
  cbn [for_range replicate]. assert ((pre ++ replicate (S n) None) !! length pre = Some (None : entry)) as Hi by (rewrite lookup_app_r by lia; by rewrite Nat.sub_diag).
  destruct (new_block_run r _ ts size A k (length pre) Hx ltac:(lia) Hi) as (b & r1 & E1 & Hx1 & B1). step_run E1.
  rewrite insert_app_r_alt in Hx1 by lia. rewrite Nat.sub_diag in Hx1. cbn [replicate list_insert insert] in Hx1.
  change (pre ++ Some (b, true) :: replicate n None) with (pre ++ [Some (b, true)] ++ replicate n None) in Hx1. rewrite app_assoc in Hx1.
  destruct (IH r1 (pre ++ [Some (b, true)]) ts size A (k - 1) Hx1 ltac:(lia)) as (r2 & bs & E2 & Hl & Hf & Ho & Hx2 & B2).
  rewrite length_app in E2. cbn [length] in E2. rewrite Nat2Z.inj_add in E2. exists r2, (Some (b, true) :: bs). split; [exact E2|]. split; [cbn; lia|]. split; [by constructor|]. split; [cbn; by f_equal|].
  split; [rewrite <- app_assoc in Hx2; replace (k - Z.of_nat (S n)) with (k - 1 - Z.of_nat n) by lia; exact Hx2|]. by eapply beside_trans.
Qed.

Lemma grow_file_run r es ts size A k size' : indexed r es ts size A k -> 0 <= size' -> Z.of_nat (length es) <= blocks_for size' <= RAM_LIMIT ->
  (tables_for (blocks_for size') - tables_for (Z.of_nat (length es))) + (blocks_for size' - Z.of_nat (length es)) <= k ->
  exists r' ts' bs, grow_file vn size' r = Ret (tt, r') /\ beside ts' r r' /\ Z.of_nat (length (es ++ bs)) = blocks_for size' /\ Forall is_Some bs /\ length (owned bs) = length bs /\
    indexed r' (es ++ bs) ts' size' A (k - (tables_for (blocks_for size') - tables_for (Z.of_nat (length es))) - (blocks_for size' - Z.of_nat (length es))).
Proof using Type.
  intros Hx H0 Hl Hk. unfold grow_file. step_run (fs_data_run _ _ _ _ _ _ Hx). step_run (priv_run _ _ (ix_priv _ _ _ _ _ _ Hx)). cbn [bpa_cap]. cbn zeta.
  assert (u64 (size' + 511) / 512 = blocks_for size') as ->.
  { unfold blocks_for. rewrite uwrap_small; [done|]. pose proof (blocks_range size' H0). unfold RAM_LIMIT, RAM_MAX_L1, RAM_BLOCKS_L0, RAM_BLOCKS_L1, RAM_BLOCKS_PER_Ln in *. lia. }
  destruct (resize_up_run r es ts size A k size' Hx H0 Hl ltac:(lia)) as (r1 & ts1 & E1 & S1 & B1 & Hx1). step_run E1. rewrite (bind_Ret _ _ r1 tt r1) by done.
  replace (Z.to_nat (blocks_for size' - Z.of_nat (length es))) with (Z.to_nat (blocks_for size') - length es)%nat by lia.
  destruct (ram_fill_run _ _ _ _ _ _ _ Hx1) as (r2 & bs & E2 & Hlb & Hf & Ho & Hx2 & B2); [lia|].
  exists r2, ts1, bs. split; [exact E2|]. split; [by apply (beside_trans ts1 ts1 r r1 r2)|]. split; [rewrite length_app; lia|]. split; [done|]. split; [congruence|].
  replace (k - (tables_for (blocks_for size') - tables_for (Z.of_nat (length es))) - (blocks_for size' - Z.of_nat (length es))) with
    (k - (tables_for (blocks_for size') - tables_for (Z.of_nat (length es))) - Z.of_nat (Z.to_nat (blocks_for size') - length es)) by lia. exact Hx2.
Qed.

(** ** Contents *)
Definition fbyte (m : gmap Z (list Z)) es (k : Z) : option Z :=
  match es !! Z.to_nat (k / 512) with
  | Some (Some (b, _)) => pg ← m !! vpage b; pg !! Z.to_nat (b mod MM_PAGE_SIZE + k mod 512)
  | _ => None
  end.

Lemma ram_block_place b : block_ok b -> 0 <= b mod MM_PAGE_SIZE <= 3584 /\ (b mod MM_PAGE_SIZE) mod 512 = 0.
Proof using Type.
  intros [Hm _]. unfold MM_PAGE_SIZE. pose proof (Z.mod_pos_bound b 0x1000 ltac:(done)). apply Z.mod_divide in Hm as [q ->]; [|done].
  assert ((q * 512) mod 4096 = (q mod 8) * 512) as E by (replace 4096 with (8 * 512) by lia; by rewrite Zmult_mod_distr_r). pose proof (Z.mod_pos_bound q 8 ltac:(done)).
  split; [change 0x1000 with 4096 in *; lia|]. change 0x1000 with 4096. rewrite E. by apply Z_mod_mult.
Qed.
Lemma block_addr b o : block_ok b -> 0 <= o < 512 -> (b + o) mod MM_PAGE_SIZE = b mod MM_PAGE_SIZE + o /\ b + o - (b + o) mod MM_PAGE_SIZE = vpage b.
Proof using Type.
  intros Hb Ho. destruct (ram_block_place b Hb) as [Hr _]. assert ((b + o) mod MM_PAGE_SIZE = b mod MM_PAGE_SIZE + o) as E; [|split; [done|unfold vpage; lia]].
  pose proof (Z.div_mod b MM_PAGE_SIZE ltac:(done)). symmetry. apply Z.mod_unique_pos with (b / MM_PAGE_SIZE); [unfold MM_PAGE_SIZE in *|]; lia.
Qed.

Lemma entry_at es ts r size A k pos : indexed r es ts size A k -> Forall is_Some es -> 0 <= pos < 512 * Z.of_nat (length es) ->
  exists b own, es !! Z.to_nat (pos / 512) = Some (Some (b, own)) /\ block_ok b.
Proof using Type.
  intros Hx Hf Hp. destruct (lookup_lt_is_Some_2 es (Z.to_nat (pos / 512))) as [e He].
  { assert (pos / 512 < Z.of_nat (length es)) by (apply Z.div_lt_upper_bound; lia). assert (0 <= pos / 512) by (apply Z.div_pos; lia). lia. }
  rewrite Forall_lookup in Hf. destruct (Hf _ _ He) as [[b own] ->]. exists b, own. split; [done|]. by apply (ix_block _ _ _ _ _ _ Hx _ _ _ He).
Qed.

Lemma mem_get_run r es ts size A k pos n : indexed r es ts size A k -> Forall is_Some es -> 0 <= pos -> 0 < n <= 512 - pos mod 512 -> pos < 512 * Z.of_nat (length es) ->
  exists b own l, es !! Z.to_nat (pos / 512) = Some (Some (b, own)) /\ block_ok b /\ mem_get (b + pos mod 512) n r = Ret (l, r) /\ Z.of_nat (length l) = n /\
    forall i, 0 <= i < n -> l !! Z.to_nat i = fbyte (rf_mem r) es (pos + i).
Proof using Type.
  intros Hx Hf H0 Hn Hl. destruct (entry_at es ts r size A k pos Hx Hf ltac:(lia)) as (b & own & He & Hb). pose proof (Z.mod_pos_bound pos 512 ltac:(done)) as Hpm.
  destruct (ram_block_place b Hb) as [Hr _]. destruct (block_addr b (pos mod 512) Hb Hpm) as [E1 E2]. destruct (ix_mem _ _ _ _ _ _ Hx (vpage b) (proj2 Hb)) as (pg & Epg & Elp).
  exists b, own, (slice (b mod MM_PAGE_SIZE + pos mod 512) n pg). split; [done|]. split; [done|]. split; [|split].
  - unfold mem_get, page_at. rewrite E2, E1. rewrite (bind_Ret _ _ r pg r) by (by apply load_Some). by rewrite (proj2 (Z.ltb_ge _ _)) by lia.
  - rewrite length_slice by lia. lia.
  - intros i Hi. rewrite lookup_slice by lia. unfold fbyte. assert ((pos + i) / 512 = pos / 512 /\ (pos + i) mod 512 = pos mod 512 + i) as [-> ->].
    { pose proof (Z.div_mod pos 512 ltac:(done)). split; [symmetry; apply Z.div_unique with (pos mod 512 + i)|symmetry; apply Z.mod_unique_pos with (pos / 512)]; lia. }
    rewrite He, Epg. cbn. f_equal. lia.
Qed.

Lemma read_loop_run : forall fuel r es ts size A k pos rem acc, indexed r es ts size A k -> Forall is_Some es -> 0 <= pos -> 0 <= rem -> pos + rem <= 512 * Z.of_nat (length es) -> rem <= Z.of_nat fuel ->
  exists l, ram_read_loop fuel vn pos rem acc r = Ret ((pos + rem, acc ++ l), r) /\ Z.of_nat (length l) = rem /\ forall i, 0 <= i < rem -> l !! Z.to_nat i = fbyte (rf_mem r) es (pos + i).
Proof using Type.
  induction fuel as [|fuel IH]; intros r es ts size A k pos rem acc Hx Hf H0 Hrem Hl Hfu.
  { replace rem with 0 by lia. exists []. cbn. rewrite app_nil_r, Z.add_0_r. split; [done|]. split; [done|]. lia. }
  cbn [ram_read_loop]. destruct (Z.eqb_spec rem 0) as [->|Hne].
  { exists []. rewrite app_nil_r, Z.add_0_r. split; [done|]. split; [done|]. lia. }
  cbn zeta. pose proof (Z.mod_pos_bound pos 512 ltac:(done)) as Hpm. set (n := Z.min rem (512 - pos mod 512)). rewrite (proj2 (Z.eqb_neq n 0)) by lia. rewrite (bind_Ret _ _ r tt r) by done.
  destruct (mem_get_run r es ts size A k pos n Hx Hf H0 ltac:(lia) ltac:(lia)) as (b & own & l & He & Hb & Eg & Elen & Hbytes).
  pose proof (bset_get_run _ _ _ _ _ _ _ _ Hx He) as Eget. rewrite Z2Nat.id in Eget by (apply Z.div_pos; lia). step_run Eget. rewrite entry_block by done. rewrite (bind_Ret _ _ r tt r) by done.
  rewrite entry_strip by done. step_run Eg. pose proof (ix_len _ _ _ _ _ _ Hx) as Hlim. unfold RAM_LIMIT, RAM_MAX_L1, RAM_BLOCKS_L0, RAM_BLOCKS_L1, RAM_BLOCKS_PER_Ln in Hlim. rewrite uwrap_small by lia.
  destruct (IH r es ts size A k (pos + n) (rem - n) (acc ++ l) Hx Hf ltac:(lia) ltac:(lia) ltac:(lia) ltac:(lia)) as (l2 & E2 & El2 & Hb2).
  exists (l ++ l2). split; [rewrite E2; do 3 f_equal; [lia|by rewrite app_assoc]|]. split; [rewrite length_app; lia|]. intros i Hi. destruct (decide (i < n)).
  - rewrite lookup_app_l by lia. apply Hbytes. lia.
  - rewrite lookup_app_r by lia. replace (Z.to_nat i - length l)%nat with (Z.to_nat (i - n)) by lia. rewrite Hb2 by lia. f_equal. lia.
Qed.

(** Writing inside one block. *)
Lemma mem_put_run r es ts size A k pos b own (l : list Z) : indexed r es ts size A k -> 0 <= pos -> es !! Z.to_nat (pos / 512) = Some (Some (b, own)) ->
  Z.of_nat (length l) <= 512 - pos mod 512 ->
  exists r', mem_put (b + pos mod 512) l r = Ret (tt, r') /\ indexed r' es ts size A k /\ rf_vfs r' = rf_vfs r /\ rf_privs r' = rf_privs r /\
    forall i, 0 <= i -> fbyte (rf_mem r') es i = if decide (pos <= i < pos + Z.of_nat (length l)) then l !! Z.to_nat (i - pos) else fbyte (rf_mem r) es i.
Proof using Type.
  intros Hx H0 He Hl. destruct (ix_block _ _ _ _ _ _ Hx _ _ _ He) as [Hb _]. pose proof (Z.mod_pos_bound pos 512 ltac:(done)) as Hpm. destruct (ram_block_place b Hb) as [Hr Hr512].
  destruct (block_addr b (pos mod 512) Hb Hpm) as [E1 E2]. destruct (ix_mem _ _ _ _ _ _ Hx (vpage b) (proj2 Hb)) as (pg & Epg & Elp). set (off := b mod MM_PAGE_SIZE + pos mod 512) in *.
  set (pg' := splice off l pg). assert (length pg' = 4096%nat) as Elp' by (unfold pg'; rewrite length_splice; lia).
  exists (set_rmem (<[vpage b := pg']> (rf_mem r)) r). split; [|split; [|split; [done|split; [done|]]]].
  - unfold mem_put, page_at, put_page. rewrite E2, E1. rewrite (bind_Ret _ _ r pg r) by (by apply load_Some). by rewrite (proj2 (Z.ltb_ge _ _)) by lia.
  - pose proof (block_not_table _ _ _ _ _ _ _ _ _ Hx He) as Hnt. destruct Hx as [F1 F2 F3 F4 F5 F6 F7 F8 F9 F10 F11]. split; try done; cbn [rf_mem set_rmem].
    + intros j t i e Ht. rewrite lookup_insert_ne; [by apply F5|]. intros <-. apply Hnt. by apply list_elem_of_lookup_2 in Ht.
    + by apply mem_insert.
  - intros i Hi. unfold fbyte. cbn [rf_mem set_rmem]. pose proof (Z.div_mod pos 512 ltac:(done)) as Hdp. pose proof (Z.div_mod i 512 ltac:(done)) as Hdi. pose proof (Z.mod_pos_bound i 512 ltac:(done)) as Him.
    assert (0 <= i / 512 /\ 0 <= pos / 512) as [Hid Hpd] by (split; apply Z.div_pos; lia).
    destruct (es !! Z.to_nat (i / 512)) as [[[b' own']|]|] eqn:Ei.
    2,3: rewrite decide_False; [done|]; intros Hin; assert (i / 512 = pos / 512) as Eq by lia; rewrite Eq, He in Ei; discriminate.
    destruct (decide (vpage b' = vpage b)) as [Ev|Ev].
    2:{ rewrite lookup_insert_ne by done. rewrite decide_False; [done|]. intros Hin. assert (i / 512 = pos / 512) as Eq by lia. rewrite Eq, He in Ei. injection Ei as -> ->. done. }
    rewrite Ev, lookup_insert_eq, Epg. cbn. unfold pg'. destruct (ix_block _ _ _ _ _ _ Hx _ _ _ Ei) as [Hb' _]. destruct (ram_block_place b' Hb') as [Hr' Hr512'].
    rewrite lookup_splice by lia. destruct (decide (b' = b)) as [->|Hbb].
    + pose proof (ix_inj _ _ _ _ _ _ Hx _ _ _ _ _ Ei He) as Eij. assert (i / 512 = pos / 512) as Eq by lia. unfold off. destruct (decide (pos <= i < pos + Z.of_nat (length l))).
      * rewrite decide_True by lia. f_equal. lia.
      * by rewrite decide_False by lia.
    + assert (b' mod MM_PAGE_SIZE <> b mod MM_PAGE_SIZE) as Hmm by (unfold vpage in Ev; lia). rewrite decide_False; [rewrite decide_False; [done|]|].
      * intros Hin. assert (i / 512 = pos / 512) as Eq by lia. rewrite Eq, He in Ei. injection Ei as -> ->. done.
      * unfold off. apply Z.mod_divide in Hr512 as [q Hq]; [|done]. apply Z.mod_divide in Hr512' as [q' Hq']; [|done]. rewrite Hq, Hq' in *. lia.
Qed.

Lemma write_loop_run : forall fuel buf r es ts size A k pos, indexed r es ts size A k -> Forall is_Some es -> 0 <= pos -> pos + Z.of_nat (length buf) <= 512 * Z.of_nat (length es) -> (length buf <= fuel)%nat ->
  exists r', ram_write_loop fuel vn pos buf r = Ret (pos + Z.of_nat (length buf), r') /\ indexed r' es ts size A k /\ rf_vfs r' = rf_vfs r /\ rf_privs r' = rf_privs r /\
    forall i, 0 <= i -> fbyte (rf_mem r') es i = if decide (pos <= i < pos + Z.of_nat (length buf)) then buf !! Z.to_nat (i - pos) else fbyte (rf_mem r) es i.
Proof using Type.
  induction fuel as [|fuel IH]; intros buf r es ts size A k pos Hx Hf H0 Hl Hfu.
  { destruct buf; [|cbn in Hfu; lia]. exists r. cbn [ram_write_loop length]. rewrite Z.add_0_r. split_and!; try done. intros i Hi. by rewrite decide_False by lia. }
  cbn [ram_write_loop]. destruct buf as [|c buf'] eqn:Eb.
  { exists r. cbn [length]. rewrite Z.add_0_r. split_and!; try done. intros i Hi. by rewrite decide_False by lia. }
  rewrite <- Eb in *. assert (0 < length buf)%nat as Hpos by (subst; cbn; lia). clear Eb c buf'. cbn zeta. pose proof (Z.mod_pos_bound pos 512 ltac:(done)) as Hpm.
  set (n := Z.min (Z.of_nat (length buf)) (512 - pos mod 512)). rewrite (proj2 (Z.eqb_neq n 0)) by lia. rewrite (bind_Ret _ _ r tt r) by done.
  destruct (entry_at es ts r size A k pos Hx Hf ltac:(lia)) as (b & own & He & Hb). pose proof (bset_get_run _ _ _ _ _ _ _ _ Hx He) as Eget. rewrite Z2Nat.id in Eget by (apply Z.div_pos; lia). step_run Eget.
  rewrite entry_block by done. rewrite (bind_Ret _ _ r tt r) by done. rewrite entry_strip by done.
  assert (Z.of_nat (length (take (Z.to_nat n) buf)) = n) as Et by (rewrite length_take; lia).
  destruct (mem_put_run r es ts size A k pos b own (take (Z.to_nat n) buf) Hx H0 He ltac:(lia)) as (r1 & E1 & Hx1 & V1 & P1 & B1). step_run E1.
  pose proof (ix_len _ _ _ _ _ _ Hx) as Hlim. unfold RAM_LIMIT, RAM_MAX_L1, RAM_BLOCKS_L0, RAM_BLOCKS_L1, RAM_BLOCKS_PER_Ln in Hlim. rewrite uwrap_small by lia.
  assert (Z.of_nat (length (drop (Z.to_nat n) buf)) = Z.of_nat (length buf) - n) as Ed by (rewrite length_drop; lia).
  destruct (IH (drop (Z.to_nat n) buf) r1 es ts size A k (pos + n) Hx1 Hf ltac:(lia) ltac:(lia) ltac:(lia)) as (r2 & E2 & Hx2 & V2 & P2 & B2).
  exists r2. split; [rewrite E2; do 2 f_equal; lia|]. split; [done|]. split; [congruence|]. split; [congruence|]. intros i Hi. rewrite B2, B1 by done. rewrite Et, Ed.
  destruct (decide (pos <= i < pos + Z.of_nat (length buf))) as [Hin|Hout].
  - case_decide as Hd; [rewrite lookup_drop; f_equal; lia|]. rewrite decide_True by lia. rewrite lookup_take_lt by lia. done.
  - rewrite decide_False by lia. by rewrite decide_False by lia.
Qed.

(** ** Shrinking *)

(** [w] is [W] with the entries from [c] up to [i] cleared. *)
Definition cut (W : list Z) (c i : nat) (w : list Z) : Prop :=
  length w = length W /\ forall j, (j < length W)%nat -> w !! j = if decide (c <= j < i)%nat then Some 0 else W !! j.
Lemma cut_start W c : cut W c c W.
Proof using Type. split; [done|]. intros j Hj. by rewrite decide_False by lia. Qed.
Lemma cut_next W c i w : (c <= i)%nat -> (i < length W)%nat -> cut W c i w -> w !! i = W !! i /\ cut W c (S i) (<[i := 0]> w).
Proof using Type.
  intros Hc Hi [El Hw]. split; [rewrite Hw by done; by rewrite decide_False by lia|]. split; [by rewrite length_insert|]. intros j Hj. destruct (decide (j = i)) as [->|Hne].
  - rewrite list_lookup_insert_eq by lia. by rewrite decide_True by lia.
  - rewrite list_lookup_insert_ne by done. rewrite Hw by done. destruct (decide (c <= j < i)%nat), (decide (c <= j < S i)%nat); try done; lia.
Qed.
Lemma cut_skip W c i w : (length W <= i)%nat -> cut W c i w -> cut W c (S i) w.
Proof using Type. intros Hi [El Hw]. split; [done|]. intros j Hj. rewrite Hw by done. destruct (decide (c <= j < i)%nat), (decide (c <= j < S i)%nat); try done; lia. Qed.

Lemma cut_l0 es c w : (c <= length es)%nat -> cut (l0_words es) c (length es) w -> w = l0_words (take c es).
Proof using Type.
  intros Hc [El Hw]. rewrite length_l0 in *. apply list_eq. intros j. destruct (decide (j < 32)%nat) as [Hj|Hj]; [|by rewrite !lookup_ge_None_2 by (rewrite ?length_l0; lia)].
  rewrite Hw by done. destruct (decide (c <= j < length es)%nat) as [Hin|Hout].
  - unfold l0_words. rewrite lookup_app_r by (rewrite length_take, length_fmap, length_take; lia). symmetry. apply lookup_replicate_2. rewrite !length_take, length_fmap, length_take. lia.
  - destruct (decide (j < c)%nat) as [Hjc|Hjc].
    + destruct (lookup_lt_is_Some_2 es j ltac:(lia)) as [e He]. rewrite (l0_lookup es j e He Hj). symmetry. apply l0_lookup; [|done]. by rewrite lookup_take_lt.
    + unfold l0_words. rewrite !lookup_app_r by (rewrite !length_take, length_fmap, ?length_take; lia). transitivity (Some 0); [|symmetry]; apply lookup_replicate_2; rewrite !length_take, length_fmap, ?length_take; lia.
Qed.
Lemma cut_l1 ts c w : (c <= length ts <= 24)%nat -> cut (l1_words ts) c (length ts) w -> w = l1_words (take c ts).
Proof using Type.
  intros Hc [El Hw]. assert (forall ts, (length ts <= 24)%nat -> length (l1_words ts) = 24%nat) as Hl1 by (intros; unfold l1_words; rewrite length_app, length_replicate; lia).
  rewrite Hl1 in * by lia. apply list_eq. intros j. destruct (decide (j < 24)%nat) as [Hj|Hj]; [|rewrite !lookup_ge_None_2; [done|rewrite Hl1; [lia|rewrite length_take; lia]|lia]].
  rewrite Hw by done. unfold l1_words. destruct (decide (c <= j < length ts)%nat) as [Hin|Hout].
  - rewrite lookup_app_r by (rewrite length_take; lia). symmetry. apply lookup_replicate_2. rewrite !length_take. lia.
  - destruct (decide (j < c)%nat) as [Hjc|Hjc].
    + rewrite !lookup_app_l by (rewrite ?length_take; lia). by rewrite lookup_take_lt.
    + rewrite !lookup_app_r by (rewrite ?length_take; lia). transitivity (Some 0); [|symmetry]; apply lookup_replicate_2; rewrite ?length_take; lia.
Qed.

(** Giving back the frame of page [b]. *)
Lemma free_frame_run r A L L' b k : pa_ok (rf_frames r) (A ∪ list_to_set (MM_PHYS <$> L)) k -> L ≡ₚ b :: L' -> NoDup L -> (forall t, t ∈ L -> kpage t /\ MM_PHYS t ∉ A) ->
  exists f, on_rframes (pa_free (MM_PHYS b)) r = Ret (tt, set_rframes f r) /\ pa_ok f (A ∪ list_to_set (MM_PHYS <$> L')) (k + 1).
Proof using Type.
  intros Hok Hp Hnd HL. assert (b ∈ L) as HbL by (rewrite Hp; by apply list_elem_of_here). destruct (HL b HbL) as [Hkb HbA].
  destruct (pa_free_spec _ _ _ (MM_PHYS b) Hok) as (f & E & Hok'). { apply elem_of_union. right. apply elem_of_list_to_set, list_elem_of_fmap. by exists b. }
  exists f. split; [unfold on_rframes, czoom; by rewrite E|]. replace (A ∪ list_to_set (MM_PHYS <$> L')) with ((A ∪ list_to_set (MM_PHYS <$> L)) ∖ {[MM_PHYS b]}); [done|].
  rewrite Hp in Hnd. apply list.NoDup_cons in Hnd as [HbL' _]. apply set_eq. intros x. rewrite elem_of_difference, !elem_of_union, !elem_of_list_to_set, !list_elem_of_fmap, elem_of_singleton. split.
  - intros [[HA|(t & -> & Ht)] Hne]; [by left|]. right. exists t. split; [done|]. rewrite Hp in Ht. apply elem_of_cons in Ht as [->|Ht]; [done|done].
  - intros [HA|(t & -> & Ht)]; [split; [by left|by intros ->]|]. split; [right; exists t; split; [done|rewrite Hp; apply elem_of_cons; by right]|].
    intros E'. apply HbL'. rewrite <- (kpage_inj t b); [done| |done|done]. apply HL. rewrite Hp. apply elem_of_cons. by right.
Qed.

Lemma free_block_run r A L e k : (forall b own, e = Some (b, own) -> block_ok b) ->
  pa_ok (rf_frames r) (A ∪ list_to_set (MM_PHYS <$> (owned [e] ++ L))) k -> NoDup (owned [e] ++ L) -> (forall t, t ∈ owned [e] ++ L -> kpage t /\ MM_PHYS t ∉ A) ->
  exists f, free_block (entw e) r = Ret (tt, set_rframes f r) /\ pa_ok f (A ∪ list_to_set (MM_PHYS <$> L)) (k + Z.of_nat (length (owned [e]))).
Proof using Type.
  intros He Hok Hnd HL. unfold free_block. rewrite entry_avail by done. rewrite (bind_Ret _ _ r tt r) by done. destruct e as [[b own]|].
  2:{ exists (rf_frames r). split; [by destruct r|]. by rewrite Z.add_0_r. }
  pose proof (He b own eq_refl) as Hb. rewrite entry_alloc, entry_strip by done. destruct own.
  - destruct (free_frame_run r A _ L b k Hok) as (f & E & Hok'); [done|done|done|]. exists f. done.
  - exists (rf_frames r). split; [by destruct r|]. by rewrite Z.add_0_r.
Qed.

Lemma load_ptr_mem x r r0 v : rf_mem r = rf_mem r0 -> load_ptr x r0 = Ret (v, r0) -> load_ptr x r = Ret (v, r).
Proof using Type.
  unfold load_ptr, page_at. intros Em E. apply bind_inv in E as (l & r1 & E1 & E2). apply load_inv in E1 as [E1 ->]. apply load_inv in E2 as [E2 _].
  rewrite (bind_Ret _ _ r l r) by (apply load_Some; by rewrite Em). by apply load_Some.
Qed.

(** The pages still owned when the blocks from [c] up to [i] are gone. *)
Lemma owned_part es ts c i : (c <= i <= length es)%nat ->
  ts ++ owned es ≡ₚ owned (take (i - c) (drop c es)) ++ (owned (drop i es) ++ ts ++ owned (take c es)).
Proof using Type.
  intros Hi. assert (es = take c es ++ take (i - c) (drop c es) ++ drop i es) as E.
  { rewrite <- (take_drop c es) at 1. f_equal. rewrite <- (take_drop (i - c) (drop c es)) at 1. f_equal. rewrite drop_drop. f_equal. lia. }
  rewrite E at 1. rewrite !owned_app, !app_assoc, <- (app_assoc (ts ++ _)), <- (app_assoc (_ ++ owned (drop i es))). apply Permutation_app_comm.
Qed.
Lemma part_ok r es ts size A k c i : indexed r es ts size A k -> (c <= i <= length es)%nat ->
  NoDup (owned (drop i es) ++ ts ++ owned (take c es)) /\ forall t, t ∈ owned (drop i es) ++ ts ++ owned (take c es) -> kpage t /\ MM_PHYS t ∉ A.
Proof using Type.
  intros Hx Hi. pose proof (owned_part es ts c i Hi) as Hp. split.
  - pose proof (ix_nodup _ _ _ _ _ _ Hx) as Hnd. rewrite Hp in Hnd. by apply list.NoDup_app in Hnd as (_ & _ & ?).
  - intros t Ht. apply (ix_own _ _ _ _ _ _ Hx). rewrite Hp. apply elem_of_app. by right.
Qed.

(** The blocks from [i] on are released; [w] are the direct pointers. *)
Lemma shrink_loop_run r0 es ts size A k c : indexed r0 es ts size A k -> (c <= length es)%nat -> forall n i r w f K,
  (c <= i)%nat -> (i + n = length es)%nat -> cut (l0_words es) c i w ->
  r = mk_ramfs (rf_vfs r0) (<[a := mk_priv size (Z.of_nat (length es)) w (l1_words ts)]> (rf_privs r0)) f (rf_mem r0) ->
  pa_ok f (A ∪ list_to_set (MM_PHYS <$> (owned (drop i es) ++ ts ++ owned (take c es)))) K ->
  exists w' f', for_range (shrink_step a) n (Z.of_nat i) r =
      Ret (tt, mk_ramfs (rf_vfs r0) (<[a := mk_priv size (Z.of_nat (length es)) w' (l1_words ts)]> (rf_privs r0)) f' (rf_mem r0)) /\
    cut (l0_words es) c (length es) w' /\ pa_ok f' (A ∪ list_to_set (MM_PHYS <$> (ts ++ owned (take c es)))) (K + Z.of_nat (length (owned (drop i es)))).
Proof using Type.
  intros Hx Hc. induction n as [|n IH]; intros i r w f K Hci Hin Hcut -> Hok.
  { assert (i = length es) as -> by lia. rewrite drop_ge in * by lia. exists w, f. rewrite Z.add_0_r. done. }
  cbn [for_range]. destruct (lookup_lt_is_Some_2 es i ltac:(lia)) as [e He]. destruct (part_ok _ _ _ _ _ _ c i Hx ltac:(lia)) as [Hnd HL].
  rewrite (drop_S es e i He) in Hok, Hnd, HL |- *. change (owned (e :: drop (S i) es)) with (owned ([e] ++ drop (S i) es)) in *. rewrite owned_app, <- app_assoc in Hok, Hnd, HL. rewrite owned_app.
  set (r := mk_ramfs _ _ _ _). assert (rf_privs r !! a = Some (mk_priv size (Z.of_nat (length es)) w (l1_words ts))) as Hp by apply lookup_insert_eq.
  assert (exists w1 f1, shrink_step a (Z.of_nat i) r = Ret (tt, mk_ramfs (rf_vfs r0) (<[a := mk_priv size (Z.of_nat (length es)) w1 (l1_words ts)]> (rf_privs r0)) f1 (rf_mem r0)) /\
    cut (l0_words es) c (S i) w1 /\ pa_ok f1 (A ∪ list_to_set (MM_PHYS <$> (owned (drop (S i) es) ++ ts ++ owned (take c es)))) (K + Z.of_nat (length (owned [e])))) as (w1 & f1 & E1 & Hcut1 & Hok1).
  { assert (forall b own, e = Some (b, own) -> block_ok b) as Hb by (intros b own ->; by apply (ix_block _ _ _ _ _ _ Hx i b own)).
    unfold shrink_step. step_run (priv_run _ _ Hp). cbn [bpa_l0 bpa_l1]. pose proof (ix_len _ _ _ _ _ _ Hx) as Hlen. destruct (Z.ltb_spec (Z.of_nat i) RAM_BLOCKS_L0) as [Hs|Hs].
    - unfold RAM_BLOCKS_L0 in Hs. destruct (cut_next (l0_words es) c i w Hci ltac:(rewrite length_l0; lia) Hcut) as [Ewi Hcut']. rewrite (l0_lookup es i e He ltac:(lia)) in Ewi. rewrite Nat2Z.id.
      rewrite (bind_Ret _ _ r (entw e) r) by (by apply load_Some). set (r1 := mk_ramfs (rf_vfs r0) (<[a := mk_priv size (Z.of_nat (length es)) (<[i := 0]> w) (l1_words ts)]> (rf_privs r0)) f (rf_mem r0)).
      rewrite (bind_Ret _ _ r tt r1); [|rewrite (put_l0_run r _ i 0 Hp) by (cbn [bpa_l0]; rewrite (proj1 Hcut), length_l0; lia); unfold r1, r, set_privs; cbn; by rewrite insert_insert_eq].
      destruct (free_block_run r1 A _ e K Hb Hok Hnd HL) as (f1 & E1 & Hok1). exists (<[i := 0]> w), f1. done.
    - rewrite (proj2 (Z.ltb_lt (Z.of_nat i) RAM_LIMIT)) by lia. destruct (table_at _ _ _ _ _ _ i Hx ltac:(lia) Hs) as (t & Ht & Ht'). rewrite (bind_Ret _ _ r t r) by (by apply load_Some).
      destruct (table_page _ _ _ _ _ _ _ _ Hx Ht) as (_ & Hn & _). unfold nonnull. rewrite bool_decide_eq_true_2 by done. rewrite (bind_Ret _ _ r tt r) by done.
      step_run (load_ptr_mem _ r r0 _ eq_refl (load_ptr_run _ _ _ _ _ _ _ e t Hx He Hs Ht)). destruct (free_block_run r A _ e K Hb Hok Hnd HL) as (f1 & E1 & Hok1).
      exists w, f1. split; [done|]. split; [|done]. apply cut_skip; [|done]. rewrite length_l0. unfold RAM_BLOCKS_L0 in Hs. lia. }
  step_run E1. replace (Z.of_nat i + 1) with (Z.of_nat (S i)) by lia. destruct (IH (S i) _ w1 f1 _ ltac:(lia) ltac:(lia) Hcut1 eq_refl Hok1) as (w2 & f2 & E2 & Hcut2 & Hok2).
  exists w2, f2. split; [done|]. split; [done|]. rewrite length_app. replace (K + Z.of_nat (length (owned [e]) + length (owned (drop (S i) es)))) with (K + Z.of_nat (length (owned [e])) + Z.of_nat (length (owned (drop (S i) es)))) by lia. done.
Qed.

(** The tables from [i] on are released. *)
Lemma free_tables_run ts A U c : (c <= length ts <= 24)%nat -> NoDup (ts ++ U) -> (forall t, t ∈ ts ++ U -> kpage t /\ MM_PHYS t ∉ A) -> forall n i r p v f K,
  (c <= i)%nat -> (i + n = length ts)%nat -> cut (l1_words ts) c i v -> rf_privs r !! a = Some (mk_priv (rp_size p) (bpa_cap p) (bpa_l0 p) v) -> rf_frames r = f ->
  pa_ok f (A ∪ list_to_set (MM_PHYS <$> (drop i ts ++ take c ts ++ U))) K ->
  exists v' f', for_range (free_l1 a) n (Z.of_nat i) r = Ret (tt, mk_ramfs (rf_vfs r) (<[a := mk_priv (rp_size p) (bpa_cap p) (bpa_l0 p) v']> (rf_privs r)) f' (rf_mem r)) /\
    cut (l1_words ts) c (length ts) v' /\ pa_ok f' (A ∪ list_to_set (MM_PHYS <$> (take c ts ++ U))) (K + Z.of_nat (length ts - i)).
Proof using Type.
  intros Hc Hnd Hown. induction n as [|n IH]; intros i r p v f K Hci Hin Hcut Hp Hf Hok.
  { assert (i = length ts) as -> by lia. rewrite drop_ge in Hok by lia. rewrite Nat.sub_diag, Z.add_0_r. exists v, f. split; [|done]. cbn [for_range]. rewrite insert_id by done. destruct r. cbn in *. by subst. }
  cbn [for_range]. destruct (lookup_lt_is_Some_2 ts i ltac:(lia)) as [t Ht]. rewrite (drop_S ts t i Ht) in Hok. cbn [app] in Hok.
  assert (ts ++ U ≡ₚ take (i - c) (drop c ts) ++ (drop i ts ++ take c ts ++ U)) as Hperm.
  { assert (ts = take c ts ++ take (i - c) (drop c ts) ++ drop i ts) as E.
    { rewrite <- (take_drop c ts) at 1. f_equal. rewrite <- (take_drop (i - c) (drop c ts)) at 1. f_equal. rewrite drop_drop. f_equal. lia. }
    rewrite E at 1. rewrite <- !app_assoc. rewrite Permutation_app_swap_app. apply Permutation_app_head. apply Permutation_app_swap_app. }
  rewrite (drop_S ts t i Ht) in Hperm. cbn [app] in Hperm. pose proof Hnd as Hnd'. rewrite Hperm in Hnd'. apply list.NoDup_app in Hnd' as (_ & _ & Hnd').
  assert (forall x, x ∈ t :: drop (S i) ts ++ take c ts ++ U -> kpage x /\ MM_PHYS x ∉ A) as Hown' by (intros x Hxx; apply Hown; rewrite Hperm; apply elem_of_app; by right).
  assert (length (l1_words ts) = 24%nat) as H24 by (unfold l1_words; rewrite length_app, length_replicate; lia).
  destruct (cut_next (l1_words ts) c i v Hci ltac:(lia) Hcut) as [Ev Hcut']. rewrite (l1_lookup ts i t Ht) in Ev.
  destruct (free_frame_run r A (t :: drop (S i) ts ++ take c ts ++ U) (drop (S i) ts ++ take c ts ++ U) t K) as (f1 & E1 & Hok1); [by rewrite Hf|done|done|done|].
  set (r1 := mk_ramfs (rf_vfs r) (<[a := mk_priv (rp_size p) (bpa_cap p) (bpa_l0 p) (<[i := 0]> v)]> (rf_privs r)) f1 (rf_mem r)).
  assert (free_l1 a (Z.of_nat i) r = Ret (tt, r1)) as Estep.
  { unfold free_l1. step_run (priv_run _ _ Hp). cbn [bpa_l1]. rewrite Nat2Z.id. rewrite (bind_Ret _ _ r t r) by (by apply load_Some).
    destruct (Hown' t (list_elem_of_here _ _)) as [Hkt _]. assert (t <> 0) by (pose proof (kpage_range t Hkt) as [Hr _]; unfold KERNEL_VIRT_BASE in Hr; lia).
    unfold nonnull. rewrite bool_decide_eq_true_2 by done. rewrite (bind_Ret _ _ r tt r) by done. step_run E1.
    rewrite (put_l1_run (set_rframes f1 r) _ i 0 Hp) by (cbn [bpa_l1]; rewrite (proj1 Hcut); lia). done. }
  step_run Estep. replace (Z.of_nat i + 1) with (Z.of_nat (S i)) by lia.
  destruct (IH (S i) r1 p (<[i := 0]> v) f1 (K + 1) ltac:(lia) ltac:(lia) Hcut' (lookup_insert_eq _ _ _) eq_refl Hok1) as (v2 & f2 & E2 & Hcut2 & Hok2).
  exists v2, f2. split; [rewrite E2; unfold r1; cbn; by rewrite insert_insert_eq|]. split; [done|]. replace (K + Z.of_nat (length ts - i)) with (K + 1 + Z.of_nat (length ts - S i)) by lia. done.
Qed.

Lemma tables_old n : 0 <= n -> (n + RAM_BLOCKS_PER_Ln - RAM_BLOCKS_L0 - 1) / RAM_BLOCKS_PER_Ln = tables_for n.
Proof using Type.
  intros Hn. unfold tables_for, RAM_BLOCKS_PER_Ln, RAM_BLOCKS_L0. replace (n - 32 + 512 - 1) with (n + 512 - 32 - 1) by lia. symmetry. apply Z.max_r. apply Z.div_pos; lia.
Qed.

Lemma resize_down_run r es ts size A k size' : indexed r es ts size A k -> 0 <= size' -> blocks_for size' < Z.of_nat (length es) ->
  exists r', ram_vnode_bset_resize vn size' r = Ret (0, r') /\ beside ts r r' /\
    indexed r' (take (Z.to_nat (blocks_for size')) es) (take (Z.to_nat (tables_for (blocks_for size'))) ts) size' A
      (k + Z.of_nat (length (owned (drop (Z.to_nat (blocks_for size')) es))) + (tables_for (Z.of_nat (length es)) - tables_for (blocks_for size'))).
Proof using Type.
  intros Hx H0 Hl. destruct (blocks_range size' H0) as [Hb0 Hbs]. pose proof (ix_len _ _ _ _ _ _ Hx) as Hlim. pose proof (ix_tabs _ _ _ _ _ _ Hx) as Hts.
  unfold ram_vnode_bset_resize. step_run (fs_data_run _ _ _ _ _ _ Hx). pose proof (ix_priv _ _ _ _ _ _ Hx) as Hp. step_run (priv_run _ _ Hp). cbn [bpa_cap].
  assert (u64 (size' + 511) / 512 = blocks_for size') as ->.
  { unfold blocks_for. rewrite uwrap_small; [done|]. unfold RAM_LIMIT, RAM_MAX_L1, RAM_BLOCKS_L0, RAM_BLOCKS_L1, RAM_BLOCKS_PER_Ln in *. lia. }
  cbn zeta. rewrite (proj2 (Z.ltb_lt _ _)) by lia. set (cz := blocks_for size') in *. set (c := Z.to_nat cz). set (n := Z.of_nat (length es)) in *.
  pose proof (tables_mono cz n ltac:(lia)) as Hmono. pose proof (tables_range n ltac:(lia)) as H24. pose proof (tables_range cz ltac:(lia)) as H24'.
  destruct (shrink_loop_run r es ts size A k c Hx ltac:(lia) (Z.to_nat (n - cz)) c r (l0_words es) (rf_frames r) k ltac:(lia) ltac:(lia) (cut_start _ _)) as (w & f & E1 & Hcut & Hok1).
  { rewrite insert_id by exact Hp. by destruct r. }
  { replace (A ∪ list_to_set (MM_PHYS <$> (owned (drop c es) ++ ts ++ owned (take c es)))) with (A ∪ list_to_set (MM_PHYS <$> (ts ++ owned es)) : gset Z); [exact (ix_frames _ _ _ _ _ _ Hx)|].
    f_equal. apply list_to_set_perm_L, fmap_Permutation. rewrite (owned_part es ts c c) by lia. by rewrite Nat.sub_diag. }
  set (r1 := mk_ramfs _ _ f _) in E1. replace (Z.of_nat c) with cz in E1 by lia.
  set (nt := Z.to_nat (tables_for cz)). set (K1 := k + Z.of_nat (length (owned (drop c es)))) in *.
  assert (exists f2, (if (RAM_BLOCKS_L0 <? n) && (cz <=? RAM_LIMIT) then
       cassert ((cz + RAM_BLOCKS_PER_Ln - RAM_BLOCKS_L0 - 1) / RAM_BLOCKS_PER_Ln <=? Z.min ((n - RAM_BLOCKS_L0 + RAM_BLOCKS_PER_Ln - 1) / RAM_BLOCKS_PER_Ln) RAM_BLOCKS_L1);;
       for_range (free_l1 a) (Z.to_nat (Z.min ((n - RAM_BLOCKS_L0 + RAM_BLOCKS_PER_Ln - 1) / RAM_BLOCKS_PER_Ln) RAM_BLOCKS_L1 - (cz + RAM_BLOCKS_PER_Ln - RAM_BLOCKS_L0 - 1) / RAM_BLOCKS_PER_Ln))
         ((cz + RAM_BLOCKS_PER_Ln - RAM_BLOCKS_L0 - 1) / RAM_BLOCKS_PER_Ln)
     else mret tt) r1 = Ret (tt, mk_ramfs (rf_vfs r) (<[a := mk_priv size n w (l1_words (take nt ts))]> (rf_privs r)) f2 (rf_mem r)) /\
    pa_ok f2 (A ∪ list_to_set (MM_PHYS <$> (take nt ts ++ owned (take c es)))) (K1 + (tables_for n - tables_for cz))) as (f2 & E2 & Hok2).
  { destruct (Z.ltb_spec RAM_BLOCKS_L0 n) as [Hbig|Hsmall].
    2:{ rewrite (tables_small n) in * by lia. assert (ts = []) as -> by (apply length_zero_iff_nil; lia). exists f. rewrite take_nil. replace (K1 + (0 - tables_for cz)) with K1 by lia. done. }
    rewrite (proj2 (Z.leb_le cz RAM_LIMIT)) by lia. cbn [andb]. rewrite tables_old by lia. replace ((n - RAM_BLOCKS_L0 + RAM_BLOCKS_PER_Ln - 1) / RAM_BLOCKS_PER_Ln) with (tables_for n).
    2:{ rewrite <- tables_old by lia. f_equal. lia. }
    rewrite Z.min_l by (unfold RAM_BLOCKS_L1; lia). rewrite (proj2 (Z.leb_le _ _)) by lia. rewrite (bind_Ret _ _ r1 tt r1) by done.
    destruct (part_ok _ _ _ _ _ _ c (length es) Hx ltac:(lia)) as [Hnd HL]. rewrite drop_ge in Hnd, HL by lia. cbn [owned omap list_omap app] in Hnd, HL.
    destruct (free_tables_run ts A (owned (take c es)) nt ltac:(lia) Hnd HL (Z.to_nat (tables_for n - tables_for cz)) nt r1 (mk_priv size n w []) (l1_words ts) f K1) as (v & f2 & E2 & Hcut2 & Hok2);
      [lia|lia|apply cut_start|apply lookup_insert_eq|done| |].
    { replace (A ∪ list_to_set (MM_PHYS <$> (drop nt ts ++ take nt ts ++ owned (take c es)))) with (A ∪ list_to_set (MM_PHYS <$> (ts ++ owned (take c es))) : gset Z); [exact Hok1|].
      f_equal. apply list_to_set_perm_L, fmap_Permutation. rewrite <- (take_drop nt ts) at 1. rewrite <- app_assoc. apply Permutation_app_swap_app. }
    replace (Z.of_nat nt) with (tables_for cz) in E2 by lia. apply cut_l1 in Hcut2; [|lia]. subst v. exists f2. split; [rewrite E2; unfold r1; cbn; by rewrite insert_insert_eq|].
    replace (K1 + (tables_for n - tables_for cz)) with (K1 + Z.of_nat (length ts - nt)) by lia. done. }
  rewrite (bind_Ret _ _ r tt (mk_ramfs (rf_vfs r) (<[a := mk_priv size n w (l1_words (take nt ts))]> (rf_privs r)) f2 (rf_mem r))); [|step_run E1; exact E2].
  set (r2 := mk_ramfs _ _ f2 _). rewrite (bind_Ret _ _ r2 (mk_priv size n w (l1_words (take nt ts))) r2) by (apply load_Some, lookup_insert_eq). cbn [bpa_l0 bpa_l1].
  apply cut_l0 in Hcut; [|lia]. subst w. eexists. split; [reflexivity|]. split.
  { split; [done|]. split; [|done]. intros q Hq. cbn. rewrite insert_insert_eq. by rewrite lookup_insert_ne. }
  assert (length (take c es) = c) as Elc by (rewrite length_take; lia). assert (length (take nt ts) = nt) as Elt by (rewrite length_take; lia).
  destruct Hx as [F1 F2 F3 F4 F5 F6 F7 F8 F9 F10 F11]. unfold r2, set_privs. cbn [rf_vfs rf_privs rf_frames rf_mem]. rewrite insert_insert_eq.
  split; cbn [rf_vfs rf_privs rf_frames rf_mem]; rewrite ?Elc, ?Elt.
  - done.
  - rewrite lookup_insert_eq. do 2 f_equal. lia.
  - lia.
  - replace (Z.of_nat c) with cz by lia. lia.
  - intros j t i e [Ht _]%lookup_take_Some [He _]%lookup_take_Some. by apply F5.
  - intros i b own [He _]%lookup_take_Some. by apply F6 in He.
  - intros i j b o o' [Hi _]%lookup_take_Some [Hj _]%lookup_take_Some. by apply (F7 i j b o o').
  - rewrite (owned_part es ts c (length es)) in F8 by lia. rewrite (drop_ge es (length es)) in F8 by lia. cbn [owned omap list_omap app] in F8. apply list.NoDup_app in F8 as (_ & _ & F8).
    rewrite <- (take_drop nt ts) in F8. rewrite <- app_assoc, Permutation_app_swap_app in F8. by apply list.NoDup_app in F8 as (_ & _ & ?).
  - intros t Ht. apply F9. apply elem_of_app in Ht as [Ht|Ht]; apply elem_of_app; [left|right].
    + apply list_elem_of_lookup_1 in Ht as [i [Hi _]%lookup_take_Some]. by apply list_elem_of_lookup_2 in Hi.
    + apply elem_of_owned in Ht as [i [Hi _]%lookup_take_Some]. apply elem_of_owned. by exists i.
  - done.
  - exact Hok2.
Qed.

(** ** Files as lists of bytes

    The file holds [l]; [k] frames are free and [held] are the file's. *)
Definition contents r (l : list Z) A (k held : Z) : Prop := exists es ts, indexed r es ts (Z.of_nat (length l)) A k /\ Forall is_Some es /\
  Z.of_nat (length ts + length (owned es)) = held /\ Z.of_nat (length es) = blocks_for (Z.of_nat (length l)) /\ forall i, 0 <= i < Z.of_nat (length l) -> fbyte (rf_mem r) es i = l !! Z.to_nat i.
(** The frames a file of [n] bytes takes when none of its blocks is in the image. *)
Definition frames_for (n : Z) : Z := blocks_for n + tables_for (blocks_for n).
(** [f] is open on the file, at position [pos]. *)
Definition opened r (f pos : Z) : Prop := exists o, ofiles (rf_vfs r) !! f = Some o /\ of_vnode o = vn /\ of_pos o = pos.

Lemma blocks_mono n m : 0 <= n <= m -> blocks_for n <= blocks_for m.
Proof using Type. intros Hn. apply Z.div_le_mono; lia. Qed.

Lemma set_pos_run r f pos pos' es ts size A k : opened r f pos -> indexed r es ts size A k ->
  exists r', set_pos f pos' r = Ret (tt, r') /\ opened r' f pos' /\ indexed r' es ts size A k /\ rf_mem r' = rf_mem r.
Proof using Type.
  intros (o & Eo & Ev & _) Hx. unfold set_pos, on_vfs, czoom, oupdate, oget.
  rewrite (bind_Ret _ _ (rf_vfs r) o (rf_vfs r)) by (by apply load_Some). cbn. eexists. split; [reflexivity|]. split.
  - eexists. cbn. rewrite lookup_insert_eq. split; [done|]. done.
  - split; [|done]. destruct Hx as [F1 F2 F3 F4 F5 F6 F7 F8 F9 F10 F11]. by split.
Qed.

(** A file that grew: the old bytes are where they were. *)
Lemma fbyte_beside r r' es bs ts ts' size size' A k k' i : indexed r es ts size A k -> indexed r' (es ++ bs) ts' size' A k' -> beside ts' r r' ->
  0 <= i < 512 * Z.of_nat (length es) -> fbyte (rf_mem r') (es ++ bs) i = fbyte (rf_mem r) es i.
Proof using Type.
  intros Hx Hx' (_ & _ & M) Hi. unfold fbyte. assert (i / 512 < Z.of_nat (length es)) by (apply Z.div_lt_upper_bound; lia). assert (0 <= i / 512) by (apply Z.div_pos; lia).
  rewrite lookup_app_l by lia. destruct (es !! Z.to_nat (i / 512)) as [[[b own]|]|] eqn:E; [|done|done].
  rewrite M; [done|]. apply (block_not_table r' (es ++ bs) ts' size' A k' (Z.to_nat (i / 512)) b own Hx'). rewrite lookup_app_l by lia. done.
Qed.

Lemma node_data r es ts size A k f pos : opened r f pos -> indexed r es ts size A k -> exists o, on_vfs (oget f) r = Ret (o, r) /\ of_vnode o = vn /\ of_pos o = pos.
Proof using Type. intros (o & Eo & Ev & Ep) Hx. exists o. split; [|done]. unfold on_vfs, czoom, oget, cload. rewrite Eo. by destruct r. Qed.

Lemma grow_contents r l A k h n : contents r l A k h -> Z.of_nat (length l) < n -> blocks_for n <= RAM_LIMIT -> frames_for n - frames_for (Z.of_nat (length l)) <= k ->
  exists r' es ts, grow_file vn n r = Ret (tt, r') /\ indexed r' es ts n A (k - (frames_for n - frames_for (Z.of_nat (length l)))) /\ Forall is_Some es /\
    Z.of_nat (length es) = blocks_for n /\ rf_vfs r' = rf_vfs r /\ Z.of_nat (length ts + length (owned es)) = h + (frames_for n - frames_for (Z.of_nat (length l))) /\
    forall i, 0 <= i < Z.of_nat (length l) -> fbyte (rf_mem r') es i = l !! Z.to_nat i.
Proof using Type.
  intros (es & ts & Hx & Hf & Hh & El & Hb) Hn Hlim Hk. unfold frames_for in *. pose proof (blocks_mono (Z.of_nat (length l)) n ltac:(lia)). pose proof (blocks_range (Z.of_nat (length l)) ltac:(lia)).
  destruct (grow_file_run r es ts _ A k n Hx ltac:(lia) ltac:(lia)) as (r' & ts' & bs & E & B & El' & Hfb & Ho & Hx'); [rewrite El; lia|].
  rewrite El in Hx'. exists r', (es ++ bs), ts'. split; [done|]. split.
  { replace (k - (blocks_for n + tables_for (blocks_for n) - (blocks_for (Z.of_nat (length l)) + tables_for (blocks_for (Z.of_nat (length l)))))) with
      (k - (tables_for (blocks_for n) - tables_for (blocks_for (Z.of_nat (length l)))) - (blocks_for n - blocks_for (Z.of_nat (length l)))) by lia. exact Hx'. }
  split; [by apply list.Forall_app|]. split; [done|]. split; [exact (proj1 B)|]. split.
  { pose proof (ix_tabs _ _ _ _ _ _ Hx) as Ht. pose proof (ix_tabs _ _ _ _ _ _ Hx') as Ht'. rewrite owned_app, !length_app in *. rewrite El' in Ht'. rewrite El in Ht. lia. }
  intros i Hi. rewrite (fbyte_beside r r' es bs ts ts' _ _ A k _ i Hx Hx' B) by lia. by apply Hb.
Qed.

Lemma fbyte_some r es ts size A k i : indexed r es ts size A k -> Forall is_Some es -> 0 <= i < 512 * Z.of_nat (length es) -> is_Some (fbyte (rf_mem r) es i).
Proof using Type.
  intros Hx Hf Hi. destruct (entry_at es ts r size A k i Hx Hf Hi) as (b & own & He & Hb). unfold fbyte. rewrite He. destruct (ix_mem _ _ _ _ _ _ Hx (vpage b) (proj2 Hb)) as (pg & -> & El). cbn.
  destruct (ram_block_place b Hb) as [Hr _]. pose proof (Z.mod_pos_bound i 512 ltac:(done)). apply lookup_lt_is_Some_2. lia.
Qed.

Lemma truncate_start r l A k h n : contents r l A k h -> a ≠ 0 -> ramfs_vnode_truncate vn n r =
  (if Z.of_nat (length l) <? n then grow_file vn n;; mret 0 else if n <? Z.of_nat (length l) then r ← ram_vnode_bset_resize vn n; cassert (r =? 0);; mret 0 else mret 0) r.
Proof using Type.
  intros (es & ts & Hx & _) Ha. unfold ramfs_vnode_truncate. step_run (fs_data_run _ _ _ _ _ _ Hx). unfold nonnull. rewrite bool_decide_eq_true_2 by done. rewrite (bind_Ret _ _ r tt r) by done.
  by step_run (priv_run _ _ (ix_priv _ _ _ _ _ _ Hx)).
Qed.

Lemma truncate_up_run r l A k h n : contents r l A k h -> a ≠ 0 -> Z.of_nat (length l) < n -> blocks_for n <= RAM_LIMIT -> frames_for n - frames_for (Z.of_nat (length l)) <= k ->
  exists r' junk, ramfs_vnode_truncate vn n r = Ret (0, r') /\ Z.of_nat (length (l ++ junk)) = n /\
    contents r' (l ++ junk) A (k - (frames_for n - frames_for (Z.of_nat (length l)))) (h + (frames_for n - frames_for (Z.of_nat (length l)))) /\ rf_vfs r' = rf_vfs r.
Proof using Type.
  intros Hc Ha Hn Hlim Hk. destruct (grow_contents r l A k h n Hc Hn Hlim Hk) as (r' & es' & ts' & E & Hx' & Hf' & El' & V & Hh' & B).
  set (junk := (fun i => default 0 (fbyte (rf_mem r') es' i)) <$> seqZ (Z.of_nat (length l)) (n - Z.of_nat (length l))). assert (Z.of_nat (length (l ++ junk)) = n) as Ej by (unfold junk; rewrite length_app, length_fmap, length_seqZ; lia).
  exists r', junk. rewrite (truncate_start _ _ _ _ _ _ Hc Ha). rewrite (proj2 (Z.ltb_lt _ _)) by lia. split; [by step_run E|]. split; [done|]. split; [|done].
  exists es', ts'. rewrite Ej. split; [done|]. split; [done|]. split; [done|]. split; [done|]. intros i Hi. pose proof (blocks_range n ltac:(lia)). destruct (decide (i < Z.of_nat (length l))) as [Hlt|Hge].
  - rewrite lookup_app_l by lia. apply B. lia.
  - rewrite lookup_app_r by lia. unfold junk. rewrite list_lookup_fmap, (lookup_seqZ_lt _ _ (Z.to_nat i - length l)) by lia. cbn. replace (Z.of_nat (length l) + Z.of_nat (Z.to_nat i - length l)) with i by lia.
    destruct (fbyte_some r' es' ts' n _ _ i Hx' Hf' ltac:(lia)) as [x ->]. done.
Qed.

Lemma resize_same_run r es ts size A k n : indexed r es ts size A k -> 0 <= n -> Z.of_nat (length es) = blocks_for n ->
  exists r', ram_vnode_bset_resize vn n r = Ret (0, r') /\ indexed r' es ts n A k /\ rf_vfs r' = rf_vfs r /\ rf_mem r' = rf_mem r.
Proof using Type.
  intros Hx Hn El. pose proof (ix_len _ _ _ _ _ _ Hx) as Hlim. unfold ram_vnode_bset_resize. step_run (fs_data_run _ _ _ _ _ _ Hx). step_run (priv_run _ _ (ix_priv _ _ _ _ _ _ Hx)). cbn [bpa_cap].
  assert (u64 (n + 511) / 512 = blocks_for n) as ->.
  { unfold blocks_for. rewrite uwrap_small; [done|]. pose proof (blocks_range n Hn). unfold RAM_LIMIT, RAM_MAX_L1, RAM_BLOCKS_L0, RAM_BLOCKS_L1, RAM_BLOCKS_PER_Ln in *. lia. }
  cbn zeta. rewrite <- El, Z.ltb_irrefl, Z.sub_diag. cbn [Z.to_nat for_range]. rewrite (bind_Ret _ _ r tt r) by done. step_run (priv_run _ _ (ix_priv _ _ _ _ _ _ Hx)).
  eexists. split; [reflexivity|]. split; [|done]. by eapply resizing_end, resizing_start.
Qed.

Lemma truncate_down_run r l A k h n : contents r l A k h -> a ≠ 0 -> 0 <= n < Z.of_nat (length l) ->
  exists r' k' h', ramfs_vnode_truncate vn n r = Ret (0, r') /\ contents r' (take (Z.to_nat n) l) A k' h' /\ k' + h' = k + h /\ rf_vfs r' = rf_vfs r.
Proof using Type.
  intros Hc Ha Hn. rewrite (truncate_start _ _ _ _ _ _ Hc Ha). rewrite (proj2 (Z.ltb_ge _ _)) by lia. rewrite (proj2 (Z.ltb_lt _ _)) by lia. destruct Hc as (es & ts & Hx & Hf & Hh & El & Hb).
  pose proof (blocks_mono n (Z.of_nat (length l)) ltac:(lia)) as Hm. assert (Z.of_nat (length (take (Z.to_nat n) l)) = n) as En by (rewrite length_take; lia).
  pose proof (blocks_range n ltac:(lia)) as Hbn. destruct (decide (blocks_for n = Z.of_nat (length es))) as [Eq|Hne].
  - destruct (resize_same_run r es ts _ A k n Hx ltac:(lia) ltac:(lia)) as (r' & E & Hx' & V & M). exists r', k, h. split; [by step_run E|]. split; [|done].
    exists es, ts. rewrite En. split; [done|]. split; [done|]. split; [done|]. split; [lia|]. intros i Hi. rewrite M, Hb by lia. by rewrite lookup_take_lt by lia.
  - destruct (resize_down_run r es ts _ A k n Hx ltac:(lia) ltac:(lia)) as (r' & E & (V & _ & M) & Hx'). eexists r', _, _. split; [by step_run E|]. split; [|split; [|done]].
    + eexists _, _. rewrite En. split; [exact Hx'|]. split; [by apply Forall_take|]. split; [reflexivity|]. split; [rewrite length_take; lia|]. intros i Hi. rewrite lookup_take_lt by lia. rewrite <- Hb by lia.
      unfold fbyte. assert (i / 512 < blocks_for n) by (apply Z.div_lt_upper_bound; lia). assert (0 <= i / 512) by (apply Z.div_pos; lia). rewrite lookup_take_lt by lia.
      destruct (es !! Z.to_nat (i / 512)) as [[[b own]|]|] eqn:Ei; [|done|done]. rewrite M; [done|]. exact (block_not_table _ _ _ _ _ _ _ _ _ Hx Ei).
    + pose proof (ix_tabs _ _ _ _ _ _ Hx) as Ht. pose proof (tables_mono (blocks_for n) (Z.of_nat (length es)) ltac:(lia)). pose proof (tables_range (blocks_for n) ltac:(pose proof (ix_len _ _ _ _ _ _ Hx); lia)).
      rewrite length_take. assert (length (owned es) = length (owned (take (Z.to_nat (blocks_for n)) es)) + length (owned (drop (Z.to_nat (blocks_for n)) es)))%nat as Eo by (rewrite <- length_app, <- owned_app, take_drop; done). lia.
Qed.

Lemma owned_length es : (length (owned es) <= length es)%nat.
Proof using Type.
  induction es as [|e es IH]; [done|]. change (owned (e :: es)) with (owned ([e] ++ es)). rewrite owned_app, length_app. cbn [length].
  assert (length (owned [e]) <= 1)%nat by (destruct e as [[b []]|]; cbn; lia). lia.
Qed.
(** What a file holds is never more than its size needs. *)
Lemma held_bound r l A k h : contents r l A k h -> 0 <= h <= frames_for (Z.of_nat (length l)).
Proof using Type.
  intros (es & ts & Hx & _ & <- & El & _). pose proof (ix_tabs _ _ _ _ _ _ Hx) as Ht. rewrite El in Ht. unfold frames_for. pose proof (owned_length es). lia.
Qed.

Lemma write_contents r l A k h f pos buf : contents r l A k h -> a ≠ 0 -> vn ≠ 0 -> opened r f pos -> 0 <= pos <= Z.of_nat (length l) ->
  let n := Z.max (Z.of_nat (length l)) (pos + Z.of_nat (length buf)) in let d := frames_for n - frames_for (Z.of_nat (length l)) in
  blocks_for n <= RAM_LIMIT -> d <= k ->
  exists r', ramfs_vnode_write f buf r = Ret (Z.of_nat (length buf), r') /\ opened r' f (pos + Z.of_nat (length buf)) /\
    contents r' (take (Z.to_nat pos) l ++ buf ++ drop (Z.to_nat pos + length buf) l) A (k - d) (h + d).
Proof using Type.
  intros Hc Ha Hvn Ho Hpos n d Hlim Hd. pose proof Hc as (es & ts & Hx & Hf & Hh & El & Hb). destruct (node_data _ _ _ _ _ _ _ _ Ho Hx) as (o & Eo & Ev & Ep). pose proof (blocks_range n ltac:(lia)) as Hbn.
  unfold ramfs_vnode_write. step_run Eo. rewrite Ev, Ep. unfold nonnull. rewrite !bool_decide_eq_true_2 by done. rewrite (bind_Ret _ _ r tt r) by done. step_run (fs_data_run _ _ _ _ _ _ Hx).
  rewrite (bool_decide_eq_true_2 (a ≠ 0)) by done. rewrite (bind_Ret _ _ r tt r) by done. step_run (priv_run _ _ (ix_priv _ _ _ _ _ _ Hx)). cbn [rp_size]. cbn zeta. rewrite (proj2 (Z.ltb_ge _ _)) by lia.
  assert (n < 2 ^ 63) as Hn63 by (unfold RAM_LIMIT, RAM_MAX_L1, RAM_BLOCKS_L0, RAM_BLOCKS_L1, RAM_BLOCKS_PER_Ln in *; lia). rewrite uwrap_small by lia.
  assert (exists r1 es1 ts1, (if Z.of_nat (length l) <? pos + Z.of_nat (length buf) then grow_file vn (pos + Z.of_nat (length buf)) else mret tt) r = Ret (tt, r1) /\ indexed r1 es1 ts1 n A (k - d) /\ Forall is_Some es1 /\
    Z.of_nat (length es1) = blocks_for n /\ rf_vfs r1 = rf_vfs r /\ Z.of_nat (length ts1 + length (owned es1)) = h + d /\
    forall i, 0 <= i < Z.of_nat (length l) -> fbyte (rf_mem r1) es1 i = l !! Z.to_nat i) as (r1 & es1 & ts1 & E1 & Hx1 & Hf1 & El1 & V1 & Hh1 & B1).
  { destruct (Z.ltb_spec (Z.of_nat (length l)) (pos + Z.of_nat (length buf))) as [Hgt|Hle].
    - assert (n = pos + Z.of_nat (length buf)) as <- by lia. apply (grow_contents r l A k h n); [done|lia|done|done].
    - assert (n = Z.of_nat (length l)) as En by lia. assert (d = 0) as Ed by (unfold d; rewrite En; lia). exists r, es, ts. rewrite Ed, En, Z.sub_0_r, Z.add_0_r. done. }
  step_run E1. destruct (write_loop_run (length buf) buf r1 es1 ts1 n A _ pos Hx1 Hf1 ltac:(lia) ltac:(lia) ltac:(lia)) as (r2 & E2 & Hx2 & V2 & P2 & B2). step_run E2.
  assert (opened r2 f pos) as Ho2 by (unfold opened; rewrite V2, V1; exact Ho). destruct (set_pos_run r2 f pos (pos + Z.of_nat (length buf)) _ _ _ _ _ Ho2 Hx2) as (r3 & E3 & Ho3 & Hx3 & M3).
  exists r3. split; [by step_run E3|]. split; [done|]. assert (Z.of_nat (length (take (Z.to_nat pos) l ++ buf ++ drop (Z.to_nat pos + length buf) l)) = n) as En.
  { rewrite !length_app, length_take, length_drop. lia. }
  exists es1, ts1. rewrite En. split; [done|]. split; [done|]. split; [done|]. split; [done|]. intros i Hi. rewrite M3, B2 by lia. destruct (decide (pos <= i < pos + Z.of_nat (length buf))) as [Hin|Hout].
  - rewrite lookup_app_r by (rewrite length_take; lia). rewrite lookup_app_l by (rewrite length_take; lia). f_equal. rewrite length_take. lia.
  - destruct (decide (i < pos)).
    + rewrite lookup_app_l by (rewrite length_take; lia). rewrite lookup_take_lt by lia. apply B1. lia.
    + rewrite lookup_app_r by (rewrite length_take; lia). rewrite lookup_app_r by (rewrite length_take; lia). rewrite lookup_drop, B1 by lia. f_equal. rewrite length_take. lia.
Qed.

Lemma read_contents r l A k h f pos count : contents r l A k h -> a ≠ 0 -> opened r f pos -> 0 <= pos -> 0 <= count ->
  let res := take (Z.to_nat count) (drop (Z.to_nat pos) l) in
  exists r', ramfs_vnode_read f count r = Ret ((Z.of_nat (length res), res), r') /\ opened r' f (Z.min (pos + Z.of_nat (length res)) (Z.of_nat (length l))) /\ contents r' l A k h.
Proof using Type.
  intros Hc Ha Ho Hpos Hcnt res. pose proof Hc as (es & ts & Hx & Hf & Hh & El & Hb). destruct (node_data _ _ _ _ _ _ _ _ Ho Hx) as (o & Eo & Ev & Ep).
  assert (forall r', indexed r' es ts (Z.of_nat (length l)) A k -> rf_mem r' = rf_mem r -> contents r' l A k h) as Hkeep.
  { intros r' Hx' M. exists es, ts. split; [done|]. split; [done|]. split; [done|]. split; [done|]. by rewrite M. }
  unfold ramfs_vnode_read. step_run Eo. rewrite Ev, Ep. step_run (fs_data_run _ _ _ _ _ _ Hx). unfold nonnull. rewrite bool_decide_eq_true_2 by done. rewrite (bind_Ret _ _ r tt r) by done.
  step_run (priv_run _ _ (ix_priv _ _ _ _ _ _ Hx)). cbn [rp_size]. destruct (Z.leb_spec (Z.of_nat (length l)) pos) as [Hge|Hlt].
  - assert (res = []) as -> by (unfold res; rewrite drop_ge by lia; apply take_nil). destruct (set_pos_run r f pos (Z.of_nat (length l)) _ _ _ _ _ Ho Hx) as (r' & E & Ho' & Hx' & M).
    exists r'. split; [by step_run E|]. cbn [length]. rewrite Z.add_0_r, Z.min_r by lia. split; [done|]. by apply Hkeep.
  - cbn zeta. set (rem := Z.min count (Z.of_nat (length l) - pos)). pose proof (blocks_range (Z.of_nat (length l)) ltac:(lia)).
    destruct (read_loop_run (Z.to_nat rem) r es ts _ A k pos rem [] Hx Hf Hpos ltac:(lia) ltac:(lia) ltac:(lia)) as (l' & E1 & Ell & B). cbn [app] in E1.
    assert (l' = res) as ->.
    { apply list_eq_same_length with (length l'); [unfold res; rewrite length_take, length_drop; lia|done|]. intros i x y Hi Hx' Hy. unfold res in Hy. rewrite lookup_take_lt, lookup_drop in Hy by lia.
      specialize (B (Z.of_nat i) ltac:(lia)). rewrite Nat2Z.id, Hb in B by lia. replace (Z.to_nat (pos + Z.of_nat i)) with (Z.to_nat pos + i)%nat in B by lia. congruence. }
    step_run E1. cbn [fst snd]. destruct (set_pos_run r f pos (pos + rem) _ _ _ _ _ Ho Hx) as (r' & E & Ho' & Hx' & M).
    exists r'. split; [by step_run E|]. rewrite Ell, Z.min_l by lia. split; [done|]. by apply Hkeep.
Qed.
End file.

(** C19: writing to a file in memory.  On a file that holds [l], opened at a position up
    to its end, a write that stays below the largest size and finds frames enough puts
    all of its bytes: the file then holds [l] with the range replaced (and extended when
    the range goes past the end), the position moves on, and exactly the frames that the
    growth needs were taken. *)
Theorem ram_write_contents {P} `{PageAlloc P} vn a (r : ramfs P) l A k h f pos buf :
  contents vn a r l A k h -> a ≠ 0 -> vn ≠ 0 -> opened vn r f pos -> 0 <= pos <= Z.of_nat (length l) ->
  let n := Z.max (Z.of_nat (length l)) (pos + Z.of_nat (length buf)) in let d := frames_for n - frames_for (Z.of_nat (length l)) in
  blocks_for n <= RAM_LIMIT -> d <= k ->
  exists r', ramfs_vnode_write f buf r = Ret (Z.of_nat (length buf), r') /\ opened vn r' f (pos + Z.of_nat (length buf)) /\
    contents vn a r' (take (Z.to_nat pos) l ++ buf ++ drop (Z.to_nat pos + length buf) l) A (k - d) (h + d).
Proof. apply write_contents. Qed.

(** Reading returns the bytes from the position on, as many as asked for or as there
    are, and changes nothing but the position. *)
Theorem ram_read_contents {P} `{PageAlloc P} vn a (r : ramfs P) l A k h f pos count :
  contents vn a r l A k h -> a ≠ 0 -> opened vn r f pos -> 0 <= pos -> 0 <= count ->
  let res := take (Z.to_nat count) (drop (Z.to_nat pos) l) in
  exists r', ramfs_vnode_read f count r = Ret ((Z.of_nat (length res), res), r') /\
    opened vn r' f (Z.min (pos + Z.of_nat (length res)) (Z.of_nat (length l))) /\ contents vn a r' l A k h.
Proof. apply read_contents. Qed.

(** Shortening a file keeps a prefix and returns every frame it no longer
    needs: the frames free and held stay constant in sum, no more are held than the new
    size needs, and an empty file holds none. *)
Theorem ram_truncate_frees {P} `{PageAlloc P} vn a (r : ramfs P) l A k h n :
  contents vn a r l A k h -> a ≠ 0 -> 0 <= n < Z.of_nat (length l) ->
  exists r' k' h', ramfs_vnode_truncate vn n r = Ret (0, r') /\ contents vn a r' (take (Z.to_nat n) l) A k' h' /\
    k' + h' = k + h /\ 0 <= h' <= frames_for n /\ (n = 0 -> k' = k + h).
Proof.
  intros Hc Ha Hn. destruct (truncate_down_run vn a r l A k h n Hc Ha Hn) as (r' & k' & h' & E & Hc' & Hs & _). exists r', k', h'. split; [done|]. split; [done|]. split; [done|].
  pose proof (held_bound vn a r' _ A k' h' Hc') as Hb. rewrite length_take in Hb. replace (Z.of_nat (Z.to_nat n `min` length l)) with n in Hb by lia. split; [done|]. intros ->.
  change (frames_for 0) with 0 in Hb. lia.
Qed.

(** ** Frames from a list *)
Definition fl_ok (s : list Z) (A : gset Z) (n : Z) : Prop :=
  NoDup s /\ Z.of_nat (length s) = n /\ (forall a, a ∈ s -> 0 <= a < 2 ^ 39 /\ a mod MM_PAGE_SIZE = 0 /\ a ∉ A) /\ (forall a, a ∈ A -> 0 <= a < 2 ^ 39 /\ a mod MM_PAGE_SIZE = 0).
Definition fl_alloc (pu : page_usage) : cmd (list Z) Z := fun s => match s with [] => Ret (MM_NADDR, []) | a :: s => Ret (a, s) end.
Definition fl_free (a : Z) : cmd (list Z) unit := fun s => Ret (tt, a :: s).
#[export] Program Instance frame_list : PageAlloc (list Z) := {| pa_alloc := fl_alloc; pa_free := fl_free; pa_ok := fl_ok |}.
Next Obligation.
  intros s A n pu (Hnd & Hl & Hs & HA) _ Hn. destruct s as [|a s]; [cbn in Hl; lia|]. apply list.NoDup_cons in Hnd as [Ha Hnd]. destruct (Hs a (list_elem_of_here _ _)) as (H1 & H2 & H3).
  exists a, s. split; [done|]. split; [done|]. split; [done|]. split; [done|]. split; [done|]. split; [cbn in Hl; lia|]. split.
  - intros b Hb. destruct (Hs b) as (? & ? & ?); [by apply elem_of_cons; right|]. split; [done|]. split; [done|]. intros [->%elem_of_singleton|?]%elem_of_union; done.
  - intros b [->%elem_of_singleton|Hb]%elem_of_union; [done|by apply HA].
Qed.
Next Obligation. intros s A pu (_ & Hl & _) _. destruct s; [done|cbn in Hl; lia]. Qed.
Next Obligation.
  intros s A n a (Hnd & Hl & Hs & HA) Ha. exists (a :: s). split; [done|]. split; [apply list.NoDup_cons; split; [|done]; intros Hin; by apply (Hs a Hin)|]. split; [cbn; lia|]. split.
  - intros b [->|Hb]%elem_of_cons; [destruct (HA _ Ha); split_and!; set_solver|]. destruct (Hs b Hb) as (? & ? & ?). split_and!; set_solver.
  - intros b [Hb _]%elem_of_difference. by apply HA.
Qed.

(** An empty file open at position 0. *)
Definition sample_file (mem : gmap Z (list Z)) (frames : list Z) : ramfs (list Z) :=
  mk_ramfs (mk_vfs {[1 := with_fs_data 7 vnode_zero]} 1 {[9 := mk_ofile 3 1 1 0 0]} ∅ [] [] ∅) {[7 := priv_zero]} frames mem.
Definition all_pages : gmap Z (list Z) := list_to_map ((fun k => (MM_VIRTUALIZE (k * MM_PAGE_SIZE), replicate 4096 0xAA)) <$> seqZ 0 (2 ^ 27)).

Lemma all_pages_there t : kpage t -> exists pg, all_pages !! t = Some pg /\ length pg = 4096%nat.
Proof.
  intros (p & -> & Hp & Hm). exists (replicate 4096 0xAA). split; [|apply length_replicate]. apply elem_of_list_to_map_1.
  - rewrite <- list_fmap_compose. apply NoDup_fmap_2_strong; [|apply NoDup_seqZ]. intros x y Hx%elem_of_seqZ Hy%elem_of_seqZ E. cbn in E. unfold MM_VIRTUALIZE, KERNEL_VIRT_BASE, MM_PAGE_SIZE in E.
    rewrite !uwrap_small in E by lia. lia.
  - apply list_elem_of_fmap. exists (p / MM_PAGE_SIZE). unfold MM_PAGE_SIZE in *. split; [|apply elem_of_seqZ; split; [apply Z.div_pos; lia|apply Z.div_lt_upper_bound; lia]].
    do 2 f_equal. rewrite Z.mul_comm. by apply Z.div_exact.
Qed.

#[local] Opaque all_pages.

Lemma sample_empty frames : NoDup frames -> Forall (fun x => 0 <= x < 2 ^ 39 /\ x mod MM_PAGE_SIZE = 0) frames ->
  contents 1 7 (sample_file all_pages frames) [] ∅ (Z.of_nat (length frames)) 0.
Proof.
  intros Hnd Hf. exists [], []. split; [|done]. split; try done.
  - by exists (with_fs_data 7 vnode_zero).
  - apply NoDup_nil_2.
  - by intros t ?%not_elem_of_nil.
  - exact all_pages_there.
  - cbn. split; [done|]. split; [done|]. rewrite list.Forall_forall in Hf. split; [intros x Hx; destruct (Hf x Hx); split; [done|]; split; [done|]; set_solver|set_solver].
Qed.

Lemma ram_write_contents_witness : exists r', ramfs_vnode_write 9 [104; 105] (sample_file all_pages [0x5000; 0x6000]) = Ret (2, r') /\ contents 1 7 r' [104; 105] ∅ 1 1.
Proof.
  assert (contents 1 7 (sample_file all_pages [0x5000; 0x6000]) [] ∅ 2 0) as Hc.
  { apply (sample_empty [0x5000; 0x6000]); [apply (bool_decide_unpack _); by vm_compute|]. repeat (apply list.Forall_cons; split; [done|]). by apply list.Forall_nil. }
  destruct (ram_write_contents 1 7 (sample_file all_pages [0x5000; 0x6000]) [] ∅ 2 0 9 0 [104; 105] Hc ltac:(done) ltac:(done)) as (r' & E & _ & Hc'); [by exists (mk_ofile 3 1 1 0 0)|done|done|done|].
  exists r'. split; [exact E|exact Hc'].
Defined.

Lemma ram_truncate_frees_witness : exists r r' h, ramfs_vnode_write 9 [104; 105] (sample_file all_pages [0x5000; 0x6000]) = Ret (2, r) /\
  ramfs_vnode_truncate 1 0 r = Ret (0, r') /\ contents 1 7 r' [] ∅ 2 h.
Proof.
  assert (contents 1 7 (sample_file all_pages [0x5000; 0x6000]) [] ∅ 2 0) as Hc.
  { apply (sample_empty [0x5000; 0x6000]); [apply (bool_decide_unpack _); by vm_compute|]. repeat (apply list.Forall_cons; split; [done|]). by apply list.Forall_nil. }
  assert (7 ≠ 0) as Hnz by discriminate. assert (0 <= 0 < Z.of_nat (length [104; 105])) as Hin by (cbn; lia).
  destruct (write_contents 1 7 (sample_file all_pages [0x5000; 0x6000]) [] ∅ 2 0 9 0 [104; 105] Hc ltac:(done) ltac:(done)) as (r & E & _ & Hc'); [by exists (mk_ofile 3 1 1 0 0)|done|done|done|].
  destruct (ram_truncate_frees 1 7 r [104; 105] ∅ 1 1 0 Hc' Hnz Hin) as (r' & k' & h' & E' & Hc2 & _ & _ & Hk). rewrite (Hk eq_refl) in Hc2. exists r, r', h'. split; [exact E|]. split; [exact E'|exact Hc2].
Defined.

(** ** Flaws *)
Definition small_mem : gmap Z (list Z) := {[MM_VIRTUALIZE 0x5000 := replicate 4096 0xAA; MM_VIRTUALIZE 0x6000 := replicate 4096 0xBB]}.

(** Seeking to -1 wraps in the number of blocks: the blocks are released, the size is
    2^64 - 1, and a read from the start then panics. *)
Theorem lseek_negative_corrupts :
  let start := sample_file small_mem [0x5000; 0x6000] in
  (exists r, (ramfs_vnode_write 9 [1; 2; 3];; ramfs_vnode_lseek 9 (-1) 0) start = Ret (-1, r) /\ (rp_size <$> rf_privs r !! 7) = Some (2 ^ 64 - 1) /\ (bpa_cap <$> rf_privs r !! 7) = Some 0) /\
  (ramfs_vnode_write 9 [1; 2; 3];; ramfs_vnode_lseek 9 (-1) 0;; ramfs_vnode_lseek 9 0 0;; ramfs_vnode_read 9 1) start = Panic.
Proof. split; [eexists; split; [vm_compute; reflexivity|]; split; vm_compute; reflexivity|vm_compute; reflexivity]. Qed.

(** Growing a file by truncation shows what its frames held before. *)
Theorem truncate_shows_old_memory :
  match (ramfs_vnode_truncate 1 3;; ramfs_vnode_read 9 3) (sample_file small_mem [0x5000]) with Ret (res, _) => res = (3, [0xAA; 0xAA; 0xAA]) | _ => False end.
Proof. vm_compute. reflexivity. Qed.

(** A write through a descriptor that is past the end of a file that was shortened
    panics. *)
Theorem write_past_end_panics :
  (ramfs_vnode_write 9 [1; 2; 3];; ramfs_vnode_truncate 1 0;; ramfs_vnode_write 9 [4]) (sample_file small_mem [0x5000; 0x6000]) = Panic.
Proof. vm_compute. reflexivity. Qed.

(** Removing a file returns none of its frames. *)
Theorem unlink_leaks_frames {P} `{PageAlloc P} vn a (r r' : ramfs P) l A k h :
  contents vn a r l A k h -> ramfs_vnode_unlink vn r = Ret (0, r') -> rf_frames r' = rf_frames r.
Proof.
  intros _ E. unfold ramfs_vnode_unlink in E. apply bind_inv in E as (v & r1 & E1 & E). assert (rf_frames r1 = rf_frames r) as F1.
  { unfold on_vfs, czoom in E1. destruct (Vnode.vn vn (rf_vfs r)) as [[??]| | |]; [|done..]. by injection E1 as <- <-. }
  destruct (_ && _); [done|]. apply bind_inv in E as ([] & r2 & E2 & E). assert (rf_frames r2 = rf_frames r1) as F2.
  { destruct (nonnull (v_fs_data v)); [|by injection E2 as <-]. apply bind_inv in E2 as (u & r3 & E3 & E2). apply assert_inv in E3 as [_ ->]. apply bind_inv in E2 as (p & r4 & E4 & E2).
    unfold priv_at in E4. apply load_inv in E4 as [_ ->]. by injection E2 as <-. }
  apply bind_inv in E as ([] & r3 & E3 & E). injection E as <-. unfold on_vfs, czoom in E3. destruct (vn_update vn (with_fs_data 0) (rf_vfs r2)) as [[??]| | |]; [|done..]. injection E3 as _ <-. cbn. congruence.
Qed.
