(* ===== verification/Fd.v ===== *)
(** * File descriptors: [sys/sys_file.c], [sys/sys_sys.c]

    A process has a table of [THREAD_MAX_FDS] descriptors; a slot holds the address of an
    open file ([struct ofile]) or 0.  Slots of one or several processes may share an open
    file, which counts them.  The system calls on descriptors are modelled whole, on the
    files of [Vfs] and [VfsOps], with the processes' tables beside them; pointers into
    user memory are passed as the values they point to ([userptr_check] is in [Paging]).
    The configuration is the default one: no open file is a socket.

    [descriptors_counted]: whatever processes open, duplicate, close, fork and exit, the
    count of an open file is the number of slots that hold it, and no slot dangles. *)

From S2P Require Import Prelude Defs Paging Mmap Wait Ring Pipe Vnode Vfs VfsOps.

Definition AT_FDCWD : Z := -100.
Definition EMFILE : Z := 24.

(** What the calls use of [struct process]. *)
Record fproc := mk_fproc { fp_ioctx : vfs_ioctx; fp_fds : list Z; fp_ctty : Z }.
Record files := mk_files { fl_vfs : vfs; fl_rings : gmap Z ring; fl_procs : gmap Z fproc }.
Definition set_fl_vfs v (s : files) := mk_files v (fl_rings s) (fl_procs s).
Definition set_fl_rings r (s : files) := mk_files (fl_vfs s) r (fl_procs s).
Definition set_fl_procs p (s : files) := mk_files (fl_vfs s) (fl_rings s) p.
Definition fp_set_fds l (p : fproc) := mk_fproc (fp_ioctx p) l (fp_ctty p).
Definition fp_set_ioctx c (p : fproc) := mk_fproc c (fp_fds p) (fp_ctty p).
Definition fp_set_ctty t (p : fproc) := mk_fproc (fp_ioctx p) (fp_fds p) t.

Definition on_v {A} (c : cmd vfs A) : cmd files A := czoom fl_vfs set_fl_vfs c.
Definition fproc_at (self : Z) : cmd files fproc := cload (fun s => fl_procs s !! self).
Definition upd_fproc (self : Z) (f : fproc -> fproc) : cmd files unit :=
  p ← fproc_at self; cmodify (fun s => set_fl_procs (<[self := f p]> (fl_procs s)) s).

(** [proc->fds[i]] and [proc->fds[i] = f] *)
Definition fd_slot (self i : Z) : cmd files Z := p ← fproc_at self; cload (fun _ => fp_fds p !! Z.to_nat i).
Definition set_slot (self i f : Z) : cmd files unit :=
  p ← fproc_at self; cload (fun _ => fp_fds p !! Z.to_nat i);;
  upd_fproc self (fp_set_fds (<[Z.to_nat i := f]> (fp_fds p))).

(** The first free slot, -1 without one, and the first two. *)
Fixpoint free_fd (i : Z) (l : list Z) : Z :=
  match l with [] => -1 | f :: l => if nonnull f then free_fd (i + 1) l else i end.
Fixpoint free_fds (i : Z) (l : list Z) (fd0 : Z) : Z * Z :=
  match l with
  | [] => (fd0, -1)
  | f :: l => if nonnull f then free_fds (i + 1) l fd0 else if fd0 =? -1 then free_fds (i + 1) l i else (fd0, i)
  end.

Section calls.
Context `{FsOps, Slab, DevOps} (fuel : nat).
(** The operation table of pipes, and which character devices are terminals. *)
Context (pipe_vnode_ops : Z) (is_tty : Z -> bool).

Definition get_fd (self fd : Z) : cmd files Z :=
  if (fd <? 0) || (THREAD_MAX_FDS <=? fd) then mret 0 else fd_slot self fd.
Definition get_ioctx (self : Z) : cmd files vfs_ioctx := p ← fproc_at self; mret (fp_ioctx p).

(** The result, and the vnode that a path is relative to. *)
Definition get_at_vnode (self dfd flags : Z) : cmd files (Z * Z) :=
  if dfd =? AT_FDCWD then c ← get_ioctx self; mret (0, cwd_vnode c)
  else
    fd ← get_fd self dfd;
    if negb (nonnull fd) then mret (- EBADF, 0)
    else
      o ← on_v (oget fd);
      if negb (flagged flags AT_EMPTY_PATH) && negb (flagged (of_flags o) OF_DIRECTORY) then mret (- ENOTDIR, 0)
      else mret (0, of_vnode o).

(** Calls that take a descriptor, with the value returned for a bad one. *)
Definition with_fd {A} (self fd : Z) (bad : A) (k : vfs_ioctx -> Z -> cmd vfs A) : cmd files A :=
  of_ ← get_fd self fd;
  if negb (nonnull of_) then mret bad else c ← get_ioctx self; on_v (k c of_).
Definition sys_read (self fd lim : Z) : cmd files (Z * list Z) :=
  with_fd self fd (- EBADF, []) (fun c f => vfs_read c f lim).
Definition sys_write (self fd : Z) (data : list Z) : cmd files Z :=
  with_fd self fd (- EBADF) (fun c f => vfs_write c f data).
Definition sys_ftruncate (self fd length : Z) : cmd files Z :=
  with_fd self fd (- EBADF) (fun c f => o ← oget f; vfs_ftruncate c (of_vnode o) length).
Definition sys_lseek (self fd offset whence : Z) : cmd files Z :=
  with_fd self fd (- EBADF) (fun c f => vfs_lseek c f offset whence).
Definition sys_ioctl (self fd cmd_ arg : Z) : cmd files Z :=
  with_fd self fd (- EBADF) (fun c f => vfs_ioctl c f cmd_ arg).
Definition sys_readdir (self fd : Z) : cmd files (Z * option dirent) :=
  with_fd self fd (- EBADF, None) (fun c f => vfs_readdir c f).

(** Calls that take a path below a descriptor. *)
Definition with_at {A} (self dfd flags : Z) (bad : Z -> A) (k : vfs_ioctx -> Z -> cmd vfs A) : cmd files A :=
  '(res, at_) ← get_at_vnode self dfd flags;
  if bool_decide (res ≠ 0) then mret (bad res) else c ← get_ioctx self; on_v (k c at_).
Definition sys_mkdirat (self dfd : Z) (pathname : string) (mode : Z) : cmd files Z :=
  with_at self dfd 0 id (fun c at_ => vfs_mkdirat fuel c at_ pathname mode).
Definition sys_unlinkat (self dfd : Z) (pathname : string) (flags : Z) : cmd files Z :=
  with_at self dfd 0 id (fun c at_ => vfs_unlinkat fuel c at_ pathname flags).
Definition sys_fstatat (self dfd : Z) (pathname : string) (flags : Z) : cmd files (Z * option stat) :=
  with_at self dfd flags (fun e => (e, None)) (fun c at_ => vfs_fstatat fuel c at_ pathname flags).
Definition sys_faccessat (self dfd : Z) (pathname : string) (mode flags : Z) : cmd files Z :=
  with_at self dfd flags id (fun c at_ => vfs_faccessat fuel c at_ pathname mode flags).
Definition sys_readlinkat (self dfd : Z) (pathname : string) (lim : Z) : cmd files (Z * string) :=
  with_at self dfd 0 (fun e => (e, EmptyString)) (fun c at_ => vfs_readlinkat fuel c at_ pathname lim).

(** Calls that take a path. *)
Definition with_ctx {A} (self : Z) (k : vfs_ioctx -> cmd vfs A) : cmd files A := c ← get_ioctx self; on_v (k c).
Definition sys_truncate (self : Z) (pathname : string) (length : Z) : cmd files Z :=
  with_ctx self (fun c =>
    r ← vfs_find fuel c (cwd_vnode c) pathname 0;
    match r with Err e => mret e | Found node => vfs_ftruncate c node length end).
Definition sys_chmod (self : Z) (path : string) (mode : Z) : cmd files Z := with_ctx self (fun c => vfs_chmod fuel c path mode).
Definition sys_chown (self : Z) (path : string) (uid gid : Z) : cmd files Z := with_ctx self (fun c => vfs_chown fuel c path uid gid).
Definition sys_chdir (self : Z) (filename : string) : cmd files Z :=
  c ← get_ioctx self;
  '(res, c') ← on_v (vfs_setcwd fuel c filename);
  upd_fproc self (fp_set_ioctx c');;
  mret res.
Definition sys_getcwd (self lim : Z) : cmd files (Z * string) :=
  c ← get_ioctx self;
  if negb (nonnull (cwd_vnode c)) then mret (if lim <? 2 then (-1, EmptyString) else (0, "/"))
  else
    tmpbuf ← on_v (vfs_vnode_path (cwd_vnode c));
    mret (if lim <=? Z.of_nat (String.length tmpbuf) then (-1, EmptyString) else (0, tmpbuf)).
Definition sys_creat (pathname : string) (mode : Z) : cmd files Z := mret (- EINVAL).
Definition sys_openpty : cmd files Z := mret (- EINVAL).

(** [sys/sys_sys.c] *)
Definition sys_mount (self : Z) (dev_name : option string) (dir_name : string) (type : option string) (flags : Z) (data : option string) : cmd files Z :=
  c ← get_ioctx self;
  if bool_decide (ctx_uid c ≠ 0) then mret (- EACCES)
  else
    on_v (
      dev ← (match dev_name with
             | None => mret (inr 0)
             | Some dev_name =>
                 r ← vfs_find fuel c (cwd_vnode c) dev_name 0;
                 match r with
                 | Err e => mret (inl e)
                 | Found node => n ← vn node; mret (if negb (is_type VN_BLK n) then inl (- EINVAL) else inr (v_dev n))
                 end
             end);
      match dev with
      | inl e => mret e
      | inr dev => vfs_mount fuel c dir_name dev type (u32 flags) data
      end).
Definition sys_umount (self : Z) (dir_name : string) : cmd files Z := with_ctx self (fun c => vfs_umount fuel c dir_name).

(** ** Making and closing descriptors *)
Definition sys_openat (self dfd : Z) (filename : string) (flags mode : Z) : cmd files Z :=
  '(res, at_) ← get_at_vnode self dfd 0;
  if bool_decide (res ≠ 0) then mret res
  else
    p ← fproc_at self;
    let fd := free_fd 0 (fp_fds p) in
    if fd =? -1 then mret (- EMFILE)
    else
      f ← on_v ofile_create;
      res ← on_v (vfs_openat fuel (fp_ioctx p) f at_ filename flags mode);
      if bool_decide (res ≠ 0) then on_v (ofile_destroy f);; mret res
      else
        g ← on_v (ofile_dup f);
        set_slot self fd g;;
        o ← on_v (oget g);
        cassert (of_refcount o =? 1);;
        (if nonnull (fp_ctty p) then mret tt
         else
           cassert (nonnull (of_vnode o));;
           node ← on_v (vn (of_vnode o));
           if is_type VN_CHR node && is_tty (v_dev node) then upd_fproc self (fp_set_ctty (of_vnode o)) else mret tt);;
        mret fd.

Definition sys_close (self fd : Z) : cmd files unit :=
  if (fd <? 0) || (THREAD_MAX_FDS <=? fd) then mret tt
  else
    f ← fd_slot self fd;
    if negb (nonnull f) then mret tt
    else
      c ← get_ioctx self;
      on_v (ofile_close c f);;
      set_slot self fd 0.

Definition sys_dup2 (self from to : Z) : cmd files Z :=
  if (from <? 0) || (to <? 0) || (THREAD_MAX_FDS <=? from) || (THREAD_MAX_FDS <=? to) then mret (- EBADF)
  else if to =? from then mret to
  else
    f ← fd_slot self from;
    if negb (nonnull f) then mret (- EBADF)
    else
      sys_close self to;;
      g ← fd_slot self to;
      cassert (negb (nonnull g));;
      f ← fd_slot self from;
      f ← on_v (ofile_dup f);
      set_slot self to f;;
      mret to.
Definition sys_dup (self from : Z) : cmd files Z :=
  p ← fproc_at self; sys_dup2 self from (free_fd 0 (fp_fds p)).

(** [sys/char/pipe.c]: a new ring, at the address [kmalloc] gives. *)
Definition new_ring (mem : list Z) : cmd files Z :=
  r ← cgets (fun s => slab_calloc (dom (fl_rings s)));
  cassert (nonnull r);;
  cmodify (fun s => set_fl_rings (<[r := pipe_ring mem]> (fl_rings s)) s);;
  mret r.
Definition pipe_node (fs_data : Z) (v : vnode) : vnode :=
  mk_vnode (v_type v) (v_name v) (Z.lor (v_flags v) VN_MEMORY) (first_child v) (next_child v) (v_parent v) (v_target v) (open_count v)
    (v_ino v) (v_gid v) (v_uid v) (v_mode v) (v_fs v) fs_data (v_dev v) pipe_vnode_ops.
Definition pipe_end (flags vnode ring : Z) (o : ofile) : ofile := mk_ofile flags (of_refcount o) vnode (of_pos o) ring.

Definition pipe_create (mem : list Z) : cmd files (Z * Z) :=
  read_end ← on_v ofile_create;
  write_end ← on_v ofile_create;
  r ← new_ring mem;
  v ← on_v (vnode_create VN_REG None);
  cassert (nonnull v);;
  on_v (vn_update v (fun n => pipe_node (v_fs_data n) n));;
  on_v (oupdate read_end (pipe_end OF_READABLE v r));;
  on_v (oupdate write_end (pipe_end OF_WRITABLE v r));;
  mret (read_end, write_end).

Definition pipe_fifo_create (mem : list Z) (nod : Z) : cmd files Z :=
  cassert (nonnull nod);;
  on_v (vn_update nod (fun n => pipe_node (v_fs_data n) n));;
  r ← new_ring mem;
  on_v (vn_update nod (pipe_node r));;
  mret 0.

Definition pipe_vnode_open (f opt : Z) : cmd files Z :=
  o ← on_v (oget f);
  cassert (nonnull (of_vnode o));;
  on_v (oupdate f (with_pos 0));;
  n ← on_v (vn (of_vnode o));
  on_v (oupdate f (fun o => mk_ofile (of_flags o) (of_refcount o) (of_vnode o) (of_pos o) (v_fs_data n)));;
  mret 0.
Definition pipe_vnode_stat (system_boot_time v : Z) : cmd files (Z * stat) :=
  cassert (nonnull v);;
  n ← on_v (vn v);
  cassert (nonnull (v_fs_data n));;
  r ← cload (fun s => fl_rings s !! v_fs_data n);
  mret (0, mk_stat 0 0 (Z.lor (v_mode n) S_IFIFO) 1 (v_uid n) (v_gid n) 0 (cap r) (cap r) 1 system_boot_time system_boot_time system_boot_time).

(** The result and the two descriptors. *)
Definition sys_pipe (mem : list Z) (self : Z) : cmd files (Z * (Z * Z)) :=
  '(read_end, write_end) ← pipe_create mem;
  p ← fproc_at self;
  let '(fd0, fd1) := free_fds 0 (fp_fds p) (-1) in
  if (fd0 =? -1) || (fd1 =? -1) then mret (- EMFILE, (0, 0))
  else
    f ← on_v (ofile_dup read_end); set_slot self fd0 f;;
    f ← on_v (ofile_dup write_end); set_slot self fd1 f;;
    mret (0, (fd0, fd1)).

Definition sys_mknod (mem : list Z) (self : Z) (filename : string) (mode : Z) : cmd files Z :=
  c ← get_ioctx self;
  '(res, node) ← on_v (vfs_mknod fuel c filename mode);
  if bool_decide (res ≠ 0) then mret res
  else
    cassert (nonnull node);;
    if Z.land mode S_IFMT =? S_IFIFO then pipe_fifo_create mem node else mret (- EINVAL).

(** ** Descriptors over the life of a process *)

(** The loops of [process_exit], [sys_execve] and [sys_setsid] over the table. *)
Definition close_slot_if (self : Z) (c : ofile -> bool) (i : Z) : cmd files unit :=
  f ← fd_slot self i;
  if negb (nonnull f) then mret tt
  else
    o ← on_v (oget f);
    if c o then ctx ← get_ioctx self; on_v (ofile_close ctx f);; set_slot self i 0 else mret tt.
Definition close_fds_if (self : Z) (c : ofile -> bool) : cmd files unit :=
  for_range (close_slot_if self c) (Z.to_nat THREAD_MAX_FDS) 0.
Definition exit_fds (self : Z) : cmd files unit := close_fds_if self (fun _ => true).
Definition exec_fds (self : Z) : cmd files unit := close_fds_if self (fun o => flagged (of_flags o) OF_CLOEXEC).
Definition setsid_fds (self : Z) : cmd files unit :=
  p ← fproc_at self;
  if nonnull (fp_ctty p) then
    close_fds_if self (fun o => bool_decide (of_vnode o = fp_ctty p));; upd_fproc self (fp_set_ctty 0)
  else mret tt.

(** [process_ioctx_empty] and [process_ioctx_fork]; [dst] is a new process, and
    [ctty] what the caller gives it. *)
Definition empty_fproc : fproc := mk_fproc (mk_ioctx 0 18 0 0) (replicate (Z.to_nat THREAD_MAX_FDS) 0) 0.
Definition fork_slot (dst src i : Z) : cmd files unit :=
  f ← fd_slot src i;
  if nonnull f then f ← on_v (ofile_dup f); set_slot dst i f else mret tt.
Definition fork_fds (dst src : Z) : cmd files unit :=
  cmodify (fun s => set_fl_procs (<[dst := empty_fproc]> (fl_procs s)) s);;
  p ← fproc_at src;
  upd_fproc dst (fun q => fp_set_ctty (fp_ctty p) (fp_set_ioctx (fp_ioctx p) q));;
  for_range (fork_slot dst src) (Z.to_nat THREAD_MAX_FDS) 0.

(** [user_init_func]: the standard descriptors of the first process. *)
Definition init_stdio (self tty : Z) : cmd files unit :=
  fd_stdout ← on_v ofile_create;
  fd_stdin ← on_v ofile_create;
  c ← get_ioctx self;
  res ← on_v (vfs_open_vnode c fd_stdin tty O_RDONLY); cassert (res =? 0);;
  res ← on_v (vfs_open_vnode c fd_stdout tty O_WRONLY); cassert (res =? 0);;
  f ← on_v (ofile_dup fd_stdin); set_slot self 0 f;;
  f ← on_v (ofile_dup fd_stdout); set_slot self 1 f;;
  f ← on_v (ofile_dup fd_stdout); set_slot self 2 f;;
  o ← on_v (oget fd_stdin); cassert (of_refcount o =? 1);;
  o ← on_v (oget fd_stdout); cassert (of_refcount o =? 2);;
  upd_fproc self (fp_set_ctty tty).
End calls.

(** ** Commands that leave the counts alone

    The counts of open files are changed by [ofile.c] only. *)
Definition refs (v : vfs) : gmap Z Z := of_refcount <$> ofiles v.
Definition keeps {A} (c : cmd vfs A) : Prop := forall v a v', c v = Ret (a, v') -> refs v' = refs v.

(** What this file relies on of file systems and devices: their operations do not touch
    the count of an open file. *)
Definition opt_keeps {F} (P : F -> Prop) (o : option F) : Prop := match o with Some f => P f | None => True end.
Record ops_keep (t : vnode_operations) : Prop := {
  k_find : opt_keeps (fun f => forall d n, keeps (f d n)) (op_find t);
  k_readdir : opt_keeps (fun f => forall d, keeps (f d)) (op_readdir t);
  k_opendir : opt_keeps (fun f => forall d, keeps (f d)) (op_opendir t);
  k_open : opt_keeps (fun f => forall d o, keeps (f d o)) (op_open t);
  k_close : opt_keeps (fun f => forall d, keeps (f d)) (op_close t);
  k_mknod : opt_keeps (fun f => forall d n, keeps (f d n)) (op_mknod t);
  k_creat : opt_keeps (fun f => forall d n u g m, keeps (f d n u g m)) (op_creat t);
  k_mkdir : opt_keeps (fun f => forall d n u g m, keeps (f d n u g m)) (op_mkdir t);
  k_truncate : opt_keeps (fun f => forall d n, keeps (f d n)) (op_truncate t);
  k_unlink : opt_keeps (fun f => forall d, keeps (f d)) (op_unlink t);
  k_lseek : opt_keeps (fun f => forall d n w, keeps (f d n w)) (op_lseek t);
  k_stat : opt_keeps (fun f => forall d, keeps (f d)) (op_stat t);
  k_chmod : opt_keeps (fun f => forall d m, keeps (f d m)) (op_chmod t);
  k_chown : opt_keeps (fun f => forall d u g, keeps (f d u g)) (op_chown t);
  k_readlink : opt_keeps (fun f => forall d n, keeps (f d n)) (op_readlink t);
  k_read : opt_keeps (fun f => forall d n, keeps (f d n)) (op_read t);
  k_write : opt_keeps (fun f => forall d b, keeps (f d b)) (op_write t);
}.
Class CountsKept `{FsOps, DevOps} : Prop := {
  ck_ops : forall t, ops_keep (ops_at t);
  ck_init : forall c, opt_keeps (fun f => forall p o, keeps (f p o)) (cls_init (class_at c));
  ck_root : forall c, opt_keeps (fun f => forall p, keeps (f p)) (cls_get_root (class_at c));
  ck_destroy : forall c, opt_keeps (fun f => forall p, keeps (f p)) (cls_destroy (class_at c));
  ck_target : forall t l n, keeps (target_func_at t l n);
  ck_chr_ioctl : forall d, opt_keeps (fun f => forall c a, keeps (f c a)) (chr_ioctl_op (chr_at d));
  ck_chr_write : forall d, opt_keeps (fun f => forall b o n, keeps (f b o n)) (chr_write_op (chr_at d));
  ck_chr_read : forall d, opt_keeps (fun f => forall o n, keeps (f o n)) (chr_read_op (chr_at d));
  ck_blk_read : forall d o n, keeps (blk_read_at d o n);
  ck_blk_ioctl : forall d, opt_keeps (fun f => forall c a, keeps (f c a)) (blk_ioctl_at d);
}.

Lemma keeps_ret {A} (a : A) : keeps (mret a).
Proof. intros v b v' E. by injection E as _ <-. Qed.
Lemma keeps_panic {A} : keeps (@cpanic vfs A).
Proof. done. Qed.
Lemma keeps_fault {A} : keeps (@cfault vfs A).
Proof. done. Qed.
Lemma keeps_diverged {A} : keeps (@cdiverged vfs A).
Proof. done. Qed.
Lemma keeps_assert b : keeps (cassert b).
Proof. intros v a v' E. by apply assert_inv in E as [_ ->]. Qed.
Lemma keeps_load {A} (f : vfs -> option A) : keeps (cload f).
Proof. intros v a v' E. by apply load_inv in E as [_ ->]. Qed.
Lemma keeps_gets {A} (f : vfs -> A) : keeps (cgets f).
Proof. intros v a v' E. by injection E as _ <-. Qed.
Lemma keeps_get : keeps cget.
Proof. intros v a v' E. by injection E as _ <-. Qed.
Lemma keeps_modify f : (forall v, ofiles (f v) = ofiles v) -> keeps (cmodify f).
Proof. intros Hf v a v' E. injection E as _ <-. unfold refs. by rewrite Hf. Qed.
Lemma keeps_bind {A B} (m : cmd vfs A) (f : A -> cmd vfs B) : keeps m -> (forall a, keeps (f a)) -> keeps (m ≫= f).
Proof. intros Hm Hf v b v' E. apply bind_inv in E as (a & v1 & E1 & E2). rewrite (Hf _ _ _ _ E2). by apply (Hm _ _ _ E1). Qed.
Lemma keeps_vn p : keeps (vn p).
Proof. apply keeps_load. Qed.
Lemma keeps_oget p : keeps (oget p).
Proof. apply keeps_load. Qed.
Lemma keeps_vn_update p f : keeps (vn_update p f).
Proof. apply keeps_bind; [apply keeps_vn|]. intros n. by apply keeps_modify. Qed.
Lemma keeps_oupdate p f : (forall o, of_refcount (f o) = of_refcount o) -> keeps (oupdate p f).
Proof.
  intros Hf v a v' E. apply bind_inv in E as (o & v1 & E1 & E2). unfold oget in E1. apply load_inv in E1 as [Ho ->]. injection E2 as _ <-.
  unfold refs. cbn. rewrite fmap_insert, Hf. apply insert_id. by rewrite lookup_fmap, Ho.
Qed.

Create HintDb keeps discriminated.
#[local] Hint Resolve keeps_ret keeps_panic keeps_fault keeps_diverged keeps_assert keeps_load keeps_gets keeps_get keeps_vn keeps_oget keeps_vn_update : keeps.

(** Commands are taken apart up to known ones; an operation that was found in a table
    keeps the counts by the law of the tables. *)
Ltac by_law L := let K := fresh in pose proof L as K; unfold opt_keeps in K;
  match goal with E : _ = Some _ |- _ => rewrite E in K end; apply K.
Ltac by_table :=
  match goal with E : op_of ?op ?n = Some _ |- _ => unfold op_of in E; destruct (nonnull (v_op n)); [|discriminate E] | _ => idtac end;
  match goal with
  | E : op_find (ops_at ?t) = Some _ |- _ => by_law (k_find _ (ck_ops t))
  | E : op_readdir (ops_at ?t) = Some _ |- _ => by_law (k_readdir _ (ck_ops t))
  | E : op_opendir (ops_at ?t) = Some _ |- _ => by_law (k_opendir _ (ck_ops t))
  | E : op_open (ops_at ?t) = Some _ |- _ => by_law (k_open _ (ck_ops t))
  | E : op_close (ops_at ?t) = Some _ |- _ => by_law (k_close _ (ck_ops t))
  | E : op_mknod (ops_at ?t) = Some _ |- _ => by_law (k_mknod _ (ck_ops t))
  | E : op_creat (ops_at ?t) = Some _ |- _ => by_law (k_creat _ (ck_ops t))
  | E : op_mkdir (ops_at ?t) = Some _ |- _ => by_law (k_mkdir _ (ck_ops t))
  | E : op_truncate (ops_at ?t) = Some _ |- _ => by_law (k_truncate _ (ck_ops t))
  | E : op_unlink (ops_at ?t) = Some _ |- _ => by_law (k_unlink _ (ck_ops t))
  | E : op_lseek (ops_at ?t) = Some _ |- _ => by_law (k_lseek _ (ck_ops t))
  | E : op_stat (ops_at ?t) = Some _ |- _ => by_law (k_stat _ (ck_ops t))
  | E : op_chmod (ops_at ?t) = Some _ |- _ => by_law (k_chmod _ (ck_ops t))
  | E : op_chown (ops_at ?t) = Some _ |- _ => by_law (k_chown _ (ck_ops t))
  | E : op_readlink (ops_at ?t) = Some _ |- _ => by_law (k_readlink _ (ck_ops t))
  | E : op_read (ops_at ?t) = Some _ |- _ => by_law (k_read _ (ck_ops t))
  | E : op_write (ops_at ?t) = Some _ |- _ => by_law (k_write _ (ck_ops t))
  | E : chr_ioctl_op (chr_at ?t) = Some _ |- _ => by_law (ck_chr_ioctl t)
  | E : chr_write_op (chr_at ?t) = Some _ |- _ => by_law (ck_chr_write t)
  | E : chr_read_op (chr_at ?t) = Some _ |- _ => by_law (ck_chr_read t)
  | E : blk_ioctl_at ?t = Some _ |- _ => by_law (ck_blk_ioctl t)
  | E : cls_init (class_at ?t) = Some _ |- _ => by_law (ck_init t)
  | E : cls_get_root (class_at ?t) = Some _ |- _ => by_law (ck_root t)
  | E : cls_destroy (class_at ?t) = Some _ |- _ => by_law (ck_destroy t)
  | |- keeps (target_func_at _ _ _) => apply ck_target
  | |- keeps (blk_read_at _ _ _) => apply ck_blk_read
  end.
Ltac keeping :=
  cbv zeta;
  lazymatch goal with
  | |- forall _, _ => intros ?; keeping
  | |- keeps (_ ≫= _) => apply keeps_bind; [keeping|intros ?; keeping]
  | |- keeps (oupdate _ _) => apply keeps_oupdate; done
  | |- keeps (cmodify _) => apply keeps_modify; done
  | |- keeps (match ?x with _ => _ end) => let E := fresh in destruct x eqn:E; keeping
  | |- keeps _ => solve [auto with keeps | by_table]
  end.

Section keep.
Context `{HF : FsOps, HS : Slab, HD : DevOps, HK : !CountsKept} (fuel : nat).

Lemma vnode_create_keeps t name : keeps (vnode_create t name).
Proof using Type. unfold vnode_create. keeping. Qed.
Lemma vnode_destroy_keeps p : keeps (vnode_destroy p).
Proof using Type. unfold vnode_destroy, vn_free. keeping. Qed.
Lemma vnode_attach_keeps p c : keeps (vnode_attach p c).
Proof using Type. unfold vnode_attach. keeping. Qed.
Hint Resolve vnode_create_keeps vnode_destroy_keeps vnode_attach_keeps : keeps.
Lemma detach_scan_keeps n ch node : keeps (detach_scan n ch node).
Proof using Type. revert ch. induction n; intros ch; cbn [detach_scan]; keeping. Qed.
Lemma vn_fuel_keeps : keeps vn_fuel.
Proof using Type. unfold vn_fuel. keeping. Qed.
Hint Resolve detach_scan_keeps vn_fuel_keeps : keeps.
Lemma vnode_detach_keeps node : keeps (vnode_detach node).
Proof using Type. unfold vnode_detach. keeping. Qed.
Lemma access_node_keeps ctx n m : keeps (vfs_access_node ctx n m).
Proof using Type. unfold vfs_access_node. keeping. Qed.
Hint Resolve vnode_detach_keeps access_node_keeps : keeps.
Lemma lookup_scan_keeps n ch name : keeps (lookup_scan n ch name).
Proof using Type. revert ch. induction n; intros ch; cbn [lookup_scan]; keeping. Qed.
Lemma lookup_child_keeps d name : keeps (vnode_lookup_child d name).
Proof using Type. unfold vnode_lookup_child. pose proof lookup_scan_keeps. keeping. Qed.
Lemma path_element_keeps p : keeps (path_element p).
Proof using Type. unfold path_element. keeping. Qed.
Hint Resolve lookup_child_keeps path_element_keeps : keeps.
Lemma dots_keeps n p : keeps (vfs_dots n p).
Proof using Type. revert p. induction n; intros p; cbn [vfs_dots]; keeping. Qed.
Lemma lookup_or_load_keeps d name : keeps (vfs_lookup_or_load d name).
Proof using HK. unfold vfs_lookup_or_load. keeping. Qed.
Hint Resolve dots_keeps lookup_or_load_keeps : keeps.

Section find.
Context (find : vfs_ioctx -> Z -> option string -> Z -> cmd vfs found) (Hfind : forall c d p l, keeps (find c d p l)).
Hint Resolve Hfind : keeps.
Lemma find_with_keeps c rel p l : keeps (vfs_find_with find c rel p l).
Proof using Hfind. unfold vfs_find_with. keeping. Qed.
Hint Resolve find_with_keeps : keeps.
Lemma link_load_keeps c lnk l : keeps (link_load find c lnk l).
Proof using Hfind HK. unfold link_load. keeping. Qed.
Hint Resolve link_load_keeps : keeps.
Lemma link_resolve_keeps c cnt lnk l : keeps (vfs_link_resolve_internal find c cnt lnk l).
Proof using Hfind HK. revert lnk. induction cnt as [|cnt IH]; intros lnk; cbn [vfs_link_resolve_internal]; keeping. Qed.
Lemma link_resolve_with_keeps c lnk l : keeps (vfs_link_resolve_with find c lnk l).
Proof using Hfind HK. apply link_resolve_keeps. Qed.
Hint Resolve link_resolve_with_keeps : keeps.
Lemma find_last_keeps c n l : keeps (find_last find c n l).
Proof using Hfind HK. unfold find_last. keeping. Qed.
Lemma find_enter_keeps c n l : keeps (find_enter find c n l).
Proof using Hfind HK. unfold find_enter. keeping. Qed.
End find.
Hint Resolve find_with_keeps link_resolve_with_keeps find_last_keeps find_enter_keeps : keeps.

Lemma find_internal_keeps n c d p l : keeps (vfs_find_internal n c d p l).
Proof using HK. revert c d p l. induction n as [|n IH]; intros c d p l; cbn [vfs_find_internal]; keeping. Qed.
Hint Resolve find_internal_keeps : keeps.
Lemma find_keeps c rel p l : keeps (vfs_find fuel c rel p l).
Proof using HK. unfold vfs_find. keeping. Qed.
Lemma link_keeps c rel l : keeps (vfs_link_resolve fuel c rel l).
Proof using HK. unfold vfs_link_resolve. keeping. Qed.
Hint Resolve find_keeps link_keeps : keeps.
Lemma setcwd_node_keeps c n : keeps (setcwd_node fuel c n).
Proof using HK. unfold setcwd_node. keeping. Qed.
Hint Resolve setcwd_node_keeps : keeps.
Lemma setcwd_keeps c p : keeps (vfs_setcwd fuel c p).
Proof using HK. unfold vfs_setcwd. keeping. Qed.

Lemma opendir_keeps c f : keeps (vfs_opendir c f).
Proof using HK. unfold vfs_opendir, open_inc. keeping. Qed.
Hint Resolve opendir_keeps : keeps.
Lemma open_vnode_keeps c f n o : keeps (vfs_open_vnode c f n o).
Proof using HK. unfold vfs_open_vnode, open_file, open_inc. keeping. Qed.
Lemma path_parent_keeps p : keeps (vfs_path_parent p).
Proof using Type. unfold vfs_path_parent. keeping. Qed.
Hint Resolve open_vnode_keeps path_parent_keeps : keeps.
Lemma creation_dir_keeps c rel p : keeps (creation_dir fuel c rel p).
Proof using HK. unfold creation_dir. keeping. Qed.
Hint Resolve creation_dir_keeps : keeps.
Lemma creatat_keeps c rel p m : keeps (vfs_creatat fuel c rel p m).
Proof using HK. unfold vfs_creatat. keeping. Qed.
Hint Resolve creatat_keeps : keeps.
Lemma openat_keeps c f rel p o m : keeps (vfs_openat fuel c f rel p o m).
Proof using HK. unfold vfs_openat. keeping. Qed.
Lemma close_keeps c f : keeps (vfs_close c f).
Proof using HK. unfold vfs_close, open_dec. keeping. Qed.
Lemma mknod_keeps c p m : keeps (vfs_mknod fuel c p m).
Proof using HK. unfold vfs_mknod. keeping. Qed.
Lemma mkdirat_keeps c rel p m : keeps (vfs_mkdirat fuel c rel p m).
Proof using HK. unfold vfs_mkdirat. keeping. Qed.
Lemma unlinkat_keeps c rel p m : keeps (vfs_unlinkat fuel c rel p m).
Proof using HK. unfold vfs_unlinkat. keeping. Qed.
Lemma fstatat_keeps c rel p m : keeps (vfs_fstatat fuel c rel p m).
Proof using HK. unfold vfs_fstatat. keeping. Qed.
Lemma faccessat_keeps c rel p m l : keeps (vfs_faccessat fuel c rel p m l).
Proof using HK. unfold vfs_faccessat. keeping. Qed.
Lemma readlinkat_keeps c rel p m : keeps (vfs_readlinkat fuel c rel p m).
Proof using HK. unfold vfs_readlinkat. keeping. Qed.
Lemma ftruncate_keeps c n l : keeps (vfs_ftruncate c n l).
Proof using HK. unfold vfs_ftruncate. keeping. Qed.
Lemma chmod_keeps c p m : keeps (vfs_chmod fuel c p m).
Proof using HK. unfold vfs_chmod. keeping. Qed.
Lemma chown_keeps c p u g : keeps (vfs_chown fuel c p u g).
Proof using HK. unfold vfs_chown. keeping. Qed.
Lemma read_keeps c f n : keeps (vfs_read c f n).
Proof using HK. unfold vfs_read, chr_read. keeping. Qed.
Lemma write_keeps c f b : keeps (vfs_write c f b).
Proof using HK. unfold vfs_write, chr_write. keeping. Qed.
Lemma lseek_keeps c f o w : keeps (vfs_lseek c f o w).
Proof using HK. unfold vfs_lseek. keeping. Qed.
Lemma ioctl_keeps c f o w : keeps (vfs_ioctl c f o w).
Proof using HK. unfold vfs_ioctl, chr_ioctl, blk_ioctl. keeping. Qed.
Lemma readdir_keeps c f : keeps (vfs_readdir c f).
Proof using HK. unfold vfs_readdir. keeping. Qed.
Lemma vnode_path_keeps n : keeps (vfs_vnode_path n).
Proof using Type.
  assert (forall room node stack, keeps (backstack room node stack)) as Hb by (intros room; induction room; intros node stack; cbn [backstack]; keeping).
  assert (forall l, keeps (path_of_stack l)) as Hp by (intros l; induction l; cbn [path_of_stack]; keeping).
  unfold vfs_vnode_path. keeping.
Qed.
Lemma class_by_name_keeps n : keeps (fs_class_by_name n).
Proof using Type. unfold fs_class_by_name. keeping. Qed.
Hint Resolve class_by_name_keeps : keeps.
Lemma mount_internal_keeps w b c f o : keeps (vfs_mount_internal w b c f o).
Proof using HK. unfold vfs_mount_internal, mount_check, fs_create, mount_attach, blk_update, blk_get. keeping. Qed.
Hint Resolve mount_internal_keeps : keeps.
Lemma mount_keeps c w b f fl o : keeps (vfs_mount fuel c w b f fl o).
Proof using HK. unfold vfs_mount, blk_mount_auto. keeping. Qed.
Lemma umount_keeps c d : keeps (vfs_umount fuel c d).
Proof using HK. unfold vfs_umount, umount_node, fs_get, blk_update, blk_get. keeping. Qed.
End keep.

(** ** Slots

    All slots of all processes, and how many of them hold a file. *)
Definition slots (ps : gmap Z fproc) : gmap (Z * nat) Z := map_uncurry ((fun p => map_seq 0 (fp_fds p)) <$> ps).
Definition held (M : gmap (Z * nat) Z) (f : Z) : nat := size (filter (fun kv => kv.2 = f) M).

Lemma slots_lookup ps p i : slots ps !! (p, i) = q ← ps !! p; fp_fds q !! i.
Proof.
  unfold slots. rewrite lookup_map_uncurry, lookup_fmap. destruct (ps !! p) as [q|]; [|done]. cbn. rewrite lookup_map_seq, option_guard_True by lia. f_equal. lia.
Qed.

Lemma slots_insert ps p q i f : ps !! p = Some q -> (i < length (fp_fds q))%nat ->
  slots (<[p := fp_set_fds (<[i := f]> (fp_fds q)) q]> ps) = <[(p, i) := f]> (slots ps).
Proof.
  intros Hp Hi. apply map_eq. intros [p' i']. rewrite slots_lookup. destruct (decide (p' = p)) as [->|Hne].
  - rewrite lookup_insert_eq. cbn. destruct (decide (i' = i)) as [->|].
    + by rewrite lookup_insert_eq, list_lookup_insert_eq by done.
    + rewrite lookup_insert_ne by congruence. rewrite list_lookup_insert_ne, slots_lookup, Hp by done. done.
  - rewrite !lookup_insert_ne by congruence. by rewrite slots_lookup.
Qed.

(** Changes of a process that leave its table alone. *)
Lemma slots_same ps p q q' : ps !! p = Some q -> fp_fds q' = fp_fds q -> slots (<[p := q']> ps) = slots ps.
Proof.
  intros Hp Hq. apply map_eq. intros [p' i]. rewrite !slots_lookup. destruct (decide (p' = p)) as [->|]; [|by rewrite lookup_insert_ne].
  rewrite lookup_insert_eq, Hp. cbn. by rewrite Hq.
Qed.

Lemma held_insert M k g h f : M !! k = Some g ->
  (held (<[k := h]> M) f + (if decide (g = f) then 1 else 0) = held M f + (if decide (h = f) then 1 else 0))%nat.
Proof.
  intros Hk. unfold held. assert (filter (fun kv : (Z * nat) * Z => kv.2 = f) M = filter (fun kv : (Z * nat) * Z => kv.2 = f) (<[k := g]> (delete k M))) as -> by (by rewrite insert_delete_id).
  assert (filter (fun kv : (Z * nat) * Z => kv.2 = f) (<[k := h]> M) = filter (fun kv : (Z * nat) * Z => kv.2 = f) (<[k := h]> (delete k M))) as -> by (by rewrite insert_delete_eq).
  assert (filter (fun kv : (Z * nat) * Z => kv.2 = f) (delete k M) !! k = None) as Hn by (apply map_lookup_filter_None; left; apply lookup_delete_eq).
  assert (forall h, size (filter (fun kv : (Z * nat) * Z => kv.2 = f) (<[k := h]> (delete k M))) =
    (size (filter (fun kv : (Z * nat) * Z => kv.2 = f) (delete k M)) + (if decide (h = f) then 1 else 0))%nat) as E.
  { intros x. destruct (decide (x = f)) as [->|].
    - rewrite map_filter_insert_True by done. rewrite map_size_insert_None by done. lia.
    - rewrite map_filter_insert_False by done. rewrite delete_delete_eq. lia. }
  rewrite !E. lia.
Qed.

(** Where a file is held. *)
Lemma held_zero M f : held M f = 0%nat <-> forall k, M !! k <> Some f.
Proof.
  unfold held. rewrite map_size_empty_iff. split.
  - intros E k Hk. assert (filter (fun kv : (Z * nat) * Z => kv.2 = f) M !! k = Some f) as X by (by apply map_lookup_filter_Some). by rewrite E in X.
  - intros Hk. apply map_empty. intros k. apply map_lookup_filter_None. destruct (M !! k) as [g|] eqn:E; [|by left]. right. intros x [= <-] Hx. cbn in Hx. subst g. by apply (Hk k).
Qed.

(** ** The invariant *)
Record fds_ok (s : files) : Prop := {
  fo_len : forall p q, fl_procs s !! p = Some q -> length (fp_fds q) = Z.to_nat THREAD_MAX_FDS;
  fo_count : forall f n, refs (fl_vfs s) !! f = Some n -> n = Z.of_nat (held (slots (fl_procs s)) f);
  fo_live : forall k f, slots (fl_procs s) !! k = Some f -> f <> 0 -> is_Some (refs (fl_vfs s) !! f);
  fo_null : refs (fl_vfs s) !! 0 = None;
}.
(** Every open file is held, but for those of [L]. *)
Definition no_loss (L : gset Z) (s : files) : Prop := forall f, refs (fl_vfs s) !! f = Some 0 -> f ∈ L.

(** Steps that change no count and no slot. *)
Definition same_fds (s s' : files) : Prop :=
  refs (fl_vfs s') = refs (fl_vfs s) /\ forall p, (fp_fds <$> fl_procs s' !! p) = (fp_fds <$> fl_procs s !! p).
#[export] Instance same_fds_preorder : PreOrder same_fds.
Proof. split; [done|]. intros a b c (H1 & H2) (H3 & H4). split; [congruence|]. intros p. by rewrite H4. Qed.

Lemma same_slots s s' : same_fds s s' -> slots (fl_procs s') = slots (fl_procs s).
Proof.
  intros [_ E]. apply map_eq. intros [p i]. rewrite !slots_lookup. specialize (E p). destruct (fl_procs s' !! p), (fl_procs s !! p); cbn in *; congruence.
Qed.
Lemma same_ok s s' : fds_ok s -> same_fds s s' -> fds_ok s'.
Proof.
  intros [H1 H2 H3 H4] E. pose proof (same_slots s s' E) as E2. destruct E as [E1 E3]. split; rewrite ?E1, ?E2; try done.
  intros p q Hp. specialize (E3 p). rewrite Hp in E3. destruct (fl_procs s !! p) as [q0|] eqn:E; [|done]. injection E3 as ->. by apply (H1 p).
Qed.
Lemma same_loss L s s' : no_loss L s -> same_fds s s' -> no_loss L s'.
Proof. intros HL (E1 & _) f. rewrite E1. apply HL. Qed.

(** [leaves c]: where [c] returns it changed no count and no slot. *)
Definition leaves {A} (c : cmd files A) : Prop := forall s a s', c s = Ret (a, s') -> same_fds s s'.
Lemma leaves_ret {A} (a : A) : leaves (mret a).
Proof. intros s b s' E. by injection E as _ <-. Qed.
Lemma leaves_load {A} (f : files -> option A) : leaves (cload f).
Proof. intros s a s' E. by apply load_inv in E as [_ ->]. Qed.
Lemma leaves_gets {A} (f : files -> A) : leaves (cgets f).
Proof. intros s a s' E. by injection E as _ <-. Qed.
Lemma leaves_assert b : leaves (cassert b).
Proof. intros s a s' E. by apply assert_inv in E as [_ ->]. Qed.
Lemma leaves_bind {A B} (m : cmd files A) (f : A -> cmd files B) : leaves m -> (forall a, leaves (f a)) -> leaves (m ≫= f).
Proof. intros Hm Hf s b s' E. apply bind_inv in E as (a & s1 & E1 & E2). etrans; [by apply (Hm _ _ _ E1)|by apply (Hf _ _ _ _ E2)]. Qed.
Lemma leaves_on_v {A} (c : cmd vfs A) : keeps c -> leaves (on_v c).
Proof.
  intros Hc s a s' E. unfold on_v, czoom in E. destruct (c (fl_vfs s)) as [[b v]| | |] eqn:Ec; [|done..]. injection E as <- <-. split; [by apply (Hc _ _ _ Ec)|done].
Qed.
Lemma leaves_rings f : leaves (cmodify (fun s => set_fl_rings (f s) s)).
Proof. intros s a s' E. by injection E as _ <-. Qed.
Lemma leaves_fproc self : leaves (fproc_at self).
Proof. apply leaves_load. Qed.
Lemma leaves_upd self f : (forall p, fp_fds (f p) = fp_fds p) -> leaves (upd_fproc self f).
Proof.
  intros Hf s a s' E. apply bind_inv in E as (p & s1 & E1 & E2). unfold fproc_at in E1. apply load_inv in E1 as [Hp ->]. injection E2 as _ <-. split; [done|]. intros p'. cbn.
  destruct (decide (p' = self)) as [->|]; [|by rewrite lookup_insert_ne]. rewrite lookup_insert_eq, Hp. cbn. by rewrite Hf.
Qed.
Lemma leaves_slot self i : leaves (fd_slot self i).
Proof. apply leaves_bind; [apply leaves_fproc|]. intros p. apply leaves_load. Qed.
#[local] Hint Resolve leaves_ret leaves_load leaves_gets leaves_assert leaves_on_v leaves_fproc leaves_slot leaves_rings : keeps.
Ltac leaving :=
  cbv zeta;
  lazymatch goal with
  | |- forall _, _ => intros ?; leaving
  | |- leaves (_ ≫= _) => apply leaves_bind; [leaving|intros ?; leaving]
  | |- leaves (upd_fproc _ _) => apply leaves_upd; done
  | |- leaves (match ?x with _ => _ end) => let E := fresh in destruct x eqn:E; leaving
  | |- leaves (on_v _) => apply leaves_on_v; first [solve [auto with keeps] | keeping]
  | |- leaves _ => solve [auto with keeps]
  end.

(** An address that [slab_calloc] gives is new. *)
Class SlabFresh `{Slab} : Prop := slab_fresh : forall X, slab_calloc X ∉ X.

(** ** The operations on counts and slots *)
Section counts.
Context `{HF : FsOps, HS : Slab, HD : DevOps, HK : !CountsKept, HN : !SlabFresh}.

Lemma on_v_inv {A} (c : cmd vfs A) s a s' : on_v c s = Ret (a, s') -> exists v, c (fl_vfs s) = Ret (a, v) /\ s' = set_fl_vfs v s.
Proof using Type. unfold on_v, czoom. destruct (c (fl_vfs s)) as [[b v]| | |]; [|done..]. intros [= <- <-]. by exists v. Qed.

Lemma set_slot_inv p i f s u s' : set_slot p i f s = Ret (u, s') -> exists q g, fl_procs s !! p = Some q /\ fp_fds q !! Z.to_nat i = Some g /\
  s' = set_fl_procs (<[p := fp_set_fds (<[Z.to_nat i := f]> (fp_fds q)) q]> (fl_procs s)) s.
Proof using Type.
  intros E. unfold set_slot, fproc_at in E. apply bind_inv in E as (q & s1 & E1 & E). apply load_inv in E1 as [Hq ->]. apply bind_inv in E as (g & s2 & E2 & E). apply load_inv in E2 as [Hg ->].
  apply bind_inv in E as (q' & s3 & E3 & E). unfold fproc_at in E3. apply load_inv in E3 as [Hq' ->]. injection E as _ <-. exists q, g. rewrite Hq in Hq'. by injection Hq' as <-.
Qed.

Lemma slot_inv p i s f s' : fd_slot p i s = Ret (f, s') -> s' = s /\ slots (fl_procs s) !! (p, Z.to_nat i) = Some f.
Proof using Type.
  intros E. unfold fd_slot, fproc_at in E. apply bind_inv in E as (q & s1 & E1 & E). apply load_inv in E1 as [Hq ->]. apply load_inv in E as [Hg ->]. split; [done|]. by rewrite slots_lookup, Hq.
Qed.

(** Storing into a slot. *)
Lemma set_slot_slots p i f s u s' : set_slot p i f s = Ret (u, s') -> fl_vfs s' = fl_vfs s /\ slots (fl_procs s') = <[(p, Z.to_nat i) := f]> (slots (fl_procs s)) /\
  ((forall p q, fl_procs s !! p = Some q -> length (fp_fds q) = Z.to_nat THREAD_MAX_FDS) -> forall p q, fl_procs s' !! p = Some q -> length (fp_fds q) = Z.to_nat THREAD_MAX_FDS).
Proof using Type.
  intros E. apply set_slot_inv in E as (q & g & Hq & Hg & ->). split; [done|]. split; [cbn; apply slots_insert; [done|by eapply lookup_lt_Some]|].
  intros Hl p' q' Hp'. cbn in Hp'. destruct (decide (p' = p)) as [->|]; [|rewrite lookup_insert_ne in Hp' by done; by apply (Hl p')]. rewrite lookup_insert_eq in Hp'. injection Hp' as <-. cbn.
  rewrite length_insert. by apply (Hl p).
Qed.

Lemma dup_inv f v g v' : ofile_dup f v = Ret (g, v') -> g = f /\ f <> 0 /\ exists n, refs v !! f = Some n /\ refs v' = <[f := n + 1]> (refs v).
Proof using Type.
  intros E. unfold ofile_dup in E. apply bind_inv in E as (u & v1 & E1 & E). apply assert_inv in E1 as [Hf ->]. apply bool_decide_eq_true in Hf. apply bind_inv in E as (o & v2 & E2 & E).
  unfold oget in E2. apply load_inv in E2 as [Ho ->]. apply bind_inv in E as (u2 & v3 & E3 & E). apply assert_inv in E3 as [_ ->]. apply bind_inv in E as (u3 & v4 & E4 & E). injection E as <- <-.
  rewrite (oupdate_run _ _ _ _ Ho) in E4. injection E4 as _ <-. split; [done|]. split; [done|]. exists (of_refcount o). unfold refs. cbn. rewrite lookup_fmap, Ho. split; [done|]. by rewrite fmap_insert.
Qed.

Lemma create_inv v f v' : ofile_create v = Ret (f, v') -> f <> 0 /\ refs v !! f = None /\ refs v' = <[f := 0]> (refs v).
Proof using HN.
  intros E. unfold ofile_create in E. apply bind_inv in E as (w & v1 & E1 & E). injection E1 as <- <-. apply bind_inv in E as (u & v2 & E2 & E). apply assert_inv in E2 as [Hf ->].
  apply bool_decide_eq_true in Hf. apply bind_inv in E as (u2 & v3 & E3 & E). injection E as <- <-. injection E3 as _ <-. split; [done|]. unfold refs. cbn. rewrite fmap_insert. split; [|done].
  rewrite lookup_fmap, (proj1 (not_elem_of_dom _ _)); [done|]. apply slab_fresh.
Qed.

Lemma destroy_inv f v u v' : ofile_destroy f v = Ret (u, v') -> refs v !! f = Some 0 /\ refs v' = delete f (refs v).
Proof using Type.
  intros E. unfold ofile_destroy in E. apply bind_inv in E as (o & v1 & E1 & E). unfold oget in E1. apply load_inv in E1 as [Ho ->]. apply bind_inv in E as (u2 & v2 & E2 & E).
  apply assert_inv in E2 as [Hr ->]. apply Z.eqb_eq in Hr. injection E as _ <-. unfold refs. cbn. rewrite fmap_delete, lookup_fmap, Ho. cbn. by rewrite Hr.
Qed.

Lemma close_inv c f v u v' : ofile_close c f v = Ret (u, v') -> exists n, refs v !! f = Some n /\ 0 < n /\ refs v' = (if decide (n = 1) then delete f (refs v) else <[f := n - 1]> (refs v)).
Proof using HK.
  intros E. unfold ofile_close in E. apply bind_inv in E as (o & v1 & E1 & E). unfold oget in E1. apply load_inv in E1 as [Ho ->]. apply bind_inv in E as (u2 & v2 & E2 & E).
  apply assert_inv in E2 as [Hn ->]. apply Z.ltb_lt in Hn. rewrite (bind_Ret _ _ _ _ _ (oupdate_run v f o _ Ho)) in E. set (v3 := set_ofiles _ _) in E.
  assert (ofiles v3 !! f = Some (with_refs (of_refcount o - 1) o)) as Ho3 by (cbn; apply lookup_insert_eq). rewrite (bind_Ret _ _ _ _ _ (oget_run v3 f _ Ho3)) in E. cbn [of_refcount with_refs] in E.
  assert (refs v3 = <[f := of_refcount o - 1]> (refs v)) as R3 by (unfold refs; cbn; by rewrite fmap_insert). exists (of_refcount o). split; [unfold refs; by rewrite lookup_fmap, Ho|]. split; [done|].
  destruct (Z.eqb_spec (of_refcount o - 1) 0) as [H0|H0].
  - rewrite decide_True by lia. apply bind_inv in E as (u4 & v4 & E4 & E). apply close_keeps in E4. apply destroy_inv in E as [_ ->]. by rewrite E4, R3, delete_insert_eq.
  - rewrite decide_False by lia. injection E as _ <-. done.
Qed.

(** A new open file is held by no slot. *)
Lemma create_ok L s f s' : fds_ok s -> no_loss L s -> on_v ofile_create s = Ret (f, s') ->
  fds_ok s' /\ no_loss ({[f]} ∪ L) s' /\ f <> 0 /\ refs (fl_vfs s) !! f = None /\ refs (fl_vfs s') = <[f := 0]> (refs (fl_vfs s)) /\ fl_procs s' = fl_procs s.
Proof using HN HK.
  intros [Hl Hc Hv H0] HL E. apply on_v_inv in E as (v & E & ->). destruct (create_inv _ _ _ E) as (Hf & Hn & Er). split.
  - split; cbn [fl_vfs fl_procs set_fl_vfs]; rewrite ?Er; [done| | |by rewrite lookup_insert_ne].
    + intros g n Hg. apply lookup_insert_Some in Hg as [[<- <-]|[Hne Hg]]; [|by apply Hc]. symmetry. apply Nat2Z.inj_iff with (m := 0%nat). apply held_zero. intros k Hk.
      destruct (Hv k f Hk Hf) as [n Hx]. congruence.
    + intros k g Hk Hg. apply lookup_insert_is_Some'. right. by apply (Hv k).
  - split; [|done]. intros g Hg. cbn in Hg. rewrite Er in Hg. apply lookup_insert_Some in Hg as [[<- _]|[_ Hg]]; [set_solver|]. apply HL in Hg. set_solver.
Qed.

(** An open file that no slot holds may be destroyed. *)
Lemma destroy_ok L s f u s' : fds_ok s -> no_loss L s -> on_v (ofile_destroy f) s = Ret (u, s') -> fds_ok s' /\ no_loss (L ∖ {[f]}) s'.
Proof using HN HK.
  intros [Hl Hc Hv H0] HL E. apply on_v_inv in E as (v & E & ->). destruct (destroy_inv _ _ _ _ E) as (Hf & Er). pose proof (Hc _ _ Hf) as Hh.
  assert (held (slots (fl_procs s)) f = 0%nat) as Hz by lia. rewrite held_zero in Hz. split.
  - split; cbn [fl_vfs fl_procs set_fl_vfs]; rewrite ?Er; [done| | |by apply lookup_delete_None; right].
    + intros g n Hg. apply lookup_delete_Some in Hg as [_ Hg]. by apply Hc.
    + intros k g Hk Hg. rewrite lookup_delete_ne; [by apply (Hv k)|]. intros ->. by apply (Hz k).
  - intros g Hg. cbn in Hg. rewrite Er in Hg. apply lookup_delete_Some in Hg as [Hne Hg]. apply HL in Hg. set_solver.
Qed.

(** A free slot takes one more reference. *)
Lemma dup_slot_ok L s f g s1 p i u s2 : fds_ok s -> no_loss L s -> on_v (ofile_dup f) s = Ret (g, s1) -> set_slot p i g s1 = Ret (u, s2) ->
  slots (fl_procs s) !! (p, Z.to_nat i) = Some 0 ->
  fds_ok s2 /\ no_loss (L ∖ {[f]}) s2 /\ slots (fl_procs s2) = <[(p, Z.to_nat i) := f]> (slots (fl_procs s)).
Proof using HN HK.
  intros [Hl Hc Hv H0] HL E1 E2 Hs. apply on_v_inv in E1 as (v & E & ->). destruct (dup_inv _ _ _ _ E) as (-> & Hf & n & Hn & Er).
  destruct (set_slot_slots _ _ _ _ _ _ E2) as (Ev & Es & Hl2). cbn [fl_vfs fl_procs set_fl_vfs] in *. split; [split|split; [|done]].
  - by apply Hl2.
  - intros h m Hm. rewrite Ev, Er in Hm. rewrite Es. pose proof (held_insert _ _ _ f h Hs) as Hh. apply lookup_insert_Some in Hm as [[<- <-]|[Hne Hm]].
    + rewrite decide_False in Hh by congruence. rewrite decide_True in Hh by done. pose proof (Hc _ _ Hn). lia.
    + assert (h <> 0) by congruence. rewrite decide_False in Hh by congruence. rewrite decide_False in Hh by congruence. pose proof (Hc _ _ Hm). lia.
  - intros k h Hk Hh. rewrite Ev, Er. apply lookup_insert_is_Some'. rewrite Es in Hk. apply lookup_insert_Some in Hk as [[_ <-]|[_ Hk]]; [by left|right; by apply (Hv k)].
  - rewrite Ev, Er. by rewrite lookup_insert_ne.
  - intros h Hh. rewrite Ev, Er in Hh. pose proof (Hc _ _ Hn). apply lookup_insert_Some in Hh as [[<- Hx]|[Hne Hh]]; [lia|]. apply HL in Hh. set_solver.
Qed.

(** Closing gives up the reference of a slot. *)
Lemma close_slot_ok L s c f s1 p i u u' s2 : fds_ok s -> no_loss L s -> on_v (ofile_close c f) s = Ret (u, s1) -> set_slot p i 0 s1 = Ret (u', s2) ->
  slots (fl_procs s) !! (p, Z.to_nat i) = Some f ->
  fds_ok s2 /\ no_loss L s2 /\ slots (fl_procs s2) = <[(p, Z.to_nat i) := 0]> (slots (fl_procs s)).
Proof using HN HK.
  intros [Hl Hc Hv H0] HL E1 E2 Hs. apply on_v_inv in E1 as (v & E & ->). destruct (close_inv _ _ _ _ _ E) as (n & Hn & Hpos & Er).
  destruct (set_slot_slots _ _ _ _ _ _ E2) as (Ev & Es & Hl2). cbn [fl_vfs fl_procs set_fl_vfs] in *. assert (f <> 0) as Hf by congruence.
  pose proof (Hc _ _ Hn) as Hcf. assert (forall h, h <> f -> refs v !! h = refs (fl_vfs s) !! h) as Ho.
  { intros h Hh. rewrite Er. case_decide; [by rewrite lookup_delete_ne|by rewrite lookup_insert_ne]. }
  split; [split|split; [|done]].
  - by apply Hl2.
  - intros h m Hm. rewrite Ev in Hm. rewrite Es. pose proof (held_insert _ _ _ 0 h Hs) as Hh. destruct (decide (h = f)) as [->|Hne].
    + rewrite decide_True in Hh by done. rewrite decide_False in Hh by done. rewrite Er in Hm. case_decide; [by rewrite lookup_delete_eq in Hm|]. rewrite lookup_insert_eq in Hm. injection Hm as <-. lia.
    + rewrite Ho in Hm by done. assert (h <> 0) by congruence. rewrite decide_False in Hh by done. rewrite decide_False in Hh by done. pose proof (Hc _ _ Hm). lia.
  - intros k h Hk Hh. rewrite Ev. rewrite Es in Hk. destruct (decide (h = f)) as [->|Hne].
    + rewrite Er. rewrite decide_False; [rewrite lookup_insert_eq; by eexists|]. intros ->. pose proof (held_insert _ _ _ 0 f Hs) as Hh1. rewrite decide_True in Hh1 by done. rewrite decide_False in Hh1 by done.
      assert (held (<[(p, Z.to_nat i) := 0]> (slots (fl_procs s))) f = 0%nat) as Hz by lia. rewrite held_zero in Hz. by apply (Hz k).
    + rewrite Ho by done. apply lookup_insert_Some in Hk as [[_ <-]|[_ Hk]]; [done|by apply (Hv k)].
  - rewrite Ev, Ho by done. done.
  - intros h Hh. rewrite Ev in Hh. destruct (decide (h = f)) as [->|Hne]; [|rewrite Ho in Hh by done; by apply HL].
    rewrite Er in Hh. case_decide; [by rewrite lookup_delete_eq in Hh|]. rewrite lookup_insert_eq in Hh. injection Hh as Hh. lia.
Qed.
End counts.

(** ** The calls keep the invariant *)
Lemma free_fd_spec l : forall i, free_fd i l <> -1 -> i <= free_fd i l < i + Z.of_nat (length l) /\ l !! Z.to_nat (free_fd i l - i) = Some 0.
Proof.
  induction l as [|f l IH]; intros i Hi; [done|]. cbn [free_fd] in *. cbn [length]. unfold nonnull in *. case_bool_decide as Hf.
  - destruct (IH (i + 1) Hi) as [H1 H2]. split; [lia|]. replace (Z.to_nat (free_fd (i + 1) l - i)) with (S (Z.to_nat (free_fd (i + 1) l - (i + 1)))) by lia. done.
  - subst f. split; [lia|]. by rewrite Z.sub_diag.
Qed.

Lemma free_fd_lowest l : forall i j, i + Z.of_nat j < free_fd i l -> l !! j <> Some 0.
Proof.
  induction l as [|f l IH]; intros i j Hj; [done|]. cbn [free_fd] in Hj. unfold nonnull in Hj. case_bool_decide as Hf; [|lia].
  destruct j as [|j]; cbn; [congruence|]. apply (IH (i + 1)). lia.
Qed.

Lemma free_fds_spec l : forall i fd0 a b, 0 <= i -> free_fds i l fd0 = (a, b) -> b <> -1 ->
  i <= b < i + Z.of_nat (length l) /\ l !! Z.to_nat (b - i) = Some 0 /\
  if decide (fd0 = -1) then i <= a < b /\ l !! Z.to_nat (a - i) = Some 0 else a = fd0.
Proof.
  induction l as [|f l IH]; intros i fd0 a b Hi E Hb; [by injection E as _ <-|]. cbn [free_fds] in E. cbn [length]. unfold nonnull in E.
  assert (forall x, i + 1 <= x -> (f :: l) !! Z.to_nat (x - i) = l !! Z.to_nat (x - (i + 1))) as Hs.
  { intros x Hx. by replace (Z.to_nat (x - i)) with (S (Z.to_nat (x - (i + 1)))) by lia. }
  case_bool_decide as Hf.
  - destruct (IH (i + 1) fd0 a b ltac:(lia) E Hb) as (H1 & H2 & H3). split; [lia|]. split; [by rewrite Hs by lia|]. case_decide; [|done]. destruct H3. split; [lia|]. by rewrite Hs by lia.
  - subst f. destruct (Z.eqb_spec fd0 (-1)) as [->|Hfd].
    + destruct (IH (i + 1) i a b ltac:(lia) E Hb) as (H1 & H2 & H3). rewrite decide_False in H3 by lia. subst a. split; [lia|]. split; [by rewrite Hs by lia|]. rewrite decide_True by done.
      split; [lia|]. by rewrite Z.sub_diag.
    + injection E as <- <-. split; [lia|]. rewrite decide_False by done. by rewrite Z.sub_diag.
Qed.

Lemma for_range_ind {S} (P : Z -> S -> Prop) (body : Z -> cmd S unit) :
  (forall j s u s', P j s -> body j s = Ret (u, s') -> P (j + 1) s') ->
  forall n i s u s', P i s -> for_range body n i s = Ret (u, s') -> P (i + Z.of_nat n) s'.
Proof.
  intros Hb n. induction n as [|n IH]; intros i s u s' HP E; cbn [for_range] in E.
  - injection E as _ <-. by rewrite Z.add_0_r.
  - apply bind_inv in E as (u1 & s1 & E1 & E2). apply (Hb _ _ _ _ HP) in E1. replace (i + Z.of_nat (Datatypes.S n)) with (i + 1 + Z.of_nat n) by lia. by eapply IH.
Qed.

Lemma held_agree M M' f : (forall k, M !! k = Some f <-> M' !! k = Some f) -> held M f = held M' f.
Proof.
  intros Hk. unfold held. f_equal. apply map_eq. intros k. apply option_eq. intros x. rewrite !map_lookup_filter_Some. cbn. naive_solver.
Qed.

(** Tables of zeros come and go. *)
Lemma procs_ok s ps : fds_ok s -> (forall p q, ps !! p = Some q -> length (fp_fds q) = Z.to_nat THREAD_MAX_FDS) ->
  (forall k f, f <> 0 -> slots ps !! k = Some f <-> slots (fl_procs s) !! k = Some f) -> fds_ok (set_fl_procs ps s).
Proof.
  intros [Hl Hc Hv H0] Hlen Hk. split; cbn [fl_vfs fl_procs set_fl_procs]; [done| | |done].
  - intros f n Hf. rewrite (Hc _ _ Hf). f_equal. apply held_agree. intros k. rewrite Hk; [done|]. congruence.
  - intros k f Hf Hne. apply Hk in Hf; [|done]. by apply (Hv k).
Qed.

Section calls_ok.
Context `{HF : FsOps, HS : Slab, HD : DevOps, HK : !CountsKept, HN : !SlabFresh} (fuel : nat) (pipe_vnode_ops : Z).

Definition kept (L : gset Z) (s : files) : Prop := fds_ok s /\ no_loss L s.

Lemma leaves_kept {A} (c : cmd files A) L s a s' : leaves c -> kept L s -> c s = Ret (a, s') -> kept L s'.
Proof using Type. intros Hc [H1 H2] E. apply Hc in E. split; [by eapply same_ok|by eapply same_loss]. Qed.

Lemma at_vnode_leaves self dfd fl : leaves (get_at_vnode self dfd fl).
Proof using Type. unfold get_at_vnode, get_fd, get_ioctx. leaving. Qed.
Lemma get_fd_leaves self fd : leaves (get_fd self fd).
Proof using Type. unfold get_fd. leaving. Qed.

(** A slot that held nothing, in a process whose table was read before. *)
Lemma free_slot_zero s self p i : fds_ok s -> fl_procs s !! self = Some p -> fp_fds p !! Z.to_nat i = Some 0 -> slots (fl_procs s) !! (self, Z.to_nat i) = Some 0.
Proof using Type. intros _ Hp Hi. by rewrite slots_lookup, Hp. Qed.

Lemma openat_kept is_tty L self dfd name fl mode s r s' : kept L s -> sys_openat fuel is_tty self dfd name fl mode s = Ret (r, s') -> kept L s'.
Proof using HN HK.
  intros HL E. unfold sys_openat in E. apply bind_inv in E as ([res at_] & s1 & E1 & E). apply (leaves_kept _ L _ _ _ (at_vnode_leaves self dfd 0) HL) in E1.
  case_bool_decide; [by injection E as _ <-|]. apply bind_inv in E as (p & s2 & E2 & E). unfold fproc_at in E2. apply load_inv in E2 as [Hp ->]. cbv zeta in E.
  destruct (Z.eqb_spec (free_fd 0 (fp_fds p)) (-1)) as [|Hfd]; [by injection E as _ <-|]. destruct (free_fd_spec _ _ Hfd) as [Hr Hz]. rewrite Z.sub_0_r in Hz.
  apply bind_inv in E as (f & s3 & E3 & E). destruct E1 as [Ok1 L1]. destruct (create_ok L s1 f s3 Ok1 L1 E3) as (Ok3 & L3 & Hf0 & Hfn & R3 & P3).
  apply bind_inv in E as (res' & s4 & E4 & E). pose proof (leaves_on_v _ (openat_keeps fuel (fp_ioctx p) f at_ name fl mode) _ _ _ E4) as S4.
  pose proof (same_ok _ _ Ok3 S4) as Ok4. pose proof (same_loss _ _ _ L3 S4) as L4. pose proof (same_slots _ _ S4) as Es4.
  assert (forall s0, no_loss (({[f]} ∪ L) ∖ {[f]}) s0 -> no_loss L s0) as Hw by (intros s0 Hs0 g Hg; apply Hs0 in Hg; set_solver).
  case_bool_decide as Hres.
  - apply bind_inv in E as (u & s5 & E5 & E). injection E as _ <-. destruct (destroy_ok _ _ _ _ _ Ok4 L4 E5) as [Ok5 L5]. split; [done|by apply Hw].
  - apply bind_inv in E as (g & s5 & E5 & E). apply bind_inv in E as (u & s6 & E6 & E).
    assert (slots (fl_procs s4) !! (self, Z.to_nat (free_fd 0 (fp_fds p))) = Some 0) as Hs by (rewrite Es4, P3, slots_lookup, Hp; exact Hz).
    destruct (dup_slot_ok _ _ _ _ _ _ _ _ _ Ok4 L4 E5 E6 Hs) as (Ok6 & L6 & _). eapply leaves_kept; [|split; [exact Ok6|apply Hw; exact L6]|exact E]. leaving.
Qed.

Lemma close_kept L self fd s u s' : kept L s -> sys_close self fd s = Ret (u, s') -> kept L s' /\
  slots (fl_procs s') = if (fd <? 0) || (THREAD_MAX_FDS <=? fd) then slots (fl_procs s) else <[(self, Z.to_nat fd) := 0]> (slots (fl_procs s)).
Proof using HN HK.
  intros [Ok HL] E. unfold sys_close in E. destruct ((fd <? 0) || (THREAD_MAX_FDS <=? fd)); [by injection E as _ <-|]. apply bind_inv in E as (f & s1 & E1 & E). apply slot_inv in E1 as [-> Hs].
  unfold nonnull in E. case_bool_decide as Hf; cbn [negb] in E.
  - apply bind_inv in E as (c & s2 & E2 & E). unfold get_ioctx, fproc_at in E2. apply bind_inv in E2 as (q & s3 & E3 & E2). apply load_inv in E3 as [Hq ->]. injection E2 as _ <-.
    apply bind_inv in E as (u1 & s4 & E4 & E5). destruct (close_slot_ok L s c f s4 self fd u1 u s' Ok HL E4 E5 Hs) as (? & ? & ?). done.
  - injection E as _ <-. split; [done|]. subst f. by rewrite insert_id.
Qed.

Lemma dup2_kept L self from to s r s' : kept L s -> sys_dup2 self from to s = Ret (r, s') -> kept L s'.
Proof using HN HK.
  intros HL E. unfold sys_dup2 in E. destruct (_ || _) eqn:Eb; [by injection E as _ <-|]. destruct (Z.eqb_spec to from) as [->|Hne]; [by injection E as _ <-|].
  apply bind_inv in E as (f & s1 & E1 & E). apply slot_inv in E1 as [-> Hs]. destruct (negb (nonnull f)); [by injection E as _ <-|]. apply bind_inv in E as (u & s2 & E2 & E).
  destruct (close_kept L self to s u s2 HL E2) as [[Ok2 L2] _]. apply bind_inv in E as (g & s3 & E3 & E). apply slot_inv in E3 as [-> Hg]. apply bind_inv in E as (u3 & s4 & E4 & E).
  apply assert_inv in E4 as [Hz ->]. unfold nonnull in Hz. apply negb_true_iff, bool_decide_eq_false, dec_stable in Hz. subst g. apply bind_inv in E as (f' & s5 & E5 & E). apply slot_inv in E5 as [-> Hf'].
  apply bind_inv in E as (h & s6 & E6 & E). apply bind_inv in E as (u7 & s7 & E7 & E). injection E as _ <-. destruct (dup_slot_ok L _ _ _ _ _ _ _ _ Ok2 L2 E6 E7 Hg) as (Ok7 & L7 & _).
  split; [done|]. intros x Hx. apply L7 in Hx. set_solver.
Qed.

Lemma dup_kept L self from s r s' : kept L s -> sys_dup self from s = Ret (r, s') -> kept L s'.
Proof using HN HK.
  intros HL E. unfold sys_dup in E. apply bind_inv in E as (p & s1 & E1 & E). apply (leaves_kept _ L _ _ _ (leaves_fproc self) HL) in E1. by eapply dup2_kept.
Qed.

Lemma new_ring_leaves mem : leaves (new_ring mem).
Proof using Type. unfold new_ring. leaving. Qed.
Hint Resolve new_ring_leaves : keeps.

(** Both ends of a new pipe are new, and no slot holds them. *)
Lemma pipe_create_kept L mem s a b s' : kept L s -> pipe_create pipe_vnode_ops mem s = Ret ((a, b), s') ->
  kept ({[b]} ∪ ({[a]} ∪ L)) s' /\ slots (fl_procs s') = slots (fl_procs s) /\ (forall p, (fp_fds <$> fl_procs s' !! p) = (fp_fds <$> fl_procs s !! p)) /\
  refs (fl_vfs s) !! a = None /\ refs (fl_vfs s) !! b = None /\ refs (fl_vfs s') = <[b := 0]> (<[a := 0]> (refs (fl_vfs s))).
Proof using HN HK.
  intros [Ok HL] E. unfold pipe_create in E. apply bind_inv in E as (re & s1 & E1 & E). destruct (create_ok L s re s1 Ok HL E1) as (Ok1 & L1 & Hr0 & Hrn & R1 & P1).
  apply bind_inv in E as (we & s2 & E2 & E). destruct (create_ok _ s1 we s2 Ok1 L1 E2) as (Ok2 & L2 & Hw0 & Hwn & R2 & P2).
  assert (same_fds s2 s' /\ a = re /\ b = we) as (S2 & -> & ->).
  { match type of E with ?c s2 = _ => assert (leaves c) as Hc end.
    { pose proof vnode_create_keeps. leaving. }
    split; [by eapply Hc|]. apply bind_inv in E as (? & ? & _ & E). apply bind_inv in E as (? & ? & _ & E). apply bind_inv in E as (? & ? & _ & E). apply bind_inv in E as (? & ? & _ & E).
    apply bind_inv in E as (? & ? & _ & E). apply bind_inv in E as (? & ? & _ & E). by injection E. }
  split; [split; [by eapply same_ok|by eapply same_loss]|]. split; [rewrite (same_slots _ _ S2); by rewrite P2, P1|]. destruct S2 as [R' P']. split; [intros p; by rewrite P', P2, P1|].
  split; [done|]. split; [|by rewrite R', R2, R1]. rewrite R1 in Hwn. by apply lookup_insert_None in Hwn as [? _].
Qed.

(** A pipe that finds no two free slots loses its ends. *)
Lemma pipe_kept L mem self s r s' : kept L s -> sys_pipe pipe_vnode_ops mem self s = Ret (r, s') ->
  kept (if bool_decide (r.1 = 0) then L else (dom (refs (fl_vfs s')) ∖ dom (refs (fl_vfs s))) ∪ L) s'.
Proof using HN HK.
  clear fuel. intros HL E. unfold sys_pipe in E. apply bind_inv in E as ([a b] & s1 & E1 & E). destruct (pipe_create_kept L mem s a b s1 HL E1) as ([Ok1 L1] & Es & Ep & Ha & Hb & R1).
  apply bind_inv in E as (p & s2 & E2 & E). unfold fproc_at in E2. apply load_inv in E2 as [Hp ->]. destruct (free_fds 0 (fp_fds p) (-1)) as [fd0 fd1] eqn:Ef.
  destruct ((fd0 =? -1) || (fd1 =? -1)) eqn:Eb.
  - injection E as <- <-. rewrite bool_decide_eq_false_2 by done. split; [done|]. intros x Hx. apply L1 in Hx. rewrite R1, !dom_insert_L.
    apply not_elem_of_dom in Ha, Hb. set_solver.
  - apply orb_false_iff in Eb as [_ Hb1%Z.eqb_neq]. destruct (free_fds_spec _ 0 _ _ _ ltac:(lia) Ef Hb1) as (Hr1 & Hz1 & H0). rewrite decide_True in H0 by done. destruct H0 as [Hr0 Hz0].
    rewrite !Z.sub_0_r in *. apply bind_inv in E as (f & s3 & E3 & E). apply bind_inv in E as (u & s4 & E4 & E). apply bind_inv in E as (g & s5 & E5 & E). apply bind_inv in E as (u' & s6 & E6 & E).
    injection E as <- <-. rewrite bool_decide_eq_true_2 by done.
    assert (slots (fl_procs s1) !! (self, Z.to_nat fd0) = Some 0) as Hs0 by (by rewrite slots_lookup, Hp).
    assert (slots (fl_procs s1) !! (self, Z.to_nat fd1) = Some 0) as Hs1 by (by rewrite slots_lookup, Hp).
    destruct (dup_slot_ok _ _ _ _ _ _ _ _ _ Ok1 L1 E3 E4 Hs0) as (Ok4 & L4 & S4).
    destruct (dup_slot_ok _ _ _ _ _ self fd1 _ _ Ok4 L4 E5 E6) as (Ok6 & L6 & _). { rewrite S4, lookup_insert_ne by (intros Hx; injection Hx as Hx; lia). done. }
    split; [done|]. intros x Hx. apply L6 in Hx. set_solver.
Qed.

(** The loops over the table. *)
Lemma close_slot_if_kept L self c i s u s' : kept L s -> close_slot_if self c i s = Ret (u, s') -> kept L s'.
Proof using HN HK.
  intros [Ok HL] E. unfold close_slot_if in E. apply bind_inv in E as (f & s1 & E1 & E). apply slot_inv in E1 as [-> Hs]. destruct (negb (nonnull f)); [by injection E as _ <-|].
  apply bind_inv in E as (o & s2 & E2 & E). apply on_v_inv in E2 as (v & E2 & ->). unfold oget in E2. apply load_inv in E2 as [Ho ->]. replace (set_fl_vfs (fl_vfs s) s) with s in E by (by destruct s).
  destruct (c o); [|by injection E as _ <-]. apply bind_inv in E as (x & s2 & E2 & E). unfold get_ioctx, fproc_at in E2. apply bind_inv in E2 as (q & s3 & E3 & E2). apply load_inv in E3 as [Hq ->].
  injection E2 as _ <-. apply bind_inv in E as (u1 & s4 & E4 & E5). destruct (close_slot_ok L s x f s4 self i u1 u s' Ok HL E4 E5 Hs) as (? & ? & _). done.
Qed.
Lemma close_fds_if_kept L self c s u s' : kept L s -> close_fds_if self c s = Ret (u, s') -> kept L s'.
Proof using HN HK. intros HL. apply (for_range_ind (fun _ => kept L)); [|done]. intros j s1 u1 s2. apply close_slot_if_kept. Qed.
Lemma setsid_kept L self s u s' : kept L s -> setsid_fds self s = Ret (u, s') -> kept L s'.
Proof using HN HK.
  intros HL E. unfold setsid_fds in E. apply bind_inv in E as (p & s1 & E1 & E). apply (leaves_kept _ L _ _ _ (leaves_fproc self) HL) in E1. destruct (nonnull (fp_ctty p)); [|by injection E as _ <-].
  apply bind_inv in E as (u1 & s2 & E2 & E). apply (close_fds_if_kept L) in E2; [|done]. by apply (leaves_kept _ L _ _ _ (leaves_upd self (fp_set_ctty 0) ltac:(done)) E2) in E.
Qed.

Lemma fork_kept L dst src s u s' : kept L s -> fl_procs s !! dst = None -> fork_fds dst src s = Ret (u, s') -> kept L s'.
Proof using HN HK.
  intros [Ok HL] Hd E. unfold fork_fds in E. apply bind_inv in E as (u1 & s1 & E1 & E). injection E1 as _ <-. set (s1 := set_fl_procs _ s) in E.
  assert (fds_ok s1 /\ forall i, (i < 16)%nat -> slots (fl_procs s1) !! (dst, i) = Some 0) as [Ok1 Hz1].
  { split.
    - apply procs_ok; [done| |].
      + intros p q Hp. apply lookup_insert_Some in Hp as [[_ <-]|[_ Hp]]; [apply length_replicate|by apply (fo_len s Ok p)].
      + intros [p i] f Hf. rewrite !slots_lookup. destruct (decide (p = dst)) as [->|]; [|by rewrite lookup_insert_ne]. rewrite lookup_insert_eq, Hd. cbn [mbind option_bind empty_fproc fp_fds].
        split; [|done]. intros Hx. apply lookup_replicate in Hx as [Hx _]. congruence.
    - intros i Hi. rewrite slots_lookup. cbn. rewrite lookup_insert_eq. cbn [mbind option_bind empty_fproc fp_fds]. by apply lookup_replicate_2. }
  assert (no_loss L s1) as L1 by exact HL. apply bind_inv in E as (p & s2 & E2 & E). unfold fproc_at in E2. apply load_inv in E2 as [Hp ->]. apply bind_inv in E as (u3 & s3 & E3 & E).
  pose proof (leaves_upd dst (fun q => fp_set_ctty (fp_ctty p) (fp_set_ioctx (fp_ioctx p) q)) ltac:(done) _ _ _ E3) as S3.
  apply (for_range_ind (fun j s => kept L s /\ 0 <= j /\ forall i, j <= Z.of_nat i < 16 -> slots (fl_procs s) !! (dst, i) = Some 0)) in E; [by destruct E| |].
  - clear -HK HN. intros j s u s' ([Ok HL] & Hj & Hz) E. unfold fork_slot in E. apply bind_inv in E as (f & s1 & E1 & E). apply slot_inv in E1 as [-> Hs]. destruct (nonnull f).
    + apply bind_inv in E as (g & s2 & E2 & E3). destruct (decide (j < 16)) as [Hlt|Hge].
      * destruct (dup_slot_ok L _ _ _ _ _ _ _ _ Ok HL E2 E3) as (Ok3 & L3 & S3); [by apply Hz; lia|]. split; [split; [done|]|split; [lia|]].
        -- intros x Hx. apply L3 in Hx. set_solver.
        -- intros i Hi. rewrite S3, lookup_insert_ne; [apply Hz; lia|]. intros Hx. injection Hx as Hx. lia.
      * exfalso. rewrite slots_lookup in Hs. destruct (fl_procs s !! src) as [q|] eqn:Eq; [|done]. cbn in Hs. apply lookup_lt_Some in Hs. rewrite (fo_len s Ok src q Eq) in Hs. unfold THREAD_MAX_FDS in Hs. lia.
    + injection E as _ <-. split; [done|]. split; [lia|]. intros i Hi. apply Hz. lia.
  - split; [split; [by eapply same_ok|by eapply same_loss]|]. split; [done|]. intros i Hi. rewrite (same_slots _ _ S3). apply Hz1. lia.
Qed.

(** The first process. *)
Definition booted (s : files) : Prop := refs (fl_vfs s) = ∅ /\ forall p q, fl_procs s !! p = Some q -> fp_fds q = replicate (Z.to_nat THREAD_MAX_FDS) 0.
Lemma booted_kept s : booted s -> kept ∅ s.
Proof using Type.
  intros [Hr Hp]. split; [split|]; rewrite ?Hr; try done.
  - intros p q Hq. rewrite (Hp p q Hq). apply length_replicate.
  - intros [p i] f Hf Hne. rewrite slots_lookup in Hf. destruct (fl_procs s !! p) as [q|] eqn:Eq; [|done]. cbn in Hf. rewrite (Hp p q Eq) in Hf. apply lookup_replicate in Hf as [Hf _]. congruence.
  - intros f Hf. by rewrite Hr in Hf.
Qed.

Lemma init_kept self tty s u s' : booted s -> init_stdio self tty s = Ret (u, s') -> kept ∅ s'.
Proof using HN HK.
  intros Hb E. pose proof (booted_kept s Hb) as [Ok HL]. unfold init_stdio in E. apply bind_inv in E as (o1 & s1 & E1 & E). destruct (create_ok _ _ _ _ Ok HL E1) as (Ok1 & L1 & H10 & _ & _ & P1).
  apply bind_inv in E as (o2 & s2 & E2 & E). destruct (create_ok _ _ _ _ Ok1 L1 E2) as (Ok2 & L2 & H20 & _ & _ & P2).
  apply bind_inv in E as (c & s3 & E3 & E). assert (s3 = s2 /\ exists q, fl_procs s !! self = Some q) as [-> [q Hq]].
  { unfold get_ioctx, fproc_at in E3. apply bind_inv in E3 as (q & s4 & E4 & E3). apply load_inv in E4 as [Hq ->]. injection E3 as _ <-. split; [done|]. rewrite P2, P1 in Hq. by exists q. }
  assert (forall i, (i < 16)%nat -> slots (fl_procs s2) !! (self, i) = Some 0) as Hz.
  { intros i Hi. rewrite slots_lookup, P2, P1, Hq. cbn. rewrite (proj2 Hb _ _ Hq). by apply lookup_replicate_2. }
  apply bind_inv in E as (r & s3 & E4 & E). pose proof (leaves_on_v _ (open_vnode_keeps c o2 tty O_RDONLY) _ _ _ E4) as S3. apply bind_inv in E as (? & ? & E5 & E). apply assert_inv in E5 as [_ ->].
  apply bind_inv in E as (r' & s4 & E6 & E). pose proof (leaves_on_v _ (open_vnode_keeps c o1 tty O_WRONLY) _ _ _ E6) as S4. apply bind_inv in E as (? & ? & E5 & E). apply assert_inv in E5 as [_ ->].
  assert (same_fds s2 s4) as S24 by (etrans; [exact S3|exact S4]). clear S3 S4 E4 E6. pose proof (same_ok _ _ Ok2 S24) as Ok4. pose proof (same_loss _ _ _ L2 S24) as L4. pose proof (same_slots _ _ S24) as Es.
  apply bind_inv in E as (f & s5 & E5 & E). apply bind_inv in E as (? & s6 & E6 & E). destruct (dup_slot_ok _ _ _ _ _ _ _ _ _ Ok4 L4 E5 E6) as (Ok6 & L6 & S6); [rewrite Es; apply Hz; lia|].
  apply bind_inv in E as (g & s7 & E7 & E). apply bind_inv in E as (? & s8 & E8 & E). destruct (dup_slot_ok _ _ _ _ _ _ _ _ _ Ok6 L6 E7 E8) as (Ok8 & L8 & S8); [rewrite S6, lookup_insert_ne, Es by done; apply Hz; lia|].
  apply bind_inv in E as (h & s9 & E9 & E). apply bind_inv in E as (? & s10 & E10 & E).
  destruct (dup_slot_ok _ _ _ _ _ _ _ _ _ Ok8 L8 E9 E10) as (Ok10 & L10 & _); [rewrite S8, lookup_insert_ne, S6, lookup_insert_ne, Es by done; apply Hz; lia|].
  eapply leaves_kept; [|split; [exact Ok10|]|exact E]; [leaving|]. intros y Hy. apply L10 in Hy. set_solver.
Qed.

(** ** What processes do *)

(** The calls that work on an open file, a path or the working directory. *)
Inductive other_call (self : Z) (s s' : files) : Prop :=
  | oc_read fd lim r : sys_read self fd lim s = Ret (r, s') -> other_call self s s'
  | oc_write fd data r : sys_write self fd data s = Ret (r, s') -> other_call self s s'
  | oc_ftruncate fd n r : sys_ftruncate self fd n s = Ret (r, s') -> other_call self s s'
  | oc_lseek fd o w r : sys_lseek self fd o w s = Ret (r, s') -> other_call self s s'
  | oc_ioctl fd c a r : sys_ioctl self fd c a s = Ret (r, s') -> other_call self s s'
  | oc_readdir fd r : sys_readdir self fd s = Ret (r, s') -> other_call self s s'
  | oc_mkdirat d p m r : sys_mkdirat fuel self d p m s = Ret (r, s') -> other_call self s s'
  | oc_unlinkat d p f r : sys_unlinkat fuel self d p f s = Ret (r, s') -> other_call self s s'
  | oc_fstatat d p f r : sys_fstatat fuel self d p f s = Ret (r, s') -> other_call self s s'
  | oc_faccessat d p m f r : sys_faccessat fuel self d p m f s = Ret (r, s') -> other_call self s s'
  | oc_readlinkat d p n r : sys_readlinkat fuel self d p n s = Ret (r, s') -> other_call self s s'
  | oc_truncate p n r : sys_truncate fuel self p n s = Ret (r, s') -> other_call self s s'
  | oc_chmod p m r : sys_chmod fuel self p m s = Ret (r, s') -> other_call self s s'
  | oc_chown p u g r : sys_chown fuel self p u g s = Ret (r, s') -> other_call self s s'
  | oc_chdir p r : sys_chdir fuel self p s = Ret (r, s') -> other_call self s s'
  | oc_getcwd n r : sys_getcwd self n s = Ret (r, s') -> other_call self s s'
  | oc_mknod mem p m r : sys_mknod fuel pipe_vnode_ops mem self p m s = Ret (r, s') -> other_call self s s'
  | oc_mount d p t f o r : sys_mount fuel self d p t f o s = Ret (r, s') -> other_call self s s'
  | oc_umount p r : sys_umount fuel self p s = Ret (r, s') -> other_call self s s'.

Section reach.
Context (is_tty : Z -> bool).

(** States that processes reach from the boot, and the pipe ends lost on the way.  A
    system call is one step. *)
Inductive reached : gset Z -> files -> Prop :=
  | re_boot s self tty u s' : booted s -> init_stdio self tty s = Ret (u, s') -> reached ∅ s'
  | re_open L s self dfd name fl mode r s' : reached L s -> sys_openat fuel is_tty self dfd name fl mode s = Ret (r, s') -> reached L s'
  | re_close L s self fd u s' : reached L s -> sys_close self fd s = Ret (u, s') -> reached L s'
  | re_dup L s self from r s' : reached L s -> sys_dup self from s = Ret (r, s') -> reached L s'
  | re_dup2 L s self from to r s' : reached L s -> sys_dup2 self from to s = Ret (r, s') -> reached L s'
  | re_pipe L s mem self r s' : reached L s -> sys_pipe pipe_vnode_ops mem self s = Ret (r, s') ->
      reached (if bool_decide (r.1 = 0) then L else (dom (refs (fl_vfs s')) ∖ dom (refs (fl_vfs s))) ∪ L) s'
  | re_other L s self s' : reached L s -> other_call self s s' -> reached L s'
  | re_fork L s dst src u s' : reached L s -> fl_procs s !! dst = None -> fork_fds dst src s = Ret (u, s') -> reached L s'
  | re_exec L s self u s' : reached L s -> exec_fds self s = Ret (u, s') -> reached L s'
  | re_setsid L s self u s' : reached L s -> setsid_fds self s = Ret (u, s') -> reached L s'
  | re_exit L s self u s' : reached L s -> exit_fds self s = Ret (u, s') -> reached L s'
  | re_reap L s self q : reached L s -> fl_procs s !! self = Some q -> (forall i f, fp_fds q !! i = Some f -> f = 0) ->
      reached L (set_fl_procs (delete self (fl_procs s)) s).

Lemma with_fd_leaves {A} self fd (bad : A) k : (forall c f, keeps (k c f)) -> leaves (with_fd self fd bad k).
Proof using Type. intros Hk. unfold with_fd, get_ioctx. pose proof get_fd_leaves. leaving. Qed.
Lemma with_at_leaves {A} self d fl (bad : Z -> A) k : (forall c f, keeps (k c f)) -> leaves (with_at self d fl bad k).
Proof using Type. intros Hk. unfold with_at, get_ioctx. pose proof at_vnode_leaves. leaving. Qed.
Lemma with_ctx_leaves {A} self (k : vfs_ioctx -> cmd vfs A) : (forall c, keeps (k c)) -> leaves (with_ctx self k).
Proof using Type. intros Hk. unfold with_ctx, get_ioctx. leaving. Qed.

Lemma other_same self s s' : other_call self s s' -> same_fds s s'.
Proof using HN HK.
  assert (forall c n l, keeps (vfs_ftruncate c n l)) as Htr by apply ftruncate_keeps. assert (forall c rel p l, keeps (vfs_find fuel c rel p l)) as Hfi by apply find_keeps.
  assert (forall c p, keeps (vfs_setcwd fuel c p)) as Hcw by apply setcwd_keeps. assert (forall n, keeps (vfs_vnode_path n)) as Hvp by apply vnode_path_keeps.
  assert (forall c p m, keeps (vfs_mknod fuel c p m)) as Hmk by apply mknod_keeps.
  intros []; match goal with E : _ = Ret (_, _) |- _ => revert E end.
  - apply with_fd_leaves. intros. apply read_keeps.
  - apply with_fd_leaves. intros. apply write_keeps.
  - apply with_fd_leaves. keeping.
  - apply with_fd_leaves. intros. apply lseek_keeps.
  - apply with_fd_leaves. intros. apply ioctl_keeps.
  - apply with_fd_leaves. intros. apply readdir_keeps.
  - apply with_at_leaves. intros. apply mkdirat_keeps.
  - apply with_at_leaves. intros. apply unlinkat_keeps.
  - apply with_at_leaves. intros. apply fstatat_keeps.
  - apply with_at_leaves. intros. apply faccessat_keeps.
  - apply with_at_leaves. intros. apply readlinkat_keeps.
  - apply with_ctx_leaves. keeping.
  - apply with_ctx_leaves. intros. apply chmod_keeps.
  - apply with_ctx_leaves. intros. apply chown_keeps.
  - assert (leaves (sys_chdir fuel self p)) as Hl by (unfold sys_chdir, get_ioctx; leaving). apply Hl.
  - assert (leaves (sys_getcwd self n)) as Hl by (unfold sys_getcwd, get_ioctx; leaving). apply Hl.
  - assert (leaves (sys_mknod fuel pipe_vnode_ops mem self p m)) as Hl by (unfold sys_mknod, get_ioctx, pipe_fifo_create; leaving). apply Hl.
  - assert (forall c w b f fl o, keeps (vfs_mount fuel c w b f fl o)) as Hmt by apply mount_keeps.
    assert (leaves (sys_mount fuel self d p t f o)) as Hl by (unfold sys_mount, get_ioctx; leaving). apply Hl.
  - apply with_ctx_leaves. intros. apply umount_keeps.
Qed.

Lemma reap_kept L s self q : kept L s -> fl_procs s !! self = Some q -> (forall i f, fp_fds q !! i = Some f -> f = 0) ->
  kept L (set_fl_procs (delete self (fl_procs s)) s).
Proof using Type.
  intros [Ok HL] Hq Hz. split; [|exact HL]. apply procs_ok; [done| |].
  - intros p q' Hp. apply lookup_delete_Some in Hp as [_ Hp]. by apply (fo_len s Ok p).
  - intros [p i] f Hf. rewrite !slots_lookup. destruct (decide (p = self)) as [->|]; [|by rewrite lookup_delete_ne]. rewrite lookup_delete_eq, Hq. cbn. split; [done|]. intros Hx. by apply Hz in Hx.
Qed.

Lemma reached_kept L s : reached L s -> kept L s.
Proof using HN HK.
  induction 1 as [s self tty u s' Hb E|L s self dfd name fl mode r s' _ IH E|L s self fd u s' _ IH E|L s self from r s' _ IH E|L s self from to r s' _ IH E|L s mem self r s' _ IH E
    |L s self s' _ IH E|L s dst src u s' _ IH Hd E|L s self u s' _ IH E|L s self u s' _ IH E|L s self u s' _ IH E|L s self q _ IH Hq Hz].
  - by eapply init_kept.
  - by eapply openat_kept.
  - by eapply close_kept.
  - by eapply dup_kept.
  - by eapply dup2_kept.
  - by eapply pipe_kept.
  - apply other_same in E. destruct IH. split; [by eapply same_ok|by eapply same_loss].
  - by eapply fork_kept.
  - by eapply close_fds_if_kept.
  - by eapply setsid_kept.
  - by eapply close_fds_if_kept.
  - by eapply reap_kept.
Qed.
End reach.
End calls_ok.

(** C31: descriptors are counted.  In every state that processes reach by opening,
    duplicating, closing, making pipes, forking, executing, leaving their session,
    exiting and working on files, the reference count of an open file is the number of
    slots, of whatever processes, that hold it, and is positive unless the file is an end
    of a pipe that found no two free descriptors; and no slot holds a file that is gone. *)
Theorem descriptors_counted `{HF : FsOps, HS : Slab, HD : DevOps, HK : !CountsKept, HN : !SlabFresh} fuel pipe_vnode_ops is_tty L s :
  reached fuel pipe_vnode_ops is_tty L s ->
  (forall f o, ofiles (fl_vfs s) !! f = Some o -> of_refcount o = Z.of_nat (held (slots (fl_procs s)) f) /\ (0 < of_refcount o \/ f ∈ L)) /\
  (forall p q i f, fl_procs s !! p = Some q -> fp_fds q !! i = Some f -> f <> 0 -> is_Some (ofiles (fl_vfs s) !! f)).
Proof.
  intros Hr. apply reached_kept in Hr as [Ok HL]. split.
  - intros f o Ho. assert (refs (fl_vfs s) !! f = Some (of_refcount o)) as Hf by (unfold refs; by rewrite lookup_fmap, Ho). pose proof (fo_count s Ok _ _ Hf) as Hc. split; [done|].
    destruct (decide (of_refcount o = 0)) as [E|]; [right; apply HL; by rewrite Hf, E|left; lia].
  - intros p q i f Hp Hf Hne. destruct (fo_live s Ok (p, i) f) as [n Hn]; [by rewrite slots_lookup, Hp|done|]. unfold refs in Hn. rewrite lookup_fmap in Hn. by destruct (ofiles (fl_vfs s) !! f).
Qed.

(** After a close the file is gone exactly when no slot holds it any more. *)
Theorem close_releases `{HF : FsOps, HS : Slab, HD : DevOps, HK : !CountsKept, HN : !SlabFresh} fuel pipe_vnode_ops is_tty L s self fd u s' f :
  reached fuel pipe_vnode_ops is_tty L s -> sys_close self fd s = Ret (u, s') -> f ∉ L -> f <> 0 ->
  ofiles (fl_vfs s') !! f = None <-> forall k, slots (fl_procs s') !! k <> Some f.
Proof.
  intros Hr E HL Hf. apply reached_kept in Hr. apply (close_kept L) in E as [[Ok HL'] _]; [|done]. assert (ofiles (fl_vfs s') !! f = None <-> refs (fl_vfs s') !! f = None) as ->.
  { unfold refs. by rewrite lookup_fmap, fmap_None. }
  split.
  - intros Hn k Hk. destruct (fo_live s' Ok k f Hk Hf). congruence.
  - intros Hk. destruct (refs (fl_vfs s') !! f) as [n|] eqn:En; [|done]. exfalso. apply HL, HL'. rewrite En. f_equal. rewrite (fo_count s' Ok _ _ En). apply held_zero in Hk. by rewrite Hk.
Qed.

(** [sys_dup] always succeeds while a slot is free: it takes the lowest one, which then
    names the same open file, and changes no other slot. *)
Theorem dup_lowest_shared `{HF : FsOps, HS : Slab, HD : DevOps, HK : !CountsKept, HN : !SlabFresh} fuel pipe_vnode_ops is_tty L s self q from f :
  reached fuel pipe_vnode_ops is_tty L s -> fl_procs s !! self = Some q -> 0 <= from -> fp_fds q !! Z.to_nat from = Some f -> f <> 0 ->
  let to := free_fd 0 (fp_fds q) in to <> -1 ->
  exists s', sys_dup self from s = Ret (to, s') /\ fl_procs s' = <[self := fp_set_fds (<[Z.to_nat to := f]> (fp_fds q)) q]> (fl_procs s) /\
    (forall j, Z.of_nat j < to -> fp_fds q !! j <> Some 0).
Proof.
  intros Hr Hq Hf0 Hf Hne to Hto. apply reached_kept in Hr as [Ok _]. destruct (free_fd_spec _ _ Hto) as [Hrange Hz]. fold to in Hrange, Hz. rewrite Z.sub_0_r in Hz.
  pose proof (fo_len s Ok _ _ Hq) as Hlen. change (Z.to_nat THREAD_MAX_FDS) with 16%nat in Hlen. pose proof (lookup_lt_Some _ _ _ Hf).
  destruct (fo_live s Ok (self, Z.to_nat from) f) as [n Hn]; [by rewrite slots_lookup, Hq|done|]. unfold refs in Hn. rewrite lookup_fmap in Hn.
  destruct (ofiles (fl_vfs s) !! f) as [o|] eqn:Ho; [|done]. injection Hn as <-. assert (of_refcount o = Z.of_nat (held (slots (fl_procs s)) f)) as Hc by (apply (fo_count s Ok); unfold refs; by rewrite lookup_fmap, Ho).
  assert (to <> from) as Htf by (intros E; rewrite E, Hf in Hz; congruence). unfold sys_dup. rewrite (bind_Ret _ _ s q s) by (by apply load_Some). fold to. unfold sys_dup2.
  assert ((from <? 0) || (to <? 0) || (THREAD_MAX_FDS <=? from) || (THREAD_MAX_FDS <=? to) = false) as -> by (unfold THREAD_MAX_FDS; lia). rewrite (proj2 (Z.eqb_neq to from) Htf).
  assert (forall i g, fp_fds q !! Z.to_nat i = Some g -> fd_slot self i s = Ret (g, s)) as Hslot.
  { intros i g Hi. unfold fd_slot, fproc_at. rewrite (bind_Ret _ _ s q s) by (by apply load_Some). by apply load_Some. }
  step_run (Hslot _ _ Hf). unfold nonnull at 1. rewrite bool_decide_eq_true_2 by done. cbn [negb]. assert (sys_close self to s = Ret (tt, s)) as Ec.
  { unfold sys_close. assert ((to <? 0) || (THREAD_MAX_FDS <=? to) = false) as -> by (unfold THREAD_MAX_FDS; lia). by step_run (Hslot _ _ Hz). }
  step_run Ec. step_run (Hslot _ _ Hz). step_run (eq_refl : @cassert files (negb (nonnull 0)) s = Ret (tt, s)). step_run (Hslot _ _ Hf).
  assert (ofile_dup f (fl_vfs s) = Ret (f, set_ofiles (<[f := with_refs (of_refcount o + 1) o]> (ofiles (fl_vfs s))) (fl_vfs s))) as Ed.
  { unfold ofile_dup, nonnull. rewrite bool_decide_eq_true_2 by done. rewrite (bind_Ret _ _ (fl_vfs s) tt (fl_vfs s)) by done. oload. rewrite (proj2 (Z.leb_le 0 (of_refcount o))) by lia.
    rewrite (bind_Ret _ _ (fl_vfs s) tt (fl_vfs s)) by done. by oupd. }
  step_run (zoom_Ret fl_vfs set_fl_vfs _ s _ _ Ed). set (s1 := set_fl_vfs _ s). eexists. split.
  - erewrite bind_Ret; [reflexivity|]. unfold set_slot, fproc_at. rewrite (bind_Ret _ _ s1 q s1) by (by apply load_Some). rewrite (bind_Ret _ _ s1 0 s1) by (by apply load_Some).
    unfold upd_fproc, fproc_at. by rewrite (bind_Ret _ _ s1 q s1) by (by apply load_Some).
  - split; [done|]. intros j Hj. by apply (free_fd_lowest _ 0).
Qed.

(** A descriptor that is out of range or free is refused by every call that takes one,
    and nothing changes. *)
Definition bad_fd (q : fproc) (fd : Z) : Prop := fd < 0 \/ THREAD_MAX_FDS <= fd \/ fp_fds q !! Z.to_nat fd = Some 0.

Lemma get_fd_bad s self q fd : fl_procs s !! self = Some q -> bad_fd q fd -> get_fd self fd s = Ret (0, s).
Proof.
  intros Hq Hb. unfold get_fd. destruct (Z.ltb_spec fd 0); [done|]. destruct (Z.leb_spec THREAD_MAX_FDS fd); [done|]. destruct Hb as [|[|Hb]]; [lia|lia|].
  cbn [orb]. unfold fd_slot, fproc_at. rewrite (bind_Ret _ _ s q s) by (by apply load_Some). by apply load_Some.
Qed.

Theorem bad_descriptor_refused `{HF : FsOps, HS : Slab, HD : DevOps} fuel s self q fd : fl_procs s !! self = Some q -> bad_fd q fd ->
  (forall lim, sys_read self fd lim s = Ret ((- EBADF, []), s)) /\ (forall data, sys_write self fd data s = Ret (- EBADF, s)) /\
  (forall n, sys_ftruncate self fd n s = Ret (- EBADF, s)) /\ (forall o w, sys_lseek self fd o w s = Ret (- EBADF, s)) /\
  (forall c a, sys_ioctl self fd c a s = Ret (- EBADF, s)) /\ sys_readdir self fd s = Ret ((- EBADF, None), s) /\
  sys_close self fd s = Ret (tt, s) /\ (forall to, to <> fd -> sys_dup2 self fd to s = Ret (- EBADF, s)) /\
  (fd <> AT_FDCWD -> forall p m, sys_mkdirat fuel self fd p m s = Ret (- EBADF, s)).
Proof.
  intros Hq Hb. pose proof (get_fd_bad s self q fd Hq Hb) as Hg. assert (forall A (bad : A) k, with_fd self fd bad k s = Ret (bad, s)) as Hw.
  { intros A bad k. unfold with_fd. by step_run Hg. }
  do 6 (split; [intros; apply Hw|]). unfold get_fd in Hg. split; [|split].
  - unfold sys_close. destruct ((fd <? 0) || (THREAD_MAX_FDS <=? fd)); [done|]. by step_run Hg.
  - intros to Hto. unfold sys_dup2. destruct (_ || (THREAD_MAX_FDS <=? to)) eqn:Eb; [done|]. rewrite (proj2 (Z.eqb_neq to fd) Hto). assert ((fd <? 0) || (THREAD_MAX_FDS <=? fd) = false) as Er by lia.
    rewrite Er in Hg. by step_run Hg.
  - intros Hd p m. unfold sys_mkdirat, with_at, get_at_vnode. rewrite (proj2 (Z.eqb_neq fd AT_FDCWD) Hd). rewrite (bind_Ret _ _ s (- EBADF, 0) s); [done|].
    unfold get_fd. by step_run Hg.
Qed.

(** ** Examples *)
Definition no_devs : DevOps := {| chr_at := fun _ => mk_chr None None None; blk_read_at := fun _ _ _ => mret (0, []); blk_ioctl_at := fun _ => None |}.
#[export] Instance sample_kept : @CountsKept sample_ops no_devs.
Proof. split; [intros t; by split|done|intros c p; apply keeps_ret|done|intros t l n; apply keeps_ret|done|done|done|intros d o n; apply keeps_ret|done]. Qed.
#[export] Instance next_fresh : @SlabFresh next_slab.
Proof.
  intros X Hin. assert (forall x, x ∈ X -> x <= set_fold Z.max 0 X) as Hm.
  { apply (set_fold_ind_L (fun b X => forall x, x ∈ X -> x <= b)); [set_solver|]. intros x Y b _ IH y [->%elem_of_singleton|Hy]%elem_of_union; [lia|]. specialize (IH y Hy). lia. }
  apply Hm in Hin. cbn in Hin. lia.
Qed.

(** A terminal at 4 and a regular file at 5 in the root directory; one process. *)
Definition fd_tty : vnode := mk_vnode VN_CHR "tty0" VN_MEMORY 0 5 1 0 0 0 0 0 438 0 0 8 0.
Definition fd_file : vnode := mk_vnode VN_REG "f" VN_MEMORY 0 0 1 0 0 0 0 0 438 0 0 0 0.
Definition fd_root : vnode := mk_vnode VN_DIR "" VN_MEMORY 4 0 0 0 0 0 0 0 511 0 0 0 0.
Definition fd_start : files := mk_files (mk_vfs {[1 := fd_root; 4 := fd_tty; 5 := fd_file]} 1 ∅ ∅ [] [] ∅) ∅ {[100 := empty_fproc]}.
Abbreviation fd_reached := (@reached sample_ops next_slab no_devs 20 77 (fun _ => true)).
Definition fd_run {A} (c : cmd files A) (s : files) : files := match c s with Ret (_, s') => s' | _ => s end.

Definition fd_s1 : files := fd_run (@init_stdio sample_ops next_slab 100 4) fd_start.
Definition fd_s2 : files := fd_run (@fork_fds 101 100) fd_s1.
Definition fd_s3 : files := fd_run (@sys_openat sample_ops next_slab 20 (fun _ => true) 101 AT_FDCWD "/f" O_RDWR 0) fd_s2.
Definition fd_s4 : files := fd_run (@exit_fds sample_ops 100) fd_s3.

Lemma fd_s4_reached : fd_reached ∅ fd_s4.
Proof.
  assert (fd_reached ∅ fd_s1) as H1.
  { apply (re_boot _ _ _ fd_start 100 4 tt); [|vm_compute; reflexivity]. split; [done|]. intros p q Hp. cbn in Hp. apply lookup_singleton_Some in Hp as [_ <-]. reflexivity. }
  assert (fd_reached ∅ fd_s2) as H2 by (apply (re_fork _ _ _ ∅ fd_s1 101 100 tt); [exact H1|vm_compute; reflexivity|vm_compute; reflexivity]).
  assert (fd_reached ∅ fd_s3) as H3 by (apply (re_open _ _ _ ∅ fd_s2 101 AT_FDCWD "/f" O_RDWR 0 3); [exact H2|vm_compute; reflexivity]).
  apply (re_exit _ _ _ ∅ fd_s3 100 tt); [exact H3|vm_compute; reflexivity].
Qed.

(** The first process opened its terminal, forked and exited; its child opened a file. *)
Lemma descriptors_counted_witness : (of_refcount <$> ofiles (fl_vfs fd_s4) !! 1) = Some 2 /\ held (slots (fl_procs fd_s4)) 1 = 2%nat.
Proof.
  destruct (@descriptors_counted sample_ops next_slab no_devs _ _ 20 77 (fun _ => true) ∅ fd_s4 fd_s4_reached) as [Hc _].
  assert (exists o, ofiles (fl_vfs fd_s4) !! 1 = Some o /\ of_refcount o = 2) as (o & Ho & Hr) by (eexists; split; vm_compute; reflexivity).
  destruct (Hc 1 o Ho) as [E _]. rewrite Ho. cbn. rewrite Hr in *. split; [done|]. lia.
Defined.

Lemma bad_descriptor_refused_witness : @sys_read sample_ops no_devs 101 7 10 fd_s4 = Ret ((- EBADF, []), fd_s4) /\ @sys_close sample_ops 101 99 fd_s4 = Ret (tt, fd_s4).
Proof.
  assert (exists q, fl_procs fd_s4 !! 101 = Some q /\ fp_fds q !! Z.to_nat 7 = Some 0) as (q & Hq & H7) by (eexists; split; vm_compute; reflexivity).
  destruct (@bad_descriptor_refused sample_ops next_slab no_devs 20 fd_s4 101 q 7 Hq) as (Hrd & _); [right; by right|].
  destruct (@bad_descriptor_refused sample_ops next_slab no_devs 20 fd_s4 101 q 99 Hq) as (_ & _ & _ & _ & _ & _ & Hcl & _); [right; by left|]. split; [apply Hrd|exact Hcl].
Defined.

(** ** Flaws *)
Definition full_table (n : nat) : files := mk_files (fl_vfs fd_s1) ∅ {[100 := mk_fproc root_ctx (replicate n 1 ++ replicate (16 - n) 0) 0]}.

(** A pipe that finds no two free slots leaves both ends, its vnode and its ring behind. *)
Theorem pipe_emfile_leaks :
  match @sys_pipe next_slab 77 [] 100 (full_table 15) with
  | Ret ((e, _), s') => e = - EMFILE /\ size (ofiles (fl_vfs s')) = 4%nat /\ size (ofiles (fl_vfs (full_table 15))) = 2%nat /\ size (vnodes (fl_vfs s')) = 4%nat /\ size (fl_rings s') = 1%nat
  | _ => False
  end.
Proof. vm_compute. done. Qed.

(** The vnode of a pipe is opened by nobody, so closing its ends takes its count below
    zero. *)
Theorem pipe_open_count_wraps :
  match (r ← @sys_pipe next_slab 77 [] 100; @sys_close sample_ops 100 r.2.1;; @sys_close sample_ops 100 r.2.2) fd_s1 with
  | Ret (_, s') => (open_count <$> vnodes (fl_vfs s') !! 6) = Some (2 ^ 32 - 2)
  | _ => False
  end.
Proof. vm_compute. done. Qed.

(** A pipe keeps its ring in its open files only: [stat] on its vnode finds none and
    panics. *)
Theorem pipe_stat_panics :
  match @sys_pipe next_slab 77 [] 100 fd_s1 with
  | Ret (_, s') => (of_vnode <$> ofiles (fl_vfs s') !! 3) = Some 6 /\ pipe_vnode_stat 0 6 s' = Panic
  | _ => False
  end.
Proof. vm_compute. done. Qed.

(** With no slot free [sys_dup] asks [sys_dup2] for descriptor -1 and returns [-EBADF],
    where [sys_openat] returns [-EMFILE]. *)
Theorem dup_full_is_ebadf : match @sys_dup sample_ops 100 3 (full_table 16) with Ret (r, _) => r = - EBADF | _ => False end.
Proof. vm_compute. done. Qed.

(** Mounting is for root, but anybody may unmount. *)
Theorem umount_any_user :
  let user := mk_files mount_vfs ∅ {[100 := mk_fproc (mk_ioctx 0 18 1000 1000) (replicate 16 0) 0]} in
  (exists s, @sys_mount sample_ops next_slab 20 100 None "/mnt" (Some "mem") 0 None user = Ret (- EACCES, s)) /\
  match (on_v (@vfs_mount_internal sample_ops next_slab 2 7 9 0 None);; @sys_umount sample_ops 20 100 "/mnt") user with Ret (r, _) => r = 0 | _ => False end.
Proof. split; [eexists; vm_compute; reflexivity|vm_compute; done]. Qed.
