(* ===== verification/Exec.v ===== *)
(** * Starting a program: [sys/execve.c]

    [sys_execve] copies the arguments and the environment of the new program into frames
    ([procv_setup]), replaces the address space, loads the executable ([Elf]), maps the
    frames and turns offsets into addresses.  A string is the list of its bytes without
    the final zero; memory is that of [Mmap].

    [procv_setup_layout]: the frames hold the two arrays of offsets and the strings they
    point to, across page boundaries; [exec_args_seen]: the program finds its arguments
    and environment through the addresses in its memory. *)

From S2P Require Import Prelude Defs Bytes Strings Phys Paging Mmap Elf.

Definition PROCV_MAX_PAGES : Z := 32.
Definition PTRS_PER_PAGE : Z := 512.

(** ** Copying the vectors *)

(** The loop of [procv_strcpy_paged]: [src] is what is left, the zero included. *)
Fixpoint strcpy_pages (fuel : nat) (phys_pages : list Z) (offset : Z) (src : list Z) (page_count : Z) : cmd mem unit :=
  match src with
  | [] => mret tt
  | _ :: _ =>
      match fuel with
      | O => cdiverged
      | S fuel =>
          let off_in_page := offset mod MM_PAGE_SIZE in
          let page_index := offset / MM_PAGE_SIZE in
          cassert (page_index <? page_count);;
          let len := Z.min (Z.of_nat (length src)) (MM_PAGE_SIZE - off_in_page) in
          phys ← cload (fun _ => phys_pages !! Z.to_nat page_index);
          frame_write (phys + off_in_page) (take (Z.to_nat len) src);;
          strcpy_pages fuel phys_pages (u64 (offset + len)) (drop (Z.to_nat len) src) page_count
      end
  end.
Definition procv_strcpy_paged (phys_pages : list Z) (offset : Z) (src : list Z) (page_count : Z) : cmd mem Z :=
  strcpy_pages (S (length src)) phys_pages offset (src ++ [0]) page_count;;
  mret (Z.of_nat (length src) + 1).

(** [NEW_ARGV(i) = v] and, with [argc + 1] added to the index, [NEW_ENVP(i) = v] *)
Definition new_ptr (phys_pages : list Z) (i v : Z) : cmd mem unit :=
  phys ← cload (fun _ => phys_pages !! Z.to_nat (i / PTRS_PER_PAGE));
  frame_write (phys + 8 * (i mod PTRS_PER_PAGE)) (le_put 8 v).

(** The loops over the strings of a vector, whose pointers start at index [i]. *)
Fixpoint copy_vec (phys_pages : list Z) (page_count i : Z) (strs : list (list Z)) (offset : Z) : cmd mem Z :=
  match strs with
  | [] => mret offset
  | s :: strs =>
      new_ptr phys_pages i offset;;
      n ← procv_strcpy_paged phys_pages offset s page_count;
      copy_vec phys_pages page_count (i + 1) strs (u64 (offset + n))
  end.

Fixpoint alloc_procv (n : nat) : cmd mem (list Z) :=
  match n with
  | O => mret []
  | S n =>
      phys ← on_mphys (mm_phys_alloc_page PU_PRIVATE);
      cassert (bool_decide (phys ≠ MM_NADDR));;
      rest ← alloc_procv n; mret (phys :: rest)
  end.

Definition vec_size (strs : list (list Z)) : Z := foldr (fun s n => Z.of_nat (length s) + 1 + n) 0 strs.

(** The frames, [vecp[0]], [vecp[1]] and [vecp[2]]; [None] is [-ENOMEM]. *)
Definition procv_setup (argv envp : list (list Z)) (max_pages : Z) : cmd mem (option (list Z * (Z * Z * Z))) :=
  let argc := Z.of_nat (length argv) in
  let envc := Z.of_nat (length envp) in
  let offset := u64 ((argc + 1) * 8 + (envc + 1) * 8 + vec_size argv + vec_size envp) in
  let page_count := u64 (offset + MM_PAGE_SIZE - 1) / MM_PAGE_SIZE in
  if max_pages <? page_count then mret None
  else
    phys_pages ← alloc_procv (Z.to_nat page_count);
    offset ← copy_vec phys_pages page_count 0 argv (u64 ((argc + envc + 2) * 8));
    offset ← copy_vec phys_pages page_count (argc + 1) envp offset;
    mret (Some (phys_pages, (argc, envc, offset))).

(** ** The new address space *)

(** Words of user memory, through the tables of the space that is loaded. *)
Definition user_frame (space v : Z) : cmd mem Z :=
  r ← on_vm (mm_map_get space (u64 (v - v mod MM_PAGE_SIZE)));
  if bool_decide (r.1 = MM_NADDR) then cfault else mret r.1.
Definition user_load (space v : Z) : cmd mem Z :=
  a ← user_frame space v;
  d ← cload (fun m => m_data m !! a);
  cload (fun _ => peek 8 (v mod MM_PAGE_SIZE) d).
Definition user_store (space v x : Z) : cmd mem unit :=
  a ← user_frame space v; frame_write (a + v mod MM_PAGE_SIZE) (le_put 8 x).

(** [argv_fixup[i] += procv_virt] and the like for [n] words from [a] on. *)
Definition fix_word (space procv_virt a i : Z) : cmd mem unit :=
  x ← user_load space (u64 (a + 8 * i)); user_store space (u64 (a + 8 * i)) (u64 (x + procv_virt)).

Definition map_procv (space procv_virt : Z) (phys_pages : list Z) (i : Z) : cmd mem unit :=
  phys ← cload (fun _ => phys_pages !! Z.to_nat i);
  e ← on_vm (mm_map_single space (u64 (procv_virt + i * MM_PAGE_SIZE)) phys (Z.lor MM_PAGE_USER MM_PAGE_WRITE));
  cassert (e =? 0).

(** Both arrays, and the zeros that end them. *)
Definition fix_vectors (space procv_virt argc envc : Z) : cmd mem unit :=
  let argv_fixup := procv_virt in
  let envp_fixup := u64 (procv_virt + 8 * (argc + 1)) in
  for_range (fix_word space procv_virt argv_fixup) (Z.to_nat argc) 0;;
  for_range (fix_word space procv_virt envp_fixup) (Z.to_nat envc) 0;;
  user_store space (u64 (argv_fixup + 8 * argc)) 0;;
  user_store space (u64 (envp_fixup + 8 * envc)) 0.

Definition exec_args (space : Z) (phys_pages : list Z) (argc envc : Z) : cmd mem Z :=
  procv_virt ← on_vm (vmfind space 0x100000 0xF0000000 (Z.of_nat (length phys_pages)));
  cassert (bool_decide (procv_virt ≠ MM_NADDR));;
  for_range (map_procv space procv_virt phys_pages) (length phys_pages) 0;;
  fix_vectors space procv_virt argc envc;;
  mret procv_virt.

(** The argument [context_exec_enter] passes to the program. *)
Definition exec_arg (argc size argv_fixup : Z) : cmd mem Z :=
  cassert (argc <? 4096);;
  cassert (size <? 4096);;
  mret (Z.lor (Z.lor argc (u64 (Z.shiftl size 12))) (u64 (Z.shiftl argv_fixup 12))).

(** ** What is executed *)
Inductive exec_choice := ExecErr (e : Z) | ExecOther (path : list Z) (argv : list (list Z)) | ExecLoad.

(** [argv_new] of a script: the interpreter, the script, the arguments after the first;
    the final NULL lies over the script when there were no arguments at all. *)
Definition script_argv (interp path : list Z) (argv : list (list Z)) : list (list Z) :=
  match argv with [] => [interp] | _ :: args => interp :: path :: args end.
Definition LD_PATH : list Z := [47; 108; 105; 98; 47; 108; 100].

(** [buf] is the array the first bytes of the file were read to, [dynamic] what
    [elf_is_dynamic] finds; [None] is an access outside the array. *)
Definition exec_choose (buf : list Z) (res : Z) (dynamic : Z * bool) (path : list Z) (argv : list (list Z)) : option (outcome exec_choice) :=
  is_elf ← binfmt_is_elf buf res;
  if negb is_elf then
    b0 ← buf !! 0%nat; b1 ← buf !! 1%nat;
    if (b0 =? 35) && (b1 =? 33) then
      e ← strchr buf 10;
      match e with
      | None => Some (Ret (ExecErr (- EINVAL)))
      | Some k =>
          let interp := drop 2 (take (Z.to_nat k) buf) in
          if 32 <? Z.of_nat (length argv) + 1 then Some Panic
          else Some (Ret (ExecOther interp (script_argv interp path argv)))
      end
    else Some (Ret ExecLoad)
  else if negb (dynamic.1 =? 0) then Some (Ret (ExecErr (- EINVAL)))
  else if dynamic.2 then Some (Ret (ExecOther LD_PATH (LD_PATH :: path :: argv)))
  else Some (Ret ExecLoad).

(** ** Bytes across frames *)
Record pages_ok (m : mem) (pages : list Z) : Prop := {
  pk_nodup : NoDup pages;
  pk_frame : forall p, p ∈ pages -> p mod MM_PAGE_SIZE = 0 /\ exists d, m_data m !! p = Some d /\ length d = Z.to_nat MM_PAGE_SIZE;
}.
Definition pbyte (m : mem) (pages : list Z) (v : Z) : option Z :=
  p ← pages !! Z.to_nat (v / MM_PAGE_SIZE); d ← m_data m !! p; d !! Z.to_nat (v mod MM_PAGE_SIZE).
(** The bytes of [l] lie at [a]. *)
Definition bytes_at (m : mem) (pages : list Z) (a : Z) (l : list Z) : Prop :=
  forall j : nat, (j < length l)%nat -> pbyte m pages (a + Z.of_nat j) = l !! j.
(** [m'] differs from [m] at most in the bytes of [l] at [a]. *)
Definition wrote (m m' : mem) (pages : list Z) (a : Z) (l : list Z) : Prop :=
  m_vm m' = m_vm m /\ pages_ok m' pages /\
  forall v, 0 <= v -> pbyte m' pages v = if decide (a <= v < a + Z.of_nat (length l)) then l !! Z.to_nat (v - a) else pbyte m pages v.

Lemma wrote_at m m' pages a l : 0 <= a -> wrote m m' pages a l -> bytes_at m' pages a l.
Proof. intros Ha (_ & _ & Hb) j Hj. rewrite Hb, decide_True by lia. f_equal. lia. Qed.
Lemma wrote_keeps m m' pages a l b k : wrote m m' pages a l -> bytes_at m pages b k -> 0 <= b -> b + Z.of_nat (length k) <= a \/ a + Z.of_nat (length l) <= b -> bytes_at m' pages b k.
Proof. intros (_ & _ & Hb) Hk Hb0 Hd j Hj. rewrite Hb, decide_False by lia. by apply Hk. Qed.

Lemma page_write_run m pages j p off l : pages_ok m pages -> pages !! j = Some p -> 0 <= off < MM_PAGE_SIZE -> off + Z.of_nat (length l) <= MM_PAGE_SIZE ->
  exists m', frame_write (p + off) l m = Ret (tt, m') /\ wrote m m' pages (MM_PAGE_SIZE * Z.of_nat j + off) l.
Proof.
  intros [Hn Hf] Hj Ho Hl. destruct (Hf p) as (Hm & d & Hd & Hlen); [by eapply list_elem_of_lookup_2|].
  assert ((p + off) mod MM_PAGE_SIZE = off) as Em. { rewrite Z.add_mod, Hm, Z.add_0_l, Z.mod_mod by done. by apply Z.mod_small. }
  unfold frame_write. cbn zeta. rewrite Em, Z.add_simpl_r. rewrite (bind_Ret _ _ m d m) by (by apply load_Some). cbn beta. rewrite (proj2 (Z.ltb_ge _ _)) by lia.
  eexists. split; [reflexivity|]. split; [done|]. split.
  - split; [done|]. intros p' Hp'. destruct (Hf p' Hp') as (Hm' & d' & Hd' & Hl'). split; [done|]. cbn. destruct (decide (p' = p)) as [->|].
    + rewrite lookup_insert_eq. eexists. split; [done|]. by rewrite length_splice by lia.
    + rewrite lookup_insert_ne by done. by exists d'.
  - intros v Hv. unfold pbyte. cbn [m_data set_data]. pose proof (Z.div_mod v MM_PAGE_SIZE ltac:(done)) as Edm. pose proof (Z.mod_pos_bound v MM_PAGE_SIZE ltac:(done)) as Hvm.
    assert (0 <= v / MM_PAGE_SIZE) as Hv0 by (by apply Z.div_pos).
    destruct (decide (v / MM_PAGE_SIZE = Z.of_nat j)) as [Ev|Hne].
    + rewrite Ev, Nat2Z.id, Hj. cbn [mbind option_bind]. rewrite lookup_insert_eq, Hd. cbn [mbind option_bind]. rewrite lookup_splice by lia. rewrite Ev in Edm.
      destruct (decide (MM_PAGE_SIZE * Z.of_nat j + off <= v < MM_PAGE_SIZE * Z.of_nat j + off + Z.of_nat (length l))) as [Hin|Hout]; case_decide; try lia; [|done]. f_equal. lia.
    + rewrite decide_False by (unfold MM_PAGE_SIZE in *; lia). destruct (pages !! Z.to_nat (v / MM_PAGE_SIZE)) as [p'|] eqn:Ep; [|done]. cbn [mbind option_bind].
      rewrite lookup_insert_ne; [done|]. intros <-. pose proof (NoDup_lookup _ _ _ _ Hn Hj Ep). lia.
Qed.

(** Bytes that were written one after the other. *)
Lemma wrote_app m m1 m2 pages a l1 l2 : wrote m m1 pages a l1 -> wrote m1 m2 pages (a + Z.of_nat (length l1)) l2 -> wrote m m2 pages a (l1 ++ l2).
Proof.
  intros (V1 & _ & B1) (V2 & P2 & B2). split; [congruence|]. split; [done|]. intros v Hv. rewrite B2, length_app by done. case_decide as H1.
  - rewrite decide_True by lia. rewrite lookup_app_r by lia. f_equal. lia.
  - rewrite B1 by done. case_decide; [rewrite decide_True by lia; by rewrite lookup_app_l by lia|by rewrite decide_False by lia].
Qed.

(** Where string [n] of a vector lies when the first lies at [offset]. *)
Definition vec_off (offset : Z) (strs : list (list Z)) (n : nat) : Z := offset + vec_size (take n strs).
Lemma vec_size_pos strs : 0 <= vec_size strs.
Proof. induction strs as [|s strs IH]; cbn; [done|]. fold (vec_size strs). lia. Qed.
Lemma vec_size_lookup strs n s : strs !! n = Some s -> vec_size (take n strs) + Z.of_nat (length s) + 1 <= vec_size strs.
Proof.
  revert n. induction strs as [|t strs IH]; intros n Hn; [done|]. destruct n as [|n]; cbn in *; fold (vec_size strs).
  - injection Hn as ->. pose proof (vec_size_pos strs). lia.
  - specialize (IH n Hn). fold (vec_size (take n strs)). lia.
Qed.

Section copy.
Context (pages : list Z) (Hcap : Z.of_nat (length pages) <= PROCV_MAX_PAGES).
Let cap := MM_PAGE_SIZE * Z.of_nat (length pages).

Lemma page_of v : 0 <= v < cap -> exists p, pages !! Z.to_nat (v / MM_PAGE_SIZE) = Some p.
Proof using Type.
  intros Hv. apply lookup_lt_is_Some_2. assert (v / MM_PAGE_SIZE < Z.of_nat (length pages)) by (apply Z.div_lt_upper_bound; [done|unfold cap in *; lia]).
  assert (0 <= v / MM_PAGE_SIZE) by (apply Z.div_pos; [lia|done]). lia.
Qed.

Lemma strcpy_run fuel : forall m offset src, pages_ok m pages -> 0 <= offset -> offset + Z.of_nat (length src) <= cap -> (length src <= fuel)%nat ->
  exists m', strcpy_pages fuel pages offset src (Z.of_nat (length pages)) m = Ret (tt, m') /\ wrote m m' pages offset src.
Proof using Hcap.
  induction fuel as [|fuel IH]; intros m offset src Hp Ho Hs Hf; (destruct src as [|c src]; [exists m; split; [done|split; [done|split; [done|]]]; intros v Hv; by rewrite decide_False by (cbn; lia)|]); [cbn in Hf; lia|].
  cbn [strcpy_pages]. set (s := c :: src) in *. assert (0 < length s)%nat as Hs0 by (cbn; lia). set (len := Z.min (Z.of_nat (length s)) (MM_PAGE_SIZE - offset mod MM_PAGE_SIZE)).
  pose proof (Z.mod_pos_bound offset MM_PAGE_SIZE ltac:(done)) as Hm. pose proof (Z.div_mod offset MM_PAGE_SIZE ltac:(done)) as Edm. assert (0 <= offset / MM_PAGE_SIZE) as Hd0 by (by apply Z.div_pos).
  destruct (page_of offset) as [p Ep]; [lia|]. assert (offset / MM_PAGE_SIZE < Z.of_nat (length pages)) as Hlt by (apply lookup_lt_Some in Ep; lia).
  rewrite (proj2 (Z.ltb_lt _ _) Hlt). rewrite (bind_Ret _ _ m tt m) by done. cbv zeta. rewrite (bind_Ret _ _ m p m) by (by apply load_Some).
  assert (length (take (Z.to_nat len) s) = Z.to_nat len) as El by (rewrite length_take; lia).
  destruct (page_write_run m pages (Z.to_nat (offset / MM_PAGE_SIZE)) p (offset mod MM_PAGE_SIZE) (take (Z.to_nat len) s) Hp Ep Hm) as (m1 & E1 & W1); [lia|]. step_run E1.
  rewrite Z2Nat.id, <- Edm in W1 by done.
  assert (length (drop (Z.to_nat len) s) = (length s - Z.to_nat len)%nat) as Er by apply length_drop.
  assert (cap < 2 ^ 63) as Hc by (unfold cap, PROCV_MAX_PAGES, MM_PAGE_SIZE in *; lia). rewrite uwrap_small by lia.
  destruct (IH m1 (offset + len) (drop (Z.to_nat len) s) ltac:(apply W1) ltac:(lia) ltac:(lia) ltac:(lia)) as (m2 & E2 & W2). exists m2. split; [exact E2|].
  rewrite <- (take_drop (Z.to_nat len) s). apply (wrote_app m m1 m2); [done|]. rewrite El, Z2Nat.id by lia. done.
Qed.

Lemma new_ptr_run m i v : pages_ok m pages -> 0 <= i -> 8 * (i + 1) <= cap -> exists m', new_ptr pages i v m = Ret (tt, m') /\ wrote m m' pages (8 * i) (le_put 8 v).
Proof using Type.
  intros Hp Hi Hc. pose proof (Z.div_mod i PTRS_PER_PAGE ltac:(done)) as Edm. pose proof (Z.mod_pos_bound i PTRS_PER_PAGE ltac:(done)) as Hm. assert (0 <= i / PTRS_PER_PAGE) as Hd by (by apply Z.div_pos).
  assert (8 * i = MM_PAGE_SIZE * (i / PTRS_PER_PAGE) + 8 * (i mod PTRS_PER_PAGE)) as E8 by (unfold PTRS_PER_PAGE, MM_PAGE_SIZE in *; lia).
  destruct (page_of (8 * i)) as [p Ep]; [lia|]. assert (8 * i / MM_PAGE_SIZE = i / PTRS_PER_PAGE) as Ed by (symmetry; apply Z.div_unique_pos with (8 * (i mod PTRS_PER_PAGE)); [unfold PTRS_PER_PAGE, MM_PAGE_SIZE in *; lia|done]).
  rewrite Ed in Ep. destruct (page_write_run m pages (Z.to_nat (i / PTRS_PER_PAGE)) p (8 * (i mod PTRS_PER_PAGE)) (le_put 8 v) Hp Ep) as (m1 & E1 & W1);
    [unfold PTRS_PER_PAGE, MM_PAGE_SIZE in *; lia|rewrite length_le_put; unfold PTRS_PER_PAGE, MM_PAGE_SIZE in *; lia|].
  exists m1. unfold new_ptr. rewrite (bind_Ret _ _ m p m) by (by apply load_Some). split; [done|]. rewrite Z2Nat.id, <- E8 in W1 by done. done.
Qed.

(** The pointers from index [i] on hold [base] plus the offsets of the strings, which lie
    from [offset] on. *)
Definition vec_at (m : mem) (base i offset : Z) (strs : list (list Z)) : Prop :=
  forall n s, strs !! n = Some s ->
    bytes_at m pages (8 * (i + Z.of_nat n)) (le_put 8 (base + vec_off offset strs n)) /\ bytes_at m pages (vec_off offset strs n) (s ++ [0]).

Lemma copy_vec_run strs : forall m i offset, pages_ok m pages -> 0 <= i -> 8 * (i + Z.of_nat (length strs)) <= offset -> offset + vec_size strs <= cap ->
  exists m', copy_vec pages (Z.of_nat (length pages)) i strs offset m = Ret (offset + vec_size strs, m') /\ m_vm m' = m_vm m /\ pages_ok m' pages /\ vec_at m' 0 i offset strs /\
    forall v, 0 <= v -> ~ 8 * i <= v < 8 * (i + Z.of_nat (length strs)) -> ~ offset <= v < offset + vec_size strs -> pbyte m' pages v = pbyte m pages v.
Proof using Hcap.
  induction strs as [|s strs IH]; intros m i offset Hp Hi Ho Hc.
  { exists m. cbn. rewrite Z.add_0_r. split_and!; try done. }
  cbn [copy_vec length] in *. rewrite Nat2Z.inj_succ in *. change (vec_size (s :: strs)) with (Z.of_nat (length s) + 1 + vec_size strs) in *. pose proof (vec_size_pos strs) as Hpos.
  destruct (new_ptr_run m i offset Hp Hi ltac:(lia)) as (m1 & E1 & W1). step_run E1. unfold procv_strcpy_paged.
  destruct (strcpy_run (S (length s)) m1 offset (s ++ [0]) ltac:(apply W1) ltac:(lia)) as (m2 & E2 & W2); [rewrite length_app; cbn; lia|rewrite length_app; cbn; lia|].
  rewrite (bind_Ret _ _ m1 (Z.of_nat (length s) + 1) m2) by (by step_run E2).
  assert (cap < 2 ^ 63) as Hc2 by (unfold cap, PROCV_MAX_PAGES, MM_PAGE_SIZE in *; lia). rewrite uwrap_small by lia.
  destruct (IH m2 (i + 1) (offset + (Z.of_nat (length s) + 1)) ltac:(apply W2) ltac:(lia) ltac:(lia) ltac:(lia)) as (m3 & E3 & V3 & P3 & A3 & K3).
  exists m3. split; [rewrite E3; do 2 f_equal; lia|]. destruct W1 as (V1 & P1 & B1). destruct W2 as (V2 & P2 & B2). rewrite length_le_put in B1. rewrite length_app in B2. cbn [length] in B2.
  split; [congruence|]. split; [done|]. split.
  - intros [|n] t Ht.
    + cbn in Ht. injection Ht as <-. unfold vec_off. cbn [take vec_size foldr]. rewrite !Z.add_0_r. rewrite Z.add_0_l. split; intros j Hj.
      * rewrite length_le_put in Hj. rewrite K3 by lia. rewrite B2, decide_False by lia. rewrite B1, decide_True by lia. f_equal. lia.
      * rewrite length_app in Hj. cbn in Hj. rewrite K3 by lia. rewrite B2, decide_True by lia. f_equal. lia.
    + destruct (A3 n t Ht) as [Hw Hs]. assert (vec_off (offset + (Z.of_nat (length s) + 1)) strs n = vec_off offset (s :: strs) (S n)) as Ev.
      { unfold vec_off. cbn [take]. change (vec_size (s :: take n strs)) with (Z.of_nat (length s) + 1 + vec_size (take n strs)). lia. }
      rewrite Ev in Hw, Hs. replace (i + Z.of_nat (S n)) with (i + 1 + Z.of_nat n) by lia. done.
  - intros v Hv Hv1 Hv2. rewrite K3 by lia. rewrite B2, decide_False by lia. by rewrite B1, decide_False by lia.
Qed.
End copy.

(** Frames for the vectors. *)
Lemma alloc_procv_run root n : forall m o, space_ok (m_vm m) o root -> Z.of_nat n <= pages_free (vm_phys (m_vm m)) ->
  exists ks m' o', alloc_procv n m = Ret ((fun k => k * MM_PAGE_SIZE) <$> ks, m') /\ length ks = n /\ NoDup ks /\ m_data m' = m_data m /\ space_ok (m_vm m') o' root /\
    (forall k, k ∈ ks -> LOW_PAGE <= k < PHYS_MAX_PAGES /\ is_free (vm_phys (m_vm m)) k /\ exists q, mm_pages (vm_phys (m_vm m')) !! k = Some q /\ is_alloc q = true) /\
    (forall k q, mm_pages (vm_phys (m_vm m)) !! k = Some q -> is_alloc q = true -> mm_pages (vm_phys (m_vm m')) !! k = Some q) /\
    (forall v, leaf (m_vm m') root v = leaf (m_vm m) root v) /\ pages_free (vm_phys (m_vm m')) = pages_free (vm_phys (m_vm m)) - Z.of_nat n.
Proof.
  induction n as [|n IH]; intros m o Hsp Hf.
  { exists [], m, o. split_and!; try done; [constructor|by intros k ?%not_elem_of_nil|lia]. }
  cbn [alloc_procv]. destruct (alloc_page_run _ _ PU_PRIVATE (sp_phys _ _ _ Hsp) ltac:(done)) as [(_ & ? & _)|(k & q & Ea & Hq & Hqf & _)]; [lia|].
  assert (is_free (vm_phys (m_vm m)) k) as Hk by by exists q. pose proof (free_range _ _ _ (sp_phys _ _ _ Hsp) Hk) as Hkr. pose proof (low_frames k Hkr) as Hka.
  set (s0 := set_phys (claim PU_PRIVATE k q (vm_phys (m_vm m))) (m_vm m)). pose proof (claim_space _ _ _ PU_PRIVATE k q Hsp Hq Hqf) as H0. fold s0 in H0.
  set (q1 := mk_page (Z.lor (pg_flags q) PG_ALLOC) PU_PRIVATE (pg_refcount q)). assert (mm_pages (vm_phys s0) !! k = Some q1) as Hq1 by apply lookup_insert_eq.
  assert (is_alloc q1 = true) as Ha1 by apply is_alloc_set.
  rewrite (bind_Ret _ _ _ _ _ (on_mphys_run _ _ _ _ Ea)). fold s0. rewrite bool_decide_eq_true_2 by (unfold MM_NADDR; lia). rewrite (bind_Ret _ _ (set_vm s0 m) tt (set_vm s0 m)) by done.
  destruct (IH (set_vm s0 m) _ H0 ltac:(cbn; lia)) as (ks & m' & o' & E & Hl & Hnd & Hd & Hsp' & Hks & Hkeep & Hlf & Hpf). cbn [m_vm set_vm m_data] in *. rewrite (bind_Ret _ _ _ _ _ E).
  exists (k :: ks), m', o'. split; [done|]. split; [cbn; lia|]. split.
  { apply list.NoDup_cons. split; [|done]. intros Hin. destruct (Hks k Hin) as (_ & (q' & Hq' & Hf') & _). rewrite Hq1 in Hq'. congruence. }
  split; [done|]. split; [done|]. split.
  { intros k' [->|Hk']%elem_of_cons; [split; [done|]; split; [done|]; exists q1; split; [by apply Hkeep|done]|]. destruct (Hks k' Hk') as (Hr & (q' & Hq' & Hf') & Hx). split; [done|]. split; [|done].
    exists q'. split; [|done]. cbn in Hq'. destruct (decide (k' = k)) as [->|]; [|by rewrite lookup_insert_ne in Hq']. rewrite lookup_insert_eq in Hq'. injection Hq' as <-. unfold q1 in Ha1. congruence. }
  split; [|split; [exact Hlf|cbn in *; lia]]. intros k' q' Hk' Ha'. apply Hkeep; [|done]. cbn. rewrite lookup_insert_ne; [done|]. intros ->. congruence.
Qed.

Lemma vec_keeps pages m m' base i offset strs : 0 <= i -> 0 <= offset -> vec_at pages m base i offset strs ->
  (forall v, 0 <= v -> 8 * i <= v < 8 * (i + Z.of_nat (length strs)) \/ offset <= v < offset + vec_size strs -> pbyte m' pages v = pbyte m pages v) -> vec_at pages m' base i offset strs.
Proof.
  intros Hi Ho Hv Hk n s Hs. destruct (Hv n s Hs) as [Hw Hb]. pose proof (lookup_lt_Some _ _ _ Hs) as Hn. pose proof (vec_size_lookup _ _ _ Hs) as Hl. pose proof (vec_size_pos (take n strs)) as Hp.
  unfold vec_off in *. split; intros j Hj.
  - rewrite <- Hw by done. rewrite length_le_put in Hj. apply Hk; [lia|]. left. lia.
  - rewrite <- Hb by done. rewrite length_app in Hj. cbn in Hj. apply Hk; [lia|]. right. lia.
Qed.

(** ** The layout of the frames *)
Definition procv_off (argv envp : list (list Z)) : Z := 8 * (Z.of_nat (length argv) + Z.of_nat (length envp) + 2).
Definition procv_size (argv envp : list (list Z)) : Z := procv_off argv envp + vec_size argv + vec_size envp.
Definition procv_pages (argv envp : list (list Z)) : Z := (procv_size argv envp + MM_PAGE_SIZE - 1) / MM_PAGE_SIZE.
(** Both vectors, their pointers relative to [base]. *)
Definition laid_out (m : mem) (pages : list Z) (base : Z) (argv envp : list (list Z)) : Prop :=
  vec_at pages m base 0 (procv_off argv envp) argv /\
  vec_at pages m base (Z.of_nat (length argv) + 1) (procv_off argv envp + vec_size argv) envp.
Definition frames_filled (m : mem) : Prop :=
  forall k, LOW_PAGE <= k < PHYS_MAX_PAGES -> exists d, m_data m !! (k * MM_PAGE_SIZE) = Some d /\ length d = Z.to_nat MM_PAGE_SIZE.
(** The frames [ks] are allocated. *)
Definition frames_taken (m : mem) (ks : list Z) : Prop :=
  NoDup ks /\ forall k, k ∈ ks -> LOW_PAGE <= k < PHYS_MAX_PAGES /\ exists q, mm_pages (vm_phys (m_vm m)) !! k = Some q /\ is_alloc q = true.
Abbreviation addrs ks := ((fun k => k * MM_PAGE_SIZE) <$> ks).

Lemma addrs_ok m ks : frames_filled m -> frames_taken m ks -> pages_ok m (addrs ks).
Proof.
  intros Hf [Hn Hk]. split; [apply NoDup_fmap_2; [|done]; intros a b E; unfold MM_PAGE_SIZE in E; lia|].
  intros p (k & -> & Hin)%list_elem_of_fmap. split; [by apply Z_mod_mult|]. by apply Hf, Hk.
Qed.

Lemma procv_fits argv envp : 16 <= procv_size argv envp /\ procv_size argv envp <= MM_PAGE_SIZE * procv_pages argv envp.
Proof.
  pose proof (vec_size_pos argv). pose proof (vec_size_pos envp). unfold procv_pages, procv_size, procv_off. split; [lia|].
  set (n := 8 * _ + _ + _). pose proof (Z.div_mod (n + MM_PAGE_SIZE - 1) MM_PAGE_SIZE ltac:(done)). pose proof (Z.mod_pos_bound (n + MM_PAGE_SIZE - 1) MM_PAGE_SIZE ltac:(done)). lia.
Qed.

Lemma procv_setup_run root m o argv envp : space_ok (m_vm m) o root -> frames_filled m -> procv_size argv envp < 2 ^ 62 ->
  (PROCV_MAX_PAGES < procv_pages argv envp -> procv_setup argv envp PROCV_MAX_PAGES m = Ret (None, m)) /\
  (procv_pages argv envp <= PROCV_MAX_PAGES -> procv_pages argv envp <= pages_free (vm_phys (m_vm m)) ->
   exists ks m' o', procv_setup argv envp PROCV_MAX_PAGES m = Ret (Some (addrs ks, (Z.of_nat (length argv), Z.of_nat (length envp), procv_size argv envp)), m') /\
     Z.of_nat (length ks) = procv_pages argv envp /\ frames_taken m' ks /\ pages_ok m' (addrs ks) /\ laid_out m' (addrs ks) 0 argv envp /\ space_ok (m_vm m') o' root /\
     pages_free (vm_phys (m_vm m')) = pages_free (vm_phys (m_vm m)) - procv_pages argv envp /\ (forall v, leaf (m_vm m') root v = leaf (m_vm m) root v)).
Proof.
  intros Hsp Hfill Hbig. pose proof (procv_fits argv envp) as [H16 Hfit]. pose proof (vec_size_pos argv) as Pa. pose proof (vec_size_pos envp) as Pe.
  unfold procv_setup. cbv zeta. replace ((Z.of_nat (length argv) + 1) * 8 + (Z.of_nat (length envp) + 1) * 8 + vec_size argv + vec_size envp) with (procv_size argv envp) by (unfold procv_size, procv_off; lia).
  rewrite (uwrap_small 64 (procv_size argv envp)) by lia. rewrite (uwrap_small 64 (procv_size argv envp + MM_PAGE_SIZE - 1)) by (unfold MM_PAGE_SIZE; lia). fold (procv_pages argv envp).
  assert (0 <= procv_pages argv envp) as Hn0 by (apply Z.div_pos; [unfold MM_PAGE_SIZE; lia|done]). split.
  { intros Hgt. by rewrite (proj2 (Z.ltb_lt _ _) Hgt). }
  intros Hle Hfree. rewrite (proj2 (Z.ltb_ge _ _) Hle). destruct (alloc_procv_run root (Z.to_nat (procv_pages argv envp)) m o Hsp ltac:(lia)) as (ks & m1 & o1 & E1 & Hl & Hnd & Hd & Hsp1 & Hks & _ & Hlf & Hpf).
  step_run E1. assert (frames_taken m1 ks) as Ht1 by (split; [done|]; intros k Hk; destruct (Hks k Hk) as (? & _ & ?); done).
  assert (pages_ok m1 (addrs ks)) as Hp1. { apply addrs_ok; [|done]. intros k Hk. rewrite Hd. by apply Hfill. }
  assert (Z.of_nat (length (addrs ks)) = procv_pages argv envp) as Ela by (rewrite length_fmap, Hl; lia). rewrite <- Ela. rewrite <- Ela in Hfit, Hle.
  replace (u64 ((Z.of_nat (length argv) + Z.of_nat (length envp) + 2) * 8)) with (procv_off argv envp) by (unfold procv_off, procv_size in *; rewrite uwrap_small; unfold procv_off in *; lia).
  destruct (copy_vec_run (addrs ks) Hle argv m1 0 (procv_off argv envp) Hp1) as (m2 & E2 & V2 & P2 & A2 & K2); [lia|unfold procv_off; lia|unfold procv_size in *; lia|]. step_run E2.
  destruct (copy_vec_run (addrs ks) Hle envp m2 (Z.of_nat (length argv) + 1) (procv_off argv envp + vec_size argv) P2) as (m3 & E3 & V3 & P3 & A3 & K3); [lia|unfold procv_off; lia|unfold procv_size in *; lia|]. step_run E3.
  exists ks, m3, o1. fold (procv_size argv envp). split; [done|]. split; [by rewrite length_fmap|]. split; [unfold frames_taken; rewrite V3, V2; exact Ht1|]. split; [done|].
  split; [split; [|done]|]. { apply (vec_keeps _ m2); [lia|unfold procv_off; lia|done|]. intros v Hv Hr. apply K3; [done| |]; unfold procv_off in *; lia. }
  rewrite V3, V2. split; [done|]. split; [lia|done].
Qed.

(** ** Mapping the frames *)
Definition mapped (m : mem) (root b : Z) (ks : list Z) : Prop :=
  forall j k, ks !! j = Some k -> leaf (m_vm m) root ((b + Z.of_nat j) * MM_PAGE_SIZE) = Some (leaf_entry (k * MM_PAGE_SIZE) elf_flags).

Lemma virt_split b x : (b * MM_PAGE_SIZE + x) mod MM_PAGE_SIZE = x mod MM_PAGE_SIZE /\ b * MM_PAGE_SIZE + x - (b * MM_PAGE_SIZE + x) mod MM_PAGE_SIZE = (b + x / MM_PAGE_SIZE) * MM_PAGE_SIZE.
Proof.
  assert ((b * MM_PAGE_SIZE + x) mod MM_PAGE_SIZE = x mod MM_PAGE_SIZE) as E by (rewrite Z.add_comm; by apply Z_mod_plus_full). split; [done|]. rewrite E.
  pose proof (Z.div_mod x MM_PAGE_SIZE ltac:(done)). lia.
Qed.

Lemma cap_page (ks : list Z) x : 0 <= x < MM_PAGE_SIZE * Z.of_nat (length ks) -> exists k, ks !! Z.to_nat (x / MM_PAGE_SIZE) = Some k /\ 0 <= x / MM_PAGE_SIZE < Z.of_nat (length ks).
Proof.
  intros Hx. assert (0 <= x / MM_PAGE_SIZE) by (apply Z.div_pos; [lia|done]). assert (x / MM_PAGE_SIZE < Z.of_nat (length ks)) by (apply Z.div_lt_upper_bound; [done|lia]).
  destruct (lookup_lt_is_Some_2 ks (Z.to_nat (x / MM_PAGE_SIZE))) as [k Hk]; [lia|]. by exists k.
Qed.

Section mapping.
Context (root b : Z) (ks : list Z) (Hb : 0 <= b) (Hend : b + Z.of_nat (length ks) <= USER_PAGES) (Hlen : Z.of_nat (length ks) <= PROCV_MAX_PAGES).
Let space := MM_VIRTUALIZE root.
Let virt := b * MM_PAGE_SIZE.
Let pages := addrs ks.

Lemma map_procv_run n : forall m o i, (i + n = length ks)%nat -> space_ok (m_vm m) o root -> frames_taken m ks -> 3 * Z.of_nat n <= pages_free (vm_phys (m_vm m)) ->
  mapped m root b (take i ks) -> run_unmapped (m_vm m) root (b + Z.of_nat i) (Z.of_nat n) ->
  exists m' o', for_range (map_procv space virt pages) n (Z.of_nat i) m = Ret (tt, m') /\ space_ok (m_vm m') o' root /\ frames_taken m' ks /\ mapped m' root b ks /\ m_data m' = m_data m.
Proof using Hb Hend.
  induction n as [|n IH]; intros m o i Hi Hsp Hks Hf Hm Hu.
  { exists m, o. split_and!; try done. rewrite take_ge in Hm by lia. done. }
  cbn [for_range]. destruct (lookup_lt_is_Some_2 ks i ltac:(lia)) as [k Hk]. destruct (proj2 Hks k) as (Hkr & q & Hq & Ha); [by eapply list_elem_of_lookup_2|]. pose proof (low_frames k Hkr) as Hka.
  set (p := b + Z.of_nat i) in *. destruct (user_page_addr p) as [Ev Hup]; [lia|].
  pose proof (map_single_run (m_vm m) o root (p * MM_PAGE_SIZE) (k * MM_PAGE_SIZE) elf_flags q Hsp Hup) as Hms.
  assert (PHYS2PAGE (k * MM_PAGE_SIZE) = k) as Hkk by by apply Z.div_mul. rewrite Hkk, (Hu p ltac:(lia)) in Hms.
  destruct Hms as (s2 & o2 & Em & H2 & _ & Hl2 & Hother & Hrc & Hkeep & Hfr); [lia|lia|done|done|].
  assert (map_procv space virt pages (Z.of_nat i) m = Ret (tt, set_vm s2 m)) as E1.
  { unfold map_procv. rewrite (bind_Ret _ _ m (k * MM_PAGE_SIZE) m) by (apply load_Some; unfold pages; by rewrite Nat2Z.id, list_lookup_fmap, Hk).
    unfold virt, space. replace (b * MM_PAGE_SIZE + Z.of_nat i * MM_PAGE_SIZE) with (p * MM_PAGE_SIZE) by lia. rewrite Ev. by step_run (on_vm_run _ m _ _ Em). }
  step_run E1. replace (Z.of_nat i + 1) with (Z.of_nat (S i)) by lia.
  assert (forall p', 0 <= p' < USER_PAGES -> p' <> p -> leaf s2 root (p' * MM_PAGE_SIZE) = leaf (m_vm m) root (p' * MM_PAGE_SIZE)) as Hoth.
  { intros p' Hp' Hne. destruct (user_page_addr p' Hp') as [_ Hup']. apply Hother; [done|]. rewrite !strip_page by lia. done. }
  assert (frames_taken (set_vm s2 m) ks) as Hks2.
  { split; [apply Hks|]. intros k' Hk'. destruct (proj2 Hks k' Hk') as (Hr' & q' & Hq' & Ha'). split; [done|]. destruct (decide (k' = k)) as [->|Hne]; [|exists q'; split; [by apply Hkeep|done]].
    eexists. split; [exact Hrc|]. exact Ha. }
  destruct (IH (set_vm s2 m) o2 (S i) ltac:(lia) H2 Hks2) as (m3 & o3 & E3 & H3 & Hks3 & Hm3 & Hd3).
  - cbn in *. lia.
  - intros j k' Hj. cbn [m_vm set_vm]. pose proof (lookup_lt_Some _ _ _ Hj) as Hjl. rewrite length_take in Hjl. rewrite lookup_take_lt in Hj by lia. destruct (decide (j = i)) as [->|Hne].
    + rewrite Hk in Hj. injection Hj as <-. exact Hl2.
    + rewrite Hoth by lia. apply Hm. by rewrite lookup_take_lt by lia.
  - intros j Hj. unfold page_unmapped. cbn [m_vm set_vm]. rewrite Hoth by lia. apply Hu. lia.
  - exists m3, o3. split; [exact E3|]. split_and!; done.
Qed.

(** ** Words of the mapped frames *)
Context (m : mem) (o : gmap Z page_usage) (Hsp : space_ok (m_vm m) o root) (Hks : frames_taken m ks) (Hmap : mapped m root b ks).
Let cap := MM_PAGE_SIZE * Z.of_nat (length ks).

Lemma user_frame_run x : 0 <= x < cap -> exists k, ks !! Z.to_nat (x / MM_PAGE_SIZE) = Some k /\ user_frame space (virt + x) m = Ret (k * MM_PAGE_SIZE, m).
Proof using Hb Hend Hsp Hks Hmap.
  intros Hx. destruct (cap_page ks x Hx) as (k & Hk & Hr). exists k. split; [done|]. destruct (virt_split b x) as [_ Ev]. fold virt in Ev. unfold user_frame. rewrite Ev.
  set (p := b + x / MM_PAGE_SIZE). destruct (user_page_addr p) as [Eu Hup]; [lia|]. rewrite Eu. pose proof (map_get_run _ _ _ Hsp _ Hup) as Hg. pose proof (Hmap _ _ Hk) as Hl. rewrite Z2Nat.id in Hl by lia. fold p in Hl.
  destruct (proj2 Hks k) as (Hkr & _); [by eapply list_elem_of_lookup_2|]. pose proof (low_frames k Hkr) as Hka. rewrite Hl in Hg.
  unfold space. step_run (on_vm_run _ m _ _ Hg). rewrite page_translation by done. replace (set_vm (m_vm m) m) with m by (by destruct m).
  rewrite bool_decide_eq_false_2 by (unfold MM_NADDR; lia). done.
Qed.
End mapping.

(** An aligned word lies in one page. *)
Lemma word_page x : 0 <= x -> x mod 8 = 0 -> 0 <= x mod MM_PAGE_SIZE <= MM_PAGE_SIZE - 8.
Proof.
  intros Hx H8. pose proof (Z.mod_pos_bound x MM_PAGE_SIZE ltac:(done)) as Hm. assert ((x mod MM_PAGE_SIZE) mod 8 = 0) as E.
  { rewrite (Z.mod_eq x MM_PAGE_SIZE) by done. unfold MM_PAGE_SIZE. replace (x - 4096 * (x / 4096)) with (x + (- 512 * (x / 4096)) * 8) by lia. by rewrite Z_mod_plus_full. }
  pose proof (Z.div_mod (x mod MM_PAGE_SIZE) 8 ltac:(done)). unfold MM_PAGE_SIZE in *. lia.
Qed.

Section fixup.
Context (root b : Z) (ks : list Z) (Hb : 0 <= b) (Hend : b + Z.of_nat (length ks) <= USER_PAGES) (Hlen : Z.of_nat (length ks) <= PROCV_MAX_PAGES).
Abbreviation space := (MM_VIRTUALIZE root).
Abbreviation virt := (b * MM_PAGE_SIZE).
Abbreviation pages := (addrs ks).
Abbreviation cap := (MM_PAGE_SIZE * Z.of_nat (length ks)).

(** The frames are mapped from page [b] on. *)
Definition ready (m : mem) : Prop := (exists o, space_ok (m_vm m) o root) /\ frames_taken m ks /\ mapped m root b ks /\ pages_ok m pages.
Lemma ready_wrote m m' a l : ready m -> wrote m m' pages a l -> ready m'.
Proof using Type. intros (H1 & H2 & H3 & _) (V & P & _). unfold ready, frames_taken, mapped. by rewrite V. Qed.

Lemma user_load_run m x w : ready m -> 0 <= x -> x + 8 <= cap -> x mod 8 = 0 -> bytes_at m pages x (le_put 8 w) -> user_load space (virt + x) m = Ret (u64 w, m).
Proof using Hb Hend.
  intros ([o Hsp] & Hks & Hmap & Hpk) Hx Hc H8 Hw. destruct (user_frame_run root b ks Hb Hend m o Hsp Hks Hmap x ltac:(lia)) as (k & Hk & Ef).
  destruct (virt_split b x) as [Em _]. pose proof (word_page x Hx H8) as Hwp. unfold user_load. step_run Ef. rewrite Em.
  destruct (pk_frame _ _ Hpk (k * MM_PAGE_SIZE)) as (_ & d & Hd & Hdl). { apply list_elem_of_fmap. exists k. split; [done|]. by eapply list_elem_of_lookup_2. }
  rewrite (bind_Ret _ _ m d m) by (by apply load_Some). apply load_Some. rewrite peek_in by (rewrite ?Hdl; unfold MM_PAGE_SIZE in *; lia). f_equal.
  assert (slice (x mod MM_PAGE_SIZE) (Z.of_nat 8) d = le_put 8 w) as ->; [|apply le_get_put].
  apply list_eq_same_length with 8%nat; [apply length_le_put|rewrite length_slice; [done|lia|done|rewrite Hdl; unfold MM_PAGE_SIZE in *; lia]|]. intros j y z Hj Hy Hz.
  rewrite lookup_slice in Hy by lia. specialize (Hw j). rewrite length_le_put in Hw. specialize (Hw Hj). rewrite Hz in Hw. pose proof (Z.div_mod x MM_PAGE_SIZE ltac:(done)) as Edm.
  assert ((x + Z.of_nat j) / MM_PAGE_SIZE = x / MM_PAGE_SIZE) as Ed by (symmetry; apply Z.div_unique_pos with (x mod MM_PAGE_SIZE + Z.of_nat j); unfold MM_PAGE_SIZE in *; lia).
  assert ((x + Z.of_nat j) mod MM_PAGE_SIZE = x mod MM_PAGE_SIZE + Z.of_nat j) as Emj by (symmetry; apply Z.mod_unique_pos with (x / MM_PAGE_SIZE); unfold MM_PAGE_SIZE in *; lia).
  unfold pbyte in Hw. rewrite Ed, Emj, list_lookup_fmap, Hk in Hw. cbn [fmap option_fmap option_map mbind option_bind] in Hw. rewrite Hd in Hw. cbn [mbind option_bind] in Hw. replace (Z.to_nat (x mod MM_PAGE_SIZE + Z.of_nat j)) with (Z.to_nat (x mod MM_PAGE_SIZE) + j)%nat in Hw by lia. congruence.
Qed.

Lemma user_store_run m x w : ready m -> 0 <= x -> x + 8 <= cap -> x mod 8 = 0 -> exists m', user_store space (virt + x) w m = Ret (tt, m') /\ wrote m m' pages x (le_put 8 w).
Proof using Hb Hend.
  intros ([o Hsp] & Hks & Hmap & Hpk) Hx Hc H8. destruct (user_frame_run root b ks Hb Hend m o Hsp Hks Hmap x ltac:(lia)) as (k & Hk & Ef).
  destruct (virt_split b x) as [Em _]. pose proof (word_page x Hx H8) as Hwp. unfold user_store. step_run Ef. rewrite Em.
  destruct (page_write_run m pages (Z.to_nat (x / MM_PAGE_SIZE)) (k * MM_PAGE_SIZE) (x mod MM_PAGE_SIZE) (le_put 8 w) Hpk) as (m' & E & W);
    [by rewrite list_lookup_fmap, Hk|unfold MM_PAGE_SIZE in *; lia|rewrite length_le_put; unfold MM_PAGE_SIZE in *; lia|].
  exists m'. split; [exact E|]. rewrite Z2Nat.id in W by (apply Z.div_pos; [lia|done]). by rewrite <- (Z.div_mod x MM_PAGE_SIZE) in W by done.
Qed.

(** The loop that turns the [n] offsets from word [i] on into addresses. *)
Lemma fix_words_run n : forall m i c f, ready m -> 0 <= i -> 0 <= c -> 8 * (i + c + Z.of_nat n) <= cap ->
  (forall t, c <= t < c + Z.of_nat n -> 0 <= f t < 2 ^ 62 /\ bytes_at m pages (8 * (i + t)) (le_put 8 (f t))) ->
  exists m', for_range (fix_word space virt (virt + 8 * i)) n c m = Ret (tt, m') /\ ready m' /\
    (forall t, c <= t < c + Z.of_nat n -> bytes_at m' pages (8 * (i + t)) (le_put 8 (virt + f t))) /\
    (forall v, 0 <= v -> ~ 8 * (i + c) <= v < 8 * (i + c + Z.of_nat n) -> pbyte m' pages v = pbyte m pages v).
Proof using Hb Hend Hlen.
  induction n as [|n IH]; intros m i c f Hr Hi Hc Hcap Hf.
  { exists m. split_and!; try done. intros t Ht. lia. }
  cbn [for_range]. destruct (Hf c ltac:(lia)) as [Hfc Hw]. assert (0 <= virt /\ virt + cap < 2 ^ 62) as Hv.
  { unfold USER_PAGES, AMD64_PML4I_USER_END, MM_PAGE_SIZE, PROCV_MAX_PAGES in *. lia. }
  assert ((8 * (i + c)) mod 8 = 0) as H8 by (rewrite Z.mul_comm; by apply Z_mod_mult). rewrite Nat2Z.inj_succ in *.
  destruct (user_store_run m (8 * (i + c)) (virt + f c) Hr ltac:(lia) ltac:(lia) H8) as (m1 & E1 & W1). pose proof (ready_wrote _ _ _ _ Hr W1) as Hr1. assert (bytes_at m1 pages (8 * (i + c)) (le_put 8 (virt + f c))) as Ha1 by (eapply wrote_at; [lia|exact W1]).
  pose proof (proj2 (proj2 W1)) as B1. rewrite length_le_put in B1.
  assert (fix_word space virt (virt + 8 * i) c m = Ret (tt, m1)) as Ex.
  { unfold fix_word. rewrite (uwrap_small 64 (virt + 8 * i + 8 * c)) by lia. replace (virt + 8 * i + 8 * c) with (virt + 8 * (i + c)) by lia.
    step_run (user_load_run m (8 * (i + c)) (f c) Hr ltac:(lia) ltac:(lia) H8 Hw). rewrite (uwrap_small 64 (f c)) by lia. rewrite uwrap_small by lia. by rewrite (Z.add_comm (f c)). }
  step_run Ex. destruct (IH m1 i (c + 1) f Hr1 Hi ltac:(lia) ltac:(lia)) as (m2 & E2 & R2 & A2 & K2).
  { intros t Ht. destruct (Hf t ltac:(lia)) as [Hft Hwt]. split; [done|]. eapply wrote_keeps; [exact W1|done|lia|]. rewrite !length_le_put. lia. }
  exists m2. split; [exact E2|]. split; [done|]. split.
  - intros t Ht. destruct (decide (t = c)) as [->|]; [|apply A2; lia]. intros j Hj. rewrite <- Ha1 by done. rewrite length_le_put in Hj. apply K2; lia.
  - intros v Hv0 Hout. rewrite K2 by lia. by rewrite B1, decide_False by lia.
Qed.

(** What the program finds at an address of the mapped frames. *)
Lemma user_sees m x l : ready m -> 0 <= x -> x + Z.of_nat (length l) <= cap -> bytes_at m pages x l ->
  forall j : nat, (j < length l)%nat -> user_byte m root (virt + x + Z.of_nat j) = l !! j.
Proof using Hb Hend.
  intros (_ & Hks & Hmap & _) Hx Hc Hl j Hj. rewrite <- (Hl j Hj), <- Z.add_assoc. set (y := x + Z.of_nat j). destruct (cap_page ks y ltac:(unfold y; lia)) as (k & Hk & Hr).
  destruct (virt_split b y) as [Em Ev]. unfold user_byte, pbyte. rewrite Em. assert ((virt + y) / MM_PAGE_SIZE * MM_PAGE_SIZE = (b + y / MM_PAGE_SIZE) * MM_PAGE_SIZE) as ->.
  { rewrite <- Ev. pose proof (Z.div_mod (virt + y) MM_PAGE_SIZE ltac:(done)). lia. }
  pose proof (Hmap _ _ Hk) as Hlf. rewrite Z2Nat.id in Hlf by lia. rewrite Hlf, list_lookup_fmap, Hk. cbn [fmap option_fmap option_map mbind option_bind].
  destruct (proj2 Hks k) as (Hkr & _); [by eapply list_elem_of_lookup_2|]. pose proof (low_frames k Hkr). rewrite leaf_entry_child by lia.
  assert ((k * MM_PAGE_SIZE) mod 0x1000 = 0) as -> by apply Z_mod_mult. by rewrite Z.sub_0_r.
Qed.
End fixup.

(** A vector in the memory of a program: an array of addresses of strings, ended by 0. *)
Definition user_bytes (m : mem) (root a : Z) (l : list Z) : Prop := forall j : nat, (j < length l)%nat -> user_byte m root (a + Z.of_nat j) = l !! j.
Definition user_vec (m : mem) (root a : Z) (strs : list (list Z)) : Prop :=
  (forall n s, strs !! n = Some s -> exists p, user_bytes m root (a + 8 * Z.of_nat n) (le_put 8 p) /\ user_bytes m root p (s ++ [0])) /\
  user_bytes m root (a + 8 * Z.of_nat (length strs)) (le_put 8 0).

(** The words of a vector become addresses. *)
Lemma fix_vec_run root b ks m i offset strs : 0 <= b -> b + Z.of_nat (length ks) <= USER_PAGES -> Z.of_nat (length ks) <= PROCV_MAX_PAGES ->
  ready root b ks m -> 0 <= i -> 8 * (i + Z.of_nat (length strs)) <= offset -> offset + vec_size strs <= MM_PAGE_SIZE * Z.of_nat (length ks) -> vec_at (addrs ks) m 0 i offset strs ->
  exists m', for_range (fix_word (MM_VIRTUALIZE root) (b * MM_PAGE_SIZE) (b * MM_PAGE_SIZE + 8 * i)) (length strs) 0 m = Ret (tt, m') /\ ready root b ks m' /\
    vec_at (addrs ks) m' (b * MM_PAGE_SIZE) i offset strs /\
    forall v, 0 <= v -> ~ 8 * i <= v < 8 * (i + Z.of_nat (length strs)) -> pbyte m' (addrs ks) v = pbyte m (addrs ks) v.
Proof.
  intros Hb Hend Hlen Hr Hi Ho Hc Hv. pose proof (vec_size_pos strs) as Hp.
  destruct (fix_words_run root b ks Hb Hend Hlen (length strs) m i 0 (fun t => vec_off offset strs (Z.to_nat t)) Hr Hi) as (m' & E & R & A & K).
  - lia.
  - lia.
  - intros t Ht. destruct (lookup_lt_is_Some_2 strs (Z.to_nat t)) as [s Hs]; [lia|]. pose proof (vec_size_lookup _ _ _ Hs). pose proof (vec_size_pos (take (Z.to_nat t) strs)).
    split; [unfold vec_off, PROCV_MAX_PAGES, MM_PAGE_SIZE in *; lia|]. destruct (Hv _ _ Hs) as [Hw _]. rewrite Z2Nat.id in Hw by lia. exact Hw.
  - exists m'. split; [exact E|]. split; [done|]. split; [|intros v Hv0 Hout; apply K; lia]. intros n s Hs. pose proof (lookup_lt_Some _ _ _ Hs). split.
    + pose proof (A (Z.of_nat n) ltac:(lia)) as An. by rewrite Nat2Z.id in An.
    + destruct (Hv n s Hs) as [_ Hb']. pose proof (vec_size_lookup _ _ _ Hs). pose proof (vec_size_pos (take n strs)). intros j Hj. rewrite <- Hb' by done. unfold vec_off. apply K; lia.
Qed.

(** Writing a word outside of a vector. *)
Lemma vec_wrote pages m m' a l base i offset strs : 0 <= i -> 0 <= offset -> vec_at pages m base i offset strs -> wrote m m' pages a l ->
  (forall v, 8 * i <= v < 8 * (i + Z.of_nat (length strs)) \/ offset <= v < offset + vec_size strs -> ~ a <= v < a + Z.of_nat (length l)) -> vec_at pages m' base i offset strs.
Proof. intros Hi Ho Hv (_ & _ & B) Hout. apply (vec_keeps _ m); try done. intros v Hv0 Hr. rewrite B, decide_False by auto. done. Qed.

Lemma user_vec_of root b ks m i offset strs : 0 <= b -> b + Z.of_nat (length ks) <= USER_PAGES -> ready root b ks m -> 0 <= i ->
  8 * (i + Z.of_nat (length strs) + 1) <= offset -> offset + vec_size strs <= MM_PAGE_SIZE * Z.of_nat (length ks) ->
  vec_at (addrs ks) m (b * MM_PAGE_SIZE) i offset strs -> bytes_at m (addrs ks) (8 * (i + Z.of_nat (length strs))) (le_put 8 0) -> user_vec m root (b * MM_PAGE_SIZE + 8 * i) strs.
Proof.
  intros Hb Hend Hr Hi Ho Hc Hv H0. pose proof (vec_size_pos strs). split.
  - intros n s Hs. pose proof (lookup_lt_Some _ _ _ Hs). pose proof (vec_size_lookup _ _ _ Hs). pose proof (vec_size_pos (take n strs)). destruct (Hv n s Hs) as [Hw Hb']. unfold vec_off in *.
    exists (b * MM_PAGE_SIZE + (offset + vec_size (take n strs))). split; intros j Hj.
    + replace (b * MM_PAGE_SIZE + 8 * i + 8 * Z.of_nat n) with (b * MM_PAGE_SIZE + 8 * (i + Z.of_nat n)) by lia. apply (user_sees root b ks Hb Hend m _ (le_put 8 _) Hr); [lia|rewrite length_le_put; lia|done|done].
    + apply (user_sees root b ks Hb Hend m _ (s ++ [0]) Hr); [lia|rewrite length_app; cbn; lia|done|done].
  - intros j Hj. replace (b * MM_PAGE_SIZE + 8 * i + 8 * Z.of_nat (length strs)) with (b * MM_PAGE_SIZE + 8 * (i + Z.of_nat (length strs))) by lia.
    apply (user_sees root b ks Hb Hend m _ (le_put 8 0) Hr); [lia|rewrite length_le_put; lia|done|done].
Qed.

(** [procv_setup] puts the arguments and the environment into frames: when they need at
    most [PROCV_MAX_PAGES] frames and there are that many, the first array of pointers
    holds the offsets of the arguments, the second those of the environment, and at each
    offset lies the string with its final zero, also where it crosses frames; when they
    need more nothing is done. *)
Theorem procv_setup_layout root m o argv envp : space_ok (m_vm m) o root -> frames_filled m -> procv_size argv envp < 2 ^ 62 ->
  (PROCV_MAX_PAGES < procv_pages argv envp -> procv_setup argv envp PROCV_MAX_PAGES m = Ret (None, m)) /\
  (procv_pages argv envp <= PROCV_MAX_PAGES -> procv_pages argv envp <= pages_free (vm_phys (m_vm m)) ->
   exists ks m' o', procv_setup argv envp PROCV_MAX_PAGES m = Ret (Some (addrs ks, (Z.of_nat (length argv), Z.of_nat (length envp), procv_size argv envp)), m') /\
     Z.of_nat (length ks) = procv_pages argv envp /\ laid_out m' (addrs ks) 0 argv envp /\ space_ok (m_vm m') o' root).
Proof.
  intros Hsp Hf Hs. destruct (procv_setup_run root m o argv envp Hsp Hf Hs) as [H1 H2]. split; [exact H1|]. intros Hle Hfr.
  destruct (H2 Hle Hfr) as (ks & m' & o' & E & Hl & _ & _ & L & S & _). exists ks, m', o'. done.
Qed.


(** The arrays become those of the program. *)
Lemma fix_vectors_run root b ks m argv envp : let n := Z.of_nat (length ks) in 0 <= b -> b + n <= 0xF0000 -> n <= PROCV_MAX_PAGES -> procv_size argv envp <= MM_PAGE_SIZE * n ->
  ready root b ks m -> laid_out m (addrs ks) 0 argv envp ->
  exists m', fix_vectors (MM_VIRTUALIZE root) (b * MM_PAGE_SIZE) (Z.of_nat (length argv)) (Z.of_nat (length envp)) m = Ret (tt, m') /\ ready root b ks m' /\
    user_vec m' root (b * MM_PAGE_SIZE) argv /\ user_vec m' root (b * MM_PAGE_SIZE + 8 * (Z.of_nat (length argv) + 1)) envp.
Proof.
  intros n Hbp Hb1 Hmax Hfit R1 [La1 Le1]. assert (0xF0000 <= USER_PAGES) as Hup by done. assert (b + n <= USER_PAGES) as Hend by lia.
  pose proof (vec_size_pos argv) as Pa. pose proof (vec_size_pos envp) as Pe. unfold procv_size, procv_off in Hfit. unfold fix_vectors. cbv zeta.
  destruct (fix_vec_run root b ks m 0 (procv_off argv envp) argv Hbp Hend Hmax R1 ltac:(done)) as (m2 & E2 & R2 & A2 & K2); [unfold procv_off; lia|unfold procv_off, n in *; lia|done|].
  rewrite Z.mul_0_r, Z.add_0_r in E2. rewrite !Nat2Z.id. step_run E2.
  assert (0 <= b * MM_PAGE_SIZE < 2 ^ 62) as Hv by (unfold MM_PAGE_SIZE; lia). assert (MM_PAGE_SIZE * n <= 2 ^ 17) as Hcap by (unfold MM_PAGE_SIZE, PROCV_MAX_PAGES in *; lia).
  rewrite (uwrap_small 64 (b * MM_PAGE_SIZE + 8 * (Z.of_nat (length argv) + 1))) by lia.
  destruct (fix_vec_run root b ks m2 (Z.of_nat (length argv) + 1) (procv_off argv envp + vec_size argv) envp Hbp Hend Hmax R2 ltac:(lia)) as (m3 & E3 & R3 & A3 & K3);
    [unfold procv_off; lia|unfold procv_off, n in *; lia|eapply vec_keeps; [lia|unfold procv_off; lia|exact Le1|]; intros v Hv0 Hr; apply K2; [done|unfold procv_off in *; lia]|].
  step_run E3. rewrite (uwrap_small 64 (b * MM_PAGE_SIZE + 8 * Z.of_nat (length argv))) by lia.
  destruct (user_store_run root b ks Hbp Hend m3 (8 * Z.of_nat (length argv)) 0 R3) as (m4 & E4 & W4); [lia|unfold n in *; lia|rewrite Z.mul_comm; by apply Z_mod_mult|]. step_run E4.
  pose proof (ready_wrote _ _ _ _ _ _ _ R3 W4) as R4.
  rewrite (uwrap_small 64 (b * MM_PAGE_SIZE + 8 * (Z.of_nat (length argv) + 1) + 8 * Z.of_nat (length envp))) by lia.
  replace (b * MM_PAGE_SIZE + 8 * (Z.of_nat (length argv) + 1) + 8 * Z.of_nat (length envp)) with (b * MM_PAGE_SIZE + 8 * (Z.of_nat (length argv) + 1 + Z.of_nat (length envp))) by lia.
  destruct (user_store_run root b ks Hbp Hend m4 (8 * (Z.of_nat (length argv) + 1 + Z.of_nat (length envp))) 0 R4) as (m5 & E5 & W5); [lia|unfold n in *; lia|rewrite Z.mul_comm; by apply Z_mod_mult|].
  pose proof (ready_wrote _ _ _ _ _ _ _ R4 W5) as R5. exists m5. split; [exact E5|]. split; [done|].
  assert (vec_at (addrs ks) m5 (b * MM_PAGE_SIZE) 0 (procv_off argv envp) argv) as A5.
  { eapply vec_wrote; [done|unfold procv_off; lia| |exact W5|rewrite length_le_put; unfold procv_off; lia]. eapply vec_wrote; [done|unfold procv_off; lia| |exact W4|rewrite length_le_put; unfold procv_off; lia].
    eapply vec_keeps; [done|unfold procv_off; lia|exact A2|]. intros v Hv0 Hr. apply K3; [done|unfold procv_off in *; lia]. }
  assert (vec_at (addrs ks) m5 (b * MM_PAGE_SIZE) (Z.of_nat (length argv) + 1) (procv_off argv envp + vec_size argv) envp) as A5e.
  { eapply vec_wrote; [lia|unfold procv_off; lia| |exact W5|rewrite length_le_put; unfold procv_off; lia]. eapply vec_wrote; [lia|unfold procv_off; lia|exact A3|exact W4|rewrite length_le_put; unfold procv_off; lia]. }
  split.
  - rewrite <- (Z.add_0_r (b * MM_PAGE_SIZE)), <- (Z.mul_0_r 8). eapply (user_vec_of root b ks m5 0 (procv_off argv envp) argv Hbp Hend R5 ltac:(done)); [unfold procv_off; lia|unfold procv_off, n in *; lia|done|].
    eapply wrote_keeps; [exact W5|eapply wrote_at; [|rewrite Z.add_0_l; exact W4]; lia|lia|rewrite !length_le_put; lia].
  - eapply (user_vec_of root b ks m5 (Z.of_nat (length argv) + 1) (procv_off argv envp + vec_size argv) envp Hbp Hend R5 ltac:(lia)); [unfold procv_off; lia|unfold procv_off, n in *; lia|done|]. eapply wrote_at; [|exact W5]. lia.
Qed.


(** ** Scripts *)
Lemma strchr_found c s rest : c <> 0 -> u8 c = c -> (forall x, x ∈ s -> x <> 0 /\ x <> c) -> strchr (s ++ c :: rest) c = Some (Some (Z.of_nat (length s))).
Proof.
  intros Hc Hu. induction s as [|x s IH]; intros Hs.
  - cbn [app strchr length]. rewrite (proj2 (Z.eqb_neq c 0) Hc), Hu, Z.eqb_refl. done.
  - destruct (Hs x (list_elem_of_here _ _)) as [H0 H1]. cbn [app strchr length]. rewrite (proj2 (Z.eqb_neq x 0) H0), Hu, (proj2 (Z.eqb_neq x c) H1).
    rewrite IH by (intros y Hy; apply Hs; by right). cbn. do 2 f_equal. lia.
Qed.

(** A file that starts with [#!] and a line is run by the program of that line, which
    gets its own name, the script's and the script's arguments. *)
Theorem script_runs_interpreter interp rest res dynamic path arg0 args : (forall x, x ∈ interp -> x <> 0 /\ x <> 10) -> Z.of_nat (length args) <= 30 ->
  exec_choose ([35; 33] ++ interp ++ 10 :: rest) res dynamic path (arg0 :: args) = Some (Ret (ExecOther interp (interp :: path :: args))).
Proof.
  intros Hi Hn. unfold exec_choose. set (buf := [35; 33] ++ interp ++ 10 :: rest). assert (binfmt_is_elf buf res = Some false) as ->.
  { unfold binfmt_is_elf, buf. destruct (res <? 4); reflexivity. }
  cbn [mbind option_bind negb]. change (buf !! 0%nat) with (Some 35). change (buf !! 1%nat) with (Some 33). cbn [mbind option_bind]. change ((35 =? 35) && (33 =? 33)) with true. cbv iota.
  replace (strchr buf 10) with (Some (Some (Z.of_nat (length ([35; 33] ++ interp))))).
  2:{ symmetry. unfold buf. rewrite app_assoc. apply strchr_found; [done|done|]. intros x [Hx|Hx]%elem_of_app; [|by apply Hi]. by apply elem_of_cons in Hx as [->|[->|[]%elem_of_nil]%elem_of_cons]. }
  cbn [mbind option_bind]. rewrite (proj2 (Z.ltb_ge 32 _)) by (cbn [length]; lia). rewrite Nat2Z.id. unfold buf. rewrite app_assoc, take_app_length. done.
Qed.

(** ** Examples *)
Definition exec_mem : mem := mk_mem sample_vm rubbish [] 0.
#[local] Opaque rubbish.


(** ** Flaws *)

(** The check for the size of a field of the entry argument takes the size of all the
    data, not the number of strings: 4 KiB of arguments panic the kernel, although
    [procv_setup] takes up to 32 pages. *)
Theorem big_args_panic argv envp v m : 4096 <= procv_size argv envp -> exec_arg (Z.of_nat (length argv)) (procv_size argv envp) v m = Panic.
Proof.
  intros Hs. unfold exec_arg. destruct (Z.of_nat (length argv) <? 4096); [|reflexivity]. rewrite (bind_Ret _ _ m tt m) by done. by rewrite (proj2 (Z.ltb_ge _ _) Hs).
Qed.

(** A script that is executed with an empty argument vector does not reach its
    interpreter: the end of the array lies over its name. *)
Theorem script_without_args_lost : exec_choose ([35; 33; 47; 115; 104; 10] ++ replicate 122 0) 128 (0, false) [47; 120] [] = Some (Ret (ExecOther [47; 115; 104] [[47; 115; 104]])).
Proof. vm_compute. reflexivity. Qed.

(** A file that is neither an executable nor a script is not refused: its loading, which
    comes after the old address space was given up, is what fails. *)
Theorem text_file_reaches_loader : exec_choose (replicate 128 65) 128 (0, false) [] [] = Some (Ret ExecLoad).
Proof. vm_compute. reflexivity. Qed.
