(* ===== verification/Config.v ===== *)
(** * The kernel's configuration: [sys/config.c]

    The command line is one object of memory, a list of bytes, and a pointer into it is
    an offset.  Parsing cuts the line into strings in place by storing NULs, and an
    option with a text keeps a pointer into the line.  [settings] says what a line
    means without any memory: the theorem is that the two agree. *)

From S2P Require Import Prelude Defs Bytes Strings.

(** ** Data *)
Definition KERNEL_CMDLINE_MAX : nat := 256.
Definition CFG_ROOT : nat := 1.
Definition CFG_INIT : nat := 2.
Definition CFG_RDINIT : nat := 3.
Definition CFG_CONSOLE : nat := 4.
Definition CFG_DEBUG : nat := 5.
Definition CFG_SIZE : nat := 6.

Definition DEBUG_DEFAULT : Z := 0.
Definition DEBUG_INFO : Z := 1.
Definition DEBUG_WARN : Z := 2.
Definition DEBUG_ERROR : Z := 3.
Definition DEBUG_FATAL : Z := 4.
Definition DEBUG_SERIAL (bit : Z) : Z := Z.shiftl 1 bit.
Definition DEBUG_DISP (bit : Z) : Z := Z.shiftl 1 (bit + 8).
Definition DEBUG_ALL_SERIAL : Z :=
  Z.lor (DEBUG_SERIAL DEBUG_DEFAULT) (Z.lor (DEBUG_SERIAL DEBUG_INFO) (Z.lor (DEBUG_SERIAL DEBUG_WARN)
    (Z.lor (DEBUG_SERIAL DEBUG_ERROR) (DEBUG_SERIAL DEBUG_FATAL)))).

Inductive value_type := VALUE_BOOLEAN | VALUE_NUMBER | VALUE_STRING.

(** The bytes of a string literal, without the NUL. *)
Definition text (s : string) : list Z := (fun c => Z.of_N (Ascii.N_of_ascii c)) <$> String.list_ascii_of_string s.

(** A word of [kernel_config]: a number, or a pointer to a literal or into the line. *)
Inductive word := Num (x : Z) | Literal (s : list Z) | Cmdline (p : Z).

Record cmdline_pair := mk_pair { p_key : list Z; cfg_index : nat; p_type : value_type }.

Definition kernel_cmdline_pairs : list cmdline_pair :=
  [ mk_pair (text "root") CFG_ROOT VALUE_STRING; mk_pair (text "init") CFG_INIT VALUE_STRING;
    mk_pair (text "console") CFG_CONSOLE VALUE_STRING; mk_pair (text "debug") CFG_DEBUG VALUE_NUMBER ].

Definition kernel_config_default : list word :=
  [ Num 0; Literal (text "ram0"); Literal (text "/init"); Num 0; Literal (text "tty0");
    Num (Z.lor DEBUG_ALL_SERIAL (Z.lor (DEBUG_DISP DEBUG_INFO) (Z.lor (DEBUG_DISP DEBUG_WARN)
      (Z.lor (DEBUG_DISP DEBUG_ERROR) (DEBUG_DISP DEBUG_FATAL))))) ].

Record config := mk_config {
  kernel_config : list word;
  g_kernel_cmdline : list Z;
  cmdline : list Z;             (* the object the boot loader passes *)
}.
Definition set_config l (s : config) := mk_config l (g_kernel_cmdline s) (cmdline s).
Definition set_copy b (s : config) := mk_config (kernel_config s) b (cmdline s).
Definition set_cmdline b (s : config) := mk_config (kernel_config s) (g_kernel_cmdline s) b.

Abbreviation M := (cmd config).

(** ** Operations *)

(** The memory at an offset, and a store of one byte. *)
Definition at_off (p : Z) : M (list Z) := cgets (fun s => drop (Z.to_nat p) (cmdline s)).
Definition put_nul (p : Z) : M unit :=
  b ← cload (fun s => poke 1 p 0 (cmdline s)); cmodify (set_cmdline b).

Fixpoint parse_number_from (res : Z) (s : list Z) : option (Z * Z) :=
  match s with
  | [] => None
  | c :: s => if isdigit (i8 c) then parse_number_from (i64 (i64 (res * 10) + (i8 c - 48))) s
              else Some (if c =? 0 then 0 else -1, res)
  end.
Definition parse_number (s : list Z) : option (Z * Z) := parse_number_from 0 s.

(** [!strcmp(value, literal)] *)
Definition is_text (v : list Z) (lit : list Z) : option bool :=
  r ← strcmp false (Some v) (Some (lit ++ [0])); Some (r =? 0).

Definition boolean_value (v : list Z) : option (option Z) :=
  f ← is_text v (text "false"); n ← (if (f : bool) then Some true else is_text v (text "no"));
  o ← (if (n : bool) then Some true else is_text v (text "off"));
  if (o : bool) then Some (Some 0) else
  t ← is_text v (text "true"); y ← (if (t : bool) then Some true else is_text v (text "yes"));
  o ← (if (y : bool) then Some true else is_text v (text "on"));
  if (o : bool) then Some (Some 1) else Some None.

Definition kernel_set_opt (pair : cmdline_pair) (value : option Z) : M unit :=
  let set w := cmodify (fun s => set_config (<[cfg_index pair := w]> (kernel_config s)) s) in
  match p_type pair, value with
  | VALUE_BOOLEAN, Some v =>
      m ← at_off v; r ← cload (fun _ => boolean_value m);
      match r with Some x => set (Num x) | None => mret tt end
  | VALUE_BOOLEAN, None => set (Num 1)
  | _, None => mret tt
  | VALUE_STRING, Some v => set (Cmdline v)
  | VALUE_NUMBER, Some v =>
      m ← at_off v; r ← cload (fun _ => parse_number m);
      if r.1 =? 0 then set (Num (u64 r.2)) else mret tt
  end.

(** The search of [kernel_cmdline_opt] through the table. *)
Fixpoint find_opt (pairs : list cmdline_pair) (key : Z) (value : option Z) : M unit :=
  match pairs with
  | [] => mret tt
  | pr :: pairs =>
      m ← at_off key;
      r ← cload (fun _ => strcmp false (Some (p_key pr ++ [0])) (Some m));
      if r =? 0 then kernel_set_opt pr value else find_opt pairs key value
  end.

Definition kernel_cmdline_opt (opt : Z) : M unit :=
  m ← at_off opt;
  k ← cload (fun _ => strchr m 61);
  match k with
  | Some k => put_nul (opt + k);; find_opt kernel_cmdline_pairs opt (Some (opt + k + 1))
  | None => find_opt kernel_cmdline_pairs opt None
  end.

(** [while (isspace( *p)) ++p] *)
Fixpoint skip_space (p : Z) (s : list Z) : option Z :=
  match s with
  | [] => None
  | c :: s => if isspace (i8 c) then skip_space (p + 1) s else Some p
  end.

(** The loop of [kernel_set_cmdline]; every turn but the last moves [p] forward. *)
Fixpoint cmdline_loop (fuel : nat) (p : Z) : M unit :=
  match fuel with
  | O => cdiverged
  | S fuel =>
      m ← at_off p;
      p ← cload (fun _ => skip_space p m);
      m ← at_off p;
      e ← cload (fun _ => strchr m 32);
      match e with
      | Some e => put_nul (p + e);; kernel_cmdline_opt p;; cmdline_loop fuel (p + e + 1)
      | None => kernel_cmdline_opt p
      end
  end.

Definition kernel_set_cmdline : M unit :=
  m ← at_off 0;
  b ← cload (fun s => strcpy (g_kernel_cmdline s) m);
  cmodify (set_copy b);;
  fuel ← cgets (fun s => length (cmdline s));
  cmdline_loop fuel 0.

(** ** What a line means *)

(** A configuration without pointers. *)
Inductive setting := Number (x : Z) | Text (s : list Z).

(** The pieces of a text between the bytes [c]. *)
Fixpoint split_at (c : Z) (t : list Z) : list (list Z) :=
  match t with
  | [] => [[]]
  | x :: t => if x =? c then [] :: split_at c t
              else match split_at c t with w :: ws => (x :: w) :: ws | [] => [[x]] end
  end.
(** The part before the first [c], and what follows it. *)
Fixpoint cut (c : Z) (t : list Z) : list Z * option (list Z) :=
  match t with
  | [] => ([], None)
  | x :: t => if x =? c then ([], Some t) else let r := cut c t in (x :: r.1, r.2)
  end.
Fixpoint strip (t : list Z) : list Z :=
  match t with x :: t' => if isspace (i8 x) then strip t' else t | [] => [] end.

Definition decimal_of (t : list Z) : Z := foldl (fun a c => a * 10 + (c - 48)) 0 t.

(** What one option does: texts are taken as they are, numbers only if every character
    is a digit, and an option without a value or with an unknown name does nothing. *)
Definition set_option (f : list setting) (w : list Z) : list setting :=
  match cut 61 w with
  | (k, Some v) =>
      if decide (k = text "root") then <[CFG_ROOT := Text v]> f
      else if decide (k = text "init") then <[CFG_INIT := Text v]> f
      else if decide (k = text "console") then <[CFG_CONSOLE := Text v]> f
      else if decide (k = text "debug") then
        if forallb isdigit v then <[CFG_DEBUG := Number (u64 (decimal_of v))]> f else f
      else f
  | (_, None) => f
  end.
Definition settings (f : list setting) (t : list Z) : list setting :=
  foldl set_option f (strip <$> split_at 32 t).

(** The string at an offset. *)
Definition string_at (b : list Z) (p : Z) : list Z :=
  default [] (l ← strlen (drop (Z.to_nat p) b); Some (take (Z.to_nat l) (drop (Z.to_nat p) b))).
Definition setting_of (b : list Z) (w : word) : setting :=
  match w with Num x => Number x | Literal s => Text s | Cmdline p => Text (string_at b p) end.
Definition view (s : config) : list setting := setting_of (cmdline s) <$> kernel_config s.

Definition boot_config (line : list Z) (rest : list Z) : config :=
  mk_config kernel_config_default (replicate KERNEL_CMDLINE_MAX 0) (line ++ 0 :: rest).

Example cmdline_example :
  match kernel_set_cmdline (boot_config (text " root=sda1 debug=12a  foo init=/a=b debug=7 ") [1; 2]) with
  | Ret (_, s) => view s = [Number 0; Text (text "sda1"); Text (text "/a=b"); Number 0; Text (text "tty0"); Number 7]
  | _ => False
  end.
Proof. vm_compute. reflexivity. Qed.

(** ** Strings inside the line *)
Definition nz (t : list Z) : Prop := Forall (fun c => c <> 0 /\ 0 <= c < 256) t.

Lemma nz_app t u : nz (t ++ u) <-> nz t /\ nz u.
Proof. apply Forall_app. Qed.
Lemma nz_cstr t r : nz t -> cstr (t ++ 0 :: r) t.
Proof. intros H. split; [|by exists r]. eapply Forall_impl; [|exact H]. by intros x [? _]. Qed.

Lemma strchr_cut c t r : nz t -> 0 < c < 256 ->
  strchr (t ++ 0 :: r) c = Some (match (cut c t).2 with Some _ => Some (Z.of_nat (length (cut c t).1)) | None => None end).
Proof.
  intros Ht Hc. assert (u8 c = c) as Eu by (apply uwrap_small; lia). induction Ht as [|x t [Hx _] _ IH]; [done|].
  cbn [app strchr cut]. rewrite Eu, (proj2 (Z.eqb_neq x 0) Hx). destruct (x =? c); [done|]. rewrite IH.
  cbn. destruct (cut c t) as [k [v|]]; cbn; [do 2 f_equal; lia|done].
Qed.

Lemma cut_Some c t k v : cut c t = (k, Some v) -> t = k ++ c :: v.
Proof.
  revert k. induction t as [|x t IH]; intros k; cbn [cut]; [done|]. destruct (Z.eqb_spec x c) as [->|]; [by intros [= <- <-]|].
  destruct (cut c t) as [k' o]. cbn. intros [= <- ->]. cbn. f_equal. by apply IH.
Qed.
Lemma cut_None c t k : cut c t = (k, None) -> k = t.
Proof.
  revert k. induction t as [|x t IH]; intros k; cbn [cut]; [by intros [= <-]|]. destruct (x =? c); [done|].
  destruct (cut c t) as [k' o]. cbn. intros [= <- ->]. f_equal. by apply IH.
Qed.

Lemma split_cut c t : split_at c t = match cut c t with (k, Some v) => k :: split_at c v | (k, None) => [k] end.
Proof.
  induction t as [|x t IH]; [done|]. cbn [split_at cut]. destruct (x =? c); [done|]. rewrite IH.
  by destruct (cut c t) as [k [v|]].
Qed.

(** Leading white space does not matter. *)
Lemma i8_byte_space c : 0 <= c < 256 -> isspace (i8 c) = isspace c.
Proof.
  intros H. unfold swrap. rewrite Z.mod_small by lia. destruct (Z.ltb_spec c (2 ^ (8 - 1))); [done|].
  unfold isspace. repeat (rewrite (proj2 (Z.eqb_neq _ _)) by lia). done.
Qed.

Lemma i8_byte_digit c : 0 <= c < 256 -> isdigit (i8 c) = isdigit c /\ (isdigit c = true -> i8 c = c).
Proof.
  intros H. unfold swrap, isdigit. rewrite Z.mod_small by lia.
  destruct (Z.ltb_spec c (2 ^ (8 - 1))); [done|]. split; lia.
Qed.

Lemma settings_skip f c t : isspace (i8 c) = true -> settings f (c :: t) = settings f t.
Proof.
  intros Hc. unfold settings. cbn [split_at]. destruct (Z.eqb_spec c 32) as [->|]; [done|].
  destruct (split_at 32 t) as [|w ws] eqn:E; [by rewrite split_cut in E; destruct (cut 32 t) as [? []]|].
  cbn [fmap list_fmap foldl strip]. by rewrite Hc.
Qed.

Lemma skip_space_run t r : nz t -> forall p, exists sp t', t = sp ++ t' /\
  skip_space p (t ++ 0 :: r) = Some (p + Z.of_nat (length sp)) /\ (forall f, settings f t = settings f t') /\
  strip t' = t'.
Proof.
  induction 1 as [|c t [Hc Hb] _ IH]; intros p.
  - exists [], []. repeat split. cbn. f_equal. lia.
  - cbn [app skip_space]. destruct (isspace (i8 c)) eqn:E.
    + destruct (IH (p + 1)) as (sp & t' & -> & Es & Hf & Hn). exists (c :: sp), t'. repeat split; [|intros f|done].
      * rewrite Es. cbn [length]. f_equal. lia.
      * by rewrite settings_skip.
    + exists [], (c :: t). repeat split; [cbn; f_equal; lia|]. cbn [strip]. by rewrite E.
Qed.

Lemma strip_first c t k o : strip t = t -> cut c t = (k, o) -> strip k = k.
Proof.
  destruct t as [|x t]; cbn [strip cut]; [by intros _ [= <- <-]|]. destruct (isspace (i8 x)) eqn:E.
  - intros Hs. exfalso. assert (forall t, (length (strip t) <= length t)%nat) as Hl.
    { clear. induction t as [|x t IH]; cbn; [lia|]. destruct (isspace _); cbn; lia. }
    specialize (Hl t). rewrite Hs in Hl. cbn in Hl. lia.
  - intros _. destruct (x =? c); [by intros [= <- <-]|]. intros [= <- <-]. cbn [strip]. by rewrite E.
Qed.

(** ** Numbers *)
Lemma i64_u64 a b : u64 a = u64 b -> u64 (i64 a) = u64 b.
Proof.
  intros <-. unfold swrap, uwrap. cbn zeta. destruct (Z.ltb_spec (a mod 2 ^ 64) (2 ^ (64 - 1))).
  - apply Z.mod_mod. done.
  - replace (a mod 2 ^ 64 - 2 ^ 64) with (a mod 2 ^ 64 + (-1) * 2 ^ 64) by lia. rewrite Z.mod_add by done. by apply Z.mod_mod.
Qed.

Lemma parse_number_run v r : nz v -> forall res a, u64 res = u64 a ->
  exists k x, parse_number_from res (v ++ 0 :: r) = Some (k, x) /\ k = (if forallb isdigit v then 0 else -1) /\
    (forallb isdigit v = true -> u64 x = u64 (foldl (fun a c => a * 10 + (c - 48)) a v)).
Proof.
  induction 1 as [|c v [Hc Hb] _ IH]; intros res a Ha; cbn [app parse_number_from forallb].
  - by exists 0, res.
  - destruct (i8_byte_digit c Hb) as [Ed Ei]. rewrite Ed. destruct (isdigit c) eqn:E; cbn [andb].
    + rewrite Ei by done. cbn [foldl]. apply IH. apply i64_u64. unfold uwrap in *. 
      rewrite (Z.add_mod (i64 (res * 10))), (Z.add_mod (a * 10)) by done. f_equal. f_equal.
      change (u64 (i64 (res * 10)) = u64 (a * 10)). apply i64_u64. unfold uwrap.
      rewrite (Z.mul_mod res), (Z.mul_mod a), Ha by done. done.
    + exists (-1), res. by rewrite (proj2 (Z.eqb_neq c 0) Hc).
Qed.

(** ** Texts that have been cut out

    The text a word points to ends, with its NUL, inside the prefix [pre]. *)
Definition settled (pre : list Z) (w : word) : Prop :=
  match w with
  | Cmdline q => exists a v c, pre = a ++ v ++ 0 :: c /\ nz v /\ q = Z.of_nat (length a)
  | _ => True
  end.

Lemma settled_app pre x w : settled pre w -> settled (pre ++ x) w.
Proof.
  destruct w as [| |q]; [done|done|]. intros (a & v & c & -> & Hv & Hq). exists a, v, (c ++ x).
  by rewrite <- !app_assoc.
Qed.
Lemma settled_all pre x l : Forall (settled pre) l -> Forall (settled (pre ++ x)) l.
Proof. intros H. eapply Forall_impl; [|exact H]. intros w. apply settled_app. Qed.

Lemma string_at_app a v c : nz v -> string_at (a ++ v ++ 0 :: c) (Z.of_nat (length a)) = v.
Proof.
  intros Hv. unfold string_at. rewrite Nat2Z.id, drop_app_length, (strlen_cstr _ v) by by apply nz_cstr.
  cbn. by rewrite Nat2Z.id, take_app_length.
Qed.

Lemma setting_settled pre x y w : settled pre w -> setting_of (pre ++ x) w = setting_of (pre ++ y) w.
Proof.
  destruct w as [| |q]; [done|done|]. intros (a & v & c & -> & Hv & ->). cbn. rewrite <- !app_assoc. cbn [app]. by rewrite !string_at_app.
Qed.
Lemma view_settled pre x y l : Forall (settled pre) l -> setting_of (pre ++ x) <$> l = setting_of (pre ++ y) <$> l.
Proof.
  induction 1 as [|w l Hw _ IH]; [done|]. cbn. f_equal; [|exact IH]. by apply setting_settled.
Qed.

Lemma at_off_run s pre x : cmdline s = pre ++ x -> at_off (Z.of_nat (length pre)) s = Ret (x, s).
Proof. intros E. unfold at_off, cgets. by rewrite E, Nat2Z.id, drop_app_length. Qed.

Lemma put_nul_run s pre k c x : cmdline s = pre ++ k ++ c :: x ->
  put_nul (Z.of_nat (length pre) + Z.of_nat (length k)) s = Ret (tt, set_cmdline (pre ++ k ++ 0 :: x) s).
Proof.
  intros E. unfold put_nul. rewrite (bind_Ret _ _ s (pre ++ k ++ 0 :: x) s); [done|]. apply load_Some. unfold poke, in_buffer.
  rewrite E, !length_app. cbn [length]. rewrite (proj2 (Z.leb_le 0 _)), (proj2 (Z.leb_le _ _)) by lia. cbn [andb]. f_equal.
  unfold splice. rewrite <- Nat2Z.inj_add, Nat2Z.id, <- length_app, !(app_assoc pre k), take_app_length. cbn [le_put length app].
  change (u8 0) with 0. do 2 f_equal. rewrite <- drop_drop, drop_app_length. done.
Qed.

(** ** One option *)
Lemma find_opt_run s pre k x v pairs : cmdline s = pre ++ k ++ 0 :: x -> nz k -> Forall (fun pr => nz (p_key pr)) pairs ->
  find_opt pairs (Z.of_nat (length pre)) v s =
    match list_find (fun pr => p_key pr = k) pairs ≫= (fun r => Some r.2) with
    | Some pr => kernel_set_opt pr v s
    | None => Ret (tt, s)
    end.
Proof.
  intros E Hk. induction 1 as [|pr pairs Hpr _ IH]; [done|]. cbn [find_opt].
  rewrite (bind_Ret _ _ _ _ _ (at_off_run s pre _ E)).
  destruct (strcmp_from_cstr (p_key pr ++ [0]) (k ++ 0 :: x) (p_key pr) k) as (r & Er & Hr); [by apply nz_cstr..|].
  rewrite (bind_Ret _ _ s r s) by by apply load_Some. cbn [list_find]. destruct (Z.eqb_spec r 0) as [Hz|Hz].
  - by rewrite decide_True by tauto.
  - rewrite decide_False by tauto. rewrite IH. by destruct (list_find _ pairs) as [[? ?]|].
Qed.

Lemma pairs_nz : Forall (fun pr => nz (p_key pr)) kernel_cmdline_pairs.
Proof. repeat constructor; cbn; discriminate. Qed.

(** What an option with a value stores. *)
Definition stored (k : list Z) (v : list Z) (p : Z) (l : list word) : list word :=
  if decide (k = text "root") then <[CFG_ROOT := Cmdline p]> l
  else if decide (k = text "init") then <[CFG_INIT := Cmdline p]> l
  else if decide (k = text "console") then <[CFG_CONSOLE := Cmdline p]> l
  else if decide (k = text "debug") then
    if forallb isdigit v then <[CFG_DEBUG := Num (u64 (decimal_of v))]> l else l
  else l.

Lemma set_opt_value s pre k v x : cmdline s = pre ++ k ++ 0 :: v ++ 0 :: x -> nz k -> nz v ->
  find_opt kernel_cmdline_pairs (Z.of_nat (length pre)) (Some (Z.of_nat (length pre) + Z.of_nat (length k) + 1)) s =
    Ret (tt, set_config (stored k v (Z.of_nat (length pre) + Z.of_nat (length k) + 1) (kernel_config s)) s).
Proof.
  intros E Hk Hv. rewrite (find_opt_run s pre k (v ++ 0 :: x)) by (done || apply pairs_nz). unfold stored, kernel_cmdline_pairs. cbn [list_find p_key].
  assert (s = set_config (kernel_config s) s) as Es by by destruct s.
  destruct (decide (text "root" = k)) as [<-|H1]; [by rewrite decide_True|rewrite (decide_False (P := k = _)) by congruence].
  destruct (decide (text "init" = k)) as [<-|H2]; [by rewrite decide_True|rewrite (decide_False (P := k = _)) by congruence].
  destruct (decide (text "console" = k)) as [<-|H3]; [by rewrite decide_True|rewrite (decide_False (P := k = _)) by congruence].
  destruct (decide (text "debug" = k)) as [<-|H4]; [rewrite decide_True by done|rewrite (decide_False (P := k = _)) by congruence; cbn; by rewrite <- Es].
  cbn [mbind option_bind fmap option_fmap option_map prod_map fst snd]. unfold id, kernel_set_opt. cbn [p_type cfg_index].
  replace (Z.of_nat (length pre) + Z.of_nat (length (text "debug")) + 1) with (Z.of_nat (length (pre ++ text "debug" ++ [0]))) by (rewrite !length_app; cbn; lia).
  rewrite (bind_Ret _ _ _ _ _ (at_off_run s (pre ++ text "debug" ++ [0]) (v ++ 0 :: x) ltac:(rewrite E, <- !app_assoc; done))).
  destruct (parse_number_run v x Hv 0 0 eq_refl) as (r & y & Ey & -> & Hy).
  rewrite (bind_Ret _ _ s ((if forallb isdigit v then 0 else -1), y) s) by by apply load_Some.
  destruct (forallb isdigit v); cbn [fst snd Z.eqb]; [|by rewrite <- Es].
  by rewrite Hy.
Qed.

Lemma fmap_insert_setting b (i : nat) w (l : list word) : setting_of b <$> <[i := w]> l = <[i := setting_of b w]> (setting_of b <$> l).
Proof. apply list_fmap_insert. Qed.

Lemma settled_insert pre (i : nat) w (l : list word) : settled pre w -> Forall (settled pre) l -> Forall (settled pre) (<[i := w]> l).
Proof. intros. by apply Forall_insert. Qed.

Lemma stored_view pre k v x l : nz v -> Forall (settled (pre ++ k ++ 0 :: v ++ [0])) l ->
  let p := Z.of_nat (length pre) + Z.of_nat (length k) + 1 in
  let b := pre ++ k ++ 0 :: v ++ 0 :: x in
  Forall (settled (pre ++ k ++ 0 :: v ++ [0])) (stored k v p l) /\
  setting_of b <$> stored k v p l =
    (if decide (k = text "root") then <[CFG_ROOT := Text v]> (setting_of b <$> l)
     else if decide (k = text "init") then <[CFG_INIT := Text v]> (setting_of b <$> l)
     else if decide (k = text "console") then <[CFG_CONSOLE := Text v]> (setting_of b <$> l)
     else if decide (k = text "debug") then
       if forallb isdigit v then <[CFG_DEBUG := Number (u64 (decimal_of v))]> (setting_of b <$> l) else setting_of b <$> l
     else setting_of b <$> l).
Proof.
  intros Hv Hl p b.
  assert (p = Z.of_nat (length (pre ++ k ++ [0]))) as Ep by (unfold p; rewrite !length_app; cbn; lia).
  assert (settled (pre ++ k ++ 0 :: v ++ [0]) (Cmdline p)) as Hp.
  { exists (pre ++ k ++ [0]), v, []. split; [by rewrite <- !app_assoc|done]. }
  assert (setting_of b (Cmdline p) = Text v) as Eb.
  { cbn. f_equal. unfold b. rewrite Ep. replace (pre ++ k ++ 0 :: v ++ 0 :: x) with ((pre ++ k ++ [0]) ++ v ++ 0 :: x) by by rewrite <- !app_assoc.
    by apply string_at_app. }
  unfold stored. repeat case_decide; try destruct (forallb isdigit v);
    (split; [|rewrite ?fmap_insert_setting, ?Eb; reflexivity]); try exact Hl; apply settled_insert; done.
Qed.

Lemma key_without_value s pre k x : cmdline s = pre ++ k ++ 0 :: x -> nz k ->
  find_opt kernel_cmdline_pairs (Z.of_nat (length pre)) None s = Ret (tt, s).
Proof.
  intros E Hk. rewrite (find_opt_run s pre k x) by (done || apply pairs_nz). unfold kernel_cmdline_pairs. cbn [list_find p_key].
  by repeat case_decide.
Qed.

Lemma opt_run s pre w x : cmdline s = pre ++ w ++ 0 :: x -> nz w -> Forall (settled pre) (kernel_config s) ->
  exists s' w', kernel_cmdline_opt (Z.of_nat (length pre)) s = Ret (tt, s') /\
    cmdline s' = pre ++ w' ++ 0 :: x /\ length w' = length w /\
    Forall (settled (pre ++ w' ++ [0])) (kernel_config s') /\ view s' = set_option (view s) w /\
    g_kernel_cmdline s' = g_kernel_cmdline s.
Proof.
  intros E Hw Hs. unfold kernel_cmdline_opt. rewrite (bind_Ret _ _ _ _ _ (at_off_run s pre _ E)).
  rewrite (bind_Ret _ _ s _ s (load_Some _ s _ (strchr_cut 61 w x Hw ltac:(lia)))). unfold set_option.
  destruct (cut 61 w) as [k [v|]] eqn:Ec; cbn [fst snd].
  - apply cut_Some in Ec. subst w. apply nz_app in Hw as [Hk [_ Hv]%Forall_cons_1].
    rewrite <- app_assoc in E. cbn [app] in E. rewrite (bind_Ret _ _ _ _ _ (put_nul_run s pre k 61 (v ++ 0 :: x) E)).
    set (s1 := set_cmdline _ s). rewrite (set_opt_value s1 pre k v x) by done.
    destruct (stored_view pre k v x (kernel_config s) Hv) as [Hst Hview]; [by apply settled_all|].
    eexists _, (k ++ 0 :: v). split; [done|]. cbn [cmdline set_config set_cmdline s1 kernel_config g_kernel_cmdline].
    split; [by rewrite <- app_assoc|]. split; [by rewrite !length_app|]. split; [by rewrite <- app_assoc|]. split; [|done].
    unfold view at 1. cbn [cmdline set_config set_cmdline s1 kernel_config]. rewrite Hview.
    replace (setting_of (pre ++ k ++ 0 :: v ++ 0 :: x) <$> kernel_config s) with (view s); [done|].
    unfold view. rewrite E. by apply view_settled.
  - rewrite (key_without_value s pre w x) by done. exists s, w. repeat split; [done|]. by apply settled_all.
Qed.

(** ** The line *)
Lemma loop_run fuel : forall s pre t x, cmdline s = pre ++ t ++ 0 :: x -> nz t -> Forall (settled pre) (kernel_config s) ->
  (length t < fuel)%nat ->
  exists s', cmdline_loop fuel (Z.of_nat (length pre)) s = Ret (tt, s') /\ view s' = settings (view s) t /\
    g_kernel_cmdline s' = g_kernel_cmdline s.
Proof.
  induction fuel as [|fuel IH]; intros s pre t x E Ht Hs Hf; [lia|]. cbn [cmdline_loop].
  rewrite (bind_Ret _ _ _ _ _ (at_off_run s pre _ E)).
  destruct (skip_space_run t x Ht (Z.of_nat (length pre))) as (sp & t' & -> & Esk & Hset & Hst).
  rewrite (bind_Ret _ _ s _ s (load_Some _ s _ Esk)), Hset. apply nz_app in Ht as [_ Ht]. rewrite <- Nat2Z.inj_add, <- length_app.
  rewrite length_app in Hf. rewrite <- app_assoc, app_assoc in E. apply (settled_all _ sp) in Hs. set (pre1 := pre ++ sp) in *.
  rewrite (bind_Ret _ _ _ _ _ (at_off_run s pre1 _ E)).
  rewrite (bind_Ret _ _ s _ s (load_Some _ s _ (strchr_cut 32 t' x Ht ltac:(lia)))).
  unfold settings. rewrite split_cut. destruct (cut 32 t') as [w [u|]] eqn:Ec; cbn [fst snd fmap list_fmap foldl].
  - rewrite (strip_first 32 t' w _ Hst Ec). apply cut_Some in Ec. subst t'. apply nz_app in Ht as [Hw [_ Hu]%Forall_cons_1].
    rewrite <- app_assoc in E. cbn [app] in E. rewrite (bind_Ret _ _ _ _ _ (put_nul_run s pre1 w 32 (u ++ 0 :: x) E)).
    destruct (opt_run (set_cmdline (pre1 ++ w ++ 0 :: u ++ 0 :: x) s) pre1 w (u ++ 0 :: x)) as (s2 & w' & Er & E2 & Hl & Hs2 & Hv2 & Hg); [done..|].
    rewrite (bind_Ret _ _ _ _ _ Er).
    replace (Z.of_nat (length pre1) + Z.of_nat (length w) + 1) with (Z.of_nat (length (pre1 ++ w' ++ [0]))) by (rewrite !length_app, Hl; cbn; lia).
    destruct (IH s2 (pre1 ++ w' ++ [0]) u x) as (s3 & E3 & Hv3 & Hg3); [by rewrite E2, <- !app_assoc|done|done|rewrite length_app in Hf; cbn in Hf; lia|].
    exists s3. split; [done|]. split; [|by rewrite Hg3, Hg]. rewrite Hv3. unfold settings. rewrite Hv2. do 2 f_equal.
    unfold view. cbn. rewrite E. by apply view_settled.
  - rewrite (strip_first 32 t' w _ Hst Ec). apply cut_None in Ec. subst w.
    destruct (opt_run s pre1 t' x) as (s2 & w' & Er & _ & _ & _ & Hv2 & Hg); [done..|]. exists s2. by rewrite Hv2.
Qed.

(** ** Claims *)

(** C33: a command line of less than [KERNEL_CMDLINE_MAX] bytes is always parsed to
    the end, and the configuration it leaves, with the pointers into the line followed,
    is what the line means: the words between the blanks in their order, each split at
    its first '=', texts taken as they are, numbers modulo 2^64 and only if every
    character is a digit, later options replacing earlier ones.  The copy kept of the
    line is the line as it was passed. *)
Theorem cmdline_settings s t x : cmdline s = t ++ 0 :: x -> nz t -> (length t < length (g_kernel_cmdline s))%nat ->
  Forall (settled []) (kernel_config s) ->
  exists s', kernel_set_cmdline s = Ret (tt, s') /\ view s' = settings (view s) t /\
    g_kernel_cmdline s' = t ++ 0 :: drop (S (length t)) (g_kernel_cmdline s).
Proof.
  intros E Ht Hl Hs. unfold kernel_set_cmdline. rewrite (bind_Ret _ _ _ _ _ (at_off_run s [] _ E)).
  rewrite (bind_Ret _ _ s (t ++ 0 :: drop (S (length t)) (g_kernel_cmdline s)) s) by (apply load_Some, strcpy_cstr; [by apply nz_cstr|done]).
  set (s1 := set_copy (t ++ 0 :: drop (S (length t)) (g_kernel_cmdline s)) s). rewrite (bind_Ret _ _ s tt s1), (bind_Ret _ _ s1 (length (cmdline s1)) s1) by done.
  destruct (loop_run (length (cmdline s1)) s1 [] t x) as (s' & Er & Hv & Hg); [done|done|done| |].
  { cbn. rewrite E, length_app. cbn. lia. }
  exists s'. rewrite Hv, Hg. split; [exact Er|done].
Qed.

Lemma cmdline_settings_witness : exists s', kernel_set_cmdline (boot_config (text "root=sda1 debug=7") []) = Ret (tt, s') /\
  view s' = [Number 0; Text (text "sda1"); Text (text "/init"); Number 0; Text (text "tty0"); Number 7] /\
  string_at (g_kernel_cmdline s') 0 = text "root=sda1 debug=7".
Proof.
  destruct (cmdline_settings (boot_config (text "root=sda1 debug=7") []) (text "root=sda1 debug=7") []) as (s' & E & V & G).
  - reflexivity.
  - unfold nz. apply (bool_decide_unpack _). vm_compute. exact I.
  - vm_compute. lia.
  - repeat constructor.
  - exists s'. split; [exact E|]. split; [rewrite V; vm_compute; reflexivity|rewrite G; vm_compute; reflexivity].
Defined.

(** The copy of the line has a fixed size that is not checked: a longer line is written
    past the array. *)
Theorem cmdline_long_faults s t x : cmdline s = t ++ 0 :: x -> nz t -> (length (g_kernel_cmdline s) <= length t)%nat ->
  kernel_set_cmdline s = Fault.
Proof.
  intros E Ht Hl. unfold kernel_set_cmdline. rewrite (bind_Ret _ _ _ _ _ (at_off_run s [] _ E)).
  cbv [mbind cmd_mbind cbind cload]. enough (strcpy (g_kernel_cmdline s) (t ++ 0 :: x) = None) as -> by done.
  revert Hl. generalize (g_kernel_cmdline s). clear E. induction Ht as [|c t [Hc _] _ IH]; intros [|y l] Hl; cbn in Hl; try lia; [done|done|].
  cbn [app strcpy]. rewrite (proj2 (Z.eqb_neq c 0) Hc), IH by lia. done.
Qed.
