(* ===== verification/Dev.v ===== *)
(** * Devices and partitions: [sys/dev.c], [sys/block/part_gpt.c], [sys/block/blk.c]

    The directory of devices is a tree of vnodes (file [Vnode]); block devices are
    objects named by their addresses: disks of drivers, whose contents are behind the
    class [DiskIO], and partitions, which forward to the device they lie on.  A field
    that [blk_add_part] leaves as the heap had it is [None].  The buffers on the stack
    hold what the parameter [stack] says before they are filled. *)

From S2P Require Import Prelude Defs Bytes Strings Vnode Vfs Interfaces Cache Blk Ext2Blk.

(** ** Data *)
Inductive dev_class := DEV_CLASS_BLOCK | DEV_CLASS_CHAR | DEV_CLASS_ANY.
#[export] Instance dev_class_eq_dec : EqDecision dev_class.
Proof. solve_decision. Defined.
Definition dev_class_code (c : dev_class) : Z :=
  match c with DEV_CLASS_BLOCK => 1 | DEV_CLASS_CHAR => 2 | DEV_CLASS_ANY => 255 end.
Definition DEV_BLOCK_SDx : Z := 1.
Definition DEV_BLOCK_HDx : Z := 2.
Definition DEV_BLOCK_RAM : Z := 3.
Definition DEV_BLOCK_CDx : Z := 4.
Definition DEV_BLOCK_PART : Z := 127.

(** What partitions and their table use of a disk: reads inside one page of a device of
    [n] pages with the contents [f]. *)
Class DiskIO (D : Type) := {
  disk_read : Z -> Z -> cmd D (Z * list Z);
  disk_rep : D -> Z -> (Z -> list Z) -> Prop;
  disk_read_ok : forall d n f off k, disk_rep d n f -> 0 <= off -> 0 < k -> off mod MM_PAGE_SIZE + k <= MM_PAGE_SIZE ->
    off / MM_PAGE_SIZE < n ->
    exists d', disk_read off k d = Ret ((k, slice (off mod MM_PAGE_SIZE) k (f (off / MM_PAGE_SIZE))), d') /\ disk_rep d' n f;
  disk_page_length : forall d n f a, disk_rep d n f -> 0 <= a < n -> length (f a) = Z.to_nat MM_PAGE_SIZE;
}.

(** The address of a new block device; [kmalloc] gives memory nobody uses, or NULL. *)
Class Kmalloc := { kmalloc : gset Z -> Z }.

(** [read] and [write] of a device: a driver's, or [blk_part_read] and [blk_part_write]. *)
Inductive blk_ops := Driver | Partition (part : blk_part) (device : Z).
Record blkdev := mk_blkdev { b_block_size : option Z; b_ioctl : option Z; b_ops : blk_ops }.

Record devs (D : Type) := mk_devs {
  d_vfs : vfs;
  devfs_root : Z;
  sdx_last : Z;
  cdx_last : Z;
  blkdevs : gmap Z blkdev;
  disks : gmap Z D;
}.
Arguments mk_devs {D}.
Arguments d_vfs {D}.
Arguments devfs_root {D}.
Arguments sdx_last {D}.
Arguments cdx_last {D}.
Arguments blkdevs {D}.
Arguments disks {D}.

(** One byte as the end of a name; a NUL ends it before. *)
Definition byte_char (x : Z) : string :=
  if u8 x =? 0 then EmptyString else String (Ascii.ascii_of_N (Z.to_N (u8 x))) EmptyString.

(** A buffer of which the first bytes have been overwritten. *)
Definition filled (got buf : list Z) : list Z := got ++ drop (length got) buf.

(** Offsets of [struct gpt_header], which lies in the second sector, and of
    [struct gpt_part_entry]. *)
Definition PARTITION_ENTRY_LBA : Z := 72.
Definition PARTITION_COUNT : Z := 80.
Definition PARTITION_ENTRY_SIZE : Z := 84.
Definition ENT_START_LBA : Z := 32.
Definition ENT_END_LBA : Z := 40.
Definition GUID_EMPTY : list Z := replicate 16 0.
(** "EFI PART" *)
Definition GPT_SIGNATURE : list Z := [69; 70; 73; 32; 80; 65; 82; 84; 0].

Section dev.
Context {D : Type} `{DiskIO D, Slab, Kmalloc} (stack : list Z) (devfs_node_ops system_boot_time : Z).
Abbreviation M := (cmd (devs D)).

Definition set_vfs v (s : devs D) := mk_devs v (devfs_root s) (sdx_last s) (cdx_last s) (blkdevs s) (disks s).
Definition set_devfs_root r (s : devs D) := mk_devs (d_vfs s) r (sdx_last s) (cdx_last s) (blkdevs s) (disks s).
Definition set_sdx c (s : devs D) := mk_devs (d_vfs s) (devfs_root s) c (cdx_last s) (blkdevs s) (disks s).
Definition set_cdx c (s : devs D) := mk_devs (d_vfs s) (devfs_root s) (sdx_last s) c (blkdevs s) (disks s).
Definition set_blkdevs m (s : devs D) := mk_devs (d_vfs s) (devfs_root s) (sdx_last s) (cdx_last s) m (disks s).
Definition set_disks (m : gmap Z D) (s : devs D) := mk_devs (d_vfs s) (devfs_root s) (sdx_last s) (cdx_last s) (blkdevs s) m.
Definition on_vfs {A} (c : cmd vfs A) : M A := czoom d_vfs set_vfs c.
Definition blk (p : Z) : M blkdev := cload (fun s => blkdevs s !! p).

(** The read of a driver, on the state of its own disk. *)
Definition driver_read (p off count : Z) : M (Z * list Z) :=
  d ← cload (fun s => disks s !! p);
  match disk_read off count d with
  | Ret (r, d') => cmodify (fun s => set_disks (<[p := d']> (disks s)) s);; mret r
  | Panic => cpanic
  | Fault => cfault
  | Diverged => cdiverged
  end.

(** [blk_read]: a partition calls it again for the device it lies on. *)
Fixpoint dev_read (depth : nat) (p off count : Z) : M (Z * list Z) :=
  match depth with
  | O => cdiverged
  | S depth =>
      b ← blk p;
      match b_ops b with
      | Driver => driver_read p off count
      | Partition part device => blk_part_read (dev_read depth device) part off count
      end
  end.
(** Partitions lie on disks of drivers. *)
Definition read_depth : nat := 2.

(** ** [sys/dev.c] *)
Definition dev_create_name (cls : dev_class) (subcls : Z) : M (option string) :=
  s ← cget;
  match cls with
  | DEV_CLASS_BLOCK =>
      if subcls =? DEV_BLOCK_SDx then cmodify (set_sdx (i8 (sdx_last s + 1)));; mret (Some ("sd" +:+ byte_char (sdx_last s)))
      else if subcls =? DEV_BLOCK_CDx then cmodify (set_cdx (i8 (cdx_last s + 1)));; mret (Some ("cd" +:+ byte_char (cdx_last s)))
      else mret None
  | _ => mret None
  end.

(** The fields the functions below set in a new vnode; the modes are 0555, 0777, 0600. *)
Definition dev_fields (flags target dev ino mode : Z) (v : vnode) : vnode :=
  mk_vnode (v_type v) (v_name v) (Z.lor (v_flags v) flags) (first_child v) (next_child v) (v_parent v) target (open_count v)
    ino 0 0 mode (v_fs v) (v_fs_data v) dev devfs_node_ops.

Definition devfs_ensure_root : M unit :=
  r ← cgets devfs_root;
  if nonnull r then mret tt
  else
    n ← on_vfs (vnode_create VN_DIR None);
    cmodify (set_devfs_root n);;
    on_vfs (vn_update n (dev_fields VN_MEMORY 0 0 0 365)).

Definition devfs_init : M Z := mret 0.
Definition devfs_get_root : M Z := cgets devfs_root.

Definition attach_to_root (node : Z) : M unit := r ← cgets devfs_root; on_vfs (vnode_attach r node).

Definition dev_add_live_link (name : string) (getter : Z) : M Z :=
  node ← on_vfs (vnode_create VN_LNK (Some name));
  devfs_ensure_root;;
  on_vfs (vn_update node (dev_fields (Z.lor VN_MEMORY VN_PER_PROCESS) getter 0 0 511));;
  attach_to_root node;;
  mret 0.

Definition dev_add_link (name : string) (to : Z) : M Z :=
  node ← on_vfs (vnode_create VN_LNK (Some name));
  devfs_ensure_root;;
  on_vfs (vn_update node (dev_fields VN_MEMORY to 0 0 511));;
  attach_to_root node;;
  mret 0.

(** ** Partitions; [add] is [dev_add]. *)
Section partitions.
Context (add : dev_class -> Z -> Z -> option string -> M Z).

Definition blk_add_part (of_ n lba size : Z) : M Z :=
  s ← cget;
  let q := kmalloc (dom (blkdevs s)) in
  cassert (nonnull q);;
  v ← on_vfs (vn of_);
  cmodify (fun s => set_blkdevs (<[q := mk_blkdev None None (Partition (mk_part lba size) (v_dev v))]> (blkdevs s)) s);;
  cassert (String.length (v_name v) <? 14)%nat;;
  add DEV_CLASS_BLOCK DEV_BLOCK_PART q (Some (v_name v +:+ byte_char (49 + n)));;
  mret 0.

(** The loop over the entries of the table, of which [n] are left. *)
Fixpoint gpt_loop (n : nat) (of_ i offset entry_size : Z) (buf : list Z) : M unit :=
  match n with
  | O => mret tt
  | S n =>
      c ← cload (fun _ => memcmp (drop (Z.to_nat offset) buf) GUID_EMPTY 16);
      (if c =? 0 then mret 0
       else
         start_lba ← cload (fun _ => peek 8 (offset + ENT_START_LBA) buf);
         end_lba ← cload (fun _ => peek 8 (offset + ENT_END_LBA) buf);
         blk_add_part of_ i start_lba (u64 (end_lba - start_lba)));;
      let offset := u64 (offset + entry_size) in
      if 512 <=? offset then mret tt else gpt_loop n of_ (i + 1) offset entry_size buf
  end.

Definition blk_enumerate_gpt (dev of_ : Z) (head : list Z) : M Z :=
  b ← blk dev;
  bs ← cload (fun _ => b_block_size b);
  cassert (bs =? 512);;
  lba ← cload (fun _ => peek 8 (512 + PARTITION_ENTRY_LBA) head);
  r ← dev_read read_depth dev (u64 (lba * 512)) 512;
  cassert (0 <=? r.1);;
  count ← cload (fun _ => peek 4 (512 + PARTITION_COUNT) head);
  entry_size ← cload (fun _ => peek 4 (512 + PARTITION_ENTRY_SIZE) head);
  gpt_loop (Z.to_nat count) of_ 0 0 entry_size (filled r.2 (take 512 stack));;
  mret 0.

Definition blk_enumerate_partitions (dev node : Z) : M Z :=
  b ← blk dev;
  bs ← cload (fun _ => b_block_size b);
  if bs =? 512 then
    r ← dev_read read_depth dev 0 1024;
    if r.1 <? 0 then mret r.1
    else
      let buf := filled r.2 (take 1024 stack) in
      c ← cload (fun _ => strncmp (drop 512 buf) GPT_SIGNATURE 8);
      if c =? 0 then blk_enumerate_gpt dev node buf else mret 0
  else mret 0.
End partitions.

(** The node of a device in the directory. *)
Definition dev_add_node (cls : dev_class) (subcls dev : Z) (name : string) : M Z :=
  node ← on_vfs (vnode_create (if decide (cls = DEV_CLASS_BLOCK) then VN_BLK else VN_CHR) (Some name));
  on_vfs (vn_update node (dev_fields VN_MEMORY 0 dev (Z.lor (dev_class_code cls) (u64 (Z.shiftl subcls 32))) 384));;
  devfs_ensure_root;;
  attach_to_root node;;
  mret node.

(** A device has partitions, a partition has none: two levels of calls. *)
Fixpoint dev_add (depth : nat) (cls : dev_class) (subcls dev : Z) (name : option string) : M Z :=
  match depth with
  | O => cdiverged
  | S depth =>
      name ← (match name with Some n => mret (Some n) | None => dev_create_name cls subcls end);
      match name with
      | None => mret (-1)
      | Some n =>
          node ← dev_add_node cls subcls dev n;
          (if bool_decide (cls = DEV_CLASS_BLOCK) && (subcls <? DEV_BLOCK_PART)
           then blk_enumerate_partitions (dev_add depth) dev node else mret 0);;
          mret 0
      end
  end.
Definition add_depth : nat := 2.

Definition dev_find (cls : dev_class) (name : string) : M found :=
  root ← cgets devfs_root;
  if negb (nonnull root) then mret (Err (- ENODEV))
  else
    r ← on_vfs (vnode_lookup_child root name);
    match r with
    | Err e => mret (Err e)
    | Found e =>
        v ← on_vfs (vn e);
        e ← (if is_type VN_LNK v then cassert (nonnull (v_target v));; mret (v_target v) else mret e);
        v ← on_vfs (vn e);
        if bool_decide (cls = DEV_CLASS_BLOCK) && negb (is_type VN_BLK v) then mret (Err (- ENODEV))
        else if bool_decide (cls = DEV_CLASS_CHAR) && negb (is_type VN_CHR v) then mret (Err (- ENODEV))
        else mret (Found e)
    end.

(** [st_nlink] stays what the caller's structure held. *)
Definition devfs_vnode_stat (node : Z) (st : stat) : M (Z * stat) :=
  v ← on_vfs (vn node);
  mret (0, mk_stat 0 0 (Z.lor (Z.land (v_mode v) VFS_MODE_MASK) (vfs_vnode_to_mode (v_type v))) (st_nlink st) (v_uid v) (v_gid v) 0 0 0 0
    system_boot_time system_boot_time system_boot_time).
End dev.

(** ** A disk without a cache *)
Definition plain_read (off n : Z) : cmd (list (list Z)) (Z * list Z) :=
  fun d => match d !! Z.to_nat (off / MM_PAGE_SIZE) with
           | Some pg => Ret ((n, slice (off mod MM_PAGE_SIZE) n pg), d)
           | None => Ret ((-1, []), d)
           end.
Definition plain_rep (d : list (list Z)) (n : Z) (f : Z -> list Z) : Prop :=
  n = Z.of_nat (length d) /\ forall a, 0 <= a < n -> d !! Z.to_nat a = Some (f a) /\ length (f a) = Z.to_nat MM_PAGE_SIZE.

Lemma plain_read_ok d n f off k : plain_rep d n f -> 0 <= off -> 0 < k -> off mod MM_PAGE_SIZE + k <= MM_PAGE_SIZE ->
  off / MM_PAGE_SIZE < n ->
  exists d', plain_read off k d = Ret ((k, slice (off mod MM_PAGE_SIZE) k (f (off / MM_PAGE_SIZE))), d') /\ plain_rep d' n f.
Proof.
  intros [Hn Hf] Ho Hk Hp Ha. exists d. unfold plain_read.
  destruct (Hf (off / MM_PAGE_SIZE)) as [-> _]; [split; [by apply Z.div_pos|done]|]. done.
Qed.

#[export] Instance plain_disk : DiskIO (list (list Z)) := {
  disk_read := plain_read; disk_rep := plain_rep; disk_read_ok := plain_read_ok;
  disk_page_length := fun d n f a H Ha => proj2 (proj2 H a Ha);
}.

(** ** Names in the directory of devices *)
Section directory.
Implicit Types (m : gmap Z vnode) (kids : Z -> list Z).

(** What a new node does not change of the others. *)
Definition same_core m m' : Prop := forall c v, m !! c = Some v ->
  exists v', m' !! c = Some v' /\ v_name v' = v_name v /\ v_type v' = v_type v /\ v_dev v' = v_dev v.

#[global] Instance same_core_preorder : PreOrder same_core.
Proof.
  split; [intros m c v Hv; by exists v|]. intros m1 m2 m3 H1 H2 c v Hv.
  destruct (H1 c v Hv) as (v1 & E1 & ? & ? & ?). destruct (H2 c v1 E1) as (v2 & E2 & ? & ? & ?). exists v2. split; [done|]. split; [congruence|]. split; congruence.
Qed.

(** The type and the device of the first node of that name. *)
Fixpoint look m (l : list Z) (name : string) : option (vnode_type * Z) :=
  match l with
  | [] => None
  | x :: l => match m !! x with
              | Some v => if decide (v_name v = name) then Some (v_type v, v_dev v) else look m l name
              | None => look m l name
              end
  end.

Lemma look_core m m' l name : same_core m m' -> Forall (fun x => is_Some (m !! x)) l -> look m' l name = look m l name.
Proof.
  intros Hc. induction 1 as [|x l [v Hv] _ IH]; [done|]. cbn [look]. destruct (Hc x v Hv) as (v' & Hv' & En & Et & Ed).
  rewrite Hv, Hv', En, Et, Ed, IH. done.
Qed.

Lemma look_found m l name t d : look m l name = Some (t, d) ->
  exists x v, find_kid m l name = Some x /\ m !! x = Some v /\ v_type v = t /\ v_dev v = d.
Proof.
  induction l as [|x l IH]; cbn [look find_kid]; [done|]. destruct (m !! x) as [v|] eqn:E; cbn [fmap option_fmap option_map].
  - case_decide as H1.
    + intros [= <- <-]. rewrite decide_True by congruence. by exists x, v.
    + rewrite decide_False by congruence. done.
  - by rewrite decide_False.
Qed.

Lemma look_none m l name : Forall (fun x => is_Some (m !! x)) l -> look m l name = None -> find_kid m l name = None.
Proof.
  induction 1 as [|x l [v Hv] _ IH]; [done|]. cbn [look find_kid]. rewrite Hv. cbn. case_decide as H1; [done|].
  rewrite decide_False by congruence. done.
Qed.

Lemma core_insert_new m p v : m !! p = None -> same_core m (<[p := v]> m).
Proof. intros Hp c w Hw. exists w. by rewrite lookup_insert_ne by congruence. Qed.

Lemma core_attached m parent child pv cv : m !! parent = Some pv -> m !! child = Some cv -> same_core m (attached parent child pv cv m).
Proof.
  intros Hp Hc c w Hw. unfold attached. destruct (decide (c = parent)) as [->|].
  { rewrite lookup_insert_eq. eexists. split; [done|]. by assert (w = pv) as -> by congruence. }
  rewrite lookup_insert_ne by done. destruct (decide (c = child)) as [->|].
  { rewrite lookup_insert_eq. eexists. split; [done|]. by assert (w = cv) as -> by congruence. }
  rewrite lookup_insert_ne by done. by exists w.
Qed.
End directory.

Section dev_proofs.
Context {D : Type} `{HD : DiskIO D, HS : Slab, HK : Kmalloc} (stack : list Z) (ops : Z).
Context (slab_room : forall X, slab_calloc X ∉ X /\ slab_calloc X <> 0).
Context (heap_room : forall X, kmalloc X ∉ X /\ kmalloc X <> 0).
Implicit Types (s : devs D) (kids : Z -> list Z).

Abbreviation vs s := (vnodes (d_vfs s)).
Definition dev_ok s kids : Prop :=
  tree_ok (vs s) kids /\ (devfs_root s = 0 \/ is_Some (vs s !! devfs_root s)).
Definition dir s kids (name : string) : option (vnode_type * Z) := look (vs s) (kids (devfs_root s)) name.

Lemma node_create_run s t name : (forall n, name = Some n -> (String.length n < NODE_MAXLEN)%nat) ->
  exists p, vs s !! p = None /\ p <> 0 /\
    on_vfs (vnode_create t name) s =
      Ret (p, set_vfs (set_vnodes (<[p := mk_vnode t (default "" name) 0 0 0 0 0 0 0 0 0 0 0 0 0 0]> (vs s)) (d_vfs s)) s).
Proof using slab_room.
  intros Hn. set (p := slab_calloc (dom (vs s))). destruct (slab_room (dom (vs s))) as [Hf H0]. fold p in Hf, H0.
  exists p. split; [by apply not_elem_of_dom|]. split; [done|]. unfold on_vfs. erewrite zoom_Ret; [done|].
  unfold vnode_create. rewrite (bind_Ret _ _ (d_vfs s) (d_vfs s) (d_vfs s)) by done. fold p.
  rewrite (bind_Ret _ _ (d_vfs s) tt (d_vfs s)) by by rewrite nonnull_true.
  rewrite (bind_Ret _ _ (d_vfs s) tt (d_vfs s)); [done|]. apply assert_run. destruct name as [n|]; [|done]. apply Nat.ltb_lt. by apply Hn.
Qed.

(** The directory exists afterwards, with the nodes it had. *)
Lemma ensure_root_run s kids : dev_ok s kids ->
  exists s', devfs_ensure_root ops s = Ret (tt, s') /\ dev_ok s' kids /\ devfs_root s' <> 0 /\ is_Some (vs s' !! devfs_root s') /\
    same_core (vs s) (vs s') /\ (forall c v, vs s !! c = Some v -> vs s' !! c = Some v) /\ (forall name, dir s' kids name = dir s kids name) /\
    blkdevs s' = blkdevs s /\ disks s' = disks s /\ (devfs_root s' = devfs_root s \/ vs s !! devfs_root s' = None).
Proof using slab_room.
  intros [Ht Hr]. unfold devfs_ensure_root. rewrite (bind_Ret _ _ s (devfs_root s) s) by done.
  destruct (decide (devfs_root s = 0)) as [E|E].
  - rewrite E. cbn [nonnull]. destruct (node_create_run s VN_DIR None ltac:(done)) as (p & Hp & H0 & Ec).
    change (nonnull 0) with false. cbn iota. rewrite (bind_Ret _ _ _ _ _ Ec).
    rewrite (bind_Ret _ _ _ tt _ eq_refl). unfold on_vfs. erewrite zoom_Ret; [|apply vn_update_run; cbn; apply lookup_insert_eq].
    eexists. split; [done|]. cbn. rewrite insert_insert_eq. unfold dev_ok, dir. cbn.
    assert (kids 0 = []) as E0 by (apply (kids_none _ _ _ Ht), (t_null _ _ Ht)).
    assert (kids p = []) as Ep by by apply (kids_none _ _ _ Ht).
    split; [split; [by apply node_create_ok|right; by rewrite lookup_insert_eq]|]. split; [done|]. split; [by rewrite lookup_insert_eq|].
    split; [by apply core_insert_new|]. split; [intros c v Hc; rewrite lookup_insert_ne by congruence; done|].
    split; [by rewrite E, E0, Ep|]. split; [done|]. split; [done|]. by right.
  - rewrite nonnull_true by done. exists s. destruct Hr as [?|Hr]; [done|].
    split; [done|]. split; [split; [done|by right]|]. split; [done|]. split; [done|]. split; [done|]. repeat split; [done|]. by left.
Qed.

(** What adding a node of a device does: the name is found first from now on, all the
    other names as before. *)
Record added s kids (t : vnode_type) (name : string) (dev node : Z) s' kids' : Prop := {
  ad_ok : dev_ok s' kids';
  ad_root : devfs_root s' <> 0;
  ad_dir : forall n, dir s' kids' n = if decide (n = name) then Some (t, dev) else dir s kids n;
  ad_core : same_core (vs s) (vs s');
  ad_node : exists v, vs s' !! node = Some v /\ v_name v = name /\ v_dev v = dev;
  ad_blk : blkdevs s' = blkdevs s;
  ad_disks : disks s' = disks s;
}.

Lemma attach_root_run s kids node cv : dev_ok s kids -> devfs_root s <> 0 -> is_Some (vs s !! devfs_root s) ->
  vs s !! node = Some cv -> v_parent cv = 0 -> node <> devfs_root s ->
  exists pv, attach_to_root node s = Ret (tt, set_vfs (set_vnodes (attached (devfs_root s) node pv cv (vs s)) (d_vfs s)) s) /\
    vs s !! devfs_root s = Some pv.
Proof using Type.
  intros [Ht _] H0 [pv Hpv] Hc Hpar Hne. exists pv. split; [|done].
  assert (node <> 0) as Hn0 by (intros ->; rewrite (t_null _ _ Ht) in Hc; done).
  unfold attach_to_root. rewrite (bind_Ret _ _ s (devfs_root s) s) by done. unfold on_vfs. erewrite zoom_Ret; [done|]. by apply attach_run.
Qed.

Lemma add_node_run s kids cls subcls dev name : dev_ok s kids -> (String.length name < NODE_MAXLEN)%nat ->
  exists s' kids' node, dev_add_node ops cls subcls dev name s = Ret (node, s') /\
    added s kids (if decide (cls = DEV_CLASS_BLOCK) then VN_BLK else VN_CHR) name dev node s' kids'.
Proof using slab_room.
  intros Hok Hn. unfold dev_add_node. set (t := if decide _ then VN_BLK else VN_CHR).
  destruct (node_create_run s t (Some name)) as (p & Hp & H0 & Ec); [by intros n [= <-]|]. rewrite (bind_Ret _ _ _ _ _ Ec). cbn [default].
  set (ino := Z.lor _ _). set (cv := dev_fields ops VN_MEMORY 0 dev ino 384 (mk_vnode t name 0 0 0 0 0 0 0 0 0 0 0 0 0 0)).
  set (s1 := set_vfs (set_vnodes (<[p := cv]> (vs s)) (d_vfs s)) s).
  rewrite (bind_Ret _ _ _ tt s1).
  2:{ unfold on_vfs. erewrite zoom_Ret; [|apply vn_update_run; cbn; apply lookup_insert_eq]. cbn. by rewrite insert_insert_eq. }
  destruct Hok as [Ht Hr].
  assert (dev_ok s1 kids) as Hok1.
  { split; [by apply node_create_ok|]. destruct Hr as [?|[w Hw]]; [by left|right]. cbn. rewrite lookup_insert_ne by congruence. by exists w. }
  assert (vs s1 !! p = Some cv) as Hp1 by apply lookup_insert_eq.
  assert (same_core (vs s) (vs s1)) as Hc1 by by apply core_insert_new.
  destruct (ensure_root_run s1 kids Hok1) as (s2 & E2 & Hok2 & Hr2 & Hs2 & Hc2 & Hk2 & Hd2 & Hb2 & Hdk2 & Hrt). rewrite (bind_Ret _ _ _ _ _ E2).
  assert (p <> devfs_root s2) as Hpr.
  { destruct Hrt as [Ert|Hrt]; [|congruence]. rewrite Ert. change (devfs_root s1) with (devfs_root s). destruct Hr as [->|[w Hw]]; [done|congruence]. }
  destruct (attach_root_run s2 kids p cv) as (pv & Ea & Hpv); [done|done|done|by apply Hk2|done|done|].
  rewrite (bind_Ret _ _ _ _ _ Ea). set (s3 := set_vfs _ s2). exists s3, (kids_set (devfs_root s2) (p :: kids (devfs_root s2)) kids), p.
  split; [done|]. assert (vs s3 !! p = Some (with_sibling (first_child pv) (with_parent (devfs_root s2) cv))) as Hp3.
  { cbn. unfold attached. by rewrite lookup_insert_ne, lookup_insert_eq by done. }
  assert (same_core (vs s2) (vs s3)) as Hc3 by (apply core_attached; [done|by apply Hk2]).
  split.
  - split; [apply attach_ok; [apply Hok2|done|done|by apply Hk2|done]|]. right. cbn. unfold attached. by rewrite lookup_insert_eq.
  - done.
  - intros n. unfold dir at 1. change (devfs_root s3) with (devfs_root s2). rewrite kids_set_eq. cbn [look]. rewrite Hp3. cbn [v_name with_sibling with_parent cv dev_fields v_type v_dev].
    destruct (decide (n = name)) as [->|]; [by rewrite decide_True|]. rewrite decide_False by congruence.
    rewrite (look_core _ _ _ n Hc3) by apply (kids_dom _ _ _ (proj1 Hok2)). fold (dir s2 kids n). rewrite Hd2. unfold dir.
    change (devfs_root s1) with (devfs_root s). by apply look_core; [|apply kids_dom].
  - etrans; [exact Hc1|]. by etrans.
  - eexists. split; [exact Hp3|]. done.
  - cbn. by rewrite Hb2.
  - cbn. by rewrite Hdk2.
Qed.

(** Finding what the directory holds. *)
Lemma dev_find_run s kids name t d : dev_ok s kids -> devfs_root s <> 0 -> (String.length name < NODE_MAXLEN)%nat ->
  dir s kids name = Some (t, d) -> t <> VN_LNK ->
  exists e v, dev_find (match t with VN_BLK => DEV_CLASS_BLOCK | VN_CHR => DEV_CLASS_CHAR | _ => DEV_CLASS_ANY end) name s = Ret (Found e, s) /\
    vs s !! e = Some v /\ v_type v = t /\ v_dev v = d.
Proof using Type.
  intros [Ht Hr] H0 Hn Hd Hl. destruct (look_found _ _ _ _ _ Hd) as (x & v & Hx & Hv & Htv & Hdv). exists x, v. split; [|done].
  destruct Hr as [?|Hr]; [done|]. unfold dev_find. rewrite (bind_Ret _ _ s (devfs_root s) s) by done. rewrite nonnull_true by done. cbn [negb].
  assert (set_vfs (d_vfs s) s = s) as Es by by destruct s.
  rewrite (bind_Ret _ _ s (Found x) s).
  2:{ unfold on_vfs. erewrite zoom_Ret; [|by apply (lookup_child_run _ kids)]. by rewrite Hx, Es. }
  assert (on_vfs (vn x) s = Ret (v, s)) as Ev by (unfold on_vfs; erewrite zoom_Ret; [|by apply vn_run]; by rewrite Es).
  rewrite (bind_Ret _ _ _ _ _ Ev). assert (is_type VN_LNK v = false) as -> by (apply bool_decide_eq_false_2; congruence).
  rewrite (bind_Ret _ _ s x s), (bind_Ret _ _ _ _ _ Ev) by done. unfold is_type. rewrite Htv. by destruct t.
Qed.

(** ** One partition *)
Definition part_name (disk : string) (i : Z) : string := disk +:+ byte_char (49 + i).
Definition part_dev (start size device : Z) : blkdev := mk_blkdev None None (Partition (mk_part start size) device).

Lemma append_length a b : String.length (a +:+ b) = (String.length a + String.length b)%nat.
Proof using Type. induction a as [|c a IH]; [done|]. change (S (String.length (a +:+ b)) = S (String.length a + String.length b)). by rewrite IH. Qed.

Lemma part_name_length disk i : (String.length (part_name disk i) <= String.length disk + 1)%nat.
Proof using Type.
  unfold part_name. rewrite append_length. unfold byte_char. destruct (u8 _ =? 0); cbn; lia.
Qed.

(** The devices a scan may add: nothing that was there changes, but a disk may have been
    read. *)
Record grown s kids s' kids' : Prop := {
  gr_ok : dev_ok s' kids';
  gr_root : devfs_root s' <> 0;
  gr_core : same_core (vs s) (vs s');
  gr_blk : forall p b, blkdevs s !! p = Some b -> blkdevs s' !! p = Some b;
  gr_disks : disks s' = disks s;
}.

Lemma grown_refl s kids : dev_ok s kids -> devfs_root s <> 0 -> grown s kids s kids.
Proof using Type. by split. Qed.
Lemma grown_trans s1 k1 s2 k2 s3 k3 : grown s1 k1 s2 k2 -> grown s2 k2 s3 k3 -> grown s1 k1 s3 k3.
Proof using Type.
  intros [? ? ? Hb ?] [? ? ? Hb' ?]. split; [done|done|by etrans|intros p b Hp; by apply Hb', Hb|congruence].
Qed.

Lemma add_part_run s kids d of_ v n lba size : dev_ok s kids -> vs s !! of_ = Some v -> (String.length (v_name v) < 14)%nat ->
  exists s' kids' q, blk_add_part (dev_add stack ops (S d)) of_ n lba size s = Ret (0, s') /\ grown s kids s' kids' /\
    blkdevs s' !! q = Some (part_dev lba size (v_dev v)) /\
    forall name, dir s' kids' name = if decide (name = part_name (v_name v) n) then Some (VN_BLK, q) else dir s kids name.
Proof using slab_room heap_room.
  intros Hok Hv Hn. unfold blk_add_part. rewrite (bind_Ret _ _ s s s) by done. set (q := kmalloc _).
  destruct (heap_room (dom (blkdevs s))) as [Hf H0]. fold q in Hf, H0. apply not_elem_of_dom in Hf.
  rewrite (bind_Ret _ _ s tt s) by by rewrite nonnull_true.
  rewrite (bind_Ret _ _ s v s). 2:{ unfold on_vfs. erewrite zoom_Ret; [|by apply vn_run]. by destruct s. }
  rewrite (bind_Ret _ _ s tt _ eq_refl). set (s1 := set_blkdevs _ s).
  rewrite (bind_Ret _ _ s1 tt s1). 2:{ by rewrite (proj2 (Nat.ltb_lt _ _) Hn). }
  destruct (add_node_run s1 kids DEV_CLASS_BLOCK DEV_BLOCK_PART q (part_name (v_name v) n)) as (s2 & kids2 & node & E2 & Ha); [done| |].
  { pose proof (part_name_length (v_name v) n). unfold NODE_MAXLEN. lia. }
  rewrite (bind_Ret _ _ s1 0 s2).
  2:{ cbn [dev_add]. rewrite (bind_Ret _ _ s1 (Some (part_name (v_name v) n)) s1) by done. rewrite (bind_Ret _ _ _ _ _ E2).
      rewrite bool_decide_eq_true_2 by done. done. }
  exists s2, kids2, q. destruct Ha as [? ? Hd ? ? Hb Hdk]. split; [done|]. split; [split; try done|].
  - intros p b Hp. rewrite Hb. cbn. rewrite lookup_insert_ne by congruence. done.
  - split; [rewrite Hb; cbn; apply lookup_insert_eq|]. intros name. by rewrite Hd.
Qed.

(** ** The table of partitions *)
Definition entry_present (buf : list Z) (i : Z) : Prop := slice (128 * i) 16 buf <> GUID_EMPTY.
Definition entry_start (buf : list Z) (i : Z) : Z := le_get (slice (128 * i + ENT_START_LBA) 8 buf).
Definition entry_end (buf : list Z) (i : Z) : Z := le_get (slice (128 * i + ENT_END_LBA) 8 buf).

Lemma memcmp_zeros l n : (n <= length l)%nat -> Forall (fun c => 0 <= c < 256) l ->
  exists c, memcmp l (replicate n 0) (Z.of_nat n) = Some c /\ (c = 0 <-> take n l = replicate n 0).
Proof using Type.
  revert l. induction n as [|n IH]; intros [|x l] Hl Hb; cbn [length] in Hl; try lia; [by exists 0|by exists 0|].
  cbn [replicate memcmp take]. rewrite (proj2 (Z.eqb_neq _ 0)) by lia. apply list.Forall_cons in Hb as [Hx Hb].
  destruct (Z.eqb_spec x 0) as [->|Hx0].
  - replace (Z.of_nat (S n) - 1) with (Z.of_nat n) by lia. destruct (IH l) as (c & Hc & Hz); [lia|done|]. exists c. split; [done|].
    rewrite Hz. split; [by intros ->|by intros [=]].
  - eexists. split; [done|]. split; [|by intros [=]]. unfold swrap. rewrite Z.mod_small by lia. change (0 mod 2 ^ 8) with 0.
    destruct (Z.ltb_spec x (2 ^ (8 - 1))), (Z.ltb_spec 0 (2 ^ (8 - 1))); lia.
Qed.

(** One turn of the loop. *)
Lemma gpt_entry_run s kids d of_ v i buf : dev_ok s kids -> devfs_root s <> 0 -> vs s !! of_ = Some v -> (String.length (v_name v) < 14)%nat ->
  length buf = 512%nat -> Forall (fun c => 0 <= c < 256) buf -> 0 <= i < 4 ->
  exists c r s' kids', memcmp (drop (Z.to_nat (128 * i)) buf) GUID_EMPTY 16 = Some c /\
    (if c =? 0 then mret 0
     else start_lba ← cload (fun _ => peek 8 (128 * i + ENT_START_LBA) buf);
       end_lba ← cload (fun _ => peek 8 (128 * i + ENT_END_LBA) buf);
       blk_add_part (dev_add stack ops (S d)) of_ i start_lba (u64 (end_lba - start_lba))) s = Ret (r, s') /\
    grown s kids s' kids' /\
    (entry_present buf i -> exists q, dir s' kids' (part_name (v_name v) i) = Some (VN_BLK, q) /\
      blkdevs s' !! q = Some (part_dev (entry_start buf i) (u64 (entry_end buf i - entry_start buf i)) (v_dev v))) /\
    forall name, (entry_present buf i -> name <> part_name (v_name v) i) -> dir s' kids' name = dir s kids name.
Proof using slab_room heap_room.
  intros Hok Hr Hv Hn Hl Hb Hi.
  destruct (memcmp_zeros (drop (Z.to_nat (128 * i)) buf) 16) as (c & Hc & Hz); [rewrite length_drop; lia|by apply Forall_drop|].
  change (take 16 (drop (Z.to_nat (128 * i)) buf)) with (slice (128 * i) 16 buf) in Hz.
  exists c. destruct (Z.eqb_spec c 0) as [E0|E0].
  - exists 0, s, kids. split; [done|]. split; [done|]. split; [by apply grown_refl|]. split; [intros Hp; by destruct Hp; apply Hz|done].
  - destruct (add_part_run s kids d of_ v i (entry_start buf i) (u64 (entry_end buf i - entry_start buf i)) Hok Hv Hn)
      as (s' & kids' & q & E & Hg & Hq & Hd).
    exists 0, s', kids'. split; [done|].
    rewrite (bind_Ret _ _ s (entry_start buf i) s) by (apply load_Some, peek_in; unfold ENT_START_LBA; lia).
    rewrite (bind_Ret _ _ s (entry_end buf i) s) by (apply load_Some, peek_in; unfold ENT_END_LBA; lia).
    split; [done|]. split; [done|]. split.
    + intros _. exists q. split; [|done]. by rewrite Hd, decide_True.
    + intros name Hne. rewrite Hd, decide_False; [done|]. apply Hne. intros Hp. by apply E0, Hz.
Qed.

Lemma digit_char i : 0 <= i < 4 -> byte_char (49 + i) = String (Ascii.ascii_of_N (Z.to_N (49 + i))) EmptyString.
Proof using Type. intros Hi. unfold byte_char. by rewrite uwrap_small, (proj2 (Z.eqb_neq _ 0)) by lia. Qed.

Lemma part_name_inj disk i j : 0 <= i < 4 -> 0 <= j < 4 -> part_name disk i = part_name disk j -> i = j.
Proof using Type.
  intros Hi Hj E%(inj (String.append disk)). rewrite !digit_char in E by done.
  assert (forall k, 0 <= k < 4 -> k = 0 \/ k = 1 \/ k = 2 \/ k = 3) as Hc by lia.
  destruct (Hc i Hi) as [->|[->|[->| ->]]], (Hc j Hj) as [->|[->|[->| ->]]]; done.
Qed.
Lemma part_name_ne disk i : 0 <= i < 4 -> disk <> part_name disk i.
Proof using Type.
  intros Hi E. apply (f_equal String.length) in E. unfold part_name in E. rewrite append_length, digit_char in E by done. cbn in E. lia.
Qed.

(** The entries from [i] on that the loop reaches. *)
Definition scanned (n : nat) (i j : Z) : Prop := i <= j /\ j < i + Z.of_nat n /\ j < 4.

Lemma gpt_loop_run d of_ buf disk dev n : length buf = 512%nat -> Forall (fun c => 0 <= c < 256) buf -> (String.length disk < 14)%nat ->
  forall s kids i, dev_ok s kids -> devfs_root s <> 0 -> (exists v, vs s !! of_ = Some v /\ v_name v = disk /\ v_dev v = dev) -> 0 <= i < 4 ->
  exists s' kids', gpt_loop (dev_add stack ops (S d)) n of_ i (128 * i) 128 buf s = Ret (tt, s') /\ grown s kids s' kids' /\
    (forall j, scanned n i j -> entry_present buf j -> exists q, dir s' kids' (part_name disk j) = Some (VN_BLK, q) /\
      blkdevs s' !! q = Some (part_dev (entry_start buf j) (u64 (entry_end buf j - entry_start buf j)) dev)) /\
    forall name, (forall j, scanned n i j -> entry_present buf j -> name <> part_name disk j) -> dir s' kids' name = dir s kids name.
Proof using slab_room heap_room.
  intros Hl Hb Hdl. induction n as [|n IH]; intros s kids i Hok Hr (v & Hv & Hvn & Hvd) Hi.
  { exists s, kids. split; [done|]. split; [by apply grown_refl|]. split; [intros j [? ?]; lia|done]. }
  subst disk dev. destruct (gpt_entry_run s kids d of_ v i buf Hok Hr Hv Hdl Hl Hb Hi) as (c & r & s1 & kids1 & Ec & E1 & Hg1 & Hp1 & Hd1).
  cbn [gpt_loop]. rewrite (bind_Ret _ _ s c s) by by apply load_Some. rewrite (bind_Ret _ _ _ _ _ E1). cbv zeta.
  rewrite uwrap_small by lia. destruct (Z.leb_spec 512 (128 * i + 128)) as [He|He].
  - exists s1, kids1. split; [done|]. split; [done|]. split.
    + intros j [? [? ?]]. assert (j = i) as -> by lia. done.
    + intros name Hne. apply Hd1. apply Hne. split; lia.
  - destruct (gr_core _ _ _ _ Hg1 of_ v Hv) as (v1 & Hv1 & Hn1 & _ & Hdv1).
    destruct (IH s1 kids1 (i + 1)) as (s2 & kids2 & E2 & Hg2 & Hp2 & Hd2);
      [apply Hg1|apply Hg1|by exists v1|lia|].
    replace (128 * (i + 1)) with (128 * i + 128) in E2 by lia.
    exists s2, kids2. split; [done|]. split; [by eapply grown_trans|]. split.
    + intros j Hj Hpr. destruct (decide (j = i)) as [->|].
      * destruct (Hp1 Hpr) as (q & Hq & Hqb). exists q. split; [|by apply (gr_blk _ _ _ _ Hg2)].
        rewrite Hd2; [done|]. intros j [? [? ?]] _ En. assert (i = j) by (by eapply part_name_inj; [| |exact En]; lia). lia.
      * apply Hp2; [destruct Hj as [? [? ?]]; split; lia|done].
    + intros name Hne. rewrite Hd2; [apply Hd1; apply Hne; split; lia|]. intros j [? [? ?]]. apply Hne. split; lia.
Qed.

(** ** Reads *)
Definition holds s (p n : Z) (f : Z -> list Z) : Prop := exists d, disks s !! p = Some d /\ disk_rep d n f.

Lemma disk_read_run s p b n f depth off k : blkdevs s !! p = Some b -> b_ops b = Driver -> holds s p n f ->
  0 <= off -> 0 < k -> off mod MM_PAGE_SIZE + k <= MM_PAGE_SIZE -> off / MM_PAGE_SIZE < n ->
  exists d', dev_read (S depth) p off k s =
      Ret ((k, slice (off mod MM_PAGE_SIZE) k (f (off / MM_PAGE_SIZE))), set_disks (<[p := d']> (disks s)) s) /\ disk_rep d' n f.
Proof using Type.
  intros Hb Ho (d & Hd & Hrep) H0 Hk Hp Hn. destruct (disk_read_ok d n f off k Hrep H0 Hk Hp Hn) as (d' & E & Hrep'). exists d'. split; [|done].
  cbn [dev_read]. rewrite (bind_Ret _ _ s b s) by by apply load_Some. rewrite Ho. unfold driver_read.
  rewrite (bind_Ret _ _ s d s) by by apply load_Some. by rewrite E.
Qed.

Lemma dev_read_part s q p start size depth off k : blkdevs s !! q = Some (part_dev start size p) ->
  dev_read (S depth) q off k s = blk_part_read (dev_read depth p) (mk_part start size) off k s.
Proof using Type. intros Hq. cbn [dev_read]. by rewrite (bind_Ret _ _ s (part_dev start size p) s) by by apply load_Some. Qed.

Lemma part_read_run s p q b start size n f off k : blkdevs s !! q = Some (part_dev start size p) -> blkdevs s !! p = Some b -> b_ops b = Driver ->
  holds s p n f -> 0 <= start -> 0 <= off -> 0 < k -> off + k <= size * 512 -> (start + size) * 512 <= n * MM_PAGE_SIZE -> n * MM_PAGE_SIZE < 2 ^ 64 ->
  (start * 512 + off) mod MM_PAGE_SIZE + k <= MM_PAGE_SIZE ->
  exists s', dev_read read_depth q off k s =
    Ret ((k, slice ((start * 512 + off) mod MM_PAGE_SIZE) k (f ((start * 512 + off) / MM_PAGE_SIZE))), s').
Proof using Type.
  intros Hq Hp Ho Hh Hs0 H0 Hk Hsz Hend Hmax Hpg. unfold read_depth. rewrite (dev_read_part s q p start size) by done.
  unfold blk_part_read. cbn [part_size lba_start]. rewrite (uwrap_small 64 (size * 512)), (uwrap_small 64 (start * 512)), (uwrap_small 64 (off + start * 512)) by lia. rewrite (proj2 (Z.leb_gt _ _)) by lia. rewrite Z.min_r by lia.
  destruct (disk_read_run s p b n f 0 (off + start * 512) k) as (d' & E & _); [done|done|done|lia|done|by rewrite (Z.add_comm off)|apply Z.div_lt_upper_bound; [done|lia]|].
  rewrite (Z.add_comm off) in E |- *. eexists. exact E.
Qed.

(** ** Disks with a table of partitions *)
Record gpt_disk (n : Z) (f : Z -> list Z) (lba count : Z) : Prop := {
  gd_sig : slice 512 8 (f 0) = take 8 GPT_SIGNATURE;
  gd_lba : le_get (slice (512 + PARTITION_ENTRY_LBA) 8 (f 0)) = lba;
  gd_count : le_get (slice (512 + PARTITION_COUNT) 4 (f 0)) = count;
  gd_entry : le_get (slice (512 + PARTITION_ENTRY_SIZE) 4 (f 0)) = 128;
  gd_lba0 : 0 <= lba;
  gd_in : lba * 512 / MM_PAGE_SIZE < n;
  gd_max : n * MM_PAGE_SIZE < 2 ^ 64;
  gd_bytes : forall a, 0 <= a < n -> Forall (fun c => 0 <= c < 256) (f a);
}.
(** The sector of the table that is read. *)
Definition table (f : Z -> list Z) (lba : Z) : list Z :=
  slice ((lba * 512) mod MM_PAGE_SIZE) 512 (f (lba * 512 / MM_PAGE_SIZE)).

Lemma slice_prefix o k m (l : list Z) : 0 <= o -> 0 <= k -> o + k <= m -> slice o k (slice 0 m l) = slice o k l.
Proof using Type.
  intros. unfold slice. change (drop (Z.to_nat 0) l) with l. replace (Z.to_nat m) with (Z.to_nat o + Z.to_nat (m - o))%nat by lia.
  rewrite <- take_drop_commute, take_take. f_equal. lia.
Qed.

Lemma sector_in_page lba : 0 <= lba -> (lba * 512) mod MM_PAGE_SIZE + 512 <= MM_PAGE_SIZE.
Proof using Type.
  intros. replace ((lba * 512) mod MM_PAGE_SIZE) with ((lba mod 8) * 512) by (unfold MM_PAGE_SIZE; change 4096 with (8 * 512); rewrite Z.mul_mod_distr_r; lia).
  pose proof (Z.mod_pos_bound lba 8 ltac:(lia)). unfold MM_PAGE_SIZE. lia.
Qed.

Lemma filled_all got (k : nat) : length got = k -> filled got (take k stack) = got.
Proof using Type. intros <-. unfold filled. rewrite drop_ge, app_nil_r by (rewrite length_take; lia). done. Qed.

Lemma slice_bytes o k (l : list Z) : Forall (fun c => 0 <= c < 256) l -> Forall (fun c => 0 <= c < 256) (slice o k l).
Proof using Type. intros H. by apply Forall_take, Forall_drop. Qed.

Lemma signature_found l : slice 512 8 l = take 8 GPT_SIGNATURE -> strncmp (drop 512 l) GPT_SIGNATURE 8 = Some 0.
Proof using Type.
  intros E. rewrite <- (take_drop 8 (drop 512 l)). change (take 8 (drop 512 l)) with (slice 512 8 l). rewrite E. by destruct (drop 8 (drop 512 l)).
Qed.

Lemma enumerate_run s kids d p of_ io n f lba count disk : dev_ok s kids -> devfs_root s <> 0 ->
  (exists v, vs s !! of_ = Some v /\ v_name v = disk /\ v_dev v = p) -> (String.length disk < 14)%nat ->
  blkdevs s !! p = Some (mk_blkdev (Some 512) io Driver) -> holds s p n f -> gpt_disk n f lba count ->
  exists s' kids', blk_enumerate_partitions stack (dev_add stack ops (S d)) p of_ s = Ret (0, s') /\ dev_ok s' kids' /\ devfs_root s' <> 0 /\
    holds s' p n f /\ (forall q b, blkdevs s !! q = Some b -> blkdevs s' !! q = Some b) /\
    (forall j, scanned (Z.to_nat count) 0 j -> entry_present (table f lba) j -> exists q, dir s' kids' (part_name disk j) = Some (VN_BLK, q) /\
      blkdevs s' !! q = Some (part_dev (entry_start (table f lba) j) (u64 (entry_end (table f lba) j - entry_start (table f lba) j)) p)) /\
    forall name, (forall j, scanned (Z.to_nat count) 0 j -> entry_present (table f lba) j -> name <> part_name disk j) -> dir s' kids' name = dir s kids name.
Proof using slab_room heap_room.
  intros Hok Hr Hof Hdl Hp Hh [Hsig Hlba Hcnt Hent Hl0 Hin Hmax Hby]. set (b := mk_blkdev (Some 512) io Driver) in *.
  assert (0 < n) as Hn0 by (pose proof (Z.div_pos (lba * 512) MM_PAGE_SIZE ltac:(lia) ltac:(done)); lia).
  assert (length (f 0) = Z.to_nat MM_PAGE_SIZE) as Hl by (destruct Hh as (dd & _ & Hrep); apply (disk_page_length _ _ _ 0 Hrep); lia).
  assert (length (slice 0 1024 (f 0)) = 1024%nat) as Hlh by (rewrite length_slice; [done|lia|lia|rewrite Hl; unfold MM_PAGE_SIZE; lia]).
  unfold blk_enumerate_partitions. rewrite (bind_Ret _ _ s b s), (bind_Ret _ _ s 512 s) by by apply load_Some. cbn [Z.eqb Pos.eqb].
  destruct (disk_read_run s p b n f 1 0 1024) as (d1 & E1 & Hrep1); [done|done|done|lia|lia|done|done|].
  rewrite (bind_Ret _ _ _ _ _ E1). change (0 mod MM_PAGE_SIZE) with 0. change (0 / MM_PAGE_SIZE) with 0. cbn [fst snd Z.ltb Z.compare].
  rewrite filled_all by done. cbv zeta. set (s1 := set_disks _ s). set (head := slice 0 1024 (f 0)) in *.
  assert (holds s1 p n f) as Hh1 by (exists d1; split; [apply lookup_insert_eq|done]).
  rewrite (bind_Ret _ _ s1 0 s1) by (apply load_Some, signature_found; unfold head; rewrite slice_prefix by lia; done).
  cbn [Z.eqb]. unfold blk_enumerate_gpt. rewrite (bind_Ret _ _ s1 b s1), (bind_Ret _ _ s1 512 s1) by by apply load_Some.
  rewrite (bind_Ret _ _ s1 tt s1) by done.
  assert (forall w o, 0 <= o -> o + Z.of_nat w <= 1024 -> peek w o head = Some (le_get (slice o (Z.of_nat w) (f 0)))) as Hpk.
  { intros w o Ho Hw. rewrite peek_in by (rewrite ?Hlh; lia). unfold head. by rewrite slice_prefix by lia. }
  rewrite (bind_Ret _ _ s1 lba s1) by (apply load_Some; rewrite Hpk by (unfold PARTITION_ENTRY_LBA; lia); by rewrite <- Hlba).
  assert (lba * 512 < n * MM_PAGE_SIZE) as Hlt.
  { pose proof (Z.div_mod (lba * 512) MM_PAGE_SIZE ltac:(done)). pose proof (Z.mod_pos_bound (lba * 512) MM_PAGE_SIZE ltac:(done)). unfold MM_PAGE_SIZE in *. lia. }
  rewrite (uwrap_small 64) by lia.
  destruct (disk_read_run s1 p b n f 1 (lba * 512) 512) as (d2 & E2 & Hrep2); [done|done|done|lia|lia|by apply sector_in_page|done|].
  rewrite (bind_Ret _ _ _ _ _ E2). cbn [fst snd]. fold (table f lba). set (s2 := set_disks _ s1).
  rewrite (bind_Ret _ _ s2 tt s2) by done.
  rewrite (bind_Ret _ _ s2 count s2) by (apply load_Some; rewrite Hpk by (unfold PARTITION_COUNT; lia); by rewrite <- Hcnt).
  rewrite (bind_Ret _ _ s2 128 s2) by (apply load_Some; rewrite Hpk by (unfold PARTITION_ENTRY_SIZE; lia); by rewrite <- Hent).
  assert (0 <= lba * 512 / MM_PAGE_SIZE) as Hd0 by (apply Z.div_pos; [lia|done]).
  assert (length (table f lba) = 512%nat) as Hlt2.
  { unfold table. pose proof (sector_in_page lba Hl0). pose proof (Z.mod_pos_bound (lba * 512) MM_PAGE_SIZE ltac:(done)).
    destruct Hh as (dd & _ & Hrep). rewrite length_slice; [done|lia|lia|]. rewrite (disk_page_length _ _ _ _ Hrep) by lia. lia. }
  rewrite filled_all by done.
  destruct (gpt_loop_run d of_ (table f lba) disk p (Z.to_nat count) Hlt2 (slice_bytes _ _ _ (Hby _ (conj Hd0 Hin))) Hdl s2 kids 0)
    as (s3 & kids3 & E3 & [? ? ? Hb3 Hdk3] & Hp3 & Hd3); [done|done|done|lia|].
  change (128 * 0) with 0 in E3. rewrite (bind_Ret _ _ _ _ _ E3). exists s3, kids3. split; [done|]. split; [done|]. split; [done|].
  split; [exists d2; rewrite Hdk3; split; [apply lookup_insert_eq|done]|]. split; [exact Hb3|]. by split.
Qed.

(** ** Claims *)


(** The last block of a partition is the one at [end_lba]; the size the code computes
    leaves it out, and reading it fails. *)
Theorem partition_last_block s q p start last : blkdevs s !! q = Some (part_dev start (u64 (last - start)) p) ->
  0 <= start <= last -> last * 512 < 2 ^ 64 -> dev_read read_depth q ((last - start) * 512) 512 s = Ret ((-1, []), s).
Proof using Type.
  intros Hq Hs Hl. unfold read_depth. rewrite (dev_read_part s q p start (u64 (last - start))) by done. unfold blk_part_read. cbn [part_size lba_start].
  rewrite (uwrap_small 64 (last - start)), (uwrap_small 64 ((last - start) * 512)) by lia. by rewrite (proj2 (Z.leb_le _ _)) by lia.
Qed.
End dev_proofs.

(** ** Disks behind the block cache *)
Section cached_disk.
Context {P B : Type} `{PageAlloc P} `{BlkDev B} `{NodeAlloc}.
Context (Hmem : forall m, na_alloc m <> 0).

Definition cached_pages_rep (s : bstate P B) (n : Z) (f : Z -> list Z) : Prop :=
  exists es, blk_ok s es /\ n = bd_pages (bs_dev s) /\ forall a, 0 <= a < n -> f a = view s es a.

Lemma cached_read_ok s n f off k : cached_pages_rep s n f -> 0 <= off -> 0 < k -> off mod MM_PAGE_SIZE + k <= MM_PAGE_SIZE ->
  off / MM_PAGE_SIZE < n ->
  exists s', Blk.blk_read true off k s = Ret ((k, slice (off mod MM_PAGE_SIZE) k (f (off / MM_PAGE_SIZE))), s') /\ cached_pages_rep s' n f.
Proof using Hmem.
  intros (es & Hok & -> & Hf) Ho Hk Hp Hn. destruct (read_in_page Hmem s es off k Hok Ho Hk Hp Hn) as (s' & es' & E & Hok' & Hpg & Hv).
  exists s'. split; [rewrite Hf; [exact E|split; [by apply Z.div_pos|done]]|]. exists es'. split; [done|]. split; [by rewrite Hpg|].
  intros a Ha. rewrite Hf by done. by rewrite Hv.
Qed.

Lemma cached_pages_length s n f a : cached_pages_rep s n f -> 0 <= a < n -> length (f a) = Z.to_nat MM_PAGE_SIZE.
Proof using Type. intros (es & Hok & -> & Hf) Ha. rewrite Hf by done. by apply view_length. Qed.

Definition cached_disk : DiskIO (bstate P B) := {|
  disk_read := Blk.blk_read true; disk_rep := cached_pages_rep; disk_read_ok := cached_read_ok; disk_page_length := cached_pages_length |}.
End cached_disk.

(** ** An example *)
Definition above (X : gset Z) : Z := Z.max 0 (set_fold Z.max 0 X) + 1.
Lemma above_fresh X : above X ∉ X /\ above X <> 0.
Proof.
  assert (forall x, x ∈ X -> x <= set_fold Z.max 0 X) as Hm.
  { apply (set_fold_ind_L (fun b X => forall x, x ∈ X -> x <= b)); [set_solver|]. intros x Y b _ IH y [->%elem_of_singleton|Hy]%elem_of_union; [lia|]. specialize (IH y Hy). lia. }
  unfold above. split; [|lia]. intros Hin%Hm. lia.
Qed.
Definition above_heap : Kmalloc := {| kmalloc := above |}.

(** A disk with the table in its first page: two partitions. *)
Definition sample_entry (ty st en : Z) : list Z := replicate 16 ty ++ replicate 16 7 ++ le_put 8 st ++ le_put 8 en ++ replicate 80 0.
Definition sample_page (lba count entry_size : Z) : list Z :=
  replicate 512 0 ++ [69; 70; 73; 32; 80; 65; 82; 84] ++ replicate 64 0 ++ le_put 8 lba ++ le_put 4 count ++ le_put 4 entry_size ++ replicate 424 0 ++
  sample_entry 1 8 10 ++ sample_entry 0 0 0 ++ sample_entry 2 16 31 ++ sample_entry 0 0 0 ++ replicate 2560 0.
Definition sample_disk (pg : list Z) : list (list Z) := [pg; replicate 4096 17; replicate 4096 18; replicate 4096 19].
Definition sample_devs (pg : list Z) : devs (list (list Z)) :=
  mk_devs (mk_vfs ∅ 0 ∅ ∅ [] [] ∅) 0 97 97 {[ 5 := mk_blkdev (Some 512) None Driver ]} {[ 5 := sample_disk pg ]}.
Definition sample_add (name : option string) : cmd (devs (list (list Z))) Z :=
  @dev_add _ plain_disk next_slab above_heap (replicate 1024 99) 1 add_depth DEV_CLASS_BLOCK DEV_BLOCK_SDx 5 name.
Definition ret_or {A B} (d : A) (o : outcome (A * B)) : A := match o with Ret (a, _) => a | _ => d end.

Example scan_example :
  ret_or (-1, []) ((sample_add None;;
     r ← dev_find DEV_CLASS_BLOCK "sda3";
     match r with Found e => v ← on_vfs (vn e); dev_read read_depth (v_dev v) 4096 3 | Err e => mret (e, []) end) (sample_devs (sample_page 2 128 128)))
  = (3, [19; 19; 19]).
Proof. vm_compute. reflexivity. Qed.

Lemma sample_devs_ok pg : @dev_ok (list (list Z)) (sample_devs pg) (fun _ => []).
Proof.
  split; [|by left]. split; cbn.
  - intros p v Hv. by rewrite lookup_empty in Hv.
  - intros p c Hc. by apply not_elem_of_nil in Hc.
  - intros p. constructor.
  - apply lookup_empty.
Qed.

Definition sample_pages (a : Z) : list Z := default [] (sample_disk (sample_page 2 128 128) !! Z.to_nat a).
Lemma four_pages (Q : list Z -> Prop) : Forall Q (sample_disk (sample_page 2 128 128)) -> forall a, 0 <= a < 4 ->
  sample_disk (sample_page 2 128 128) !! Z.to_nat a = Some (sample_pages a) /\ Q (sample_pages a).
Proof.
  intros HQ a Ha. unfold sample_pages. destruct (lookup_lt_is_Some_2 (sample_disk (sample_page 2 128 128)) (Z.to_nat a)) as [l Hl]; [cbn; lia|].
  rewrite Hl. split; [done|]. by eapply Forall_lookup_1.
Qed.

Lemma sample_disk_holds : @holds _ plain_disk (sample_devs (sample_page 2 128 128)) 5 4 sample_pages.
Proof.
  exists (sample_disk (sample_page 2 128 128)). split; [apply lookup_singleton_eq|]. split; [reflexivity|].
  apply (four_pages (fun l => length l = Z.to_nat MM_PAGE_SIZE)). apply (bool_decide_unpack _). vm_compute. exact I.
Qed.

Lemma sample_gpt : gpt_disk 4 sample_pages 2 128.
Proof.
  split; try (vm_compute; reflexivity); [vm_compute; discriminate|].
  intros a Ha. apply (four_pages (Forall (fun c => 0 <= c < 256))); [|exact Ha]. apply (bool_decide_unpack _). vm_compute. exact I.
Qed.


(** ** Flaws *)

(** The place of the table comes from the disk; one that cannot be read stops the
    kernel. *)
Theorem gpt_bad_table_panics : sample_add None (sample_devs (sample_page 1000 128 128)) = Panic.
Proof. vm_compute. reflexivity. Qed.

(** The size of an entry comes from the disk too; an entry may reach past the buffer. *)
Theorem gpt_entry_size_faults :
  sample_add None (sample_devs (<[1504%nat := 1]> (sample_page 2 2 480))) = Fault.
Proof. vm_compute. reflexivity. Qed.

(** The operations of a partition other than reading and writing are whatever the heap
    held. *)
Theorem partition_ioctl_unset : exists s' q,
  sample_add None (sample_devs (sample_page 2 128 128)) = Ret (0, s') /\ blkdevs s' !! q = Some (part_dev 8 2 5) /\ b_ioctl (part_dev 8 2 5) = None.
Proof. eexists _, 6. vm_compute. repeat split. Qed.

(** Looking for a link that depends on the process takes its function for a vnode. *)
Theorem find_live_link_faults :
  (@dev_add_live_link _ next_slab 1 "tty" 77;; dev_find DEV_CLASS_CHAR "tty") (sample_devs []) = Fault.
Proof. vm_compute. reflexivity. Qed.
