(* ===== verification/Tar.v ===== *)
(** * The initial file system: [fs/ram_tar.c], mounting of [fs/ram.c]

    At boot the root file system is built from a tar image in memory: a first pass makes
    the nodes, a second one fills in owners, rights, contents and links.  The blocks of a
    file stay where they are in the image; the state is that of [Ram].  A header is the
    list of its 512 bytes, and a string of it has to end inside it.  The image may be
    such that the passes never end, so they take fuel. *)

From S2P Require Import Prelude Defs Bytes Strings Phys Paging Interfaces Vnode Vfs Ram.

(** ** Headers *)
Definition TAR_MODE : Z := 100.
Definition TAR_UID : Z := 108.
Definition TAR_GID : Z := 116.
Definition TAR_SIZE : Z := 124.
Definition TAR_TYPEFLAG : Z := 156.
Definition TAR_LINKNAME : Z := 157.

(** [ssize_t]; a character is signed. *)
Fixpoint tar_octal_from (lim : nat) (res : Z) (buf : list Z) : option Z :=
  match lim, buf with
  | O, _ => Some res
  | S lim, c :: buf => if c =? 0 then Some res else tar_octal_from lim (Z.lor (i64 (Z.shiftl res 3)) (i8 c - 48)) buf
  | _, [] => None
  end.
Definition tar_octal (buf : list Z) (lim : nat) : option Z := tar_octal_from lim 0 buf.

Definition string_of (l : list Z) : string := String.string_of_list_ascii ((fun c => Ascii.ascii_of_N (Z.to_N c)) <$> l).

Section tar.
Context {P : Type} `{PageAlloc P} `{Slab}.
Abbreviation M := (cmd (ramfs P)).

(** A slash and those that follow it. *)
Fixpoint skip_seps (s : list Z) : option (list Z) :=
  match s with [] => None | c :: s' => if c =? 47 then skip_seps s' else Some s end.

(** The first element of a path and what follows it; [None] for NULL.  [element] has
    room for [NODE_MAXLEN] bytes. *)
Definition path_element (path : list Z) : M (list Z * option (list Z)) :=
  k ← cload (fun _ => strchr path 47);
  match k with
  | None =>
      cload (fun _ => strcpy (replicate NODE_MAXLEN 0) path);;
      n ← cload (fun _ => strlen path);
      mret (take (Z.to_nat n) path, None)
  | Some k =>
      cassert (k <? Z.of_nat NODE_MAXLEN);;
      rest ← cload (fun _ => skip_seps (drop (Z.to_nat k) path));
      c ← cload (fun _ => rest !! 0%nat);
      mret (take (Z.to_nat k) path, if c =? 0 then None else Some rest)
  end.

(** The loop over the elements of a path; it has at most one per byte. *)
Fixpoint create_path (fuel : nat) (node : Z) (path : list Z) (t : vnode_type) (create : bool) : M found :=
  match fuel with
  | O => cdiverged
  | S fuel =>
      e ← path_element path;
      let name := string_of e.1 in
      r ← on_vfs (vnode_lookup_child node name);
      match r with
      | Err _ =>
          if create then
            new_node ← ram_vnode_create t name;
            on_vfs (vnode_attach node new_node);;
            match e.2 with None => mret (Found new_node) | Some rest => create_path fuel new_node rest t create end
          else mret (Err (- ENOENT))
      | Found new_node =>
          match e.2 with None => mret (Found new_node) | Some rest => create_path fuel new_node rest t create end
      end
  end.
Definition tar_mapper_create_path (root : Z) (path : list Z) (t : vnode_type) (create : bool) : M found :=
  create_path (S (length path)) root path t create.

Definition tar_type (hdr : list Z) : M vnode_type :=
  c ← cload (fun _ => hdr !! Z.to_nat TAR_TYPEFLAG);
  if (c =? 0) || (c =? 48) then mret VN_REG
  else if c =? 50 then mret VN_LNK
  else if c =? 53 then mret VN_DIR
  else cpanic.

Definition field (hdr : list Z) (off : Z) (lim : nat) : M Z := cload (fun _ => tar_octal (drop (Z.to_nat off) hdr) lim).

(** ** The first pass: the result is that of [tar_init] if it returns early. *)
Fixpoint tar_first_pass (fuel : nat) (root mem_base off : Z) (prev_zero : bool) : M (option Z) :=
  match fuel with
  | O => cdiverged
  | S fuel =>
      c ← mem_get (mem_base + off) 1;
      if bool_decide (c = [0]) then
        if prev_zero then mret None else tar_first_pass fuel root mem_base (u64 (off + 512)) true
      else
        hdr ← mem_get (mem_base + off) 512;
        t ← tar_type hdr;
        r ← tar_mapper_create_path root hdr t true;
        match r with
        | Err e => mret (Some e)
        | Found _ =>
            match t with
            | VN_REG =>
                file_length ← field hdr TAR_SIZE 12;
                tar_first_pass fuel root mem_base (u64 (off + 512 + Z.land (u64 (511 + file_length)) (u64 (Z.lnot 511)))) prev_zero
            | _ => tar_first_pass fuel root mem_base (u64 (off + 512)) prev_zero
            end
        end
  end.

(** ** The second pass *)
Definition set_block (node bytes i : Z) : M unit :=
  r ← ram_vnode_bset_set node i (bytes + i * 512 + 512);
  cassert (r =? 0).

(** A regular file: its blocks are those of the image behind the header at [bytes]. *)
Definition tar_map_file (node bytes file_length : Z) : M unit :=
  r ← ram_vnode_bset_resize node (u64 file_length);
  cassert (r =? 0);;
  for_range (set_block node bytes) (Z.to_nat (u64 (511 + file_length) / 512)) 0.

(** A symbolic link: its text goes to a new page, and its target has to exist. *)
Definition tar_map_link (root node : Z) (hdr : list Z) : M unit :=
  let linkname := drop (Z.to_nat TAR_LINKNAME) hdr in
  file_length ← cload (fun _ => strlen linkname);
  blk ← alloc_frame;
  r ← ram_vnode_bset_resize node file_length;
  cassert (r =? 0);;
  r ← ram_vnode_bset_set node 0 (MM_VIRTUALIZE blk);
  cassert (r =? 0);;
  mem_put (MM_VIRTUALIZE blk) (take (Z.to_nat (file_length + 1)) linkname);;
  c ← cload (fun _ => linkname !! 0%nat);
  r ← (if c =? 47 then tar_mapper_create_path root (drop 1 linkname) VN_REG false
       else tar_mapper_create_path node linkname VN_REG false);
  match r with
  | Err _ => cpanic
  | Found target => on_vfs (vn_update node (with_target target))
  end.

Definition tar_attributes (node : Z) (hdr : list Z) : M unit :=
  uid ← field hdr TAR_UID 8;
  on_vfs (vn_update node (fun v => with_owner (u32 uid) (v_gid v) v));;
  gid ← field hdr TAR_GID 8;
  on_vfs (vn_update node (fun v => with_owner (v_uid v) (u32 gid) v));;
  mode ← field hdr TAR_MODE 8;
  on_vfs (vn_update node (with_mode (Z.land mode VFS_MODE_MASK))).

(** One entry: the offset of the next one, or the error the pass returns. *)
Definition tar_entry (root mem_base off : Z) : M (Z + Z) :=
  hdr ← mem_get (mem_base + off) 512;
  t ← tar_type hdr;
  r ← tar_mapper_create_path root hdr VN_REG false;
  match r with
  | Err e => mret (inl e)
  | Found node =>
      tar_attributes node hdr;;
      match t with
      | VN_LNK => tar_map_link root node hdr;; mret (inr (u64 (off + 512)))
      | VN_REG =>
          file_length ← field hdr TAR_SIZE 12;
          tar_map_file node (mem_base + off) file_length;;
          mret (inr (u64 (off + u64 (511 + file_length) / 512 * 512 + 512)))
      | _ => mret (inr (u64 (off + 512)))
      end
  end.

Fixpoint tar_second_pass (fuel : nat) (root mem_base off : Z) (prev_zero : bool) : M Z :=
  match fuel with
  | O => cdiverged
  | S fuel =>
      c ← mem_get (mem_base + off) 1;
      if bool_decide (c = [0]) then
        if prev_zero then mret 0 else tar_second_pass fuel root mem_base (u64 (off + 512)) true
      else
        r ← tar_entry root mem_base off;
        match r with inl e => mret e | inr off => tar_second_pass fuel root mem_base off prev_zero end
  end.

Definition tar_init (fuel : nat) (root mem_base : Z) : M Z :=
  r ← tar_first_pass fuel root mem_base 0 false;
  match r with Some e => mret e | None => tar_second_pass fuel root mem_base 0 false end.

(** ** Mounting *)
Definition root_fields (fs : Z) (v : vnode) : vnode :=
  mk_vnode (v_type v) (v_name v) (Z.lor (v_flags v) VN_MEMORY) (first_child v) (next_child v) (v_parent v) (v_target v) (open_count v)
    (v_ino v) 0 0 365 fs 0 (v_dev v) RAMFS_OP.

(** [get_base] is what [blk_ioctl] answers to [RAM_IOC_GETBASE]. *)
Definition ram_init (fuel : nat) (fs : Z) (get_base : Z * Z) : M Z :=
  if negb (get_base.1 =? 0) then mret get_base.1
  else
    root ← on_vfs (vnode_create VN_DIR None);
    on_vfs (vn_update root (root_fields fs));;
    f ← on_vfs (cload (fun s => fss s !! fs));
    on_vfs (cmodify (fun s => set_fss (<[fs := mk_fs (fs_blk f) (fs_flags f) root (fs_cls f)]> (fss s)) (fs_mount_list s) s));;
    tar_init fuel root get_base.2.

Definition ram_get_root (fs : Z) : M Z := f ← on_vfs (cload (fun s => fss s !! fs)); mret (fs_private f).
End tar.

(** ** Octal numbers *)
Definition octal_of (ds : list Z) : Z := foldl (fun a d => a * 8 + d) 0 ds.

Lemma lor_digit a d : 0 <= d < 8 -> Z.lor (8 * a) d = 8 * a + d.
Proof.
  intros Hd. rewrite <- Z.add_lor_land. assert (Z.land (8 * a) d = 0) as ->; [|lia]. apply Z.bits_inj'. intros n Hn. rewrite Z.land_spec, Z.bits_0.
  destruct (decide (n < 3)) as [Hl|Hl].
  - assert (Z.testbit (8 * a) n = false) as ->; [|done]. rewrite <- (Z.mod_pow2_bits_low (8 * a) 3 n) by lia. change (2 ^ 3) with 8. by rewrite Z.mul_comm, Z_mod_mult, Z.bits_0.
  - rewrite <- (Z.mod_small d (2 ^ 3)) by lia. rewrite Z.mod_pow2_bits_high by lia. apply andb_false_r.
Qed.

Lemma octal_from_run ds : Forall (fun d => 0 <= d < 8) ds -> forall lim res rest, (length ds <= lim)%nat -> (lim = length ds \/ exists r, rest = 0 :: r) ->
  0 <= res -> (res + 1) * 8 ^ Z.of_nat (length ds) < 2 ^ 62 ->
  tar_octal_from lim res ((Z.add 48 <$> ds) ++ rest) = Some (foldl (fun a d => a * 8 + d) res ds).
Proof.
  induction 1 as [|d ds Hd _ IH]; intros lim res rest Hl Hend Hr Hb.
  - cbn [fmap list_fmap app foldl]. destruct lim as [|lim]; [by destruct rest|]. destruct Hend as [?|[r ->]]; [done|]. done.
  - destruct lim as [|lim]; [cbn in Hl; lia|]. cbn [fmap list_fmap app foldl tar_octal_from length] in *. rewrite (proj2 (Z.eqb_neq (48 + d) 0)) by lia.
    rewrite Nat2Z.inj_succ, Z.pow_succ_r in Hb by lia. assert (0 < 8 ^ Z.of_nat (length ds)) by (apply Z.pow_pos_nonneg; lia).
    assert (i8 (48 + d) - 48 = d) as -> by (rewrite swrap_small by lia; lia).
    rewrite Z.shiftl_mul_pow2 by lia. change (2 ^ 3) with 8. rewrite swrap_small by nia. rewrite (Z.mul_comm res 8), lor_digit by done. rewrite (Z.mul_comm 8 res).
    apply IH; [lia|destruct Hend as [?|?]; [left; lia|by right]|lia|nia].
Qed.

(** A field of a header: octal digits up to a NUL or the end of the field. *)
Lemma tar_octal_value ds lim rest : Forall (fun d => 0 <= d < 8) ds -> (length ds <= lim)%nat -> (lim = length ds \/ exists r, rest = 0 :: r) -> (length ds <= 20)%nat ->
  tar_octal ((Z.add 48 <$> ds) ++ rest) lim = Some (octal_of ds).
Proof.
  intros Hd Hl He H20. apply octal_from_run; [done|done|done|lia|]. rewrite Z.mul_1_l. apply Z.le_lt_trans with (8 ^ 20); [|done].
  apply Z.pow_le_mono_r; lia.
Qed.

(** ** Blocks in the image *)
Section image.
Context {P : Type} `{PageAlloc P}.
Context (vn a : Z).
Implicit Types (r : ramfs P) (es : list entry) (ts : list Z) (A : gset Z).

Lemma owned_insert_image es (i : nat) b : es !! i = Some None -> owned (<[i := Some (b, false)]> es) = owned es.
Proof using Type.
  intros Hi. rewrite <- (take_drop_middle es i None Hi) at 2. rewrite insert_take_drop by (by eapply lookup_lt_Some). rewrite !owned_app. done.
Qed.

Lemma indexed_image r es ts size A k (i : nat) b m q : indexed vn a r es ts size A k -> es !! i = Some None -> block_ok b -> MM_PHYS (vpage b) ∈ A ->
  (forall j o, es !! j <> Some (Some (b, o))) ->
  q !! a = Some (mk_priv size (Z.of_nat (length es)) (l0_words (<[i := Some (b, false)]> es)) (l1_words ts)) ->
  (forall j t i' e', ts !! j = Some t -> <[i := Some (b, false)]> es !! i' = Some e' -> RAM_BLOCKS_L0 <= Z.of_nat i' -> l1_index (Z.of_nat i') = Z.of_nat j ->
    exists pg, m !! t = Some pg /\ peek 8 (8 * l0_index (Z.of_nat i')) pg = Some (entw e')) ->
  (forall t, kpage t -> exists pg, m !! t = Some pg /\ length pg = 4096%nat) ->
  indexed vn a (mk_ramfs (rf_vfs r) q (rf_frames r) m) (<[i := Some (b, false)]> es) ts size A k.
Proof using Type.
  intros Hx Hi Hb HbA Hfresh Hq Ht Hm. pose proof (lookup_lt_Some _ _ _ Hi) as Hlt.
  split; cbn [rf_vfs rf_privs rf_mem rf_frames]; rewrite ?length_insert, ?owned_insert_image by done; try done; try apply Hx.
  - intros j b' o Hj. destruct (decide (j = i)) as [->|Hne].
    + rewrite list_lookup_insert_eq in Hj by done. by injection Hj as <- <-.
    + rewrite list_lookup_insert_ne in Hj by done. by apply (ix_block _ _ _ _ _ _ _ _ Hx j).
  - intros j j' b' o o' Hj Hj'. destruct (decide (j = i)) as [->|Hne], (decide (j' = i)) as [->|Hne']; rewrite ?list_lookup_insert_eq in * by done;
      rewrite ?list_lookup_insert_ne in * by done; try done.
    + injection Hj as <- <-. by destruct (Hfresh j' o').
    + injection Hj' as <- <-. by destruct (Hfresh j o).
    + by apply (ix_inj _ _ _ _ _ _ _ _ Hx j j' b' o o').
Qed.

Lemma flag_block b : b mod 512 = 0 -> flagged b 511 = false.
Proof using Type. intros Hb. unfold flagged. change 511 with (Z.ones 9). rewrite Z.land_ones by lia. change (2 ^ 9) with 512. by rewrite Hb. Qed.

Lemma image_set_run r es ts size A k (i : nat) b : indexed vn a r es ts size A k -> es !! i = Some None -> block_ok b -> MM_PHYS (vpage b) ∈ A ->
  (forall j o, es !! j <> Some (Some (b, o))) ->
  exists r', ram_vnode_bset_set vn (Z.of_nat i) b r = Ret (0, r') /\ indexed vn a r' (<[i := Some (b, false)]> es) ts size A k /\ beside a ts r r'.
Proof using Type.
  intros Hx Hi Hb HbA Hf. pose proof (proj1 Hb) as H512.
  destruct (bset_store vn a r es ts size A k i (Some (b, false)) b (rf_frames r) Hx Hi) as (q & m & E & B & Hq & Ht & Hm).
  - apply entry_range. by intros ?? [= <- <-].
  - unfold RAM_BSET_AVAIL. by apply lor_low.
  - by rewrite flag_block.
  - replace (set_rframes (rf_frames r) r) with r in E by by destruct r. eexists. split; [exact E|]. split; [by apply indexed_image|exact B].
Qed.

(** The entries of [n] blocks from [base] on. *)
Definition image_blocks (base : Z) (n : nat) : list entry := (fun j => Some (base + 512 * Z.of_nat j, false)) <$> seq 0 n.
Definition in_image A (base : Z) (n : nat) : Prop := forall j, (j < n)%nat -> block_ok (base + 512 * Z.of_nat j) /\ MM_PHYS (vpage (base + 512 * Z.of_nat j)) ∈ A.

Lemma image_blocks_lookup base n j : (j < n)%nat -> image_blocks base n !! j = Some (Some (base + 512 * Z.of_nat j, false)).
Proof using Type. intros Hj. unfold image_blocks. rewrite list_lookup_fmap, lookup_seq_lt by done. done. Qed.
Lemma image_blocks_length base n : length (image_blocks base n) = n.
Proof using Type. unfold image_blocks. by rewrite length_fmap, length_seq. Qed.
Lemma image_blocks_snoc base n : image_blocks base (S n) = image_blocks base n ++ [Some (base + 512 * Z.of_nat n, false)].
Proof using Type. unfold image_blocks. rewrite seq_S, fmap_app. done. Qed.
Lemma image_blocks_owned base n : owned (image_blocks base n) = [].
Proof using Type. unfold image_blocks. generalize 0%nat. induction n as [|n IH]; intros i; [done|]. cbn. apply IH. Qed.

Lemma image_fill_run bytes n : forall r m ts size A k, indexed vn a r (image_blocks (bytes + 512) m ++ replicate n None) ts size A k ->
  in_image A (bytes + 512) (m + n) ->
  exists r', for_range (set_block vn bytes) n (Z.of_nat m) r = Ret (tt, r') /\ indexed vn a r' (image_blocks (bytes + 512) (m + n)) ts size A k /\ beside a ts r r'.
Proof using Type.
  induction n as [|n IH]; intros r m ts size A k Hx Hi.
  { exists r. cbn [replicate] in Hx. rewrite app_nil_r in Hx. rewrite Nat.add_0_r. split; [done|]. split; [done|]. apply beside_refl. }
  cbn [for_range]. set (pre := image_blocks (bytes + 512) m) in *. set (b := bytes + 512 + 512 * Z.of_nat m).
  assert (length pre = m) as Hlp by apply image_blocks_length. destruct (Hi m ltac:(lia)) as [Hb HbA].
  destruct (image_set_run r (pre ++ replicate (S n) None) ts size A k m b Hx) as (r1 & E1 & Hx1 & B1); [|exact Hb|exact HbA| |].
  { rewrite lookup_app_r by lia. by rewrite Hlp, Nat.sub_diag. }
  { intros j o Hj. apply lookup_app_Some in Hj as [Hj|[_ Hj]].
    - pose proof (lookup_lt_Some _ _ _ Hj) as Hjl. unfold pre in Hj. rewrite image_blocks_lookup in Hj by lia. unfold b in Hj. injection Hj as Hj _. lia.
    - apply lookup_replicate in Hj as [Hj _]. done. }
  rewrite (bind_Ret _ _ r tt r1).
  2:{ unfold set_block. replace (bytes + Z.of_nat m * 512 + 512) with b by (unfold b; lia). by rewrite (bind_Ret _ _ _ _ _ E1). }
  rewrite insert_app_r_alt, Hlp, Nat.sub_diag in Hx1 by lia. cbn [replicate list_insert insert] in Hx1.
  destruct (IH r1 (S m) ts size A k) as (r2 & E2 & Hx2 & B2).
  { rewrite image_blocks_snoc, <- app_assoc. exact Hx1. }
  { intros j Hj. apply Hi. lia. }
  exists r2. replace (Z.of_nat m + 1) with (Z.of_nat (S m)) by lia. split; [exact E2|]. rewrite Nat.add_succ_comm in Hx2. split; [exact Hx2|]. by eapply beside_trans.
Qed.
End image.

(** ** Regular files *)
Section regular.
Context {P : Type} `{PageAlloc P} `{Slab}.
Implicit Types (r : ramfs P) (A : gset Z).

(** The byte of memory at an address. *)
Definition mbyte (m : gmap Z (list Z)) (x : Z) : option Z := pg ← m !! vpage x; pg !! Z.to_nat (x mod MM_PAGE_SIZE).

Lemma image_byte (m : gmap Z (list Z)) A base n i : in_image A base n -> 0 <= i < 512 * Z.of_nat n ->
  fbyte m (image_blocks base n) i = mbyte m (base + i).
Proof using Type.
  intros Hi Hr. assert (0 <= i / 512 < Z.of_nat n) as Hd by (split; [apply Z.div_pos; lia|apply Z.div_lt_upper_bound; lia]).
  unfold fbyte. rewrite image_blocks_lookup by lia. rewrite Z2Nat.id by lia. destruct (Hi (Z.to_nat (i / 512)) ltac:(lia)) as [Hb _]. rewrite Z2Nat.id in Hb by lia.
  pose proof (Z.div_mod i 512 ltac:(done)). pose proof (Z.mod_pos_bound i 512 ltac:(done)) as Hm. destruct (block_addr _ (i mod 512) Hb Hm) as [E1 E2].
  unfold mbyte. replace (base + i) with (base + 512 * (i / 512) + i mod 512) by lia. unfold vpage at 2. by rewrite E2, E1.
Qed.

Lemma map_file_run node a r A k bytes data : indexed node a r [] [] 0 A k -> let n := blocks_for (Z.of_nat (length data)) in
  n <= RAM_LIMIT -> tables_for n <= k -> in_image A (bytes + 512) (Z.to_nat n) ->
  (forall i, 0 <= i < Z.of_nat (length data) -> mbyte (rf_mem r) (bytes + 512 + i) = data !! Z.to_nat i) ->
  exists r', tar_map_file node bytes (Z.of_nat (length data)) r = Ret (tt, r') /\ contents node a r' data A (k - tables_for n) (tables_for n) /\ rf_vfs r' = rf_vfs r.
Proof using Type.
  intros Hx n Hn Hk Himg Hdata. set (len := Z.of_nat (length data)) in *. pose proof (blocks_range len ltac:(lia)) as [Hn0 Hnl]. fold n in Hn0, Hnl.
  assert (n * 512 < 2 ^ 60) as Hsmall by (unfold RAM_LIMIT, RAM_MAX_L1, RAM_BLOCKS_L0, RAM_BLOCKS_L1, RAM_BLOCKS_PER_Ln in Hn; lia).
  unfold tar_map_file. rewrite !(uwrap_small 64) by lia.
  destruct (resize_up_run node a r [] [] 0 A k len Hx ltac:(lia)) as (r1 & ts & E1 & _ & B1 & Hx1); [fold n; change (Z.of_nat (length [])) with 0; lia|fold n; change (tables_for (Z.of_nat (length []))) with 0; lia|].
  rewrite (bind_Ret _ _ _ _ _ E1), (bind_Ret _ _ r1 tt r1) by done. replace ((511 + len) / 512) with n by (unfold n, blocks_for; f_equal; lia).
  cbn [length app] in Hx1. rewrite Nat.sub_0_r in Hx1. fold n in Hx1. change (tables_for (Z.of_nat 0)) with 0 in Hx1. rewrite Z.sub_0_r in Hx1.
  destruct (image_fill_run node a bytes (Z.to_nat n) r1 0 ts len A (k - tables_for n) Hx1) as (r2 & E2 & Hx2 & B2); [done|]. cbn [Nat.add] in Hx2.
  exists r2. split; [exact E2|]. split; [|destruct B1, B2; congruence].
  exists (image_blocks (bytes + 512) (Z.to_nat n)), ts. fold len. split; [done|]. rewrite image_blocks_length, image_blocks_owned. fold n.
  pose proof (ix_tabs _ _ _ _ _ _ _ _ Hx2) as Ht. rewrite image_blocks_length, Z2Nat.id in Ht by lia. cbn [length].
  split; [apply list.Forall_forall; intros e (j & -> & _)%list_elem_of_fmap; by eexists|]. split; [lia|]. split; [lia|].
  intros i Hi. rewrite (image_byte _ A) by (done || lia). rewrite <- Hdata by done. unfold mbyte.
  destruct B1 as (_ & _ & M1), B2 as (_ & _ & M2).
  assert (vpage (bytes + 512 + i) ∉ ts) as Hnt.
  { assert (0 <= i / 512 < n) as Hd by (split; [apply Z.div_pos; lia|apply Z.div_lt_upper_bound; lia]).
    pose proof (image_blocks_lookup (bytes + 512) (Z.to_nat n) (Z.to_nat (i / 512)) ltac:(lia)) as Hl. pose proof (block_not_table _ _ _ _ _ _ _ _ _ _ _ Hx2 Hl) as Hb. rewrite Z2Nat.id in Hb by lia.
    destruct (Himg (Z.to_nat (i / 512)) ltac:(lia)) as [Hbo _]. rewrite Z2Nat.id in Hbo by lia. pose proof (Z.div_mod i 512 ltac:(done)). pose proof (Z.mod_pos_bound i 512 ltac:(done)) as Hm.
    destruct (block_addr _ (i mod 512) Hbo Hm) as [_ E]. replace (bytes + 512 + i) with (bytes + 512 + 512 * (i / 512) + i mod 512) by lia. unfold vpage at 1. by rewrite E. }
  by rewrite M2, M1.
Qed.

(** Setting owner and rights of a node does not touch its data. *)
Definition node_set (node : Z) (g : vnode -> vnode) (v : vnode) r : ramfs P := set_vfs (set_vnodes (<[node := g v]> (vnodes (rf_vfs r))) (rf_vfs r)) r.

Lemma node_set_run node g v r : vnodes (rf_vfs r) !! node = Some v -> on_vfs (vn_update node g) r = Ret (tt, node_set node g v r).
Proof using Type. intros Hv. unfold on_vfs. by rewrite (zoom_Ret _ _ _ _ _ _ (vn_update_run _ node g v Hv)). Qed.

Lemma node_set_indexed node a g v r es ts size A k : indexed node a r es ts size A k -> vnodes (rf_vfs r) !! node = Some v -> v_fs_data (g v) = v_fs_data v ->
  indexed node a (node_set node g v r) es ts size A k.
Proof using Type.
  intros Hx Hv Hg. destruct (ix_node _ _ _ _ _ _ _ _ Hx) as (v' & Hv' & Ha). destruct Hx as [F1 F2 F3 F4 F5 F6 F7 F8 F9 F10 F11]. split; try done.
  exists (g v). cbn. rewrite lookup_insert_eq. split; [done|]. congruence.
Qed.

(** Owner and rights as the header has them. *)
Definition owned_as (uid gid mode : Z) (v : vnode) : vnode := with_mode (Z.land mode VFS_MODE_MASK) (with_owner (u32 uid) (u32 gid) v).

Lemma attributes_run node hdr v r uid gid mode : vnodes (rf_vfs r) !! node = Some v ->
  tar_octal (drop (Z.to_nat TAR_UID) hdr) 8 = Some uid -> tar_octal (drop (Z.to_nat TAR_GID) hdr) 8 = Some gid -> tar_octal (drop (Z.to_nat TAR_MODE) hdr) 8 = Some mode ->
  tar_attributes node hdr r = Ret (tt, node_set node (owned_as uid gid mode) v r).
Proof using Type.
  intros Hv Hu Hg Hm. unfold tar_attributes, field. rewrite (bind_Ret _ _ r uid r) by by apply load_Some. rewrite (bind_Ret _ _ _ _ _ (node_set_run node _ v r Hv)).
  set (r1 := node_set _ _ _ r). rewrite (bind_Ret _ _ r1 gid r1) by by apply load_Some.
  rewrite (bind_Ret _ _ _ _ _ (node_set_run node _ _ r1 (lookup_insert_eq _ _ _))). set (r2 := node_set _ _ _ r1). rewrite (bind_Ret _ _ r2 mode r2) by by apply load_Some.
  rewrite (node_set_run node _ _ r2 (lookup_insert_eq _ _ _)). unfold r2, r1, node_set. cbn. by rewrite !insert_insert_eq.
Qed.
End regular.

(** ** Paths of the image

    A path is its elements with slashes between them, and perhaps one at the end. *)
Definition element_ok (e : list Z) : Prop := Forall (fun c => c <> 0 /\ c <> 47) e /\ (length e < NODE_MAXLEN)%nat.
Fixpoint join (e : list Z) (es : list (list Z)) (slash : bool) (rest : list Z) : list Z :=
  match es with
  | [] => e ++ (if slash then [47; 0] else [0]) ++ rest
  | e' :: es => e ++ 47 :: join e' es slash rest
  end.

Lemma strchr_elem e c r : Forall (fun c => c <> 0 /\ c <> 47) e -> strchr (e ++ c :: r) 47 =
  if c =? 0 then Some None else if c =? 47 then Some (Some (Z.of_nat (length e))) else k ← strchr r 47; Some (option_map (Z.add (Z.of_nat (length e) + 1)) k).
Proof.
  induction 1 as [|x e [Hx Hs] _ IH]; cbn [app strchr length].
  - change (u8 47) with 47. destruct (c =? 0); [done|]. by destruct (c =? 47).
  - rewrite (proj2 (Z.eqb_neq x 0) Hx). change (u8 47) with 47. rewrite (proj2 (Z.eqb_neq x 47) Hs), IH. destruct (c =? 0); [done|]. destruct (c =? 47); [cbn; do 2 f_equal; lia|].
    destruct (strchr r 47) as [[k|]|]; cbn; try done. do 2 f_equal. lia.
Qed.

Lemma strlen_elem e r : Forall (fun c => c <> 0 /\ c <> 47) e -> strlen (e ++ 0 :: r) = Some (Z.of_nat (length e)).
Proof. intros He. apply strlen_cstr. split; [|by exists r]. eapply Forall_impl; [|exact He]. by intros x [? _]. Qed.

Section paths.
Context {P : Type} `{PageAlloc P} `{HS : Slab}.
Context (slab_room : forall X, slab_calloc X ∉ X /\ slab_calloc X <> 0).
Implicit Types (r : ramfs P) (kids : Z -> list Z).
Abbreviation vs r := (vnodes (rf_vfs r)).

Lemma first_char e es slash rest : element_ok e -> e <> [] -> exists c, join e es slash rest !! 0%nat = Some c /\ c <> 0 /\ c <> 47.
Proof using Type. intros [He _] Hne. destruct He as [|c e Hc _]; [done|]. exists c. by destruct es. Qed.

Lemma path_element_last e slash rest r : element_ok e -> path_element (join e [] slash rest) r = Ret ((e, None), r).
Proof using Type.
  intros [He Hl]. unfold path_element. cbn [join]. destruct slash; cbn [app].
  - rewrite (bind_Ret _ _ r (Some (Z.of_nat (length e))) r) by (apply load_Some; by rewrite strchr_elem).
    rewrite (bind_Ret _ _ r tt r) by by rewrite (proj2 (Z.ltb_lt _ _)) by lia. rewrite Nat2Z.id, drop_app_length, take_app_length.
    by rewrite (bind_Ret _ _ r (0 :: rest) r), (bind_Ret _ _ r 0 r).
  - rewrite (bind_Ret _ _ r None r) by (apply load_Some; by rewrite strchr_elem).
    rewrite (bind_Ret _ _ r (e ++ 0 :: drop (S (length e)) (replicate NODE_MAXLEN 0)) r).
    2:{ apply load_Some, strcpy_cstr; [|by rewrite length_replicate]. split; [|by exists rest]. eapply Forall_impl; [|exact He]. by intros x [? _]. }
    rewrite (bind_Ret _ _ r (Z.of_nat (length e)) r) by by apply load_Some, strlen_elem. by rewrite Nat2Z.id, take_app_length.
Qed.

Lemma path_element_more e e' es slash rest r : element_ok e -> element_ok e' -> e' <> [] ->
  path_element (join e (e' :: es) slash rest) r = Ret ((e, Some (join e' es slash rest)), r).
Proof using Type.
  intros [He Hl] He' Hne. unfold path_element. cbn [join].
  rewrite (bind_Ret _ _ r (Some (Z.of_nat (length e))) r) by (apply load_Some; by rewrite strchr_elem).
  rewrite (bind_Ret _ _ r tt r) by by rewrite (proj2 (Z.ltb_lt _ _)) by lia. rewrite Nat2Z.id, drop_app_length, take_app_length.
  destruct (first_char e' es slash rest He' Hne) as (c & Hc & Hc0 & Hc47).
  rewrite (bind_Ret _ _ r (join e' es slash rest) r), (bind_Ret _ _ r c r).
  - by rewrite (proj2 (Z.eqb_neq c 0) Hc0).
  - by apply load_Some.
  - apply load_Some. cbn [skip_seps]. destruct (join e' es slash rest) as [|x l]; [done|]. injection Hc as ->. cbn. by rewrite (proj2 (Z.eqb_neq c 47) Hc47).
Qed.

(** Where a path leads in the tree. *)
Fixpoint walk_to (m : gmap Z vnode) kids (node : Z) (es : list (list Z)) : option Z :=
  match es with [] => Some node | e :: es => c ← find_kid m (kids node) (string_of e); walk_to m kids c es end.

Lemma string_of_length l : String.length (string_of l) = length l.
Proof using Type. unfold string_of. induction l as [|c l IH]; [done|]. cbn. by f_equal. Qed.

Lemma lookup_name_run r kids node e : tree_ok (vs r) kids -> is_Some (vs r !! node) -> element_ok e ->
  on_vfs (vnode_lookup_child node (string_of e)) r = Ret (from_option Found (Err (- ENOENT)) (find_kid (vs r) (kids node) (string_of e)), r).
Proof using Type.
  intros Ht Hn [_ Hl]. unfold on_vfs. erewrite zoom_Ret; [|apply (lookup_child_run _ kids); [done|done|by rewrite string_of_length]]. by destruct r.
Qed.

Lemma kid_there r kids node name c : tree_ok (vs r) kids -> find_kid (vs r) (kids node) name = Some c -> is_Some (vs r !! c).
Proof using Type. intros Ht Hf. apply find_kid_elem in Hf as [Hc _]. destruct (t_kid _ _ Ht node c Hc) as (_ & v & Hv & _). by exists v. Qed.

(** Looking a path up without creating anything. *)
Lemma find_path_run r kids t slash rest es : forall fuel node e, tree_ok (vs r) kids -> is_Some (vs r !! node) -> element_ok e -> Forall (fun e => element_ok e /\ e <> []) es ->
  (length es < fuel)%nat ->
  create_path fuel node (join e es slash rest) t false r = Ret (from_option Found (Err (- ENOENT)) (walk_to (vs r) kids node (e :: es)), r).
Proof using Type.
  induction es as [|e' es IH]; intros [|fuel] node e Ht Hn He Hes Hf; cbn [length] in Hf; try lia; cbn [create_path].
  - rewrite (bind_Ret _ _ _ _ _ (path_element_last e slash rest r He)). cbn [fst snd]. rewrite (bind_Ret _ _ _ _ _ (lookup_name_run r kids node e Ht Hn He)).
    cbn [walk_to]. by destruct (find_kid _ _ _).
  - apply list.Forall_cons in Hes as [[He' Hne] Hes]. rewrite (bind_Ret _ _ _ _ _ (path_element_more e e' es slash rest r He He' Hne)). cbn [fst snd].
    rewrite (bind_Ret _ _ _ _ _ (lookup_name_run r kids node e Ht Hn He)). cbn [walk_to]. destruct (find_kid (vs r) (kids node) (string_of e)) as [c|] eqn:E; [|done].
    cbn [from_option mbind option_bind]. rewrite (IH fuel c e' Ht (kid_there _ _ _ _ _ Ht E) He' Hes ltac:(lia)). done.
Qed.

(** ** Making the nodes of a path *)
Record grows r kids r' kids' : Prop := {
  gw_tree : tree_ok (vs r') kids';
  gw_node : forall q, is_Some (vs r !! q) -> is_Some (vs r' !! q);
  gw_find : forall q name x, find_kid (vs r) (kids q) name = Some x -> find_kid (vs r') (kids' q) name = Some x;
  gw_priv : forall q x, rf_privs r !! q = Some x -> rf_privs r' !! q = Some x;
  gw_mem : rf_mem r' = rf_mem r;
  gw_frames : rf_frames r' = rf_frames r;
}.

Lemma grows_refl r kids : tree_ok (vs r) kids -> grows r kids r kids.
Proof using Type. by split. Qed.
Lemma grows_trans r1 k1 r2 k2 r3 k3 : grows r1 k1 r2 k2 -> grows r2 k2 r3 k3 -> grows r1 k1 r3 k3.
Proof using Type. intros [? ? ? ? ? ?] [? ? ? ? ? ?]. split; [done|auto|auto|auto|congruence|congruence]. Qed.

Lemma find_kid_names (m m' : gmap Z vnode) l name : (forall x, x ∈ l -> v_name <$> m' !! x = v_name <$> m !! x) -> find_kid m' l name = find_kid m l name.
Proof using Type.
  induction l as [|x l IH]; intros Hn; [done|]. cbn [find_kid]. rewrite (Hn x) by by left. rewrite IH; [done|]. intros y Hy. apply Hn. by right.
Qed.

(** A walk survives what is added later. *)
Lemma walk_grows r kids r' kids' es : grows r kids r' kids' -> forall node p, walk_to (vs r) kids node es = Some p -> walk_to (vs r') kids' node es = Some p.
Proof using Type.
  intros Hg. induction es as [|e es IH]; intros node p; [done|]. cbn [walk_to]. destruct (find_kid (vs r) (kids node) (string_of e)) as [c|] eqn:E; [|done].
  rewrite (gw_find _ _ _ _ Hg _ _ _ E). apply IH.
Qed.

(** The new node: its own private data, if any, and nothing else changes. *)
Lemma ram_create_run r t name : (String.length name < NODE_MAXLEN)%nat ->
  exists p w privs, ram_vnode_create t name r = Ret (p, mk_ramfs (set_vnodes (<[p := w]> (vs r)) (rf_vfs r)) privs (rf_frames r) (rf_mem r)) /\
    vs r !! p = None /\ p <> 0 /\ v_name w = name /\ v_parent w = 0 /\ first_child w = 0 /\ (forall q x, rf_privs r !! q = Some x -> privs !! q = Some x).
Proof using slab_room.
  intros Hn. set (p := slab_calloc (dom (vs r))). destruct (slab_room (dom (vs r))) as [Hf H0]. fold p in Hf, H0. apply not_elem_of_dom in Hf.
  set (v0 := mk_vnode t name 0 0 0 0 0 0 0 0 0 0 0 0 0 0). set (r1 := set_vfs (set_vnodes (<[p := v0]> (vs r)) (rf_vfs r)) r).
  assert (on_vfs (vnode_create t (Some name)) r = Ret (p, r1)) as E1.
  { unfold on_vfs. erewrite zoom_Ret; [done|]. unfold vnode_create. rewrite (bind_Ret _ _ (rf_vfs r) (rf_vfs r) (rf_vfs r)) by done. fold p.
    rewrite (bind_Ret _ _ (rf_vfs r) tt (rf_vfs r)) by by rewrite nonnull_true. rewrite (bind_Ret _ _ (rf_vfs r) tt (rf_vfs r)) by by apply assert_run, Nat.ltb_lt. done. }
  unfold ram_vnode_create. rewrite (bind_Ret _ _ _ _ _ E1).
  destruct (bool_decide (t = VN_REG) || bool_decide (t = VN_LNK)).
  - set (q := slab_calloc (dom (rf_privs r))). destruct (slab_room (dom (rf_privs r))) as [Hqf Hq0]. fold q in Hqf, Hq0. apply not_elem_of_dom in Hqf.
    set (r2 := set_privs (<[q := priv_zero]> (rf_privs r)) r1). rewrite (bind_Ret _ _ r1 q r2).
    2:{ rewrite (bind_Ret _ _ r1 q r1), (bind_Ret _ _ r1 tt r1) by (done || by rewrite nonnull_true). done. }
    exists p, (set_node q v0), (<[q := priv_zero]> (rf_privs r)). split.
    { unfold on_vfs. erewrite bind_Ret; [|apply zoom_Ret, vn_update_run; cbn; apply lookup_insert_eq]. cbn. by rewrite insert_insert_eq. }
    split_and!; try done. intros q' x Hx. rewrite lookup_insert_ne by congruence. done.
  - rewrite (bind_Ret _ _ r1 0 r1) by done. exists p, (set_node 0 v0), (rf_privs r). split; [|by split_and!].
    unfold on_vfs. erewrite bind_Ret; [|apply zoom_Ret, vn_update_run; cbn; apply lookup_insert_eq]. cbn. by rewrite insert_insert_eq.
Qed.

Lemma create_kid_run r kids node t name : tree_ok (vs r) kids -> is_Some (vs r !! node) -> (String.length name < NODE_MAXLEN)%nat -> find_kid (vs r) (kids node) name = None ->
  exists p r1 r' kids', ram_vnode_create t name r = Ret (p, r1) /\ on_vfs (vnode_attach node p) r1 = Ret (tt, r') /\
    grows r kids r' kids' /\ find_kid (vs r') (kids' node) name = Some p /\ is_Some (vs r' !! p).
Proof using slab_room.
  intros Ht [pv Hpv] Hn Hnone. destruct (ram_create_run r t name Hn) as (p & w & privs & E1 & Hp & H0 & Hwn & Hwp & Hwf & Hpr).
  set (r1 := mk_ramfs _ privs _ _) in E1. assert (node <> 0) as Hn0 by (intros ->; rewrite (t_null _ _ Ht) in Hpv; done). assert (node <> p) as Hnp by congruence.
  assert (vs r1 !! node = Some pv) as Hpv1 by (cbn; by rewrite lookup_insert_ne by done). assert (vs r1 !! p = Some w) as Hp1 by apply lookup_insert_eq.
  set (m' := attached node p pv w (vs r1)). set (kids' := kids_set node (p :: kids node) kids).
  exists p, r1, (set_vfs (set_vnodes m' (rf_vfs r1)) r1), kids'. split; [exact E1|]. split.
  { unfold on_vfs. erewrite zoom_Ret; [done|]. by apply attach_run. }
  assert (tree_ok (vs r1) kids) as Ht1 by by apply node_create_ok.
  assert (tree_ok m' kids') as Ht' by by apply attach_ok.
  assert (forall x, is_Some (vs r !! x) -> v_name <$> m' !! x = v_name <$> vs r !! x) as Hnames.
  { intros x [v Hv]. unfold m', attached. destruct (decide (x = node)) as [->|]; [rewrite lookup_insert_eq; cbn; by rewrite Hpv|].
    assert (x <> p) by congruence. rewrite !lookup_insert_ne by done. cbn. by rewrite lookup_insert_ne by done. }
  assert (v_name <$> m' !! p = Some name) as Hpn by (unfold m', attached; rewrite lookup_insert_ne, lookup_insert_eq by done; cbn; by rewrite Hwn).
  assert (forall q nm, find_kid m' (kids q) nm = find_kid (vs r) (kids q) nm) as Hsame.
  { intros q nm. apply find_kid_names. intros x Hx. apply Hnames. pose proof (kids_dom _ _ q Ht) as Hd. rewrite list.Forall_forall in Hd. by apply Hd. }
  split; [split|split].
  - exact Ht'.
  - intros q [v Hv]. specialize (Hnames q (mk_is_Some _ _ Hv)). cbn. rewrite Hv in Hnames. destruct (m' !! q) as [u|]; [by exists u|discriminate Hnames].
  - intros q nm x Hx. cbn [rf_vfs set_vfs vnodes set_vnodes]. unfold kids'. destruct (decide (q = node)) as [->|Hq]; [|rewrite kids_set_ne by done; by rewrite Hsame].
    rewrite kids_set_eq. cbn [find_kid]. rewrite Hpn. destruct (decide (Some name = Some nm)) as [[= ->]|]; [congruence|]. by rewrite Hsame.
  - exact Hpr.
  - done.
  - done.
  - cbn [rf_vfs set_vfs vnodes set_vnodes]. unfold kids'. rewrite kids_set_eq. cbn [find_kid]. by rewrite Hpn, decide_True.
  - cbn. unfold m', attached. rewrite lookup_insert_ne, lookup_insert_eq by done. by eexists.
Qed.

Lemma create_path_run t slash rest es : forall fuel r kids node e, tree_ok (vs r) kids -> is_Some (vs r !! node) -> element_ok e -> Forall (fun e => element_ok e /\ e <> []) es ->
  (length es < fuel)%nat ->
  exists p r' kids', create_path fuel node (join e es slash rest) t true r = Ret (Found p, r') /\ grows r kids r' kids' /\ walk_to (vs r') kids' node (e :: es) = Some p.
Proof using slab_room.
  induction es as [|e' es IH]; intros [|fuel] r kids node e Ht Hn He Hes Hf; cbn [length] in Hf; try lia; cbn [create_path]; [|apply list.Forall_cons in Hes as [[He' Hne] Hes]].
  - rewrite (bind_Ret _ _ _ _ _ (path_element_last e slash rest r He)). cbn [fst snd]. rewrite (bind_Ret _ _ _ _ _ (lookup_name_run r kids node e Ht Hn He)).
    destruct (find_kid (vs r) (kids node) (string_of e)) as [c|] eqn:E; cbn [from_option].
    + exists c, r, kids. split; [done|]. split; [by apply grows_refl|]. cbn [walk_to]. by rewrite E.
    + destruct (create_kid_run r kids node t (string_of e) Ht Hn) as (p & r1 & r' & kids' & E1 & E2 & Hg & Hfk & _); [rewrite string_of_length; apply He|done|].
      rewrite (bind_Ret _ _ _ _ _ E1), (bind_Ret _ _ _ _ _ E2). exists p, r', kids'. split; [done|]. split; [done|]. cbn [walk_to]. by rewrite Hfk.
  - rewrite (bind_Ret _ _ _ _ _ (path_element_more e e' es slash rest r He He' Hne)). cbn [fst snd]. rewrite (bind_Ret _ _ _ _ _ (lookup_name_run r kids node e Ht Hn He)).
    destruct (find_kid (vs r) (kids node) (string_of e)) as [c|] eqn:E; cbn [from_option].
    + destruct (IH fuel r kids c e' Ht (kid_there _ _ _ _ _ Ht E) He' Hes ltac:(lia)) as (p & r' & kids' & E' & Hg & Hw). exists p, r', kids'. split; [done|]. split; [done|].
      change (walk_to (vs r') kids' node (e :: e' :: es)) with (c0 ← find_kid (vs r') (kids' node) (string_of e); walk_to (vs r') kids' c0 (e' :: es)). by rewrite (gw_find _ _ _ _ Hg _ _ _ E).
    + destruct (create_kid_run r kids node t (string_of e) Ht Hn) as (c & r1 & r2 & kids2 & E1 & E2 & Hg2 & Hfk & Hc); [rewrite string_of_length; apply He|done|].
      rewrite (bind_Ret _ _ _ _ _ E1), (bind_Ret _ _ _ _ _ E2).
      destruct (IH fuel r2 kids2 c e' (gw_tree _ _ _ _ Hg2) Hc He' Hes ltac:(lia)) as (p & r' & kids' & E' & Hg & Hw). exists p, r', kids'. split; [done|]. split; [by eapply grows_trans|].
      change (walk_to (vs r') kids' node (e :: e' :: es)) with (c0 ← find_kid (vs r') (kids' node) (string_of e); walk_to (vs r') kids' c0 (e' :: es)). by rewrite (gw_find _ _ _ _ Hg _ _ _ Hfk).
Qed.

Lemma join_length e es slash rest : (length es < S (length (join e es slash rest)))%nat.
Proof using Type. revert e. induction es as [|e' es IH]; intros e; cbn [join length]; [lia|]. specialize (IH e'). rewrite length_app. cbn [length]. lia. Qed.

(** A path the first pass makes is the path the second pass finds, also after any other
    paths have been made: no later entry moves a node. *)
Theorem tar_path_found r kids root t t' e es slash rest : tree_ok (vs r) kids -> is_Some (vs r !! root) -> element_ok e -> Forall (fun e => element_ok e /\ e <> []) es ->
  exists p r' kids', tar_mapper_create_path root (join e es slash rest) t true r = Ret (Found p, r') /\ grows r kids r' kids' /\
    forall r2 kids2, grows r' kids' r2 kids2 -> tar_mapper_create_path root (join e es slash rest) t' false r2 = Ret (Found p, r2).
Proof using slab_room.
  intros Ht Hn He Hes. pose proof (join_length e es slash rest) as Hl.
  destruct (create_path_run t slash rest es _ r kids root e Ht Hn He Hes Hl) as (p & r' & kids' & E & Hg & Hw). exists p, r', kids'. split; [exact E|]. split; [done|].
  intros r2 kids2 Hg2. unfold tar_mapper_create_path. rewrite (find_path_run r2 kids2 t' slash rest es) by first [done | apply (gw_tree _ _ _ _ Hg2) | by apply (gw_node _ _ _ _ Hg2), (gw_node _ _ _ _ Hg)].
  by rewrite (walk_grows _ _ _ _ _ Hg2 _ _ Hw).
Qed.
End paths.

(** ** Claims *)

(** C20: the entry of a regular file in the initial image.  When its header is at
    [off], its name leads to a node that is still empty, and the blocks behind the header
    hold [data], the second pass gives the node the owner and rights the header has in
    octal, makes it a file that holds exactly [data] without copying a byte, takes frames
    for nothing but the index, and goes on behind the data.  Reading the file then gives
    the bytes of the image. *)
Theorem tar_file_contents {P} `{PageAlloc P} `{Slab} root mem_base off hdr node a v (r : ramfs P) A k uid gid mode data :
  mem_get (mem_base + off) 512 r = Ret (hdr, r) -> hdr !! Z.to_nat TAR_TYPEFLAG = Some 48 ->
  tar_mapper_create_path root hdr VN_REG false r = Ret (Found node, r) -> vnodes (rf_vfs r) !! node = Some v -> indexed node a r [] [] 0 A k -> a <> 0 ->
  tar_octal (drop (Z.to_nat TAR_UID) hdr) 8 = Some uid -> tar_octal (drop (Z.to_nat TAR_GID) hdr) 8 = Some gid -> tar_octal (drop (Z.to_nat TAR_MODE) hdr) 8 = Some mode ->
  tar_octal (drop (Z.to_nat TAR_SIZE) hdr) 12 = Some (Z.of_nat (length data)) ->
  let n := blocks_for (Z.of_nat (length data)) in
  n <= RAM_LIMIT -> tables_for n <= k -> 0 <= off < 2 ^ 62 -> in_image A (mem_base + off + 512) (Z.to_nat n) ->
  (forall i, 0 <= i < Z.of_nat (length data) -> mbyte (rf_mem r) (mem_base + off + 512 + i) = data !! Z.to_nat i) ->
  exists r', tar_entry root mem_base off r = Ret (inr (off + 512 * n + 512), r') /\ vnodes (rf_vfs r') !! node = Some (owned_as uid gid mode v) /\
    contents node a r' data A (k - tables_for n) (tables_for n) /\
    forall f pos count, opened node r' f pos -> 0 <= pos -> 0 <= count ->
      let res := take (Z.to_nat count) (drop (Z.to_nat pos) data) in
      exists r'', ramfs_vnode_read f count r' = Ret ((Z.of_nat (length res), res), r'').
Proof.
  intros Hm Ht Hp Hv Hx Ha Hu Hg Hmo Hsz n Hn Hk Hoff Himg Hdata. unfold tar_entry. rewrite (bind_Ret _ _ _ _ _ Hm).
  rewrite (bind_Ret _ _ r VN_REG r) by (unfold tar_type; by rewrite (bind_Ret _ _ r 48 r) by by apply load_Some).
  rewrite (bind_Ret _ _ _ _ _ Hp), (bind_Ret _ _ _ _ _ (attributes_run node hdr v r uid gid mode Hv Hu Hg Hmo)). set (r1 := node_set node _ v r).
  rewrite (bind_Ret _ _ r1 (Z.of_nat (length data)) r1) by by apply load_Some.
  destruct (map_file_run node a r1 A k (mem_base + off) data) as (r2 & E2 & Hc & Hvf); [by apply node_set_indexed|done|done|done|exact Hdata|].
  rewrite (bind_Ret _ _ _ _ _ E2). exists r2. pose proof (blocks_range (Z.of_nat (length data)) ltac:(lia)) as [Hn0 Hnl]. fold n in Hn0, Hnl.
  unfold RAM_LIMIT, RAM_MAX_L1, RAM_BLOCKS_L0, RAM_BLOCKS_L1, RAM_BLOCKS_PER_Ln in Hn.
  replace (u64 (511 + Z.of_nat (length data)) / 512) with n by (rewrite uwrap_small by lia; unfold n, blocks_for; f_equal; lia).
  split; [rewrite uwrap_small by lia; by replace (off + n * 512 + 512) with (off + 512 * n + 512) by lia|]. split; [rewrite Hvf; apply lookup_insert_eq|]. split; [exact Hc|].
  intros f pos count Ho Hp0 Hc0. cbv zeta. destruct (read_contents node a r2 data A _ _ f pos count Hc Ha Ho Hp0 Hc0) as (r3 & E3 & _). by exists r3.
Qed.

(** ** An image: a directory, a file in it and a link to the file *)
Definition chars (s : string) : list Z := (fun c => Z.of_N (Ascii.N_of_ascii c)) <$> String.list_ascii_of_string s.
Definition padded (n : nat) (l : list Z) : list Z := l ++ replicate (n - length l) 0.
Definition tar_header (name mode uid gid size : string) (flag : Z) (link : string) : list Z :=
  padded 512 (padded 100 (chars name) ++ padded 8 (chars mode) ++ padded 8 (chars uid) ++ padded 8 (chars gid) ++ padded 12 (chars size) ++
    padded 20 [] ++ [flag] ++ padded 100 (chars link)).
Definition dir_header (name : string) : list Z := tar_header name "0000755" "0000000" "0000000" "00000000000" 53 "".
Definition file_header (name size : string) : list Z := tar_header name "0000644" "0000017" "0000144" size 48 "".
Definition link_header (name to : string) : list Z := tar_header name "0000777" "0000000" "0000000" "00000000000" 50 to.

Definition image_base : Z := MM_VIRTUALIZE 0x100000.
(** The file system 4 is to be mounted; a file is open on what will be node 3. *)
Definition image_state (image : list Z) : ramfs (list Z) :=
  mk_ramfs (mk_vfs ∅ 0 {[9 := mk_ofile 1 1 3 0 0]} {[4 := mk_fs 8 0 0 2]} [] [] ∅) ∅ [0x5000] {[image_base := padded 4096 image; MM_VIRTUALIZE 0x5000 := replicate 4096 0xAA]}.
Definition mount : cmd (ramfs (list Z)) Z := @ram_init _ frame_list next_slab 20 4 (0, image_base).
Definition node_of (p : Z) (o : outcome (Z * ramfs (list Z))) : option vnode := match o with Ret (_, r) => vnodes (rf_vfs r) !! p | _ => None end.

Example mount_example :
  let image := dir_header "etc/" ++ file_header "etc/motd" "00000000005" ++ padded 512 (chars "hello") ++ link_header "m" "/etc/motd" in
  match (mount;; ramfs_vnode_read 9 10) (image_state image) with
  | Ret ((n, l), r) => (n, l) = (5, chars "hello") /\ (v_uid <$> vnodes (rf_vfs r) !! 3) = Some 15 /\ (v_gid <$> vnodes (rf_vfs r) !! 3) = Some 100 /\
      (v_mode <$> vnodes (rf_vfs r) !! 3) = Some 420 /\ (v_target <$> vnodes (rf_vfs r) !! 4) = Some 3
  | _ => False
  end.
Proof. vm_compute. repeat split. Qed.

(** One file in the root directory, before the second pass. *)
Definition motd_root : vnode := mk_vnode VN_DIR "" VN_MEMORY 3 0 0 0 0 0 0 0 365 4 0 0 RAMFS_OP.
Definition motd_node : vnode := mk_vnode VN_REG "motd" VN_MEMORY 0 0 1 0 0 0 0 0 0 0 7 0 RAMFS_OP.
Definition motd_page : list Z := padded 4096 (file_header "motd" "00000000005" ++ padded 512 (chars "hello")).
Definition motd_state (mem : gmap Z (list Z)) : ramfs (list Z) :=
  mk_ramfs (mk_vfs {[1 := motd_root; 3 := motd_node]} 0 ∅ ∅ [] [] ∅) {[7 := priv_zero]} [0x5000] mem.
#[local] Opaque all_pages.
Definition motd_mem : gmap Z (list Z) := <[image_base := motd_page]> all_pages.

Lemma motd_there : motd_mem !! image_base = Some motd_page.
Proof. unfold motd_mem. exact (lookup_insert_eq all_pages image_base motd_page). Qed.

Lemma motd_pages t : kpage t -> exists pg, motd_mem !! t = Some pg /\ length pg = 4096%nat.
Proof.
  intros Ht. destruct (decide (t = image_base)) as [->|Hne]; [rewrite motd_there; exists motd_page; split; [reflexivity|vm_compute; reflexivity]|].
  unfold motd_mem. rewrite lookup_insert_ne by congruence. by apply all_pages_there.
Qed.
#[local] Opaque motd_mem.

Lemma motd_indexed : indexed 3 7 (motd_state motd_mem) [] [] 0 {[0x100000]} 1.
Proof.
  split.
  - exists motd_node. split; reflexivity.
  - reflexivity.
  - discriminate.
  - reflexivity.
  - intros j t i e Ht. discriminate Ht.
  - intros i b own Hi. discriminate Hi.
  - intros i j b o o' Hi. discriminate Hi.
  - apply NoDup_nil_2.
  - intros t Ht. by apply not_elem_of_nil in Ht.
  - exact motd_pages.
  - split; [apply NoDup_singleton|]. split; [reflexivity|]. split.
    + intros x Hx%list_elem_of_singleton. subst x. split; [done|]. split; [done|]. vm_compute. intros Hx. discriminate Hx.
    + intros x Hx. assert (x = 0x100000) as -> by set_solver. done.
Qed.

Lemma motd_path mem : @tar_mapper_create_path _ next_slab 1 (file_header "motd" "00000000005") VN_REG false (motd_state mem) = Ret (Found 3, motd_state mem).
Proof. vm_compute. reflexivity. Qed.

Lemma motd_bytes i : 0 <= i < 5 -> mbyte motd_mem (image_base + 0 + 512 + i) = chars "hello" !! Z.to_nat i.
Proof.
  intros Hi. unfold mbyte. assert (i = 0 \/ i = 1 \/ i = 2 \/ i = 3 \/ i = 4) as Hc by lia.
  assert (vpage (image_base + 0 + 512 + i) = image_base) as -> by (destruct Hc as [->|[->|[->|[->| ->]]]]; vm_compute; reflexivity).
  rewrite motd_there. destruct Hc as [->|[->|[->|[->| ->]]]]; vm_compute; reflexivity.
Qed.

Lemma tar_file_contents_witness : exists r', @tar_entry _ frame_list next_slab 1 image_base 0 (motd_state motd_mem) = Ret (inr 1024, r') /\
  contents 3 7 r' (chars "hello") {[0x100000]} 1 0.
Proof.
  destruct (@tar_file_contents _ frame_list next_slab 1 image_base 0 (file_header "motd" "00000000005") 3 7 motd_node (motd_state motd_mem) {[0x100000]} 1 15 100 420 (chars "hello"))
    as (r' & E & _ & Hc & _).
  - unfold mem_get, page_at. rewrite (bind_Ret _ _ (motd_state motd_mem) motd_page (motd_state motd_mem)); [reflexivity|].
    apply load_Some. exact motd_there.
  - reflexivity.
  - apply motd_path.
  - reflexivity.
  - exact motd_indexed.
  - discriminate.
  - reflexivity.
  - reflexivity.
  - reflexivity.
  - reflexivity.
  - vm_compute. discriminate.
  - vm_compute. discriminate.
  - lia.
  - intros j Hj. change (j < 1)%nat in Hj. assert (j = 0%nat) as -> by lia. split; [split; [reflexivity|]|].
    + exists 0x100000. split; [reflexivity|]. split; [lia|reflexivity].
    + apply elem_of_singleton. reflexivity.
  - exact motd_bytes.
  - exists r'. split; [exact E|exact Hc].
Defined.

(** ** Flaws *)

(** A directory that has no entry before its first file is made as a file. *)
Theorem tar_parent_takes_type : v_type <$> node_of 2 (mount (image_state (file_header "a/b" "00000000000"))) = Some VN_REG.
Proof. vm_compute. reflexivity. Qed.

(** The target of a relative link is looked for below the link itself. *)
Theorem tar_relative_link_panics : mount (image_state (file_header "f" "00000000000" ++ link_header "l" "f")) = Panic.
Proof. vm_compute. reflexivity. Qed.

(** Two blocks of zeros end the image even with entries between them. *)
Theorem tar_single_zeros_end :
  v_name <$> node_of 3 (mount (image_state (dir_header "x" ++ replicate 512 0 ++ dir_header "y" ++ replicate 512 0 ++ dir_header "z"))) = Some "y" /\
  node_of 4 (mount (image_state (dir_header "x" ++ replicate 512 0 ++ dir_header "y" ++ replicate 512 0 ++ dir_header "z"))) = None.
Proof. split; vm_compute; reflexivity. Qed.

(** Numbers padded with blanks, as some writers have them, are misread. *)
Theorem tar_octal_blanks : tar_octal (chars " 00644 " ++ [0]) 8 = Some (-16).
Proof. vm_compute. reflexivity. Qed.

(** A name of 64 characters is copied past the end of a buffer. *)
Theorem tar_long_name_faults : mount (image_state (file_header "0123456789012345678901234567890123456789012345678901234567890123" "00000000000")) = Fault.
Proof. vm_compute. reflexivity. Qed.

(** A size can be such that the first pass does not move on: with this one it looks at
    the same header for ever. *)
Theorem tar_size_loops fuel :
  @tar_first_pass _ next_slab fuel 1 image_base 0 false (motd_state {[image_base := padded 4096 (file_header "motd" "/000")]}) = Diverged.
Proof.
  set (s := motd_state _). induction fuel as [|fuel IH]; [reflexivity|]. cbn [tar_first_pass].
  rewrite (bind_Ret _ _ s [109] s) by (vm_compute; reflexivity). change (bool_decide ([109] = [0])) with false. cbn iota.
  rewrite (bind_Ret _ _ s (file_header "motd" "/000") s) by (vm_compute; reflexivity).
  rewrite (bind_Ret _ _ s VN_REG s) by (vm_compute; reflexivity).
  rewrite (bind_Ret _ _ s (Found 3) s) by (vm_compute; reflexivity).
  rewrite (bind_Ret _ _ s (-512) s) by (vm_compute; reflexivity). exact IH.
Qed.
